(* ===== verification/_CoqProject ===== *)
-Q . S2P
Prelude.v
CycleTimer.v
RingBuffer.v
RingThreads.v
ByteSwap.v
Ieee754.v
TimestampedBuffer.v
FrameBuffer.v
CmdSerialize.v
Fcp.v
BusService.v
AvcCommands.v
AvcExchange.v
PlugAddress.v
StreamFormat.v
ExtendedPlugInfo.v
FunctionBlock.v
Descriptors.v
MusicDescriptor.v
AudioDescriptor.v
Plugs.v
XmlCache.v
XmlFile.v
CacheTree.v
PlugCache.v
PlugDiscovery.v
AvcUnit.v
UnitCache.v
EfcCommands.v
EfcExchange.v
Fireworks.v
FireworksFlash.v
FireworksSession.v
FireworksControl.v
Ports.v
StreamProcessor.v
StreamStates.v
StreamSetup.v
StreamManager.v
StreamExample.v
StreamPeriods.v
StreamRegistry.v
IsoHandlers.v
IsoManager.v
IsoSteps.v
IsoExample.v
IsoRegistry.v
IsoPackets.v
IsoTasks.v
Amdtp.v
AmdtpReceive.v
AmdtpTransmit.v
AmdtpAudio.v
AmdtpStream.v
PackedEvents.v
Motu.v
MotuStream.v
Rme.v
