(* ===== verification/Prelude.v ===== *)
(** * FFADO: a verification development

    libffado (src/src) drives FireWire audio interfaces.  A client (JACK) talks to the streaming
    engine, which turns periods of audio frames into isochronous packets and back and has to
    keep time with the 24.576 MHz clock of the bus; devices are discovered and configured by
    AV/C commands, which travel as FCP frames in asynchronous transactions.  This development
    models the streaming engine from the ring buffer over the stream processors with their AMDTP packet format up to the manager
    that JACK talks to, the isochronous handlers that connect the processors with the bus, and the command
    path from the byte order of a quadlet over the AV/C commands up to the discovery of a unit and the cache that keeps it.

    ** Conventions

    Machine integers are [Z] with the conversions of C++ written out ([u8] ... [i64] below); signed
    overflow, undefined in C++, has its two's complement meaning.  [double] and [float] are IEEE
    754 binary formats with the Standard Library's [SpecFloat] operations (Ieee754).  Memory is a list
    of bytes.  Host byte order is an argument.  A method is a function from the object to
    the result and the new object; failing calls return [bool] as in the source;
    [assert] and null dereferences make the model undefined ([None] of the [run] monad below),
    and theorems that a call succeeds show that this does not happen.  Virtual methods and the code around
    a component are type classes with the laws that the clients rely on, and each has
    an instance in a witness.  Code outside src/ (libraw1394, the heap) is an argument.
    Debug output is left out; locks are modelled only where they are part of a contract (the handle lock of the
    FCP transactions).

    ** Files, sources and theorems

    - Prelude: machine integers, slices of lists, the state and the run monads, tactics.

    - CycleTimer (libieee1394/cycletimer.h): register, ticks and SYT conversions, arithmetic
      modulo 128 seconds and 8000 cycles.  The conversions are inverse, the arithmetic is that of the
      circles, and a presentation time survives its 16-bit SYT ([sytRecvToFullTicks2_recovers],
      [sytRecvToFullTicks_agrees]).  [addCycles] and [sytXmitToFullTicks] are wrong in a corner.

    - RingBuffer (libutil/ringbuffer.c): all operations, one after the other.  They refine a bounded FIFO
      queue ([ringbuffer_refines_queue]) and keep the history of accepted bytes.
      RingThreads: the copying reader and writer cut into their memory accesses and interleaved in any order; the
      queue is first in, first out in every schedule ([spsc_fifo]), and calls are wait-free ([calls_wait_free]).

    - ByteSwap (libutil/ByteSwap.h): scalar and SSE2 conversions, shown equal for any alignment.

    - Ieee754: rounding of integers to [double] and [float] and back, order of [double].

    - TimestampedBuffer (libutil/TimestampedBuffer.cpp): definitions of the time-aware frame buffer over RingBuffer,
      with its delay locked loop, and the block loops that split a period at the wrap of the ring.
      FrameBuffer: its theorems: block processing moves a whole period in order and counts it,
      the frame counter is the number of frames in the ring after any history, what is left after an
      overrun, [prepare] establishes the invariant, the error of the loop at the wrap.

    - CmdSerialize (libutil/cmd_serialize): the serialiser interfaces as classes with their laws, the
      memory buffer instances, round trips and bounds of all accesses.

    - Fcp (libieee1394/ieee1394service.cpp): FCP transactions with retries, time-out, INTERIM
      responses and the handle lock, over a bus that delivers arbitrary frames.  A result is a matching
      response ([fcp_response_matches]), and an answer in time is found ([fcp_answer_found]).

    - BusService (libieee1394/ieee1394service.cpp beyond FCP): isochronous channels and bandwidth, asynchronous accesses, split
      timeout, address ranges, bus resets, over libraw1394 and libiec61883 as a class; the laws of a resource
      manager are another.  Every history of allocations and releases is that of a set of channels and
      leaks nothing ([channel_accounting]); what the split timeout registers keep.

    - AvcCommands (libavc/general/avc_generic, avc_plug_info, avc_signal_format, avc_unit_info, avc_subunit_info,
      avc_connect, avc_vendor_dependent_cmd, libavc/ccm/avc_signal_source): serialisation of the commands over any
      serialiser.  AvcExchange: round trips of each frame over a buffer, and [fire], which
      serialises a command, runs the FCP transaction and reads the response ([fire_exchange]).

    - PlugAddress (libavc/general/avc_extended_cmd_generic) and StreamFormat
      (libavc/streamformat/avc_extended_stream_format): plug addresses, stream formats, their round trips and the
      effect of firing a command object again.

    - ExtendedPlugInfo (libavc/general/avc_extended_plug_info), FunctionBlock (libavc/audiosubunit/avc_function_block,
      libavc/general/avc_extended_subunit_info): plug information, mixers and other function blocks; what a device answers ends up in the
      command ([extended_plug_info_roundtrip], [function_block_exchange]).

    - Descriptors (libavc/descriptors): commands that open and read a descriptor, and the loop that loads it in pieces.  MusicDescriptor
      (info blocks, libavc/musicsubunit/avc_descriptor_music): the parser of nested info blocks, shown to read every descriptor of a grammar,
      and to get it from any device that keeps one ([music_descriptor_load]).  AudioDescriptor
      (libavc/audiosubunit/avc_descriptor_audio): the identifier descriptor, whose parser does not end if there are root object lists.

    - Plugs (libavc/general/avc_plug): plug objects on a heap, connections and the plug manager.  PlugDiscovery (avc_plug, libavc/avc_definitions.cpp): what a plug
      learns from commands: names, formats, signal sources, sample rates ([supported_formats_found]).  AvcUnit (avc_unit, avc_subunit,
      libavc/musicsubunit/avc_musicsubunit.cpp): discovery of a unit with its subunits, plugs, connections and sync modes; discovering the connections
      again is memory safe and ends with a symmetric graph ([rediscovered_graph]).

    - XmlCache (libutil/serialize_expat, serialize_expat_xml): the cache of discovered devices, a tree of named nodes; its interface is the class [CacheSpec].  XmlFile:
      the file and the handlers that expat calls ([file_roundtrip]).  CacheTree: what a group of vectors of objects adds to a cache, and how it is
      read back.  PlugCache, UnitCache: writing and reading of plugs and units ([plugs_roundtrip], [unit_roundtrip]).

    - EfcCommands (fireworks/efc): the commands of Fireworks devices, which travel in AV/C vendor frames.  EfcExchange: the class
      [EfcCommandSpec] with an instance for each command class; an exchange leaves the answer of
      the device in the command ([efc_exchange]); the length fields ([efc_length_field]).

    - Fireworks (fireworks/fireworks_device.cpp): clocks, sampling rates and the flash memory, over a class for the link.
      FireworksFlash: the laws of a flash memory; an update is read back ([flash_update_reads_back]), failing erasures.
      FireworksSession (fireworks_session_block.cpp): sessions in memory, files and flash, and their checksum ([calculateCRC_is_crc32],
      [session_device_roundtrip]).  FireworksControl (fireworks_control.cpp, fireworks_firmware.cpp): mixer controls and firmware images.

    - Ports (libstreaming/generic/Port, PortManager): ports and unique port names.

    - StreamProcessor (libstreaming/generic/StreamProcessor): the base class of all streams over the classes
      [SPWorld] (the manager and the isochronous handlers) and [SPChild] (the packet format): its state machine,
      packet handlers, frame transfers, scheduling and queries.  StreamStates: the invariant
      of the state machine over all interleavings of the operations ([stream_states]), recovery from xruns, the
      handler that dies.  StreamSetup: prefill of transmit streams, time-outs, packets per period.

    - StreamManager (libstreaming/StreamProcessorManager): the manager of all processors over the classes [SPMEnv] (the code below
      it) and [Scheduler] (what the isochronous threads do while it sleeps): registration, synchronised start, alignment, periods,
      stop and recovery.  StreamExample: a concrete surrounding, in which a stream is started, transferred and stopped by evaluation.
      StreamPeriods: a period that is announced is there ([period_announced]), alignment, stop reaches
      all streams, results and termination.  StreamRegistry: the port lists are current after every history.

    - IsoHandlers (libieee1394/IsoHandlerManager, class [IsoHandler]): the handlers of the isochronous streams over the classes [Raw1394] (libraw1394) and
      [IsoClient] (the stream processors).  IsoManager (classes [IsoTask] and [IsoHandlerManager]): tasks, registration of streams, start and
      stop.  IsoSteps: histories of the threads, and the laws of the code around.  IsoExample: an instance, with a run.
      IsoRegistry: streams and handlers correspond one to one over all histories ([iso_registry]).  IsoPackets: packet
      times and losses ([received_packet_on_time]).  IsoTasks: the arrays of a task are current ([shadow_map_current]),
      failing and lost requests.

    - Amdtp, AmdtpReceive, AmdtpTransmit (libstreaming/amdtp, util/cip): the IEC 61883-6 packet format as instances of [SPChild]: headers,
      audio and MIDI in both directions, in scalar and SSE2 versions.  AmdtpAudio: the SSE2 encoding equals the scalar
      one, samples survive the wire.  AmdtpStream: a packet of a transmit processor is decoded by a receive processor with
      its presentation time ([packet_arrives]), the data block counter is continuous ([dbc_continuity]).

    - PackedEvents: what the formats with packed events share, the stripes of ports in a block and the line that paces MIDI bytes ([midi_paced]).
      Motu (libstreaming/motu): the processors of MOTU devices with their timestamps, device controls, audio and MIDI, as instances of [SPChild].
      MotuStream: the parser of controls stays within its arrays ([controls_in_bounds]), audio survives ([motu_audio_roundtrip]), a packet arrives
      with its time and its frames ([motu_packet_arrives]).  Rme (libstreaming/rme): the processors of RME devices, their audio
      ([rme_audio_roundtrip]) and the packets of the start-up ([rme_empty_packet_content]).

    ** Bounds and fuel

    Loops with a bound in the source recurse on it (retries, port names, periods, milliseconds of a
    time-out).  Loops over blocks of a ring recurse on the number of remaining frames, and
    the theorems show that this is enough.  The power-of-two search of [ffado_ringbuffer_create] has the 32
    rounds of its integer width.  Writing a flash memory has as much fuel as there are quadlets, erasing twelve rounds more,
    reading and waiting the counts of the source.  The FCP wait loop recurses on the bus events, each of which it consumes.
    A descriptor is loaded with a round for each byte, formats and vectors of the cache are read with a round for each element
    and one more; the theorems ask for that much.
    Loops that end only when another thread acts have a bound in a class ([wait_fuel] of the manager, [serve_fuel] and [poll_fuel] of
    the handlers), beyond which the model is undefined; their theorems hold for every bound, and the examples run within theirs.

    ** Not modelled, and the plan

    The stream processor manager and the isochronous handlers are each modelled against an
    interface of the other; the two models are not put into one system.  Device drivers (bebob, dice, motu, rme, digidesign, oxford,
    metrichalo, bounce, genericavc), the control tree, wrappers of the operating system and debug output are
    outside: they are register accesses and glue over the parts above.  So are the configuration ROM, the Digidesign stream processors (a template
    with placeholders), the Oxford variant of the AMDTP receive processor and the libxml++ variant of the cache. *)
From Stdlib Require Export ZArith Lia Bool.
From stdpp Require Export base list numbers.

Open Scope Z_scope.

(** ** Machine integers

    A C++ integer of width [w] is a [Z]; the conversions the language inserts are
    written out.  [wrapU w] is the conversion to an unsigned type of [w] bits and
    [wrapS w] the two's complement conversion to a signed one.  Signed overflow,
    which C++ leaves undefined, is given the wrap-around meaning of the
    two's complement hardware. *)

Definition wrapU (w x : Z) : Z := x mod 2 ^ w.
Definition wrapS (w x : Z) : Z := (x + 2 ^ (w - 1)) mod 2 ^ w - 2 ^ (w - 1).

Declare Scope cint_scope.
Delimit Scope cint_scope with cint.
Abbreviation u8 := (wrapU 8).
Abbreviation u16 := (wrapU 16).
Abbreviation u32 := (wrapU 32).
Abbreviation u64 := (wrapU 64).
Abbreviation i32 := (wrapS 32).
Abbreviation i64 := (wrapS 64).
Notation "x '.&' y" := (Z.land x y) (at level 40, left associativity) : cint_scope.
Notation "x '.|' y" := (Z.lor x y) (at level 50, left associativity) : cint_scope.
Notation "x '<<' y" := (Z.shiftl x y) (at level 45, left associativity) : cint_scope.
Notation "x '>>' y" := (Z.shiftr x y) (at level 45, left associativity) : cint_scope.
Open Scope cint_scope.

(** ** Automation *)

(** [zlia]: [lia] after turning divisions and remainders by constants into equations. *)
Ltac zlia := Z.to_euclidean_division_equations; lia.

(** Turn every boolean comparison of the goal and the context into a case or a fact. *)
Ltac zcases :=
  repeat match goal with
  | H : context [Z.ltb ?a ?b] |- _ => destruct (Z.ltb_spec a b)
  | H : context [Z.leb ?a ?b] |- _ => destruct (Z.leb_spec a b)
  | H : context [Z.eqb ?a ?b] |- _ => destruct (Z.eqb_spec a b)
  | |- context [Z.ltb ?a ?b] => destruct (Z.ltb_spec a b)
  | |- context [Z.leb ?a ?b] => destruct (Z.leb_spec a b)
  | |- context [Z.eqb ?a ?b] => destruct (Z.eqb_spec a b)
  end.

Create HintDb cint.
Create Rewrite HintDb ctr.

(** ** Conversions *)

Lemma wrapU_small w x : 0 <= x < 2 ^ w -> wrapU w x = x.
Proof. intros. unfold wrapU. by apply Z.mod_small. Qed.

Lemma wrapU_range w x : 0 <= w -> 0 <= wrapU w x < 2 ^ w.
Proof. intros. unfold wrapU. apply Z.mod_pos_bound, Z.pow_pos_nonneg; lia. Qed.

Lemma wrapS_small w x : 0 < w -> - 2 ^ (w - 1) <= x < 2 ^ (w - 1) -> wrapS w x = x.
Proof.
  intros Hw Hx. unfold wrapS.
  assert (2 ^ w = 2 * 2 ^ (w - 1)) as E.
  { rewrite <- Z.pow_succ_r by lia. f_equal. lia. }
  rewrite Z.mod_small; lia.
Qed.

Lemma wrapU_idemp w x : wrapU w (wrapU w x) = wrapU w x.
Proof. unfold wrapU. apply Zmod_mod. Qed.

(** A conversion through the unsigned type of the same width does not change the
    signed result of an addition or a subtraction. *)
Lemma wrapS_wrapU_add w a b : wrapS w (wrapU w a + b) = wrapS w (a + b).
Proof.
  unfold wrapS, wrapU. rewrite <- !Z.add_assoc.
  by rewrite Zplus_mod_idemp_l.
Qed.

Lemma wrapS_wrapU_sub w a b : wrapS w (wrapU w a - b) = wrapS w (a - b).
Proof. apply wrapS_wrapU_add. Qed.

Lemma wrapS_add_l w a b : wrapS w (wrapS w a + b) = wrapS w (a + b).
Proof.
  unfold wrapS. replace ((a + 2 ^ (w - 1)) mod 2 ^ w - 2 ^ (w - 1) + b + 2 ^ (w - 1))
    with ((a + 2 ^ (w - 1)) mod 2 ^ w + b) by lia.
  rewrite Zplus_mod_idemp_l. do 2 f_equal. lia.
Qed.

Lemma wrapS_wrapU w a : wrapS w (wrapU w a) = wrapS w a.
Proof. pose proof (wrapS_wrapU_add w a 0) as E. by rewrite !Z.add_0_r in E. Qed.

(** Simplify the conversions whose argument is in range. *)
Ltac cint :=
  repeat match goal with
  | |- context [wrapU ?w ?x] => rewrite (wrapU_small w x) by lia
  | |- context [wrapS ?w ?x] => rewrite (wrapS_small w x) by lia
  end.

(** ** Bit fields *)

Lemma land_ones_mod x n : 0 <= n -> x .& Z.ones n = x mod 2 ^ n.
Proof. apply Z.land_ones. Qed.

(** Reading a field of [n] bits at bit [k] with a mask and a shift. *)
Lemma field_get x k n :
  0 <= k -> 0 <= n -> (x .& (Z.ones n << k)) >> k = (x / 2 ^ k) mod 2 ^ n.
Proof.
  intros. rewrite Z.shiftr_land, Z.shiftr_shiftl_l, Z.sub_diag, Z.shiftl_0_r by lia.
  by rewrite land_ones_mod, Z.shiftr_div_pow2.
Qed.

(** Putting a field above the low [k] bits. *)
Lemma lor_shiftl_add a b k : 0 <= k -> 0 <= b < 2 ^ k -> (a << k) .| b = a * 2 ^ k + b.
Proof.
  intros Hk Hb. rewrite Z.shiftl_mul_pow2 by done.
  assert (a * 2 ^ k .& b = 0) as D.
  { apply Z.bits_inj'. intros i Hi. rewrite Z.land_spec, Z.bits_0.
    destruct (Z.lt_ge_cases i k) as [L|L].
    - by rewrite Z.mul_pow2_bits_low.
    - replace b with (b mod 2 ^ k) by (by apply Z.mod_small).
      by rewrite Z.mod_pow2_bits_high, andb_false_r by lia. }
  pose proof (Z.add_lor_land (a * 2 ^ k) b) as E. rewrite D in E. lia.
Qed.

Lemma land_mask_mod x k : 0 <= k -> x .& (2 ^ k - 1) = x mod 2 ^ k.
Proof. intros. rewrite <- Z.land_ones by done. by rewrite Z.ones_equiv, Z.sub_1_r. Qed.

Lemma wrapU_add_l w a b : wrapU w (wrapU w a + b) = wrapU w (a + b).
Proof. unfold wrapU. apply Zplus_mod_idemp_l. Qed.

(** ** Byte blocks

    [memcpy] into a block at an offset is stdpp's [list_inserts]; reading a contiguous
    piece is [slice]. *)
Definition slice {A} (p n : Z) (l : list A) : list A := take (Z.to_nat n) (drop (Z.to_nat p) l).

Definition zlength {A} (l : list A) : Z := Z.of_nat (length l).

(** The [n] elements that follow position [r] of a block read as a ring. *)
Definition ring_slice {A} (l : list A) (r n : nat) : list A := take n (drop r l ++ l).

Section ring.
Context {A : Type}.
Implicit Types l d : list A.

Lemma ring_slice_lookup l r n i : (r <= length l)%nat -> (i < n)%nat ->
  ring_slice l r n !! i
  = if decide (r + i < length l)%nat then l !! (r + i)%nat else l !! (r + i - length l)%nat.
Proof.
  intros Hr Hi. unfold ring_slice. rewrite lookup_take_lt by done. rewrite lookup_app.
  rewrite lookup_drop, length_drop. case_decide as C.
  - destruct (l !! (r + i)%nat) eqn:E; [done|]. apply lookup_ge_None in E. lia.
  - rewrite (lookup_ge_None_2 l (r + i)) by lia. f_equal. lia.
Qed.

Lemma length_ring_slice l r n : (r <= length l)%nat -> (n <= length l)%nat ->
  length (ring_slice l r n) = n.
Proof. intros. unfold ring_slice. rewrite length_take, length_app, length_drop. lia. Qed.

Lemma ring_slice_contiguous l r n : (r + n <= length l)%nat ->
  ring_slice l r n = take n (drop r l).
Proof.
  intros. unfold ring_slice. rewrite take_app_le; [done|]. rewrite length_drop. lia.
Qed.

(** Two adjacent pieces. *)
Lemma ring_slice_split l r a b r' : (r < length l)%nat -> (a + b <= length l)%nat ->
  r' = (if decide (r + a < length l)%nat then r + a else r + a - length l)%nat ->
  ring_slice l r (a + b) = ring_slice l r a ++ ring_slice l r' b.
Proof.
  intros Hr Hab ->. apply list_eq_same_length with (n := (a + b)%nat).
  - case_decide; rewrite length_app, !length_ring_slice; lia.
  - rewrite length_ring_slice; lia.
  - intros i x y Hi. rewrite ring_slice_lookup by lia. intros Ex.
    destruct (decide (i < a)%nat).
    + rewrite lookup_app_l by (rewrite length_ring_slice; lia).
      rewrite ring_slice_lookup by lia. congruence.
    + rewrite lookup_app_r by (rewrite length_ring_slice; lia).
      rewrite length_ring_slice by lia.
      rewrite ring_slice_lookup by (repeat case_decide; lia). intros Ey.
      assert (Some x = Some y); [|congruence]. rewrite <- Ex, <- Ey.
      repeat case_decide; try lia; f_equal; lia.
Qed.

(** A write that stays clear of a piece of the ring leaves it alone. *)
Lemma ring_slice_inserts_ne l d r n p : (r < length l)%nat -> (n <= length l)%nat ->
  (p + length d <= length l)%nat ->
  (if decide (r + n <= length l)%nat then p + length d <= r \/ r + n <= p
   else r + n - length l <= p /\ p + length d <= r)%nat ->
  ring_slice (list_inserts p d l) r n = ring_slice l r n.
Proof.
  intros Hr Hn Hp Hd. apply list_eq_same_length with (n := n).
  - rewrite length_ring_slice; rewrite ?length_inserts; lia.
  - rewrite length_ring_slice; rewrite ?length_inserts; lia.
  - intros i x y Hi. rewrite !ring_slice_lookup by (rewrite ?length_inserts; lia).
    rewrite length_inserts. repeat case_decide; try lia; destruct_or?;
      first [rewrite list_lookup_inserts_lt by lia | rewrite list_lookup_inserts_ge by lia];
      congruence.
Qed.

Lemma ring_slice_inserts_eq l d p : (p + length d <= length l)%nat ->
  ring_slice (list_inserts p d l) p (length d) = d.
Proof.
  intros Hp. apply list_eq_same_length with (n := length d); [done|..].
  - rewrite length_ring_slice; rewrite ?length_inserts; lia.
  - intros i x y Hi. rewrite ring_slice_lookup by (rewrite ?length_inserts; lia).
    rewrite length_inserts. case_decide; [|lia].
    rewrite list_lookup_inserts by lia. replace (p + i - p)%nat with i by lia. congruence.
Qed.
End ring.

Section slices.
Context {A : Type}.
Implicit Types l : list A.

Lemma zlength_nonneg l : 0 <= zlength l.
Proof. apply Nat2Z.is_nonneg. Qed.

Lemma zlength_app l1 l2 : zlength (l1 ++ l2) = zlength l1 + zlength l2.
Proof. unfold zlength. rewrite length_app. lia. Qed.

Lemma drop_drop_Z l a b : 0 <= a -> 0 <= b ->
  drop (Z.to_nat b) (drop (Z.to_nat a) l) = drop (Z.to_nat (a + b)) l.
Proof. intros. by rewrite drop_drop, Z2Nat.inj_add. Qed.

Lemma zlength_slice l p n : 0 <= p -> 0 <= n -> p + n <= zlength l -> zlength (slice p n l) = n.
Proof. intros. unfold zlength, slice in *. rewrite length_take, length_drop. lia. Qed.

(** A slice and the one that follows it. *)
Lemma take_slice l a b : 0 <= a -> 0 <= b ->
  take (Z.to_nat a) l ++ slice a b l = take (Z.to_nat (a + b)) l.
Proof. intros. unfold slice. by rewrite take_take_drop, Z2Nat.inj_add. Qed.

Lemma slice_0 l n : slice 0 n l = take (Z.to_nat n) l.
Proof. unfold slice. by rewrite drop_0. Qed.

Lemma slice_all l n : n = zlength l -> slice 0 n l = l.
Proof. intros ->. rewrite slice_0. unfold zlength. by rewrite Nat2Z.id, firstn_all. Qed.

Lemma take_min_zlength l n : take (Z.to_nat (Z.min n (zlength l))) l = take (Z.to_nat n) l.
Proof.
  unfold zlength. destruct (Z.le_ge_cases n (Z.of_nat (length l))).
  - by rewrite Z.min_l.
  - rewrite Z.min_r, Nat2Z.id, take_ge, take_ge by lia. done.
Qed.

Lemma drop_min_zlength l n : drop (Z.to_nat (Z.min n (zlength l))) l = drop (Z.to_nat n) l.
Proof.
  unfold zlength. destruct (Z.le_ge_cases n (Z.of_nat (length l))).
  - by rewrite Z.min_l.
  - rewrite Z.min_r, Nat2Z.id, drop_ge, drop_ge by lia. done.
Qed.
End slices.

(** ** State passing

    A method that changes an object is a function from the state to a result and the new
    state; the source's sequences of calls are written with [x ← m; k]. *)
Definition st (S A : Type) : Type := S -> A * S.

#[export] Instance st_ret S : MRet (st S) := fun A a s => (a, s).
#[export] Instance st_bind S : MBind (st S) := fun A B k m s => k (m s).1 (m s).2.

(** [result = m1; result &= m2; ...]: every call is made. *)
Fixpoint all_of {S} (l : list (st S bool)) : st S bool :=
  match l with
  | [] => mret true
  | m :: l => x ← m; y ← all_of l; mret (x && y)
  end.

(** Calls whose results are dropped. *)
Fixpoint each {S A} (l : list (st S A)) : st S bool :=
  match l with
  | [] => mret true
  | m :: l => m ;; each l
  end.

Lemma filter_none {A} (P : A -> Prop) `{!forall x, Decision (P x)} l : (forall x, x ∈ l -> ~ P x) -> filter P l = [].
Proof. intros N. apply elem_of_nil_inv. intros x [Px Hx]%list_elem_of_filter. by apply (N x). Qed.

(** Code that may also stop at a failed [assert]: [None]. *)
Definition run (S A : Type) : Type := S -> option (A * S).

#[export] Instance run_ret S : MRet (run S) := fun A a s => Some (a, s).
#[export] Instance run_bind S : MBind (run S) := fun A B k m s => '(a, s) ← m s; k a s.

Lemma run_bind_Some {S A B} (m : run S A) (k : A -> run S B) s a s1 : m s = Some (a, s1) -> (m ≫= k) s = k a s1.
Proof. unfold mbind, run_bind. by intros ->. Qed.

Lemma run_bind_inv {S A B} (m : run S A) (k : A -> run S B) s b s' : (m ≫= k) s = Some (b, s') ->
  exists a s1, m s = Some (a, s1) /\ k a s1 = Some (b, s').
Proof. unfold mbind, run_bind. destruct (m s) as [[a s1]|]; simpl; [|done]. by exists a, s1. Qed.

(** Execute the first call of a method: by computation, or with an equation for it. *)
Ltac run_step := erewrite run_bind_Some; [|reflexivity].
Tactic Notation "run_step" "with" uconstr(E) := erewrite run_bind_Some; [|first [exact E | apply E]].

Definition gets {S A} (f : S -> A) : run S A := fun s => Some (f s, s).
Definition modify {S} (f : S -> S) : run S unit := fun s => Some (tt, f s).
(** [assert(p)] *)
Definition assert_that {S} (p : S -> bool) : run S unit := fun s => if p s then Some (tt, s) else None.
