(* ===== verification/CycleTimer.v ===== *)
(** * The isochronous cycle timer

    Model of [src/libieee1394/cycletimer.h]: the encoding of the bus clock as a
    32-bit cycle timer register (7 bits of seconds, 13 bits of cycles, 12 bits of
    offset), the arithmetic on timestamps in ticks, which wrap at 128 seconds, and
    the reconstruction of a full timestamp from the 16-bit SYT field of a packet.
    [long] is 64 bits wide, as on the platforms the [UL] constants assume. *)
From S2P Require Import Prelude.

Open Scope Z_scope.

Definition CYCLES_PER_SECOND : Z := 8000.
Definition TICKS_PER_CYCLE : Z := 3072.
Definition TICKS_PER_SECOND : Z := 24576000.

(** ** The register fields *)

Definition CYCLE_TIMER_GET_SECS (x : Z) : Z := (x .& 0xFE000000) >> 25.
Definition CYCLE_TIMER_GET_CYCLES (x : Z) : Z := (x .& 0x01FFF000) >> 12.
Definition CYCLE_TIMER_GET_OFFSET (x : Z) : Z := x .& 0x00000FFF.

Definition CYCLE_TIMER_SET_SECS (v x : Z) : Z :=
  (v .& u64 (Z.lnot 0xFE000000)) .| u64 ((x .& 0x7F) << 25).
Definition CYCLE_TIMER_SET_CYCLES (v x : Z) : Z :=
  (v .& u64 (Z.lnot 0x01FFF000)) .| ((x .& 0x1FFF) << 12).
Definition CYCLE_TIMER_SET_OFFSET (v x : Z) : Z :=
  (v .& u64 (Z.lnot 0x00000FFF)) .| (x .& 0xFFF).

Definition CYCLE_TIMER_TO_TICKS (x : Z) : Z :=
  u64 (u64 (u64 (CYCLE_TIMER_GET_SECS x * TICKS_PER_SECOND)
            + u64 (CYCLE_TIMER_GET_CYCLES x * TICKS_PER_CYCLE))
       + CYCLE_TIMER_GET_OFFSET x).

Definition TICKS_TO_SECS (x : Z) : Z := x / TICKS_PER_SECOND.
Definition TICKS_TO_CYCLES (x : Z) : Z := (x / TICKS_PER_CYCLE) mod CYCLES_PER_SECOND.
Definition TICKS_TO_OFFSET (x : Z) : Z := x mod TICKS_PER_CYCLE.

Definition TICKS_TO_CYCLE_TIMER (x : Z) : Z :=
  ((TICKS_TO_SECS x .& 0x7F) << 25)
  .| ((TICKS_TO_CYCLES x .& 0x1FFF) << 12)
  .| (TICKS_TO_OFFSET x .& 0xFFF).

Definition TICKS_TO_SYT (x : Z) : Z :=
  ((TICKS_TO_CYCLES x .& 0xF) << 12) .| (TICKS_TO_OFFSET x .& 0xFFF).

(** ** Arithmetic on ticks and cycles *)

Definition wrapAtMaxTicks (x : Z) : Z :=
  if u64 (TICKS_PER_SECOND * 128) <=? x then u64 (x - TICKS_PER_SECOND * 128) else x.

Definition wrapAtMinTicks (x : Z) : Z :=
  if x <? 0 then i64 (u64 x + TICKS_PER_SECOND * 128) else x.

Definition wrapAtMinMaxTicks (x : Z) : Z :=
  if x <? 0 then i64 (u64 x + TICKS_PER_SECOND * 128)
  else if i64 (TICKS_PER_SECOND * 128) <=? x then i64 (u64 x - TICKS_PER_SECOND * 128)
  else x.

Definition addCycles (x y : Z) : Z :=
  let sum := u32 (x + y) in
  if CYCLES_PER_SECOND <? sum then u32 (sum - CYCLES_PER_SECOND) else sum.

Definition diffCycles (x y : Z) : Z :=
  let diff := i32 (i32 x - i32 y) in
  let max := i32 (CYCLES_PER_SECOND / 2) in
  if max <? diff then i32 (u32 diff - CYCLES_PER_SECOND)
  else if diff <? - max then i32 (u32 diff + CYCLES_PER_SECOND)
  else diff.

Definition diffTicks (x y : Z) : Z :=
  let diff := i64 (x - y) in
  let wrapvalue := i64 TICKS_PER_SECOND * 128 in
  let max := Z.quot wrapvalue 2 in
  if max <? diff then i64 (diff - wrapvalue)
  else if diff <? - max then i64 (diff + wrapvalue)
  else diff.

Definition addTicks (x y : Z) : Z := wrapAtMaxTicks (u64 (x + y)).

Definition substractTicks (x y : Z) : Z := u64 (wrapAtMinTicks (i64 (u64 (x - y)))).

(** ** Reconstruction of a timestamp from the SYT field *)

(** The receive side; [rcv_cycle] is the cycle of reception and [ctr_now] a later
    value of the cycle timer register. *)
Definition sytRecvToFullTicks (syt_timestamp rcv_cycle ctr_now : Z) : Z :=
  let cc_cycles := CYCLE_TIMER_GET_CYCLES ctr_now in
  let cc_seconds := CYCLE_TIMER_GET_SECS ctr_now in
  let diff_cycles := diffCycles (u32 cc_cycles) rcv_cycle in
  let cc_seconds :=
    if (cc_cycles <? rcv_cycle) && (0 <=? diff_cycles)
    then (if cc_seconds =? 0 then 127 else u64 (cc_seconds - 1))
    else cc_seconds in
  let rcv_cycle_masked := rcv_cycle .& 0xF in
  let syt_cycle := CYCLE_TIMER_GET_CYCLES syt_timestamp in
  let syt_cycle := if syt_cycle <? rcv_cycle_masked then u64 (syt_cycle + 0x10) else syt_cycle in
  let delta_cycles := u64 (syt_cycle - rcv_cycle_masked) in
  let new_cycles := u64 (rcv_cycle + delta_cycles) in
  let timestamp :=
    if new_cycles <? 8000 then u64 (new_cycles * TICKS_PER_CYCLE)
    else u64 (u64 (u64 (new_cycles - 8000) * TICKS_PER_CYCLE) + TICKS_PER_SECOND) in
  let timestamp := u64 (timestamp + CYCLE_TIMER_GET_OFFSET syt_timestamp) in
  addTicks timestamp (u64 (cc_seconds * TICKS_PER_SECOND)).

(** The receive side as the AMDTP receiver uses it: [rcv_ctr] is the cycle timer
    register at reception.  The cycle computations are in [unsigned int]. *)
Definition sytRecvToFullTicks2 (syt_timestamp rcv_ctr : Z) : Z :=
  let rcv_cycle := u32 (CYCLE_TIMER_GET_CYCLES rcv_ctr) in
  let rcv_cycle_masked := rcv_cycle .& 0xF in
  let syt_cycle := u32 (CYCLE_TIMER_GET_CYCLES syt_timestamp) in
  let syt_cycle := if syt_cycle <? rcv_cycle_masked then u32 (syt_cycle + 0x10) else syt_cycle in
  let delta_cycles := u32 (syt_cycle - rcv_cycle_masked) in
  let rcv_cycle := u32 (rcv_cycle + delta_cycles) in
  let timestamp :=
    if rcv_cycle <? 8000 then u32 (rcv_cycle * TICKS_PER_CYCLE)
    else u64 (u32 (u32 (rcv_cycle - 8000) * TICKS_PER_CYCLE) + TICKS_PER_SECOND) in
  let timestamp := u64 (timestamp + CYCLE_TIMER_GET_OFFSET syt_timestamp) in
  addTicks timestamp (u64 (CYCLE_TIMER_GET_SECS rcv_ctr * TICKS_PER_SECOND)).

(** The transmit side; [xmt_cycle] is the cycle of transmission. *)
Definition sytXmitToFullTicks (syt_timestamp xmt_cycle ctr_now : Z) : Z :=
  let cc_cycles := CYCLE_TIMER_GET_CYCLES ctr_now in
  let cc_seconds := CYCLE_TIMER_GET_SECS ctr_now in
  let diff_cycles := diffCycles xmt_cycle (u32 cc_cycles) in
  let cc_seconds :=
    if (xmt_cycle <? cc_cycles) && (0 <=? diff_cycles)
    then (if cc_seconds =? 0 then 127 else u64 (cc_seconds - 1))
    else cc_seconds in
  let xmt_cycle_masked := xmt_cycle .& 0xF in
  let syt_cycle := CYCLE_TIMER_GET_CYCLES syt_timestamp in
  let syt_cycle := if syt_cycle <? xmt_cycle_masked then u64 (syt_cycle + 0x10) else syt_cycle in
  let delta_cycles := u64 (syt_cycle - xmt_cycle_masked) in
  let new_cycles := u64 (xmt_cycle + delta_cycles) in
  let timestamp :=
    if new_cycles <? 8000 then u64 (new_cycles * TICKS_PER_CYCLE)
    else u64 (u64 (u64 (new_cycles - 8000) * TICKS_PER_CYCLE) + TICKS_PER_SECOND) in
  let timestamp := u64 (timestamp + CYCLE_TIMER_GET_OFFSET syt_timestamp) in
  addTicks timestamp (u64 (cc_seconds * TICKS_PER_SECOND)).

(** ** Specification vocabulary *)

(** The bus clock counts modulo 128 seconds. *)
Definition MAX_TICKS : Z := 128 * TICKS_PER_SECOND.

Definition valid_ticks (t : Z) : Prop := 0 <= t < MAX_TICKS.
Definition valid_cycle (c : Z) : Prop := 0 <= c < CYCLES_PER_SECOND.

(** A register value the hardware produces. *)
Definition valid_ctr (c : Z) : Prop :=
  0 <= c < 2 ^ 32 /\ (c / 2 ^ 12) mod 2 ^ 13 < CYCLES_PER_SECOND
  /\ c mod 2 ^ 12 < TICKS_PER_CYCLE.

(** The start, in ticks, of the cycle a register value lies in. *)
Definition cycle_start (ctr : Z) : Z :=
  CYCLE_TIMER_GET_SECS ctr * TICKS_PER_SECOND + CYCLE_TIMER_GET_CYCLES ctr * TICKS_PER_CYCLE.

(** ** Equations of the fields *)

Lemma GET_SECS_eq x : CYCLE_TIMER_GET_SECS x = (x / 2 ^ 25) mod 2 ^ 7.
Proof. apply (field_get x 25 7); lia. Qed.

Lemma GET_CYCLES_eq x : CYCLE_TIMER_GET_CYCLES x = (x / 2 ^ 12) mod 2 ^ 13.
Proof. apply (field_get x 12 13); lia. Qed.

Lemma GET_OFFSET_eq x : CYCLE_TIMER_GET_OFFSET x = x mod 2 ^ 12.
Proof. apply (land_ones_mod x 12); lia. Qed.

Lemma mask7_eq x : x .& 0x7F = x mod 2 ^ 7.
Proof. apply (land_ones_mod x 7); lia. Qed.

Lemma mask13_eq x : x .& 0x1FFF = x mod 2 ^ 13.
Proof. apply (land_ones_mod x 13); lia. Qed.

Lemma mask12_eq x : x .& 0xFFF = x mod 2 ^ 12.
Proof. apply (land_ones_mod x 12); lia. Qed.

Lemma mask4_eq x : x .& 0xF = x mod 2 ^ 4.
Proof. apply (land_ones_mod x 4); lia. Qed.

#[export] Hint Rewrite GET_SECS_eq GET_CYCLES_eq GET_OFFSET_eq mask7_eq mask13_eq
  mask12_eq mask4_eq : ctr.

Ltac ctr := autorewrite with ctr;
  unfold MAX_TICKS, TICKS_TO_SECS, TICKS_TO_CYCLES, TICKS_TO_OFFSET, TICKS_PER_SECOND,
    TICKS_PER_CYCLE, CYCLES_PER_SECOND in *.

Lemma TO_CYCLE_TIMER_eq t : valid_ticks t ->
  TICKS_TO_CYCLE_TIMER t
  = TICKS_TO_SECS t * 2 ^ 25 + TICKS_TO_CYCLES t * 2 ^ 12 + TICKS_TO_OFFSET t.
Proof.
  unfold valid_ticks, TICKS_TO_CYCLE_TIMER. intros Ht.
  rewrite <- Z.lor_assoc. ctr.
  rewrite (lor_shiftl_add _ _ 12), (lor_shiftl_add _ _ 25) by zlia. zlia.
Qed.

Lemma TO_SYT_eq t :
  TICKS_TO_SYT t = (TICKS_TO_CYCLES t mod 16) * 2 ^ 12 + TICKS_TO_OFFSET t.
Proof.
  unfold TICKS_TO_SYT. ctr. rewrite (lor_shiftl_add _ _ 12) by zlia. zlia.
Qed.

Lemma TO_TICKS_eq c : 0 <= c < 2 ^ 32 ->
  CYCLE_TIMER_TO_TICKS c
  = (c / 2 ^ 25) * TICKS_PER_SECOND + ((c / 2 ^ 12) mod 2 ^ 13) * TICKS_PER_CYCLE + c mod 2 ^ 12.
Proof.
  unfold CYCLE_TIMER_TO_TICKS. intros Hc. ctr.
  replace ((c / 2 ^ 25) mod 2 ^ 7) with (c / 2 ^ 25) by zlia.
  assert (0 <= c / 2 ^ 25 < 128 /\ 0 <= (c / 2 ^ 12) mod 2 ^ 13 < 8192 /\ 0 <= c mod 2 ^ 12 < 4096)
    by zlia.
  cint. lia.
Qed.

(** Decomposition of a tick count into seconds, cycles and offset. *)
Lemma ticks_decompose t :
  t = TICKS_TO_SECS t * TICKS_PER_SECOND + TICKS_TO_CYCLES t * TICKS_PER_CYCLE + TICKS_TO_OFFSET t.
Proof. ctr. zlia. Qed.

Lemma ticks_parts t : valid_ticks t ->
  0 <= TICKS_TO_SECS t < 128 /\ 0 <= TICKS_TO_CYCLES t < 8000 /\ 0 <= TICKS_TO_OFFSET t < 3072.
Proof. unfold valid_ticks. ctr. zlia. Qed.

(** The decomposition is unique. *)
Lemma ticks_compose s c o : 0 <= s < 128 -> 0 <= c < 8000 -> 0 <= o < 3072 ->
  let t := s * TICKS_PER_SECOND + c * TICKS_PER_CYCLE + o in
  TICKS_TO_SECS t = s /\ TICKS_TO_CYCLES t = c /\ TICKS_TO_OFFSET t = o /\ valid_ticks t.
Proof. unfold valid_ticks. ctr. zlia. Qed.

Lemma ctr_parts t : valid_ticks t ->
  let c := TICKS_TO_CYCLE_TIMER t in
  0 <= c < 2 ^ 32 /\ CYCLE_TIMER_GET_SECS c = TICKS_TO_SECS t
  /\ CYCLE_TIMER_GET_CYCLES c = TICKS_TO_CYCLES t /\ CYCLE_TIMER_GET_OFFSET c = TICKS_TO_OFFSET t.
Proof.
  intros Ht. pose proof (ticks_parts t Ht). cbv zeta. rewrite TO_CYCLE_TIMER_eq by done.
  autorewrite with ctr. zlia.
Qed.

(** ** Arithmetic lemmas *)

Lemma addTicks_mod x y : valid_ticks x -> valid_ticks y -> addTicks x y = (x + y) mod MAX_TICKS.
Proof.
  unfold valid_ticks, addTicks, wrapAtMaxTicks. ctr. intros Hx Hy. cint. zcases; cint; zlia.
Qed.

Lemma substractTicks_mod x y :
  valid_ticks x -> valid_ticks y -> substractTicks x y = (x - y) mod MAX_TICKS.
Proof.
  unfold valid_ticks, substractTicks, wrapAtMinTicks. ctr. intros Hx Hy.
  rewrite wrapS_wrapU, (wrapS_small 64 (x - y)), wrapS_wrapU_add by lia.
  zcases; cint; zlia.
Qed.

Lemma mod_valid x : valid_ticks (x mod MAX_TICKS).
Proof. unfold valid_ticks. ctr. zlia. Qed.

#[export] Hint Resolve mod_valid : cint.

Lemma diffTicks_cases x y : valid_ticks x -> valid_ticks y ->
  diffTicks x y =
  if MAX_TICKS / 2 <? x - y then x - y - MAX_TICKS
  else if x - y <? - (MAX_TICKS / 2) then x - y + MAX_TICKS else x - y.
Proof.
  unfold valid_ticks, diffTicks. ctr. intros. cint.
  change (24576000 * 128 ÷ 2) with 1572864000. change (128 * 24576000 / 2) with 1572864000.
  zcases; cint; lia.
Qed.

Lemma diffCycles_cases x y : valid_cycle x -> valid_cycle y ->
  diffCycles x y =
  if 4000 <? x - y then x - y - 8000 else if x - y <? - 4000 then x - y + 8000 else x - y.
Proof.
  unfold valid_cycle, diffCycles. ctr. intros.
  change (i32 (8000 / 2)) with 4000. rewrite (wrapS_small 32 x), (wrapS_small 32 y), (wrapS_small 32 (x - y)) by lia.
  rewrite wrapS_wrapU_sub, wrapS_wrapU_add. zcases; cint; lia.
Qed.

(** ** Reconstruction lemmas

    [T] lies in the sixteen cycles that start with the cycle of [ctr]. *)
Definition syt_window (T ctr : Z) : Prop :=
  valid_ticks T /\ (T - cycle_start ctr) mod MAX_TICKS < 16 * TICKS_PER_CYCLE.

Lemma ctr_fields c : valid_ctr c ->
  0 <= CYCLE_TIMER_GET_SECS c < 128 /\ 0 <= CYCLE_TIMER_GET_CYCLES c < 8000
  /\ 0 <= CYCLE_TIMER_GET_OFFSET c < 3072.
Proof. unfold valid_ctr. ctr. intros. zlia. Qed.

(** Inside the window the timestamp is [j] cycles and [o] ticks after the cycle start. *)
Lemma syt_window_split T ctr : valid_ctr ctr -> syt_window T ctr ->
  exists j o, 0 <= j < 16 /\ 0 <= o < 3072
  /\ T = (cycle_start ctr + j * TICKS_PER_CYCLE + o) mod MAX_TICKS
  /\ TICKS_TO_CYCLES T = (CYCLE_TIMER_GET_CYCLES ctr + j) mod 8000 /\ TICKS_TO_OFFSET T = o.
Proof.
  intros Hc [HT Hw]. pose proof (ctr_fields ctr Hc) as F. unfold cycle_start, valid_ticks in *.
  set (s := CYCLE_TIMER_GET_SECS ctr) in *. set (c := CYCLE_TIMER_GET_CYCLES ctr) in *.
  clearbody s c. unfold MAX_TICKS, TICKS_TO_CYCLES, TICKS_TO_OFFSET, TICKS_PER_SECOND,
    TICKS_PER_CYCLE, CYCLES_PER_SECOND in *. clear Hc.
  exists ((T - (s * 24576000 + c * 3072)) mod (128 * 24576000) / 3072),
    ((T - (s * 24576000 + c * 3072)) mod (128 * 24576000) mod 3072).
  zlia.
Qed.

(** The SYT field of a timestamp, read back. *)
Lemma SYT_fields T :
  CYCLE_TIMER_GET_CYCLES (TICKS_TO_SYT T) = TICKS_TO_CYCLES T mod 16
  /\ CYCLE_TIMER_GET_OFFSET (TICKS_TO_SYT T) = TICKS_TO_OFFSET T.
Proof.
  rewrite TO_SYT_eq. autorewrite with ctr.
  assert (0 <= TICKS_TO_CYCLES T mod 16 < 16) by (apply Z.mod_pos_bound; lia).
  assert (0 <= TICKS_TO_OFFSET T < 3072) by (apply Z.mod_pos_bound; lia).
  generalize dependent (TICKS_TO_CYCLES T mod 16). generalize dependent (TICKS_TO_OFFSET T).
  intros. zlia.
Qed.

(** Four bits of the cycle number are enough to find the distance. *)
Lemma syt_delta c j : 0 <= c < 8000 -> 0 <= j < 16 ->
  let sc := (c + j) mod 8000 mod 16 in
  (if sc <? c mod 16 then sc + 16 else sc) - c mod 16 = j.
Proof.
  cbv zeta. intros. rewrite Z.mod_mod_divide by (exists 500; lia). zcases; zlia.
Qed.

(** The common tail of the three reconstructions: cycle [c + j] of second [s]. *)
Lemma syt_tail s c j o : 0 <= s < 128 -> 0 <= c < 8000 -> 0 <= j < 16 -> 0 <= o < 3072 ->
  addTicks (u64 ((if c + j <? 8000 then u64 ((c + j) * TICKS_PER_CYCLE)
                  else u64 (u64 (u64 (c + j - 8000) * TICKS_PER_CYCLE) + TICKS_PER_SECOND)) + o))
    (u64 (s * TICKS_PER_SECOND))
  = (s * TICKS_PER_SECOND + (c + j) * TICKS_PER_CYCLE + o) mod MAX_TICKS.
Proof.
  intros. destruct (Z.ltb_spec (c + j) 8000); unfold TICKS_PER_SECOND, TICKS_PER_CYCLE; cint;
    rewrite addTicks_mod; unfold valid_ticks; ctr; try zlia; f_equal; lia.
Qed.

(** The part of the 64-bit reconstructions that follows the choice of the seconds. *)
Lemma syt_body sec c j o :
  0 <= sec < 128 -> 0 <= c < 8000 -> 0 <= j < 16 -> 0 <= o < 3072 ->
  (let syt_cycle := ((c + j) mod 8000) mod 16 in
   let syt_cycle := if syt_cycle <? c .& 0xF then u64 (syt_cycle + 0x10) else syt_cycle in
   let new_cycles := u64 (c + u64 (syt_cycle - (c .& 0xF))) in
   let timestamp :=
     if new_cycles <? 8000 then u64 (new_cycles * TICKS_PER_CYCLE)
     else u64 (u64 (u64 (new_cycles - 8000) * TICKS_PER_CYCLE) + TICKS_PER_SECOND) in
   addTicks (u64 (timestamp + o)) (u64 (sec * TICKS_PER_SECOND)))
  = (sec * TICKS_PER_SECOND + (c + j) * TICKS_PER_CYCLE + o) mod MAX_TICKS.
Proof.
  intros Hs Hc Hj Ho. cbv zeta. rewrite mask4_eq. change (2 ^ 4) with 16.
  assert (0 <= ((c + j) mod 8000) mod 16 < 16) by (apply Z.mod_pos_bound; lia).
  rewrite (wrapU_small 64 (_ + 16)) by lia. rewrite (syt_delta c j Hc Hj).
  rewrite (wrapU_small 64 j), (wrapU_small 64 (c + j)) by lia. by apply syt_tail.
Qed.

(** ** Theorems *)

(** The conversions between the cycle timer register and tick counts are inverse
    to each other: on every tick count below 128 seconds, and on every register value
    with fewer than 8000 cycles and fewer than 3072 offset ticks. *)
Theorem ctr_ticks_roundtrip t c : valid_ticks t -> valid_ctr c ->
  CYCLE_TIMER_TO_TICKS (TICKS_TO_CYCLE_TIMER t) = t
  /\ TICKS_TO_CYCLE_TIMER (CYCLE_TIMER_TO_TICKS c) = c.
Proof.
  intros Ht Hc. split.
  - rewrite (ticks_decompose t) at 2. destruct (ctr_parts t Ht) as (R & S & C & O).
    unfold CYCLE_TIMER_TO_TICKS. rewrite S, C, O. pose proof (ticks_parts t Ht).
    unfold TICKS_PER_SECOND, TICKS_PER_CYCLE in *. cint. lia.
  - pose proof (ctr_fields c Hc) as (S & C & O). destruct Hc as [R _].
    rewrite TO_TICKS_eq by done. autorewrite with ctr in S, C, O.
    replace ((c / 2 ^ 25) mod 2 ^ 7) with (c / 2 ^ 25) in S by zlia.
    destruct (ticks_compose _ _ _ S C O) as (E1 & E2 & E3 & V). cbv zeta in *.
    rewrite TO_CYCLE_TIMER_eq, E1, E2, E3 by done. zlia.
Qed.

Lemma ctr_ticks_roundtrip_witness :
  CYCLE_TIMER_TO_TICKS (TICKS_TO_CYCLE_TIMER 3145727999) = 3145727999
  /\ TICKS_TO_CYCLE_TIMER (CYCLE_TIMER_TO_TICKS 0xFFF3FBFF) = 0xFFF3FBFF.
Proof.
  apply (ctr_ticks_roundtrip 3145727999 0xFFF3FBFF); repeat split; vm_compute; congruence.
Defined.

(** Addition and subtraction of timestamps are the operations of the integers
    modulo 128 seconds, so that subtracting undoes adding. *)
Theorem ticks_arithmetic x y : valid_ticks x -> valid_ticks y ->
  addTicks x y = (x + y) mod MAX_TICKS /\ substractTicks x y = (x - y) mod MAX_TICKS
  /\ substractTicks (addTicks x y) y = x /\ addTicks (substractTicks x y) y = x.
Proof.
  intros Hx Hy. rewrite addTicks_mod, (substractTicks_mod x y) by done.
  rewrite substractTicks_mod, addTicks_mod by auto with cint.
  unfold valid_ticks in *. rewrite Zminus_mod_idemp_l, Zplus_mod_idemp_l.
  replace (x + y - y) with x by lia. replace (x - y + y) with x by lia.
  by rewrite (Z.mod_small x) by lia.
Qed.

Lemma ticks_arithmetic_witness :
  addTicks 3145727999 2 = (3145727999 + 2) mod MAX_TICKS
  /\ substractTicks 3145727999 2 = (3145727999 - 2) mod MAX_TICKS
  /\ substractTicks (addTicks 3145727999 2) 2 = 3145727999
  /\ addTicks (substractTicks 3145727999 2) 2 = 3145727999.
Proof. apply (ticks_arithmetic 3145727999 2); vm_compute; split; congruence. Defined.

(** [diffTicks] is the signed distance on the clock: it lies between minus and plus
    64 seconds, it leads from [y] to [x], and every displacement shorter than 64 seconds
    is found again, whether or not the clock wraps in between. *)
Theorem diffTicks_distance x y d : valid_ticks x -> valid_ticks y ->
  - (MAX_TICKS / 2) < d < MAX_TICKS / 2 ->
  - (MAX_TICKS / 2) <= diffTicks x y <= MAX_TICKS / 2
  /\ (y + diffTicks x y) mod MAX_TICKS = x
  /\ diffTicks ((y + d) mod MAX_TICKS) y = d.
Proof.
  intros Hx Hy Hd. rewrite !diffTicks_cases by auto with cint.
  unfold valid_ticks in *. ctr. change (128 * 24576000 / 2) with 1572864000 in *.
  repeat split; zcases; zlia.
Qed.

Lemma diffTicks_distance_witness :
  - (MAX_TICKS / 2) <= diffTicks 10 3145727000 <= MAX_TICKS / 2
  /\ (3145727000 + diffTicks 10 3145727000) mod MAX_TICKS = 10
  /\ diffTicks ((3145727000 + 5000) mod MAX_TICKS) 3145727000 = 5000.
Proof. apply (diffTicks_distance 10 3145727000 5000); vm_compute; split; congruence. Defined.

(** [diffCycles] is the signed distance on the circle of 8000 cycles: within 4000
    either way, leading from [y] to [x], and finding every shorter displacement. *)
Theorem diffCycles_distance x y d : valid_cycle x -> valid_cycle y -> - 4000 < d < 4000 ->
  - 4000 <= diffCycles x y <= 4000
  /\ (y + diffCycles x y) mod CYCLES_PER_SECOND = x
  /\ diffCycles ((y + d) mod CYCLES_PER_SECOND) y = d.
Proof.
  intros Hx Hy Hd. rewrite !diffCycles_cases by (done || (unfold valid_cycle in *; ctr; zlia)).
  unfold valid_cycle in *. ctr. repeat split; zcases; zlia.
Qed.

Lemma diffCycles_distance_witness :
  - 4000 <= diffCycles 3 7998 <= 4000
  /\ (7998 + diffCycles 3 7998) mod CYCLES_PER_SECOND = 3
  /\ diffCycles ((7998 + 5) mod CYCLES_PER_SECOND) 7998 = 5.
Proof. apply (diffCycles_distance 3 7998 5); vm_compute; split; congruence. Defined.

(** [addCycles] is addition modulo 8000 except when the sum is exactly 8000, where it
    returns 8000, which is not a cycle number. *)
Theorem addCycles_off_by_one x y : valid_cycle x -> valid_cycle y ->
  addCycles x y = if x + y =? CYCLES_PER_SECOND then CYCLES_PER_SECOND
                  else (x + y) mod CYCLES_PER_SECOND.
Proof.
  unfold valid_cycle, addCycles. ctr. intros. cint. zcases; cint; zlia.
Qed.

Lemma addCycles_off_by_one_witness : addCycles 7999 1 = 8000.
Proof.
  apply (addCycles_off_by_one 7999 1); vm_compute; split; congruence.
Defined.

(** The timestamp is rebuilt inside of the window. *)
Lemma recv_ticks2_in_window T rcv_ctr : valid_ctr rcv_ctr -> syt_window T rcv_ctr ->
  sytRecvToFullTicks2 (TICKS_TO_SYT T) rcv_ctr = T.
Proof.
  intros Hc Hw. destruct (syt_window_split T rcv_ctr Hc Hw) as (j & o & Hj & Ho & ET & EC & EO).
  pose proof (ctr_fields _ Hc) as (S & C & _). unfold sytRecvToFullTicks2, cycle_start in *.
  destruct (SYT_fields T) as [-> ->]. rewrite EC, EO. clear EC EO Hw.
  set (s := CYCLE_TIMER_GET_SECS rcv_ctr) in *. set (c := CYCLE_TIMER_GET_CYCLES rcv_ctr) in *.
  clearbody s c. autorewrite with ctr. change (2 ^ 4) with 16.
  rewrite (wrapU_small 32 c) by lia.
  assert (0 <= ((c + j) mod 8000) mod 16 < 16) by (apply Z.mod_pos_bound; lia).
  assert (0 <= c mod 16 < 16) by (apply Z.mod_pos_bound; lia).
  rewrite (wrapU_small 32 (((c + j) mod 8000) mod 16)), (wrapU_small 32 (_ + 16)) by lia.
  rewrite (syt_delta c j C Hj). rewrite (wrapU_small 32 j), (wrapU_small 32 (c + j)) by lia.
  rewrite ET, <- Z.add_assoc, Z.add_assoc, <- (Z.add_assoc (s * _)), <- Z.mul_add_distr_r.
  rewrite <- syt_tail by done. f_equal. f_equal. f_equal.
  destruct (Z.ltb_spec (c + j) 8000); unfold TICKS_PER_CYCLE; by cint.
Qed.

(** SYT recovery: whenever the presentation time [T] of a packet lies within the
    sixteen cycles that start at the cycle of its reception, [sytRecvToFullTicks2]
    rebuilds [T] exactly from the 16 bits of the SYT field, across the wrap of the cycle
    count and of the seconds. *)
Theorem sytRecvToFullTicks2_recovers T rcv_ctr : valid_ctr rcv_ctr -> syt_window T rcv_ctr ->
  sytRecvToFullTicks2 (TICKS_TO_SYT T) rcv_ctr = T.
Proof. apply recv_ticks2_in_window. Qed.

(** Reception in the last cycle of second 127, presentation 15 cycles and 3071 ticks later. *)
Lemma sytRecvToFullTicks2_recovers_witness :
  sytRecvToFullTicks2 (TICKS_TO_SYT 46079) 0xFFF3F000 = 46079.
Proof.
  apply (sytRecvToFullTicks2_recovers 46079 0xFFF3F000); repeat split; vm_compute; congruence.
Defined.

(** The seconds at reception, from a later register value. *)
Definition less_than_half_second_later (ctr_now ctr : Z) : Prop :=
  (cycle_start ctr_now - cycle_start ctr) mod MAX_TICKS < 4000 * TICKS_PER_CYCLE.

Lemma later_cases now ctr : valid_ctr now -> valid_ctr ctr -> less_than_half_second_later now ctr ->
  let s := CYCLE_TIMER_GET_SECS ctr in let s' := CYCLE_TIMER_GET_SECS now in
  let c := CYCLE_TIMER_GET_CYCLES ctr in let c' := CYCLE_TIMER_GET_CYCLES now in
  (s' = s /\ c <= c' < c + 4000) \/ (s' = (s + 1) mod 128 /\ c' + 4000 < c).
Proof.
  cbv zeta. intros Hn Hc. pose proof (ctr_fields _ Hn) as (N1 & N2 & _).
  pose proof (ctr_fields _ Hc) as (C1 & C2 & _). unfold less_than_half_second_later, cycle_start.
  generalize dependent (CYCLE_TIMER_GET_SECS now). generalize dependent (CYCLE_TIMER_GET_CYCLES now).
  generalize dependent (CYCLE_TIMER_GET_SECS ctr). generalize dependent (CYCLE_TIMER_GET_CYCLES ctr).
  unfold MAX_TICKS, TICKS_PER_SECOND, TICKS_PER_CYCLE. intros. zlia.
Qed.

(** Both receive-side reconstructions agree: with a register value read less than half
    a second after the reception, [sytRecvToFullTicks] returns what [sytRecvToFullTicks2]
    computes from the register at reception, for every presentation time in the window. *)
Theorem sytRecvToFullTicks_agrees T rcv_ctr ctr_now :
  valid_ctr rcv_ctr -> valid_ctr ctr_now -> less_than_half_second_later ctr_now rcv_ctr ->
  syt_window T rcv_ctr ->
  sytRecvToFullTicks (TICKS_TO_SYT T) (CYCLE_TIMER_GET_CYCLES rcv_ctr) ctr_now = T.
Proof.
  intros Hc Hn Hl Hw. pose proof (later_cases _ _ Hn Hc Hl) as L. cbv zeta in L.
  destruct (syt_window_split T rcv_ctr Hc Hw) as (j & o & Hj & Ho & ET & EC & EO).
  pose proof (ctr_fields _ Hc) as (S & C & _). pose proof (ctr_fields _ Hn) as (S' & C' & _).
  unfold sytRecvToFullTicks, cycle_start in *.
  destruct (SYT_fields T) as [-> ->]. rewrite EC, EO. clear EC EO Hw Hl.
  generalize dependent (CYCLE_TIMER_GET_SECS ctr_now).
  generalize dependent (CYCLE_TIMER_GET_CYCLES ctr_now).
  generalize dependent (CYCLE_TIMER_GET_SECS rcv_ctr).
  generalize dependent (CYCLE_TIMER_GET_CYCLES rcv_ctr).
  intros c C s ET S c' C' s' L S'.
  set (sec := if _ && _ then _ else s').
  assert (sec = s) as ->.
  { subst sec. rewrite (wrapU_small 32 c') by lia.
    rewrite diffCycles_cases by (unfold valid_cycle, CYCLES_PER_SECOND; lia).
    destruct L as [[-> L]|[-> L]]; zcases; simpl; try lia; try zlia; cint; zlia. }
  etrans; [by apply syt_body|]. rewrite ET. f_equal. lia.
Qed.

Lemma sytRecvToFullTicks_agrees_witness :
  sytRecvToFullTicks (TICKS_TO_SYT 46079) (CYCLE_TIMER_GET_CYCLES 0xFFF3F000) 0x00005000 = 46079.
Proof.
  apply (sytRecvToFullTicks_agrees 46079 0xFFF3F000 0x00005000);
    repeat split; vm_compute; congruence.
Defined.

(** [sytXmitToFullTicks] is right only when the transmit cycle is in the same second as
    the current cycle: when the transmission falls in the next second the result is two
    seconds too early, because the seconds are decremented instead of incremented. *)
Theorem sytXmitToFullTicks_two_seconds_early T xmt_ctr ctr_now :
  valid_ctr xmt_ctr -> valid_ctr ctr_now -> less_than_half_second_later xmt_ctr ctr_now ->
  syt_window T xmt_ctr ->
  sytXmitToFullTicks (TICKS_TO_SYT T) (CYCLE_TIMER_GET_CYCLES xmt_ctr) ctr_now
  = if CYCLE_TIMER_GET_SECS xmt_ctr =? CYCLE_TIMER_GET_SECS ctr_now then T
    else (T - 2 * TICKS_PER_SECOND) mod MAX_TICKS.
Proof.
  intros Hc Hn Hl Hw. pose proof (later_cases _ _ Hc Hn Hl) as L. cbv zeta in L.
  destruct (syt_window_split T xmt_ctr Hc Hw) as (j & o & Hj & Ho & ET & EC & EO).
  pose proof (ctr_fields _ Hc) as (S & C & _). pose proof (ctr_fields _ Hn) as (S' & C' & _).
  unfold sytXmitToFullTicks, cycle_start in *.
  destruct (SYT_fields T) as [-> ->]. rewrite EC, EO. clear EC EO Hw Hl.
  generalize dependent (CYCLE_TIMER_GET_SECS ctr_now).
  generalize dependent (CYCLE_TIMER_GET_CYCLES ctr_now).
  generalize dependent (CYCLE_TIMER_GET_SECS xmt_ctr).
  generalize dependent (CYCLE_TIMER_GET_CYCLES xmt_ctr).
  intros c C s ET S c' C' s' L S'.
  set (sec := if _ && _ then _ else s').
  assert (sec = if s =? s' then s else (s - 2) mod 128) as ->.
  { subst sec. rewrite (wrapU_small 32 c') by lia.
    rewrite diffCycles_cases by (unfold valid_cycle, CYCLES_PER_SECOND; lia).
    destruct L as [[-> L]|[-> L]]; zcases; simpl; try lia; try zlia; cint; zlia. }
  etrans; [apply syt_body; try done; clear L; zcases; zlia|]. rewrite ET. destruct (Z.eqb_spec s s').
  - f_equal. lia.
  - rewrite Zminus_mod_idemp_l. unfold MAX_TICKS, TICKS_PER_SECOND, TICKS_PER_CYCLE.
    clear. zlia.
Qed.

(** Now at cycle 7990 of second 5, transmission at cycle 10 of second 6. *)
Lemma sytXmitToFullTicks_two_seconds_early_witness :
  sytXmitToFullTicks (TICKS_TO_SYT (6 * 24576000 + 12 * 3072))
    (CYCLE_TIMER_GET_CYCLES 0x0C00A000) 0x0BF36000
  = 4 * 24576000 + 12 * 3072.
Proof.
  apply (sytXmitToFullTicks_two_seconds_early (6 * 24576000 + 12 * 3072) 0x0C00A000 0x0BF36000);
    repeat split; vm_compute; congruence.
Defined.
