(* ===== verification/RingBuffer.v ===== *)
(** * The byte ring buffer

    Model of [src/libutil/ringbuffer.c] and [ringbuffer.h]: a power-of-two sized block of
    bytes with a read and a write pointer.  [size_t] is 64 bits wide.  The theorems show
    that the operations implement a bounded first-in first-out queue of [size - 1] bytes. *)
From S2P Require Import Prelude.

Record ffado_ringbuffer_t := mkRB {
  rb_buf : list Z;
  rb_write_ptr : Z;
  rb_read_ptr : Z;
  rb_size : Z;
  rb_size_mask : Z;
  rb_mlocked : Z }.

(** One element of a read or write vector; the [buf] pointer is an offset into the block
    and is [None] where the code leaves the field unset. *)
Record ffado_ringbuffer_data_t := mkVec { vec_buf : option Z; vec_len : Z }.

Definition set_buf (b : list Z) (rb : ffado_ringbuffer_t) : ffado_ringbuffer_t :=
  mkRB b (rb_write_ptr rb) (rb_read_ptr rb) (rb_size rb) (rb_size_mask rb) (rb_mlocked rb).
Definition set_write_ptr (w : Z) (rb : ffado_ringbuffer_t) : ffado_ringbuffer_t :=
  mkRB (rb_buf rb) w (rb_read_ptr rb) (rb_size rb) (rb_size_mask rb) (rb_mlocked rb).
Definition set_read_ptr (r : Z) (rb : ffado_ringbuffer_t) : ffado_ringbuffer_t :=
  mkRB (rb_buf rb) (rb_write_ptr rb) r (rb_size rb) (rb_size_mask rb) (rb_mlocked rb).

(** ** Operations *)

(** [for (power_of_two = 1; 1 << power_of_two < sz; power_of_two++);] with [int]
    shifts: [None] when the shift count reaches 31, where C leaves the shift undefined. *)
Fixpoint create_power (fuel : nat) (power_of_two sz : Z) : option Z :=
  match fuel with
  | O => None
  | S fuel => if (1 << power_of_two) <? sz then create_power fuel (power_of_two + 1) sz
              else Some power_of_two
  end.

(** [junk] is what [malloc] leaves in the block. *)
Definition ffado_ringbuffer_create (junk : nat -> Z) (sz : Z) : option ffado_ringbuffer_t :=
  match create_power 30 1 sz with
  | None => None
  | Some power_of_two =>
      let size := 1 << power_of_two in
      Some (mkRB (junk <$> seq 0 (Z.to_nat size)) 0 0 size (u64 (size - 1)) 0)
  end.

Definition ffado_ringbuffer_mlock (rb : ffado_ringbuffer_t) : ffado_ringbuffer_t * Z :=
  (mkRB (rb_buf rb) (rb_write_ptr rb) (rb_read_ptr rb) (rb_size rb) (rb_size_mask rb) 1, 0).

Definition ffado_ringbuffer_reset (rb : ffado_ringbuffer_t) : ffado_ringbuffer_t :=
  set_write_ptr 0 (set_read_ptr 0 rb).

Definition ffado_ringbuffer_read_space (rb : ffado_ringbuffer_t) : Z :=
  let w := rb_write_ptr rb in let r := rb_read_ptr rb in
  if r <? w then u64 (w - r) else u64 (u64 (w - r) + rb_size rb) .& rb_size_mask rb.

Definition ffado_ringbuffer_write_space (rb : ffado_ringbuffer_t) : Z :=
  let w := rb_write_ptr rb in let r := rb_read_ptr rb in
  if r <? w then u64 ((u64 (u64 (r - w) + rb_size rb) .& rb_size_mask rb) - 1)
  else if w <? r then u64 (u64 (r - w) - 1)
  else u64 (rb_size rb - 1).

Definition ffado_ringbuffer_read_advance (rb : ffado_ringbuffer_t) (cnt : Z) : ffado_ringbuffer_t :=
  set_read_ptr (u64 (rb_read_ptr rb + cnt) .& rb_size_mask rb) rb.

Definition ffado_ringbuffer_write_advance (rb : ffado_ringbuffer_t) (cnt : Z) : ffado_ringbuffer_t :=
  set_write_ptr (u64 (rb_write_ptr rb + cnt) .& rb_size_mask rb) rb.

(** The two lengths a transfer of [n] bytes at pointer [p] is cut into. *)
Definition split_at_end (rb : ffado_ringbuffer_t) (p n : Z) : Z * Z :=
  let cnt2 := u64 (p + n) in
  if rb_size rb <? cnt2 then (u64 (rb_size rb - p), cnt2 .& rb_size_mask rb) else (n, 0).

(** Returns the buffer, the bytes stored at [dest] and the count. *)
Definition ffado_ringbuffer_read (rb : ffado_ringbuffer_t) (cnt : Z)
  : ffado_ringbuffer_t * list Z * Z :=
  let free_cnt := ffado_ringbuffer_read_space rb in
  if free_cnt =? 0 then (rb, [], 0) else
  let to_read := if free_cnt <? cnt then free_cnt else cnt in
  let '(n1, n2) := split_at_end rb (rb_read_ptr rb) to_read in
  let d1 := slice (rb_read_ptr rb) n1 (rb_buf rb) in
  let rb := ffado_ringbuffer_read_advance rb n1 in
  if n2 =? 0 then (rb, d1, to_read) else
  let d2 := slice (rb_read_ptr rb) n2 (rb_buf rb) in
  (ffado_ringbuffer_read_advance rb n2, d1 ++ d2, to_read).

Definition ffado_ringbuffer_peek (rb : ffado_ringbuffer_t) (cnt : Z) : list Z * Z :=
  let tmp_read_ptr := rb_read_ptr rb in
  let free_cnt := ffado_ringbuffer_read_space rb in
  if free_cnt =? 0 then ([], 0) else
  let to_read := if free_cnt <? cnt then free_cnt else cnt in
  let '(n1, n2) := split_at_end rb tmp_read_ptr to_read in
  let d1 := slice tmp_read_ptr n1 (rb_buf rb) in
  let tmp_read_ptr := u64 (tmp_read_ptr + n1) .& rb_size_mask rb in
  if n2 =? 0 then (d1, to_read) else
  (d1 ++ slice tmp_read_ptr n2 (rb_buf rb), to_read).

(** [memcpy (&(rb->buf[rb->write_ptr]), d, length d)]. *)
Definition memcpy_at_write_ptr (rb : ffado_ringbuffer_t) (d : list Z) : ffado_ringbuffer_t :=
  set_buf (list_inserts (Z.to_nat (rb_write_ptr rb)) d (rb_buf rb)) rb.

Definition ffado_ringbuffer_write (rb : ffado_ringbuffer_t) (src : list Z) (cnt : Z)
  : ffado_ringbuffer_t * Z :=
  let free_cnt := ffado_ringbuffer_write_space rb in
  if free_cnt =? 0 then (rb, 0) else
  let to_write := if free_cnt <? cnt then free_cnt else cnt in
  let '(n1, n2) := split_at_end rb (rb_write_ptr rb) to_write in
  let rb := memcpy_at_write_ptr rb (slice 0 n1 src) in
  let rb := ffado_ringbuffer_write_advance rb n1 in
  if n2 =? 0 then (rb, to_write) else
  let rb := memcpy_at_write_ptr rb (slice n1 n2 src) in
  (ffado_ringbuffer_write_advance rb n2, to_write).

Definition ffado_ringbuffer_get_read_vector (rb : ffado_ringbuffer_t)
  : ffado_ringbuffer_data_t * ffado_ringbuffer_data_t :=
  let w := rb_write_ptr rb in let r := rb_read_ptr rb in
  let free_cnt :=
    if r <? w then u64 (w - r) else u64 (u64 (w - r) + rb_size rb) .& rb_size_mask rb in
  let cnt2 := u64 (r + free_cnt) in
  if rb_size rb <? cnt2
  then (mkVec (Some r) (u64 (rb_size rb - r)), mkVec (Some 0) (cnt2 .& rb_size_mask rb))
  else (mkVec (Some r) free_cnt, mkVec None 0).

Definition ffado_ringbuffer_get_write_vector (rb : ffado_ringbuffer_t)
  : ffado_ringbuffer_data_t * ffado_ringbuffer_data_t :=
  let w := rb_write_ptr rb in let r := rb_read_ptr rb in
  let free_cnt :=
    if r <? w then u64 ((u64 (u64 (r - w) + rb_size rb) .& rb_size_mask rb) - 1)
    else if w <? r then u64 (u64 (r - w) - 1)
    else u64 (rb_size rb - 1) in
  let cnt2 := u64 (w + free_cnt) in
  if rb_size rb <? cnt2
  then (mkVec (Some w) (u64 (rb_size rb - w)), mkVec (Some 0) (cnt2 .& rb_size_mask rb))
  else (mkVec (Some w) free_cnt, mkVec None 0).

(** ** Invariant and abstraction *)

Record rb_wf (rb : ffado_ringbuffer_t) : Prop := {
  wf_pow2 : exists k, 1 <= k < 63 /\ rb_size rb = 2 ^ k;
  wf_mask : rb_size_mask rb = rb_size rb - 1;
  wf_read : 0 <= rb_read_ptr rb < rb_size rb;
  wf_write : 0 <= rb_write_ptr rb < rb_size rb;
  wf_buf : zlength (rb_buf rb) = rb_size rb }.

(** The number of bytes in the buffer. *)
Definition rb_fill (rb : ffado_ringbuffer_t) : Z :=
  (rb_write_ptr rb - rb_read_ptr rb) mod rb_size rb.

(** The bytes in the buffer, oldest first. *)
Definition rb_contents (rb : ffado_ringbuffer_t) : list Z :=
  ring_slice (rb_buf rb) (Z.to_nat (rb_read_ptr rb)) (Z.to_nat (rb_fill rb)).

(** Specification: a bounded queue. *)
Definition queue_capacity (rb : ffado_ringbuffer_t) : Z := rb_size rb - 1.

Definition queue_write (cap : Z) (q data : list Z) : list Z * Z :=
  let n := Z.min (zlength data) (cap - zlength q) in (q ++ take (Z.to_nat n) data, n).

Definition queue_read (q : list Z) (cnt : Z) : list Z * list Z * Z :=
  (drop (Z.to_nat cnt) q, take (Z.to_nat cnt) q, Z.min cnt (zlength q)).

(** ** Lemmas *)

Lemma mod_once x m : 0 <= x < 2 * m -> x mod m = if x <? m then x else x - m.
Proof.
  intros H. zcases; [apply Z.mod_small; lia|].
  replace x with (x - m + 1 * m) at 1 by lia. rewrite Z.mod_add by lia. apply Z.mod_small. lia.
Qed.

Section facts.
Context (rb : ffado_ringbuffer_t) (WF : rb_wf rb).

Lemma rb_size_bounds : 2 <= rb_size rb <= 2 ^ 62.
Proof.
  destruct (wf_pow2 _ WF) as (k & Hk & ->). split.
  - change 2 with (2 ^ 1) at 1. apply Z.pow_le_mono_r; lia.
  - apply Z.pow_le_mono_r; lia.
Qed.

Lemma land_size_mask x : x .& rb_size_mask rb = x mod rb_size rb.
Proof.
  rewrite (wf_mask _ WF). destruct (wf_pow2 _ WF) as (k & Hk & ->). apply land_mask_mod. lia.
Qed.

Lemma rb_fill_cases :
  rb_fill rb = if rb_write_ptr rb <? rb_read_ptr rb
               then rb_write_ptr rb - rb_read_ptr rb + rb_size rb
               else rb_write_ptr rb - rb_read_ptr rb.
Proof.
  pose proof (wf_read _ WF). pose proof (wf_write _ WF). unfold rb_fill.
  zcases; [|apply Z.mod_small; lia].
  rewrite <- (Z.mod_add _ 1) by lia. rewrite Z.mul_1_l. apply Z.mod_small. lia.
Qed.

Lemma rb_fill_bounds : 0 <= rb_fill rb < rb_size rb.
Proof. apply Z.mod_pos_bound. pose proof rb_size_bounds. lia. Qed.

Lemma read_space_eq : ffado_ringbuffer_read_space rb = rb_fill rb.
Proof.
  pose proof (wf_read _ WF). pose proof (wf_write _ WF). pose proof rb_size_bounds.
  unfold ffado_ringbuffer_read_space. rewrite land_size_mask, wrapU_add_l, rb_fill_cases.
  zcases; cint; try lia; rewrite mod_once by lia; zcases; lia.
Qed.

Lemma write_space_eq : ffado_ringbuffer_write_space rb = rb_size rb - 1 - rb_fill rb.
Proof.
  pose proof (wf_read _ WF). pose proof (wf_write _ WF). pose proof rb_size_bounds.
  unfold ffado_ringbuffer_write_space. rewrite land_size_mask, wrapU_add_l, rb_fill_cases.
  zcases; cint; try lia; rewrite mod_once by lia; zcases; cint; lia.
Qed.

Lemma zlength_contents : zlength (rb_contents rb) = rb_fill rb.
Proof.
  pose proof (wf_read _ WF). pose proof (wf_buf _ WF). pose proof rb_fill_bounds.
  unfold zlength, rb_contents in *. rewrite length_ring_slice; lia.
Qed.

Lemma split_at_end_eq p n : 0 <= p < rb_size rb -> 0 <= n < rb_size rb ->
  split_at_end rb p n = if rb_size rb <? p + n then (rb_size rb - p, p + n - rb_size rb) else (n, 0).
Proof.
  intros. pose proof rb_size_bounds. unfold split_at_end. rewrite land_size_mask. cint.
  zcases; cint; [|done]. f_equal. rewrite mod_once by lia. zcases; lia.
Qed.

(** Advancing the read pointer over bytes that are there. *)
Lemma read_advance_ok k : 0 <= k <= rb_fill rb ->
  let rb' := ffado_ringbuffer_read_advance rb k in
  rb_wf rb' /\ rb_contents rb' = drop (Z.to_nat k) (rb_contents rb)
  /\ rb_fill rb' = rb_fill rb - k /\ rb_size rb' = rb_size rb
  /\ rb_read_ptr rb' = (rb_read_ptr rb + k) mod rb_size rb /\ rb_buf rb' = rb_buf rb.
Proof.
  intros Hk. cbv zeta. pose proof (wf_read _ WF). pose proof (wf_write _ WF).
  pose proof rb_size_bounds. pose proof rb_fill_bounds. pose proof (wf_buf _ WF) as B.
  assert (rb_read_ptr (ffado_ringbuffer_read_advance rb k)
          = (rb_read_ptr rb + k) mod rb_size rb) as E.
  { unfold ffado_ringbuffer_read_advance. simpl. rewrite land_size_mask. by cint. }
  assert (rb_wf (ffado_ringbuffer_read_advance rb k)) as W.
  { destruct WF. split; try done. rewrite E. apply Z.mod_pos_bound. simpl. lia. }
  assert (rb_fill (ffado_ringbuffer_read_advance rb k) = rb_fill rb - k) as F.
  { unfold rb_fill at 1. rewrite E. simpl. rewrite Zminus_mod_idemp_r, Z.sub_add_distr.
    rewrite <- Zminus_mod_idemp_l. apply Z.mod_small. unfold rb_fill in *. lia. }
  repeat split; try done; try apply W. unfold rb_contents at 1. rewrite F, E. simpl.
  unfold rb_contents, zlength in *.
  replace (Z.to_nat (rb_fill rb)) with (Z.to_nat k + Z.to_nat (rb_fill rb - k))%nat by lia.
  rewrite (ring_slice_split _ _ _ _ (Z.to_nat ((rb_read_ptr rb + k) mod rb_size rb)));
    [|lia..|rewrite mod_once by lia; zcases; case_decide; lia].
  rewrite drop_app_length'; [done|]. rewrite length_ring_slice; lia.
Qed.

(** The contiguous bytes at the read pointer are the oldest ones. *)
Lemma read_contiguous k : 0 <= k <= rb_fill rb -> rb_read_ptr rb + k <= rb_size rb ->
  slice (rb_read_ptr rb) k (rb_buf rb) = take (Z.to_nat k) (rb_contents rb).
Proof.
  intros Hk Hr. pose proof (wf_read _ WF). pose proof (wf_buf _ WF). pose proof rb_fill_bounds.
  unfold slice, rb_contents, ring_slice, zlength in *. rewrite take_take, Nat.min_l by lia.
  rewrite take_app_le; [done|]. rewrite length_drop. lia.
Qed.

(** Storing contiguous bytes at the write pointer and advancing it appends them. *)
Lemma write_contiguous d :
  rb_write_ptr rb + zlength d <= rb_size rb -> rb_fill rb + zlength d < rb_size rb ->
  let rb' := ffado_ringbuffer_write_advance (memcpy_at_write_ptr rb d) (zlength d) in
  rb_wf rb' /\ rb_contents rb' = rb_contents rb ++ d
  /\ rb_fill rb' = rb_fill rb + zlength d /\ rb_size rb' = rb_size rb
  /\ rb_write_ptr rb' = (rb_write_ptr rb + zlength d) mod rb_size rb.
Proof.
  intros Hw Hf. cbv zeta. pose proof (wf_read _ WF). pose proof (wf_write _ WF).
  pose proof rb_size_bounds. pose proof rb_fill_bounds. pose proof (wf_buf _ WF) as B.
  assert (0 <= zlength d) as Hd by apply Nat2Z.is_nonneg.
  set (rb' := ffado_ringbuffer_write_advance _ _).
  assert (rb_write_ptr rb' = (rb_write_ptr rb + zlength d) mod rb_size rb) as E.
  { subst rb'. unfold ffado_ringbuffer_write_advance. simpl. rewrite land_size_mask. by cint. }
  assert (rb_wf rb') as W.
  { destruct WF. split; try done.
    - rewrite E. apply Z.mod_pos_bound. simpl. lia.
    - subst rb'. unfold zlength in *. simpl. by rewrite length_inserts. }
  assert (rb_fill rb' = rb_fill rb + zlength d) as F.
  { unfold rb_fill at 1. rewrite E. simpl. rewrite Zminus_mod_idemp_l.
    replace (rb_write_ptr rb + zlength d - rb_read_ptr rb)
      with (rb_write_ptr rb - rb_read_ptr rb + zlength d) by lia.
    rewrite <- Zplus_mod_idemp_l. apply Z.mod_small. unfold rb_fill in *. lia. }
  repeat split; try done; try apply W. unfold rb_contents at 1. rewrite F. simpl.
  pose proof rb_fill_cases as C. unfold rb_contents, zlength in *.
  rewrite Z2Nat.inj_add, Nat2Z.id by lia.
  rewrite (ring_slice_split _ _ _ _ (Z.to_nat (rb_write_ptr rb))); rewrite ?length_inserts;
    [|lia..|].
  2: { destruct (Z.ltb_spec (rb_write_ptr rb) (rb_read_ptr rb)); case_decide; lia. }
  rewrite ring_slice_inserts_eq by lia. rewrite ring_slice_inserts_ne; [done|lia..|].
  destruct (Z.ltb_spec (rb_write_ptr rb) (rb_read_ptr rb)); case_decide; lia.
Qed.
End facts.

(** Reading [n] available bytes in one or two pieces. *)
Lemma read_pieces rb n : rb_wf rb -> 0 <= n <= rb_fill rb ->
  let '(n1, n2) := split_at_end rb (rb_read_ptr rb) n in
  let rb1 := ffado_ringbuffer_read_advance rb n1 in
  let rb2 := if n2 =? 0 then rb1 else ffado_ringbuffer_read_advance rb1 n2 in
  let d := if n2 =? 0 then slice (rb_read_ptr rb) n1 (rb_buf rb)
           else slice (rb_read_ptr rb) n1 (rb_buf rb) ++ slice (rb_read_ptr rb1) n2 (rb_buf rb1) in
  rb_wf rb2 /\ rb_size rb2 = rb_size rb /\ rb_contents rb2 = drop (Z.to_nat n) (rb_contents rb)
  /\ d = take (Z.to_nat n) (rb_contents rb).
Proof.
  intros WF Hn. pose proof (wf_read _ WF). pose proof (rb_fill_bounds _ WF).
  rewrite split_at_end_eq by (done || lia).
  match goal with |- context [?a <? ?b] => destruct (Z.ltb_spec a b) end; cbv zeta.
  - destruct (read_advance_ok rb WF (rb_size rb - rb_read_ptr rb)) as (W1 & C1 & F1 & S1 & R1 & B1);
      [lia|]. set (rb1 := ffado_ringbuffer_read_advance rb _) in *.
    replace (rb_read_ptr rb + (rb_size rb - rb_read_ptr rb)) with (1 * rb_size rb) in R1 by lia.
    rewrite Z_mod_mult in R1. set (n2 := rb_read_ptr rb + n - rb_size rb).
    destruct (Z.eqb_spec n2 0); [lia|].
    destruct (read_advance_ok rb1 W1 n2) as (W2 & C2 & _ & S2 & _ & _); [lia|].
    rewrite C2, C1, drop_drop_Z, S2, S1 by lia. repeat split; try apply W2; [f_equal; lia|].
    rewrite read_contiguous by (done || lia). rewrite (read_contiguous rb1 W1) by lia.
    rewrite C1. fold (slice (rb_size rb - rb_read_ptr rb) n2 (rb_contents rb)).
    rewrite take_slice by lia. do 2 f_equal. lia.
  - rewrite Z.eqb_refl. destruct (read_advance_ok rb WF n) as (W1 & C1 & _ & S1 & _ & _); [lia|].
    rewrite C1, S1. repeat split; try apply W1. by rewrite read_contiguous by (done || lia).
Qed.

(** Storing [n] bytes for which there is room, in one or two pieces. *)
Lemma write_pieces rb src n : rb_wf rb -> 0 <= n <= zlength src -> rb_fill rb + n < rb_size rb ->
  let '(n1, n2) := split_at_end rb (rb_write_ptr rb) n in
  let rb1 := ffado_ringbuffer_write_advance (memcpy_at_write_ptr rb (slice 0 n1 src)) n1 in
  let rb2 := if n2 =? 0 then rb1
             else ffado_ringbuffer_write_advance (memcpy_at_write_ptr rb1 (slice n1 n2 src)) n2 in
  rb_wf rb2 /\ rb_size rb2 = rb_size rb
  /\ rb_contents rb2 = rb_contents rb ++ take (Z.to_nat n) src.
Proof.
  intros WF Hn Hf. pose proof (wf_write _ WF). pose proof (rb_fill_bounds _ WF).
  rewrite split_at_end_eq by (done || lia).
  match goal with |- context [?a <? ?b] => destruct (Z.ltb_spec a b) end; cbv zeta.
  - set (n1 := rb_size rb - rb_write_ptr rb). set (n2 := rb_write_ptr rb + n - rb_size rb).
    assert (zlength (slice 0 n1 src) = n1) as L1 by (rewrite zlength_slice; lia).
    assert (zlength (slice n1 n2 src) = n2) as L2 by (rewrite zlength_slice; lia).
    destruct (write_contiguous rb WF (slice 0 n1 src)) as (W1 & C1 & F1 & S1 & P1); [lia..|].
    rewrite L1 in *. set (rb1 := ffado_ringbuffer_write_advance _ n1) in *.
    replace (rb_write_ptr rb + n1) with (1 * rb_size rb) in P1 by lia.
    rewrite Z_mod_mult in P1. destruct (Z.eqb_spec n2 0); [lia|].
    destruct (write_contiguous rb1 W1 (slice n1 n2 src)) as (W2 & C2 & _ & S2 & _); [lia..|].
    rewrite L2 in *. rewrite C2, C1, S2, S1, slice_0, <- app_assoc, take_slice by lia.
    repeat split; try apply W2. do 3 f_equal. lia.
  - rewrite Z.eqb_refl. assert (zlength (slice 0 n src) = n) as L1 by (rewrite zlength_slice; lia).
    destruct (write_contiguous rb WF (slice 0 n src)) as (W1 & C1 & _ & S1 & _); [lia..|].
    rewrite L1 in *. rewrite C1, S1, slice_0. repeat split; apply W1.
Qed.

Lemma read_refines rb cnt : rb_wf rb -> 0 <= cnt ->
  let '(rb', d, n) := ffado_ringbuffer_read rb cnt in
  rb_wf rb' /\ rb_size rb' = rb_size rb /\ (rb_contents rb', d, n) = queue_read (rb_contents rb) cnt.
Proof.
  intros WF Hc. pose proof (rb_fill_bounds _ WF). pose proof (zlength_contents _ WF) as L.
  unfold ffado_ringbuffer_read. rewrite read_space_eq by done. unfold queue_read.
  destruct (Z.eqb_spec (rb_fill rb) 0) as [E|E].
  - rewrite E in L. destruct (rb_contents rb) eqn:C; [|unfold zlength in L; simpl in L; lia].
    repeat split; try apply WF. rewrite drop_nil, take_nil, L, Z.min_r by lia. done.
  - set (n := if rb_fill rb <? cnt then rb_fill rb else cnt).
    assert (n = Z.min cnt (zlength (rb_contents rb))) as En by (subst n; zcases; lia).
    pose proof (read_pieces rb n WF ltac:(lia)) as P.
    destruct (split_at_end rb (rb_read_ptr rb) n) as [n1 n2]. cbv zeta in P.
    destruct (n2 =? 0); destruct P as (W & S & C & D); repeat split; try apply W; try done;
      rewrite C, D, En, take_min_zlength, drop_min_zlength; done.
Qed.

Lemma write_refines rb src : rb_wf rb -> 0 <= zlength src ->
  let '(rb', n) := ffado_ringbuffer_write rb src (zlength src) in
  rb_wf rb' /\ rb_size rb' = rb_size rb
  /\ (rb_contents rb', n) = queue_write (queue_capacity rb) (rb_contents rb) src.
Proof.
  intros WF Hc. pose proof (rb_fill_bounds _ WF). pose proof (zlength_contents _ WF) as L.
  unfold ffado_ringbuffer_write. rewrite write_space_eq by done.
  unfold queue_write, queue_capacity. rewrite L.
  destruct (Z.eqb_spec (rb_size rb - 1 - rb_fill rb) 0) as [E|E].
  - repeat split; try apply WF. rewrite E, Z.min_r by lia. by rewrite app_nil_r.
  - set (n := if _ <? zlength src then _ else zlength src).
    assert (n = Z.min (zlength src) (rb_size rb - 1 - rb_fill rb)) as En by (subst n; zcases; lia).
    pose proof (write_pieces rb src n WF ltac:(lia) ltac:(lia)) as P.
    destruct (split_at_end rb (rb_write_ptr rb) n) as [n1 n2]. cbv zeta in P.
    destruct (n2 =? 0); destruct P as (W & S & C); repeat split; try apply W; try done;
      by rewrite C, <- En.
Qed.

(** Storing the first [cnt] bytes of a longer block for which there is room. *)
Lemma write_prefix rb src cnt : rb_wf rb -> 0 < cnt <= zlength src -> rb_fill rb + cnt < rb_size rb ->
  exists rb', ffado_ringbuffer_write rb src cnt = (rb', cnt) /\ rb_wf rb' /\ rb_size rb' = rb_size rb
    /\ rb_contents rb' = rb_contents rb ++ take (Z.to_nat cnt) src.
Proof.
  intros WF Hc Hf. pose proof (write_pieces rb src cnt WF ltac:(lia) Hf) as P.
  unfold ffado_ringbuffer_write. rewrite write_space_eq by done.
  rewrite (proj2 (Z.eqb_neq _ _)), (proj2 (Z.ltb_ge _ _)) by lia.
  destruct (split_at_end rb (rb_write_ptr rb) cnt) as [n1 n2]. cbv zeta in P.
  destruct (n2 =? 0); by eexists.
Qed.

Lemma peek_eq_read rb cnt :
  ffado_ringbuffer_peek rb cnt = let '(_, d, n) := ffado_ringbuffer_read rb cnt in (d, n).
Proof.
  unfold ffado_ringbuffer_peek, ffado_ringbuffer_read.
  destruct (_ =? 0); [done|]. destruct (split_at_end _ _ _) as [n1 n2]. by destruct (n2 =? 0).
Qed.

Lemma create_power_spec fuel p sz k : 1 <= p -> create_power fuel p sz = Some k ->
  p <= k < p + Z.of_nat fuel /\ sz <= 2 ^ k /\ (k = p \/ 2 ^ (k - 1) < sz).
Proof.
  revert p. induction fuel as [|fuel IH]; intros p Hp; simpl; [done|].
  rewrite Z.shiftl_1_l. destruct (Z.ltb_spec (2 ^ p) sz) as [L|L]; intros E.
  - destruct (IH (p + 1)) as (R & U & M); [lia|done|]. split; [lia|]. split; [done|]. right.
    destruct M as [->|M]; [|done]. by replace (p + 1 - 1) with p by lia.
  - injection E as <-. split; [lia|]. split; [done|by left].
Qed.

Lemma create_power_total fuel p sz : 1 <= p -> sz <= 2 ^ (p + Z.of_nat fuel - 1) -> (0 < fuel)%nat ->
  is_Some (create_power fuel p sz).
Proof.
  revert p. induction fuel as [|fuel IH]; intros p Hp Hs Hf; simpl; [lia|].
  rewrite Z.shiftl_1_l. destruct (Z.ltb_spec (2 ^ p) sz) as [L|L]; [|by eexists].
  destruct fuel as [|fuel].
  - replace (p + Z.of_nat 1 - 1) with p in Hs by lia. lia.
  - apply IH; [lia| |lia]. by replace (p + 1 + Z.of_nat (S fuel) - 1) with (p + Z.of_nat (S (S fuel)) - 1) by lia.
Qed.

(** A created buffer is well-formed and empty. *)
Lemma create_ok junk sz rb : ffado_ringbuffer_create junk sz = Some rb ->
  rb_wf rb /\ rb_contents rb = [] /\ sz <= rb_size rb /\ (rb_size rb = 2 \/ rb_size rb < 2 * sz).
Proof.
  unfold ffado_ringbuffer_create. destruct (create_power 30 1 sz) as [k|] eqn:E; [|done].
  intros [= <-]. apply create_power_spec in E as (R & U & M); [|lia]. simpl.
  rewrite Z.shiftl_1_l in *.
  assert (2 ^ k = 2 * 2 ^ (k - 1)) as D.
  { rewrite <- Z.pow_succ_r by lia. f_equal. lia. }
  assert (2 <= 2 ^ k) by (pose proof (Z.pow_le_mono_r 2 1 k); lia).
  assert (2 ^ k <= 2 ^ 30) by (apply Z.pow_le_mono_r; lia).
  split; [|split; [|split; [done|]]].
  - split; simpl; try lia.
    + exists k. lia.
    + cint. done.
    + unfold zlength. rewrite length_fmap, length_seq. lia.
  - unfold rb_contents, rb_fill. simpl. rewrite Z.mod_0_l by lia. done.
  - destruct M as [->|M]; [by left|right; lia].
Qed.

(** ** Traces *)

Inductive rb_op := OpWrite (src : list Z) | OpRead (cnt : Z) | OpReset.

(** Runs a sequence of operations, collecting the bytes accepted from the writer and the
    bytes delivered to the reader since the last reset. *)
Fixpoint rb_run (ops : list rb_op) (rb : ffado_ringbuffer_t) (accepted delivered : list Z)
  : ffado_ringbuffer_t * list Z * list Z :=
  match ops with
  | [] => (rb, accepted, delivered)
  | OpWrite src :: ops =>
      let '(rb, n) := ffado_ringbuffer_write rb src (zlength src) in
      rb_run ops rb (accepted ++ take (Z.to_nat n) src) delivered
  | OpRead cnt :: ops =>
      let '(rb, d, _) := ffado_ringbuffer_read rb cnt in
      rb_run ops rb accepted (delivered ++ d)
  | OpReset :: ops => rb_run ops (ffado_ringbuffer_reset rb) [] []
  end.

Definition op_ok (op : rb_op) : Prop := match op with OpRead cnt => 0 <= cnt | _ => True end.

Lemma reset_ok rb : rb_wf rb ->
  rb_wf (ffado_ringbuffer_reset rb) /\ rb_contents (ffado_ringbuffer_reset rb) = []
  /\ rb_size (ffado_ringbuffer_reset rb) = rb_size rb.
Proof.
  intros WF. pose proof (rb_size_bounds _ WF). split; [|split; [|done]].
  - destruct WF. split; simpl; try done; lia.
  - unfold rb_contents, rb_fill. simpl. rewrite Z.mod_0_l by lia. done.
Qed.

Lemma rb_run_invariant ops rb accepted delivered : rb_wf rb -> Forall op_ok ops ->
  accepted = delivered ++ rb_contents rb ->
  let '(rb', accepted', delivered') := rb_run ops rb accepted delivered in
  rb_wf rb' /\ rb_size rb' = rb_size rb /\ accepted' = delivered' ++ rb_contents rb'.
Proof.
  revert rb accepted delivered. induction ops as [|op ops IH]; intros rb acc del WF Hops Hinv.
  - simpl. repeat split; try apply WF. done.
  - apply Forall_cons_1 in Hops as [Hop Hops]. destruct op as [src|cnt|]; simpl.
    + pose proof (write_refines rb src WF (zlength_nonneg _)) as P.
      destruct (ffado_ringbuffer_write rb src (zlength src)) as [rb1 n].
      destruct P as (W & S & E). unfold queue_write in E. injection E as EC En.
      specialize (IH rb1 (acc ++ take (Z.to_nat n) src) del W Hops).
      rewrite S in IH. apply IH. by rewrite Hinv, EC, En, app_assoc.
    + pose proof (read_refines rb cnt WF Hop) as P.
      destruct (ffado_ringbuffer_read rb cnt) as [[rb1 d] n].
      destruct P as (W & S & E). unfold queue_read in E. injection E as EC Ed En.
      specialize (IH rb1 acc (del ++ d) W Hops). rewrite S in IH. apply IH.
      by rewrite Hinv, EC, Ed, <- app_assoc, take_drop.
    + destruct (reset_ok rb WF) as (W & C & S).
      specialize (IH (ffado_ringbuffer_reset rb) [] [] W Hops). rewrite S in IH. apply IH.
      by rewrite C.
Qed.

(** ** Theorems *)

(** C4. Refinement: on a well-formed ring buffer, [ffado_ringbuffer_write] and
    [ffado_ringbuffer_read] act on the stored bytes as a bounded FIFO queue of capacity
    [size - 1] does, including the counts they return, the operations keep the buffer
    well-formed, and [ffado_ringbuffer_peek] returns what a read would. *)
Theorem ringbuffer_refines_queue rb src cnt : rb_wf rb -> 0 <= cnt ->
  (let '(rb', n) := ffado_ringbuffer_write rb src (zlength src) in
   rb_wf rb' /\ rb_size rb' = rb_size rb
   /\ (rb_contents rb', n) = queue_write (queue_capacity rb) (rb_contents rb) src)
  /\ (let '(rb', d, n) := ffado_ringbuffer_read rb cnt in
      rb_wf rb' /\ rb_size rb' = rb_size rb
      /\ (rb_contents rb', d, n) = queue_read (rb_contents rb) cnt
      /\ ffado_ringbuffer_peek rb cnt = (d, n)).
Proof.
  intros WF Hc. split; [by apply write_refines, zlength_nonneg|].
  pose proof (read_refines rb cnt WF Hc) as P. rewrite peek_eq_read.
  destruct (ffado_ringbuffer_read rb cnt) as [[rb' d] n]. by destruct P as (? & ? & ?).
Qed.

(** An eight-byte buffer whose contents wrap around the end of the block. *)
Definition wrapped_rb : ffado_ringbuffer_t := mkRB [3; 4; 0; 0; 0; 0; 1; 2] 2 6 8 7 0.

Lemma wrapped_rb_wf : rb_wf wrapped_rb.
Proof.
  split; try (vm_compute; intuition congruence). exists 3. vm_compute. intuition congruence.
Defined.

Lemma ringbuffer_refines_queue_witness :
  (rb_contents (ffado_ringbuffer_write wrapped_rb [5; 6; 7; 8] 4).1, 3)
  = queue_write 7 [1; 2; 3; 4] [5; 6; 7; 8].
Proof.
  pose proof (ringbuffer_refines_queue wrapped_rb [5; 6; 7; 8] 0 wrapped_rb_wf ltac:(lia)) as [P _].
  vm_compute in P |- *. apply P.
Defined.

(** First in, first out, over any history: after any sequence of writes, reads and
    resets on a newly created buffer, the bytes accepted since the last reset are the
    bytes delivered followed by the bytes still stored, so none is lost, duplicated or
    reordered, and at most [size - 1] bytes are stored. *)
Theorem ringbuffer_fifo_history junk sz ops rb0 :
  ffado_ringbuffer_create junk sz = Some rb0 -> Forall op_ok ops ->
  let '(rb, accepted, delivered) := rb_run ops rb0 [] [] in
  accepted = delivered ++ rb_contents rb /\ zlength (rb_contents rb) <= queue_capacity rb0.
Proof.
  intros E Hops. destruct (create_ok _ _ _ E) as (W & C & _).
  pose proof (rb_run_invariant ops rb0 [] [] W Hops ltac:(by rewrite C)) as P.
  destruct (rb_run ops rb0 [] []) as [[rb acc] del]. destruct P as (W' & S & I).
  split; [done|]. rewrite zlength_contents by done. pose proof (rb_fill_bounds rb W').
  unfold queue_capacity. lia.
Qed.

Lemma ringbuffer_fifo_history_witness :
  let rb0 := mkRB (replicate 8 0) 0 0 8 7 0 in
  let '(rb, accepted, delivered) :=
    rb_run [OpWrite [1; 2; 3; 4; 5; 6; 7; 8; 9]; OpRead 5; OpWrite [10; 11; 12]; OpRead 2] rb0 [] [] in
  accepted = delivered ++ rb_contents rb /\ zlength (rb_contents rb) <= queue_capacity rb0.
Proof.
  apply (ringbuffer_fifo_history (fun _ => 0) 5); [vm_compute; reflexivity|].
  repeat constructor; vm_compute; congruence.
Defined.

(** [ffado_ringbuffer_create] returns an empty well-formed buffer for every request up to
    one gigabyte, with a block of at least the requested size; but one byte of the block
    is never usable, so a request for a power of two does not hold the requested number
    of bytes. *)
Theorem ringbuffer_create_capacity junk sz : 2 <= sz <= 2 ^ 30 ->
  exists rb, ffado_ringbuffer_create junk sz = Some rb /\ rb_wf rb /\ rb_contents rb = []
  /\ sz <= rb_size rb < 2 * sz
  /\ (queue_capacity rb < sz <-> rb_size rb = sz).
Proof.
  intros Hs. destruct (create_power_total 30 1 sz) as [k E]; [lia..|].
  destruct (ffado_ringbuffer_create junk sz) as [rb|] eqn:C.
  2: { unfold ffado_ringbuffer_create in C. by rewrite E in C. }
  exists rb. destruct (create_ok _ _ _ C) as (W & N & L & U).
  split; [done|]. split; [done|]. split; [done|]. unfold queue_capacity. lia.
Qed.

Lemma ringbuffer_create_capacity_witness :
  exists rb, ffado_ringbuffer_create (fun _ => 0) 16 = Some rb /\ queue_capacity rb = 15.
Proof.
  destruct (ringbuffer_create_capacity (fun _ => 0) 16) as (rb & E & _); [lia|].
  exists rb. split; [done|]. vm_compute in E. injection E as <-. reflexivity.
Defined.

(** The lengths of the two vectors. *)
Lemma write_vector_spec rb : rb_wf rb ->
  let '(v0, v1) := ffado_ringbuffer_get_write_vector rb in
  vec_buf v0 = Some (rb_write_ptr rb)
  /\ vec_len v0 + vec_len v1 = ffado_ringbuffer_write_space rb
  /\ vec_len v0 = Z.min (ffado_ringbuffer_write_space rb) (rb_size rb - rb_write_ptr rb).
Proof.
  intros WF. pose proof (rb_size_bounds _ WF). pose proof (rb_fill_bounds _ WF).
  pose proof (wf_read _ WF). pose proof (wf_write _ WF).
  unfold ffado_ringbuffer_get_write_vector. fold (ffado_ringbuffer_write_space rb).
  rewrite write_space_eq by done. rewrite wrapU_small by lia.
  destruct (Z.ltb_spec (rb_size rb) (rb_write_ptr rb + (rb_size rb - 1 - rb_fill rb))); simpl.
  - rewrite land_size_mask, wrapU_small, mod_once by (done || lia). split; [done|]. zcases; lia.
  - split; [done|]. lia.
Qed.

Lemma read_vector_spec rb : rb_wf rb ->
  let '(v0, v1) := ffado_ringbuffer_get_read_vector rb in
  vec_buf v0 = Some (rb_read_ptr rb) /\ vec_len v0 + vec_len v1 = rb_fill rb
  /\ vec_len v0 = Z.min (rb_fill rb) (rb_size rb - rb_read_ptr rb).
Proof.
  intros WF. pose proof (rb_size_bounds _ WF). pose proof (rb_fill_bounds _ WF).
  pose proof (wf_read _ WF). pose proof (wf_write _ WF).
  unfold ffado_ringbuffer_get_read_vector. fold (ffado_ringbuffer_read_space rb).
  rewrite read_space_eq by done. rewrite wrapU_small by lia.
  destruct (Z.ltb_spec (rb_size rb) (rb_read_ptr rb + rb_fill rb)); simpl.
  - rewrite land_size_mask, wrapU_small, mod_once by (done || lia). split; [done|]. zcases; lia.
  - split; [done|]. lia.
Qed.

(** The vectors of the zero-copy interface: the segments of the read vector spell out the
    stored bytes, the lengths of the write vector add up to the free space, and the first
    write segment is the longest one that starts at the write pointer without wrapping. *)
Theorem ringbuffer_vectors rb : rb_wf rb ->
  (let '(v0, v1) := ffado_ringbuffer_get_read_vector rb in
   vec_buf v0 = Some (rb_read_ptr rb)
   /\ slice (default 0 (vec_buf v0)) (vec_len v0) (rb_buf rb)
      ++ slice (default 0 (vec_buf v1)) (vec_len v1) (rb_buf rb) = rb_contents rb)
  /\ (let '(v0, v1) := ffado_ringbuffer_get_write_vector rb in
      vec_buf v0 = Some (rb_write_ptr rb)
      /\ vec_len v0 + vec_len v1 = ffado_ringbuffer_write_space rb
      /\ vec_len v0 = Z.min (ffado_ringbuffer_write_space rb) (rb_size rb - rb_write_ptr rb)).
Proof.
  intros WF. pose proof (rb_size_bounds _ WF). pose proof (rb_fill_bounds _ WF).
  pose proof (wf_read _ WF). pose proof (wf_write _ WF).
  assert (take (Z.to_nat (rb_fill rb)) (rb_contents rb) = rb_contents rb) as take_all.
  { apply take_ge. pose proof (zlength_contents _ WF). unfold zlength in *. lia. }
  split.
  - pose proof (read_pieces rb (rb_fill rb) WF ltac:(lia)) as P.
    unfold ffado_ringbuffer_get_read_vector. fold (ffado_ringbuffer_read_space rb).
    rewrite read_space_eq by done.
    unfold split_at_end in P. rewrite wrapU_small by lia. rewrite wrapU_small in P by lia.
    destruct (Z.ltb_spec (rb_size rb) (rb_read_ptr rb + rb_fill rb)); simpl; (split; [done|]).
    all: rewrite ?wrapU_small in * by lia; rewrite ?land_size_mask in * by done.
    + rewrite mod_once in * by lia. destruct (Z.ltb_spec (rb_read_ptr rb + rb_fill rb) (rb_size rb)); [lia|].
      cbv zeta in P. destruct (Z.eqb_spec (rb_read_ptr rb + rb_fill rb - rb_size rb) 0); [lia|].
      destruct P as (_ & _ & _ & P). rewrite take_all in P. rewrite <- P. f_equal.
      destruct (read_advance_ok rb WF (rb_size rb - rb_read_ptr rb)) as (_ & _ & _ & _ & R & B); [lia|].
      rewrite R, B. replace (rb_read_ptr rb + (rb_size rb - rb_read_ptr rb)) with (1 * rb_size rb) by lia.
      by rewrite Z_mod_mult.
    + cbv zeta in P. rewrite Z.eqb_refl in P. destruct P as (_ & _ & _ & P).
      rewrite P. unfold slice. simpl. by rewrite app_nil_r, take_all.
  - by apply write_vector_spec.
Qed.

Lemma ringbuffer_vectors_witness :
  ffado_ringbuffer_get_read_vector wrapped_rb = (mkVec (Some 6) 2, mkVec (Some 0) 2)
  /\ rb_contents wrapped_rb = [1; 2; 3; 4].
Proof.
  destruct (ringbuffer_vectors wrapped_rb wrapped_rb_wf) as [[_ P] _].
  split; [reflexivity|]. rewrite <- P. reflexivity.
Defined.
