(* ===== verification/RingThreads.v ===== *)
(** * The ring buffer between two threads

    [src/libutil/ringbuffer.c] takes no lock: one thread calls [ffado_ringbuffer_write] while
    another calls [ffado_ringbuffer_read] on the same buffer.  Here a call is cut into the
    accesses it makes to the shared block and the shared pointers: reading the other
    thread's pointer and cutting the transfer in two, copying one byte of a [memcpy] (in any
    order), and storing the own pointer.  Memory is sequentially consistent; the pointers are
    [volatile size_t].  [spsc_fifo] shows that in every interleaving of one writer and one
    reader the bytes come out in the order they went in, although the two threads copy at
    the same time, and [calls_wait_free] that a call whose steps are not interleaved is
    the operation of the sequential model. *)
From S2P Require Import Prelude RingBuffer.

(** ** Threads *)

(** The writer copies the bytes [d] of the current [memcpy] to the write pointer; [pending]
    are the offsets still to be copied and [rest] is what the second [memcpy] copies. *)
Inductive writer := WIdle | WCopy (d : list Z) (pending : list nat) (rest : list Z).

(** The reader copies to the destination [dest] of the current [memcpy]; [rest] is the
    destination of the second one. *)
Inductive reader := RIdle | RCopy (dest : list Z) (pending : list nat) (rest : list Z).

(** [th_submitted] are the bytes the calls of the writer undertake to store,
    [th_delivered] the bytes the reader has copied and released, and [th_promised] the sum
    of the counts the calls of the reader return. *)
Record threads := mkThreads {
  th_rb : ffado_ringbuffer_t;
  th_writer : writer;
  th_reader : reader;
  th_submitted : list Z;
  th_delivered : list Z;
  th_promised : Z }.

(** [Blocked]: the thread has no such step now; [Fault]: an access outside the block or
    outside the caller's memory. *)
Inductive ring_outcome := Next (s : threads) | Blocked | Fault.

(** [ffado_ringbuffer_write] up to the first [memcpy]; also its return value. *)
Definition write_begin (rb : ffado_ringbuffer_t) (src : list Z) : writer * Z :=
  let free_cnt := ffado_ringbuffer_write_space rb in
  if free_cnt =? 0 then (WIdle, 0) else
  let to_write := if free_cnt <? zlength src then free_cnt else zlength src in
  let '(n1, n2) := split_at_end rb (rb_write_ptr rb) to_write in
  (WCopy (slice 0 n1 src) (seq 0 (Z.to_nat n1)) (slice n1 n2 src), to_write).

(** One byte of [memcpy (&(rb->buf[rb->write_ptr]), ...)]. *)
Definition write_store (s : threads) (j : nat) : ring_outcome :=
  match th_writer s with
  | WIdle => Blocked
  | WCopy d pending rest =>
      if decide (j ∈ pending) then
        let rb := th_rb s in let p := (Z.to_nat (rb_write_ptr rb) + j)%nat in
        match d !! j, rb_buf rb !! p with
        | Some b, Some _ =>
            Next (mkThreads (set_buf (<[p := b]> (rb_buf rb)) rb)
                    (WCopy d (filter (.≠ j) pending) rest) (th_reader s)
                    (th_submitted s) (th_delivered s) (th_promised s))
        | _, _ => Fault
        end
      else Blocked
  end.

(** The store to [rb->write_ptr] after a [memcpy], and [if (n2)]. *)
Definition write_commit (s : threads) : ring_outcome :=
  match th_writer s with
  | WCopy d [] rest =>
      Next (mkThreads (ffado_ringbuffer_write_advance (th_rb s) (zlength d))
              (match rest with [] => WIdle | _ => WCopy rest (seq 0 (length rest)) [] end)
              (th_reader s) (th_submitted s) (th_delivered s) (th_promised s))
  | _ => Blocked
  end.

(** [ffado_ringbuffer_read] up to the first [memcpy], with the caller's memory [dest]. *)
Definition read_begin (rb : ffado_ringbuffer_t) (dest : list Z) : reader * Z :=
  let free_cnt := ffado_ringbuffer_read_space rb in
  if free_cnt =? 0 then (RIdle, 0) else
  let to_read := if free_cnt <? zlength dest then free_cnt else zlength dest in
  let '(n1, n2) := split_at_end rb (rb_read_ptr rb) to_read in
  (RCopy (slice 0 n1 dest) (seq 0 (Z.to_nat n1)) (slice n1 n2 dest), to_read).

(** One byte of [memcpy (..., &(rb->buf[rb->read_ptr]), ...)]. *)
Definition read_load (s : threads) (j : nat) : ring_outcome :=
  match th_reader s with
  | RIdle => Blocked
  | RCopy dest pending rest =>
      if decide (j ∈ pending) then
        let rb := th_rb s in
        match dest !! j, rb_buf rb !! (Z.to_nat (rb_read_ptr rb) + j)%nat with
        | Some _, Some b =>
            Next (mkThreads rb (th_writer s) (RCopy (<[j := b]> dest) (filter (.≠ j) pending) rest)
                    (th_submitted s) (th_delivered s) (th_promised s))
        | _, _ => Fault
        end
      else Blocked
  end.

(** The store to [rb->read_ptr] after a [memcpy], and [if (n2)]. *)
Definition read_commit (s : threads) : ring_outcome :=
  match th_reader s with
  | RCopy dest [] rest =>
      Next (mkThreads (ffado_ringbuffer_read_advance (th_rb s) (zlength dest)) (th_writer s)
              (match rest with [] => RIdle | _ => RCopy rest (seq 0 (length rest)) [] end)
              (th_submitted s) (th_delivered s ++ dest) (th_promised s))
  | _ => Blocked
  end.

Inductive ring_action :=
  | CallWrite (src : list Z) | Store (j : nat) | CommitWrite
  | CallRead (dest : list Z) | LoadByte (j : nat) | CommitRead.

Definition ring_act (s : threads) (a : ring_action) : ring_outcome :=
  match a with
  | CallWrite src =>
      match th_writer s with
      | WIdle =>
          let '(w, n) := write_begin (th_rb s) src in
          Next (mkThreads (th_rb s) w (th_reader s) (th_submitted s ++ take (Z.to_nat n) src)
                  (th_delivered s) (th_promised s))
      | _ => Blocked
      end
  | Store j => write_store s j
  | CommitWrite => write_commit s
  | CallRead dest =>
      match th_reader s with
      | RIdle =>
          let '(r, n) := read_begin (th_rb s) dest in
          Next (mkThreads (th_rb s) (th_writer s) r (th_submitted s) (th_delivered s)
                  (th_promised s + n))
      | _ => Blocked
      end
  | LoadByte j => read_load s j
  | CommitRead => read_commit s
  end.

(** A schedule of the two threads. *)
Fixpoint ring_run (s : threads) (l : list ring_action) : ring_outcome :=
  match l with
  | [] => Next s
  | a :: l => match ring_act s a with Next s => ring_run s l | o => o end
  end.

(** Both threads idle on a buffer nothing has been written to. *)
Definition ring_start (rb : ffado_ringbuffer_t) : threads := mkThreads rb WIdle RIdle [] [] 0.

(** ** Invariant *)

(** The bytes the writer still has to make visible. *)
Definition in_flight (w : writer) : list Z :=
  match w with WIdle => [] | WCopy d _ rest => d ++ rest end.

(** The number of bytes the reader still has to release. *)
Definition outstanding (r : reader) : Z :=
  match r with RIdle => 0 | RCopy dest _ rest => zlength dest + zlength rest end.

(** The bytes being copied are in the part of the block that belongs to the writer, and
    those already copied are in place. *)
Definition writer_ok (rb : ffado_ringbuffer_t) (w : writer) : Prop :=
  match w with
  | WIdle => True
  | WCopy d pending rest =>
      rb_fill rb + zlength d + zlength rest < rb_size rb
      /\ rb_write_ptr rb + zlength d <= rb_size rb
      /\ (rest = [] \/ rb_write_ptr rb + zlength d = rb_size rb)
      /\ (forall j, (j < length d)%nat -> j ∉ pending ->
            rb_buf rb !! (Z.to_nat (rb_write_ptr rb) + j)%nat = d !! j)
      /\ (forall j, j ∈ pending -> (j < length d)%nat)
  end.

(** The bytes being copied are stored ones, and those already copied are the oldest. *)
Definition reader_ok (rb : ffado_ringbuffer_t) (r : reader) : Prop :=
  match r with
  | RIdle => True
  | RCopy dest pending rest =>
      zlength dest + zlength rest <= rb_fill rb
      /\ rb_read_ptr rb + zlength dest <= rb_size rb
      /\ (rest = [] \/ rb_read_ptr rb + zlength dest = rb_size rb)
      /\ (forall j, (j < length dest)%nat -> j ∉ pending -> dest !! j = rb_contents rb !! j)
      /\ (forall j, j ∈ pending -> (j < length dest)%nat)
  end.

Record spsc (s : threads) : Prop := {
  spsc_wf : rb_wf (th_rb s);
  spsc_writer : writer_ok (th_rb s) (th_writer s);
  spsc_reader : reader_ok (th_rb s) (th_reader s);
  spsc_fifo_bytes : th_submitted s
    = th_delivered s ++ rb_contents (th_rb s) ++ in_flight (th_writer s);
  spsc_counts : th_promised s = zlength (th_delivered s) + outstanding (th_reader s) }.

(** ** Lemmas *)

(** Bytes that are all in place need not be copied. *)
Lemma inserts_in_place (l d : list Z) p : (p + length d <= length l)%nat ->
  (forall j, (j < length d)%nat -> l !! (p + j)%nat = d !! j) -> list_inserts p d l = l.
Proof.
  intros Hp H. apply list_eq. intros i.
  destruct (decide (p <= i < p + length d)%nat) as [I|I].
  - rewrite list_lookup_inserts by lia. rewrite <- H by lia. f_equal. lia.
  - destruct (decide (i < p)%nat).
    + by rewrite list_lookup_inserts_lt by lia.
    + by rewrite list_lookup_inserts_ge by lia.
Qed.

(** A byte stored outside the stored region leaves the contents alone. *)
Lemma store_outside rb j b : rb_wf rb ->
  rb_fill rb + Z.of_nat j < rb_size rb -> rb_write_ptr rb + Z.of_nat j < rb_size rb ->
  let rb' := set_buf (<[(Z.to_nat (rb_write_ptr rb) + j)%nat := b]> (rb_buf rb)) rb in
  rb_wf rb' /\ rb_contents rb' = rb_contents rb.
Proof.
  intros WF Hf Hw. cbv zeta. pose proof (wf_read _ WF). pose proof (wf_write _ WF).
  pose proof (wf_buf _ WF) as B. pose proof (rb_fill_bounds _ WF). pose proof (rb_fill_cases _ WF) as C.
  unfold zlength in *. split.
  - destruct WF. split; try done. simpl. unfold zlength. by rewrite length_insert.
  - unfold rb_contents. simpl. change (rb_fill (set_buf _ rb)) with (rb_fill rb).
    change (<[?p := b]> (rb_buf rb)) with (list_inserts p [b] (rb_buf rb)).
    apply ring_slice_inserts_ne; simpl; [lia..|].
    destruct (Z.ltb_spec (rb_write_ptr rb) (rb_read_ptr rb)); case_decide; lia.
Qed.

Lemma not_pending_filter (j k : nat) (pending : list nat) : k ∉ filter (.≠ j) pending -> k = j \/ k ∉ pending.
Proof. rewrite list_elem_of_filter. destruct (decide (k = j)); tauto. Qed.

(** What a thread needs stays true when the other one moves. *)
Lemma reader_more rb rb' r : reader_ok rb r -> rb_size rb' = rb_size rb ->
  rb_read_ptr rb' = rb_read_ptr rb -> rb_fill rb <= rb_fill rb' ->
  (exists more, rb_contents rb' = rb_contents rb ++ more) -> rb_wf rb -> reader_ok rb' r.
Proof.
  destruct r as [|dest pending rest]; [done|]. intros (F & E & R & D & P) S Q G [more C] WF.
  simpl. rewrite S, Q. split_and!; try done; [lia|]. intros j Hj N. rewrite C, lookup_app_l; [by apply D|].
  pose proof (zlength_contents _ WF). pose proof (zlength_nonneg rest). unfold zlength in *. lia.
Qed.

Lemma writer_more rb rb' w : writer_ok rb w -> rb_size rb' = rb_size rb ->
  rb_write_ptr rb' = rb_write_ptr rb -> rb_fill rb' <= rb_fill rb -> rb_buf rb' = rb_buf rb ->
  writer_ok rb' w.
Proof.
  destruct w as [|d pending rest]; [done|]. intros (F & E & R & D & P) S Q G B.
  simpl. rewrite S, Q, B. split_and!; try done. lia.
Qed.

(** Cutting a transfer of [n] bytes from or to the memory [m] in two. *)
Lemma cut_spec rb p n (m : list Z) : rb_wf rb -> 0 <= p < rb_size rb -> 0 <= n < rb_size rb ->
  n <= zlength m ->
  let '(n1, n2) := split_at_end rb p n in
  zlength (slice 0 n1 m) = n1 /\ zlength (slice n1 n2 m) = n2 /\ 0 <= n1 /\ 0 <= n2 /\ n1 + n2 = n
  /\ p + n1 <= rb_size rb /\ (slice n1 n2 m = [] \/ p + n1 = rb_size rb)
  /\ slice 0 n1 m ++ slice n1 n2 m = take (Z.to_nat n) m.
Proof.
  intros WF Hp Hn Hm. rewrite split_at_end_eq by done.
  destruct (Z.ltb_spec (rb_size rb) (p + n)).
  - rewrite !zlength_slice by lia. split_and!; try lia.
    rewrite slice_0, take_slice by lia. do 2 f_equal. lia.
  - rewrite !zlength_slice by lia. split_and!; try lia; [by left|].
    rewrite slice_0. unfold slice. by rewrite app_nil_r.
Qed.

(** A [memcpy] that has not begun. *)
Lemma writer_fresh rb d rest : rb_fill rb + zlength d + zlength rest < rb_size rb ->
  rb_write_ptr rb + zlength d <= rb_size rb ->
  (rest = [] \/ rb_write_ptr rb + zlength d = rb_size rb) ->
  writer_ok rb (WCopy d (seq 0 (length d)) rest).
Proof.
  intros. split_and!; try done; intros j; rewrite elem_of_seq; [|lia]. intros ? N. destruct N. lia.
Qed.

Lemma reader_fresh rb dest rest : zlength dest + zlength rest <= rb_fill rb ->
  rb_read_ptr rb + zlength dest <= rb_size rb ->
  (rest = [] \/ rb_read_ptr rb + zlength dest = rb_size rb) ->
  reader_ok rb (RCopy dest (seq 0 (length dest)) rest).
Proof.
  intros. split_and!; try done; intros j; rewrite elem_of_seq; [|lia]. intros ? N. destruct N. lia.
Qed.

Section steps.
Context (s : threads) (I : spsc s).

Lemma call_write_ok src : th_writer s = WIdle ->
  exists s', ring_act s (CallWrite src) = Next s' /\ spsc s'.
Proof.
  intros W. destruct I as [WF _ R F C]. simpl. rewrite W in *.
  pose proof (rb_fill_bounds _ WF). pose proof (wf_write _ WF). pose proof (zlength_nonneg src).
  unfold write_begin. rewrite write_space_eq by done.
  destruct (Z.eqb_spec (rb_size (th_rb s) - 1 - rb_fill (th_rb s)) 0) as [Z0|Z0].
  - eexists. split; [done|]. split; simpl; try done. by rewrite app_nil_r, F.
  - set (n := if _ <? _ then _ else _).
    assert (0 <= n /\ n <= zlength src /\ n <= rb_size (th_rb s) - 1 - rb_fill (th_rb s)) as Hn
      by (subst n; zcases; lia).
    pose proof (cut_spec _ (rb_write_ptr (th_rb s)) n src WF ltac:(done) ltac:(lia) ltac:(lia)) as K.
    destruct (split_at_end _ _ n) as [n1 n2]. destruct K as (L1 & L2 & ? & ? & ? & ? & E & T).
    eexists. split; [done|]. split; simpl; try done.
    + replace (Z.to_nat n1) with (length (slice 0 n1 src)) by (unfold zlength in L1; lia).
      apply writer_fresh; rewrite ?L1, ?L2; (done || lia).
    + rewrite F, T. simpl. by rewrite app_nil_r, app_assoc.
Qed.

Lemma call_read_ok dest : th_reader s = RIdle ->
  exists s', ring_act s (CallRead dest) = Next s' /\ spsc s'.
Proof.
  intros W. destruct I as [WF R _ F C]. simpl. rewrite W in *.
  pose proof (rb_fill_bounds _ WF). pose proof (wf_read _ WF). pose proof (zlength_nonneg dest).
  unfold read_begin. rewrite read_space_eq by done. simpl in C.
  destruct (Z.eqb_spec (rb_fill (th_rb s)) 0) as [Z0|Z0].
  - eexists. split; [done|]. split; simpl; try done. lia.
  - set (n := if _ <? _ then _ else _).
    assert (0 <= n /\ n <= zlength dest /\ n <= rb_fill (th_rb s)) as Hn by (subst n; zcases; lia).
    pose proof (cut_spec _ (rb_read_ptr (th_rb s)) n dest WF ltac:(done) ltac:(lia) ltac:(lia)) as K.
    destruct (split_at_end _ _ n) as [n1 n2]. destruct K as (L1 & L2 & ? & ? & ? & ? & E & T).
    eexists. split; [done|]. split; simpl; try done.
    + replace (Z.to_nat n1) with (length (slice 0 n1 dest)) by (unfold zlength in L1; lia).
      apply reader_fresh; rewrite ?L1, ?L2; (done || lia).
    + lia.
Qed.

Lemma store_ok j : write_store s j = Blocked \/ exists s', write_store s j = Next s' /\ spsc s'.
Proof.
  destruct I as [WF W R F C]. unfold write_store.
  destruct (th_writer s) as [|d pending rest]; [by left|]. destruct (decide (j ∈ pending)) as [Hj|]; [|by left].
  right. destruct W as (Hf & Hw & Hr & D & P). specialize (P j Hj) as Lj.
  pose proof (wf_write _ WF). pose proof (wf_buf _ WF) as B. pose proof (zlength_nonneg rest).
  destruct (lookup_lt_is_Some_2 d j Lj) as [b Eb]. unfold zlength in *.
  destruct (lookup_lt_is_Some_2 (rb_buf (th_rb s)) (Z.to_nat (rb_write_ptr (th_rb s)) + j)) as [x Ex]; [lia|].
  rewrite Eb, Ex. eexists. split; [done|].
  destruct (store_outside (th_rb s) j b WF) as [WF' C']; [lia..|].
  split; simpl; try done; [| |by rewrite F, C'].
  - split_and!; try done.
    + intros k Hk N. apply not_pending_filter in N as [->|N]; [rewrite list_lookup_insert_eq by lia; done|].
      destruct (decide (k = j)) as [->|]; [done|]. rewrite list_lookup_insert_ne by lia. by apply D.
    + intros k Hk. apply list_elem_of_filter in Hk as [_ Hk]. by apply P.
  - apply (reader_more (th_rb s)); try done. exists []. by rewrite app_nil_r.
Qed.

Lemma load_ok j : read_load s j = Blocked \/ exists s', read_load s j = Next s' /\ spsc s'.
Proof.
  destruct I as [WF W R F C]. unfold read_load.
  destruct (th_reader s) as [|dest pending rest]; [by left|]. destruct (decide (j ∈ pending)) as [Hj|]; [|by left].
  right. destruct R as (Hf & Hr & Hrest & D & P). specialize (P j Hj) as Lj.
  pose proof (wf_read _ WF). pose proof (wf_buf _ WF) as B. pose proof (zlength_nonneg rest).
  pose proof (rb_fill_bounds _ WF).
  destruct (lookup_lt_is_Some_2 dest j Lj) as [x Ex]. unfold zlength in *.
  assert (rb_buf (th_rb s) !! (Z.to_nat (rb_read_ptr (th_rb s)) + j)%nat = rb_contents (th_rb s) !! j) as E.
  { unfold rb_contents. rewrite ring_slice_lookup by lia. by rewrite decide_True by lia. }
  destruct (lookup_lt_is_Some_2 (rb_buf (th_rb s)) (Z.to_nat (rb_read_ptr (th_rb s)) + j)) as [b Eb]; [lia|].
  rewrite Ex, Eb. eexists. split; [done|]. split; simpl; try done.
  - unfold zlength. rewrite length_insert. split_and!; try done.
    + intros k Hk N. apply not_pending_filter in N as [->|N].
      * rewrite list_lookup_insert_eq by lia. by rewrite <- E, Eb.
      * destruct (decide (k = j)) as [->|]; [rewrite list_lookup_insert_eq by lia; by rewrite <- E, Eb|].
        rewrite list_lookup_insert_ne by lia. by apply D.
    + intros k Hk. apply list_elem_of_filter in Hk as [_ Hk]. by apply P.
  - simpl in C. unfold zlength in *. by rewrite length_insert.
Qed.

(** The bytes of a finished [memcpy] are stored by moving the write pointer. *)
Lemma commit_contents d rest : th_writer s = WCopy d [] rest ->
  let rb' := ffado_ringbuffer_write_advance (th_rb s) (zlength d) in
  rb_wf rb' /\ rb_contents rb' = rb_contents (th_rb s) ++ d
  /\ rb_fill rb' = rb_fill (th_rb s) + zlength d
  /\ rb_write_ptr rb' = (rb_write_ptr (th_rb s) + zlength d) mod rb_size (th_rb s).
Proof.
  intros E. destruct I as [WF W _ _ _]. rewrite E in W. destruct W as (Hf & Hw & Hr & D & P).
  pose proof (wf_write _ WF). pose proof (wf_buf _ WF) as B. pose proof (zlength_nonneg rest).
  destruct (write_contiguous (th_rb s) WF d) as (WF' & C' & F' & S' & W'); [lia..|].
  assert (memcpy_at_write_ptr (th_rb s) d = th_rb s) as M.
  { unfold memcpy_at_write_ptr. rewrite inserts_in_place; [by destruct (th_rb s)| |].
    - unfold zlength in *. lia.
    - intros j Hj. apply D; [done|]. apply not_elem_of_nil. }
  rewrite M in *. done.
Qed.

Lemma commit_write_ok :
  write_commit s = Blocked \/ exists s', write_commit s = Next s' /\ spsc s'.
Proof.
  pose proof commit_contents as K. unfold write_commit. destruct I as [WF W R F C].
  destruct (th_writer s) as [|d [|] rest]; [by left| |by left]. right.
  destruct (K d rest eq_refl) as (WF' & C' & F' & W'). destruct W as (Hf & Hw & Hr & D & P).
  pose proof (wf_write _ WF). pose proof (zlength_nonneg d). pose proof (rb_size_bounds _ WF).
  eexists. split; [done|]. split; simpl; try done.
  - destruct rest as [|x rest]; [done|]. destruct Hr as [?|Hr]; [done|].
    rewrite Hr, Z_mod_same_full in W'. pose proof (rb_fill_bounds _ WF).
    apply (writer_fresh _ (x :: rest) []); [|rewrite W'; simpl; lia|by left].
    rewrite F'. change (zlength []) with 0. simpl. lia.
  - apply (reader_more (th_rb s)); try done; [lia|]. by exists d.
  - rewrite F, C', <- !app_assoc. simpl. do 3 f_equal.
    destruct rest; simpl; by rewrite ?app_nil_r.
Qed.

Lemma commit_read_ok :
  read_commit s = Blocked \/ exists s', read_commit s = Next s' /\ spsc s'.
Proof.
  unfold read_commit. destruct I as [WF W R F C].
  destruct (th_reader s) as [|dest [|] rest]; [by left| |by left]. right.
  destruct R as (Hf & Hw & Hr & D & P). pose proof (wf_read _ WF). pose proof (zlength_nonneg rest).
  pose proof (zlength_nonneg dest). pose proof (zlength_contents _ WF) as L.
  pose proof (rb_fill_bounds _ WF).
  destruct (read_advance_ok (th_rb s) WF (zlength dest)) as (WF' & C' & F' & S' & R' & B'); [lia|].
  assert (dest = take (length dest) (rb_contents (th_rb s))) as E.
  { apply list_eq_same_length with (n := length dest); [|done|].
    - rewrite length_take. unfold zlength in *. lia.
    - intros j x y Hj. rewrite lookup_take_lt by done.
      rewrite D by (done || apply not_elem_of_nil). congruence. }
  eexists. split; [done|]. split; simpl; try done.
  - apply (writer_more (th_rb s)); try done. lia.
  - destruct rest as [|x rest]; [done|]. destruct Hr as [?|Hr]; [done|].
    rewrite Hr, Z_mod_same_full in R'.
    apply (reader_fresh _ (x :: rest) []); [|rewrite R'; simpl; lia|by left].
    rewrite F'. change (zlength []) with 0. lia.
  - rewrite F, C'. unfold zlength. rewrite Nat2Z.id. rewrite E at 1.
    rewrite <- app_assoc. f_equal. rewrite app_assoc. by rewrite take_drop.
  - rewrite C, zlength_app. simpl. destruct rest; simpl; change (zlength []) with 0; lia.
Qed.

Lemma act_ok a : ring_act s a = Blocked \/ exists s', ring_act s a = Next s' /\ spsc s'.
Proof.
  destruct a as [src|j| |dest|j|].
  - destruct (th_writer s) eqn:E; [right; by apply call_write_ok|left; simpl; by rewrite E].
  - apply store_ok.
  - apply commit_write_ok.
  - destruct (th_reader s) eqn:E; [right; by apply call_read_ok|left; simpl; by rewrite E].
  - apply load_ok.
  - apply commit_read_ok.
Qed.
End steps.

Lemma run_ok s l : spsc s ->
  ring_run s l = Blocked \/ exists s', ring_run s l = Next s' /\ spsc s'.
Proof.
  revert s. induction l as [|a l IH]; intros s I; simpl; [by right; exists s|].
  destruct (act_ok s I a) as [->|(s' & -> & I')]; [by left|by apply IH].
Qed.

Lemma start_ok rb : rb_wf rb -> rb_contents rb = [] -> spsc (ring_start rb).
Proof. intros WF E. split; simpl; rewrite ?E; done. Qed.

(** ** First in, first out between two threads *)

(** C5. Lock-freedom of the ring buffer is sound: whatever the interleaving of the byte
    copies and pointer stores of one writing and one reading thread on a created buffer, no
    access is outside the block or the callers' memory; the bytes the writer's calls
    undertook to store are those the reader released, then those stored, then those still
    being copied; every byte the reader has copied so far is the stored one at that place;
    and between calls the reader has received exactly the counts its calls returned. *)
Theorem spsc_fifo junk sz rb l : ffado_ringbuffer_create junk sz = Some rb ->
  ring_run (ring_start rb) l <> Fault
  /\ forall s, ring_run (ring_start rb) l = Next s ->
     th_submitted s = th_delivered s ++ rb_contents (th_rb s) ++ in_flight (th_writer s)
     /\ zlength (rb_contents (th_rb s)) + zlength (in_flight (th_writer s)) <= queue_capacity (th_rb s)
     /\ th_promised s = zlength (th_delivered s) + outstanding (th_reader s)
     /\ (forall dest pending rest j, th_reader s = RCopy dest pending rest ->
           (j < length dest)%nat -> j ∉ pending -> dest !! j = rb_contents (th_rb s) !! j).
Proof.
  intros E. destruct (create_ok _ _ _ E) as (WF & C & _).
  destruct (run_ok _ l (start_ok rb WF C)) as [->|(s & -> & I)]; [done|]. split; [done|].
  intros ? [= <-]. destruct I as [WF' W R F N]. split; [done|]. split; [|split; [done|]].
  - rewrite (zlength_contents _ WF'). pose proof (rb_fill_bounds _ WF'). unfold queue_capacity.
    destruct (th_writer s) as [|d p rest]; simpl; [change (zlength []) with 0; lia|].
    rewrite zlength_app. destruct W as [W _]. lia.
  - intros dest pending rest j Er. rewrite Er in R. destruct R as (_ & _ & _ & D & _). apply D.
Qed.

(** Both threads copy at the same time: the reader takes five bytes while the writer,
    which wraps around the end of the block, adds four. *)
Definition busy_schedule : list ring_action :=
  CallWrite [1; 2; 3; 4; 5; 6] :: map Store [5; 4; 3; 2; 1; 0]%nat
  ++ [CommitWrite; CallRead [0; 0; 0]; LoadByte 0; LoadByte 2; LoadByte 1; CommitRead;
      CallRead [0; 0]; CallWrite [7; 8; 9; 10]; Store 1; LoadByte 1; Store 0; CommitWrite;
      LoadByte 0; Store 0; CommitRead; Store 1; CommitWrite; CallRead (replicate 9 0); LoadByte 1].

Lemma spsc_fifo_witness :
  exists s, ring_run (ring_start (mkRB (replicate 8 0) 0 0 8 7 0)) busy_schedule = Next s
    /\ th_submitted s = th_delivered s ++ rb_contents (th_rb s) ++ in_flight (th_writer s)
    /\ th_delivered s = [1; 2; 3; 4; 5] /\ th_reader s = RCopy [0; 7; 0] [0; 2]%nat [0; 0].
Proof.
  destruct (spsc_fifo (fun _ => 0) 7 (mkRB (replicate 8 0) 0 0 8 7 0) busy_schedule) as [_ P];
    [vm_compute; reflexivity|].
  eexists. split; [vm_compute; reflexivity|]. split; [apply P; vm_compute; reflexivity|].
  vm_compute. split; reflexivity.
Defined.

(** ** Calls that are not interleaved *)

Definition copy_schedule (step : nat -> ring_action) (commit : ring_action) (d rest : list Z)
  : list ring_action :=
  (step <$> seq 0 (length d)) ++ commit
  :: match rest with [] => [] | _ => (step <$> seq 0 (length rest)) ++ [commit] end.

(** The steps of one whole call. *)
Definition write_schedule (rb : ffado_ringbuffer_t) (src : list Z) : list ring_action :=
  CallWrite src :: match (write_begin rb src).1 with
                   | WIdle => []
                   | WCopy d _ rest => copy_schedule Store CommitWrite d rest
                   end.

Definition read_schedule (rb : ffado_ringbuffer_t) (dest : list Z) : list ring_action :=
  CallRead dest :: match (read_begin rb dest).1 with
                   | RIdle => []
                   | RCopy d _ rest => copy_schedule LoadByte CommitRead d rest
                   end.

Lemma filter_seq_above i j n : (i < j)%nat -> filter (.≠ i) (seq j n) = seq j n.
Proof.
  revert j. induction n as [|n IH]; intros j L; [done|]. simpl.
  rewrite filter_cons_True by lia. f_equal. apply IH. lia.
Qed.

Lemma filter_seq_first i n : filter (.≠ i) (i :: seq (S i) n) = seq (S i) n.
Proof. rewrite filter_cons_False by (intros N; by apply N). apply filter_seq_above. lia. Qed.

(** The byte copies of one [memcpy], in ascending order. *)
Lemma stores_run rb r sub del pro d0 d rest l i : drop i d0 = d ->
  (Z.to_nat (rb_write_ptr rb) + i + length d <= length (rb_buf rb))%nat ->
  ring_run (mkThreads rb (WCopy d0 (seq i (length d)) rest) r sub del pro)
    ((Store <$> seq i (length d)) ++ l)
  = ring_run (mkThreads (set_buf (list_inserts (Z.to_nat (rb_write_ptr rb) + i) d (rb_buf rb)) rb)
                (WCopy d0 [] rest) r sub del pro) l.
Proof.
  revert rb i. induction d as [|b d IH]; intros rb i E L; simpl in *.
  - do 2 f_equal. by destruct rb.
  - unfold write_store. simpl. rewrite decide_True by constructor.
    assert (d0 !! i = Some b) as Eb by (rewrite <- (Nat.add_0_r i), <- lookup_drop, E; done).
    destruct (lookup_lt_is_Some_2 (rb_buf rb) (Z.to_nat (rb_write_ptr rb) + i)) as [x Ex]; [lia|].
    rewrite Eb, Ex, filter_seq_first. rewrite IH; simpl.
    + rewrite Nat.add_succ_r. rewrite list_insert_inserts_lt by lia. done.
    + by rewrite <- Nat.add_1_r, <- drop_drop, E.
    + rewrite length_insert. lia.
Qed.

Lemma loads_run rb w sub del pro d0 rest l n i : length d0 = (i + n)%nat ->
  (Z.to_nat (rb_read_ptr rb) + i + n <= length (rb_buf rb))%nat ->
  ring_run (mkThreads rb w (RCopy d0 (seq i n) rest) sub del pro) ((LoadByte <$> seq i n) ++ l)
  = ring_run (mkThreads rb w
      (RCopy (take i d0 ++ take n (drop (Z.to_nat (rb_read_ptr rb) + i) (rb_buf rb))) [] rest)
      sub del pro) l.
Proof.
  revert d0 i. induction n as [|n IH]; intros d0 i E L; simpl in *.
  - do 3 f_equal. rewrite take_0, app_nil_r, take_ge by lia. done.
  - unfold read_load. simpl. rewrite decide_True by constructor.
    destruct (lookup_lt_is_Some_2 d0 i) as [x Ex]; [lia|].
    destruct (lookup_lt_is_Some_2 (rb_buf rb) (Z.to_nat (rb_read_ptr rb) + i)) as [b Eb]; [lia|].
    rewrite Ex, Eb, filter_seq_first. rewrite IH by (rewrite ?length_insert; lia). do 3 f_equal.
    rewrite (drop_S _ _ _ Eb), Nat.add_succ_r. simpl.
    rewrite (take_S_r _ _ b) by (apply list_lookup_insert_eq; lia).
    by rewrite take_insert_ge, <- app_assoc by lia.
Qed.

(** One [memcpy] and the pointer store after it. *)
Lemma write_piece rb r sub del pro d rest l :
  (Z.to_nat (rb_write_ptr rb) + length d <= length (rb_buf rb))%nat ->
  ring_run (mkThreads rb (WCopy d (seq 0 (length d)) rest) r sub del pro)
    ((Store <$> seq 0 (length d)) ++ CommitWrite :: l)
  = ring_run (mkThreads (ffado_ringbuffer_write_advance (memcpy_at_write_ptr rb d) (zlength d))
       (match rest with [] => WIdle | _ => WCopy rest (seq 0 (length rest)) [] end) r sub del pro) l.
Proof.
  intros L. rewrite stores_run by (rewrite ?drop_0; (done || lia)). simpl.
  unfold memcpy_at_write_ptr. by rewrite Nat.add_0_r.
Qed.

Lemma read_piece rb w sub del pro d rest l :
  (Z.to_nat (rb_read_ptr rb) + length d <= length (rb_buf rb))%nat ->
  ring_run (mkThreads rb w (RCopy d (seq 0 (length d)) rest) sub del pro)
    ((LoadByte <$> seq 0 (length d)) ++ CommitRead :: l)
  = ring_run (mkThreads (ffado_ringbuffer_read_advance rb (zlength d)) w
       (match rest with [] => RIdle | _ => RCopy rest (seq 0 (length rest)) [] end) sub
       (del ++ slice (rb_read_ptr rb) (zlength d) (rb_buf rb)) pro) l.
Proof.
  intros L. rewrite loads_run by lia. simpl. rewrite Nat.add_0_r. unfold slice, zlength.
  rewrite Nat2Z.id, length_take, length_drop. do 4 f_equal. lia.
Qed.

(** A length that is zero and a list that is empty. *)
Lemma zlength_test {A B} (l : list A) n (a b : B) : zlength l = n ->
  (match l with [] => a | _ => b end) = if n =? 0 then a else b.
Proof. intros <-. by destruct l. Qed.

Lemma length_zlength {A} (l : list A) n : zlength l = n -> length l = Z.to_nat n.
Proof. unfold zlength. lia. Qed.

Lemma write_call_run s src : spsc s -> th_writer s = WIdle ->
  let '(rb', n) := ffado_ringbuffer_write (th_rb s) src (zlength src) in
  ring_run s (write_schedule (th_rb s) src)
  = Next (mkThreads rb' WIdle (th_reader s) (th_submitted s ++ take (Z.to_nat n) src)
            (th_delivered s) (th_promised s)).
Proof.
  intros I W. destruct I as [WF _ _ _ _]. destruct s as [rb w r sub del pro]. simpl in *. subst w.
  pose proof (rb_fill_bounds _ WF). pose proof (wf_write _ WF). pose proof (wf_buf _ WF) as B.
  pose proof (zlength_nonneg src). unfold ffado_ringbuffer_write, write_schedule.
  cbn [ring_run ring_act th_writer]. unfold write_begin. rewrite write_space_eq by done.
  destruct (Z.eqb_spec (rb_size rb - 1 - rb_fill rb) 0) as [Z0|Z0]; [done|].
  set (n := if _ <? _ then _ else _).
  assert (0 <= n /\ n <= zlength src /\ n <= rb_size rb - 1 - rb_fill rb) as Hn
    by (subst n; zcases; lia).
  pose proof (cut_spec _ (rb_write_ptr rb) n src WF ltac:(done) ltac:(lia) ltac:(lia)) as K.
  destruct (split_at_end _ _ n) as [n1 n2]. destruct K as (L1 & L2 & ? & ? & ? & ? & E & T).
  cbn [fst th_rb th_reader th_submitted th_delivered th_promised].
  rewrite <- (length_zlength _ _ L1). unfold copy_schedule.
  rewrite write_piece by (unfold zlength in *; lia). rewrite L1, !(zlength_test _ _ _ _ L2).
  destruct (Z.eqb_spec n2 0) as [Z2|Z2]; [done|].
  destruct E as [E|E]; [rewrite E in L2; unfold zlength in L2; simpl in L2; lia|].
  rewrite write_piece; [by rewrite L2|].
  apply length_zlength in L2. rewrite L2. unfold zlength in B. simpl.
  rewrite length_inserts. rewrite wrapU_small by (pose proof (rb_size_bounds _ WF); lia).
  rewrite land_size_mask, E, Z_mod_same_full by done. lia.
Qed.

Lemma read_call_run s dest : spsc s -> th_reader s = RIdle ->
  let '(rb', d, n) := ffado_ringbuffer_read (th_rb s) (zlength dest) in
  ring_run s (read_schedule (th_rb s) dest)
  = Next (mkThreads rb' (th_writer s) RIdle (th_submitted s) (th_delivered s ++ d)
            (th_promised s + n)).
Proof.
  intros I W. destruct I as [WF _ _ _ _]. destruct s as [rb w r sub del pro]. simpl in *. subst r.
  pose proof (rb_fill_bounds _ WF). pose proof (wf_read _ WF). pose proof (wf_buf _ WF) as B.
  pose proof (zlength_nonneg dest). unfold ffado_ringbuffer_read, read_schedule.
  cbn [ring_run ring_act th_reader]. unfold read_begin. rewrite read_space_eq by done.
  destruct (Z.eqb_spec (rb_fill rb) 0) as [Z0|Z0]; [simpl; by rewrite app_nil_r|].
  set (n := if _ <? _ then _ else _).
  assert (0 <= n /\ n <= zlength dest /\ n <= rb_fill rb) as Hn by (subst n; zcases; lia).
  pose proof (cut_spec _ (rb_read_ptr rb) n dest WF ltac:(done) ltac:(lia) ltac:(lia)) as K.
  destruct (split_at_end _ _ n) as [n1 n2]. destruct K as (L1 & L2 & ? & ? & ? & ? & E & T).
  cbn [fst th_rb th_writer th_submitted th_delivered th_promised].
  rewrite <- (length_zlength _ _ L1). unfold copy_schedule.
  rewrite read_piece by (unfold zlength in *; lia). rewrite L1, !(zlength_test _ _ _ _ L2).
  destruct (Z.eqb_spec n2 0) as [Z2|Z2]; [done|].
  destruct E as [E|E]; [rewrite E in L2; unfold zlength in L2; simpl in L2; lia|].
  rewrite read_piece; [by rewrite L2, app_assoc|].
  apply length_zlength in L2. rewrite L2. unfold zlength in B. simpl.
  rewrite wrapU_small by (pose proof (rb_size_bounds _ WF); lia).
  rewrite land_size_mask, E, Z_mod_same_full by done. lia.
Qed.

(** C32. The calls are wait-free and their steps are the operations of the sequential model:
    in every state two threads can reach, also while the other thread is in the middle of a
    call, the steps of a whole write (or read) run to the end without the other thread's
    help, and what they do to the buffer, to the caller's bytes and to the count returned is
    what [ffado_ringbuffer_write] (or [ffado_ringbuffer_read]) does in one step. *)
Theorem calls_wait_free junk sz rb l s src dest :
  ffado_ringbuffer_create junk sz = Some rb -> ring_run (ring_start rb) l = Next s ->
  (th_writer s = WIdle ->
     let '(rb', n) := ffado_ringbuffer_write (th_rb s) src (zlength src) in
     ring_run s (write_schedule (th_rb s) src)
     = Next (mkThreads rb' WIdle (th_reader s) (th_submitted s ++ take (Z.to_nat n) src)
               (th_delivered s) (th_promised s)))
  /\ (th_reader s = RIdle ->
     let '(rb', d, n) := ffado_ringbuffer_read (th_rb s) (zlength dest) in
     ring_run s (read_schedule (th_rb s) dest)
     = Next (mkThreads rb' (th_writer s) RIdle (th_submitted s) (th_delivered s ++ d)
               (th_promised s + n))).
Proof.
  intros E R. destruct (create_ok _ _ _ E) as (WF & C & _).
  destruct (run_ok _ l (start_ok rb WF C)) as [N|(s' & N & I)]; rewrite R in N; [done|].
  injection N as <-. split; [by apply write_call_run|by apply read_call_run].
Qed.

(** The state [busy_schedule] ends in: the reader has copied one of three bytes. *)
Definition busy_state : threads :=
  mkThreads (mkRB [9; 10; 3; 4; 5; 6; 7; 8] 2 5 8 7 0) WIdle (RCopy [0; 7; 0] [0; 2]%nat [0; 0])
    [1; 2; 3; 4; 5; 6; 7; 8; 9; 10] [1; 2; 3; 4; 5] 10.

Lemma calls_wait_free_witness :
  ring_run busy_state (write_schedule (th_rb busy_state) [11; 12; 13])
  = Next (mkThreads (mkRB [9; 10; 11; 12; 5; 6; 7; 8] 4 5 8 7 0) WIdle (th_reader busy_state)
            [1; 2; 3; 4; 5; 6; 7; 8; 9; 10; 11; 12] [1; 2; 3; 4; 5] 10).
Proof.
  destruct (calls_wait_free (fun _ => 0) 7 (mkRB (replicate 8 0) 0 0 8 7 0) busy_schedule busy_state
              [11; 12; 13] []) as [P _]; [vm_compute; reflexivity..|].
  specialize (P eq_refl). vm_compute in P |- *. exact P.
Defined.
