(* ===== verification/ByteSwap.v ===== *)
(** * Byte order

    Model of [src/libutil/ByteSwap.h]: the swaps between host and bus byte order.  The
    byte order of the host, a compile-time choice in the source, is the argument
    [big_endian]; a quadlet in memory is the list of its four bytes in host order. *)
From S2P Require Import Prelude.

(** ** Values and bytes *)

Definition byte_ok (b : Z) : Prop := 0 <= b < 2 ^ 8.
Definition byte_at (x i : Z) : Z := (x / 2 ^ (8 * i)) mod 2 ^ 8.

Definition quad_le (x : Z) : list Z := [byte_at x 0; byte_at x 1; byte_at x 2; byte_at x 3].
Definition quad_be (x : Z) : list Z := [byte_at x 3; byte_at x 2; byte_at x 1; byte_at x 0].

(** The bytes a [quadlet_t] store leaves in memory, and the value a load finds. *)
Definition quad_store (big_endian : bool) (x : Z) : list Z :=
  if big_endian then quad_be x else quad_le x.

Definition of_bytes_be (l : list Z) : Z := fold_left (fun acc b => acc * 256 + b) l 0.

Definition quad_load (big_endian : bool) (l : list Z) : Z :=
  of_bytes_be (if big_endian then l else rev l).

(** ** The swaps *)

Definition BYTESWAP32_CONST (x : Z) : Z :=
  u32 ((x .& 0x000000FF) << 24) .| u32 ((x .& 0x0000FF00) << 8)
  .| ((x .& 0x00FF0000) >> 8) .| ((x .& 0xFF000000) >> 24).

(** [bswap_32] and [bswap_16] of the C library reverse the bytes. *)
Definition ByteSwap32 (d : Z) : Z := of_bytes_be (quad_le d).
Definition ByteSwap16 (d : Z) : Z := of_bytes_be [byte_at d 0; byte_at d 1].
Definition ByteSwap64 (d : Z) : Z := of_bytes_be (byte_at d <$> [0; 1; 2; 3; 4; 5; 6; 7]).

(** Swaps the first [nb_elements] quadlets at [data]. *)
Fixpoint byteSwapBlock (data : list Z) (nb_elements : nat) : list Z :=
  match data, nb_elements with
  | d :: data, S n => ByteSwap32 d :: byteSwapBlock data n
  | _, _ => data
  end.

Section host.
Context (big_endian : bool).

Definition CONDSWAPTOBUS32_CONST (x : Z) : Z := if big_endian then x else BYTESWAP32_CONST x.
Definition CondSwapToBus64 (d : Z) : Z := if big_endian then d else ByteSwap64 d.
Definition CondSwapToBus32 (d : Z) : Z := if big_endian then d else ByteSwap32 d.
Definition CondSwapToBus16 (d : Z) : Z := if big_endian then d else ByteSwap16 d.
Definition CondSwapFromBus64 (d : Z) : Z := if big_endian then d else ByteSwap64 d.
Definition CondSwapFromBus32 (d : Z) : Z := if big_endian then d else ByteSwap32 d.
Definition CondSwapFromBus16 (d : Z) : Z := if big_endian then d else ByteSwap16 d.
End host.

(** ** The SSE2 conversion of the little-endian build *)

(** [_mm_slli_epi16(v, 8)] and [_mm_srli_epi16(v, 8)] on the two 16-bit lanes of a quadlet,
    [_mm_slli_epi32(v, 16)] and [_mm_srli_epi32(v, 16)] on its 32-bit lane. *)
Definition slli_epi16_8 (q : Z) : Z := (u16 ((q >> 16) << 8) << 16) .| u16 (u16 q << 8).
Definition srli_epi16_8 (q : Z) : Z := (((q >> 16) >> 8) << 16) .| (u16 q >> 8).
Definition slli_epi32_16 (q : Z) : Z := u32 (q << 16).
Definition srli_epi32_16 (q : Z) : Z := q >> 16.

Definition sse_swap (q : Z) : Z :=
  let v := slli_epi16_8 q .| srli_epi16_8 q in slli_epi32_16 v .| srli_epi32_16 v.

(** [while(nb_elements >= 4)]: four quadlets per round, then the scalar tail. *)
Fixpoint sse_rounds (data : list Z) (nb_elements : nat) : list Z :=
  match data with
  | d0 :: d1 :: d2 :: d3 :: data' =>
      if (4 <=? nb_elements)%nat
      then sse_swap d0 :: sse_swap d1 :: sse_swap d2 :: sse_swap d3
           :: sse_rounds data' (nb_elements - 4)
      else byteSwapBlock data nb_elements
  | _ => byteSwapBlock data nb_elements
  end.

(** [addr] is the address of the first quadlet: the head loop runs until the address is a
    multiple of 16. *)
Fixpoint byteSwapToBus (addr : Z) (data : list Z) (nb_elements : nat) : list Z :=
  match data, nb_elements with
  | d :: data', S n =>
      if addr .& 0xF =? 0 then sse_rounds data nb_elements
      else ByteSwap32 d :: byteSwapToBus (addr + 4) data' n
  | _, _ => data
  end.

(** The body of [byteSwapFromBus] is the same code. *)
Definition byteSwapFromBus : Z -> list Z -> nat -> list Z := byteSwapToBus.

(** ** Lemmas *)

Lemma byte_at_range x i : byte_ok (byte_at x i).
Proof. unfold byte_ok, byte_at. apply Z.mod_pos_bound. lia. Qed.

#[export] Hint Resolve byte_at_range : cint.

Lemma quad_decompose x : 0 <= x < 2 ^ 32 ->
  x = byte_at x 3 * 2 ^ 24 + byte_at x 2 * 2 ^ 16 + byte_at x 1 * 2 ^ 8 + byte_at x 0.
Proof. unfold byte_at. intros. zlia. Qed.

(** The bytes of a value given by its bytes. *)
Lemma byte_at_compose a b c d : byte_ok a -> byte_ok b -> byte_ok c -> byte_ok d ->
  let x := a * 2 ^ 24 + b * 2 ^ 16 + c * 2 ^ 8 + d in
  0 <= x < 2 ^ 32 /\ byte_at x 3 = a /\ byte_at x 2 = b /\ byte_at x 1 = c /\ byte_at x 0 = d.
Proof. unfold byte_ok, byte_at. cbv zeta. intros. zlia. Qed.

Lemma ByteSwap32_eq x :
  ByteSwap32 x = byte_at x 0 * 2 ^ 24 + byte_at x 1 * 2 ^ 16 + byte_at x 2 * 2 ^ 8 + byte_at x 3.
Proof. unfold ByteSwap32, of_bytes_be, quad_le. simpl. lia. Qed.

Lemma ByteSwap32_bytes x : 0 <= ByteSwap32 x < 2 ^ 32 /\ quad_le (ByteSwap32 x) = quad_be x.
Proof.
  rewrite ByteSwap32_eq.
  destruct (byte_at_compose (byte_at x 0) (byte_at x 1) (byte_at x 2) (byte_at x 3))
    as (R & A & B & C & D); auto with cint.
  split; [done|]. unfold quad_le, quad_be. by rewrite A, B, C, D.
Qed.

Lemma ByteSwap32_involutive x : 0 <= x < 2 ^ 32 -> ByteSwap32 (ByteSwap32 x) = x.
Proof.
  intros Hx. unfold ByteSwap32 at 1. rewrite (proj2 (ByteSwap32_bytes x)).
  etrans; [|symmetry; exact (quad_decompose x Hx)]. unfold of_bytes_be, quad_be. simpl. lia.
Qed.

Lemma ByteSwap16_involutive x : 0 <= x < 2 ^ 16 -> ByteSwap16 (ByteSwap16 x) = x.
Proof. unfold ByteSwap16, of_bytes_be, byte_at. simpl. intros. zlia. Qed.

(** A field cut out with a mask stays where it is. *)
Lemma land_field x k n : 0 <= k -> 0 <= n ->
  x .& (Z.ones n << k) = ((x / 2 ^ k) mod 2 ^ n) * 2 ^ k.
Proof.
  intros. rewrite <- field_get, <- Z.shiftl_mul_pow2 by done. symmetry.
  apply Z.bits_inj'. intros i Hi. rewrite Z.shiftl_spec by done.
  destruct (Z.lt_ge_cases i k).
  - rewrite Z.testbit_neg_r, Z.land_spec, Z.shiftl_spec by lia.
    by rewrite (Z.testbit_neg_r _ (i - k)), andb_false_r by lia.
  - rewrite Z.shiftr_spec by lia. f_equal. lia.
Qed.

Lemma BYTESWAP32_CONST_eq x : 0 <= x < 2 ^ 32 -> BYTESWAP32_CONST x = ByteSwap32 x.
Proof.
  intros Hx. rewrite ByteSwap32_eq. unfold BYTESWAP32_CONST.
  change (x .& 0x000000FF) with (x .& (Z.ones 8 << 0)).
  change (x .& 0x0000FF00) with (x .& (Z.ones 8 << 8)).
  change (x .& 0x00FF0000) with (x .& (Z.ones 8 << 16)).
  change (x .& 0xFF000000) with (x .& (Z.ones 8 << 24)).
  rewrite !land_field, !Z.shiftr_div_pow2, !Z.shiftl_mul_pow2 by lia.
  pose proof (byte_at_range x 0). pose proof (byte_at_range x 1).
  pose proof (byte_at_range x 2). pose proof (byte_at_range x 3).
  unfold byte_at in *. change (8 * 0) with 0 in *. change (8 * 1) with 8 in *.
  change (8 * 2) with 16 in *. change (8 * 3) with 24 in *. unfold byte_ok in *.
  set (b0 := (x / 2 ^ 0) mod 2 ^ 8) in *. set (b1 := (x / 2 ^ 8) mod 2 ^ 8) in *.
  set (b2 := (x / 2 ^ 16) mod 2 ^ 8) in *. set (b3 := (x / 2 ^ 24) mod 2 ^ 8) in *.
  clearbody b0 b1 b2 b3. rewrite !wrapU_small by lia.
  replace (b3 * 2 ^ 24 / 2 ^ 24) with b3 by zlia.
  replace (b2 * 2 ^ 16 / 2 ^ 8) with (b2 << 8) by (rewrite Z.shiftl_mul_pow2; zlia).
  replace (b1 * 2 ^ 8 * 2 ^ 8) with (b1 << 16) by (rewrite Z.shiftl_mul_pow2; lia).
  replace (b0 * 2 ^ 0 * 2 ^ 24) with (b0 << 24) by (rewrite Z.shiftl_mul_pow2; lia).
  rewrite <- !Z.lor_assoc.
  rewrite (lor_shiftl_add b2), (lor_shiftl_add b1), (lor_shiftl_add b0) by lia. lia.
Qed.

(** The lane operations on a quadlet given by its bytes. *)
Lemma sse_swap_eq x : 0 <= x < 2 ^ 32 -> sse_swap x = ByteSwap32 x.
Proof.
  intros Hx. rewrite ByteSwap32_eq. rewrite (quad_decompose x Hx) at 1.
  pose proof (byte_at_range x 0). pose proof (byte_at_range x 1).
  pose proof (byte_at_range x 2). pose proof (byte_at_range x 3). unfold byte_ok in *.
  generalize dependent (byte_at x 0). generalize dependent (byte_at x 1).
  generalize dependent (byte_at x 2). generalize dependent (byte_at x 3).
  intros b3 H3 b2 H2 b1 H1 b0 H0. clear x Hx. unfold sse_swap.
  set (q := b3 * 2 ^ 24 + b2 * 2 ^ 16 + b1 * 2 ^ 8 + b0).
  assert (slli_epi16_8 q = b2 * 2 ^ 24 + b0 * 2 ^ 8) as ->.
  { unfold slli_epi16_8. rewrite lor_shiftl_add by (unfold wrapU; zlia).
    rewrite !Z.shiftr_div_pow2, !Z.shiftl_mul_pow2 by lia. subst q. unfold wrapU. zlia. }
  assert (srli_epi16_8 q = b3 * 2 ^ 16 + b1) as ->.
  { unfold srli_epi16_8. rewrite !Z.shiftr_div_pow2 by lia.
    rewrite lor_shiftl_add by (unfold wrapU; zlia). subst q. unfold wrapU. zlia. }
  replace ((b2 * 2 ^ 24 + b0 * 2 ^ 8) .| (b3 * 2 ^ 16 + b1))
    with (b2 * 2 ^ 24 + b3 * 2 ^ 16 + b0 * 2 ^ 8 + b1).
  2: { replace (b2 * 2 ^ 24 + b0 * 2 ^ 8) with ((b2 << 24) .| (b0 << 8))
         by (rewrite lor_shiftl_add; rewrite ?Z.shiftl_mul_pow2; lia).
       replace (b3 * 2 ^ 16 + b1) with ((b3 << 16) .| b1) by (rewrite lor_shiftl_add; lia).
       rewrite <- Z.lor_assoc, (Z.lor_assoc (b0 << 8)), (Z.lor_comm (b0 << 8)).
       rewrite <- (Z.lor_assoc (b3 << 16)), (lor_shiftl_add b0), (lor_shiftl_add b3), (lor_shiftl_add b2) by lia.
       lia. }
  unfold slli_epi32_16, srli_epi32_16.
  replace (u32 ((b2 * 2 ^ 24 + b3 * 2 ^ 16 + b0 * 2 ^ 8 + b1) << 16)) with ((b0 * 2 ^ 8 + b1) << 16)
    by (rewrite !Z.shiftl_mul_pow2 by lia; unfold wrapU; zlia).
  rewrite Z.shiftr_div_pow2, lor_shiftl_add by zlia. zlia.
Qed.

Definition quads_ok (l : list Z) : Prop := Forall (fun q => 0 <= q < 2 ^ 32) l.

Lemma sse_rounds_eq data n : quads_ok data -> sse_rounds data n = byteSwapBlock data n.
Proof.
  revert data n. fix IH 1. intros [|d0 [|d1 [|d2 [|d3 data]]]] n H; try done. cbn [sse_rounds].
  destruct (Nat.leb_spec 4 n) as [L|L]; [|done].
  unfold quads_ok in H. rewrite !Forall_cons_iff in H. destruct H as (H0 & H1 & H2 & H3 & H).
  rewrite !sse_swap_eq, IH by done.
  destruct n as [|[|[|[|n]]]]; [lia..|]. by replace (S (S (S (S n))) - 4)%nat with n by lia.
Qed.

(** ** Theorems *)

(** The SSE2 block conversion computes the plain byte swap of every element: for a block
    at any address and any number of elements [byteSwapToBus] and [byteSwapFromBus] return
    what the scalar loop [byteSwapBlock] returns. *)
Theorem byteSwapToBus_equals_scalar addr data nb_elements : quads_ok data ->
  byteSwapToBus addr data nb_elements = byteSwapBlock data nb_elements
  /\ byteSwapFromBus addr data nb_elements = byteSwapBlock data nb_elements.
Proof.
  intros H. assert (byteSwapToBus addr data nb_elements = byteSwapBlock data nb_elements) as E;
    [|by split].
  revert addr nb_elements. induction H as [|d data Hd H IH]; intros addr [|n]; simpl; try done.
  destruct (_ =? 0).
  - apply (sse_rounds_eq (d :: data) (S n)). by constructor.
  - by rewrite IH.
Qed.

Lemma byteSwapToBus_equals_scalar_witness :
  byteSwapToBus 0x1008 [0x01020304; 1; 2; 3; 4; 5; 0xAABBCCDD; 7] 7
  = byteSwapBlock [0x01020304; 1; 2; 3; 4; 5; 0xAABBCCDD; 7] 7.
Proof.
  apply (byteSwapToBus_equals_scalar 0x1008 [0x01020304; 1; 2; 3; 4; 5; 0xAABBCCDD; 7] 7).
  repeat constructor; vm_compute; congruence.
Defined.

(** Bus order: on hosts of either byte order, a quadlet converted with [CondSwapToBus32] and
    stored lies in memory most significant byte first, loading it and converting it back
    with [CondSwapFromBus32] gives the value again, and the constant form of the conversion
    agrees with the function. *)
Theorem bus_order big_endian x : 0 <= x < 2 ^ 32 ->
  quad_store big_endian (CondSwapToBus32 big_endian x) = quad_be x
  /\ CondSwapFromBus32 big_endian (quad_load big_endian (quad_be x)) = x
  /\ CONDSWAPTOBUS32_CONST big_endian x = CondSwapToBus32 big_endian x.
Proof.
  intros Hx. assert (of_bytes_be (quad_be x) = x) as E.
  { etrans; [|symmetry; exact (quad_decompose x Hx)]. unfold of_bytes_be, quad_be. simpl. lia. }
  unfold quad_store, quad_load, CondSwapToBus32, CondSwapFromBus32, CONDSWAPTOBUS32_CONST.
  destruct big_endian; [done|]. split; [apply ByteSwap32_bytes|].
  split; [|by apply BYTESWAP32_CONST_eq].
  change (rev (quad_be x)) with (quad_le x). by apply ByteSwap32_involutive.
Qed.

Lemma bus_order_witness :
  quad_store false (CondSwapToBus32 false 0x40123456) = [0x40; 0x12; 0x34; 0x56]
  /\ CondSwapFromBus32 false (quad_load false (quad_be 0x40123456)) = 0x40123456.
Proof. destruct (bus_order false 0x40123456) as (A & B & _); [lia|]. by split. Defined.
