(* ===== verification/Ieee754.v ===== *)
(** * Floating point numbers

    The C++ types [double] and [float] as the IEEE 754 formats binary64 and binary32 of the
    Standard Library's [SpecFloat]: concrete and executable, with rounding to nearest even.
    A [double] or [float] is kept in canonical form, which the comparisons rely on; the
    conversions restore it. *)
From Stdlib Require Export SpecFloat.
From S2P Require Import Prelude.

Abbreviation double := spec_float.
Abbreviation float := spec_float.

(** ** Conversions *)

Definition d_of_Z (z : Z) : double := binary_normalize 53 1024 z 0 false.
Definition f_of_Z (z : Z) : float := binary_normalize 24 128 z 0 false.

(** Conversion of a finite value to another format; the sign of zero is kept. *)
Definition convert (prec emax : Z) (x : spec_float) : spec_float :=
  match x with
  | S754_finite s m e => binary_normalize prec emax (cond_Zopp s (Zpos m)) e s
  | _ => x
  end.

(** [(double)x] for a [float] and [(float)x] for a [double]. *)
Definition d_of_f (x : float) : double := convert 53 1024 x.
Definition f_of_d (x : double) : float := convert 24 128 x.

(** Conversion to an integer: truncation towards zero.  (The result of converting an infinity
    or a NaN, which C++ leaves undefined, is 0.) *)
Definition Z_of_float (x : spec_float) : Z :=
  match x with
  | S754_finite s m e => cond_Zopp s (if 0 <=? e then Zpos m * 2 ^ e else Zpos m / 2 ^ (- e))
  | _ => 0
  end.

(** ** Arithmetic *)

Definition dadd : double -> double -> double := SFadd 53 1024.
Definition dsub : double -> double -> double := SFsub 53 1024.
Definition dmul : double -> double -> double := SFmul 53 1024.
Definition ddiv : double -> double -> double := SFdiv 53 1024.
Definition dopp : double -> double := SFopp.
Definition fsub : float -> float -> float := SFsub 24 128.
Definition fmul : float -> float -> float := SFmul 24 128.
Definition fdiv : float -> float -> float := SFdiv 24 128.
Definition fabsf : float -> float := SFabs.

(** Comparisons: false on unordered operands. *)
Definition dlt (x y : double) : bool := SFltb x y.
Definition dle (x y : double) : bool := SFleb x y.
Definition dgt (x y : double) : bool := SFltb y x.
Definition dge (x y : double) : bool := SFleb y x.
Definition deq (x y : double) : bool := SFeqb x y.

Definition finite (x : spec_float) : bool :=
  match x with S754_zero _ | S754_finite _ _ _ => true | _ => false end.

(** ** Lemmas *)

Definition is_zero (x : spec_float) : bool := match x with S754_zero _ => true | _ => false end.

(** Subtracting a zero from a number other than a zero, and from the positive zero. *)
Lemma dsub_zero_r x s : is_zero x = false -> dsub x (S754_zero s) = x.
Proof. by destruct x. Qed.

Lemma dsub_pzero s : dsub (S754_zero false) (S754_zero s) = S754_zero false.
Proof. by destruct s. Qed.

Lemma d_of_f_zero s : d_of_f (S754_zero s) = S754_zero s.
Proof. done. Qed.

Lemma fmul_zero_l s y : finite y = true -> exists s', fmul (S754_zero s) y = S754_zero s'.
Proof. destruct y as [t| | |t m e]; simpl; intros; try done; by eexists. Qed.

(** The comparisons are consistent: [x < y] and [x >= y] exclude each other. *)
Lemma SFcompare_antisym x y : SFcompare y x = CompOpp <$> SFcompare x y.
Proof.
  destruct x as [s| s| |s m e], y as [t| t| |t n f]; simpl; try done; try (by destruct s); try (by destruct t);
    destruct s, t; simpl; try done; rewrite (Z.compare_antisym e f); destruct (e ?= f)%Z; simpl; try done;
    fold (Pos.compare m n) (Pos.compare n m); by rewrite (Pos.compare_antisym m n), ?CompOpp_involutive.
Qed.

Lemma dlt_dge x y : dlt x y = true -> dge x y = false.
Proof.
  unfold dlt, dge, SFltb, SFleb. rewrite (SFcompare_antisym x y). destruct (SFcompare x y) as [[]|]; simpl; done.
Qed.

Lemma dge_dlt x y : dge x y = true -> dlt x y = false.
Proof.
  unfold dlt, dge, SFltb, SFleb. rewrite (SFcompare_antisym x y). destruct (SFcompare x y) as [[]|]; simpl; done.
Qed.
