(* ===== verification/TimestampedBuffer.v ===== *)
(** * The time-aware frame buffer

    Model of [src/libutil/TimestampedBuffer.cpp] and [TimestampedBuffer.h]: a ring buffer of frames
    together with the timestamp of its last frame, which a delay locked loop predicts.

    The state is the record [TimestampedBuffer]; [None] is a failed [assert] (or a
    division by a zero cluster size).  Floating point is evaluated in the precision of the
    operand types.  [m_framecounter_lock] protects single statements here and is left
    out; the operations are sequential.  [calloc] is taken to succeed. *)
From S2P Require Import Prelude RingBuffer Ieee754.

Definition FRAMES_PER_PROCESS_BLOCK : Z := 8.
Definition TIMESTAMP_MAX : double := d_of_Z 3145728000.
(** The doubles nearest to the decimal constants of the source. *)
Definition DLL_PI : double := S754_finite false 7074237752028440 (-51).
Definition DLL_SQRT2 : double := S754_finite false 6369051672525773 (-52).
Definition d_0_01 : double := S754_finite false 5764607523034235 (-59).
Definition d_0_1 : double := S754_finite false 7205759403792794 (-56).
Definition d_0_5 : double := S754_finite false 4503599627370496 (-53).
Definition DLL_2PI : double := dmul (d_of_Z 2) DLL_PI.
Definition DLL_OMEGA : double := dmul DLL_2PI d_0_01.
Definition DLL_COEFF_B : double := dmul DLL_SQRT2 DLL_OMEGA.
Definition DLL_COEFF_C : double := dmul DLL_OMEGA DLL_OMEGA.

(** The members of the class, in three groups: the sizes, the clock (timestamps and delay
    locked loop), and the rest. *)
Record tsb_sizes := mkSizes {
  m_cluster_size : Z;
  m_process_block_size : Z;
  m_event_size : Z;
  m_events_per_frame : Z;
  m_buffer_size : Z;
  m_bytes_per_frame : Z;
  m_bytes_per_buffer : Z;
}.

Record tsb_clock := mkClock {
  m_wrap_at : double;
  m_buffer_tail_timestamp : double;
  m_buffer_next_tail_timestamp : double;
  m_dll_e2 : double;
  m_dll_b : float;
  m_dll_c : float;
  m_nominal_rate : float;
  m_current_rate : float;
  m_update_period : Z;
  m_max_abs_diff : Z;
}.

Record TimestampedBuffer := mkTSB {
  sizes : tsb_sizes;
  clock : tsb_clock;
  m_event_buffer : option ffado_ringbuffer_t;
  m_process_buffer : list Z;
  m_enabled : bool;
  m_transparent : bool;
  m_framecounter : Z;
}.

Definition TimestampedBuffer_new : TimestampedBuffer :=
  mkTSB (mkSizes 0 0 0 0 0 0 0)
    (mkClock (d_of_Z 0xFFFFFFFFFFFFFFFF) (dadd TIMESTAMP_MAX (d_of_Z 1)) (dadd TIMESTAMP_MAX (d_of_Z 1))
       (S754_zero false) (f_of_d DLL_COEFF_B) (f_of_d DLL_COEFF_C)
       (S754_zero false) (S754_zero false) 0 (3072 / 2))
    None [] false true 0.

(** Updates of one group or member. *)
Definition with_sizes (z : tsb_sizes) (b : TimestampedBuffer) : TimestampedBuffer :=
  mkTSB z (clock b) (m_event_buffer b) (m_process_buffer b) (m_enabled b) (m_transparent b) (m_framecounter b).
Definition with_clock (k : tsb_clock) (b : TimestampedBuffer) : TimestampedBuffer :=
  mkTSB (sizes b) k (m_event_buffer b) (m_process_buffer b) (m_enabled b) (m_transparent b) (m_framecounter b).
Definition with_ring (rb : ffado_ringbuffer_t) (b : TimestampedBuffer) : TimestampedBuffer :=
  mkTSB (sizes b) (clock b) (Some rb) (m_process_buffer b) (m_enabled b) (m_transparent b) (m_framecounter b).
Definition with_process_buffer (d : list Z) (b : TimestampedBuffer) : TimestampedBuffer :=
  mkTSB (sizes b) (clock b) (m_event_buffer b) d (m_enabled b) (m_transparent b) (m_framecounter b).
Definition with_framecounter (n : Z) (b : TimestampedBuffer) : TimestampedBuffer :=
  mkTSB (sizes b) (clock b) (m_event_buffer b) (m_process_buffer b) (m_enabled b) (m_transparent b) n.

(** The timestamps, the loop error and the current rate. *)
Definition with_times (tail next e2 : double) (rate : float) (k : tsb_clock) : tsb_clock :=
  mkClock (m_wrap_at k) tail next e2 (m_dll_b k) (m_dll_c k) (m_nominal_rate k) rate
    (m_update_period k) (m_max_abs_diff k).

(** ** Configuration *)

Definition setMaxAbsDiff (n : Z) (b : TimestampedBuffer) : TimestampedBuffer :=
  let k := clock b in
  with_clock (mkClock (m_wrap_at k) (m_buffer_tail_timestamp k) (m_buffer_next_tail_timestamp k) (m_dll_e2 k)
    (m_dll_b k) (m_dll_c k) (m_nominal_rate k) (m_current_rate k) (m_update_period k) n) b.

Definition enable (b : TimestampedBuffer) : TimestampedBuffer :=
  mkTSB (sizes b) (clock b) (m_event_buffer b) (m_process_buffer b) true (m_transparent b) (m_framecounter b).
Definition disable (b : TimestampedBuffer) : TimestampedBuffer :=
  mkTSB (sizes b) (clock b) (m_event_buffer b) (m_process_buffer b) false (m_transparent b) (m_framecounter b).
Definition setTransparent (v : bool) (b : TimestampedBuffer) : TimestampedBuffer :=
  mkTSB (sizes b) (clock b) (m_event_buffer b) (m_process_buffer b) (m_enabled b) v (m_framecounter b).

(** [m_nominal_rate * (float)m_update_period] *)
Definition tupdate (k : tsb_clock) : float := fmul (m_nominal_rate k) (f_of_Z (m_update_period k)).

Definition getBandwidth (b : TimestampedBuffer) : double :=
  let k := clock b in
  ddiv (d_of_f (m_dll_b k)) (dmul (dmul DLL_SQRT2 DLL_2PI) (d_of_f (tupdate k))).

Definition setBandwidth (bw : double) (b : TimestampedBuffer) : bool * TimestampedBuffer :=
  let k := clock b in
  let bw_rel := dmul bw (d_of_f (tupdate k)) in
  if dge bw_rel d_0_5 then (false, b) else
  (true, with_clock (mkClock (m_wrap_at k) (m_buffer_tail_timestamp k) (m_buffer_next_tail_timestamp k) (m_dll_e2 k)
     (f_of_d (dmul bw_rel (dmul DLL_SQRT2 DLL_2PI)))
     (f_of_d (dmul (dmul (dmul bw_rel bw_rel) DLL_2PI) DLL_2PI))
     (m_nominal_rate k) (m_current_rate k) (m_update_period k) (m_max_abs_diff k)) b).

Definition setNominalRate (r : float) (b : TimestampedBuffer) : TimestampedBuffer :=
  let k := clock b in
  with_clock (mkClock (m_wrap_at k) (m_buffer_tail_timestamp k) (m_buffer_next_tail_timestamp k) (m_dll_e2 k)
    (m_dll_b k) (m_dll_c k) r (m_current_rate k) (m_update_period k) (m_max_abs_diff k)) b.

Definition setUpdatePeriod (n : Z) (b : TimestampedBuffer) : TimestampedBuffer :=
  let k := clock b in
  with_clock (mkClock (m_wrap_at k) (m_buffer_tail_timestamp k) (m_buffer_next_tail_timestamp k) (m_dll_e2 k)
    (m_dll_b k) (m_dll_c k) (m_nominal_rate k) (m_current_rate k) n (m_max_abs_diff k)) b.
Definition getUpdatePeriod (b : TimestampedBuffer) : Z := m_update_period (clock b).

Definition setWrapValue (w : double) (b : TimestampedBuffer) : TimestampedBuffer :=
  let k := clock b in
  with_clock (mkClock w (m_buffer_tail_timestamp k) (m_buffer_next_tail_timestamp k) (m_dll_e2 k)
    (m_dll_b k) (m_dll_c k) (m_nominal_rate k) (m_current_rate k) (m_update_period k) (m_max_abs_diff k)) b.

Definition getRate (b : TimestampedBuffer) : float := m_current_rate (clock b).

Definition setRate (rate : float) (b : TimestampedBuffer) : TimestampedBuffer :=
  let k := clock b in
  let e2 := d_of_f (fmul (f_of_Z (m_update_period k)) rate) in
  with_clock (with_times (m_buffer_tail_timestamp k) (dadd (m_buffer_tail_timestamp k) e2) e2 rate k) b.

Definition sizes_of (cluster block event_size events buffer_size : Z) : tsb_sizes :=
  let bytes_per_frame := u32 (event_size * events) in
  mkSizes cluster block event_size events buffer_size bytes_per_frame (u32 (bytes_per_frame * buffer_size)).

Definition setEventSize (s : Z) (b : TimestampedBuffer) : TimestampedBuffer :=
  let z := sizes b in
  with_sizes (sizes_of (m_cluster_size z) (m_process_block_size z) s (m_events_per_frame z) (m_buffer_size z)) b.
Definition setEventsPerFrame (n : Z) (b : TimestampedBuffer) : TimestampedBuffer :=
  let z := sizes b in
  with_sizes (sizes_of (m_cluster_size z) (m_process_block_size z) (m_event_size z) n (m_buffer_size z)) b.
Definition setBufferSize (n : Z) (b : TimestampedBuffer) : TimestampedBuffer :=
  let z := sizes b in
  with_sizes (sizes_of (m_cluster_size z) (m_process_block_size z) (m_event_size z) (m_events_per_frame z) n) b.

Definition getBufferFill (b : TimestampedBuffer) : Z := u32 (m_framecounter b).
Definition getBufferSpace (b : TimestampedBuffer) : Z := u32 (m_buffer_size (sizes b) - m_framecounter b).

(** ** Timestamps *)

(** [if (ts >= m_wrap_at) ts -= m_wrap_at; else if (ts < 0) ts += m_wrap_at;] *)
Definition wrap_timestamp (k : tsb_clock) (ts : double) : double :=
  if dge ts (m_wrap_at k) then dsub ts (m_wrap_at k)
  else if dlt ts (S754_zero false) then dadd ts (m_wrap_at k) else ts.

Definition calculateRate (k : tsb_clock) : float :=
  let diff := dsub (m_buffer_next_tail_timestamp k) (m_buffer_tail_timestamp k) in
  let max := ddiv (m_wrap_at k) (d_of_Z 2) in
  let diff := if dgt diff max then dsub diff (m_wrap_at k)
              else if dlt diff (dopp max) then dadd diff (m_wrap_at k) else diff in
  let rate := fdiv (f_of_d diff) (f_of_Z (m_update_period k)) in
  if dgt (d_of_f (fabsf (fsub (m_nominal_rate k) rate))) (dmul (d_of_f (m_nominal_rate k)) d_0_1)
  then m_nominal_rate k else rate.

(** [m_dll_e2] and the next tail timestamp for the tail timestamp [ts]. *)
Definition restart_dll (ts : double) (k : tsb_clock) : tsb_clock :=
  let e2 := dmul (d_of_Z (m_update_period k)) (d_of_f (m_current_rate k)) in
  with_times ts (dadd ts e2) e2 (m_current_rate k) k.

Definition setBufferTailTimestamp (new_timestamp : double) (b : TimestampedBuffer) : TimestampedBuffer :=
  with_clock (restart_dll (wrap_timestamp (clock b) new_timestamp) (clock b)) b.

Definition setBufferHeadTimestamp (new_timestamp : double) (b : TimestampedBuffer) : TimestampedBuffer :=
  let k := clock b in
  let ts := dadd new_timestamp (d_of_f (fmul (m_current_rate k) (f_of_Z (m_framecounter b)))) in
  with_clock (restart_dll (wrap_timestamp k ts) k) b.

Definition getTimestampFromTail (nframes : Z) (b : TimestampedBuffer) : double :=
  let k := clock b in
  wrap_timestamp k (dsub (m_buffer_tail_timestamp k) (d_of_f (fmul (f_of_Z nframes) (m_current_rate k)))).

Definition getBufferHeadTimestamp (b : TimestampedBuffer) : double * Z :=
  (getTimestampFromTail (m_framecounter b) b, m_framecounter b).
Definition getBufferTailTimestamp (b : TimestampedBuffer) : double * Z :=
  (getTimestampFromTail 0 b, m_framecounter b).
Definition getTimestampFromHead (nframes : Z) (b : TimestampedBuffer) : double :=
  getTimestampFromTail (i32 (m_framecounter b - nframes)) b.

Definition resetFrameCounter (b : TimestampedBuffer) : TimestampedBuffer := with_framecounter 0 b.
Definition decrementFrameCounter (nbframes : Z) (b : TimestampedBuffer) : TimestampedBuffer :=
  with_framecounter (i32 (m_framecounter b - nbframes)) b.

(** The error of the delay locked loop for a new timestamp. *)
Definition dll_error (k : tsb_clock) (new_timestamp : double) : double :=
  let diff := dsub new_timestamp (m_buffer_next_tail_timestamp k) in
  if dgt diff (ddiv (m_wrap_at k) (d_of_Z 2)) then dsub (m_wrap_at k) diff
  else if dlt diff (ddiv (dopp (m_wrap_at k)) (d_of_Z 2)) then dadd (m_wrap_at k) diff else diff.

Definition incrementFrameCounter (nbframes : Z) (new_timestamp : double) (b : TimestampedBuffer) :
    option TimestampedBuffer :=
  let k := clock b in
  if negb (dlt new_timestamp (m_wrap_at k)) then None else
  if negb (dge new_timestamp (S754_zero false)) then None else
  if negb (nbframes =? m_update_period k) then None else
  let err := dll_error k new_timestamp in
  let next := dadd (m_buffer_next_tail_timestamp k) (dadd (dmul (d_of_f (m_dll_b k)) err) (m_dll_e2 k)) in
  let e2 := dadd (m_dll_e2 k) (dmul (d_of_f (m_dll_c k)) err) in
  let next := if dge next (m_wrap_at k) then dsub next (m_wrap_at k) else next in
  let k := with_times (m_buffer_next_tail_timestamp k) next e2 (m_current_rate k) k in
  let k := with_times (m_buffer_tail_timestamp k) (m_buffer_next_tail_timestamp k) (m_dll_e2 k) (calculateRate k) k in
  Some (with_clock k (with_framecounter (i32 (m_framecounter b + nbframes)) b)).

(** ** Allocation *)

(** The current rate is reset to the nominal one and [m_dll_e2] with it. *)
Definition nominal_dll (k : tsb_clock) : tsb_clock :=
  with_times (m_buffer_tail_timestamp k) (m_buffer_next_tail_timestamp k)
    (d_of_f (fmul (m_nominal_rate k) (f_of_Z (m_update_period k)))) (m_nominal_rate k) k.

Definition clearBuffer (b : TimestampedBuffer) : option (bool * TimestampedBuffer) :=
  match m_event_buffer b with
  | None => None
  | Some rb =>
      let b := resetFrameCounter (with_ring (ffado_ringbuffer_reset rb) b) in
      Some (true, with_clock (nominal_dll (clock b)) b)
  end.

(** [junk] is what the allocation leaves in the new ring buffer. *)
Definition resizeBuffer (junk : nat -> Z) (new_size : Z) (b : TimestampedBuffer) :
    option (bool * TimestampedBuffer) :=
  let z := sizes b in
  if (new_size =? 0) || (m_events_per_frame z =? 0) || (m_event_size z =? 0) then None else
  match ffado_ringbuffer_create junk (u32 (u32 (m_events_per_frame z * new_size) * m_event_size z)) with
  | None =>
      Some (false, mkTSB z (clock b) None (m_process_buffer b) (m_enabled b) (m_transparent b) (m_framecounter b))
  | Some rb =>
      let b := resetFrameCounter (with_ring rb b) in
      let b := with_clock (nominal_dll (clock b)) b in
      Some (true, with_sizes (mkSizes (m_cluster_size z) (m_process_block_size z) (m_event_size z)
        (m_events_per_frame z) new_size (m_bytes_per_frame z) (m_bytes_per_buffer z)) b)
  end.

Definition prepare (junk : nat -> Z) (b : TimestampedBuffer) : option (bool * TimestampedBuffer) :=
  let z := sizes b in let k := clock b in
  if (m_buffer_size z =? 0) || (m_events_per_frame z =? 0) || (m_event_size z =? 0)
     || deq (d_of_f (m_nominal_rate k)) (S754_zero false) || (m_update_period k =? 0) then None else
  let b := with_clock (with_times (m_buffer_tail_timestamp k) (m_buffer_next_tail_timestamp k) (m_dll_e2 k)
             (m_nominal_rate k) k) b in
  match resizeBuffer junk (m_buffer_size z) b with
  | None => None
  | Some (false, b) => Some (false, b)
  | Some (true, b) =>
      let z := sizes b in
      let cluster := u32 (m_events_per_frame z * m_event_size z) in
      let block := u32 (cluster * FRAMES_PER_PROCESS_BLOCK) in
      let b := with_sizes (mkSizes cluster block (m_event_size z) (m_events_per_frame z) (m_buffer_size z)
                 (m_bytes_per_frame z) (m_bytes_per_buffer z)) b in
      let b := with_process_buffer (replicate (Z.to_nat block) 0) b in
      let bogus := dadd TIMESTAMP_MAX (d_of_Z 1) in
      Some (true, with_clock (with_times bogus bogus
        (d_of_f (fmul (m_nominal_rate (clock b)) (f_of_Z (m_update_period (clock b)))))
        (m_current_rate (clock b)) (clock b)) b)
  end.

(** ** Frame transfers *)

Definition frame_bytes (b : TimestampedBuffer) (nframes : Z) : Z :=
  u32 (u32 (nframes * m_event_size (sizes b)) * m_events_per_frame (sizes b)).

(** [ffado_ringbuffer_write] of [data] to the event buffer; [None] without a buffer. *)
Definition ring_write (data : list Z) (n : Z) (b : TimestampedBuffer) : option (Z * TimestampedBuffer) :=
  match m_event_buffer b with
  | None => None
  | Some rb => let '(rb, written) := ffado_ringbuffer_write rb data n in Some (written, with_ring rb b)
  end.

Definition writeDummyFrame (b : TimestampedBuffer) : option (bool * TimestampedBuffer) :=
  let write_size := u32 (m_event_size (sizes b) * m_events_per_frame (sizes b)) in
  '(written, b) ← ring_write (replicate (Z.to_nat write_size) 0) write_size b;
  if written <? write_size then Some (false, b)
  else Some (true, with_framecounter (i32 (m_framecounter b + 1)) b).

Definition writeFrames (nframes : Z) (data : list Z) (ts : double) (b : TimestampedBuffer) :
    option (bool * TimestampedBuffer) :=
  let write_size := frame_bytes b nframes in
  if m_transparent b then
    b ← (if dlt (m_buffer_tail_timestamp (clock b)) TIMESTAMP_MAX
            && dlt (m_buffer_next_tail_timestamp (clock b)) TIMESTAMP_MAX
         then b ← incrementFrameCounter nframes ts b; Some (decrementFrameCounter nframes b)
         else Some b);
    Some (true, setBufferTailTimestamp ts b)
  else
    '(written, b) ← ring_write data write_size b;
    if written <? write_size then Some (false, b)
    else b ← incrementFrameCounter nframes ts b; Some (true, b).

Definition preloadFrames (nframes : Z) (data : list Z) (keep_head_ts : bool) (b : TimestampedBuffer) :
    option (bool * TimestampedBuffer) :=
  let write_size := frame_bytes b nframes in
  '(written, b) ← ring_write data write_size b;
  if written <? write_size then Some (false, b) else
  let '(ts, _) := if keep_head_ts then getBufferHeadTimestamp b else getBufferTailTimestamp b in
  let b := with_framecounter (i32 (m_framecounter b + nframes)) b in
  Some (true, if keep_head_ts then setBufferHeadTimestamp ts b else setBufferTailTimestamp ts b).

Definition dropFrames (nframes : Z) (b : TimestampedBuffer) : option (bool * TimestampedBuffer) :=
  match m_event_buffer b with
  | None => None
  | Some rb =>
      let b := with_ring (ffado_ringbuffer_read_advance rb (frame_bytes b nframes)) b in
      Some (true, decrementFrameCounter nframes b)
  end.

(** The second result is the data stored at [data]. *)
Definition readFrames (nframes : Z) (b : TimestampedBuffer) : option (bool * list Z * TimestampedBuffer) :=
  let read_size := frame_bytes b nframes in
  if m_transparent b then Some (true, [], b) else
  match m_event_buffer b with
  | None => None
  | Some rb =>
      let '(rb, data, n) := ffado_ringbuffer_read rb read_size in
      let b := with_ring rb b in
      if n <? read_size then Some (false, data, b)
      else Some (true, data, decrementFrameCounter nframes b)
  end.

(** ** Block processing *)

(** The callbacks of a client: [processWriteBlock] gets the memory of the block and returns its
    new contents.  Both may fail an [assert]. *)
Class TimestampedBufferClient (C : Type) := {
  processReadBlock : list Z -> Z -> Z -> run C bool;
  processWriteBlock : list Z -> Z -> Z -> run C (bool * list Z);
}.

Section blocks.
Context {C : Type} `{TimestampedBufferClient C}.

(** The frames already transferred: the offset passed to the client. *)
Definition block_offset (b : TimestampedBuffer) (nbframes bytes_left : Z) : Z :=
  u32 (u32 (nbframes * m_cluster_size (sizes b)) - bytes_left) / m_cluster_size (sizes b).

(** What one round transfers directly: all that is left, or whole blocks up to the end. *)
Definition direct_bytes (b : TimestampedBuffer) (bytes_left len : Z) : Z :=
  i32 (if len <? bytes_left then len - len mod m_process_block_size (sizes b) else bytes_left).

(** [while (bytes2write > 0)].  The client's result is a [bool], so [xrun < 0] never holds. *)
Fixpoint write_blocks (fuel : nat) (nbframes bytes2write : Z) (rb : ffado_ringbuffer_t)
    (b : TimestampedBuffer) (c : C) : option (bool * TimestampedBuffer * C) :=
  let pbs := m_process_block_size (sizes b) in
  match fuel with
  | O => None
  | S fuel =>
      if bytes2write <=? 0 then Some (true, with_ring rb b, c) else
      if m_cluster_size (sizes b) =? 0 then None else
      let offset := block_offset b nbframes bytes2write in
      let '(v0, v1) := ffado_ringbuffer_get_write_vector rb in
      if vec_len v0 + vec_len v1 <? pbs then Some (false, with_ring rb b, c) else
      if vec_len v0 <? pbs then
        '((xrun, data), c) ← processWriteBlock (m_process_buffer b) FRAMES_PER_PROCESS_BLOCK offset c;
        let b := with_process_buffer data b in
        if Z.b2z xrun <? 0 then Some (false, with_ring rb b, c) else
        let '(rb, _) := ffado_ringbuffer_write rb data pbs in
        let bytes2write := u32 (bytes2write - pbs) in
        if negb (bytes2write mod pbs =? 0) then None else write_blocks fuel nbframes bytes2write rb b c
      else
        let byteswritten := direct_bytes b bytes2write (vec_len v0) in
        '((xrun, data), c) ←
          processWriteBlock (slice (rb_write_ptr rb) byteswritten (rb_buf rb))
            (u32 byteswritten / m_cluster_size (sizes b)) offset c;
        let rb := memcpy_at_write_ptr rb data in
        if Z.b2z xrun <? 0 then Some (false, with_ring rb b, c) else
        let rb := ffado_ringbuffer_write_advance rb byteswritten in
        let bytes2write := u32 (bytes2write - byteswritten) in
        if negb (bytes2write mod pbs =? 0) then None else write_blocks fuel nbframes bytes2write rb b c
  end.

Definition blockProcessWriteFrames (nbframes : Z) (ts : double) (b : TimestampedBuffer) (c : C) :
    option (bool * TimestampedBuffer * C) :=
  let events2write := u32 (nbframes * m_events_per_frame (sizes b)) in
  let bytes2write := u32 (events2write * m_event_size (sizes b)) in
  match m_event_buffer b with
  | None => None
  | Some rb =>
      '(ok, b, c) ← write_blocks (S (Z.to_nat bytes2write)) nbframes bytes2write rb b c;
      if ok : bool then b ← incrementFrameCounter nbframes ts b; Some (true, b, c) else Some (false, b, c)
  end.

Fixpoint read_blocks (fuel : nat) (nbframes bytes2read : Z) (rb : ffado_ringbuffer_t)
    (b : TimestampedBuffer) (c : C) : option (bool * TimestampedBuffer * C) :=
  let pbs := m_process_block_size (sizes b) in
  match fuel with
  | O => None
  | S fuel =>
      if bytes2read <=? 0 then Some (true, with_ring rb b, c) else
      if m_cluster_size (sizes b) =? 0 then None else
      let offset := block_offset b nbframes bytes2read in
      let '(v0, v1) := ffado_ringbuffer_get_read_vector rb in
      if vec_len v0 + vec_len v1 <? pbs then Some (false, with_ring rb b, c) else
      if vec_len v0 <? pbs then
        let '(rb, data, _) := ffado_ringbuffer_read rb pbs in
        let b := with_process_buffer (list_inserts 0 data (m_process_buffer b)) b in
        '(xrun, c) ← processReadBlock (m_process_buffer b) FRAMES_PER_PROCESS_BLOCK offset c;
        if Z.b2z xrun <? 0 then Some (false, with_ring rb b, c) else
        let bytes2read := u32 (bytes2read - pbs) in
        if negb (bytes2read mod pbs =? 0) then None else read_blocks fuel nbframes bytes2read rb b c
      else
        let bytesread := direct_bytes b bytes2read (vec_len v0) in
        '(xrun, c) ←
          processReadBlock (slice (rb_read_ptr rb) bytesread (rb_buf rb))
            (u32 bytesread / m_cluster_size (sizes b)) offset c;
        if Z.b2z xrun <? 0 then Some (false, with_ring rb b, c) else
        let rb := ffado_ringbuffer_read_advance rb bytesread in
        let bytes2read := u32 (bytes2read - bytesread) in
        if negb (bytes2read mod pbs =? 0) then None else read_blocks fuel nbframes bytes2read rb b c
  end.

Definition blockProcessReadFrames (nbframes : Z) (b : TimestampedBuffer) (c : C) :
    option (bool * TimestampedBuffer * C) :=
  let events2read := u32 (nbframes * m_events_per_frame (sizes b)) in
  let bytes2read := u32 (events2read * m_event_size (sizes b)) in
  match m_event_buffer b with
  | None => None
  | Some rb =>
      '(ok, b, c) ← read_blocks (S (Z.to_nat bytes2read)) nbframes bytes2read rb b c;
      if ok : bool then Some (true, decrementFrameCounter nbframes b, c) else Some (false, b, c)
  end.
End blocks.

(** ** What block processing relies on *)

(** A client that writes frame [i] of a period as the bytes [wr_frame i], whichever blocks it is
    asked for. *)
Class BlockWriter (cluster : Z) (C : Type) `{TimestampedBufferClient C} := {
  wr_inv : C -> Prop;
  wr_frame : Z -> list Z;
  wr_length i : zlength (wr_frame i) = cluster;
  wr_block data n off c : wr_inv c -> 0 <= n -> 0 <= off -> zlength data = n * cluster ->
    exists ok c', processWriteBlock data n off c = Some ((ok, concat (wr_frame <$> seqZ off n)), c') /\ wr_inv c';
}.

(** A client that consumes blocks: [rd_log c] is what it has been given, in order, and
    [rd_next c] the frame of the period it has to be given next. *)
Class BlockReader (cluster : Z) (C : Type) `{TimestampedBufferClient C} := {
  rd_log : C -> list Z;
  rd_next : C -> Z;
  rd_block data n c : 0 <= n -> zlength data = n * cluster ->
    exists ok c', processReadBlock data n (rd_next c) c = Some (ok, c')
      /\ rd_log c' = rd_log c ++ data /\ rd_next c' = rd_next c + n;
}.

(** The sizes after [prepare], and an event buffer that is not too large for [int] arithmetic. *)
Record blocks_ok (b : TimestampedBuffer) : Prop := {
  bo_cluster : 0 < m_cluster_size (sizes b);
  bo_events : m_events_per_frame (sizes b) * m_event_size (sizes b) = m_cluster_size (sizes b);
  bo_block : m_process_block_size (sizes b) = m_cluster_size (sizes b) * FRAMES_PER_PROCESS_BLOCK;
  bo_buffer : zlength (m_process_buffer b) = m_process_block_size (sizes b);
  bo_nonneg : 0 <= m_events_per_frame (sizes b) /\ 0 <= m_event_size (sizes b);
}.

Lemma with_process_buffer_id b : with_process_buffer (m_process_buffer b) b = b.
Proof. by destruct b. Qed.

Lemma blocks_ok_buffer b d : blocks_ok b -> zlength d = m_process_block_size (sizes b) ->
  blocks_ok (with_process_buffer d b).
Proof. intros [] Hd. by split. Qed.

Section arith.
Context (b : TimestampedBuffer) (B : blocks_ok b) (nbframes k : Z).
Context (Hk : 1 <= k) (Hn : 8 * k <= nbframes) (Hs : nbframes * m_cluster_size (sizes b) < 2 ^ 31).
#[local] Abbreviation pbs := (m_process_block_size (sizes b)).

Lemma block_bytes : pbs = 8 * m_cluster_size (sizes b) /\ 0 < pbs /\ pbs <= k * pbs < 2 ^ 31.
Proof using B Hk Hn Hs.
  pose proof (bo_cluster _ B). pose proof (bo_block _ B) as E. unfold FRAMES_PER_PROCESS_BLOCK in E.
  rewrite E. split; [lia|]. split; [lia|]. nia.
Qed.

Lemma block_offset_eq : block_offset b nbframes (k * pbs) = nbframes - 8 * k.
Proof using B Hk Hn Hs.
  pose proof (bo_cluster _ B). destruct block_bytes as (E & _ & R). unfold block_offset.
  assert (0 <= nbframes * m_cluster_size (sizes b)) by nia.
  rewrite (wrapU_small 32 (nbframes * _)) by lia. rewrite E.
  replace (nbframes * m_cluster_size (sizes b) - k * (8 * m_cluster_size (sizes b)))
    with ((nbframes - 8 * k) * m_cluster_size (sizes b)) by lia.
  rewrite wrapU_small by nia. apply Z.div_mul. lia.
Qed.

(** A direct round transfers a whole number of blocks, at least one. *)
Lemma direct_bytes_eq len : pbs <= len < 2 ^ 31 ->
  exists j, 1 <= j <= k /\ direct_bytes b (k * pbs) len = j * pbs /\ j * pbs <= len.
Proof using B Hk Hn Hs.
  intros Hl. destruct block_bytes as (E & P & R). unfold direct_bytes.
  destruct (Z.ltb_spec len (k * pbs)).
  - exists (len / pbs). pose proof (Z.div_mod len pbs ltac:(lia)). pose proof (Z.mod_pos_bound len pbs ltac:(lia)).
    assert (1 <= len / pbs) by (apply Z.div_le_lower_bound; lia).
    assert (len / pbs < k) by (apply Z.div_lt_upper_bound; lia).
    split; [lia|]. rewrite wrapS_small by lia. split; lia.
  - exists k. split; [lia|]. rewrite wrapS_small by lia. split; lia.
Qed.

Lemma blocks_left j : 1 <= j <= k ->
  u32 (k * pbs - j * pbs) = (k - j) * pbs /\ (k - j) * pbs mod pbs = 0
  /\ u32 (j * pbs) / m_cluster_size (sizes b) = 8 * j.
Proof using B Hk Hn Hs.
  intros Hj. pose proof (bo_cluster _ B). destruct block_bytes as (E & P & R).
  assert (0 <= (k - j) * pbs <= k * pbs) by nia. assert (0 <= j * pbs <= k * pbs) by nia.
  rewrite !wrapU_small by lia. split; [lia|]. split; [apply Z_mod_mult|].
  rewrite E. replace (j * (8 * m_cluster_size (sizes b))) with (8 * j * m_cluster_size (sizes b)) by lia.
  apply Z.div_mul. lia.
Qed.
End arith.

(** *** Writing *)

Lemma zlength_concat_frames cluster (f : Z -> list Z) off n : (forall i, zlength (f i) = cluster) -> 0 <= n ->
  zlength (concat (f <$> seqZ off n)) = n * cluster.
Proof.
  intros Hf Hn. revert off. pattern n. apply natlike_ind; [..|done]; clear n Hn.
  - done.
  - intros n Hn IH off. rewrite seqZ_cons by lia. rewrite fmap_cons, concat_cons, zlength_app, Hf.
    rewrite Z.pred_succ, IH. lia.
Qed.

Lemma concat_frames_app (f : Z -> list Z) off n m : 0 <= n -> 0 <= m ->
  concat (f <$> seqZ off (n + m)) = concat (f <$> seqZ off n) ++ concat (f <$> seqZ (off + n) m).
Proof. intros. by rewrite seqZ_app, fmap_app, concat_app. Qed.

Section write.
Context {C : Type} `{TimestampedBufferClient C} (b0 : TimestampedBuffer) (nbframes : Z).
#[local] Abbreviation cl := (m_cluster_size (sizes b0)).
#[local] Abbreviation pbs := (m_process_block_size (sizes b0)).
Context `{!BlockWriter cl C}.
Context (Hs : nbframes * cl < 2 ^ 31).

(** The result of writing [k] blocks: [i] of them were written, all of them unless the ring
    had no room for the next one. *)
Definition written (k : Z) (rb : ffado_ringbuffer_t) (b : TimestampedBuffer)
    (r : option (bool * TimestampedBuffer * C)) : Prop :=
  exists i rb' buf c', 0 <= i <= k
    /\ r = Some (i =? k, with_ring rb' (with_process_buffer buf b), c')
    /\ zlength buf = pbs /\ rb_wf rb' /\ rb_size rb' = rb_size rb /\ wr_inv c'
    /\ rb_contents rb' = rb_contents rb ++ concat (wr_frame <$> seqZ (nbframes - 8 * k) (8 * i))
    /\ (i < k -> rb_size rb - 1 - rb_fill rb' < pbs).

Definition write_pre (k : Z) (rb : ffado_ringbuffer_t) (b : TimestampedBuffer) (c : C) : Prop :=
  0 <= k /\ 8 * k <= nbframes /\ sizes b = sizes b0 /\ blocks_ok b /\ rb_wf rb /\ rb_size rb <= 2 ^ 31
  /\ wr_inv c.

(** A round that wrote [j] blocks, and the rounds after it. *)
Lemma write_resume fuel k j rb rb1 b buf c c1 :
  (forall rb b c, write_pre (k - j) rb b c ->
     written (k - j) rb b (write_blocks fuel nbframes ((k - j) * pbs) rb b c)) ->
  write_pre k rb b c -> 1 <= j <= k -> zlength buf = pbs ->
  rb_wf rb1 -> rb_size rb1 = rb_size rb -> wr_inv c1 ->
  rb_contents rb1 = rb_contents rb ++ concat (wr_frame <$> seqZ (nbframes - 8 * k) (8 * j)) ->
  written k rb b (write_blocks fuel nbframes ((k - j) * pbs) rb1 (with_process_buffer buf b) c1).
Proof.
  intros IH (Hk & Hn & Ez & B & W & Sz & I) Hj Lb W1 S1 I1 Q.
  destruct (IH rb1 (with_process_buffer buf b) c1) as (i & rb' & buf' & c' & Hi & E & L' & W' & S' & I' & Q' & R').
  { split_and!; try done; try lia. apply blocks_ok_buffer; [done|by rewrite Ez]. }
  exists (j + i), rb', buf', c'. rewrite E. split; [lia|]. split.
  { f_equal. f_equal. f_equal. destruct (Z.eqb_spec i (k - j)), (Z.eqb_spec (j + i) k); lia || done. }
  split_and!; try done; [congruence| |intros; rewrite <- S1; apply R'; lia].
  rewrite Q', Q, <- app_assoc. f_equal.
  replace (8 * (j + i)) with (8 * j + 8 * i) by lia. rewrite concat_frames_app by lia.
  by replace (nbframes - 8 * k + 8 * j) with (nbframes - 8 * (k - j)) by lia.
Qed.

Lemma write_blocks_ok fuel k rb b c : (Z.to_nat k < fuel)%nat -> write_pre k rb b c ->
  written k rb b (write_blocks fuel nbframes (k * pbs) rb b c).
Proof.
  revert k rb b c. induction fuel as [|fuel IH]; intros k rb b c Hf Pre; [lia|].
  pose proof Pre as (Hk & Hn & Ez & B & W & Sz & I).
  pose proof (bo_buffer _ B) as Lb. rewrite Ez in Lb.
  destruct (Z.eq_dec k 0) as [->|K0].
  { exists 0, rb, (m_process_buffer b), c. rewrite with_process_buffer_id. simpl. rewrite app_nil_r. done. }
  assert (1 <= k) as Hk1 by lia. pose proof Hs as Hs'. rewrite <- Ez in Hs'.
  destruct (block_bytes b B nbframes k Hk1 Hn Hs') as (E8 & P & R).
  pose proof (block_offset_eq b B nbframes k Hk1 Hn Hs') as Eo.
  pose proof (direct_bytes_eq b B nbframes k Hk1 Hn Hs') as Ed.
  pose proof (blocks_left b B nbframes k Hk1 Hn Hs') as El. pose proof (bo_cluster _ B).
  rewrite Ez in *. cbn [write_blocks]. rewrite Ez, Eo, (proj2 (Z.leb_gt _ _)), (proj2 (Z.eqb_neq _ _)) by lia.
  pose proof (write_vector_spec rb W) as V. destruct (ffado_ringbuffer_get_write_vector rb) as [v0 v1].
  destruct V as (_ & V01 & V0). rewrite write_space_eq in V01, V0 by done.
  pose proof (rb_fill_bounds _ W). pose proof (wf_write _ W).
  destruct (Z.ltb_spec (vec_len v0 + vec_len v1) pbs) as [F|F].
  { exists 0, rb, (m_process_buffer b), c. rewrite with_process_buffer_id, (proj2 (Z.eqb_neq _ _)) by lia.
    simpl. rewrite app_nil_r. split_and!; try done; lia. }
  destruct (Z.ltb_spec (vec_len v0) pbs) as [L|L].
  - destruct (wr_block (m_process_buffer b) FRAMES_PER_PROCESS_BLOCK (nbframes - 8 * k) c I)
      as (ok & c1 & -> & I1); [unfold FRAMES_PER_PROCESS_BLOCK; lia..|]. cbn [mbind option_bind].
    set (d := concat _). assert (zlength d = pbs) as Ld
      by (unfold d; rewrite (zlength_concat_frames cl) by (try apply wr_length; done); done).
    replace (Z.b2z ok <? 0) with false by (by destruct ok).
    pose proof (write_refines rb d W (zlength_nonneg d)) as Hw. rewrite Ld in Hw.
    destruct (ffado_ringbuffer_write rb d pbs) as [rb1 n]. destruct Hw as (W1 & S1 & Q).
    unfold queue_write, queue_capacity in Q. rewrite zlength_contents, Ld, Z.min_l in Q by (done || lia).
    injection Q as Q _. rewrite take_ge in Q by (unfold zlength in Ld; lia).
    destruct (El 1 ltac:(lia)) as (E1 & E2 & _). rewrite Z.mul_1_l in E1. rewrite E1, E2. cbn [negb Z.eqb].
    apply (write_resume fuel k 1 rb rb1 b d c c1); try done. intros. apply IH; [lia|done].
  - destruct (Ed (vec_len v0) ltac:(lia)) as (j & Hj & -> & Hl). destruct (El j Hj) as (E1 & E2 & E3).
    destruct (wr_block (slice (rb_write_ptr rb) (j * pbs) (rb_buf rb)) (8 * j) (nbframes - 8 * k) c I)
      as (ok & c1 & Eb & I1); [lia..| |].
    { rewrite zlength_slice; [lia..|]. rewrite (wf_buf _ W). nia. }
    rewrite E3, Eb. cbn [mbind option_bind]. set (d := concat _) in *. assert (zlength d = j * pbs) as Ld
      by (unfold d; rewrite (zlength_concat_frames cl) by (try apply wr_length; lia); lia).
    replace (Z.b2z ok <? 0) with false by (by destruct ok).
    destruct (write_contiguous rb W d) as (W1 & Q & F1 & S1 & _); [rewrite Ld; nia..|].
    rewrite Ld in *. rewrite E1, E2. cbn [negb Z.eqb].
    rewrite <- (with_process_buffer_id b) at 2.
    apply (write_resume fuel k j rb _ b _ c c1); try done. intros. apply IH; [lia|done].
Qed.
End write.

(** *** Reading *)

(** Overwriting the whole of a block. *)
Lemma list_inserts_whole (d l : list Z) : length d = length l -> list_inserts 0 d l = d.
Proof.
  intros E. apply list_eq. intros i. destruct (decide (i < length d)%nat).
  - rewrite list_lookup_inserts; [|lia..]. f_equal. lia.
  - rewrite list_lookup_inserts_ge by lia. rewrite !lookup_ge_None_2; [done|lia..].
Qed.

Section read.
Context {C : Type} `{TimestampedBufferClient C} (b0 : TimestampedBuffer) (nbframes : Z).
#[local] Abbreviation cl := (m_cluster_size (sizes b0)).
#[local] Abbreviation pbs := (m_process_block_size (sizes b0)).
Context `{!BlockReader cl C}.
Context (Hs : nbframes * cl < 2 ^ 31).

(** The result of reading [k] blocks: the first [i] blocks of the contents went to the client,
    all of them unless the ring held less than the next one. *)
Definition consumed (k : Z) (rb : ffado_ringbuffer_t) (b : TimestampedBuffer) (c : C)
    (r : option (bool * TimestampedBuffer * C)) : Prop :=
  exists i rb' buf c', 0 <= i <= k
    /\ r = Some (i =? k, with_ring rb' (with_process_buffer buf b), c')
    /\ zlength buf = pbs /\ rb_wf rb' /\ rb_size rb' = rb_size rb
    /\ rb_contents rb' = drop (Z.to_nat (i * pbs)) (rb_contents rb)
    /\ rd_log c' = rd_log c ++ take (Z.to_nat (i * pbs)) (rb_contents rb)
    /\ i * pbs <= rb_fill rb /\ (i < k -> rb_fill rb' < pbs).

Definition read_pre (k : Z) (rb : ffado_ringbuffer_t) (b : TimestampedBuffer) (c : C) : Prop :=
  0 <= k /\ 8 * k <= nbframes /\ sizes b = sizes b0 /\ blocks_ok b /\ rb_wf rb /\ rb_size rb <= 2 ^ 31
  /\ rd_next c = nbframes - 8 * k.

(** A round that read [j] blocks, and the rounds after it. *)
Lemma read_resume fuel k j rb rb1 b buf c c1 :
  (forall rb b c, read_pre (k - j) rb b c ->
     consumed (k - j) rb b c (read_blocks fuel nbframes ((k - j) * pbs) rb b c)) ->
  read_pre k rb b c -> 1 <= j <= k -> zlength buf = pbs ->
  rb_wf rb1 -> rb_size rb1 = rb_size rb -> rd_next c1 = rd_next c + 8 * j -> j * pbs <= rb_fill rb ->
  rb_contents rb1 = drop (Z.to_nat (j * pbs)) (rb_contents rb) ->
  rd_log c1 = rd_log c ++ take (Z.to_nat (j * pbs)) (rb_contents rb) ->
  consumed k rb b c (read_blocks fuel nbframes ((k - j) * pbs) rb1 (with_process_buffer buf b) c1).
Proof.
  intros IH (Hk & Hn & Ez & B & W & Sz & I) Hj Lb W1 S1 I1 Fl Q L.
  destruct (IH rb1 (with_process_buffer buf b) c1)
    as (i & rb' & buf' & c' & Hi & E & L' & W' & S' & Q' & G' & F' & R').
  { split_and!; try done; try lia. apply blocks_ok_buffer; [done|by rewrite Ez]. }
  assert (0 < pbs) as P.
  { pose proof (bo_cluster _ B). rewrite <- Ez, (bo_block _ B). unfold FRAMES_PER_PROCESS_BLOCK. lia. }
  assert (rb_fill rb1 = rb_fill rb - j * pbs) as Fr.
  { rewrite <- !zlength_contents, Q by done. pose proof (zlength_contents _ W) as Z.
    unfold zlength in *. rewrite length_drop. lia. }
  exists (j + i), rb', buf', c'. rewrite E. split; [lia|]. split.
  { f_equal. f_equal. f_equal. destruct (Z.eqb_spec i (k - j)), (Z.eqb_spec (j + i) k); lia || done. }
  assert (Z.to_nat ((j + i) * pbs) = Z.to_nat (j * pbs) + Z.to_nat (i * pbs))%nat as EN by nia.
  split_and!; try done; try congruence; try lia.
  - rewrite Q', Q, drop_drop, EN. done.
  - rewrite G', L, Q, <- app_assoc, EN. f_equal. by rewrite take_take_drop.
Qed.

Lemma read_blocks_ok fuel k rb b c : (Z.to_nat k < fuel)%nat -> read_pre k rb b c ->
  consumed k rb b c (read_blocks fuel nbframes (k * pbs) rb b c).
Proof.
  revert k rb b c. induction fuel as [|fuel IH]; intros k rb b c Hf Pre; [lia|].
  pose proof Pre as (Hk & Hn & Ez & B & W & Sz & I).
  pose proof (bo_buffer _ B) as Lb. rewrite Ez in Lb. pose proof (rb_fill_bounds _ W).
  destruct (Z.eq_dec k 0) as [->|K0].
  { exists 0, rb, (m_process_buffer b), c. rewrite with_process_buffer_id. simpl. rewrite app_nil_r.
    split_and!; done || lia. }
  assert (1 <= k) as Hk1 by lia. pose proof Hs as Hs'. rewrite <- Ez in Hs'.
  destruct (block_bytes b B nbframes k Hk1 Hn Hs') as (E8 & P & R).
  pose proof (block_offset_eq b B nbframes k Hk1 Hn Hs') as Eo.
  pose proof (direct_bytes_eq b B nbframes k Hk1 Hn Hs') as Ed.
  pose proof (blocks_left b B nbframes k Hk1 Hn Hs') as El. pose proof (bo_cluster _ B).
  rewrite Ez in *. cbn [read_blocks]. rewrite Ez, Eo, (proj2 (Z.leb_gt _ _)), (proj2 (Z.eqb_neq _ _)) by lia.
  pose proof (read_vector_spec rb W) as V. destruct (ffado_ringbuffer_get_read_vector rb) as [v0 v1].
  destruct V as (_ & V01 & V0). pose proof (wf_read _ W).
  destruct (Z.ltb_spec (vec_len v0 + vec_len v1) pbs) as [F|F].
  { exists 0, rb, (m_process_buffer b), c. rewrite with_process_buffer_id, (proj2 (Z.eqb_neq _ _)) by lia.
    simpl. rewrite app_nil_r. split_and!; try done; lia. }
  rewrite <- I. destruct (Z.ltb_spec (vec_len v0) pbs) as [L|L].
  - pose proof (read_refines rb pbs W ltac:(lia)) as Hr.
    destruct (ffado_ringbuffer_read rb pbs) as [[rb1 d] n]. destruct Hr as (W1 & S1 & Q).
    unfold queue_read in Q. injection Q as Q -> _. rewrite list_inserts_whole.
    2: { pose proof (zlength_contents _ W). unfold zlength in *. rewrite length_take. lia. }
    cbn [m_process_buffer with_process_buffer].
    set (d := take _ _) in *. assert (zlength d = pbs) as Ld.
    { pose proof (zlength_contents _ W). unfold d, zlength in *. rewrite length_take. lia. }
    destruct (rd_block d FRAMES_PER_PROCESS_BLOCK c) as (ok & c1 & -> & G1 & N1);
      [unfold FRAMES_PER_PROCESS_BLOCK; lia..|]. cbn [mbind option_bind].
    replace (Z.b2z ok <? 0) with false by (by destruct ok).
    destruct (El 1 ltac:(lia)) as (E1 & E2 & _). rewrite Z.mul_1_l in E1. rewrite E1, E2. cbn [negb Z.eqb].
    apply (read_resume fuel k 1 rb rb1 b d c c1); try done; [intros; apply IH; [lia|done]|..];
      rewrite ?Z.mul_1_l; done || lia.
  - destruct (Ed (vec_len v0) ltac:(lia)) as (j & Hj & -> & Hl). destruct (El j Hj) as (E1 & E2 & E3).
    rewrite E3. rewrite (read_contiguous rb W) by nia.
    destruct (rd_block (take (Z.to_nat (j * pbs)) (rb_contents rb)) (8 * j) c) as (ok & c1 & -> & G1 & N1); [lia| |].
    { pose proof (zlength_contents _ W). unfold zlength in *. rewrite length_take. lia. }
    cbn [mbind option_bind]. replace (Z.b2z ok <? 0) with false by (by destruct ok).
    destruct (read_advance_ok rb W (j * pbs)) as (W1 & Q & F1 & S1 & _); [nia|].
    rewrite E1, E2. cbn [negb Z.eqb]. rewrite <- (with_process_buffer_id b) at 2.
    apply (read_resume fuel k j rb _ b _ c c1); try done; [intros; apply IH; [lia|done]|nia].
Qed.
End read.
