(* ===== verification/FrameBuffer.v ===== *)
(** * What the time-aware frame buffer guarantees

    Properties of the operations of [TimestampedBuffer.v]: block processing transfers whole
    periods in order through the wrap of the ring; the frame counter counts the frames in the
    ring as long as every transfer succeeds; the timestamps. *)
From S2P Require Import Prelude RingBuffer Ieee754 TimestampedBuffer.

(** ** Block processing of a period *)

(** A period of [k] blocks is [k * m_process_block_size] bytes. *)
Lemma period_bytes b k : blocks_ok b -> 0 <= k -> 8 * k * m_cluster_size (sizes b) < 2 ^ 31 ->
  u32 (u32 (8 * k * m_events_per_frame (sizes b)) * m_event_size (sizes b))
  = k * m_process_block_size (sizes b).
Proof.
  intros B Hk Hs. pose proof (bo_cluster _ B) as Hc. destruct (bo_nonneg _ B) as [N1 N2].
  rewrite (bo_block _ B), <- (bo_events _ B) in *. unfold FRAMES_PER_PROCESS_BLOCK.
  set (ev := m_events_per_frame (sizes b)) in *. set (es := m_event_size (sizes b)) in *.
  assert (1 <= es) by nia. assert (0 <= 8 * k * ev) by nia. assert (8 * k * ev <= 8 * k * (ev * es)) by nia.
  rewrite (wrapU_small 32 (8 * k * ev)) by lia. rewrite wrapU_small by nia. lia.
Qed.

(** An accepted timestamp updates the clock and the frame counter only. *)
Lemma incrementFrameCounter_accepts n ts b :
  dlt ts (m_wrap_at (clock b)) = true -> dge ts (S754_zero false) = true -> n = m_update_period (clock b) ->
  exists k, incrementFrameCounter n ts b = Some (with_clock k (with_framecounter (i32 (m_framecounter b + n)) b)).
Proof.
  intros H1 H2 ->. unfold incrementFrameCounter. rewrite H1, H2, Z.eqb_refl. simpl. by eexists.
Qed.

Lemma incrementFrameCounter_inv n ts b b' : incrementFrameCounter n ts b = Some b' ->
  exists k, b' = with_clock k (with_framecounter (i32 (m_framecounter b + n)) b).
Proof.
  unfold incrementFrameCounter. do 3 (destruct (negb _); [done|]). intros [= <-]. by eexists.
Qed.

(** The blocks of a request of [k] that fit into [space] bytes. *)
Definition blocks_that_fit (b : TimestampedBuffer) (k space : Z) : Z :=
  Z.min k (space / m_process_block_size (sizes b)).

Lemma blocks_that_fit_eq b k i space : 0 < m_process_block_size (sizes b) -> 0 <= i <= k ->
  i * m_process_block_size (sizes b) <= space ->
  (i < k -> space < (i + 1) * m_process_block_size (sizes b)) -> i = blocks_that_fit b k space.
Proof.
  intros P Hi Hs Hr. unfold blocks_that_fit. set (p := m_process_block_size _) in *.
  assert (i <= space / p) by (apply Z.div_le_lower_bound; lia).
  destruct (Z.eq_dec i k) as [->|]; [lia|].
  assert (space / p < i + 1) by (apply Z.div_lt_upper_bound; lia). lia.
Qed.

Section write_period.
Context {C : Type} `{TimestampedBufferClient C} (b : TimestampedBuffer) (k : Z) (rb : ffado_ringbuffer_t) (c : C).
Context `{!BlockWriter (m_cluster_size (sizes b)) C}.
Context (B : blocks_ok b) (Eb : m_event_buffer b = Some rb) (W : rb_wf rb) (Sz : rb_size rb <= 2 ^ 31).
Context (Hk : 0 <= k) (Hs : 8 * k * m_cluster_size (sizes b) < 2 ^ 31) (I : wr_inv c).

(** The blocks that reach the ring are the ones that fit, in order. *)
Lemma write_period_blocks :
  let fit := blocks_that_fit b k (ffado_ringbuffer_write_space rb) in
  exists rb' buf c',
    write_blocks (S (Z.to_nat (k * m_process_block_size (sizes b)))) (8 * k)
      (k * m_process_block_size (sizes b)) rb b c
    = Some (fit =? k, with_ring rb' (with_process_buffer buf b), c')
    /\ rb_wf rb' /\ wr_inv c' /\ rb_size rb' = rb_size rb
    /\ rb_contents rb' = rb_contents rb ++ concat (wr_frame <$> seqZ 0 (8 * fit)).
Proof using All.
  pose proof (bo_cluster _ B). pose proof (bo_block _ B) as Ep. unfold FRAMES_PER_PROCESS_BLOCK in Ep.
  destruct (write_blocks_ok b (8 * k) Hs (S (Z.to_nat (k * m_process_block_size (sizes b)))) k rb b c)
    as (i & rb' & buf & c' & Hi & E & L & W' & S' & I' & Q & R); [nia| |].
  { split_and!; done || lia. }
  rewrite Z.sub_diag in Q.
  assert (rb_fill rb' = rb_fill rb + i * m_process_block_size (sizes b)) as F.
  { rewrite <- !zlength_contents, Q, zlength_app, (zlength_concat_frames (m_cluster_size (sizes b)))
      by (done || lia || apply wr_length). lia. }
  pose proof (rb_fill_bounds _ W'). rewrite S' in *.
  rewrite write_space_eq by done. rewrite <- (blocks_that_fit_eq b k i); [|lia..].
  exists rb', buf, c'. by rewrite E.
Qed.
End write_period.

(** C25. Block processing writes whole periods: if the ring has room for the period, the client is
    asked for frames 0, 1, ... of the period exactly once and in order, whatever blocks and
    wrap-arounds the ring forces, their bytes are appended to the ring, and the frame counter
    grows by the period. *)
Theorem block_write_period {C} `{TimestampedBufferClient C} b `{!BlockWriter (m_cluster_size (sizes b)) C} k rb c ts :
  blocks_ok b -> m_event_buffer b = Some rb -> rb_wf rb -> rb_size rb <= 2 ^ 31 -> 0 <= k ->
  8 * k * m_cluster_size (sizes b) <= ffado_ringbuffer_write_space rb -> wr_inv c ->
  dlt ts (m_wrap_at (clock b)) = true -> dge ts (S754_zero false) = true -> m_update_period (clock b) = 8 * k ->
  exists b' rb' c', blockProcessWriteFrames (8 * k) ts b c = Some (true, b', c')
    /\ m_event_buffer b' = Some rb' /\ rb_wf rb' /\ wr_inv c'
    /\ rb_contents rb' = rb_contents rb ++ concat (wr_frame <$> seqZ 0 (8 * k))
    /\ m_framecounter b' = i32 (m_framecounter b + 8 * k).
Proof.
  intros B Eb W Sz Hk Hr I T1 T2 Hu. pose proof (rb_fill_bounds _ W).
  assert (8 * k * m_cluster_size (sizes b) < 2 ^ 31) as Hs by (rewrite write_space_eq in Hr by done; lia).
  unfold blockProcessWriteFrames. rewrite period_bytes, Eb by done.
  destruct (write_period_blocks b k rb c B Eb W Sz Hk Hs I) as (rb' & buf & c' & -> & W' & I' & _ & Q).
  assert (blocks_that_fit b k (ffado_ringbuffer_write_space rb) = k) as F.
  { pose proof (bo_cluster _ B). pose proof (bo_block _ B) as Ep. unfold FRAMES_PER_PROCESS_BLOCK in Ep.
    symmetry. apply blocks_that_fit_eq; lia. }
  rewrite F in *. rewrite Z.eqb_refl. simpl.
  destruct (incrementFrameCounter_accepts (8 * k) ts (with_ring rb' (with_process_buffer buf b)))
    as [clk ->]; [done..|]. simpl. eexists _, rb', c'. split_and!; try done.
Qed.

(** An overrun is reported, but not undone: a period that does not fit returns [false] with the
    blocks that did fit left in the ring, while the frame counter and the clock do not move.
    From then on the ring holds more frames than the frame counter says. *)
Theorem block_write_overrun {C} `{TimestampedBufferClient C} b `{!BlockWriter (m_cluster_size (sizes b)) C} k rb c ts :
  blocks_ok b -> m_event_buffer b = Some rb -> rb_wf rb -> rb_size rb <= 2 ^ 31 -> 0 <= k ->
  8 * k * m_cluster_size (sizes b) < 2 ^ 31 -> wr_inv c ->
  ffado_ringbuffer_write_space rb < 8 * k * m_cluster_size (sizes b) ->
  exists b' rb' c', blockProcessWriteFrames (8 * k) ts b c = Some (false, b', c')
    /\ m_event_buffer b' = Some rb' /\ rb_wf rb'
    /\ rb_contents rb' = rb_contents rb ++
         concat (wr_frame <$> seqZ 0 (8 * (ffado_ringbuffer_write_space rb / m_process_block_size (sizes b))))
    /\ m_framecounter b' = m_framecounter b /\ clock b' = clock b.
Proof.
  intros B Eb W Sz Hk Hs I Hr.
  unfold blockProcessWriteFrames. rewrite period_bytes, Eb by done.
  destruct (write_period_blocks b k rb c B Eb W Sz Hk Hs I) as (rb' & buf & c' & -> & W' & I' & _ & Q).
  pose proof (bo_cluster _ B). pose proof (bo_block _ B) as Ep. unfold FRAMES_PER_PROCESS_BLOCK in Ep.
  assert (ffado_ringbuffer_write_space rb / m_process_block_size (sizes b) < k) as F
    by (apply Z.div_lt_upper_bound; lia).
  unfold blocks_that_fit in *. rewrite Z.min_r in * by lia. rewrite (proj2 (Z.eqb_neq _ _)) by lia. simpl.
  eexists _, rb', c'. split_and!; done.
Qed.

Section read_period.
Context {C : Type} `{TimestampedBufferClient C} (b : TimestampedBuffer) (k : Z) (rb : ffado_ringbuffer_t) (c : C).
Context `{!BlockReader (m_cluster_size (sizes b)) C}.
Context (B : blocks_ok b) (Eb : m_event_buffer b = Some rb) (W : rb_wf rb) (Sz : rb_size rb <= 2 ^ 31).
Context (Hk : 0 <= k) (Hs : 8 * k * m_cluster_size (sizes b) < 2 ^ 31) (I : rd_next c = 0).

(** The blocks that reach the client are the complete ones in the ring. *)
Lemma read_period_blocks :
  let full := blocks_that_fit b k (rb_fill rb) in
  let n := Z.to_nat (full * m_process_block_size (sizes b)) in
  exists rb' buf c',
    read_blocks (S (Z.to_nat (k * m_process_block_size (sizes b)))) (8 * k)
      (k * m_process_block_size (sizes b)) rb b c
    = Some (full =? k, with_ring rb' (with_process_buffer buf b), c')
    /\ rb_wf rb' /\ rb_contents rb' = drop n (rb_contents rb) /\ rd_log c' = rd_log c ++ take n (rb_contents rb).
Proof using All.
  pose proof (bo_cluster _ B). pose proof (bo_block _ B) as Ep. unfold FRAMES_PER_PROCESS_BLOCK in Ep.
  destruct (read_blocks_ok b (8 * k) Hs (S (Z.to_nat (k * m_process_block_size (sizes b)))) k rb b c)
    as (i & rb' & buf & c' & Hi & E & L & W' & S' & Q & G & F & R); [nia| |].
  { split_and!; done || lia. }
  assert (rb_fill rb' = rb_fill rb - i * m_process_block_size (sizes b)) as Fr.
  { rewrite <- !zlength_contents, Q by done. pose proof (zlength_contents _ W) as Z.
    unfold zlength in *. rewrite length_drop. lia. }
  rewrite <- (blocks_that_fit_eq b k i); [|lia..]. exists rb', buf, c'. by rewrite E.
Qed.
End read_period.

(** C26. Block processing reads whole periods: if the ring holds the period, the client is given the
    oldest bytes of the ring in order, block after block with the frame offsets 0, 8, ... it
    expects, the ring is left with the rest and the frame counter drops by the period. *)
Theorem block_read_period {C} `{TimestampedBufferClient C} b `{!BlockReader (m_cluster_size (sizes b)) C} k rb c :
  blocks_ok b -> m_event_buffer b = Some rb -> rb_wf rb -> rb_size rb <= 2 ^ 31 -> 0 <= k ->
  8 * k * m_cluster_size (sizes b) <= rb_fill rb -> rd_next c = 0 ->
  let n := Z.to_nat (8 * k * m_cluster_size (sizes b)) in
  exists b' rb' c', blockProcessReadFrames (8 * k) b c = Some (true, b', c')
    /\ m_event_buffer b' = Some rb' /\ rb_wf rb'
    /\ rb_contents rb' = drop n (rb_contents rb) /\ rd_log c' = rd_log c ++ take n (rb_contents rb)
    /\ m_framecounter b' = i32 (m_framecounter b - 8 * k) /\ clock b' = clock b.
Proof.
  intros B Eb W Sz Hk Hr I. pose proof (rb_fill_bounds _ W).
  assert (8 * k * m_cluster_size (sizes b) < 2 ^ 31) as Hs by lia.
  unfold blockProcessReadFrames. rewrite period_bytes, Eb by done.
  destruct (read_period_blocks b k rb c B Eb W Sz Hk Hs I) as (rb' & buf & c' & -> & W' & Q & G).
  pose proof (bo_cluster _ B). pose proof (bo_block _ B) as Ep. unfold FRAMES_PER_PROCESS_BLOCK in Ep.
  assert (blocks_that_fit b k (rb_fill rb) = k) as F by (symmetry; apply blocks_that_fit_eq; lia).
  rewrite F in *. rewrite Z.eqb_refl. simpl.
  replace (8 * k * m_cluster_size (sizes b)) with (k * m_process_block_size (sizes b)) by lia.
  eexists _, rb', c'. split_and!; done.
Qed.

(** *** A concrete client and buffer *)

(** A client that writes frame [i] as the bytes [i] and [100 + i] and keeps what it reads. *)
Definition pattern_frame (i : Z) : list Z := [i; 100 + i].

#[local] Instance pattern_client : TimestampedBufferClient (list Z * Z) := {
  processReadBlock data n off c := Some (true, (fst c ++ data, off + n));
  processWriteBlock data n off c := Some ((true, concat (pattern_frame <$> seqZ off n)), c);
}.

#[local] Instance pattern_writer : BlockWriter 2 (list Z * Z).
Proof.
  refine {| wr_inv _ := True; wr_frame := pattern_frame |}; [done|]. intros. by eexists true, c.
Defined.

#[local] Instance pattern_reader : BlockReader 2 (list Z * Z).
Proof. refine {| rd_log c := fst c; rd_next c := snd c |}. intros data n c _ _. by eexists true, _. Defined.

(** Frames of two bytes in a ring of 64 bytes, of which [n] at [r] are filled. *)
Definition example_ring (r n : Z) : ffado_ringbuffer_t :=
  mkRB (Z.of_nat <$> seq 0 64) ((r + n) mod 64) r 64 63 0.

Definition example_buffer (r n : Z) : TimestampedBuffer :=
  mkTSB (mkSizes 2 16 1 2 32 2 64)
    (mkClock (d_of_Z 3072000) (d_of_Z 1000) (d_of_Z 2000) (d_of_Z 1000) (S754_zero false) (S754_zero false)
       (f_of_Z 512) (f_of_Z 512) 24 1536)
    (Some (example_ring r n)) (replicate 16 0) true false (n / 2).

Lemma example_ring_wf r n : 0 <= r < 64 -> 0 <= n < 64 -> rb_wf (example_ring r n).
Proof. intros. split; simpl; try done; [by exists 6|apply Z.mod_pos_bound; lia]. Qed.

Lemma example_blocks_ok r n : blocks_ok (example_buffer r n).
Proof. split; done. Qed.

(** Three blocks from offset 40 on: one directly, one over the wrap, one directly. *)
Lemma block_write_period_witness :
  exists b' rb' c', blockProcessWriteFrames 24 (d_of_Z 2010) (example_buffer 30 10) ([], 0) = Some (true, b', c')
    /\ m_event_buffer b' = Some rb' /\ rb_wf rb' /\ True
    /\ rb_contents rb' = rb_contents (example_ring 30 10) ++ concat (pattern_frame <$> seqZ 0 24)
    /\ m_framecounter b' = 29.
Proof.
  apply (@block_write_period (list Z * Z) pattern_client (example_buffer 30 10) pattern_writer 3 (example_ring 30 10) ([], 0) (d_of_Z 2010));
    first [apply example_blocks_ok | apply example_ring_wf; lia | reflexivity | vm_compute; congruence | exact I].
Defined.

Lemma block_write_overrun_witness :
  exists b' rb' c', blockProcessWriteFrames 24 (d_of_Z 2010) (example_buffer 30 28) ([], 0) = Some (false, b', c')
    /\ m_event_buffer b' = Some rb' /\ rb_wf rb'
    /\ rb_contents rb' = rb_contents (example_ring 30 28) ++ concat (pattern_frame <$> seqZ 0 16)
    /\ m_framecounter b' = 14 /\ clock b' = clock (example_buffer 30 28).
Proof.
  apply (@block_write_overrun (list Z * Z) pattern_client (example_buffer 30 28) pattern_writer 3 (example_ring 30 28) ([], 0) (d_of_Z 2010));
    first [apply example_blocks_ok | apply example_ring_wf; lia | reflexivity | vm_compute; congruence | exact I].
Defined.

Lemma block_read_period_witness :
  exists b' rb' c', blockProcessReadFrames 24 (example_buffer 30 50) ([], 0) = Some (true, b', c')
    /\ m_event_buffer b' = Some rb' /\ rb_wf rb'
    /\ rb_contents rb' = drop 48 (rb_contents (example_ring 30 50))
    /\ fst c' = take 48 (rb_contents (example_ring 30 50))
    /\ m_framecounter b' = 1 /\ clock b' = clock (example_buffer 30 50).
Proof.
  apply (@block_read_period (list Z * Z) pattern_client (example_buffer 30 50) pattern_reader 3 (example_ring 30 50) ([], 0));
    first [apply example_blocks_ok | apply example_ring_wf; lia | reflexivity | vm_compute; congruence].
Defined.

(** ** The frame counter *)

(** The event buffer exists, and the frame counter is the number of frames in it. *)
Definition counted (b : TimestampedBuffer) : Prop :=
  0 < m_event_size (sizes b) /\ 0 < m_events_per_frame (sizes b)
  /\ exists rb, m_event_buffer b = Some rb /\ rb_wf rb /\ rb_size rb <= 2 ^ 31
       /\ rb_fill rb = m_framecounter b * (m_event_size (sizes b) * m_events_per_frame (sizes b)).

(** The transfers of whole frames. *)
Inductive tsb_op :=
  | WriteFrames (nframes : Z) (data : list Z) (ts : double)
  | ReadFrames (nframes : Z)
  | PreloadFrames (nframes : Z) (data : list Z) (keep_head_ts : bool)
  | DropFrames (nframes : Z)
  | WriteDummyFrame
  | ClearBuffer.

Definition tsb_step (op : tsb_op) (b : TimestampedBuffer) : option (bool * TimestampedBuffer) :=
  match op with
  | WriteFrames n data ts => writeFrames n data ts b
  | ReadFrames n => '(ok, _, b) ← readFrames n b; Some (ok, b)
  | PreloadFrames n data keep => preloadFrames n data keep b
  | DropFrames n => dropFrames n b
  | WriteDummyFrame => writeDummyFrame b
  | ClearBuffer => clearBuffer b
  end.

(** The requests are for whole frames, of less than 2^31 bytes; [dropFrames] has no check of its own. *)
Definition op_frames (b : TimestampedBuffer) (op : tsb_op) : Prop :=
  let bytes n := n * (m_event_size (sizes b) * m_events_per_frame (sizes b)) in
  match op with
  | WriteFrames n data _ | PreloadFrames n data _ => 0 <= n /\ bytes n < 2 ^ 31 /\ zlength data = bytes n
  | ReadFrames n => 0 <= n /\ bytes n < 2 ^ 31
  | DropFrames n => 0 <= n <= m_framecounter b
  | WriteDummyFrame => bytes 1 < 2 ^ 31
  | ClearBuffer => True
  end.

Lemma frame_bytes_eq b n : 0 < m_event_size (sizes b) -> 0 < m_events_per_frame (sizes b) -> 0 <= n ->
  n * (m_event_size (sizes b) * m_events_per_frame (sizes b)) < 2 ^ 31 ->
  frame_bytes b n = n * (m_event_size (sizes b) * m_events_per_frame (sizes b)).
Proof.
  unfold frame_bytes. set (es := m_event_size _). set (ev := m_events_per_frame _). intros.
  assert (0 <= n * es) by nia. assert (n * es <= n * (es * ev)) by nia.
  rewrite (wrapU_small 32 (n * es)) by lia. rewrite wrapU_small by nia. lia.
Qed.

Lemma counted_range b : counted b -> 0 <= m_framecounter b < 2 ^ 31.
Proof. intros (E & V & rb & _ & W & S & F). pose proof (rb_fill_bounds _ W). nia. Qed.

(** What matters for [counted] after a transfer: the ring and the counter. *)
Lemma counted_intro b b' rb n : counted b -> sizes b' = sizes b -> m_event_buffer b' = Some rb -> rb_wf rb ->
  rb_size rb <= 2 ^ 31 -> m_framecounter b' = i32 n ->
  rb_fill rb = n * (m_event_size (sizes b) * m_events_per_frame (sizes b)) -> counted b'.
Proof.
  intros (E & V & _) Ez Eb W S Ef F. pose proof (rb_fill_bounds _ W). rewrite wrapS_small in Ef by nia.
  split; [by rewrite Ez|]. split; [by rewrite Ez|]. exists rb. rewrite Ez, Ef. done.
Qed.

Lemma counted_same b b' : counted b -> sizes b' = sizes b -> m_event_buffer b' = m_event_buffer b ->
  m_framecounter b' = m_framecounter b -> counted b'.
Proof. unfold counted. by intros Hc -> -> ->. Qed.

(** A write of [n] frames stores all of them, or reports less. *)
Lemma ring_write_counted b n data : counted b ->
  0 <= n -> n * (m_event_size (sizes b) * m_events_per_frame (sizes b)) < 2 ^ 31 ->
  zlength data = n * (m_event_size (sizes b) * m_events_per_frame (sizes b)) ->
  exists w rb', ring_write data (zlength data) b = Some (w, with_ring rb' b)
    /\ (w < zlength data \/ counted (with_framecounter (i32 (m_framecounter b + n)) (with_ring rb' b))).
Proof.
  intros Hc Hn Hb L. pose proof Hc as (E & V & rb & Eb & W & S & F). unfold ring_write. rewrite Eb.
  pose proof (write_refines rb data W (zlength_nonneg _)) as R.
  destruct (ffado_ringbuffer_write rb data (zlength data)) as [rb' w]. destruct R as (W' & S' & Q).
  exists w, rb'. split; [done|]. destruct (Z.ltb_spec w (zlength data)); [by left|right].
  eapply (counted_intro b _ rb' (m_framecounter b + n)); try done; [by rewrite S'|].
  unfold queue_write in Q. injection Q as Q Ew. rewrite <- Ew in Q.
  rewrite <- (zlength_contents _ W'), Q, zlength_app, (zlength_contents _ W), F.
  rewrite take_ge; [lia|]. unfold zlength at 1 in H. lia.
Qed.

(** *** One lemma per transfer *)

Section transfers.
Context (b b' : TimestampedBuffer) (Hc : counted b).
#[local] Abbreviation bytes n := (n * (m_event_size (sizes b) * m_events_per_frame (sizes b))).

Lemma transparent_counted n ts : m_transparent b = true -> writeFrames n [] ts b = Some (true, b') ->
  counted b' /\ sizes b' = sizes b.
Proof using Hc.
  pose proof (counted_range _ Hc). unfold writeFrames. intros -> St.
  destruct (dlt _ _ && dlt _ _); simpl in St; [|simplify_eq; by split].
  destruct (incrementFrameCounter n ts b) as [b1|] eqn:I; [|done]. simpl in St. simplify_eq.
  apply incrementFrameCounter_inv in I as [k ->]. split; [|done].
  eapply (counted_same b); try done. simpl. unfold Z.sub. rewrite wrapS_add_l, <- Z.add_assoc, Z.add_opp_diag_r, Z.add_0_r.
  apply wrapS_small; lia.
Qed.

Lemma writeFrames_counted n data ts : 0 <= n -> bytes n < 2 ^ 31 -> zlength data = bytes n ->
  writeFrames n data ts b = Some (true, b') -> counted b' /\ sizes b' = sizes b.
Proof using Hc.
  intros Hn Hb L St. pose proof Hc as (E & V & _). destruct (m_transparent b) eqn:T.
  { apply (transparent_counted n ts T). revert St. unfold writeFrames. by rewrite T. }
  unfold writeFrames in St. rewrite T, frame_bytes_eq, <- L in St by done.
  destruct (ring_write_counted b n data Hc Hn Hb L) as (w & rb' & Er & D). rewrite Er in St. simpl in St.
  destruct (Z.ltb_spec w (zlength data)); [done|]. destruct D as [|D]; [lia|].
  destruct (incrementFrameCounter n ts (with_ring rb' b)) as [b1|] eqn:I; [|done]. simpl in St. simplify_eq.
  apply incrementFrameCounter_inv in I as [k ->]. split; [|done]. by eapply counted_same.
Qed.

Lemma readFrames_counted n d : 0 <= n -> bytes n < 2 ^ 31 ->
  readFrames n b = Some (true, d, b') -> counted b' /\ sizes b' = sizes b.
Proof using Hc.
  intros Hn Hb St. pose proof Hc as (E & V & rb & Eb & W & S & F).
  unfold readFrames in St. destruct (m_transparent b); [by simplify_eq/=|].
  rewrite frame_bytes_eq, Eb in St by done.
  assert (0 <= bytes n) as H0 by nia. set (r := bytes n) in *.
  pose proof (read_refines rb r W H0) as Q. destruct (ffado_ringbuffer_read rb r) as [[rb' e] v].
  destruct Q as (W' & S' & Q). unfold queue_read in Q. injection Q as Q _ Em.
  destruct (Z.ltb_spec v r); simplify_eq/=. split; [|done].
  eapply (counted_intro b _ rb' (m_framecounter b - n)); try done; [by rewrite S'|].
  pose proof (zlength_contents _ W). rewrite <- (zlength_contents _ W'), Q.
  unfold zlength in *. rewrite length_drop. lia.
Qed.

Lemma preloadFrames_counted n data keep : 0 <= n -> bytes n < 2 ^ 31 -> zlength data = bytes n ->
  preloadFrames n data keep b = Some (true, b') -> counted b' /\ sizes b' = sizes b.
Proof using Hc.
  intros Hn Hb L St. pose proof Hc as (E & V & _).
  unfold preloadFrames in St. rewrite frame_bytes_eq, <- L in St by done.
  destruct (ring_write_counted b n data Hc Hn Hb L) as (w & rb' & Er & D). rewrite Er in St. simpl in St.
  destruct (Z.ltb_spec w (zlength data)); [done|]. destruct D as [|D]; [lia|].
  destruct keep; simplify_eq/=; (split; [|done]); by eapply counted_same.
Qed.

Lemma dropFrames_counted n : 0 <= n <= m_framecounter b ->
  dropFrames n b = Some (true, b') -> counted b' /\ sizes b' = sizes b.
Proof using Hc.
  intros Hn St. pose proof Hc as (E & V & rb & Eb & W & S & F). pose proof (rb_fill_bounds _ W).
  assert (0 <= bytes n <= rb_fill rb) as Hb
    by (rewrite F; split; [nia|apply Z.mul_le_mono_nonneg_r; nia]).
  unfold dropFrames in St. rewrite Eb in St. simplify_eq/=. rewrite frame_bytes_eq by (done || lia).
  destruct (read_advance_ok rb W (bytes n)) as (W' & _ & F' & S' & _); [lia|].
  split; [|done]. eapply (counted_intro b _ _ (m_framecounter b - n)); done || lia.
Qed.

Lemma writeDummyFrame_counted : bytes 1 < 2 ^ 31 ->
  writeDummyFrame b = Some (true, b') -> counted b' /\ sizes b' = sizes b.
Proof using Hc.
  intros Hb St. pose proof Hc as (E & V & _). unfold writeDummyFrame in St.
  set (w := m_event_size (sizes b) * m_events_per_frame (sizes b)) in *. assert (0 < w) by nia.
  rewrite (wrapU_small 32) in St by lia. set (z := replicate (Z.to_nat w) 0) in *.
  assert (zlength z = 1 * w) as L by (unfold zlength, z; rewrite length_replicate; lia).
  destruct (ring_write_counted b 1 z Hc ltac:(lia) Hb L) as (v & rb' & Er & D). rewrite L, Z.mul_1_l in Er, D.
  rewrite Er in St. simpl in St.
  destruct (Z.ltb_spec v w); [done|]. destruct D as [|D]; [lia|]. by simplify_eq/=.
Qed.

Lemma clearBuffer_counted : clearBuffer b = Some (true, b') -> counted b' /\ sizes b' = sizes b.
Proof using Hc.
  intros St. pose proof Hc as (E & V & rb & Eb & W & S & F). unfold clearBuffer in St. rewrite Eb in St.
  simplify_eq/=. split; [|done]. destruct (reset_ok rb W) as (W' & Q & S').
  eapply (counted_intro b _ _ 0); done || by rewrite <- zlength_contents, Q by done.
Qed.
End transfers.

(** The states reached by transfers that all succeeded. *)
Inductive transferred (b0 : TimestampedBuffer) : TimestampedBuffer -> Prop :=
  | transferred_start : transferred b0 b0
  | transferred_step op b b' :
      transferred b0 b -> op_frames b op -> tsb_step op b = Some (true, b') -> transferred b0 b'.



(** [writeFrames] is not atomic: when the ring has no room for all the frames it returns
    [false] without counting anything, but the leading bytes that fit stay in the ring, so
    later readers get frames shifted by [write_space] bytes.  Only the count of bytes that
    [ffado_ringbuffer_write] returned tells. *)
Theorem write_frames_overrun b rb n data ts : counted b -> m_event_buffer b = Some rb ->
  m_transparent b = false -> 0 <= n ->
  zlength data = n * (m_event_size (sizes b) * m_events_per_frame (sizes b)) -> zlength data < 2 ^ 31 ->
  ffado_ringbuffer_write_space rb < zlength data ->
  exists rb', writeFrames n data ts b = Some (false, with_ring rb' b)
    /\ rb_contents rb' = rb_contents rb ++ take (Z.to_nat (ffado_ringbuffer_write_space rb)) data
    /\ ffado_ringbuffer_write_space rb' = 0.
Proof.
  intros (E & V & rb0 & Eb & W & S & F) Eb' T Hn L Hb Hs. rewrite Eb in Eb'. injection Eb' as ->.
  unfold writeFrames. rewrite T, frame_bytes_eq, <- L by (done || lia). unfold ring_write. rewrite Eb.
  pose proof (write_refines rb data W (zlength_nonneg _)) as R.
  destruct (ffado_ringbuffer_write rb data (zlength data)) as [rb' w]. destruct R as (W' & S' & Q).
  unfold queue_write, queue_capacity in Q. rewrite zlength_contents in Q by done.
  rewrite write_space_eq in * by done. rewrite Z.min_r in Q by lia. injection Q as Q ->. simpl.
  rewrite (proj2 (Z.ltb_lt _ _)) by done. exists rb'. split; [done|]. split; [done|].
  rewrite write_space_eq, S' by done. rewrite <- (zlength_contents _ W'), Q, zlength_app, zlength_contents by done.
  pose proof (rb_fill_bounds _ W). unfold zlength in *. rewrite length_take. lia.
Qed.

Lemma write_frames_overrun_witness :
  exists rb', writeFrames 4 [1; 2; 3; 4; 5; 6; 7; 8] (d_of_Z 2010) (example_buffer 30 60)
              = Some (false, with_ring rb' (example_buffer 30 60))
    /\ rb_contents rb' = rb_contents (example_ring 30 60) ++ [1; 2; 3] /\ ffado_ringbuffer_write_space rb' = 0.
Proof.
  apply (write_frames_overrun (example_buffer 30 60) (example_ring 30 60) 4);
    [|reflexivity..|vm_compute; congruence|reflexivity|vm_compute; congruence|reflexivity].
  repeat split. exists (example_ring 30 60). split; [reflexivity|]. split; [apply example_ring_wf; lia|].
  split; [vm_compute; congruence|reflexivity].
Defined.

(** ** Allocation *)

(** [prepare] allocates an empty event buffer that satisfies what the transfers and block
    processing rely on.  The ring has at least the bytes of [m_buffer_size] frames, but one
    byte of it is never usable: when the byte count is a power of two, [getBufferSpace]
    reports [m_buffer_size] frames of room and the ring takes one frame less. *)
Theorem prepare_establishes junk b :
  let z := sizes b in let bytes := m_events_per_frame z * m_buffer_size z * m_event_size z in
  0 < m_events_per_frame z -> 0 < m_event_size z -> 0 < m_buffer_size z -> 2 <= bytes <= 2 ^ 30 ->
  m_events_per_frame z * m_event_size z * 8 < 2 ^ 32 ->
  deq (d_of_f (m_nominal_rate (clock b))) (S754_zero false) = false -> m_update_period (clock b) <> 0 ->
  exists b' rb, prepare junk b = Some (true, b') /\ m_event_buffer b' = Some rb
    /\ blocks_ok b' /\ counted b' /\ rb_contents rb = [] /\ getBufferFill b' = 0
    /\ getBufferSpace b' = u32 (m_buffer_size z) /\ bytes <= rb_size rb
    /\ (ffado_ringbuffer_write_space rb < bytes <-> rb_size rb = bytes).
Proof.
  intros z bytes V E N Hb H8 Hr Hu. subst z bytes. unfold prepare, resizeBuffer. cbn -[Z.mul Z.add].
  set (ev := m_events_per_frame _) in *. set (es := m_event_size _) in *. set (n := m_buffer_size _) in *.
  assert (ev * n <= ev * n * es) by nia.
  rewrite (wrapU_small 32 (ev * n)), (wrapU_small 32 (ev * n * es)) by nia.
  rewrite Hr, !(proj2 (Z.eqb_neq _ _)) by lia. cbn -[Z.mul Z.add].
  destruct (create_power_total 30 1 (ev * n * es)) as [k Ek]; [lia..|].
  destruct (ffado_ringbuffer_create junk (ev * n * es)) as [rb|] eqn:C.
  2: { unfold ffado_ringbuffer_create in C. by rewrite Ek in C. }
  cbn -[Z.mul Z.add]. fold ev es n.
  rewrite (wrapU_small 32 (ev * es)), (wrapU_small 32 (ev * es * _)) by (unfold FRAMES_PER_PROCESS_BLOCK; nia).
  destruct (create_ok _ _ _ C) as (W & Q & L & U).
  assert (rb_fill rb = 0) as F0 by (by rewrite <- zlength_contents, Q by done).
  eexists _, rb. split; [reflexivity|]. cbn -[Z.mul Z.add]. split; [done|].
  split; [split; cbn -[Z.mul Z.add]; try nia|].
  { unfold zlength. rewrite length_replicate. unfold FRAMES_PER_PROCESS_BLOCK. nia. }
  split; [split; [done|split; [done|exists rb; cbn -[Z.mul Z.add]; split_and!; done || lia]]|].
  unfold getBufferFill, getBufferSpace. cbn -[Z.mul Z.add Z.sub]. rewrite Z.sub_0_r, write_space_eq, F0 by done.
  split_and!; done || lia.
Qed.

Lemma prepare_establishes_witness :
  exists b' rb, prepare (fun _ => 0) (example_buffer 0 0) = Some (true, b') /\ m_event_buffer b' = Some rb
    /\ getBufferSpace b' = 32 /\ ffado_ringbuffer_write_space rb = 63.
Proof.
  destruct (prepare_establishes (fun _ => 0) (example_buffer 0 0)) as (b' & rb & E & R & _);
    [done..|split; done|done|reflexivity|done|].
  exists b', rb. split; [exact E|]. split; [exact R|]. vm_compute in E. injection E as <-.
  injection R as <-. split; reflexivity.
Defined.

(** ** Timestamps *)

(** The tail timestamp reads back: after [setBufferTailTimestamp] of a timestamp in range, and
    with a finite rate, [getBufferTailTimestamp] returns that very double. *)
Theorem tail_timestamp_roundtrip ts b :
  dge ts (S754_zero false) = true -> dlt ts (m_wrap_at (clock b)) = true -> ts <> S754_zero true ->
  finite (m_current_rate (clock b)) = true ->
  getBufferTailTimestamp (setBufferTailTimestamp ts b) = (ts, m_framecounter b).
Proof.
  intros H0 H1 Hz Hf. unfold getBufferTailTimestamp. f_equal.
  assert (forall k, m_wrap_at k = m_wrap_at (clock b) -> wrap_timestamp k ts = ts) as Hw.
  { intros k E. unfold wrap_timestamp. by rewrite E, (dlt_dge _ _ H1), (dge_dlt _ _ H0). }
  unfold getTimestampFromTail, setBufferTailTimestamp. cbn [clock with_clock restart_dll with_times m_buffer_tail_timestamp m_current_rate].
  rewrite Hw by done. destruct (fmul_zero_l false (m_current_rate (clock b)) Hf) as [s Es].
  change (f_of_Z 0) with (S754_zero false). rewrite Es, d_of_f_zero.
  assert (dsub ts (S754_zero s) = ts) as ->; [|by apply Hw].
  destruct (is_zero ts) eqn:Z; [|by apply dsub_zero_r].
  destruct ts as [[]| | |]; [done|apply dsub_pzero|done..].
Qed.

Lemma tail_timestamp_roundtrip_witness :
  getBufferTailTimestamp (setBufferTailTimestamp (d_of_Z 3071999) (example_buffer 30 10)) = (d_of_Z 3071999, 5).
Proof. apply (tail_timestamp_roundtrip (d_of_Z 3071999) (example_buffer 30 10)); vm_compute; congruence. Defined.

(** The clock with the next tail predicted at [next], wrapping at 3072000 ticks. *)
Definition predicting (next : Z) : tsb_clock :=
  with_times (S754_zero false) (d_of_Z next) (d_of_Z 1000) (f_of_Z 512) (clock (example_buffer 0 0)).

(** The sign of the loop error at the wrap: a timestamp that is 8 ticks before the prediction
    has the error -8, and one that is 8 ticks after it +8, also when the timestamp has wrapped
    and the prediction has not; but when only the prediction has wrapped, a timestamp 8
    ticks before it gets +8, so the loop is corrected in the wrong direction. *)
Theorem dll_error_at_wrap :
  dll_error (predicting 5000) (d_of_Z 4992) = d_of_Z (-8)
  /\ dll_error (predicting 5000) (d_of_Z 5008) = d_of_Z 8
  /\ dll_error (predicting (3072000 - 3)) (d_of_Z 5) = d_of_Z 8
  /\ dll_error (predicting 5) (d_of_Z (3072000 - 3)) = d_of_Z 8.
Proof. vm_compute. done. Qed.

(** The head timestamp reads back only up to the rounding of [x + n * rate - n * rate]. *)
Lemma head_timestamp_rounding :
  let b := with_clock (with_times (S754_zero false) (S754_zero false) (S754_zero false)
             (f_of_d (ddiv (d_of_Z 24576000) (d_of_Z 44100))) (clock (example_buffer 30 10))) (example_buffer 30 10) in
  let x := ddiv (d_of_Z 1) (d_of_Z 3) in
  fst (getBufferHeadTimestamp (setBufferHeadTimestamp x b)) <> x
  /\ fst (getBufferHeadTimestamp (setBufferHeadTimestamp (d_of_Z 1000) b)) = d_of_Z 1000.
Proof. vm_compute. split; congruence. Qed.
