(* ===== verification/CmdSerialize.v ===== *)
(** * Command serialisation

    Model of [src/libutil/cmd_serialize.h] and [cmd_serialize.cpp]: the interfaces
    [IOSSerialize] and [IISDeserialize] through which every command object is written and
    read, and their implementations over a block of memory, [BufferSerialize] and
    [BufferDeserialize].

    The interfaces are type classes.  What a client may rely on is a second pair of classes,
    [SerializeSpec] and [DeserializeSpec]; the files on commands prove their theorems from
    these laws alone, and this file shows that the buffer implementations satisfy them. *)
From S2P Require Import Prelude ByteSwap.

(** ** The interfaces *)

Class IOSSerialize (S : Type) := {
  write_byte : Z -> st S bool;
  write_u16 : Z -> st S bool;
  write_quadlet : Z -> st S bool;
  write_block : list Z -> st S bool;
}.

(** A read takes the value the variable has before the call and returns the result flag and
    the value after it.  The read of a block returns a pointer: [read_block] is for callers that use the [n] bytes they
    ask for, [read_pointer] for those that follow the pointer as far as the memory goes. *)
Class IISDeserialize (D : Type) := {
  read_byte : Z -> st D (bool * Z);
  read_u16 : Z -> st D (bool * Z);
  read_quadlet : Z -> st D (bool * Z);
  read_block : list Z -> Z -> st D (bool * list Z);
  read_pointer : list Z -> Z -> st D (bool * list Z);
  peek_byte : Z -> st D (bool * Z);
  peek_u16 : Z -> Z -> st D (bool * Z);
  skip : Z -> st D bool;
  getNrOfConsumedBytes : D -> Z;
}.

(** ** Strings for debug messages

    The state of a [StringSerializer] is [m_cnt]; the text goes only into messages.  Its writes always succeed. *)
Definition string_write (n : Z) : st Z bool := fun m_cnt => (true, u32 (m_cnt + n)).

Definition string_serialize : IOSSerialize Z := {|
  write_byte _ := string_write 1;
  write_u16 _ := string_write 2;
  write_quadlet _ := string_write 4;
  write_block l := string_write (zlength l);
|}.

(** ** Buffers

    [mem] is the memory from [m_buffer] on; the object it belongs to can be larger than the
    [m_length] bytes the buffer may use.  [m_curPos] is the offset from [m_buffer]. *)
Record buffer := mkBuffer { mem : list Z; m_curPos : Z; m_length : Z }.

Definition set_curPos (b : buffer) (p : Z) : buffer := mkBuffer (mem b) p (m_length b).

Definition isCurPosValid (b : buffer) : bool := negb (m_length b <=? u64 (m_curPos b)).

(** Store bytes at [m_curPos] and step over them. *)
Definition put_bytes (l : list Z) (b : buffer) : buffer :=
  mkBuffer (list_inserts (Z.to_nat (m_curPos b)) l (mem b)) (m_curPos b + zlength l) (m_length b).

Definition byte_here (b : buffer) : Z := nth (Z.to_nat (m_curPos b)) (mem b) 0.

Definition getNrOfProducesBytes (b : buffer) : Z := i32 (m_curPos b).

Definition BufferSerialize (buf : list Z) (length : Z) : buffer := mkBuffer buf 0 length.
Definition BufferDeserialize (buf : list Z) (length : Z) : buffer := mkBuffer buf 0 length.

Definition BufferSerialize_write_byte (value : Z) : st buffer bool := fun b =>
  if isCurPosValid b then (true, put_bytes [u8 value] b) else (false, b).

Definition BufferSerialize_write_u16 (value : Z) : st buffer bool := fun b =>
  let hi := (value .& 0xFF00) >> 8 in
  let lo := value .& 0xFF in
  if isCurPosValid b then
    let b := put_bytes [hi] b in
    if isCurPosValid b then (true, put_bytes [lo] b) else (false, b)
  else (false, b).

Definition BufferSerialize_write_block (v : list Z) : st buffer bool := fun b =>
  if isCurPosValid b then
    let len := zlength v in
    let b := set_curPos b (m_curPos b + len) in
    if isCurPosValid b then (true, put_bytes v (set_curPos b (m_curPos b - len))) else (false, b)
  else (false, b).

Definition BufferDeserialize_read_byte (value : Z) : st buffer (bool * Z) := fun b =>
  if isCurPosValid b then ((true, byte_here b), set_curPos b (m_curPos b + 1))
  else ((false, value), b).

Definition BufferDeserialize_read_u16 (value : Z) : st buffer (bool * Z) := fun b =>
  if isCurPosValid b then
    let hi := byte_here b in
    let b := set_curPos b (m_curPos b + 1) in
    if isCurPosValid b then
      let lo := byte_here b in
      ((true, (hi << 8) .| lo), set_curPos b (m_curPos b + 1))
    else ((false, value), b)
  else ((false, value), b).

(** The value is a pointer into the buffer; it is set before the end is checked. *)
Definition BufferDeserialize_read_block (value : list Z) (length : Z) : st buffer (bool * list Z) := fun b =>
  if isCurPosValid b then
    let value := slice (m_curPos b) length (mem b) in
    let b := set_curPos b (m_curPos b + (length - 1)) in
    if negb (isCurPosValid b) then ((false, value), b)
    else ((true, value), set_curPos b (m_curPos b + 1))
  else ((false, value), b).

Definition BufferDeserialize_read_pointer (value : list Z) (length : Z) : st buffer (bool * list Z) := fun b =>
  if isCurPosValid b then
    let value := drop (Z.to_nat (m_curPos b)) (mem b) in
    let b := set_curPos b (m_curPos b + (length - 1)) in
    if negb (isCurPosValid b) then ((false, value), b)
    else ((true, value), set_curPos b (m_curPos b + 1))
  else ((false, value), b).

Definition BufferDeserialize_peek_byte (value : Z) : st buffer (bool * Z) := fun b =>
  if isCurPosValid b then ((true, byte_here b), b) else ((false, value), b).

Definition BufferDeserialize_peek_u16 (value offset : Z) : st buffer (bool * Z) := fun b =>
  let b := set_curPos b (m_curPos b + offset) in
  let '(r, b) :=
    if isCurPosValid b then
      let hi := byte_here b in
      let b := set_curPos b (m_curPos b + 1) in
      let r := if isCurPosValid b then (true, (hi << 8) .| byte_here b) else (false, value) in
      (r, set_curPos b (m_curPos b - 1))
    else ((false, value), b) in
  (r, set_curPos b (m_curPos b - offset)).

Definition BufferDeserialize_skip (length : Z) : st buffer bool := fun b =>
  (true, set_curPos b (m_curPos b + length)).

Section host.
Context (big_endian : bool).

(** A quadlet is stored and loaded in the byte order of the host. *)
Definition BufferSerialize_write_quadlet (value : Z) : st buffer bool := fun b =>
  if isCurPosValid b then (true, put_bytes (quad_store big_endian value) b) else (false, b).

Definition BufferDeserialize_read_quadlet (value : Z) : st buffer (bool * Z) := fun b =>
  if isCurPosValid b
  then ((true, quad_load big_endian (slice (m_curPos b) 4 (mem b))), set_curPos b (m_curPos b + 4))
  else ((false, value), b).
End host.

#[export] Instance buffer_serialize (big_endian : bool) : IOSSerialize buffer := {
  write_byte := BufferSerialize_write_byte;
  write_u16 := BufferSerialize_write_u16;
  write_quadlet := BufferSerialize_write_quadlet big_endian;
  write_block := BufferSerialize_write_block;
}.

#[export] Instance buffer_deserialize (big_endian : bool) : IISDeserialize buffer := {
  read_byte := BufferDeserialize_read_byte;
  read_u16 := BufferDeserialize_read_u16;
  read_quadlet := BufferDeserialize_read_quadlet big_endian;
  read_block := BufferDeserialize_read_block;
  read_pointer := BufferDeserialize_read_pointer;
  peek_byte := BufferDeserialize_peek_byte;
  peek_u16 := BufferDeserialize_peek_u16;
  skip := BufferDeserialize_skip;
  getNrOfConsumedBytes b := i32 (m_curPos b);
}.

(** ** The promises of the interfaces *)

(** What a serialiser has produced, how many more bytes it takes, and the memory behind the
    current position. *)
Class SerializeView (S : Type) := {
  se_wf : S -> Prop;
  se_out : S -> list Z;
  se_room : S -> Z;
  se_rest : S -> list Z;
}.

(** [emits m l x]: with room for more than [l], [m] returns [x] and appends exactly [l]. *)
Definition emits {S} `{SerializeView S} {A} (m : st S A) (l : list Z) (x : A) : Prop :=
  forall s, se_wf s -> zlength l < se_room s ->
  exists s', m s = (x, s') /\ se_wf s' /\ se_out s' = se_out s ++ l
             /\ se_room s' = se_room s - zlength l /\ se_rest s' = drop (length l) (se_rest s).

Class SerializeSpec (big_endian : bool) (S : Type) `{IOSSerialize S} := {
  #[global] spec_view :: SerializeView S;
  emits_byte v : emits (write_byte v) [u8 v] true;
  emits_u16 v : 0 <= v < 2 ^ 16 -> emits (write_u16 v) [v / 256; v mod 256] true;
  emits_quadlet v : emits (write_quadlet v) (quad_store big_endian v) true;
  emits_block l : emits (write_block l) l true;
  full_byte v s : se_wf s -> se_room s = 0 -> write_byte v s = (false, s);
}.

(** The bytes a deserialiser has left, and how many it has consumed. *)
Class DeserializeView (D : Type) := { de_wf : D -> Prop; de_in : D -> list Z; de_pos : D -> Z }.

(** [parses m l x]: in front of [l], [m] returns [x] and consumes exactly [l]. *)
Definition parses {D} `{DeserializeView D} {A} (m : st D A) (l : list Z) (x : A) : Prop :=
  forall d r, de_wf d -> de_in d = l ++ r ->
  exists d', m d = (x, d') /\ de_wf d' /\ de_in d' = r /\ de_pos d' = de_pos d + zlength l.

(** [reads m l x]: in front of [l], [m] returns [x], wherever it stops. *)
Definition reads {D} `{DeserializeView D} {A} (m : st D A) (l : list Z) (x : A) : Prop :=
  forall d r, de_wf d -> de_in d = l ++ r -> exists d', m d = (x, d').

Class DeserializeSpec (big_endian : bool) (D : Type) `{IISDeserialize D} := {
  #[global] spec_dview :: DeserializeView D;
  parses_byte old b : parses (read_byte old) [b] (true, b);
  parses_u16 old hi lo : parses (read_u16 old) [hi; lo] (true, (hi << 8) .| lo);
  parses_quadlet old l : length l = 4%nat -> parses (read_quadlet old) l (true, quad_load big_endian l);
  parses_block old l : l <> [] -> parses (read_block old (zlength l)) l (true, l);
  pointer_spec old l r d : de_wf d -> de_in d = l ++ r -> l <> [] ->
    exists t d', read_pointer old (zlength l) d = ((true, l ++ r ++ t), d') /\ de_wf d' /\ de_in d' = r /\ de_pos d' = de_pos d + zlength l;
  consumed_pos d : de_wf d -> getNrOfConsumedBytes d = i32 (de_pos d);
  parses_skip l : parses (skip (zlength l)) l true;
  peek_byte_spec old d : de_wf d ->
    peek_byte old d = (match de_in d with b :: _ => (true, b) | [] => (false, old) end, d);
  peek_u16_spec old k d : de_wf d -> 0 <= k < 2 ^ 62 ->
    peek_u16 old k d
    = (match drop (Z.to_nat k) (de_in d) with hi :: lo :: _ => (true, (hi << 8) .| lo) | _ => (false, old) end, d);
  end_byte old d : de_wf d -> de_in d = [] -> read_byte old d = ((false, old), d);
}.

(** *** Composition *)

Section emits.
Context {S : Type} `{SerializeView S}.

Lemma emits_ret {A} (x : A) : emits (mret x) [] x.
Proof.
  intros s Hs _. exists s. rewrite app_nil_r. change (zlength []) with 0. split_and!; try done. lia.
Qed.

Lemma emits_bind {A B} (m : st S A) (k : A -> st S B) l1 l2 x y :
  emits m l1 x -> emits (k x) l2 y -> emits (m ≫= k) (l1 ++ l2) y.
Proof.
  intros Hm Hk s Hs Hr. rewrite zlength_app in Hr.
  pose proof (zlength_nonneg l1). pose proof (zlength_nonneg l2).
  destruct (Hm s) as (s1 & E1 & W1 & O1 & R1 & M1); [done|lia|].
  destruct (Hk s1) as (s2 & E2 & W2 & O2 & R2 & M2); [done|lia|].
  exists s2. unfold mbind, st_bind. rewrite E1. simpl.
  rewrite E2, O2, O1, R2, R1, M2, M1, zlength_app, length_app.
  split_and!; try done; [by rewrite app_assoc|lia|apply drop_drop].
Qed.

Lemma emits_each {A} (l : list (st S A)) (ls : list (list Z)) :
  Forall2 (fun m o => exists x, emits m o x) l ls -> emits (each l) (concat ls) true.
Proof.
  induction 1 as [|m o l ls [x Hx] _ IH]; simpl; [apply emits_ret|]. by eapply emits_bind.
Qed.

Lemma emits_all_of (l : list (st S bool)) (ls : list (list Z)) :
  Forall2 (fun m o => emits m o true) l ls -> emits (all_of l) (concat ls) true.
Proof.
  induction 1 as [|m o l ls Hx _ IH]; simpl; [apply emits_ret|].
  eapply emits_bind; [done|]. rewrite <- (app_nil_r (concat ls)).
  eapply emits_bind; [done|]. apply emits_ret.
Qed.

Lemma emits_eq {A} (m : st S A) l l' x : l' = l -> emits m l x -> emits m l' x.
Proof. by intros ->. Qed.
End emits.

Section parses.
Context {D : Type} `{DeserializeView D}.

Lemma parses_ret {A} (x : A) : parses (mret x) [] x.
Proof. intros d r Hd E. exists d. split_and!; try done. change (zlength []) with 0. lia. Qed.

Lemma parses_bind {A B} (m : st D A) (k : A -> st D B) l1 l2 x y :
  parses m l1 x -> parses (k x) l2 y -> parses (m ≫= k) (l1 ++ l2) y.
Proof.
  intros Hm Hk d r Hd E. rewrite <- app_assoc in E.
  destruct (Hm d _ Hd E) as (d1 & E1 & W1 & I1 & P1).
  destruct (Hk d1 _ W1 I1) as (d2 & E2 & W2 & I2 & P2).
  exists d2. unfold mbind, st_bind. rewrite E1. simpl. rewrite E2, P2, P1, zlength_app. split_and!; try done. lia.
Qed.

Lemma parses_reads {A} (m : st D A) l x : parses m l x -> reads m l x.
Proof. intros Hm d r Hd E. destruct (Hm d r Hd E) as (d' & E' & _). by exists d'. Qed.

Lemma parses_reads_bind {A B} (m : st D A) (k : A -> st D B) l1 l2 x y :
  parses m l1 x -> reads (k x) l2 y -> reads (m ≫= k) (l1 ++ l2) y.
Proof.
  intros Hm Hk d r Hd E. rewrite <- app_assoc in E.
  destruct (Hm d _ Hd E) as (d1 & E1 & W1 & I1 & _). destruct (Hk d1 _ W1 I1) as (d2 & E2).
  exists d2. unfold mbind, st_bind. rewrite E1. simpl. by rewrite E2.
Qed.

Lemma parses_eq {A} (m : st D A) l l' x : l' = l -> parses m l x -> parses m l' x.
Proof. by intros ->. Qed.

Lemma parses_conv {A} (m : st D A) l l' x x' : l' = l -> x' = x -> parses m l x -> parses m l' x'.
Proof. by intros -> ->. Qed.
End parses.

Lemma emits_byte_ok be {S} `{SerializeSpec be S} v : byte_ok v -> emits (write_byte v) [v] true.
Proof. intros Hv. rewrite <- (wrapU_small 8 v Hv) at 2. apply emits_byte. Qed.

Lemma byte_ok_u8 v : byte_ok (u8 v).
Proof. by apply (wrapU_range 8). Qed.

Lemma byte_ok_ff : byte_ok 0xff.
Proof. unfold byte_ok. lia. Qed.

(** The bytes are read off the code: each write or read contributes its own. *)
Create HintDb wire.
#[export] Hint Resolve emits_byte_ok byte_ok_u8 byte_ok_ff emits_quadlet emits_block parses_byte emits_ret parses_ret : wire.

(** Step through a sequence of calls, one binding at a time; the bytes of the whole are the
    concatenation of the bytes of the calls. *)
Ltac wire_steps :=
  repeat first
    [ apply emits_ret | apply parses_ret
    | eapply emits_bind; [solve [eauto with wire]|]; cbn beta iota
    | eapply parses_bind; [solve [eauto with wire]|]; cbn beta iota
    | solve [eauto with wire] ].
Ltac emits := eapply emits_eq; [|wire_steps]; [rewrite ?app_nil_r; try done].
Ltac parses := eapply parses_conv; [| |wire_steps]; [rewrite ?app_nil_r; try done..].

(** ** The buffers keep the promises *)

Definition buffer_wf (b : buffer) : Prop :=
  0 <= m_curPos b <= m_length b /\ m_length b <= zlength (mem b) /\ m_length b < 2 ^ 62.

#[export] Instance buffer_sview : SerializeView buffer := {
  se_wf := buffer_wf;
  se_out b := take (Z.to_nat (m_curPos b)) (mem b);
  se_room b := m_length b - m_curPos b;
  se_rest b := drop (Z.to_nat (m_curPos b)) (mem b);
}.

#[export] Instance buffer_dview : DeserializeView buffer := {
  de_wf := buffer_wf;
  de_in b := slice (m_curPos b) (m_length b - m_curPos b) (mem b);
  de_pos b := m_curPos b;
}.

Lemma isCurPosValid_spec b : 0 <= m_curPos b < 2 ^ 64 ->
  isCurPosValid b = (m_curPos b <? m_length b).
Proof. intros. unfold isCurPosValid. cint. rewrite Z.ltb_antisym. done. Qed.

Lemma isCurPosValid_true b : 0 <= m_curPos b < m_length b -> m_length b < 2 ^ 62 ->
  isCurPosValid b = true.
Proof. intros. rewrite isCurPosValid_spec by lia. apply Z.ltb_lt. lia. Qed.

Lemma take_inserts {A} (l d : list A) i : (i + length d <= length l)%nat ->
  take (i + length d) (list_inserts i d l) = take i l ++ d.
Proof.
  intros Hl. apply list_eq_same_length with (n := (i + length d)%nat).
  - rewrite length_app, length_take. lia.
  - rewrite length_take, length_inserts. lia.
  - intros j x y Hj. rewrite lookup_take_lt by done.
    destruct (decide (j < i)%nat).
    + rewrite list_lookup_inserts_lt, lookup_app_l, lookup_take_lt
        by (rewrite ?length_take; lia). congruence.
    + rewrite list_lookup_inserts, lookup_app_r by (rewrite ?length_take; lia).
      rewrite length_take, Nat.min_l by lia. congruence.
Qed.

(** Storing bytes that fit appends them to the output. *)
Lemma put_bytes_out b l : buffer_wf b -> zlength l <= se_room b ->
  buffer_wf (put_bytes l b) /\ se_out (put_bytes l b) = se_out b ++ l
  /\ se_room (put_bytes l b) = se_room b - zlength l
  /\ se_rest (put_bytes l b) = drop (length l) (se_rest b).
Proof.
  unfold buffer_wf, put_bytes. simpl. intros (P & M & L) Hl. pose proof (zlength_nonneg l).
  unfold zlength in *. rewrite length_inserts, Z2Nat.inj_add, Nat2Z.id by lia. split_and!; try lia.
  - apply take_inserts. lia.
  - rewrite drop_drop. apply list_eq. intros i.
    by rewrite !lookup_drop, list_lookup_inserts_ge by lia.
Qed.

(** A slice that starts with [x], continued. *)
Lemma slice_prefix {A} (l : list A) p n x r : 0 <= p -> 0 <= n -> slice p n l = x ++ r ->
  zlength x <= n /\ slice p (zlength x) l = x /\ slice (p + zlength x) (n - zlength x) l = r.
Proof.
  intros Hp Hn E. pose proof (zlength_nonneg x). assert (zlength x <= n) as L.
  { assert (length (slice p n l) <= Z.to_nat n)%nat as L
      by (unfold slice; rewrite length_take; lia).
    rewrite E, length_app in L. unfold zlength. lia. }
  split; [done|]. unfold slice, zlength in *. rewrite Nat2Z.id. split.
  - rewrite <- (take_app_length x r) at 2. rewrite <- E, take_take, Nat.min_l by lia. done.
  - rewrite <- (drop_app_length x r), <- E, skipn_firstn_comm, drop_drop.
    rewrite Z2Nat.inj_add, Z2Nat.inj_sub, Nat2Z.id by lia. done.
Qed.

(** The position after a piece that was left to read. *)
Lemma read_step b x r : buffer_wf b -> de_in b = x ++ r ->
  let b' := set_curPos b (m_curPos b + zlength x) in
  m_curPos b + zlength x <= m_length b /\ slice (m_curPos b) (zlength x) (mem b) = x
  /\ buffer_wf b' /\ de_in b' = r.
Proof.
  intros (P & M & L) E. simpl in *. pose proof (zlength_nonneg x).
  destruct (slice_prefix (mem b) (m_curPos b) (m_length b - m_curPos b) x r)
    as (A & B & C); [lia..|done|].
  split; [lia|]. split; [done|]. split.
  - unfold buffer_wf. simpl. lia.
  - etrans; [|exact C]. simpl. f_equal. lia.
Qed.

Lemma byte_here_spec b x r : buffer_wf b -> de_in b = x :: r ->
  isCurPosValid b = true /\ byte_here b = x
  /\ let b' := set_curPos b (m_curPos b + 1) in buffer_wf b' /\ de_in b' = r.
Proof.
  intros W E. destruct (read_step b [x] r W E) as (A & B & C & D).
  change (zlength [x]) with 1 in *. destruct W as (P & M & L). split.
  - apply isCurPosValid_true; lia.
  - split; [|done]. unfold byte_here. unfold slice in B.
    change (Z.to_nat 1) with 1%nat in B. rewrite <- (Nat.add_0_r (Z.to_nat (m_curPos b))).
    rewrite <- nth_skipn. destruct (drop _ (mem b)); simpl in *; congruence.
Qed.

Lemma invalid_at_end b : buffer_wf b -> de_in b = [] -> isCurPosValid b = false.
Proof.
  intros (P & M & L) E. rewrite isCurPosValid_spec by lia. apply Z.ltb_ge.
  simpl in E. apply (f_equal zlength) in E. rewrite zlength_slice in E by lia.
  change (zlength []) with 0 in E. lia.
Qed.

#[local] Arguments se_room : simpl never.
#[local] Arguments se_out : simpl never.
#[local] Arguments se_rest : simpl never.
#[local] Arguments de_in : simpl never.

Section buffer_laws.
Context (big_endian : bool).
#[local] Existing Instance buffer_serialize.
#[local] Existing Instance buffer_deserialize.
Implicit Types b : buffer.

Lemma room_valid b : buffer_wf b -> 0 < se_room b -> isCurPosValid b = true.
Proof. intros (? & ? & ?) R. unfold se_room in R. simpl in R. apply isCurPosValid_true; lia. Qed.

(** A call that stores [l] when the position is valid emits [l]. *)
Lemma put_emits (m : st buffer bool) l : 0 < zlength l ->
  (forall b, isCurPosValid b = true -> m b = (true, put_bytes l b)) -> emits m l true.
Proof.
  intros Hl Hm b W R. destruct (put_bytes_out b l W ltac:(lia)) as (A & B & C & D).
  rewrite Hm by (apply room_valid; [done|lia]). eauto 6.
Qed.

Lemma buffer_emits_byte v : emits (BufferSerialize_write_byte v) [u8 v] true.
Proof. apply put_emits; [done|]. intros b V. unfold BufferSerialize_write_byte. by rewrite V. Qed.

Lemma buffer_emits_quadlet v :
  emits (BufferSerialize_write_quadlet big_endian v) (quad_store big_endian v) true.
Proof.
  apply put_emits; [by destruct big_endian|]. intros b V.
  unfold BufferSerialize_write_quadlet. by rewrite V.
Qed.

Lemma write_u16_bytes v b : 0 <= v < 2 ^ 16 -> isCurPosValid b = true ->
  isCurPosValid (put_bytes [v / 256] b) = true ->
  BufferSerialize_write_u16 v b = (true, put_bytes [v mod 256] (put_bytes [v / 256] b)).
Proof.
  intros Hv V V'. unfold BufferSerialize_write_u16.
  assert ((v .& 0xFF00) >> 8 = v / 256) as ->.
  { change 0xFF00 with (Z.ones 8 << 8). rewrite field_get by lia. zlia. }
  change 0xFF with (2 ^ 8 - 1). rewrite land_mask_mod by lia. by rewrite V, V'.
Qed.

Lemma buffer_emits_u16 v : 0 <= v < 2 ^ 16 ->
  emits (BufferSerialize_write_u16 v) [v / 256; v mod 256] true.
Proof.
  intros Hv b W R. change (zlength _) with 2 in *.
  destruct (put_bytes_out b [v / 256] W) as (A & B & C & D); [change (zlength _) with 1; lia|].
  change (zlength _) with 1 in C.
  destruct (put_bytes_out (put_bytes [v / 256] b) [v mod 256] A) as (A' & B' & C' & D');
    [change (zlength _) with 1; lia|]. change (zlength _) with 1 in C'.
  rewrite write_u16_bytes by (done || apply room_valid; done || lia).
  eexists. split; [done|]. split; [done|]. rewrite B', B, <- app_assoc. split; [done|].
  split; [lia|]. rewrite D', D. apply drop_drop.
Qed.

Lemma buffer_emits_block l : emits (BufferSerialize_write_block l) l true.
Proof.
  intros b W R. pose proof (zlength_nonneg l). unfold BufferSerialize_write_block.
  rewrite room_valid by (done || lia). destruct W as (P & M & L). unfold se_room in R. simpl in R.
  rewrite isCurPosValid_true by (simpl; lia). simpl.
  replace (set_curPos _ _) with b by (destruct b; unfold set_curPos; simpl; f_equal; lia).
  destruct (put_bytes_out b l) as (A & B & C & D); [done|unfold se_room; simpl; lia|]. eauto 6.
Qed.

Lemma buffer_full_byte v b : buffer_wf b -> se_room b = 0 ->
  BufferSerialize_write_byte v b = (false, b).
Proof.
  intros (P & M & L) R. unfold se_room in R. simpl in R. unfold BufferSerialize_write_byte.
  rewrite isCurPosValid_spec by lia. by rewrite (proj2 (Z.ltb_ge _ _)) by lia.
Qed.
End buffer_laws.

#[export] Instance buffer_serialize_spec (big_endian : bool) :
  @SerializeSpec big_endian buffer (buffer_serialize big_endian) :=
  Build_SerializeSpec big_endian buffer (buffer_serialize big_endian) buffer_sview
    buffer_emits_byte buffer_emits_u16 (buffer_emits_quadlet big_endian) buffer_emits_block
    buffer_full_byte.

Section buffer_read_laws.
Context (big_endian : bool).
Implicit Types b : buffer.

Lemma buffer_parses_byte old v : parses (BufferDeserialize_read_byte old) [v] (true, v).
Proof.
  intros b r W E. destruct (byte_here_spec b v r W E) as (V & H & W' & E').
  unfold BufferDeserialize_read_byte. rewrite V, H. eauto.
Qed.

Lemma buffer_parses_u16 old hi lo :
  parses (BufferDeserialize_read_u16 old) [hi; lo] (true, (hi << 8) .| lo).
Proof.
  intros b r W E. destruct (byte_here_spec b hi (lo :: r) W E) as (V & H & W' & E').
  destruct (byte_here_spec _ lo r W' E') as (V2 & H2 & W2 & E2).
  unfold BufferDeserialize_read_u16. rewrite V, H, V2, H2. eexists. split_and!; try done. cbn. unfold zlength. cbn. lia.
Qed.

Lemma buffer_parses_quadlet old l : length l = 4%nat ->
  parses (BufferDeserialize_read_quadlet big_endian old) l (true, quad_load big_endian l).
Proof.
  intros Hl b r W E. destruct (read_step b l r W E) as (A & B & C & D).
  assert (zlength l = 4) as Z4 by (unfold zlength; lia). rewrite Z4 in *.
  unfold BufferDeserialize_read_quadlet. destruct W as (P & M & L).
  rewrite isCurPosValid_true, B by lia. eexists. by split_and!.
Qed.

Lemma buffer_parses_block old l : l <> [] ->
  parses (BufferDeserialize_read_block old (zlength l)) l (true, l).
Proof.
  intros Hl b r W E. destruct (read_step b l r W E) as (A & B & C & D).
  assert (0 < zlength l) by (destruct l; [done|unfold zlength; simpl; lia]).
  unfold BufferDeserialize_read_block. destruct W as (P & M & L).
  rewrite isCurPosValid_true by lia. rewrite isCurPosValid_true by (simpl; lia).
  simpl. rewrite B. eexists. split; [done|].
  replace (m_curPos b + (zlength l - 1) + 1) with (m_curPos b + zlength l) by lia. by split_and!.
Qed.

Lemma buffer_pointer old l r b : buffer_wf b -> de_in b = l ++ r -> l <> [] ->
  exists t b', BufferDeserialize_read_pointer old (zlength l) b = ((true, l ++ r ++ t), b') /\ buffer_wf b' /\ de_in b' = r
  /\ de_pos b' = de_pos b + zlength l.
Proof.
  intros W E Hl. destruct (read_step b l r W E) as (A & B & C & D).
  assert (0 < zlength l) by (destruct l; [done|unfold zlength; simpl; lia]).
  unfold BufferDeserialize_read_pointer. pose proof W as (P & M & L).
  rewrite isCurPosValid_true by lia. rewrite isCurPosValid_true by (simpl; lia). cbn [negb].
  exists (drop (Z.to_nat (m_length b)) (mem b)). eexists. split.
  - do 2 f_equal. rewrite app_assoc. rewrite <- E. simpl. unfold slice.
    rewrite <- (take_drop (Z.to_nat (m_length b - m_curPos b)) (drop (Z.to_nat (m_curPos b)) (mem b))) at 1.
    rewrite drop_drop. do 2 f_equal. lia.
  - simpl. replace (m_curPos b + (zlength l - 1) + 1) with (m_curPos b + zlength l) by lia. by split_and!.
Qed.

Lemma buffer_parses_skip l : parses (BufferDeserialize_skip (zlength l)) l true.
Proof. intros b r W E. destruct (read_step b l r W E) as (A & B & C & D). eexists. by split_and!. Qed.

Lemma buffer_end_byte old b : buffer_wf b -> de_in b = [] ->
  BufferDeserialize_read_byte old b = ((false, old), b).
Proof. intros W E. unfold BufferDeserialize_read_byte. by rewrite invalid_at_end. Qed.

Lemma buffer_peek_byte old b : buffer_wf b ->
  BufferDeserialize_peek_byte old b
  = (match de_in b with v :: _ => (true, v) | [] => (false, old) end, b).
Proof.
  intros W. unfold BufferDeserialize_peek_byte. destruct (de_in b) as [|v r] eqn:E.
  - by rewrite invalid_at_end.
  - destruct (byte_here_spec b v r W E) as (-> & -> & _). done.
Qed.

Lemma set_curPos_back b p q : p = m_curPos b -> set_curPos (set_curPos b q) p = b.
Proof. intros ->. by destruct b. Qed.

Lemma beyond_end b p : buffer_wf b -> m_length b <= p < 2 ^ 64 -> isCurPosValid (set_curPos b p) = false.
Proof.
  intros (P & M & L) H. rewrite isCurPosValid_spec by (simpl; lia). simpl. apply Z.ltb_ge. lia.
Qed.

Lemma buffer_peek_u16 old k b : buffer_wf b -> 0 <= k < 2 ^ 62 ->
  BufferDeserialize_peek_u16 old k b
  = (match drop (Z.to_nat k) (de_in b) with
     | hi :: lo :: _ => (true, (hi << 8) .| lo) | _ => (false, old) end, b).
Proof.
  intros W Hk. unfold BufferDeserialize_peek_u16. pose proof W as (P & M & L).
  set (c := set_curPos b (m_curPos b + k)).
  assert (set_curPos c (m_curPos c - k) = b) as Ec by (apply set_curPos_back; simpl; lia).
  destruct (Z.le_gt_cases (m_length b) (m_curPos b + k)) as [O|O].
  { unfold c. rewrite beyond_end by (done || lia). fold c. rewrite Ec, drop_ge; [done|].
    unfold de_in. simpl. unfold slice. rewrite length_take. lia. }
  assert (buffer_wf c) as Wc by (unfold c, buffer_wf; simpl; lia).
  assert (drop (Z.to_nat k) (de_in b) = de_in c) as Ed.
  { unfold de_in, c. simpl. unfold slice. rewrite skipn_firstn_comm, drop_drop.
    rewrite Z2Nat.inj_add by lia. f_equal. lia. }
  rewrite Ed. destruct (de_in c) as [|hi r] eqn:E.
  { by rewrite invalid_at_end, Ec. }
  destruct (byte_here_spec c hi r Wc E) as (-> & -> & W' & E').
  rewrite (set_curPos_back c) by (simpl; lia). rewrite Ec.
  destruct r as [|lo r]; [by rewrite invalid_at_end|].
  by destruct (byte_here_spec _ lo r W' E') as (-> & -> & _).
Qed.
End buffer_read_laws.

#[export] Instance buffer_deserialize_spec (big_endian : bool) :
  @DeserializeSpec big_endian buffer (buffer_deserialize big_endian) :=
  Build_DeserializeSpec big_endian buffer (buffer_deserialize big_endian) buffer_dview
    buffer_parses_byte buffer_parses_u16 (buffer_parses_quadlet big_endian) buffer_parses_block
    buffer_pointer (fun b _ => eq_refl) buffer_parses_skip buffer_peek_byte buffer_peek_u16 buffer_end_byte.

(** ** Theorems *)

(** The values a command is made of. *)
Inductive item := IByte (v : Z) | IU16 (v : Z) | IQuadlet (v : Z) | IBlock (l : list Z).

Definition item_ok (i : item) : Prop :=
  match i with
  | IByte v => 0 <= v < 2 ^ 8
  | IU16 v => 0 <= v < 2 ^ 16
  | IQuadlet v => 0 <= v < 2 ^ 32
  | IBlock l => l <> []
  end.

Definition item_bytes (big_endian : bool) (i : item) : list Z :=
  match i with
  | IByte v => [v]
  | IU16 v => [v / 256; v mod 256]
  | IQuadlet v => quad_store big_endian v
  | IBlock l => l
  end.

Definition write_item {S} `{IOSSerialize S} (i : item) : st S bool :=
  match i with
  | IByte v => write_byte v
  | IU16 v => write_u16 v
  | IQuadlet v => write_quadlet v
  | IBlock l => write_block l
  end.

(** Read a value of the same kind and size. *)
Definition read_item {D} `{IISDeserialize D} (i : item) : st D (bool * item) :=
  match i with
  | IByte _ => r ← read_byte 0; mret (r.1, IByte r.2)
  | IU16 _ => r ← read_u16 0; mret (r.1, IU16 r.2)
  | IQuadlet _ => r ← read_quadlet 0; mret (r.1, IQuadlet r.2)
  | IBlock l => r ← read_block [] (zlength l); mret (r.1, IBlock r.2)
  end.

Fixpoint read_items {D} `{IISDeserialize D} (l : list item) : st D (list (bool * item)) :=
  match l with
  | [] => mret []
  | i :: l => r ← read_item i; rs ← read_items l; mret (r :: rs)
  end.

Lemma quad_load_store be v : 0 <= v < 2 ^ 32 -> quad_load be (quad_store be v) = v.
Proof.
  intros Hv. assert (of_bytes_be (quad_be v) = v) as E.
  { etrans; [|symmetry; exact (quad_decompose v Hv)]. unfold of_bytes_be, quad_be. simpl. lia. }
  unfold quad_load, quad_store. destruct be; [done|].
  change (rev (quad_le v)) with (quad_be v). done.
Qed.

Section items.
Context (big_endian : bool).

Lemma emits_item {S} `{SerializeSpec big_endian S} i : item_ok i ->
  emits (write_item i) (item_bytes big_endian i) true.
Proof.
  destruct i as [v|v|v|l]; simpl; intros Hi; eauto with wire.
  by apply emits_u16.
Qed.

Lemma parses_item {D} `{DeserializeSpec big_endian D} i : item_ok i ->
  parses (read_item i) (item_bytes big_endian i) (true, i).
Proof.
  intros Hi. destruct i as [v|v|v|l]; simpl in *;
    (eapply parses_eq; [symmetry; apply app_nil_r|]).
  - apply (parses_bind _ _ _ _ (true, v)); [apply parses_byte|apply parses_ret].
  - apply (parses_bind _ _ _ _ (true, v)); [|apply parses_ret].
    replace v with ((v / 256) << 8 .| v mod 256) at 3; [apply parses_u16|].
    rewrite lor_shiftl_add by zlia. zlia.
  - apply (parses_bind _ _ _ _ (true, v)); [|apply parses_ret].
    rewrite <- (quad_load_store big_endian v) at 2 by done.
    apply parses_quadlet. by destruct big_endian.
  - apply (parses_bind _ _ _ _ (true, l)); [by apply parses_block|apply parses_ret].
Qed.

Lemma emits_items {S} `{SerializeSpec big_endian S} l : Forall item_ok l ->
  emits (all_of (write_item <$> l)) (concat (item_bytes big_endian <$> l)) true.
Proof. intros Hl. apply emits_all_of. induction Hl; constructor; [by apply emits_item|done]. Qed.

Lemma parses_items {D} `{DeserializeSpec big_endian D} l : Forall item_ok l ->
  parses (read_items l) (concat (item_bytes big_endian <$> l)) ((fun i => (true, i)) <$> l).
Proof.
  induction 1 as [|i l Hi _ IH]; simpl; [apply parses_ret|].
  eapply parses_bind; [by apply parses_item|]. rewrite <- (app_nil_r (concat _)).
  eapply parses_bind; [done|]. apply parses_ret.
Qed.
End items.

(** What the serialiser produced is what a deserialiser of the same memory reads first. *)
Lemma reread b n l : buffer_wf b -> se_out b = l -> se_room b = n - zlength l ->
  0 <= n -> m_curPos b = zlength l /\ buffer_wf (BufferDeserialize (mem b) n)
  /\ de_in (BufferDeserialize (mem b) n) = l ++ slice (zlength l) (n - zlength l) (mem b).
Proof.
  intros (P & M & L) O R Hn. unfold se_out, se_room in *. simpl in *.
  assert (m_curPos b = zlength l) as C
    by (rewrite <- O; unfold zlength in *; rewrite length_take; lia).
  split; [done|]. split; [unfold buffer_wf; simpl; lia|]. unfold de_in. simpl.
  rewrite slice_0. rewrite <- O at 1. rewrite C. rewrite take_slice by lia.
  f_equal. lia.
Qed.

(** A sequence of bytes, 16-bit values, quadlets and blocks written with [BufferSerialize] to a
    zeroed buffer that is larger than the sequence is read back unchanged by
    [BufferDeserialize] from the same memory, on hosts of either byte order; the number of
    produced bytes is the size of the sequence, and exactly these bytes are consumed. *)
Theorem buffer_roundtrip big_endian n l : Forall item_ok l -> 0 <= n < 2 ^ 31 ->
  let bytes := concat (item_bytes big_endian <$> l) in
  zlength bytes < n ->
  let '(ok, se) := @all_of buffer (@write_item _ (buffer_serialize big_endian) <$> l)
                     (BufferSerialize (replicate (Z.to_nat n) 0) n) in
  let '(rs, de) := @read_items _ (buffer_deserialize big_endian) l (BufferDeserialize (mem se) n) in
  ok = true /\ rs = (fun i => (true, i)) <$> l /\ getNrOfProducesBytes se = zlength bytes
  /\ de_in de = slice (zlength bytes) (n - zlength bytes) (mem se).
Proof.
  intros Hl Hn bytes Hr. set (b0 := BufferSerialize (replicate (Z.to_nat n) 0) n).
  assert (buffer_wf b0) as W0.
  { unfold buffer_wf, b0. simpl. unfold zlength. rewrite length_replicate. lia. }
  destruct (emits_items big_endian (H0 := buffer_serialize_spec big_endian) l Hl b0)
    as (se & -> & W & O & R & _); [done|unfold se_room; simpl; fold bytes; lia|].
  fold bytes in O, R. change (se_room b0) with (n - 0) in R. rewrite Z.sub_0_r in R.
  destruct (reread se n bytes W O R) as (C & Wd & I); [lia|].
  destruct (parses_items big_endian (H0 := buffer_deserialize_spec big_endian) l Hl _ _ Wd I)
    as (de & -> & _ & Ed & _).
  split_and!; try done. unfold getNrOfProducesBytes. rewrite C.
  pose proof (zlength_nonneg bytes). by cint.
Qed.

Lemma buffer_roundtrip_witness :
  (@read_items _ (buffer_deserialize false) [IByte 0xFF; IQuadlet 0x12345678; IU16 0xABCD; IBlock [1; 2; 3]]
    (BufferDeserialize [0xFF; 0x78; 0x56; 0x34; 0x12; 0xAB; 0xCD; 1; 2; 3; 0; 0] 12)).1
  = [(true, IByte 0xFF); (true, IQuadlet 0x12345678); (true, IU16 0xABCD); (true, IBlock [1; 2; 3])].
Proof.
  pose proof (buffer_roundtrip false 12
    [IByte 0xFF; IQuadlet 0x12345678; IU16 0xABCD; IBlock [1; 2; 3]]) as E.
  cbv zeta in E. refine (proj1 (proj2 (E _ _ _))); [|vm_compute; split; congruence|reflexivity].
  repeat constructor; simpl; try lia; discriminate.
Defined.

Lemma put_bytes_above l b k : 0 <= m_curPos b -> m_curPos b + zlength l <= Z.of_nat k ->
  mem (put_bytes l b) !! k = mem b !! k.
Proof. intros. simpl. apply list_lookup_inserts_ge. unfold zlength in *. lia. Qed.

(** Memory safety of the writer: from any position, writing a byte, a 16-bit value or a
    block, succeeding or not, changes no memory at or beyond [m_length] and keeps the length.
    A quadlet write is checked for its first byte only: at the last position of the buffer it
    stores its last byte three places beyond it, and never further. *)
Theorem buffer_write_bounds big_endian b i k : 0 <= m_curPos b < 2 ^ 62 -> m_length b < 2 ^ 62 ->
  (match i with IBlock l => zlength l < 2 ^ 62 | _ => True end) ->
  m_length b + (match i with IQuadlet _ => 3 | _ => 0 end) <= Z.of_nat k ->
  let b' := (@write_item _ (buffer_serialize big_endian) i b).2 in
  mem b' !! k = mem b !! k /\ m_length b' = m_length b
  /\ forall v, i = IQuadlet v -> m_curPos b + 1 = m_length b -> m_length b + 3 <= zlength (mem b) ->
     mem b' !! Z.to_nat (m_length b + 2) = quad_store big_endian v !! 3%nat.
Proof.
  intros Hp Hn Hl Hk. pose proof (isCurPosValid_spec b ltac:(lia)) as V.
  destruct i as [v|v|v|l]; simpl in *.
  - unfold BufferSerialize_write_byte. rewrite V. zcases; simpl; [|done].
    split; [|done]. apply (put_bytes_above [u8 v] b k); [lia|]. change (zlength [u8 v]) with 1. lia.
  - unfold BufferSerialize_write_u16. rewrite V. zcases; simpl; [|done].
    set (hi := (v .& 0xFF00) >> 8). set (b1 := put_bytes [hi] b).
    assert (mem b1 !! k = mem b !! k) as E1
      by (apply put_bytes_above; [lia|]; change (zlength [hi]) with 1; lia).
    rewrite isCurPosValid_spec by (unfold b1; simpl; change (zlength [hi]) with 1; lia).
    zcases; simpl; [|by rewrite <- E1]. split; [|done]. rewrite <- E1.
    apply (put_bytes_above [v .& 255] b1 k); unfold b1 in *; simpl in *;
      change (zlength [hi]) with 1 in *; [lia|]. change (zlength [v .& 255]) with 1. lia.
  - assert (length (quad_store big_endian v) = 4%nat) as L4 by by destruct big_endian.
    assert (zlength (quad_store big_endian v) = 4) as Z4 by (unfold zlength; lia).
    unfold BufferSerialize_write_quadlet. rewrite V. zcases; simpl; [|split_and!; try done; lia].
    split; [apply (put_bytes_above _ b k); lia|]. split; [done|].
    intros ? [= <-] He Hm. rewrite list_lookup_inserts by (unfold zlength in *; lia).
    f_equal. lia.
  - unfold BufferSerialize_write_block. rewrite V. pose proof (zlength_nonneg l).
    zcases; simpl; [|done]. rewrite isCurPosValid_spec by (simpl; lia). simpl.
    zcases; simpl; [|done]. rewrite Z.add_simpl_r. split; [|done].
    apply (put_bytes_above l b k); lia.
Qed.

Lemma buffer_write_bounds_witness :
  mem (@write_item _ (buffer_serialize true) (IQuadlet 0x01020304) (mkBuffer [9; 9; 9; 9; 9; 9] 1 2)).2
  !! 4%nat = Some 4.
Proof.
  refine (eq_trans (proj2 (proj2 (buffer_write_bounds true (mkBuffer [9; 9; 9; 9; 9; 9] 1 2)
    (IQuadlet 0x01020304) 5 _ _ _ _)) 0x01020304 eq_refl eq_refl _) _);
    first [reflexivity | exact I | unfold zlength; simpl; lia].
Defined.

(** A block that would end exactly at the end of the buffer is refused although it fits, nothing
    is stored, and the position stays at the end: every later byte is refused too. *)
Theorem buffer_block_exact_fit b v c : buffer_wf b -> 0 < zlength v -> zlength v = se_room b ->
  let '(ok, b') := BufferSerialize_write_block v b in
  ok = false /\ mem b' = mem b /\ BufferSerialize_write_byte c b' = (false, b').
Proof.
  intros W Hv He. pose proof W as (P & M & L). unfold BufferSerialize_write_block.
  rewrite room_valid by (done || lia). unfold se_room in He. simpl in He.
  rewrite isCurPosValid_spec by (simpl; lia). simpl.
  rewrite (proj2 (Z.ltb_ge _ _)) by lia. split_and!; [done..|].
  apply buffer_full_byte; unfold buffer_wf, se_room; simpl; lia.
Qed.

Lemma buffer_block_exact_fit_witness :
  BufferSerialize_write_byte 5
    (BufferSerialize_write_block [1; 2; 3] (mkBuffer [7; 0; 0; 0] 1 4)).2
  = (false, mkBuffer [7; 0; 0; 0] 4 4).
Proof.
  pose proof (buffer_block_exact_fit (mkBuffer [7; 0; 0; 0] 1 4) [1; 2; 3] 5) as E.
  cbn in E |- *. apply E; [unfold buffer_wf, zlength; simpl; lia|reflexivity..].
Defined.
