(* ===== verification/Fcp.v ===== *)
(** * FCP transactions

    Model of the function control protocol part of [src/libieee1394/ieee1394service.cpp]
    ([transactionBlock], [doFcpTransaction], [doFcpTransactionTry], [handleFcpResponse]):
    a request is written to a node, and the frames that the bus library hands to the
    response handler are filtered until the answer to this request is found.

    libraw1394 and the bus behind it are the parameter [bus]: given the number of the try,
    the node and the request it says whether listening could be started, whether the write
    went through, which frames each round of the poll loop delivers until the timeout, and
    whether listening could be stopped.  [m_handle_lock] is the lock count of the mutex. *)
From S2P Require Import Prelude ByteSwap.

Definition MAX_FCP_BLOCK_SIZE_BYTES : Z := 512.
Definition MAX_FCP_BLOCK_SIZE_QUADS : Z := 128.
Definition INVALID_NODE_ID : Z := 0xFF.
Definition IEEE1394SERVICE_FCP_MAX_TRIES : nat := 2.
Definition FCP_RESPONSE_INTERIM : Z := 0x0F000000.
Definition FCP_MASK_RESPONSE (x : Z) : Z := x .& 0x0F000000.
Definition FCP_MASK_SUBUNIT_AND_OPCODE (x : Z) : Z := x .& 0x00FFFF00.

Inductive eFcpStatus := eFS_Empty | eFS_Waiting | eFS_Responded | eFS_Error.

#[export] Instance eFcpStatus_eq_dec : EqDecision eFcpStatus.
Proof. solve_decision. Defined.

(** The request and the response are kept as the 512 bytes of their arrays. *)
Record sFcpBlock := mkFcpBlock {
  status : eFcpStatus;
  target_nodeid : Z;
  request_length : Z;
  request : list Z;
  response_length : Z;
  response : list Z;
}.

Record Ieee1394Service := mkService {
  m_handle_lock : Z;
  m_fcp_block : sFcpBlock;
  m_filterFCPResponse : bool;
  fcp_block_last : list Z;
}.

Definition set_block (f : sFcpBlock -> sFcpBlock) (s : Ieee1394Service) : Ieee1394Service :=
  mkService (m_handle_lock s) (f (m_fcp_block s)) (m_filterFCPResponse s) (fcp_block_last s).

Definition set_status (x : eFcpStatus) : Ieee1394Service -> Ieee1394Service :=
  set_block (fun b => mkFcpBlock x (target_nodeid b) (request_length b) (request b)
                                 (response_length b) (response b)).

(** A frame handed to the handler: the node it came from, whether it is a response, its bytes. *)
Record fcp_frame := mkFrame { fr_nodeid : Z; fr_response : bool; fr_data : list Z }.

(** What the bus does during one try. *)
Record fcp_try := mkTry {
  start_listen_ok : bool;
  write_ok : bool;
  rounds : list (list fcp_frame);
  stop_listen_ok : bool;
}.

(** Bytes of the array [a] after a [memcpy] of [l] to its start. *)
Definition memcpy (a l : list Z) : list Z := list_inserts 0 l a.

Section service.
Context (big_endian DEBUG : bool).

Definition quad0 (data : list Z) : Z :=
  CondSwapFromBus32 big_endian (quad_load big_endian (take 4 data)).

Definition handleFcpResponse (f : fcp_frame) (s : Ieee1394Service) : Ieee1394Service :=
  let blk := m_fcp_block s in
  if fr_response f && (3 <? zlength (fr_data f)) then
    let length :=
      if MAX_FCP_BLOCK_SIZE_BYTES <? zlength (fr_data f) then MAX_FCP_BLOCK_SIZE_BYTES
      else zlength (fr_data f) in
    let data := take (Z.to_nat length) (fr_data f) in
    let first_quadlet := quad0 (fr_data f) in
    if FCP_MASK_RESPONSE first_quadlet =? FCP_RESPONSE_INTERIM then s
    else if negb (fr_nodeid f =? target_nodeid blk) then s
    else if first_quadlet =? 0 then s
    else if DEBUG && (FCP_MASK_RESPONSE first_quadlet <? 0x08000000) then s
    else if negb (FCP_MASK_SUBUNIT_AND_OPCODE first_quadlet
                  =? FCP_MASK_SUBUNIT_AND_OPCODE (quad0 (request blk))) then s
    else if m_filterFCPResponse s
            && bool_decide (take (Z.to_nat length) (fcp_block_last s) = data) then s
    else
      mkService (m_handle_lock s)
        (mkFcpBlock eFS_Responded (target_nodeid blk) (request_length blk) (request blk)
           ((length + 4 - 1) / 4) (memcpy (response blk) data))
        (m_filterFCPResponse s)
        (if m_filterFCPResponse s then memcpy (fcp_block_last s) data else fcp_block_last s)
  else s.

Definition handle_round (r : list fcp_frame) (s : Ieee1394Service) : Ieee1394Service :=
  fold_left (fun s f => handleFcpResponse f s) r s.

(** The poll loop; the end of the list is the moment the timeout has passed. *)
Fixpoint fcp_wait (rs : list (list fcp_frame)) (s : Ieee1394Service) : Ieee1394Service :=
  match rs with
  | r :: rs => if decide (status (m_fcp_block s) = eFS_Waiting) then fcp_wait rs (handle_round r s) else s
  | [] => s
  end.

Definition doFcpTransactionTry (bus : Z -> list Z -> fcp_try) : st Ieee1394Service bool := fun s =>
  let blk := m_fcp_block s in
  let t := bus (target_nodeid blk) (take (Z.to_nat (request_length blk * 4)) (request blk)) in
  let '(retval, s) :=
    if negb (start_listen_ok t) then (false, s) else
    let s := set_status eFS_Waiting s in
    if negb (write_ok t) then (false, s) else
    let s := fcp_wait (rounds t) s in
    match status (m_fcp_block s) with
    | eFS_Waiting => (false, s)
    | eFS_Error => (false, s)
    | _ => (true, s)
    end in
  (retval && stop_listen_ok t, set_status eFS_Empty s).

(** [for (i = 0; i < IEEE1394SERVICE_FCP_MAX_TRIES; i++)]: [n] tries are left, the next has
    number [i]. *)
Fixpoint fcp_tries (bus : nat -> Z -> list Z -> fcp_try) (i n : nat) : st Ieee1394Service bool := fun s =>
  match n with
  | O => (false, s)
  | S n =>
      let '(ok, s) := doFcpTransactionTry (bus i) s in
      if ok then (true, s) else fcp_tries bus (S i) n s
  end.

Definition doFcpTransaction (bus : nat -> Z -> list Z -> fcp_try) : st Ieee1394Service bool :=
  fcp_tries bus 0 IEEE1394SERVICE_FCP_MAX_TRIES.

(** [buf] is the memory at the request, [len] its length in quadlets; the result is the
    response memory and the response length in quadlets. *)
Definition transactionBlock (bus : nat -> Z -> list Z -> fcp_try) (nodeId : Z) (buf : list Z) (len : Z) :
    st Ieee1394Service (option (list Z * Z)) := fun s =>
  if nodeId =? INVALID_NODE_ID then (None, s) else
  let zeros := replicate (Z.to_nat MAX_FCP_BLOCK_SIZE_BYTES) 0 in
  let '(req, req_len) :=
    if len <? MAX_FCP_BLOCK_SIZE_QUADS
    then (memcpy zeros (take (Z.to_nat (len * 4)) buf), len)
    else (memcpy zeros (take (Z.to_nat MAX_FCP_BLOCK_SIZE_BYTES) buf), MAX_FCP_BLOCK_SIZE_QUADS) in
  let s := mkService (m_handle_lock s + 1)
             (mkFcpBlock eFS_Empty (0xffc0 .| nodeId) req_len req 0 zeros)
             (m_filterFCPResponse s) (fcp_block_last s) in
  let '(success, s) := doFcpTransaction bus s in
  if success
  then (Some (response (m_fcp_block s), response_length (m_fcp_block s)), s)
  else (None, s).

Definition transactionBlockClose : st Ieee1394Service bool := fun s =>
  (true, mkService (m_handle_lock s - 1) (m_fcp_block s) (m_filterFCPResponse s) (fcp_block_last s)).
End service.

(** ** Lemmas *)

(** [f] is an answer to the request [req] sent to [node]. *)
Definition fcp_answer (big_endian : bool) (node : Z) (req : list Z) (f : fcp_frame) : Prop :=
  fr_response f = true /\ 4 <= zlength (fr_data f) /\ fr_nodeid f = node
  /\ quad0 big_endian (fr_data f) <> 0
  /\ FCP_MASK_RESPONSE (quad0 big_endian (fr_data f)) <> FCP_RESPONSE_INTERIM
  /\ FCP_MASK_SUBUNIT_AND_OPCODE (quad0 big_endian (fr_data f))
     = FCP_MASK_SUBUNIT_AND_OPCODE (quad0 big_endian req).

(** The response memory holds the frame [f], cut at 512 bytes. *)
Definition holds_response (f : fcp_frame) (resp : list Z) (len : Z) : Prop :=
  len = (Z.min 512 (zlength (fr_data f)) + 3) / 4 /\ 1 <= len <= MAX_FCP_BLOCK_SIZE_QUADS
  /\ length resp = 512%nat /\ slice 0 (Z.min 512 (zlength (fr_data f))) resp = take 512 (fr_data f).

Lemma length_memcpy a l : length (memcpy a l) = length a.
Proof. apply length_inserts. Qed.

Lemma take_memcpy a l : (length l <= length a)%nat -> take (length l) (memcpy a l) = l.
Proof.
  intros Hl. apply list_eq_same_length with (n := length l); [done|..].
  - rewrite length_take, length_memcpy. lia.
  - intros i x y Hi. rewrite lookup_take_lt by done. unfold memcpy.
    rewrite list_lookup_inserts by lia. rewrite Nat.sub_0_r. congruence.
Qed.

Section lemmas.
Context (big_endian DEBUG : bool) (node rlen : Z) (req : list Z).
#[local] Abbreviation answer := (fcp_answer big_endian node req).

(** The part of the block that the handler must not touch. *)
Definition block_for (s : Ieee1394Service) : Prop :=
  target_nodeid (m_fcp_block s) = node /\ request_length (m_fcp_block s) = rlen
  /\ request (m_fcp_block s) = req /\ length (response (m_fcp_block s)) = 512%nat.

(** A response taken from one of the frames [fs] is there. *)
Definition responded (fs : list fcp_frame) (s : Ieee1394Service) : Prop :=
  exists f, In f fs /\ answer f
       /\ holds_response f (response (m_fcp_block s)) (response_length (m_fcp_block s)).

Lemma accept_holds f (a : list Z) : 4 <= zlength (fr_data f) -> length a = 512%nat ->
  let len := if MAX_FCP_BLOCK_SIZE_BYTES <? zlength (fr_data f) then MAX_FCP_BLOCK_SIZE_BYTES
             else zlength (fr_data f) in
  holds_response f (memcpy a (take (Z.to_nat len) (fr_data f))) ((len + 4 - 1) / 4).
Proof.
  intros H4 Ha len. assert (len = Z.min 512 (zlength (fr_data f))) as ->.
  { unfold len, MAX_FCP_BLOCK_SIZE_BYTES. zcases; lia. }
  unfold holds_response, MAX_FCP_BLOCK_SIZE_QUADS. rewrite length_memcpy.
  split; [f_equal; lia|]. split; [zlia|]. split; [done|].
  rewrite take_min_zlength, slice_0. change (Z.to_nat 512) with 512%nat.
  set (d := take 512 (fr_data f)).
  replace (Z.to_nat (Z.min 512 (zlength (fr_data f)))) with (length d)
    by (unfold d, zlength; rewrite length_take; lia).
  apply take_memcpy. unfold d. rewrite length_take. lia.
Qed.

Lemma handle_cases f s : block_for s ->
  let s' := handleFcpResponse big_endian DEBUG f s in
  block_for s' /\ m_handle_lock s' = m_handle_lock s
  /\ (s' = s \/ status (m_fcp_block s') = eFS_Responded /\ responded [f] s').
Proof.
  intros B. pose proof B as (E1 & E2 & E3 & L). cbv zeta. unfold handleFcpResponse.
  repeat match goal with
  | |- context [if ?c then _ else _] =>
      match c with
      | MAX_FCP_BLOCK_SIZE_BYTES <? _ => fail 1
      | _ => destruct c eqn:?
      end
  end; try by auto.
  all: split; [unfold block_for; simpl; by rewrite length_memcpy|]; split; [done|]; right.
  all: split; [done|]; exists f; split; [by left|].
  all: repeat match goal with
    | H : _ && _ = true |- _ => apply andb_prop in H as [? ?]
    | H : negb _ = false |- _ => apply negb_false_iff in H
    | H : (_ =? _) = true |- _ => apply Z.eqb_eq in H
    | H : (_ =? _) = false |- _ => apply Z.eqb_neq in H
    | H : (_ <? _) = true |- _ => apply Z.ltb_lt in H
    end.
  all: split; [unfold fcp_answer; split_and!; first [lia | congruence]|simpl].
  all: apply accept_holds; [lia|done].
Qed.

Lemma responded_mono fs fs' s : (forall f, In f fs -> In f fs') -> responded fs s -> responded fs' s.
Proof. intros Hf (f & Hin & H). exists f. by split; [apply Hf|]. Qed.

(** What the frames of a round leave behind. *)
Lemma handle_round_cases r s : block_for s ->
  let s' := handle_round big_endian DEBUG r s in
  block_for s' /\ m_handle_lock s' = m_handle_lock s
  /\ (s' = s \/ status (m_fcp_block s') = eFS_Responded /\ responded r s').
Proof.
  revert s. induction r as [|f r IH]; intros s B; simpl; [auto|].
  destruct (handle_cases f s B) as (B1 & L1 & H1). destruct (IH _ B1) as (B2 & L2 & H2).
  split; [done|]. split; [congruence|].
  destruct H2 as [E|[S2 R2]]; [|right; split; [done|]; eapply responded_mono; [|done]; simpl; tauto].
  unfold handle_round in *. rewrite E. destruct H1 as [E1|[S1 R1]]; [by left|right].
  split; [done|]. eapply responded_mono; [|done]. simpl; tauto.
Qed.

Lemma fcp_wait_cases rs s : block_for s -> status (m_fcp_block s) = eFS_Waiting ->
  let s' := fcp_wait big_endian DEBUG rs s in
  block_for s' /\ m_handle_lock s' = m_handle_lock s
  /\ (s' = s \/ status (m_fcp_block s') = eFS_Responded /\ responded (concat rs) s').
Proof.
  revert s. induction rs as [|r rs IH]; intros s B W; simpl; [auto|].
  rewrite decide_True by done. destruct (handle_round_cases r s B) as (B1 & L1 & H1).
  destruct H1 as [->|[S1 R1]].
  - destruct (IH s B W) as (B2 & L2 & [->|[S2 R2]]); split_and!; auto.
    right. split; [done|]. eapply responded_mono; [|done]. simpl; intros; apply in_or_app; tauto.
  - assert (fcp_wait big_endian DEBUG rs (handle_round big_endian DEBUG r s)
            = handle_round big_endian DEBUG r s) as ->.
    { destruct rs; [done|]. simpl. rewrite decide_False; [done|congruence]. }
    split_and!; auto. right. split; [done|]. eapply responded_mono; [|done]. simpl; intros; apply in_or_app; tauto.
Qed.

Lemma block_for_status x s : block_for s -> block_for (set_status x s).
Proof. done. Qed.

(** One try: success means an answer was among the frames of its rounds. *)
Lemma try_cases (bus : Z -> list Z -> fcp_try) s : block_for s ->
  let '(ok, s') := doFcpTransactionTry big_endian DEBUG bus s in
  block_for s' /\ m_handle_lock s' = m_handle_lock s
  /\ (ok = true -> responded (concat (rounds (bus node (take (Z.to_nat (rlen * 4)) req)))) s').
Proof.
  intros B. pose proof B as (E1 & E2 & E3 & _). unfold doFcpTransactionTry. rewrite E1, E2, E3.
  set (t := bus _ _). destruct (start_listen_ok t); simpl; [|done].
  destruct (write_ok t); simpl; [|done].
  destruct (fcp_wait_cases (rounds t) (set_status eFS_Waiting s)) as (B1 & L1 & [->|[S1 R1]]);
    [done..|]. rewrite S1. done.
Qed.

Lemma tries_cases (bus : nat -> Z -> list Z -> fcp_try) n i s : block_for s ->
  let '(ok, s') := fcp_tries big_endian DEBUG bus i n s in
  block_for s' /\ m_handle_lock s' = m_handle_lock s
  /\ (ok = true -> exists j, (i <= j < i + n)%nat
      /\ responded (concat (rounds (bus j node (take (Z.to_nat (rlen * 4)) req)))) s').
Proof.
  revert i s. induction n as [|n IH]; intros i s B; simpl; [done|].
  pose proof (try_cases (bus i) s B) as H. destruct (doFcpTransactionTry _ _ _ s) as [ok s1].
  destruct H as (B1 & L1 & R1). destruct ok.
  - split_and!; try done. intros _. exists i. split; [lia|auto].
  - specialize (IH (S i) s1 B1). destruct (fcp_tries _ _ _ _ _ s1) as [ok s2].
    destruct IH as (B2 & L2 & R2). split_and!; [done|congruence|].
    intros E. destruct (R2 E) as (j & Hj & R). exists j. split; [lia|done].
Qed.

(** With the filter off every answer is accepted. *)
Lemma handle_accepts f s : block_for s -> m_filterFCPResponse s = false -> answer f ->
  (DEBUG = true -> 0x08000000 <= FCP_MASK_RESPONSE (quad0 big_endian (fr_data f))) ->
  status (m_fcp_block (handleFcpResponse big_endian DEBUG f s)) = eFS_Responded.
Proof.
  intros (E1 & E2 & E3 & _) F (A1 & A2 & A3 & A4 & A5 & A6) D. unfold handleFcpResponse.
  rewrite A1, (proj2 (Z.ltb_lt 3 _)) by lia. simpl.
  rewrite (proj2 (Z.eqb_neq _ _) A5), A3, E1, Z.eqb_refl, (proj2 (Z.eqb_neq _ _) A4). simpl.
  assert (DEBUG && (FCP_MASK_RESPONSE (quad0 big_endian (fr_data f)) <? 0x08000000) = false) as ->.
  { destruct DEBUG; [|done]. apply Z.ltb_ge. auto. }
  by rewrite E3, A6, Z.eqb_refl, F.
Qed.

Lemma handle_keeps f s :
  m_filterFCPResponse (handleFcpResponse big_endian DEBUG f s) = m_filterFCPResponse s
  /\ (status (m_fcp_block s) = eFS_Responded ->
      status (m_fcp_block (handleFcpResponse big_endian DEBUG f s)) = eFS_Responded).
Proof. unfold handleFcpResponse. repeat case_match; done. Qed.

Lemma round_accepts r f s : block_for s -> m_filterFCPResponse s = false -> In f r -> answer f ->
  (DEBUG = true -> 0x08000000 <= FCP_MASK_RESPONSE (quad0 big_endian (fr_data f))) ->
  status (m_fcp_block (handle_round big_endian DEBUG r s)) = eFS_Responded.
Proof.
  intros B F Hin A D. assert (forall r s, status (m_fcp_block s) = eFS_Responded ->
    status (m_fcp_block (handle_round big_endian DEBUG r s)) = eFS_Responded) as K.
  { clear. induction r as [|g r IH]; intros s H; simpl; [done|]. by apply IH, handle_keeps. }
  revert s B F. induction r as [|g r IH]; intros s B F; [done|]. simpl.
  destruct Hin as [->|Hin].
  - apply K. by apply handle_accepts.
  - apply IH; [done|by apply handle_cases|]. by rewrite (proj1 (handle_keeps g s)).
Qed.

Lemma handle_round_filter r s :
  m_filterFCPResponse (handle_round big_endian DEBUG r s) = m_filterFCPResponse s.
Proof.
  revert s. induction r as [|g r IH]; intros s; simpl; [done|].
  etrans; [apply IH|]. apply handle_keeps.
Qed.

Lemma wait_accepts rs f s : block_for s -> m_filterFCPResponse s = false ->
  status (m_fcp_block s) = eFS_Waiting -> In f (concat rs) -> answer f ->
  (DEBUG = true -> 0x08000000 <= FCP_MASK_RESPONSE (quad0 big_endian (fr_data f))) ->
  status (m_fcp_block (fcp_wait big_endian DEBUG rs s)) = eFS_Responded.
Proof.
  intros B F W Hin A D. revert s B F W. induction rs as [|r rs IH]; intros s B F W; [done|].
  simpl. rewrite decide_True by done.
  destruct (handle_round_cases r s B) as (B1 & _ & [E|[S1 _]]).
  - simpl in Hin. apply in_app_or in Hin as [Hin|Hin].
    + exfalso. assert (status (m_fcp_block s) = eFS_Responded); [|congruence].
      rewrite <- E. by apply round_accepts with f.
    + rewrite E. by apply IH.
  - destruct rs; simpl; [done|]. rewrite decide_False; [done|congruence].
Qed.

Lemma try_accepts (bus : Z -> list Z -> fcp_try) f s : block_for s -> m_filterFCPResponse s = false ->
  let t := bus node (take (Z.to_nat (rlen * 4)) req) in
  start_listen_ok t = true -> write_ok t = true -> stop_listen_ok t = true ->
  In f (concat (rounds t)) -> answer f ->
  (DEBUG = true -> 0x08000000 <= FCP_MASK_RESPONSE (quad0 big_endian (fr_data f))) ->
  (doFcpTransactionTry big_endian DEBUG bus s).1 = true.
Proof.
  intros B F t Ha Hw Ho Hin A D. unfold doFcpTransactionTry.
  pose proof B as (E1 & E2 & E3 & _). rewrite E1, E2, E3. fold t. rewrite Ha, Hw, Ho. simpl.
  by rewrite (wait_accepts (rounds t) f (set_status eFS_Waiting s)).
Qed.
End lemmas.

(** The state [transactionBlock] starts the tries from. *)
Section request.
Context (big_endian : bool) (nodeId : Z) (buf : list Z) (len : Z).
Context (Hlen : 1 <= len < MAX_FCP_BLOCK_SIZE_QUADS) (Hbuf : len * 4 <= zlength buf).

Definition request_image : list Z :=
  memcpy (replicate (Z.to_nat MAX_FCP_BLOCK_SIZE_BYTES) 0) (take (Z.to_nat (len * 4)) buf).

Lemma take_request_image n : 0 <= n <= len * 4 ->
  take (Z.to_nat n) request_image = take (Z.to_nat n) buf.
Proof using Hlen Hbuf.
  intros Hn. unfold request_image, MAX_FCP_BLOCK_SIZE_QUADS, MAX_FCP_BLOCK_SIZE_BYTES, zlength in *.
  set (d := take (Z.to_nat (len * 4)) buf).
  assert (length d = Z.to_nat (len * 4)) as L by (unfold d; rewrite length_take; lia).
  rewrite <- (Nat.min_l (Z.to_nat n) (length d)) at 1 by lia.
  rewrite <- take_take, take_memcpy by (rewrite length_replicate; lia).
  unfold d. rewrite take_take, Nat.min_l by lia. done.
Qed.

Lemma quad0_request_image : quad0 big_endian request_image = quad0 big_endian buf.
Proof using Hlen Hbuf.
  unfold quad0. change 4%nat with (Z.to_nat 4). by rewrite take_request_image by lia.
Qed.
End request.

Lemma transactionBlock_matches big_endian DEBUG bus nodeId buf len s resp rlen s' :
  1 <= len < MAX_FCP_BLOCK_SIZE_QUADS -> len * 4 <= zlength buf ->
  transactionBlock big_endian DEBUG bus nodeId buf len s = (Some (resp, rlen), s') ->
  m_handle_lock s' = m_handle_lock s + 1
  /\ exists i f, (i < IEEE1394SERVICE_FCP_MAX_TRIES)%nat
     /\ In f (concat (rounds (bus i (0xffc0 .| nodeId) (take (Z.to_nat (len * 4)) buf))))
     /\ fcp_answer big_endian (0xffc0 .| nodeId) buf f /\ holds_response f resp rlen.
Proof.
  intros Hlen Hbuf. unfold transactionBlock. destruct (_ =? _); [done|].
  rewrite (proj2 (Z.ltb_lt _ _)) by lia.
  fold (request_image buf len). set (s0 := mkService _ _ _ _).
  pose proof (tries_cases big_endian DEBUG (0xffc0 .| nodeId) len (request_image buf len) bus
    IEEE1394SERVICE_FCP_MAX_TRIES 0 s0) as H.
  unfold doFcpTransaction. destruct (fcp_tries _ _ _ _ _ s0) as [ok s1].
  destruct H as (_ & L & R); [done|]. destruct ok; [|done]. intros [= <- <- <-]. split; [done|].
  destruct (R eq_refl) as (j & Hj & f & Hin & A & Hr). exists j, f. split; [lia|].
  rewrite take_request_image in Hin by lia. split; [done|]. split; [|done].
  unfold fcp_answer in *. by rewrite quad0_request_image in A.
Qed.

Lemma transactionBlock_found big_endian DEBUG bus nodeId buf len s f :
  1 <= len < MAX_FCP_BLOCK_SIZE_QUADS -> len * 4 <= zlength buf -> nodeId <> INVALID_NODE_ID ->
  m_filterFCPResponse s = false ->
  let t := bus 0%nat (0xffc0 .| nodeId) (take (Z.to_nat (len * 4)) buf) in
  start_listen_ok t = true -> write_ok t = true -> stop_listen_ok t = true ->
  In f (concat (rounds t)) -> fcp_answer big_endian (0xffc0 .| nodeId) buf f ->
  (DEBUG = true -> 0x08000000 <= FCP_MASK_RESPONSE (quad0 big_endian (fr_data f))) ->
  exists resp rlen s', transactionBlock big_endian DEBUG bus nodeId buf len s = (Some (resp, rlen), s').
Proof.
  intros Hlen Hbuf Hn F t Ha Hw Ho Hin A D. unfold transactionBlock.
  rewrite (proj2 (Z.eqb_neq _ _) Hn), (proj2 (Z.ltb_lt _ _)) by lia.
  fold (request_image buf len). set (s0 := mkService _ _ _ _).
  assert (take (Z.to_nat (len * 4)) (request_image buf len) = take (Z.to_nat (len * 4)) buf) as Er
    by (apply take_request_image; lia).
  pose proof (try_accepts big_endian DEBUG (0xffc0 .| nodeId) len (request_image buf len) (bus 0%nat) f s0) as H.
  rewrite Er in H. unfold fcp_answer in H at 1. rewrite quad0_request_image in H by done.
  unfold doFcpTransaction. simpl.
  destruct (doFcpTransactionTry _ _ _ s0) as [ok s1]. assert (ok = true) as -> by (by apply H). eauto.
Qed.

(** ** Theorems *)

(** C23. A successful transaction returns the answer to its own request: some frame that the bus
    delivered in one of the two tries, after the request was written, is a response from
    the addressed node, not INTERIM, whose subunit and opcode are those of the request, and the
    response memory starts with that frame, cut at 512 bytes.  The handle lock is held. *)
Theorem fcp_response_matches big_endian DEBUG bus nodeId buf len s resp rlen s' :
  1 <= len < MAX_FCP_BLOCK_SIZE_QUADS -> len * 4 <= zlength buf ->
  transactionBlock big_endian DEBUG bus nodeId buf len s = (Some (resp, rlen), s') ->
  m_handle_lock s' = m_handle_lock s + 1
  /\ exists i f, (i < IEEE1394SERVICE_FCP_MAX_TRIES)%nat
     /\ In f (concat (rounds (bus i (0xffc0 .| nodeId) (take (Z.to_nat (len * 4)) buf))))
     /\ fcp_answer big_endian (0xffc0 .| nodeId) buf f /\ holds_response f resp rlen.
Proof. apply transactionBlock_matches. Qed.

(** C31. An answer that arrives in time is found: with duplicate filtering off, if the first try can
    listen and write and any of the frames delivered before its timeout answers the
    request, the transaction succeeds, whatever other frames arrive before or after it. *)
Theorem fcp_answer_found big_endian DEBUG bus nodeId buf len s f :
  1 <= len < MAX_FCP_BLOCK_SIZE_QUADS -> len * 4 <= zlength buf -> nodeId <> INVALID_NODE_ID ->
  m_filterFCPResponse s = false ->
  let t := bus 0%nat (0xffc0 .| nodeId) (take (Z.to_nat (len * 4)) buf) in
  start_listen_ok t = true -> write_ok t = true -> stop_listen_ok t = true ->
  In f (concat (rounds t)) -> fcp_answer big_endian (0xffc0 .| nodeId) buf f ->
  (DEBUG = true -> 0x08000000 <= FCP_MASK_RESPONSE (quad0 big_endian (fr_data f))) ->
  exists resp rlen s', transactionBlock big_endian DEBUG bus nodeId buf len s = (Some (resp, rlen), s').
Proof. apply transactionBlock_found. Qed.

(** A status request for the unit info and its answer, after an answer to something else. *)
Definition example_bus (i : nat) (node : Z) (req : list Z) : fcp_try :=
  mkTry true true
    [[]; [mkFrame node true [0x0C; 0xFF; 0x31; 0x07]; mkFrame node true [0x0F; 0xFF; 0x30; 0xFF]];
     [mkFrame node true [0x0C; 0xFF; 0x30; 0x07; 0x08; 0x00; 0x0A; 0x35]]] true.

Definition example_service : Ieee1394Service :=
  mkService 0 (mkFcpBlock eFS_Empty 0 0 [] 0 []) false (replicate 512 0).

Definition example_request : list Z := [0x01; 0xFF; 0x30; 0xFF; 0xFF; 0xFF; 0xFF; 0xFF].

Lemma fcp_answer_found_witness : exists resp rlen s',
  transactionBlock false true example_bus 2 example_request 2 example_service = (Some (resp, rlen), s').
Proof.
  apply (fcp_answer_found false true example_bus 2 example_request 2 example_service
    (mkFrame 0xffc2 true [0x0C; 0xFF; 0x30; 0x07; 0x08; 0x00; 0x0A; 0x35]));
    vm_compute; try done; auto; split_and!; congruence.
Defined.

Lemma fcp_response_matches_witness :
  exists i f, (i < IEEE1394SERVICE_FCP_MAX_TRIES)%nat
     /\ In f (concat (rounds (example_bus i 0xffc2 example_request)))
     /\ fcp_answer false 0xffc2 example_request f.
Proof.
  destruct (fcp_response_matches false true example_bus 2 example_request 2 example_service
    (response (m_fcp_block (transactionBlock false true example_bus 2 example_request 2 example_service).2))
    2 (transactionBlock false true example_bus 2 example_request 2 example_service).2)
    as (_ & i & f & Hi & Hin & A & _); [vm_compute; done..|]. exists i, f. split_and!; done.
Defined.
