(* ===== verification/BusService.v ===== *)
(** * The bus service

    Model of [src/libieee1394/ieee1394service.cpp] beyond the FCP transactions of [Fcp]: the
    isochronous channels and their bandwidth at the isochronous resource manager (IRM), asynchronous
    accesses, the split timeout registers, the handlers for address ranges and bus resets.

    [RawBus] has what the code calls of libraw1394 and libiec61883; [IrmBus] states how the
    IRM keeps its registers.  Every method holds the lock of the handle for its whole body and
    releases it on every return, so that the lock is not part of the state here. *)
From stdpp Require Import gmap.
From S2P Require Import Prelude ByteSwap Fcp.
#[local] Open Scope Z_scope.

(** ** The libraries *)

Class RawBus (W : Type) := {
  raw1394_channel_modify : Z -> bool -> run W Z;
  raw1394_bandwidth_modify : Z -> bool -> run W Z;
  raw1394_read : Z -> Z -> Z -> run W (Z * list Z);
  raw1394_write : Z -> Z -> list Z -> run W Z;
  raw1394_lock64 : Z -> Z -> Z -> Z -> run W (Z * Z);
  raw1394_arm_register : Z -> Z -> run W Z;
  raw1394_arm_unregister : Z -> run W Z;
  iec61883_cmp_connect : Z -> Z -> Z -> Z -> Z -> run W (Z * Z * Z * Z);
  iec61883_cmp_disconnect : Z -> Z -> Z -> Z -> Z -> Z -> run W Z;
  raw1394_get_local_id : run W Z;
  raw1394_get_irm_id : run W Z;
  bus_generation : run W Z;
}.

(** [RAW1394_MODIFY_ALLOC] and [RAW1394_MODIFY_FREE]. *)
Definition MODIFY_ALLOC : bool := true.
Definition MODIFY_FREE : bool := false.

(** ** The state of the service *)

Inductive EAllocType := AllocFree | AllocGeneric | AllocCMP.

#[export] Instance EAllocType_eq_dec : EqDecision EAllocType.
Proof. solve_decision. Defined.

Record ChannelInfo := mkChannel {
  ch_channel : Z;
  ch_bandwidth : Z;
  ch_alloctype : EAllocType;
  ch_xmit_node : Z;
  ch_xmit_plug : Z;
  ch_recv_node : Z;
  ch_recv_plug : Z;
}.

Definition free_channel : ChannelInfo := mkChannel (-1) (-1) AllocFree 0xFFFF (-1) 0xFFFF (-1).

(** Handlers of address ranges and of bus resets are identified by numbers. *)
Record ARMHandler := mkArm { arm_id : Z; arm_start : Z; arm_length : Z }.

Record BusService (W : Type) := mkBus {
  bs_channels : list ChannelInfo;
  bs_armHandlers : list ARMHandler;
  bs_busResetHandlers : list Z;
  bs_world : W;
}.
Arguments mkBus {_}.
Arguments bs_channels {_}.
Arguments bs_armHandlers {_}.
Arguments bs_busResetHandlers {_}.
Arguments bs_world {_}.

(** What the constructor leaves. *)
Definition BusService_new {W} (w : W) : BusService W := mkBus (replicate 64 free_channel) [] [] w.

Section service.
Context {W : Type} `{RawBus W} (big_endian : bool).
Abbreviation M := (run (BusService W)).

Definition raw {A} (m : run W A) : M A := fun s =>
  match m (bs_world s) with
  | Some (a, w) => Some (a, mkBus (bs_channels s) (bs_armHandlers s) (bs_busResetHandlers s) w)
  | None => None
  end.

Definition set_channels (f : list ChannelInfo -> list ChannelInfo) : M unit :=
  modify (fun s => mkBus (f (bs_channels s)) (bs_armHandlers s) (bs_busResetHandlers s) (bs_world s)).
Definition set_armHandlers (f : list ARMHandler -> list ARMHandler) : M unit :=
  modify (fun s => mkBus (bs_channels s) (f (bs_armHandlers s)) (bs_busResetHandlers s) (bs_world s)).
Definition set_busResetHandlers (f : list Z -> list Z) : M unit :=
  modify (fun s => mkBus (bs_channels s) (bs_armHandlers s) (f (bs_busResetHandlers s)) (bs_world s)).

Definition channel_info (c : Z) (s : BusService W) : ChannelInfo := nth (Z.to_nat c) (bs_channels s) free_channel.

(** *** Isochronous channels *)

Definition registerIsoChannel (c : Z) (cinfo : ChannelInfo) : M bool :=
  if c <? 63 then set_channels (fun l => <[Z.to_nat c := cinfo]> l) ;; mret true else mret false.

Definition unregisterIsoChannel (c : Z) : M bool :=
  if c <? 63 then
    info ← gets (channel_info c);
    if bool_decide (ch_alloctype info = AllocFree) then mret false else
    set_channels (fun l => <[Z.to_nat c := free_channel]> l) ;;
    mret true
  else mret false.

(** The search for a channel: [c] of [n] remaining ones is tried; the result is the loop variable. *)
Fixpoint find_channel (n : nat) (c : Z) : M Z :=
  match n with
  | O => mret c
  | S n =>
      r ← raw (raw1394_channel_modify c MODIFY_ALLOC);
      if r =? 0 then mret c else find_channel n (c + 1)
  end.

(** From the allocated channel on. *)
Definition allocate_bandwidth (c bandwidth : Z) : M Z :=
  r ← raw (raw1394_bandwidth_modify bandwidth MODIFY_ALLOC);
  if r <? 0 then
    raw (raw1394_channel_modify c MODIFY_FREE) ;;
    mret (-1)
  else
    ok ← registerIsoChannel c (mkChannel c (i32 bandwidth) AllocGeneric 0xFFFF (-1) 0xFFFF (-1));
    if (ok : bool) then mret c
    else
      raw (raw1394_bandwidth_modify bandwidth MODIFY_FREE) ;;
      raw (raw1394_channel_modify c MODIFY_FREE) ;;
      mret (-1).

Definition allocateIsoChannelGeneric (bandwidth : Z) : M Z :=
  c ← find_channel 63 0;
  if c <? 63 then allocate_bandwidth c bandwidth else mret (-1).

Definition allocateFixedIsoChannelGeneric (chan bandwidth : Z) : M Z :=
  r ← raw (raw1394_channel_modify chan MODIFY_ALLOC);
  if r =? 0 then allocate_bandwidth chan bandwidth else mret (-1).

(** [skip_bandwidth] is [IEEE1394SERVICE_SKIP_IEC61883_BANDWIDTH_ALLOCATION]. *)
Definition allocateIsoChannelCMP (skip_bandwidth : bool) (xmit_node xmit_plug recv_node recv_plug : Z) : M Z :=
  if xmit_node =? INVALID_NODE_ID then mret (-1) else
  if recv_node =? INVALID_NODE_ID then mret (-1) else
  let bandwidth := if skip_bandwidth then 0 else 1 in
  '(c, xmit_plug, recv_plug, bandwidth) ←
    raw (iec61883_cmp_connect (xmit_node .| 0xffc0) xmit_plug (recv_node .| 0xffc0) recv_plug bandwidth);
  if (c <? 0) || (63 <? c) then mret (-1) else
  ok ← registerIsoChannel c (mkChannel c bandwidth AllocCMP xmit_node xmit_plug recv_node recv_plug);
  mret (if (ok : bool) then c else -1).

(** Failures of the libraries are only reported. *)
Definition freeIsoChannel (c : Z) : M bool :=
  if (c <? 0) || (63 <? c) then mret false else
  info ← gets (channel_info c);
  match ch_alloctype info with
  | AllocFree => mret false
  | AllocGeneric =>
      raw (raw1394_bandwidth_modify (u32 (ch_bandwidth info)) MODIFY_FREE) ;;
      raw (raw1394_channel_modify (u32 (ch_channel info)) MODIFY_FREE) ;;
      unregisterIsoChannel c
  | AllocCMP =>
      raw (iec61883_cmp_disconnect (ch_xmit_node info .| 0xffc0) (ch_xmit_plug info) (ch_recv_node info .| 0xffc0)
             (ch_recv_plug info) (ch_channel info) (ch_bandwidth info)) ;;
      unregisterIsoChannel c
  end.

(** *** Asynchronous accesses *)

(** The quadlets read; [None] is a failure. *)
Definition readNoLock (nodeId addr length : Z) : M (option (list Z)) :=
  if nodeId =? INVALID_NODE_ID then mret None else
  '(r, data) ← raw (raw1394_read nodeId addr (length * 4));
  mret (if r =? 0 then Some data else None).

Definition writeNoLock (nodeId addr : Z) (data : list Z) : M bool :=
  if nodeId =? INVALID_NODE_ID then mret false else
  r ← raw (raw1394_write nodeId addr data);
  mret (r =? 0).

Definition read_quadlet (nodeId addr : Z) : M (option (list Z)) := readNoLock nodeId addr 1.
Definition read_octlet (nodeId addr : Z) : M (option (list Z)) := readNoLock nodeId addr 2.
Definition write_quadlet (nodeId addr data : Z) : M bool := writeNoLock nodeId addr [data].

(** The accesses of the debug version are left out.  The result is converted also after a failure. *)
Definition lockCompareSwap64 (nodeId addr compare_value swap_value : Z) : M (bool * Z) :=
  if nodeId =? INVALID_NODE_ID then mret (false, 0) else
  '(retval, result) ← raw (raw1394_lock64 nodeId addr (CondSwapToBus64 big_endian swap_value) (CondSwapToBus64 big_endian compare_value));
  mret (retval =? 0, CondSwapFromBus64 big_endian result).

Definition CSR_REGISTER_BASE : Z := 0xFFFFF0000000.
Definition CSR_SPLIT_TIMEOUT_HI : Z := 0x18.
Definition CSR_SPLIT_TIMEOUT_LO : Z := 0x1c.
Definition CSR_BANDWIDTH_AVAILABLE : Z := 0x220.
Definition CSR_CYCLE_TIME : Z := 0x200.

Definition getLocalNodeId : M Z := id ← raw raw1394_get_local_id; mret (id .& 0x3F).

Definition getAvailableBandwidth : M Z :=
  irm ← raw raw1394_get_irm_id;
  '(r, data) ← raw (raw1394_read irm (CSR_REGISTER_BASE + CSR_BANDWIDTH_AVAILABLE) 4);
  mret (if r <? 0 then -1 else i32 (CondSwapFromBus32 big_endian (nth 0 data 0))).

Definition setSplitTimeoutUsecs (nodeId timeout : Z) : M bool :=
  let secs := timeout / 1000000 in
  let usecs := timeout mod 1000000 in
  let split_timeout_hi := CondSwapToBus32 big_endian (secs .& 7) in
  let split_timeout_low := CondSwapToBus32 big_endian (u32 (((usecs / 125) .& 0x1FFF) << 19)) in
  ok ← writeNoLock (0xffc0 .| nodeId) (CSR_REGISTER_BASE + CSR_SPLIT_TIMEOUT_HI) [split_timeout_hi];
  if negb ok then mret false else
  writeNoLock (0xffc0 .| nodeId) (CSR_REGISTER_BASE + CSR_SPLIT_TIMEOUT_LO) [split_timeout_low].

Definition getSplitTimeoutUsecs (nodeId : Z) : M Z :=
  hi ← readNoLock (0xffc0 .| nodeId) (CSR_REGISTER_BASE + CSR_SPLIT_TIMEOUT_HI) 1;
  match hi with
  | None => mret 0
  | Some hi =>
      lo ← readNoLock (0xffc0 .| nodeId) (CSR_REGISTER_BASE + CSR_SPLIT_TIMEOUT_LO) 1;
      match lo with
      | None => mret 0
      | Some lo =>
          let split_timeout_hi := CondSwapFromBus32 big_endian (nth 0 hi 0) in
          let split_timeout_low := CondSwapFromBus32 big_endian (nth 0 lo 0) in
          mret (i32 (u32 ((split_timeout_hi .& 7) * 1000000 + (split_timeout_low >> 19) * 125)))
      end
  end.

(** *** Address ranges *)

Definition registerARMHandler (h : ARMHandler) : M bool :=
  err ← raw (raw1394_arm_register (arm_start h) (arm_length h));
  if negb (err =? 0) then mret false else
  set_armHandlers (fun l => l ++ [h]) ;;
  mret true.

(** The loop over the handlers from position [i] on; a handler that cannot be unregistered stays. *)
Fixpoint unregister_arm (l : list ARMHandler) (i : nat) (h : ARMHandler) : M bool :=
  match l with
  | [] => mret false
  | x :: l =>
      if arm_id x =? arm_id h then
        err ← raw (raw1394_arm_unregister (arm_start h));
        if negb (err =? 0) then unregister_arm l (S i) h
        else set_armHandlers (fun l => take i l ++ drop (S i) l) ;; mret true
      else unregister_arm l (S i) h
  end.

Definition unregisterARMHandler (h : ARMHandler) : M bool :=
  l ← gets bs_armHandlers;
  unregister_arm l 0 h.

(** At most ten tries. *)
Fixpoint find_arm_block (n : nat) (start length step : Z) : M Z :=
  match n with
  | O => mret 0xFFFFFFFFFFFFFFFF
  | S n =>
      err ← raw (raw1394_arm_register start length);
      if err =? 0 then
        err ← raw (raw1394_arm_unregister start);
        mret (if err =? 0 then start else 0xFFFFFFFFFFFFFFFF)
      else find_arm_block n (u64 (start + step)) length step
  end.

Definition findFreeARMBlock (start length step : Z) : M Z := find_arm_block 10 start length step.

(** The handler a request is given to; [None] is the default handler. *)
Definition armHandler (arm_tag : Z) : M (option ARMHandler) :=
  l ← gets bs_armHandlers;
  mret (List.find (fun h => arm_id h =? arm_tag) l).

(** *** Bus resets *)

Definition addBusResetHandler (functor : Z) : M bool := set_busResetHandlers (fun l => l ++ [functor]) ;; mret true.

(** The first occurrence is removed. *)
Fixpoint erase_handler (x : Z) (l : list Z) : list Z :=
  match l with
  | [] => []
  | y :: l => if y =? x then l else y :: erase_handler x l
  end.

Definition remBusResetHandler (functor : Z) : M bool :=
  l ← gets bs_busResetHandlers;
  if existsb (Z.eqb functor) l then set_busResetHandlers (erase_handler functor) ;; mret true else mret false.

(** The handlers that a reset calls, in order. *)
Definition resetHandler : M (list Z) :=
  id ← getLocalNodeId;
  read_quadlet (id .| 0xFFC0) (CSR_REGISTER_BASE .| CSR_CYCLE_TIME) ;;
  gets bs_busResetHandlers.

(** [nb_tries] is positive; the body runs at most [nb_tries] times. *)
Fixpoint waitForBusResetStormToEnd (nb_tries : nat) : M bool :=
  match nb_tries with
  | O => mret false
  | S nb_tries =>
      gen_current ← raw bus_generation;
      gen ← raw bus_generation;
      if gen_current =? gen then mret true else waitForBusResetStormToEnd nb_tries
  end.
End service.

(** ** The isochronous resource manager *)

(** All bandwidth there is, in allocation units. *)
Definition BANDWIDTH_AVAILABLE_INITIAL : Z := 4915.

(** What the service relies on.  [irm_free w c] is the bit of channel [c] in CHANNELS_AVAILABLE and [irm_bandwidth w] is
    BANDWIDTH_AVAILABLE.  Every call returns.  An allocation succeeds only with what is free, and may fail for any
    reason; a failed one changes nothing.  Everything else is a mishap, which [irm_mishaps] counts and of which nothing is
    known but that it is counted: a release or a disconnection that does not succeed, a connection that is not made
    on a free channel below 63 of its own, other nodes and bus resets that change the registers. *)
Class IrmBus (W : Type) `{RawBus W} := {
  irm_free : W -> Z -> bool;
  irm_bandwidth : W -> Z;
  irm_mishaps : W -> nat;
  irm_channel_returns w c a : exists r w', raw1394_channel_modify c a w = Some (r, w') /\ (irm_mishaps w <= irm_mishaps w')%nat;
  irm_bandwidth_returns w b a : exists r w', raw1394_bandwidth_modify b a w = Some (r, w') /\ (irm_mishaps w <= irm_mishaps w')%nat;
  irm_connect_returns w xn xp rn rp b : exists r w', iec61883_cmp_connect xn xp rn rp b w = Some (r, w')
    /\ (irm_mishaps w <= irm_mishaps w')%nat;
  irm_disconnect_returns w xn xp rn rp c b : exists r w', iec61883_cmp_disconnect xn xp rn rp c b w = Some (r, w')
    /\ (irm_mishaps w <= irm_mishaps w')%nat;
  irm_channel_alloc w c r w' : 0 <= c < 64 -> raw1394_channel_modify c MODIFY_ALLOC w = Some (r, w') ->
    irm_mishaps w' = irm_mishaps w ->
    irm_bandwidth w' = irm_bandwidth w
    /\ ((r = 0 /\ irm_free w c = true /\ forall i, irm_free w' i = irm_free w i && negb (i =? c))
        \/ (r <> 0 /\ forall i, irm_free w' i = irm_free w i));
  irm_channel_free w c r w' : 0 <= c < 64 -> irm_free w c = false -> raw1394_channel_modify c MODIFY_FREE w = Some (r, w') ->
    irm_mishaps w' = irm_mishaps w ->
    irm_bandwidth w' = irm_bandwidth w /\ forall i, irm_free w' i = irm_free w i || (i =? c);
  irm_bandwidth_alloc w b r w' : 0 <= b < 2 ^ 32 -> raw1394_bandwidth_modify b MODIFY_ALLOC w = Some (r, w') ->
    irm_mishaps w' = irm_mishaps w ->
    (forall i, irm_free w' i = irm_free w i)
    /\ ((0 <= r /\ b <= irm_bandwidth w /\ irm_bandwidth w' = irm_bandwidth w - b)
        \/ (r < 0 /\ irm_bandwidth w' = irm_bandwidth w));
  irm_bandwidth_free w b r w' : 0 <= b -> irm_bandwidth w + b <= BANDWIDTH_AVAILABLE_INITIAL ->
    raw1394_bandwidth_modify b MODIFY_FREE w = Some (r, w') -> irm_mishaps w' = irm_mishaps w ->
    irm_bandwidth w' = irm_bandwidth w + b /\ forall i, irm_free w' i = irm_free w i;
  irm_connect w xn xp rn rp b c xp' rp' b' w' :
    iec61883_cmp_connect xn xp rn rp b w = Some ((c, xp', rp', b'), w') -> irm_mishaps w' = irm_mishaps w ->
    (c < 0 /\ irm_bandwidth w' = irm_bandwidth w /\ forall i, irm_free w' i = irm_free w i)
    \/ (0 <= c < 63 /\ irm_free w c = true /\ 0 <= b' <= irm_bandwidth w
        /\ irm_bandwidth w' = irm_bandwidth w - b' /\ forall i, irm_free w' i = irm_free w i && negb (i =? c));
  irm_disconnect w xn xp rn rp c b r w' : 0 <= c < 64 -> irm_free w c = false -> 0 <= b ->
    irm_bandwidth w + b <= BANDWIDTH_AVAILABLE_INITIAL ->
    iec61883_cmp_disconnect xn xp rn rp c b w = Some (r, w') -> irm_mishaps w' = irm_mishaps w ->
    irm_bandwidth w' = irm_bandwidth w + b /\ forall i, irm_free w' i = irm_free w i || (i =? c);
}.

(** ** What the service holds *)

Definition in_use (i : ChannelInfo) : bool := negb (bool_decide (ch_alloctype i = AllocFree)).
Definition bandwidth_of (i : ChannelInfo) : Z := if in_use i then ch_bandwidth i else 0.
Definition held_bandwidth (l : list ChannelInfo) : Z := foldr (fun i acc => bandwidth_of i + acc) 0 l.

Lemma held_insert l k i : (k < length l)%nat ->
  held_bandwidth (<[k := i]> l) = held_bandwidth l - bandwidth_of (nth k l free_channel) + bandwidth_of i.
Proof.
  revert k. induction l as [|x l IH]; intros [|k] Hk; simpl in Hk; try lia; cbn [held_bandwidth foldr insert list_insert nth].
  - lia.
  - fold (held_bandwidth (<[k:=i]> l)). fold (held_bandwidth l). rewrite IH by lia. lia.
Qed.

(** Split the run of a method that returned at its first call. *)
Ltac part E a s1 E1 := apply run_bind_inv in E as (a & s1 & E1 & E).

Section accounting.
Context {W : Type} `{IrmBus W}.

(** The accounts agree: [others c] says that no other node holds channel [c]; the IRM has a channel free
    exactly if neither another node nor the service holds it, and its bandwidth and the
    bandwidth that the service holds add up to [total]. *)
Record accounted (others : Z -> bool) (total : Z) (s : BusService W) : Prop := {
  acc_length : length (bs_channels s) = 64%nat;
  acc_held c : 0 <= c < 64 -> in_use (channel_info c s) = true ->
    c < 63 /\ others c = true /\ ch_channel (channel_info c s) = c
    /\ 0 <= ch_bandwidth (channel_info c s) <= BANDWIDTH_AVAILABLE_INITIAL;
  acc_free c : 0 <= c < 64 -> irm_free (bs_world s) c = others c && negb (in_use (channel_info c s));
  acc_bandwidth : irm_bandwidth (bs_world s) + held_bandwidth (bs_channels s) = total;
  acc_total : 0 <= irm_bandwidth (bs_world s) /\ total <= BANDWIDTH_AVAILABLE_INITIAL;
}.

Lemma held_nonneg l : (forall i, i ∈ l -> 0 <= bandwidth_of i) -> 0 <= held_bandwidth l.
Proof.
  induction l as [|x l IH]; intros Hl; [done|]. cbn [held_bandwidth foldr]. fold (held_bandwidth l).
  pose proof (Hl x ltac:(left)). specialize (IH ltac:(intros i Hi; apply Hl; by right)). lia.
Qed.

Lemma held_entry l i : (forall i, i ∈ l -> 0 <= bandwidth_of i) -> i ∈ l -> bandwidth_of i <= held_bandwidth l.
Proof.
  induction l as [|x l IH]; intros Hl Hi; [by apply not_elem_of_nil in Hi|]. cbn [held_bandwidth foldr]. fold (held_bandwidth l).
  assert (forall i, i ∈ l -> 0 <= bandwidth_of i) as Hl' by (intros j Hj; apply Hl; by right).
  pose proof (held_nonneg l Hl'). pose proof (Hl x ltac:(left)). apply elem_of_cons in Hi as [->|Hi]; [lia|].
  specialize (IH Hl' Hi). lia.
Qed.

Lemma entry_of_channel (s : BusService W) i : i ∈ bs_channels s -> length (bs_channels s) = 64%nat ->
  exists c, 0 <= c < 64 /\ channel_info c s = i.
Proof.
  intros Hi L. apply list_elem_of_lookup in Hi as (k & Hk). pose proof (lookup_lt_Some _ _ _ Hk). exists (Z.of_nat k).
  split; [lia|]. unfold channel_info. rewrite Nat2Z.id. by apply nth_lookup_Some.
Qed.

Lemma entry_nonneg others total s : accounted others total s -> forall i, i ∈ bs_channels s -> 0 <= bandwidth_of i.
Proof.
  intros A i Hi. destruct (entry_of_channel s i Hi (acc_length _ _ _ A)) as (c & Hc & <-). unfold bandwidth_of.
  destruct (in_use _) eqn:U; [|done]. by destruct (acc_held _ _ _ A c Hc U) as (_ & _ & _ & ? & _).
Qed.

Lemma held_nonneg_acc others total s : accounted others total s -> 0 <= held_bandwidth (bs_channels s).
Proof. intros A. by apply held_nonneg, (entry_nonneg _ _ _ A). Qed.

Lemma held_entry_acc others total s c : accounted others total s -> 0 <= c < 64 -> in_use (channel_info c s) = true ->
  ch_bandwidth (channel_info c s) <= held_bandwidth (bs_channels s).
Proof.
  intros A Hc U. pose proof (held_entry (bs_channels s) (channel_info c s) (entry_nonneg _ _ _ A)) as E.
  unfold bandwidth_of in E. rewrite U in E. apply E. apply list_elem_of_In, nth_In. rewrite (acc_length _ _ _ A). lia.
Qed.

(** A change of one entry of the table. *)
Lemma channel_info_insert c c' i (s : BusService W) (w : W) : 0 <= c < 64 -> 0 <= c' -> length (bs_channels s) = 64%nat ->
  channel_info c' (mkBus (<[Z.to_nat c := i]> (bs_channels s)) (bs_armHandlers s) (bs_busResetHandlers s) w)
  = if c' =? c then i else channel_info c' s.
Proof.
  intros Hc Hc' L. unfold channel_info. cbn [bs_channels]. destruct (Z.eqb_spec c' c) as [->|Hn].
  - apply nth_lookup_Some. apply list_lookup_insert_eq. lia.
  - rewrite !nth_lookup. by rewrite list_lookup_insert_ne by lia.
Qed.

(** Entering a new holding. *)
Lemma accounted_take others total s w i c : accounted others total s -> 0 <= c < 63 -> irm_free (bs_world s) c = true ->
  in_use i = true -> ch_channel i = c -> 0 <= ch_bandwidth i <= irm_bandwidth (bs_world s) ->
  (forall k, irm_free w k = irm_free (bs_world s) k && negb (k =? c)) ->
  irm_bandwidth w = irm_bandwidth (bs_world s) - ch_bandwidth i ->
  in_use (channel_info c s) = false
  /\ accounted others total (mkBus (<[Z.to_nat c := i]> (bs_channels s)) (bs_armHandlers s) (bs_busResetHandlers s) w).
Proof.
  intros A Hc Hf Hu Ei Hb Fw Bw. pose proof (acc_length _ _ _ A) as L. pose proof (acc_free _ _ _ A c ltac:(lia)) as Fc.
  rewrite Hf in Fc. symmetry in Fc. apply andb_true_iff in Fc as (Oc & Uc). apply negb_true_iff in Uc. split; [done|].
  pose proof (held_nonneg_acc _ _ _ A). pose proof (acc_bandwidth _ _ _ A). pose proof (acc_total _ _ _ A).
  split.
  - cbn [bs_channels]. by rewrite length_insert.
  - intros k Hk. rewrite channel_info_insert by lia. destruct (Z.eqb_spec k c) as [->|]; [|by apply A].
    intros _. split_and!; try done; lia.
  - intros k Hk. rewrite channel_info_insert by lia. cbn [bs_world]. rewrite Fw, (acc_free _ _ _ A k Hk).
    destruct (Z.eqb_spec k c) as [->|]; cbn [negb]; [rewrite Hu; by destruct (others c), (in_use (channel_info c s))|apply andb_true_r].
  - cbn [bs_world bs_channels]. rewrite held_insert by lia. fold (channel_info c s). unfold bandwidth_of at 1. rewrite Uc.
    unfold bandwidth_of. rewrite Hu, Bw. lia.
  - cbn [bs_world]. rewrite Bw. lia.
Qed.

(** Giving a holding back. *)
Lemma accounted_give others total s w c : accounted others total s -> 0 <= c < 64 -> in_use (channel_info c s) = true ->
  (forall k, irm_free w k = irm_free (bs_world s) k || (k =? c)) ->
  irm_bandwidth w = irm_bandwidth (bs_world s) + ch_bandwidth (channel_info c s) ->
  accounted others total (mkBus (<[Z.to_nat c := free_channel]> (bs_channels s)) (bs_armHandlers s) (bs_busResetHandlers s) w).
Proof.
  intros A Hc Hu Fw Bw. pose proof (acc_length _ _ _ A) as L. destruct (acc_held _ _ _ A c Hc Hu) as (_ & Oc & _ & Hb).
  pose proof (acc_bandwidth _ _ _ A). pose proof (acc_total _ _ _ A). split.
  - cbn [bs_channels]. by rewrite length_insert.
  - intros k Hk. rewrite channel_info_insert by lia. destruct (Z.eqb_spec k c) as [->|]; [done|by apply A].
  - intros k Hk. rewrite channel_info_insert by lia. cbn [bs_world]. rewrite Fw, (acc_free _ _ _ A k Hk).
    destruct (Z.eqb_spec k c) as [->|]; [by rewrite Oc, Hu|by rewrite orb_false_r].
  - cbn [bs_world bs_channels]. rewrite held_insert by lia. fold (channel_info c s). unfold bandwidth_of at 1. rewrite Hu.
    change (bandwidth_of free_channel) with 0. lia.
  - cbn [bs_world]. lia.
Qed.

(** The same accounts in another world. *)
Lemma accounted_same others total (s : BusService W) w : accounted others total s ->
  (forall k, irm_free w k = irm_free (bs_world s) k) -> irm_bandwidth w = irm_bandwidth (bs_world s) ->
  accounted others total (mkBus (bs_channels s) (bs_armHandlers s) (bs_busResetHandlers s) w).
Proof.
  intros A Fw Bw. destruct A as [L Hh Hf Hb Ht]. split; cbn [bs_channels bs_world]; try done.
  - intros k Hk. rewrite Fw. by apply Hf.
  - by rewrite Bw.
  - by rewrite Bw.
Qed.

Lemma raw_Some {A} (m : run W A) (s : BusService W) a w : m (bs_world s) = Some (a, w) ->
  raw m s = Some (a, mkBus (bs_channels s) (bs_armHandlers s) (bs_busResetHandlers s) w).
Proof. unfold raw. by intros ->. Qed.

Lemma raw_inv {A} (m : run W A) (s : BusService W) a s' : raw m s = Some (a, s') ->
  exists w, m (bs_world s) = Some (a, w) /\ s' = mkBus (bs_channels s) (bs_armHandlers s) (bs_busResetHandlers s) w.
Proof. unfold raw. destruct (m (bs_world s)) as [[x w]|]; [|done]. intros [= <- <-]. by exists w. Qed.

(** *** Mishaps *)

(** Methods that return and forget no mishap. *)
Definition climbs {A} (m : run (BusService W) A) : Prop := forall s a s', m s = Some (a, s') ->
  (irm_mishaps (bs_world s) <= irm_mishaps (bs_world s'))%nat.

Lemma climbs_ret {A} (a : A) : climbs (mret a).
Proof. by intros s b s' [= _ <-]. Qed.
Lemma climbs_gets {A} (f : BusService W -> A) : climbs (gets f).
Proof. by intros s b s' [= _ <-]. Qed.
Lemma climbs_bind {A B} (m : run (BusService W) A) (k : A -> run (BusService W) B) :
  climbs m -> (forall a, climbs (k a)) -> climbs (m ≫= k).
Proof. intros Hm Hk s b s' E. apply run_bind_inv in E as (a & s1 & E1 & E). apply Hm in E1. apply Hk in E. lia. Qed.
Lemma climbs_if {A} (b : bool) (m1 m2 : run (BusService W) A) : climbs m1 -> climbs m2 -> climbs (if b then m1 else m2).
Proof. by destruct b. Qed.
Lemma climbs_channels f : climbs (set_channels f).
Proof. by intros s b s' [= _ <-]. Qed.
Lemma climbs_raw {A} (m : run W A) : (forall w, exists r w', m w = Some (r, w') /\ (irm_mishaps w <= irm_mishaps w')%nat) ->
  climbs (raw m).
Proof.
  intros Hm s a s' (w & R & ->)%raw_inv. destruct (Hm (bs_world s)) as (r & w' & R' & L). rewrite R' in R.
  injection R as <- <-. done.
Qed.

Ltac climbing :=
  repeat first [apply climbs_ret|apply climbs_gets|apply climbs_channels|apply climbs_if
    |apply climbs_raw; intros; first [apply irm_channel_returns|apply irm_bandwidth_returns|apply irm_connect_returns
       |apply irm_disconnect_returns]
    |apply climbs_bind; [|intros]|match goal with |- climbs (match ?x with _ => _ end) => destruct x end].

Lemma climbs_find n c : climbs (find_channel n c).
Proof. revert c. induction n as [|n IH]; intros c; cbn [find_channel]; climbing; apply IH. Qed.
Lemma climbs_allocate_bandwidth c b : climbs (allocate_bandwidth c b).
Proof. unfold allocate_bandwidth, registerIsoChannel. climbing. Qed.
Lemma climbs_free c : climbs (freeIsoChannel c).
Proof. unfold freeIsoChannel, unregisterIsoChannel. climbing. Qed.

(** *** Allocation without mishaps *)

(** Channel [c] has been reserved at the IRM and is not in the table yet. *)
Definition reserved (c : Z) (s s1 : BusService W) : Prop :=
  bs_channels s1 = bs_channels s /\ bs_armHandlers s1 = bs_armHandlers s /\ bs_busResetHandlers s1 = bs_busResetHandlers s
  /\ irm_free (bs_world s) c = true /\ irm_bandwidth (bs_world s1) = irm_bandwidth (bs_world s)
  /\ (forall k, irm_free (bs_world s1) k = irm_free (bs_world s) k && negb (k =? c)).

(** The result of an allocation is -1, or a channel that was not in use. *)
Definition fresh (r : Z) (s : BusService W) : Prop := r = -1 \/ in_use (channel_info r s) = false.

Lemma restore_free c b f g h : (forall k, g k = f k && negb (k =? c)) -> (forall k, h k = g k || (k =? c)) ->
  f c = (b : bool) -> b = true -> forall k : Z, h k = f k.
Proof.
  intros Eg Eh <- Fc k. rewrite Eh, Eg. destruct (Z.eqb_spec k c) as [->|]; cbn [negb].
  - by rewrite andb_false_r, orb_true_r, Fc.
  - by rewrite andb_true_r, orb_false_r.
Qed.

Lemma allocate_bandwidth_accounted others total c b s s1 r s' : accounted others total s -> 0 <= c < 64 -> 0 <= b < 2 ^ 31 ->
  reserved c s s1 -> allocate_bandwidth c b s1 = Some (r, s') -> irm_mishaps (bs_world s') = irm_mishaps (bs_world s1) ->
  accounted others total s' /\ fresh r s.
Proof.
  intros A Hc Hb (E1 & E2 & E3 & Fc & Bw & Fw) E Hm. unfold allocate_bandwidth in E. pose proof (acc_total _ _ _ A) as Ht.
  pose proof (acc_bandwidth _ _ _ A). pose proof (held_nonneg_acc _ _ _ A).
  assert (irm_free (bs_world s1) c = false) as Fc1 by (rewrite Fw, Z.eqb_refl; apply andb_false_r).
  part E r2 s2 G2. apply raw_inv in G2 as (w2 & R2 & ->).
  destruct (irm_bandwidth_returns (bs_world s1) b MODIFY_ALLOC) as (r2' & w2' & R2' & L2). rewrite R2 in R2'. injection R2' as <- <-.
  set (s2 := mkBus _ _ _ w2) in E. destruct (Z.ltb_spec r2 0) as [Hr|Hr].
  - part E r3 s3 G3. injection E as <- <-. apply raw_inv in G3 as (w3 & R3 & ->). cbn [s2 bs_world] in R3.
    destruct (irm_channel_returns w2 c MODIFY_FREE) as (r3' & w3' & R3' & L3). rewrite R3 in R3'. injection R3' as <- <-.
    cbn [bs_world] in Hm. destruct (irm_bandwidth_alloc _ b r2 w2 ltac:(lia) R2 ltac:(lia)) as [F2 [[? _]|[_ B2]]]; [lia|].
    destruct (irm_channel_free w2 c _ _ Hc ltac:(by rewrite F2) R3 ltac:(lia)) as [B3 F3].
    split; [|by left]. unfold s2. cbn [bs_channels bs_armHandlers bs_busResetHandlers]. rewrite E1, E2, E3.
    apply accounted_same; [done| |lia]. apply (restore_free c true _ (irm_free w2)); try done. intros k. by rewrite F2, Fw.
  - unfold registerIsoChannel in E. destruct (Z.ltb_spec c 63) as [H63|H63].
    + part E ok s3 G3. part G3 u s4 G4. injection G4 as <- <-. injection G3 as <- <-. injection E as <- <-.
      cbn [s2 bs_channels bs_armHandlers bs_busResetHandlers bs_world] in *. rewrite E1, E2, E3.
      destruct (irm_bandwidth_alloc _ b r2 w2 ltac:(lia) R2 ltac:(lia)) as [F2 [(_ & Hle & B2)|[? _]]]; [|lia].
      rewrite (wrapS_small 32) by lia. set (i := mkChannel c b _ _ _ _ _).
      destruct (accounted_take others total s w2 i c A) as (U & A'); try done; try lia.
      * cbn [i ch_bandwidth]. lia.
      * intros k. by rewrite F2, Fw.
      * cbn [i ch_bandwidth]. lia.
      * split; [done|]. by right.
    + part E ok s3 G3. injection G3 as <- <-. part E r3 s3 G3. apply raw_inv in G3 as (w3 & R3 & ->). cbn [s2 bs_world] in R3.
      part E r4 s4 G4. injection E as <- <-. apply raw_inv in G4 as (w4 & R4 & ->). cbn [bs_world] in R4, Hm.
      destruct (irm_bandwidth_returns w2 b MODIFY_FREE) as (r3' & w3' & R3' & L3). rewrite R3 in R3'. injection R3' as <- <-.
      destruct (irm_channel_returns w3 c MODIFY_FREE) as (r4' & w4' & R4' & L4). rewrite R4 in R4'. injection R4' as <- <-.
      destruct (irm_bandwidth_alloc _ b r2 w2 ltac:(lia) R2 ltac:(lia)) as [F2 [(_ & Hle & B2)|[? _]]]; [|lia].
      assert (irm_bandwidth w2 + b <= BANDWIDTH_AVAILABLE_INITIAL) as Hi by lia.
      destruct (irm_bandwidth_free w2 b _ _ ltac:(lia) Hi R3 ltac:(lia)) as [B3 F3].
      destruct (irm_channel_free w3 c _ _ Hc ltac:(by rewrite F3, F2) R4 ltac:(lia)) as [B4 F4].
      split; [|by left]. unfold s2. cbn [bs_channels bs_armHandlers bs_busResetHandlers]. rewrite E1, E2, E3.
      apply accounted_same; [done| |lia]. apply (restore_free c true _ (irm_free w3)); try done. intros k. by rewrite F3, F2, Fw.
Qed.

(** One attempt to reserve a channel. *)
Lemma reserve_inv c (s : BusService W) r s1 : 0 <= c < 64 -> raw (raw1394_channel_modify c MODIFY_ALLOC) s = Some (r, s1) ->
  irm_mishaps (bs_world s1) = irm_mishaps (bs_world s) ->
  (r = 0 /\ reserved c s s1) \/ (r <> 0 /\ forall others total, accounted others total s -> accounted others total s1).
Proof.
  intros Hc E Hm. apply raw_inv in E as (w1 & R & ->). cbn [bs_world] in Hm.
  destruct (irm_channel_alloc _ _ _ _ Hc R Hm) as [B [(-> & Fc & F)|(Hr & F)]]; [left; by split_and!|].
  right. split; [done|]. intros others total A. by apply accounted_same.
Qed.

Lemma find_channel_accounted others total n : forall c s c' s1, accounted others total s -> 0 <= c -> c + Z.of_nat n <= 63 ->
  find_channel n c s = Some (c', s1) -> irm_mishaps (bs_world s1) = irm_mishaps (bs_world s) ->
  exists s0, accounted others total s0 /\ bs_channels s0 = bs_channels s
  /\ irm_mishaps (bs_world s0) = irm_mishaps (bs_world s)
  /\ ((c' = c + Z.of_nat n /\ s1 = s0) \/ (c <= c' < c + Z.of_nat n /\ reserved c' s0 s1)).
Proof.
  induction n as [|n IH]; intros c s c' s1 A Hc Hn; cbn [find_channel]; intros E Hm.
  - injection E as <- <-. exists s. split_and!; try done. left. split; [lia|done].
  - part E r s2 E2. assert (irm_mishaps (bs_world s) <= irm_mishaps (bs_world s2))%nat as L2.
    { apply climbs_raw in E2; [done|]. intros. apply irm_channel_returns. }
    pose proof (reserve_inv c s r s2 ltac:(lia) E2) as Ri.
    assert (bs_channels s2 = bs_channels s) as Ec by (by apply raw_inv in E2 as (? & _ & ->)).
    destruct (Z.eqb_spec r 0) as [Hr|Hr].
    + injection E as <- <-. destruct Ri as [[_ Rs]|[? _]]; [done| |done]. exists s. split_and!; try done. right. split; [lia|done].
    + pose proof (climbs_find _ _ _ _ _ E) as L3. destruct Ri as [[? _]|[_ Ra]]; [lia|done|].
      destruct (IH (c + 1) s2 c' s1 (Ra _ _ A) ltac:(lia) ltac:(lia) E ltac:(lia)) as (s0 & A0 & E0 & M0 & Ho).
      exists s0. split_and!; try done; [congruence|lia|]. destruct Ho as [(-> & ->)|(? & ?)]; [left; split; [lia|done]|right; split; [lia|done]].
Qed.
End accounting.

(** ** Histories *)

Inductive channel_op :=
  | OpAllocate (bandwidth : Z)
  | OpAllocateFixed (chan bandwidth : Z)
  | OpAllocateCMP (xmit_node xmit_plug recv_node recv_plug : Z)
  | OpFree (c : Z).

Definition op_ok (op : channel_op) : Prop :=
  match op with
  | OpAllocate b => 0 <= b < 2 ^ 31
  | OpAllocateFixed c b => 0 <= c < 64 /\ 0 <= b < 2 ^ 31
  | _ => True
  end.

Definition run_op {W} `{RawBus W} (skip_bandwidth : bool) (op : channel_op) : run (BusService W) Z :=
  match op with
  | OpAllocate b => allocateIsoChannelGeneric b
  | OpAllocateFixed c b => allocateFixedIsoChannelGeneric c b
  | OpAllocateCMP xn xp rn rp => allocateIsoChannelCMP skip_bandwidth xn xp rn rp
  | OpFree c => ok ← freeIsoChannel c; mret (Z.b2z ok)
  end.

Fixpoint run_ops {W} `{RawBus W} (skip_bandwidth : bool) (ops : list channel_op) : run (BusService W) (list Z) :=
  match ops with
  | [] => mret []
  | op :: ops => r ← run_op skip_bandwidth op; rs ← run_ops skip_bandwidth ops; mret (r :: rs)
  end.

(** The specification: a set of channels; an allocation adds one or fails, freeing removes one or
    fails if it is not there.  An [exact] allocation adds one that was not there. *)
Inductive spec_op (exact : bool) : gset Z -> channel_op -> Z -> gset Z -> Prop :=
  | spec_none S op : (forall c, op <> OpFree c) -> spec_op exact S op (-1) S
  | spec_add S op r : (forall c, op <> OpFree c) -> (forall c b, op = OpAllocateFixed c b -> r = c) -> 0 <= r < 63 ->
      (exact = true -> r ∉ S) -> spec_op exact S op r ({[r]} ∪ S)
  | spec_remove S c : c ∈ S -> spec_op exact S (OpFree c) 1 (S ∖ {[c]})
  | spec_unknown S c : c ∉ S -> spec_op exact S (OpFree c) 0 S.

Inductive spec_ops (exact : bool) : gset Z -> list channel_op -> list Z -> gset Z -> Prop :=
  | spec_ops_nil S : spec_ops exact S [] [] S
  | spec_ops_cons S S1 S2 op ops r rs : spec_op exact S op r S1 -> spec_ops exact S1 ops rs S2 ->
      spec_ops exact S (op :: ops) (r :: rs) S2.

(** *** The table, on any bus *)

Section table.
Context {W : Type} `{IrmBus W} (skip_bandwidth : bool).

Definition holds (S : gset Z) (s : BusService W) : Prop := forall c, c ∈ S <-> 0 <= c < 64 /\ in_use (channel_info c s) = true.

(** The table has 64 entries, the last of which is never used. *)
Definition tabled (s : BusService W) : Prop := length (bs_channels s) = 64%nat /\ in_use (channel_info 63 s) = false.

Lemma channel_info_channels (s s' : BusService W) c : bs_channels s' = bs_channels s -> channel_info c s' = channel_info c s.
Proof. unfold channel_info. by intros ->. Qed.

Lemma channel_info_updated (s s' : BusService W) c i k : length (bs_channels s) = 64%nat -> 0 <= c < 64 -> 0 <= k ->
  bs_channels s' = <[Z.to_nat c := i]> (bs_channels s) -> channel_info k s' = if k =? c then i else channel_info k s.
Proof.
  intros L Hc Hk E. rewrite <- (channel_info_insert c k i s (bs_world s') Hc Hk L). by apply channel_info_channels.
Qed.

(** What an allocation may do to the table: nothing, or enter a channel. *)
Definition allocation (s : BusService W) (r : Z) (s' : BusService W) : Prop :=
  (r = -1 /\ bs_channels s' = bs_channels s)
  \/ (0 <= r < 63 /\ exists i, in_use i = true /\ bs_channels s' = <[Z.to_nat r := i]> (bs_channels s)).

Lemma allocation_spec S op r (s s' : BusService W) : allocation s r s' -> holds S s -> tabled s ->
  (forall c, op <> OpFree c) -> (forall c b, op = OpAllocateFixed c b -> r <> -1 -> r = c) ->
  exists S', spec_op false S op r S' /\ holds S' s' /\ tabled s'.
Proof.
  unfold holds, tabled. intros [(-> & E)|(Hr & i & Ui & E)] Hh [L T] Hf Hc.
  - exists S. split; [by constructor|]. rewrite E, (channel_info_channels s s') by done. split; [|done].
    intros c. by rewrite (channel_info_channels s s').
  - exists ({[r]} ∪ S). split; [constructor; try done; intros c b Eo; apply (Hc c b Eo); lia|]. split.
    + intros c. rewrite elem_of_union, elem_of_singleton, Hh. split.
      * intros [->|(H1 & H2)]; (split; [lia|]); rewrite (channel_info_updated s s' r i) by (done || lia).
        -- by rewrite Z.eqb_refl.
        -- by destruct (Z.eqb_spec c r).
      * intros (H1 & H2). rewrite (channel_info_updated s s' r i) in H2 by (done || lia).
        destruct (Z.eqb_spec c r) as [->|]; [by left|by right].
    + rewrite E, length_insert. split; [done|]. rewrite (channel_info_updated s s' r i) by (done || lia).
      by destruct (Z.eqb_spec 63 r); [lia|].
Qed.

(** A library call leaves the table alone. *)
Lemma raw_returns {A} (m : run W A) (s : BusService W) :
  (forall w, exists r w', m w = Some (r, w') /\ (irm_mishaps w <= irm_mishaps w')%nat) ->
  exists r s', raw m s = Some (r, s') /\ bs_channels s' = bs_channels s.
Proof.
  intros Hm. destruct (Hm (bs_world s)) as (r & w & R & _). exists r. eexists. split; [by apply raw_Some|done].
Qed.

Lemma find_channel_returns n : forall c (s : BusService W), exists c' s', find_channel n c s = Some (c', s')
  /\ bs_channels s' = bs_channels s /\ c <= c' <= c + Z.of_nat n.
Proof.
  induction n as [|n IH]; intros c s; cbn [find_channel]; [eexists _, _; split; [reflexivity|]; split; [done|lia]|].
  destruct (raw_returns (raw1394_channel_modify c MODIFY_ALLOC) s) as (r & s1 & R & E1); [intros; apply irm_channel_returns|].
  run_step with R. destruct (r =? 0); [eexists _, _; split; [reflexivity|]; split; [done|lia]|].
  destruct (IH (c + 1) s1) as (c' & s2 & E & E2 & Hc). exists c', s2. split; [done|]. split; [congruence|lia].
Qed.

Lemma allocate_bandwidth_table c b (s : BusService W) : 0 <= c ->
  exists r s', allocate_bandwidth c b s = Some (r, s') /\ allocation s r s' /\ (r <> -1 -> r = c).
Proof.
  intros Hc. unfold allocate_bandwidth, registerIsoChannel.
  destruct (raw_returns (raw1394_bandwidth_modify b MODIFY_ALLOC) s) as (r & s1 & R & E1); [intros; apply irm_bandwidth_returns|].
  run_step with R. destruct (r <? 0).
  - destruct (raw_returns (raw1394_channel_modify c MODIFY_FREE) s1) as (r2 & s2 & R2 & E2); [intros; apply irm_channel_returns|].
    run_step with R2. eexists _, _. split; [reflexivity|]. split; [left; split; [done|congruence]|done].
  - destruct (Z.ltb_spec c 63).
    + eexists c, _. split; [reflexivity|]. split; [right|done]. split; [lia|]. eexists. split; [|by cbn [bs_channels]; rewrite E1]. done.
    + destruct (raw_returns (raw1394_bandwidth_modify b MODIFY_FREE) s1) as (r2 & s2 & R2 & E2); [intros; apply irm_bandwidth_returns|].
      destruct (raw_returns (raw1394_channel_modify c MODIFY_FREE) s2) as (r3 & s3 & R3 & E3); [intros; apply irm_channel_returns|].
      eexists (-1), s3. split; [run_step; cbn beta iota; run_step with R2; by run_step with R3|].
      split; [left; split; [done|congruence]|done].
Qed.

Lemma cmp_table xn xp rn rp (s : BusService W) :
  exists r s', allocateIsoChannelCMP skip_bandwidth xn xp rn rp s = Some (r, s') /\ allocation s r s'.
Proof.
  unfold allocateIsoChannelCMP, registerIsoChannel.
  destruct (xn =? INVALID_NODE_ID); [exists (-1), s; split_and!; try done; by left|].
  destruct (rn =? INVALID_NODE_ID); [exists (-1), s; split_and!; try done; by left|].
  destruct (raw_returns (iec61883_cmp_connect (xn .| 0xffc0) xp (rn .| 0xffc0) rp (if skip_bandwidth then 0 else 1)) s)
    as ([[[c xp'] rp'] b] & s1 & R & E1); [intros; apply irm_connect_returns|]. run_step with R. cbn beta iota.
  destruct (Z.ltb_spec c 0), (Z.ltb_spec 63 c); cbn [orb]; try (eexists _, _; split; [reflexivity|]; by left).
  destruct (Z.ltb_spec c 63); eexists _, _; (split; [reflexivity|]); [right|by left].
  split; [lia|]. eexists. split; [|by cbn [bs_channels]; rewrite E1]. done.
Qed.

Lemma unregister_spec c (s : BusService W) : 0 <= c < 63 -> in_use (channel_info c s) = true ->
  unregisterIsoChannel c s = Some (true, mkBus (<[Z.to_nat c := free_channel]> (bs_channels s)) (bs_armHandlers s) (bs_busResetHandlers s) (bs_world s)).
Proof.
  intros Hc U. unfold unregisterIsoChannel. rewrite (proj2 (Z.ltb_lt c 63)) by lia. run_step.
  unfold in_use in U. destruct (bool_decide _); done.
Qed.

Lemma free_table c (s : BusService W) : tabled s ->
  exists s', freeIsoChannel c s = Some ((0 <=? c) && (c <? 64) && in_use (channel_info c s), s')
  /\ bs_channels s' = (if (0 <=? c) && (c <? 64) && in_use (channel_info c s) then <[Z.to_nat c := free_channel]> (bs_channels s)
                       else bs_channels s).
Proof.
  intros [L T63]. unfold freeIsoChannel. destruct (Z.ltb_spec c 0), (Z.ltb_spec 63 c), (Z.leb_spec 0 c), (Z.ltb_spec c 64); try lia;
    cbn [orb andb]; try (by exists s).
  run_step. unfold in_use at 1 2. destruct (in_use (channel_info c s)) eqn:U.
  2:{ unfold in_use in U. apply negb_false_iff, bool_decide_eq_true_1 in U. rewrite U. exists s. by rewrite bool_decide_eq_true_2. }
  assert (c < 63) as H63 by (destruct (decide (c = 63)) as [->|]; [congruence|lia]).
  assert (ch_alloctype (channel_info c s) <> AllocFree) as Na.
  { pose proof U as U'. unfold in_use in U'. by apply negb_true_iff, bool_decide_eq_false_1 in U'. }
  rewrite bool_decide_eq_false_2 by done. cbn [negb].
  assert (forall s1 : BusService W, bs_channels s1 = bs_channels s -> exists s', unregisterIsoChannel c s1 = Some (true, s')
    /\ bs_channels s' = <[Z.to_nat c := free_channel]> (bs_channels s)) as Hu.
  { intros s1 E1. eexists. split; [apply unregister_spec; [lia|by rewrite (channel_info_channels s s1)]|]. cbn [bs_channels]. by rewrite E1. }
  destruct (ch_alloctype (channel_info c s)) eqn:T; [done| |].
  - set (k := u32 (ch_channel _)). set (b := u32 (ch_bandwidth _)).
    destruct (raw_returns (raw1394_bandwidth_modify b MODIFY_FREE) s) as (r1 & s1 & R1 & E1); [intros; apply irm_bandwidth_returns|].
    destruct (raw_returns (raw1394_channel_modify k MODIFY_FREE) s1) as (r2 & s2 & R2 & E2); [intros; apply irm_channel_returns|].
    run_step with R1. run_step with R2. apply Hu. congruence.
  - match goal with |- context [raw ?m] => destruct (raw_returns m s) as (r1 & s1 & R1 & E1); [intros; apply irm_disconnect_returns|] end.
    run_step with R1. by apply Hu.
Qed.

Lemma op_table S op (s : BusService W) : tabled s -> op_ok op -> holds S s ->
  exists r s' S', run_op skip_bandwidth op s = Some (r, s') /\ spec_op false S op r S' /\ holds S' s' /\ tabled s'.
Proof.
  intros T Hop Hh. destruct op as [b|c b|xn xp rn rp|c]; cbn [run_op op_ok] in *.
  - unfold allocateIsoChannelGeneric. destruct (find_channel_returns 63 0 s) as (c & s1 & E & E1 & Hc). run_step with E.
    assert (forall r s', allocation s1 r s' -> allocation s r s') as Ha.
    { unfold allocation. by rewrite E1. }
    destruct (c <? 63).
    + destruct (allocate_bandwidth_table c b s1) as (r & s' & E' & Al & _); [lia|].
      destruct (allocation_spec S (OpAllocate b) r s s') as (S' & Sp & Hh' & T'); try done; [by apply Ha|]. by exists r, s', S'.
    + destruct (allocation_spec S (OpAllocate b) (-1) s s1) as (S' & Sp & Hh' & T'); try done; [by left|]. by exists (-1), s1, S'.
  - destruct Hop as (Hc & Hb). unfold allocateFixedIsoChannelGeneric.
    destruct (raw_returns (raw1394_channel_modify c MODIFY_ALLOC) s) as (r1 & s1 & R1 & E1); [intros; apply irm_channel_returns|].
    run_step with R1. destruct (r1 =? 0).
    + destruct (allocate_bandwidth_table c b s1) as (r & s' & E' & Al & Hr); [lia|].
      destruct (allocation_spec S (OpAllocateFixed c b) r s s') as (S' & Sp & Hh' & T'); try done.
      { unfold allocation in *. by rewrite <- E1. }
      { intros c' b' Eo Hn. injection Eo as -> ->. by apply Hr. }
      by exists r, s', S'.
    + destruct (allocation_spec S (OpAllocateFixed c b) (-1) s s1) as (S' & Sp & Hh' & T'); try done; [by left|]. by exists (-1), s1, S'.
  - destruct (cmp_table xn xp rn rp s) as (r & s' & E & Al). rewrite E.
    destruct (allocation_spec S (OpAllocateCMP xn xp rn rp) r s s') as (S' & Sp & Hh' & T'); try done. by exists r, s', S'.
  - destruct (free_table c s T) as (s' & E & Ech). run_step with E. destruct T as [L T].
    assert ((0 <=? c) && (c <? 64) && in_use (channel_info c s) = true <-> c ∈ S) as Hin.
    { unfold holds in Hh. rewrite Hh, !andb_true_iff, Z.leb_le, Z.ltb_lt. tauto. }
    destruct ((0 <=? c) && (c <? 64) && in_use (channel_info c s)) eqn:B.
    + assert (c ∈ S) as Hc by (by apply Hin). pose proof (proj1 (Hh c) Hc) as (Rc & _). eexists 1, s', _. split; [done|].
      split; [by apply spec_remove|]. split.
      * intros k. rewrite elem_of_difference, elem_of_singleton, (Hh k). split.
        -- intros ((H1 & H2) & H3). split; [done|]. rewrite (channel_info_updated s s' c free_channel) by (done || lia).
           by destruct (Z.eqb_spec k c).
        -- intros (H1 & H2). rewrite (channel_info_updated s s' c free_channel) in H2 by (done || lia).
           by destruct (Z.eqb_spec k c).
      * unfold tabled. rewrite Ech, length_insert. split; [done|].
        rewrite (channel_info_updated s s' c free_channel) by (done || lia). by destruct (63 =? c).
    + assert (c ∉ S) as Hc by (intros Hc; by apply Hin in Hc). exists 0, s', S. split; [done|].
      split; [by apply spec_unknown|]. unfold holds, tabled. rewrite Ech, (channel_info_channels s s') by done. split; [|done].
      intros k. by rewrite (channel_info_channels s s').
Qed.

Lemma run_ops_table ops : forall S (s : BusService W), tabled s -> Forall op_ok ops -> holds S s ->
  exists rs s' S', run_ops skip_bandwidth ops s = Some (rs, s') /\ spec_ops false S ops rs S' /\ holds S' s'.
Proof.
  induction ops as [|op ops IH]; intros S s T Hops Hh; cbn [run_ops].
  - exists [], s, S. split_and!; try done. constructor.
  - inversion Hops as [|? ? Hop Hops']; subst. destruct (op_table S op s T Hop Hh) as (r & s1 & S1 & E1 & Sp1 & Hh1 & T1).
    destruct (IH S1 s1 T1 Hops' Hh1) as (rs & s2 & S2 & E2 & Sp2 & Hh2).
    exists (r :: rs), s2, S2. run_step with E1. run_step with E2. split_and!; try done. by econstructor.
Qed.

(** A table holds one set of channels. *)
Lemma holds_unique S S' (s : BusService W) : holds S s -> holds S' s -> S = S'.
Proof. intros A B. apply set_eq. intros c. by rewrite (A c), (B c). Qed.
End table.

(** *** The accounts, without mishaps *)

Section histories.
Context {W : Type} `{IrmBus W} (others : Z -> bool) (total : Z) (skip_bandwidth : bool).

Lemma accounted_tabled (s : BusService W) : accounted others total s -> tabled s.
Proof.
  intros A. split; [apply A|]. destruct (in_use (channel_info 63 s)) eqn:U; [|done].
  destruct (acc_held _ _ _ A 63 ltac:(lia) U). lia.
Qed.

Lemma climbs_op op : climbs (run_op skip_bandwidth op : run (BusService W) Z).
Proof.
  destruct op; cbn [run_op]; unfold allocateIsoChannelGeneric, allocateFixedIsoChannelGeneric, allocateIsoChannelCMP, registerIsoChannel.
  - apply climbs_bind; [apply climbs_find|intros]. apply climbs_if; [apply climbs_allocate_bandwidth|apply climbs_ret].
  - apply climbs_bind; [apply climbs_raw; intros; apply irm_channel_returns|intros].
    apply climbs_if; [apply climbs_allocate_bandwidth|apply climbs_ret].
  - do 2 (apply climbs_if; [apply climbs_ret|]). apply climbs_bind; [apply climbs_raw; intros; apply irm_connect_returns|].
    intros [[[? ?] ?] ?]. apply climbs_if; [apply climbs_ret|]. apply climbs_bind; [|intros; apply climbs_ret].
    apply climbs_if; [|apply climbs_ret]. apply climbs_bind; [apply climbs_channels|intros; apply climbs_ret].
  - apply climbs_bind; [apply climbs_free|intros; apply climbs_ret].
Qed.

Lemma climbs_ops ops : climbs (run_ops skip_bandwidth ops : run (BusService W) (list Z)).
Proof.
  induction ops as [|op ops IH]; cbn [run_ops]; [apply climbs_ret|]. apply climbs_bind; [apply climbs_op|intros].
  apply climbs_bind; [done|intros; apply climbs_ret].
Qed.

Lemma cmp_accounted xn xp rn rp (s : BusService W) r s' : accounted others total s ->
  allocateIsoChannelCMP skip_bandwidth xn xp rn rp s = Some (r, s') -> irm_mishaps (bs_world s') = irm_mishaps (bs_world s) ->
  accounted others total s' /\ fresh r s.
Proof.
  intros A E Hm. unfold allocateIsoChannelCMP in E.
  destruct (xn =? INVALID_NODE_ID); [injection E as <- <-; split; [done|by left]|].
  destruct (rn =? INVALID_NODE_ID); [injection E as <- <-; split; [done|by left]|].
  part E x s1 E1. destruct x as [[[c xp'] rp'] b]. apply raw_inv in E1 as (w & R & ->). cbn beta iota in E.
  destruct (irm_connect_returns (bs_world s) (xn .| 0xffc0) xp (rn .| 0xffc0) rp (if skip_bandwidth then 0 else 1)) as (r' & w' & R' & L).
  rewrite R in R'. injection R' as <- <-.
  assert (irm_mishaps w = irm_mishaps (bs_world s)) as Hw.
  { destruct ((c <? 0) || (63 <? c)); [by injection E as _ <-|]. part E ok s2 E2. injection E as _ <-.
    unfold registerIsoChannel in E2. destruct (c <? 63); [|by injection E2 as _ <-]. part E2 u s3 E3.
    injection E3 as _ <-. by injection E2 as _ <-. }
  destruct (irm_connect _ _ _ _ _ _ _ _ _ _ _ R Hw) as [(Hc & B & F)|(Hc & Fc & Hb & B & F)].
  - rewrite (proj2 (Z.ltb_lt c 0)) in E by done. injection E as <- <-. split; [by apply accounted_same|by left].
  - rewrite (proj2 (Z.ltb_ge c 0)), (proj2 (Z.ltb_ge 63 c)) in E by lia. cbn [orb] in E. part E ok s2 E2. injection E as <- <-.
    unfold registerIsoChannel in E2. rewrite (proj2 (Z.ltb_lt c 63)) in E2 by lia. part E2 u s3 E3. injection E3 as _ <-. injection E2 as <- <-.
    cbn [bs_channels bs_armHandlers bs_busResetHandlers bs_world].
    set (i := mkChannel c b _ _ _ _ _). destruct (accounted_take others total s w i c A) as (U & A'); try done.
    split; [done|by right].
Qed.

Lemma free_accounted c (s : BusService W) ok s' : accounted others total s -> freeIsoChannel c s = Some (ok, s') ->
  irm_mishaps (bs_world s') = irm_mishaps (bs_world s) -> accounted others total s'.
Proof.
  intros A E Hm. unfold freeIsoChannel in E. destruct (Z.ltb_spec c 0), (Z.ltb_spec 63 c); cbn [orb] in E; try (by injection E as _ <-).
  part E info s0 E0. injection E0 as <- <-. destruct (in_use (channel_info c s)) eqn:U.
  2:{ unfold in_use in U. apply negb_false_iff, bool_decide_eq_true_1 in U. rewrite U in E. by injection E as _ <-. }
  destruct (acc_held _ _ _ A c ltac:(lia) U) as (H63 & Oc & Ec & Hb). pose proof (acc_free _ _ _ A c ltac:(lia)) as Fc.
  rewrite U, andb_false_r in Fc. pose proof (acc_bandwidth _ _ _ A). pose proof (acc_total _ _ _ A).
  pose proof (held_entry_acc _ _ _ c A ltac:(lia) U) as Hheld.
  assert (irm_bandwidth (bs_world s) + ch_bandwidth (channel_info c s) <= BANDWIDTH_AVAILABLE_INITIAL) as Hi by lia.
  unfold BANDWIDTH_AVAILABLE_INITIAL in Hb.
  assert (forall w : W, unregisterIsoChannel c (mkBus (bs_channels s) (bs_armHandlers s) (bs_busResetHandlers s) w)
    = Some (true, mkBus (<[Z.to_nat c := free_channel]> (bs_channels s)) (bs_armHandlers s) (bs_busResetHandlers s) w)) as Hu.
  { intros w. by rewrite unregister_spec. }
  destruct (ch_alloctype (channel_info c s)) eqn:T; [by injection E as _ <-| |].
  - rewrite Ec, (wrapU_small 32), (wrapU_small 32) in E by lia.
    part E r1 s1 E1. apply raw_inv in E1 as (w1 & R1 & ->). part E r2 s2 E2. apply raw_inv in E2 as (w2 & R2 & ->).
    cbn [bs_world bs_channels bs_armHandlers bs_busResetHandlers] in R2, E. rewrite Hu in E. injection E as _ <-. cbn [bs_world] in Hm.
    destruct (irm_bandwidth_returns (bs_world s) (ch_bandwidth (channel_info c s)) MODIFY_FREE) as (r1' & w1' & R1' & L1).
    rewrite R1 in R1'. injection R1' as <- <-.
    destruct (irm_channel_returns w1 c MODIFY_FREE) as (r2' & w2' & R2' & L2). rewrite R2 in R2'. injection R2' as <- <-.
    destruct (irm_bandwidth_free (bs_world s) (ch_bandwidth (channel_info c s)) _ _ ltac:(lia) Hi R1 ltac:(lia)) as [B1 F1].
    destruct (irm_channel_free w1 c _ _ ltac:(lia) ltac:(by rewrite F1) R2 ltac:(lia)) as [B2 F2].
    apply (accounted_give others total s w2 c); try done; [lia|intros k; by rewrite F2, F1|by rewrite B2].
  - rewrite Ec in E. part E r1 s1 E1. apply raw_inv in E1 as (w1 & R1 & ->). rewrite Hu in E. injection E as _ <-. cbn [bs_world] in Hm.
    destruct (irm_disconnect (bs_world s) _ _ _ _ c (ch_bandwidth (channel_info c s)) _ _ ltac:(lia) Fc ltac:(lia) Hi R1 Hm) as [B1 F1].
    by apply (accounted_give others total s w1 c); [|lia|..].
Qed.

(** The result of an operation that allocates. *)
Definition fresh_result (op : channel_op) (r : Z) (s : BusService W) : Prop := (exists c, op = OpFree c) \/ fresh r s.

Lemma op_accounted op (s : BusService W) r s' : accounted others total s -> op_ok op ->
  run_op skip_bandwidth op s = Some (r, s') -> irm_mishaps (bs_world s') = irm_mishaps (bs_world s) ->
  accounted others total s' /\ fresh_result op r s.
Proof.
  intros A Hop E Hm. unfold fresh_result. destruct op as [b|c b|xn xp rn rp|c]; cbn [run_op op_ok] in *.
  - unfold allocateIsoChannelGeneric in E. part E c s1 E1. pose proof (climbs_find _ _ _ _ _ E1) as L1.
    assert (irm_mishaps (bs_world s1) <= irm_mishaps (bs_world s'))%nat as L2.
    { destruct (c <? 63); [by eapply climbs_allocate_bandwidth|by injection E as _ <-]. }
    destruct (find_channel_accounted others total 63 0 s c s1 A ltac:(lia) ltac:(lia) E1 ltac:(lia)) as (s0 & A0 & E0 & M0 & Ho).
    change (0 + Z.of_nat 63) with 63 in *. destruct Ho as [(-> & ->)|(Hc & Rc)].
    + injection E as <- <-. split; [done|]. right. by left.
    + rewrite (proj2 (Z.ltb_lt c 63)) in E by lia.
      destruct (allocate_bandwidth_accounted others total c b s0 s1 r s' A0 ltac:(lia) Hop Rc E ltac:(lia)) as [A' F].
      split; [done|]. right. unfold fresh in *. by rewrite (channel_info_channels s s0) in F.
  - destruct Hop as (Hc & Hb). unfold allocateFixedIsoChannelGeneric in E. part E r1 s1 E1.
    assert (irm_mishaps (bs_world s) <= irm_mishaps (bs_world s1))%nat as L1.
    { apply climbs_raw in E1; [done|]. intros. apply irm_channel_returns. }
    assert (irm_mishaps (bs_world s1) <= irm_mishaps (bs_world s'))%nat as L2.
    { destruct (r1 =? 0); [by eapply climbs_allocate_bandwidth|by injection E as _ <-]. }
    destruct (reserve_inv c s r1 s1 Hc E1 ltac:(lia)) as [[-> Rc]|[Hr Ra]].
    + cbn [Z.eqb] in E. destruct (allocate_bandwidth_accounted others total c b s s1 r s' A Hc Hb Rc E ltac:(lia)) as [A' F].
      split; [done|by right].
    + rewrite (proj2 (Z.eqb_neq _ _)) in E by done. injection E as <- <-. split; [by apply Ra|]. right. by left.
  - destruct (cmp_accounted xn xp rn rp s r s' A E Hm). split; [done|by right].
  - part E ok s1 E1. injection E as _ <-. split; [by eapply free_accounted|]. left. by exists c.
Qed.

Lemma spec_op_exact S op r S' (s : BusService W) : spec_op false S op r S' -> holds S s -> fresh_result op r s -> spec_op true S op r S'.
Proof.
  intros Sp Hh F. destruct Sp as [S op Hn|S op r Hn Hf Hr _|S c Hc|S c Hc]; try (by constructor). constructor; try done.
  intros _ Hin. apply Hh in Hin as [_ U]. destruct F as [[c ->]|[->|F]]; [by destruct (Hn c)|lia|congruence].
Qed.

Lemma run_ops_accounted ops : forall S (s : BusService W) rs s', accounted others total s -> Forall op_ok ops -> holds S s ->
  run_ops skip_bandwidth ops s = Some (rs, s') -> irm_mishaps (bs_world s') = irm_mishaps (bs_world s) ->
  accounted others total s' /\ exists S', spec_ops true S ops rs S' /\ holds S' s'.
Proof.
  induction ops as [|op ops IH]; intros S s rs s' A Hops Hh; cbn [run_ops]; intros E Hm.
  - injection E as <- <-. split; [done|]. exists S. split; [constructor|done].
  - inversion Hops as [|? ? Hop Hops']; subst. part E r s1 E1. part E rs2 s2 E2. injection E as <- <-.
    pose proof (climbs_op _ _ _ _ E1). pose proof (climbs_ops _ _ _ _ E2).
    destruct (op_accounted op s r s1 A Hop E1 ltac:(lia)) as [A1 F1].
    destruct (op_table skip_bandwidth S op s (accounted_tabled s A) Hop Hh) as (r' & s1' & S1 & E1' & Sp1 & Hh1 & T1).
    rewrite E1 in E1'. injection E1' as <- <-.
    destruct (IH S1 s1 rs2 s2 A1 Hops' Hh1 E2 ltac:(lia)) as (A2 & S2 & Sp2 & Hh2). split; [done|]. exists S2. split; [|done].
    econstructor; [by eapply spec_op_exact|done].
Qed.

Lemma channel_info_new (w : W) c : channel_info c (BusService_new w) = free_channel.
Proof.
  unfold channel_info, BusService_new. cbn [bs_channels]. rewrite nth_lookup.
  destruct (replicate 64 free_channel !! Z.to_nat c) eqn:L; [|done]. by apply lookup_replicate_1 in L as (-> & _).
Qed.

(** What holds of a new service and the resource manager it finds. *)
Lemma accounted_new (w : W) : 0 <= irm_bandwidth w <= BANDWIDTH_AVAILABLE_INITIAL ->
  accounted (irm_free w) (irm_bandwidth w) (BusService_new w).
Proof.
  intros Hb. split; try done.
  - intros c Hc. by rewrite channel_info_new.
  - intros c Hc. by rewrite channel_info_new, andb_true_r.
  - change (held_bandwidth (bs_channels (BusService_new w))) with 0. apply Z.add_0_r.
Qed.

Lemma holds_nothing (s : BusService W) : accounted others total s -> holds ∅ s -> held_bandwidth (bs_channels s) = 0.
Proof.
  unfold holds. intros A Hh. assert (forall i, i ∈ bs_channels s -> bandwidth_of i = 0) as Hz.
  { intros i Hi. destruct (entry_of_channel s i Hi (acc_length _ _ _ A)) as (c & Hc & <-). unfold bandwidth_of.
    destruct (in_use _) eqn:U; [|done]. destruct (not_elem_of_empty (C := gset Z) c). by apply Hh. }
  revert Hz. generalize (bs_channels s). intros l. induction l as [|x l IH]; intros Hz; [done|].
  cbn [held_bandwidth foldr]. fold (held_bandwidth l). rewrite Hz by left. rewrite IH; [done|]. intros i Hi. apply Hz. by right.
Qed.
End histories.

Section promises.
Context {W : Type} `{IrmBus W} (skip_bandwidth : bool).

End promises.

(** ** The registers of a node *)

Class CsrBus (W : Type) `{RawBus W} := {
  csr : W -> Z -> Z -> Z;
  csr_write w n a d : exists w', raw1394_write n a [d] w = Some (0, w')
    /\ forall n' a', csr w' n' a' = if (n' =? n) && (a' =? a) then d else csr w n' a';
  csr_read w n a : exists w', raw1394_read n a 4 w = Some ((0, [csr w n a]), w') /\ forall n' a', csr w' n' a' = csr w n' a';
}.

(** A node number is never the invalid one once the bus number is added. *)
Lemma with_bus_valid n : 0 <= n -> (0xffc0 .| n =? INVALID_NODE_ID) = false.
Proof.
  intros Hn. apply Z.eqb_neq. intros E. apply (f_equal (fun z => Z.testbit z 15)) in E. by rewrite Z.lor_spec in E.
Qed.

Section registers.
Context {W : Type} `{CsrBus W} (big_endian : bool).

Lemma writeNoLock_csr n a d (s : BusService W) : (n =? INVALID_NODE_ID) = false -> exists s',
  writeNoLock n a [d] s = Some (true, s')
  /\ forall n' a', csr (bs_world s') n' a' = if (n' =? n) && (a' =? a) then d else csr (bs_world s) n' a'.
Proof.
  intros Hn. unfold writeNoLock. rewrite Hn. destruct (csr_write (bs_world s) n a d) as (w & R & F).
  run_step with (raw_Some _ s _ _ R). by eexists.
Qed.

Lemma readNoLock_csr n a (s : BusService W) : (n =? INVALID_NODE_ID) = false -> exists s',
  readNoLock n a 1 s = Some (Some [csr (bs_world s) n a], s')
  /\ forall n' a', csr (bs_world s') n' a' = csr (bs_world s) n' a'.
Proof.
  intros Hn. unfold readNoLock. rewrite Hn. destruct (csr_read (bs_world s) n a) as (w & R & F).
  run_step with (raw_Some _ s _ _ R). by eexists.
Qed.

Lemma CondSwap32_roundtrip x : 0 <= x < 2 ^ 32 -> CondSwapFromBus32 big_endian (CondSwapToBus32 big_endian x) = x.
Proof. intros Hx. unfold CondSwapFromBus32, CondSwapToBus32. destruct big_endian; [done|]. by apply ByteSwap32_involutive. Qed.

(** Setting the split timeout of a node and reading it back gives the timeout rounded down to whole
    cycles of 125 microseconds, of which the seconds are taken modulo eight: on either byte order, and with every other
    register left as it was. *)
Theorem split_timeout_roundtrip node timeout (s : BusService W) : 0 <= node -> 0 <= timeout < 2 ^ 32 ->
  exists s', (setSplitTimeoutUsecs big_endian node timeout ≫= fun ok => getSplitTimeoutUsecs big_endian node ≫= fun t => mret (ok, t)) s
    = Some ((true, timeout / 1000000 mod 8 * 1000000 + timeout mod 1000000 / 125 * 125), s')
  /\ forall n a, csr (bs_world s') n a = csr (bs_world s) n a
     \/ (n = 0xffc0 .| node /\ (a = CSR_REGISTER_BASE + CSR_SPLIT_TIMEOUT_HI \/ a = CSR_REGISTER_BASE + CSR_SPLIT_TIMEOUT_LO)).
Proof.
  intros Hn Ht. pose proof (with_bus_valid node Hn) as V. unfold setSplitTimeoutUsecs, getSplitTimeoutUsecs.
  set (hi := CSR_REGISTER_BASE + CSR_SPLIT_TIMEOUT_HI). set (lo := CSR_REGISTER_BASE + CSR_SPLIT_TIMEOUT_LO).
  set (n := 0xffc0 .| node) in *. change 7 with (2 ^ 3 - 1). change 0x1FFF with (2 ^ 13 - 1). rewrite !land_mask_mod by done.
  rewrite Z.shiftl_mul_pow2 by done. rewrite (Z.mod_small (_ / 125)) by zlia.
  rewrite (wrapU_small 32) by (change (2 ^ 19) with 524288; change (2 ^ 32) with 4294967296; zlia).
  set (H' := CondSwapToBus32 big_endian (timeout / 1000000 mod 2 ^ 3)).
  set (L' := CondSwapToBus32 big_endian (timeout mod 1000000 / 125 * 2 ^ 19)).
  destruct (writeNoLock_csr n hi H' s V) as (s1 & E1 & F1). destruct (writeNoLock_csr n lo L' s1 V) as (s2 & E2 & F2).
  destruct (readNoLock_csr n hi s2 V) as (s3 & E3 & F3). destruct (readNoLock_csr n lo s3 V) as (s4 & E4 & F4).
  exists s4. split.
  - erewrite run_bind_Some; [|run_step with E1; exact E2]. erewrite run_bind_Some; [reflexivity|].
    run_step with E3. cbn beta iota. run_step with E4. cbn beta iota zeta. cbn [nth]. rewrite F3, !F2, F1, !Z.eqb_refl. cbn [andb].
    change (hi =? lo) with false. cbn iota. unfold H', L'. rewrite !CondSwap32_roundtrip
      by (change (2 ^ 19) with 524288; change (2 ^ 32) with 4294967296; change (2 ^ 3) with 8; zlia).
    rewrite land_mask_mod, Z.mod_mod, Z.shiftr_div_pow2, Z.div_mul by done. change (2 ^ 3) with 8.
    rewrite (wrapU_small 32), (wrapS_small 32) by (done || (change (2 ^ 32) with 4294967296; change (2 ^ (32 - 1)) with 2147483648; zlia)).
    reflexivity.
  - intros n' a'. rewrite F4, F3, F2, F1. destruct (Z.eqb_spec n' n), (Z.eqb_spec a' hi), (Z.eqb_spec a' lo); cbn [andb]; auto.
Qed.

(** Eight seconds cannot be set: the node waits for no time at all. *)
Lemma split_timeout_wraps node (s : BusService W) : 0 <= node ->
  exists s', setSplitTimeoutUsecs big_endian node 8000000 s = Some (true, s')
  /\ csr (bs_world s') (0xffc0 .| node) (CSR_REGISTER_BASE + CSR_SPLIT_TIMEOUT_HI) = 0
  /\ csr (bs_world s') (0xffc0 .| node) (CSR_REGISTER_BASE + CSR_SPLIT_TIMEOUT_LO) = 0.
Proof.
  intros Hn. pose proof (with_bus_valid node Hn) as V. unfold setSplitTimeoutUsecs.
  destruct (writeNoLock_csr _ (CSR_REGISTER_BASE + CSR_SPLIT_TIMEOUT_HI) (CondSwapToBus32 big_endian 0) s V) as (s1 & E1 & F1).
  destruct (writeNoLock_csr _ (CSR_REGISTER_BASE + CSR_SPLIT_TIMEOUT_LO) (CondSwapToBus32 big_endian 0) s1 V) as (s2 & E2 & F2).
  exists s2. split; [run_step with E1; exact E2|]. rewrite !F2, F1, !Z.eqb_refl. by destruct big_endian.
Qed.
End registers.

(** A connection on channel 63 is established and then forgotten: it is neither entered in the table nor
    taken down. *)
Lemma cmp_channel_63_lost {W} `{RawBus W} (skip : bool) xn xp rn rp xp' rp' b (s : BusService W) w :
  xn <> INVALID_NODE_ID -> rn <> INVALID_NODE_ID ->
  iec61883_cmp_connect (xn .| 0xffc0) xp (rn .| 0xffc0) rp (if skip then 0 else 1) (bs_world s) = Some ((63, xp', rp', b), w) ->
  allocateIsoChannelCMP skip xn xp rn rp s = Some (-1, mkBus (bs_channels s) (bs_armHandlers s) (bs_busResetHandlers s) w).
Proof.
  intros Hx Hr R. unfold allocateIsoChannelCMP. rewrite !(proj2 (Z.eqb_neq _ _)) by done.
  by run_step with (raw_Some _ s _ _ R).
Qed.

(** ** A resource manager *)

Module IrmBench.

(** CHANNELS_AVAILABLE as a mask, BANDWIDTH_AVAILABLE, the registers of the nodes, and the number of requests to release
    that were refused; [stuck] is a channel that the resource manager never gives back. *)
Record Irm := mkIrm { channels_available : Z; bandwidth_available : Z; registers : gmap (Z * Z) Z; stuck : Z; refused : nat }.

Definition with_channels (m : Z) (w : Irm) : Irm := mkIrm m (bandwidth_available w) (registers w) (stuck w) (refused w).
Definition with_bandwidth (b : Z) (w : Irm) : Irm := mkIrm (channels_available w) b (registers w) (stuck w) (refused w).
Definition refuse (w : Irm) : Irm :=
  mkIrm (channels_available w) (bandwidth_available w) (registers w) (stuck w) (S (refused w)).

Definition channel_modify (c : Z) (alloc : bool) : run Irm Z := fun w =>
  let m := channels_available w in
  if alloc then if Z.testbit m c then Some (0, with_channels (Z.clearbit m c) w) else Some (-1, w)
  else if Z.testbit m c || (c <? 0) || (c =? stuck w) then Some (-1, refuse w) else Some (0, with_channels (Z.setbit m c) w).

Definition bandwidth_modify (b : Z) (alloc : bool) : run Irm Z := fun w =>
  let a := bandwidth_available w in
  if alloc then if b <=? a then Some (0, with_bandwidth (a - b) w) else Some (-1, w)
  else if a + b <=? BANDWIDTH_AVAILABLE_INITIAL then Some (0, with_bandwidth (a + b) w) else Some (-1, refuse w).

(** The first free channel, with 100 units of bandwidth. *)
Definition connect (b : Z) : run Irm (Z * Z * Z * Z) := fun w =>
  match List.find (Z.testbit (channels_available w)) (seqZ 0 63) with
  | Some c => if b * 100 <=? bandwidth_available w
              then Some ((c, 0, 0, b * 100),
                         with_bandwidth (bandwidth_available w - b * 100) (with_channels (Z.clearbit (channels_available w) c) w))
              else Some ((-1, 0, 0, 0), w)
  | None => Some ((-1, 0, 0, 0), w)
  end.

#[global] Instance raw_bus : RawBus Irm := {
  raw1394_channel_modify := channel_modify;
  raw1394_bandwidth_modify := bandwidth_modify;
  raw1394_read n a len := fun w => Some ((0, [default 0 (registers w !! (n, a))]), w);
  raw1394_write n a d := fun w =>
    Some (0, mkIrm (channels_available w) (bandwidth_available w) (<[(n, a) := nth 0 d 0]> (registers w)) (stuck w) (refused w));
  raw1394_lock64 n a c s := fun w => Some ((-1, 0), w);
  raw1394_arm_register a l := fun w => Some (0, w);
  raw1394_arm_unregister a := fun w => Some (0, w);
  iec61883_cmp_connect xn xp rn rp b := connect (Z.max 0 b);
  iec61883_cmp_disconnect xn xp rn rp c b := fun w =>
    '(_, w) ← channel_modify c MODIFY_FREE w; bandwidth_modify b MODIFY_FREE w;
  raw1394_get_local_id := fun w => Some (0xffc0, w);
  raw1394_get_irm_id := fun w => Some (0xffc0, w);
  bus_generation := fun w => Some (1, w);
}.

#[global, refine] Instance csr_bus : CsrBus Irm := {
  csr w n a := default 0 (registers w !! (n, a));
}.
Proof.
  - intros w n a d. eexists. split; [reflexivity|]. intros n' a'. cbn [registers nth].
    destruct (Z.eqb_spec n' n) as [->|], (Z.eqb_spec a' a) as [->|]; cbn [andb];
      [by rewrite lookup_insert_eq|rewrite lookup_insert_ne by congruence; done..].
  - intros w n a. by exists w.
Defined.

#[global, refine] Instance irm_bus : IrmBus Irm := {
  irm_free w c := Z.testbit (channels_available w) c;
  irm_bandwidth w := bandwidth_available w;
  irm_mishaps w := refused w;
}.
Proof.
  - intros w c a. cbn [raw1394_channel_modify raw_bus]. unfold channel_modify. repeat case_match; eexists _, _; (split; [reflexivity|cbn; lia]).
  - intros w c a. cbn [raw1394_bandwidth_modify raw_bus]. unfold bandwidth_modify. repeat case_match; eexists _, _; (split; [reflexivity|cbn; lia]).
  - intros w xn xp rn rp b. cbn [iec61883_cmp_connect raw_bus]. unfold connect. repeat case_match; eexists _, _; (split; [reflexivity|cbn; lia]).
  - intros w xn xp rn rp c b. cbn [iec61883_cmp_disconnect raw_bus]. unfold channel_modify, bandwidth_modify, MODIFY_FREE.
    destruct (Z.testbit _ c || _ || _); cbn -[Z.setbit Z.leb]; case_match; eexists _, _; (split; [reflexivity|cbn; lia]).
  - intros w c r w' Hc. cbn [raw1394_channel_modify raw_bus]. unfold channel_modify, MODIFY_ALLOC.
    destruct (Z.testbit (channels_available w) c) eqn:T; intros [= <- <-] _; (split; [done|]); [left|by right].
    split_and!; [done..|]. intros i. cbn [channels_available with_channels]. by rewrite Z.clearbit_eqb, Z.eqb_sym.
  - intros w c r w' Hc T. cbn [raw1394_channel_modify raw_bus]. unfold channel_modify, MODIFY_FREE. rewrite T, (proj2 (Z.ltb_ge c 0)) by lia. cbn [orb].
    destruct (c =? stuck w); intros [= <- <-]; cbn; [lia|]. intros _. split; [done|]. intros i. by rewrite Z.setbit_eqb, Z.eqb_sym, orb_comm by lia.
  - intros w b r w' Hb. cbn [raw1394_bandwidth_modify raw_bus]. unfold bandwidth_modify, MODIFY_ALLOC.
    destruct (Z.leb_spec b (bandwidth_available w)); intros [= <- <-] _; (split; [done|]); [by left|by right].
  - intros w b r w' Hb Hle. cbn [raw1394_bandwidth_modify raw_bus]. unfold bandwidth_modify, MODIFY_FREE.
    rewrite (proj2 (Z.leb_le _ _)) by done. by intros [= <- <-] _.
  - intros w xn xp rn rp b c xp' rp' b' w'. cbn [iec61883_cmp_connect raw_bus]. unfold connect.
    destruct (List.find _ _) as [k|] eqn:Fc; [|intros [= <- <- <- <- <-] _; by left].
    destruct (Z.leb_spec (Z.max 0 b * 100) (bandwidth_available w)); [|intros [= <- <- <- <- <-] _; by left].
    intros [= <- <- <- <- <-] _. right. apply List.find_some in Fc as (Hc & T).
    apply list_elem_of_In, elem_of_seqZ in Hc. cbn [bandwidth_available channels_available with_bandwidth with_channels].
    split_and!; try done; try lia. intros i. by rewrite Z.clearbit_eqb, Z.eqb_sym.
  - intros w xn xp rn rp c b r w' Hc T Hb Hle. cbn [iec61883_cmp_disconnect raw_bus]. unfold channel_modify, bandwidth_modify, MODIFY_FREE.
    rewrite T, (proj2 (Z.ltb_ge c 0)) by lia. cbn [orb].
    destruct (c =? stuck w); cbn -[Z.setbit Z.leb]; rewrite (proj2 (Z.leb_le _ _)) by done; intros [= <- <-]; cbn -[Z.setbit]; [lia|].
    intros _. split; [done|]. intros i. by rewrite Z.setbit_eqb, Z.eqb_sym, orb_comm by lia.
Defined.

(** Channels 0 and 1 belong to others; channel 5 is never given back. *)
Definition irm : Irm := mkIrm (2 ^ 64 - 4) 4000 ∅ 5 0.

Definition history : list channel_op :=
  [OpAllocate 500; OpAllocateFixed 1 10; OpAllocateCMP 0 0 1 0; OpAllocateFixed 63 10; OpFree 2; OpAllocate 5000; OpFree 2; OpFree 3].

(** A release that fails on the bus. *)
Definition history_stuck : list channel_op := [OpAllocateFixed 5 10; OpFree 5; OpAllocateFixed 5 10].

End IrmBench.

Example irm_history : exists s, run_ops false IrmBench.history (BusService_new IrmBench.irm) = Some ([2; -1; 3; -1; 1; -1; 0; 1], s)
  /\ irm_bandwidth (bs_world s) = 4000 /\ irm_mishaps (bs_world s) = 0%nat.
Proof. eexists. split; [vm_compute; reflexivity|]. split; reflexivity. Qed.

(** The service reports success for the failed release and no longer knows of the channel, which stays lost. *)
Example irm_stuck : exists s, run_ops false IrmBench.history_stuck (BusService_new IrmBench.irm) = Some ([5; 1; -1], s)
  /\ irm_free (bs_world s) 5 = false /\ in_use (channel_info 5 s) = false /\ irm_mishaps (bs_world s) = 1%nat.
Proof. eexists. split; [vm_compute; reflexivity|]. split_and!; reflexivity. Qed.


Lemma split_timeout_roundtrip_witness : exists s',
  (setSplitTimeoutUsecs false 5 1000200 ≫= fun ok => getSplitTimeoutUsecs false 5 ≫= fun t => mret (ok, t)) (BusService_new IrmBench.irm)
  = Some ((true, 1000125), s').
Proof.
  destruct (split_timeout_roundtrip false 5 1000200 (BusService_new IrmBench.irm)) as (s' & E & _); [lia|lia|].
  exists s'. exact E.
Defined.
