(* ===== verification/AvcCommands.v ===== *)
(** * AV/C commands

    Model of [src/libavc/general/avc_generic.cpp] (the base class [AVCCommand] with [fire]) and
    of the command classes of [avc_plug_info.cpp], [avc_signal_format.cpp],
    [avc_unit_info.cpp], [avc_subunit_info.cpp], [avc_connect.cpp],
    [avc_vendor_dependent_cmd.cpp] and [ccm/avc_signal_source.cpp].

    A [deserialize] method takes the object before the call and returns the result flag and
    the object after it, so a read that fails leaves the field at its old value.  [uninit]
    is the value an uninitialised local byte happens to have.  The class [AVCCmd] states what
    [fire] uses of a command class and [AVCCmdSpec] what a command class promises. *)
From S2P Require Import Prelude ByteSwap CmdSerialize Fcp.

(** ** The base class *)

Definition eR_Unknown : Z := 0xff.
Definition eR_NotImplemented : Z := 0x08.
Definition eR_Accepted : Z := 0x09.
Definition eR_Rejected : Z := 0x0A.
Definition eR_Implemented : Z := 0x0C.

Definition eCT_Control : Z := 0x00.
Definition eCT_Status : Z := 0x01.
Definition eCT_SpecificInquiry : Z := 0x02.
Definition eCT_Unknown : Z := 0xff.

Definition eST_Audio : Z := 0x01.
Definition eST_Music : Z := 0x0C.
Definition eST_Reserved : Z := 0x1D.
Definition eST_Unit : Z := 0x1F.

Record AVCCommand := mkAVC {
  m_nodeId : Z;
  m_ctype : Z;
  m_subunit : Z;
  m_opcode : Z;
  m_eResponse : Z;
  m_commandType : Z;
}.

(** The constructor does not set [m_commandType]. *)
Definition AVCCommand_new (uninit opcode : Z) : AVCCommand :=
  mkAVC 0 eCT_Unknown 0xff opcode eR_Unknown uninit.

Definition setCommandType (commandType : Z) (c : AVCCommand) : AVCCommand :=
  mkAVC (m_nodeId c) (u8 commandType) (m_subunit c) (m_opcode c) (m_eResponse c) commandType.
Definition getCommandType (c : AVCCommand) : Z := m_commandType c.
Definition getResponse (c : AVCCommand) : Z := m_eResponse c.

Definition setSubunitType (subunitType : Z) (c : AVCCommand) : AVCCommand :=
  mkAVC (m_nodeId c) (m_ctype c) (u8 ((u8 subunitType << 3) .| (m_subunit c .& 0x7)))
    (m_opcode c) (m_eResponse c) (m_commandType c).
Definition setNodeId (nodeId : Z) (c : AVCCommand) : AVCCommand :=
  mkAVC nodeId (m_ctype c) (m_subunit c) (m_opcode c) (m_eResponse c) (m_commandType c).
Definition setSubunitId (subunitId : Z) (c : AVCCommand) : AVCCommand :=
  mkAVC (m_nodeId c) (m_ctype c) ((subunitId .& 0x7) .| (m_subunit c .& 0xf8))
    (m_opcode c) (m_eResponse c) (m_commandType c).
Definition getSubunitType (c : AVCCommand) : Z := m_subunit c >> 3.
Definition getSubunitId (c : AVCCommand) : Z := m_subunit c .& 0x7.

Definition set_response (r : Z) (c : AVCCommand) : AVCCommand :=
  mkAVC (m_nodeId c) (m_ctype c) (m_subunit c) (m_opcode c) r (m_commandType c).

Section base.
Context {SE DE : Type} `{IOSSerialize SE, IISDeserialize DE}.

Definition AVCCommand_serialize (c : AVCCommand) : st SE bool :=
  write_byte (m_ctype c) ;;
  write_byte (m_subunit c) ;;
  write_byte (m_opcode c) ;;
  mret true.

Definition AVCCommand_deserialize (c : AVCCommand) : st DE (bool * AVCCommand) :=
  '(_, ctype) ← read_byte (m_ctype c);
  '(_, subunit) ← read_byte (m_subunit c);
  '(_, opcode) ← read_byte (m_opcode c);
  mret (true, mkAVC (m_nodeId c) ctype subunit opcode (m_eResponse c) (m_commandType c)).
End base.

(** A [serialize] method that does not change the object. *)
Definition unchanged {S T} (c : T) (m : st S bool) : st S (bool * T) := ok ← m; mret (ok, c).

(** What [fire] uses of a command class.  Both methods may change the object. *)
Class AVCCmd (T : Type) := {
  cmd_base : T -> AVCCommand;
  cmd_set_base : AVCCommand -> T -> T;
  cmd_serialize : forall {SE} `{IOSSerialize SE}, T -> st SE (bool * T);
  cmd_deserialize : forall {DE} `{IISDeserialize DE}, Z -> T -> st DE (bool * T);
}.

Definition fcpFrameMaxLength : Z := 512.

(** [switch (m_eResponse)] *)
Definition expected_response (r : Z) : bool :=
  (r =? eR_Accepted) || (r =? eR_Implemented) || (r =? eR_Rejected) || (r =? eR_NotImplemented).

(** A debug build, and the debug level of the class at least [DEBUG_LEVEL_VERY_VERBOSE].  A flag alone stands for a
    lower level. *)
Record debug_settings := mkDebug { dbg_build : bool; very_verbose : bool }.
Definition less_verbose (DEBUG : bool) : debug_settings := mkDebug DEBUG false.
Coercion less_verbose : bool >-> debug_settings.

Section fire.
Context (big_endian : bool) (DEBUG : debug_settings) (uninit : Z) (bus : nat -> Z -> list Z -> fcp_try).
Context {T : Type} `{AVCCmd T}.

(** [StringSerializer se_dbg; serialize( se_dbg )]: the result is dropped, but the method may change the object. *)
Definition serialize_dbg (c : T) : T := let '((_, c), _) := @cmd_serialize T _ _ string_serialize c 0 in c.

(** The object after the messages on the request. *)
Definition show_request (c : T) : T := if very_verbose DEBUG then serialize_dbg c else c.

Definition fire (c : T) : st Ieee1394Service (bool * T) := fun service =>
  let m_fcpFrame := replicate (Z.to_nat fcpFrameMaxLength) 0 in
  let '((ok, c), se) := @cmd_serialize T _ _ (buffer_serialize big_endian) c
                          (BufferSerialize m_fcpFrame fcpFrameMaxLength) in
  if negb ok then ((false, c), service) else
  let fcpFrameSize := u16 (getNrOfProducesBytes se) in
  let c := show_request c in
  let '(resp, service) :=
    transactionBlock big_endian (dbg_build DEBUG) bus (m_nodeId (cmd_base c)) (mem se) ((fcpFrameSize + 3) / 4) service in
  match resp with
  | Some (buf, resp_len) =>
      let resp_len := u32 (resp_len * 4) in
      let eResponse := nth 0 buf 0 in
      let c := cmd_set_base (set_response eResponse (cmd_base c)) c in
      let '((result, c), _) := @cmd_deserialize T _ _ (buffer_deserialize big_endian) uninit c
                                 (BufferDeserialize buf resp_len) in
      let '(result, c) := if expected_response eResponse then (result, serialize_dbg c) else (false, c) in
      let '(_, service) := transactionBlockClose service in
      ((result, c), service)
  | None =>
      let '(_, service) := transactionBlockClose service in
      ((false, c), service)
  end.
End fire.

(** ** PLUG INFO *)

Definition AVC1394_CMD_PLUG_INFO : Z := 0x02.
Definition eSF_SerialBusIsochronousAndExternalPlug : Z := 0x00.
Definition eSF_SerialBusAsynchonousPlug : Z := 0x01.

Record PlugInfoCmd := mkPlugInfo {
  pi_base : AVCCommand;
  m_serialBusIsochronousInputPlugs : Z;
  m_serialBusIsochronousOutputPlugs : Z;
  m_externalInputPlugs : Z;
  m_externalOutputPlugs : Z;
  m_serialBusAsynchronousInputPlugs : Z;
  m_serialBusAsynchronousOuputPlugs : Z;
  m_destinationPlugs : Z;
  m_sourcePlugs : Z;
  pi_subFunction : Z;
}.

Definition PlugInfoCmd_new (uninit eSubFunction : Z) : PlugInfoCmd :=
  mkPlugInfo (AVCCommand_new uninit AVC1394_CMD_PLUG_INFO)
    0xff 0xff 0xff 0xff 0xff 0xff 0xff 0xff (u8 eSubFunction).

Definition PlugInfoCmd_clear (c : PlugInfoCmd) : PlugInfoCmd :=
  mkPlugInfo (pi_base c) 0xff 0xff 0xff 0xff 0xff 0xff 0xff 0xff (pi_subFunction c).

Definition PlugInfoCmd_setSubFunction (f : Z) (c : PlugInfoCmd) : PlugInfoCmd :=
  mkPlugInfo (pi_base c) (m_serialBusIsochronousInputPlugs c) (m_serialBusIsochronousOutputPlugs c)
    (m_externalInputPlugs c) (m_externalOutputPlugs c) (m_serialBusAsynchronousInputPlugs c)
    (m_serialBusAsynchronousOuputPlugs c) (m_destinationPlugs c) (m_sourcePlugs c) (u8 f).

(** ** INPUT and OUTPUT PLUG SIGNAL FORMAT

    The two classes have the same members and the same code and differ in the opcode. *)

Definition AVC1394_CMD_INPUT_PLUG_SIGNAL_FORMAT : Z := 0x19.
Definition AVC1394_CMD_OUTPUT_PLUG_SIGNAL_FORMAT : Z := 0x18.

Record SignalFormatCmd := mkSignalFormat {
  sf_base : AVCCommand;
  m_plug : Z;
  m_eoh : Z;
  m_form : Z;
  m_fmt : Z;
  m_fdf0 : Z;
  m_fdf1 : Z;
  m_fdf2 : Z;
}.

Definition OutputPlugSignalFormatCmd_new (uninit : Z) : SignalFormatCmd :=
  mkSignalFormat (AVCCommand_new uninit AVC1394_CMD_OUTPUT_PLUG_SIGNAL_FORMAT) 0 1 0 0 0xFF 0xFF 0xFF.
Definition InputPlugSignalFormatCmd_new (uninit : Z) : SignalFormatCmd :=
  mkSignalFormat (AVCCommand_new uninit AVC1394_CMD_INPUT_PLUG_SIGNAL_FORMAT) 0 1 0 0 0xFF 0xFF 0xFF.

(** ** UNIT INFO and SUBUNIT INFO *)

Definition AVC1394_CMD_UNIT_INFO : Z := 0x30.
Definition AVC1394_CMD_SUBUNIT_INFO : Z := 0x31.

Record UnitInfoCmd := mkUnitInfo {
  ui_base : AVCCommand;
  ui_reserved : Z;
  m_unit_type : Z;
  m_unit : Z;
  m_company_id : Z;
}.

Definition UnitInfoCmd_new (uninit : Z) : UnitInfoCmd :=
  mkUnitInfo (AVCCommand_new uninit AVC1394_CMD_UNIT_INFO) 0xff 0xff 0xff 0xffffffff.

Record TableEntry := mkEntry { m_subunit_type : Z; m_max_subunit_id : Z }.

(** [m_table] has [eMaxSubunitsPerPage] = 4 entries. *)
Record SubUnitInfoCmd := mkSubUnitInfo {
  su_base : AVCCommand;
  m_page : Z;
  m_extension_code : Z;
  m_table : list TableEntry;
  m_nrOfValidEntries : Z;
}.

Definition SubUnitInfoCmd_clear (c : SubUnitInfoCmd) : SubUnitInfoCmd :=
  mkSubUnitInfo (su_base c) 0xff 0x7 (replicate 4 (mkEntry 0xff 0xff)) 0.

Definition SubUnitInfoCmd_new (uninit : Z) : SubUnitInfoCmd :=
  SubUnitInfoCmd_clear (mkSubUnitInfo (AVCCommand_new uninit AVC1394_CMD_SUBUNIT_INFO)
    uninit uninit (replicate 4 (mkEntry uninit uninit)) uninit).

(** ** CONNECT and VENDOR DEPENDENT *)

Definition AVC1394_CMD_CONNECT : Z := 0x24.
Definition AVC1394_CMD_VENDOR_DEPENDENT : Z := 0x00.

Record ConnectCmd := mkConnect { co_base : AVCCommand }.
Definition ConnectCmd_new (uninit : Z) : ConnectCmd := mkConnect (AVCCommand_new uninit AVC1394_CMD_CONNECT).

Record VendorDependentCmd := mkVendor { vd_base : AVCCommand; m_companyId : Z }.
Definition VendorDependentCmd_new (uninit : Z) : VendorDependentCmd :=
  mkVendor (AVCCommand_new uninit AVC1394_CMD_VENDOR_DEPENDENT) uninit.

(** ** SIGNAL SOURCE *)

Definition AVC1394_CMD_SIGNAL_SOURCE : Z := 0x1A.
Definition AVC1394_SUBUNIT_ID_RESERVED : Z := 0x06.
Definition ePI_Invalid : Z := 0xfe.

(** The two subclasses of [SignalAddress]. *)
Inductive SignalAddress :=
  | SignalUnitAddress (plugId : Z)
  | SignalSubunitAddress (subunitType subunitId plugId : Z).

Definition SignalUnitAddress_new : SignalAddress := SignalUnitAddress ePI_Invalid.
Definition SignalSubunitAddress_new : SignalAddress :=
  SignalSubunitAddress eST_Reserved AVC1394_SUBUNIT_ID_RESERVED ePI_Invalid.

Record SignalSourceCmd := mkSignalSource {
  ss_base : AVCCommand;
  m_resultStatus : Z;
  m_outputStatus : Z;
  m_conv : Z;
  m_signalStatus : Z;
  m_signalSource : option SignalAddress;
  m_signalDestination : option SignalAddress;
}.

Definition SignalSourceCmd_new (uninit : Z) : SignalSourceCmd :=
  mkSignalSource (AVCCommand_new uninit AVC1394_CMD_SIGNAL_SOURCE) 0xff 0xff 0xff 0xff None None.

(** [clone] makes an equal object; the previous address is deleted. *)
Definition setSignalSource (a : SignalAddress) (c : SignalSourceCmd) : SignalSourceCmd :=
  mkSignalSource (ss_base c) (m_resultStatus c) (m_outputStatus c) (m_conv c) (m_signalStatus c)
    (Some a) (m_signalDestination c).
Definition setSignalDestination (a : SignalAddress) (c : SignalSourceCmd) : SignalSourceCmd :=
  mkSignalSource (ss_base c) (m_resultStatus c) (m_outputStatus c) (m_conv c) (m_signalStatus c)
    (m_signalSource c) (Some a).

(** ** The serialize methods *)

Section serialize.
Context {SE : Type} `{IOSSerialize SE}.

Definition PlugInfoCmd_serialize (c : PlugInfoCmd) : st SE bool :=
  let reserved := 0xff in
  AVCCommand_serialize (pi_base c) ;;
  write_byte (pi_subFunction c) ;;
  if getSubunitType (pi_base c) =? eST_Unit then
    if pi_subFunction c =? eSF_SerialBusIsochronousAndExternalPlug then
      write_byte (m_serialBusIsochronousInputPlugs c) ;;
      write_byte (m_serialBusIsochronousOutputPlugs c) ;;
      write_byte (m_externalInputPlugs c) ;;
      write_byte (m_externalOutputPlugs c) ;;
      mret true
    else if pi_subFunction c =? eSF_SerialBusAsynchonousPlug then
      write_byte (m_serialBusAsynchronousInputPlugs c) ;;
      write_byte (m_serialBusAsynchronousOuputPlugs c) ;;
      write_byte reserved ;;
      write_byte reserved ;;
      mret true
    else mret false
  else
    write_byte (m_destinationPlugs c) ;;
    write_byte (m_sourcePlugs c) ;;
    write_byte reserved ;;
    write_byte reserved ;;
    mret true.

(** The operand with the bits eoh, form and fmt. *)
Definition signal_format_operand (c : SignalFormatCmd) : Z :=
  let tmp := u8 ((m_eoh c .& 0x01) << 7) in
  let tmp := tmp .| ((m_form c .& 0x01) << 6) in
  tmp .| (m_fmt c .& 0x3f).

Definition SignalFormatCmd_serialize (c : SignalFormatCmd) : st SE bool :=
  all_of [AVCCommand_serialize (sf_base c);
          write_byte (m_plug c);
          write_byte (signal_format_operand c);
          write_byte (m_fdf0 c);
          write_byte (m_fdf1 c);
          write_byte (m_fdf2 c)].

Definition UnitInfoCmd_serialize (c : UnitInfoCmd) : st SE bool :=
  AVCCommand_serialize (ui_base c) ;;
  write_byte (ui_reserved c) ;;
  write_byte (u8 ((m_unit_type c << 3) .| (m_unit c .& 0x7))) ;;
  write_byte ((m_company_id c >> 16) .& 0xff) ;;
  write_byte ((m_company_id c >> 8) .& 0xff) ;;
  write_byte ((m_company_id c >> 0) .& 0xff) ;;
  mret true.

Definition TableEntry_operand (e : TableEntry) : Z :=
  u8 ((m_subunit_type e << 3) .| (m_max_subunit_id e .& 0x7)).

Definition SubUnitInfoCmd_serialize (c : SubUnitInfoCmd) : st SE bool :=
  AVCCommand_serialize (su_base c) ;;
  write_byte (((m_page c .& 0x7) << 4) .| (m_extension_code c .& 0x7)) ;;
  each ((fun e => write_byte (TableEntry_operand e)) <$> m_table c) ;;
  mret true.

Definition ConnectCmd_serialize (c : ConnectCmd) : st SE bool :=
  all_of [AVCCommand_serialize (co_base c)].

Definition VendorDependentCmd_serialize (c : VendorDependentCmd) : st SE bool :=
  all_of [AVCCommand_serialize (vd_base c);
          write_byte ((m_companyId c >> 16) .& 0xFF);
          write_byte ((m_companyId c >> 8) .& 0xFF);
          write_byte (m_companyId c .& 0xFF)].

Definition SignalAddress_serialize (a : SignalAddress) : st SE bool :=
  match a with
  | SignalUnitAddress plugId =>
      write_byte 0xff ;;
      write_byte plugId ;;
      mret true
  | SignalSubunitAddress subunitType subunitId plugId =>
      write_byte (u8 ((subunitType << 3) .| (subunitId .& 0x7))) ;;
      write_byte plugId ;;
      mret true
  end.

Definition SignalAddress_serialize_opt (a : option SignalAddress) : st SE bool :=
  match a with
  | Some a => SignalAddress_serialize a
  | None => write_byte 0xff ;; write_byte 0xff ;; mret true
  end.

Definition SignalSourceCmd_serialize (c : SignalSourceCmd) : st SE bool :=
  AVCCommand_serialize (ss_base c) ;;
  let ct := getCommandType (ss_base c) in
  ok ← (if ct =? eCT_Status then
          write_byte (u8 ((m_outputStatus c << 5) .| ((m_conv c .& 0x1) << 4) .| (m_signalStatus c .& 0xf))) ;;
          mret true
        else if (ct =? eCT_Control) || (ct =? eCT_SpecificInquiry) then
          write_byte (m_resultStatus c .& 0xf) ;; mret true
        else mret false);
  if negb ok then mret false else
  let sut := getSubunitType (ss_base c) in
  if (sut =? eST_Unit) || (sut =? eST_Audio) || (sut =? eST_Music) then
    SignalAddress_serialize_opt (m_signalSource c) ;;
    SignalAddress_serialize_opt (m_signalDestination c) ;;
    mret true
  else mret false.
End serialize.

(** ** The deserialize methods *)

Section deserialize.
Context {DE : Type} `{IISDeserialize DE} (uninit : Z).

Definition PlugInfoCmd_deserialize (c : PlugInfoCmd) : st DE (bool * PlugInfoCmd) :=
  '(_, b) ← AVCCommand_deserialize (pi_base c);
  '(_, sub) ← read_byte (pi_subFunction c);
  let '(mkPlugInfo _ x1 x2 x3 x4 x5 x6 x7 x8 _) := c in
  if getSubunitType b =? eST_Unit then
    if sub =? eSF_SerialBusIsochronousAndExternalPlug then
      '(_, x1) ← read_byte x1;
      '(_, x2) ← read_byte x2;
      '(_, x3) ← read_byte x3;
      '(_, x4) ← read_byte x4;
      mret (true, mkPlugInfo b x1 x2 x3 x4 x5 x6 x7 x8 sub)
    else if sub =? eSF_SerialBusAsynchonousPlug then
      '(_, x5) ← read_byte x5;
      '(_, x6) ← read_byte x6;
      '(_, reserved) ← read_byte uninit;
      read_byte reserved ;;
      mret (true, mkPlugInfo b x1 x2 x3 x4 x5 x6 x7 x8 sub)
    else mret (false, mkPlugInfo b x1 x2 x3 x4 x5 x6 x7 x8 sub)
  else
    '(_, x7) ← read_byte x7;
    '(_, x8) ← read_byte x8;
    '(_, reserved) ← read_byte uninit;
    read_byte reserved ;;
    mret (true, mkPlugInfo b x1 x2 x3 x4 x5 x6 x7 x8 sub).

Definition SignalFormatCmd_deserialize (c : SignalFormatCmd) : st DE (bool * SignalFormatCmd) :=
  '(r0, b) ← AVCCommand_deserialize (sf_base c);
  '(r1, plug) ← read_byte (m_plug c);
  '(r2, tmp) ← read_byte uninit;
  let eoh := (tmp .& 0x80) >> 7 in
  let form := (tmp .& 0x40) >> 6 in
  let fmt := tmp .& 0x3f in
  '(r3, fdf0) ← read_byte (m_fdf0 c);
  '(r4, fdf1) ← read_byte (m_fdf1 c);
  '(r5, fdf2) ← read_byte (m_fdf2 c);
  mret (r0 && r1 && r2 && r3 && r4 && r5, mkSignalFormat b plug eoh form fmt fdf0 fdf1 fdf2).

Definition UnitInfoCmd_deserialize (c : UnitInfoCmd) : st DE (bool * UnitInfoCmd) :=
  '(_, b) ← AVCCommand_deserialize (ui_base c);
  '(_, reserved) ← read_byte (ui_reserved c);
  '(_, operand) ← read_byte uninit;
  let unit_type := operand >> 3 in
  let unit := operand .& 0x7 in
  '(_, operand) ← read_byte operand;
  let company_id := 0 .| (operand << 16) in
  '(_, operand) ← read_byte operand;
  let company_id := company_id .| (operand << 8) in
  '(_, operand) ← read_byte operand;
  let company_id := company_id .| operand in
  mret (true, mkUnitInfo b reserved unit_type unit company_id).

(** The loop over the table; [operand] is shared by its rounds. *)
Fixpoint read_table (n : nat) (operand : Z) : st DE (list TableEntry * Z) :=
  match n with
  | O => mret ([], 0)
  | S n =>
      '(_, operand) ← read_byte operand;
      '(l, valid) ← read_table n operand;
      mret (mkEntry (operand >> 3) (operand .& 0x7) :: l, if operand =? 0xff then valid else valid + 1)
  end.

Definition SubUnitInfoCmd_deserialize (c : SubUnitInfoCmd) : st DE (bool * SubUnitInfoCmd) :=
  '(_, b) ← AVCCommand_deserialize (su_base c);
  '(_, operand) ← read_byte uninit;
  '(table, valid) ← read_table 4 operand;
  mret (true, mkSubUnitInfo b ((operand >> 4) .& 0x7) (operand .& 0x7) table valid).

Definition ConnectCmd_deserialize (c : ConnectCmd) : st DE (bool * ConnectCmd) :=
  '(r, b) ← AVCCommand_deserialize (co_base c);
  mret (r, mkConnect b).

Definition VendorDependentCmd_deserialize (c : VendorDependentCmd) : st DE (bool * VendorDependentCmd) :=
  '(r0, b) ← AVCCommand_deserialize (vd_base c);
  '(r1, tmp2) ← read_byte uninit;
  '(r2, tmp1) ← read_byte uninit;
  '(r3, tmp0) ← read_byte uninit;
  mret (r0 && r1 && r2 && r3, mkVendor b ((tmp2 << 16) .| (tmp1 << 8) .| tmp0)).

Definition SignalAddress_deserialize (a : SignalAddress) : st DE (bool * SignalAddress) :=
  match a with
  | SignalUnitAddress plugId =>
      read_byte uninit ;;
      '(_, plugId) ← read_byte plugId;
      mret (true, SignalUnitAddress plugId)
  | SignalSubunitAddress _ _ plugId =>
      '(_, operand) ← read_byte uninit;
      '(_, plugId) ← read_byte plugId;
      mret (true, SignalSubunitAddress (operand >> 3) (operand .& 0x7) plugId)
  end.

(** [peek] at the next byte and build the address object it calls for. *)
Definition peek_address (operand : Z) : st DE (Z * SignalAddress) :=
  '(_, operand) ← peek_byte operand;
  '(_, a) ← SignalAddress_deserialize
             (if operand =? 0xff then SignalUnitAddress_new else SignalSubunitAddress_new);
  mret (operand, a).

Definition SignalSourceCmd_deserialize (c : SignalSourceCmd) : st DE (bool * SignalSourceCmd) :=
  '(_, b) ← AVCCommand_deserialize (ss_base c);
  let ct := getCommandType b in
  '(ok, res, out, conv, sig) ←
    (if ct =? eCT_Status then
       '(_, operand) ← read_byte uninit;
       mret (true, m_resultStatus c, operand >> 5, (operand .& 0x10) >> 4, operand .& 0xf)
     else if (ct =? eCT_Control) || (ct =? eCT_SpecificInquiry) then
       '(_, operand) ← read_byte uninit;
       mret (true, operand .& 0xf, m_outputStatus c, m_conv c, m_signalStatus c)
     else mret (false, m_resultStatus c, m_outputStatus c, m_conv c, m_signalStatus c));
  if negb ok then mret (false, mkSignalSource b res out conv sig None None) else
  let sut := getSubunitType b in
  if (sut =? eST_Unit) || (sut =? eST_Audio) || (sut =? eST_Music) then
    '(operand, src) ← peek_address uninit;
    '(_, dst) ← peek_address operand;
    mret (true, mkSignalSource b res out conv sig (Some src) (Some dst))
  else mret (false, mkSignalSource b res out conv sig None None).
End deserialize.

#[export] Instance PlugInfoCmd_cmd : AVCCmd PlugInfoCmd := {
  cmd_base := pi_base;
  cmd_set_base b c := mkPlugInfo b (m_serialBusIsochronousInputPlugs c) (m_serialBusIsochronousOutputPlugs c)
    (m_externalInputPlugs c) (m_externalOutputPlugs c) (m_serialBusAsynchronousInputPlugs c)
    (m_serialBusAsynchronousOuputPlugs c) (m_destinationPlugs c) (m_sourcePlugs c) (pi_subFunction c);
  cmd_serialize _ _ c := unchanged c (PlugInfoCmd_serialize c);
  cmd_deserialize _ _ := PlugInfoCmd_deserialize;
}.

#[export] Instance SignalFormatCmd_cmd : AVCCmd SignalFormatCmd := {
  cmd_base := sf_base;
  cmd_set_base b c := mkSignalFormat b (m_plug c) (m_eoh c) (m_form c) (m_fmt c) (m_fdf0 c) (m_fdf1 c) (m_fdf2 c);
  cmd_serialize _ _ c := unchanged c (SignalFormatCmd_serialize c);
  cmd_deserialize _ _ := SignalFormatCmd_deserialize;
}.

#[export] Instance UnitInfoCmd_cmd : AVCCmd UnitInfoCmd := {
  cmd_base := ui_base;
  cmd_set_base b c := mkUnitInfo b (ui_reserved c) (m_unit_type c) (m_unit c) (m_company_id c);
  cmd_serialize _ _ c := unchanged c (UnitInfoCmd_serialize c);
  cmd_deserialize _ _ := UnitInfoCmd_deserialize;
}.

#[export] Instance SubUnitInfoCmd_cmd : AVCCmd SubUnitInfoCmd := {
  cmd_base := su_base;
  cmd_set_base b c := mkSubUnitInfo b (m_page c) (m_extension_code c) (m_table c) (m_nrOfValidEntries c);
  cmd_serialize _ _ c := unchanged c (SubUnitInfoCmd_serialize c);
  cmd_deserialize _ _ := SubUnitInfoCmd_deserialize;
}.

#[export] Instance ConnectCmd_cmd : AVCCmd ConnectCmd := {
  cmd_base := co_base;
  cmd_set_base b c := mkConnect b;
  cmd_serialize _ _ c := unchanged c (ConnectCmd_serialize c);
  cmd_deserialize _ _ _ := ConnectCmd_deserialize;
}.

#[export] Instance VendorDependentCmd_cmd : AVCCmd VendorDependentCmd := {
  cmd_base := vd_base;
  cmd_set_base b c := mkVendor b (m_companyId c);
  cmd_serialize _ _ c := unchanged c (VendorDependentCmd_serialize c);
  cmd_deserialize _ _ := VendorDependentCmd_deserialize;
}.

#[export] Instance SignalSourceCmd_cmd : AVCCmd SignalSourceCmd := {
  cmd_base := ss_base;
  cmd_set_base b c := mkSignalSource b (m_resultStatus c) (m_outputStatus c) (m_conv c) (m_signalStatus c)
    (m_signalSource c) (m_signalDestination c);
  cmd_serialize _ _ c := unchanged c (SignalSourceCmd_serialize c);
  cmd_deserialize _ _ := SignalSourceCmd_deserialize;
}.

(** ** What a command class promises

    [cmd_bytes v] is the frame of [v] and [cmd_recv c v] the object [c] after it has read this
    frame; [cmd_reads c v] is what reading it relies on. *)
Class AVCCmdSpec (T : Type) `{AVCCmd T} := {
  cmd_ok : T -> Prop;
  cmd_bytes : T -> list Z;
  cmd_reads : T -> T -> Prop;
  cmd_recv : T -> T -> T;
  cmd_emits be {SE} `{SerializeSpec be SE} c : cmd_ok c -> emits (cmd_serialize c) (cmd_bytes c) (true, c);
  cmd_parses be {DE} `{DeserializeSpec be DE} uninit c v : cmd_ok v -> cmd_reads c v ->
    parses (cmd_deserialize uninit c) (cmd_bytes v) (true, cmd_recv c v);
  cmd_unchanged {SE} `{IOSSerialize SE} c (s : SE) : (cmd_serialize c s).1.2 = c;
  cmd_size c : cmd_ok c -> 3 <= zlength (cmd_bytes c) <= 500;
  cmd_head c : take 3 (cmd_bytes c) = [m_ctype (cmd_base c); m_subunit (cmd_base c); m_opcode (cmd_base c)];
}.

Definition base_ok (c : AVCCommand) : Prop :=
  byte_ok (m_ctype c) /\ byte_ok (m_subunit c) /\ byte_ok (m_opcode c).
Definition base_bytes (c : AVCCommand) : list Z := [m_ctype c; m_subunit c; m_opcode c].
Definition base_recv (c v : AVCCommand) : AVCCommand :=
  mkAVC (m_nodeId c) (m_ctype v) (m_subunit v) (m_opcode v) (m_eResponse c) (m_commandType c).

Lemma emits_unchanged {SE} `{SerializeView SE} {T} (c : T) {m : st SE bool} {l} :
  emits m l true -> emits (unchanged c m) l (true, c).
Proof. intros E. rewrite <- (app_nil_r l). eapply emits_bind; [exact E|apply emits_ret]. Qed.

Lemma unchanged_object {S T} (c : T) (m : st S bool) s : (unchanged c m s).1.2 = c.
Proof. unfold unchanged, mbind, st_bind. by destruct (m s). Qed.

Section spec_lemmas.
Context (be : bool) {SE DE : Type}.

Lemma emits_base `{SerializeSpec be SE} c : base_ok c ->
  emits (AVCCommand_serialize c) (base_bytes c) true.
Proof.
  intros (A & B & C). unfold AVCCommand_serialize, base_bytes.
  emits.
Qed.

Lemma parses_base `{DeserializeSpec be DE} c v :
  parses (AVCCommand_deserialize c) (base_bytes v) (true, base_recv c v).
Proof. unfold AVCCommand_deserialize, base_bytes. parses. Qed.

(** A look at the next byte before reading it. *)
Lemma parses_peek `{DeserializeSpec be DE} {A} old b l (k : bool * Z -> st DE A) y :
  parses (k (true, b)) (b :: l) y -> parses (peek_byte old ≫= k) (b :: l) y.
Proof.
  intros Hk d r W E. destruct (Hk d r W E) as (d' & E' & W' & I' & P'). exists d'.
  unfold mbind, st_bind. rewrite peek_byte_spec by done. rewrite E. simpl. by rewrite E'.
Qed.
End spec_lemmas.

(** *** Operands with bit fields *)

Lemma mask_1 x : x .& 0x1 = x mod 2.
Proof. exact (land_mask_mod x 1 ltac:(lia)). Qed.
Lemma mask_7 x : x .& 0x7 = x mod 8.
Proof. exact (land_mask_mod x 3 ltac:(lia)). Qed.
Lemma mask_f x : x .& 0xf = x mod 16.
Proof. exact (land_mask_mod x 4 ltac:(lia)). Qed.
Lemma mask_3f x : x .& 0x3f = x mod 64.
Proof. exact (land_mask_mod x 6 ltac:(lia)). Qed.
Lemma mask_ff x : x .& 0xff = x mod 256.
Proof. exact (land_mask_mod x 8 ltac:(lia)). Qed.
Lemma mask_bit7 x : (x .& 0x80) >> 7 = (x / 128) mod 2.
Proof. exact (field_get x 7 1 ltac:(lia) ltac:(lia)). Qed.
Lemma mask_bit6 x : (x .& 0x40) >> 6 = (x / 64) mod 2.
Proof. exact (field_get x 6 1 ltac:(lia) ltac:(lia)). Qed.
Lemma mask_bit4 x : (x .& 0x10) >> 4 = (x / 16) mod 2.
Proof. exact (field_get x 4 1 ltac:(lia) ltac:(lia)). Qed.

Create Rewrite HintDb masks.
#[export] Hint Rewrite mask_bit7 mask_bit6 mask_bit4 mask_1 mask_7 mask_f mask_3f mask_ff : masks.

Lemma lor_shiftl_add3 a b c j k : 0 <= j -> 0 <= k -> 0 <= c < 2 ^ j -> 0 <= b * 2 ^ j + c < 2 ^ k ->
  (a << k) .| ((b << j) .| c) = a * 2 ^ k + b * 2 ^ j + c.
Proof. intros. rewrite (lor_shiftl_add b), lor_shiftl_add by lia. lia. Qed.

(** Turn masks, shifts and disjoint ors into arithmetic. *)
Ltac fields :=
  autorewrite with masks;
  rewrite <- ?Z.lor_assoc;
  rewrite ?lor_shiftl_add3 by (unfold wrapU; zlia);
  repeat (rewrite lor_shiftl_add by (unfold wrapU; zlia));
  rewrite ?Z.shiftr_div_pow2 by lia; unfold wrapU; zlia.

Lemma subunit_operand t u : 0 <= t < 32 -> 0 <= u < 8 ->
  let o := u8 ((t << 3) .| (u .& 0x7)) in o = t * 8 + u /\ byte_ok o /\ o >> 3 = t /\ o .& 0x7 = u.
Proof.
  intros Ht Hu. assert (u8 ((t << 3) .| (u .& 0x7)) = t * 8 + u) as -> by fields.
  unfold byte_ok. split_and!; try lia; fields.
Qed.

Lemma signal_format_operand_spec c : 0 <= m_eoh c < 2 -> 0 <= m_form c < 2 -> 0 <= m_fmt c < 64 ->
  let o := signal_format_operand c in
  byte_ok o /\ (o .& 0x80) >> 7 = m_eoh c /\ (o .& 0x40) >> 6 = m_form c /\ o .& 0x3f = m_fmt c.
Proof.
  intros He Hf Hm. assert (signal_format_operand c = m_eoh c * 128 + m_form c * 64 + m_fmt c) as ->.
  { unfold signal_format_operand. autorewrite with masks.
    rewrite wrapU_small by (rewrite Z.shiftl_mul_pow2; zlia).
    fields. }
  unfold byte_ok. split_and!; try lia; fields.
Qed.

Lemma page_operand p e : 0 <= p < 8 -> 0 <= e < 8 ->
  let o := ((p .& 0x7) << 4) .| (e .& 0x7) in byte_ok o /\ (o >> 4) .& 0x7 = p /\ o .& 0x7 = e.
Proof.
  intros Hp He. assert (((p .& 0x7) << 4) .| (e .& 0x7) = p * 16 + e) as -> by fields.
  unfold byte_ok. split_and!; try lia; fields.
Qed.

Lemma status_operand a b c : 0 <= a < 8 -> 0 <= b < 2 -> 0 <= c < 16 ->
  let o := u8 ((a << 5) .| ((b .& 0x1) << 4) .| (c .& 0xf)) in
  byte_ok o /\ o >> 5 = a /\ (o .& 0x10) >> 4 = b /\ o .& 0xf = c.
Proof.
  intros Ha Hb Hc.
  assert (u8 ((a << 5) .| ((b .& 0x1) << 4) .| (c .& 0xf)) = a * 32 + b * 16 + c) as ->.
  { fields. }
  unfold byte_ok. split_and!; try lia; fields.
Qed.

Lemma company_bytes x : 0 <= x < 2 ^ 24 ->
  let b2 := (x >> 16) .& 0xff in let b1 := (x >> 8) .& 0xff in let b0 := x .& 0xff in
  byte_ok b2 /\ byte_ok b1 /\ byte_ok b0 /\ (b2 << 16) .| (b1 << 8) .| b0 = x.
Proof.
  intros Hx. cbv zeta. unfold byte_ok. autorewrite with masks.
  rewrite !Z.shiftr_div_pow2 by lia. split_and!; try zlia. fields.
Qed.

(** *** PLUG INFO *)

Inductive plug_info_form := pif_iso | pif_async | pif_subunit | pif_bad.

Definition plug_info_form_of (b : AVCCommand) (sub : Z) : plug_info_form :=
  if getSubunitType b =? eST_Unit then
    if sub =? eSF_SerialBusIsochronousAndExternalPlug then pif_iso
    else if sub =? eSF_SerialBusAsynchonousPlug then pif_async else pif_bad
  else pif_subunit.

Definition PlugInfoCmd_operands (c : PlugInfoCmd) : list Z :=
  match plug_info_form_of (pi_base c) (pi_subFunction c) with
  | pif_iso => [m_serialBusIsochronousInputPlugs c; m_serialBusIsochronousOutputPlugs c;
                m_externalInputPlugs c; m_externalOutputPlugs c]
  | pif_async => [m_serialBusAsynchronousInputPlugs c; m_serialBusAsynchronousOuputPlugs c; 0xff; 0xff]
  | pif_subunit => [m_destinationPlugs c; m_sourcePlugs c; 0xff; 0xff]
  | pif_bad => []
  end.

Definition PlugInfoCmd_ok (c : PlugInfoCmd) : Prop :=
  base_ok (pi_base c) /\ byte_ok (pi_subFunction c) /\ Forall byte_ok (PlugInfoCmd_operands c)
  /\ plug_info_form_of (pi_base c) (pi_subFunction c) <> pif_bad.

Definition PlugInfoCmd_recv (c v : PlugInfoCmd) : PlugInfoCmd :=
  let f := plug_info_form_of (pi_base v) (pi_subFunction v) in
  let pick (g : PlugInfoCmd -> Z) (mine : bool) := if mine then g v else g c in
  let iso := match f with pif_iso => true | _ => false end in
  let async := match f with pif_async => true | _ => false end in
  let sub := match f with pif_subunit => true | _ => false end in
  mkPlugInfo (base_recv (pi_base c) (pi_base v))
    (pick m_serialBusIsochronousInputPlugs iso) (pick m_serialBusIsochronousOutputPlugs iso)
    (pick m_externalInputPlugs iso) (pick m_externalOutputPlugs iso)
    (pick m_serialBusAsynchronousInputPlugs async) (pick m_serialBusAsynchronousOuputPlugs async)
    (pick m_destinationPlugs sub) (pick m_sourcePlugs sub) (pi_subFunction v).

#[export] Hint Resolve emits_base parses_base : wire.

Lemma emits_PlugInfoCmd be {SE} `{SerializeSpec be SE} c : PlugInfoCmd_ok c ->
  emits (PlugInfoCmd_serialize c) (base_bytes (pi_base c) ++ pi_subFunction c :: PlugInfoCmd_operands c) true.
Proof.
  intros (B & F & O & N). unfold PlugInfoCmd_serialize, PlugInfoCmd_operands, plug_info_form_of in *.
  repeat case_match; try done; repeat rewrite Forall_cons_iff in O; destruct_and?; emits.
Qed.

Lemma parses_PlugInfoCmd be {DE} `{DeserializeSpec be DE} uninit c v : PlugInfoCmd_ok v ->
  parses (PlugInfoCmd_deserialize uninit c)
    (base_bytes (pi_base v) ++ pi_subFunction v :: PlugInfoCmd_operands v) (true, PlugInfoCmd_recv c v).
Proof.
  intros (B & F & O & N). destruct c as [b x1 x2 x3 x4 x5 x6 x7 x8 sub].
  unfold PlugInfoCmd_deserialize, PlugInfoCmd_recv, PlugInfoCmd_operands in *.
  eapply parses_bind; [apply parses_base|]. eapply (parses_bind _ _ [_]); [apply parses_byte|].
  unfold getSubunitType at 1. cbn [m_subunit base_recv].
  change (m_subunit (pi_base v) >> 3) with (getSubunitType (pi_base v)).
  unfold plug_info_form_of in *. repeat case_match; try done; parses.
Qed.

#[export, refine] Instance PlugInfoCmd_spec : AVCCmdSpec PlugInfoCmd := {
  cmd_ok := PlugInfoCmd_ok;
  cmd_bytes c := base_bytes (pi_base c) ++ pi_subFunction c :: PlugInfoCmd_operands c;
  cmd_reads _ _ := True;
  cmd_recv := PlugInfoCmd_recv;
  cmd_emits be SE H H' c ok := emits_unchanged c (emits_PlugInfoCmd be c ok);
  cmd_parses be DE H H' uninit c v ok _ := parses_PlugInfoCmd be uninit c v ok;
  cmd_unchanged SE H c s := unchanged_object c _ s;
}.
Proof.
  - intros c _. unfold PlugInfoCmd_operands. repeat case_match; unfold zlength; simpl; lia.
  - done.
Defined.

(** *** PLUG SIGNAL FORMAT *)

Definition SignalFormatCmd_ok (c : SignalFormatCmd) : Prop :=
  base_ok (sf_base c) /\ byte_ok (m_plug c) /\ 0 <= m_eoh c < 2 /\ 0 <= m_form c < 2
  /\ 0 <= m_fmt c < 64 /\ byte_ok (m_fdf0 c) /\ byte_ok (m_fdf1 c) /\ byte_ok (m_fdf2 c).

Definition SignalFormatCmd_bytes (c : SignalFormatCmd) : list Z :=
  base_bytes (sf_base c) ++ [m_plug c; signal_format_operand c; m_fdf0 c; m_fdf1 c; m_fdf2 c].

Definition SignalFormatCmd_recv (c v : SignalFormatCmd) : SignalFormatCmd :=
  mkSignalFormat (base_recv (sf_base c) (sf_base v)) (m_plug v) (m_eoh v) (m_form v) (m_fmt v)
    (m_fdf0 v) (m_fdf1 v) (m_fdf2 v).

Lemma emits_SignalFormatCmd be {SE} `{SerializeSpec be SE} c : SignalFormatCmd_ok c ->
  emits (SignalFormatCmd_serialize c) (SignalFormatCmd_bytes c) true.
Proof.
  intros (B & ? & He & Hf & Hm & ? & ? & ?).
  destruct (signal_format_operand_spec c He Hf Hm) as (? & _).
  apply (emits_all_of _ [base_bytes (sf_base c); [_]; [_]; [_]; [_]; [_]]).
  repeat constructor; eauto with wire.
Qed.

Lemma parses_SignalFormatCmd be {DE} `{DeserializeSpec be DE} uninit c v : SignalFormatCmd_ok v ->
  parses (SignalFormatCmd_deserialize uninit c) (SignalFormatCmd_bytes v) (true, SignalFormatCmd_recv c v).
Proof.
  intros (B & ? & He & Hf & Hm & ? & ? & ?).
  destruct (signal_format_operand_spec v He Hf Hm) as (_ & E1 & E2 & E3).
  unfold SignalFormatCmd_deserialize, SignalFormatCmd_recv. parses. by rewrite E1, E2, E3.
Qed.

#[export, refine] Instance SignalFormatCmd_spec : AVCCmdSpec SignalFormatCmd := {
  cmd_ok := SignalFormatCmd_ok;
  cmd_bytes := SignalFormatCmd_bytes;
  cmd_reads _ _ := True;
  cmd_recv := SignalFormatCmd_recv;
  cmd_emits be SE H H' c ok := emits_unchanged c (emits_SignalFormatCmd be c ok);
  cmd_parses be DE H H' uninit c v ok _ := parses_SignalFormatCmd be uninit c v ok;
  cmd_unchanged SE H c s := unchanged_object c _ s;
}.
Proof. all: done. Defined.

(** *** UNIT INFO *)

Definition UnitInfoCmd_ok (c : UnitInfoCmd) : Prop :=
  base_ok (ui_base c) /\ byte_ok (ui_reserved c) /\ 0 <= m_unit_type c < 32 /\ 0 <= m_unit c < 8
  /\ 0 <= m_company_id c < 2 ^ 24.

Definition UnitInfoCmd_bytes (c : UnitInfoCmd) : list Z :=
  base_bytes (ui_base c) ++
  [ui_reserved c; u8 ((m_unit_type c << 3) .| (m_unit c .& 0x7)); (m_company_id c >> 16) .& 0xff;
   (m_company_id c >> 8) .& 0xff; m_company_id c .& 0xff].

Definition UnitInfoCmd_recv (c v : UnitInfoCmd) : UnitInfoCmd :=
  mkUnitInfo (base_recv (ui_base c) (ui_base v)) (ui_reserved v) (m_unit_type v) (m_unit v) (m_company_id v).

Lemma emits_UnitInfoCmd be {SE} `{SerializeSpec be SE} c : UnitInfoCmd_ok c ->
  emits (UnitInfoCmd_serialize c) (UnitInfoCmd_bytes c) true.
Proof.
  intros (B & ? & Ht & Hu & Hc). destruct (company_bytes _ Hc) as (? & ? & ? & _).
  unfold UnitInfoCmd_serialize, UnitInfoCmd_bytes. rewrite Z.shiftr_0_r. emits.
Qed.

Lemma parses_UnitInfoCmd be {DE} `{DeserializeSpec be DE} uninit c v : UnitInfoCmd_ok v ->
  parses (UnitInfoCmd_deserialize uninit c) (UnitInfoCmd_bytes v) (true, UnitInfoCmd_recv c v).
Proof.
  intros (B & ? & Ht & Hu & Hc). destruct (company_bytes _ Hc) as (_ & _ & _ & E).
  destruct (subunit_operand _ _ Ht Hu) as (_ & _ & Et & Eu).
  unfold UnitInfoCmd_deserialize, UnitInfoCmd_recv. parses. by rewrite Z.lor_0_l, E, Et, Eu.
Qed.

#[export, refine] Instance UnitInfoCmd_spec : AVCCmdSpec UnitInfoCmd := {
  cmd_ok := UnitInfoCmd_ok;
  cmd_bytes := UnitInfoCmd_bytes;
  cmd_reads _ _ := True;
  cmd_recv := UnitInfoCmd_recv;
  cmd_emits be SE H H' c ok := emits_unchanged c (emits_UnitInfoCmd be c ok);
  cmd_parses be DE H H' uninit c v ok _ := parses_UnitInfoCmd be uninit c v ok;
  cmd_unchanged SE H c s := unchanged_object c _ s;
}.
Proof. all: done. Defined.

(** *** SUBUNIT INFO *)

Definition entry_ok (e : TableEntry) : Prop := 0 <= m_subunit_type e < 32 /\ 0 <= m_max_subunit_id e < 8.

(** The entries other than type 31, id 7, whose operand is 0xff. *)
Definition valid_entries (l : list TableEntry) : Z :=
  zlength (filter (fun e => TableEntry_operand e <> 0xff) l).

Definition SubUnitInfoCmd_ok (c : SubUnitInfoCmd) : Prop :=
  base_ok (su_base c) /\ 0 <= m_page c < 8 /\ 0 <= m_extension_code c < 8
  /\ length (m_table c) = 4%nat /\ Forall entry_ok (m_table c).

Definition SubUnitInfoCmd_bytes (c : SubUnitInfoCmd) : list Z :=
  base_bytes (su_base c) ++ (((m_page c .& 0x7) << 4) .| (m_extension_code c .& 0x7))
  :: (TableEntry_operand <$> m_table c).

Definition SubUnitInfoCmd_recv (c v : SubUnitInfoCmd) : SubUnitInfoCmd :=
  mkSubUnitInfo (base_recv (su_base c) (su_base v)) (m_page v) (m_extension_code v) (m_table v)
    (valid_entries (m_table v)).

Lemma emits_SubUnitInfoCmd be {SE} `{SerializeSpec be SE} c : SubUnitInfoCmd_ok c ->
  emits (SubUnitInfoCmd_serialize c) (SubUnitInfoCmd_bytes c) true.
Proof.
  intros (B & Hp & He & _). destruct (page_operand _ _ Hp He) as (? & _).
  unfold SubUnitInfoCmd_serialize, SubUnitInfoCmd_bytes.
  eapply emits_bind; [eauto with wire|]. eapply (emits_bind _ _ [_]); [eauto with wire|].
  eapply emits_eq; [symmetry; apply app_nil_r|]. eapply emits_bind; [|apply emits_ret].
  apply (emits_eq _ (concat ((fun e => [TableEntry_operand e]) <$> m_table c))).
  - clear. induction (m_table c) as [|e l IH]; [done|]. exact (f_equal (cons (TableEntry_operand e)) IH).
  - apply emits_each. clear - H0. induction (m_table c); simpl; constructor; [|done].
    exists true. apply emits_byte_ok, byte_ok_u8.
Qed.

Lemma parses_table be {DE} `{DeserializeSpec be DE} l old : Forall entry_ok l ->
  parses (read_table (length l) old) (TableEntry_operand <$> l) (l, valid_entries l).
Proof.
  intros Hl. revert old. induction Hl as [|e l [Ht Hi] _ IH]; intros old; simpl; [apply parses_ret|].
  destruct (subunit_operand _ _ Ht Hi) as (_ & _ & Et & Ei).
  eapply (parses_bind _ _ [_]); [apply parses_byte|].
  eapply parses_conv; [symmetry; apply app_nil_r| |eapply parses_bind; [apply IH|apply parses_ret]].
  unfold TableEntry_operand. rewrite Et, Ei. f_equal; [by destruct e|].
  unfold valid_entries. rewrite filter_cons. fold (TableEntry_operand e).
  destruct (Z.eqb_spec (TableEntry_operand e) 0xff); case_decide; try done.
  unfold zlength. simpl. lia.
Qed.

Lemma parses_SubUnitInfoCmd be {DE} `{DeserializeSpec be DE} uninit c v : SubUnitInfoCmd_ok v ->
  parses (SubUnitInfoCmd_deserialize uninit c) (SubUnitInfoCmd_bytes v) (true, SubUnitInfoCmd_recv c v).
Proof.
  intros (B & Hp & He & L & Ht). destruct (page_operand _ _ Hp He) as (_ & Ep & Ee).
  unfold SubUnitInfoCmd_deserialize, SubUnitInfoCmd_recv, SubUnitInfoCmd_bytes.
  eapply parses_bind; [apply parses_base|]. eapply (parses_bind _ _ [_]); [apply parses_byte|].
  rewrite <- L. eapply parses_conv; [symmetry; apply app_nil_r| |
    eapply parses_bind; [by apply parses_table|apply parses_ret]]. by rewrite Ep, Ee.
Qed.

#[export, refine] Instance SubUnitInfoCmd_spec : AVCCmdSpec SubUnitInfoCmd := {
  cmd_ok := SubUnitInfoCmd_ok;
  cmd_bytes := SubUnitInfoCmd_bytes;
  cmd_reads _ _ := True;
  cmd_recv := SubUnitInfoCmd_recv;
  cmd_emits be SE H H' c ok := emits_unchanged c (emits_SubUnitInfoCmd be c ok);
  cmd_parses be DE H H' uninit c v ok _ := parses_SubUnitInfoCmd be uninit c v ok;
  cmd_unchanged SE H c s := unchanged_object c _ s;
}.
Proof.
  - intros c (_ & _ & _ & L & _). unfold zlength. simpl. rewrite length_fmap. lia.
  - done.
Defined.

(** *** CONNECT and VENDOR DEPENDENT *)

Lemma emits_ConnectCmd be {SE} `{SerializeSpec be SE} c : base_ok (co_base c) ->
  emits (ConnectCmd_serialize c) (base_bytes (co_base c)) true.
Proof. intros B. apply (emits_all_of _ [base_bytes (co_base c)]). repeat constructor. eauto with wire. Qed.

Lemma parses_ConnectCmd be {DE} `{DeserializeSpec be DE} c v :
  parses (ConnectCmd_deserialize c) (base_bytes (co_base v)) (true, mkConnect (base_recv (co_base c) (co_base v))).
Proof. unfold ConnectCmd_deserialize. parses. Qed.

#[export, refine] Instance ConnectCmd_spec : AVCCmdSpec ConnectCmd := {
  cmd_ok c := base_ok (co_base c);
  cmd_bytes c := base_bytes (co_base c);
  cmd_reads _ _ := True;
  cmd_recv c v := mkConnect (base_recv (co_base c) (co_base v));
  cmd_emits be SE H H' c ok := emits_unchanged c (emits_ConnectCmd be c ok);
  cmd_parses be DE H H' uninit c v ok _ := parses_ConnectCmd be c v;
  cmd_unchanged SE H c s := unchanged_object c _ s;
}.
Proof. all: done. Defined.

Definition VendorDependentCmd_ok (c : VendorDependentCmd) : Prop :=
  base_ok (vd_base c) /\ 0 <= m_companyId c < 2 ^ 24.

Definition VendorDependentCmd_bytes (c : VendorDependentCmd) : list Z :=
  base_bytes (vd_base c) ++
  [(m_companyId c >> 16) .& 0xff; (m_companyId c >> 8) .& 0xff; m_companyId c .& 0xff].

Definition VendorDependentCmd_recv (c v : VendorDependentCmd) : VendorDependentCmd :=
  mkVendor (base_recv (vd_base c) (vd_base v)) (m_companyId v).

Lemma emits_VendorDependentCmd be {SE} `{SerializeSpec be SE} c : VendorDependentCmd_ok c ->
  emits (VendorDependentCmd_serialize c) (VendorDependentCmd_bytes c) true.
Proof.
  intros (B & Hc). destruct (company_bytes _ Hc) as (? & ? & ? & _).
  apply (emits_all_of _ [base_bytes (vd_base c); [_]; [_]; [_]]). repeat constructor; eauto with wire.
Qed.

Lemma parses_VendorDependentCmd be {DE} `{DeserializeSpec be DE} uninit c v : VendorDependentCmd_ok v ->
  parses (VendorDependentCmd_deserialize uninit c) (VendorDependentCmd_bytes v) (true, VendorDependentCmd_recv c v).
Proof.
  intros (B & Hc). destruct (company_bytes _ Hc) as (_ & _ & _ & E).
  unfold VendorDependentCmd_deserialize, VendorDependentCmd_recv. parses. by rewrite E.
Qed.

#[export, refine] Instance VendorDependentCmd_spec : AVCCmdSpec VendorDependentCmd := {
  cmd_ok := VendorDependentCmd_ok;
  cmd_bytes := VendorDependentCmd_bytes;
  cmd_reads _ _ := True;
  cmd_recv := VendorDependentCmd_recv;
  cmd_emits be SE H H' c ok := emits_unchanged c (emits_VendorDependentCmd be c ok);
  cmd_parses be DE H H' uninit c v ok _ := parses_VendorDependentCmd be uninit c v ok;
  cmd_unchanged SE H c s := unchanged_object c _ s;
}.
Proof. all: done. Defined.

(** *** SIGNAL SOURCE *)

(** The operand of subunit type 31, id 7 is the 0xff of a unit address. *)
Definition address_ok (a : SignalAddress) : Prop :=
  match a with
  | SignalUnitAddress p => byte_ok p
  | SignalSubunitAddress t i p => 0 <= t < 32 /\ 0 <= i < 8 /\ t * 8 + i <> 0xff /\ byte_ok p
  end.

Definition address_bytes (a : option SignalAddress) : list Z :=
  match a with
  | Some (SignalUnitAddress p) => [0xff; p]
  | Some (SignalSubunitAddress t i p) => [u8 ((t << 3) .| (i .& 0x7)); p]
  | None => [0xff; 0xff]
  end.

(** An absent address is read back as the unit address of plug 0xff. *)
Definition address_recv (a : option SignalAddress) : SignalAddress :=
  default (SignalUnitAddress 0xff) a.

Definition is_inquiry (ct : Z) : bool := (ct =? eCT_Control) || (ct =? eCT_SpecificInquiry).

Definition SignalSourceCmd_operand (c : SignalSourceCmd) : Z :=
  if m_commandType (ss_base c) =? eCT_Status
  then u8 ((m_outputStatus c << 5) .| ((m_conv c .& 0x1) << 4) .| (m_signalStatus c .& 0xf))
  else m_resultStatus c .& 0xf.

Definition signal_subunit (b : AVCCommand) : bool :=
  let sut := getSubunitType b in (sut =? eST_Unit) || (sut =? eST_Audio) || (sut =? eST_Music).

Definition SignalSourceCmd_ok (c : SignalSourceCmd) : Prop :=
  base_ok (ss_base c) /\ signal_subunit (ss_base c) = true
  /\ (if m_commandType (ss_base c) =? eCT_Status
      then 0 <= m_outputStatus c < 8 /\ 0 <= m_conv c < 2 /\ 0 <= m_signalStatus c < 16
      else is_inquiry (m_commandType (ss_base c)) = true /\ 0 <= m_resultStatus c < 16)
  /\ from_option address_ok True (m_signalSource c) /\ from_option address_ok True (m_signalDestination c).

Definition SignalSourceCmd_bytes (c : SignalSourceCmd) : list Z :=
  base_bytes (ss_base c) ++ SignalSourceCmd_operand c
  :: address_bytes (m_signalSource c) ++ address_bytes (m_signalDestination c).

Definition SignalSourceCmd_recv (c v : SignalSourceCmd) : SignalSourceCmd :=
  let b := base_recv (ss_base c) (ss_base v) in
  let src := Some (address_recv (m_signalSource v)) in
  let dst := Some (address_recv (m_signalDestination v)) in
  if m_commandType (ss_base v) =? eCT_Status
  then mkSignalSource b (m_resultStatus c) (m_outputStatus v) (m_conv v) (m_signalStatus v) src dst
  else mkSignalSource b (m_resultStatus v) (m_outputStatus c) (m_conv c) (m_signalStatus c) src dst.

Lemma emits_address be {SE} `{SerializeSpec be SE} a : from_option address_ok True a ->
  emits (SignalAddress_serialize_opt a) (address_bytes a) true.
Proof.
  destruct a as [[p|t i p]|]; simpl; intros Ha; [emits|destruct Ha as (Ht & Hi & _ & Hp); emits|emits].
Qed.

Lemma parses_unit_address be {DE} `{DeserializeSpec be DE} uninit q b p :
  parses (SignalAddress_deserialize uninit (SignalUnitAddress q)) [b; p] (true, SignalUnitAddress p).
Proof. unfold SignalAddress_deserialize. parses. Qed.

Lemma parses_subunit_address be {DE} `{DeserializeSpec be DE} uninit t i q b p :
  parses (SignalAddress_deserialize uninit (SignalSubunitAddress t i q)) [b; p]
    (true, SignalSubunitAddress (b >> 3) (b .& 0x7) p).
Proof. unfold SignalAddress_deserialize. parses. Qed.

#[export] Hint Resolve parses_unit_address parses_subunit_address : wire.

Lemma parses_address be {DE} `{DeserializeSpec be DE} uninit old a : from_option address_ok True a ->
  exists o, parses (peek_address uninit old) (address_bytes a) (o, address_recv a).
Proof.
  intros Ha. exists (nth 0 (address_bytes a) 0). unfold peek_address.
  destruct a as [[p|t i p]|]; simpl in Ha; apply parses_peek; cbn beta iota.
  - rewrite Z.eqb_refl. parses.
  - destruct Ha as (Ht & Hi & Hn & Hp). destruct (subunit_operand t i Ht Hi) as (E & _ & Et & Ei).
    rewrite (proj2 (Z.eqb_neq _ _)) by (rewrite E; done).
    parses. cbn [address_recv default]. by rewrite Et, Ei.
  - rewrite Z.eqb_refl. parses.
Qed.

#[export] Hint Resolve emits_address : wire.

Lemma emits_SignalSourceCmd be {SE} `{SerializeSpec be SE} c : SignalSourceCmd_ok c ->
  emits (SignalSourceCmd_serialize c) (SignalSourceCmd_bytes c) true.
Proof.
  intros (B & S & O & A1 & A2). unfold SignalSourceCmd_serialize, SignalSourceCmd_bytes, getCommandType.
  eapply emits_bind; [eauto with wire|]. eapply (emits_bind _ _ [_]).
  - unfold SignalSourceCmd_operand. destruct (_ =? eCT_Status).
    + emits.
    + destruct O as [I R]. unfold is_inquiry in I. rewrite I.
      assert (byte_ok (m_resultStatus c .& 0xf)) by (unfold byte_ok; fields). emits.
  - unfold signal_subunit in S. cbv beta iota. rewrite S. simpl. emits.
Qed.

Lemma parses_SignalSourceCmd be {DE} `{DeserializeSpec be DE} uninit c v : SignalSourceCmd_ok v ->
  m_commandType (ss_base c) = m_commandType (ss_base v) ->
  parses (SignalSourceCmd_deserialize uninit c) (SignalSourceCmd_bytes v) (true, SignalSourceCmd_recv c v).
Proof.
  intros (B & S & O & A1 & A2) CT.
  unfold SignalSourceCmd_deserialize, SignalSourceCmd_bytes, SignalSourceCmd_recv.
  destruct (parses_address be uninit uninit (m_signalSource v) A1) as (o & P1).
  destruct (parses_address be uninit o (m_signalDestination v) A2) as (o' & P2).
  eapply parses_bind; [apply parses_base|]. unfold getCommandType. cbn [m_commandType base_recv].
  rewrite CT. unfold SignalSourceCmd_operand. destruct (_ =? eCT_Status).
  - destruct O as (R1 & R2 & R3). destruct (status_operand _ _ _ R1 R2 R3) as (_ & E1 & E2 & E3).
    set (x := u8 _) in *. eapply (parses_bind _ _ [x]); [parses|]. cbn beta iota. simpl negb. cbv iota.
    unfold signal_subunit in S. change (getSubunitType (base_recv _ _)) with (getSubunitType (ss_base v)).
    rewrite S. eapply parses_bind; [exact P1|]. rewrite <- (app_nil_r (address_bytes _)).
    eapply parses_bind; [exact P2|]. cbv beta iota. rewrite E1, E2, E3. apply parses_ret.
  - destruct O as (I & R). unfold is_inquiry in I. rewrite I. set (x := _ .& 0xf).
    assert (x .& 0xf = m_resultStatus v) as E by (unfold x; fields).
    eapply (parses_bind _ _ [x]); [parses|]. cbn beta iota. simpl negb. cbv iota.
    unfold signal_subunit in S. change (getSubunitType (base_recv _ _)) with (getSubunitType (ss_base v)).
    rewrite S. eapply parses_bind; [exact P1|]. rewrite <- (app_nil_r (address_bytes _)).
    eapply parses_bind; [exact P2|]. cbv beta iota. rewrite E. apply parses_ret.
Qed.

#[export, refine] Instance SignalSourceCmd_spec : AVCCmdSpec SignalSourceCmd := {
  cmd_ok := SignalSourceCmd_ok;
  cmd_bytes := SignalSourceCmd_bytes;
  cmd_reads c v := m_commandType (ss_base c) = m_commandType (ss_base v);
  cmd_recv := SignalSourceCmd_recv;
  cmd_emits be SE H H' c ok := emits_unchanged c (emits_SignalSourceCmd be c ok);
  cmd_parses := @parses_SignalSourceCmd;
  cmd_unchanged SE H c s := unchanged_object c _ s;
}.
Proof.
  - intros c _. unfold SignalSourceCmd_bytes.
    destruct (m_signalSource c) as [[]|], (m_signalDestination c) as [[]|]; unfold zlength; simpl; lia.
  - done.
Defined.
