(* ===== verification/AvcExchange.v ===== *)
(** * Command exchanges

    Theorems on the command classes of [AvcCommands]: frames are read back as they were
    written, and [AVCCommand::fire] performs one exchange with a device over the FCP
    transactions of [Fcp].  They are proved from the interface [AVCCmdSpec] and the laws of the
    buffers. *)
From S2P Require Import Prelude ByteSwap CmdSerialize Fcp AvcCommands.

(** The 512-byte frame that [fire] hands to the bus. *)
Definition frame_image (bytes : list Z) : list Z := bytes ++ replicate (512 - length bytes) 0.

(** The fresh frame of [fire]. *)
Definition fresh_frame : buffer :=
  BufferSerialize (replicate (Z.to_nat fcpFrameMaxLength) 0) fcpFrameMaxLength.

Lemma emits_frame {A} (m : st buffer A) bytes x : emits m bytes x -> zlength bytes < 512 ->
  exists se, m fresh_frame = (x, se) /\ mem se = frame_image bytes /\ getNrOfProducesBytes se = zlength bytes.
Proof.
  intros Hm Hs. assert (buffer_wf fresh_frame) as W0 by (unfold buffer_wf; simpl; split_and!; done || lia).
  destruct (Hm fresh_frame W0) as (se & E & W & O & R & M); [simpl; unfold fcpFrameMaxLength; lia|].
  exists se. split; [exact E|]. destruct W as (P & L & _).
  change (take (Z.to_nat (m_curPos se)) (mem se) = bytes) in O.
  change (drop (Z.to_nat (m_curPos se)) (mem se) = drop (length bytes) (replicate 512 0)) in M.
  assert (m_curPos se = zlength bytes) as C.
  { rewrite <- O. unfold zlength in *. rewrite length_take. lia. }
  pose proof (zlength_nonneg bytes). split.
  - rewrite <- (take_drop (Z.to_nat (m_curPos se)) (mem se)), O, M. unfold frame_image.
    f_equal. rewrite drop_replicate. done.
  - unfold getNrOfProducesBytes. rewrite C. cint. done.
Qed.

(** Bytes in memory that a method reads. *)
Lemma reads_frame {A} (m : st buffer A) bytes x buf len : reads m bytes x ->
  zlength bytes <= len <= zlength buf -> len < 2 ^ 62 -> take (length bytes) buf = bytes ->
  (m (BufferDeserialize buf len)).1 = x.
Proof.
  intros Hm Hl Hlen Ht. set (d0 := BufferDeserialize buf len). pose proof (zlength_nonneg bytes).
  assert (buffer_wf d0) as W0 by (unfold buffer_wf, d0; simpl; lia).
  destruct (Hm d0 (slice (zlength bytes) (len - zlength bytes) buf) W0) as (d & E); [|by rewrite E].
  simpl. rewrite Z.sub_0_r, slice_0. rewrite <- Ht at 1.
  replace (length bytes) with (Z.to_nat (zlength bytes)) by (unfold zlength; lia).
  rewrite take_slice by lia. f_equal. lia.
Qed.

Section frames.
Context (big_endian : bool) {T : Type} `{AVCCmdSpec T}.

Lemma serialize_frame c : cmd_ok c ->
  exists se, @cmd_serialize T _ _ (buffer_serialize big_endian) c fresh_frame = ((true, c), se)
    /\ mem se = frame_image (cmd_bytes c) /\ getNrOfProducesBytes se = zlength (cmd_bytes c).
Proof.
  intros Hc. pose proof (cmd_size c Hc) as Hs. apply emits_frame; [|lia].
  exact (cmd_emits big_endian (H1 := buffer_serialize_spec big_endian) c Hc).
Qed.

(** A frame in memory, read by an object. *)
Lemma deserialize_frame uninit c v buf len : cmd_ok v -> cmd_reads c v ->
  zlength (cmd_bytes v) <= len <= zlength buf -> len < 2 ^ 62 ->
  take (length (cmd_bytes v)) buf = cmd_bytes v ->
  (@cmd_deserialize T _ _ (buffer_deserialize big_endian) uninit c (BufferDeserialize buf len)).1
  = (true, cmd_recv c v).
Proof.
  intros Hv Hr. apply reads_frame, parses_reads.
  exact (cmd_parses big_endian (H1 := buffer_deserialize_spec big_endian) uninit c v Hv Hr).
Qed.
End frames.

(** Write [v] to a fresh frame and let [c] read the bytes that were produced. *)
Definition through_frame (big_endian : bool) {T} `{AVCCmd T} (uninit : Z) (c v : T) : bool * (bool * T) :=
  let '((ok, _), se) := @cmd_serialize T _ _ (buffer_serialize big_endian) v fresh_frame in
  (ok, (@cmd_deserialize T _ _ (buffer_deserialize big_endian) uninit c
          (BufferDeserialize (mem se) (getNrOfProducesBytes se))).1).

Lemma take_frame_image l : take (length l) (frame_image l) = l.
Proof. apply take_app_length. Qed.

Lemma zlength_frame_image l : zlength l <= 512 -> zlength (frame_image l) = 512.
Proof. unfold frame_image, zlength. rewrite length_app, length_replicate. lia. Qed.

Lemma through_frame_recv big_endian {T} `{AVCCmdSpec T} uninit c v : cmd_ok v -> cmd_reads c v ->
  through_frame big_endian uninit c v = (true, (true, cmd_recv c v)).
Proof.
  intros Hv Hr. unfold through_frame. destruct (serialize_frame big_endian v Hv) as (se & -> & -> & ->).
  f_equal. pose proof (cmd_size v Hv). pose proof (zlength_frame_image (cmd_bytes v)).
  apply deserialize_frame; try done; try lia. apply take_frame_image.
Qed.

(** ** Theorems *)

(** A PLUG INFO frame is read back exactly: whichever of the three forms the subunit and the
    subfunction of [v] select (isochronous and external, asynchronous, subunit plugs), the
    reading object gets the header, the subfunction and the plug counts of that form from the
    frame and keeps its other counts, its node, its response and its command type. *)
Theorem plug_info_roundtrip big_endian uninit (c v : PlugInfoCmd) : PlugInfoCmd_ok v ->
  through_frame big_endian uninit c v = (true, (true, PlugInfoCmd_recv c v)).
Proof. intros Hv. exact (through_frame_recv big_endian uninit c v Hv I). Qed.

Lemma plug_info_roundtrip_witness :
  through_frame false 0xAA (PlugInfoCmd_new 0 0)
    (mkPlugInfo (mkAVC 0 0x0C 0xFF 0x02 0 1) 1 1 3 4 0 0 0 0 0)
  = (true, (true, mkPlugInfo (mkAVC 0 0x0C 0xFF 0x02 0xff 0) 1 1 3 4 0xff 0xff 0xff 0xff 0)).
Proof.
  refine (eq_trans (plug_info_roundtrip false 0xAA (PlugInfoCmd_new 0 0)
    (mkPlugInfo (mkAVC 0 0x0C 0xFF 0x02 0 1) 1 1 3 4 0 0 0 0 0) _) eq_refl).
  split_and!; [split_and!|..]; vm_compute; try done. repeat constructor; done.
Defined.

(** The frames of the plug signal format, unit info, subunit info and vendor dependent commands
    are read back exactly: all bit fields of the operands come out as they went in, and the
    number of valid subunit entries is the number of entries other than the filler 0xff. *)
Theorem info_commands_roundtrip big_endian uninit :
  (forall c v, SignalFormatCmd_ok v ->
     through_frame big_endian uninit c v = (true, (true, SignalFormatCmd_recv c v)))
  /\ (forall c v, UnitInfoCmd_ok v ->
     through_frame big_endian uninit c v = (true, (true, UnitInfoCmd_recv c v)))
  /\ (forall c v, SubUnitInfoCmd_ok v ->
     through_frame big_endian uninit c v = (true, (true, SubUnitInfoCmd_recv c v)))
  /\ (forall c v, VendorDependentCmd_ok v ->
     through_frame big_endian uninit c v = (true, (true, VendorDependentCmd_recv c v))).
Proof. split_and!; intros c v Hv; exact (through_frame_recv big_endian uninit c v Hv I). Qed.

(** A SIGNAL SOURCE frame is read back exactly by an object of the same command type: the status
    fields that the command type selects and both addresses, where an absent address comes back
    as the unit address of plug 0xff.  Only the subunit address of type 31 and id 7 is
    excluded: its first byte is the mark of a unit address, and it is read as one. *)
Theorem signal_source_roundtrip big_endian uninit (c v : SignalSourceCmd) : SignalSourceCmd_ok v ->
  m_commandType (ss_base c) = m_commandType (ss_base v) ->
  through_frame big_endian uninit c v = (true, (true, SignalSourceCmd_recv c v))
  /\ forall p, (through_frame big_endian uninit c (setSignalSource (SignalSubunitAddress 31 7 p) v)).2.2
             = (through_frame big_endian uninit c (setSignalSource (SignalUnitAddress p) v)).2.2.
Proof.
  intros Hv CT. split; [exact (through_frame_recv big_endian uninit c v Hv CT)|]. done.
Qed.

Definition example_source : SignalSourceCmd :=
  mkSignalSource (mkAVC 0 0x0C 0xFF 0x1A 0 eCT_Status) 0xff 1 0 2
    (Some (SignalSubunitAddress 0xC 0 2)) (Some (SignalUnitAddress 1)).

Lemma signal_source_roundtrip_witness :
  through_frame false 0xAA
    (mkSignalSource (setCommandType eCT_Status (AVCCommand_new 0 0x1A)) 0xff 0xff 0xff 0xff None None) example_source
  = (true, (true, mkSignalSource (mkAVC 0 0x0C 0xFF 0x1A 0xff eCT_Status) 0xff 1 0 2
      (Some (SignalSubunitAddress 0xC 0 2)) (Some (SignalUnitAddress 1)))).
Proof.
  refine (eq_trans (proj1 (signal_source_roundtrip false 0xAA
    (mkSignalSource (setCommandType eCT_Status (AVCCommand_new 0 0x1A)) 0xff 0xff 0xff 0xff None None)
    example_source _ eq_refl)) eq_refl).
  split_and!; [split_and!|..]; vm_compute; try done; split_and!; done.
Defined.

Lemma info_commands_roundtrip_witness :
  through_frame false 0xAA (SubUnitInfoCmd_new 0)
    (mkSubUnitInfo (mkAVC 0 0x0C 0xFF 0x31 0 1) 0 7 [mkEntry 1 0; mkEntry 0xC 0; mkEntry 31 7; mkEntry 31 7] 0)
  = (true, (true, mkSubUnitInfo (mkAVC 0 0x0C 0xFF 0x31 0xff 0) 0 7
      [mkEntry 1 0; mkEntry 0xC 0; mkEntry 31 7; mkEntry 31 7] 2)).
Proof.
  refine (eq_trans (proj1 (proj2 (proj2 (info_commands_roundtrip false 0xAA))) (SubUnitInfoCmd_new 0)
    (mkSubUnitInfo (mkAVC 0 0x0C 0xFF 0x31 0 1) 0 7 [mkEntry 1 0; mkEntry 0xC 0; mkEntry 31 7; mkEntry 31 7] 0) _) eq_refl).
  split_and!; [split_and!|..]; try (vm_compute; done). repeat constructor; done.
Defined.

(** The lock count after a transaction. *)
Lemma transactionBlock_lock be DEBUG bus nodeId buf len s :
  m_handle_lock (transactionBlock be DEBUG bus nodeId buf len s).2
  = if nodeId =? INVALID_NODE_ID then m_handle_lock s else m_handle_lock s + 1.
Proof.
  unfold transactionBlock. destruct (_ =? INVALID_NODE_ID); [done|].
  destruct (if len <? _ then _ else _) as [req rlen]. set (s0 := mkService _ _ _ _).
  pose proof (tries_cases be DEBUG (0xffc0 .| nodeId) rlen req bus IEEE1394SERVICE_FCP_MAX_TRIES 0 s0) as H.
  unfold doFcpTransaction. destruct (fcp_tries _ _ _ _ _ s0) as [ok s1].
  destruct H as (_ & L & _); [done|]. by destruct ok.
Qed.

(** The filter setting is never changed by a transaction. *)
Lemma fcp_wait_filter be DEBUG rs : forall s, m_filterFCPResponse (fcp_wait be DEBUG rs s) = m_filterFCPResponse s.
Proof. induction rs as [|r rs IH]; intros s; [done|]. cbn [fcp_wait]. case_decide; [|done]. by rewrite IH, handle_round_filter. Qed.

Lemma try_filter be DEBUG bus s : m_filterFCPResponse (doFcpTransactionTry be DEBUG bus s).2 = m_filterFCPResponse s.
Proof.
  unfold doFcpTransactionTry. set (t := bus _ _). destruct (start_listen_ok t), (write_ok t); cbn [negb]; try done.
  pose proof (fcp_wait_filter be DEBUG (rounds t) (set_status eFS_Waiting s)) as E. revert E.
  set (s1 := fcp_wait _ _ _ _). intros E. destruct (status (m_fcp_block s1)); cbn; by rewrite E.
Qed.

Lemma tries_filter be DEBUG bus n : forall i s, m_filterFCPResponse (fcp_tries be DEBUG bus i n s).2 = m_filterFCPResponse s.
Proof.
  induction n as [|n IH]; intros i s; [done|]. cbn [fcp_tries]. pose proof (try_filter be DEBUG (bus i) s) as E.
  destruct (doFcpTransactionTry _ _ _ s) as [[] s1]; cbn in *; [done|]. by rewrite IH.
Qed.

Lemma fire_filter be (DEBUG : debug_settings) uninit bus {T} `{AVCCmd T} (c : T) s :
  m_filterFCPResponse (fire be DEBUG uninit bus c s).2 = m_filterFCPResponse s.
Proof.
  unfold fire. destruct (cmd_serialize _ _) as [[ok c1] se]. destruct ok; [|done]. cbn [negb].
  assert (forall n buf len, m_filterFCPResponse (transactionBlock be (dbg_build DEBUG) bus n buf len s).2 = m_filterFCPResponse s) as E.
  { intros n buf len. unfold transactionBlock. destruct (_ =? INVALID_NODE_ID); [done|]. destruct (if len <? _ then _ else _) as [req rl].
    set (s0 := mkService _ _ _ _). pose proof (tries_filter be (dbg_build DEBUG) bus IEEE1394SERVICE_FCP_MAX_TRIES 0 s0) as E.
    unfold doFcpTransaction. by destruct (fcp_tries _ _ _ _ _ s0) as [[] s1]. }
  specialize (E (m_nodeId (cmd_base (show_request DEBUG c1))) (mem se) ((u16 (getNrOfProducesBytes se) + 3) / 4)).
  destruct (transactionBlock _ _ _ _ _ _ s) as [[[buf rl]|] s1]; cbn in *; [|done].
  destruct (cmd_deserialize _ _ _) as [[r c2] d]. by destruct (expected_response _).
Qed.

(** A [serialize] that does not change the object. *)
Lemma serialize_dbg_unchanged {T} `{AVCCmd T} (c : T) :
  (@cmd_serialize T _ Z string_serialize c 0).1.2 = c -> serialize_dbg c = c.
Proof. unfold serialize_dbg. by destruct (cmd_serialize c 0) as [[ok c'] n]. Qed.

(** A command class keeps its objects through the messages. *)
Lemma serialize_dbg_id {T} `{AVCCmdSpec T} (c : T) : serialize_dbg c = c.
Proof. apply serialize_dbg_unchanged, cmd_unchanged. Qed.
Lemma show_request_id DEBUG {T} `{AVCCmdSpec T} (c : T) : show_request DEBUG c = c.
Proof. unfold show_request. rewrite serialize_dbg_id. by destruct (very_verbose DEBUG). Qed.

(** The handle lock: [fire] releases the lock exactly as often as it is taken when the command
    is addressed to a valid node, whatever happens on the bus, but a command whose node is
    [INVALID_NODE_ID] fails with the lock released once without having been taken. *)
Theorem fire_lock_balance big_endian (DEBUG : debug_settings) uninit bus {T} `{AVCCmdSpec T} (c : T) s : cmd_ok c ->
  m_handle_lock (fire big_endian DEBUG uninit bus c s).2
  = m_handle_lock s - (if m_nodeId (cmd_base c) =? INVALID_NODE_ID then 1 else 0).
Proof.
  intros Hc. unfold fire. fold fresh_frame. destruct (serialize_frame big_endian c Hc) as (se & -> & _ & _). simpl negb. cbv iota. rewrite (show_request_id DEBUG c).
  pose proof (transactionBlock_lock big_endian (dbg_build DEBUG) bus (m_nodeId (cmd_base c)) (mem se)
    ((u16 (getNrOfProducesBytes se) + 3) / 4) s) as L.
  destruct (transactionBlock _ _ _ _ _ _ s) as [[[buf rl]|] s1]; simpl in L |- *.
  - destruct (cmd_deserialize _ _ _) as [[r c'] d]. destruct (expected_response _); simpl; rewrite L; destruct (_ =? _); lia.
  - rewrite L. destruct (_ =? _); lia.
Qed.

Lemma fire_lock_balance_witness :
  m_handle_lock (fire false true 0 example_bus (mkConnect (mkAVC INVALID_NODE_ID 0 0xFF 0x24 0 0)) example_service).2 = -1.
Proof.
  refine (eq_trans (fire_lock_balance false true 0 example_bus
    (mkConnect (mkAVC INVALID_NODE_ID 0 0xFF 0x24 0 0)) example_service _) eq_refl).
  split_and!; done.
Defined.

(** The response memory starts with the frame that was accepted. *)
Lemma holds_frame g resp rl bytes pad : holds_response g resp rl -> fr_data g = bytes ++ pad ->
  zlength bytes <= 512 ->
  zlength bytes <= rl * 4 <= zlength resp /\ 0 <= rl * 4 <= 512 /\ take (length bytes) resp = bytes.
Proof.
  unfold MAX_FCP_BLOCK_SIZE_QUADS. intros (R1 & R2 & R3 & R4) E Hb. rewrite E, zlength_app in *.
  pose proof (zlength_nonneg bytes). pose proof (zlength_nonneg pad).
  assert (zlength resp = 512) by (unfold zlength; lia). unfold MAX_FCP_BLOCK_SIZE_QUADS in R2.
  split; [zlia|]. split; [lia|]. rewrite slice_0 in R4.
  apply (f_equal (take (length bytes))) in R4. rewrite !take_take in R4.
  rewrite (Nat.min_l (length bytes)) in R4 by (unfold zlength in *; lia).
  rewrite (Nat.min_l (length bytes)) in R4 by (unfold zlength in *; lia).
  by rewrite take_app_length in R4.
Qed.

(** The first try reaches the bus, the device answers in it, and all its answers to this request
    are [resp], possibly followed by padding. *)
Definition device_answers (be DEBUG : bool) (bus : nat -> Z -> list Z -> fcp_try) (nodeId : Z) (req resp : list Z) : Prop :=
  let node := 0xffc0 .| nodeId in
  let frame := frame_image req in
  let sent := take (Z.to_nat ((zlength req + 3) / 4 * 4)) frame in
  start_listen_ok (bus 0%nat node sent) = true /\ write_ok (bus 0%nat node sent) = true
  /\ stop_listen_ok (bus 0%nat node sent) = true
  /\ (exists f, In f (concat (rounds (bus 0%nat node sent))) /\ fcp_answer be node frame f
        /\ (DEBUG = true -> 0x08000000 <= FCP_MASK_RESPONSE (quad0 be (fr_data f))))
  /\ (forall i g, In g (concat (rounds (bus i node sent))) -> fcp_answer be node frame g ->
        exists pad, fr_data g = resp ++ pad).

(** A command object [c] that [serialize] and the messages on the request turn into [c1], with the request [req] that is
    answered by the bytes [resp], which turn it into [c2]; after an expected response the messages have it once more. *)
Lemma fire_answered big_endian (DEBUG : debug_settings) uninit bus {T} `{AVCCmd T} (c c0 c1 c2 : T) req resp r s f :
  let node := 0xffc0 .| m_nodeId (cmd_base c1) in
  let frame := frame_image req in
  let sent := take (Z.to_nat ((zlength req + 3) / 4 * 4)) frame in
  emits (@cmd_serialize T _ _ (buffer_serialize big_endian) c) req (true, c0) -> show_request DEBUG c0 = c1 ->
  reads (@cmd_deserialize T _ _ (buffer_deserialize big_endian) uninit
            (cmd_set_base (set_response (nth 0 resp 0) (cmd_base c1)) c1)) resp (r, c2) ->
  1 <= zlength req <= 500 -> 1 <= zlength resp <= 500 -> m_nodeId (cmd_base c1) <> INVALID_NODE_ID ->
  m_filterFCPResponse s = false ->
  start_listen_ok (bus 0%nat node sent) = true -> write_ok (bus 0%nat node sent) = true ->
  stop_listen_ok (bus 0%nat node sent) = true ->
  In f (concat (rounds (bus 0%nat node sent))) -> fcp_answer big_endian node frame f ->
  (dbg_build DEBUG = true -> 0x08000000 <= FCP_MASK_RESPONSE (quad0 big_endian (fr_data f))) ->
  (forall i g, In g (concat (rounds (bus i node sent))) -> fcp_answer big_endian node frame g ->
     exists pad, fr_data g = resp ++ pad) ->
  exists s', fire big_endian DEBUG uninit bus c s
             = (if expected_response (nth 0 resp 0) then (r, serialize_dbg c2) else (false, c2), s')
             /\ m_handle_lock s' = m_handle_lock s.
Proof.
  intros node frame sent Hc Hsh Hv Sc Sv Hn F Ha Hw Ho Hin A D U. unfold fire. fold fresh_frame.
  destruct (emits_frame _ _ _ Hc ltac:(lia)) as (se & -> & -> & ->). simpl negb. cbv iota. rewrite Hsh.
  rewrite wrapU_small by lia. fold frame. set (len := (zlength req + 3) / 4) in *.
  assert (1 <= len < MAX_FCP_BLOCK_SIZE_QUADS) as Hlen by (unfold len, MAX_FCP_BLOCK_SIZE_QUADS; zlia).
  assert (len * 4 <= zlength frame) as Hbuf
    by (unfold frame; rewrite zlength_frame_image by lia; unfold MAX_FCP_BLOCK_SIZE_QUADS in *; lia).
  destruct (transactionBlock_found big_endian (dbg_build DEBUG) bus _ frame len s f Hlen Hbuf Hn F Ha Hw Ho Hin A D)
    as (buf & rl & s1 & E).
  destruct (transactionBlock_matches _ _ _ _ _ _ _ _ _ _ Hlen Hbuf E) as (L1 & i & g & _ & Hg & Ag & R).
  destruct (U i g Hg Ag) as (pad & Eg). rewrite E. cbn beta iota.
  destruct (holds_frame g buf rl _ pad R Eg ltac:(lia)) as (T1 & T2 & T3).
  assert (nth 0 buf 0 = nth 0 resp 0) as ->.
  { destruct resp as [|b resp]; [by destruct Sv|]. destruct buf; simpl in *; congruence. }
  rewrite wrapU_small by lia.
  pose proof (reads_frame _ _ _ buf (rl * 4) Hv ltac:(lia) ltac:(lia) T3) as Ed.
  destruct (cmd_deserialize _ _ _) as [[r' c'] d]. simpl in Ed. injection Ed as -> ->.
  destruct (expected_response _); (eexists; split; [done|]); simpl; lia.
Qed.

(** C30. One exchange: a well-formed command fired at a valid node, where the first try reaches the bus
    and every answer the device sends is the frame of [v] (possibly followed by padding) with one
    of the response codes accepted, implemented, rejected or not implemented, succeeds; the
    command object has then read [v], recorded the response code, and the lock is free again.  This includes the messages,
    for which [fire] serialises the object again after the response and, at the highest debug level, also before the
    transaction; it holds of the command classes whose [serialize] leaves the object alone ([AVCCmdSpec]),
    the EFC commands of EfcExchange not being one of them. *)
Theorem fire_exchange big_endian (DEBUG : debug_settings) uninit bus {T} `{AVCCmdSpec T} (c v : T) s f :
  let node := 0xffc0 .| m_nodeId (cmd_base c) in
  let frame := frame_image (cmd_bytes c) in
  let sent := take (Z.to_nat ((zlength (cmd_bytes c) + 3) / 4 * 4)) frame in
  let c' := cmd_set_base (set_response (m_ctype (cmd_base v)) (cmd_base c)) c in
  cmd_ok c -> cmd_ok v -> cmd_reads c' v -> m_nodeId (cmd_base c) <> INVALID_NODE_ID ->
  m_filterFCPResponse s = false -> expected_response (m_ctype (cmd_base v)) = true ->
  start_listen_ok (bus 0%nat node sent) = true -> write_ok (bus 0%nat node sent) = true ->
  stop_listen_ok (bus 0%nat node sent) = true ->
  In f (concat (rounds (bus 0%nat node sent))) -> fcp_answer big_endian node frame f ->
  (dbg_build DEBUG = true -> 0x08000000 <= FCP_MASK_RESPONSE (quad0 big_endian (fr_data f))) ->
  (forall i g, In g (concat (rounds (bus i node sent))) -> fcp_answer big_endian node frame g ->
     exists pad, fr_data g = cmd_bytes v ++ pad) ->
  exists s', fire big_endian DEBUG uninit bus c s = ((true, cmd_recv c' v), s')
             /\ m_handle_lock s' = m_handle_lock s.
Proof.
  intros node frame sent c' Hc Hv Hr Hn F X Ha Hw Ho Hin A D U.
  pose proof (cmd_size c Hc). pose proof (cmd_size v Hv) as Sv.
  assert (nth 0 (cmd_bytes v) 0 = m_ctype (cmd_base v)) as E0.
  { pose proof (cmd_head v) as Hh. destruct (cmd_bytes v) as [|b l]; [done|].
    simpl in Hh. injection Hh as -> _. done. }
  destruct (fire_answered big_endian DEBUG uninit bus c c c (cmd_recv c' v) (cmd_bytes c) (cmd_bytes v) true s f)
    as (s' & E & L); try done; try lia; [|exact (show_request_id DEBUG c)| |by exists s'; rewrite E, E0, X, (serialize_dbg_id (cmd_recv c' v))].
  - exact (cmd_emits big_endian (H1 := buffer_serialize_spec big_endian) c Hc).
  - rewrite E0. apply parses_reads. exact (cmd_parses big_endian (H1 := buffer_deserialize_spec big_endian) uninit c' v Hv Hr).
Qed.

Lemma fire_exchange_witness :
  exists s', fire false true 0xAA example_bus
    (mkUnitInfo (mkAVC 2 eCT_Status 0xFF 0x30 eR_Unknown eCT_Status) 0xff 31 7 0xffffff) example_service
  = ((true, mkUnitInfo (mkAVC 2 0x0C 0xFF 0x30 0x0C eCT_Status) 7 1 0 0x000A35), s') /\ m_handle_lock s' = 0.
Proof.
  destruct (fire_exchange false true 0xAA example_bus
    (mkUnitInfo (mkAVC 2 eCT_Status 0xFF 0x30 eR_Unknown eCT_Status) 0xff 31 7 0xffffff)
    (mkUnitInfo (mkAVC 2 0x0C 0xFF 0x30 0 eCT_Status) 7 1 0 0x000A35) example_service
    (mkFrame 0xffc2 true [0x0C; 0xFF; 0x30; 0x07; 0x08; 0x00; 0x0A; 0x35])) as (s' & E1 & E2);
    [split_and!; vm_compute; done|split_and!; vm_compute; done|vm_compute; done..|vm_compute; auto| | | |].
  - split_and!; vm_compute; done.
  - vm_compute. done.
  - intros i g Hg (_ & _ & _ & _ & H1 & H2). vm_compute in Hg.
    destruct Hg as [<-|[<-|[<-|[]]]]; [by vm_compute in H2|by vm_compute in H1|by exists []].
  - exists s'. split; [exact E1|exact E2].
Defined.

(** Errors the base class does not report: on a full frame [AVCCommand::serialize] writes nothing
    and on an empty one [AVCCommand::deserialize] reads nothing, and both return true. *)
Theorem base_errors_ignored be {SE DE} `{SerializeSpec be SE, DeserializeSpec be DE} c :
  (forall s : SE, se_wf s -> se_room s = 0 -> AVCCommand_serialize c s = (true, s))
  /\ (forall d : DE, de_wf d -> de_in d = [] -> AVCCommand_deserialize c d = ((true, c), d)).
Proof.
  split.
  - intros s W R. unfold AVCCommand_serialize, mbind, st_bind, mret, st_ret.
    do 3 (rewrite (full_byte _ s) by done; cbn [fst snd]). done.
  - intros d W E. unfold AVCCommand_deserialize, mbind, st_bind, mret, st_ret.
    do 3 (rewrite (end_byte _ d) by done; cbn [fst snd]). by destruct c.
Qed.

Lemma base_errors_ignored_witness :
  @AVCCommand_serialize _ (buffer_serialize true) (AVCCommand_new 0 0x30) (mkBuffer [1; 2] 2 2)
  = (true, mkBuffer [1; 2] 2 2).
Proof.
  apply (proj1 (base_errors_ignored true (H0 := buffer_serialize_spec true)
    (H2 := buffer_deserialize_spec true) (AVCCommand_new 0 0x30))); [|done].
  unfold buffer_wf. vm_compute. repeat split; congruence.
Defined.

(** The subunit byte: type and id are set independently of each other and of the order, and are
    read back by the getters. *)
Theorem subunit_byte_fields t i c : 0 <= t < 32 -> 0 <= i < 8 ->
  let c1 := setSubunitId i (setSubunitType t c) in
  c1 = setSubunitType t (setSubunitId i c) /\ byte_ok (m_subunit c1)
  /\ getSubunitType c1 = t /\ getSubunitId c1 = i.
Proof.
  intros Ht Hi. assert (forall x, u8 ((u8 t << 3) .| (x .& 0x7)) = t * 8 + x mod 8) as E1.
  { intros x. rewrite (wrapU_small 8 t) by lia. fields. }
  assert (forall x, (i .& 0x7) .| (x .& 0xf8) = (x / 8) mod 32 * 8 + i) as E2.
  { intros x. rewrite Z.lor_comm. replace (x .& 0xf8) with (((x / 8) mod 32) << 3); [fields|].
    change ((x / 8) mod 32) with ((x / 2 ^ 3) mod 2 ^ 5). rewrite <- (field_get x 3 5) by lia. rewrite Z.shiftl_mul_pow2, Z.shiftr_div_pow2 by lia.
    change (Z.ones 5 << 3) with 0xf8. assert ((x .& 0xf8) mod 2 ^ 3 = 0); [|zlia].
    rewrite <- Z.land_ones, <- Z.land_assoc by lia. change (0xf8 .& Z.ones 3) with 0. apply Z.land_0_r. }
  unfold setSubunitId, setSubunitType, getSubunitType, getSubunitId, byte_ok. simpl.
  rewrite E1, E2, E2, E1. split; [f_equal; zlia|]. split; [zlia|]. split; fields.
Qed.

Lemma subunit_byte_fields_witness :
  m_subunit (setSubunitId 3 (setSubunitType 0xC (AVCCommand_new 0 0x02))) = 0x63
  /\ getSubunitType (setSubunitId 3 (setSubunitType 0xC (AVCCommand_new 0 0x02))) = 0xC.
Proof.
  split; [reflexivity|].
  refine (proj1 (proj2 (proj2 (subunit_byte_fields 0xC 3 (AVCCommand_new 0 0x02) _ _)))); lia.
Defined.
