(* ===== verification/PlugAddress.v ===== *)
(** * Plug addresses of the extended commands

    Model of [src/libavc/general/avc_extended_cmd_generic.cpp]: the plug addresses that the
    BridgeCo extended commands carry.  The subclasses of [PlugAddressData] are the
    constructors of one type; [clone] makes an equal value. *)
From S2P Require Import Prelude ByteSwap CmdSerialize AvcCommands.

Inductive PlugAddressData :=
  | UnitPlugAddress (plugType plugId reserved : Z)
  | SubunitPlugAddress (plugId reserved0 reserved1 : Z)
  | FunctionBlockPlugAddress (functionBlockType functionBlockId plugId : Z)
  | UndefinedPlugAddress (reserved0 reserved1 reserved2 : Z)
  | UnitPlugSpecificDataPlugAddress (plugType plugId reserved0 reserved1 reserved2 : Z)
  | SubunitPlugSpecificDataPlugAddress (subunitType subunitId plugId reserved0 reserved1 : Z)
  | FunctionBlockPlugSpecificDataPlugAddress
      (subunitType subunitId functionBlockType functionBlockId plugId : Z)
  | UndefinedPlugSpecificDataPlugAddress (reserved0 reserved1 reserved2 reserved3 reserved4 : Z).

Definition UnitPlugAddress_new (plugType plugId : Z) := UnitPlugAddress (u8 plugType) plugId 0xff.
Definition SubunitPlugAddress_new (plugId : Z) := SubunitPlugAddress plugId 0xff 0xff.
Definition FunctionBlockPlugAddress_new (t i p : Z) := FunctionBlockPlugAddress t i p.
Definition UndefinedPlugAddress_new := UndefinedPlugAddress 0xff 0xff 0xff.
Definition UnitPlugSpecificDataPlugAddress_new (plugType plugId : Z) :=
  UnitPlugSpecificDataPlugAddress (u8 plugType) plugId 0xff 0xff 0xff.
Definition SubunitPlugSpecificDataPlugAddress_new (subunitType subunitId plugId : Z) :=
  SubunitPlugSpecificDataPlugAddress (u8 subunitType) subunitId plugId 0xff 0xff.
Definition FunctionBlockPlugSpecificDataPlugAddress_new (subunitType subunitId t i p : Z) :=
  FunctionBlockPlugSpecificDataPlugAddress (u8 subunitType) subunitId t i p.
Definition UndefinedPlugSpecificDataPlugAddress_new :=
  UndefinedPlugSpecificDataPlugAddress 0xff 0xff 0xff 0xff 0xff.

Definition ePD_Input : Z := 0x00.
Definition ePD_Output : Z := 0x01.
Definition ePD_Undefined : Z := 0xff.
Definition ePAM_Unit : Z := 0x00.
Definition ePAM_Subunit : Z := 0x01.
Definition ePAM_FunctionBlock : Z := 0x02.
Definition ePAM_Undefined : Z := 0xff.
Definition ePT_PCR : Z := 0x00.

(** [PlugAddress] and [PlugAddressSpecificData] have the same members. *)
Record PlugAddress := mkPlugAddress {
  m_plugDirection : Z;
  m_addressMode : Z;
  m_plugAddressData : PlugAddressData;
}.

Definition PlugAddress_new (direction mode : Z) (data : PlugAddressData) : PlugAddress :=
  mkPlugAddress (u8 direction) (u8 mode) data.
Definition PlugAddress_undefined : PlugAddress :=
  mkPlugAddress ePD_Undefined ePAM_Undefined UndefinedPlugAddress_new.

Section address.
Context {SE DE : Type} `{IOSSerialize SE, IISDeserialize DE}.

Definition UnitPlugAddress_serialize (plugType plugId reserved : Z) : st SE bool :=
  write_byte plugType ;; write_byte plugId ;; write_byte reserved ;;
  mret true.

Definition SubunitPlugAddress_serialize (plugId reserved0 reserved1 : Z) : st SE bool :=
  write_byte plugId ;; write_byte reserved0 ;; write_byte reserved1 ;;
  mret true.

Definition FunctionBlockPlugAddress_serialize (functionBlockType functionBlockId plugId : Z) : st SE bool :=
  write_byte functionBlockType ;; write_byte functionBlockId ;; write_byte plugId ;;
  mret true.

Definition UndefinedPlugAddress_serialize (reserved0 reserved1 reserved2 : Z) : st SE bool :=
  write_byte reserved0 ;; write_byte reserved1 ;; write_byte reserved2 ;;
  mret true.

Definition UnitPlugSpecificDataPlugAddress_serialize (plugType plugId reserved0 reserved1 reserved2 : Z) : st SE bool :=
  write_byte plugType ;; write_byte plugId ;; write_byte reserved0 ;; write_byte reserved1 ;; write_byte reserved2 ;;
  mret true.

Definition SubunitPlugSpecificDataPlugAddress_serialize (subunitType subunitId plugId reserved0 reserved1 : Z) : st SE bool :=
  write_byte subunitType ;; write_byte subunitId ;; write_byte plugId ;; write_byte reserved0 ;; write_byte reserved1 ;;
  mret true.

Definition FunctionBlockPlugSpecificDataPlugAddress_serialize (subunitType subunitId functionBlockType functionBlockId plugId : Z) : st SE bool :=
  write_byte subunitType ;; write_byte subunitId ;; write_byte functionBlockType ;; write_byte functionBlockId ;; write_byte plugId ;;
  mret true.

Definition UndefinedPlugSpecificDataPlugAddress_serialize (reserved0 reserved1 reserved2 reserved3 reserved4 : Z) : st SE bool :=
  write_byte reserved0 ;; write_byte reserved1 ;; write_byte reserved2 ;; write_byte reserved3 ;; write_byte reserved4 ;;
  mret true.

Definition UnitPlugAddress_deserialize (plugType plugId reserved : Z) : st DE (bool * PlugAddressData) :=
  '(_, plugType) ← read_byte plugType;
  '(_, plugId) ← read_byte plugId;
  '(_, reserved) ← read_byte reserved;
  mret (true, UnitPlugAddress plugType plugId reserved).

Definition SubunitPlugAddress_deserialize (plugId reserved0 reserved1 : Z) : st DE (bool * PlugAddressData) :=
  '(_, plugId) ← read_byte plugId;
  '(_, reserved0) ← read_byte reserved0;
  '(_, reserved1) ← read_byte reserved1;
  mret (true, SubunitPlugAddress plugId reserved0 reserved1).

Definition FunctionBlockPlugAddress_deserialize (functionBlockType functionBlockId plugId : Z) : st DE (bool * PlugAddressData) :=
  '(_, functionBlockType) ← read_byte functionBlockType;
  '(_, functionBlockId) ← read_byte functionBlockId;
  '(_, plugId) ← read_byte plugId;
  mret (true, FunctionBlockPlugAddress functionBlockType functionBlockId plugId).

Definition UndefinedPlugAddress_deserialize (reserved0 reserved1 reserved2 : Z) : st DE (bool * PlugAddressData) :=
  '(_, reserved0) ← read_byte reserved0;
  '(_, reserved1) ← read_byte reserved1;
  '(_, reserved2) ← read_byte reserved2;
  mret (true, UndefinedPlugAddress reserved0 reserved1 reserved2).

Definition UnitPlugSpecificDataPlugAddress_deserialize (plugType plugId reserved0 reserved1 reserved2 : Z) : st DE (bool * PlugAddressData) :=
  '(_, plugType) ← read_byte plugType;
  '(_, plugId) ← read_byte plugId;
  '(_, reserved0) ← read_byte reserved0;
  '(_, reserved1) ← read_byte reserved1;
  '(_, reserved2) ← read_byte reserved2;
  mret (true, UnitPlugSpecificDataPlugAddress plugType plugId reserved0 reserved1 reserved2).

Definition SubunitPlugSpecificDataPlugAddress_deserialize (subunitType subunitId plugId reserved0 reserved1 : Z) : st DE (bool * PlugAddressData) :=
  '(_, subunitType) ← read_byte subunitType;
  '(_, subunitId) ← read_byte subunitId;
  '(_, plugId) ← read_byte plugId;
  '(_, reserved0) ← read_byte reserved0;
  '(_, reserved1) ← read_byte reserved1;
  mret (true, SubunitPlugSpecificDataPlugAddress subunitType subunitId plugId reserved0 reserved1).

Definition FunctionBlockPlugSpecificDataPlugAddress_deserialize (subunitType subunitId functionBlockType functionBlockId plugId : Z) : st DE (bool * PlugAddressData) :=
  '(_, subunitType) ← read_byte subunitType;
  '(_, subunitId) ← read_byte subunitId;
  '(_, functionBlockType) ← read_byte functionBlockType;
  '(_, functionBlockId) ← read_byte functionBlockId;
  '(_, plugId) ← read_byte plugId;
  mret (true, FunctionBlockPlugSpecificDataPlugAddress subunitType subunitId functionBlockType functionBlockId plugId).

Definition UndefinedPlugSpecificDataPlugAddress_deserialize (reserved0 reserved1 reserved2 reserved3 reserved4 : Z) : st DE (bool * PlugAddressData) :=
  '(_, reserved0) ← read_byte reserved0;
  '(_, reserved1) ← read_byte reserved1;
  '(_, reserved2) ← read_byte reserved2;
  '(_, reserved3) ← read_byte reserved3;
  '(_, reserved4) ← read_byte reserved4;
  mret (true, UndefinedPlugSpecificDataPlugAddress reserved0 reserved1 reserved2 reserved3 reserved4).

(** The virtual calls of [PlugAddressData]. *)
Definition PlugAddressData_serialize (a : PlugAddressData) : st SE bool :=
  match a with
  | UnitPlugAddress x y z => UnitPlugAddress_serialize x y z
  | SubunitPlugAddress x y z => SubunitPlugAddress_serialize x y z
  | FunctionBlockPlugAddress x y z => FunctionBlockPlugAddress_serialize x y z
  | UndefinedPlugAddress x y z => UndefinedPlugAddress_serialize x y z
  | UnitPlugSpecificDataPlugAddress x y z u v => UnitPlugSpecificDataPlugAddress_serialize x y z u v
  | SubunitPlugSpecificDataPlugAddress x y z u v => SubunitPlugSpecificDataPlugAddress_serialize x y z u v
  | FunctionBlockPlugSpecificDataPlugAddress x y z u v => FunctionBlockPlugSpecificDataPlugAddress_serialize x y z u v
  | UndefinedPlugSpecificDataPlugAddress x y z u v => UndefinedPlugSpecificDataPlugAddress_serialize x y z u v
  end.

Definition PlugAddressData_deserialize (a : PlugAddressData) : st DE (bool * PlugAddressData) :=
  match a with
  | UnitPlugAddress x y z => UnitPlugAddress_deserialize x y z
  | SubunitPlugAddress x y z => SubunitPlugAddress_deserialize x y z
  | FunctionBlockPlugAddress x y z => FunctionBlockPlugAddress_deserialize x y z
  | UndefinedPlugAddress x y z => UndefinedPlugAddress_deserialize x y z
  | UnitPlugSpecificDataPlugAddress x y z u v => UnitPlugSpecificDataPlugAddress_deserialize x y z u v
  | SubunitPlugSpecificDataPlugAddress x y z u v => SubunitPlugSpecificDataPlugAddress_deserialize x y z u v
  | FunctionBlockPlugSpecificDataPlugAddress x y z u v => FunctionBlockPlugSpecificDataPlugAddress_deserialize x y z u v
  | UndefinedPlugSpecificDataPlugAddress x y z u v => UndefinedPlugSpecificDataPlugAddress_deserialize x y z u v
  end.

Definition PlugAddress_serialize (a : PlugAddress) : st SE bool :=
  write_byte (m_plugDirection a) ;;
  write_byte (m_addressMode a) ;;
  PlugAddressData_serialize (m_plugAddressData a).

(** The address data keeps its class, whatever mode is read. *)
Definition PlugAddress_deserialize (a : PlugAddress) : st DE (bool * PlugAddress) :=
  '(_, direction) ← read_byte (m_plugDirection a);
  '(_, mode) ← read_byte (m_addressMode a);
  '(r, data) ← PlugAddressData_deserialize (m_plugAddressData a);
  mret (r, mkPlugAddress direction mode data).

(** The address data is replaced by an object of the class that the mode calls for. *)
Definition PlugAddressSpecificData_deserialize (a : PlugAddress) : st DE (bool * PlugAddress) :=
  '(_, direction) ← read_byte (m_plugDirection a);
  '(_, mode) ← read_byte (m_addressMode a);
  '(r, data) ← PlugAddressData_deserialize
    (if mode =? ePAM_Unit then UnitPlugSpecificDataPlugAddress_new ePT_PCR 0xff
     else if mode =? ePAM_Subunit then SubunitPlugSpecificDataPlugAddress_new eST_Reserved 0xff 0xff
     else if mode =? ePAM_FunctionBlock
     then FunctionBlockPlugSpecificDataPlugAddress_new eST_Reserved 0xff 0xff 0xff 0xff
     else UndefinedPlugSpecificDataPlugAddress_new);
  mret (r, mkPlugAddress direction mode data).
End address.

(** ** Lemmas *)

Definition data_bytes (a : PlugAddressData) : list Z :=
  match a with
  | UnitPlugAddress x y z | SubunitPlugAddress x y z
  | FunctionBlockPlugAddress x y z | UndefinedPlugAddress x y z => [x; y; z]
  | UnitPlugSpecificDataPlugAddress x y z u v | SubunitPlugSpecificDataPlugAddress x y z u v
  | FunctionBlockPlugSpecificDataPlugAddress x y z u v
  | UndefinedPlugSpecificDataPlugAddress x y z u v => [x; y; z; u; v]
  end.

Definition address_frame (a : PlugAddress) : list Z :=
  m_plugDirection a :: m_addressMode a :: data_bytes (m_plugAddressData a).

Definition plug_address_ok (a : PlugAddress) : Prop := Forall byte_ok (address_frame a).

(** The class of an address object. *)
Inductive address_class := cUnit | cSubunit | cFunctionBlock | cUndefined
  | cUnitSpecific | cSubunitSpecific | cFunctionBlockSpecific | cUndefinedSpecific.

Definition class_of (a : PlugAddressData) : address_class :=
  match a with
  | UnitPlugAddress _ _ _ => cUnit
  | SubunitPlugAddress _ _ _ => cSubunit
  | FunctionBlockPlugAddress _ _ _ => cFunctionBlock
  | UndefinedPlugAddress _ _ _ => cUndefined
  | UnitPlugSpecificDataPlugAddress _ _ _ _ _ => cUnitSpecific
  | SubunitPlugSpecificDataPlugAddress _ _ _ _ _ => cSubunitSpecific
  | FunctionBlockPlugSpecificDataPlugAddress _ _ _ _ _ => cFunctionBlockSpecific
  | UndefinedPlugSpecificDataPlugAddress _ _ _ _ _ => cUndefinedSpecific
  end.

Lemma emits_PlugAddress be {SE} `{SerializeSpec be SE} a : plug_address_ok a ->
  emits (PlugAddress_serialize a) (address_frame a) true.
Proof.
  unfold plug_address_ok, address_frame, PlugAddress_serialize. destruct a as [d m [ | | | | | | | ]]; simpl;
    rewrite ?Forall_cons_iff; intros; destruct_and!;
    unfold UnitPlugAddress_serialize,
      SubunitPlugAddress_serialize,
      FunctionBlockPlugAddress_serialize,
      UndefinedPlugAddress_serialize,
      UnitPlugSpecificDataPlugAddress_serialize,
      SubunitPlugSpecificDataPlugAddress_serialize,
      FunctionBlockPlugSpecificDataPlugAddress_serialize,
      UndefinedPlugSpecificDataPlugAddress_serialize; emits.
Qed.

(** Reading into an object of the same class gives the object that was written. *)
Lemma parses_data be {DE} `{DeserializeSpec be DE} c v : class_of c = class_of v ->
  parses (PlugAddressData_deserialize c) (data_bytes v) (true, v).
Proof.
  destruct c, v; intros E; try discriminate E;
    unfold PlugAddressData_deserialize, UnitPlugAddress_deserialize,
      SubunitPlugAddress_deserialize,
      FunctionBlockPlugAddress_deserialize,
      UndefinedPlugAddress_deserialize,
      UnitPlugSpecificDataPlugAddress_deserialize,
      SubunitPlugSpecificDataPlugAddress_deserialize,
      FunctionBlockPlugSpecificDataPlugAddress_deserialize,
      UndefinedPlugSpecificDataPlugAddress_deserialize; parses.
Qed.

#[export] Hint Resolve emits_PlugAddress parses_data : wire.

Lemma parses_PlugAddress be {DE} `{DeserializeSpec be DE} c v :
  class_of (m_plugAddressData c) = class_of (m_plugAddressData v) ->
  parses (PlugAddress_deserialize c) (address_frame v) (true, v).
Proof. intros E. unfold PlugAddress_deserialize. destruct v. parses. Qed.

(** The class [PlugAddressSpecificData::deserialize] chooses for a mode. *)
Definition class_for_mode (mode : Z) : address_class :=
  if mode =? ePAM_Unit then cUnitSpecific
  else if mode =? ePAM_Subunit then cSubunitSpecific
  else if mode =? ePAM_FunctionBlock then cFunctionBlockSpecific
  else cUndefinedSpecific.

Lemma parses_PlugAddressSpecificData be {DE} `{DeserializeSpec be DE} c v :
  class_of (m_plugAddressData v) = class_for_mode (m_addressMode v) ->
  parses (PlugAddressSpecificData_deserialize c) (address_frame v) (true, v).
Proof.
  intros E. unfold PlugAddressSpecificData_deserialize. destruct v as [d m data]. simpl in E.
  eapply (parses_bind _ _ [d]); [apply parses_byte|]. eapply (parses_bind _ _ [m]); [apply parses_byte|].
  cbn beta iota. match goal with |- context [PlugAddressData_deserialize ?f] => set (fresh := f) end.
  assert (class_of fresh = class_of data) as Ec.
  { rewrite E. unfold fresh, class_for_mode. by repeat case_match. }
  unfold address_frame. cbn [m_plugAddressData]. clearbody fresh. parses.
Qed.

Local Tactic Notation "pick" uconstr(k) := solve [eexists k; split; simpl; reflexivity].

(** An object of the class of [c] with the bytes of [v]. *)
Lemma retype c v : length (data_bytes c) = length (data_bytes v) ->
  exists data, class_of data = class_of c /\ data_bytes data = data_bytes v.
Proof.
  intros L. destruct v, c; try discriminate L;
    first [ pick (UnitPlugAddress _ _ _) | pick (SubunitPlugAddress _ _ _)
          | pick (FunctionBlockPlugAddress _ _ _) | pick (UndefinedPlugAddress _ _ _)
          | pick (UnitPlugSpecificDataPlugAddress _ _ _ _ _)
          | pick (SubunitPlugSpecificDataPlugAddress _ _ _ _ _)
          | pick (FunctionBlockPlugSpecificDataPlugAddress _ _ _ _ _)
          | pick (UndefinedPlugSpecificDataPlugAddress _ _ _ _ _) ].
Qed.

(** ** Theorems *)

Section frames.
Context (big_endian : bool).

(** Write [v] to a buffer and let [c] read it, as the extended commands do. *)
Definition address_through (read : PlugAddress -> st buffer (bool * PlugAddress)) (c v : PlugAddress) :
    bool * (bool * PlugAddress) :=
  let '(ok, se) := @PlugAddress_serialize _ (buffer_serialize big_endian) v (BufferSerialize (replicate 16 0) 16) in
  (ok, (read c (BufferDeserialize (mem se) 16)).1).

Lemma address_through_ok read c v x : plug_address_ok v -> parses (read c) (address_frame v) x ->
  address_through read c v = (true, x).
Proof.
  intros Hv Hp. unfold address_through. set (b0 := BufferSerialize (replicate 16 0) 16).
  assert (zlength (address_frame v) <= 7) as Hl
    by (unfold address_frame, zlength; destruct (m_plugAddressData v); simpl; lia).
  destruct (emits_PlugAddress big_endian (H0 := buffer_serialize_spec big_endian) v Hv b0)
    as (se & -> & W & O & R & _); [unfold buffer_wf; split_and!; done|change (se_room b0) with 16; lia|].
  destruct (reread se 16 (address_frame v) W O R) as (_ & Wd & I); [lia|].
  destruct (Hp _ _ Wd I) as (d & -> & _). done.
Qed.
End frames.

(** A plug address with extended data is read back exactly, whatever the reading object held
    before: the class of the address data is chosen by the mode in the frame.  A plain plug
    address is read back exactly by an object of the same class, and an object of another
    class with the same number of bytes keeps its class but writes the same frame again. *)
Theorem plug_address_roundtrip big_endian c v : plug_address_ok v ->
  (class_of (m_plugAddressData v) = class_for_mode (m_addressMode v) ->
   address_through big_endian (@PlugAddressSpecificData_deserialize _ (buffer_deserialize big_endian)) c v
   = (true, (true, v)))
  /\ (length (data_bytes (m_plugAddressData c)) = length (data_bytes (m_plugAddressData v)) ->
   exists w, address_through big_endian (@PlugAddress_deserialize _ (buffer_deserialize big_endian)) c v
             = (true, (true, w))
     /\ address_frame w = address_frame v
     /\ class_of (m_plugAddressData w) = class_of (m_plugAddressData c)
     /\ (class_of (m_plugAddressData c) = class_of (m_plugAddressData v) -> w = v)).
Proof.
  intros Hv. split.
  - intros E. apply address_through_ok; [done|].
    by apply (parses_PlugAddressSpecificData big_endian (H0 := buffer_deserialize_spec big_endian)).
  - intros L. destruct (retype _ _ L) as (data & Ec & Eb).
    set (w := mkPlugAddress (m_plugDirection v) (m_addressMode v) data).
    assert (address_frame w = address_frame v) as Ef by (unfold address_frame, w; simpl; by rewrite Eb).
    exists w. split; [|split_and!; [done|done|]].
    + apply address_through_ok; [done|]. rewrite <- Ef.
      apply (parses_PlugAddress big_endian (H0 := buffer_deserialize_spec big_endian)). done.
    + intros E. destruct v as [d m dv]. unfold w. simpl in *. f_equal.
      rewrite <- Ec in E. destruct data, dv; try discriminate E; simpl in Eb; congruence.
Qed.

Lemma plug_address_roundtrip_witness :
  address_through false (@PlugAddressSpecificData_deserialize _ (buffer_deserialize false)) PlugAddress_undefined
    (mkPlugAddress ePD_Input ePAM_Subunit (SubunitPlugSpecificDataPlugAddress 0xC 0 3 0xff 0xff))
  = (true, (true, mkPlugAddress ePD_Input ePAM_Subunit (SubunitPlugSpecificDataPlugAddress 0xC 0 3 0xff 0xff))).
Proof.
  apply (proj1 (plug_address_roundtrip false PlugAddress_undefined
    (mkPlugAddress ePD_Input ePAM_Subunit (SubunitPlugSpecificDataPlugAddress 0xC 0 3 0xff 0xff))
    ltac:(repeat constructor; done)) eq_refl).
Defined.
