(* ===== verification/StreamFormat.v ===== *)
(** * Extended stream format command

    Model of [src/libavc/streamformat/avc_extended_stream_format.cpp]: the stream format
    objects and the command that reads them from a device.  The vector of pointers of a compound
    format is the list of the objects; the streams object is absent, a sync or a compound
    format. *)
From S2P Require Import Prelude ByteSwap CmdSerialize Fcp AvcCommands AvcExchange PlugAddress.

Definition eSF_DontCare : Z := 0x0F.
Definition eRC_Supported : Z := 0x00.
Definition eRC_DontCare : Z := 0x01.
Definition eFHR_AudioMusic : Z := 0x90.
Definition eFHR_Invalid : Z := 0xFF.
Definition eFHL1_AUDIOMUSIC_AM824 : Z := 0x00.
Definition eFHL1_AUDIOMUSIC_AM824_COMPOUND : Z := 0x40.
Definition eFHL1_AUDIOMUSIC_DONT_CARE : Z := 0xFF.
Definition eFHL2_AM824_SYNC_STREAM : Z := 0x40.
Definition eFHL2_AM824_DONT_CARE : Z := 0xFF.
Definition eS_NotUsed : Z := 0xff.
Definition eSF_ExtendedStreamFormatInformationCommandList : Z := 0xC1.
Definition AVC1394_STREAM_FORMAT_SUPPORT : Z := 0x2F.

Record StreamFormatInfo := mkInfo { m_numberOfChannels : Z; m_streamFormat : Z }.

(** The constructor sets no member. *)
Definition StreamFormatInfo_new (uninit : Z) : StreamFormatInfo := mkInfo uninit uninit.

Record FormatInformationStreamsSync := mkSync {
  sy_reserved0 : Z;
  sy_samplingFrequency : Z;
  sy_rateControl : Z;
  sy_reserved1 : Z;
}.
Definition FormatInformationStreamsSync_new : FormatInformationStreamsSync :=
  mkSync 0xff eSF_DontCare eRC_DontCare 0xff.

Record FormatInformationStreamsCompound := mkCompound {
  cp_samplingFrequency : Z;
  cp_rateControl : Z;
  m_numberOfStreamFormatInfos : Z;
  m_streamFormatInfos : list StreamFormatInfo;
}.
Definition FormatInformationStreamsCompound_new : FormatInformationStreamsCompound :=
  mkCompound eSF_DontCare eRC_DontCare 0 [].

Inductive FormatInformationStreams :=
  | FISync (s : FormatInformationStreamsSync)
  | FICompound (c : FormatInformationStreamsCompound).

Record FormatInformation := mkFormat {
  m_root : Z;
  m_level1 : Z;
  m_level2 : Z;
  m_streams : option FormatInformationStreams;
}.
Definition FormatInformation_new : FormatInformation :=
  mkFormat eFHR_Invalid eFHL1_AUDIOMUSIC_DONT_CARE eFHL2_AM824_DONT_CARE None.

Record ExtendedStreamFormatCmd := mkStreamFormat {
  es_base : AVCCommand;
  es_subFunction : Z;
  m_plugAddress : PlugAddress;
  m_status : Z;
  m_indexInStreamFormat : Z;
  m_formatInformation : FormatInformation;
}.

Definition ExtendedStreamFormatCmd_new (uninit subFunction : Z) : ExtendedStreamFormatCmd :=
  mkStreamFormat (AVCCommand_new uninit AVC1394_STREAM_FORMAT_SUPPORT) (u8 subFunction)
    (PlugAddress_new ePD_Output ePAM_Unit (UnitPlugAddress_new ePT_PCR 0x00))
    eS_NotUsed 0 FormatInformation_new.

(** The copy constructor does not copy the status and the index. *)
Definition ExtendedStreamFormatCmd_copy (uninit : Z) (rhs : ExtendedStreamFormatCmd) : ExtendedStreamFormatCmd :=
  mkStreamFormat (es_base rhs) (es_subFunction rhs) (m_plugAddress rhs) uninit uninit (m_formatInformation rhs).

Definition setPlugAddress (a : PlugAddress) (c : ExtendedStreamFormatCmd) : ExtendedStreamFormatCmd :=
  mkStreamFormat (es_base c) (es_subFunction c) a (m_status c) (m_indexInStreamFormat c) (m_formatInformation c).
Definition setIndexInStreamFormat (i : Z) (c : ExtendedStreamFormatCmd) : ExtendedStreamFormatCmd :=
  mkStreamFormat (es_base c) (es_subFunction c) (m_plugAddress c) (m_status c) (u8 i) (m_formatInformation c).
Definition ExtendedStreamFormatCmd_setSubFunction (f : Z) (c : ExtendedStreamFormatCmd) : ExtendedStreamFormatCmd :=
  mkStreamFormat (es_base c) (u8 f) (m_plugAddress c) (m_status c) (m_indexInStreamFormat c) (m_formatInformation c).
Definition getStatus (c : ExtendedStreamFormatCmd) : Z := m_status c.
Definition getFormatInformation (c : ExtendedStreamFormatCmd) : FormatInformation := m_formatInformation c.
Definition getIndex (c : ExtendedStreamFormatCmd) : Z := m_indexInStreamFormat c.

Section serialize.
Context {SE : Type} `{IOSSerialize SE}.

Definition StreamFormatInfo_serialize (i : StreamFormatInfo) : st SE bool :=
  write_byte (m_numberOfChannels i) ;;
  write_byte (m_streamFormat i) ;;
  mret true.

(** The operand with the sampling frequency and the rate control. *)
Definition sync_operand (s : FormatInformationStreamsSync) : Z :=
  let operand := u8 ((sy_samplingFrequency s << 4) .| 0x0e) in
  if sy_rateControl s =? eRC_DontCare then operand .| 0x1 else operand.

Definition FormatInformationStreamsSync_serialize (s : FormatInformationStreamsSync) : st SE bool :=
  write_byte (sy_reserved0 s) ;;
  write_byte (sync_operand s) ;;
  write_byte (sy_reserved1 s) ;;
  mret true.

Definition FormatInformationStreamsCompound_serialize (c : FormatInformationStreamsCompound) : st SE bool :=
  write_byte (cp_samplingFrequency c) ;;
  write_byte (cp_rateControl c) ;;
  write_byte (m_numberOfStreamFormatInfos c) ;;
  each (StreamFormatInfo_serialize <$> m_streamFormatInfos c) ;;
  mret true.

Definition FormatInformation_serialize (f : FormatInformation) : st SE bool :=
  (if negb (m_root f =? eFHR_Invalid) then
     write_byte (m_root f) ;;
     if negb (m_level1 f =? eFHL1_AUDIOMUSIC_DONT_CARE) then
       write_byte (m_level1 f) ;;
       if negb (m_level2 f =? eFHL2_AM824_DONT_CARE) then write_byte (m_level2 f) else mret true
     else mret true
   else mret true) ;;
  match m_streams f with
  | Some (FISync s) => FormatInformationStreamsSync_serialize s
  | Some (FICompound c) => FormatInformationStreamsCompound_serialize c
  | None => mret true
  end.

Definition ExtendedStreamFormatCmd_serialize (c : ExtendedStreamFormatCmd) : st SE bool :=
  AVCCommand_serialize (es_base c) ;;
  write_byte (es_subFunction c) ;;
  PlugAddress_serialize (m_plugAddress c) ;;
  write_byte (m_status c) ;;
  (if es_subFunction c =? eSF_ExtendedStreamFormatInformationCommandList
   then write_byte (m_indexInStreamFormat c) else mret true) ;;
  FormatInformation_serialize (m_formatInformation c) ;;
  mret true.
End serialize.

Section deserialize.
Context {DE : Type} `{IISDeserialize DE} (uninit : Z).

Definition StreamFormatInfo_deserialize (i : StreamFormatInfo) : st DE (bool * StreamFormatInfo) :=
  '(_, n) ← read_byte (m_numberOfChannels i);
  '(_, f) ← read_byte (m_streamFormat i);
  mret (true, mkInfo n f).

Definition FormatInformationStreamsSync_deserialize (s : FormatInformationStreamsSync) :
    st DE (bool * FormatInformationStreamsSync) :=
  '(_, r0) ← read_byte (sy_reserved0 s);
  '(_, operand) ← read_byte uninit;
  '(_, r1) ← read_byte (sy_reserved1 s);
  mret (true, mkSync r0 (operand >> 4) (operand .& 0x01) r1).

(** [n] rounds of the loop are left; the infos are appended to the vector. *)
Fixpoint read_infos (n : nat) (acc : list StreamFormatInfo) : st DE (bool * list StreamFormatInfo) :=
  match n with
  | O => mret (true, acc)
  | S n =>
      '(ok, i) ← StreamFormatInfo_deserialize (StreamFormatInfo_new uninit);
      if negb ok then mret (false, acc) else read_infos n (acc ++ [i])
  end.

Definition FormatInformationStreamsCompound_deserialize (c : FormatInformationStreamsCompound) :
    st DE (bool * FormatInformationStreamsCompound) :=
  '(_, sf) ← read_byte (cp_samplingFrequency c);
  '(_, rc) ← read_byte (cp_rateControl c);
  '(_, n) ← read_byte (m_numberOfStreamFormatInfos c);
  '(ok, l) ← read_infos (Z.to_nat n) (m_streamFormatInfos c);
  mret (ok, mkCompound sf rc n l).

Definition FormatInformation_deserialize (f : FormatInformation) : st DE (bool * FormatInformation) :=
  '(_, root) ← read_byte (m_root f);
  if root =? eFHR_AudioMusic then
    '(_, level1) ← read_byte (m_level1 f);
    if level1 =? eFHL1_AUDIOMUSIC_AM824 then
      '(_, level2) ← read_byte (m_level2 f);
      if level2 =? eFHL2_AM824_SYNC_STREAM then
        '(r, s) ← FormatInformationStreamsSync_deserialize FormatInformationStreamsSync_new;
        mret (r, mkFormat root level1 level2 (Some (FISync s)))
      else mret (false, mkFormat root level1 level2 None)
    else if level1 =? eFHL1_AUDIOMUSIC_AM824_COMPOUND then
      '(r, c) ← FormatInformationStreamsCompound_deserialize FormatInformationStreamsCompound_new;
      mret (r, mkFormat root level1 (m_level2 f) (Some (FICompound c)))
    else mret (false, mkFormat root level1 (m_level2 f) None)
  else mret (false, mkFormat root (m_level1 f) (m_level2 f) None).

Definition ExtendedStreamFormatCmd_deserialize (c : ExtendedStreamFormatCmd) : st DE (bool * ExtendedStreamFormatCmd) :=
  '(_, b) ← AVCCommand_deserialize (es_base c);
  '(_, sub) ← read_byte (es_subFunction c);
  '(_, a) ← PlugAddress_deserialize (m_plugAddress c);
  '(_, status) ← read_byte (m_status c);
  '(_, index) ← (if sub =? eSF_ExtendedStreamFormatInformationCommandList
                 then read_byte (m_indexInStreamFormat c) else mret (true, m_indexInStreamFormat c));
  '(_, f) ← FormatInformation_deserialize (m_formatInformation c);
  mret (true, mkStreamFormat b sub a status index f).
End deserialize.

#[export] Instance ExtendedStreamFormatCmd_cmd : AVCCmd ExtendedStreamFormatCmd := {
  cmd_base := es_base;
  cmd_set_base b c := mkStreamFormat b (es_subFunction c) (m_plugAddress c) (m_status c)
    (m_indexInStreamFormat c) (m_formatInformation c);
  cmd_serialize _ _ c := unchanged c (ExtendedStreamFormatCmd_serialize c);
  cmd_deserialize _ _ := ExtendedStreamFormatCmd_deserialize;
}.

(** ** Lemmas *)

Definition info_bytes (i : StreamFormatInfo) : list Z := [m_numberOfChannels i; m_streamFormat i].

Definition streams_bytes (s : FormatInformationStreams) : list Z :=
  match s with
  | FISync s => [sy_reserved0 s; sync_operand s; sy_reserved1 s]
  | FICompound c => [cp_samplingFrequency c; cp_rateControl c; m_numberOfStreamFormatInfos c]
                    ++ concat (info_bytes <$> m_streamFormatInfos c)
  end.

(** The hierarchy bytes: each level is written only below a level that is given. *)
Definition hierarchy_bytes (f : FormatInformation) : list Z :=
  if m_root f =? eFHR_Invalid then []
  else m_root f :: if m_level1 f =? eFHL1_AUDIOMUSIC_DONT_CARE then []
  else m_level1 f :: if m_level2 f =? eFHL2_AM824_DONT_CARE then [] else [m_level2 f].

Definition format_bytes (f : FormatInformation) : list Z :=
  hierarchy_bytes f ++ from_option streams_bytes [] (m_streams f).

(** All members are bytes. *)
Definition streams_byte_ok (s : FormatInformationStreams) : Prop := Forall byte_ok (streams_bytes s).
Definition format_byte_ok (f : FormatInformation) : Prop :=
  byte_ok (m_root f) /\ byte_ok (m_level1 f) /\ byte_ok (m_level2 f)
  /\ from_option streams_byte_ok True (m_streams f).

Lemma emits_info be {SE} `{SerializeSpec be SE} i : Forall byte_ok (info_bytes i) ->
  emits (StreamFormatInfo_serialize i) (info_bytes i) true.
Proof.
  unfold info_bytes, StreamFormatInfo_serialize. rewrite !Forall_cons_iff. intros; destruct_and!. emits.
Qed.

Lemma emits_infos be {SE} `{SerializeSpec be SE} l : Forall byte_ok (concat (info_bytes <$> l)) ->
  emits (each (StreamFormatInfo_serialize <$> l)) (concat (info_bytes <$> l)) true.
Proof.
  intros Hl. apply emits_each. induction l as [|i l IH]; [constructor|].
  apply Forall_app in Hl as [Hi Hl]. constructor; [|by apply IH]. exists true. by apply emits_info.
Qed.

Lemma sync_operand_ok s : byte_ok (sync_operand s).
Proof.
  unfold sync_operand. pose proof (byte_ok_u8 ((sy_samplingFrequency s << 4) .| 0x0e)) as H.
  destruct (_ =? _); [|done]. unfold byte_ok in *. set (x := u8 _) in *.
  assert (0 <= x .| 1) by (apply Z.lor_nonneg; lia).
  assert (x .| 1 <> 0) by (rewrite Z.lor_eq_0_iff; lia).
  split; [done|]. apply Z.log2_lt_pow2; [lia|]. rewrite Z.log2_lor by lia.
  apply Z.max_lub_lt; [|done]. destruct (Z.eq_dec x 0) as [->|]; [done|]. apply Z.log2_lt_pow2; lia.
Qed.

#[export] Hint Resolve sync_operand_ok emits_infos : wire.

Lemma emits_streams be {SE} `{SerializeSpec be SE} s : streams_byte_ok s ->
  emits (match s with
         | FISync s => FormatInformationStreamsSync_serialize s
         | FICompound c => FormatInformationStreamsCompound_serialize c
         end) (streams_bytes s) true.
Proof.
  unfold streams_byte_ok. destruct s as [s|c]; simpl; rewrite !Forall_cons_iff; intros; destruct_and!.
  - unfold FormatInformationStreamsSync_serialize. emits.
  - unfold FormatInformationStreamsCompound_serialize. emits.
Qed.

Lemma emits_hierarchy be {SE} `{SerializeSpec be SE} f : format_byte_ok f ->
  emits (if negb (m_root f =? eFHR_Invalid) then
     write_byte (m_root f) ;;
     if negb (m_level1 f =? eFHL1_AUDIOMUSIC_DONT_CARE) then
       write_byte (m_level1 f) ;;
       if negb (m_level2 f =? eFHL2_AM824_DONT_CARE) then write_byte (m_level2 f) else mret true
     else mret true
   else mret true) (hierarchy_bytes f) true.
Proof.
  intros (? & ? & ? & _). unfold hierarchy_bytes. destruct (m_root f =? eFHR_Invalid); simpl; [emits|].
  destruct (m_level1 f =? _); simpl; [emits|]. destruct (m_level2 f =? _); simpl; emits.
Qed.

Lemma emits_format be {SE} `{SerializeSpec be SE} f : format_byte_ok f ->
  emits (FormatInformation_serialize f) (format_bytes f) true.
Proof.
  intros Hf. eapply emits_bind; [by apply emits_hierarchy|]. destruct Hf as (_ & _ & _ & Hs).
  destruct (m_streams f) as [s|]; simpl in *; [|apply emits_ret].
  pose proof (emits_streams be s Hs). by destruct s.
Qed.

(** What [FormatInformation::deserialize] accepts. *)
Definition format_readable (f : FormatInformation) : Prop :=
  m_root f = eFHR_AudioMusic /\
  match m_streams f with
  | Some (FISync s) => m_level1 f = eFHL1_AUDIOMUSIC_AM824 /\ m_level2 f = eFHL2_AM824_SYNC_STREAM
      /\ 0 <= sy_samplingFrequency s < 16 /\ 0 <= sy_rateControl s < 2
  | Some (FICompound c) => m_level1 f = eFHL1_AUDIOMUSIC_AM824_COMPOUND
      /\ m_level2 f = eFHL2_AM824_DONT_CARE
      /\ m_numberOfStreamFormatInfos c = zlength (m_streamFormatInfos c)
      /\ m_numberOfStreamFormatInfos c <= 200
  | None => False
  end.

(** The second level is not part of a compound frame: the reading object keeps its own. *)
Definition format_recv (f v : FormatInformation) : FormatInformation :=
  match m_streams v with
  | Some (FICompound _) => mkFormat (m_root v) (m_level1 v) (m_level2 f) (m_streams v)
  | _ => v
  end.

Lemma sync_operand_fields s : 0 <= sy_samplingFrequency s < 16 -> 0 <= sy_rateControl s < 2 ->
  sync_operand s >> 4 = sy_samplingFrequency s /\ sync_operand s .& 0x01 = sy_rateControl s.
Proof.
  intros Hs Hr. assert (sync_operand s = sy_samplingFrequency s * 16 + 14 + sy_rateControl s) as ->.
  { unfold sync_operand, eRC_DontCare. rewrite lor_shiftl_add by lia.
    rewrite wrapU_small by lia. destruct (Z.eqb_spec (sy_rateControl s) 1) as [E|E]; [|lia].
    replace (sy_samplingFrequency s * 2 ^ 4 + 0xe) with ((sy_samplingFrequency s * 8 + 7) << 1)
      by (rewrite Z.shiftl_mul_pow2; lia). rewrite lor_shiftl_add by lia. lia. }
  split; fields.
Qed.

Lemma parses_sync be {DE} `{DeserializeSpec be DE} uninit c s :
  0 <= sy_samplingFrequency s < 16 -> 0 <= sy_rateControl s < 2 ->
  parses (FormatInformationStreamsSync_deserialize uninit c) (streams_bytes (FISync s)) (true, s).
Proof.
  intros Hs Hr. destruct (sync_operand_fields s Hs Hr) as [E1 E2].
  unfold FormatInformationStreamsSync_deserialize, streams_bytes. parses.
  rewrite E1, E2. by destruct s.
Qed.

Lemma parses_info be {DE} `{DeserializeSpec be DE} c i :
  parses (StreamFormatInfo_deserialize c) (info_bytes i) (true, i).
Proof. unfold StreamFormatInfo_deserialize, info_bytes. parses. by destruct i. Qed.

Lemma parses_infos be {DE} `{DeserializeSpec be DE} uninit l acc :
  parses (read_infos uninit (length l) acc) (concat (info_bytes <$> l)) (true, acc ++ l).
Proof.
  revert acc. induction l as [|i l IH]; intros acc.
  - rewrite app_nil_r. apply parses_ret.
  - eapply parses_bind; [apply parses_info|]. cbn [negb]. cbv iota.
    replace (acc ++ i :: l) with ((acc ++ [i]) ++ l) by (by rewrite <- app_assoc). apply IH.
Qed.

Lemma parses_compound be {DE} `{DeserializeSpec be DE} uninit v :
  m_numberOfStreamFormatInfos v = zlength (m_streamFormatInfos v) ->
  parses (FormatInformationStreamsCompound_deserialize uninit FormatInformationStreamsCompound_new)
    (streams_bytes (FICompound v)) (true, v).
Proof.
  intros E. unfold FormatInformationStreamsCompound_deserialize, streams_bytes.
  do 3 (eapply (parses_bind _ _ [_]); [apply parses_byte|]; cbn beta iota).
  rewrite E. unfold zlength. rewrite Nat2Z.id. eapply parses_conv; [symmetry; apply app_nil_r| |
    eapply parses_bind; [apply parses_infos|apply parses_ret]].
  destruct v as [sf rc n l]. simpl in *. by rewrite E.
Qed.

Lemma parses_format be {DE} `{DeserializeSpec be DE} uninit c v : format_readable v ->
  parses (FormatInformation_deserialize uninit c) (format_bytes v) (true, format_recv c v).
Proof.
  destruct v as [root l1 l2 [[s|s]|]]; unfold format_readable; simpl; intros (-> & Hv); [| |done].
  - destruct Hv as (-> & -> & Hs & Hr). unfold FormatInformation_deserialize, format_bytes.
    pose proof (parses_sync be uninit FormatInformationStreamsSync_new s Hs Hr) as P.
    do 3 (eapply (parses_bind _ _ [_]); [apply parses_byte|]; cbn).
    eapply parses_conv; [symmetry; apply app_nil_r|done|]. eapply parses_bind; [exact P|apply parses_ret].
  - destruct Hv as (-> & -> & Hn & _). unfold FormatInformation_deserialize, format_bytes.
    pose proof (parses_compound be uninit s Hn) as P.
    do 2 (eapply (parses_bind _ _ [_]); [apply parses_byte|]; cbn).
    eapply parses_conv; [symmetry; apply app_nil_r|done|]. eapply parses_bind; [exact P|apply parses_ret].
Qed.

(** ** The command class *)

Definition index_bytes (c : ExtendedStreamFormatCmd) : list Z :=
  if es_subFunction c =? eSF_ExtendedStreamFormatInformationCommandList then [m_indexInStreamFormat c] else [].

Definition stream_format_bytes (c : ExtendedStreamFormatCmd) : list Z :=
  base_bytes (es_base c) ++ es_subFunction c :: address_frame (m_plugAddress c) ++ m_status c
  :: index_bytes c ++ format_bytes (m_formatInformation c).

Definition stream_format_byte_ok (c : ExtendedStreamFormatCmd) : Prop :=
  base_ok (es_base c) /\ byte_ok (es_subFunction c) /\ plug_address_ok (m_plugAddress c)
  /\ byte_ok (m_status c) /\ byte_ok (m_indexInStreamFormat c) /\ format_byte_ok (m_formatInformation c).

(** The frame of a command that has no format information yet, or a readable one. *)
Definition stream_format_ok (c : ExtendedStreamFormatCmd) : Prop :=
  stream_format_byte_ok c /\ zlength (format_bytes (m_formatInformation c)) <= 450.

Definition stream_format_reads (c v : ExtendedStreamFormatCmd) : Prop :=
  class_of (m_plugAddressData (m_plugAddress c)) = class_of (m_plugAddressData (m_plugAddress v))
  /\ format_readable (m_formatInformation v).

Definition stream_format_recv (c v : ExtendedStreamFormatCmd) : ExtendedStreamFormatCmd :=
  mkStreamFormat (base_recv (es_base c) (es_base v)) (es_subFunction v) (m_plugAddress v) (m_status v)
    (if es_subFunction v =? eSF_ExtendedStreamFormatInformationCommandList
     then m_indexInStreamFormat v else m_indexInStreamFormat c)
    (format_recv (m_formatInformation c) (m_formatInformation v)).

#[export] Hint Resolve emits_format : wire.

Lemma emits_index be {SE} `{SerializeSpec be SE} c : byte_ok (m_indexInStreamFormat c) ->
  emits (if es_subFunction c =? eSF_ExtendedStreamFormatInformationCommandList
         then write_byte (m_indexInStreamFormat c) else mret true) (index_bytes c) true.
Proof. intros. unfold index_bytes. destruct (_ =? _); eauto with wire. Qed.

Lemma parses_index be {DE} `{DeserializeSpec be DE} c v :
  parses (if es_subFunction v =? eSF_ExtendedStreamFormatInformationCommandList
          then read_byte (m_indexInStreamFormat c) else mret (true, m_indexInStreamFormat c)) (index_bytes v)
    (true, if es_subFunction v =? eSF_ExtendedStreamFormatInformationCommandList
           then m_indexInStreamFormat v else m_indexInStreamFormat c).
Proof. unfold index_bytes. destruct (_ =? _); eauto with wire. Qed.

#[export] Hint Resolve emits_index : wire.

Lemma emits_stream_format be {SE} `{SerializeSpec be SE} c : stream_format_byte_ok c ->
  emits (ExtendedStreamFormatCmd_serialize c) (stream_format_bytes c) true.
Proof.
  intros (? & ? & ? & ? & ? & ?). unfold ExtendedStreamFormatCmd_serialize, stream_format_bytes. emits.
Qed.

Lemma parses_stream_format be {DE} `{DeserializeSpec be DE} uninit c v : stream_format_reads c v ->
  parses (ExtendedStreamFormatCmd_deserialize uninit c) (stream_format_bytes v) (true, stream_format_recv c v).
Proof.
  intros (Hc & Hf). unfold ExtendedStreamFormatCmd_deserialize, stream_format_bytes.
  eapply parses_bind; [apply parses_base|]. eapply (parses_bind _ _ [_]); [apply parses_byte|].
  eapply parses_bind; [by apply parses_PlugAddress|]. eapply (parses_bind _ _ [_]); [apply parses_byte|].
  eapply parses_bind; [apply parses_index|]. cbn beta iota.
  eapply parses_conv; [symmetry; apply app_nil_r|done|].
  eapply parses_bind; [by apply parses_format|apply parses_ret].
Qed.

#[export, refine] Instance ExtendedStreamFormatCmd_spec : AVCCmdSpec ExtendedStreamFormatCmd := {
  cmd_ok := stream_format_ok;
  cmd_bytes := stream_format_bytes;
  cmd_reads := stream_format_reads;
  cmd_recv := stream_format_recv;
  cmd_emits be SE H H' c ok := emits_unchanged c (emits_stream_format be c (proj1 ok));
  cmd_parses be DE H H' uninit c v _ r := parses_stream_format be uninit c v r;
  cmd_unchanged SE H c s := unchanged_object c _ s;
}.
Proof.
  - intros c [_ Hl]. unfold stream_format_bytes, address_frame, index_bytes.
    pose proof (zlength_nonneg (format_bytes (m_formatInformation c))).
    destruct (m_plugAddressData (m_plugAddress c)), (es_subFunction c =? _);
      unfold zlength in *; simpl; rewrite ?length_app; lia.
  - done.
Defined.

(** ** Theorems *)

(** A stream format response is read back exactly: for a sync format and for a compound format with up
    to 200 stream infos, the command object gets the subfunction, the plug address, the
    status, the index (only when the subfunction is the list form) and all infos in order. *)
Theorem stream_format_roundtrip big_endian uninit c v : stream_format_ok v -> stream_format_reads c v ->
  through_frame big_endian uninit c v = (true, (true, stream_format_recv c v)).
Proof. intros Hv Hr. exact (through_frame_recv big_endian uninit c v Hv Hr). Qed.

Definition example_format : ExtendedStreamFormatCmd :=
  mkStreamFormat (mkAVC 0 0x0C 0xFF 0x2F 0 1) 0xC1
    (mkPlugAddress 0 0 (UnitPlugAddress 0 0 0xff)) 0 3
    (mkFormat 0x90 0x40 0xFF (Some (FICompound (mkCompound 4 1 2 [mkInfo 8 6; mkInfo 1 0xD])))).

Lemma stream_format_roundtrip_witness :
  through_frame false 0xAA (ExtendedStreamFormatCmd_new 0 0xC1) example_format
  = (true, (true, mkStreamFormat (mkAVC 0 0x0C 0xFF 0x2F 0xff 0) 0xC1
      (mkPlugAddress 0 0 (UnitPlugAddress 0 0 0xff)) 0 3 (m_formatInformation example_format))).
Proof.
  refine (eq_trans (stream_format_roundtrip false 0xAA (ExtendedStreamFormatCmd_new 0 0xC1) example_format _ _) eq_refl).
  - split; [|vm_compute; congruence].
    split_and!; [split_and!|..]; try (vm_compute; done); repeat constructor; vm_compute; congruence.
  - split; [done|]. vm_compute. split_and!; congruence.
Defined.

(** A command object that is used again does not send a fresh request: after it has read the
    response [v], its next request repeats the status and the whole format
    of [v].  If it has read a sync format and then a compound format, the second
    level of the sync format is still set, and its next frame carries that byte in front of
    the compound data, a frame that the class itself reads differently. *)
Theorem stream_format_reuse be {SE} `{SerializeSpec be SE} c v w s cp :
  byte_ok (m_indexInStreamFormat c) -> stream_format_byte_ok v -> stream_format_byte_ok w ->
  format_readable (m_formatInformation v) -> format_readable (m_formatInformation w) ->
  m_streams (m_formatInformation v) = Some (FISync s) ->
  m_streams (m_formatInformation w) = Some (FICompound cp) ->
  emits (ExtendedStreamFormatCmd_serialize (stream_format_recv c v)) (stream_format_bytes v) true
  /\ emits (ExtendedStreamFormatCmd_serialize (stream_format_recv (stream_format_recv c v) w))
       (base_bytes (es_base w) ++ es_subFunction w :: address_frame (m_plugAddress w) ++ m_status w
        :: index_bytes w
        ++ [eFHR_AudioMusic; eFHL1_AUDIOMUSIC_AM824_COMPOUND; eFHL2_AM824_SYNC_STREAM]
        ++ streams_bytes (FICompound cp)) true.
Proof.
  intros Hc Hv Hw Rv Rw Ev Ew.
  assert (forall c v, index_bytes (stream_format_recv c v) = index_bytes v) as Ei.
  { intros c' v'. unfold index_bytes, stream_format_recv. simpl. by destruct (_ =? _). }
  assert (format_recv (m_formatInformation c) (m_formatInformation v) = m_formatInformation v) as Fv
    by (unfold format_recv; by rewrite Ev).
  assert (stream_format_byte_ok (stream_format_recv c v)) as Hcv.
  { destruct Hv as (? & ? & ? & ? & ? & ?). split_and!; try done; simpl; [by destruct (_ =? _)|by rewrite Fv]. }
  assert (format_recv (m_formatInformation v) (m_formatInformation w)
    = mkFormat eFHR_AudioMusic eFHL1_AUDIOMUSIC_AM824_COMPOUND eFHL2_AM824_SYNC_STREAM (Some (FICompound cp))) as Fw.
  { unfold format_recv, format_readable in *. rewrite Ev, Ew in *.
    destruct Rv as (_ & _ & -> & _), Rw as (-> & -> & _). done. }
  split.
  - eapply emits_eq; [|by apply emits_stream_format]. unfold stream_format_bytes. by rewrite Ei, <- Fv at 1.
  - eapply emits_eq; [|apply emits_stream_format].
    + unfold stream_format_bytes. rewrite Ei. simpl m_formatInformation. by rewrite Fv, Fw.
    + destruct Hw as (? & ? & ? & ? & ? & _ & _ & _ & Hs). rewrite Ew in Hs.
      split_and!; try done; simpl; [repeat (destruct (_ =? _); try done); apply Hv|..];
        rewrite Fv, Fw; simpl; done.
Qed.

Lemma stream_format_reuse_witness :
  let w := example_format in
  let v := mkStreamFormat (mkAVC 0 0x0C 0xFF 0x2F 0 1) 0xC1 (mkPlugAddress 0 0 (UnitPlugAddress 0 0 0xff)) 0 2
             (mkFormat 0x90 0x00 0x40 (Some (FISync (mkSync 0xff 4 1 0xff)))) in
  emits (ExtendedStreamFormatCmd_serialize (H := buffer_serialize false)
           (stream_format_recv (stream_format_recv (ExtendedStreamFormatCmd_new 0 0xC1) v) w))
    [0x0C; 0xFF; 0x2F; 0xC1; 0; 0; 0; 0; 0xff; 0; 3; 0x90; 0x40; 0x40; 4; 1; 2; 8; 6; 1; 0xD] true.
Proof.
  intros w v. refine (proj2 (stream_format_reuse false (H0 := buffer_serialize_spec false)
    (ExtendedStreamFormatCmd_new 0 0xC1) v w (mkSync 0xff 4 1 0xff)
    (mkCompound 4 1 2 [mkInfo 8 6; mkInfo 1 0xD]) _ _ _ _ _ eq_refl eq_refl)).
  - vm_compute. split; congruence.
  - split_and!; [split_and!|..]; try (vm_compute; done); repeat constructor; vm_compute; congruence.
  - split_and!; [split_and!|..]; try (vm_compute; done); repeat constructor; vm_compute; congruence.
  - vm_compute. split_and!; congruence.
  - vm_compute. split_and!; congruence.
Defined.
