(* ===== verification/ExtendedPlugInfo.v ===== *)
(** * Extended plug info command

    Model of [src/libavc/general/avc_extended_plug_info.cpp]: what a device reports about one of its plugs,
    one of eight kinds of information per exchange.  An information object has a member for each
    kind, of which the one of its type is set; a null pointer is [None], and following one makes a
    copy undefined.  A [std::string] is the list of its bytes. *)
From S2P Require Import Prelude ByteSwap CmdSerialize Fcp AvcCommands AvcExchange PlugAddress.

(** ** The kinds of information *)

Definition eEPIPT_Unknown : Z := 0xff.
Definition EPI_ePT_NoType : Z := 0xff.

Definition eIT_PlugType : Z := 0x00.
Definition eIT_PlugName : Z := 0x01.
Definition eIT_NoOfChannels : Z := 0x02.
Definition eIT_ChannelPosition : Z := 0x03.
Definition eIT_ChannelName : Z := 0x04.
Definition eIT_PlugInput : Z := 0x05.
Definition eIT_PlugOutput : Z := 0x06.
Definition eIT_ClusterInfo : Z := 0x07.

Definition eSF_ExtendedPlugInfoCmd : Z := 0xC0.

Record ExtendedPlugInfoPlugTypeSpecificData := mkEpiType { epi_plugType : Z }.
Definition ExtendedPlugInfoPlugTypeSpecificData_new : ExtendedPlugInfoPlugTypeSpecificData := mkEpiType eEPIPT_Unknown.

Record ExtendedPlugInfoPlugNameSpecificData := mkEpiName { epi_name : list Z }.
Definition ExtendedPlugInfoPlugNameSpecificData_new : ExtendedPlugInfoPlugNameSpecificData := mkEpiName [].

Record ExtendedPlugInfoPlugNumberOfChannelsSpecificData := mkEpiChannels { epi_nrOfChannels : Z }.
Definition ExtendedPlugInfoPlugNumberOfChannelsSpecificData_new : ExtendedPlugInfoPlugNumberOfChannelsSpecificData := mkEpiChannels 0.

Record EpiChannelInfo := mkEpiChannel { epi_streamPosition : Z; epi_location : Z }.
Record EpiClusterInfo := mkEpiCluster { epi_clusterChannels : Z; epi_channelInfos : list EpiChannelInfo }.
Record ExtendedPlugInfoPlugChannelPositionSpecificData := mkEpiPosition { epi_nrOfClusters : Z; epi_clusterInfos : list EpiClusterInfo }.
Definition ExtendedPlugInfoPlugChannelPositionSpecificData_new : ExtendedPlugInfoPlugChannelPositionSpecificData := mkEpiPosition 0 [].

Record ExtendedPlugInfoPlugChannelNameSpecificData := mkEpiChannelName {
  epi_channelPosition : Z;
  epi_stringLength : Z;
  epi_plugChannelName : list Z;
}.
Definition ExtendedPlugInfoPlugChannelNameSpecificData_new : ExtendedPlugInfoPlugChannelNameSpecificData := mkEpiChannelName 0 0xff [].

(** The address that the constructors start from. *)
Definition epi_default_address : PlugAddress :=
  PlugAddress_new ePD_Output ePAM_Unit (UnitPlugSpecificDataPlugAddress_new ePT_PCR 0x00).

Record ExtendedPlugInfoPlugInputSpecificData := mkEpiInput { epi_plugAddress : PlugAddress }.
Definition ExtendedPlugInfoPlugInputSpecificData_new : ExtendedPlugInfoPlugInputSpecificData := mkEpiInput epi_default_address.

Record ExtendedPlugInfoPlugOutputSpecificData := mkEpiOutput { epi_nrOfOutputPlugs : Z; epi_outputPlugAddresses : list PlugAddress }.
Definition ExtendedPlugInfoPlugOutputSpecificData_new : ExtendedPlugInfoPlugOutputSpecificData := mkEpiOutput 0 [].

Record ExtendedPlugInfoClusterInfoSpecificData := mkEpiClusterInfo {
  epi_clusterIndex : Z;
  epi_portType : Z;
  epi_clusterStringLength : Z;
  epi_clusterName : list Z;
}.
Definition ExtendedPlugInfoClusterInfoSpecificData_new : ExtendedPlugInfoClusterInfoSpecificData := mkEpiClusterInfo 0 EPI_ePT_NoType 0xff [].

Record ExtendedPlugInfoInfoType := mkInfoType {
  it_infoType : Z;
  it_plugType : option ExtendedPlugInfoPlugTypeSpecificData;
  it_plugName : option ExtendedPlugInfoPlugNameSpecificData;
  it_plugNrOfChns : option ExtendedPlugInfoPlugNumberOfChannelsSpecificData;
  it_plugChannelPosition : option ExtendedPlugInfoPlugChannelPositionSpecificData;
  it_plugChannelName : option ExtendedPlugInfoPlugChannelNameSpecificData;
  it_plugInput : option ExtendedPlugInfoPlugInputSpecificData;
  it_plugOutput : option ExtendedPlugInfoPlugOutputSpecificData;
  it_plugClusterInfo : option ExtendedPlugInfoClusterInfoSpecificData;
}.

Definition ExtendedPlugInfoInfoType_new (t : Z) : ExtendedPlugInfoInfoType :=
  mkInfoType (u8 t) None None None None None None None None.

(** Assignments to one member. *)
Definition set_plugType x i := mkInfoType (it_infoType i) (Some x) (it_plugName i) (it_plugNrOfChns i) (it_plugChannelPosition i)
  (it_plugChannelName i) (it_plugInput i) (it_plugOutput i) (it_plugClusterInfo i).
Definition set_plugName x i := mkInfoType (it_infoType i) (it_plugType i) (Some x) (it_plugNrOfChns i) (it_plugChannelPosition i)
  (it_plugChannelName i) (it_plugInput i) (it_plugOutput i) (it_plugClusterInfo i).
Definition set_plugNrOfChns x i := mkInfoType (it_infoType i) (it_plugType i) (it_plugName i) (Some x) (it_plugChannelPosition i)
  (it_plugChannelName i) (it_plugInput i) (it_plugOutput i) (it_plugClusterInfo i).
Definition set_plugChannelPosition x i := mkInfoType (it_infoType i) (it_plugType i) (it_plugName i) (it_plugNrOfChns i) (Some x)
  (it_plugChannelName i) (it_plugInput i) (it_plugOutput i) (it_plugClusterInfo i).
Definition set_plugChannelName x i := mkInfoType (it_infoType i) (it_plugType i) (it_plugName i) (it_plugNrOfChns i) (it_plugChannelPosition i)
  (Some x) (it_plugInput i) (it_plugOutput i) (it_plugClusterInfo i).
Definition set_plugInput x i := mkInfoType (it_infoType i) (it_plugType i) (it_plugName i) (it_plugNrOfChns i) (it_plugChannelPosition i)
  (it_plugChannelName i) (Some x) (it_plugOutput i) (it_plugClusterInfo i).
Definition set_plugOutput x i := mkInfoType (it_infoType i) (it_plugType i) (it_plugName i) (it_plugNrOfChns i) (it_plugChannelPosition i)
  (it_plugChannelName i) (it_plugInput i) (Some x) (it_plugClusterInfo i).
Definition set_plugClusterInfo x i := mkInfoType (it_infoType i) (it_plugType i) (it_plugName i) (it_plugNrOfChns i) (it_plugChannelPosition i)
  (it_plugChannelName i) (it_plugInput i) (it_plugOutput i) (Some x).
Definition set_infoType t i := mkInfoType t (it_plugType i) (it_plugName i) (it_plugNrOfChns i) (it_plugChannelPosition i)
  (it_plugChannelName i) (it_plugInput i) (it_plugOutput i) (it_plugClusterInfo i).

Definition ExtendedPlugInfoInfoType_initialize (i : ExtendedPlugInfoInfoType) : bool * ExtendedPlugInfoInfoType :=
  let t := it_infoType i in
  if t =? eIT_PlugType then (true, set_plugType ExtendedPlugInfoPlugTypeSpecificData_new i)
  else if t =? eIT_PlugName then (true, set_plugName ExtendedPlugInfoPlugNameSpecificData_new i)
  else if t =? eIT_NoOfChannels then (true, set_plugNrOfChns ExtendedPlugInfoPlugNumberOfChannelsSpecificData_new i)
  else if t =? eIT_ChannelPosition then (true, set_plugChannelPosition ExtendedPlugInfoPlugChannelPositionSpecificData_new i)
  else if t =? eIT_ChannelName then (true, set_plugChannelName ExtendedPlugInfoPlugChannelNameSpecificData_new i)
  else if t =? eIT_PlugInput then (true, set_plugInput ExtendedPlugInfoPlugInputSpecificData_new i)
  else if t =? eIT_PlugOutput then (true, set_plugOutput ExtendedPlugInfoPlugOutputSpecificData_new i)
  else if t =? eIT_ClusterInfo then (true, set_plugClusterInfo ExtendedPlugInfoClusterInfoSpecificData_new i)
  else (false, i).

(** The copy constructor: only the member of the type is copied, and its pointer is followed. *)
Definition ExtendedPlugInfoInfoType_copy (rhs : ExtendedPlugInfoInfoType) : option ExtendedPlugInfoInfoType :=
  let t := it_infoType rhs in
  let fresh := ExtendedPlugInfoInfoType_new t in
  if t =? eIT_PlugType then (fun x => set_plugType x fresh) <$> it_plugType rhs
  else if t =? eIT_PlugName then (fun x => set_plugName x fresh) <$> it_plugName rhs
  else if t =? eIT_NoOfChannels then (fun x => set_plugNrOfChns x fresh) <$> it_plugNrOfChns rhs
  else if t =? eIT_ChannelPosition then (fun x => set_plugChannelPosition x fresh) <$> it_plugChannelPosition rhs
  else if t =? eIT_ChannelName then (fun x => set_plugChannelName x fresh) <$> it_plugChannelName rhs
  else if t =? eIT_PlugInput then (fun x => set_plugInput x fresh) <$> it_plugInput rhs
  else if t =? eIT_PlugOutput then (fun x => set_plugOutput x fresh) <$> it_plugOutput rhs
  else if t =? eIT_ClusterInfo then (fun x => set_plugClusterInfo x fresh) <$> it_plugClusterInfo rhs
  else Some fresh.

Definition ExtendedPlugInfoInfoType_clone (i : ExtendedPlugInfoInfoType) : option ExtendedPlugInfoInfoType :=
  (fun c => (ExtendedPlugInfoInfoType_initialize c).2) <$> ExtendedPlugInfoInfoType_copy i.

(** ** Strings *)

(** The bytes up to the first NUL. *)
Fixpoint c_str (l : list Z) : list Z :=
  match l with
  | [] => []
  | x :: l => if x =? 0 then [] else x :: c_str l
  end.

(** [do correct encoding]: an ampersand becomes a plus. *)
Definition plain_char (c : Z) : Z := if c =? 0x26 then 0x2B else c.

(** ** Frames *)

Section serialize.
Context {SE : Type} `{IOSSerialize SE}.

Definition PlugType_serialize (d : ExtendedPlugInfoPlugTypeSpecificData) : st SE bool :=
  write_byte (epi_plugType d) ;; mret true.

Definition PlugName_serialize (d : ExtendedPlugInfoPlugNameSpecificData) : st SE bool :=
  let length := u8 (zlength (c_str (epi_name d))) in
  write_byte length ;;
  each (write_byte <$> take (Z.to_nat length) (epi_name d)) ;;
  mret true.

Definition NumberOfChannels_serialize (d : ExtendedPlugInfoPlugNumberOfChannelsSpecificData) : st SE bool :=
  write_byte (epi_nrOfChannels d) ;; mret true.

Definition channel_info_serialize (c : EpiChannelInfo) : st SE bool :=
  write_byte (epi_streamPosition c) ;; write_byte (epi_location c).

Definition cluster_serialize (c : EpiClusterInfo) : st SE bool :=
  write_byte (epi_clusterChannels c) ;;
  each (channel_info_serialize <$> epi_channelInfos c).

Definition ChannelPosition_serialize (d : ExtendedPlugInfoPlugChannelPositionSpecificData) : st SE bool :=
  write_byte (epi_nrOfClusters d) ;;
  each (cluster_serialize <$> epi_clusterInfos d) ;;
  mret true.

Definition ChannelName_serialize (d : ExtendedPlugInfoPlugChannelNameSpecificData) : st SE bool :=
  write_byte (epi_channelPosition d) ;;
  write_byte (epi_stringLength d) ;;
  each (write_byte <$> epi_plugChannelName d) ;;
  mret true.

Definition PlugInput_serialize (d : ExtendedPlugInfoPlugInputSpecificData) : st SE bool :=
  PlugAddress_serialize (epi_plugAddress d).

Definition PlugOutput_serialize (d : ExtendedPlugInfoPlugOutputSpecificData) : st SE bool :=
  write_byte (epi_nrOfOutputPlugs d) ;;
  each (PlugAddress_serialize <$> epi_outputPlugAddresses d) ;;
  mret true.

Definition ClusterInfo_serialize (d : ExtendedPlugInfoClusterInfoSpecificData) : st SE bool :=
  write_byte (epi_clusterIndex d) ;;
  write_byte (epi_portType d) ;;
  write_byte (epi_clusterStringLength d) ;;
  each (write_byte <$> epi_clusterName d) ;;
  mret true.

(** A member that is not there is not written. *)
Definition if_set {A} (f : A -> st SE bool) (o : option A) : st SE bool :=
  match o with Some x => f x | None => mret true end.

Definition ExtendedPlugInfoInfoType_serialize (i : ExtendedPlugInfoInfoType) : st SE bool :=
  let t := it_infoType i in
  write_byte t ;;
  if t =? eIT_PlugType then if_set PlugType_serialize (it_plugType i) ;; mret true
  else if t =? eIT_PlugName then if_set PlugName_serialize (it_plugName i) ;; mret true
  else if t =? eIT_NoOfChannels then if_set NumberOfChannels_serialize (it_plugNrOfChns i) ;; mret true
  else if t =? eIT_ChannelPosition then if_set ChannelPosition_serialize (it_plugChannelPosition i) ;; mret true
  else if t =? eIT_ChannelName then if_set ChannelName_serialize (it_plugChannelName i) ;; mret true
  else if t =? eIT_PlugInput then if_set PlugInput_serialize (it_plugInput i) ;; mret true
  else if t =? eIT_PlugOutput then if_set PlugOutput_serialize (it_plugOutput i) ;; mret true
  else if t =? eIT_ClusterInfo then if_set ClusterInfo_serialize (it_plugClusterInfo i) ;; mret true
  else mret false.
End serialize.

Section deserialize.
Context {DE : Type} `{IISDeserialize DE} (uninit : Z).

Definition PlugType_deserialize (d : ExtendedPlugInfoPlugTypeSpecificData) : st DE (bool * ExtendedPlugInfoPlugTypeSpecificData) :=
  '(_, t) ← read_byte (epi_plugType d);
  mret (true, mkEpiType t).

(** The name is assigned from a pointer into the frame, up to the next NUL there. *)
Definition PlugName_deserialize (d : ExtendedPlugInfoPlugNameSpecificData) : st DE (bool * ExtendedPlugInfoPlugNameSpecificData) :=
  '(_, length) ← read_byte uninit;
  '(_, name) ← read_pointer [] length;
  mret (true, mkEpiName (c_str name)).

Definition NumberOfChannels_deserialize (d : ExtendedPlugInfoPlugNumberOfChannelsSpecificData) :
    st DE (bool * ExtendedPlugInfoPlugNumberOfChannelsSpecificData) :=
  '(_, n) ← read_byte (epi_nrOfChannels d);
  mret (true, mkEpiChannels n).

Fixpoint read_channels (n : nat) (acc : list EpiChannelInfo) : st DE (list EpiChannelInfo) :=
  match n with
  | O => mret acc
  | S n =>
      '(_, p) ← read_byte uninit;
      '(_, l) ← read_byte uninit;
      read_channels n (acc ++ [mkEpiChannel p l])
  end.

Fixpoint read_clusters (n : nat) (acc : list EpiClusterInfo) : st DE (list EpiClusterInfo) :=
  match n with
  | O => mret acc
  | S n =>
      '(_, channels) ← read_byte uninit;
      l ← read_channels (Z.to_nat channels) [];
      read_clusters n (acc ++ [mkEpiCluster channels l])
  end.

Definition ChannelPosition_deserialize (d : ExtendedPlugInfoPlugChannelPositionSpecificData) :
    st DE (bool * ExtendedPlugInfoPlugChannelPositionSpecificData) :=
  '(_, n) ← read_byte (epi_nrOfClusters d);
  l ← read_clusters (Z.to_nat n) [];
  mret (true, mkEpiPosition n l).

Fixpoint read_chars (n : nat) (acc : list Z) : st DE (list Z) :=
  match n with
  | O => mret acc
  | S n =>
      '(_, c) ← read_byte uninit;
      read_chars n (acc ++ [plain_char c])
  end.

Definition ChannelName_deserialize (d : ExtendedPlugInfoPlugChannelNameSpecificData) :
    st DE (bool * ExtendedPlugInfoPlugChannelNameSpecificData) :=
  '(_, p) ← read_byte (epi_channelPosition d);
  '(_, n) ← read_byte (epi_stringLength d);
  name ← read_chars (Z.to_nat n) [];
  mret (true, mkEpiChannelName p n (c_str name)).

Definition PlugInput_deserialize (d : ExtendedPlugInfoPlugInputSpecificData) : st DE (bool * ExtendedPlugInfoPlugInputSpecificData) :=
  '(r, a) ← PlugAddressSpecificData_deserialize (epi_plugAddress d);
  mret (r, mkEpiInput a).

(** The addresses are appended to those that are there. *)
Fixpoint read_addresses (n : nat) (acc : list PlugAddress) : st DE (bool * list PlugAddress) :=
  match n with
  | O => mret (true, acc)
  | S n =>
      '(ok, a) ← PlugAddressSpecificData_deserialize epi_default_address;
      if negb ok then mret (false, acc) else read_addresses n (acc ++ [a])
  end.

Definition PlugOutput_deserialize (d : ExtendedPlugInfoPlugOutputSpecificData) : st DE (bool * ExtendedPlugInfoPlugOutputSpecificData) :=
  '(_, n) ← read_byte (epi_nrOfOutputPlugs d);
  '(ok, l) ← read_addresses (Z.to_nat n) (epi_outputPlugAddresses d);
  mret (ok, mkEpiOutput n l).

Definition ClusterInfo_deserialize (d : ExtendedPlugInfoClusterInfoSpecificData) : st DE (bool * ExtendedPlugInfoClusterInfoSpecificData) :=
  '(_, i) ← read_byte (epi_clusterIndex d);
  '(_, t) ← read_byte (epi_portType d);
  '(_, n) ← read_byte (epi_clusterStringLength d);
  name ← read_chars (Z.to_nat n) [];
  mret (true, mkEpiClusterInfo i t n (c_str name)).

(** The member of the type that is read is made if it is not there. *)
Definition ExtendedPlugInfoInfoType_deserialize (i : ExtendedPlugInfoInfoType) : st DE (bool * ExtendedPlugInfoInfoType) :=
  '(_, t) ← read_byte (it_infoType i);
  let i := set_infoType t i in
  if t =? eIT_PlugType then
    '(r, x) ← PlugType_deserialize (default ExtendedPlugInfoPlugTypeSpecificData_new (it_plugType i)); mret (r, set_plugType x i)
  else if t =? eIT_PlugName then
    '(r, x) ← PlugName_deserialize (default ExtendedPlugInfoPlugNameSpecificData_new (it_plugName i)); mret (r, set_plugName x i)
  else if t =? eIT_NoOfChannels then
    '(r, x) ← NumberOfChannels_deserialize (default ExtendedPlugInfoPlugNumberOfChannelsSpecificData_new (it_plugNrOfChns i));
    mret (r, set_plugNrOfChns x i)
  else if t =? eIT_ChannelPosition then
    '(r, x) ← ChannelPosition_deserialize (default ExtendedPlugInfoPlugChannelPositionSpecificData_new (it_plugChannelPosition i));
    mret (r, set_plugChannelPosition x i)
  else if t =? eIT_ChannelName then
    '(r, x) ← ChannelName_deserialize (default ExtendedPlugInfoPlugChannelNameSpecificData_new (it_plugChannelName i));
    mret (r, set_plugChannelName x i)
  else if t =? eIT_PlugInput then
    '(r, x) ← PlugInput_deserialize (default ExtendedPlugInfoPlugInputSpecificData_new (it_plugInput i)); mret (r, set_plugInput x i)
  else if t =? eIT_PlugOutput then
    '(r, x) ← PlugOutput_deserialize (default ExtendedPlugInfoPlugOutputSpecificData_new (it_plugOutput i)); mret (r, set_plugOutput x i)
  else if t =? eIT_ClusterInfo then
    '(r, x) ← ClusterInfo_deserialize (default ExtendedPlugInfoClusterInfoSpecificData_new (it_plugClusterInfo i));
    mret (r, set_plugClusterInfo x i)
  else mret (false, i).
End deserialize.

(** ** The command *)

Record ExtendedPlugInfoCmd := mkExtPlugInfo {
  ep_base : AVCCommand;
  ep_subFunction : Z;
  ep_plugAddress : PlugAddress;
  ep_infoType : ExtendedPlugInfoInfoType;
}.

Definition ExtendedPlugInfoCmd_new (uninit subFunction : Z) : ExtendedPlugInfoCmd :=
  mkExtPlugInfo (AVCCommand_new uninit AVC1394_CMD_PLUG_INFO) (u8 subFunction)
    (PlugAddress_new ePD_Output ePAM_Unit (UnitPlugAddress_new ePT_PCR 0x00))
    (ExtendedPlugInfoInfoType_initialize (ExtendedPlugInfoInfoType_new eIT_PlugType)).2.

Definition ExtendedPlugInfoCmd_copy (rhs : ExtendedPlugInfoCmd) : option ExtendedPlugInfoCmd :=
  (fun i => mkExtPlugInfo (ep_base rhs) (ep_subFunction rhs) (ep_plugAddress rhs) i) <$> ExtendedPlugInfoInfoType_copy (ep_infoType rhs).

Definition ExtendedPlugInfoCmd_setPlugAddress (a : PlugAddress) (c : ExtendedPlugInfoCmd) : ExtendedPlugInfoCmd :=
  mkExtPlugInfo (ep_base c) (ep_subFunction c) a (ep_infoType c).
Definition ExtendedPlugInfoCmd_setSubFunction (f : Z) (c : ExtendedPlugInfoCmd) : ExtendedPlugInfoCmd :=
  mkExtPlugInfo (ep_base c) (u8 f) (ep_plugAddress c) (ep_infoType c).
Definition setInfoType (i : ExtendedPlugInfoInfoType) (c : ExtendedPlugInfoCmd) : option ExtendedPlugInfoCmd :=
  (fun i => mkExtPlugInfo (ep_base c) (ep_subFunction c) (ep_plugAddress c) i) <$> ExtendedPlugInfoInfoType_clone i.

Definition ExtendedPlugInfoCmd_serialize {SE} `{IOSSerialize SE} (c : ExtendedPlugInfoCmd) : st SE bool :=
  AVCCommand_serialize (ep_base c) ;;
  write_byte (ep_subFunction c) ;;
  status ← PlugAddress_serialize (ep_plugAddress c);
  r ← ExtendedPlugInfoInfoType_serialize (ep_infoType c);
  mret (status && r).

Definition ExtendedPlugInfoCmd_deserialize {DE} `{IISDeserialize DE} (uninit : Z) (c : ExtendedPlugInfoCmd) : st DE (bool * ExtendedPlugInfoCmd) :=
  '(_, b) ← AVCCommand_deserialize (ep_base c);
  '(_, sub) ← read_byte (ep_subFunction c);
  '(status, a) ← PlugAddress_deserialize (ep_plugAddress c);
  '(r, i) ← ExtendedPlugInfoInfoType_deserialize uninit (ep_infoType c);
  mret (status && r, mkExtPlugInfo b sub a i).

#[export] Instance ExtendedPlugInfoCmd_cmd : AVCCmd ExtendedPlugInfoCmd := {
  cmd_base := ep_base;
  cmd_set_base b c := mkExtPlugInfo b (ep_subFunction c) (ep_plugAddress c) (ep_infoType c);
  cmd_serialize _ _ c := unchanged c (ExtendedPlugInfoCmd_serialize c);
  cmd_deserialize _ _ := ExtendedPlugInfoCmd_deserialize;
}.

(** ** The bytes of a frame *)

Definition channel_info_bytes (c : EpiChannelInfo) : list Z := [epi_streamPosition c; epi_location c].
Definition cluster_bytes (c : EpiClusterInfo) : list Z := epi_clusterChannels c :: concat (channel_info_bytes <$> epi_channelInfos c).

(** What the member of the type contributes. *)
Definition info_data_bytes (i : ExtendedPlugInfoInfoType) : list Z :=
  let t := it_infoType i in
  if t =? eIT_PlugType then from_option (fun d => [epi_plugType d]) [] (it_plugType i)
  else if t =? eIT_PlugName then
    from_option (fun d => let n := u8 (zlength (c_str (epi_name d))) in n :: take (Z.to_nat n) (epi_name d)) [] (it_plugName i)
  else if t =? eIT_NoOfChannels then from_option (fun d => [epi_nrOfChannels d]) [] (it_plugNrOfChns i)
  else if t =? eIT_ChannelPosition then
    from_option (fun d => epi_nrOfClusters d :: concat (cluster_bytes <$> epi_clusterInfos d)) [] (it_plugChannelPosition i)
  else if t =? eIT_ChannelName then
    from_option (fun d => epi_channelPosition d :: epi_stringLength d :: epi_plugChannelName d) [] (it_plugChannelName i)
  else if t =? eIT_PlugInput then from_option (fun d => address_frame (epi_plugAddress d)) [] (it_plugInput i)
  else if t =? eIT_PlugOutput then
    from_option (fun d => epi_nrOfOutputPlugs d :: concat (address_frame <$> epi_outputPlugAddresses d)) [] (it_plugOutput i)
  else if t =? eIT_ClusterInfo then
    from_option (fun d => epi_clusterIndex d :: epi_portType d :: epi_clusterStringLength d :: epi_clusterName d) [] (it_plugClusterInfo i)
  else [].

Definition info_ok (i : ExtendedPlugInfoInfoType) : Prop :=
  0 <= it_infoType i <= eIT_ClusterInfo /\ Forall byte_ok (info_data_bytes i).

(** The types are those of the enumeration. *)
Lemma info_type_cases t : 0 <= t <= eIT_ClusterInfo ->
  t = eIT_PlugType \/ t = eIT_PlugName \/ t = eIT_NoOfChannels \/ t = eIT_ChannelPosition \/ t = eIT_ChannelName
  \/ t = eIT_PlugInput \/ t = eIT_PlugOutput \/ t = eIT_ClusterInfo.
Proof. unfold eIT_PlugType, eIT_PlugName, eIT_NoOfChannels, eIT_ChannelPosition, eIT_ChannelName, eIT_PlugInput, eIT_PlugOutput, eIT_ClusterInfo. lia. Qed.

Lemma emits_bytes be {SE} `{SerializeSpec be SE} l : Forall byte_ok l -> emits (each (write_byte <$> l)) l true.
Proof.
  intros Hl. apply (emits_eq _ (concat ((fun x => [x]) <$> l))).
  - induction l as [|x l IH]; [done|]. inversion Hl; subst. cbn. f_equal. by apply IH.
  - apply emits_each. induction Hl as [|x l Hx Hl IH]; constructor; [|done]. exists true. by apply (emits_byte_ok be).
Qed.

Lemma emits_objects be {SE} `{SerializeSpec be SE} {A} (f : A -> st SE bool) (bytes : A -> list Z) l :
  (forall x, Forall byte_ok (bytes x) -> emits (f x) (bytes x) true) -> Forall byte_ok (concat (bytes <$> l)) ->
  emits (each (f <$> l)) (concat (bytes <$> l)) true.
Proof.
  intros Hf Hl. apply emits_each. induction l as [|x l IH]; [constructor|].
  apply Forall_app in Hl as [Hx Hl]. constructor; [|by apply IH]. exists true. by apply Hf.
Qed.

Lemma emits_channel_info be {SE} `{SerializeSpec be SE} c : Forall byte_ok (channel_info_bytes c) ->
  emits (channel_info_serialize c) (channel_info_bytes c) true.
Proof. unfold channel_info_bytes, channel_info_serialize. rewrite !Forall_cons_iff. intros; destruct_and!. emits. Qed.

Lemma emits_cluster be {SE} `{SerializeSpec be SE} c : Forall byte_ok (cluster_bytes c) ->
  emits (cluster_serialize c) (cluster_bytes c) true.
Proof.
  unfold cluster_bytes, cluster_serialize. rewrite Forall_cons_iff. intros [? Hl].
  apply (emits_bind _ _ [_] _ true); [eauto with wire|]. apply (emits_objects be); [|done]. intros x Hx. by apply (emits_channel_info be).
Qed.

(** A method that ends with success, and a member that may be absent. *)
Lemma emits_done be {SE} `{SerializeSpec be SE} (m : st SE bool) l : emits m l true -> emits (m ;; mret true) l true.
Proof. intros Hm. rewrite <- (app_nil_r l). eapply emits_bind; [exact Hm|apply emits_ret]. Qed.

Lemma emits_if_set be {SE} `{SerializeSpec be SE} {A} (f : A -> st SE bool) (bytes : A -> list Z) o :
  (forall d, Forall byte_ok (bytes d) -> emits (f d) (bytes d) true) -> Forall byte_ok (from_option bytes [] o) ->
  emits (if_set f o ;; mret true) (from_option bytes [] o) true.
Proof. intros Hf Ho. apply (emits_done be). destruct o as [d|]; [by apply Hf|apply emits_ret]. Qed.

Ltac write_first := match goal with H : Forall byte_ok (_ :: _) |- _ => apply Forall_cons_iff in H as [? H] end;
  apply (emits_bind _ _ [_] _ true); [eauto with wire|].

Lemma emits_info_type be {SE} `{SerializeSpec be SE} i : info_ok i ->
  emits (ExtendedPlugInfoInfoType_serialize i) (it_infoType i :: info_data_bytes i) true.
Proof.
  intros (Ht & Hb). unfold ExtendedPlugInfoInfoType_serialize.
  apply (emits_bind _ _ [it_infoType i] _ true); [apply (emits_byte_ok be); unfold byte_ok, eIT_ClusterInfo in *; lia|].
  unfold info_data_bytes in *. destruct (info_type_cases _ Ht) as [E|[E|[E|[E|[E|[E|[E|E]]]]]]]; rewrite E in Hb |- *;
    apply (emits_if_set be _ _ _); try exact Hb; intros d Hd; cbn beta zeta in Hd |- *.
  - unfold PlugType_serialize. write_first. apply emits_ret.
  - unfold PlugName_serialize. write_first. apply (emits_done be). by apply (emits_bytes be).
  - unfold NumberOfChannels_serialize. write_first. apply emits_ret.
  - unfold ChannelPosition_serialize. write_first. apply (emits_done be). apply (emits_objects be); [|done]. intros. by apply (emits_cluster be).
  - unfold ChannelName_serialize. do 2 write_first. apply (emits_done be). by apply (emits_bytes be).
  - by apply (emits_PlugAddress be).
  - unfold PlugOutput_serialize. write_first. apply (emits_done be). apply (emits_objects be); [|done]. intros. by apply (emits_PlugAddress be).
  - unfold ClusterInfo_serialize. do 3 write_first. apply (emits_done be). by apply (emits_bytes be).
Qed.

(** ** Reading *)

Lemma parses_read_channels be {DE} `{DeserializeSpec be DE} uninit l acc :
  parses (read_channels uninit (length l) acc) (concat (channel_info_bytes <$> l)) (acc ++ l).
Proof.
  revert acc. induction l as [|i l IH]; intros acc; [rewrite app_nil_r; apply parses_ret|].
  cbn [length read_channels]. do 2 (eapply (parses_bind _ _ [_]); [apply parses_byte|]; cbn beta iota).
  destruct i as [p q]. replace (acc ++ mkEpiChannel p q :: l) with ((acc ++ [mkEpiChannel p q]) ++ l) by (by rewrite <- app_assoc). apply IH.
Qed.

Definition cluster_readable (c : EpiClusterInfo) : Prop := epi_clusterChannels c = zlength (epi_channelInfos c).

Lemma parses_read_clusters be {DE} `{DeserializeSpec be DE} uninit l acc : Forall cluster_readable l ->
  parses (read_clusters uninit (length l) acc) (concat (cluster_bytes <$> l)) (acc ++ l).
Proof.
  intros Hl. revert acc. induction Hl as [|i l Hi Hl IH]; intros acc; [rewrite app_nil_r; apply parses_ret|].
  cbn [length read_clusters]. destruct i as [n x]. unfold cluster_readable in Hi. cbn in Hi. subst n.
  eapply (parses_bind _ _ [_]); [apply parses_byte|]; cbn beta iota.
  eapply (parses_bind _ _ (concat (channel_info_bytes <$> x)) _ x).
  - cbn [epi_clusterChannels]. replace (Z.to_nat (zlength x)) with (length x) by (unfold zlength; lia). apply (parses_read_channels be uninit x []).
  - set (c := mkEpiCluster _ _). replace (acc ++ c :: l) with ((acc ++ [c]) ++ l) by (by rewrite <- app_assoc). apply IH.
Qed.

Lemma parses_read_chars be {DE} `{DeserializeSpec be DE} uninit l acc :
  parses (read_chars uninit (length l) acc) l (acc ++ (plain_char <$> l)).
Proof.
  revert acc. induction l as [|c l IH]; intros acc; [rewrite app_nil_r; apply parses_ret|].
  cbn [length read_chars]. eapply (parses_bind _ _ [_]); [apply parses_byte|]; cbn beta iota.
  change (plain_char <$> c :: l) with (plain_char c :: (plain_char <$> l)).
  replace (acc ++ plain_char c :: (plain_char <$> l)) with ((acc ++ [plain_char c]) ++ (plain_char <$> l)) by (by rewrite <- app_assoc). apply IH.
Qed.

Definition address_readable (a : PlugAddress) : Prop := class_of (m_plugAddressData a) = class_for_mode (m_addressMode a).

Lemma parses_read_addresses be {DE} `{DeserializeSpec be DE} l acc : Forall address_readable l ->
  parses (read_addresses (length l) acc) (concat (address_frame <$> l)) (true, acc ++ l).
Proof.
  intros Hl. revert acc. induction Hl as [|a l Ha Hl IH]; intros acc; [rewrite app_nil_r; apply parses_ret|].
  cbn [length read_addresses]. eapply parses_bind; [by apply (parses_PlugAddressSpecificData be)|]. cbn [negb]. cbv iota.
  replace (acc ++ a :: l) with ((acc ++ [a]) ++ l) by (by rewrite <- app_assoc). apply IH.
Qed.

Lemma c_str_id l : Forall (fun x => x <> 0) l -> c_str l = l.
Proof. induction 1 as [|x l Hx Hl IH]; [done|]. cbn. rewrite (proj2 (Z.eqb_neq x 0)) by done. by rewrite IH. Qed.

Lemma c_str_plain l : Forall (fun x => x <> 0) l -> c_str (plain_char <$> l) = plain_char <$> l.
Proof.
  intros Hl. apply c_str_id. apply Forall_fmap. eapply Forall_impl; [|exact Hl]. intros x Hx. unfold plain_char. cbn.
  by destruct (x =? 0x26).
Qed.

(** What an object of each type has to be for its frame to be read back; names are further below. *)
Definition info_readable (v : ExtendedPlugInfoInfoType) : Prop :=
  let t := it_infoType v in
  (t = eIT_PlugType /\ is_Some (it_plugType v))
  \/ (t = eIT_NoOfChannels /\ is_Some (it_plugNrOfChns v))
  \/ (t = eIT_ChannelPosition /\ exists d, it_plugChannelPosition v = Some d /\ epi_nrOfClusters d = zlength (epi_clusterInfos d)
      /\ Forall cluster_readable (epi_clusterInfos d))
  \/ (t = eIT_ChannelName /\ exists d, it_plugChannelName v = Some d /\ epi_stringLength d = zlength (epi_plugChannelName d)
      /\ Forall (fun x => x <> 0) (epi_plugChannelName d))
  \/ (t = eIT_PlugInput /\ exists d, it_plugInput v = Some d /\ address_readable (epi_plugAddress d))
  \/ (t = eIT_PlugOutput /\ exists d, it_plugOutput v = Some d /\ epi_nrOfOutputPlugs d = zlength (epi_outputPlugAddresses d)
      /\ Forall address_readable (epi_outputPlugAddresses d))
  \/ (t = eIT_ClusterInfo /\ exists d, it_plugClusterInfo v = Some d /\ epi_clusterStringLength d = zlength (epi_clusterName d)
      /\ Forall (fun x => x <> 0) (epi_clusterName d)).

(** The object afterwards: the other members are kept; ampersands in names have become plus signs; output addresses
    are added to those the object had. *)
Definition info_recv (c v : ExtendedPlugInfoInfoType) : ExtendedPlugInfoInfoType :=
  let t := it_infoType v in
  let i := set_infoType t c in
  if t =? eIT_PlugType then from_option (fun x => set_plugType x i) i (it_plugType v)
  else if t =? eIT_NoOfChannels then from_option (fun x => set_plugNrOfChns x i) i (it_plugNrOfChns v)
  else if t =? eIT_ChannelPosition then from_option (fun x => set_plugChannelPosition x i) i (it_plugChannelPosition v)
  else if t =? eIT_ChannelName then
    from_option (fun x => set_plugChannelName (mkEpiChannelName (epi_channelPosition x) (epi_stringLength x) (plain_char <$> epi_plugChannelName x)) i)
      i (it_plugChannelName v)
  else if t =? eIT_PlugInput then from_option (fun x => set_plugInput x i) i (it_plugInput v)
  else if t =? eIT_PlugOutput then
    from_option (fun x => set_plugOutput (mkEpiOutput (epi_nrOfOutputPlugs x)
      (from_option epi_outputPlugAddresses [] (it_plugOutput c) ++ epi_outputPlugAddresses x)) i) i (it_plugOutput v)
  else if t =? eIT_ClusterInfo then
    from_option (fun x => set_plugClusterInfo (mkEpiClusterInfo (epi_clusterIndex x) (epi_portType x) (epi_clusterStringLength x)
      (plain_char <$> epi_clusterName x)) i) i (it_plugClusterInfo v)
  else i.

Ltac read_first := eapply (parses_bind _ _ [_]); [apply parses_byte|]; cbn beta iota.

Lemma parses_last {D} `{DeserializeView D} {A B} (m : st D A) (f : A -> B) l x : parses m l x -> parses (m ≫= fun y => mret (f y)) l (f x).
Proof. intros Hm. rewrite <- (app_nil_r l). eapply parses_bind; [exact Hm|apply parses_ret]. Qed.

Lemma parses_member {D} `{DeserializeView D} {A B} (m : st D (bool * A)) (f : A -> B) l r x : parses m l (r, x) ->
  parses ('(r, x) ← m; mret (r, f x)) l (r, f x).
Proof. intros Hm. rewrite <- (app_nil_r l). eapply parses_bind; [exact Hm|apply parses_ret]. Qed.

Section members.
Context be {DE} `{DeserializeSpec be DE} (uninit : Z).

Lemma to_nat_count {A} (l : list A) n : n = zlength l -> Z.to_nat n = length l.
Proof. unfold zlength. lia. Qed.

Lemma parses_ChannelPosition d0 d : epi_nrOfClusters d = zlength (epi_clusterInfos d) -> Forall cluster_readable (epi_clusterInfos d) ->
  parses (ChannelPosition_deserialize uninit d0) (epi_nrOfClusters d :: concat (cluster_bytes <$> epi_clusterInfos d)) (true, d).
Proof.
  intros En Hl. unfold ChannelPosition_deserialize. read_first. rewrite (to_nat_count _ _ En). destruct d as [n l]. cbn in *.
  apply (parses_last _ (fun l => (true, mkEpiPosition n l))). by apply (parses_read_clusters be uninit l []).
Qed.

Lemma parses_name n l : n = zlength l -> Forall (fun x => x <> 0) l ->
  parses (read_chars uninit (Z.to_nat n) []) l (plain_char <$> l).
Proof. intros En Hl. rewrite (to_nat_count _ _ En). apply (parses_read_chars be uninit l []). Qed.

Lemma parses_ChannelName d0 d : epi_stringLength d = zlength (epi_plugChannelName d) -> Forall (fun x => x <> 0) (epi_plugChannelName d) ->
  parses (ChannelName_deserialize uninit d0) (epi_channelPosition d :: epi_stringLength d :: epi_plugChannelName d)
    (true, mkEpiChannelName (epi_channelPosition d) (epi_stringLength d) (plain_char <$> epi_plugChannelName d)).
Proof.
  intros En Hl. unfold ChannelName_deserialize. do 2 read_first. rewrite <- (c_str_plain _ Hl).
  apply (parses_last _ (fun l => (true, mkEpiChannelName _ _ (c_str l)))). by apply parses_name.
Qed.

Lemma parses_PlugOutput d0 d : epi_nrOfOutputPlugs d = zlength (epi_outputPlugAddresses d) -> Forall address_readable (epi_outputPlugAddresses d) ->
  parses (PlugOutput_deserialize d0) (epi_nrOfOutputPlugs d :: concat (address_frame <$> epi_outputPlugAddresses d))
    (true, mkEpiOutput (epi_nrOfOutputPlugs d) (epi_outputPlugAddresses d0 ++ epi_outputPlugAddresses d)).
Proof.
  intros En Hl. unfold PlugOutput_deserialize. read_first. rewrite (to_nat_count _ _ En).
  apply (parses_member _ (fun l => mkEpiOutput _ l)). by apply (parses_read_addresses be).
Qed.

Lemma parses_ClusterInfo d0 d : epi_clusterStringLength d = zlength (epi_clusterName d) -> Forall (fun x => x <> 0) (epi_clusterName d) ->
  parses (ClusterInfo_deserialize uninit d0) (epi_clusterIndex d :: epi_portType d :: epi_clusterStringLength d :: epi_clusterName d)
    (true, mkEpiClusterInfo (epi_clusterIndex d) (epi_portType d) (epi_clusterStringLength d) (plain_char <$> epi_clusterName d)).
Proof.
  intros En Hl. unfold ClusterInfo_deserialize. do 3 read_first. rewrite <- (c_str_plain _ Hl).
  apply (parses_last _ (fun l => (true, mkEpiClusterInfo _ _ _ (c_str l)))). by apply parses_name.
Qed.

Lemma parses_info_type c v : info_readable v ->
  parses (ExtendedPlugInfoInfoType_deserialize uninit c) (it_infoType v :: info_data_bytes v) (true, info_recv c v).
Proof.
  unfold ExtendedPlugInfoInfoType_deserialize, info_data_bytes, info_recv. intros Hv. read_first.
  destruct Hv as [(-> & d & ->)|[(-> & d & ->)|[(-> & d & -> & En & Hl)|[(-> & d & -> & En & Hl)|[(-> & d & -> & Ha)
    |[(-> & d & -> & En & Hl)|(-> & d & -> & En & Hl)]]]]]]; cbn -[parses].
  - apply (parses_member _ (fun x => set_plugType x _)). unfold PlugType_deserialize. read_first. destruct d. apply parses_ret.
  - apply (parses_member _ (fun x => set_plugNrOfChns x _)). unfold NumberOfChannels_deserialize. read_first. destruct d. apply parses_ret.
  - apply (parses_member _ (fun x => set_plugChannelPosition x _)). by apply parses_ChannelPosition.
  - apply (parses_member _ (fun x => set_plugChannelName x _)). by apply parses_ChannelName.
  - apply (parses_member _ (fun x => set_plugInput x _)). unfold PlugInput_deserialize. destruct d as [a].
    apply (parses_member _ mkEpiInput). by apply (parses_PlugAddressSpecificData be).
  - apply (parses_member _ (fun x => set_plugOutput x _)).
    replace (from_option epi_outputPlugAddresses [] (it_plugOutput c))
      with (epi_outputPlugAddresses (default ExtendedPlugInfoPlugOutputSpecificData_new (it_plugOutput c))) by (by destruct (it_plugOutput c)).
    by apply parses_PlugOutput.
  - apply (parses_member _ (fun x => set_plugClusterInfo x _)). by apply parses_ClusterInfo.
Qed.
End members.

(** ** The command class *)

Definition ext_plug_info_bytes (c : ExtendedPlugInfoCmd) : list Z :=
  base_bytes (ep_base c) ++ ep_subFunction c :: address_frame (ep_plugAddress c) ++ it_infoType (ep_infoType c) :: info_data_bytes (ep_infoType c).

Definition ext_plug_info_ok (c : ExtendedPlugInfoCmd) : Prop :=
  (base_ok (ep_base c) /\ byte_ok (ep_subFunction c) /\ plug_address_ok (ep_plugAddress c) /\ info_ok (ep_infoType c))
  /\ zlength (info_data_bytes (ep_infoType c)) <= 480.

Definition ext_plug_info_reads (c v : ExtendedPlugInfoCmd) : Prop :=
  class_of (m_plugAddressData (ep_plugAddress c)) = class_of (m_plugAddressData (ep_plugAddress v)) /\ info_readable (ep_infoType v).

Definition ext_plug_info_recv (c v : ExtendedPlugInfoCmd) : ExtendedPlugInfoCmd :=
  mkExtPlugInfo (base_recv (ep_base c) (ep_base v)) (ep_subFunction v) (ep_plugAddress v) (info_recv (ep_infoType c) (ep_infoType v)).

#[export] Hint Resolve emits_info_type : wire.

Lemma emits_ext_plug_info be {SE} `{SerializeSpec be SE} c : ext_plug_info_ok c ->
  emits (ExtendedPlugInfoCmd_serialize c) (ext_plug_info_bytes c) true.
Proof. intros ((? & ? & ? & ?) & _). unfold ExtendedPlugInfoCmd_serialize, ext_plug_info_bytes. emits. Qed.

Lemma parses_ext_plug_info be {DE} `{DeserializeSpec be DE} uninit c v : ext_plug_info_reads c v ->
  parses (ExtendedPlugInfoCmd_deserialize uninit c) (ext_plug_info_bytes v) (true, ext_plug_info_recv c v).
Proof.
  intros (Hc & Hi). unfold ExtendedPlugInfoCmd_deserialize, ext_plug_info_bytes.
  eapply parses_bind; [apply parses_base|]. read_first. eapply parses_bind; [by apply parses_PlugAddress|]. cbn beta iota.
  apply (parses_conv _ _ _ _ _ (eq_sym (app_nil_r _)) eq_refl). eapply parses_bind; [by apply (parses_info_type be)|apply parses_ret].
Qed.

#[export, refine] Instance ExtendedPlugInfoCmd_spec : AVCCmdSpec ExtendedPlugInfoCmd := {
  cmd_ok := ext_plug_info_ok;
  cmd_bytes := ext_plug_info_bytes;
  cmd_reads := ext_plug_info_reads;
  cmd_recv := ext_plug_info_recv;
  cmd_emits be SE H H' c ok := emits_unchanged c (emits_ext_plug_info be c ok);
  cmd_parses be DE H H' uninit c v _ r := parses_ext_plug_info be uninit c v r;
  cmd_unchanged SE H c s := unchanged_object c _ s;
}.
Proof.
  - intros c [_ Hl]. unfold ext_plug_info_bytes, address_frame. pose proof (zlength_nonneg (info_data_bytes (ep_infoType c))).
    destruct (m_plugAddressData (ep_plugAddress c)); unfold zlength in *; simpl; rewrite ?length_app; lia.
  - done.
Defined.

(** ** Theorems *)


Definition example_position : ExtendedPlugInfoCmd :=
  mkExtPlugInfo (mkAVC 0 0x0C 0xFF 0x02 0 1) 0xC0 (mkPlugAddress 0 0 (UnitPlugAddress 0 0 0xff))
    (set_plugChannelPosition (mkEpiPosition 2 [mkEpiCluster 2 [mkEpiChannel 1 1; mkEpiChannel 2 2]; mkEpiCluster 1 [mkEpiChannel 3 0xff]])
       (ExtendedPlugInfoInfoType_new eIT_ChannelPosition)).


(** The name of a plug is followed in the frame buffer up to the next NUL: what the response has behind the bytes of the name, and then
    the memory behind the response, becomes part of it. *)
Lemma plug_name_runs_on be {DE} `{DeserializeSpec be DE} uninit d0 name r (d : DE) :
  de_wf d -> name <> [] -> Forall (fun x => x <> 0) name -> de_in d = zlength name :: name ++ r ->
  exists t d', PlugName_deserialize uninit d0 d = ((true, mkEpiName (name ++ c_str (r ++ t))), d') /\ de_in d' = r.
Proof.
  intros W Hn Hz Hin. unfold PlugName_deserialize. destruct (parses_byte uninit (zlength name) d (name ++ r) W Hin) as (d1 & E1 & W1 & I1 & _).
  destruct (pointer_spec [] name r d1 W1 I1 Hn) as (t & d2 & E2 & _ & I2 & _). exists t, d2. split; [|done].
  unfold mbind, st_bind. rewrite E1. cbn [fst snd]. rewrite E2. cbn. do 3 f_equal.
  clear -Hz. induction Hz as [|x l Hx Hl IH]; [done|]. cbn. by rewrite (proj2 (Z.eqb_neq x 0)), IH by done.
Qed.

(** The FCP code clears the buffer before a request, so that a response which ends with the name gives the name. *)
Example plug_name_in_cleared_buffer :
  (@PlugName_deserialize _ (buffer_deserialize false) 0 (mkEpiName []) (BufferDeserialize [2; 0x41; 0x42; 0; 0; 0; 0] 3)).1
  = (true, mkEpiName [0x41; 0x42]).
Proof. reflexivity. Qed.

(** [setInfoType] takes only the type: the copy that it makes is initialised again. *)
Lemma setInfoType_forgets i c i' : 0 <= it_infoType i <= eIT_ClusterInfo -> ExtendedPlugInfoInfoType_copy i = Some i' ->
  setInfoType i c = Some (mkExtPlugInfo (ep_base c) (ep_subFunction c) (ep_plugAddress c)
    (ExtendedPlugInfoInfoType_initialize (ExtendedPlugInfoInfoType_new (it_infoType i))).2).
Proof.
  intros Ht Hi. unfold setInfoType, ExtendedPlugInfoInfoType_clone. rewrite Hi. cbn. do 2 f_equal.
  unfold ExtendedPlugInfoInfoType_copy in Hi. destruct (info_type_cases _ Ht) as [E|[E|[E|[E|[E|[E|[E|E]]]]]]]; rewrite E in *; cbn in Hi;
    apply fmap_Some_1 in Hi as (x & _ & ->); reflexivity.
Qed.

(** An object that reads the output plugs twice has them twice, under the count of one reading. *)
Lemma output_plugs_accumulate c v d : it_infoType v = eIT_PlugOutput -> it_plugOutput v = Some d -> it_plugOutput c = None ->
  it_plugOutput (info_recv (info_recv c v) v)
  = Some (mkEpiOutput (epi_nrOfOutputPlugs d) (epi_outputPlugAddresses d ++ epi_outputPlugAddresses d)).
Proof. intros Et Ed Ec. unfold info_recv. rewrite Et, Ed. cbn. by rewrite Ec. Qed.
