(* ===== verification/FunctionBlock.v ===== *)
(** * Function block command

    Model of [src/libavc/audiosubunit/avc_function_block.cpp]: the controls of the function blocks in the audio
    subunit of a device (volume, balance, selectors, mixers).  A pointer member is an [option].  The
    code follows the pointer of a feature block for the control that is selected without a test; a
    null pointer there is modelled as a failure of the method, and the theorems are on objects that have
    the member. *)
From S2P Require Import Prelude ByteSwap CmdSerialize Fcp AvcCommands AvcExchange.

Definition eCSE_Feature_Unknown : Z := 0x00.
Definition eCSE_Feature_Volume : Z := 0x02.
Definition eCSE_Feature_LRBalance : Z := 0x03.
Definition eCSE_Selector_Selector : Z := 0x01.
Definition eCSE_Processing_Unknown : Z := 0x00.
Definition eCSE_Processing_Mixer : Z := 0x03.
Definition eCSE_Processing_EnhancedMixer : Z := 0xf1.
Definition eSS_ProgramableState : Z := 0x00.
Definition eSS_Level : Z := 0x01.
Definition eFBT_Selector : Z := 0x80.
Definition eFBT_Feature : Z := 0x81.
Definition eFBT_Processing : Z := 0x82.
Definition eFBT_Codec : Z := 0x83.
Definition AVC1394_FUNCTION_BLOCK_CMD : Z := 0xB8.

Record FunctionBlockFeatureVolume := mkVolume { vol_controlDataLength : Z; m_volume : Z }.
Definition FunctionBlockFeatureVolume_new : FunctionBlockFeatureVolume := mkVolume 2 0.

Record FunctionBlockFeatureLRBalance := mkBalance { bal_controlDataLength : Z; m_lrBalance : Z }.
Definition FunctionBlockFeatureLRBalance_new : FunctionBlockFeatureLRBalance := mkBalance 2 0.

Record FunctionBlockProcessingMixer := mkMixer { mix_controlSelector : Z; mix_controlDataLength : Z; m_mixerSetting : Z }.
Definition FunctionBlockProcessingMixer_new : FunctionBlockProcessingMixer := mkMixer eCSE_Processing_Mixer 2 0.

(** The copy constructor takes the selector only. *)
Definition FunctionBlockProcessingMixer_copy (rhs : FunctionBlockProcessingMixer) : FunctionBlockProcessingMixer :=
  mkMixer (mix_controlSelector rhs) 2 0.

Record FunctionBlockProcessingEnhancedMixer := mkEnhanced {
  em_controlSelector : Z;
  em_statusSelector : Z;
  em_controlDataLength : Z;
  m_ProgramableStateData : list Z;
  m_LevelData : list Z;
}.
Definition FunctionBlockProcessingEnhancedMixer_new : FunctionBlockProcessingEnhancedMixer :=
  mkEnhanced eCSE_Processing_EnhancedMixer eSS_Level 0 [] [].

(** The copy constructor leaves the length and the data behind. *)
Definition FunctionBlockProcessingEnhancedMixer_copy (uninit : Z) (rhs : FunctionBlockProcessingEnhancedMixer) :
    FunctionBlockProcessingEnhancedMixer := mkEnhanced (em_controlSelector rhs) (em_statusSelector rhs) uninit [] [].

Record FunctionBlockSelector := mkSelector { sel_selectorLength : Z; m_inputFbPlugNumber : Z; sel_controlSelector : Z }.
Definition FunctionBlockSelector_new : FunctionBlockSelector := mkSelector 2 0 eCSE_Selector_Selector.

Record FunctionBlockFeature := mkFeature {
  feat_selectorLength : Z;
  m_audioChannelNumber : Z;
  feat_controlSelector : Z;
  m_pVolume : option FunctionBlockFeatureVolume;
  m_pLRBalance : option FunctionBlockFeatureLRBalance;
}.
Definition FunctionBlockFeature_new : FunctionBlockFeature := mkFeature 2 0 eCSE_Feature_Unknown None None.

Record FunctionBlockProcessing := mkProcessing {
  proc_selectorLength : Z;
  m_fbInputPlugNumber : Z;
  m_inputAudioChannelNumber : Z;
  m_outputAudioChannelNumber : Z;
  m_pMixer : option FunctionBlockProcessingMixer;
  m_pEnhancedMixer : option FunctionBlockProcessingEnhancedMixer;
}.
Definition FunctionBlockProcessing_new : FunctionBlockProcessing := mkProcessing 4 0 0 0 None None.

(** [FunctionBlockCodec] has no members. *)
Definition FunctionBlockCodec : Type := unit.

Record FunctionBlockCmd := mkFunctionBlock {
  fb_base : AVCCommand;
  m_functionBlockType : Z;
  m_functionBlockId : Z;
  m_controlAttribute : Z;
  m_pFBSelector : option FunctionBlockSelector;
  m_pFBFeature : option FunctionBlockFeature;
  m_pFBProcessing : option FunctionBlockProcessing;
  m_pFBCodec : option FunctionBlockCodec;
}.

Definition FunctionBlockCmd_new (uninit eType id eCtrlAttrib : Z) : FunctionBlockCmd :=
  let b := setSubunitType eST_Audio (AVCCommand_new uninit AVC1394_FUNCTION_BLOCK_CMD) in
  let t := u8 eType in
  let mk := mkFunctionBlock b t (u8 id) (u8 eCtrlAttrib) in
  if t =? eFBT_Selector then mk (Some FunctionBlockSelector_new) None None None
  else if t =? eFBT_Feature then mk None (Some FunctionBlockFeature_new) None None
  else if t =? eFBT_Processing then mk None None (Some FunctionBlockProcessing_new) None
  else if t =? eFBT_Codec then mk None None None (Some tt)
  else mk None None None None.

(** The copy constructor follows all four pointers; the copies of the objects behind them are [f], [g], [h]. *)
Definition FunctionBlockCmd_copy (f : FunctionBlockSelector -> FunctionBlockSelector) (g : FunctionBlockFeature -> FunctionBlockFeature)
    (h : FunctionBlockProcessing -> FunctionBlockProcessing) (rhs : FunctionBlockCmd) : option FunctionBlockCmd :=
  match m_pFBSelector rhs, m_pFBFeature rhs, m_pFBProcessing rhs, m_pFBCodec rhs with
  | Some s, Some x, Some p, Some c =>
      Some (mkFunctionBlock (fb_base rhs) (m_functionBlockType rhs) (m_functionBlockId rhs) (m_controlAttribute rhs)
              (Some (f s)) (Some (g x)) (Some (h p)) (Some c))
  | _, _, _, _ => None
  end.

(** ** Writing *)

Section serialize.
Context {SE : Type} `{IOSSerialize SE}.

(** The high and the low byte of a 16-bit value, each written as a byte. *)
Definition FunctionBlockFeatureVolume_serialize (v : FunctionBlockFeatureVolume) : st SE bool :=
  r0 ← write_byte (vol_controlDataLength v);
  r1 ← write_byte (u8 (m_volume v >> 8));
  r2 ← write_byte (m_volume v .& 0xff);
  mret (r0 && r1 && r2).

Definition FunctionBlockFeatureLRBalance_serialize (v : FunctionBlockFeatureLRBalance) : st SE bool :=
  r0 ← write_byte (bal_controlDataLength v);
  r1 ← write_byte (u8 (m_lrBalance v >> 8));
  r2 ← write_byte (m_lrBalance v .& 0xff);
  mret (r0 && r1 && r2).

Definition FunctionBlockProcessingMixer_serialize (v : FunctionBlockProcessingMixer) : st SE bool :=
  r0 ← write_byte (mix_controlSelector v);
  r1 ← write_byte (mix_controlDataLength v);
  r2 ← write_u16 (m_mixerSetting v);
  mret (r0 && r1 && r2).

(** A byte of programmable state: eight entries, the first in the highest bit. *)
Definition state_byte (l : list Z) : Z :=
  foldl (fun value (jb : nat * Z) => u8 (value .| (jb.2 << (7 - Z.of_nat jb.1)))) 0 (imap pair l).

Fixpoint write_states (n : nat) (l : list Z) : st SE bool :=
  match n with
  | O => mret true
  | S n => r ← write_byte (state_byte (take 8 l)); rs ← write_states n (drop 8 l); mret (r && rs)
  end.

Fixpoint write_levels (n : nat) (l : list Z) : st SE bool :=
  match n with
  | O => mret true
  | S n =>
      let value := nth 0 l 0 in
      r0 ← write_byte (value >> 8);
      r1 ← write_byte (value .& 0xFF);
      rs ← write_levels n (drop 1 l);
      mret (r0 && r1 && rs)
  end.

(** The length member is computed from the data that is written. *)
Definition FunctionBlockProcessingEnhancedMixer_serialize (v : FunctionBlockProcessingEnhancedMixer) :
    st SE (bool * FunctionBlockProcessingEnhancedMixer) :=
  r0 ← write_byte (em_controlSelector v);
  r1 ← write_byte (em_statusSelector v);
  let with_length n := mkEnhanced (em_controlSelector v) (em_statusSelector v) n (m_ProgramableStateData v) (m_LevelData v) in
  if em_statusSelector v =? eSS_ProgramableState then
    let n := u16 (zlength (m_ProgramableStateData v) / 8) in
    r2 ← write_byte (n >> 8);
    r3 ← write_byte (n .& 0xFF);
    r4 ← write_states (Z.to_nat n) (m_ProgramableStateData v);
    mret (r0 && r1 && r2 && r3 && r4, with_length n)
  else if em_statusSelector v =? eSS_Level then
    let n := u16 (zlength (m_LevelData v) * 2) in
    r2 ← write_byte (n >> 8);
    r3 ← write_byte (n .& 0xFF);
    r4 ← write_levels (Z.to_nat (n / 2)) (m_LevelData v);
    mret (r0 && r1 && r2 && r3 && r4, with_length n)
  else mret (r0 && r1, v).

Definition FunctionBlockSelector_serialize (v : FunctionBlockSelector) : st SE bool :=
  r0 ← write_byte (sel_selectorLength v);
  r1 ← write_byte (m_inputFbPlugNumber v);
  r2 ← write_byte (sel_controlSelector v);
  mret (r0 && r1 && r2).

Definition FunctionBlockFeature_serialize (v : FunctionBlockFeature) : st SE bool :=
  r0 ← write_byte (feat_selectorLength v);
  r1 ← write_byte (m_audioChannelNumber v);
  r2 ← write_byte (feat_controlSelector v);
  if feat_controlSelector v =? eCSE_Feature_Volume then
    match m_pVolume v with
    | Some x => r3 ← FunctionBlockFeatureVolume_serialize x; mret (r0 && r1 && r2 && r3)
    | None => mret false
    end
  else if feat_controlSelector v =? eCSE_Feature_LRBalance then
    match m_pLRBalance v with
    | Some x => r3 ← FunctionBlockFeatureLRBalance_serialize x; mret (r0 && r1 && r2 && r3)
    | None => mret false
    end
  else mret false.

Definition with_mixers (v : FunctionBlockProcessing) m e : FunctionBlockProcessing :=
  mkProcessing (proc_selectorLength v) (m_fbInputPlugNumber v) (m_inputAudioChannelNumber v) (m_outputAudioChannelNumber v) m e.

Definition FunctionBlockProcessing_serialize (v : FunctionBlockProcessing) : st SE (bool * FunctionBlockProcessing) :=
  r0 ← write_byte (proc_selectorLength v);
  r1 ← write_byte (m_fbInputPlugNumber v);
  r2 ← write_byte (m_inputAudioChannelNumber v);
  r3 ← write_byte (m_outputAudioChannelNumber v);
  match m_pMixer v, m_pEnhancedMixer v with
  | Some m, _ => r4 ← FunctionBlockProcessingMixer_serialize m; mret (r0 && r1 && r2 && r3 && r4, v)
  | None, Some e =>
      '(r4, e) ← FunctionBlockProcessingEnhancedMixer_serialize e;
      mret (r0 && r1 && r2 && r3 && r4, with_mixers v None (Some e))
  | None, None => mret (false, v)
  end.

Definition with_processing (c : FunctionBlockCmd) (p : FunctionBlockProcessing) : FunctionBlockCmd :=
  mkFunctionBlock (fb_base c) (m_functionBlockType c) (m_functionBlockId c) (m_controlAttribute c)
    (m_pFBSelector c) (m_pFBFeature c) (Some p) (m_pFBCodec c).

Definition FunctionBlockCmd_serialize (c : FunctionBlockCmd) : st SE (bool * FunctionBlockCmd) :=
  r0 ← AVCCommand_serialize (fb_base c);
  r1 ← write_byte (m_functionBlockType c);
  r2 ← write_byte (m_functionBlockId c);
  r3 ← write_byte (m_controlAttribute c);
  let ok := r0 && r1 && r2 && r3 in
  if m_functionBlockType c =? eFBT_Selector then
    match m_pFBSelector c with Some x => r ← FunctionBlockSelector_serialize x; mret (ok && r, c) | None => mret (false, c) end
  else if m_functionBlockType c =? eFBT_Feature then
    match m_pFBFeature c with Some x => r ← FunctionBlockFeature_serialize x; mret (ok && r, c) | None => mret (false, c) end
  else if m_functionBlockType c =? eFBT_Processing then
    match m_pFBProcessing c with
    | Some x => '(r, x) ← FunctionBlockProcessing_serialize x; mret (ok && r, with_processing c x)
    | None => mret (false, c)
    end
  else mret (false, c).
End serialize.

(** ** Reading *)

Section deserialize.
Context {DE : Type} `{IISDeserialize DE} (uninit : Z).

Definition FunctionBlockFeatureVolume_deserialize (v : FunctionBlockFeatureVolume) : st DE (bool * FunctionBlockFeatureVolume) :=
  '(r0, n) ← read_byte (vol_controlDataLength v);
  '(r1, hi) ← read_byte uninit;
  '(r2, lo) ← read_byte hi;
  mret (r0 && r1 && r2, mkVolume n (u16 (hi << 8) .| lo)).

Definition FunctionBlockFeatureLRBalance_deserialize (v : FunctionBlockFeatureLRBalance) : st DE (bool * FunctionBlockFeatureLRBalance) :=
  '(r0, n) ← read_byte (bal_controlDataLength v);
  '(r1, hi) ← read_byte uninit;
  '(r2, lo) ← read_byte hi;
  mret (r0 && r1 && r2, mkBalance n (u16 (hi << 8) .| lo)).

(** Two bytes of padding are read as well. *)
Definition FunctionBlockProcessingMixer_deserialize (v : FunctionBlockProcessingMixer) : st DE (bool * FunctionBlockProcessingMixer) :=
  '(r0, s) ← read_byte (mix_controlSelector v);
  '(r1, n) ← read_byte (mix_controlDataLength v);
  '(r2, x) ← read_u16 (m_mixerSetting v);
  '(r3, p) ← read_byte uninit;
  '(r4, _) ← read_byte p;
  mret (r0 && r1 && r2 && r3 && r4, mkMixer s n x).

Fixpoint read_levels (n : nat) (acc : list Z) : st DE (bool * list Z) :=
  match n with
  | O => mret (true, acc)
  | S n =>
      '(r0, hi) ← read_byte 0;
      '(r1, lo) ← read_byte 0;
      '(rs, l) ← read_levels n (acc ++ [u16 ((hi << 8) + lo)]);
      mret (r0 && r1 && rs, l)
  end.

(** Both selectors are overwritten, so that levels are read whatever the response holds. *)
Definition FunctionBlockProcessingEnhancedMixer_deserialize (v : FunctionBlockProcessingEnhancedMixer) :
    st DE (bool * FunctionBlockProcessingEnhancedMixer) :=
  '(r0, _) ← read_byte (em_controlSelector v);
  '(r1, _) ← read_byte (em_statusSelector v);
  '(r2, hi) ← read_byte uninit;
  '(r3, lo) ← read_byte uninit;
  let n := u16 ((hi << 8) + lo) in
  '(r4, l) ← read_levels (Z.to_nat (n / 2)) [];
  mret (r0 && r1 && r2 && r3 && r4, mkEnhanced eCSE_Processing_EnhancedMixer eSS_Level n (m_ProgramableStateData v) l).

Definition FunctionBlockSelector_deserialize (v : FunctionBlockSelector) : st DE (bool * FunctionBlockSelector) :=
  '(r0, n) ← read_byte (sel_selectorLength v);
  '(r1, p) ← read_byte (m_inputFbPlugNumber v);
  '(r2, s) ← read_byte (sel_controlSelector v);
  mret (r0 && r1 && r2, mkSelector n p s).

Definition FunctionBlockFeature_deserialize (v : FunctionBlockFeature) : st DE (bool * FunctionBlockFeature) :=
  '(r0, n) ← read_byte (feat_selectorLength v);
  '(r1, ch) ← read_byte (m_audioChannelNumber v);
  '(r2, s) ← read_byte (feat_controlSelector v);
  if s =? eCSE_Feature_Volume then
    match m_pVolume v with
    | Some x =>
        '(r3, x) ← FunctionBlockFeatureVolume_deserialize x;
        mret (r0 && r1 && r2 && r3, mkFeature n ch s (Some x) (m_pLRBalance v))
    | None => mret (false, mkFeature n ch s None (m_pLRBalance v))
    end
  else if s =? eCSE_Feature_LRBalance then
    match m_pLRBalance v with
    | Some x =>
        '(r3, x) ← FunctionBlockFeatureLRBalance_deserialize x;
        mret (r0 && r1 && r2 && r3, mkFeature n ch s (m_pVolume v) (Some x))
    | None => mret (false, mkFeature n ch s (m_pVolume v) None)
    end
  else mret (false, mkFeature n ch s (m_pVolume v) (m_pLRBalance v)).

(** The bytes that are left over are read to the end; a frame has no more than [fcpFrameMaxLength]. *)
Fixpoint drain (n : nat) : st DE unit :=
  match n with
  | O => mret tt
  | S n => '(ok, _) ← read_byte uninit; if (ok : bool) then drain n else mret tt
  end.

(** The mixer that was sent is taken to be the one that answers. *)
Definition FunctionBlockProcessing_deserialize (v : FunctionBlockProcessing) : st DE (bool * FunctionBlockProcessing) :=
  '(r0, n) ← read_byte (proc_selectorLength v);
  '(r1, p) ← read_byte (m_fbInputPlugNumber v);
  '(r2, i) ← read_byte (m_inputAudioChannelNumber v);
  '(r3, o) ← read_byte (m_outputAudioChannelNumber v);
  '(r4, _) ← peek_byte uninit;
  let ok := r0 && r1 && r2 && r3 && r4 in
  '(r, v) ←
    (match m_pMixer v, m_pEnhancedMixer v with
     | Some m, e => '(r5, m) ← FunctionBlockProcessingMixer_deserialize m; mret (ok && r5, mkProcessing n p i o (Some m) e)
     | None, Some e => '(r5, e) ← FunctionBlockProcessingEnhancedMixer_deserialize e; mret (ok && r5, mkProcessing n p i o None (Some e))
     | None, None => mret (false, mkProcessing n p i o None None)
     end);
  '(more, _) ← peek_byte uninit;
  (if (more : bool) then drain (Z.to_nat fcpFrameMaxLength) else mret tt) ;;
  mret (r, v).

Definition FunctionBlockCmd_deserialize (c : FunctionBlockCmd) : st DE (bool * FunctionBlockCmd) :=
  '(r0, b) ← AVCCommand_deserialize (fb_base c);
  '(r1, t) ← read_byte (m_functionBlockType c);
  '(r2, id) ← read_byte (m_functionBlockId c);
  '(r3, a) ← read_byte (m_controlAttribute c);
  let ok := r0 && r1 && r2 && r3 in
  let mk := mkFunctionBlock b t id a in
  if t =? eFBT_Selector then
    '(r, x) ← FunctionBlockSelector_deserialize (default FunctionBlockSelector_new (m_pFBSelector c));
    mret (ok && r, mk (Some x) (m_pFBFeature c) (m_pFBProcessing c) (m_pFBCodec c))
  else if t =? eFBT_Feature then
    '(r, x) ← FunctionBlockFeature_deserialize (default FunctionBlockFeature_new (m_pFBFeature c));
    mret (ok && r, mk (m_pFBSelector c) (Some x) (m_pFBProcessing c) (m_pFBCodec c))
  else if t =? eFBT_Processing then
    '(r, x) ← FunctionBlockProcessing_deserialize (default FunctionBlockProcessing_new (m_pFBProcessing c));
    mret (ok && r, mk (m_pFBSelector c) (m_pFBFeature c) (Some x) (m_pFBCodec c))
  else if t =? eFBT_Codec then mret (false, mk (m_pFBSelector c) (m_pFBFeature c) (m_pFBProcessing c) (Some (default tt (m_pFBCodec c))))
  else mret (false, mk (m_pFBSelector c) (m_pFBFeature c) (m_pFBProcessing c) (m_pFBCodec c)).
End deserialize.

#[export] Instance FunctionBlockCmd_cmd : AVCCmd FunctionBlockCmd := {
  cmd_base := fb_base;
  cmd_set_base b c := mkFunctionBlock b (m_functionBlockType c) (m_functionBlockId c) (m_controlAttribute c)
    (m_pFBSelector c) (m_pFBFeature c) (m_pFBProcessing c) (m_pFBCodec c);
  cmd_serialize _ _ := FunctionBlockCmd_serialize;
  cmd_deserialize _ _ := FunctionBlockCmd_deserialize;
}.

(** ** The bytes of a frame *)

Definition wide_ok (x : Z) : Prop := 0 <= x < 2 ^ 16.
Definition wide_bytes (x : Z) : list Z := [x / 256; x mod 256].

Definition volume_bytes (v : FunctionBlockFeatureVolume) : list Z := vol_controlDataLength v :: wide_bytes (m_volume v).
Definition balance_bytes (v : FunctionBlockFeatureLRBalance) : list Z := bal_controlDataLength v :: wide_bytes (m_lrBalance v).
Definition mixer_bytes (v : FunctionBlockProcessingMixer) : list Z :=
  mix_controlSelector v :: mix_controlDataLength v :: wide_bytes (m_mixerSetting v).

(** [n] bytes of eight entries each. *)
Fixpoint state_bytes (n : nat) (l : list Z) : list Z :=
  match n with O => [] | S n => state_byte (take 8 l) :: state_bytes n (drop 8 l) end.

Definition enhanced_length (v : FunctionBlockProcessingEnhancedMixer) : Z :=
  if em_statusSelector v =? eSS_ProgramableState then zlength (m_ProgramableStateData v) / 8 else zlength (m_LevelData v) * 2.
Definition enhanced_bytes (v : FunctionBlockProcessingEnhancedMixer) : list Z :=
  em_controlSelector v :: em_statusSelector v :: wide_bytes (enhanced_length v)
  ++ if em_statusSelector v =? eSS_ProgramableState then state_bytes (length (m_ProgramableStateData v) / 8) (m_ProgramableStateData v)
     else concat (wide_bytes <$> m_LevelData v).
Definition enhanced_sent (v : FunctionBlockProcessingEnhancedMixer) : FunctionBlockProcessingEnhancedMixer :=
  mkEnhanced (em_controlSelector v) (em_statusSelector v) (enhanced_length v) (m_ProgramableStateData v) (m_LevelData v).

Definition selector_bytes (v : FunctionBlockSelector) : list Z := [sel_selectorLength v; m_inputFbPlugNumber v; sel_controlSelector v].
Definition feature_bytes (v : FunctionBlockFeature) : list Z :=
  [feat_selectorLength v; m_audioChannelNumber v; feat_controlSelector v]
  ++ if feat_controlSelector v =? eCSE_Feature_Volume then from_option volume_bytes [] (m_pVolume v)
     else from_option balance_bytes [] (m_pLRBalance v).
Definition processing_bytes (v : FunctionBlockProcessing) : list Z :=
  [proc_selectorLength v; m_fbInputPlugNumber v; m_inputAudioChannelNumber v; m_outputAudioChannelNumber v]
  ++ match m_pMixer v, m_pEnhancedMixer v with
     | Some m, _ => mixer_bytes m
     | None, Some e => enhanced_bytes e
     | None, None => []
     end.
Definition processing_sent (v : FunctionBlockProcessing) : FunctionBlockProcessing :=
  match m_pMixer v, m_pEnhancedMixer v with None, Some e => with_mixers v None (Some (enhanced_sent e)) | _, _ => v end.

Definition block_bytes (c : FunctionBlockCmd) : list Z :=
  if m_functionBlockType c =? eFBT_Selector then from_option selector_bytes [] (m_pFBSelector c)
  else if m_functionBlockType c =? eFBT_Feature then from_option feature_bytes [] (m_pFBFeature c)
  else from_option processing_bytes [] (m_pFBProcessing c).

Definition fb_bytes (c : FunctionBlockCmd) : list Z :=
  base_bytes (fb_base c) ++ [m_functionBlockType c; m_functionBlockId c; m_controlAttribute c] ++ block_bytes c.

(** The object after it has been written. *)
Definition fb_sent (c : FunctionBlockCmd) : FunctionBlockCmd :=
  if m_functionBlockType c =? eFBT_Processing then from_option (fun p => with_processing c (processing_sent p)) c (m_pFBProcessing c) else c.

(** What can be sent: the object has the block of its type, and in it the control that is selected. *)
Definition enhanced_ok (e : FunctionBlockProcessingEnhancedMixer) : Prop :=
  byte_ok (em_controlSelector e)
  /\ ((em_statusSelector e = eSS_ProgramableState /\ zlength (m_ProgramableStateData e) <= 3200)
      \/ (em_statusSelector e = eSS_Level /\ zlength (m_LevelData e) <= 200 /\ Forall wide_ok (m_LevelData e))).

Definition feature_ok (f : FunctionBlockFeature) : Prop :=
  byte_ok (feat_selectorLength f) /\ byte_ok (m_audioChannelNumber f)
  /\ ((feat_controlSelector f = eCSE_Feature_Volume
       /\ exists x, m_pVolume f = Some x /\ byte_ok (vol_controlDataLength x) /\ wide_ok (m_volume x))
      \/ (feat_controlSelector f = eCSE_Feature_LRBalance
       /\ exists x, m_pLRBalance f = Some x /\ byte_ok (bal_controlDataLength x) /\ wide_ok (m_lrBalance x))).

Definition processing_ok (p : FunctionBlockProcessing) : Prop :=
  byte_ok (proc_selectorLength p) /\ byte_ok (m_fbInputPlugNumber p) /\ byte_ok (m_inputAudioChannelNumber p)
  /\ byte_ok (m_outputAudioChannelNumber p)
  /\ ((exists m, m_pMixer p = Some m /\ byte_ok (mix_controlSelector m) /\ byte_ok (mix_controlDataLength m) /\ wide_ok (m_mixerSetting m))
      \/ (m_pMixer p = None /\ exists e, m_pEnhancedMixer p = Some e /\ enhanced_ok e)).

Definition fb_ok (c : FunctionBlockCmd) : Prop :=
  base_ok (fb_base c) /\ byte_ok (m_functionBlockId c) /\ byte_ok (m_controlAttribute c)
  /\ ((m_functionBlockType c = eFBT_Selector /\ exists x, m_pFBSelector c = Some x /\ Forall byte_ok (selector_bytes x))
      \/ (m_functionBlockType c = eFBT_Feature /\ exists x, m_pFBFeature c = Some x /\ feature_ok x)
      \/ (m_functionBlockType c = eFBT_Processing /\ exists x, m_pFBProcessing c = Some x /\ processing_ok x)).

Lemma wide_high x : wide_ok x -> u8 (x >> 8) = x / 256.
Proof. unfold wide_ok. intros Hx. rewrite Z.shiftr_div_pow2 by done. apply wrapU_small. zlia. Qed.

Lemma wide_low x : x .& 0xff = x mod 256.
Proof. change 0xff with (2 ^ 8 - 1). by rewrite land_mask_mod. Qed.

Lemma wide_join x : wide_ok x -> (x / 256 << 8) .| (x mod 256) = x.
Proof. unfold wide_ok. intros Hx. rewrite lor_shiftl_add by zlia. zlia. Qed.

Lemma wide_bytes_ok x : wide_ok x -> byte_ok (x / 256) /\ byte_ok (x mod 256).
Proof. unfold wide_ok, byte_ok. intros. split; zlia. Qed.

(** ** Lemmas on writing *)

Section emits.
Context (be : bool) {SE : Type} `{SerializeSpec be SE}.

Lemma emits_volume v : byte_ok (vol_controlDataLength v) -> wide_ok (m_volume v) ->
  emits (FunctionBlockFeatureVolume_serialize v) (volume_bytes v) true.
Proof.
  intros Hn Hx. destruct (wide_bytes_ok _ Hx). unfold FunctionBlockFeatureVolume_serialize, volume_bytes, wide_bytes.
  rewrite wide_high, wide_low by done. emits.
Qed.

Lemma emits_balance v : byte_ok (bal_controlDataLength v) -> wide_ok (m_lrBalance v) ->
  emits (FunctionBlockFeatureLRBalance_serialize v) (balance_bytes v) true.
Proof.
  intros Hn Hx. destruct (wide_bytes_ok _ Hx). unfold FunctionBlockFeatureLRBalance_serialize, balance_bytes, wide_bytes.
  rewrite wide_high, wide_low by done. emits.
Qed.

Lemma emits_wide x : wide_ok x -> emits (write_u16 x) (wide_bytes x) true.
Proof. intros Hx. by apply emits_u16. Qed.

Lemma emits_mixer v : byte_ok (mix_controlSelector v) -> byte_ok (mix_controlDataLength v) -> wide_ok (m_mixerSetting v) ->
  emits (FunctionBlockProcessingMixer_serialize v) (mixer_bytes v) true.
Proof.
  intros H1 H2 Hx. unfold FunctionBlockProcessingMixer_serialize, mixer_bytes. pose proof (emits_wide _ Hx). emits.
Qed.

Lemma emits_states n : forall l, emits (write_states n l) (state_bytes n l) true.
Proof.
  induction n as [|n IH]; intros l; cbn [write_states state_bytes]; [apply emits_ret|].
  eapply (emits_bind _ _ [_]).
  { apply (emits_byte_ok be). unfold state_byte. destruct (decide (take 8 l = [])) as [->|Hn]; [by vm_compute|].
    destruct (exists_last (l := imap pair (take 8 l))) as (l' & x & ->); [by destruct (take 8 l)|].
    rewrite foldl_app. apply byte_ok_u8. }
  rewrite <- (app_nil_r (state_bytes n (drop 8 l))). eapply emits_bind; [apply IH|apply emits_ret].
Qed.

Lemma emits_levels l : Forall wide_ok l -> emits (write_levels (length l) l) (concat (wide_bytes <$> l)) true.
Proof.
  induction 1 as [|x l Hx Hl IH]; cbn [write_levels length nth drop]; [apply emits_ret|].
  destruct (wide_bytes_ok _ Hx). rewrite wide_low, Z.shiftr_div_pow2 by done. change (2 ^ 8) with 256.
  change (concat (wide_bytes <$> x :: l)) with ([x / 256] ++ [x mod 256] ++ concat (wide_bytes <$> l)).
  do 2 (eapply emits_bind; [by apply (emits_byte_ok be)|]). cbn [andb].
  rewrite <- (app_nil_r (concat _)). eapply emits_bind; [exact IH|apply emits_ret].
Qed.

Lemma emits_enhanced v : enhanced_ok v ->
  emits (FunctionBlockProcessingEnhancedMixer_serialize v) (enhanced_bytes v) (true, enhanced_sent v).
Proof.
  intros (Hs & Hd). unfold FunctionBlockProcessingEnhancedMixer_serialize, enhanced_bytes, enhanced_sent, enhanced_length.
  assert (byte_ok (em_statusSelector v)) by (destruct Hd as [(-> & _)|(-> & _)]; by vm_compute).
  do 2 (eapply (emits_bind _ _ [_]); [by apply (emits_byte_ok be)|]). cbn beta zeta.
  pose proof (zlength_nonneg (m_ProgramableStateData v)). pose proof (zlength_nonneg (m_LevelData v)).
  destruct Hd as [(-> & Hn)|(-> & Hn & Hl)]; cbn [Z.eqb eSS_ProgramableState eSS_Level].
  - rewrite (wrapU_small 16) by zlia. set (n := zlength (m_ProgramableStateData v) / 8) in *.
    assert (wide_ok n) as Hw by (unfold wide_ok, n; zlia). destruct (wide_bytes_ok _ Hw).
    rewrite wide_low, Z.shiftr_div_pow2 by done. change (2 ^ 8) with 256.
    change (wide_bytes n ++ ?l) with ([n / 256] ++ [n mod 256] ++ l).
    do 2 (eapply emits_bind; [by apply (emits_byte_ok be)|]). cbn [andb].
    rewrite <- (app_nil_r (state_bytes _ _)). eapply emits_bind; [|apply emits_ret].
    replace (Z.to_nat n) with (length (m_ProgramableStateData v) / 8)%nat
      by (unfold n, zlength; rewrite Z2Nat.inj_div by lia; by rewrite Nat2Z.id). apply emits_states.
  - rewrite (wrapU_small 16) by lia. set (n := zlength (m_LevelData v) * 2) in *.
    assert (wide_ok n) as Hw by (unfold wide_ok, n; lia). destruct (wide_bytes_ok _ Hw).
    rewrite wide_low, Z.shiftr_div_pow2 by done. change (2 ^ 8) with 256.
    change (wide_bytes n ++ ?l) with ([n / 256] ++ [n mod 256] ++ l).
    do 2 (eapply emits_bind; [by apply (emits_byte_ok be)|]). cbn [andb].
    rewrite <- (app_nil_r (concat _)). eapply emits_bind; [|apply emits_ret].
    replace (Z.to_nat (n / 2)) with (length (m_LevelData v)) by (unfold n, zlength; rewrite Z.div_mul by done; lia). by apply emits_levels.
Qed.

Lemma emits_selector v : Forall byte_ok (selector_bytes v) -> emits (FunctionBlockSelector_serialize v) (selector_bytes v) true.
Proof. unfold selector_bytes, FunctionBlockSelector_serialize. rewrite !Forall_cons_iff. intros; destruct_and!. emits. Qed.

Lemma emits_feature v : feature_ok v -> emits (FunctionBlockFeature_serialize v) (feature_bytes v) true.
Proof.
  intros (? & ? & Hc). unfold FunctionBlockFeature_serialize, feature_bytes.
  assert (byte_ok (feat_controlSelector v)) by (destruct Hc as [(-> & _)|(-> & _)]; by vm_compute).
  do 3 (eapply (emits_bind _ _ [_]); [by apply (emits_byte_ok be)|]).
  destruct Hc as [(-> & x & -> & Hn & Hx)|(-> & x & -> & Hn & Hx)]; cbn -[emits]; (eapply emits_eq; [symmetry; apply app_nil_r|]).
  - eapply emits_bind; [by apply emits_volume|apply emits_ret].
  - eapply emits_bind; [by apply emits_balance|apply emits_ret].
Qed.

Lemma emits_processing v : processing_ok v -> emits (FunctionBlockProcessing_serialize v) (processing_bytes v) (true, processing_sent v).
Proof.
  intros (? & ? & ? & ? & Hc). unfold FunctionBlockProcessing_serialize, processing_bytes, processing_sent.
  do 4 (eapply (emits_bind _ _ [_]); [by apply (emits_byte_ok be)|]).
  destruct Hc as [(m & -> & ? & ? & ?)|(-> & e & -> & He)]; cbn -[emits]; (eapply emits_eq; [symmetry; apply app_nil_r|]).
  - eapply emits_bind; [by apply emits_mixer|apply emits_ret].
  - eapply emits_bind; [by apply emits_enhanced|apply emits_ret].
Qed.

Lemma emits_fb c : fb_ok c -> emits (FunctionBlockCmd_serialize c) (fb_bytes c) (true, fb_sent c).
Proof.
  intros (Hb & ? & ? & Hc). unfold FunctionBlockCmd_serialize, fb_bytes, block_bytes, fb_sent.
  assert (byte_ok (m_functionBlockType c)) by (destruct Hc as [(-> & _)|[(-> & _)|(-> & _)]]; by vm_compute).
  eapply emits_bind; [by apply (emits_base be)|]. do 3 (eapply (emits_bind _ _ [_]); [by apply (emits_byte_ok be)|]). cbn beta zeta.
  destruct Hc as [(-> & x & -> & Hx)|[(-> & x & -> & Hx)|(-> & x & -> & Hx)]]; cbn -[emits]; (eapply emits_eq; [symmetry; apply app_nil_r|]).
  - eapply emits_bind; [by apply emits_selector|apply emits_ret].
  - eapply emits_bind; [by apply emits_feature|apply emits_ret].
  - eapply emits_bind; [by apply emits_processing|apply emits_ret].
Qed.
End emits.

(** ** Lemmas on the messages *)

(** The length of an enhanced mixer is that of its data, so that writing it once more changes nothing. *)
Definition enhanced_settled (e : FunctionBlockProcessingEnhancedMixer) : Prop :=
  (em_statusSelector e = eSS_ProgramableState -> em_controlDataLength e = u16 (zlength (m_ProgramableStateData e) / 8))
  /\ (em_statusSelector e = eSS_Level -> em_controlDataLength e = u16 (zlength (m_LevelData e) * 2)).

Definition fb_settled (c : FunctionBlockCmd) : Prop := forall p e, m_functionBlockType c = eFBT_Processing ->
  m_pFBProcessing c = Some p -> m_pMixer p = None -> m_pEnhancedMixer p = Some e -> enhanced_settled e.

Section messages.
Context {SE : Type} `{IOSSerialize SE}.

Lemma bind_object {A B} (m : st SE A) (k : A -> st SE B) s : exists a s', ((m ≫= k) s).1 = (k a s').1 /\ m s = (a, s').
Proof. unfold mbind, st_bind. destruct (m s) as [a s']. by exists a, s'. Qed.

Ltac object_step := match goal with |- context [((?m ≫= ?k) ?s).1] =>
  let a := fresh "a" in let s1 := fresh "s" in let E := fresh "E" in let Em := fresh "Em" in
  destruct (bind_object m k s) as (a & s1 & E & Em); rewrite E; clear E; cbn beta iota zeta end.

Lemma enhanced_object e s : enhanced_settled e -> (FunctionBlockProcessingEnhancedMixer_serialize e s).1.2 = e.
Proof.
  intros [H1 H2]. unfold FunctionBlockProcessingEnhancedMixer_serialize. do 2 object_step.
  destruct (Z.eqb_spec (em_statusSelector e) eSS_ProgramableState) as [E|]; [|destruct (Z.eqb_spec (em_statusSelector e) eSS_Level) as [E|]; [|done]];
    do 3 object_step; [rewrite <- (H1 E)|rewrite <- (H2 E)]; by destruct e.
Qed.

Lemma fb_object c s : fb_settled c -> (FunctionBlockCmd_serialize c s).1.2 = c.
Proof.
  intros Hs. unfold FunctionBlockCmd_serialize. do 4 object_step. destruct (_ =? eFBT_Selector); [destruct (m_pFBSelector c); [by object_step|done]|].
  destruct (_ =? eFBT_Feature); [destruct (m_pFBFeature c); [by object_step|done]|].
  destruct (Z.eqb_spec (m_functionBlockType c) eFBT_Processing) as [Et|]; [|done]. destruct (m_pFBProcessing c) as [p|] eqn:Ep; [|done].
  object_step. destruct a3 as [r x]. cbn beta iota. assert (x = p) as ->; [|unfold with_processing; rewrite <- Ep; by destruct c].
  apply (f_equal (fun y => y.1.2)) in Em3. cbn in Em3. rewrite <- Em3. unfold FunctionBlockProcessing_serialize. do 4 object_step.
  destruct (m_pMixer p) as [m|] eqn:Hm; [by object_step|]. destruct (m_pEnhancedMixer p) as [e|] eqn:He; [|done].
  object_step. destruct a7 as [r8 e8]. cbn beta iota. apply (f_equal (fun y => y.1.2)) in Em8. cbn in Em8.
  rewrite enhanced_object in Em8 by (by eapply Hs). subst e8. unfold with_mixers. cbn. rewrite <- Hm, <- He. by destruct p.
Qed.
End messages.

Lemma fb_serialize_dbg c : fb_settled c -> serialize_dbg c = c.
Proof. intros Hs. apply serialize_dbg_unchanged. exact (@fb_object _ string_serialize c 0 Hs). Qed.

Lemma fb_sent_settled c : fb_ok c -> fb_settled (fb_sent c).
Proof.
  intros (_ & _ & _ & Hc) p e. unfold fb_sent. destruct (Z.eqb_spec (m_functionBlockType c) eFBT_Processing) as [Et|]; [|done].
  destruct Hc as [(E & _)|[(E & _)|(_ & x & Ex & _ & _ & _ & _ & Hx)]]; [by rewrite Et in E..|]. rewrite Ex. cbn [from_option with_processing m_pFBProcessing].
  unfold processing_sent. intros _. destruct Hx as [(m & Em & _)|(Em & y & Ey & Hy)]; rewrite Em, ?Ey; intros [= <-]; [by rewrite Em|].
  cbn [with_mixers m_pMixer m_pEnhancedMixer]. intros _ [= <-]. destruct Hy as (_ & Hy). unfold enhanced_settled, enhanced_sent, enhanced_length.
  cbn [em_statusSelector em_controlDataLength m_ProgramableStateData m_LevelData].
  pose proof (zlength_nonneg (m_ProgramableStateData y)). pose proof (zlength_nonneg (m_LevelData y)).
  split; intros E; rewrite E in *; cbn [Z.eqb Pos.eqb eSS_ProgramableState eSS_Level]; symmetry; apply wrapU_small;
    destruct Hy as [(E' & ?)|(E' & ? & _)]; try done; zlia.
Qed.

(** ** Lemmas on reading *)

(** What the command object is after the response [v]. *)
Definition enhanced_recv (c v : FunctionBlockProcessingEnhancedMixer) : FunctionBlockProcessingEnhancedMixer :=
  mkEnhanced eCSE_Processing_EnhancedMixer eSS_Level (enhanced_length v) (m_ProgramableStateData c) (m_LevelData v).

Definition feature_recv (c v : FunctionBlockFeature) : FunctionBlockFeature :=
  if feat_controlSelector v =? eCSE_Feature_Volume
  then mkFeature (feat_selectorLength v) (m_audioChannelNumber v) (feat_controlSelector v) (m_pVolume v) (m_pLRBalance c)
  else mkFeature (feat_selectorLength v) (m_audioChannelNumber v) (feat_controlSelector v) (m_pVolume c) (m_pLRBalance v).

Definition processing_recv (c v : FunctionBlockProcessing) : FunctionBlockProcessing :=
  match m_pMixer c, m_pEnhancedMixer c, m_pEnhancedMixer v with
  | None, Some e, Some e' => with_mixers v None (Some (enhanced_recv e e'))
  | _, e, _ => with_mixers v (m_pMixer v) e
  end.

Definition fb_recv (c v : FunctionBlockCmd) : FunctionBlockCmd :=
  let mk := mkFunctionBlock (base_recv (fb_base c) (fb_base v)) (m_functionBlockType v) (m_functionBlockId v) (m_controlAttribute v) in
  if m_functionBlockType v =? eFBT_Selector then mk (m_pFBSelector v) (m_pFBFeature c) (m_pFBProcessing c) (m_pFBCodec c)
  else if m_functionBlockType v =? eFBT_Feature
  then mk (m_pFBSelector c) (Some (feature_recv (default FunctionBlockFeature_new (m_pFBFeature c)) (default FunctionBlockFeature_new (m_pFBFeature v))))
         (m_pFBProcessing c) (m_pFBCodec c)
  else mk (m_pFBSelector c) (m_pFBFeature c)
         (Some (processing_recv (default FunctionBlockProcessing_new (m_pFBProcessing c)) (default FunctionBlockProcessing_new (m_pFBProcessing v))))
         (m_pFBCodec c).

(** The response is for the control that the object [c] has: the kind of block, and in it the member that the response
    selects; a mixer answers with a mixer. *)
Definition processing_answers (c v : FunctionBlockProcessing) : Prop :=
  match m_pMixer c, m_pMixer v with
  | Some _, Some _ => True
  | None, None => match m_pEnhancedMixer c, m_pEnhancedMixer v with Some _, Some e => em_statusSelector e = eSS_Level | _, _ => False end
  | _, _ => False
  end.

Definition fb_answers (c v : FunctionBlockCmd) : Prop :=
  if m_functionBlockType v =? eFBT_Selector then True
  else if m_functionBlockType v =? eFBT_Feature then
    match m_pFBFeature c, m_pFBFeature v with
    | Some f, Some g => if feat_controlSelector g =? eCSE_Feature_Volume then is_Some (m_pVolume f) else is_Some (m_pLRBalance f)
    | _, _ => False
    end
  else match m_pFBProcessing c, m_pFBProcessing v with Some p, Some q => processing_answers p q | _, _ => False end.

(** Two bytes of padding behind the response of a mixer. *)
Definition fb_padding (v : FunctionBlockCmd) (p0 p1 : Z) : list Z :=
  if m_functionBlockType v =? eFBT_Processing
  then match m_pFBProcessing v with Some p => match m_pMixer p with Some _ => [p0; p1] | None => [] end | None => [] end
  else [].

Section parses.
Context (be : bool) {DE : Type} `{DeserializeSpec be DE} (uninit : Z).

Lemma u16_high x : wide_ok x -> u16 (x / 256 << 8) = x / 256 << 8.
Proof. unfold wide_ok. intros Hx. rewrite Z.shiftl_mul_pow2 by done. apply wrapU_small. zlia. Qed.

Lemma parses_volume c v : wide_ok (m_volume v) -> parses (FunctionBlockFeatureVolume_deserialize uninit c) (volume_bytes v) (true, v).
Proof.
  intros Hx. unfold FunctionBlockFeatureVolume_deserialize, volume_bytes, wide_bytes. parses.
  rewrite u16_high, wide_join by done. by destruct v.
Qed.

Lemma parses_balance c v : wide_ok (m_lrBalance v) -> parses (FunctionBlockFeatureLRBalance_deserialize uninit c) (balance_bytes v) (true, v).
Proof.
  intros Hx. unfold FunctionBlockFeatureLRBalance_deserialize, balance_bytes, wide_bytes. parses.
  rewrite u16_high, wide_join by done. by destruct v.
Qed.

Lemma parses_mixer c v p0 p1 : wide_ok (m_mixerSetting v) ->
  parses (FunctionBlockProcessingMixer_deserialize uninit c) (mixer_bytes v ++ [p0; p1]) (true, v).
Proof.
  intros Hx. unfold FunctionBlockProcessingMixer_deserialize, mixer_bytes. pose proof (parses_u16 (m_mixerSetting c) (m_mixerSetting v / 256) (m_mixerSetting v mod 256)) as P.
  rewrite wide_join in P by done. change ((?a :: ?b :: wide_bytes ?x) ++ [p0; p1]) with ([a] ++ [b] ++ [x / 256; x mod 256] ++ [p0] ++ [p1]).
  do 2 (eapply parses_bind; [apply parses_byte|]; cbn beta iota). eapply parses_bind; [exact P|]. cbn beta iota.
  eapply parses_bind; [apply parses_byte|]; cbn beta iota. rewrite <- (app_nil_r [p1]).
  eapply parses_bind; [apply parses_byte|]; cbn beta iota. destruct v. apply parses_ret.
Qed.

Lemma parses_levels l : Forall wide_ok l -> forall acc,
  parses (read_levels (length l) acc) (concat (wide_bytes <$> l)) (true, acc ++ l).
Proof.
  induction 1 as [|x l Hx Hl IH]; intros acc; cbn [length read_levels]; [rewrite app_nil_r; apply parses_ret|].
  change (concat (wide_bytes <$> x :: l)) with ([x / 256] ++ [x mod 256] ++ concat (wide_bytes <$> l)).
  do 2 (eapply parses_bind; [apply parses_byte|]; cbn beta iota).
  assert (u16 ((x / 256 << 8) + x mod 256) = x) as ->.
  { unfold wide_ok in Hx. rewrite Z.shiftl_mul_pow2 by done. rewrite wrapU_small; zlia. }
  replace (acc ++ x :: l) with ((acc ++ [x]) ++ l) by (by rewrite <- app_assoc).
  rewrite <- (app_nil_r (concat _)). eapply parses_bind; [apply IH|apply parses_ret].
Qed.

Lemma parses_enhanced c v : enhanced_ok v -> em_statusSelector v = eSS_Level ->
  parses (FunctionBlockProcessingEnhancedMixer_deserialize uninit c) (enhanced_bytes v) (true, enhanced_recv c v).
Proof.
  intros (_ & Hd) Es. destruct Hd as [(E & _)|(_ & Hn & Hl)]; [by rewrite E in Es|].
  unfold FunctionBlockProcessingEnhancedMixer_deserialize, enhanced_bytes, enhanced_recv, enhanced_length. rewrite Es.
  cbn [Z.eqb eSS_ProgramableState eSS_Level]. set (n := zlength (m_LevelData v) * 2) in *.
  pose proof (zlength_nonneg (m_LevelData v)). assert (wide_ok n) as Hw by (unfold wide_ok, n; lia).
  change (?a :: ?b :: wide_bytes n ++ ?l) with ([a] ++ [b] ++ [n / 256] ++ [n mod 256] ++ l).
  do 4 (eapply parses_bind; [apply parses_byte|]; cbn beta iota).
  assert (u16 ((n / 256 << 8) + n mod 256) = n) as ->.
  { unfold wide_ok in Hw. rewrite Z.shiftl_mul_pow2 by done. rewrite wrapU_small; zlia. }
  cbn beta zeta. replace (Z.to_nat (n / 2)) with (length (m_LevelData v)) by (unfold n, zlength; rewrite Z.div_mul by done; lia).
  rewrite <- (app_nil_r (concat _)). eapply parses_bind; [by apply (parses_levels _ Hl [])|apply parses_ret].
Qed.

Lemma parses_selector c v : parses (FunctionBlockSelector_deserialize c) (selector_bytes v) (true, v).
Proof. unfold FunctionBlockSelector_deserialize, selector_bytes. parses. by destruct v. Qed.

Lemma parses_feature c v : feature_ok v ->
  (if feat_controlSelector v =? eCSE_Feature_Volume then is_Some (m_pVolume c) else is_Some (m_pLRBalance c)) ->
  parses (FunctionBlockFeature_deserialize uninit c) (feature_bytes v) (true, feature_recv c v).
Proof.
  intros (_ & _ & Hc) Hm. unfold FunctionBlockFeature_deserialize, feature_bytes, feature_recv.
  do 3 (eapply (parses_bind _ _ [_]); [apply parses_byte|]; cbn beta iota).
  destruct Hc as [(E & x & E' & _ & Hx)|(E & x & E' & _ & Hx)]; rewrite E, E' in *; cbn -[parses] in *; destruct Hm as (y & ->);
    (eapply parses_eq; [symmetry; apply app_nil_r|]).
  - eapply parses_bind; [by apply parses_volume|apply parses_ret].
  - eapply parses_bind; [by apply parses_balance|apply parses_ret].
Qed.

Lemma reads_peek {A} old b l (k : bool * Z -> st DE A) y : reads (k (true, b)) (b :: l) y -> reads (peek_byte old ≫= k) (b :: l) y.
Proof.
  intros Hk d r W E. destruct (Hk d r W E) as (d' & E'). exists d'.
  unfold mbind, st_bind. rewrite peek_byte_spec by done. rewrite E. simpl. by rewrite E'.
Qed.

(** Whatever is left over does not change the result. *)
Lemma reads_drain {A} (x : A) :
  reads ('(more, _) ← peek_byte uninit; (if (more : bool) then drain uninit (Z.to_nat fcpFrameMaxLength) else mret tt) ;; mret x) [] x.
Proof.
  intros d r W _. unfold mbind, st_bind. rewrite peek_byte_spec by done. cbn [fst snd].
  destruct (de_in d) as [|b l]; cbn [fst snd]; [by eexists|]. destruct (drain _ _ d) as [[] d']. by eexists.
Qed.

Lemma reads_processing c v p0 p1 : processing_ok v -> processing_answers c v ->
  reads (FunctionBlockProcessing_deserialize uninit c) (processing_bytes v ++ match m_pMixer v with Some _ => [p0; p1] | None => [] end)
    (true, processing_recv c v).
Proof.
  intros (_ & _ & _ & _ & Hc) Ha. unfold FunctionBlockProcessing_deserialize, processing_bytes, processing_recv, processing_answers in *.
  rewrite <- app_assoc. do 4 (eapply (parses_reads_bind _ _ [_]); [apply parses_byte|]; cbn beta iota).
  destruct Hc as [(m & Em & _ & _ & Hx)|(Em & e & Ee & He)]; rewrite Em in *.
  - destruct (m_pMixer c) as [m'|]; [|done]. cbn [mixer_bytes app]. apply reads_peek. cbn beta iota zeta.
    change (mix_controlSelector m :: ?l) with ((mix_controlSelector m :: l) ++ []).
    apply (parses_reads_bind _ _ (mixer_bytes m ++ [p0; p1]) [] (true, with_mixers v (Some m) (m_pEnhancedMixer c))); [|apply reads_drain].
    rewrite <- (app_nil_r (_ ++ [p0; p1])). eapply parses_bind; [by apply parses_mixer|]. apply parses_ret.
  - destruct (m_pMixer c) as [m'|]; [done|]. rewrite Ee in *. destruct (m_pEnhancedMixer c) as [e'|]; [|done].
    rewrite app_nil_r. cbn [enhanced_bytes app]. apply reads_peek. cbn beta iota zeta.
    change (em_controlSelector e :: em_statusSelector e :: ?l) with (enhanced_bytes e). rewrite <- (app_nil_r (enhanced_bytes e)).
    apply (parses_reads_bind _ _ (enhanced_bytes e) [] (true, with_mixers v None (Some (enhanced_recv e' e)))); [|apply reads_drain].
    rewrite <- (app_nil_r (enhanced_bytes e)). eapply parses_bind; [by apply parses_enhanced|]. apply parses_ret.
Qed.

Lemma reads_fb c v p0 p1 : fb_ok v -> fb_answers c v ->
  reads (FunctionBlockCmd_deserialize uninit c) (fb_bytes v ++ fb_padding v p0 p1) (true, fb_recv c v).
Proof.
  intros (_ & _ & _ & Hc) Ha. unfold FunctionBlockCmd_deserialize, fb_bytes, block_bytes, fb_recv, fb_padding, fb_answers in *.
  rewrite <- !app_assoc. eapply parses_reads_bind; [apply (parses_base be)|]. do 3 (eapply (parses_reads_bind _ _ [_]); [apply parses_byte|]; cbn beta iota).
  cbn beta zeta. destruct Hc as [(E & x & E' & Hx)|[(E & x & E' & Hx)|(E & x & E' & Hx)]]; rewrite E, E' in *; cbn -[reads] in *.
  - rewrite ?app_nil_r. apply parses_reads. eapply parses_eq; [symmetry; apply app_nil_r|].
    eapply parses_bind; [apply parses_selector|apply parses_ret].
  - destruct (m_pFBFeature c) as [f|]; [|done]. rewrite app_nil_r. apply parses_reads. eapply parses_eq; [symmetry; apply app_nil_r|].
    eapply parses_bind; [by apply parses_feature|apply parses_ret].
  - destruct (m_pFBProcessing c) as [p|]; [|done]. intros d r W Hin.
    destruct (reads_processing p x p0 p1 Hx Ha d r W Hin) as (d' & Ed). exists d'. unfold mbind, st_bind. cbn [default id]. by rewrite Ed.
Qed.
End parses.

(** ** Theorems *)

Lemma zlength_concat_wide l : zlength (concat (wide_bytes <$> l)) = 2 * zlength l.
Proof. unfold zlength. induction l as [|x l IH]; [done|]. cbn [fmap list_fmap concat]. rewrite length_app. cbn [length wide_bytes]. lia. Qed.

Lemma length_state_bytes n : forall l, length (state_bytes n l) = n.
Proof. induction n as [|n IH]; intros l; [done|]. cbn. by rewrite IH. Qed.

Lemma enhanced_size e : enhanced_ok e -> zlength (enhanced_bytes e) <= 404.
Proof.
  intros (_ & [(E & Hn)|(E & Hn & _)]); unfold enhanced_bytes; rewrite E; cbn [Z.eqb eSS_ProgramableState eSS_Level];
    change (?a :: ?b :: wide_bytes ?x ++ ?l) with ([a; b; x / 256; x mod 256] ++ l); rewrite zlength_app;
    change (zlength [_; _; _; _]) with 4.
  - assert (zlength (state_bytes (length (m_ProgramableStateData e) / 8) (m_ProgramableStateData e)) = zlength (m_ProgramableStateData e) / 8) as ->.
    { unfold zlength. rewrite length_state_bytes. by rewrite Nat2Z.inj_div. }
    pose proof (zlength_nonneg (m_ProgramableStateData e)). zlia.
  - rewrite zlength_concat_wide. lia.
Qed.

Lemma block_size c : fb_ok c -> zlength (block_bytes c) <= 408.
Proof.
  intros (_ & _ & _ & Hc). unfold block_bytes. destruct Hc as [(-> & x & -> & _)|[(-> & x & -> & Hx)|(-> & x & -> & Hx)]]; cbn [Z.eqb Pos.eqb eFBT_Selector eFBT_Feature eFBT_Processing from_option].
  - unfold zlength. cbn. lia.
  - destruct Hx as (_ & _ & [(E & y & E' & _)|(E & y & E' & _)]); unfold feature_bytes; rewrite E, E'; unfold zlength; cbn; lia.
  - destruct Hx as (_ & _ & _ & _ & Hx). unfold processing_bytes. rewrite zlength_app. change (zlength [_; _; _; _]) with 4.
    destruct Hx as [(m & -> & _)|(-> & e & -> & He)]; [unfold zlength; cbn; lia|]. pose proof (enhanced_size e He). lia.
Qed.

Lemma fb_recv_settled c v : fb_ok v -> fb_answers c v -> fb_settled (fb_recv c v).
Proof.
  intros (_ & _ & _ & Hv) Ha p e. unfold fb_recv, fb_answers in *.
  destruct Hv as [(E & _)|[(E & _)|(E & x & Ex & _ & _ & _ & _ & Hx)]]; rewrite E in *; cbn in *; try done.
  intros _. rewrite Ex in *. destruct (m_pFBProcessing c) as [q|]; [|done]. cbn [default id]. intros [= <-].
  unfold processing_answers, processing_recv in *. destruct Hx as [(m & Em & _)|(Em & y & Ey & Hy)]; rewrite Em in *.
  - destruct (m_pMixer q); [|done]. cbn. done.
  - destruct (m_pMixer q); [done|]. rewrite Ey in *. destruct (m_pEnhancedMixer q) as [z|]; [|done]. cbn. intros _ [= <-].
    split; [done|]. intros _. cbn. unfold enhanced_length. rewrite Ha. cbn [Z.eqb Pos.eqb eSS_ProgramableState eSS_Level].
    destruct Hy as (_ & [(E' & _)|(_ & Hl & _)]); [by rewrite Ha in E'|]. pose proof (zlength_nonneg (m_LevelData y)).
    symmetry. apply wrapU_small. lia.
Qed.

(** C38. A function block command and its response: a well-formed command (selector, volume, balance, mixer or enhanced mixer) is
    sent, and when the device answers for the control the command has, the object
    ends up with the block of the response: every 16-bit value is put together again from its bytes, all
    levels of an enhanced mixer in order; a mixer needs the two bytes of padding behind its setting,
    and what is left over in the frame does no harm, nor do the messages, for which the object is serialised again.  The handle
    lock is released. *)
Theorem function_block_exchange big_endian (DEBUG : debug_settings) uninit bus (c v : FunctionBlockCmd) p0 p1 s :
  let c' := cmd_set_base (set_response (m_ctype (fb_base v)) (fb_base c)) (fb_sent c) in
  fb_ok c -> fb_ok v -> fb_answers (fb_sent c) v -> m_nodeId (fb_base c) <> INVALID_NODE_ID ->
  m_filterFCPResponse s = false -> expected_response (m_ctype (fb_base v)) = true ->
  device_answers big_endian (dbg_build DEBUG) bus (m_nodeId (fb_base c)) (fb_bytes c) (fb_bytes v ++ fb_padding v p0 p1) ->
  exists s', fire big_endian DEBUG uninit bus c s = ((true, fb_recv c' v), s') /\ m_handle_lock s' = m_handle_lock s.
Proof.
  intros c' Hc Hv Ha Hn F X (A1 & A2 & A3 & (f & Hin & Af & D) & U).
  assert (fb_base (fb_sent c) = fb_base c) as Eb by (unfold fb_sent; case_match; [by destruct (m_pFBProcessing c)|done]).
  pose proof (block_size c Hc) as Sc. pose proof (block_size v Hv) as Sv.
  pose proof (zlength_nonneg (block_bytes c)). pose proof (zlength_nonneg (block_bytes v)).
  assert (forall x, zlength (fb_bytes x) = 6 + zlength (block_bytes x)) as Sz by (intros x; unfold fb_bytes, zlength; rewrite !length_app; cbn [base_bytes length]; lia).
  assert (zlength (fb_padding v p0 p1) <= 2) as Sp by (unfold fb_padding; repeat case_match; unfold zlength; cbn; lia).
  pose proof (zlength_nonneg (fb_padding v p0 p1)).
  destruct (fire_answered big_endian DEBUG uninit bus c (fb_sent c) (fb_sent c) (fb_recv c' v) (fb_bytes c) (fb_bytes v ++ fb_padding v p0 p1) true s f)
    as (s' & E & L); try done; try (cbn [cmd_base FunctionBlockCmd_cmd]; rewrite ?Eb); try done; rewrite ?zlength_app, ?Sz; try lia.
  - exact (emits_fb big_endian (H0 := buffer_serialize_spec big_endian) c Hc).
  - unfold show_request. rewrite fb_serialize_dbg by (by apply fb_sent_settled). by destruct (very_verbose DEBUG).
  - exact (reads_fb big_endian (H0 := buffer_deserialize_spec big_endian) uninit c' v p0 p1 Hv Ha).
  - exists s'. split; [|exact L]. rewrite E. cbn [nth fb_bytes base_bytes app]. rewrite X, fb_serialize_dbg; [done|].
    by apply fb_recv_settled.
Qed.

(** A mixer at node 2 that is set to -3 dB. *)
Definition example_mixer (ctype setting : Z) : FunctionBlockCmd :=
  mkFunctionBlock (mkAVC 2 ctype 0x08 0xB8 eR_Unknown eCT_Status) eFBT_Processing 1 0x10 None None
    (Some (mkProcessing 4 0 1 1 (Some (mkMixer eCSE_Processing_Mixer 2 setting)) None)) None.
Definition mixer_answer : list Z := [0x0C; 0x08; 0xB8; 0x82; 1; 0x10; 4; 0; 1; 1; 3; 2; 0xFD; 0x00; 0; 0].
Definition mixer_bus (i : nat) (node : Z) (data : list Z) : fcp_try := mkTry true true [[mkFrame 0xffc2 true mixer_answer]] true.

Lemma function_block_exchange_witness : exists c s',
  fire false true 0xAA mixer_bus (example_mixer eCT_Status 0) example_service = ((true, c), s')
  /\ m_pFBProcessing c = Some (mkProcessing 4 0 1 1 (Some (mkMixer eCSE_Processing_Mixer 2 0xFD00)) None).
Proof.
  destruct (function_block_exchange false true 0xAA mixer_bus (example_mixer eCT_Status 0) (example_mixer 0x0C 0xFD00) 0 0 example_service)
    as (s' & E & _).
  1-2: split_and!; [split_and!; vm_compute; done|vm_compute; done..|]; right; right; split; [reflexivity|]; eexists; split; [reflexivity|];
    split_and!; [vm_compute; done..|]; left; eexists; split; [reflexivity|]; split_and!; vm_compute; done.
  - exact I.
  - vm_compute. congruence.
  - reflexivity.
  - reflexivity.
  - split_and!; try done.
    + exists (mkFrame 0xffc2 true mixer_answer). split_and!; [by left|vm_compute; split_and!; done|done].
    + intros i g [<-|[]] _. by exists [].
  - eexists _, s'. split; [exact E|reflexivity].
Defined.

(** A copy of a command that a constructor has made follows a null pointer. *)
Lemma fb_copy_undefined f g h uninit t id a : FunctionBlockCmd_copy f g h (FunctionBlockCmd_new uninit t id a) = None.
Proof. unfold FunctionBlockCmd_copy, FunctionBlockCmd_new. repeat case_match; try done; simplify_eq/=; repeat case_match; done. Qed.

(** * Extended subunit info command

    [src/libavc/general/avc_extended_subunit_info.cpp]: a page with up to five function blocks of a subunit. *)

Definition AVC1394_CMD_SUBUNIT_INFO_EXTENDED : Z := 0x31.
Definition eSP_NoSpecialPupose : Z := 0xff.
Definition eFBT_AllFunctinBlockType : Z := 0xff.
Definition NR_OF_PAGE_DATA : Z := 5.
Definition SIZE_OF_PAGE_ENTRY : Z := 5.

Record ExtendedSubunitInfoPageData := mkPageData {
  pd_functionBlockType : Z;
  pd_functionBlockId : Z;
  pd_functionBlockSpecialPupose : Z;
  pd_noOfInputPlugs : Z;
  pd_noOfOutputPlugs : Z;
}.
Definition ExtendedSubunitInfoPageData_new : ExtendedSubunitInfoPageData := mkPageData 0xff 0xff eSP_NoSpecialPupose 0xff 0xff.

Record ExtendedSubunitInfoCmd := mkExtSubunit {
  xs_base : AVCCommand;
  xs_page : Z;
  xs_fbType : Z;
  xs_infoPageDatas : list ExtendedSubunitInfoPageData;
}.
Definition ExtendedSubunitInfoCmd_new (uninit : Z) : ExtendedSubunitInfoCmd :=
  mkExtSubunit (AVCCommand_new uninit AVC1394_CMD_SUBUNIT_INFO_EXTENDED) 0xff eFBT_AllFunctinBlockType [].

Section subunit_info.
Context {SE DE : Type} `{IOSSerialize SE, IISDeserialize DE} (uninit : Z).

Definition PageData_serialize (d : ExtendedSubunitInfoPageData) : st SE bool :=
  write_byte (pd_functionBlockType d) ;;
  write_byte (pd_functionBlockId d) ;;
  write_byte (pd_functionBlockSpecialPupose d) ;;
  write_byte (pd_noOfInputPlugs d) ;;
  write_byte (pd_noOfOutputPlugs d) ;;
  mret true.

Definition PageData_deserialize (d : ExtendedSubunitInfoPageData) : st DE (bool * ExtendedSubunitInfoPageData) :=
  '(_, t) ← read_byte (pd_functionBlockType d);
  '(_, i) ← read_byte (pd_functionBlockId d);
  '(_, p) ← read_byte (pd_functionBlockSpecialPupose d);
  '(_, n) ← read_byte (pd_noOfInputPlugs d);
  '(_, o) ← read_byte (pd_noOfOutputPlugs d);
  mret (true, mkPageData t i p n o).

Definition ExtendedSubunitInfoCmd_serialize (c : ExtendedSubunitInfoCmd) : st SE bool :=
  r0 ← AVCCommand_serialize (xs_base c);
  r1 ← write_byte (xs_page c);
  r2 ← write_byte (xs_fbType c);
  r3 ← all_of (PageData_serialize <$> xs_infoPageDatas c);
  let startIndex := zlength (xs_infoPageDatas c) * SIZE_OF_PAGE_ENTRY in
  let endIndex := SIZE_OF_PAGE_ENTRY * NR_OF_PAGE_DATA in
  each (replicate (Z.to_nat (endIndex - startIndex)) (write_byte 0xff)) ;;
  mret (r0 && r1 && r2 && r3).

(** A type of 0xff ends the page. *)
Fixpoint read_pages (n : nat) (acc : list ExtendedSubunitInfoPageData) : st DE (bool * list ExtendedSubunitInfoPageData) :=
  match n with
  | O => mret (true, acc)
  | S n =>
      '(_, next) ← peek_byte uninit;
      if negb (next =? 0xff) then
        '(ok, d) ← PageData_deserialize ExtendedSubunitInfoPageData_new;
        if negb ok then mret (false, acc) else read_pages n (acc ++ [d])
      else mret (true, acc)
  end.

Definition ExtendedSubunitInfoCmd_deserialize (c : ExtendedSubunitInfoCmd) : st DE (bool * ExtendedSubunitInfoCmd) :=
  '(r0, b) ← AVCCommand_deserialize (xs_base c);
  '(r1, p) ← read_byte (xs_page c);
  '(r2, t) ← read_byte (xs_fbType c);
  '(ok, l) ← read_pages 5 (xs_infoPageDatas c);
  mret (r0 && r1 && r2 && ok, mkExtSubunit b p t l).
End subunit_info.

#[export] Instance ExtendedSubunitInfoCmd_cmd : AVCCmd ExtendedSubunitInfoCmd := {
  cmd_base := xs_base;
  cmd_set_base b c := mkExtSubunit b (xs_page c) (xs_fbType c) (xs_infoPageDatas c);
  cmd_serialize _ _ c := unchanged c (ExtendedSubunitInfoCmd_serialize c);
  cmd_deserialize _ _ := ExtendedSubunitInfoCmd_deserialize;
}.

Definition page_bytes (d : ExtendedSubunitInfoPageData) : list Z :=
  [pd_functionBlockType d; pd_functionBlockId d; pd_functionBlockSpecialPupose d; pd_noOfInputPlugs d; pd_noOfOutputPlugs d].

Definition page_fill (l : list ExtendedSubunitInfoPageData) : list Z := replicate (25 - 5 * length l) 0xff.

Definition subunit_info_bytes (c : ExtendedSubunitInfoCmd) : list Z :=
  base_bytes (xs_base c) ++ [xs_page c; xs_fbType c] ++ concat (page_bytes <$> xs_infoPageDatas c) ++ page_fill (xs_infoPageDatas c).

Definition page_ok (d : ExtendedSubunitInfoPageData) : Prop := Forall byte_ok (page_bytes d) /\ pd_functionBlockType d <> 0xff.

Definition subunit_info_ok (c : ExtendedSubunitInfoCmd) : Prop :=
  base_ok (xs_base c) /\ byte_ok (xs_page c) /\ byte_ok (xs_fbType c) /\ Forall page_ok (xs_infoPageDatas c)
  /\ (length (xs_infoPageDatas c) <= 5)%nat.

(** The blocks of the response are added to those that the object has. *)
Definition subunit_info_recv (c v : ExtendedSubunitInfoCmd) : ExtendedSubunitInfoCmd :=
  mkExtSubunit (base_recv (xs_base c) (xs_base v)) (xs_page v) (xs_fbType v) (xs_infoPageDatas c ++ xs_infoPageDatas v).

Section pages.
Context (be : bool).

Lemma emits_pages {SE} `{SerializeSpec be SE} l : Forall page_ok l ->
  emits (all_of (PageData_serialize <$> l)) (concat (page_bytes <$> l)) true.
Proof.
  intros Hl. apply emits_all_of. induction Hl as [|d l (Hd & _) Hl IH]; constructor; [|done].
  unfold page_bytes in *. rewrite !Forall_cons_iff in Hd. destruct_and!. unfold PageData_serialize. emits.
Qed.

Lemma emits_fill {SE} `{SerializeSpec be SE} n : emits (each (replicate n (write_byte 0xff))) (replicate n 0xff) true.
Proof. induction n as [|n IH]; [apply emits_ret|]. cbn. eapply (emits_bind _ _ [_]); [eauto with wire|exact IH]. Qed.

Lemma emits_subunit_info {SE} `{SerializeSpec be SE} c : subunit_info_ok c ->
  emits (ExtendedSubunitInfoCmd_serialize c) (subunit_info_bytes c) true.
Proof.
  intros (? & ? & ? & Hl & Hn). unfold ExtendedSubunitInfoCmd_serialize, subunit_info_bytes.
  eapply emits_bind; [by apply (emits_base be)|]. do 2 (eapply (emits_bind _ _ [_]); [by apply (emits_byte_ok be)|]).
  eapply emits_bind; [by apply emits_pages|]. cbn beta zeta. rewrite <- (app_nil_r (page_fill _)). eapply emits_bind; [|apply emits_ret].
  unfold page_fill, SIZE_OF_PAGE_ENTRY, NR_OF_PAGE_DATA, zlength. replace (Z.to_nat _) with (25 - 5 * length (xs_infoPageDatas c))%nat by lia.
  apply emits_fill.
Qed.

Lemma reads_nothing {DE} `{DeserializeView DE} {A} (x : A) l : reads (mret x) l x.
Proof. intros d r _ _. by exists d. Qed.

Lemma reads_pages {DE} `{DeserializeSpec be DE} uninit l : Forall page_ok l -> forall n acc, (length l <= n)%nat ->
  reads (read_pages uninit n acc) (concat (page_bytes <$> l) ++ replicate (5 * (n - length l)) 0xff) (true, acc ++ l).
Proof.
  induction 1 as [|d l (_ & Hd) Hl IH]; intros n acc Hn.
  - rewrite app_nil_r. destruct n as [|n]; [apply reads_nothing|].
    replace (5 * (S n - length (@nil ExtendedSubunitInfoPageData)))%nat with (S (4 + 5 * n))%nat by (simpl; lia).
    cbn [read_pages concat fmap list_fmap app replicate]. apply (reads_peek be). apply reads_nothing.
  - destruct n as [|n]; cbn [length] in Hn; [lia|]. cbn [read_pages concat fmap list_fmap]. rewrite <- app_assoc. cbn [page_bytes app].
    apply (reads_peek be). rewrite (proj2 (Z.eqb_neq _ _) Hd). cbn [negb].
    change (pd_functionBlockType d :: ?x) with ([pd_functionBlockType d] ++ x).
    apply (parses_reads_bind _ _ (page_bytes d) _ (true, d)).
    + unfold PageData_deserialize, page_bytes. parses. by destruct d.
    + cbn [negb]. replace (acc ++ d :: l) with ((acc ++ [d]) ++ l) by (by rewrite <- app_assoc).
      replace (S n - length (d :: l))%nat with (n - length l)%nat by (simpl; lia). apply IH. lia.
Qed.

Lemma reads_subunit_info {DE} `{DeserializeSpec be DE} uninit c v : subunit_info_ok v ->
  reads (ExtendedSubunitInfoCmd_deserialize uninit c) (subunit_info_bytes v) (true, subunit_info_recv c v).
Proof.
  intros (_ & _ & _ & Hl & Hn). unfold ExtendedSubunitInfoCmd_deserialize, subunit_info_bytes.
  eapply parses_reads_bind; [apply (parses_base be)|]. do 2 (eapply (parses_reads_bind _ _ [_]); [apply parses_byte|]; cbn beta iota).
  intros d r W E. unfold page_fill in E. replace (25 - 5 * length (xs_infoPageDatas v))%nat with (5 * (5 - length (xs_infoPageDatas v)))%nat in E by lia.
  destruct (reads_pages uninit _ Hl 5%nat (xs_infoPageDatas c) Hn d r W E) as (d' & Ed). exists d'. unfold mbind, st_bind. by rewrite Ed.
Qed.
End pages.

(** A page of function blocks is sent and answered: the object gets the blocks of the response, up to the first free entry, behind
    those it had. *)
Lemma subunit_info_exchange big_endian DEBUG uninit bus (c v : ExtendedSubunitInfoCmd) s :
  let c' := cmd_set_base (set_response (m_ctype (xs_base v)) (xs_base c)) c in
  subunit_info_ok c -> subunit_info_ok v -> m_nodeId (xs_base c) <> INVALID_NODE_ID ->
  m_filterFCPResponse s = false -> expected_response (m_ctype (xs_base v)) = true ->
  device_answers big_endian DEBUG bus (m_nodeId (xs_base c)) (subunit_info_bytes c) (subunit_info_bytes v) ->
  exists s', fire big_endian DEBUG uninit bus c s = ((true, subunit_info_recv c' v), s') /\ m_handle_lock s' = m_handle_lock s.
Proof.
  intros c' Hc Hv Hn F X (A1 & A2 & A3 & (f & Hin & Af & D) & U).
  assert (forall x, subunit_info_ok x -> zlength (subunit_info_bytes x) = 30) as Sz.
  { intros x (_ & _ & _ & _ & Hx). unfold subunit_info_bytes, page_fill, zlength. rewrite !length_app, length_replicate.
    assert (length (concat (page_bytes <$> xs_infoPageDatas x)) = 5 * length (xs_infoPageDatas x))%nat as ->.
    { induction (xs_infoPageDatas x) as [|d l IH]; [done|]. cbn [fmap list_fmap concat]. rewrite length_app.
      cbn [length] in Hx. rewrite IH by lia. cbn [page_bytes length]. lia. }
    cbn [base_bytes length]. lia. }
  pose proof (Sz c Hc). pose proof (Sz v Hv).
  destruct (fire_answered big_endian DEBUG uninit bus c c c (subunit_info_recv c' v) (subunit_info_bytes c) (subunit_info_bytes v) true s f)
    as (s' & E & L); try done; try lia.
  - apply emits_unchanged. exact (emits_subunit_info big_endian (H0 := buffer_serialize_spec big_endian) c Hc).
  - exact (reads_subunit_info big_endian (H0 := buffer_deserialize_spec big_endian) uninit c' v Hv).
  - exists s'. split; [|exact L]. rewrite E. cbn [nth subunit_info_bytes base_bytes app]. by rewrite X, (serialize_dbg_unchanged (H := ExtendedSubunitInfoCmd_cmd) _ (unchanged_object (subunit_info_recv c' v) _ 0)).
Qed.
