(* ===== verification/Descriptors.v ===== *)
(** * Descriptors

    Model of [src/libavc/descriptors/avc_descriptor_cmd.cpp] (the commands that open and read a descriptor) and of
    [avc_descriptor.cpp]: the specifier and [AVCDescriptor::load], which reads a descriptor piece by
    piece over AV/C.  The info blocks of that file are in [MusicDescriptor].

    The commands point to the specifier of the descriptor object; what a response changes in it is written back after
    each [fire].  [m_type] is an enumeration of four bytes of which a response sets the one at the lowest
    address. *)
From S2P Require Import Prelude ByteSwap CmdSerialize Fcp AvcCommands AvcExchange ExtendedPlugInfo.

Definition eIndentifier : Z := 0x00.
Definition eInfoBlockByType : Z := 0x30.
Definition eInfoBlockByPosition : Z := 0x31.
Definition eSubunit0x80 : Z := 0x80.
Definition eInvalid : Z := 0xFF.

Record AVCDescriptorSpecifier := mkSpecifier {
  sp_type : Z;
  sp_listid_size : Z;
  sp_objectid_size : Z;
  sp_entrypos_size : Z;
  sp_info_block_type : Z;
  sp_info_block_instance : Z;
  sp_info_block_position : Z;
}.
Definition AVCDescriptorSpecifier_new (type : Z) : AVCDescriptorSpecifier := mkSpecifier type 0 0 0 0 0 0.

Definition AVCDescriptorSpecifier_serialize {SE} `{IOSSerialize SE} (s : AVCDescriptorSpecifier) : st SE bool :=
  write_byte (u8 (sp_type s)) ;;
  if sp_type s =? eIndentifier then mret true
  else if sp_type s =? eInfoBlockByType then
    write_u16 (sp_info_block_type s) ;; write_byte (sp_info_block_instance s) ;; mret true
  else if sp_type s =? eInfoBlockByPosition then write_byte (sp_info_block_position s) ;; mret true
  else if sp_type s =? eSubunit0x80 then mret true
  else mret false.

(** The byte at the lowest address of a four byte enumeration is replaced. *)
Definition set_enum_byte (big_endian : bool) (old b : Z) : Z :=
  if big_endian then (b << 24) .| (old .& 0xFFFFFF) else (old .& 0xFFFFFF00) .| b.

Definition AVCDescriptorSpecifier_deserialize (big_endian : bool) {DE} `{IISDeserialize DE} (s : AVCDescriptorSpecifier) :
    st DE (bool * AVCDescriptorSpecifier) :=
  '(ok, b) ← read_byte (u8 (sp_type s));
  let t := if (ok : bool) then set_enum_byte big_endian (sp_type s) b else sp_type s in
  let mk := mkSpecifier t (sp_listid_size s) (sp_objectid_size s) (sp_entrypos_size s) in
  if t =? eIndentifier then mret (true, mk (sp_info_block_type s) (sp_info_block_instance s) (sp_info_block_position s))
  else if t =? eInfoBlockByType then
    '(_, x) ← read_u16 (sp_info_block_type s);
    '(_, i) ← read_byte (sp_info_block_instance s);
    '(_, p) ← read_byte (sp_info_block_position s);
    mret (true, mk x i p)
  else if t =? eInfoBlockByPosition then
    '(_, p) ← read_byte (sp_info_block_position s);
    mret (true, mk (sp_info_block_type s) (sp_info_block_instance s) p)
  else mret (t =? eSubunit0x80, mk (sp_info_block_type s) (sp_info_block_instance s) (sp_info_block_position s)).

(** ** OPEN DESCRIPTOR *)

Definition AVC1394_CMD_OPEN_DESCRIPTOR : Z := 0x08.
Definition eClose : Z := 0x00.
Definition eRead : Z := 0x01.
Definition eWrite : Z := 0x03.

Record OpenDescriptorCmd := mkOpen {
  od_base : AVCCommand;
  od_specifier : option AVCDescriptorSpecifier;
  od_mode : Z;
  od_status : Z;
  od_reserved : Z;
  od_locked_node_id : Z;
}.

Definition OpenDescriptorCmd_new (uninit : Z) : OpenDescriptorCmd :=
  mkOpen (AVCCommand_new uninit AVC1394_CMD_OPEN_DESCRIPTOR) None eClose 0xFF 0x00 0xFFFF.
Definition OpenDescriptorCmd_clear (c : OpenDescriptorCmd) : OpenDescriptorCmd :=
  mkOpen (od_base c) (od_specifier c) (od_mode c) 0xFF 0x00 0xFFFF.

Definition OpenDescriptorCmd_serialize {SE} `{IOSSerialize SE} (c : OpenDescriptorCmd) : st SE bool :=
  AVCCommand_serialize (od_base c) ;;
  match od_specifier c with
  | None => mret false
  | Some s =>
      AVCDescriptorSpecifier_serialize s ;;
      if getCommandType (od_base c) =? eCT_Status then
        write_byte (od_status c) ;; write_byte (od_reserved c) ;; write_u16 (od_locked_node_id c) ;; mret true
      else if getCommandType (od_base c) =? eCT_Control then
        write_byte (u8 (od_mode c)) ;; write_byte (od_reserved c) ;; mret true
      else mret false
  end.

Definition OpenDescriptorCmd_deserialize (big_endian : bool) {DE} `{IISDeserialize DE} (c : OpenDescriptorCmd) : st DE (bool * OpenDescriptorCmd) :=
  '(_, b) ← AVCCommand_deserialize (od_base c);
  match od_specifier c with
  | None => mret (false, mkOpen b None (od_mode c) (od_status c) (od_reserved c) (od_locked_node_id c))
  | Some s =>
      '(_, s) ← AVCDescriptorSpecifier_deserialize big_endian s;
      if getCommandType b =? eCT_Status then
        '(_, x) ← read_byte (od_status c);
        '(_, r) ← read_byte (od_reserved c);
        '(_, n) ← read_u16 (od_locked_node_id c);
        mret (true, mkOpen b (Some s) (od_mode c) x r n)
      else if getCommandType b =? eCT_Control then
        '(_, x) ← read_byte (od_status c);
        '(_, r) ← read_byte (od_reserved c);
        let mode := if (x =? eClose) || (x =? eRead) || (x =? eWrite) then x else od_mode c in
        mret (true, mkOpen b (Some s) mode x r (od_locked_node_id c))
      else mret (false, mkOpen b (Some s) (od_mode c) (od_status c) (od_reserved c) (od_locked_node_id c))
  end.

#[export] Instance OpenDescriptorCmd_cmd (big_endian : bool) : AVCCmd OpenDescriptorCmd := {
  cmd_base := od_base;
  cmd_set_base b c := mkOpen b (od_specifier c) (od_mode c) (od_status c) (od_reserved c) (od_locked_node_id c);
  cmd_serialize _ _ c := unchanged c (OpenDescriptorCmd_serialize c);
  cmd_deserialize _ _ _ := OpenDescriptorCmd_deserialize big_endian;
}.

(** ** READ DESCRIPTOR *)

Definition AVC1394_CMD_READ_DESCRIPTOR : Z := 0x09.
Inductive EReadStatus := eComplete | eMoreToRead | eTooLarge | eInvalidStatus.

Record ReadDescriptorCmd := mkRead {
  rd_base : AVCCommand;
  rd_status : Z;
  rd_reserved : Z;
  rd_data_length : Z;
  rd_address : Z;
  rd_data : option (list Z);
  rd_specifier : option AVCDescriptorSpecifier;
}.

Definition ReadDescriptorCmd_new (uninit : Z) : ReadDescriptorCmd :=
  mkRead (AVCCommand_new uninit AVC1394_CMD_READ_DESCRIPTOR) 0xFF 0xFF 0 0 None None.
Definition ReadDescriptorCmd_clear (c : ReadDescriptorCmd) : ReadDescriptorCmd :=
  mkRead (rd_base c) 0xFF 0x00 0 0 None (rd_specifier c).

Definition ReadDescriptorCmd_getStatus (c : ReadDescriptorCmd) : EReadStatus :=
  if rd_status c =? 0x10 then eComplete else if rd_status c =? 0x11 then eMoreToRead
  else if rd_status c =? 0x12 then eTooLarge else eInvalidStatus.

Definition ReadDescriptorCmd_serialize {SE} `{IOSSerialize SE} (c : ReadDescriptorCmd) : st SE bool :=
  AVCCommand_serialize (rd_base c) ;;
  match rd_specifier c with
  | None => mret false
  | Some s =>
      AVCDescriptorSpecifier_serialize s ;;
      if getCommandType (rd_base c) =? eCT_Control then
        write_byte (rd_status c) ;; write_byte (rd_reserved c) ;; write_u16 (rd_data_length c) ;; write_u16 (rd_address c) ;; mret true
      else mret false
  end.

Definition ReadDescriptorCmd_deserialize (big_endian : bool) {DE} `{IISDeserialize DE} (c : ReadDescriptorCmd) : st DE (bool * ReadDescriptorCmd) :=
  '(_, b) ← AVCCommand_deserialize (rd_base c);
  match rd_specifier c with
  | None => mret (false, mkRead b (rd_status c) (rd_reserved c) (rd_data_length c) (rd_address c) (rd_data c) None)
  | Some s =>
      '(_, s) ← AVCDescriptorSpecifier_deserialize big_endian s;
      if getCommandType b =? eCT_Control then
        '(_, x) ← read_byte (rd_status c);
        '(_, r) ← read_byte (rd_reserved c);
        '(_, n) ← read_u16 (rd_data_length c);
        '(_, a) ← read_u16 (rd_address c);
        if getResponse b =? eR_Accepted then
          if 0 <? n then
            '(ok, data) ← read_block [] n;
            if (ok : bool) then mret (true, mkRead b x r n a (Some data) (Some s)) else mret (false, mkRead b x r n a None (Some s))
          else mret (true, mkRead b x r n a None (Some s))
        else mret (true, mkRead b x r n a (rd_data c) (Some s))
      else mret (false, mkRead b (rd_status c) (rd_reserved c) (rd_data_length c) (rd_address c) (rd_data c) (Some s))
  end.

#[export] Instance ReadDescriptorCmd_cmd (big_endian : bool) : AVCCmd ReadDescriptorCmd := {
  cmd_base := rd_base;
  cmd_set_base b c := mkRead b (rd_status c) (rd_reserved c) (rd_data_length c) (rd_address c) (rd_data c) (rd_specifier c);
  cmd_serialize _ _ c := unchanged c (ReadDescriptorCmd_serialize c);
  cmd_deserialize _ _ _ := ReadDescriptorCmd_deserialize big_endian;
}.

(** ** Loading *)

(** [X] is the state of a derived class. *)
Record AVCDescriptor (X : Type) := mkDescriptor {
  ds_specifier : AVCDescriptorSpecifier;
  ds_data : option (list Z);
  ds_length : Z;
  ds_loaded : bool;
  ds_child : X;
}.
Arguments mkDescriptor {_}.
Arguments ds_specifier {_}.
Arguments ds_data {_}.
Arguments ds_length {_}.
Arguments ds_loaded {_}.
Arguments ds_child {_}.

Definition AVCDescriptor_new {X} (s : AVCDescriptorSpecifier) (x : X) : AVCDescriptor X := mkDescriptor s None 0 false x.

Section load.
Context (big_endian DEBUG : bool) (uninit : Z) (bus : nat -> Z -> list Z -> fcp_try).
(** The node, the subunit, and the virtual method that parses the data. *)
Context (nodeId subunitType subunitId : Z) {X : Type} (parse : X -> buffer -> bool * X).
Abbreviation M := (run Ieee1394Service).

Definition of_st {A} (m : st Ieee1394Service A) : M A := fun s => Some (m s).

(** What the code sets in every command. *)
Definition addressed (b : AVCCommand) : AVCCommand :=
  setSubunitId subunitId (setSubunitType subunitType (setCommandType eCT_Control (setNodeId nodeId b))).

Definition fire_open (mode : Z) (c : OpenDescriptorCmd) (s : AVCDescriptorSpecifier) : M (bool * OpenDescriptorCmd) :=
  let c := mkOpen (addressed (od_base c)) (Some s) mode (od_status c) (od_reserved c) (od_locked_node_id c) in
  '(r, c) ← of_st (@fire big_endian DEBUG uninit bus _ (OpenDescriptorCmd_cmd big_endian) c);
  mret (r && (getResponse (od_base c) =? eR_Accepted), c).

Definition fire_read (length address : Z) (c : ReadDescriptorCmd) (s : AVCDescriptorSpecifier) : M (bool * ReadDescriptorCmd) :=
  let c := mkRead (addressed (rd_base c)) (rd_status c) (rd_reserved c) (u16 length) (u16 address) (rd_data c) (Some s) in
  '(r, c) ← of_st (@fire big_endian DEBUG uninit bus _ (ReadDescriptorCmd_cmd big_endian) c);
  mret (r && (getResponse (rd_base c) =? eR_Accepted), c).

(** The specifier a command points to, which is the one of the descriptor. *)
Definition with_specifier (s : option AVCDescriptorSpecifier) (d : AVCDescriptor X) : AVCDescriptor X :=
  mkDescriptor (default (ds_specifier d) s) (ds_data d) (ds_length d) (ds_loaded d) (ds_child d).
Definition with_data (data : list Z) (d : AVCDescriptor X) : AVCDescriptor X :=
  mkDescriptor (ds_specifier d) (Some data) (ds_length d) (ds_loaded d) (ds_child d).

(** The loop that reads the content; it ends only if the device sends data ([fuel] rounds). *)
Fixpoint read_content (fuel : nat) (c : ReadDescriptorCmd) (bytes_read : Z) (d : AVCDescriptor X) : M (bool * AVCDescriptor X) :=
  if negb (bytes_read <? ds_length d) then mret (true, d) else
  match fuel with
  | O => fun _ => None
  | S fuel =>
      '(ok, c) ← fire_read (ds_length d - bytes_read) (bytes_read + 2) (ReadDescriptorCmd_clear c) (ds_specifier d);
      let d := with_specifier (rd_specifier c) d in
      if negb ok then mret (false, d) else
      let n := if ds_length d <? bytes_read + rd_data_length c then u16 (ds_length d - bytes_read) else rd_data_length c in
      let c := mkRead (rd_base c) (rd_status c) (rd_reserved c) n (rd_address c) (rd_data c) (rd_specifier c) in
      let payload := take (Z.to_nat n) (default [] (rd_data c)) in
      let d := with_data (list_inserts (Z.to_nat bytes_read) payload (default [] (ds_data d))) d in
      let bytes_read := bytes_read + n in
      match ReadDescriptorCmd_getStatus c with
      | eMoreToRead => read_content fuel c bytes_read d
      | _ => if bytes_read <? ds_length d then mret (false, d) else read_content fuel c bytes_read d
      end
  end.

Definition load (fuel : nat) (d : AVCDescriptor X) : M (bool * AVCDescriptor X) :=
  if ds_loaded d then mret (true, d) else
  '(ok, oc) ← fire_open eRead (OpenDescriptorCmd_new uninit) (ds_specifier d);
  let d := with_specifier (od_specifier oc) d in
  if negb ok then mret (false, d) else
  '(ok, rc) ← fire_read 2 0 (ReadDescriptorCmd_new uninit) (ds_specifier d);
  let d := with_specifier (rd_specifier rc) d in
  if negb ok then mret (false, d) else
  if rd_data_length rc <? 2 then mret (false, d) else
  let data := default [] (rd_data rc) in
  let len := u16 ((nth 0 data 0 << 8) + nth 1 data 0) in
  let d := mkDescriptor (ds_specifier d) (Some (replicate (Z.to_nat len) 0)) len (ds_loaded d) (ds_child d) in
  '(ok, d) ← read_content fuel rc 0 d;
  if negb ok then mret (false, d) else
  '(ok, oc) ← fire_open eClose (OpenDescriptorCmd_clear oc) (ds_specifier d);
  let d := with_specifier (od_specifier oc) d in
  if negb ok then mret (false, d) else
  let '(ok, x) := parse (ds_child d) (BufferDeserialize (default [] (ds_data d)) (ds_length d)) in
  mret (ok, mkDescriptor (ds_specifier d) (ds_data d) (ds_length d) (ok || ds_loaded d) x).

Definition reload (fuel : nat) (d : AVCDescriptor X) : M (bool * AVCDescriptor X) :=
  load fuel (mkDescriptor (ds_specifier d) (ds_data d) (ds_length d) false (ds_child d)).
End load.

(** ** Lemmas on the commands *)

Lemma byte_ok_lor x y : byte_ok x -> byte_ok y -> byte_ok (x .| y).
Proof.
  unfold byte_ok. intros Hx Hy. assert (x .| y = (x .| y) mod 2 ^ 8) as ->.
  { rewrite <- Z.land_ones, Z.land_lor_distr_l, !Z.land_ones by done. by rewrite !Z.mod_small by lia. }
  apply Z.mod_pos_bound. lia.
Qed.

Lemma byte_ok_land x m : 0 <= m < 256 -> byte_ok (x .& m).
Proof.
  unfold byte_ok. intros Hm. assert (x .& m = (x .& m) mod 2 ^ 8) as ->.
  { rewrite <- Z.land_ones, <- Z.land_assoc, Z.land_ones by done. by rewrite (Z.mod_small m) by lia. }
  apply Z.mod_pos_bound. lia.
Qed.

(** The types that the commands below are used with; on a big-endian host the type changes with the first response. *)
Definition plain_type (be : bool) (s : AVCDescriptorSpecifier) : Prop :=
  sp_type s = eIndentifier \/ sp_type s = eSubunit0x80 \/ (be = true /\ sp_type s = 0x80000080).

(** The specifier after a response with its own byte. *)
Definition specifier_next (be : bool) (s : AVCDescriptorSpecifier) : AVCDescriptorSpecifier :=
  mkSpecifier (set_enum_byte be (sp_type s) (u8 (sp_type s))) (sp_listid_size s) (sp_objectid_size s) (sp_entrypos_size s)
    (sp_info_block_type s) (sp_info_block_instance s) (sp_info_block_position s).

Lemma specifier_next_plain be s : plain_type be s -> plain_type be (specifier_next be s) /\ u8 (sp_type (specifier_next be s)) = u8 (sp_type s).
Proof.
  unfold plain_type, specifier_next. cbn [sp_type]. intros [E|[E|(-> & E)]]; rewrite E; [destruct be..|]; split; vm_compute; auto.
Qed.

Section commands.
Context (be : bool).

Lemma emits_specifier {SE} `{SerializeSpec be SE} s : plain_type be s -> exists r,
  emits (AVCDescriptorSpecifier_serialize s) [u8 (sp_type s)] r.
Proof.
  intros Hs. unfold AVCDescriptorSpecifier_serialize. destruct Hs as [E|[E|(_ & E)]]; rewrite E; eexists; cbn -[emits];
    apply (emits_bind _ _ [_] [] true); eauto with wire.
Qed.

Lemma parses_specifier {DE} `{DeserializeSpec be DE} s : plain_type be s -> exists r,
  parses (AVCDescriptorSpecifier_deserialize be s) [u8 (sp_type s)] (r, specifier_next be s).
Proof.
  intros Hs. unfold AVCDescriptorSpecifier_deserialize, specifier_next.
  destruct Hs as [E|[E|(-> & E)]]; rewrite E; [destruct be..|]; eexists; (eapply (parses_bind _ _ [_] []); [apply parses_byte|]); cbn -[parses];
    apply parses_ret.
Qed.

Definition open_request (b : AVCCommand) (t mode : Z) : list Z := base_bytes b ++ [t; u8 mode; 0].
Definition open_response (b : AVCCommand) (t status reserved : Z) : list Z := base_bytes b ++ [t; status; reserved].

Lemma emits_open {SE} `{SerializeSpec be SE} b s mode x n : base_ok b -> plain_type be s -> m_commandType b = eCT_Control ->
  emits (OpenDescriptorCmd_serialize (mkOpen b (Some s) mode x 0 n)) (open_request b (u8 (sp_type s)) mode) true.
Proof.
  intros Hb Hs Hc. unfold OpenDescriptorCmd_serialize, open_request, getCommandType. cbn [od_base od_specifier]. rewrite Hc. cbn [Z.eqb Pos.eqb eCT_Control eCT_Status].
  eapply emits_bind; [by apply (emits_base be)|]. destruct (emits_specifier s Hs) as (r & Er).
  eapply (emits_bind _ _ [_]); [exact Er|]. eapply (emits_bind _ _ [_]); [apply (emits_byte_ok be), byte_ok_u8|].
  eapply (emits_bind _ _ [_] []); [by apply (emits_byte_ok be)|]. apply emits_ret.
Qed.

Lemma parses_open {DE} `{DeserializeSpec be DE} b v s mode x0 r0 n x r : plain_type be s -> m_commandType b = eCT_Control ->
  exists mode', parses (OpenDescriptorCmd_deserialize be (mkOpen b (Some s) mode x0 r0 n)) (open_response v (u8 (sp_type s)) x r)
    (true, mkOpen (base_recv b v) (Some (specifier_next be s)) mode' x r n).
Proof.
  intros Hs Hc. eexists. unfold OpenDescriptorCmd_deserialize, open_response. cbn [od_base od_specifier od_mode od_status od_reserved od_locked_node_id].
  eapply parses_bind; [apply (parses_base be)|]. cbn beta iota. destruct (parses_specifier s Hs) as (q & Eq).
  eapply (parses_bind _ _ [_]); [exact Eq|]. cbn beta iota. unfold getCommandType. cbn [base_recv m_commandType]. rewrite Hc. cbn [Z.eqb Pos.eqb eCT_Control eCT_Status].
  do 2 (eapply (parses_bind _ _ [_]); [apply parses_byte|]; cbn beta iota). apply parses_ret.
Qed.

Definition read_request (b : AVCCommand) (t x r n a : Z) : list Z := base_bytes b ++ [t; x; r; n / 256; n mod 256; a / 256; a mod 256].
Definition read_response (b : AVCCommand) (t x r a : Z) (data : list Z) : list Z :=
  base_bytes b ++ [t; x; r; zlength data / 256; zlength data mod 256; a / 256; a mod 256] ++ data.

Lemma emits_read {SE} `{SerializeSpec be SE} b s x r n a data : base_ok b -> plain_type be s -> m_commandType b = eCT_Control ->
  byte_ok x -> byte_ok r -> 0 <= n < 2 ^ 16 -> 0 <= a < 2 ^ 16 ->
  emits (ReadDescriptorCmd_serialize (mkRead b x r n a data (Some s))) (read_request b (u8 (sp_type s)) x r n a) true.
Proof.
  intros Hb Hs Hc Hx Hr Hn Ha. unfold ReadDescriptorCmd_serialize, read_request, getCommandType. cbn [rd_base rd_specifier]. rewrite Hc.
  cbn [Z.eqb Pos.eqb eCT_Control eCT_Status]. eapply emits_bind; [by apply (emits_base be)|]. destruct (emits_specifier s Hs) as (q & Eq).
  eapply (emits_bind _ _ [_]); [exact Eq|]. do 2 (eapply (emits_bind _ _ [_]); [by apply (emits_byte_ok be)|]).
  eapply (emits_bind _ _ [_; _]); [by apply emits_u16|]. eapply (emits_bind _ _ [_; _] []); [by apply emits_u16|]. apply emits_ret.
Qed.

Lemma join_bytes n : 0 <= n < 2 ^ 16 -> (n / 256 << 8) .| (n mod 256) = n.
Proof. intros Hn. rewrite lor_shiftl_add by zlia. zlia. Qed.

Lemma parses_read {DE} `{DeserializeSpec be DE} b v s x0 r0 n0 a0 d0 x r a data : plain_type be s -> m_commandType b = eCT_Control ->
  m_eResponse b = eR_Accepted -> data <> [] -> zlength data < 2 ^ 16 -> 0 <= a < 2 ^ 16 ->
  parses (ReadDescriptorCmd_deserialize be (mkRead b x0 r0 n0 a0 d0 (Some s))) (read_response v (u8 (sp_type s)) x r a data)
    (true, mkRead (base_recv b v) x r (zlength data) a (Some data) (Some (specifier_next be s))).
Proof.
  intros Hs Hc He Hd Hl Ha. pose proof (zlength_nonneg data).
  unfold ReadDescriptorCmd_deserialize, read_response. cbn [rd_base rd_specifier rd_status rd_reserved rd_data_length rd_address rd_data].
  eapply parses_bind; [apply (parses_base be)|]. cbn beta iota. destruct (parses_specifier s Hs) as (q & Eq).
  eapply (parses_bind _ _ [_]); [exact Eq|]. cbn beta iota. unfold getCommandType, getResponse. cbn [base_recv m_commandType m_eResponse]. rewrite Hc, He.
  cbn [Z.eqb Pos.eqb eCT_Control eCT_Status eR_Accepted]. do 2 (eapply (parses_bind _ _ [_]); [apply parses_byte|]; cbn beta iota).
  eapply (parses_bind _ _ [_; _]); [apply parses_u16|]. eapply (parses_bind _ _ [_; _]); [apply parses_u16|]. cbn beta iota.
  rewrite !join_bytes by lia. assert (0 < zlength data) by (destruct data; [done|unfold zlength; simpl; lia]).
  rewrite (proj2 (Z.ltb_lt _ _)) by done. rewrite <- (app_nil_r data) at 2. eapply parses_bind; [by apply parses_block|]. apply parses_ret.
Qed.
End commands.

(** ** A descriptor is loaded *)

Section loading.
Context (be DEBUG : bool) (uninit : Z) (bus : nat -> Z -> list Z -> fcp_try).
Context (nodeId subunitType subunitId : Z).

(** The address byte of the subunit. *)
Definition subunit_byte : Z := (subunitId .& 0x7) .| ((u8 subunitType << 3) .& 0xf8).

Lemma addressed_eq b : addressed nodeId subunitType subunitId b = mkAVC nodeId 0 subunit_byte (m_opcode b) (m_eResponse b) eCT_Control.
Proof.
  unfold addressed, setSubunitId, setSubunitType, setCommandType, setNodeId, subunit_byte. cbn [m_nodeId m_ctype m_subunit m_opcode m_eResponse m_commandType].
  f_equal. f_equal. apply Z.bits_inj'. intros n Hn. rewrite !Z.land_spec. destruct (Z.testbit 0xf8 n) eqn:F; [|by rewrite !andb_false_r].
  assert (3 <= n < 8) as Hn3.
  { destruct (decide (n < 3)); [assert (n = 0 \/ n = 1 \/ n = 2) as [->|[->| ->]] by lia; done|]. destruct (decide (8 <= n)); [|lia].
    rewrite Z.bits_above_log2 in F; [done|lia|change (Z.log2 0xf8) with 7; lia]. }
  rewrite !andb_true_r. unfold wrapU. rewrite Z.mod_pow2_bits_low by lia. rewrite Z.lor_spec, Z.land_spec.
  assert (Z.testbit 0x7 n = false) as -> by (apply Z.bits_above_log2; [lia|change (Z.log2 0x7) with 2; lia]).
  by rewrite andb_false_r, orb_false_r.
Qed.

Lemma subunit_byte_ok : byte_ok subunit_byte.
Proof. apply byte_ok_lor; apply byte_ok_land; lia. Qed.

(** What is sent and answered. *)
Definition open_req (t mode : Z) : list Z := [0; subunit_byte; AVC1394_CMD_OPEN_DESCRIPTOR; t; u8 mode; 0].
Definition open_resp (t x r : Z) : list Z := [eR_Accepted; subunit_byte; AVC1394_CMD_OPEN_DESCRIPTOR; t; x; r].
Definition read_req (t x r n a : Z) : list Z :=
  [0; subunit_byte; AVC1394_CMD_READ_DESCRIPTOR; t; x; r; n / 256; n mod 256; a / 256; a mod 256].
Definition read_resp (t x r a : Z) (data : list Z) : list Z :=
  [eR_Accepted; subunit_byte; AVC1394_CMD_READ_DESCRIPTOR; t; x; r; zlength data / 256; zlength data mod 256; a / 256; a mod 256] ++ data.

(** A device that keeps a descriptor with this content: it can be opened and closed, its length field is the length of
    the content, and a request for the rest of the content is answered with the next bytes of it, as many as the
    device likes but at least one, and with the status "more to read" if some are left. *)
Record descriptor_device (t : Z) (content : list Z) : Prop := {
  dev_open mode : mode = eRead \/ mode = eClose -> exists x r, device_answers be DEBUG bus nodeId (open_req t mode) (open_resp t x r);
  dev_length : exists x r a, 0 <= a < 2 ^ 16
    /\ device_answers be DEBUG bus nodeId (read_req t 0xFF 0xFF 2 0) (read_resp t x r a [zlength content / 256; zlength content mod 256]);
  dev_content k : 0 <= k < zlength content -> exists x r a chunk rest, drop (Z.to_nat k) content = chunk ++ rest /\ chunk <> []
    /\ zlength chunk <= 480 /\ (rest <> [] -> x = 0x11) /\ 0 <= a < 2 ^ 16
    /\ device_answers be DEBUG bus nodeId (read_req t 0xFF 0 (zlength content - k) (k + 2)) (read_resp t x r a chunk);
}.

Definition ready (s : Ieee1394Service) : Prop := m_filterFCPResponse s = false.

Lemma fire_open_ok mode c s x r sv : plain_type be s -> nodeId <> INVALID_NODE_ID -> ready sv ->
  m_opcode (od_base c) = AVC1394_CMD_OPEN_DESCRIPTOR -> od_reserved c = 0 ->
  device_answers be DEBUG bus nodeId (open_req (u8 (sp_type s)) mode) (open_resp (u8 (sp_type s)) x r) ->
  exists c' sv', fire_open be DEBUG uninit bus nodeId subunitType subunitId mode c s sv = Some ((true, c'), sv')
  /\ od_specifier c' = Some (specifier_next be s) /\ m_opcode (od_base c') = AVC1394_CMD_OPEN_DESCRIPTOR
  /\ ready sv' /\ m_handle_lock sv' = m_handle_lock sv.
Proof.
  intros Hs Hn F Ho Hr (A1 & A2 & A3 & (f & Hin & Af & D) & U). unfold fire_open. rewrite addressed_eq, Ho, Hr.
  set (b := mkAVC _ _ _ _ _ _). set (c0 := mkOpen b _ _ _ _ _).
  assert (base_ok b) as Hb by (split_and!; [vm_compute; done|apply subunit_byte_ok|vm_compute; done]).
  set (b1 := set_response eR_Accepted b). set (v := mkAVC 0 eR_Accepted subunit_byte AVC1394_CMD_OPEN_DESCRIPTOR 0 0).
  destruct (parses_open be (H0 := buffer_deserialize_spec be) b1 v s mode (od_status c) 0 (od_locked_node_id c) x r Hs eq_refl) as (mode' & Pa).
  destruct (fire_answered be DEBUG uninit bus (H := OpenDescriptorCmd_cmd be) c0 c0 c0 _ (open_req (u8 (sp_type s)) mode) (open_resp (u8 (sp_type s)) x r) true sv f
    (emits_unchanged c0 (emits_open be (H0 := buffer_serialize_spec be) b s mode _ _ Hb Hs eq_refl)) eq_refl (parses_reads _ _ _ Pa))
    as (s' & E & L); try done; try (unfold zlength; cbn; lia).
  change (expected_response _) with true in E. cbv iota in E. rewrite serialize_dbg_unchanged in E by exact (unchanged_object _ (@OpenDescriptorCmd_serialize Z string_serialize _) 0%Z).
  pose proof (@fire_filter be DEBUG uninit bus _ (OpenDescriptorCmd_cmd be) c0 sv) as Ff. rewrite E in Ff. cbn in Ff.
  eexists _, s'. split.
  - erewrite run_bind_Some; [|unfold of_st; by rewrite E]. reflexivity.
  - cbn [od_specifier od_base base_recv m_opcode]. split_and!; try done. unfold ready in *. by rewrite Ff.
Qed.

Lemma fire_read_ok n a c s x r a' data sv : plain_type be s -> nodeId <> INVALID_NODE_ID -> ready sv ->
  m_opcode (rd_base c) = AVC1394_CMD_READ_DESCRIPTOR -> byte_ok (rd_status c) -> byte_ok (rd_reserved c) ->
  0 <= n < 2 ^ 16 -> 0 <= a < 2 ^ 16 -> 0 <= a' < 2 ^ 16 -> data <> [] -> zlength data <= 480 ->
  device_answers be DEBUG bus nodeId (read_req (u8 (sp_type s)) (rd_status c) (rd_reserved c) n a) (read_resp (u8 (sp_type s)) x r a' data) ->
  exists c' sv', fire_read be DEBUG uninit bus nodeId subunitType subunitId n a c s sv = Some ((true, c'), sv')
  /\ rd_specifier c' = Some (specifier_next be s) /\ m_opcode (rd_base c') = AVC1394_CMD_READ_DESCRIPTOR
  /\ rd_data c' = Some data /\ rd_data_length c' = zlength data /\ rd_status c' = x
  /\ ready sv' /\ m_handle_lock sv' = m_handle_lock sv.
Proof.
  intros Hs Hn F Ho Hx Hr Bn Ba Ba' Hd Hl (A1 & A2 & A3 & (f & Hin & Af & D) & U). unfold fire_read. rewrite addressed_eq, Ho.
  rewrite (wrapU_small 16 n), (wrapU_small 16 a) by lia. set (b := mkAVC _ _ _ _ _ _). set (c0 := mkRead b _ _ _ _ _ _).
  assert (base_ok b) as Hb by (split_and!; [vm_compute; done|apply subunit_byte_ok|vm_compute; done]).
  set (b1 := set_response eR_Accepted b). set (v := mkAVC 0 eR_Accepted subunit_byte AVC1394_CMD_READ_DESCRIPTOR 0 0).
  pose proof (parses_read be (H0 := buffer_deserialize_spec be) b1 v s (rd_status c) (rd_reserved c) n a (rd_data c) x r a' data
    Hs eq_refl eq_refl Hd ltac:(lia) Ba') as Pa.
  pose proof (zlength_nonneg data).
  destruct (fire_answered be DEBUG uninit bus (H := ReadDescriptorCmd_cmd be) c0 c0 c0 _ (read_req (u8 (sp_type s)) (rd_status c) (rd_reserved c) n a)
    (read_resp (u8 (sp_type s)) x r a' data) true sv f
    (emits_unchanged c0 (emits_read be (H0 := buffer_serialize_spec be) b s _ _ n a _ Hb Hs eq_refl Hx Hr Bn Ba)) eq_refl (parses_reads _ _ _ Pa))
    as (s' & E & L); try done; try (unfold read_resp; rewrite zlength_app); try (unfold zlength in *; cbn; lia).
  change (expected_response _) with true in E. cbv iota in E. rewrite serialize_dbg_unchanged in E by exact (unchanged_object _ (@ReadDescriptorCmd_serialize Z string_serialize _) 0%Z).
  pose proof (@fire_filter be DEBUG uninit bus _ (ReadDescriptorCmd_cmd be) c0 sv) as Ff. rewrite E in Ff. cbn in Ff.
  eexists _, s'. split.
  - erewrite run_bind_Some; [|unfold of_st; by rewrite E]. reflexivity.
  - cbn [rd_specifier rd_base rd_data rd_data_length rd_status base_recv m_opcode]. split_and!; try done. unfold ready in *. by rewrite Ff.
Qed.

Context {X : Type} (parse : X -> buffer -> bool * X).

(** What the loop keeps of the descriptor object. *)
Definition same_descriptor (t : Z) (d d' : AVCDescriptor X) : Prop :=
  plain_type be (ds_specifier d') /\ u8 (sp_type (ds_specifier d')) = t /\ ds_length d' = ds_length d
  /\ ds_loaded d' = ds_loaded d /\ ds_child d' = ds_child d.

Lemma same_descriptor_next t (d d' : AVCDescriptor X) data : same_descriptor t d d' ->
  same_descriptor t d (with_data data (with_specifier (Some (specifier_next be (ds_specifier d'))) d')).
Proof.
  intros (P & T & R). destruct (specifier_next_plain be (ds_specifier d') P) as (P' & T'). unfold same_descriptor.
  cbn [with_data with_specifier default ds_specifier ds_length ds_loaded ds_child]. split_and!; [done| |apply R..]. unfold default, id. congruence.
Qed.

(** A chunk goes behind what has been read. *)
Lemma insert_chunk (content chunk rest : list Z) (k : nat) : drop k content = chunk ++ rest -> (k <= length content)%nat ->
  list_inserts k chunk (take k content ++ replicate (length content - k) 0)
  = take (k + length chunk) content ++ replicate (length content - (k + length chunk)) 0.
Proof.
  intros D Hk. pose proof (f_equal length D) as Hl. rewrite length_drop, length_app in Hl.
  pose proof (take_drop k content) as TD. rewrite D in TD.
  assert (length (take k content) = k) as Lk by (rewrite length_take; lia).
  rewrite <- (Nat.add_0_r k) at 1. rewrite <- Lk at 1. rewrite list_inserts_app_r.
  replace (length content - k)%nat with (length chunk + (length content - (k + length chunk)))%nat by lia.
  rewrite replicate_add, list_inserts_0_r by (by rewrite length_replicate). rewrite app_assoc. f_equal.
  rewrite <- TD at 2. rewrite app_assoc, take_app_length' by (rewrite length_app; lia). done.
Qed.

Lemma read_content_ok t content (d0 : AVCDescriptor X) : descriptor_device t content -> nodeId <> INVALID_NODE_ID -> zlength content < 2 ^ 16 - 2 ->
  ds_length d0 = zlength content ->
  forall fuel c k d sv, same_descriptor t d0 d -> ready sv -> m_opcode (rd_base c) = AVC1394_CMD_READ_DESCRIPTOR ->
  (k <= length content)%nat -> (length content - k <= fuel)%nat ->
  ds_data d = Some (take k content ++ replicate (length content - k) 0) ->
  exists d' sv', read_content be DEBUG uninit bus nodeId subunitType subunitId fuel c (Z.of_nat k) d sv = Some ((true, d'), sv')
  /\ same_descriptor t d0 d' /\ ds_data d' = Some content /\ ready sv' /\ m_handle_lock sv' = m_handle_lock sv.
Proof.
  intros Dev Hn Hc HL. unfold zlength in *. induction fuel as [|fuel IH]; intros c k d sv Sd R Ho Hk Hf Hd.
  - assert (k = length content) as -> by lia. exists d, sv. rewrite take_ge, Nat.sub_diag, app_nil_r in Hd by lia.
    destruct Sd as (? & ? & E & ?). split; [|done]. cbn [read_content]. rewrite E, HL, Z.ltb_irrefl. done.
  - cbn [read_content]. pose proof Sd as (P & T & E & E1). rewrite E, HL. destruct (decide (k = length content)) as [->|Nk].
    { exists d, sv. rewrite Z.ltb_irrefl. rewrite take_ge, Nat.sub_diag, app_nil_r in Hd by lia. done. }
    rewrite (proj2 (Z.ltb_lt _ _)) by lia. cbn [negb].
    destruct (dev_content _ _ Dev (Z.of_nat k)) as (x & r & a & chunk & rest & D & Nc & Lc & Rx & Ba & A); [unfold zlength; lia|].
    rewrite Nat2Z.id in D. unfold zlength in *. rewrite <- T in A.
    pose proof (f_equal length D) as Hl. rewrite length_drop, length_app in Hl.
    destruct (fire_read_ok (Z.of_nat (length content) - Z.of_nat k) (Z.of_nat k + 2) (ReadDescriptorCmd_clear c) (ds_specifier d) x r a chunk sv)
      as (c' & sv' & Ef & S' & O' & D' & N' & X' & R' & L'); try done; try lia.
    erewrite run_bind_Some by exact Ef. cbn beta iota. cbn [negb]. rewrite S', D', N'. unfold zlength.
    cbn [with_specifier ds_length ds_data]. rewrite Hd. unfold default, id. rewrite E, HL, (proj2 (Z.ltb_ge _ _)) by lia.
    rewrite !Nat2Z.id, (take_ge chunk) by lia. rewrite (insert_chunk _ _ _ _ D Hk), <- Nat2Z.inj_add.
    set (d1 := with_data _ _). set (c1 := mkRead _ _ _ _ _ _ _).
    assert (0 < length chunk)%nat by (destruct chunk; [done|simpl; lia]).
    destruct (IH c1 (k + length chunk)%nat d1 sv') as (d' & sv'' & E2 & ? & ? & ? & L2); try done; try lia.
    { by apply same_descriptor_next. }
    exists d', sv''. split; [|split_and!; try done; congruence].
    assert (rest <> [] -> ReadDescriptorCmd_getStatus c1 = eMoreToRead) as G by (intros Nr; unfold ReadDescriptorCmd_getStatus, c1; cbn [rd_status]; by rewrite X', (Rx Nr)).
    destruct (decide (rest = [])) as [->|Nr]; [|by rewrite (G Nr)]. simpl in Hl.
    assert (ds_length d1 = Z.of_nat (length content)) as -> by (unfold d1; cbn [with_data with_specifier ds_length]; congruence).
    rewrite (proj2 (Z.ltb_ge _ _)) by lia. by destruct (ReadDescriptorCmd_getStatus c1).
Qed.

Lemma length_field n : 0 <= n < 2 ^ 16 -> u16 ((n / 256 << 8) + n mod 256) = n.
Proof. intros Hn. rewrite Z.shiftl_mul_pow2 by lia. rewrite wrapU_small; zlia. Qed.

(** [load] gets the whole descriptor of any device that keeps one, in as many pieces as the device likes: it opens
    the descriptor, asks for its length, collects the content, closes it and hands exactly that content to the parser,
    whose verdict it returns and remembers; it ends after at most one round per byte, and the lock is as before. *)
Theorem descriptor_load content (d : AVCDescriptor X) fuel sv :
  descriptor_device (u8 (sp_type (ds_specifier d))) content -> plain_type be (ds_specifier d) -> ds_loaded d = false ->
  nodeId <> INVALID_NODE_ID -> zlength content < 2 ^ 16 - 2 -> (length content <= fuel)%nat -> ready sv ->
  exists d' sv', let '(ok, x) := parse (ds_child d) (BufferDeserialize content (zlength content)) in
    load be DEBUG uninit bus nodeId subunitType subunitId parse fuel d sv = Some ((ok, d'), sv')
    /\ ds_data d' = Some content /\ ds_length d' = zlength content /\ ds_loaded d' = ok /\ ds_child d' = x
    /\ m_handle_lock sv' = m_handle_lock sv.
Proof.
  intros Dev P Hl Hn Hc Hf R. set (t := u8 _) in Dev. pose proof (zlength_nonneg content).
  assert (same_descriptor t d d) as S0 by done. unfold load. rewrite Hl.
  destruct (dev_open _ _ Dev eRead ltac:(auto)) as (x1 & r1 & A1).
  edestruct (fire_open_ok eRead (OpenDescriptorCmd_new uninit)) as (oc & sv1 & F1 & So1 & O1 & R1 & L1); [exact P|done|exact R|done..|exact A1|].
  erewrite run_bind_Some by exact F1. cbn beta iota. cbn [negb]. rewrite So1. set (d1 := with_specifier _ d).
  assert (same_descriptor t d d1) as S1 by (apply (same_descriptor_next t d d [] S0)). pose proof S1 as (P1 & T1 & _).
  destruct (dev_length _ _ Dev) as (x2 & r2 & a2 & Ba & A2). rewrite <- T1 in A2.
  destruct (fire_read_ok 2 0 (ReadDescriptorCmd_new uninit) (ds_specifier d1) x2 r2 a2 [zlength content / 256; zlength content mod 256] sv1)
    as (rc & sv2 & F2 & So2 & O2 & D2 & N2 & _ & R2 & L2); try done; try lia.
  erewrite run_bind_Some by exact F2. cbn beta iota. cbn [negb]. rewrite So2, D2, N2. change (zlength [_; _] <? 2) with false. cbn iota.
  cbn [from_option id nth]. rewrite length_field by lia. set (d2 := mkDescriptor _ _ _ _ _).
  assert (same_descriptor t d2 d2) as S2.
  { unfold same_descriptor, d2. cbn [ds_specifier]. destruct (specifier_next_plain be _ P1) as (? & E). split_and!; try done. exact (eq_trans E T1). }
  assert (ds_data d2 = Some (take 0 content ++ replicate (length content - 0) 0)) as D2'.
  { unfold d2, zlength. cbn [ds_data]. by rewrite Nat2Z.id, Nat.sub_0_r. }
  destruct (read_content_ok t content d2 Dev Hn Hc eq_refl fuel rc 0 d2 sv2) as (d3 & sv3 & F3 & S3 & D3 & R3 & L3); try done; try lia.
  erewrite run_bind_Some by exact F3. cbn beta iota. cbn [negb]. destruct S3 as (P3 & T3 & E3 & E3' & E3'').
  destruct (dev_open _ _ Dev eClose ltac:(auto)) as (x4 & r4 & A4). rewrite <- T3 in A4.
  edestruct (fire_open_ok eClose (OpenDescriptorCmd_clear oc)) as (oc' & sv4 & F4 & So4 & O4 & R4 & L4); [exact P3|done|exact R3|exact O1|done|exact A4|].
  erewrite run_bind_Some by exact F4. cbn beta iota. cbn [negb with_specifier ds_child ds_data ds_length ds_loaded]. rewrite D3, E3, E3', E3''.
  cbn [from_option id d2 ds_length ds_loaded ds_child d1 with_specifier]. destruct (parse (ds_child d) _) as [ok x].
  eexists _, sv4. split; [reflexivity|]. cbn [ds_data ds_length ds_loaded ds_child]. rewrite Hl, orb_false_r. split_and!; try done. congruence.
Qed.
End loading.

(** A music subunit at node 2 with a descriptor, which it sends in pieces of at most [chunk] bytes. *)
Definition example_reply (content : list Z) (chunk : nat) (request : list Z) : list Z :=
  match request with
  | _ :: su :: op :: t :: x :: r :: rest =>
      if op =? AVC1394_CMD_OPEN_DESCRIPTOR then [eR_Accepted; su; op; t; x; r] else
      let a := nth 2 rest 0 * 256 + nth 3 rest 0 in
      let left := drop (Z.to_nat (a - 2)) content in
      let data := if a =? 0 then [zlength content / 256; zlength content mod 256] else take chunk left in
      read_resp 0x0C 0 t (match drop chunk left with [] => 0x10 | _ => 0x11 end) 0 a data
  | _ => []
  end.
Definition example_device (content : list Z) (chunk i : nat) (node : Z) (request : list Z) : fcp_try :=
  mkTry true true [[mkFrame node true (example_reply content chunk request)]] true.

Definition frame_sent (req : list Z) : list Z := take (Z.to_nat ((zlength req + 3) / 4 * 4)) (frame_image req).

Lemma example_answers content chunk req resp : example_reply content chunk (frame_sent req) = resp ->
  fcp_answer false 0xffc2 (frame_image req) (mkFrame 0xffc2 true resp) -> 0x08000000 <= FCP_MASK_RESPONSE (quad0 false resp) ->
  device_answers false true (example_device content chunk) 2 req resp.
Proof.
  intros <- A D. unfold device_answers. fold (frame_sent req). split_and!; try done.
  - eexists. split_and!; [by left|exact A|intros _; exact D].
  - intros i g [<-|[]] _. exists []. by rewrite app_nil_r.
Qed.

(** The answer to the request for the bytes from [k] on, as a computation. *)
Definition example_chunk_ok (content : list Z) (chunk : nat) (k : Z) : Prop :=
  let req := read_req 0x0C 0 eSubunit0x80 0xFF 0 (zlength content - k) (k + 2) in
  let data := take chunk (drop (Z.to_nat k) content) in
  let resp := read_resp 0x0C 0 eSubunit0x80 (match drop chunk (drop (Z.to_nat k) content) with [] => 0x10 | _ => 0x11 end) 0 (k + 2) data in
  example_reply content chunk (frame_sent req) = resp
  /\ fcp_answer false 0xffc2 (frame_image req) (mkFrame 0xffc2 true resp) /\ 0x08000000 <= FCP_MASK_RESPONSE (quad0 false resp)
  /\ data <> [] /\ zlength data <= 480 /\ 0 <= k + 2 < 2 ^ 16.

Lemma example_descriptor_device content chunk : zlength content < 256 -> (forall k, In k (seqZ 0 (zlength content)) -> example_chunk_ok content chunk k) ->
  example_reply content chunk (frame_sent (read_req 0x0C 0 eSubunit0x80 0xFF 0xFF 2 0))
    = read_resp 0x0C 0 eSubunit0x80 (match drop chunk content with [] => 0x10 | _ => 0x11 end) 0 0 [zlength content / 256; zlength content mod 256] ->
  descriptor_device false true (example_device content chunk) 2 0x0C 0 eSubunit0x80 content.
Proof.
  intros Hl Hc Hr. split.
  - intros mode [->| ->]; (eexists _, _; apply example_answers; [by vm_compute|by vm_compute|by vm_compute]).
  - eexists _, _, 0. split; [done|]. eapply example_answers; [exact Hr|by vm_compute|by vm_compute].
  - intros k Hk. destruct (Hc k) as (R & A & D & N & L & K); [apply list_elem_of_In, elem_of_seqZ; lia|].
    eexists _, 0, (k + 2), _, (drop chunk (drop (Z.to_nat k) content)). split; [symmetry; apply take_drop|]. split; [done|]. split; [done|].
    split; [|split; [done|eapply example_answers; [exact R|exact A|exact D]]]. intros Nr. destruct (drop chunk (drop (Z.to_nat k) content)) ; congruence.
Qed.

(** The chunks one by one. *)
Ltac example_chunks :=
  intros k Hk; vm_compute in Hk;
  repeat match type of Hk with _ \/ _ => destruct Hk as [<-|Hk]; [vm_compute; split_and!; done|] end; destruct Hk.

Definition example_content : list Z := [0x81; 0x00; 0x07].

Lemma descriptor_load_example : exists d' s', load false true 0xAA (example_device example_content 2) 2 0x0C 0 (fun _ b => (true, b)) 3
    (AVCDescriptor_new (AVCDescriptorSpecifier_new eSubunit0x80) (BufferDeserialize [] 0)) example_service = Some ((true, d'), s')
  /\ ds_data d' = Some example_content /\ ds_loaded d' = true.
Proof.
  destruct (descriptor_load false true 0xAA (example_device example_content 2) 2 0x0C 0 (fun _ b => (true, b)) example_content
    (AVCDescriptor_new (AVCDescriptorSpecifier_new eSubunit0x80) (BufferDeserialize [] 0)) 3 example_service) as (d' & s' & E & D & _ & L & _).
  - apply example_descriptor_device; [done|example_chunks|by vm_compute].
  - right. by left.
  - reflexivity.
  - vm_compute. congruence.
  - vm_compute. reflexivity.
  - vm_compute. lia.
  - reflexivity.
  - exists d', s'. split; [exact E|split; [exact D|exact L]].
Qed.
