(* ===== verification/MusicDescriptor.v ===== *)
(** * Info blocks and the music subunit descriptor

    Model of the info blocks of [src/libavc/descriptors/avc_descriptor.cpp] and of
    [src/libavc/musicsubunit/avc_descriptor_music.cpp], which parses the status descriptor of a music subunit: nested
    blocks for its plugs, the clusters and signals of these, and the music plugs that connect them.

    An object starts as its constructor leaves it, and a block that is read twice keeps what it has.  [txt] in the source is a
    pointer that is not set if the data has ended: [garbage] is the memory it points to then.  [uninit] is the value of a
    variable that is not set. *)
From S2P Require Import Prelude ByteSwap CmdSerialize Fcp AvcCommands AvcExchange ExtendedPlugInfo Descriptors.

(** ** Info blocks *)

Record AVCInfoBlock := mkInfoBlock {
  ib_compound_length : Z;
  ib_type : Z;
  ib_primary_field_length : Z;
  ib_supported : Z;
}.
Definition AVCInfoBlock_new (supported_type : Z) : AVCInfoBlock := mkInfoBlock 0 0 0 supported_type.

Definition wrong_type (b : AVCInfoBlock) : bool := negb (ib_supported b =? 0xFFFF) && negb (ib_type b =? ib_supported b).

Record TextBlock := mkText { tb_block : AVCInfoBlock; tb_text : list Z }.
Definition AVCRawTextInfoBlock_new : TextBlock := mkText (AVCInfoBlock_new 0x000A) [].
Definition AVCNameInfoBlock_new : TextBlock := mkText (AVCInfoBlock_new 0x000B) [].

(** The optional text that a block ends with: both members, of which one is read. *)
Record BlockText := mkBlockText { bt_raw : TextBlock; bt_name : TextBlock }.
Definition BlockText_new : BlockText := mkBlockText AVCRawTextInfoBlock_new AVCNameInfoBlock_new.

(** "Unknown" *)
Definition unknown_name : list Z := [0x55; 0x6E; 0x6B; 0x6E; 0x6F; 0x77; 0x6E].
Definition getName (t : BlockText) : list Z :=
  if 0 <? ib_compound_length (tb_block (bt_raw t)) then tb_text (bt_raw t)
  else if 0 <? ib_compound_length (tb_block (bt_name t)) then tb_text (bt_name t)
  else unknown_name.

(** ** The blocks of a music subunit *)

Record AVCMusicGeneralStatusInfoBlock := mkGeneralStatus {
  gs_block : AVCInfoBlock;
  gs_transmit_capability : Z;
  gs_receive_capability : Z;
  gs_latency_capability : Z;
}.
Definition AVCMusicGeneralStatusInfoBlock_new : AVCMusicGeneralStatusInfoBlock := mkGeneralStatus (AVCInfoBlock_new 0x8100) 0 0 0xFFFFFFFF.

Record sSignalInfo := mkSignal { sg_music_plug_id : Z; sg_stream_position : Z; sg_stream_location : Z }.

Record AVCMusicClusterInfoBlock := mkCluster {
  cl_block : AVCInfoBlock;
  cl_stream_format : Z;
  cl_port_type : Z;
  cl_nb_signals : Z;
  cl_SignalInfos : list sSignalInfo;
  cl_text : BlockText;
}.
Definition AVCMusicClusterInfoBlock_new : AVCMusicClusterInfoBlock := mkCluster (AVCInfoBlock_new 0x810A) 0 0 0 [] BlockText_new.

Record AVCMusicSubunitPlugInfoBlock := mkSubunitPlug {
  su_block : AVCInfoBlock;
  su_plug_id : Z;
  su_signal_format : Z;
  su_plug_type : Z;
  su_nb_clusters : Z;
  su_nb_channels : Z;
  su_Clusters : list AVCMusicClusterInfoBlock;
  su_text : BlockText;
}.
Definition AVCMusicSubunitPlugInfoBlock_new : AVCMusicSubunitPlugInfoBlock :=
  mkSubunitPlug (AVCInfoBlock_new 0x8109) 0 0 0xFF 0 0 [] BlockText_new.

Record AVCMusicPlugInfoBlock := mkMusicPlug {
  mp_block : AVCInfoBlock;
  mp_type : Z;
  mp_id : Z;
  mp_routing_support : Z;
  mp_source : list Z;   (** function type, id, function block id, stream position, stream location *)
  mp_dest : list Z;
  mp_text : BlockText;
}.
Definition AVCMusicPlugInfoBlock_new : AVCMusicPlugInfoBlock :=
  mkMusicPlug (AVCInfoBlock_new 0x810B) 0 0 0 [0; 0; 0; 0; 0] [0; 0; 0; 0; 0] BlockText_new.

Record AVCMusicRoutingStatusInfoBlock := mkRouting {
  rs_block : AVCInfoBlock;
  rs_nb_dest_plugs : Z;
  rs_nb_source_plugs : Z;
  rs_nb_music_plugs : Z;
  rs_dest : list AVCMusicSubunitPlugInfoBlock;
  rs_source : list AVCMusicSubunitPlugInfoBlock;
  rs_music : list AVCMusicPlugInfoBlock;
}.
Definition AVCMusicRoutingStatusInfoBlock_new : AVCMusicRoutingStatusInfoBlock := mkRouting (AVCInfoBlock_new 0x8108) 0 0 0 [] [] [].

Record AVCMusicStatusDescriptor := mkMusicStatus {
  ms_general : AVCMusicGeneralStatusInfoBlock;
  ms_output : AVCInfoBlock;
  ms_routing : AVCMusicRoutingStatusInfoBlock;
}.
Definition AVCMusicStatusDescriptor_new : AVCMusicStatusDescriptor :=
  mkMusicStatus AVCMusicGeneralStatusInfoBlock_new (AVCInfoBlock_new 0x8101) AVCMusicRoutingStatusInfoBlock_new.

Section deserialize.
Context (big_endian : bool) (uninit : Z) (garbage : list Z) {DE : Type} `{IISDeserialize DE}.

Definition AVCInfoBlock_deserialize (b : AVCInfoBlock) : st DE (bool * AVCInfoBlock) :=
  '(r1, l) ← read_u16 (ib_compound_length b);
  '(r2, t) ← read_u16 (ib_type b);
  '(r3, p) ← read_u16 (ib_primary_field_length b);
  let b := mkInfoBlock l t p (ib_supported b) in
  mret (if wrong_type b then false else r1 && r2 && r3, b).

Definition peekBlockType : st DE (bool * Z) := peek_u16 uninit 2.

(** The characters up to the next NUL behind the pointer that is read. *)
Definition read_cstr (length : Z) : st DE (bool * list Z) :=
  '(r, txt) ← read_pointer garbage length;
  mret (r, c_str txt).

Definition AVCRawTextInfoBlock_deserialize (t : TextBlock) : st DE (bool * TextBlock) :=
  '(r1, b) ← AVCInfoBlock_deserialize (tb_block t);
  '(r2, txt) ← read_cstr (ib_compound_length b - 4);
  mret (r1 && r2, mkText b txt).

Definition AVCNameInfoBlock_deserialize (t : TextBlock) : st DE (bool * TextBlock) :=
  '(r, b) ← AVCInfoBlock_deserialize (tb_block t);
  '(r1, dummy) ← read_u16 uninit;
  '(r2, dummy) ← read_u16 dummy;
  '(r3, length1) ← read_u16 uninit;
  '(r4, dummy) ← read_u16 dummy;
  '(r5, text_length) ← read_u16 uninit;
  '(r6, txt) ← read_cstr text_length;
  mret (r && r1 && r2 && r3 && r4 && r5 && r6, mkText b txt).

(** The text or name block, or an unknown one, in what is left of the block around it. *)
Definition read_text (bytes_left : Z) (t : BlockText) : st DE (bool * BlockText) :=
  if 0 <? bytes_left then
    '(_, block_type) ← peekBlockType;
    if block_type =? ib_supported (tb_block (bt_raw t)) then
      '(r, x) ← AVCRawTextInfoBlock_deserialize (bt_raw t); mret (r, mkBlockText x (bt_name t))
    else if block_type =? ib_supported (tb_block (bt_name t)) then
      '(r, x) ← AVCNameInfoBlock_deserialize (bt_name t); mret (r, mkBlockText (bt_raw t) x)
    else skip bytes_left ;; mret (true, t)
  else mret (true, t).

(** [m], and the number of bytes done behind the length field of the block. *)
Definition counted {A} (m : st DE A) : st DE (A * Z) := fun d =>
  let '(x, d') := m d in
  ((x, i32 (4 + getNrOfConsumedBytes d' - getNrOfConsumedBytes d)), d').

Definition AVCMusicGeneralStatusInfoBlock_deserialize (g : AVCMusicGeneralStatusInfoBlock) : st DE (bool * AVCMusicGeneralStatusInfoBlock) :=
  '(r, b) ← AVCInfoBlock_deserialize (gs_block g);
  if negb (ib_primary_field_length b =? 6)
  then mret (false, mkGeneralStatus b (gs_transmit_capability g) (gs_receive_capability g) (gs_latency_capability g)) else
  '(r1, t) ← read_byte (gs_transmit_capability g);
  '(r2, c) ← read_byte (gs_receive_capability g);
  '(r3, l) ← read_quadlet (gs_latency_capability g);
  mret (r && r1 && r2 && r3, mkGeneralStatus b t c (CondSwapFromBus32 big_endian l)).

Definition AVCMusicOutputPlugStatusInfoBlock_deserialize (b : AVCInfoBlock) : st DE (bool * AVCInfoBlock) :=
  '(r, b) ← AVCInfoBlock_deserialize b;
  skip (ib_compound_length b - 4) ;;
  mret (r, b).

(** [n] elements that are appended one by one. *)
Fixpoint read_list {A} (n : nat) (m : st DE (bool * A)) (acc : list A) : st DE (bool * list A) :=
  match n with
  | O => mret (true, acc)
  | S n =>
      '(r1, x) ← m;
      '(r2, l) ← read_list n m (acc ++ [x]);
      mret (r1 && r2, l)
  end.

Definition read_signal : st DE (bool * sSignalInfo) :=
  '(r1, i) ← read_u16 uninit;
  '(r2, p) ← read_byte uninit;
  '(r3, l) ← read_byte uninit;
  mret (r1 && r2 && r3, mkSignal i p l).

Definition cluster_fields (c : AVCMusicClusterInfoBlock) (b : AVCInfoBlock) : st DE (bool * AVCMusicClusterInfoBlock) :=
  '(r1, f) ← read_byte (cl_stream_format c);
  '(r2, t) ← read_byte (cl_port_type c);
  '(r3, n) ← read_byte (cl_nb_signals c);
  '(r4, l) ← read_list (Z.to_nat n) read_signal (cl_SignalInfos c);
  mret (r1 && r2 && r3 && r4, mkCluster b f t n l (cl_text c)).

Definition AVCMusicClusterInfoBlock_deserialize (c : AVCMusicClusterInfoBlock) : st DE (bool * AVCMusicClusterInfoBlock) :=
  '(r, b) ← AVCInfoBlock_deserialize (cl_block c);
  '(r1, c, bytes_done) ← counted (cluster_fields c b);
  '(r2, t) ← read_text (ib_compound_length b - bytes_done) (cl_text c);
  mret (r && r1 && r2, mkCluster b (cl_stream_format c) (cl_port_type c) (cl_nb_signals c) (cl_SignalInfos c) t).

Definition subunit_plug_fields (p : AVCMusicSubunitPlugInfoBlock) (b : AVCInfoBlock) : st DE (bool * AVCMusicSubunitPlugInfoBlock) :=
  '(r1, i) ← read_byte (su_plug_id p);
  '(r2, f) ← read_u16 (su_signal_format p);
  '(r3, t) ← read_byte (su_plug_type p);
  '(r4, n) ← read_u16 (su_nb_clusters p);
  '(r5, c) ← read_u16 (su_nb_channels p);
  '(r6, l) ← read_list (Z.to_nat n) (AVCMusicClusterInfoBlock_deserialize AVCMusicClusterInfoBlock_new) (su_Clusters p);
  mret (r1 && r2 && r3 && r4 && r5 && r6, mkSubunitPlug b i f t n c l (su_text p)).

Definition AVCMusicSubunitPlugInfoBlock_deserialize (p : AVCMusicSubunitPlugInfoBlock) : st DE (bool * AVCMusicSubunitPlugInfoBlock) :=
  '(r, b) ← AVCInfoBlock_deserialize (su_block p);
  if negb (ib_primary_field_length b =? 8)
  then mret (false, mkSubunitPlug b (su_plug_id p) (su_signal_format p) (su_plug_type p) (su_nb_clusters p) (su_nb_channels p) (su_Clusters p) (su_text p)) else
  '(r1, p, bytes_done) ← counted (subunit_plug_fields p b);
  '(r2, t) ← read_text (ib_compound_length b - bytes_done) (su_text p);
  mret (r && r1 && r2, mkSubunitPlug b (su_plug_id p) (su_signal_format p) (su_plug_type p) (su_nb_clusters p) (su_nb_channels p) (su_Clusters p) t).

(** Bytes into the members that have the values [olds]. *)
Fixpoint read_bytes (olds : list Z) : st DE (bool * list Z) :=
  match olds with
  | [] => mret (true, [])
  | x :: olds =>
      '(r1, x) ← read_byte x;
      '(r2, l) ← read_bytes olds;
      mret (r1 && r2, x :: l)
  end.

Definition AVCMusicPlugInfoBlock_deserialize (p : AVCMusicPlugInfoBlock) : st DE (bool * AVCMusicPlugInfoBlock) :=
  '(r, b) ← AVCInfoBlock_deserialize (mp_block p);
  if negb (ib_primary_field_length b =? 14)
  then mret (false, mkMusicPlug b (mp_type p) (mp_id p) (mp_routing_support p) (mp_source p) (mp_dest p) (mp_text p)) else
  '(r1, t) ← read_byte (mp_type p);
  '(r2, i) ← read_u16 (mp_id p);
  '(r3, s) ← read_byte (mp_routing_support p);
  '(r4, source) ← read_bytes (mp_source p);
  '(r5, dest) ← read_bytes (mp_dest p);
  '(r6, x) ← read_text (ib_compound_length b - 18) (mp_text p);
  mret (r && r1 && r2 && r3 && r4 && r5 && r6, mkMusicPlug b t i s source dest x).

Definition AVCMusicRoutingStatusInfoBlock_deserialize (s : AVCMusicRoutingStatusInfoBlock) : st DE (bool * AVCMusicRoutingStatusInfoBlock) :=
  '(r, b) ← AVCInfoBlock_deserialize (rs_block s);
  if negb (ib_primary_field_length b =? 4)
  then mret (false, mkRouting b (rs_nb_dest_plugs s) (rs_nb_source_plugs s) (rs_nb_music_plugs s) (rs_dest s) (rs_source s) (rs_music s)) else
  '(r1, nd) ← read_byte (rs_nb_dest_plugs s);
  '(r2, ns) ← read_byte (rs_nb_source_plugs s);
  '(r3, nm) ← read_u16 (rs_nb_music_plugs s);
  '(r4, ld) ← read_list (Z.to_nat nd) (AVCMusicSubunitPlugInfoBlock_deserialize AVCMusicSubunitPlugInfoBlock_new) (rs_dest s);
  '(r5, ls) ← read_list (Z.to_nat ns) (AVCMusicSubunitPlugInfoBlock_deserialize AVCMusicSubunitPlugInfoBlock_new) (rs_source s);
  '(r6, lm) ← read_list (Z.to_nat nm) (AVCMusicPlugInfoBlock_deserialize AVCMusicPlugInfoBlock_new) (rs_music s);
  mret (r && r1 && r2 && r3 && r4 && r5 && r6, mkRouting b nd ns nm ld ls lm).

(** One info block of the descriptor. *)
Definition read_info_block (block_type block_length : Z) (m : AVCMusicStatusDescriptor) : st DE (bool * AVCMusicStatusDescriptor) :=
  if block_type =? 0x8100 then
    '(r, x) ← AVCMusicGeneralStatusInfoBlock_deserialize (ms_general m); mret (r, mkMusicStatus x (ms_output m) (ms_routing m))
  else if block_type =? 0x8101 then
    '(r, x) ← AVCMusicOutputPlugStatusInfoBlock_deserialize (ms_output m); mret (r, mkMusicStatus (ms_general m) x (ms_routing m))
  else if block_type =? 0x8108 then
    '(r, x) ← AVCMusicRoutingStatusInfoBlock_deserialize (ms_routing m); mret (r, mkMusicStatus (ms_general m) (ms_output m) x)
  else skip block_length ;; mret (true, m).

Definition max_blocks : nat := 10.

(** The loop over the info blocks; after one of them, [remaining] more may follow. *)
Fixpoint read_info_blocks (remaining : nat) (m : AVCMusicStatusDescriptor) : st DE (bool * AVCMusicStatusDescriptor) :=
  '(more, block_type) ← peekBlockType;
  if negb more then mret (true, m) else
  '(_, block_length) ← peek_u16 uninit 0;
  '(result, m) ← read_info_block block_type block_length m;
  match remaining with
  | O => mret (result, m)
  | S remaining => if (result : bool) then read_info_blocks remaining m else peekBlockType ;; mret (false, m)
  end.

Definition AVCMusicStatusDescriptor_deserialize (m : AVCMusicStatusDescriptor) : st DE (bool * AVCMusicStatusDescriptor) :=
  read_info_blocks (S max_blocks) m.
End deserialize.

Section serialize.
Context (big_endian : bool) {SE : Type} `{IOSSerialize SE}.

Definition AVCInfoBlock_serialize (b : AVCInfoBlock) : st SE bool :=
  if wrong_type b then mret false
  else all_of [write_u16 (ib_compound_length b); write_u16 (ib_type b); write_u16 (ib_primary_field_length b)].

Definition AVCRawTextInfoBlock_serialize (t : TextBlock) : st SE bool :=
  r ← AVCInfoBlock_serialize (tb_block t);
  (if negb (zlength (tb_text t) =? 0) then write_block (tb_text t) else mret true) ;;
  mret r.

Definition AVCNameInfoBlock_serialize (t : TextBlock) : st SE bool :=
  r ← AVCInfoBlock_serialize (tb_block t);
  if negb (zlength (tb_text t) =? 0) then
    r' ← all_of [write_u16 0; write_u16 0; write_u16 0; write_u16 0; write_u16 (u16 (zlength (tb_text t)))];
    write_block (tb_text t) ;;
    mret (r && r')
  else mret r.

Definition write_text (t : BlockText) : st SE bool :=
  if 0 <? ib_compound_length (tb_block (bt_raw t)) then AVCRawTextInfoBlock_serialize (bt_raw t)
  else if 0 <? ib_compound_length (tb_block (bt_name t)) then AVCNameInfoBlock_serialize (bt_name t)
  else mret true.

Definition AVCMusicGeneralStatusInfoBlock_serialize (g : AVCMusicGeneralStatusInfoBlock) : st SE bool :=
  all_of [AVCInfoBlock_serialize (gs_block g); write_byte (gs_transmit_capability g); write_byte (gs_receive_capability g);
             write_quadlet (CondSwapToBus32 big_endian (gs_latency_capability g))].

Definition AVCMusicOutputPlugStatusInfoBlock_serialize (b : AVCInfoBlock) : st SE bool :=
  AVCInfoBlock_serialize b ;; mret false.

Definition write_signal (s : sSignalInfo) : st SE bool :=
  all_of [write_u16 (sg_music_plug_id s); write_byte (sg_stream_position s); write_byte (sg_stream_location s)].

Definition AVCMusicClusterInfoBlock_serialize (c : AVCMusicClusterInfoBlock) : st SE bool :=
  r1 ← all_of [AVCInfoBlock_serialize (cl_block c); write_byte (cl_stream_format c); write_byte (cl_port_type c); write_byte (cl_nb_signals c)];
  if negb (zlength (cl_SignalInfos c) =? cl_nb_signals c) then mret false else
  r2 ← all_of (write_signal <$> cl_SignalInfos c);
  r3 ← write_text (cl_text c);
  mret (r1 && r2 && r3).

Definition AVCMusicSubunitPlugInfoBlock_serialize (p : AVCMusicSubunitPlugInfoBlock) : st SE bool :=
  r1 ← all_of [AVCInfoBlock_serialize (su_block p); write_byte (su_plug_id p); write_u16 (su_signal_format p); write_byte (su_plug_type p);
                  write_u16 (su_nb_clusters p); write_u16 (su_nb_channels p)];
  if negb (zlength (su_Clusters p) =? su_nb_clusters p) then mret false else
  r2 ← all_of (AVCMusicClusterInfoBlock_serialize <$> su_Clusters p);
  r3 ← write_text (su_text p);
  mret (r1 && r2 && r3).

Definition AVCMusicPlugInfoBlock_serialize (p : AVCMusicPlugInfoBlock) : st SE bool :=
  r1 ← all_of ([AVCInfoBlock_serialize (mp_block p); write_byte (mp_type p); write_u16 (mp_id p); write_byte (mp_routing_support p)]
                  ++ (write_byte <$> mp_source p) ++ (write_byte <$> mp_dest p));
  r2 ← write_text (mp_text p);
  mret (r1 && r2).

Definition AVCMusicRoutingStatusInfoBlock_serialize (s : AVCMusicRoutingStatusInfoBlock) : st SE bool :=
  r1 ← all_of [AVCInfoBlock_serialize (rs_block s); write_byte (rs_nb_dest_plugs s); write_byte (rs_nb_source_plugs s); write_u16 (rs_nb_music_plugs s)];
  if negb (zlength (rs_dest s) =? rs_nb_dest_plugs s) then mret false else
  r2 ← all_of (AVCMusicSubunitPlugInfoBlock_serialize <$> rs_dest s);
  if negb (zlength (rs_source s) =? rs_nb_source_plugs s) then mret false else
  r3 ← all_of (AVCMusicSubunitPlugInfoBlock_serialize <$> rs_source s);
  if negb (zlength (rs_music s) =? rs_nb_music_plugs s) then mret false else
  r4 ← all_of (AVCMusicPlugInfoBlock_serialize <$> rs_music s);
  mret (r1 && r2 && r3 && r4).

(** The result of the parts is dropped. *)
Definition AVCMusicStatusDescriptor_serialize (m : AVCMusicStatusDescriptor) : st SE bool :=
  AVCMusicGeneralStatusInfoBlock_serialize (ms_general m) ;;
  (if 0 <? ib_compound_length (ms_output m) then AVCMusicOutputPlugStatusInfoBlock_serialize (ms_output m) else mret true) ;;
  (if 0 <? ib_compound_length (rs_block (ms_routing m)) then AVCMusicRoutingStatusInfoBlock_serialize (ms_routing m) else mret true) ;;
  mret true.
End serialize.

(** What the destructors call. *)
Definition AVCMusicClusterInfoBlock_clear (c : AVCMusicClusterInfoBlock) : AVCMusicClusterInfoBlock := mkCluster (cl_block c) 0 0 0 [] (cl_text c).
Definition AVCMusicSubunitPlugInfoBlock_clear (p : AVCMusicSubunitPlugInfoBlock) : AVCMusicSubunitPlugInfoBlock :=
  mkSubunitPlug (su_block p) 0 0 0xFF 0 0 [] (su_text p).
Definition AVCMusicPlugInfoBlock_clear (p : AVCMusicPlugInfoBlock) : AVCMusicPlugInfoBlock :=
  mkMusicPlug (mp_block p) 0 0 0 [0; 0; 0; 0; 0] [0; 0; 0; 0; 0] (mp_text p).
Definition AVCMusicRoutingStatusInfoBlock_clear (s : AVCMusicRoutingStatusInfoBlock) : AVCMusicRoutingStatusInfoBlock :=
  mkRouting (rs_block s) 0 0 0 [] [] [].

(** ** Look-up *)

Definition getSubunitPlugInfoBlock (direction id : Z) (s : AVCMusicRoutingStatusInfoBlock) : option AVCMusicSubunitPlugInfoBlock :=
  if direction =? 0 then find (fun b => su_plug_id b =? id) (rs_dest s)
  else if direction =? 1 then find (fun b => su_plug_id b =? id) (rs_source s)
  else None.

Definition getMusicPlugInfoBlock (id : Z) (s : AVCMusicRoutingStatusInfoBlock) : option AVCMusicPlugInfoBlock :=
  find (fun b => mp_id b =? id) (rs_music s).

Definition getNbMusicPlugs (m : AVCMusicStatusDescriptor) : Z := rs_nb_music_plugs (ms_routing m).

(** ** The grammar of a status descriptor *)

Definition u16_bytes (n : Z) : list Z := [n / 256; n mod 256].
Definition block_head (b : AVCInfoBlock) : list Z :=
  u16_bytes (ib_compound_length b) ++ u16_bytes (ib_type b) ++ u16_bytes (ib_primary_field_length b).

(** The head of a block of this type with [n] bytes behind it. *)
Definition block_ok (type n : Z) (b : AVCInfoBlock) : Prop :=
  ib_type b = type /\ ib_supported b = type /\ ib_compound_length b = 4 + n /\ 4 + n < 2 ^ 16 /\ 0 <= ib_primary_field_length b < 2 ^ 16.

Inductive text_image : BlockText -> list Z -> Prop :=
  | no_text : text_image BlockText_new []
  | raw_text b text pad : block_ok 0x000A (zlength (text ++ 0 :: pad)) b -> Forall (fun c => c <> 0) text ->
      text_image (mkBlockText (mkText b text) AVCNameInfoBlock_new) (block_head b ++ text ++ 0 :: pad)
  | name_text b u0 u1 u2 u3 text pad : block_ok 0x000B (10 + zlength (text ++ 0 :: pad)) b -> Forall (fun c => c <> 0) text ->
      text_image (mkBlockText AVCRawTextInfoBlock_new (mkText b text))
        (block_head b ++ u16_bytes u0 ++ u16_bytes u1 ++ u16_bytes u2 ++ u16_bytes u3 ++ u16_bytes (zlength (text ++ 0 :: pad)) ++ text ++ 0 :: pad)
  | other_text l1 l0 t1 t0 rest : (t1 << 8) .| t0 <> 0x000A -> (t1 << 8) .| t0 <> 0x000B ->
      text_image BlockText_new (l1 :: l0 :: t1 :: t0 :: rest).

Definition signal_bytes (s : sSignalInfo) : list Z := u16_bytes (sg_music_plug_id s) ++ [sg_stream_position s; sg_stream_location s].

Definition cluster_image (c : AVCMusicClusterInfoBlock) (l : list Z) : Prop :=
  exists lt, text_image (cl_text c) lt
  /\ l = block_head (cl_block c) ++ ([cl_stream_format c; cl_port_type c; cl_nb_signals c] ++ concat (signal_bytes <$> cl_SignalInfos c)) ++ lt
  /\ block_ok 0x810A (zlength l - 6) (cl_block c) /\ cl_nb_signals c = zlength (cl_SignalInfos c)
  /\ Forall (fun s => 0 <= sg_music_plug_id s < 2 ^ 16) (cl_SignalInfos c).

Definition subunit_plug_image (p : AVCMusicSubunitPlugInfoBlock) (l : list Z) : Prop :=
  exists lc lt, Forall2 cluster_image (su_Clusters p) lc /\ text_image (su_text p) lt
  /\ l = block_head (su_block p) ++ ([su_plug_id p] ++ u16_bytes (su_signal_format p) ++ [su_plug_type p]
         ++ u16_bytes (su_nb_clusters p) ++ u16_bytes (su_nb_channels p) ++ concat lc) ++ lt
  /\ block_ok 0x8109 (zlength l - 6) (su_block p) /\ ib_primary_field_length (su_block p) = 8
  /\ su_nb_clusters p = zlength (su_Clusters p) /\ su_nb_clusters p < 2 ^ 16
  /\ 0 <= su_signal_format p < 2 ^ 16 /\ 0 <= su_nb_channels p < 2 ^ 16.

Definition music_plug_image (p : AVCMusicPlugInfoBlock) (l : list Z) : Prop :=
  exists lt, text_image (mp_text p) lt
  /\ l = block_head (mp_block p) ++ [mp_type p] ++ u16_bytes (mp_id p) ++ [mp_routing_support p] ++ mp_source p ++ mp_dest p ++ lt
  /\ block_ok 0x810B (zlength l - 6) (mp_block p) /\ ib_primary_field_length (mp_block p) = 14
  /\ length (mp_source p) = 5%nat /\ length (mp_dest p) = 5%nat /\ 0 <= mp_id p < 2 ^ 16.

Definition routing_image (s : AVCMusicRoutingStatusInfoBlock) (l : list Z) : Prop :=
  exists ld ls lm, Forall2 subunit_plug_image (rs_dest s) ld /\ Forall2 subunit_plug_image (rs_source s) ls /\ Forall2 music_plug_image (rs_music s) lm
  /\ l = block_head (rs_block s) ++ [rs_nb_dest_plugs s] ++ [rs_nb_source_plugs s] ++ u16_bytes (rs_nb_music_plugs s)
         ++ concat ld ++ concat ls ++ concat lm
  /\ block_ok 0x8108 (zlength l - 6) (rs_block s) /\ ib_primary_field_length (rs_block s) = 4
  /\ rs_nb_dest_plugs s = zlength (rs_dest s) /\ rs_nb_source_plugs s = zlength (rs_source s)
  /\ rs_nb_music_plugs s = zlength (rs_music s) /\ rs_nb_music_plugs s < 2 ^ 16.

Definition general_image (g : AVCMusicGeneralStatusInfoBlock) (l : list Z) : Prop :=
  l = block_head (gs_block g) ++ [gs_transmit_capability g] ++ [gs_receive_capability g] ++ quad_be (gs_latency_capability g)
  /\ block_ok 0x8100 6 (gs_block g) /\ ib_primary_field_length (gs_block g) = 6 /\ 0 <= gs_latency_capability g < 2 ^ 32.

(** A block of the descriptor and what it sets; there is one routing block. *)
Inductive info_block_image (m : AVCMusicStatusDescriptor) : list Z -> AVCMusicStatusDescriptor -> Prop :=
  | general_block g l : general_image g l -> info_block_image m l (mkMusicStatus g (ms_output m) (ms_routing m))
  | output_block b payload : block_ok 0x8101 (zlength payload) b ->
      info_block_image m (block_head b ++ payload) (mkMusicStatus (ms_general m) b (ms_routing m))
  | routing_block s l : ms_routing m = AVCMusicRoutingStatusInfoBlock_new -> routing_image s l ->
      info_block_image m l (mkMusicStatus (ms_general m) (ms_output m) s).

(** At most [n] blocks. *)
Inductive info_blocks_image : nat -> AVCMusicStatusDescriptor -> list Z -> AVCMusicStatusDescriptor -> Prop :=
  | end_blocks n m : info_blocks_image n m [] m
  | more_blocks n m m1 m2 l1 l2 : info_block_image m l1 m1 -> info_blocks_image n m1 l2 m2 -> info_blocks_image (S n) m (l1 ++ l2) m2.

(** ** The parser and the grammar *)

Section parser.
Context (be : bool) (uninit : Z) (garbage : list Z) {DE : Type} `{DeserializeSpec be DE}.

Lemma parses_u16_bytes old n : 0 <= n < 2 ^ 16 -> parses (read_u16 old) (u16_bytes n) (true, n).
Proof. intros Hn. unfold u16_bytes. rewrite <- (join_bytes n Hn) at 3. apply parses_u16. Qed.

Lemma parses_any_u16 old n : parses (read_u16 old) (u16_bytes n) (true, (n / 256 << 8) .| (n mod 256)).
Proof. apply parses_u16. Qed.

Lemma wrong_type_ok b : ib_type b = ib_supported b -> wrong_type b = false.
Proof. unfold wrong_type. intros ->. by rewrite Z.eqb_refl, andb_false_r. Qed.

Lemma parses_head type n b b0 : block_ok type n b -> 0 <= n -> 0 <= type < 2 ^ 16 -> ib_supported b0 = type ->
  parses (AVCInfoBlock_deserialize b0) (block_head b) (true, b).
Proof.
  intros (T & Su & C & L & P) Hn Ht S0. unfold AVCInfoBlock_deserialize, block_head.
  eapply parses_bind; [apply parses_u16_bytes; lia|]. cbn beta iota.
  eapply parses_bind; [apply parses_u16_bytes; lia|]. cbn beta iota. rewrite <- (app_nil_r (u16_bytes (ib_primary_field_length b))).
  eapply parses_bind; [apply parses_u16_bytes; lia|]. cbn beta iota.
  rewrite wrong_type_ok by (cbn; congruence). destruct b; cbn in *; subst. apply parses_ret.
Qed.

Lemma c_str_text text r : Forall (fun c => c <> 0) text -> c_str (text ++ 0 :: r) = text.
Proof. induction 1 as [|x l Hx Hl IH]; [done|]. cbn. by rewrite (proj2 (Z.eqb_neq x 0)), IH by done. Qed.

Lemma parses_cstr text pad : Forall (fun c => c <> 0) text -> parses (read_cstr garbage (zlength (text ++ 0 :: pad))) (text ++ 0 :: pad) (true, text).
Proof.
  intros Ht d r W E. destruct (pointer_spec garbage (text ++ 0 :: pad) r d W E) as (t & d' & Er & W' & I' & P'); [by destruct text|].
  exists d'. unfold read_cstr, mbind, st_bind. rewrite Er. cbn [fst snd]. split; [|done].
  rewrite <- app_assoc. cbn [app]. by rewrite c_str_text.
Qed.

Lemma parses_peek_type {A} (k : bool * Z -> st DE A) a b hi lo l y :
  parses (k (true, (hi << 8) .| lo)) (a :: b :: hi :: lo :: l) y -> parses (peekBlockType uninit ≫= k) (a :: b :: hi :: lo :: l) y.
Proof.
  intros Hk d r W E. unfold peekBlockType, mbind, st_bind. rewrite peek_u16_spec by (done || lia). rewrite E. cbn [Z.to_nat drop app fst snd].
  change (Z.to_nat 2) with 2%nat. cbn [drop app]. exact (Hk d r W E).
Qed.

Lemma parses_counted {A B} (m : st DE A) (k : A * Z -> st DE B) l1 l2 x y : zlength l1 < 2 ^ 30 ->
  parses m l1 x -> parses (k (x, 4 + zlength l1)) l2 y -> parses (counted m ≫= k) (l1 ++ l2) y.
Proof.
  intros Hl Hm Hk d r W E. rewrite <- app_assoc in E. destruct (Hm d _ W E) as (d1 & E1 & W1 & I1 & P1).
  destruct (Hk d1 _ W1 I1) as (d2 & E2 & W2 & I2 & P2). exists d2. unfold mbind, st_bind, counted. rewrite E1. cbn [fst snd].
  rewrite !consumed_pos, P1 by done. pose proof (zlength_nonneg l1).
  assert (i32 (4 + i32 (de_pos d + zlength l1) - i32 (de_pos d)) = 4 + zlength l1) as ->.
  { unfold wrapS. zlia. }
  rewrite E2, zlength_app. split_and!; try done. lia.
Qed.

Lemma parses_list {A} (m : st DE (bool * A)) (image : A -> list Z -> Prop) : (forall x l, image x l -> parses m l (true, x)) ->
  forall xs ls acc, Forall2 image xs ls -> parses (read_list (length xs) m acc) (concat ls) (true, acc ++ xs).
Proof.
  intros Hm. induction xs as [|x xs IH]; intros ls acc HF; inversion HF as [|? l ? ls' Hx HF']; subst; cbn [length read_list concat].
  - rewrite app_nil_r. apply parses_ret.
  - eapply parses_bind; [by apply Hm|]. cbn beta iota. rewrite <- (app_nil_r (concat ls')).
    eapply parses_bind; [by apply IH|]. cbn beta iota. rewrite <- app_assoc. apply parses_ret.
Qed.

Lemma parses_bytes olds l : length olds = length l -> parses (read_bytes olds) l (true, l).
Proof.
  revert l. induction olds as [|o olds IH]; intros [|x l] Hl; try done; cbn [read_bytes]; [apply parses_ret|]. injection Hl as Hl.
  eapply (parses_bind _ _ [x] l); [apply parses_byte|]. cbn beta iota. rewrite <- (app_nil_r l). eapply parses_bind; [by apply IH|].
  cbn beta iota. rewrite app_nil_r. apply parses_ret.
Qed.

Lemma parses_peek_head {A} (k : bool * Z -> st DE A) b l y : 0 <= ib_type b < 2 ^ 16 ->
  parses (k (true, ib_type b)) (block_head b ++ l) y -> parses (peekBlockType uninit ≫= k) (block_head b ++ l) y.
Proof. intros Ht Hk. unfold block_head. cbn [u16_bytes app]. apply parses_peek_type. by rewrite join_bytes. Qed.

Lemma parses_raw b text pad : block_ok 0x000A (zlength (text ++ 0 :: pad)) b -> Forall (fun c => c <> 0) text ->
  parses (AVCRawTextInfoBlock_deserialize garbage AVCRawTextInfoBlock_new) (block_head b ++ text ++ 0 :: pad) (true, mkText b text).
Proof.
  intros B F. pose proof B as (_ & _ & C & _). pose proof (zlength_nonneg (text ++ 0 :: pad)). unfold AVCRawTextInfoBlock_deserialize.
  eapply parses_bind; [by eapply parses_head|]. cbn beta iota. rewrite C, <- (app_nil_r (text ++ 0 :: pad)).
  replace (4 + zlength ((text ++ 0 :: pad) ++ []) - 4) with (zlength (text ++ 0 :: pad)) by (rewrite app_nil_r; lia).
  eapply parses_bind; [by apply parses_cstr|]. apply parses_ret.
Qed.

Lemma parses_name_block b u0 u1 u2 u3 text pad : block_ok 0x000B (10 + zlength (text ++ 0 :: pad)) b -> Forall (fun c => c <> 0) text ->
  parses (AVCNameInfoBlock_deserialize uninit garbage AVCNameInfoBlock_new)
    (block_head b ++ u16_bytes u0 ++ u16_bytes u1 ++ u16_bytes u2 ++ u16_bytes u3 ++ u16_bytes (zlength (text ++ 0 :: pad)) ++ text ++ 0 :: pad)
    (true, mkText b text).
Proof.
  intros B F. pose proof B as (_ & _ & C & L & _). pose proof (zlength_nonneg (text ++ 0 :: pad)). unfold AVCNameInfoBlock_deserialize.
  eapply parses_bind; [eapply parses_head; [exact B|lia|lia|done]|]. cbn beta iota. do 4 (eapply parses_bind; [apply parses_any_u16|]; cbn beta iota).
  eapply parses_bind; [apply parses_u16_bytes; lia|]. cbn beta iota. eapply (parses_eq _ ((text ++ 0 :: pad) ++ [])); [by rewrite app_nil_r|].
  eapply parses_bind; [by apply parses_cstr|]. apply parses_ret.
Qed.

(** The text at the end of a block. *)
Lemma parses_text t lt : text_image t lt -> parses (read_text uninit garbage (zlength lt) BlockText_new) lt (true, t).
Proof.
  intros Ht. unfold read_text. destruct Ht as [|b text pad B F|b u0 u1 u2 u3 text pad B F|l1 l0 t1 t0 rest N1 N2].
  - apply parses_ret.
  - pose proof B as (T & _). pose proof (zlength_nonneg (text ++ 0 :: pad)). rewrite (proj2 (Z.ltb_lt 0 _)) by (unfold block_head, zlength; cbn; lia).
    apply parses_peek_head; [by rewrite T|]. rewrite T. cbn [Z.eqb Pos.eqb ib_supported tb_block bt_raw BlockText_new AVCRawTextInfoBlock_new AVCInfoBlock_new].
    rewrite <- (app_nil_r (block_head b ++ _)). eapply parses_bind; [by apply parses_raw|]. apply parses_ret.
  - pose proof B as (T & _). pose proof (zlength_nonneg (text ++ 0 :: pad)). rewrite (proj2 (Z.ltb_lt 0 _)) by (unfold block_head, zlength; cbn; lia).
    apply parses_peek_head; [by rewrite T|]. rewrite T.
    cbn [Z.eqb Pos.eqb ib_supported tb_block bt_raw bt_name BlockText_new AVCRawTextInfoBlock_new AVCNameInfoBlock_new AVCInfoBlock_new].
    rewrite <- (app_nil_r (block_head b ++ _)). eapply parses_bind; [by apply parses_name_block|]. apply parses_ret.
  - rewrite (proj2 (Z.ltb_lt 0 _)) by (unfold zlength; cbn; lia). apply parses_peek_type. cbn beta iota.
    rewrite !(proj2 (Z.eqb_neq _ _)) by done. rewrite <- (app_nil_r (l1 :: _)) at 2. eapply parses_bind; [apply parses_skip|]. apply parses_ret.
Qed.

Lemma parses_cluster c l : cluster_image c l -> parses (AVCMusicClusterInfoBlock_deserialize uninit garbage AVCMusicClusterInfoBlock_new) l (true, c).
Proof.
  intros (lt & T & -> & B & N & F). unfold AVCMusicClusterInfoBlock_deserialize. set (fields := _ ++ concat _) in *.
  pose proof B as (_ & _ & C & L & _). rewrite !zlength_app in *. change (zlength (block_head _)) with 6 in *.
  pose proof (zlength_nonneg lt). pose proof (zlength_nonneg fields).
  eapply parses_bind; [eapply parses_head; [exact B|lia|lia|done]|]. cbn beta iota. rewrite <- (app_nil_r lt).
  apply (parses_counted _ _ _ _ (true, mkCluster (cl_block c) (cl_stream_format c) (cl_port_type c) (cl_nb_signals c) (cl_SignalInfos c) BlockText_new)); [lia| |].
  - unfold cluster_fields, fields. cbn [cl_stream_format cl_port_type cl_nb_signals cl_SignalInfos cl_text AVCMusicClusterInfoBlock_new].
    do 3 (eapply (parses_bind _ _ [_]); [apply parses_byte|]; cbn beta iota). rewrite N. unfold zlength. rewrite Nat2Z.id, <- (app_nil_r (concat _)).
    eapply parses_bind; [apply (parses_list _ (fun s l => 0 <= sg_music_plug_id s < 2 ^ 16 /\ l = signal_bytes s))|apply parses_ret].
    + intros x l' (Hx & ->). unfold read_signal, signal_bytes. eapply parses_bind; [by apply parses_u16_bytes|].
      do 2 (eapply (parses_bind _ _ [_]); [apply parses_byte|]; cbn beta iota). destruct x. apply parses_ret.
    + clear -F. induction F; constructor; auto.
  - cbn beta iota. cbn [cl_text]. replace (ib_compound_length (cl_block c) - _) with (zlength lt) by lia.
    eapply parses_bind; [by apply parses_text|]. cbn beta iota. destruct c. cbn. apply parses_ret.
Qed.

Lemma parses_subunit_plug p l : subunit_plug_image p l ->
  parses (AVCMusicSubunitPlugInfoBlock_deserialize uninit garbage AVCMusicSubunitPlugInfoBlock_new) l (true, p).
Proof.
  intros (lc & lt & FC & T & -> & B & P & N & N16 & F16 & C16). unfold AVCMusicSubunitPlugInfoBlock_deserialize.
  set (fields := [su_plug_id p] ++ _) in *. pose proof B as (_ & _ & C & L & _). rewrite !zlength_app in *.
  change (zlength (block_head _)) with 6 in *. pose proof (zlength_nonneg lt). pose proof (zlength_nonneg fields).
  pose proof (zlength_nonneg (su_Clusters p)).
  eapply parses_bind; [eapply parses_head; [exact B|lia|lia|done]|]. cbn beta iota. rewrite P. cbn [Z.eqb Pos.eqb negb]. rewrite <- (app_nil_r lt).
  apply (parses_counted _ _ _ _ (true, mkSubunitPlug (su_block p) (su_plug_id p) (su_signal_format p) (su_plug_type p) (su_nb_clusters p)
    (su_nb_channels p) (su_Clusters p) BlockText_new)); [lia| |].
  - unfold subunit_plug_fields, fields. cbn [su_plug_id su_signal_format su_plug_type su_nb_clusters su_nb_channels su_Clusters su_text AVCMusicSubunitPlugInfoBlock_new].
    eapply parses_bind; [apply parses_byte|]. cbn beta iota. eapply parses_bind; [by apply parses_u16_bytes|]. cbn beta iota.
    eapply parses_bind; [apply parses_byte|]. cbn beta iota. do 2 (eapply parses_bind; [apply parses_u16_bytes; lia|]; cbn beta iota).
    rewrite N. unfold zlength. rewrite Nat2Z.id, <- (app_nil_r (concat _)).
    eapply parses_bind; [by apply (parses_list _ _ parses_cluster)|]. apply parses_ret.
  - cbn beta iota. cbn [su_text]. replace (ib_compound_length (su_block p) - _) with (zlength lt) by lia.
    eapply parses_bind; [by apply parses_text|]. cbn beta iota. destruct p. cbn. apply parses_ret.
Qed.

Lemma parses_music_plug p l : music_plug_image p l -> parses (AVCMusicPlugInfoBlock_deserialize uninit garbage AVCMusicPlugInfoBlock_new) l (true, p).
Proof.
  intros (lt & T & -> & B & P & Ls & Ld & I16). unfold AVCMusicPlugInfoBlock_deserialize. pose proof B as (_ & _ & C & L & _).
  assert (zlength (mp_source p) = 5 /\ zlength (mp_dest p) = 5) as (Zs & Zd) by (unfold zlength; lia).
  rewrite !zlength_app, Zs, Zd in C, L. change (zlength (block_head _)) with 6 in *. change (zlength (u16_bytes _)) with 2 in *.
  repeat change (zlength [_]) with 1 in *. pose proof (zlength_nonneg lt).
  eapply parses_bind; [eapply parses_head; [exact B| |lia|done]|]; [rewrite !zlength_app, Zs, Zd; change (zlength (block_head _)) with 6; unfold zlength; cbn; lia|].
  cbn beta iota. rewrite P. cbn [Z.eqb Pos.eqb negb]. eapply parses_bind; [apply parses_byte|]. cbn beta iota.
  eapply parses_bind; [by apply parses_u16_bytes|]. cbn beta iota. eapply parses_bind; [apply parses_byte|]. cbn beta iota.
  eapply parses_bind; [apply parses_bytes; by rewrite Ls|]. cbn beta iota. eapply parses_bind; [apply parses_bytes; by rewrite Ld|]. cbn beta iota.
  replace (ib_compound_length (mp_block p) - 18) with (zlength lt) by lia. rewrite <- (app_nil_r lt) at 2.
  eapply parses_bind; [by apply parses_text|]. cbn beta iota. destruct p. apply parses_ret.
Qed.

Lemma parses_routing s l : routing_image s l ->
  parses (AVCMusicRoutingStatusInfoBlock_deserialize uninit garbage AVCMusicRoutingStatusInfoBlock_new) l (true, s).
Proof.
  intros (ld & ls & lm & Fd & Fs & Fm & -> & B & P & Nd & Ns & Nm & M16). unfold AVCMusicRoutingStatusInfoBlock_deserialize.
  pose proof (zlength_nonneg (rs_music s)). eapply parses_bind; [eapply parses_head; [exact B| |lia|done]|].
  { rewrite zlength_app. change (zlength (block_head _)) with 6. match goal with |- context [6 + zlength ?x - 6] => pose proof (zlength_nonneg x) end. lia. }
  cbn beta iota. rewrite P. cbn [Z.eqb Pos.eqb negb]. do 2 (eapply parses_bind; [apply parses_byte|]; cbn beta iota).
  eapply parses_bind; [apply parses_u16_bytes; lia|]. cbn beta iota. rewrite Nd, Ns, Nm. unfold zlength. rewrite !Nat2Z.id, <- (app_nil_r (concat lm)).
  eapply parses_bind; [by apply (parses_list _ _ parses_subunit_plug)|]. cbn beta iota.
  eapply parses_bind; [by apply (parses_list _ _ parses_subunit_plug)|]. cbn beta iota.
  eapply parses_bind; [by apply (parses_list _ _ parses_music_plug)|]. cbn beta iota.
  destruct s. cbn in *. unfold zlength in *. subst. apply parses_ret.
Qed.

Lemma parses_general g0 g l : ib_supported (gs_block g0) = 0x8100 -> general_image g l ->
  parses (AVCMusicGeneralStatusInfoBlock_deserialize be g0) l (true, g).
Proof.
  intros S0 (-> & B & P & L32). unfold AVCMusicGeneralStatusInfoBlock_deserialize.
  eapply parses_bind; [eapply parses_head; [exact B|lia|lia|done]|]. cbn beta iota. rewrite P. cbn [Z.eqb Pos.eqb negb].
  do 2 (eapply parses_bind; [apply parses_byte|]; cbn beta iota). rewrite <- (app_nil_r (quad_be _)).
  eapply parses_bind; [by apply parses_quadlet|]. cbn beta iota.
  rewrite (proj1 (proj2 (bus_order be _ L32))). destruct g. apply parses_ret.
Qed.

Lemma parses_output b0 b payload : ib_supported b0 = 0x8101 -> block_ok 0x8101 (zlength payload) b ->
  parses (AVCMusicOutputPlugStatusInfoBlock_deserialize b0) (block_head b ++ payload) (true, b).
Proof.
  intros S0 B. pose proof B as (_ & _ & C & _). pose proof (zlength_nonneg payload). unfold AVCMusicOutputPlugStatusInfoBlock_deserialize.
  eapply parses_bind; [eapply parses_head; [exact B|lia|lia|done]|]. cbn beta iota. rewrite C.
  replace (4 + zlength payload - 4) with (zlength payload) by lia. rewrite <- (app_nil_r payload) at 2. eapply parses_bind; [apply parses_skip|]. apply parses_ret.
Qed.

(** The types that the members of the descriptor read. *)
Definition supported (m : AVCMusicStatusDescriptor) : Prop :=
  ib_supported (gs_block (ms_general m)) = 0x8100 /\ ib_supported (ms_output m) = 0x8101.

Lemma parses_info_block m l m1 : info_block_image m l m1 -> supported m -> supported m1
  /\ exists b rest, l = block_head b ++ rest /\ 0 <= ib_type b < 2 ^ 16 /\ forall len, parses (read_info_block be uninit garbage (ib_type b) len m) l (true, m1).
Proof.
  intros Hm (Sg & So). unfold read_info_block. destruct Hm as [g l G|b payload B|s l R I].
  - pose proof G as (E & (T & Su & _) & _). split; [done|]. exists (gs_block g). eexists. split; [exact E|]. rewrite T. split; [done|]. intros len.
    cbn [Z.eqb Pos.eqb]. rewrite <- (app_nil_r l). eapply parses_bind; [by apply parses_general|]. apply parses_ret.
  - pose proof B as (T & Su & _). split; [done|]. eexists b, payload. split; [done|]. rewrite T. split; [done|]. intros len.
    cbn [Z.eqb Pos.eqb]. rewrite <- (app_nil_r (_ ++ payload)). eapply parses_bind; [by apply parses_output|]. apply parses_ret.
  - pose proof I as (? & ? & ? & _ & _ & _ & E & (T & Su & _) & _). split; [done|]. exists (rs_block s). eexists. split; [exact E|]. rewrite T. split; [done|]. intros len.
    cbn [Z.eqb Pos.eqb]. rewrite R, <- (app_nil_r l). eapply parses_bind; [by apply parses_routing|]. apply parses_ret.
Qed.

Lemma peek_end d : de_wf d -> de_in d = [] -> peekBlockType uninit d = ((false, uninit), d).
Proof. intros W E. unfold peekBlockType. rewrite peek_u16_spec by (done || lia). by rewrite E. Qed.

Lemma peek_head b rest d : de_wf d -> de_in d = block_head b ++ rest -> 0 <= ib_type b < 2 ^ 16 -> peekBlockType uninit d = ((true, ib_type b), d).
Proof.
  intros W E T. unfold peekBlockType. rewrite peek_u16_spec by (done || lia). rewrite E. change (Z.to_nat 2) with 2%nat.
  unfold block_head. cbn [u16_bytes app drop]. by rewrite join_bytes.
Qed.

Lemma read_info_blocks_ok n m l m' d : info_blocks_image (S n) m l m' -> supported m -> de_wf d -> de_in d = l ->
  exists d', read_info_blocks be uninit garbage n m d = ((true, m'), d').
Proof.
  revert m l d. induction n as [|n IH]; intros m l d Hb Sm W; inversion Hb as [|? ? m1 ? l1 l2 Hi Hb' E1 E2]; subst; intros E.
  1,3: exists d; cbn [read_info_blocks]; unfold mbind, st_bind; by rewrite peek_end.
  - inversion Hb'; subst. rewrite app_nil_r in E. destruct (parses_info_block _ _ _ Hi Sm) as (_ & b & rest & -> & T & P).
    destruct (P (peek_u16 uninit 0 d).1.2 d [] W ltac:(by rewrite app_nil_r)) as (d' & Ed & _). exists d'. cbn [read_info_blocks]. unfold mbind, st_bind.
    rewrite (peek_head b rest) by done. cbn [fst snd negb]. rewrite peek_u16_spec in Ed |- * by (done || lia).
    destruct (match drop _ _ with [] => _ | _ => _ end) as [ok len]. cbn [fst snd] in Ed |- *. by rewrite Ed.
  - destruct (parses_info_block _ _ _ Hi Sm) as (S1 & b & rest & -> & T & P).
    destruct (P (peek_u16 uninit 0 d).1.2 d l2 W E) as (d1 & Ed & W1 & I1 & _). destruct (IH m1 l2 d1 Hb' S1 W1 I1) as (d' & Er). exists d'.
    cbn [read_info_blocks]. unfold mbind, st_bind. rewrite (peek_head b (rest ++ l2)) by (rewrite ?app_assoc; done). cbn [fst snd negb].
    rewrite peek_u16_spec in Ed |- * by (done || lia).
    destruct (match drop _ _ with [] => _ | _ => _ end) as [ok len]. cbn [fst snd] in Ed |- *. rewrite Ed. exact Er.
Qed.
End parser.

(** ** From the device to the parsed descriptor *)

(** [deserialize] as [load] calls it. *)
Definition music_parse (be : bool) (uninit : Z) (garbage : list Z) (m : AVCMusicStatusDescriptor) (b : buffer) : bool * AVCMusicStatusDescriptor :=
  (@AVCMusicStatusDescriptor_deserialize be uninit garbage _ (buffer_deserialize be) m b).1.

(** C39. Loading the status descriptor of a music subunit: from a device that keeps a descriptor of at most twelve info
    blocks, in any order, sent in pieces of any size, [load] gets the object that the descriptor describes: all plugs with
    their clusters, signals, names, and the music plugs in the order of the descriptor, however deep the
    blocks nest; blocks that the code does not know in place of a name are skipped. *)
Theorem music_descriptor_load be DEBUG uninit garbage bus nodeId subunitType subunitId content m' fuel sv :
  let d := AVCDescriptor_new (AVCDescriptorSpecifier_new eSubunit0x80) AVCMusicStatusDescriptor_new in
  descriptor_device be DEBUG bus nodeId subunitType subunitId eSubunit0x80 content ->
  info_blocks_image 12 AVCMusicStatusDescriptor_new content m' ->
  nodeId <> INVALID_NODE_ID -> zlength content < 2 ^ 16 - 2 -> (length content <= fuel)%nat -> ready sv ->
  exists d' sv', load be DEBUG uninit bus nodeId subunitType subunitId (music_parse be uninit garbage) fuel d sv = Some ((true, d'), sv')
    /\ ds_child d' = m' /\ ds_loaded d' = true /\ m_handle_lock sv' = m_handle_lock sv.
Proof.
  intros d Dev Im Hn Hl Hf R. pose proof (zlength_nonneg content).
  destruct (descriptor_load be DEBUG uninit bus nodeId subunitType subunitId (music_parse be uninit garbage) content d fuel sv)
    as (d' & sv' & E); try done; [by right; left|]. exists d', sv'.
  destruct (read_info_blocks_ok be uninit garbage (H0 := buffer_deserialize_spec be) 11 AVCMusicStatusDescriptor_new content m' (BufferDeserialize content (zlength content)))
    as (b' & P); try done.
  - split_and!; cbn; lia.
  - cbn. unfold slice, zlength. rewrite Z.sub_0_r, Nat2Z.id. cbn [Z.to_nat drop]. by rewrite take_ge.
  - unfold music_parse, AVCMusicStatusDescriptor_deserialize in E. cbn [ds_child d AVCDescriptor_new] in E. change (S max_blocks) with 11%nat in E. rewrite P in E. cbn [fst] in E.
    destruct E as (E & _ & _ & L & C & K). done.
Qed.

(** An input plug with one channel and the name "In". *)
Definition example_signal : sSignalInfo := mkSignal 0x0102 0 1.
Definition example_cluster : AVCMusicClusterInfoBlock := mkCluster (mkInfoBlock 11 0x810A 7 0x810A) 6 1 1 [example_signal] BlockText_new.
Definition example_plug : AVCMusicSubunitPlugInfoBlock :=
  mkSubunitPlug (mkInfoBlock 34 0x8109 8 0x8109) 2 0x9000 0 1 1 [example_cluster]
    (mkBlockText (mkText (mkInfoBlock 7 0x000A 3 0x000A) [0x49; 0x6E]) AVCNameInfoBlock_new).
Definition example_routing : AVCMusicRoutingStatusInfoBlock := mkRouting (mkInfoBlock 44 0x8108 4 0x8108) 1 0 0 [example_plug] [] [].
Definition example_general : AVCMusicGeneralStatusInfoBlock := mkGeneralStatus (mkInfoBlock 10 0x8100 6 0x8100) 1 1 0x100.
Definition example_cluster_bytes : list Z := [0; 11; 0x81; 0x0A; 0; 7; 6; 1; 1; 1; 2; 0; 1].
Definition example_plug_bytes : list Z :=
  [0; 34; 0x81; 0x09; 0; 8; 2; 0x90; 0; 0; 0; 1; 0; 1] ++ example_cluster_bytes ++ [0; 7; 0; 0x0A; 0; 3; 0x49; 0x6E; 0].
Definition example_general_bytes : list Z := [0; 10; 0x81; 0; 0; 6; 1; 1; 0; 0; 1; 0].
Definition example_routing_bytes : list Z := [0; 44; 0x81; 0x08; 0; 4; 1; 0; 0; 0] ++ example_plug_bytes ++ [] ++ [].
Definition example_descriptor_bytes : list Z := example_general_bytes ++ example_routing_bytes ++ [].

Lemma example_cluster_image : cluster_image example_cluster example_cluster_bytes.
Proof. exists []. split_and!; [constructor|reflexivity|by vm_compute|reflexivity|repeat constructor; vm_compute; done]. Qed.

Lemma example_plug_image : subunit_plug_image example_plug example_plug_bytes.
Proof.
  exists [example_cluster_bytes], [0; 7; 0; 0x0A; 0; 3; 0x49; 0x6E; 0]. split_and!; try done.
  - by repeat constructor; apply example_cluster_image.
  - apply (raw_text (mkInfoBlock 7 0x000A 3 0x000A) [0x49; 0x6E] []); [by vm_compute|by repeat constructor].
Qed.

Lemma example_descriptor_image : info_blocks_image 12 AVCMusicStatusDescriptor_new example_descriptor_bytes
  (mkMusicStatus example_general (AVCInfoBlock_new 0x8101) example_routing).
Proof.
  eapply more_blocks; [apply (general_block _ example_general); by vm_compute|].
  eapply more_blocks; [apply (routing_block _ example_routing); [done|]|apply end_blocks].
  exists [example_plug_bytes], [], []. split_and!; try done; repeat constructor. apply example_plug_image.
Qed.

Lemma music_descriptor_load_witness : exists d' s',
  load false true 0xAA (example_device example_descriptor_bytes 16) 2 0x0C 0 (music_parse false 0xAA []) 64
    (AVCDescriptor_new (AVCDescriptorSpecifier_new eSubunit0x80) AVCMusicStatusDescriptor_new) example_service = Some ((true, d'), s')
  /\ ds_child d' = mkMusicStatus example_general (AVCInfoBlock_new 0x8101) example_routing.
Proof.
  destruct (music_descriptor_load false true 0xAA [] (example_device example_descriptor_bytes 16) 2 0x0C 0 example_descriptor_bytes
    (mkMusicStatus example_general (AVCInfoBlock_new 0x8101) example_routing) 64 example_service) as (d' & s' & E & C & _).
  - apply example_descriptor_device; [by vm_compute|example_chunks|by vm_compute].
  - exact example_descriptor_image.
  - vm_compute. congruence.
  - vm_compute. reflexivity.
  - vm_compute. lia.
  - reflexivity.
  - exists d', s'. split; [exact E|exact C].
Defined.

(** An info block of another type: its length does not count the length field itself, which [skip] leaves to the
    next round, so that the general status block behind it is not found. *)
Example unknown_block_desynchronises :
  let general := [0; 10; 0x81; 0; 0; 6; 1; 1; 0; 0; 1; 0] in
  ms_general (music_parse false 0 [] AVCMusicStatusDescriptor_new (BufferDeserialize ([0; 4; 0x81; 0x02; 0; 0] ++ general) 18)).2
  = AVCMusicGeneralStatusInfoBlock_new
  /\ ms_general (music_parse false 0 [] AVCMusicStatusDescriptor_new (BufferDeserialize general 12)).2
     = mkGeneralStatus (mkInfoBlock 10 0x8100 6 0x8100) 1 1 0x100.
Proof. by vm_compute. Qed.

(** Reading the descriptor again appends the plugs once more, and the count no longer agrees with the list. *)
Example reload_appends :
  let m := (music_parse false 0 [] AVCMusicStatusDescriptor_new (BufferDeserialize example_descriptor_bytes 58)).2 in
  let m' := (music_parse false 0 [] m (BufferDeserialize example_descriptor_bytes 58)).2 in
  rs_dest (ms_routing m') = [example_plug; example_plug] /\ rs_nb_dest_plugs (ms_routing m') = 1.
Proof. by vm_compute. Qed.
