(* ===== verification/AudioDescriptor.v ===== *)
(** * The audio subunit identifier descriptor

    Model of [src/libavc/audiosubunit/avc_descriptor_audio.cpp].  The constructors leave the members without a value; a read
    starts from whatever they hold.  The loops over the root object lists need not end: [fuel] bounds the
    rounds of the inner one, and [None] is a loop that has not ended. *)
From S2P Require Import Prelude ByteSwap CmdSerialize Fcp AvcCommands ExtendedPlugInfo Descriptors MusicDescriptor.

Record AVCAudioClusterInformation := mkAudioCluster {
  ac_info_length : Z;
  ac_number_of_channels : Z;
  ac_ChConfigType : Z;
  ac_Predefined_ChannelConfig : Z;
  ac_channel_name_IDs : list Z;
}.

Record AVCAudioConfigurationDependentInformation := mkAudioConfig {
  acf_info_length : Z;
  acf_configuration_ID : Z;
  acf_master_cluster : AVCAudioClusterInformation;
  acf_nb_source_links : Z;
  acf_source_links : list Z;
  acf_nb_function_block_info : Z;
}.

Record AVCAudioSubunitDependentInformation := mkAudioSubunit {
  as_fields_length : Z;
  as_version : Z;
  as_number_of_configurations : Z;
  as_configurations : list AVCAudioConfigurationDependentInformation;
}.

Record AVCAudioIdentifierDescriptor := mkAudioIdentifier {
  ai_generation_ID : Z;
  ai_size_of_list_ID : Z;
  ai_size_of_object_ID : Z;
  ai_size_of_object_position : Z;
  ai_number_of_root_object_lists : Z;
  ai_root_object_list_IDs : list Z;
  ai_dependent_length : Z;
  ai_dependent_info : AVCAudioSubunitDependentInformation;
}.

(** A call that ends. *)
Definition run_st {S A} (m : st S A) : run S A := fun s => Some (m s).

Section deserialize.
Context (uninit : Z) (fresh : AVCAudioConfigurationDependentInformation) {DE : Type} `{IISDeserialize DE}.

Definition AVCAudioClusterInformation_deserialize (c : AVCAudioClusterInformation) : st DE (bool * AVCAudioClusterInformation) :=
  '(r1, l) ← read_u16 (ac_info_length c);
  '(r2, n) ← read_byte (ac_number_of_channels c);
  '(r3, t) ← read_byte (ac_ChConfigType c);
  '(r4, p) ← read_u16 (ac_Predefined_ChannelConfig c);
  if 4 <? l then
    '(r5, ids) ← read_list (Z.to_nat n) (read_u16 uninit) [];
    mret (r1 && r2 && r3 && r4 && r5, mkAudioCluster l n t p ids)
  else mret (r1 && r2 && r3 && r4, mkAudioCluster l n t p (ac_channel_name_IDs c)).

Definition AVCAudioConfigurationDependentInformation_deserialize (c : AVCAudioConfigurationDependentInformation) :
    st DE (bool * AVCAudioConfigurationDependentInformation) :=
  '(r1, l) ← read_u16 (acf_info_length c);
  '(r2, i) ← read_u16 (acf_configuration_ID c);
  '(r3, m) ← AVCAudioClusterInformation_deserialize (acf_master_cluster c);
  '(r4, n) ← read_byte (acf_nb_source_links c);
  '(r5, links) ← read_list (Z.to_nat n) (read_u16 uninit) [];
  '(r6, f) ← read_byte (acf_nb_function_block_info c);
  mret (if negb (f =? 0) then false else r1 && r2 && r3 && r4 && r5 && r6, mkAudioConfig l i m n links f).

Definition AVCAudioSubunitDependentInformation_deserialize (s : AVCAudioSubunitDependentInformation) :
    st DE (bool * AVCAudioSubunitDependentInformation) :=
  '(r1, l) ← read_u16 (as_fields_length s);
  '(r2, v) ← read_byte (as_version s);
  '(r3, n) ← read_byte (as_number_of_configurations s);
  '(r4, cs) ← read_list (Z.to_nat n) (AVCAudioConfigurationDependentInformation_deserialize fresh) [];
  mret (r1 && r2 && r3 && r4, mkAudioSubunit l v n cs).

(** [for (int j=0; i<m_size_of_list_ID; j++)] *)
Fixpoint read_list_id (fuel : nat) (i size : Z) (acc : list Z) : run DE (bool * list Z) :=
  if i <? size then
    match fuel with
    | O => fun _ => None
    | S fuel =>
        '(r1, dummy) ← run_st (read_byte uninit);
        '(r2, acc) ← read_list_id fuel i size (acc ++ [dummy]);
        mret ((r1 : bool) && r2, acc)
    end
  else mret (true, acc).

Fixpoint read_root_lists (fuel n : nat) (i size : Z) (acc : list Z) : run DE (bool * list Z) :=
  match n with
  | O => mret (true, acc)
  | S n =>
      '(r1, acc) ← read_list_id fuel i size acc;
      '(r2, acc) ← read_root_lists fuel n (i + 1) size acc;
      mret ((r1 : bool) && r2, acc)
  end.

Definition identifier_head (a : AVCAudioIdentifierDescriptor) : st DE (bool * (Z * Z * Z * Z * Z)) :=
  '(r1, g) ← read_byte (ai_generation_ID a);
  '(r2, l) ← read_byte (ai_size_of_list_ID a);
  '(r3, o) ← read_byte (ai_size_of_object_ID a);
  '(r4, p) ← read_byte (ai_size_of_object_position a);
  '(r5, n) ← read_u16 (ai_number_of_root_object_lists a);
  mret (r1 && r2 && r3 && r4 && r5, (g, l, o, p, n)).

Definition identifier_tail (a : AVCAudioIdentifierDescriptor) : st DE (bool * (Z * AVCAudioSubunitDependentInformation)) :=
  '(r1, l) ← read_u16 (ai_dependent_length a);
  if negb (l =? 0) then
    '(r2, x) ← AVCAudioSubunitDependentInformation_deserialize (ai_dependent_info a);
    mret (r1 && r2, (l, x))
  else mret (r1, (l, ai_dependent_info a)).

Definition AVCAudioIdentifierDescriptor_deserialize (fuel : nat) (a : AVCAudioIdentifierDescriptor) : run DE (bool * AVCAudioIdentifierDescriptor) :=
  '(r1, (g, l, o, p, n)) ← run_st (identifier_head a);
  '(r2, ids) ← read_root_lists fuel (Z.to_nat n) 0 l [];
  '(r3, (len, x)) ← run_st (identifier_tail a);
  mret (r1 && r2 && r3, mkAudioIdentifier g l o p n ids len x).
End deserialize.

Section serialize.
Context {SE : Type} `{IOSSerialize SE}.

(** A vector is indexed up to the count in the object; [None] is the exception of [at]. *)
Definition write_ids (n : Z) (ids : list Z) : run SE bool :=
  if zlength ids <? n then fun _ => None else run_st (all_of (write_u16 <$> take (Z.to_nat n) ids)).

Definition AVCAudioClusterInformation_serialize (c : AVCAudioClusterInformation) : run SE bool :=
  r1 ← run_st (all_of [write_u16 (ac_info_length c); write_byte (ac_number_of_channels c); write_byte (ac_ChConfigType c);
                        write_u16 (ac_Predefined_ChannelConfig c)]);
  if 4 <? ac_info_length c then r2 ← write_ids (ac_number_of_channels c) (ac_channel_name_IDs c); mret ((r1 : bool) && r2)
  else mret r1.

Definition AVCAudioConfigurationDependentInformation_serialize (c : AVCAudioConfigurationDependentInformation) : run SE bool :=
  r1 ← run_st (all_of [write_u16 (acf_info_length c); write_u16 (acf_configuration_ID c)]);
  r2 ← AVCAudioClusterInformation_serialize (acf_master_cluster c);
  r3 ← run_st (write_byte (acf_nb_source_links c));
  r4 ← write_ids (acf_nb_source_links c) (acf_source_links c);
  r5 ← run_st (write_byte (acf_nb_function_block_info c));
  mret ((r1 : bool) && r2 && (r3 : bool) && r4 && (r5 : bool)).
End serialize.

(** ** The grammar *)

Definition audio_cluster_image (c : AVCAudioClusterInformation) (l : list Z) : Prop :=
  l = u16_bytes (ac_info_length c) ++ [ac_number_of_channels c] ++ [ac_ChConfigType c] ++ u16_bytes (ac_Predefined_ChannelConfig c)
      ++ concat (u16_bytes <$> ac_channel_name_IDs c)
  /\ 4 < ac_info_length c < 2 ^ 16 /\ 0 <= ac_Predefined_ChannelConfig c < 2 ^ 16
  /\ ac_number_of_channels c = zlength (ac_channel_name_IDs c) /\ Forall (fun i => 0 <= i < 2 ^ 16) (ac_channel_name_IDs c).

Definition audio_config_image (c : AVCAudioConfigurationDependentInformation) (l : list Z) : Prop :=
  exists lc, audio_cluster_image (acf_master_cluster c) lc
  /\ l = u16_bytes (acf_info_length c) ++ u16_bytes (acf_configuration_ID c) ++ lc ++ [acf_nb_source_links c]
         ++ concat (u16_bytes <$> acf_source_links c) ++ [acf_nb_function_block_info c]
  /\ 0 <= acf_info_length c < 2 ^ 16 /\ 0 <= acf_configuration_ID c < 2 ^ 16 /\ acf_nb_source_links c = zlength (acf_source_links c)
  /\ Forall (fun i => 0 <= i < 2 ^ 16) (acf_source_links c) /\ acf_nb_function_block_info c = 0.

Definition audio_subunit_image (s : AVCAudioSubunitDependentInformation) (l : list Z) : Prop :=
  exists ls, Forall2 audio_config_image (as_configurations s) ls
  /\ l = u16_bytes (as_fields_length s) ++ [as_version s] ++ [as_number_of_configurations s] ++ concat ls
  /\ 0 <= as_fields_length s < 2 ^ 16 /\ as_number_of_configurations s = zlength (as_configurations s).

(** Without root object lists, or with identifiers of no bytes. *)
Definition audio_identifier_image (a : AVCAudioIdentifierDescriptor) (l : list Z) : Prop :=
  exists ld, audio_subunit_image (ai_dependent_info a) ld
  /\ l = [ai_generation_ID a] ++ [ai_size_of_list_ID a] ++ [ai_size_of_object_ID a] ++ [ai_size_of_object_position a]
         ++ u16_bytes (ai_number_of_root_object_lists a) ++ u16_bytes (ai_dependent_length a) ++ ld
  /\ 0 <= ai_number_of_root_object_lists a < 2 ^ 16 /\ 0 < ai_dependent_length a < 2 ^ 16 /\ ai_root_object_list_IDs a = []
  /\ (ai_number_of_root_object_lists a = 0 \/ ai_size_of_list_ID a = 0).

Section parser.
Context (be : bool) (uninit : Z) (fresh : AVCAudioConfigurationDependentInformation) {DE : Type} `{DeserializeSpec be DE}.

Lemma parses_ids ids : Forall (fun i => 0 <= i < 2 ^ 16) ids ->
  parses (read_list (length ids) (read_u16 uninit) []) (concat (u16_bytes <$> ids)) (true, ids).
Proof.
  intros F. apply (parses_list be _ (fun i l => 0 <= i < 2 ^ 16 /\ l = u16_bytes i)).
  - intros i l (Hi & ->). by apply (parses_u16_bytes be).
  - induction F; constructor; auto.
Qed.

Lemma parses_audio_cluster c0 c l : audio_cluster_image c l -> parses (AVCAudioClusterInformation_deserialize uninit c0) l (true, c).
Proof.
  intros (-> & L & P & N & F). unfold AVCAudioClusterInformation_deserialize. eapply parses_bind; [apply (parses_u16_bytes be); lia|]. cbn beta iota.
  do 2 (eapply parses_bind; [apply parses_byte|]; cbn beta iota). eapply parses_bind; [by apply (parses_u16_bytes be)|]. cbn beta iota.
  rewrite (proj2 (Z.ltb_lt _ _)), N by lia. unfold zlength. rewrite Nat2Z.id, <- (app_nil_r (concat _)).
  eapply parses_bind; [by apply parses_ids|]. destruct c. cbn in *. unfold zlength in N. subst. apply parses_ret.
Qed.

Lemma parses_audio_config c0 c l : audio_config_image c l -> parses (AVCAudioConfigurationDependentInformation_deserialize uninit c0) l (true, c).
Proof.
  intros (lc & C & -> & L & I & N & F & Z0). unfold AVCAudioConfigurationDependentInformation_deserialize.
  do 2 (eapply parses_bind; [by apply (parses_u16_bytes be)|]; cbn beta iota). eapply parses_bind; [by apply parses_audio_cluster|]. cbn beta iota.
  eapply parses_bind; [apply parses_byte|]. cbn beta iota. rewrite N. unfold zlength. rewrite Nat2Z.id. eapply parses_bind; [by apply parses_ids|].
  cbn beta iota. eapply (parses_bind _ _ [_] []); [apply parses_byte|]. cbn beta iota. destruct c. cbn in *. unfold zlength in N. subst. apply parses_ret.
Qed.

Lemma parses_audio_subunit s0 s l : audio_subunit_image s l -> parses (AVCAudioSubunitDependentInformation_deserialize uninit fresh s0) l (true, s).
Proof.
  intros (ls & F & -> & L & N). unfold AVCAudioSubunitDependentInformation_deserialize. eapply parses_bind; [by apply (parses_u16_bytes be)|].
  cbn beta iota. do 2 (eapply parses_bind; [apply parses_byte|]; cbn beta iota). rewrite N. unfold zlength. rewrite Nat2Z.id, <- (app_nil_r (concat _)).
  eapply parses_bind; [by apply (parses_list be _ _ (parses_audio_config fresh))|]. destruct s. cbn in *. unfold zlength in N. subst. apply parses_ret.
Qed.

Lemma no_root_lists fuel n i size acc (d : DE) : 0 <= i -> n = O \/ size = 0 ->
  read_root_lists uninit fuel n i size acc d = Some ((true, acc), d).
Proof.
  revert i. induction n as [|n IH]; intros i Hi Hn; [done|]. destruct Hn as [?|Hs]; [done|]. subst size. cbn [read_root_lists].
  assert (read_list_id uninit fuel i 0 acc d = Some ((true, acc), d)) as E by (destruct fuel; cbn [read_list_id]; by rewrite (proj2 (Z.ltb_ge i 0))).
  erewrite run_bind_Some by exact E. cbn beta iota. erewrite run_bind_Some by (apply IH; [lia|by right]). done.
Qed.

Lemma parses_identifier_head a0 a : 0 <= ai_number_of_root_object_lists a < 2 ^ 16 ->
  parses (identifier_head a0) ([ai_generation_ID a] ++ [ai_size_of_list_ID a] ++ [ai_size_of_object_ID a] ++ [ai_size_of_object_position a]
    ++ u16_bytes (ai_number_of_root_object_lists a))
    (true, (ai_generation_ID a, ai_size_of_list_ID a, ai_size_of_object_ID a, ai_size_of_object_position a, ai_number_of_root_object_lists a)).
Proof.
  intros N. unfold identifier_head. do 4 (eapply parses_bind; [apply parses_byte|]; cbn beta iota). rewrite <- (app_nil_r (u16_bytes _)).
  eapply parses_bind; [by apply (parses_u16_bytes be)|]. apply parses_ret.
Qed.

Lemma parses_identifier_tail a0 a ld : audio_subunit_image (ai_dependent_info a) ld -> 0 < ai_dependent_length a < 2 ^ 16 ->
  parses (identifier_tail uninit fresh a0) (u16_bytes (ai_dependent_length a) ++ ld) (true, (ai_dependent_length a, ai_dependent_info a)).
Proof.
  intros Sd L. unfold identifier_tail. eapply parses_bind; [apply (parses_u16_bytes be); lia|]. cbn beta iota.
  rewrite (proj2 (Z.eqb_neq _ _)) by lia. cbn [negb]. rewrite <- (app_nil_r ld). eapply parses_bind; [by apply parses_audio_subunit|]. apply parses_ret.
Qed.

(** A descriptor without root object lists is read as it is written. *)
Lemma audio_identifier_parsed fuel a0 a l (d : DE) r : audio_identifier_image a l -> de_wf d -> de_in d = l ++ r ->
  exists d', AVCAudioIdentifierDescriptor_deserialize uninit fresh fuel a0 d = Some ((true, a), d') /\ de_in d' = r.
Proof.
  intros (ld & Sd & -> & N & L & I & Z0) W E. unfold AVCAudioIdentifierDescriptor_deserialize.
  destruct (parses_identifier_head a0 a N d (u16_bytes (ai_dependent_length a) ++ ld ++ r) W) as (d1 & E1 & W1 & I1 & _);
    [rewrite E; by rewrite <- !app_assoc|].
  erewrite run_bind_Some by (unfold run_st; by rewrite E1). cbn beta iota.
  erewrite run_bind_Some by (apply no_root_lists; [done|]; destruct Z0 as [->| ->]; auto). cbn beta iota.
  destruct (parses_identifier_tail a0 a ld Sd L d1 r W1) as (d2 & E2 & _ & I2 & _); [by rewrite <- app_assoc|].
  erewrite run_bind_Some by (unfold run_st; by rewrite E2). exists d2. split; [|done]. destruct a. cbn in *. by subst.
Qed.

(** The inner loop counts [j] and tests [i]: with one root object list and identifiers of at least a byte it never ends. *)
Lemma read_list_id_diverges fuel i size acc (d : DE) : i < size -> read_list_id uninit fuel i size acc d = None.
Proof.
  intros Hi. revert acc d. induction fuel as [|fuel IH]; intros acc d; cbn [read_list_id]; rewrite (proj2 (Z.ltb_lt _ _)) by done; [done|].
  unfold mbind, run_bind, run_st. destruct (read_byte uninit d) as [[r1 x] d1]. cbn [mbind option_bind]. by rewrite IH.
Qed.

Lemma root_lists_diverge fuel n i size acc (d : DE) : i < size -> read_root_lists uninit fuel (S n) i size acc d = None.
Proof. intros Hi. cbn [read_root_lists]. unfold mbind, run_bind. by rewrite read_list_id_diverges. Qed.

Lemma audio_identifier_diverges fuel a0 a (d : DE) r : 0 < ai_number_of_root_object_lists a < 2 ^ 16 -> 0 < ai_size_of_list_ID a ->
  de_wf d -> de_in d = ([ai_generation_ID a] ++ [ai_size_of_list_ID a] ++ [ai_size_of_object_ID a] ++ [ai_size_of_object_position a]
    ++ u16_bytes (ai_number_of_root_object_lists a)) ++ r ->
  AVCAudioIdentifierDescriptor_deserialize uninit fresh fuel a0 d = None.
Proof.
  intros N Hs W E. unfold AVCAudioIdentifierDescriptor_deserialize.
  destruct (parses_identifier_head a0 a ltac:(lia) d r W E) as (d1 & E1 & _). erewrite run_bind_Some by (unfold run_st; by rewrite E1). cbn beta iota.
  destruct (Z.to_nat _) as [|n] eqn:Hn; [lia|]. unfold mbind at 1, run_bind at 1. by rewrite root_lists_diverge.
Qed.
End parser.
