(* ===== verification/Plugs.v ===== *)
(** * Plugs and the plug manager

    Model of the objects of [src/libavc/general/avc_plug.cpp]: [Plug], whose vectors of connections point to other plugs,
    [PlugManager], which owns the plugs of a unit, and the construction of the graph of connections.

    Plugs live on a heap: a pointer is a location, and the vectors hold locations.  Following a pointer to an object that is not there
    makes a call undefined.  A plug knows its subunit by type and id; a null pointer is [None].  Enumerations are inductive types.
    Strings are lists of characters. *)
From stdpp Require Import gmap strings.
From S2P Require Import Prelude ByteSwap CmdSerialize Fcp AvcCommands AvcExchange PlugAddress MusicDescriptor.
#[local] Open Scope Z_scope.

(** ** Data *)

Inductive EPlugAddressType := eAPA_PCR | eAPA_ExternalPlug | eAPA_AsynchronousPlug | eAPA_SubunitPlug | eAPA_FunctionBlockPlug | eAPA_Undefined.
Inductive EPlugType := eAPT_IsoStream | eAPT_AsyncStream | eAPT_Midi | eAPT_Sync | eAPT_Analog | eAPT_Digital | eAPT_Unknown.
Inductive EPlugDirection := eAPD_Input | eAPD_Output | eAPD_Unknown.

#[export] Instance EPlugAddressType_eq_dec : EqDecision EPlugAddressType.
Proof. solve_decision. Defined.
#[export] Instance EPlugType_eq_dec : EqDecision EPlugType.
Proof. solve_decision. Defined.
#[export] Instance EPlugDirection_eq_dec : EqDecision EPlugDirection.
Proof. solve_decision. Defined.

Record PlugChannelInfo := mkChannelInfo { ch_streamPosition : Z; ch_location : Z; ch_name : list Z }.
Record ClusterInfo := mkClusterInfo {
  ci_index : Z;
  ci_portType : Z;
  ci_name : list Z;
  ci_nrOfChannels : Z;
  ci_channelInfos : list PlugChannelInfo;
  ci_streamFormat : Z;
  ci_buildSource : Z;
}.
Record FormatInfo := mkFormatInfo {
  fi_samplingFrequency : Z;
  fi_isSyncStream : bool;
  fi_audioChannels : Z;
  fi_midiChannels : Z;
  fi_index : Z;
}.
Definition FormatInfo_new : FormatInfo := mkFormatInfo 0x0F false 0 0 0xff.

Abbreviation ploc := nat.
Record Plug := mkPlug {
  pg_subunit : option (Z * Z);
  pg_functionBlockType : Z;
  pg_functionBlockId : Z;
  pg_addressType : EPlugAddressType;
  pg_direction : EPlugDirection;
  pg_id : Z;
  pg_infoPlugType : EPlugType;
  pg_nrOfChannels : Z;
  pg_name : list Z;
  pg_clusterInfos : list ClusterInfo;
  pg_samplingFrequency : Z;
  pg_formatInfos : list FormatInfo;
  pg_inputConnections : list ploc;
  pg_outputConnections : list ploc;
  pg_globalId : Z;
}.

Definition plug_subunitType (p : Plug) : Z := match pg_subunit p with Some (t, _) => t | None => eST_Unit end.
Definition plug_subunitId (p : Plug) : Z := match pg_subunit p with Some (_, i) => i | None => 0xFF end.

(** The constructor sets no sampling frequency. *)
Definition Plug_new (uninit : Z) (subunit : option (Z * Z)) (functionBlockType functionBlockId : Z) (addressType : EPlugAddressType)
    (direction : EPlugDirection) (id globalId : Z) : Plug :=
  mkPlug subunit functionBlockType functionBlockId addressType direction id eAPT_Unknown 0 [] [] uninit [] [] [] globalId.

(** Assignments to members. *)
Definition set_inputs (l : list ploc) (p : Plug) : Plug :=
  mkPlug (pg_subunit p) (pg_functionBlockType p) (pg_functionBlockId p) (pg_addressType p) (pg_direction p) (pg_id p) (pg_infoPlugType p)
    (pg_nrOfChannels p) (pg_name p) (pg_clusterInfos p) (pg_samplingFrequency p) (pg_formatInfos p) l (pg_outputConnections p) (pg_globalId p).
Definition set_outputs (l : list ploc) (p : Plug) : Plug :=
  mkPlug (pg_subunit p) (pg_functionBlockType p) (pg_functionBlockId p) (pg_addressType p) (pg_direction p) (pg_id p) (pg_infoPlugType p)
    (pg_nrOfChannels p) (pg_name p) (pg_clusterInfos p) (pg_samplingFrequency p) (pg_formatInfos p) (pg_inputConnections p) l (pg_globalId p).
Definition set_channels (n : Z) (p : Plug) : Plug :=
  mkPlug (pg_subunit p) (pg_functionBlockType p) (pg_functionBlockId p) (pg_addressType p) (pg_direction p) (pg_id p) (pg_infoPlugType p)
    n (pg_name p) (pg_clusterInfos p) (pg_samplingFrequency p) (pg_formatInfos p) (pg_inputConnections p) (pg_outputConnections p) (pg_globalId p).
Definition set_clusters (l : list ClusterInfo) (p : Plug) : Plug :=
  mkPlug (pg_subunit p) (pg_functionBlockType p) (pg_functionBlockId p) (pg_addressType p) (pg_direction p) (pg_id p) (pg_infoPlugType p)
    (pg_nrOfChannels p) (pg_name p) l (pg_samplingFrequency p) (pg_formatInfos p) (pg_inputConnections p) (pg_outputConnections p) (pg_globalId p).
Definition set_plug_name (n : list Z) (p : Plug) : Plug :=
  mkPlug (pg_subunit p) (pg_functionBlockType p) (pg_functionBlockId p) (pg_addressType p) (pg_direction p) (pg_id p) (pg_infoPlugType p)
    (pg_nrOfChannels p) n (pg_clusterInfos p) (pg_samplingFrequency p) (pg_formatInfos p) (pg_inputConnections p) (pg_outputConnections p) (pg_globalId p).
Definition set_info_type (t : EPlugType) (p : Plug) : Plug :=
  mkPlug (pg_subunit p) (pg_functionBlockType p) (pg_functionBlockId p) (pg_addressType p) (pg_direction p) (pg_id p) t
    (pg_nrOfChannels p) (pg_name p) (pg_clusterInfos p) (pg_samplingFrequency p) (pg_formatInfos p) (pg_inputConnections p) (pg_outputConnections p) (pg_globalId p).
Definition set_frequency (f : Z) (p : Plug) : Plug :=
  mkPlug (pg_subunit p) (pg_functionBlockType p) (pg_functionBlockId p) (pg_addressType p) (pg_direction p) (pg_id p) (pg_infoPlugType p)
    (pg_nrOfChannels p) (pg_name p) (pg_clusterInfos p) f (pg_formatInfos p) (pg_inputConnections p) (pg_outputConnections p) (pg_globalId p).
Definition set_formats (l : list FormatInfo) (p : Plug) : Plug :=
  mkPlug (pg_subunit p) (pg_functionBlockType p) (pg_functionBlockId p) (pg_addressType p) (pg_direction p) (pg_id p) (pg_infoPlugType p)
    (pg_nrOfChannels p) (pg_name p) (pg_clusterInfos p) (pg_samplingFrequency p) l (pg_inputConnections p) (pg_outputConnections p) (pg_globalId p).

Definition set_subunit (u : option (Z * Z)) (p : Plug) : Plug :=
  mkPlug u (pg_functionBlockType p) (pg_functionBlockId p) (pg_addressType p) (pg_direction p) (pg_id p) (pg_infoPlugType p)
    (pg_nrOfChannels p) (pg_name p) (pg_clusterInfos p) (pg_samplingFrequency p) (pg_formatInfos p) (pg_inputConnections p) (pg_outputConnections p) (pg_globalId p).

(** ** The unit: its heap of plugs, the plug manager and the bus service *)

Record PlugWorld := mkPlugWorld {
  pw_heap : gmap ploc Plug;
  pw_plugs : list ploc;
  pw_globalIdCounter : Z;
  pw_service : Ieee1394Service;
}.
Abbreviation M := (run PlugWorld).

Definition with_heap (h : gmap ploc Plug) (w : PlugWorld) : PlugWorld := mkPlugWorld h (pw_plugs w) (pw_globalIdCounter w) (pw_service w).
Definition with_plugs (l : list ploc) (w : PlugWorld) : PlugWorld := mkPlugWorld (pw_heap w) l (pw_globalIdCounter w) (pw_service w).

Definition deref (l : ploc) : M Plug := fun w => (fun p => (p, w)) <$> pw_heap w !! l.
Definition update (l : ploc) (f : Plug -> Plug) : M unit := fun w =>
  (fun p => (tt, with_heap (<[l := f p]> (pw_heap w)) w)) <$> pw_heap w !! l.

Lemma deref_eq l p w : pw_heap w !! l = Some p -> deref l w = Some (p, w).
Proof. unfold deref. by intros ->. Qed.
Lemma update_eq l f p w : pw_heap w !! l = Some p -> update l f w = Some (tt, with_heap (<[l := f p]> (pw_heap w)) w).
Proof. unfold update. by intros ->. Qed.

(** ** Plug manager *)

Definition requestNewGlobalId : M Z := fun w =>
  Some (pw_globalIdCounter w, mkPlugWorld (pw_heap w) (pw_plugs w) (i32 (pw_globalIdCounter w + 1)) (pw_service w)).

(** [new], at an address that is free. *)
Definition allocate (p : Plug) : M ploc := fun w =>
  let l := fresh (dom (pw_heap w)) in Some (l, with_heap (<[l := p]> (pw_heap w)) w).

Definition createPlug (uninit : Z) (subunit : option (Z * Z)) (functionBlockType functionBlockId : Z) (addressType : EPlugAddressType)
    (direction : EPlugDirection) (id globalId : Z) : M ploc :=
  g ← (if globalId <? 0 then requestNewGlobalId else mret globalId);
  allocate (Plug_new uninit subunit functionBlockType functionBlockId addressType direction id g).

Definition addPlug (l : ploc) : M bool := modify (fun w => with_plugs (pw_plugs w ++ [l]) w) ;; mret true.

Fixpoint erase_plug (l : ploc) (v : list ploc) : bool * list ploc :=
  match v with
  | [] => (false, [])
  | x :: v => if decide (x = l) then (true, v) else let '(r, v) := erase_plug l v in (r, x :: v)
  end.
Definition remPlug (l : ploc) : M bool := fun w => let '(r, v) := erase_plug l (pw_plugs w) in Some (r, with_plugs v w).

(** [delete plug]: undefined when there is no such object. *)
Definition deletePlug (l : ploc) : M unit := deref l ;; remPlug l ;; modify (fun w => with_heap (delete l (pw_heap w)) w).

(** The first plug of the vector for which [f] holds. *)
Fixpoint find_plug (f : Plug -> bool) (v : list ploc) : M (option ploc) :=
  match v with
  | [] => mret None
  | l :: v => p ← deref l; if (f p : bool) then mret (Some l) else find_plug f v
  end.

Definition has_address (subunitType subunitId functionBlockType functionBlockId : Z) (addressType : EPlugAddressType) (direction : EPlugDirection)
    (p : Plug) : bool :=
  (subunitType =? plug_subunitType p) && (subunitId =? plug_subunitId p) && (functionBlockType =? pg_functionBlockType p)
  && (functionBlockId =? pg_functionBlockId p) && bool_decide (addressType = pg_addressType p) && bool_decide (direction = pg_direction p).

Definition getPlug (subunitType subunitId functionBlockType functionBlockId : Z) (addressType : EPlugAddressType) (direction : EPlugDirection)
    (plugId : Z) : M (option ploc) :=
  v ← gets pw_plugs;
  find_plug (fun p => has_address subunitType subunitId functionBlockType functionBlockId addressType direction p && (plugId =? pg_id p)) v.

Definition getPlug_by_id (iGlobalId : Z) : M (option ploc) :=
  v ← gets pw_plugs; find_plug (fun p => pg_globalId p =? iGlobalId) v.

Fixpoint collect_plugs (f : Plug -> bool) (v : list ploc) : M (list ploc) :=
  match v with
  | [] => mret []
  | l :: v => p ← deref l; r ← collect_plugs f v; mret (if f p then l :: r else r)
  end.

Definition getPlugsByType (subunitType subunitId functionBlockType functionBlockId : Z) (addressType : EPlugAddressType) (direction : EPlugDirection)
    (type : EPlugType) : M (list ploc) :=
  v ← gets pw_plugs;
  collect_plugs (fun p => has_address subunitType subunitId functionBlockType functionBlockId addressType direction p && bool_decide (type = pg_infoPlugType p)) v.

(** *** The graph of connections *)

Abbreviation PlugConnection := (ploc * ploc)%type.

Definition addConnection (connections : list PlugConnection) (src dest : ploc) : list PlugConnection :=
  if decide ((src, dest) ∈ connections) then connections else connections ++ [(src, dest)].

(** One plug: its connections are entered, and its vectors cleared. *)
Definition tidy_plug (l : ploc) (connections : list PlugConnection) : M (list PlugConnection) :=
  p ← deref l;
  let connections := fold_left (fun cs i => addConnection cs i l) (pg_inputConnections p) connections in
  update l (set_inputs []) ;;
  p ← deref l;
  let connections := fold_left (fun cs o => addConnection cs l o) (pg_outputConnections p) connections in
  update l (set_outputs []) ;;
  mret connections.

Fixpoint tidy_plugs (v : list ploc) (connections : list PlugConnection) : M (list PlugConnection) :=
  match v with
  | [] => mret connections
  | l :: v => connections ← tidy_plug l connections; tidy_plugs v connections
  end.

Fixpoint enter_connections (connections : list PlugConnection) : M unit :=
  match connections with
  | [] => mret tt
  | (src, dest) :: connections =>
      update src (fun p => set_outputs (pg_outputConnections p ++ [dest]) p) ;;
      update dest (fun p => set_inputs (pg_inputConnections p ++ [src]) p) ;;
      enter_connections connections
  end.

Definition tidyPlugConnections : M (list PlugConnection) :=
  v ← gets pw_plugs;
  connections ← tidy_plugs v [];
  enter_connections connections ;;
  mret connections.

(** *** Connections of one plug *)

Definition addPlugConnection (connections : list ploc) (l : ploc) : list ploc :=
  if decide (l ∈ connections) then connections else connections ++ [l].

Definition toggleDirection (d : EPlugDirection) : EPlugDirection :=
  match d with eAPD_Output => eAPD_Input | eAPD_Input => eAPD_Output | d => d end.

Definition convertPlugDirection (d : EPlugDirection) : Z :=
  match d with eAPD_Input => ePD_Input | eAPD_Output => ePD_Output | eAPD_Unknown => ePD_Undefined end.

(** The address types of a unit plug in specific data. *)
Definition unit_address_type (plugType : Z) : EPlugAddressType :=
  if plugType =? ePT_PCR then eAPA_PCR else if plugType =? 0x01 then eAPA_ExternalPlug
  else if plugType =? 0x02 then eAPA_AsynchronousPlug else eAPA_Undefined.

(** The plug at the other end, from the point of view of [self]. *)
Definition getPlugDefinedBySpecificData (self : Plug) (a : PlugAddressData) : M (option ploc) :=
  let d := pg_direction self in
  match a with
  | UnitPlugSpecificDataPlugAddress t i _ _ _ =>
      getPlug eST_Unit 0xff 0xff 0xff (unit_address_type t) (if decide (pg_addressType self = eAPA_SubunitPlug) then d else eAPD_Unknown) i
  | SubunitPlugSpecificDataPlugAddress st si i _ _ =>
      getPlug st si 0xff 0xff eAPA_SubunitPlug (if decide (pg_addressType self = eAPA_SubunitPlug) then toggleDirection d else d) i
  | FunctionBlockPlugSpecificDataPlugAddress st si ft fi i =>
      getPlug st si ft fi eAPA_FunctionBlockPlug
        (if decide (pg_addressType self = eAPA_FunctionBlockPlug) then toggleDirection d
         else if decide (pg_addressType self = eAPA_SubunitPlug) then d else eAPD_Unknown) i
  | _ => mret None
  end.

(** [connections] is one of the two vectors of the plug at [self]. *)
Definition discoverConnectionsFromSpecificData (input : bool) (self : ploc) (a : PlugAddressData) : M bool :=
  p ← deref self;
  r ← getPlugDefinedBySpecificData p a;
  match r with
  | None => mret false
  | Some l =>
      update self (fun p => if input then set_inputs (addPlugConnection (pg_inputConnections p) l) p
                            else set_outputs (addPlugConnection (pg_outputConnections p) l) p) ;;
      mret true
  end.

Definition propagateFromPlug (self from : ploc) : M bool :=
  q ← deref from;
  p ← deref self;
  (match pg_clusterInfos p with
   | c :: _ => if ci_buildSource c =? -1 then update self (set_clusters (pg_clusterInfos q)) else mret tt
   | [] => update self (set_clusters (pg_clusterInfos q))
   end) ;;
  (if match pg_clusterInfos p with c :: _ => ci_buildSource c =? -1 | [] => true end then
     update self (fun p => match pg_clusterInfos p with
       | c :: r => set_clusters (mkClusterInfo (ci_index c) (ci_portType c) (ci_name c) (ci_nrOfChannels c) (ci_channelInfos c) (ci_streamFormat c) 0 :: r) p
       | [] => p end)
   else mret tt) ;;
  update self (set_channels (pg_nrOfChannels q)) ;;
  mret true.

Definition propagateFromConnectedPlug (self : ploc) : M bool :=
  p ← deref self;
  match pg_direction p with
  | eAPD_Output => match pg_inputConnections p with [] => mret true | l :: _ => propagateFromPlug self l end
  | eAPD_Input => match pg_outputConnections p with [] => mret true | l :: _ => propagateFromPlug self l end
  | eAPD_Unknown => mret false
  end.

Definition getNrOfStreams (p : Plug) : Z := i32 (foldr (fun c n => ci_nrOfChannels c + n) 0 (pg_clusterInfos p)).

Definition getClusterInfoByIndex (index : Z) (p : Plug) : option ClusterInfo := find (fun c => ci_index c =? index) (pg_clusterInfos p).

(** ** The graph is tidied *)

Lemma elem_of_addConnection cs a b c : c ∈ addConnection cs a b <-> c ∈ cs \/ c = (a, b).
Proof. unfold addConnection. case_decide as D; [split; [auto|intros [?| ->]; done]|]. rewrite elem_of_app, list_elem_of_singleton. done. Qed.

Lemma NoDup_addConnection cs a b : NoDup cs -> NoDup (addConnection cs a b).
Proof.
  intros H. unfold addConnection. case_decide as D; [done|]. apply list.NoDup_app. split_and!; [done| |apply NoDup_singleton].
  intros x Hx ->%list_elem_of_singleton. done.
Qed.

(** A vector of connections, entered with [f]. *)
Lemma add_all (f : ploc -> PlugConnection) v cs : NoDup cs ->
  let cs' := fold_left (fun cs i => addConnection cs (f i).1 (f i).2) v cs in
  NoDup cs' /\ forall c, c ∈ cs' <-> c ∈ cs \/ exists i, i ∈ v /\ c = f i.
Proof.
  revert cs. induction v as [|i v IH]; intros cs N; cbn [fold_left].
  - split; [done|]. intros c. split; [by left|]. intros [?|(i & []%not_elem_of_nil & _)]; done.
  - destruct (IH (addConnection cs (f i).1 (f i).2)) as (N' & E); [by apply NoDup_addConnection|]. split; [done|].
    intros c. rewrite E, elem_of_addConnection, <- surjective_pairing. split.
    + intros [[?| ->]|(j & Hj & ->)]; [by left|right; exists i; by rewrite elem_of_cons; auto|right; exists j; by rewrite elem_of_cons; auto].
    + intros [?|(j & [->|Hj]%elem_of_cons & ->)]; [by left; left|by left; right|right; by exists j].
Qed.

Definition cleared (p : Plug) : Plug := set_outputs [] (set_inputs [] p).

(** What the vectors of a set of plugs say. *)
Definition edge_of (v : list ploc) (h : gmap ploc Plug) (c : PlugConnection) : Prop :=
  (c.2 ∈ v /\ exists p, h !! c.2 = Some p /\ c.1 ∈ pg_inputConnections p) \/ (c.1 ∈ v /\ exists p, h !! c.1 = Some p /\ c.2 ∈ pg_outputConnections p).

Lemma tidy_plug_ok l p cs w : pw_heap w !! l = Some p -> NoDup cs -> exists cs',
  tidy_plug l cs w = Some (cs', with_heap (<[l := cleared p]> (pw_heap w)) w) /\ NoDup cs'
  /\ forall c, c ∈ cs' <-> c ∈ cs \/ edge_of [l] (pw_heap w) c.
Proof.
  intros Hl N. eexists. split.
  { unfold tidy_plug. run_step with (deref_eq _ _ _ Hl). run_step with (update_eq _ _ _ _ Hl).
    assert (pw_heap (with_heap (<[l:=set_inputs [] p]> (pw_heap w)) w) !! l = Some (set_inputs [] p)) as H1 by apply lookup_insert_eq.
    run_step with (deref_eq _ _ _ H1). run_step with (update_eq _ _ _ _ H1). cbn [pw_heap with_heap]. rewrite insert_insert_eq. reflexivity. }
  destruct (add_all (fun i => (i, l)) (pg_inputConnections p) cs N) as (N1 & E1). cbn [fst snd] in *.
  destruct (add_all (fun o => (l, o)) (pg_outputConnections p) _ N1) as (N2 & E2). cbn [fst snd] in *. split; [exact N2|].
  intros [s d]. rewrite E2, E1. unfold edge_of. cbn [fst snd]. rewrite !list_elem_of_singleton. split.
  - intros [[?|(i & Hi & [= -> ->])]|(o & Ho & [= -> ->])]; [by left|right; left|right; right]; split; try done; by exists p.
  - intros [?|[(-> & q & Hq & Hi)|(-> & q & Hq & Ho)]]; [by left; left| |]; assert (q = p) as -> by congruence.
    + left. right. by exists s.
    + right. by exists d.
Qed.

Lemma edge_of_cons l v h h' c : l ∉ v -> (forall k, k <> l -> h' !! k = h !! k) -> edge_of (l :: v) h c <-> edge_of [l] h c \/ edge_of v h' c.
Proof.
  intros Nl Hh. unfold edge_of. rewrite !elem_of_cons, !elem_of_nil.
  assert (forall k, k ∈ v -> h' !! k = h !! k) as Hv by (intros k Hk; apply Hh; congruence). split.
  - intros [([->|Hv2] & p & Hp & Hi)|([->|Hv1] & p & Hp & Ho)]; [left; left|right; left|left; right|right; right]; (split; [auto|]); exists p; rewrite ?Hv by done; auto.
  - intros [[([Hx|[]] & H)|([Hx|[]] & H)]|[(Hx & p & Hp & Hi)|(Hx & p & Hp & Ho)]]; [left; auto|right; auto|left|right]; (split; [auto|]); exists p; rewrite <- Hv by done; auto.
Qed.

Lemma tidy_plugs_ok v : forall cs w, NoDup v -> (forall l, l ∈ v -> is_Some (pw_heap w !! l)) -> NoDup cs -> exists cs' h',
  tidy_plugs v cs w = Some (cs', with_heap h' w) /\ NoDup cs' /\ (forall c, c ∈ cs' <-> c ∈ cs \/ edge_of v (pw_heap w) c)
  /\ forall l, h' !! l = if decide (l ∈ v) then cleared <$> pw_heap w !! l else pw_heap w !! l.
Proof.
  induction v as [|l v IH]; intros cs w Nv Hv N.
  - exists cs, (pw_heap w). split_and!; [by destruct w|done| |done]. intros c. unfold edge_of. rewrite !elem_of_nil. tauto.
  - apply list.NoDup_cons in Nv as [Nl Nv]. destruct (Hv l) as [p Hl]; [by left|].
    destruct (tidy_plug_ok l p cs w Hl N) as (cs1 & E1 & N1 & I1). set (w1 := with_heap _ w) in E1.
    destruct (IH cs1 w1 Nv) as (cs' & h' & E & N' & I' & H'); [|done|].
    { intros k Hk. cbn. rewrite lookup_insert_ne by congruence. apply Hv. by right. }
    exists cs', h'. split_and!; [|done| |].
    + cbn [tidy_plugs]. erewrite run_bind_Some by exact E1. exact E.
    + intros c. rewrite I', I1, (edge_of_cons l v (pw_heap w) (pw_heap w1)) by (try done; intros k Hk; cbn; by rewrite lookup_insert_ne by done). tauto.
    + intros k. rewrite H'. cbn. destruct (decide (k = l)) as [->|Nk].
      * rewrite decide_False by done. rewrite decide_True by (by left). by rewrite lookup_insert_eq, Hl.
      * rewrite lookup_insert_ne by done. destruct (decide (k ∈ v)); [rewrite decide_True by (by right)|rewrite decide_False by (rewrite elem_of_cons; tauto)]; done.
Qed.

(** The ends of the connections at [l]. *)
Definition outs_at (l : ploc) (cs : list PlugConnection) : list ploc := snd <$> filter (fun c => c.1 = l) cs.
Definition ins_at (l : ploc) (cs : list PlugConnection) : list ploc := fst <$> filter (fun c => c.2 = l) cs.

Definition connected (cs : list PlugConnection) (l : ploc) (p : Plug) : Plug :=
  set_inputs (pg_inputConnections p ++ ins_at l cs) (set_outputs (pg_outputConnections p ++ outs_at l cs) p).

Lemma connected_nil l p : connected [] l p = p.
Proof. unfold connected, ins_at, outs_at. cbn. rewrite !app_nil_r. by destruct p. Qed.

Lemma outs_at_cons l s d cs : outs_at l ((s, d) :: cs) = (if decide (s = l) then [d] else []) ++ outs_at l cs.
Proof. unfold outs_at. rewrite filter_cons. cbn [fst]. by case_decide. Qed.
Lemma ins_at_cons l s d cs : ins_at l ((s, d) :: cs) = (if decide (d = l) then [s] else []) ++ ins_at l cs.
Proof. unfold ins_at. rewrite filter_cons. cbn [snd]. by case_decide. Qed.

(** One connection. *)
Definition with_out (d : ploc) (p : Plug) : Plug := set_outputs (pg_outputConnections p ++ [d]) p.
Definition with_in (s : ploc) (p : Plug) : Plug := set_inputs (pg_inputConnections p ++ [s]) p.

Lemma connected_cons s d cs l p :
  connected cs l ((if decide (d = l) then with_in s else id) ((if decide (s = l) then with_out d else id) p)) = connected ((s, d) :: cs) l p.
Proof.
  unfold connected, with_in, with_out. rewrite outs_at_cons, ins_at_cons. repeat case_decide; cbn; rewrite <- ?app_assoc; by destruct p.
Qed.

Lemma enter_connections_ok cs : forall w, (forall c, c ∈ cs -> is_Some (pw_heap w !! c.1) /\ is_Some (pw_heap w !! c.2)) -> exists h',
  enter_connections cs w = Some (tt, with_heap h' w) /\ forall l, h' !! l = connected cs l <$> pw_heap w !! l.
Proof.
  induction cs as [|[s d] cs IH]; intros w Hc.
  - exists (pw_heap w). split; [by destruct w|]. intros l. destruct (pw_heap w !! l); [|done]. cbn. by rewrite connected_nil.
  - destruct (Hc (s, d)) as [[ps Hs] [pd Hd]]; [by left|]. cbn [fst snd] in *. cbn [enter_connections].
    run_step with (update_eq _ _ _ _ Hs). set (h1 := <[s := _]> (pw_heap w)).
    assert (forall l, h1 !! l = (if decide (s = l) then with_out d else id) <$> pw_heap w !! l) as H1.
    { intros l. unfold h1. case_decide as E; [subst; by rewrite lookup_insert_eq, Hs|]. rewrite lookup_insert_ne by done. by destruct (pw_heap w !! l). }
    destruct (h1 !! d) as [pd1|] eqn:Hd1; [|by rewrite H1, Hd in Hd1].
    assert (pw_heap (with_heap h1 w) !! d = Some pd1) as Hd1' by done. run_step with (update_eq _ _ _ _ Hd1').
    cbn [with_heap pw_heap pw_plugs pw_globalIdCounter pw_service]. set (h2 := <[d := _]> h1).
    assert (forall l, h2 !! l = (if decide (d = l) then with_in s else id) <$> h1 !! l) as H2.
    { intros l. unfold h2. case_decide as E; [subst; by rewrite lookup_insert_eq, Hd1|]. rewrite lookup_insert_ne by done. by destruct (h1 !! l). }
    destruct (IH (with_heap h2 w)) as (h' & E & H').
    { intros c Hin. cbn [with_heap pw_heap]. rewrite !H2, !H1, !fmap_is_Some. apply Hc. by right. }
    exists h'. split; [exact E|]. intros l. rewrite H'. cbn [with_heap pw_heap]. rewrite H2, H1.
    destruct (pw_heap w !! l); [|done]. cbn. by rewrite connected_cons.
Qed.

(** The plugs of the manager are there, each once, and are connected with each other only. *)
Definition graph_ok (w : PlugWorld) : Prop :=
  NoDup (pw_plugs w) /\ forall l, l ∈ pw_plugs w -> exists p, pw_heap w !! l = Some p
    /\ forall k, k ∈ pg_inputConnections p \/ k ∈ pg_outputConnections p -> k ∈ pw_plugs w.

Lemma edge_of_in w c : graph_ok w -> edge_of (pw_plugs w) (pw_heap w) c -> c.1 ∈ pw_plugs w /\ c.2 ∈ pw_plugs w.
Proof.
  intros (_ & G) [(H2 & p & Hp & Hi)|(H1 & p & Hp & Ho)].
  - destruct (G _ H2) as (q & Hq & Hc). assert (q = p) as -> by congruence. auto.
  - destruct (G _ H1) as (q & Hq & Hc). assert (q = p) as -> by congruence. auto.
Qed.

Lemma elem_of_outs_at l k cs : k ∈ outs_at l cs <-> (l, k) ∈ cs.
Proof.
  unfold outs_at. rewrite list_elem_of_fmap. split.
  - intros ([a b] & -> & [E H]%list_elem_of_filter). cbn in *. by subst.
  - intros H. exists (l, k). split; [done|]. by apply list_elem_of_filter.
Qed.
Lemma elem_of_ins_at l k cs : k ∈ ins_at l cs <-> (k, l) ∈ cs.
Proof.
  unfold ins_at. rewrite list_elem_of_fmap. split.
  - intros ([a b] & -> & [E H]%list_elem_of_filter). cbn in *. by subst.
  - intros H. exists (k, l). split; [done|]. by apply list_elem_of_filter.
Qed.
Lemma NoDup_outs_at l cs : NoDup cs -> NoDup (outs_at l cs).
Proof.
  intros N. apply NoDup_fmap_2_strong; [|by apply list.NoDup_filter].
  intros [a b] [c d] [E1 _]%list_elem_of_filter [E2 _]%list_elem_of_filter E. cbn in *. congruence.
Qed.
Lemma NoDup_ins_at l cs : NoDup cs -> NoDup (ins_at l cs).
Proof.
  intros N. apply NoDup_fmap_2_strong; [|by apply list.NoDup_filter].
  intros [a b] [c d] [E1 _]%list_elem_of_filter [E2 _]%list_elem_of_filter E. cbn in *. congruence.
Qed.

(** Tidying the connections turns what the plugs know of each other, each from its own side and possibly twice, into one graph: the
    connections that are returned are, once each, those that either end had entered; afterwards every plug lists exactly its
    neighbours in this graph, in both directions, and nothing else of any plug has changed. *)
Lemma connections_tidied w : graph_ok w -> exists cs w', tidyPlugConnections w = Some (cs, w') /\ NoDup cs
  /\ (forall c, c ∈ cs <-> edge_of (pw_plugs w) (pw_heap w) c)
  /\ (forall l, l ∈ pw_plugs w -> exists p p', pw_heap w !! l = Some p /\ pw_heap w' !! l = Some p' /\ cleared p' = cleared p
        /\ NoDup (pg_outputConnections p') /\ NoDup (pg_inputConnections p')
        /\ (forall k, k ∈ pg_outputConnections p' <-> (l, k) ∈ cs) /\ (forall k, k ∈ pg_inputConnections p' <-> (k, l) ∈ cs))
  /\ (forall l, l ∉ pw_plugs w -> pw_heap w' !! l = pw_heap w !! l) /\ pw_plugs w' = pw_plugs w.
Proof.
  intros G. pose proof G as (Nv & Gv).
  destruct (tidy_plugs_ok (pw_plugs w) [] w Nv) as (cs & h1 & E1 & N & I & H1); [intros l Hl; destruct (Gv l Hl) as (p & -> & _); eauto|constructor|].
  assert (forall c, c ∈ cs <-> edge_of (pw_plugs w) (pw_heap w) c) as I' by (intros c; rewrite I, elem_of_nil; tauto).
  destruct (enter_connections_ok cs (with_heap h1 w)) as (h2 & E2 & H2).
  { intros c [Hc1 Hc2]%I'%edge_of_in; [|done]. cbn [with_heap pw_heap]. rewrite !H1, !decide_True, !fmap_is_Some by done.
    split; [destruct (Gv _ Hc1) as (? & -> & _)|destruct (Gv _ Hc2) as (? & -> & _)]; eauto. }
  exists cs, (with_heap h2 w). cbn [with_heap pw_heap pw_plugs] in *. split_and!; [|done|done| | |done].
  - unfold tidyPlugConnections. run_step. run_step with E1. run_step with E2. done.
  - intros l Hl. destruct (Gv l Hl) as (p & Hp & _). exists p, (connected cs l (cleared p)). rewrite H2, H1, decide_True, Hp by done.
    cbn [connected cleared set_inputs set_outputs pg_outputConnections pg_inputConnections app].
    split_and!; [done..|by apply NoDup_outs_at|by apply NoDup_ins_at|intros k; apply elem_of_outs_at|intros k; apply elem_of_ins_at].
  - intros l Hl. rewrite H2, H1, decide_False by done. destruct (pw_heap w !! l) as [p|]; [|done]. cbn. f_equal.
    assert (outs_at l cs = [] /\ ins_at l cs = []) as [Eo Ei].
    { split; apply elem_of_nil_inv; intros k; [rewrite elem_of_outs_at|rewrite elem_of_ins_at]; intros [? ?]%I'%edge_of_in; done. }
    unfold connected. rewrite Eo, Ei, !app_nil_r. by destruct p.
Qed.
