(* ===== verification/XmlCache.v ===== *)
(** * The cache of discovered devices

    Model of [src/libutil/serialize_expat.cpp] and of the document tree of [serialize_expat_xml.cpp]: objects are written member by member under path
    names and read back from a tree of named nodes with text.

    The interfaces [IOSerialize] and [IODeserialize] are the classes [IOSer] and [IODeser]; what the objects that use them may rely on is
    the class [CacheSpec], and the document is an instance.  A string is the list of its characters.  The attributes of a node are not used by the cache and are left out. *)
From stdpp Require Import strings.
From S2P Require Import Prelude.
#[local] Open Scope Z_scope.

Definition chars (s : string) : list Z := (fun a => Z.of_N (Ascii.N_of_ascii a)) <$> String.list_ascii_of_string s.
Definition slash : Z := 47.

(** ** Numbers *)

(** [operator<<] of a stream and [asprintf] with [PRId64]; [fuel] digits are enough for the width. *)
Fixpoint digits (fuel : nat) (n : Z) (acc : list Z) : list Z :=
  match fuel with
  | O => acc
  | S fuel => let acc := (48 + n mod 10) :: acc in if n <? 10 then acc else digits fuel (n / 10) acc
  end.
Definition print_int (n : Z) : list Z := if n <? 0 then 45 :: digits 20 (- n) [] else digits 20 n [].

Definition isdigit (c : Z) : bool := (48 <=? c) && (c <=? 57).
Fixpoint scan_digits (l : list Z) (n : Z) : Z :=
  match l with
  | c :: l => if isdigit c then scan_digits l (10 * n + (c - 48)) else n
  | [] => n
  end.
(** [strtoll( s, &tail, 0 )] on decimal numbers without leading zeros, which is what is written. *)
Definition strtoll (l : list Z) : Z :=
  match l with
  | 45 :: l => - scan_digits l 0
  | l => scan_digits l 0
  end.

Lemma scan_digits_app l r n : Forall (fun c => isdigit c = true) l -> scan_digits (l ++ r) n = scan_digits r (scan_digits l n).
Proof. intros F. revert n. induction F as [|c l Hc F IH]; intros n; [done|]. cbn [app scan_digits]. by rewrite Hc. Qed.

Lemma isdigit_mod n : isdigit (48 + n mod 10) = true.
Proof. unfold isdigit. pose proof (Z.mod_pos_bound n 10). apply andb_true_intro. split; apply Z.leb_le; lia. Qed.

Lemma digits_scan fuel : forall n acc, 0 <= n < 10 ^ Z.of_nat fuel -> (0 < fuel)%nat -> exists d, digits fuel n acc = d ++ acc
  /\ Forall (fun c => isdigit c = true) d /\ d <> [] /\ scan_digits d 0 = n.
Proof.
  induction fuel as [|fuel IH]; intros n acc Hn Hf; [lia|]. cbn [digits]. destruct (Z.ltb_spec n 10).
  - exists [48 + n mod 10]. split_and!; [done|by repeat constructor; apply isdigit_mod|done|]. cbn [scan_digits]. rewrite isdigit_mod. cbn [scan_digits].
    rewrite Z.mod_small by lia. lia.
  - destruct fuel as [|fuel]; [cbn in Hn; lia|].
    destruct (IH (n / 10) (48 + n mod 10 :: acc)) as (d & E & F & Nd & S); [|lia|].
    { rewrite Nat2Z.inj_succ, Z.pow_succ_r in Hn by lia. split; [apply Z.div_pos; lia|]. apply Z.div_lt_upper_bound; lia. }
    exists (d ++ [48 + n mod 10]). rewrite E, <- app_assoc. split_and!; [done|by apply Forall_app; split; [|repeat constructor; apply isdigit_mod]|by destruct d|].
    rewrite scan_digits_app, S by done. cbn [scan_digits]. rewrite isdigit_mod. cbn [scan_digits]. zlia.
Qed.

(** What is printed is read. *)
Lemma strtoll_print n : - 10 ^ 20 < n < 10 ^ 20 -> strtoll (print_int n) = n.
Proof.
  intros Hn. unfold print_int. destruct (Z.ltb_spec n 0).
  - destruct (digits_scan 20 (- n) []) as (d & -> & _ & _ & S); [lia..|]. rewrite app_nil_r. cbn [strtoll]. lia.
  - destruct (digits_scan 20 n []) as (d & -> & F & Nd & S); [lia..|]. rewrite app_nil_r. destruct d as [|c d]; [done|].
    inversion F as [|? ? Hc _]; subst. assert (c <> 45) by (unfold isdigit in Hc; apply andb_true_iff in Hc as [Hc _]; apply Z.leb_le in Hc; lia).
    unfold strtoll. repeat case_match; simplify_eq; done.
Qed.

Lemma print_int_inj a b : 0 <= a < 10 ^ 20 -> 0 <= b < 10 ^ 20 -> print_int a = print_int b -> a = b.
Proof. intros Ha Hb E. rewrite <- (strtoll_print a), <- (strtoll_print b) by lia. by rewrite E. Qed.

Lemma print_int_chars n : 0 <= n < 10 ^ 20 -> Forall (fun c => isdigit c = true) (print_int n) /\ print_int n <> [].
Proof.
  intros Hn. unfold print_int. rewrite (proj2 (Z.ltb_ge n 0)) by lia.
  destruct (digits_scan 20 n []) as (d & -> & F & Nd & _); [lia..|]. by rewrite app_nil_r.
Qed.

(** ** Paths *)

Abbreviation token := (list Z).

(** The parts between slashes. *)
Fixpoint split_slash (cur : token) (l : list Z) : list token :=
  match l with
  | [] => [cur]
  | c :: l => if c =? slash then cur :: split_slash [] l else split_slash (cur ++ [c]) l
  end.

(** [tokenize]: runs of delimiters count as one, at the ends as none. *)
Definition tokenize (path : list Z) : list token := filter (fun t => t <> []) (split_slash [] path).

(** ** The document *)

Inductive Node := mkNode (name : token) (cdata : list Z) (children : list Node).
Definition node_name (n : Node) : token := let 'mkNode t _ _ := n in t.
Definition node_cdata (n : Node) : list Z := let 'mkNode _ c _ := n in c.
Definition node_children (n : Node) : list Node := let 'mkNode _ _ l := n in l.

Definition Node_add (child : Node) (n : Node) : Node := mkNode (node_name n) (node_cdata n) (node_children n ++ [child]).

(** [operator[]] *)
Definition Node_get (key : token) (n : Node) : list Node :=
  if decide (key = []) then [] else filter (fun c => node_name c = key) (node_children n).

Fixpoint find_tokens (tokens : list token) (n : Node) : list Node :=
  match tokens with
  | [] => []
  | [t] => Node_get t n
  | t :: tokens => Node_get t n ≫= find_tokens tokens
  end.
Definition Node_find (path : list Z) (n : Node) : list Node := find_tokens (split_slash [] path) n.

(** The first child of this name is replaced. *)
Fixpoint on_first (t : token) (f : Node -> Node) (l : list Node) : option (list Node) :=
  match l with
  | [] => None
  | c :: l => if decide (node_name c = t) then Some (f c :: l) else (cons c) <$> on_first t f l
  end.

(** New nodes on the way to a leaf. *)
Fixpoint chain (tokens : list token) (leaf : Node) : Node :=
  match tokens with
  | [] => leaf
  | t :: tokens => mkNode t [] [chain tokens leaf]
  end.

(** [getNodePath] for the tokens before the last one, and the addition of a leaf to the node it returns. *)
Fixpoint add_at (tokens : list token) (leaf : Node) (n : Node) : Node :=
  match tokens with
  | [] => Node_add leaf n
  | t :: tokens =>
      match on_first t (add_at tokens leaf) (node_children n) with
      | Some l => mkNode (node_name n) (node_cdata n) l
      | None => Node_add (chain (t :: tokens) leaf) n
      end
  end.

Definition write_leaf (path text : list Z) (root : option Node) : bool * option Node :=
  let tokens := tokenize path in
  match list.last tokens, root with
  | Some name, Some r => (true, Some (add_at (removelast tokens) (mkNode name text []) r))
  | _, _ => (false, root)
  end.

Definition CACHE_VERSION_path : list Z := chars "CacheVersion".
(** [create_root_node] and [writeVersion]; the version is a string that the build makes. *)
Definition XMLSerialize_new (version : list Z) : option Node :=
  Some (mkNode (chars "ffado_cache") [] [mkNode CACHE_VERSION_path version []]).

Definition XMLSerialize_write_int (path : list Z) (value : Z) : st (option Node) bool := write_leaf path (print_int value).
Definition XMLSerialize_write_str (path str : list Z) : st (option Node) bool := write_leaf path str.

(** Without a document the code follows a null pointer to print the name of the root. *)
Definition XMLDeserialize_read_int (path : list Z) (old : Z) (root : option Node) : option (bool * Z) :=
  r ← root;
  Some match Node_find path r with
       | n :: _ => if decide (node_cdata n = []) then (false, old) else (true, strtoll (node_cdata n))
       | [] => (false, old)
       end.
Definition XMLDeserialize_read_str (path old : list Z) (root : option Node) : option (bool * list Z) :=
  r ← root;
  Some match Node_find path r with
       | n :: _ => (true, node_cdata n)
       | [] => (false, old)
       end.
Definition XMLDeserialize_isExisting (path : list Z) (root : option Node) : bool :=
  match root with Some r => bool_decide (Node_find path r <> []) | None => false end.

Definition checkVersion (version : list Z) (root : option Node) : option bool :=
  '(r, saved) ← XMLDeserialize_read_str CACHE_VERSION_path [] root;
  Some ((r : bool) && bool_decide (version = saved)).

(** ** Lemmas on the tree *)

Lemma find_cons t ts n : ts <> [] -> find_tokens (t :: ts) n = Node_get t n ≫= find_tokens ts.
Proof. by destruct ts. Qed.

Lemma find_leaf ts name text : find_tokens ts (mkNode name text []) = [].
Proof.
  assert (forall t, Node_get t (mkNode name text []) = []) as E by (intros t; unfold Node_get; by case_decide).
  destruct ts as [|t [|t' ts]]; [done|apply E|]. by rewrite find_cons, E.
Qed.

Lemma Node_get_eq t n : t <> [] -> Node_get t n = filter (fun c => node_name c = t) (node_children n).
Proof. intros Ht. unfold Node_get. by rewrite decide_False. Qed.

Lemma Node_get_name t m c d l l' : (filter (fun x => node_name x = t) l = filter (fun x => node_name x = t) l') ->
  Node_get t (mkNode m c l) = Node_get t (mkNode m d l').
Proof. intros E. unfold Node_get. cbn [node_children]. by rewrite E. Qed.

(** The children of a name after [on_first]. *)
Lemma on_first_spec t f l : (forall c, node_name (f c) = node_name c) ->
  match on_first t f l with
  | None => filter (fun c => node_name c = t) l = []
  | Some l' => exists c r, filter (fun c => node_name c = t) l = c :: r /\ filter (fun c => node_name c = t) l' = f c :: r
  end /\ forall u l', u <> t -> on_first t f l = Some l' -> filter (fun c => node_name c = u) l' = filter (fun c => node_name c = u) l.
Proof.
  intros Hf. induction l as [|c l [IH1 IH2]]; [done|]. cbn [on_first]. destruct (decide (node_name c = t)) as [E|E].
  - split.
    + exists c, (filter (fun c => node_name c = t) l). rewrite !filter_cons, Hf, !decide_True by done. done.
    + intros u l' Hu [= <-]. rewrite !filter_cons, Hf, !(decide_False (P := node_name c = u)) by congruence. done.
  - split.
    + destruct (on_first t f l) as [l'|]; cbn [fmap option_fmap option_map].
      * destruct IH1 as (c' & r & E1 & E2). exists c', r. rewrite !filter_cons, !(decide_False (P := node_name c = t)) by done. done.
      * by rewrite filter_cons, decide_False.
    + intros u l' Hu. destruct (on_first t f l) as [l1|]; cbn [fmap option_fmap option_map]; [|done]. intros [= <-]. rewrite !filter_cons, (IH2 u l1) by done. done.
Qed.

Lemma add_at_name ts leaf n : node_name (add_at ts leaf n) = node_name n.
Proof. destruct ts; cbn [add_at]; [done|]. by case_match. Qed.

Lemma find_chain u us ts name text : u <> [] -> ~ (u :: us) `prefix_of` (ts ++ [name]) -> forall l, (forall c, c ∈ l -> node_name c <> u) ->
  forall m cd, find_tokens (u :: us) (mkNode m cd (l ++ [chain ts (mkNode name text [])])) = [].
Proof.
  intros Hu. revert u us Hu. induction ts as [|t ts IH]; intros u us Hu Np l Hl m cd.
  - assert (Node_get u (mkNode m cd (l ++ [mkNode name text []])) = if decide (name = u) then [mkNode name text []] else []) as Eg.
    { rewrite Node_get_eq by done. cbn [node_children]. rewrite list.filter_app, (filter_none _ l) by done. cbn [app]. rewrite filter_cons. cbn [node_name]. by case_decide. }
    cbn [chain]. destruct us as [|v us]; [change (find_tokens [u]) with (Node_get u)|rewrite find_cons by done]; rewrite Eg; case_decide as D; try done.
    + subst. by destruct Np.
    + cbn [mbind list_bind]. by rewrite app_nil_r, find_leaf.
  - assert (Node_get u (mkNode m cd (l ++ [chain (t :: ts) (mkNode name text [])])) = if decide (t = u) then [chain (t :: ts) (mkNode name text [])] else []) as Eg.
    { rewrite Node_get_eq by done. cbn [node_children]. rewrite list.filter_app, (filter_none _ l) by done. cbn [app]. rewrite filter_cons. cbn [node_name chain]. by case_decide. }
    destruct us as [|v us]; [change (find_tokens [u]) with (Node_get u)|rewrite find_cons by done]; rewrite Eg; case_decide as D; try done.
    + subst. destruct Np. exists (ts ++ [name]). done.
    + subst t. cbn [mbind list_bind]. rewrite app_nil_r. cbn [chain]. destruct (decide (v = [])) as [->|Hv].
      * destruct us; cbn [find_tokens]; unfold Node_get; by rewrite decide_True.
      * apply (IH v us Hv) with (l := []); [|by intros c Hc%not_elem_of_nil].
        intros [k Hk]. apply Np. exists k. cbn [app] in *. by rewrite Hk.
Qed.

(** The leaf at the end of a chain of new nodes. *)
Lemma find_in_chain ts name text : Forall (fun t => t <> []) (ts ++ [name]) -> forall t cd,
  find_tokens (ts ++ [name]) (mkNode t cd [chain ts (mkNode name text [])]) = [mkNode name text []].
Proof.
  induction ts as [|t' ts IH]; intros F t cd; cbn [app chain].
  - change (find_tokens [name]) with (Node_get name). apply Forall_cons_iff in F as [Hn _]. rewrite Node_get_eq by done. cbn [node_children].
    by rewrite filter_cons, decide_True.
  - apply Forall_cons_iff in F as [Ht F]. rewrite find_cons, Node_get_eq by (done || by destruct ts). cbn [node_children].
    rewrite filter_cons, decide_True by done. cbn [mbind list_bind]. rewrite app_nil_r. by apply IH.
Qed.

(** A child of another name. *)
Lemma Node_get_add_ne u c n : node_name c <> u -> Node_get u (Node_add c n) = Node_get u n.
Proof.
  intros Hu. unfold Node_get, Node_add. cbn [node_children]. case_decide; [done|]. rewrite list.filter_app, filter_cons, (decide_False (P := node_name c = u)) by done. apply app_nil_r.
Qed.

Lemma find_get u us n n' : Node_get u n' = Node_get u n -> find_tokens (u :: us) n' = find_tokens (u :: us) n.
Proof. intros E. destruct us as [|v us]; [exact E|]. by rewrite !find_cons, E. Qed.

Lemma find_nil_head us n : find_tokens ([] :: us) n = [].
Proof. destruct us as [|v us]; [done|]. by rewrite find_cons. Qed.

Lemma find_none t us n : filter (fun c => node_name c = t) (node_children n) = [] -> find_tokens (t :: us) n = [].
Proof.
  intros E. assert (Node_get t n = []) as G by (unfold Node_get; by case_decide). destruct us as [|v us]; [exact G|]. by rewrite find_cons, G.
Qed.

(** A leaf that is new is found, and what is not on the way to it does not change. *)
Lemma find_add ts name text : Forall (fun t => t <> []) (ts ++ [name]) -> forall n, find_tokens (ts ++ [name]) n = [] ->
  let n' := add_at ts (mkNode name text []) n in
  find_tokens (ts ++ [name]) n' = [mkNode name text []]
  /\ forall q, ~ q `prefix_of` (ts ++ [name]) -> find_tokens q n' = find_tokens q n.
Proof.
  induction ts as [|t ts IH]; intros F n Hn.
  - cbn [app add_at] in *. apply Forall_cons_iff in F as [Ht _]. change (find_tokens [name]) with (Node_get name) in *. rewrite Node_get_eq in Hn |- * by done.
    unfold Node_add at 1. cbn [node_children]. rewrite list.filter_app, Hn. cbn [app]. rewrite filter_cons, decide_True by done. split; [done|].
    intros [|u us] Nq; [by destruct Nq; exists [name]|]. destruct (decide (name = u)) as [<-|Hu]; [|by apply find_get, Node_get_add_ne].
    destruct us as [|v us]; [by destruct Nq|]. rewrite !find_cons, !Node_get_eq by done. cbn [Node_add node_children]. rewrite list.filter_app, Hn. cbn [app].
    rewrite filter_cons, decide_True by done. cbn [mbind list_bind]. by rewrite app_nil_r, find_leaf.
  - cbn [app] in *. apply Forall_cons_iff in F as [Ht F]. specialize (IH F). assert (ts ++ [name] <> []) as Ne by (by destruct ts).
    rewrite find_cons, Node_get_eq in Hn by done. cbn [add_at].
    destruct (on_first_spec t (add_at ts (mkNode name text [])) (node_children n) (add_at_name ts _)) as [S1 S2].
    destruct (on_first t _ (node_children n)) as [l'|].
    + destruct S1 as (c & r & E1 & E2). rewrite E1 in Hn. cbn [mbind list_bind] in Hn. apply app_eq_nil in Hn as [Hc Hr].
      destruct (IH c Hc) as (I1 & I2). split.
      { rewrite find_cons, Node_get_eq by done. cbn [node_children]. rewrite E2. cbn [mbind list_bind]. rewrite I1. cbn [app]. by f_equal. }
      intros [|u us] Nq; [by destruct Nq; eexists|]. destruct (decide (u = t)) as [->|Hu].
      * destruct us as [|v us]; [by destruct Nq; eexists|]. rewrite !find_cons, !Node_get_eq by done. cbn [node_children]. rewrite E1, E2.
        cbn [mbind list_bind]. rewrite I2; [done|]. intros [k Hk]. apply Nq. exists k. cbn [app]. by rewrite Hk.
      * apply find_get. unfold Node_get. cbn [node_children]. by rewrite (S2 u l').
    + split.
      { rewrite find_cons, Node_get_eq by done. cbn [Node_add node_children]. rewrite list.filter_app, S1, filter_cons. cbn [chain node_name app].
        rewrite decide_True by done. cbn [mbind list_bind]. rewrite app_nil_r. by apply find_in_chain. }
      intros [|u us] Nq; [by destruct Nq; eexists|]. destruct (decide (u = [])) as [->|Hu]; [by rewrite !find_nil_head|].
      destruct (decide (t = u)) as [<-|Hut]; [|by apply find_get, Node_get_add_ne].
      unfold Node_add. rewrite (find_chain t us (t :: ts) name text Ht Nq (node_children n)), (find_none t us n S1); [done|].
      intros c Hc E. assert (c ∈ filter (fun c => node_name c = t) (node_children n)) as Hin by (by apply list_elem_of_filter).
      rewrite S1 in Hin. by apply not_elem_of_nil in Hin.
Qed.

(** ** What a client relies on *)

Class IOSer (S : Type) := {
  io_write_int : list Z -> Z -> st S bool;
  io_write_str : list Z -> list Z -> st S bool;
}.
Class IODeser (D : Type) := {
  io_read_int : list Z -> Z -> D -> option (bool * Z);
  io_read_str : list Z -> list Z -> D -> option (bool * list Z);
  io_isExisting : list Z -> D -> bool;
}.

(** An entry of the cache: the tokens of its path and its text. *)
Abbreviation entry := (list token * list Z)%type.

Definition path_ok (path : list Z) : Prop := Forall (fun t => t <> []) (split_slash [] path).
Definition apart (p q : list token) : Prop := ~ p `prefix_of` q /\ ~ q `prefix_of` p.

(** [cs_holds s E]: the store holds exactly the entries [E]. *)
Class CacheSpec (S : Type) `{IOSer S} `{IODeser S} := {
  cs_holds : S -> list entry -> Prop;
  cs_write_str path text s E : cs_holds s E -> path_ok path -> Forall (fun e => apart (split_slash [] path) e.1) E ->
    exists s', io_write_str path text s = (true, s') /\ cs_holds s' (E ++ [(split_slash [] path, text)]);
  cs_write_int path value s E : cs_holds s E -> path_ok path -> Forall (fun e => apart (split_slash [] path) e.1) E ->
    exists s', io_write_int path value s = (true, s') /\ cs_holds s' (E ++ [(split_slash [] path, print_int value)]);
  cs_read_str path old text s E : cs_holds s E -> (split_slash [] path, text) ∈ E -> io_read_str path old s = Some (true, text);
  cs_read_int path old value s E : cs_holds s E -> (split_slash [] path, print_int value) ∈ E -> - 10 ^ 20 < value < 10 ^ 20 ->
    io_read_int path old s = Some (true, value);
  cs_present path text s E : cs_holds s E -> (split_slash [] path, text) ∈ E -> io_isExisting path s = true;
  cs_absent path s E : cs_holds s E -> path_ok path -> Forall (fun e => ~ split_slash [] path `prefix_of` e.1) E -> io_isExisting path s = false;
}.

#[export] Instance xml_ser : IOSer (option Node) := { io_write_int := XMLSerialize_write_int; io_write_str := XMLSerialize_write_str }.
#[export] Instance xml_deser : IODeser (option Node) := {
  io_read_int := XMLDeserialize_read_int; io_read_str := XMLDeserialize_read_str; io_isExisting := XMLDeserialize_isExisting }.

Definition doc_holds (d : option Node) (E : list entry) : Prop := exists r, d = Some r
  /\ (forall p v, (p, v) ∈ E -> exists n, find_tokens p r = [n] /\ node_cdata n = v)
  /\ forall p, Forall (fun t => t <> []) p -> Forall (fun e => ~ p `prefix_of` e.1) E -> find_tokens p r = [].

Lemma split_slash_ne cur l : split_slash cur l <> [].
Proof. revert cur. induction l as [|c l IH]; intros cur; cbn [split_slash]; [done|]. by case_match. Qed.

Lemma tokenize_ok path : path_ok path -> tokenize path = split_slash [] path.
Proof.
  unfold path_ok, tokenize. intros F. induction F as [|t l Ht F IH]; [done|]. by rewrite filter_cons, decide_True, IH.
Qed.

Lemma doc_write path text d E : doc_holds d E -> path_ok path -> Forall (fun e => apart (split_slash [] path) e.1) E ->
  exists d', write_leaf path text d = (true, d') /\ doc_holds d' (E ++ [(split_slash [] path, text)]).
Proof.
  intros (r & -> & HE & HN) P A. unfold write_leaf. rewrite tokenize_ok by done. pose proof (split_slash_ne [] path) as Ne.
  destruct (exists_last Ne) as (ts & name & Ep). rewrite Ep. rewrite last_snoc, removelast_last. eexists. split; [reflexivity|].
  unfold path_ok in P. rewrite Ep in P, A. destruct (find_add ts name text P r) as (F1 & F2).
  { apply HN; [done|]. eapply Forall_impl; [|exact A]. by intros e [? _]. }
  eexists. split; [reflexivity|]. split.
  - intros p v [Hin|Hin]%elem_of_app.
    + rewrite list.Forall_forall in A. destruct (A _ Hin) as [_ Hp]. cbn in Hp. rewrite F2 by done. by apply HE.
    + apply list_elem_of_singleton in Hin as [= -> ->]. eexists. by rewrite F1.
  - intros p Hp [HA [HB _]%Forall_cons_iff]%Forall_app. rewrite F2 by done. by apply HN.
Qed.

#[export, refine] Instance xml_cache : CacheSpec (option Node) := {
  cs_holds := doc_holds;
  cs_write_str := doc_write;
  cs_write_int path value := doc_write path (print_int value);
}.
Proof.
  - intros path old text s E (r & -> & HE & _) Hin. destruct (HE _ _ Hin) as (n & F & <-). cbn. unfold XMLDeserialize_read_str, Node_find. cbn. by rewrite F.
  - intros path old value s E (r & -> & HE & _) Hin Hv. destruct (HE _ _ Hin) as (n & F & Ec). cbn. unfold XMLDeserialize_read_int, Node_find. cbn. rewrite F, Ec.
    rewrite decide_False; [by rewrite strtoll_print|]. destruct (decide (0 <= value)); [apply print_int_chars; lia|].
    unfold print_int. by rewrite (proj2 (Z.ltb_lt value 0)) by lia.
  - intros path text s E (r & -> & HE & _) Hin. destruct (HE _ _ Hin) as (n & F & _). cbn. unfold Node_find. rewrite F. by rewrite bool_decide_true.
  - intros path s E (r & -> & _ & HN) P A. cbn. unfold Node_find. rewrite HN by done. done.
Defined.
