(* ===== verification/XmlFile.v ===== *)
(** * The cache as a file

    Model of the parts of [src/libutil/serialize_expat_xml.cpp] that write a document to a file and build it again from one: [Node::_raw_xml],
    [Document::load_from_file] and the handlers that expat calls.

    Expat is not part of the sources and is a parameter.  It is used with its documented behaviour: for a document of elements and text without markup
    characters it calls the handlers for start tags, text and end tags in order; that a text without line breaks comes in one call is
    what the code relies on.  The text is a pointer into the buffer, so that a call also shows what follows it. *)
From stdpp Require Import strings.
From S2P Require Import Prelude XmlCache.
#[local] Open Scope Z_scope.

(** [isspace] in the C locale. *)
Definition isspace (c : Z) : bool := (c =? 32) || ((9 <=? c) && (c <=? 13)).

(** ** Writing *)

Definition start_tag (name : token) : list Z := chars "<" ++ name.
Definition end_tag (name : token) : list Z := chars "</" ++ name ++ chars ">".

Fixpoint raw_xml (depth : nat) (n : Node) : list Z :=
  let '(mkNode name cdata children) := n in
  replicate (depth * 2) 32 ++ start_tag name ++
  match cdata, children with
  | [], [] => chars "/>" ++ [10]
  | _, _ =>
      chars ">" ++ cdata ++
      match children with
      | [] => []
      | _ => [10] ++ concat (map (raw_xml (S depth)) children) ++ replicate (depth * 2) 32
      end ++
      end_tag name ++ [10]
  end.
Definition to_xml (n : Node) : list Z := raw_xml 0 n.

(** ** Reading *)

(** [file >> chunk] splits at white space, and the chunks are put together without it. *)
Definition load_chunks (file : list Z) : list Z := filter (fun c => isspace c = false) file.

(** Calls of the handlers; a text comes with the rest of the buffer. *)
Inductive event := Start (name : token) | Chars (text rest : list Z) | End (name : token).

Record Document := mkDocument { doc_root : option Node; doc_depth : nat }.

(** The last child, [n] levels down, is changed; without one [back] is undefined. *)
Fixpoint on_last (n : nat) (f : Node -> Node) (x : Node) : option Node :=
  match n with
  | O => Some (f x)
  | S n =>
      match rev (node_children x) with
      | [] => None
      | c :: r => (fun c => mkNode (node_name x) (node_cdata x) (rev r ++ [c])) <$> on_last n f c
      end
  end.

Definition start_element_handler (name : token) (d : Document) : option Document :=
  match doc_root d with
  | None => Some (mkDocument (Some (mkNode name [] [])) (S (doc_depth d)))
  | Some r => (fun r => mkDocument (Some r) (S (doc_depth d))) <$> on_last (doc_depth d - 1) (Node_add (mkNode name [] [])) r
  end.

(** The position of the last character that is no space, or 0; of the first one, or [y]. *)
Fixpoint trim_end (text : list Z) (y : nat) : nat :=
  match y with
  | O => O
  | S y' => if isspace (nth y text 0) then trim_end text y' else y
  end.
Fixpoint trim_start (fuel : nat) (text : list Z) (x y : nat) : nat :=
  match fuel with
  | O => x
  | S fuel => if isspace (nth x text 0) && (x <? y)%nat then trim_start fuel text (S x) y else x
  end.

(** [std::string( chars, x, y+1 )] converts the whole buffer and takes [y + 1] characters from [x] on. *)
Definition handler_text (text rest : list Z) : list Z :=
  let y := trim_end text (length text - 1) in
  let x := trim_start (length text) text 0 y in
  take (y + 1) (drop x (text ++ rest)).
Definition character_data_handler (text rest : list Z) (d : Document) : option Document :=
  r ← doc_root d;
  (fun r => mkDocument (Some r) (doc_depth d)) <$> on_last (doc_depth d - 1) (fun n => mkNode (node_name n) (handler_text text rest) (node_children n)) r.

Definition end_element_handler (d : Document) : option Document := Some (mkDocument (doc_root d) (doc_depth d - 1)).

Definition handle (e : event) (d : Document) : option Document :=
  match e with
  | Start name => start_element_handler name d
  | Chars text rest => character_data_handler text rest d
  | End _ => end_element_handler d
  end.
Fixpoint handle_all (l : list event) (d : Document) : option Document :=
  match l with
  | [] => Some d
  | e :: l => d ← handle e d; handle_all l d
  end.

Section expat.
(** The calls that [XML_Parse] makes; after an error there are no more of them, and the exception is caught. *)
Context (expat : list Z -> list event).

Definition from_xml (xml : list Z) : option (option Node) := doc_root <$> handle_all (expat xml) (mkDocument None 0).
Definition load_from_file (file : list Z) : option (option Node) := from_xml (load_chunks file).
End expat.

(** ** Elements and their events *)

(** The text of an element without white space. *)
Inductive image : Node -> list Z -> Prop :=
  | image_empty name : image (mkNode name [] []) (start_tag name ++ chars "/>")
  | image_full name cdata children ls : images children ls -> image (mkNode name cdata children) (start_tag name ++ chars ">" ++ cdata ++ ls ++ end_tag name)
with images : list Node -> list Z -> Prop :=
  | images_nil : images [] []
  | images_cons n ns l ls : image n l -> images ns ls -> images (n :: ns) (l ++ ls).

Inductive is_events : Node -> list event -> Prop :=
  | events_node name children ls : are_events children ls -> is_events (mkNode name [] children) (Start name :: ls ++ [End name])
  | events_text name cdata rest children ls : cdata <> [] -> are_events children ls ->
      is_events (mkNode name cdata children) (Start name :: Chars cdata rest :: ls ++ [End name])
with are_events : list Node -> list event -> Prop :=
  | events_nil : are_events [] []
  | events_cons n ns l ls : is_events n l -> are_events ns ls -> are_events (n :: ns) (l ++ ls).

(** No white space and no markup. *)
Definition markup (c : Z) : bool := (c =? 60) || (c =? 62) || (c =? 38) || (c =? 47).
Definition plain_text (l : list Z) : Prop := Forall (fun c => isspace c = false /\ markup c = false) l.
Fixpoint plain_node (n : Node) : Prop :=
  let '(mkNode name cdata children) := n in name <> [] /\ plain_text name /\ plain_text cdata /\ fold_right (fun c P => plain_node c /\ P) True children.

(** What is used of expat: the handlers are called in document order for a text that is the image of a plain document. *)
Definition expat_ok (expat : list Z -> list event) : Prop := forall n l, plain_node n -> image n l -> is_events n (expat l).

Section Node_ind.
Context (P : Node -> Prop) (HN : forall name cdata l, Forall P l -> P (mkNode name cdata l)).
Fixpoint Node_induction (n : Node) : P n :=
  match n with
  | mkNode name cdata l => HN name cdata l ((fix go (l : list Node) : Forall P l :=
      match l with [] => Forall_nil_2 _ | c :: l => Forall_cons_2 _ c l (Node_induction c) (go l) end) l)
  end.
End Node_ind.

Lemma plain_children l : fold_right (fun c P => plain_node c /\ P) True l <-> Forall plain_node l.
Proof. induction l as [|n l IH]; cbn; [by split|]. rewrite Forall_cons_iff, IH. tauto. Qed.

(** ** White space is lost on the way *)

Definition strip_text (l : list Z) : list Z := filter (fun c => isspace c = false) l.
Fixpoint strip (n : Node) : Node := let '(mkNode name cdata children) := n in mkNode name (strip_text cdata) (map strip children).

Lemma load_chunks_app a b : load_chunks (a ++ b) = load_chunks a ++ load_chunks b.
Proof. apply list.filter_app. Qed.
Lemma load_spaces n : load_chunks (replicate n 32) = [].
Proof. by induction n. Qed.
Lemma load_line l : load_chunks (10 :: l) = load_chunks l.
Proof. done. Qed.
Lemma load_plain l : plain_text l -> load_chunks l = l.
Proof. intros F. induction F as [|c l [Hc _] F IH]; [done|]. unfold load_chunks in *. rewrite filter_cons, decide_True by done. by rewrite IH. Qed.

(** Names without white space and markup, texts without markup. *)
Fixpoint names_ok (n : Node) : Prop :=
  let '(mkNode name cdata children) := n in
  name <> [] /\ plain_text name /\ Forall (fun c => markup c = false) cdata /\ fold_right (fun c P => names_ok c /\ P) True children.
Lemma names_children l : fold_right (fun c P => names_ok c /\ P) True l <-> Forall names_ok l.
Proof. induction l as [|n l IH]; cbn; [by split|]. rewrite Forall_cons_iff, IH. tauto. Qed.

Lemma strip_plain_text l : Forall (fun c => markup c = false) l -> plain_text (strip_text l).
Proof.
  intros F. induction F as [|c l Hc F IH]; [constructor|]. unfold strip_text in *. rewrite filter_cons. case_decide; [|done]. by constructor.
Qed.
Lemma strip_plain n : names_ok n -> plain_node (strip n).
Proof.
  induction n as [name cdata l IH] using Node_induction. intros (Hne & Hn & Hc & Hl). apply names_children in Hl. cbn. split_and!; [done..|by apply strip_plain_text|].
  apply plain_children. induction IH as [|n l Hi IH IHl]; [constructor|]. apply Forall_cons_iff in Hl as [Hx Hxs]. constructor; auto.
Qed.

Lemma load_start name : plain_text name -> load_chunks (start_tag name) = start_tag name.
Proof. intros H. unfold start_tag. by rewrite load_chunks_app, (load_plain name). Qed.
Lemma load_end name : plain_text name -> load_chunks (end_tag name) = end_tag name.
Proof. intros H. unfold end_tag. by rewrite !load_chunks_app, (load_plain name). Qed.

(** What [file >> chunk] leaves of a written document is the image of the stripped one. *)
Lemma load_raw_xml n : forall d, names_ok n -> image (strip n) (load_chunks (raw_xml d n)).
Proof.
  induction n as [name cdata l IH] using Node_induction. intros d (_ & Hn & _ & Hl). apply names_children in Hl.
  assert (forall d, images (map strip l) (load_chunks (concat (map (raw_xml d) l)))) as IHl.
  { clear -IH Hl. intros d. induction IH as [|n l Hn IH IHl]; [constructor|]. apply Forall_cons_iff in Hl as [Hx Hxs]. cbn [map concat]. rewrite load_chunks_app.
    constructor; auto. }
  assert (image (strip (mkNode name cdata l)) (start_tag name ++ chars ">" ++ load_chunks cdata ++ load_chunks (concat (map (raw_xml (S d)) l)) ++ end_tag name)) as Hf.
  { apply image_full. apply IHl. }
  cbn [raw_xml]. rewrite load_chunks_app, load_spaces, load_chunks_app, (load_start name Hn). cbn [app].
  destruct cdata as [|c cdata], l as [|x l].
  - apply image_empty.
  - rewrite !load_chunks_app, !load_line, !load_chunks_app, load_spaces, (load_end name Hn), !app_nil_r. exact Hf.
  - rewrite !load_chunks_app, !load_line, (load_end name Hn), app_nil_r. exact Hf.
  - rewrite !load_chunks_app, !load_line, !load_chunks_app, load_spaces, (load_end name Hn), !app_nil_r. exact Hf.
Qed.

(** ** Rebuilding a document *)

(** A node inside its ancestors, the innermost first; each has the children before the node. *)
Fixpoint fill (cs : list (token * list Z * list Node)) (x : Node) : Node :=
  match cs with
  | [] => x
  | (name, cdata, before) :: cs => fill cs (mkNode name cdata (before ++ [x]))
  end.

Lemma fill_snoc cs name cdata before x : fill (cs ++ [(name, cdata, before)]) x = mkNode name cdata (before ++ [fill cs x]).
Proof. revert x. induction cs as [|[[? ?] ?] cs IH]; intros x; [done|]. apply IH. Qed.
Lemma on_last_fill cs f x : on_last (length cs) f (fill cs x) = Some (fill cs (f x)).
Proof.
  induction cs as [|[[name cdata] before] cs IH] using rev_ind; [done|]. rewrite length_app, Nat.add_comm, !fill_snoc.
  cbn [on_last node_children length Nat.add]. rewrite rev_app_distr. cbn [rev app]. by rewrite IH, rev_involutive.
Qed.

(** The document while the innermost of [cs] is open. *)
Definition inside (cs : list (token * list Z * list Node)) (x : Node) : Document := mkDocument (Some (fill cs x)) (S (length cs)).

Lemma inside_start cs name pn pc before :
  start_element_handler name (inside cs (mkNode pn pc before)) = Some (inside ((pn, pc, before) :: cs) (mkNode name [] [])).
Proof. unfold start_element_handler, inside. cbn [doc_root doc_depth]. rewrite Nat.sub_1_r. cbn [Nat.pred]. by rewrite on_last_fill. Qed.

Lemma isspace_nth l i : plain_text l -> isspace (nth i l 0) = false.
Proof.
  intros F. destruct (nth_in_or_default i l 0) as [H| ->]; [|done]. unfold plain_text in F. rewrite List.Forall_forall in F. by apply F.
Qed.
Lemma handler_plain text rest : text <> [] -> plain_text text -> handler_text text rest = text.
Proof.
  intros Hne Hp. unfold handler_text. assert (trim_end text (length text - 1) = (length text - 1)%nat) as ->.
  { destruct (length text - 1)%nat; [done|]. cbn. by rewrite isspace_nth. }
  assert (forall k y, trim_start k text 0 y = O) as ->.
  { intros [|k] y; [done|]. cbn [trim_start]. by rewrite isspace_nth. }
  rewrite drop_0, Nat.sub_add by (destruct text; cbn; [done|lia]). apply take_app_length.
Qed.
Lemma inside_chars cs text rest name : text <> [] -> plain_text text ->
  character_data_handler text rest (inside cs (mkNode name [] [])) = Some (inside cs (mkNode name text [])).
Proof.
  intros Hne Hp. unfold character_data_handler, inside. cbn [doc_root doc_depth mbind option_bind]. rewrite Nat.sub_1_r. cbn [Nat.pred]. rewrite on_last_fill.
  cbn. by rewrite handler_plain.
Qed.

Definition rebuilds (n : Node) : Prop := forall ev rest cs pn pc before, is_events n ev -> plain_node n ->
  handle_all (ev ++ rest) (inside cs (mkNode pn pc before)) = handle_all rest (inside cs (mkNode pn pc (before ++ [n]))).

Lemma rebuild_children l : Forall rebuilds l -> forall ev rest cs pn pc before, are_events l ev -> Forall plain_node l ->
  handle_all (ev ++ rest) (inside cs (mkNode pn pc before)) = handle_all rest (inside cs (mkNode pn pc (before ++ l))).
Proof.
  induction 1 as [|n l Hn _ IH]; intros ev rest cs pn pc before Hev Hl; inversion Hev; subst; [by rewrite app_nil_r|].
  apply Forall_cons_iff in Hl as [Hx Hxs]. rewrite <- app_assoc, Hn, IH, <- app_assoc by done. done.
Qed.

(** The events inside the element, from its start on. *)
Lemma rebuild_inside name cdata l ev rest d cs : Forall rebuilds l -> is_events (mkNode name cdata l) ev -> plain_node (mkNode name cdata l) ->
  start_element_handler name d = Some (inside cs (mkNode name [] [])) ->
  handle_all (ev ++ rest) d = handle_all rest (mkDocument (Some (fill cs (mkNode name cdata l))) (length cs)).
Proof.
  intros IH Hev (_ & _ & Hc & Hl) Hs. apply plain_children in Hl. inversion Hev; subst; cbn [app handle_all handle]; rewrite Hs; cbn [mbind option_bind].
  - rewrite <- app_assoc. rewrite (rebuild_children l) by done. cbn. by rewrite Nat.sub_0_r.
  - cbn [handle_all handle]. rewrite inside_chars by done. cbn [mbind option_bind]. rewrite <- app_assoc. rewrite (rebuild_children l) by done. cbn. by rewrite Nat.sub_0_r.
Qed.
Lemma rebuild_node n : rebuilds n.
Proof.
  induction n as [name cdata l IH] using Node_induction. intros ev rest cs pn pc before Hev Hp.
  by rewrite (rebuild_inside _ _ _ _ _ _ _ IH Hev Hp (inside_start _ _ _ _ _)).
Qed.
Lemma rebuild_root n ev : is_events n ev -> plain_node n -> handle_all ev (mkDocument None 0) = Some (mkDocument (Some n) 0).
Proof.
  destruct n as [name cdata l]. intros Hev Hp. rewrite <- (app_nil_r ev).
  by rewrite (rebuild_inside name cdata l ev [] (mkDocument None 0) []) by (done || apply list.Forall_true, rebuild_node).
Qed.


(** ** A parser of plain documents *)

Inductive scan_state := InText (acc : list Z) | Tag | InOpen (acc : list Z) | InClose (acc : list Z) | Skip.
Definition flush (acc rest : list Z) : list event := match acc with [] => [] | _ => [Chars acc rest] end.
Fixpoint scan (st : scan_state) (l : list Z) : list event :=
  match l with
  | [] => []
  | c :: l' =>
      match st with
      | InText acc => if c =? 60 then flush acc l ++ scan Tag l' else scan (InText (acc ++ [c])) l'
      | Tag => if c =? 47 then scan (InClose []) l' else scan (InOpen [c]) l'
      | InOpen acc => if c =? 62 then Start acc :: scan (InText []) l' else if c =? 47 then Start acc :: End acc :: scan Skip l' else scan (InOpen (acc ++ [c])) l'
      | InClose acc => if c =? 62 then End acc :: scan (InText []) l' else scan (InClose (acc ++ [c])) l'
      | Skip => scan (InText []) l'
      end
  end.
Definition plain_parser (xml : list Z) : list event := scan (InText []) xml.

Lemma not_markup c : markup c = false -> (c =? 60) = false /\ (c =? 62) = false /\ (c =? 47) = false.
Proof. unfold markup. rewrite !orb_false_iff. tauto. Qed.
Lemma scan_plain t : plain_text t -> forall acc rest, scan (InText acc) (t ++ rest) = scan (InText (acc ++ t)) rest
  /\ scan (InOpen acc) (t ++ rest) = scan (InOpen (acc ++ t)) rest /\ scan (InClose acc) (t ++ rest) = scan (InClose (acc ++ t)) rest.
Proof.
  induction 1 as [|c t [_ Hc] _ IH]; intros acc rest; [by rewrite app_nil_r|]. apply not_markup in Hc as (E1 & E2 & E3).
  destruct (IH (acc ++ [c]) rest) as (I1 & I2 & I3). cbn [app scan]. rewrite E1, E2, E3, I1, I2, I3, <- !app_assoc. done.
Qed.
Lemma scan_open name rest : name <> [] -> plain_text name -> scan (InText []) (start_tag name ++ rest) = scan (InOpen name) rest.
Proof.
  intros Hne Hp. destruct name as [|c name]; [done|]. apply Forall_cons_iff in Hp as [[_ Hc] Hp]. apply not_markup in Hc as (_ & _ & E).
  cbn. rewrite E. by destruct (scan_plain name Hp [c] rest) as (_ & -> & _).
Qed.
Lemma scan_close name acc rest : plain_text name -> scan (InText acc) (end_tag name ++ rest) = flush acc (end_tag name ++ rest) ++ End name :: scan (InText []) rest.
Proof.
  intros Hp. unfold end_tag. rewrite <- !app_assoc. destruct (scan_plain name Hp [] (chars ">" ++ rest)) as (_ & _ & E).
  change (scan (InText acc) (chars "</" ++ name ++ chars ">" ++ rest))
    with (flush acc (chars "</" ++ name ++ chars ">" ++ rest) ++ scan (InClose []) (name ++ chars ">" ++ rest)). by rewrite E.
Qed.
Lemma image_starts n l : image n l -> exists t, l = 60 :: t.
Proof. destruct 1; cbn; eauto. Qed.

Lemma scan_image n : forall l rest, plain_node n -> image n l -> exists ev, is_events n ev /\ scan (InText []) (l ++ rest) = ev ++ scan (InText []) rest.
Proof.
  induction n as [name cdata l IH] using Node_induction. intros txt rest (Hne & Hn & Hc & Hl) Hi. apply plain_children in Hl. inversion Hi; subst.
  - exists [Start name; End name]. split; [apply (events_node name [] []); constructor|]. rewrite <- app_assoc, scan_open by done. done.
  - rename H3 into Him. assert (forall acc rest, exists ev r, are_events l ev /\ scan (InText acc) (ls ++ end_tag name ++ rest) = flush acc r ++ ev ++ End name :: scan (InText []) rest) as Hs.
    { clear -IH Hl Him Hn. induction Him as [|n l t ls Hi Him IHm]; intros acc rest.
      - exists [], (end_tag name ++ rest). split; [constructor|]. by apply scan_close.
      - apply Forall_cons_iff in Hl as [Hx Hxs], IH as [IHn IH]. destruct (image_starts _ _ Hi) as (t' & Ht).
        destruct (IHm IH Hxs [] rest) as (ev & r & He & E). destruct (IHn t (ls ++ end_tag name ++ rest) Hx Hi) as (e1 & H1 & E1).
        exists (e1 ++ ev), (t ++ ls ++ end_tag name ++ rest). split; [by constructor|]. cbn [flush app] in E. rewrite <- !app_assoc, <- E, <- E1, Ht. done. }
    destruct (Hs cdata rest) as (ev & r & He & E). rewrite <- !app_assoc, scan_open by done. cbn [app chars scan]. destruct (scan_plain cdata Hc [] (ls ++ end_tag name ++ rest)) as (E1 & _).
    exists (Start name :: flush cdata r ++ ev ++ [End name]). split; [destruct cdata; cbn; by constructor|].
    change (Start name :: scan (InText []) (cdata ++ ls ++ end_tag name ++ rest) = (Start name :: flush cdata r ++ ev ++ [End name]) ++ scan (InText []) rest).
    rewrite E1. cbn [app]. rewrite E, <- !app_assoc. done.
Qed.
Lemma plain_parser_ok : expat_ok plain_parser.
Proof.
  intros n l Hp Hi. destruct (scan_image n l [] Hp Hi) as (ev & He & E). unfold plain_parser. rewrite app_nil_r in E. rewrite E. cbn. by rewrite app_nil_r.
Qed.

(** A device with a name of two words. *)
Definition example_document : Node := mkNode (chars "ffado_cache") []
  [mkNode (chars "vendor") (chars "Echo Audio") []; mkNode (chars "subunits") [] [mkNode (chars "id0") (chars "12") []]; mkNode (chars "empty") [] []].
