(* ===== verification/CacheTree.v ===== *)
(** * Trees of entries in the cache

    A description of what an object writes: its members are leaves, its vectors are numbered directories.  The lemmas here reduce the
    correctness of a pair of functions that write and read an object to the tree that the object stands for.  All of it rests on
    [CacheSpec] only, so that it holds of every document that keeps what is written to it. *)
From Stdlib Require Import Ascii.
From stdpp Require Import strings.
From S2P Require Import Prelude XmlCache.
#[local] Open Scope Z_scope.

(** ** Trees *)

Inductive ctree := Leaf (text : list Z) | Dir (l : list (token * ctree)).

Fixpoint flat (T : list token) (t : ctree) : list entry :=
  match t with
  | Leaf text => [(T, text)]
  | Dir l => concat (map (fun '(n, t) => flat (T ++ [n]) t) l)
  end.
(** The entries of the children of the directory [T]. *)
Definition entries (T : list token) (l : list (token * ctree)) : list entry := flat T (Dir l).

Fixpoint wf (t : ctree) : Prop :=
  match t with
  | Leaf _ => True
  | Dir l => NoDup (map fst l) /\ fold_right (fun '(n, t) P => n <> [] /\ wf t /\ P) True l
  end.

Section ctree_ind.
Context (P : ctree -> Prop) (HL : forall text, P (Leaf text)) (HD : forall l, Forall (fun c => P c.2) l -> P (Dir l)).
Fixpoint ctree_induction (t : ctree) : P t :=
  match t with
  | Leaf text => HL text
  | Dir l => HD l ((fix go (l : list (token * ctree)) : Forall (fun c => P c.2) l :=
                     match l with
                     | [] => Forall_nil_2 _
                     | c :: l => Forall_cons_2 _ c l (ctree_induction c.2) (go l)
                     end) l)
  end.
End ctree_ind.

Lemma wf_children (l : list (token * ctree)) : fold_right (fun '(n, t) P => n <> [] /\ wf t /\ P) True l <-> Forall (fun c => c.1 <> [] /\ wf c.2) l.
Proof. induction l as [|[n t] l IH]; cbn; [by split|]. rewrite Forall_cons_iff, IH. tauto. Qed.
Lemma wf_Dir l : wf (Dir l) <-> NoDup (map fst l) /\ Forall (fun c => c.1 <> [] /\ wf c.2) l.
Proof. cbn [wf]. by rewrite wf_children. Qed.

Lemma entries_app T l l' : entries T (l ++ l') = entries T l ++ entries T l'.
Proof. unfold entries. cbn [flat]. by rewrite map_app, concat_app. Qed.
Lemma entries_cons T n t l : entries T ((n, t) :: l) = flat (T ++ [n]) t ++ entries T l.
Proof. done. Qed.

Lemma elem_of_entries T l e : e ∈ entries T l <-> exists n t, (n, t) ∈ l /\ e ∈ flat (T ++ [n]) t.
Proof.
  unfold entries. cbn [flat]. rewrite list_elem_of_In, in_concat. split.
  - intros (x & Hx & He). apply in_map_iff in Hx as ([n t] & <- & Hin). exists n, t. by rewrite !list_elem_of_In.
  - intros (n & t & Hin & He). exists (flat (T ++ [n]) t). rewrite !list_elem_of_In in *. split; [|done]. by apply (in_map (fun '(n, t) => flat (T ++ [n]) t)) in Hin.
Qed.

(** Every entry of a tree is below its root. *)
Lemma flat_prefix t : forall T e, e ∈ flat T t -> T `prefix_of` e.1.
Proof.
  induction t as [text|l IH] using ctree_induction; intros T e He.
  - by apply list_elem_of_singleton in He as ->.
  - apply elem_of_entries in He as (n & t & Hin & He). rewrite list.Forall_forall in IH. apply (IH _ Hin) in He. etrans; [|done]. by eexists.
Qed.

Lemma in_names (l : list (token * ctree)) n t : (n, t) ∈ l -> n ∈ map fst l.
Proof. rewrite !list_elem_of_In. apply (in_map fst). Qed.

Definition separate (l : list entry) : Prop := ForallOrdPairs (fun a b => apart a.1 b.1) l.

Lemma separate_app l l' : separate l -> separate l' -> (forall a b, a ∈ l -> b ∈ l' -> apart a.1 b.1) -> separate (l ++ l').
Proof.
  intros A B C. induction A as [|a l F A IH]; [done|]. cbn [app]. constructor.
  - apply Forall_app. split; [done|]. apply list.Forall_forall. intros b Hb. apply C; [by left|done].
  - apply IH. intros. apply C; [by right|done].
Qed.

Lemma separate_app_inv l l' : separate (l ++ l') -> separate l /\ separate l' /\ forall a b, a ∈ l -> b ∈ l' -> apart a.1 b.1.
Proof.
  induction l as [|a l IH]; cbn [app]; intros A.
  - split_and!; [constructor|done|by intros ? ? ?%not_elem_of_nil].
  - inversion A as [|? ? F A']; subst. apply Forall_app in F as [F1 F2]. destruct (IH A') as (S1 & S2 & S3). split_and!; [by constructor|done|].
    intros x b [->|Hx]%elem_of_cons Hb; [|by apply S3]. rewrite list.Forall_forall in F2. by apply F2.
Qed.

Lemma apart_sym p q : apart p q -> apart q p.
Proof. unfold apart. tauto. Qed.

Lemma prefix_snoc_eq (T : list token) n m p : T ++ [n] `prefix_of` p -> T ++ [m] `prefix_of` p -> n = m.
Proof. intros [k ->] [k' E]. rewrite <- !app_assoc in E. apply app_inv_head in E. by simplify_eq/=. Qed.

(** Below different names of one directory. *)
Lemma apart_names T n m (p q : list token) : n <> m -> T ++ [n] `prefix_of` p -> T ++ [m] `prefix_of` q -> apart p q.
Proof.
  intros Hn Hp Hq. split; intros H.
  - apply Hn. eapply prefix_snoc_eq; [|exact Hq]. by etrans.
  - apply Hn. eapply prefix_snoc_eq; [exact Hp|]. by etrans.
Qed.

Lemma separate_flat t : forall T, wf t -> separate (flat T t).
Proof.
  induction t as [text|l IH] using ctree_induction; intros T W; [by repeat constructor|].
  apply wf_Dir in W as [N F]. change (separate (entries T l)). induction l as [|[n t] l IHl]; [constructor|].
  apply Forall_cons_iff in IH as [IHt IH]. apply Forall_cons_iff in F as [[Hn Wt] F]. cbn [map fst] in N. apply list.NoDup_cons in N as [Nn N].
  rewrite entries_cons. apply separate_app; [by apply IHt|by apply IHl|].
  intros a b Ha Hb. apply flat_prefix in Ha. apply elem_of_entries in Hb as (m & u & Hin & Hb). apply flat_prefix in Hb.
  eapply apart_names; [|exact Ha|exact Hb]. intros <-. apply Nn. by apply in_names in Hin.
Qed.

Lemma flat_ok t : forall T, Forall (fun x => x <> []) T -> wf t -> Forall (fun e => Forall (fun x => x <> []) e.1) (flat T t).
Proof.
  induction t as [text|l IH] using ctree_induction; intros T HT W; [by repeat constructor|].
  apply wf_Dir in W as [_ F]. apply list.Forall_forall. intros e He. apply elem_of_entries in He as (n & t & Hin & He).
  rewrite list.Forall_forall in IH, F. destruct (F _ Hin) as [Hn Wt]. assert (Forall (fun e => Forall (fun x => x <> []) e.1) (flat (T ++ [n]) t)) as A.
  2: { rewrite list.Forall_forall in A. by apply A. }
  apply (IH _ Hin); [|done]. apply Forall_app. split; [done|by repeat constructor].
Qed.

(** ** Paths *)

Definition splits (a : list Z) (T : list token) (t : token) : Prop := split_slash [] a = T ++ [t].
Definition no_slash (l : list Z) : Prop := Forall (fun c => c <> slash) l.

Lemma split_slash_free cur b : no_slash b -> split_slash cur b = [cur ++ b].
Proof.
  revert cur. induction b as [|c b IH]; intros cur F; cbn [split_slash]; [by rewrite app_nil_r|]. apply Forall_cons_iff in F as [Hc F].
  rewrite (proj2 (Z.eqb_neq c slash)), IH by done. by rewrite <- app_assoc.
Qed.

Lemma split_slash_app cur a b : no_slash b -> forall T t, split_slash cur a = T ++ [t] -> split_slash cur (a ++ b) = T ++ [t ++ b].
Proof.
  intros Hb. revert cur. induction a as [|c a IH]; intros cur T t E; cbn [app split_slash] in *.
  - rewrite split_slash_free by done. destruct T as [|? [|]]; by simplify_eq/=.
  - case_match; [|by apply IH]. destruct T as [|x T]; cbn [app] in *; simplify_eq.
    + by destruct (split_slash_ne [] a).
    + by rewrite (IH [] T t).
Qed.

Lemma split_slash_dir cur a b : no_slash b -> forall T t, split_slash cur a = T ++ [t] -> split_slash cur (a ++ slash :: b) = T ++ [t] ++ [b].
Proof.
  intros Hb. revert cur. induction a as [|c a IH]; intros cur T t E; cbn [app split_slash] in *.
  - cbn. rewrite split_slash_free by done. destruct T as [|? [|]]; by simplify_eq/=.
  - case_match; [|by apply IH]. destruct T as [|x T]; cbn [app] in *; simplify_eq.
    + by destruct (split_slash_ne [] a).
    + by rewrite (IH [] T t).
Qed.

Lemma splits_text a T t b : splits a T t -> no_slash b -> splits (a ++ b) T (t ++ b).
Proof. intros. by apply split_slash_app. Qed.
Lemma splits_dir a T t b : splits a T t -> no_slash b -> splits (a ++ slash :: b) (T ++ [t]) b.
Proof. intros. unfold splits. rewrite <- app_assoc. by apply split_slash_dir. Qed.

Lemma no_slash_print n : 0 <= n < 10 ^ 20 -> no_slash (print_int n).
Proof.
  intros Hn. destruct (print_int_chars n Hn) as [F _]. eapply Forall_impl; [|exact F]. intros c Hc ->. done.
Qed.

(** ** Names and numbers

    The names of the members have no digits, so that the digits of an index can be told from the name of a vector. *)

Definition kind (n : token) : token := filter (fun c => isdigit c = false) n.
Definition plain (n : token) : Prop := kind n = n.

Lemma kind_print t n : plain t -> 0 <= n < 10 ^ 20 -> kind (t ++ print_int n) = t.
Proof.
  intros Ht Hn. unfold kind. rewrite list.filter_app. unfold plain, kind in Ht. rewrite Ht. rewrite filter_none; [apply app_nil_r|].
  intros c Hc. destruct (print_int_chars n Hn) as [F _]. rewrite list.Forall_forall in F. by rewrite (F c Hc).
Qed.

(** The elements of a vector, from [i] on. *)
Fixpoint numbered (t : token) (i : Z) (l : list ctree) : list (token * ctree) :=
  match l with
  | [] => []
  | x :: l => (t ++ print_int i, x) :: numbered t (i + 1) l
  end.

Lemma elem_of_numbered t l : forall i n x, (n, x) ∈ numbered t i l <-> exists k, l !! k = Some x /\ n = t ++ print_int (i + Z.of_nat k).
Proof.
  induction l as [|y l IH]; intros i n x; cbn [numbered].
  - split; [by intros ?%not_elem_of_nil|by intros (? & ? & ?)].
  - rewrite elem_of_cons, IH. split.
    + intros [E|(k & Hk & ->)]; [simplify_eq; exists 0%nat|exists (S k)]; (split; [done|]); do 2 f_equal; lia.
    + intros ([|k] & Hk & ->); simplify_eq/=; [left; do 2 f_equal; f_equal; lia|right; exists k]. split; [done|]. do 2 f_equal. lia.
Qed.

Lemma elem_of_names (l : list (token * ctree)) n : n ∈ map fst l <-> exists x, (n, x) ∈ l.
Proof.
  rewrite list_elem_of_In, in_map_iff. split.
  - intros ([m x] & <- & Hin). exists x. by apply list_elem_of_In.
  - intros [x Hin]. exists (n, x). by rewrite list_elem_of_In in Hin.
Qed.

Lemma numbered_names t i l n : n ∈ map fst (numbered t i l) -> exists k, (k < length l)%nat /\ n = t ++ print_int (i + Z.of_nat k).
Proof. rewrite elem_of_names. intros (x & (k & Hk & ->)%elem_of_numbered). exists k. split; [|done]. by eapply lookup_lt_Some. Qed.

Lemma numbered_fresh t i l : 0 <= i -> i + zlength l < 10 ^ 20 -> t ++ print_int (i + zlength l) ∉ map fst (numbered t i l).
Proof.
  unfold zlength. intros Hi Hl (k & Hk & E)%numbered_names. apply app_inv_head, print_int_inj in E; lia.
Qed.

Lemma numbered_NoDup t l : forall i, 0 <= i -> i + zlength l < 10 ^ 20 -> NoDup (map fst (numbered t i l)).
Proof.
  unfold zlength. induction l as [|x l IH]; intros i Hi Hl; [constructor|]. cbn [numbered map fst length] in *. apply list.NoDup_cons. split; [|apply IH; lia].
  intros (k & Hk & E)%numbered_names. apply app_inv_head, print_int_inj in E; lia.
Qed.

(** Members and vectors of one object. *)
Abbreviation group := (token * list (token * ctree))%type.
Definition member (t : token) (text : list Z) : group := (t, [(t, Leaf text)]).
Definition vector (t : token) (l : list ctree) : group := (t, numbered t 0 l).
Definition children (gs : list group) : list (token * ctree) := concat (map snd gs).

Definition group_ok (g : group) : Prop := g.1 <> [] /\ plain g.1 /\ Forall (fun n => kind n = g.1) (map fst g.2) /\ NoDup (map fst g.2) /\ Forall (fun c => wf c.2) g.2.

Lemma member_ok t text : t <> [] -> plain t -> group_ok (member t text).
Proof. intros Ht Hp. split_and!; try done; repeat constructor; try done. apply not_elem_of_nil. Qed.

Lemma vector_ok t l : t <> [] -> plain t -> zlength l < 10 ^ 20 -> Forall wf l -> group_ok (vector t l).
Proof.
  intros Ht Hp Hl Hw. split_and!; [done|done| | |].
  - apply list.Forall_forall. intros n (k & Hk & ->)%numbered_names. apply kind_print; [done|]. unfold zlength in Hl. lia.
  - apply numbered_NoDup; lia.
  - apply list.Forall_forall. intros [n x] (k & Hk & _)%elem_of_numbered. rewrite list.Forall_forall in Hw. apply Hw. by eapply list_elem_of_lookup_2.
Qed.

Lemma elem_of_children gs n x : (n, x) ∈ children gs <-> exists g, g ∈ gs /\ (n, x) ∈ g.2.
Proof.
  unfold children. rewrite list_elem_of_In, in_concat. split.
  - intros (l & Hl & Hx). apply in_map_iff in Hl as (g & <- & Hg). exists g. by rewrite !list_elem_of_In.
  - intros (g & Hg & Hx). exists g.2. rewrite !list_elem_of_In in *. split; [by apply in_map|done].
Qed.

Lemma group_kind gs g n : Forall group_ok gs -> g ∈ gs -> n ∈ map fst g.2 -> kind n = g.1.
Proof.
  intros F Hg Hn. rewrite list.Forall_forall in F. destruct (F _ Hg) as (_ & _ & K & _). rewrite list.Forall_forall in K. by apply K.
Qed.

Lemma children_wf gs : Forall group_ok gs -> NoDup (map fst gs) -> wf (Dir (children gs)).
Proof.
  intros F N. apply wf_Dir. split.
  - induction gs as [|g gs IH]; [constructor|]. unfold children in *. cbn [map concat] in *. rewrite map_app. apply list.NoDup_cons in N as [Ng N].
    pose proof F as [(_ & _ & K & Nd & _) F']%Forall_cons_iff. apply list.NoDup_app. split_and!; [done| |by apply IH].
    intros n Hn (x & (g' & Hg' & Hx)%elem_of_children)%elem_of_names. apply in_names in Hx.
    apply (group_kind gs g') in Hx; [|done|done]. rewrite list.Forall_forall in K. apply K in Hn. apply Ng. rewrite <- Hn, Hx.
    by apply list_elem_of_In, in_map, list_elem_of_In.
  - apply list.Forall_forall. intros [n x] (g & Hg & Hx)%elem_of_children. rewrite list.Forall_forall in F. destruct (F _ Hg) as (Hk & Hp & K & _ & W). split; cbn [fst snd].
    + intros ->. apply in_names in Hx. rewrite list.Forall_forall in K. by apply K in Hx.
    + rewrite list.Forall_forall in W. by apply W in Hx.
Qed.

(** Names that no group has. *)
Lemma children_kind gs n : Forall group_ok gs -> n ∈ map fst (children gs) -> kind n ∈ map fst gs.
Proof.
  intros F (x & (g & Hg & Hx)%elem_of_children)%elem_of_names. apply in_names in Hx. rewrite (group_kind gs g) by done.
  by apply list_elem_of_In, in_map, list_elem_of_In.
Qed.

Lemma vector_end gs t l : Forall group_ok gs -> NoDup (map fst gs) -> vector t l ∈ gs -> plain t -> zlength l < 10 ^ 20 ->
  t ++ print_int (zlength l) ∉ map fst (children gs).
Proof.
  intros F N Hv Hp Hl (x & (g & Hg & Hx)%elem_of_children)%elem_of_names. apply in_names in Hx.
  pose proof (group_kind gs g _ F Hg Hx) as K. rewrite kind_print in K by (done || unfold zlength in *; lia).
  assert (g = vector t l) as ->; [|by apply (numbered_fresh t 0 l) in Hx].
  apply list_elem_of_lookup in Hg as [i Hi]. apply list_elem_of_lookup in Hv as [j Hj].
  assert (i = j) as ->; [|by simplify_eq]. apply (NoDup_lookup _ i j t N); [|by apply (list_lookup_fmap_Some_2 fst) in Hj].
  rewrite K. by apply (list_lookup_fmap_Some_2 fst) in Hi.
Qed.

(** ** Loops over vectors *)

Section loops.
Context {C D : Type} `{IOSer C} `{IODeser D} (d : D).

(** Element [i] of a vector, from [i] on. *)
Fixpoint write_vector {A} (w : list Z -> A -> st C bool) (base : list Z) (i : Z) (l : list A) : st C bool :=
  match l with
  | [] => mret true
  | x :: l => r1 ← w (base ++ print_int i) x; r2 ← write_vector w base (i + 1) l; mret (r1 && r2)
  end.

(** Elements are read while the path [key] of the next one exists. *)
Fixpoint read_vector {A} (fuel : nat) (key : list Z) (rd : list Z -> option (bool * A)) (base : list Z) (i : Z) (acc : list A) : option (bool * list A) :=
  match fuel with
  | O => None
  | S fuel =>
      let p := base ++ print_int i in
      if io_isExisting (p ++ key) d then
        '(r, x) ← rd p;
        if (r : bool) then read_vector fuel key rd base (i + 1) (acc ++ [x]) else Some (false, acc)
      else Some (true, acc)
  end.

End loops.

(** ** Writing *)

Section writing.
Context {S : Type} `{CacheSpec S}.

(** The call succeeds and adds the entries, when nothing in the cache is in their way. *)
Definition writes (m : st S bool) (l : list entry) : Prop := forall s E, cs_holds s E -> Forall (fun e => Forall (fun x => x <> []) e.1) l ->
  separate (E ++ l) -> exists s', m s = (true, s') /\ cs_holds s' (E ++ l).

Definition puts (m : st S bool) (T : list token) (l : list (token * ctree)) : Prop := writes m (entries T l).

Lemma writes_nil : writes (mret true) [].
Proof. intros s E C _ _. exists s. by rewrite app_nil_r. Qed.

Lemma writes_both m1 m2 l1 l2 : writes m1 l1 -> writes m2 l2 -> writes (r1 ← m1; r2 ← m2; mret (r1 && r2)) (l1 ++ l2).
Proof.
  intros W1 W2 s E C [F1 F2]%Forall_app A. rewrite app_assoc in A. pose proof (separate_app_inv _ _ A) as (A1 & _ & _).
  destruct (W1 s E C F1 A1) as (s1 & E1 & C1). destruct (W2 s1 _ C1 F2 A) as (s2 & E2 & C2).
  exists s2. rewrite app_assoc. split; [|done]. unfold mbind, st_bind. rewrite E1. simpl. by rewrite E2.
Qed.

Lemma puts_all ms T ls : Forall2 (fun m l => puts m T l) ms ls -> puts (all_of ms) T (concat ls).
Proof.
  intros F. induction F as [|m l ms ls W F IH]; [apply writes_nil|]. cbn [all_of concat]. unfold puts. rewrite entries_app. by apply writes_both.
Qed.

(** An object whose members are written one by one. *)
Lemma puts_members ms T gs : Forall2 (fun m g => puts m T g.2) ms gs -> puts (all_of ms) T (children gs).
Proof. intros F. apply puts_all. induction F; constructor; done. Qed.

Lemma path_ok_splits a T t : splits a T t -> path_ok a <-> Forall (fun x => x <> []) (T ++ [t]).
Proof. unfold path_ok, splits. by intros ->. Qed.

Lemma leaf_apart E T (text : list Z) : separate (E ++ [(T, text)]) -> Forall (fun e => apart T e.1) E.
Proof.
  intros (_ & _ & A)%separate_app_inv. apply list.Forall_forall. intros e He. apply apart_sym. apply (A e (T, text) He). by apply list_elem_of_singleton.
Qed.

Lemma puts_int a T t v : splits a T t -> puts (io_write_int a v) T (member t (print_int v)).2.
Proof.
  intros Hs s E C [F _]%Forall_cons_iff A. cbn in *. destruct (cs_write_int a v s E C) as (s' & Es & C'); [by eapply path_ok_splits| |].
  - rewrite Hs. by apply leaf_apart in A.
  - exists s'. split; [done|]. by rewrite Hs in C'.
Qed.
Lemma puts_str a T t v : splits a T t -> puts (io_write_str a v) T (member t v).2.
Proof.
  intros Hs s E C [F _]%Forall_cons_iff A. cbn in *. destruct (cs_write_str a v s E C) as (s' & Es & C'); [by eapply path_ok_splits| |].
  - rewrite Hs. by apply leaf_apart in A.
  - exists s'. split; [done|]. by rewrite Hs in C'.
Qed.

Lemma puts_vector {A} (w : list Z -> A -> st S bool) (f : A -> list (token * ctree)) base T t : splits base T t ->
  forall l, Forall (fun x => forall p u, splits p T u -> puts (w p x) (T ++ [u]) (f x)) l ->
  forall i, 0 <= i -> i + zlength l < 10 ^ 20 -> puts (write_vector w base i l) T (numbered t i ((fun x => Dir (f x)) <$> l)).
Proof.
  intros Hs l F. induction F as [|x l Hx F IH]; intros i Hi Hl; [apply writes_nil|]. cbn [write_vector fmap list_fmap numbered]. unfold puts.
  rewrite entries_cons. unfold zlength in *. cbn [length] in Hl.
  apply writes_both; [|apply IH; lia]. apply Hx. apply splits_text; [done|]. apply no_slash_print. lia.
Qed.

(** What is written in one object can be written to a cache that has nothing in its place. *)
Lemma puts_run m T l s E : puts m T l -> cs_holds s E -> Forall (fun x => x <> []) T -> wf (Dir l) -> separate E ->
  (forall e n, e ∈ E -> n ∈ map fst l -> apart (T ++ [n]) e.1) ->
  exists s', m s = (true, s') /\ cs_holds s' (E ++ entries T l) /\ separate (E ++ entries T l).
Proof.
  intros P C HT W A Hc. assert (separate (E ++ entries T l)) as A'.
  { apply separate_app; [done|by apply (separate_flat (Dir l))|]. intros a b Ha (n & t & Hin & Hb)%elem_of_entries. apply flat_prefix in Hb as [k Hk].
    apply in_names in Hin. destruct (Hc _ _ Ha Hin) as [N1 N2]. rewrite Hk. split; intros Hp.
    - destruct (prefix_weak_total a.1 (T ++ [n]) (T ++ [n] ++ k)) as [|]; [by rewrite app_assoc|rewrite app_assoc; by eexists|done..].
    - apply N1. etrans; [|exact Hp]. by eexists. }
  destruct (P s E C) as (s' & Em & C'); [by apply (flat_ok (Dir l))|done|]. by exists s'.
Qed.
End writing.

(** ** Reading *)

Section reading.
Context {D : Type} `{CacheSpec D} (d : D) (E : list entry).

(** The names with [P] in the directory [T] are exactly those of [l]. *)
Definition view (T : list token) (P : token -> Prop) (l : list (token * ctree)) : Prop :=
  (forall e, e ∈ entries T l -> e ∈ E) /\ forall e n, e ∈ E -> P n -> T ++ [n] `prefix_of` e.1 -> e ∈ entries T l.

Lemma view_sub T P l n l' : view T P l -> wf (Dir l) -> P n -> (n, Dir l') ∈ l -> view (T ++ [n]) (fun _ => True) l'.
Proof.
  intros [V1 V2] W Hn Hin. split.
  - intros e He. apply V1, elem_of_entries. by exists n, (Dir l').
  - intros e m He _ Hp. assert (T ++ [n] `prefix_of` e.1) as Hp' by (etrans; [|exact Hp]; by eexists).
    destruct (proj1 (elem_of_entries _ _ _) (V2 e n He Hn Hp')) as (n' & t & Hin' & He').
    pose proof (prefix_snoc_eq _ _ _ _ Hp' (flat_prefix _ _ _ He')) as <-.
    apply wf_Dir in W as [N _]. apply list_elem_of_lookup in Hin as [i Hi]. apply list_elem_of_lookup in Hin' as [j Hj].
    assert (i = j) as ->; [|by simplify_eq]. apply (NoDup_lookup _ i j n N); [by apply (list_lookup_fmap_Some_2 fst) in Hi|by apply (list_lookup_fmap_Some_2 fst) in Hj].
Qed.

Context (C : cs_holds d E).

Lemma view_leaf T P l t text : view T P l -> (t, Leaf text) ∈ l -> (T ++ [t], text) ∈ E.
Proof. intros [V _] Hin. apply V, elem_of_entries. exists t, (Leaf text). split; [done|]. by apply list_elem_of_singleton. Qed.

Lemma view_read_int a T P l t v old : view T P l -> splits a T t -> (t, Leaf (print_int v)) ∈ l -> - 10 ^ 20 < v < 10 ^ 20 ->
  io_read_int a old d = Some (true, v).
Proof. intros V Hs Hin Hv. eapply cs_read_int; [done| |done]. rewrite Hs. by eapply view_leaf. Qed.
Lemma view_read_str a T P l t v old : view T P l -> splits a T t -> (t, Leaf v) ∈ l -> io_read_str a old d = Some (true, v).
Proof. intros V Hs Hin. eapply cs_read_str; [done|]. rewrite Hs. by eapply view_leaf. Qed.
Lemma view_present a T P l t v : view T P l -> splits a T t -> (t, Leaf v) ∈ l -> io_isExisting a d = true.
Proof. intros V Hs Hin. eapply cs_present; [done|]. rewrite Hs. by eapply view_leaf. Qed.

(** Nothing is below a name that the directory does not have. *)
Lemma view_absent a T P l n T' t : view T P l -> P n -> n ∉ map fst l -> splits a T' t -> T ++ [n] `prefix_of` T' ++ [t] ->
  Forall (fun x => x <> []) (T' ++ [t]) -> io_isExisting a d = false.
Proof.
  intros [_ V] Hn Hl Hs Hp Ho. eapply cs_absent; [done|by eapply path_ok_splits|]. rewrite Hs. apply list.Forall_forall. intros e He Hpe.
  assert (T ++ [n] `prefix_of` e.1) as Hpn by (by etrans).
  destruct (proj1 (elem_of_entries _ _ _) (V e n He Hn Hpn)) as (m & u & Hin & He').
  pose proof (prefix_snoc_eq _ _ _ _ Hpn (flat_prefix _ _ _ He')) as <-. apply in_names in Hin. done.
Qed.

(** The vector [t] of directories, one for each of [all]. *)
Record has_vector {A} (f : A -> list (token * ctree)) (base : list Z) (T : list token) (t : token) (all : list A) : Prop := {
  hv_splits : splits base T t;
  hv_ok : Forall (fun x => x <> []) (T ++ [t]);
  hv_length : zlength all < 10 ^ 20;
  hv_elem k x : all !! k = Some x -> view (T ++ [t ++ print_int (Z.of_nat k)]) (fun _ => True) (f x);
  hv_end T' u a : splits a T' u -> T ++ [t ++ print_int (zlength all)] `prefix_of` T' ++ [u] -> Forall (fun x => x <> []) (T' ++ [u]) -> io_isExisting a d = false;
}.

Lemma view_vector {A} (f : A -> list (token * ctree)) base T P t gs all :
  view T P (children gs) -> Forall group_ok gs -> NoDup (map fst gs) -> vector t ((fun x => Dir (f x)) <$> all) ∈ gs ->
  splits base T t -> (forall n, kind n = t -> P n) -> zlength all < 10 ^ 20 -> Forall (fun x => x <> []) T -> has_vector f base T t all.
Proof.
  intros V G N Hv Hs HP Hlen Ho. assert (zlength ((fun x => Dir (f x)) <$> all) = zlength all) as El by (unfold zlength; by rewrite length_fmap).
  pose proof G as G'. rewrite list.Forall_forall in G'. destruct (G' _ Hv) as (Hne & Ht & _). cbn in Hne, Ht. clear G'. unfold zlength in Hlen.
  constructor; [done|apply Forall_app; split; [done|by repeat constructor]|done| |].
  - intros k x Hk. pose proof (lookup_lt_Some _ _ _ Hk). eapply view_sub; [exact V|by apply children_wf|apply HP, kind_print; [done|lia]|].
    apply elem_of_children. eexists. split; [exact Hv|]. apply elem_of_numbered. exists k. by rewrite list_lookup_fmap, Hk.
  - intros T' u a Ha Hp Hn. eapply view_absent; [exact V| | |exact Ha|exact Hp|exact Hn].
    + apply HP, kind_print; [done|]. unfold zlength. lia.
    + rewrite <- El. apply vector_end; [done..|]. by rewrite El.
Qed.

Lemma hv_elem_splits {A} (f : A -> list (token * ctree)) base T t all i : has_vector f base T t all -> 0 <= i <= zlength all ->
  splits (base ++ print_int i) T (t ++ print_int i).
Proof. intros V Hi. pose proof (hv_length _ _ _ _ _ V). apply splits_text; [apply V|]. apply no_slash_print. lia. Qed.

Lemma hv_elem_ok {A} (f : A -> list (token * ctree)) base T t all i : has_vector f base T t all -> Forall (fun x => x <> []) (T ++ [t ++ print_int i]).
Proof.
  intros V. pose proof (hv_ok _ _ _ _ _ V) as [HT [Ht _]%Forall_cons_iff]%Forall_app. apply Forall_app. split; [done|]. repeat constructor. by intros [? _]%app_nil.
Qed.

(** The key that a loop looks for is not there after the last element. *)
Lemma hv_stop {A} (f : A -> list (token * ctree)) base T t all key : has_vector f base T t all -> no_slash key -> key <> [] ->
  io_isExisting ((base ++ print_int (zlength all)) ++ slash :: key) d = false.
Proof.
  intros V Hk Hne. eapply (hv_end _ _ _ _ _ V).
  - apply splits_dir; [|done]. eapply hv_elem_splits; [done|]. unfold zlength. lia.
  - by eexists.
  - apply Forall_app. split; [by eapply hv_elem_ok|by repeat constructor].
Qed.

(** A loop over a vector returns the elements, and ends after the last one. *)
Lemma read_vector_ok {A B} (key : token) (rd : list Z -> option (bool * B)) (f : A -> list (token * ctree)) (g : A -> B) base T t all :
  has_vector f base T t all -> no_slash key -> key <> [] ->
  Forall (fun x => forall p u, splits p T u -> Forall (fun x => x <> []) (T ++ [u]) -> view (T ++ [u]) (fun _ => True) (f x) ->
    io_isExisting (p ++ slash :: key) d = true /\ rd p = Some (true, g x)) all ->
  forall fuel acc, (length all < fuel)%nat -> read_vector d fuel (slash :: key) rd base 0 acc = Some (true, acc ++ (g <$> all)).
Proof.
  intros V Hk Hne F.
  assert (forall rest pre fuel acc, all = pre ++ rest -> (length rest < fuel)%nat ->
    read_vector d fuel (slash :: key) rd base (zlength pre) acc = Some (true, acc ++ (g <$> rest))) as L.
  2: { intros fuel acc Hf. by apply (L all []). }
  induction rest as [|x rest IH]; intros pre [|fuel] acc Ea Hf; [lia| |cbn in Hf; lia|]; cbn [read_vector].
  - rewrite app_nil_r in Ea. subst pre. by rewrite (hv_stop _ _ _ _ _ _ V), app_nil_r.
  - assert (all !! length pre = Some x) as Ex by (subst all; by rewrite list_lookup_middle).
    rewrite list.Forall_forall in F. destruct (F x) with (p := base ++ print_int (zlength pre)) (u := t ++ print_int (zlength pre)) as [E1 E2].
    + by eapply list_elem_of_lookup_2.
    + eapply hv_elem_splits; [done|]. apply lookup_lt_Some in Ex. unfold zlength. lia.
    + by eapply hv_elem_ok.
    + by apply (hv_elem _ _ _ _ _ V).
    + rewrite E1, E2. cbn. replace (zlength pre + 1) with (zlength (pre ++ [x])) by (rewrite zlength_app; done).
      rewrite (IH (pre ++ [x])); [by rewrite <- app_assoc|by rewrite <- app_assoc|cbn in Hf; lia].
Qed.
End reading.

(** ** Paths and members by name *)

Lemma no_slash_check b : forallb (fun c => negb (c =? slash)) b = true -> no_slash b.
Proof. intros F. apply Forall_forall. intros c Hc. rewrite forallb_forall in F. specialize (F c Hc). destruct (Z.eqb_spec c slash); done. Qed.

Lemma splits_sub a T t n : splits a T t -> forallb (fun c => negb (c =? slash)) (chars n) = true -> splits (a ++ chars (String.String "/"%char n)) (T ++ [t]) (chars n).
Proof. intros Hs Hn. apply (splits_dir a T t (chars n)); [done|by apply no_slash_check]. Qed.
Lemma splits_member b T n : splits b T [] -> forallb (fun c => negb (c =? slash)) (chars n) = true -> splits (b ++ chars n) T (chars n).
Proof. intros Hs Hn. apply (splits_text b T [] (chars n)); [done|by apply no_slash_check]. Qed.
Lemma splits_open a T t : splits a T t -> splits (a ++ [slash]) (T ++ [t]) [].
Proof. intros Hs. apply (splits_dir a T t []); [done|constructor]. Qed.

Lemma member_in t text gs : member t text ∈ gs -> (t, Leaf text) ∈ children gs.
Proof. intros Hg. apply elem_of_children. eexists. split; [exact Hg|]. by apply list_elem_of_singleton. Qed.

(** Membership in a list that is written out. *)
Ltac in_list := solve [repeat first [apply list_elem_of_here | apply list_elem_of_further]].
