(* ===== verification/PlugCache.v ===== *)
(** * Plugs in the cache

    Model of the functions of [src/libavc/general/avc_plug.cpp] that write the plugs of a unit to the cache and read them back: members of a plug, its
    clusters with their channels, its stream formats, its connections, and the plug manager.

    Written connections are the global ids of the plugs they point to ([gid]).  The plugs that are read get the locations 0, 1, ... in the order of the
    manager.  [fuel] bounds the rounds of a loop that ends when the next element is not in the cache; [None] is a loop that has not ended, or undefined. *)
From stdpp Require Import gmap strings.
From S2P Require Import Prelude AvcCommands MusicDescriptor Plugs XmlCache CacheTree.
#[local] Open Scope Z_scope.

(** ** Enumerations as numbers *)

Definition address_type_code (t : EPlugAddressType) : Z :=
  match t with eAPA_PCR => 0 | eAPA_ExternalPlug => 1 | eAPA_AsynchronousPlug => 2 | eAPA_SubunitPlug => 3 | eAPA_FunctionBlockPlug => 4 | eAPA_Undefined => 5 end.
Definition plug_type_code (t : EPlugType) : Z :=
  match t with eAPT_IsoStream => 0 | eAPT_AsyncStream => 1 | eAPT_Midi => 2 | eAPT_Sync => 3 | eAPT_Analog => 4 | eAPT_Digital => 5 | eAPT_Unknown => 6 end.
Definition direction_code (d : EPlugDirection) : Z := match d with eAPD_Input => 0 | eAPD_Output => 1 | eAPD_Unknown => 2 end.

(** A number that is no enumerator has no meaning. *)
Definition address_type_of (z : Z) : option EPlugAddressType :=
  [eAPA_PCR; eAPA_ExternalPlug; eAPA_AsynchronousPlug; eAPA_SubunitPlug; eAPA_FunctionBlockPlug; eAPA_Undefined] !! Z.to_nat z.
Definition plug_type_of (z : Z) : option EPlugType :=
  [eAPT_IsoStream; eAPT_AsyncStream; eAPT_Midi; eAPT_Sync; eAPT_Analog; eAPT_Digital; eAPT_Unknown] !! Z.to_nat z.
Definition direction_of (z : Z) : option EPlugDirection := [eAPD_Input; eAPD_Output; eAPD_Unknown] !! Z.to_nat z.

Section serialize.
Context {S : Type} `{IOSer S} (gid : ploc -> Z).

Definition write_channel (p : list Z) (c : PlugChannelInfo) : st S bool :=
  all_of [io_write_int (p ++ chars "/m_streamPosition") (ch_streamPosition c); io_write_int (p ++ chars "/m_location") (ch_location c);
          io_write_str (p ++ chars "/m_name") (ch_name c)].
Definition serializeChannelInfos (base : list Z) (c : ClusterInfo) : st S bool := write_vector write_channel base 0 (ci_channelInfos c).

Definition write_cluster (p : list Z) (c : ClusterInfo) : st S bool :=
  all_of [io_write_int (p ++ chars "/m_index") (ci_index c); io_write_int (p ++ chars "/m_portType") (ci_portType c);
          io_write_str (p ++ chars "/m_name") (ci_name c); io_write_int (p ++ chars "/m_nrOfChannels") (ci_nrOfChannels c);
          serializeChannelInfos (p ++ chars "/m_channelInfo") c; io_write_int (p ++ chars "/m_streamFormat") (ci_streamFormat c)].
Definition serializeClusterInfos (base : list Z) (p : Plug) : st S bool := write_vector write_cluster base 0 (pg_clusterInfos p).

Definition write_format (p : list Z) (f : FormatInfo) : st S bool :=
  all_of [io_write_int (p ++ chars "/m_samplingFrequency") (fi_samplingFrequency f); io_write_int (p ++ chars "/m_isSyncStream") (Z.b2z (fi_isSyncStream f));
          io_write_int (p ++ chars "/m_audioChannels") (fi_audioChannels f); io_write_int (p ++ chars "/m_midiChannels") (fi_midiChannels f);
          io_write_int (p ++ chars "/m_index") (fi_index f)].
Definition serializeFormatInfos (base : list Z) (p : Plug) : st S bool := write_vector write_format base 0 (pg_formatInfos p).

Definition serializePlugVector (base : list Z) (v : list ploc) : st S bool :=
  write_vector (fun p l => io_write_int (p ++ chars "/global_id") (gid l)) base 0 v.

Definition Plug_serialize (base : list Z) (p : Plug) : st S bool :=
  all_of [io_write_int (base ++ chars "m_subunitType") (plug_subunitType p); io_write_int (base ++ chars "m_subunitId") (plug_subunitId p);
          io_write_int (base ++ chars "m_functionBlockType") (pg_functionBlockType p); io_write_int (base ++ chars "m_functionBlockId") (pg_functionBlockId p);
          io_write_int (base ++ chars "m_addressType") (address_type_code (pg_addressType p)); io_write_int (base ++ chars "m_direction") (direction_code (pg_direction p));
          io_write_int (base ++ chars "m_id") (pg_id p); io_write_int (base ++ chars "m_infoPlugType") (plug_type_code (pg_infoPlugType p));
          io_write_int (base ++ chars "m_nrOfChannels") (pg_nrOfChannels p); io_write_str (base ++ chars "m_name") (pg_name p);
          serializeClusterInfos (base ++ chars "m_clusterInfos") p; io_write_int (base ++ chars "m_samplingFrequency") (pg_samplingFrequency p);
          serializeFormatInfos (base ++ chars "m_formatInfo") p; serializePlugVector (base ++ chars "m_inputConnections") (pg_inputConnections p);
          serializePlugVector (base ++ chars "m_outputConnections") (pg_outputConnections p); io_write_int (base ++ chars "m_globalId") (pg_globalId p)].

Definition PlugManager_serialize (base : list Z) (plugs : list Plug) (globalIdCounter : Z) : st S bool :=
  r1 ← write_vector (fun b p => Plug_serialize (b ++ [slash]) p) base 0 plugs;
  r2 ← io_write_int (base ++ chars "m_globalIdCounter") globalIdCounter;
  mret (r1 && r2).
End serialize.

Section deserialize.
Context {D : Type} `{IODeser D} (uninit : Z) (d : D).

(** [read] of a template type: the cast [f] is applied to whatever is in the temporary. *)
Definition read_as (f : Z -> Z) (path : list Z) : option (bool * Z) := '(r, z) ← io_read_int path uninit d; Some (r, f z).

Definition read_channel (p : list Z) : option (bool * PlugChannelInfo) :=
  '(r1, a) ← read_as u8 (p ++ chars "/m_streamPosition");
  '(r2, b) ← read_as u8 (p ++ chars "/m_location");
  '(r3, n) ← io_read_str (p ++ chars "/m_name") [] d;
  Some (r1 && r2 && r3, mkChannelInfo a b n).
Definition deserializeChannelInfos (fuel : nat) (base : list Z) : option (bool * list PlugChannelInfo) :=
  read_vector d fuel (chars "/m_streamPosition") read_channel base 0 [].

(** [m_buildSource] is not read and keeps what is in the new object. *)
Definition read_cluster (fuel : nat) (p : list Z) : option (bool * ClusterInfo) :=
  '(r1, i) ← read_as i32 (p ++ chars "/m_index");
  '(r2, t) ← read_as u8 (p ++ chars "/m_portType");
  '(r3, n) ← io_read_str (p ++ chars "/m_name") [] d;
  '(r4, c) ← read_as u8 (p ++ chars "/m_nrOfChannels");
  '(r5, l) ← deserializeChannelInfos fuel (p ++ chars "/m_channelInfo");
  '(r6, f) ← read_as u8 (p ++ chars "/m_streamFormat");
  Some (r1 && r2 && r3 && r4 && r5 && r6, mkClusterInfo i t n c l f uninit).
Definition deserializeClusterInfos (fuel : nat) (base : list Z) : option (bool * list ClusterInfo) :=
  read_vector d fuel (chars "/m_index") (read_cluster fuel) base 0 [].

Definition read_format (p : list Z) : option (bool * FormatInfo) :=
  '(r1, s) ← read_as u8 (p ++ chars "/m_samplingFrequency");
  '(r2, b) ← read_as (fun z => Z.b2z (negb (z =? 0))) (p ++ chars "/m_isSyncStream");
  '(r3, a) ← read_as u8 (p ++ chars "/m_audioChannels");
  '(r4, m) ← read_as u8 (p ++ chars "/m_midiChannels");
  '(r5, i) ← read_as u8 (p ++ chars "/m_index");
  Some (r1 && r2 && r3 && r4 && r5, mkFormatInfo s (b =? 1) a m i).
Definition deserializeFormatInfos (fuel : nat) (base : list Z) : option (bool * list FormatInfo) :=
  read_vector d fuel (chars "/m_samplingFrequency") read_format base 0 [].

(** [unit.getSubunit( type, id )] *)
Context (getSubunit : Z -> Z -> option (Z * Z)).

(** The plug, or a null pointer.  [Unit::deserialize] has deleted the plug manager at this point, so that a plug that needs a new global id, or
    that is deleted because a member is missing, uses freed memory.  The members [m_subunitType] and [m_subunitId], which only [deserializeUpdateSubunit] uses, stand beside it. *)
Definition Plug_deserialize (fuel : nat) (base : list Z) : option (option (Plug * (Z * Z))) :=
  if negb (io_isExisting (base ++ chars "m_subunitType") d) then Some None else
  '(r1, st) ← read_as id (base ++ chars "m_subunitType");
  '(r2, si) ← read_as u8 (base ++ chars "m_subunitId");
  '(r3, ft) ← read_as u8 (base ++ chars "m_functionBlockType");
  '(r4, fi) ← read_as u8 (base ++ chars "m_functionBlockId");
  '(r5, at_) ← read_as id (base ++ chars "m_addressType"); at_ ← address_type_of at_;
  '(r6, di) ← read_as id (base ++ chars "m_direction"); di ← direction_of di;
  '(r7, i) ← read_as u8 (base ++ chars "m_id");
  '(r8, g) ← read_as i32 (base ++ chars "m_globalId");
  if g <? 0 then None else
  let p := Plug_new uninit (getSubunit st si) ft fi at_ di i g in
  '(r9, it) ← read_as id (base ++ chars "m_infoPlugType"); it ← plug_type_of it;
  '(r10, nc) ← read_as u8 (base ++ chars "m_nrOfChannels");
  '(r11, n) ← io_read_str (base ++ chars "m_name") [] d;
  '(r12, cl) ← deserializeClusterInfos fuel (base ++ chars "m_clusterInfos");
  '(r13, sf) ← read_as u8 (base ++ chars "m_samplingFrequency");
  '(r14, fo) ← deserializeFormatInfos fuel (base ++ chars "m_formatInfos");
  if r1 && r2 && r3 && r4 && r5 && r6 && r7 && r8 && r9 && r10 && r11 && r12 && r13 && r14
  then Some (Some (set_formats fo (set_frequency sf (set_clusters cl (set_plug_name n (set_channels nc (set_info_type it p))))), (st, si)))
  else None.

Fixpoint read_plugs (rounds fuel : nat) (base : list Z) (i : Z) (acc : list (Plug * (Z * Z))) : option (list (Plug * (Z * Z))) :=
  match rounds with
  | O => None
  | S rounds =>
      r ← Plug_deserialize fuel (base ++ print_int i ++ [slash]);
      match r with
      | Some p => read_plugs rounds fuel base (i + 1) (acc ++ [p])
      | None => Some acc
      end
  end.

Definition PlugManager_deserialize (fuel : nat) (base : list Z) : option (list (Plug * (Z * Z)) * Z) :=
  '(r, c) ← read_as i32 (base ++ chars "m_globalIdCounter");
  plugs ← read_plugs fuel fuel base 0 [];
  Some (plugs, if (r : bool) then c else 0).

(** [getPlug( iGlobalId )]: the location of the first plug of that id. *)
Fixpoint find_gid (plugs : list Plug) (g : Z) (l : ploc) : option ploc :=
  match plugs with
  | [] => None
  | p :: plugs => if pg_globalId p =? g then Some l else find_gid plugs g (S l)
  end.

Fixpoint deserializePlugVector (fuel : nat) (plugs : list Plug) (base : list Z) (i : Z) (acc : list ploc) : option (bool * list ploc) :=
  match fuel with
  | O => None
  | S fuel =>
      let p := base ++ print_int i ++ chars "/global_id" in
      if negb (io_isExisting p d) then Some (true, acc) else
      '(r, g) ← read_as i32 p;
      if negb (r : bool) then Some (false, acc) else
      match find_gid plugs g 0 with
      | Some l => deserializePlugVector fuel plugs base (i + 1) (acc ++ [l])
      | None => Some (false, acc)
      end
  end.

Definition deserializeConnections (fuel : nat) (plugs : list Plug) (base : list Z) (p : Plug) : option (bool * Plug) :=
  '(r1, i) ← deserializePlugVector fuel plugs (base ++ chars "/m_inputConnections") 0 (pg_inputConnections p);
  '(r2, o) ← deserializePlugVector fuel plugs (base ++ chars "/m_outputConnections") 0 (pg_outputConnections p);
  Some (r1 && r2, set_outputs o (set_inputs i p)).

Definition deserializeUpdateSubunit (subunit : Z * Z) (p : Plug) : Plug := set_subunit (getSubunit subunit.1 subunit.2) p.

(** The path of a plug is made from its global id, not from its place in the vector. *)
Fixpoint update_plugs (fuel : nat) (plugs : list Plug) (base : list Z) (rest : list (Plug * (Z * Z))) : option (bool * list Plug) :=
  match rest with
  | [] => Some (true, [])
  | (p, subunit) :: rest =>
      '(r1, q) ← deserializeConnections fuel plugs (base ++ chars "Plug" ++ print_int (pg_globalId p)) p;
      '(r2, l) ← update_plugs fuel plugs base rest;
      Some (r1 && r2, deserializeUpdateSubunit subunit q :: l)
  end.
Definition deserializeUpdate (fuel : nat) (base : list Z) (plugs : list (Plug * (Z * Z))) : option (bool * list Plug) :=
  update_plugs fuel (fst <$> plugs) base plugs.
End deserialize.

Definition PlugConnection_serialize {S} `{IOSer S} (gid : ploc -> Z) (base : list Z) (c : ploc * ploc) : st S bool :=
  all_of [io_write_int (base ++ chars "m_srcPlug") (gid c.1); io_write_int (base ++ chars "m_destPlug") (gid c.2)].
Definition PlugConnection_deserialize {D} `{IODeser D} (uninit : Z) (d : D) (plugs : list Plug) (base : list Z) : option (option (ploc * ploc)) :=
  if negb (io_isExisting (base ++ chars "m_srcPlug") d) then Some None else
  '(r1, a) ← read_as uninit d i32 (base ++ chars "m_srcPlug");
  '(r2, b) ← read_as uninit d i32 (base ++ chars "m_destPlug");
  if negb ((r1 : bool) && r2) then Some None else
  Some (a ← find_gid plugs a 0; b ← find_gid plugs b 0; Some (a, b)).

Lemma address_type_of_code t : address_type_of (address_type_code t) = Some t.
Proof. by destruct t. Qed.
Lemma direction_of_code d : direction_of (direction_code d) = Some d.
Proof. by destruct d. Qed.
Lemma plug_type_of_code t : plug_type_of (plug_type_code t) = Some t.
Proof. by destruct t. Qed.

Lemma code_range p : 0 <= address_type_code (pg_addressType p) < 8 /\ 0 <= direction_code (pg_direction p) < 8 /\ 0 <= plug_type_code (pg_infoPlugType p) < 8.
Proof. destruct (pg_addressType p), (pg_direction p), (pg_infoPlugType p); cbn; lia. Qed.

(** ** What an object writes *)

Definition channel_groups (c : PlugChannelInfo) : list group :=
  [member (chars "m_streamPosition") (print_int (ch_streamPosition c)); member (chars "m_location") (print_int (ch_location c)); member (chars "m_name") (ch_name c)].
Definition cluster_groups (c : ClusterInfo) : list group :=
  [member (chars "m_index") (print_int (ci_index c)); member (chars "m_portType") (print_int (ci_portType c)); member (chars "m_name") (ci_name c);
   member (chars "m_nrOfChannels") (print_int (ci_nrOfChannels c));
   vector (chars "m_channelInfo") ((fun x => Dir (children (channel_groups x))) <$> ci_channelInfos c);
   member (chars "m_streamFormat") (print_int (ci_streamFormat c))].
Definition format_groups (f : FormatInfo) : list group :=
  [member (chars "m_samplingFrequency") (print_int (fi_samplingFrequency f)); member (chars "m_isSyncStream") (print_int (Z.b2z (fi_isSyncStream f)));
   member (chars "m_audioChannels") (print_int (fi_audioChannels f)); member (chars "m_midiChannels") (print_int (fi_midiChannels f));
   member (chars "m_index") (print_int (fi_index f))].
Definition global_id_group (gid : ploc -> Z) (l : ploc) : list group := [member (chars "global_id") (print_int (gid l))].
Definition plug_groups (gid : ploc -> Z) (p : Plug) : list group :=
  [member (chars "m_subunitType") (print_int (plug_subunitType p)); member (chars "m_subunitId") (print_int (plug_subunitId p));
   member (chars "m_functionBlockType") (print_int (pg_functionBlockType p)); member (chars "m_functionBlockId") (print_int (pg_functionBlockId p));
   member (chars "m_addressType") (print_int (address_type_code (pg_addressType p))); member (chars "m_direction") (print_int (direction_code (pg_direction p)));
   member (chars "m_id") (print_int (pg_id p)); member (chars "m_infoPlugType") (print_int (plug_type_code (pg_infoPlugType p)));
   member (chars "m_nrOfChannels") (print_int (pg_nrOfChannels p)); member (chars "m_name") (pg_name p);
   vector (chars "m_clusterInfos") ((fun x => Dir (children (cluster_groups x))) <$> pg_clusterInfos p);
   member (chars "m_samplingFrequency") (print_int (pg_samplingFrequency p));
   vector (chars "m_formatInfo") ((fun x => Dir (children (format_groups x))) <$> pg_formatInfos p);
   vector (chars "m_inputConnections") ((fun x => Dir (children (global_id_group gid x))) <$> pg_inputConnections p);
   vector (chars "m_outputConnections") ((fun x => Dir (children (global_id_group gid x))) <$> pg_outputConnections p);
   member (chars "m_globalId") (print_int (pg_globalId p))].
Definition manager_groups (gid : ploc -> Z) (plugs : list Plug) (globalIdCounter : Z) : list group :=
  [vector (chars "Plug") ((fun x => Dir (children (plug_groups gid x))) <$> plugs); member (chars "Plugm_globalIdCounter") (print_int globalIdCounter)].

(** The values have the widths of the members, and the vectors are no longer than their indices can say. *)
Definition channel_fits (c : PlugChannelInfo) : Prop := 0 <= ch_streamPosition c < 2 ^ 8 /\ 0 <= ch_location c < 2 ^ 8.
Definition cluster_fits (fuel : nat) (c : ClusterInfo) : Prop :=
  - 2 ^ 31 <= ci_index c < 2 ^ 31 /\ 0 <= ci_portType c < 2 ^ 8 /\ 0 <= ci_nrOfChannels c < 2 ^ 8 /\ 0 <= ci_streamFormat c < 2 ^ 8
  /\ Forall channel_fits (ci_channelInfos c) /\ (length (ci_channelInfos c) < fuel)%nat.
Definition plug_fits (fuel : nat) (p : Plug) : Prop :=
  0 <= plug_subunitType p < 2 ^ 8 /\ 0 <= plug_subunitId p < 2 ^ 8 /\ 0 <= pg_functionBlockType p < 2 ^ 8 /\ 0 <= pg_functionBlockId p < 2 ^ 8
  /\ 0 <= pg_id p < 2 ^ 8 /\ 0 <= pg_nrOfChannels p < 2 ^ 8 /\ 0 <= pg_samplingFrequency p < 2 ^ 8 /\ 0 <= pg_globalId p < 2 ^ 31
  /\ Forall (cluster_fits fuel) (pg_clusterInfos p) /\ (length (pg_clusterInfos p) < fuel)%nat /\ (length (pg_formatInfos p) < fuel)%nat
  /\ (length (pg_inputConnections p) < fuel)%nat /\ (length (pg_outputConnections p) < fuel)%nat.

(** Groups that are written out are well formed. *)
Ltac groups_ok := repeat first [apply Forall_nil_2 | apply Forall_cons_2]; try solve [apply member_ok; [done|vm_compute; reflexivity]].
Ltac names_ok := cbn [map fst member vector]; apply (bool_decide_unpack _); vm_compute; exact I.

Lemma channel_ok c : Forall group_ok (channel_groups c) /\ NoDup (map fst (channel_groups c)).
Proof. unfold channel_groups. split; [groups_ok|names_ok]. Qed.

Lemma vector_of_ok {A} t (f : A -> list group) (l : list A) : t <> [] -> plain t -> zlength l < 10 ^ 20 ->
  Forall (fun x => Forall group_ok (f x) /\ NoDup (map fst (f x))) l -> group_ok (vector t ((fun x => Dir (children (f x))) <$> l)).
Proof.
  intros Ht Hp Hl F. apply vector_ok; [done|done|unfold zlength in *; by rewrite length_fmap|]. apply Forall_fmap. eapply Forall_impl; [|exact F].
  intros x [G N]. by apply children_wf.
Qed.

Definition short {A} (l : list A) : Prop := zlength l < 10 ^ 20.
Definition cluster_short (c : ClusterInfo) : Prop := short (ci_channelInfos c).
Definition plug_short (p : Plug) : Prop := Forall cluster_short (pg_clusterInfos p) /\ short (pg_clusterInfos p) /\ short (pg_formatInfos p)
  /\ short (pg_inputConnections p) /\ short (pg_outputConnections p).

Lemma cluster_ok c : cluster_short c -> Forall group_ok (cluster_groups c) /\ NoDup (map fst (cluster_groups c)).
Proof.
  intros Hc. unfold cluster_groups. split; [groups_ok|names_ok]. apply vector_of_ok; [done|by vm_compute|done|].
  apply Forall_true. intros. apply channel_ok.
Qed.
Lemma format_ok f : Forall group_ok (format_groups f) /\ NoDup (map fst (format_groups f)).
Proof. unfold format_groups. split; [groups_ok|names_ok]. Qed.
Lemma global_id_ok gid l : Forall group_ok (global_id_group gid l) /\ NoDup (map fst (global_id_group gid l)).
Proof. unfold global_id_group. split; [groups_ok|names_ok]. Qed.
Lemma plug_ok gid p : plug_short p -> Forall group_ok (plug_groups gid p) /\ NoDup (map fst (plug_groups gid p)).
Proof.
  intros (C1 & C2 & C3 & C4 & C5). unfold plug_groups. split; [groups_ok|names_ok]; apply vector_of_ok; try done.
  - eapply Forall_impl; [|exact C1]. apply cluster_ok.
  - apply Forall_true. intros. apply format_ok.
  - apply Forall_true. intros. apply global_id_ok.
  - apply Forall_true. intros. apply global_id_ok.
Qed.
Lemma manager_ok gid plugs n : short plugs -> Forall plug_short plugs -> Forall group_ok (manager_groups gid plugs n) /\ NoDup (map fst (manager_groups gid plugs n)).
Proof.
  intros Hs F. unfold manager_groups. split; [groups_ok|names_ok]. apply vector_of_ok; [done|by vm_compute|done|].
  eapply Forall_impl; [|exact F]. intros p. apply plug_ok.
Qed.

(** ** Writing *)

Section writing.
Context {S : Type} `{CacheSpec S} (gid : ploc -> Z).

Ltac path := first [apply splits_sub | apply splits_member]; [done | vm_compute; reflexivity].
Ltac members := apply puts_members; repeat first [apply Forall2_nil_2 | apply Forall2_cons_2]; try solve [first [apply puts_int | apply puts_str]; path].

Lemma puts_channel p T t c : splits p T t -> puts (write_channel p c) (T ++ [t]) (children (channel_groups c)).
Proof. intros Hs. unfold write_channel. members. Qed.

Lemma puts_vector_of {A} (w : list Z -> A -> st S bool) (f : A -> list (token * ctree)) base T t l : splits base T t -> short l ->
  Forall (fun x => forall p u, splits p T u -> puts (w p x) (T ++ [u]) (f x)) l ->
  puts (write_vector w base 0 l) T (vector t ((fun x => Dir (f x)) <$> l)).2.
Proof. intros Hs Hl F. by apply puts_vector. Qed.

Lemma puts_cluster p T t c : splits p T t -> cluster_short c -> puts (write_cluster p c) (T ++ [t]) (children (cluster_groups c)).
Proof.
  intros Hs Hc. unfold write_cluster. members. eapply puts_vector_of; [by apply splits_sub|done|]. apply Forall_true. intros. by apply puts_channel.
Qed.
Lemma puts_format p T t f : splits p T t -> puts (write_format p f) (T ++ [t]) (children (format_groups f)).
Proof. intros Hs. unfold write_format. members. Qed.

Lemma puts_global_id p T t l : splits p T t -> puts (io_write_int (p ++ chars "/global_id") (gid l)) (T ++ [t]) (children (global_id_group gid l)).
Proof. intros Hs. change (children (global_id_group gid l)) with (member (chars "global_id") (print_int (gid l))).2. by apply puts_int, splits_sub. Qed.

Lemma puts_plug b T p : splits b T [] -> plug_short p -> puts (Plug_serialize gid b p) T (children (plug_groups gid p)).
Proof.
  intros Hs (C1 & C2 & C3 & C4 & C5). unfold Plug_serialize. members; eapply puts_vector_of; try (by apply splits_member); try done.
  - eapply Forall_impl; [|exact C1]. intros. by apply puts_cluster.
  - apply Forall_true. intros. by apply puts_format.
  - apply Forall_true. intros. by apply puts_global_id.
  - apply Forall_true. intros. by apply puts_global_id.
Qed.

Lemma puts_manager b T plugs n : splits b T [] -> short plugs -> Forall plug_short plugs ->
  puts (PlugManager_serialize gid (b ++ chars "Plug") plugs n) T (children (manager_groups gid plugs n)).
Proof.
  intros Hs Hl F. unfold PlugManager_serialize, puts, manager_groups, children. cbn [map concat snd]. rewrite app_nil_r, entries_app. apply writes_both.
  - apply puts_vector_of; [by apply splits_member|done|]. eapply Forall_impl; [|exact F]. intros p Hp b' u Hb. apply puts_plug; [by apply splits_open|done].
  - rewrite <- app_assoc. apply puts_int. by apply (splits_member b T "Plugm_globalIdCounter").
Qed.
End writing.

(** Ids are the places of the plugs. *)
Definition ids_in_order (plugs : list Plug) : Prop := forall i p, plugs !! i = Some p -> pg_globalId p = Z.of_nat i.

Lemma find_gid_ok plugs : forall i l k, (forall j p, plugs !! j = Some p -> pg_globalId p = Z.of_nat (k + j)) -> (i < length plugs)%nat ->
  l = (k + i)%nat -> find_gid plugs (Z.of_nat l) k = Some l.
Proof.
  induction plugs as [|p plugs IH]; intros i l k Hp Hi ->; [cbn in Hi; lia|]. cbn [find_gid]. rewrite (Hp 0%nat p eq_refl).
  destruct (Z.eqb_spec (Z.of_nat (k + 0)) (Z.of_nat (k + i))); [f_equal; lia|].
  destruct i as [|i]; [lia|]. apply (IH i); [|cbn in Hi; lia|lia]. intros j q Hj. rewrite (Hp (S j) q Hj). f_equal. lia.
Qed.

(** ** Reading *)

Section reading.
Context {D : Type} `{CacheSpec D} (uninit : Z) (d : D) (E : list entry) (C : cs_holds d E).
Abbreviation any := (fun _ : token => True).

Lemma read_as_ok f a T P gs t v : view E T P (children gs) -> splits a T t -> member t (print_int v) ∈ gs -> - 10 ^ 20 < v < 10 ^ 20 -> f v = v ->
  read_as uninit d f a = Some (true, v).
Proof. intros V Hs Hin Hv Hf. unfold read_as. erewrite view_read_int; [cbn; by rewrite Hf|done|exact V|exact Hs|by apply member_in|done]. Qed.
Lemma read_str_ok a T P gs t v old : view E T P (children gs) -> splits a T t -> member t v ∈ gs -> io_read_str a old d = Some (true, v).
Proof. intros V Hs Hin. eapply view_read_str; [done|exact V|exact Hs|by apply member_in]. Qed.

Lemma obind_step {A B} (m : option A) (k : A -> option B) x r : m = Some x -> k x = r -> m ≫= k = r.
Proof. by intros ->. Qed.

Ltac path := first [eapply splits_sub | eapply splits_member]; [eassumption | vm_compute; reflexivity].
Ltac range := first [lia | done | apply wrapU_small; lia | apply wrapS_small; lia].
(** The next member. *)
Ltac rd := eapply obind_step; [first [eapply read_as_ok; [eassumption|path|in_list|range|range] | eapply read_str_ok; [eassumption|path|in_list]]|]; cbn beta iota.

Lemma read_channel_ok p T t c : splits p T t -> channel_fits c -> view E (T ++ [t]) any (children (channel_groups c)) -> read_channel uninit d p = Some (true, c).
Proof. intros Hs [F1 F2] V. unfold read_channel. do 3 rd. by destruct c. Qed.

(** What a cluster and a plug are after they were read. *)
Definition cached_cluster (c : ClusterInfo) : ClusterInfo :=
  mkClusterInfo (ci_index c) (ci_portType c) (ci_name c) (ci_nrOfChannels c) (ci_channelInfos c) (ci_streamFormat c) uninit.
Definition cached_plug (p : Plug) : Plug := set_formats [] (set_clusters (cached_cluster <$> pg_clusterInfos p) p).

Lemma fits_short {A} (l : list A) fuel : (length l < fuel)%nat -> Z.of_nat fuel < 10 ^ 20 -> short l.
Proof. unfold short, zlength. lia. Qed.

Context (fuel : nat) (Hfuel : Z.of_nat fuel < 10 ^ 20).

Lemma cluster_fits_short c : cluster_fits fuel c -> cluster_short c.
Proof. intros (_ & _ & _ & _ & _ & Hl). by eapply fits_short. Qed.
Lemma plug_fits_short p : plug_fits fuel p -> plug_short p.
Proof.
  intros (_ & _ & _ & _ & _ & _ & _ & _ & Fc & L1 & L2 & L3 & L4). split_and!; try by eapply fits_short.
  eapply Forall_impl; [|exact Fc]. apply cluster_fits_short.
Qed.

Lemma read_cluster_ok p T t c : splits p T t -> Forall (fun x => x <> []) (T ++ [t]) -> cluster_fits fuel c -> view E (T ++ [t]) any (children (cluster_groups c)) ->
  read_cluster uninit d fuel p = Some (true, cached_cluster c).
Proof.
  intros Hs Ho Fc V. pose proof (cluster_fits_short c Fc) as Sc. destruct (cluster_ok c Sc) as [G N]. destruct Fc as (F1 & F2 & F3 & F4 & F5 & F6).
  unfold read_cluster. do 4 rd. unfold deserializeChannelInfos.
  eapply obind_step; [apply (read_vector_ok d E (chars "m_streamPosition") _ (fun x => children (channel_groups x)) id _ (T ++ [t]) (chars "m_channelInfo")); [..|done]|].

  - eapply view_vector; [done|exact V|done|done|in_list|path|done|done|done].
  - by apply no_slash_check.
  - done.
  - eapply Forall_impl; [|exact F5]. intros x Hx p' u Hp' Hu Vx. split; [|by eapply read_channel_ok].
    eapply view_present; [done|exact Vx|by apply (splits_sub p' _ u "m_streamPosition")|]. apply member_in. in_list.
  - cbn beta iota. rd. by rewrite list_fmap_id.
Qed.

Lemma read_clusters_ok b T P p : splits b T [] -> Forall (fun x => x <> []) T -> plug_fits fuel p -> view E T any (children (plug_groups P p)) ->
  deserializeClusterInfos uninit d fuel (b ++ chars "m_clusterInfos") = Some (true, cached_cluster <$> pg_clusterInfos p).
Proof.
  intros Hs Ho Fp V. destruct (plug_ok P p (plug_fits_short p Fp)) as [G N]. pose proof (plug_fits_short p Fp) as (Fs & Cs & _).
  destruct Fp as (_ & _ & _ & _ & _ & _ & _ & _ & Fc & L1 & _). unfold deserializeClusterInfos.
  rewrite (read_vector_ok d E (chars "m_index") _ (fun x => children (cluster_groups x)) cached_cluster _ T (chars "m_clusterInfos") (pg_clusterInfos p)); [done|..|done].
  - eapply view_vector; [done|exact V|done|done|in_list|path|done|done|done].
  - by apply no_slash_check.
  - done.
  - eapply Forall_impl; [|exact Fc]. intros x Hx p' u Hp' Hu Vx. split.
    + eapply view_present; [done|exact Vx|by apply (splits_sub p' _ u "m_index")|]. apply member_in. in_list.
    + eapply read_cluster_ok; done.
Qed.

(** The formats are looked for under a name that is not the one they were written under. *)
Lemma read_formats_none b T P p : splits b T [] -> Forall (fun x => x <> []) T -> plug_short p -> view E T any (children (plug_groups P p)) -> (0 < fuel)%nat ->
  deserializeFormatInfos uninit d fuel (b ++ chars "m_formatInfos") = Some (true, []).
Proof.
  intros Hs Ho Sp V Hf. destruct (plug_ok P p Sp) as [G N]. unfold deserializeFormatInfos. destruct fuel as [|f]; [lia|]. cbn [read_vector].
  erewrite view_absent; [done|exact C|exact V|done| |apply splits_sub; [rewrite <- app_assoc; by apply (splits_member b T "m_formatInfos0")|done]|by eexists|].
  - intros K%children_kind; [|done]. revert K. cbn [map fst plug_groups member vector]. apply (bool_decide_unpack _). vm_compute. exact I.
  - apply Forall_app. split; [apply Forall_app; split; [done|]|]; by repeat constructor.
Qed.

(** [unit.getSubunit] *)
Context (getSubunit : Z -> Z -> option (Z * Z)).

(** A plug before the connections are read. *)
Definition loaded_plug (p : Plug) : Plug * (Z * Z) :=
  (set_subunit (getSubunit (plug_subunitType p) (plug_subunitId p)) (set_outputs [] (set_inputs [] (cached_plug p))), (plug_subunitType p, plug_subunitId p)).

Lemma Plug_deserialize_ok b T P p : splits b T [] -> Forall (fun x => x <> []) T -> plug_fits fuel p -> view E T any (children (plug_groups P p)) ->
  Plug_deserialize uninit d getSubunit fuel b = Some (Some (loaded_plug p)).
Proof.
  intros Hs Ho Fp V. unfold Plug_deserialize. erewrite view_present; [|done|exact V|by apply splits_member|apply member_in; in_list]. cbn [negb].
  pose proof (read_clusters_ok b T P p Hs Ho Fp V) as Ec. pose proof (plug_fits_short p Fp) as Sp.
  destruct Fp as (F1 & F2 & F3 & F4 & F5 & F6 & F7 & F8 & _ & L1 & _).
  pose proof (read_formats_none b T P p Hs Ho Sp V ltac:(lia)) as Ef.
  pose proof (code_range p) as (R1 & R2 & R3). do 5 rd. eapply obind_step; [by apply (address_type_of_code (pg_addressType p))|].
  rd. eapply obind_step; [by apply (direction_of_code (pg_direction p))|].
  do 2 rd. rewrite (proj2 (Z.ltb_ge (pg_globalId p) 0)) by lia. rd. eapply obind_step; [by apply (plug_type_of_code (pg_infoPlugType p))|].
  do 2 rd. eapply obind_step; [exact Ec|]. cbn beta iota. rd. eapply obind_step; [exact Ef|]. done.
Qed.

Lemma read_plugs_ok gid base T all : has_vector d E (fun x => children (plug_groups gid x)) base T (chars "Plug") all -> Forall (plug_fits fuel) all ->
  forall rest pre rounds acc, all = pre ++ rest -> (length rest < rounds)%nat ->
  read_plugs uninit d getSubunit rounds fuel base (zlength pre) acc = Some (acc ++ (loaded_plug <$> rest)).
Proof.
  intros V F. induction rest as [|x rest IH]; intros pre [|rounds] acc Ea Hr; [lia| |cbn in Hr; lia|]; cbn [read_plugs].
  - rewrite app_nil_r in Ea. subst pre. apply (obind_step _ _ None); [|cbn; by rewrite app_nil_r]. unfold Plug_deserialize.
    rewrite !app_assoc, <- (app_assoc _ [slash]). change ([slash] ++ chars "m_subunitType") with (slash :: chars "m_subunitType").
    rewrite (hv_stop _ _ _ _ _ _ _ _ V); [done|by apply no_slash_check|done].
  - assert (all !! length pre = Some x) as Ex by (subst all; by rewrite list_lookup_middle). pose proof (lookup_lt_Some _ _ _ Ex).
    rewrite list.Forall_forall in F. eapply obind_step.
    { rewrite app_assoc. eapply Plug_deserialize_ok; [apply splits_open; eapply hv_elem_splits; [exact V|unfold zlength; lia]|by eapply hv_elem_ok| |].
      - apply F. by eapply list_elem_of_lookup_2.
      - by apply (hv_elem _ _ _ _ _ _ _ V). }
    cbn beta iota. replace (zlength pre + 1) with (zlength (pre ++ [x])) by (rewrite zlength_app; done).
    rewrite (IH (pre ++ [x])); [by rewrite <- app_assoc|by rewrite <- app_assoc|cbn in Hr; lia].
Qed.

Lemma read_connections_ok plugs base T t all : ids_in_order plugs -> Z.of_nat (length plugs) <= 2 ^ 31 ->
  has_vector d E (fun x => children (global_id_group Z.of_nat x)) base T t all -> Forall (fun l => (l < length plugs)%nat) all ->
  forall rest pre n acc, all = pre ++ rest -> (length rest < n)%nat -> deserializePlugVector uninit d n plugs base (zlength pre) acc = Some (true, acc ++ rest).
Proof.
  intros I Hp V F. induction rest as [|x rest IH]; intros pre [|n] acc Ea Hn; [lia| |cbn in Hn; lia|]; cbn [deserializePlugVector]; rewrite (app_assoc base).
  - rewrite app_nil_r in Ea. subst pre. pose proof (hv_stop _ _ _ _ _ _ _ (chars "global_id") V (no_slash_check (chars "global_id") eq_refl) ltac:(done)) as Es.
    change (slash :: chars "global_id") with (chars "/global_id") in Es. by rewrite Es, app_nil_r.
  - assert (all !! length pre = Some x) as Ex by (subst all; by rewrite list_lookup_middle). pose proof (lookup_lt_Some _ _ _ Ex).
    pose proof (hv_elem _ _ _ _ _ _ _ V _ _ Ex) as Vx. assert (splits (base ++ print_int (zlength pre)) T (t ++ print_int (zlength pre))) as Hs.
    { eapply hv_elem_splits; [exact V|unfold zlength; lia]. }
    rewrite list.Forall_forall in F. specialize (F x (list_elem_of_lookup_2 _ _ _ Ex)).
    erewrite view_present; [|done|exact Vx|by apply splits_sub|apply member_in; in_list]. cbn [negb]. rd.
    rewrite (find_gid_ok plugs x x 0) by (done || intros; rewrite (I _ _ ltac:(eassumption)); done).
    replace (zlength pre + 1) with (zlength (pre ++ [x])) by (rewrite zlength_app; done).
    rewrite (IH (pre ++ [x])); [by rewrite <- app_assoc|by rewrite <- app_assoc|cbn in Hn; lia].
Qed.

(** The subunits can be found by their types and ids. *)
Definition subunit_known (p : Plug) : Prop := getSubunit (plug_subunitType p) (plug_subunitId p) = pg_subunit p.
Definition connections_in (n : nat) (p : Plug) : Prop :=
  Forall (fun l => (l < n)%nat) (pg_inputConnections p) /\ Forall (fun l => (l < n)%nat) (pg_outputConnections p).

Lemma Plug_connections_ok plugs b T t p : ids_in_order plugs -> Z.of_nat (length plugs) <= 2 ^ 31 -> splits b T t -> Forall (fun x => x <> []) (T ++ [t]) ->
  view E (T ++ [t]) any (children (plug_groups Z.of_nat p)) -> plug_fits fuel p -> connections_in (length plugs) p ->
  deserializeConnections uninit d fuel plugs b (loaded_plug p).1 =
    Some (true, set_subunit (getSubunit (plug_subunitType p) (plug_subunitId p)) (cached_plug p)).
Proof.
  intros I Hp Hs Ho V Fp [Ci Co]. destruct (plug_ok Z.of_nat p (plug_fits_short p Fp)) as [G N]. pose proof (plug_fits_short p Fp) as (_ & _ & _ & S1 & S2).
  destruct Fp as (_ & _ & _ & _ & _ & _ & _ & _ & _ & _ & _ & L3 & L4). unfold deserializeConnections.
  eapply obind_step.
  { apply (read_connections_ok plugs _ (T ++ [t]) (chars "m_inputConnections") (pg_inputConnections p) I Hp) with (pre := []); try done.
    eapply view_vector; [done|exact V|done|done|in_list|path|done|done|done]. }
  cbn beta iota. eapply obind_step.
  { apply (read_connections_ok plugs _ (T ++ [t]) (chars "m_outputConnections") (pg_outputConnections p) I Hp) with (pre := []); try done.
    eapply view_vector; [done|exact V|done|done|in_list|path|done|done|done]. }
  cbn. by destruct p.
Qed.

Lemma update_plugs_ok plugs b T all : ids_in_order plugs -> ids_in_order all -> Z.of_nat (length plugs) <= 2 ^ 31 -> splits b T [] ->
  has_vector d E (fun x => children (plug_groups Z.of_nat x)) (b ++ chars "Plug") T (chars "Plug") all ->
  Forall (fun p => plug_fits fuel p /\ connections_in (length plugs) p /\ subunit_known p) all ->
  forall rest pre, all = pre ++ rest -> update_plugs uninit d getSubunit fuel plugs b (loaded_plug <$> rest) = Some (true, cached_plug <$> rest).
Proof.
  intros I Ia Hp Hs V F. induction rest as [|x rest IH]; intros pre Ea; [done|]. cbn [fmap list_fmap update_plugs].
  assert (all !! length pre = Some x) as Ex by (subst all; by rewrite list_lookup_middle). pose proof (lookup_lt_Some _ _ _ Ex).
  rewrite list.Forall_forall in F. destruct (F x (list_elem_of_lookup_2 _ _ _ Ex)) as (Fx & Cx & Sx). unfold loaded_plug at 1.
  eapply obind_step.
  { apply (Plug_connections_ok plugs _ T (chars "Plug" ++ print_int (Z.of_nat (length pre))) x); try done.
    - cbn [pg_globalId set_subunit set_outputs set_inputs cached_plug set_formats set_clusters]. rewrite (Ia _ _ Ex), app_assoc.
      eapply hv_elem_splits; [exact V|unfold zlength; lia].
    - by eapply hv_elem_ok.
    - by apply (hv_elem _ _ _ _ _ _ _ V). }
  cbn beta iota. rewrite (IH (pre ++ [x])) by (by rewrite <- app_assoc). cbn. rewrite Sx. unfold deserializeUpdateSubunit. cbn [fst snd]. rewrite Sx. by destruct x.
Qed.
End reading.

(** ** Round trip *)

(** The names that the plug manager uses in its directory. *)
Definition plug_name (n : token) : Prop := kind n ∈ [chars "Plug"; chars "Plugm_globalIdCounter"].

Lemma loaded_ids uninit getSubunit plugs : ids_in_order plugs -> ids_in_order (fst <$> (loaded_plug uninit getSubunit <$> plugs)).
Proof.
  intros I i p. rewrite <- list_fmap_compose, list_lookup_fmap. intros (q & Hq & ->)%fmap_Some. by rewrite <- (I i q Hq).
Qed.

Lemma view_added E T (P : token -> Prop) l : (forall e n, e ∈ E -> P n -> apart (T ++ [n]) e.1) -> view (E ++ entries T l) T P l.
Proof.
  intros Hc. split; [intros e He; apply elem_of_app; by right|]. intros e n [He|He]%elem_of_app Hn Hp; [|done]. by destruct (Hc e n He Hn) as [[] _].
Qed.

(** A unit whose plugs are numbered in the order of the plug manager, with values of the widths of their members and connections to its own plugs,
    is written to any cache that has nothing under these names, and what is read back is the same counter and the same plugs with their clusters,
    channels and connections, in enough rounds for the longest vector; only the stream formats, which are looked for under another name than
    they were written under, and the build sources of the clusters, which are not written, are lost. *)
Theorem plugs_roundtrip {S : Type} `{CacheSpec S} (s : S) (E : list entry) (b : list Z) (T : list token) (plugs : list Plug) (counter uninit : Z)
    (getSubunit : Z -> Z -> option (Z * Z)) (fuel : nat) :
  cs_holds s E -> separate E -> splits b T [] -> Forall (fun x => x <> []) T -> (forall e n, e ∈ E -> plug_name n -> apart (T ++ [n]) e.1) ->
  ids_in_order plugs -> Forall (fun p => plug_fits fuel p /\ connections_in (length plugs) p /\ subunit_known getSubunit p) plugs ->
  - 2 ^ 31 <= counter < 2 ^ 31 -> (length plugs < fuel)%nat -> Z.of_nat fuel <= 2 ^ 31 ->
  exists s' loaded, PlugManager_serialize Z.of_nat (b ++ chars "Plug") plugs counter s = (true, s')
    /\ PlugManager_deserialize uninit s' getSubunit fuel (b ++ chars "Plug") = Some (loaded, counter)
    /\ deserializeUpdate uninit s' getSubunit fuel b loaded = Some (true, cached_plug uninit <$> plugs).
Proof.
  intros C Sep Hs Ho Hc I F Hn Hl Hf. assert (Forall (plug_fits fuel) plugs) as Ff by (eapply Forall_impl; [|exact F]; by intros p (? & _)).
  assert (Forall plug_short plugs) as Fs by (eapply Forall_impl; [|exact Ff]; intros p; by apply plug_fits_short; lia).
  assert (short plugs) as Sp by (unfold short, zlength; lia). destruct (manager_ok Z.of_nat plugs counter Sp Fs) as [G N].
  destruct (puts_run _ _ _ _ _ (puts_manager Z.of_nat b T plugs counter Hs Sp Fs) C Ho (children_wf _ G N) Sep) as (s' & Es & C' & _).
  { intros e n He Hn'. apply Hc; [done|]. by apply children_kind in Hn'. }
  pose proof (view_added E T plug_name (children (manager_groups Z.of_nat plugs counter)) Hc) as V.
  exists s', (loaded_plug uninit getSubunit <$> plugs). split; [done|].
  assert (has_vector s' (E ++ entries T (children (manager_groups Z.of_nat plugs counter))) (fun x => children (plug_groups Z.of_nat x)) (b ++ chars "Plug") T (chars "Plug") plugs) as Hv.
  { eapply view_vector; [done|exact V|done|done|in_list|by apply splits_member| |done|done]. intros n Hk. unfold plug_name. rewrite Hk. in_list. }
  split.
  - unfold PlugManager_deserialize. eapply obind_step.
    { rewrite <- app_assoc. eapply read_as_ok; [exact C'|exact V|by apply (splits_member b T "Plugm_globalIdCounter")|in_list|lia|by apply wrapS_small]. }
    cbn beta iota. eapply obind_step; [|done]. by apply (read_plugs_ok uninit _ _ C' fuel ltac:(lia) getSubunit _ _ _ _ Hv Ff plugs [] fuel []).
  - unfold deserializeUpdate. eapply (update_plugs_ok _ _ _ C' fuel ltac:(lia) getSubunit _ b T plugs); [by apply loaded_ids|done|rewrite !length_fmap; lia|done|exact Hv|by rewrite !length_fmap|].
    by instantiate (1 := []).
Qed.

(** A new document holds the version and nothing else. *)
Lemma new_document version : cs_holds (XMLSerialize_new version) [([CACHE_VERSION_path], version)].
Proof.
  eexists. split; [reflexivity|]. split.
  - intros p v [= -> ->]%list_elem_of_singleton. eexists. split; [vm_compute; reflexivity|done].
  - intros p Hp [Hn _]%Forall_cons_iff. destruct p as [|t ts]; [done|]. destruct (decide (CACHE_VERSION_path = t)) as [<-|Ht].
    + destruct ts as [|u us]; [by destruct Hn|]. rewrite find_cons, Node_get_eq by done. cbn [node_children].
      rewrite filter_cons, decide_True by done. cbn [mbind list_bind filter list_filter]. by rewrite find_leaf.
    + apply find_none. cbn [node_children]. by rewrite filter_cons, decide_False.
Qed.

(** Two connected plugs of a unit with a music subunit. *)
Definition example_plugs : list Plug :=
  [mkPlug None 0xff 0xff eAPA_PCR eAPD_Output 0 eAPT_IsoStream 2 (chars "PCR") [mkClusterInfo 1 0 (chars "Line") 2 [mkChannelInfo 1 1 (chars "L"); mkChannelInfo 2 2 (chars "R")] 6 0]
     4 [mkFormatInfo 4 false 2 0 0] [1%nat] [] 0;
   mkPlug (Some (0x0c, 0)) 0xff 0xff eAPA_SubunitPlug eAPD_Output 1 eAPT_IsoStream 2 [] [] 4 [] [] [0%nat] 1].
Definition example_subunits (t i : Z) : option (Z * Z) := if t =? 0x0c then Some (t, i) else None.

Lemma plugs_roundtrip_witness : exists s' loaded,
  PlugManager_serialize Z.of_nat (chars "0/" ++ chars "Plug") example_plugs 2 (XMLSerialize_new (chars "2.4")) = (true, s')
  /\ PlugManager_deserialize 0 s' example_subunits 9 (chars "0/" ++ chars "Plug") = Some (loaded, 2)
  /\ deserializeUpdate 0 s' example_subunits 9 (chars "0/") loaded = Some (true, cached_plug 0 <$> example_plugs).
Proof.
  apply (plugs_roundtrip (XMLSerialize_new (chars "2.4")) _ (chars "0/") [chars "0"] example_plugs 2 0 example_subunits 9 (new_document _)).
  - repeat constructor.
  - reflexivity.
  - repeat constructor. done.
  - intros e n ->%list_elem_of_singleton _. split; intros [k Hk]; discriminate Hk.
  - intros [|[|i]] p Hp; simplify_eq/=; done.
  - repeat first [apply Forall_nil_2 | apply Forall_cons_2 | progress (unfold plug_fits, cluster_fits, channel_fits, connections_in; cbn; split_and!)]; first [lia | reflexivity | unfold eST_Unit; lia].
  - lia.
  - cbn. lia.
  - lia.
Defined.

(** The connections that are read back for plugs with any ids. *)
Definition reloaded_connections (plugs : list Plug) : option (list (list ploc * list ploc)) :=
  let gid l := match plugs !! l with Some p => pg_globalId p | None => 0 end in
  let d := (PlugManager_serialize gid (chars "Plug") plugs 2 (XMLSerialize_new [])).2 in
  '(loaded, _) ← PlugManager_deserialize 0 d (fun _ _ => None) 9 (chars "Plug");
  '(_, l) ← deserializeUpdate 0 d (fun _ _ => None) 9 [] loaded;
  Some (map (fun p => (pg_inputConnections p, pg_outputConnections p)) l).

(** A plug whose id is not its place gets the connections that were written for the plug at that place. *)
Example connections_of_another_plug :
  let first := mkPlug None 0 0 eAPA_PCR eAPD_Output 0 eAPT_Midi 0 [] [] 0 [] [] [1%nat] 1 in
  let second := mkPlug None 0 0 eAPA_PCR eAPD_Input 0 eAPT_Midi 0 [] [] 0 [] [0%nat] [] 0 in
  reloaded_connections [first; second] = Some [([0%nat], []); ([], [1%nat])].
Proof. vm_compute. reflexivity. Qed.
