(* ===== verification/PlugDiscovery.v ===== *)
(** * Discovery of a plug by commands

    Model of the functions of [src/libavc/general/avc_plug.cpp] that ask the device about a plug: number of channels, clusters, stream format,
    supported formats, signal source, connections and sample rate; and of the conversions in [libavc/avc_definitions.cpp].

    A command is fired over the bus service of the unit.  The command objects that a function returns are the ones it built: the copy is elided.
    [fuel] bounds the rounds of the loops that ask for one format after the other. *)
From stdpp Require Import gmap strings.
From S2P Require Import Prelude ByteSwap CmdSerialize Fcp AvcCommands AvcExchange PlugAddress StreamFormat Descriptors MusicDescriptor Plugs XmlCache.
#[local] Open Scope Z_scope.

(** ** Sampling frequencies and subunit types *)

Definition eSF_table : list (Z * Z) :=
  [(0x00, 22050); (0x01, 24000); (0x02, 32000); (0x03, 44100); (0x04, 48000); (0x0A, 88200); (0x05, 96000); (0x06, 176400); (0x07, 192000)].

Definition convertESamplingFrequency (freq : Z) : Z :=
  match find (fun e => e.1 =? freq) eSF_table with
  | Some e => e.2
  | None => if freq =? 0x0B then 48000 else if freq =? 0x0C then 96000 else if freq =? 0x0D then 192000 else 0
  end.
Definition parseSampleRate (sampleRate : Z) : Z :=
  match find (fun e => e.2 =? sampleRate) eSF_table with Some e => e.1 | None => eSF_DontCare end.

Definition byteToSubunitType (s : Z) : Z :=
  if (s <=? 0x07) || ((0x09 <=? s) && (s <=? 0x0C)) || ((0x1C <=? s) && (s <=? 0x1E)) then s else eST_Unit.

(** The IEC 61883-6 sample rate codes. *)
Definition fdf_table : list (Z * Z) := [(0x00, 32000); (0x01, 44100); (0x02, 48000); (0x03, 88200); (0x04, 96000); (0x05, 176400); (0x06, 192000)].
Definition fdfSfcToSampleRate (fdf : Z) : Z := match find (fun e => e.1 =? fdf .& 0x07) fdf_table with Some e => e.2 | None => 0 end.
Definition sampleRateToFdfSfc (rate : Z) : Z := match find (fun e => e.2 =? rate) fdf_table with Some e => e.1 | None => 0x07 end.

(** ** Names *)

Definition plugAddressTypeToString (t : EPlugAddressType) : list Z :=
  chars match t with
        | eAPA_PCR => "PCR" | eAPA_ExternalPlug => "External" | eAPA_AsynchronousPlug => "Async" | eAPA_SubunitPlug => "Subunit"
        | eAPA_FunctionBlockPlug => "Function Block" | eAPA_Undefined => "Undefined"
        end.
Definition plugTypeToString (t : EPlugType) : list Z :=
  chars match t with
        | eAPT_IsoStream => "IsoStream" | eAPT_AsyncStream => "AsyncStream" | eAPT_Midi => "MIDI" | eAPT_Sync => "Sync"
        | eAPT_Analog => "Analog" | eAPT_Digital => "Digital" | eAPT_Unknown => "Unknown"
        end.
Definition plugDirectionToString (d : EPlugDirection) : list Z :=
  chars match d with eAPD_Input => "Input" | eAPD_Output => "Output" | eAPD_Unknown => "Unknown" end.

Definition discoverName (l : ploc) : M bool :=
  update l (fun p => match pg_name p with
                     | [] => set_plug_name (plugAddressTypeToString (pg_addressType p) ++ chars " " ++ plugTypeToString (pg_infoPlugType p)
                                            ++ chars " " ++ plugDirectionToString (pg_direction p)) p
                     | _ => p
                     end) ;;
  mret true.

(** ** Commands *)

Definition with_service (s : Ieee1394Service) (w : PlugWorld) : PlugWorld := mkPlugWorld (pw_heap w) (pw_plugs w) (pw_globalIdCounter w) s.

Definition set_cmd_base {T} `{AVCCmd T} (f : AVCCommand -> AVCCommand) (c : T) : T := cmd_set_base (f (cmd_base c)) c.

Section discovery.
Context (be DEBUG : bool) (uninit : Z) (bus : nat -> Z -> list Z -> fcp_try) (nodeId : Z).

Definition fire_command {T} `{AVCCmd T} (c : T) : M (bool * T) := fun w =>
  let '(r, s) := fire be DEBUG uninit bus c (pw_service w) in Some (r, with_service s w).

Definition unit_plug_type (t : EPlugAddressType) : Z :=
  match t with eAPA_PCR => 0x00 | eAPA_ExternalPlug => 0x01 | eAPA_AsynchronousPlug => 0x02 | _ => 0xff end.

Definition stream_format_address (p : Plug) : option PlugAddress :=
  let t := plug_subunitType p in
  let d := convertPlugDirection (pg_direction p) in
  if t =? eST_Unit then Some (PlugAddress_new d ePAM_Unit (UnitPlugAddress_new (unit_plug_type (pg_addressType p)) (pg_id p)))
  else if (t =? eST_Music) || (t =? eST_Audio) then
    Some match pg_addressType p with
         | eAPA_SubunitPlug => PlugAddress_new d ePAM_Subunit (SubunitPlugAddress_new (pg_id p))
         | eAPA_FunctionBlockPlug => PlugAddress_new d ePAM_FunctionBlock (FunctionBlockPlugAddress_new (pg_functionBlockType p) (pg_functionBlockId p) (pg_id p))
         | _ => PlugAddress_undefined
         end
  else None.

Definition setPlugAddrToStreamFormatCmd (subFunction : Z) (p : Plug) : ExtendedStreamFormatCmd :=
  let c := ExtendedStreamFormatCmd_new uninit subFunction in
  let c := match stream_format_address p with Some a => setPlugAddress a c | None => c end in
  set_cmd_base (fun b => setSubunitType (plug_subunitType p) (setSubunitId (plug_subunitId p) (setCommandType eCT_Status (setNodeId nodeId b)))) c.

Definition eSF_ExtendedStreamFormatInformationCommand : Z := 0xC0.
Definition eS_NoStreamFormat : Z := 0x02.

(** The streams of an answer that has Audio and Music format information. *)
Definition audio_music_streams (c : ExtendedStreamFormatCmd) : option (option FormatInformationStreams) :=
  if (m_status c =? eS_NoStreamFormat) || (m_status c =? eS_NotUsed) then None
  else if negb (m_root (m_formatInformation c) =? eFHR_AudioMusic) then None
  else Some (m_streams (m_formatInformation c)).

(** The first [n] infos; an index past the end is undefined. *)
Definition first_infos (c : FormatInformationStreamsCompound) : M (list StreamFormatInfo) := fun w =>
  if zlength (m_streamFormatInfos c) <? m_numberOfStreamFormatInfos c then None
  else Some (take (Z.to_nat (m_numberOfStreamFormatInfos c)) (m_streamFormatInfos c), w).

Definition discoverNoOfChannels (l : ploc) : M bool :=
  p ← deref l;
  if negb (pg_nrOfChannels p =? 0) then mret true else
  '(ok, c) ← fire_command (setPlugAddrToStreamFormatCmd eSF_ExtendedStreamFormatInformationCommand p);
  if negb (ok : bool) then mret false else
  match audio_music_streams c with
  | Some (Some (FICompound cp)) =>
      infos ← first_infos cp;
      update l (set_channels (u8 (foldr (fun i n => m_numberOfChannels i + n) 0 infos))) ;;
      mret true
  | _ => mret true
  end.

Definition temp_cluster (n : Z) : ClusterInfo :=
  mkClusterInfo 1 0 (chars "Unknown") n ((fun i => mkChannelInfo (u8 (Z.of_nat i)) 0xFF (chars "Unknown")) <$> seq 0 (Z.to_nat n)) 0xFF (-1).

Definition discoverClusterInfo (l : ploc) : M bool :=
  update l (fun p => match pg_clusterInfos p with [] => set_clusters [temp_cluster (pg_nrOfChannels p)] p | _ => p end) ;;
  mret true.

(** The first cluster of this index gets the format of the stream. *)
Fixpoint set_stream_format (index fmt : Z) (cs : list ClusterInfo) : list ClusterInfo :=
  match cs with
  | [] => []
  | c :: cs =>
      if ci_index c =? index
      then mkClusterInfo (ci_index c) (ci_portType c) (ci_name c) (ci_nrOfChannels c) (ci_channelInfos c) fmt (ci_buildSource c) :: cs
      else c :: set_stream_format index fmt cs
  end.
Fixpoint set_stream_formats (i : Z) (infos : list StreamFormatInfo) (cs : list ClusterInfo) : list ClusterInfo :=
  match infos with
  | [] => cs
  | x :: infos => set_stream_formats (i + 1) infos (set_stream_format i (m_streamFormat x) cs)
  end.

Definition discoverStreamFormat (l : ploc) : M bool :=
  p ← deref l;
  '(ok, c) ← fire_command (setPlugAddrToStreamFormatCmd eSF_ExtendedStreamFormatInformationCommand p);
  if negb (ok : bool) then mret false else
  match audio_music_streams c with
  | None => mret true
  | Some (Some (FICompound cp)) =>
      infos ← first_infos cp;
      update l (fun p => set_clusters (set_stream_formats 1 infos (pg_clusterInfos p)) (set_frequency (cp_samplingFrequency cp) p)) ;;
      mret true
  | Some (Some (FISync s)) => update l (set_frequency (sy_samplingFrequency s)) ;; mret true
  | Some None => mret false
  end.

(** *** Supported formats *)

Definition AVC1394_STREAM_FORMAT_AM824_IEC60958_3 : Z := 0x00.
Definition AVC1394_STREAM_FORMAT_AM824_MULTI_BIT_LINEAR_AUDIO_RAW : Z := 0x06.
Definition AVC1394_STREAM_FORMAT_AM824_MIDI_CONFORMANT : Z := 0x0D.

(** Channels of one stream; the flag says that its format is known. *)
Definition count_stream (x : StreamFormatInfo) (r : bool * FormatInfo) : bool * FormatInfo :=
  let '(ok, f) := r in
  let t := m_streamFormat x in
  let n := m_numberOfChannels x in
  if (t =? AVC1394_STREAM_FORMAT_AM824_IEC60958_3) || (t =? AVC1394_STREAM_FORMAT_AM824_MULTI_BIT_LINEAR_AUDIO_RAW)
  then (ok, mkFormatInfo (fi_samplingFrequency f) (fi_isSyncStream f) (u8 (fi_audioChannels f + n)) (fi_midiChannels f) (fi_index f))
  else if t =? AVC1394_STREAM_FORMAT_AM824_MIDI_CONFORMANT
  then (ok, mkFormatInfo (fi_samplingFrequency f) (fi_isSyncStream f) (fi_audioChannels f) (u8 (fi_midiChannels f + n)) (fi_index f))
  else (false, f).

Definition format_of_streams (i : Z) (s : option FormatInformationStreams) : M (bool * FormatInfo) :=
  let f := mkFormatInfo (fi_samplingFrequency FormatInfo_new) (fi_isSyncStream FormatInfo_new) 0 0 (u8 i) in
  match s with
  | Some (FISync s) => mret (true, mkFormatInfo (sy_samplingFrequency s) true 0 0 (u8 i))
  | Some (FICompound cp) =>
      infos ← first_infos cp;
      mret (fold_left (fun r x => count_stream x r) infos (true, mkFormatInfo (cp_samplingFrequency cp) false 0 0 (u8 i)))
  | None => mret (true, f)
  end.

Fixpoint discover_formats (fuel : nat) (l : ploc) (i : Z) (c : ExtendedStreamFormatCmd) : M bool :=
  match fuel with
  | O => fun _ => None
  | S fuel =>
      '(ok, c) ← fire_command (set_cmd_base (setCommandType eCT_Status) (setIndexInStreamFormat i c));
      if (ok : bool) && (getResponse (es_base c) =? eR_Implemented) then
        '(valid, f) ← format_of_streams i (m_streams (m_formatInformation c));
        (if (valid : bool) then update l (fun p => set_formats (pg_formatInfos p ++ [f]) p) else mret tt) ;;
        discover_formats fuel l (i + 1) c
      else mret true
  end.
Definition discoverSupportedStreamFormats (fuel : nat) (l : ploc) : M bool :=
  p ← deref l;
  discover_formats fuel l 0 (setPlugAddrToStreamFormatCmd eSF_ExtendedStreamFormatInformationCommandList p).

(** *** Signal sources and connections *)

(** The address of a plug in a SIGNAL SOURCE command; plugs of other subunits have none. *)
Definition signal_address (p : Plug) : option SignalAddress :=
  let t := plug_subunitType p in
  if t =? eST_Unit then
    Some (SignalUnitAddress (if decide (pg_addressType p = eAPA_ExternalPlug) then u8 (pg_id p + 0x80) else pg_id p))
  else if (t =? eST_Music) || (t =? eST_Audio) then Some (SignalSubunitAddress (u8 t) (plug_subunitId p) (pg_id p))
  else None.

Definition to_unit (b : AVCCommand) : AVCCommand := setSubunitId 0xff (setSubunitType eST_Unit (setNodeId nodeId b)).

Definition setSrcPlugAddrToSignalCmd (p : Plug) : SignalSourceCmd :=
  let c := SignalSourceCmd_new uninit in
  let c := match signal_address p with Some a => setSignalSource a c | None => c end in
  set_cmd_base to_unit c.
Definition setDestPlugAddrToSignalCmd (c : SignalSourceCmd) (p : Plug) : SignalSourceCmd :=
  match signal_address p with Some a => setSignalDestination a c | None => c end.

(** [inquireConnnection] and [setConnection]: the command with its type, and the response that means success. *)
Definition connection_command (ctype response : Z) (self plug : ploc) : M bool :=
  p ← deref self;
  q ← deref plug;
  '(ok, c) ← fire_command (set_cmd_base (setCommandType ctype) (setDestPlugAddrToSignalCmd (setSrcPlugAddrToSignalCmd p) q));
  if negb (ok : bool) then mret false else mret (getResponse (ss_base c) =? response).
Definition inquireConnnection : ploc -> ploc -> M bool := connection_command eCT_SpecificInquiry eR_Implemented.
Definition setConnection : ploc -> ploc -> M bool := connection_command eCT_Control eR_Accepted.

(** The SIGNAL SOURCE command is for outputs of the unit and inputs of subunits. *)
Definition has_signal_source (p : Plug) : bool :=
  match pg_addressType p with
  | eAPA_PCR | eAPA_ExternalPlug => bool_decide (pg_direction p = eAPD_Output)
  | eAPA_SubunitPlug => bool_decide (pg_direction p = eAPD_Input)
  | _ => true
  end.

Definition find_source (a : option SignalAddress) : M (option ploc) :=
  match a with
  | Some (SignalUnitAddress i) =>
      if i =? 0xFE then mret None
      else if negb (i .& 0x80 =? 0) then getPlug eST_Unit 0xFF 0xFF 0xFF eAPA_ExternalPlug eAPD_Input (i .& 0x7F)
      else getPlug eST_Unit 0xFF 0xFF 0xFF eAPA_PCR eAPD_Input (i .& 0x7F)
  | Some (SignalSubunitAddress t n i) =>
      if i =? 0xFE then mret None else getPlug (byteToSubunitType t) n 0xFF 0xFF eAPA_SubunitPlug eAPD_Output i
  | None => mret None
  end.

(** The global id, or -1. *)
Definition getSignalSource (self : ploc) : M Z :=
  p ← deref self;
  if negb (has_signal_source p) then mret (-1) else
  let c := set_cmd_base to_unit (SignalSourceCmd_new uninit) in
  let c := setSignalSource (SignalSubunitAddress 0xFF 0xFF 0xFE) c in
  '(ok, c) ← fire_command (set_cmd_base (setCommandType eCT_Status) (setDestPlugAddrToSignalCmd c p));
  if negb (ok : bool) then mret (-1) else
  if negb (getResponse (ss_base c) =? eR_Implemented) then mret (-1) else
  r ← find_source (m_signalSource c);
  match r with
  | None => mret (-1)
  | Some l => q ← deref l; mret (pg_globalId q)
  end.

Definition discoverConnectionsInput (self : ploc) : M bool :=
  update self (set_inputs []) ;;
  g ← getSignalSource self;
  if g <? 0 then mret true else
  r ← getPlug_by_id g;
  match r with
  | None => mret false
  | Some l => update self (fun p => set_inputs (addPlugConnection (pg_inputConnections p) l) p) ;; mret true
  end.
Definition discoverConnectionsOutput (self : ploc) : M bool := mret true.
Definition discoverConnections (self : ploc) : M bool :=
  r ← discoverConnectionsInput self;
  if (r : bool) then discoverConnectionsOutput self else mret false.

(** *** Sample rates *)

(** The plug signal format command for a direction. *)
Definition signal_format_command (d : EPlugDirection) : option SignalFormatCmd :=
  match d with
  | eAPD_Input => Some (InputPlugSignalFormatCmd_new uninit)
  | eAPD_Output => Some (OutputPlugSignalFormatCmd_new uninit)
  | eAPD_Unknown => None
  end.

Definition getSampleRate (self : ploc) : M Z :=
  p ← deref self;
  if decide (pg_addressType p = eAPA_PCR) then
    match signal_format_command (pg_direction p) with
    | None => mret 0
    | Some c =>
        let c := mkSignalFormat (setCommandType eCT_Status (to_unit (sf_base c))) (pg_id p) 0xFF 0xFF 0xFF (m_fdf0 c) (m_fdf1 c) (m_fdf2 c) in
        '(ok, c) ← fire_command c;
        if negb (ok : bool) then mret 0 else mret (fdfSfcToSampleRate (m_fdf0 c))
    end
  else mret (convertESamplingFrequency (pg_samplingFrequency p)).

(** The first supported format of a sampling frequency: whether the last command succeeded, whether a format was found, and the command. *)
Definition streams_frequency (s : option FormatInformationStreams) : Z :=
  match s with
  | Some (FICompound cp) => cp_samplingFrequency cp
  | Some (FISync s) => sy_samplingFrequency s
  | None => eSF_DontCare
  end.
Fixpoint find_format (fuel : nat) (i freq : Z) (c : ExtendedStreamFormatCmd) : M (bool * bool * ExtendedStreamFormatCmd) :=
  match fuel with
  | O => fun _ => None
  | S fuel =>
      '(ok, c) ← fire_command (set_cmd_base (setCommandType eCT_Status) (setIndexInStreamFormat i c));
      if (ok : bool) && (getResponse (es_base c) =? eR_Implemented) then
        if streams_frequency (m_streams (m_formatInformation c)) =? freq then mret (ok, true, c) else find_format fuel (i + 1) freq c
      else mret (ok, false, c)
  end.

(** The command that lists the formats of a unit plug. *)
Definition format_list_command (p : Plug) : ExtendedStreamFormatCmd :=
  set_cmd_base (fun b => setCommandType eCT_Status (setNodeId nodeId b))
    (setPlugAddress (PlugAddress_new (convertPlugDirection (pg_direction p)) ePAM_Unit (UnitPlugAddress_new ePT_PCR (pg_id p)))
       (ExtendedStreamFormatCmd_new uninit eSF_ExtendedStreamFormatInformationCommandList)).

(** The formats of the plug are searched for one of this rate, which is then set. *)
Definition set_format_of_rate (fuel : nat) (rate : Z) (p : Plug) : M bool :=
  '(ok, found, c) ← find_format fuel 0 (parseSampleRate rate) (format_list_command p);
  if negb (ok : bool) then mret false else
  if negb (found : bool) then mret false else
  '(ok, _) ← fire_command (set_cmd_base (setCommandType eCT_Control)
                             (ExtendedStreamFormatCmd_setSubFunction eSF_ExtendedStreamFormatInformationCommand c));
  mret (ok : bool).

Definition setSampleRate (fuel : nat) (rate : Z) (self : ploc) : M bool :=
  p ← deref self;
  if decide (pg_addressType p = eAPA_PCR) then
    match signal_format_command (pg_direction p) with
    | None => mret false
    | Some c =>
        let c := mkSignalFormat (setCommandType eCT_Control (to_unit (sf_base c))) (pg_id p) 1 0 0x10 (sampleRateToFdfSfc (u32 rate)) 0xFF 0xFF in
        '(ok, c) ← fire_command c;
        if negb (ok : bool) then mret false else
        if getResponse (sf_base c) =? eR_Accepted then mret true else set_format_of_rate fuel rate p
    end
  else set_format_of_rate fuel rate p.

Definition supportsSampleRate (fuel : nat) (rate : Z) (self : ploc) : M bool :=
  p ← deref self;
  '(ok, found, _) ← find_format fuel 0 (parseSampleRate rate) (format_list_command p);
  mret ((ok : bool) && found).
End discovery.

(** ** Lemmas on commands *)

Section answers.
Context (be DEBUG : bool) (uninit : Z) (bus : nat -> Z -> list Z -> fcp_try).

(** The device answers the well-formed command [c] with the frame of [v]. *)
Definition answers {T} `{AVCCmdSpec T} (c v : T) : Prop :=
  cmd_ok c /\ cmd_ok v /\ cmd_reads (set_cmd_base (set_response (m_ctype (cmd_base v))) c) v /\ m_nodeId (cmd_base c) <> INVALID_NODE_ID
  /\ expected_response (m_ctype (cmd_base v)) = true /\ device_answers be DEBUG bus (m_nodeId (cmd_base c)) (cmd_bytes c) (cmd_bytes v).

(** The command object after that. *)
Definition answered {T} `{AVCCmdSpec T} (c v : T) : T := cmd_recv (set_cmd_base (set_response (m_ctype (cmd_base v))) c) v.

(** A step leaves the plugs as they are. *)
Definition same_plugs (w w' : PlugWorld) : Prop :=
  pw_heap w' = pw_heap w /\ pw_plugs w' = pw_plugs w /\ pw_globalIdCounter w' = pw_globalIdCounter w /\ m_filterFCPResponse (pw_service w') = m_filterFCPResponse (pw_service w).

Lemma fire_command_ok {T} `{AVCCmdSpec T} (c v : T) w : answers c v -> m_filterFCPResponse (pw_service w) = false ->
  exists w', fire_command be DEBUG uninit bus c w = Some ((true, answered c v), w') /\ same_plugs w w'.
Proof.
  intros (Hc & Hv & Hr & Hn & X & (A1 & A2 & A3 & (f & Hin & A & D) & U)) F.
  pose proof (cmd_size c Hc). pose proof (cmd_size v Hv) as Sv.
  assert (nth 0 (cmd_bytes v) 0 = m_ctype (cmd_base v)) as E0.
  { pose proof (cmd_head v) as Hh. destruct (cmd_bytes v) as [|b l]; [done|]. simpl in Hh. by injection Hh. }
  destruct (fire_answered be DEBUG uninit bus c c c (answered c v) (cmd_bytes c) (cmd_bytes v) true (pw_service w) f) as (s' & E & L); try done; try lia.
  - exact (cmd_emits be (H1 := buffer_serialize_spec be) c Hc).
  - rewrite E0. apply parses_reads. exact (cmd_parses be (H1 := buffer_deserialize_spec be) uninit _ v Hv Hr).
  - unfold fire_command. pose proof (fire_filter be DEBUG uninit bus c (pw_service w)) as Ff. rewrite E in *. eexists. split; [by rewrite E0, X, (serialize_dbg_id (answered c v))|]. by split_and!.
Qed.
End answers.

(** ** The formats that a plug supports *)

Definition is_audio (x : StreamFormatInfo) : bool :=
  (m_streamFormat x =? AVC1394_STREAM_FORMAT_AM824_IEC60958_3) || (m_streamFormat x =? AVC1394_STREAM_FORMAT_AM824_MULTI_BIT_LINEAR_AUDIO_RAW).
Definition is_midi (x : StreamFormatInfo) : bool := m_streamFormat x =? AVC1394_STREAM_FORMAT_AM824_MIDI_CONFORMANT.
Definition sum_channels (l : list StreamFormatInfo) : Z := foldr (fun x n => m_numberOfChannels x + n) 0 l.

(** What a format stands for: the rate and the numbers of audio and MIDI channels.  A format with other streams is left out. *)
Definition supported_format (i : Z) (s : option FormatInformationStreams) : option FormatInfo :=
  match s with
  | Some (FISync s) => Some (mkFormatInfo (sy_samplingFrequency s) true 0 0 (u8 i))
  | Some (FICompound cp) =>
      let l := m_streamFormatInfos cp in
      if forallb (fun x => is_audio x || is_midi x) l
      then Some (mkFormatInfo (cp_samplingFrequency cp) false (u8 (sum_channels (List.filter is_audio l))) (u8 (sum_channels (List.filter is_midi l))) (u8 i))
      else None
  | None => None
  end.

Lemma u8_byte x : 0 <= u8 x < 256.
Proof. by apply (wrapU_range 8). Qed.

Lemma count_streams l : forall f ok, exists f', fold_left (fun r x => count_stream x r) l (ok, f) = (ok && forallb (fun x => is_audio x || is_midi x) l, f')
  /\ (forallb (fun x => is_audio x || is_midi x) l = true -> 0 <= fi_audioChannels f < 256 -> 0 <= fi_midiChannels f < 256 ->
      f' = mkFormatInfo (fi_samplingFrequency f) (fi_isSyncStream f) (u8 (fi_audioChannels f + sum_channels (List.filter is_audio l)))
             (u8 (fi_midiChannels f + sum_channels (List.filter is_midi l))) (fi_index f)).
Proof.
  induction l as [|x l IH]; intros f ok; cbn [fold_left].
  - exists f. cbn. rewrite andb_true_r. split; [done|]. intros _ Ha Hm. rewrite !Z.add_0_r, !wrapU_small by lia. by destruct f.
  - unfold count_stream at 2. cbn [forallb List.filter]. change (_ || _) with (is_audio x) at 1. change (_ =? _) with (is_midi x) at 1.
    assert (is_audio x = true -> is_midi x = false) as Ex.
    { unfold is_audio, is_midi, AVC1394_STREAM_FORMAT_AM824_IEC60958_3, AVC1394_STREAM_FORMAT_AM824_MULTI_BIT_LINEAR_AUDIO_RAW, AVC1394_STREAM_FORMAT_AM824_MIDI_CONFORMANT. lia. }
    destruct (is_audio x) eqn:Ea; [rewrite (Ex eq_refl)|destruct (is_midi x) eqn:Em]; cbn [orb andb].
    + edestruct IH as (f' & E & Hf); eexists; split; [exact E|]. intros K Ha Hm. rewrite Hf by first [exact K | exact Ha | exact Hm | apply u8_byte].
      cbn [fi_audioChannels fi_midiChannels fi_samplingFrequency fi_isSyncStream fi_index sum_channels foldr]. f_equal. by rewrite wrapU_add_l, Z.add_assoc.
    + edestruct IH as (f' & E & Hf); eexists; split; [exact E|]. intros K Ha Hm. rewrite Hf by first [exact K | exact Ha | exact Hm | apply u8_byte].
      cbn [fi_audioChannels fi_midiChannels fi_samplingFrequency fi_isSyncStream fi_index sum_channels foldr]. f_equal. by rewrite wrapU_add_l, Z.add_assoc.
    + edestruct (IH f false) as (f' & E & _). eexists. rewrite E, andb_false_r. done.
Qed.

Section formats.
Context (be DEBUG : bool) (uninit : Z) (bus : nat -> Z -> list Z -> fcp_try).

(** The request for format [i] with the command object [c]. *)
Definition format_request (i : Z) (c : ExtendedStreamFormatCmd) : ExtendedStreamFormatCmd :=
  set_cmd_base (setCommandType eCT_Status) (setIndexInStreamFormat i c).

(** The device describes the formats [vs] one by one when it is asked with [c], from index [i] on, and refuses the next index with [last]. *)
Fixpoint format_dialogue (c : ExtendedStreamFormatCmd) (i : Z) (vs : list ExtendedStreamFormatCmd) (last : ExtendedStreamFormatCmd) : Prop :=
  match vs with
  | [] => answers be DEBUG bus (format_request i c) last /\ m_ctype (es_base last) <> eR_Implemented
  | v :: vs => answers be DEBUG bus (format_request i c) v /\ m_ctype (es_base v) = eR_Implemented
               /\ format_dialogue (answered (format_request i c) v) (i + 1) vs last
  end.

Fixpoint supported_formats (i : Z) (vs : list ExtendedStreamFormatCmd) : list FormatInfo :=
  match vs with
  | [] => []
  | v :: vs => option_list (supported_format i (m_streams (m_formatInformation v))) ++ supported_formats (i + 1) vs
  end.

Lemma answered_format c v : m_streams (m_formatInformation (answered c v)) = m_streams (m_formatInformation v)
  /\ getResponse (es_base (answered c v)) = m_ctype (es_base v).
Proof.
  split; [|done]. unfold answered. cbn. unfold format_recv. by destruct (m_streams (m_formatInformation v)) as [[]|] eqn:E.
Qed.

Lemma format_of_streams_ok i v w : format_readable (m_formatInformation v) -> exists ok f,
  format_of_streams i (m_streams (m_formatInformation v)) w = Some ((ok, f), w)
  /\ supported_format i (m_streams (m_formatInformation v)) = if ok then Some f else None.
Proof.
  intros [_ R]. destruct (m_streams (m_formatInformation v)) as [[s|cp]|]; [|..|done].
  - by eexists true, _.
  - destruct R as (_ & _ & Rl & _). cbn [format_of_streams supported_format].
    destruct (count_streams (m_streamFormatInfos cp) (mkFormatInfo (cp_samplingFrequency cp) false 0 0 (u8 i)) true) as (f & E & Hf).
    exists (forallb (fun x => is_audio x || is_midi x) (m_streamFormatInfos cp)), f. split.
    + unfold first_infos. rewrite Rl, Z.ltb_irrefl. unfold zlength. rewrite Nat2Z.id, take_ge by done. cbv [mbind run_bind option_bind mret run_ret]. by rewrite E.
    + destruct (forallb _ _) eqn:Ef; [|done]. by rewrite (Hf eq_refl) by done.
Qed.

Lemma discover_formats_ok l last vs : forall fuel c i p w, format_dialogue c i vs last -> (length vs < fuel)%nat -> m_filterFCPResponse (pw_service w) = false ->
  pw_heap w !! l = Some p -> exists w', discover_formats be DEBUG uninit bus fuel l i c w = Some (true, w')
  /\ pw_heap w' = <[l := set_formats (pg_formatInfos p ++ supported_formats i vs) p]> (pw_heap w) /\ pw_plugs w' = pw_plugs w.
Proof.
  induction vs as [|v vs IH]; intros [|fuel] c i p w Dg Hf F Hl; [cbn in Hf; lia| |cbn in Hf; lia|]; cbn [discover_formats].
  - destruct Dg as [A Hc]. destruct (fire_command_ok be DEBUG uninit bus _ _ w A F) as (w1 & E1 & Eh & Ep & _ & _). run_step with E1.
    destruct (answered_format (format_request i c) last) as [_ ->]. rewrite (proj2 (Z.eqb_neq _ _) Hc). exists w1.
    split; [done|]. rewrite Eh, app_nil_r. split; [|done]. rewrite insert_id; [done|]. rewrite Hl. f_equal. by destruct p.
  - destruct Dg as (A & Hc & Dg). destruct (fire_command_ok be DEBUG uninit bus _ _ w A F) as (w1 & E1 & Eh & Ep & _ & Es). run_step with E1.
    destruct (answered_format (format_request i c) v) as [-> ->]. rewrite Hc. change (true && (eR_Implemented =? eR_Implemented)) with true. cbv iota.
    destruct (format_of_streams_ok i v w1) as (ok & f & E2 & Ef); [by destruct A as (_ & _ & [_ R] & _)|]. run_step with E2.
    assert (pw_heap w1 !! l = Some p) as Hl1 by (by rewrite Eh). set (p1 := set_formats (pg_formatInfos p ++ option_list (supported_format i (m_streams (m_formatInformation v)))) p).
    assert (exists w2, (if ok then update l (fun p => set_formats (pg_formatInfos p ++ [f]) p) else mret tt) w1 = Some (tt, w2)
      /\ pw_heap w2 = <[l := p1]> (pw_heap w) /\ pw_plugs w2 = pw_plugs w /\ pw_service w2 = pw_service w1) as (w2 & E3 & Eh2 & Ep2 & Es2).
    { unfold p1. rewrite Ef. destruct ok.
      - eexists. split; [by apply update_eq|]. cbn. by rewrite Eh.
      - exists w1. split_and!; try done. rewrite Eh, insert_id; [done|]. rewrite Hl. f_equal. cbn. rewrite app_nil_r. by destruct p. }
    run_step with E3. destruct (IH fuel _ (i + 1) p1 w2 Dg) as (w' & E4 & Eh4 & Ep4); [cbn in Hf; lia|by rewrite Es2, Es|by rewrite Eh2, lookup_insert_eq|].
    exists w'. split; [exact E4|]. rewrite Eh4, Eh2, insert_insert_eq, Ep4. split; [|done]. f_equal. cbn [supported_formats]. unfold p1. cbn.
    by rewrite app_assoc.
Qed.
End formats.

(** C13. The stream formats of a plug: when the device describes its formats one by one and refuses the index after the last one, the discovery ends after one
    command for each of them and one more, and the plug has one more entry for each format, in their order, with its index, its sampling frequency and
    the numbers of its audio and of its MIDI channels; formats with other streams are left out. *)
Theorem supported_formats_found be DEBUG uninit bus nodeId fuel l p vs last w :
  pw_heap w !! l = Some p -> m_filterFCPResponse (pw_service w) = false ->
  format_dialogue be DEBUG bus (setPlugAddrToStreamFormatCmd uninit nodeId eSF_ExtendedStreamFormatInformationCommandList p) 0 vs last -> (length vs < fuel)%nat ->
  exists w', discoverSupportedStreamFormats be DEBUG uninit bus nodeId fuel l w = Some (true, w')
    /\ pw_heap w' = <[l := set_formats (pg_formatInfos p ++ supported_formats 0 vs) p]> (pw_heap w) /\ pw_plugs w' = pw_plugs w.
Proof. intros Hl F Dg Hf. unfold discoverSupportedStreamFormats. run_step with (deref_eq _ _ _ Hl). by eapply discover_formats_ok. Qed.

(** A device at node 2 that answers by a function of the request. *)
Definition scripted_bus (reply : list Z -> list Z) (i : nat) (node : Z) (request : list Z) : fcp_try :=
  mkTry true true [[mkFrame node true (reply request)]] true.

Lemma scripted_answers reply req resp : reply (frame_sent req) = resp -> fcp_answer false 0xffc2 (frame_image req) (mkFrame 0xffc2 true resp) ->
  0x08000000 <= FCP_MASK_RESPONSE (quad0 false resp) -> device_answers false true (scripted_bus reply) 2 req resp.
Proof.
  intros <- A D. unfold device_answers. fold (frame_sent req). split_and!; try done.
  - eexists. split_and!; [by left|exact A|intros _; exact D].
  - intros i g [<-|[]] _. exists []. by rewrite app_nil_r.
Qed.

(** Two formats of an output plug: eight channels of audio and a MIDI channel, and six channels of audio at twice the rate. *)
Definition example_pcr : Plug := Plug_new 0 None 0xff 0xff eAPA_PCR eAPD_Output 0 0.
Definition example_answer (response index freq : Z) (infos : list StreamFormatInfo) : ExtendedStreamFormatCmd :=
  mkStreamFormat (mkAVC 2 response 0xFF 0x2F 0 1) 0xC1 (mkPlugAddress 1 0 (UnitPlugAddress 0 0 0xff)) 0 index
    (mkFormat 0x90 0x40 0xFF (Some (FICompound (mkCompound freq 1 (zlength infos) infos)))).
Definition example_formats : list ExtendedStreamFormatCmd := [example_answer 0x0C 0 4 [mkInfo 8 6; mkInfo 1 0xD]; example_answer 0x0C 1 5 [mkInfo 6 6]].
Definition example_refusal : ExtendedStreamFormatCmd := example_answer 0x0A 2 5 [mkInfo 6 6].
Definition example_formats_reply (request : list Z) : list Z :=
  match example_formats !! Z.to_nat (nth 10 request 0) with Some v => stream_format_bytes v | None => stream_format_bytes example_refusal end.
Definition one_plug_world (p : Plug) : PlugWorld := mkPlugWorld {[ 0%nat := p ]} [0%nat] 1 example_service.

Lemma supported_formats_found_witness : exists w', discoverSupportedStreamFormats false true 0 (scripted_bus example_formats_reply) 2 5 0 (one_plug_world example_pcr) = Some (true, w')
  /\ pw_heap w' = <[0%nat := set_formats [mkFormatInfo 4 false 8 1 0; mkFormatInfo 5 false 6 0 1] example_pcr]> {[ 0%nat := example_pcr ]}
  /\ pw_plugs w' = [0%nat].
Proof.
  apply (supported_formats_found false true 0 (scripted_bus example_formats_reply) 2 5 0 example_pcr example_formats example_refusal (one_plug_world example_pcr)).
  - reflexivity.
  - reflexivity.
  - split; [|split; [reflexivity|split; [|split; [reflexivity|split; [|done]]]]]; (split_and!; [..|apply scripted_answers]; try (vm_compute; done)).
    all: split; [|vm_compute; congruence]; split_and!; [split_and!|..]; try (vm_compute; done); repeat constructor; vm_compute; congruence.
  - cbn. lia.
Defined.
