(* ===== verification/AvcUnit.v ===== *)
(** * The unit and its subunits

    Model of [src/libavc/general/avc_unit.cpp], [avc_subunit.cpp] and of the subunits for audio and music: discovery of the subunits and of all plugs, their
    connections, the sync modes and the propagation of information between connected plugs.

    A subunit is known by its place in the vector; plugs point to it by type and id.  Of the subunits only the one for music has a descriptor. *)
From stdpp Require Import gmap strings.
From S2P Require Import Prelude ByteSwap CmdSerialize Fcp AvcCommands AvcExchange PlugAddress StreamFormat Descriptors MusicDescriptor Plugs XmlCache PlugDiscovery.
#[local] Open Scope Z_scope.

Abbreviation MusicDescriptor := (AVCDescriptor AVCMusicStatusDescriptor).
Record Subunit := mkSubunit {
  sb_type : Z;
  sb_id : Z;
  sb_plugs : list ploc;
  sb_status_descriptor : MusicDescriptor;
}.
Record SyncInfo := mkSyncInfo { sy_source : option ploc; sy_destination : option ploc; sy_description : list Z }.

Record Unit := mkUnit {
  un_world : PlugWorld;
  un_subunits : list Subunit;
  un_pcrPlugs : list ploc;
  un_externalPlugs : list ploc;
  un_plugConnections : list PlugConnection;
  un_syncInfos : list SyncInfo;
}.
Abbreviation U := (run Unit).

Definition on_world {A} (m : run PlugWorld A) : U A := fun u =>
  (fun r => (r.1, mkUnit r.2 (un_subunits u) (un_pcrPlugs u) (un_externalPlugs u) (un_plugConnections u) (un_syncInfos u))) <$> m (un_world u).
Definition with_subunits (l : list Subunit) (u : Unit) : Unit := mkUnit (un_world u) l (un_pcrPlugs u) (un_externalPlugs u) (un_plugConnections u) (un_syncInfos u).
Definition with_pcr (l : list ploc) (u : Unit) : Unit := mkUnit (un_world u) (un_subunits u) l (un_externalPlugs u) (un_plugConnections u) (un_syncInfos u).
Definition with_external (l : list ploc) (u : Unit) : Unit := mkUnit (un_world u) (un_subunits u) (un_pcrPlugs u) l (un_plugConnections u) (un_syncInfos u).
Definition with_connections (l : list PlugConnection) (u : Unit) : Unit := mkUnit (un_world u) (un_subunits u) (un_pcrPlugs u) (un_externalPlugs u) l (un_syncInfos u).
Definition with_syncInfos (l : list SyncInfo) (u : Unit) : Unit := mkUnit (un_world u) (un_subunits u) (un_pcrPlugs u) (un_externalPlugs u) (un_plugConnections u) l.

Definition Unit_new (service : Ieee1394Service) : Unit := mkUnit (mkPlugWorld ∅ [] 0 service) [] [] [] [] [].

Definition Subunit_new (type id : Z) : Subunit :=
  mkSubunit type id [] (AVCDescriptor_new (AVCDescriptorSpecifier_new eSubunit0x80) AVCMusicStatusDescriptor_new).

(** [createSubunit] makes objects for two types. *)
Definition createSubunit (type id : Z) : option Subunit :=
  if (type =? eST_Audio) || (type =? eST_Music) then Some (Subunit_new type id) else None.

Definition getSubunit (subunitType subunitId : Z) (l : list Subunit) : option Subunit :=
  find (fun s => (subunitType =? sb_type s) && (subunitId =? sb_id s)) l.
Definition getNrOfSubunits (subunitType : Z) (l : list Subunit) : Z := zlength (filter (fun s => subunitType = sb_type s) l).

(** Every call of a list, until one returns false. *)
Fixpoint while_true {S A} (f : A -> run S bool) (l : list A) : run S bool :=
  match l with
  | [] => mret true
  | x :: l => r ← f x; if (r : bool) then while_true f l else mret false
  end.
Fixpoint for_each {S A B} (f : A -> run S B) (l : list A) : run S unit :=
  match l with
  | [] => mret tt
  | x :: l => f x ;; for_each f l
  end.

(** ** Discovery *)

Section discovery.
Context (be DEBUG : bool) (uninit : Z) (garbage : list Z) (bus : nat -> Z -> list Z -> fcp_try) (nodeId : Z) (fuel : nat).

Definition fire_unit {T} `{AVCCmd T} (c : T) : U (bool * T) := on_world (fire_command be DEBUG uninit bus c).

(** *** Music subunit *)

Definition plug_type_of_block (t : Z) (old : EPlugType) : EPlugType :=
  if t =? 0 then eAPT_IsoStream else if t =? 1 then eAPT_AsyncStream else if t =? 2 then eAPT_Midi else if t =? 3 then eAPT_Sync
  else if t =? 4 then eAPT_Analog else if t =? 5 then eAPT_Digital else old.

Definition channel_of_signal (r : AVCMusicRoutingStatusInfoBlock) (s : sSignalInfo) : PlugChannelInfo :=
  mkChannelInfo (sg_stream_position s) (sg_stream_location s)
    match getMusicPlugInfoBlock (sg_music_plug_id s) r with Some m => getName (mp_text m) | None => chars "unknown" end.

Fixpoint clusters_of_blocks (r : AVCMusicRoutingStatusInfoBlock) (idx : Z) (l : list AVCMusicClusterInfoBlock) : list ClusterInfo :=
  match l with
  | [] => []
  | c :: l => mkClusterInfo idx (cl_port_type c) (getName (cl_text c)) (cl_nb_signals c) (channel_of_signal r <$> cl_SignalInfos c) (cl_stream_format c) uninit
              :: clusters_of_blocks r (idx + 1) l
  end.

Definition fill_plug (r : AVCMusicRoutingStatusInfoBlock) (info : AVCMusicSubunitPlugInfoBlock) (p : Plug) : Plug :=
  set_clusters (pg_clusterInfos p ++ clusters_of_blocks r 1 (su_Clusters info))
    (set_channels (u8 (su_nb_channels info)) (set_info_type (plug_type_of_block (su_plug_type info) (pg_infoPlugType p)) (set_plug_name (getName (su_text info)) p))).

Definition block_direction (d : EPlugDirection) : Z := match d with eAPD_Input => 0 | eAPD_Output => 1 | eAPD_Unknown => 2 end.

(** [initPlugFromDescriptor] of the music subunit [s]; the descriptor is loaded once. *)
Definition music_initPlugFromDescriptor (s : Subunit) (l : ploc) : U (bool * Subunit) := fun u =>
  '((r1, d), sv) ← load be DEBUG uninit bus nodeId (sb_type s) (sb_id s) (music_parse be uninit garbage) fuel (sb_status_descriptor s) (pw_service (un_world u));
  let s := mkSubunit (sb_type s) (sb_id s) (sb_plugs s) d in
  let r := ms_routing (ds_child d) in
  (on_world (modify (with_service sv)) ;;
   p ← on_world (deref l);
   match getSubunitPlugInfoBlock (block_direction (pg_direction p)) (pg_id p) r with
   | None => mret (false, s)
   | Some info => on_world (update l (fill_plug r info)) ;; mret (r1 : bool, s)
   end) u.

(** The virtual function; the one of the base class does nothing. *)
Definition initPlugFromDescriptor (s : Subunit) (l : ploc) : U (bool * Subunit) :=
  if sb_type s =? eST_Music then music_initPlugFromDescriptor s l else mret (false, s).

(** *** One plug

    The plug belongs to [s], or to the unit. *)

Definition initFromDescriptor (s : option Subunit) (l : ploc) : U (bool * option Subunit) :=
  match s with
  | None => mret (true, None)
  | Some s => '(r, s) ← initPlugFromDescriptor s l; mret (r, Some s)
  end.

Definition Plug_discover (s : option Subunit) (l : ploc) : U (bool * option Subunit) :=
  '(_, s) ← initFromDescriptor s l;
  on_world (discoverName l) ;;
  r ← on_world (discoverNoOfChannels be DEBUG uninit bus nodeId l);
  if negb (r : bool) then mret (false, s) else
  on_world (discoverClusterInfo l) ;;
  on_world (discoverStreamFormat be DEBUG uninit bus nodeId l) ;;
  p ← on_world (deref l);
  (if decide (pg_infoPlugType p = eAPT_Sync) then mret true else on_world (discoverSupportedStreamFormats be DEBUG uninit bus nodeId fuel l)) ;;
  r ← on_world (addPlug l);
  mret (r, s).

(** *** Subunits *)

Fixpoint discover_subunit_plugs (d : EPlugDirection) (ids : list Z) (s : Subunit) : U (bool * Subunit) :=
  match ids with
  | [] => mret (true, s)
  | i :: ids =>
      l ← on_world (createPlug uninit (Some (sb_type s, sb_id s)) 0xff 0xff eAPA_SubunitPlug d (u8 i) (-1));
      '(r, s') ← Plug_discover (Some s) l;
      let s := default s s' in
      if negb (r : bool) then mret (false, s) else
      discover_subunit_plugs d ids (mkSubunit (sb_type s) (sb_id s) (sb_plugs s ++ [l]) (sb_status_descriptor s))
  end.

Definition Subunit_discoverPlugs (s : Subunit) : U (bool * Subunit) :=
  let c := PlugInfoCmd_new uninit eSF_SerialBusIsochronousAndExternalPlug in
  '(ok, c) ← fire_unit (set_cmd_base (fun b => setSubunitId (sb_id s) (setSubunitType (sb_type s) (setCommandType eCT_Status (setNodeId nodeId b)))) c);
  if negb (ok : bool) then mret (false, s) else
  '(r, s) ← discover_subunit_plugs eAPD_Input (seqZ 0 (m_destinationPlugs c)) s;
  if negb (r : bool) then mret (false, s) else
  discover_subunit_plugs eAPD_Output (seqZ 0 (m_sourcePlugs c)) s.

(** The destructor deletes the plugs. *)
Definition Subunit_delete (s : Subunit) : U unit := for_each (fun l => on_world (deletePlug l)) (sb_plugs s).

Definition enumerate_entry (e : TableEntry) : U bool :=
  u ← gets id;
  match createSubunit (m_subunit_type e) (u8 (getNrOfSubunits (m_subunit_type e) (un_subunits u))) with
  | None => mret true
  | Some s =>
      '(r, s) ← Subunit_discoverPlugs s;
      if (r : bool) then modify (fun u => with_subunits (un_subunits u ++ [s]) u) ;; mret true
      else Subunit_delete s ;; mret false
  end.

Definition enumerateSubUnits : U bool :=
  let c := SubUnitInfoCmd_new uninit in
  let c := mkSubUnitInfo (setNodeId nodeId (setCommandType eCT_Status (su_base c))) 0 (m_extension_code c) (m_table c) (m_nrOfValidEntries c) in
  '(ok, c) ← fire_unit c;
  if negb (ok : bool) then mret false else
  while_true enumerate_entry (take (Z.to_nat (m_nrOfValidEntries c)) (m_table c)).

(** *** Plugs of the unit *)

(** A plug whose discovery fails is deleted when it is a PCR, and left alone when it is external. *)
Definition discover_unit_plug (t : EPlugAddressType) (d : EPlugDirection) (i : Z) : U bool :=
  l ← on_world (createPlug uninit None 0xff 0xff t d (u8 i) (-1));
  '(r, _) ← Plug_discover None l;
  if negb (r : bool) then (if decide (t = eAPA_PCR) then on_world (deletePlug l) else mret tt) ;; mret false else
  (if decide (t = eAPA_PCR) then modify (fun u => with_pcr (un_pcrPlugs u ++ [l]) u) else modify (fun u => with_external (un_externalPlugs u ++ [l]) u)) ;;
  mret true.
Definition discoverPlugsPCR (d : EPlugDirection) (n : Z) : U bool := while_true (discover_unit_plug eAPA_PCR d) (seqZ 0 n).
Definition discoverPlugsExternal (d : EPlugDirection) (n : Z) : U bool := while_true (discover_unit_plug eAPA_ExternalPlug d) (seqZ 0 n).

Definition Unit_discoverPlugs : U bool :=
  let c := set_cmd_base (fun b => setCommandType eCT_Status (setNodeId nodeId b)) (PlugInfoCmd_new uninit eSF_SerialBusIsochronousAndExternalPlug) in
  '(ok, c) ← fire_unit c;
  if negb (ok : bool) then mret false else
  while_true (fun m : U bool => m)
    [discoverPlugsPCR eAPD_Input (m_serialBusIsochronousInputPlugs c); discoverPlugsPCR eAPD_Output (m_serialBusIsochronousOutputPlugs c);
     discoverPlugsExternal eAPD_Input (m_externalInputPlugs c); discoverPlugsExternal eAPD_Output (m_externalOutputPlugs c)].

(** *** Connections *)

Definition discover_connections (l : ploc) : U bool := on_world (discoverConnections be DEBUG uninit bus nodeId l).
Definition discoverPlugConnections : U bool :=
  u ← gets id;
  r ← while_true discover_connections (un_pcrPlugs u);
  if negb (r : bool) then mret false else while_true discover_connections (un_externalPlugs u).
Definition discoverSubUnitsPlugConnections : U bool :=
  u ← gets id;
  while_true (fun s => while_true discover_connections (sb_plugs s)) (un_subunits u).

(** The connections in the vector are new objects. *)
Definition rediscoverConnections : U bool :=
  modify (with_connections []) ;;
  r ← discoverPlugConnections;
  if negb (r : bool) then mret false else
  r ← discoverSubUnitsPlugConnections;
  if negb (r : bool) then mret false else
  cs ← on_world tidyPlugConnections;
  modify (with_connections cs) ;;
  mret true.

Definition propagatePlugInfo : U bool :=
  u ← gets id;
  for_each (fun l => on_world (propagateFromConnectedPlug l)) (un_pcrPlugs u) ;;
  for_each (fun l => on_world (propagateFromConnectedPlug l)) (un_externalPlugs u) ;;
  mret true.

(** *** Sync modes *)

Definition getPlugConnection (src : ploc) (u : Unit) : option PlugConnection := find (fun c => bool_decide (c.1 = src)) (un_plugConnections u).
Definition getPlugById (plugs : list ploc) (d : EPlugDirection) (id : Z) : U (option ploc) :=
  on_world (find_plug (fun p => (id =? pg_id p) && bool_decide (d = pg_direction p)) plugs).
Definition Unit_getPlugsByType (plugs : list ploc) (d : EPlugDirection) (t : EPlugType) : U (list ploc) :=
  on_world (collect_plugs (fun p => bool_decide (t = pg_infoPlugType p) && bool_decide (d = pg_direction p)) plugs).

Definition checkSyncConnectionsAndAddToList (plhs prhs : list ploc) (description : list Z) : U bool :=
  for_each (fun pl => for_each (fun pr =>
    r ← on_world (inquireConnnection be DEBUG uninit bus nodeId pl pr);
    if (r : bool) then modify (fun u => with_syncInfos (un_syncInfos u ++ [mkSyncInfo (Some pl) (Some pr) description]) u) else mret tt) prhs) plhs ;;
  mret true.

Definition sync_plugs_of_music_subunit (d : EPlugDirection) : U (list ploc) :=
  on_world (Plugs.getPlugsByType eST_Music 0 0xff 0xff eAPA_SubunitPlug d eAPT_Sync).

Definition discoverSyncModes : U bool :=
  u ← gets id;
  isoPCRInputPlugs ← Unit_getPlugsByType (un_pcrPlugs u) eAPD_Input eAPT_IsoStream;
  digitalExternalInputPlugs ← Unit_getPlugsByType (un_externalPlugs u) eAPD_Input eAPT_Digital;
  syncExternalInputPlugs ← Unit_getPlugsByType (un_externalPlugs u) eAPD_Input eAPT_Sync;
  syncMSUInputPlugs ← sync_plugs_of_music_subunit eAPD_Input;
  syncMSUOutputPlugs ← sync_plugs_of_music_subunit eAPD_Output;
  modify (with_syncInfos []) ;;
  checkSyncConnectionsAndAddToList isoPCRInputPlugs syncMSUInputPlugs (chars "Syt Match") ;;
  checkSyncConnectionsAndAddToList syncMSUOutputPlugs syncMSUInputPlugs (chars "Internal (CSP)") ;;
  checkSyncConnectionsAndAddToList digitalExternalInputPlugs syncMSUInputPlugs (chars "Digital Input Sync") ;;
  checkSyncConnectionsAndAddToList syncExternalInputPlugs syncMSUInputPlugs (chars "Digital Input Sync").

(** The last connection of a sync input that is in the list; [acc] is what was found before. *)
Fixpoint active_of_plug (infos : list SyncInfo) (msu : ploc) (inputs : list ploc) (acc : option SyncInfo) : option SyncInfo :=
  match inputs with
  | [] => acc
  | p :: inputs =>
      active_of_plug infos msu inputs
        match find (fun s => bool_decide (sy_source s = Some p) && bool_decide (sy_destination s = Some msu)) infos with
        | Some s => Some s
        | None => acc
        end
  end.
Fixpoint active_of_plugs (infos : list SyncInfo) (v : list ploc) (acc : option SyncInfo) : U (option SyncInfo) :=
  match v with
  | [] => mret acc
  | l :: v => p ← on_world (deref l); active_of_plugs infos v (active_of_plug infos l (pg_inputConnections p) acc)
  end.
Definition getActiveSyncInfo : U (option SyncInfo) :=
  v ← sync_plugs_of_music_subunit eAPD_Input;
  u ← gets id;
  active_of_plugs (un_syncInfos u) v None.

(** A null pointer in the sync info is followed. *)
Definition setActiveSync (s : SyncInfo) : U bool :=
  match sy_source s, sy_destination s with
  | Some src, Some dest =>
      on_world (inquireConnnection be DEBUG uninit bus nodeId src dest) ;;
      r ← on_world (setConnection be DEBUG uninit bus nodeId src dest);
      r2 ← rediscoverConnections;
      if negb (r2 : bool) then mret false else mret (r : bool)
  | _, _ => fun _ => None
  end.

(** *** Everything *)

Definition clean : U bool :=
  u ← gets id;
  for_each Subunit_delete (un_subunits u) ;;
  for_each (fun l => on_world (deletePlug l)) (un_pcrPlugs u) ;;
  for_each (fun l => on_world (deletePlug l)) (un_externalPlugs u) ;;
  modify (fun u => mkUnit (mkPlugWorld (pw_heap (un_world u)) [] 0 (pw_service (un_world u))) [] [] [] [] []) ;;
  mret true.

Definition Unit_discover : U bool :=
  while_true (fun m : U bool => m)
    [clean; enumerateSubUnits; Unit_discoverPlugs; rediscoverConnections; discoverSyncModes; propagatePlugInfo].
End discovery.

(** ** Connections are discovered without following a dangling pointer *)

(** A step that always returns, with a result in [Q], and that changes only connections among the plugs [V] of the manager. *)
Definition keeps {A} (V : list ploc) (m : run PlugWorld A) (Q : A -> Prop) : Prop := forall w, graph_ok w -> pw_plugs w = V ->
  exists a w', m w = Some (a, w') /\ Q a /\ graph_ok w' /\ pw_plugs w' = V /\ forall l, cleared <$> pw_heap w' !! l = cleared <$> pw_heap w !! l.

Lemma keeps_ret {A} V (a : A) (Q : A -> Prop) : Q a -> keeps V (mret a) Q.
Proof. intros HQ w G E. by exists a, w. Qed.

Lemma keeps_then {A B} V (m : run PlugWorld A) (k : A -> run PlugWorld B) (Q : A -> Prop) (R : B -> Prop) :
  keeps V m Q -> (forall a, Q a -> keeps V (k a) R) -> keeps V (m ≫= k) R.
Proof.
  intros Km Kk w G E. destruct (Km w G E) as (a & w1 & E1 & HQ & G1 & P1 & C1). destruct (Kk a HQ w1 G1 P1) as (b & w2 & E2 & HR & G2 & P2 & C2).
  exists b, w2. split_and!; try done; [|intros l; by rewrite C2, C1]. by run_step with E1.
Qed.

Lemma keeps_deref V l : l ∈ V -> keeps V (deref l) (fun _ => True).
Proof. intros Hl w G E. subst V. destruct G as [N G]. destruct (G l Hl) as (p & Hp & Gp). exists p, w. split_and!; try done. by apply deref_eq. Qed.

Lemma keeps_fire V be DEBUG uninit bus {T} `{AVCCmd T} (c : T) : keeps V (fire_command be DEBUG uninit bus c) (fun _ => True).
Proof.
  intros w [N G] E. unfold fire_command. destruct (fire be DEBUG uninit bus c (pw_service w)) as [r s]. exists r, (with_service s w). by split_and!.
Qed.

Lemma keeps_update V l f : l ∈ V -> (forall p, cleared (f p) = cleared p) ->
  (forall p k, k ∈ pg_inputConnections (f p) \/ k ∈ pg_outputConnections (f p) -> k ∈ pg_inputConnections p \/ k ∈ pg_outputConnections p \/ k ∈ V) ->
  keeps V (update l f) (fun _ => True).
Proof.
  intros Hl Hc Hk w [N G] E. subst V. destruct (G l Hl) as (p & Hp & Gp). eexists _, _. split; [by apply update_eq|]. split_and!; try done.
  - split; [done|]. intros k Hk'. cbn [with_heap pw_heap pw_plugs] in *. destruct (decide (k = l)) as [->|Hne].
    + exists (f p). rewrite lookup_insert_eq. split; [done|]. intros j [?|[?|?]]%Hk; auto.
    + rewrite lookup_insert_ne by done. by apply G.
  - intros k. cbn [with_heap pw_heap]. destruct (decide (k = l)) as [->|Hne]; [|by rewrite lookup_insert_ne].
    rewrite lookup_insert_eq, Hp. cbn. by rewrite Hc.
Qed.

Lemma keeps_gets_plugs V : keeps V (gets pw_plugs) (fun v => v = V).
Proof. intros w G E. by exists (pw_plugs w), w. Qed.

Lemma keeps_find_plug V f v : (forall l, l ∈ v -> l ∈ V) -> keeps V (find_plug f v) (fun r => forall l, r = Some l -> l ∈ V).
Proof.
  induction v as [|l v IH]; intros Hv; cbn [find_plug]; [by apply keeps_ret|].
  eapply keeps_then; [apply keeps_deref, Hv; by left|]. intros p _. destruct (f p).
  - apply keeps_ret. intros k [= <-]. apply Hv. by left.
  - apply IH. intros k Hk. apply Hv. by right.
Qed.

Lemma keeps_getPlug V st si ft fi t d i : keeps V (getPlug st si ft fi t d i) (fun r => forall l, r = Some l -> l ∈ V).
Proof. eapply keeps_then; [apply keeps_gets_plugs|]. intros v ->. by apply keeps_find_plug. Qed.
Lemma keeps_getPlug_by_id V g : keeps V (getPlug_by_id g) (fun r => forall l, r = Some l -> l ∈ V).
Proof. eapply keeps_then; [apply keeps_gets_plugs|]. intros v ->. by apply keeps_find_plug. Qed.

Section safety.
Context (be DEBUG : bool) (uninit : Z) (bus : nat -> Z -> list Z -> fcp_try) (nodeId : Z).

Lemma keeps_find_source V a : keeps V (find_source a) (fun r => forall l, r = Some l -> l ∈ V).
Proof. unfold find_source. repeat case_match; first [by apply keeps_ret | apply keeps_getPlug]. Qed.

Lemma keeps_getSignalSource V l : l ∈ V -> keeps V (getSignalSource be DEBUG uninit bus nodeId l) (fun _ => True).
Proof.
  intros Hl. eapply keeps_then; [by apply keeps_deref|]. intros p _. case_match; [by apply keeps_ret|].
  eapply keeps_then; [apply keeps_fire|]. intros [ok c] _. case_match; [by apply keeps_ret|]. case_match; [by apply keeps_ret|].
  eapply keeps_then; [apply keeps_find_source|]. intros [k|] Hk; [|by apply keeps_ret].
  eapply keeps_then; [apply keeps_deref; by apply Hk|]. intros q _. by apply keeps_ret.
Qed.

Lemma keeps_discoverConnections V l : l ∈ V -> keeps V (discoverConnections be DEBUG uninit bus nodeId l) (fun _ => True).
Proof.
  intros Hl. eapply (keeps_then _ _ _ (fun _ => True)); [|intros [] _; by apply keeps_ret]. unfold discoverConnectionsInput.
  eapply keeps_then; [apply keeps_update; [done|done|intros p k [[]%not_elem_of_nil|?]; auto]|]. intros [] _.
  eapply keeps_then; [by apply keeps_getSignalSource|]. intros g _. case_match; [by apply keeps_ret|].
  eapply keeps_then; [apply keeps_getPlug_by_id|]. intros [k|] Hk; [|by apply keeps_ret].
  eapply keeps_then; [apply keeps_update; [done|done|]|intros; by apply keeps_ret].
  intros p j. cbn. unfold addPlugConnection. case_decide; [tauto|]. rewrite elem_of_app, list_elem_of_singleton.
  intros [[?| ->]|?]; auto.
Qed.

(** *** The unit *)

Definition owned (u : Unit) : list ploc := un_pcrPlugs u ++ un_externalPlugs u ++ concat (sb_plugs <$> un_subunits u).
(** The vectors of the unit and of its subunits hold plugs of the manager. *)
Definition unit_ok (u : Unit) : Prop := graph_ok (un_world u) /\ forall l, l ∈ owned u -> l ∈ pw_plugs (un_world u).

(** The same unit but for connections. *)
Definition same_but_connections (u u' : Unit) : Prop := un_subunits u' = un_subunits u /\ un_pcrPlugs u' = un_pcrPlugs u /\ un_externalPlugs u' = un_externalPlugs u
  /\ un_syncInfos u' = un_syncInfos u /\ pw_plugs (un_world u') = pw_plugs (un_world u)
  /\ forall l, cleared <$> pw_heap (un_world u') !! l = cleared <$> pw_heap (un_world u) !! l.

Lemma same_trans u1 u2 u3 : same_but_connections u1 u2 -> same_but_connections u2 u3 -> same_but_connections u1 u3.
Proof. intros (A1 & A2 & A3 & A4 & A5 & A6) (B1 & B2 & B3 & B4 & B5 & B6). split_and!; congruence. Qed.

Lemma connections_of_all v : forall u, graph_ok (un_world u) -> (forall l, l ∈ v -> l ∈ pw_plugs (un_world u)) ->
  exists r u', while_true (discover_connections be DEBUG uninit bus nodeId) v u = Some (r, u') /\ graph_ok (un_world u') /\ same_but_connections u u'.
Proof.
  induction v as [|l v IH]; intros u G Hv; cbn [while_true]; [by exists true, u|].
  destruct (keeps_discoverConnections (pw_plugs (un_world u)) l ltac:(apply Hv; by left) (un_world u) G eq_refl) as (r & w' & E & _ & G' & P & C).
  set (u1 := mkUnit w' (un_subunits u) (un_pcrPlugs u) (un_externalPlugs u) (un_plugConnections u) (un_syncInfos u)).
  assert (discover_connections be DEBUG uninit bus nodeId l u = Some (r, u1)) as E1 by (unfold discover_connections, on_world; by rewrite E).
  run_step with E1. destruct r; [|by exists false, u1].
  destruct (IH u1 G') as (r & u2 & E2 & G2 & S2); [intros k Hk; cbn; rewrite P; apply Hv; by right|].
  exists r, u2. split_and!; try done. eapply same_trans; [|exact S2]. by split_and!.
Qed.

Lemma connections_of_subunits l : forall u, graph_ok (un_world u) -> (forall s k, s ∈ l -> k ∈ sb_plugs s -> k ∈ pw_plugs (un_world u)) ->
  exists r u', while_true (fun s => while_true (discover_connections be DEBUG uninit bus nodeId) (sb_plugs s)) l u = Some (r, u')
    /\ graph_ok (un_world u') /\ same_but_connections u u'.
Proof.
  induction l as [|s l IH]; intros u G Hv; cbn [while_true]; [by exists true, u|].
  destruct (connections_of_all (sb_plugs s) u G) as (r & u1 & E1 & G1 & S1); [intros k; apply Hv; by left|]. run_step with E1.
  destruct r; [|by exists false, u1]. destruct (IH u1 G1) as (r & u2 & E2 & G2 & S2).
  { intros s' k Hs Hk. destruct S1 as (_ & _ & _ & _ & -> & _). eapply Hv; [by right|done]. }
  exists r, u2. split_and!; try done. by eapply same_trans.
Qed.

Lemma discovered_connections u : unit_ok u ->
  exists r1 r2 u1 u2, discoverPlugConnections be DEBUG uninit bus nodeId u = Some (r1, u1) /\ discoverSubUnitsPlugConnections be DEBUG uninit bus nodeId u1 = Some (r2, u2)
    /\ graph_ok (un_world u1) /\ graph_ok (un_world u2) /\ same_but_connections u u1 /\ same_but_connections u1 u2.
Proof.
  intros [G O]. unfold discoverPlugConnections.
  assert (forall l, l ∈ un_pcrPlugs u -> l ∈ pw_plugs (un_world u)) as O1 by (intros l ?; apply O; unfold owned; rewrite !elem_of_app; auto).
  assert (forall l, l ∈ un_externalPlugs u -> l ∈ pw_plugs (un_world u)) as O2 by (intros l ?; apply O; unfold owned; rewrite !elem_of_app; auto).
  assert (forall s l, s ∈ un_subunits u -> l ∈ sb_plugs s -> l ∈ pw_plugs (un_world u)) as O3.
  { intros s l Hs Hl. apply O. unfold owned. rewrite !elem_of_app. right. right. apply list_elem_of_In, in_concat. exists (sb_plugs s).
    split; [by apply in_map, list_elem_of_In|by apply list_elem_of_In]. }
  destruct (connections_of_all (un_pcrPlugs u) u G O1) as (ra & ua & Ea & Ga & Sa).
  assert (exists r1 u1, discoverPlugConnections be DEBUG uninit bus nodeId u = Some (r1, u1) /\ graph_ok (un_world u1) /\ same_but_connections u u1) as (r1 & u1 & E1 & G1 & S1).
  { unfold discoverPlugConnections. run_step. run_step with Ea. destruct ra; [|by exists false, ua].
    destruct (connections_of_all (un_externalPlugs u) ua Ga) as (rb & ub & Eb & Gb & Sb); [destruct Sa as (_ & _ & _ & _ & -> & _); done|].
    exists rb, ub. split_and!; try done. by eapply same_trans. }
  destruct (connections_of_subunits (un_subunits u1) u1 G1) as (r2 & u2 & E2 & G2 & S2).
  { destruct S1 as (-> & _ & _ & _ & -> & _). done. }
  exists r1, r2, u1, u2. split_and!; try done.
Qed.

Lemma same_unit_ok u u' : unit_ok u -> same_but_connections u u' -> graph_ok (un_world u') -> unit_ok u'.
Proof. intros [_ O] (S1 & S2 & S3 & _ & S5 & _) G. split; [done|]. unfold owned. rewrite S1, S2, S3, S5. exact O. Qed.

(** Every plug of the manager lists its neighbours in the graph [cs], in both directions. *)
Definition in_graph (cs : list PlugConnection) (w : PlugWorld) : Prop := NoDup cs /\ forall l, l ∈ pw_plugs w -> exists p, pw_heap w !! l = Some p
  /\ NoDup (pg_outputConnections p) /\ NoDup (pg_inputConnections p)
  /\ (forall k, k ∈ pg_outputConnections p <-> (l, k) ∈ cs) /\ (forall k, k ∈ pg_inputConnections p <-> (k, l) ∈ cs).

Lemma tidied u : unit_ok u -> exists cs u', on_world tidyPlugConnections u = Some (cs, u') /\ unit_ok u' /\ same_but_connections u u' /\ in_graph cs (un_world u').
Proof.
  intros Ok. pose proof Ok as [G O]. destruct (connections_tidied (un_world u) G) as (cs & w' & E & N & I & Hp & Ho & P).
  eexists cs, _. split; [unfold on_world; by rewrite E|].
  assert (in_graph cs w') as Ig.
  { split; [done|]. intros l Hl. rewrite P in Hl. destruct (Hp l Hl) as (p & p' & _ & Hp' & _ & D1 & D2 & D3 & D4). exists p'. by split_and!. }
  assert (forall l, cleared <$> pw_heap w' !! l = cleared <$> pw_heap (un_world u) !! l) as C.
  { intros l. destruct (decide (l ∈ pw_plugs (un_world u))) as [Hl|Hl]; [|by rewrite Ho].
    destruct (Hp l Hl) as (p & p' & -> & -> & Ec & _). cbn. by rewrite Ec. }
  split_and!; try done. eapply same_unit_ok; [exact Ok|by split_and!|]. split; cbn; rewrite P; [apply G|].
  intros l Hl. destruct (proj2 Ig l) as (p' & Hp' & _ & _ & D3 & D4); [by rewrite P|]. exists p'. split; [done|].
  intros k [Hk|Hk]; [apply D4 in Hk|apply D3 in Hk]; apply I in Hk; by apply (edge_of_in (un_world u)) in Hk as [].
Qed.
End safety.

(** C11. Whatever the device answers, also with reports of plugs that do not exist or with no answer at all, discovering the connections of a unit again follows no
    dangling pointer and returns; it changes nothing but connections, and keeps them among the plugs of the unit.  When it succeeds, the connections of the
    unit are one graph without repetitions in which every plug lists exactly its neighbours, in both directions. *)
Theorem rediscovered_graph be DEBUG uninit bus nodeId u : unit_ok u ->
  exists r u', rediscoverConnections be DEBUG uninit bus nodeId u = Some (r, u') /\ unit_ok u' /\ same_but_connections u u'
    /\ (r = true -> in_graph (un_plugConnections u') (un_world u')).
Proof.
  intros Ok. unfold rediscoverConnections. run_step. assert (unit_ok (with_connections [] u)) as Ok0 by done.
  destruct (discovered_connections be DEBUG uninit bus nodeId _ Ok0) as (r1 & r2 & u1 & u2 & E1 & E2 & G1 & G2 & S1 & S2).
  pose proof (same_unit_ok _ _ Ok0 S1 G1) as Ok1. pose proof (same_unit_ok _ _ Ok1 S2 G2) as Ok2.
  run_step with E1. destruct r1; cbn [negb]; [|by exists false, u1; split_and!].
  run_step with E2. destruct r2; cbn [negb]; [|exists false, u2; split_and!; try done; by eapply same_trans].
  destruct (tidied u2 Ok2) as (cs & u3 & E3 & Ok3 & S3 & Ig). run_step with E3. run_step. eexists true, _. split; [reflexivity|].
  split_and!; try done. exact (same_trans _ _ _ S1 (same_trans _ _ _ S2 S3)).
Qed.

(** A unit with an output plug and a music subunit; the device says that the output of the subunit is the source of every plug. *)
Definition example_unit : Unit :=
  mkUnit (mkPlugWorld (<[0%nat := example_pcr]> {[ 1%nat := Plug_new 0 (Some (0x0C, 0)) 0xff 0xff eAPA_SubunitPlug eAPD_Output 0 1 ]}) [0; 1]%nat 2 example_service)
    [mkSubunit 0x0C 0 [1%nat] (sb_status_descriptor (Subunit_new 0x0C 0))] [0%nat] [] [] [].
Definition example_source_reply (request : list Z) : list Z :=
  SignalSourceCmd_bytes (mkSignalSource (mkAVC 2 0x0C 0xFF 0x1A 0 1) 0xff 1 0 2 (Some (SignalSubunitAddress 0xC 0 0)) (Some (SignalUnitAddress 0))).

Example example_connections :
  (fun r => (r.1, un_plugConnections r.2)) <$> rediscoverConnections false true 0 (scripted_bus example_source_reply) 2 example_unit = Some (true, [(1, 0)%nat]).
Proof. by vm_compute. Qed.

Lemma rediscovered_graph_witness : exists r u', rediscoverConnections false true 0 (scripted_bus example_source_reply) 2 example_unit = Some (r, u')
  /\ unit_ok u' /\ same_but_connections example_unit u' /\ (r = true -> in_graph (un_plugConnections u') (un_world u')).
Proof.
  apply (rediscovered_graph false true 0 (scripted_bus example_source_reply) 2 example_unit). split; [split|].
  - apply (bool_decide_unpack _). vm_compute. exact I.
  - intros l Hl. change (l ∈ [0; 1]%nat) in Hl. rewrite !elem_of_cons, elem_of_nil in Hl.
    destruct Hl as [->|[->|[]]]; (eexists; split; [reflexivity|]; intros k; cbn; rewrite ?elem_of_nil; tauto).
  - intros l Hl. exact Hl.
Defined.
