(* ===== verification/UnitCache.v ===== *)
(** * The unit in the cache

    Model of the functions of [src/libavc/general/avc_unit.cpp] and [avc_subunit.cpp] that write a unit with its subunits, plugs, connections and sync modes to
    the cache and read it back into a new unit.

    [Unit::deserialize] ends with a discovery of the connections on the device; [Unit_load] is what comes before it.  The plugs of the new unit get the
    locations 0, 1, ... in the order of the manager. *)
From stdpp Require Import gmap strings.
From S2P Require Import Prelude Fcp AvcCommands AvcExchange Descriptors MusicDescriptor Plugs XmlCache CacheTree PlugCache PlugDiscovery AvcUnit.
#[local] Open Scope Z_scope.

(** ** Writing *)

Section serialize.
Context {C : Type} `{IOSer C} (gid : ploc -> Z).

Definition serializeVector {A} (w : list Z -> A -> st C bool) (path : list Z) (l : list A) : st C bool := write_vector (fun p x => w (p ++ [slash]) x) path 0 l.

(** [serializeChild] of both subunits writes nothing. *)
Definition Subunit_serialize (base : list Z) (s : Subunit) : st C bool :=
  all_of [io_write_int (base ++ chars "m_sbType") (sb_type s); io_write_int (base ++ chars "m_sbId") (sb_id s);
          serializePlugVector gid (base ++ chars "m_plugs") (sb_plugs s)].

(** A sync mode whose plugs exist. *)
Definition sync_ends (s : SyncInfo) : option (ploc * ploc * list Z) := a ← sy_source s; b ← sy_destination s; Some (a, b, sy_description s).
Definition write_sync (base : list Z) (s : ploc * ploc * list Z) : st C bool :=
  all_of [io_write_int (base ++ chars "m_source") (gid s.1.1); io_write_int (base ++ chars "m_destination") (gid s.1.2);
          io_write_str (base ++ chars "m_description") s.2].
(** A null pointer is followed. *)
Definition serializeSyncInfoVector (base : list Z) (l : list SyncInfo) : option (st C bool) :=
  l ← mapM sync_ends l; Some (serializeVector write_sync base l).

Definition Unit_serialize (base : list Z) (u : Unit) : option (st C bool) :=
  plugs ← mapM (fun l => pw_heap (un_world u) !! l) (pw_plugs (un_world u));
  syncs ← serializeSyncInfoVector (base ++ chars "SyncInfo") (un_syncInfos u);
  Some (all_of [serializeVector Subunit_serialize (base ++ chars "Subunit") (un_subunits u);
                serializePlugVector gid (base ++ chars "PcrPlug") (un_pcrPlugs u);
                serializePlugVector gid (base ++ chars "ExternalPlug") (un_externalPlugs u);
                serializeVector (PlugConnection_serialize gid) (base ++ chars "PlugConnection") (un_plugConnections u);
                PlugManager_serialize gid (base ++ chars "Plug") plugs (pw_globalIdCounter (un_world u));
                syncs]).
End serialize.

(** ** Reading *)

Section deserialize.
Context {D : Type} `{IODeser D} (uninit : Z) (d : D) (fuel : nat).

(** Objects are read until one is not there. *)
Fixpoint deserializeVector {A} (rounds : nat) (des : list Z -> option (option A)) (path : list Z) (i : Z) (acc : list A) : option (list A) :=
  match rounds with
  | O => None
  | S rounds =>
      r ← des (path ++ print_int i ++ [slash]);
      match r with
      | Some x => deserializeVector rounds des path (i + 1) (acc ++ [x])
      | None => Some acc
      end
  end.

Definition Subunit_deserialize (base : list Z) : option (option Subunit) :=
  if negb (io_isExisting (base ++ chars "m_sbType") d) then Some None else
  '(r1, t) ← read_as uninit d id (base ++ chars "m_sbType");
  match createSubunit t 0 with
  | None => Some None
  | Some s =>
      '(r2, i) ← read_as uninit d u8 (base ++ chars "m_sbId");
      if (r1 : bool) && r2 then Some (Some (mkSubunit t i (sb_plugs s) (sb_status_descriptor s))) else Some None
  end.

(** The path of a subunit is made from its id, which is a character and not a number to the stream. *)
Definition Subunit_deserializeUpdate (plugs : list Plug) (base : list Z) (s : Subunit) : option (bool * Subunit) :=
  '(r, l) ← deserializePlugVector uninit d fuel plugs (base ++ [sb_id s] ++ chars "/" ++ chars "m_plugs") 0 (sb_plugs s);
  Some (r, mkSubunit (sb_type s) (sb_id s) l (sb_status_descriptor s)).

Fixpoint update_subunits (plugs : list Plug) (base : list Z) (l : list Subunit) : option (bool * list Subunit) :=
  match l with
  | [] => Some (true, [])
  | s :: l =>
      '(r1, s) ← Subunit_deserializeUpdate plugs base s;
      '(r2, l) ← update_subunits plugs base l;
      Some (r1 && r2, s :: l)
  end.

(** The global ids of the plugs are read into bytes. *)
Definition read_sync (plugs : list Plug) (p : list Z) : option (bool * SyncInfo) :=
  '(r1, a) ← read_as uninit d u8 (p ++ chars "/m_source");
  '(r2, b) ← read_as uninit d u8 (p ++ chars "/m_destination");
  '(r3, n) ← io_read_str (p ++ chars "/m_description") [] d;
  Some (r1 && r2 && r3, mkSyncInfo (find_gid plugs a 0) (find_gid plugs b 0) n).
Definition deserializeSyncInfoVector (plugs : list Plug) (base : list Z) : option (list SyncInfo) :=
  '(_, l) ← read_vector d fuel (chars "/m_source") (read_sync plugs) base 0 []; Some l.

Definition subunit_pointer (l : list Subunit) (t i : Z) : option (Z * Z) := (fun s => (sb_type s, sb_id s)) <$> getSubunit t i l.

(** On a new unit. *)
Definition Unit_load (service : Ieee1394Service) (base : list Z) : option (bool * Unit) :=
  subunits ← deserializeVector fuel Subunit_deserialize (base ++ chars "Subunit") 0 [];
  '(loaded, counter) ← PlugManager_deserialize uninit d (subunit_pointer subunits) fuel (base ++ chars "Plug");
  let plugs := fst <$> loaded in
  '(r1, subunits) ← update_subunits plugs (base ++ chars "Subunit") subunits;
  '(r2, pcr) ← deserializePlugVector uninit d fuel plugs (base ++ chars "PcrPlug") 0 [];
  '(r3, ext) ← deserializePlugVector uninit d fuel plugs (base ++ chars "ExternalPlug") 0 [];
  connections ← deserializeVector fuel (PlugConnection_deserialize uninit d plugs) (base ++ chars "PlugConnection") 0 [];
  subunits ← deserializeVector fuel Subunit_deserialize (base ++ chars "Subunit") 0 subunits;
  syncs ← deserializeSyncInfoVector plugs (base ++ chars "SyncInfo");
  '(_, plugs) ← deserializeUpdate uninit d (subunit_pointer subunits) fuel base loaded;
  Some (r1 && r2 && r3, mkUnit (mkPlugWorld (list_to_map (zip (seq 0 (length plugs)) plugs)) (seq 0 (length plugs)) counter service) subunits pcr ext connections syncs).

Definition Unit_deserialize (be DEBUG : bool) (bus : nat -> Z -> list Z -> fcp_try) (nodeId : Z) (service : Ieee1394Service) (base : list Z) : option (bool * Unit) :=
  '(r, u) ← Unit_load service base;
  '(_, u) ← rediscoverConnections be DEBUG uninit bus nodeId u;
  Some (r : bool, u).
End deserialize.

(** ** What a unit writes *)

Section groups.
Context (gid : ploc -> Z).
Definition subunit_groups (s : Subunit) : list group :=
  [member (chars "m_sbType") (print_int (sb_type s)); member (chars "m_sbId") (print_int (sb_id s));
   vector (chars "m_plugs") ((fun x => Dir (children (global_id_group gid x))) <$> sb_plugs s)].
Definition connection_groups (c : PlugConnection) : list group :=
  [member (chars "m_srcPlug") (print_int (gid c.1)); member (chars "m_destPlug") (print_int (gid c.2))].
Definition sync_groups (s : ploc * ploc * list Z) : list group :=
  [member (chars "m_source") (print_int (gid s.1.1)); member (chars "m_destination") (print_int (gid s.1.2)); member (chars "m_description") s.2].

Context (u : Unit) (plugs : list Plug) (syncs : list (ploc * ploc * list Z)).
Definition unit_groups : list group :=
  [vector (chars "Subunit") ((fun x => Dir (children (subunit_groups x))) <$> un_subunits u);
   vector (chars "PcrPlug") ((fun x => Dir (children (global_id_group gid x))) <$> un_pcrPlugs u);
   vector (chars "ExternalPlug") ((fun x => Dir (children (global_id_group gid x))) <$> un_externalPlugs u);
   vector (chars "PlugConnection") ((fun x => Dir (children (connection_groups x))) <$> un_plugConnections u);
   vector (chars "Plug") ((fun x => Dir (children (plug_groups gid x))) <$> plugs);
   member (chars "Plugm_globalIdCounter") (print_int (pw_globalIdCounter (un_world u)));
   vector (chars "SyncInfo") ((fun x => Dir (children (sync_groups x))) <$> syncs)].

Definition subunit_short (s : Subunit) : Prop := short (sb_plugs s).
Definition unit_short : Prop := Forall subunit_short (un_subunits u) /\ Forall plug_short plugs /\ short (un_subunits u) /\ short (un_pcrPlugs u)
  /\ short (un_externalPlugs u) /\ short (un_plugConnections u) /\ short plugs /\ short syncs.

Lemma subunit_ok s : subunit_short s -> Forall group_ok (subunit_groups s) /\ NoDup (map fst (subunit_groups s)).
Proof.
  intros Hs. unfold subunit_groups. split; [groups_ok|names_ok]. apply vector_of_ok; [done|by vm_compute|done|]. apply Forall_true. intros. apply global_id_ok.
Qed.
Lemma connection_ok c : Forall group_ok (connection_groups c) /\ NoDup (map fst (connection_groups c)).
Proof. unfold connection_groups. split; [groups_ok|names_ok]. Qed.
Lemma sync_ok s : Forall group_ok (sync_groups s) /\ NoDup (map fst (sync_groups s)).
Proof. unfold sync_groups. split; [groups_ok|names_ok]. Qed.

Lemma unit_groups_ok : unit_short -> Forall group_ok unit_groups /\ NoDup (map fst unit_groups).
Proof.
  intros (S1 & S2 & S3 & S4 & S5 & S6 & S7 & S8). unfold unit_groups. split; [groups_ok|names_ok]; (apply vector_of_ok; [done|by vm_compute|done|]).
  - eapply Forall_impl; [|exact S1]. apply subunit_ok.
  - apply Forall_true. intros. apply global_id_ok.
  - apply Forall_true. intros. apply global_id_ok.
  - apply Forall_true. intros. apply connection_ok.
  - eapply Forall_impl; [|exact S2]. intros p. apply plug_ok.
  - apply Forall_true. intros. apply sync_ok.
Qed.

Context {C : Type} `{CacheSpec C}.
Ltac path := apply splits_member; [done | vm_compute; reflexivity].
Ltac members := apply puts_members; repeat first [apply Forall2_nil_2 | apply Forall2_cons_2]; try solve [first [apply puts_int | apply puts_str]; path].

Lemma puts_subunit b T s : splits b T [] -> subunit_short s -> puts (Subunit_serialize gid b s) T (children (subunit_groups s)).
Proof.
  intros Hs Hl. unfold Subunit_serialize. members. eapply puts_vector_of; [path|done|]. apply Forall_true. intros. by apply puts_global_id.
Qed.
Lemma puts_connection b T c : splits b T [] -> puts (PlugConnection_serialize gid b c) T (children (connection_groups c)).
Proof. intros Hs. unfold PlugConnection_serialize. members. Qed.
Lemma puts_sync b T s : splits b T [] -> puts (write_sync gid b s) T (children (sync_groups s)).
Proof. intros Hs. unfold write_sync. members. Qed.

Lemma puts_unit b T : splits b T [] -> unit_short -> mapM (fun l => pw_heap (un_world u) !! l) (pw_plugs (un_world u)) = Some plugs ->
  mapM sync_ends (un_syncInfos u) = Some syncs -> exists m, Unit_serialize gid b u = Some m /\ puts m T (children unit_groups).
Proof.
  intros Hs (S1 & S2 & S3 & S4 & S5 & S6 & S7 & S8) Ep Es. unfold Unit_serialize, serializeSyncInfoVector. rewrite Ep, Es. cbn [mbind option_bind]. eexists. split; [done|].
  replace (children unit_groups) with (concat [(unit_groups !!! 0%nat).2; (unit_groups !!! 1%nat).2; (unit_groups !!! 2%nat).2; (unit_groups !!! 3%nat).2;
    children (manager_groups gid plugs (pw_globalIdCounter (un_world u))); (unit_groups !!! 6%nat).2]) by (cbn; by rewrite !app_nil_r, <- !app_assoc).
  apply puts_all. repeat first [apply Forall2_nil_2 | apply Forall2_cons_2].
  - apply puts_vector_of; [path|done|]. eapply Forall_impl; [|exact S1]. intros x Hx p v Hp. apply puts_subunit; [by apply splits_open|done].
  - apply puts_vector_of; [path|done|]. apply Forall_true. intros. by apply puts_global_id.
  - apply puts_vector_of; [path|done|]. apply Forall_true. intros. by apply puts_global_id.
  - apply puts_vector_of; [path|done|]. apply Forall_true. intros x p v Hp. apply puts_connection. by apply splits_open.
  - by apply puts_manager.
  - apply puts_vector_of; [path|done|]. apply Forall_true. intros x p v Hp. apply puts_sync. by apply splits_open.
Qed.
End groups.

(** ** Reading back *)

Section reading.
Context {D : Type} `{CacheSpec D} (uninit : Z) (d : D) (E : list entry) (C : cs_holds d E).
Abbreviation any := (fun _ : token => True).

(** A loop that reads objects returns those that were written, when an object whose first member is missing is a null pointer. *)
Lemma deserializeVector_ok {A} (key : string) (des : list Z -> option (option A)) (f : A -> list (token * ctree)) (g : A -> A) base T t all :
  has_vector d E f base T t all -> forallb (fun c => negb (c =? slash)) (chars key) = true -> chars key <> [] ->
  (forall p, io_isExisting (p ++ chars key) d = false -> des p = Some None) ->
  Forall (fun x => forall p u, splits p T u -> Forall (fun x => x <> []) (T ++ [u]) -> view E (T ++ [u]) any (f x) -> des (p ++ [slash]) = Some (Some (g x))) all ->
  forall rest pre rounds acc, all = pre ++ rest -> (length rest < rounds)%nat ->
  deserializeVector rounds des base (zlength pre) acc = Some (acc ++ (g <$> rest)).
Proof.
  intros V Hk Hne Hd F. induction rest as [|x rest IH]; intros pre [|rounds] acc Ea Hr; [lia| |cbn in Hr; lia|]; cbn [deserializeVector]; rewrite (app_assoc base).
  - rewrite app_nil_r in Ea. subst pre. apply (obind_step _ _ None); [|cbn; by rewrite app_nil_r]. apply Hd. rewrite <- (app_assoc _ [slash]).
    change ([slash] ++ chars key) with (slash :: chars key). apply (hv_stop _ _ _ _ _ _ _ _ V); [by apply no_slash_check|done].
  - assert (all !! length pre = Some x) as Ex by (subst all; by rewrite list_lookup_middle). pose proof (lookup_lt_Some _ _ _ Ex).
    rewrite list.Forall_forall in F. eapply obind_step.
    { eapply (F x); [by eapply list_elem_of_lookup_2|eapply hv_elem_splits; [exact V|unfold zlength; lia]|by eapply hv_elem_ok|by apply (hv_elem _ _ _ _ _ _ _ V)]. }
    cbn beta iota. replace (zlength pre + 1) with (zlength (pre ++ [x])) by (rewrite zlength_app; done).
    rewrite (IH (pre ++ [x])); [by rewrite <- app_assoc|by rewrite <- app_assoc|cbn in Hr; lia].
Qed.

Ltac path := first [eapply splits_sub | eapply splits_member]; [eassumption | vm_compute; reflexivity].
Ltac range := first [lia | done | apply wrapU_small; lia | apply wrapS_small; lia].
Ltac rd := eapply obind_step; [first [eapply read_as_ok; [eassumption|eassumption|path|in_list|range|range] | eapply read_str_ok; [eassumption|eassumption|path|in_list]]|]; cbn beta iota.

(** A subunit after it was read: it has lost its plugs. *)
Definition cached_subunit (s : Subunit) : Subunit := Subunit_new (sb_type s) (sb_id s).
Definition subunit_fits (fuel : nat) (s : Subunit) : Prop :=
  (sb_type s = eST_Audio \/ sb_type s = eST_Music) /\ 0 <= sb_id s < 32 /\ (length (sb_plugs s) < fuel)%nat.

Lemma read_subunit_ok fuel gid b T s : splits b T [] -> subunit_fits fuel s -> view E T any (children (subunit_groups gid s)) ->
  Subunit_deserialize uninit d b = Some (Some (cached_subunit s)).
Proof.
  intros Hs (Ht & Hi & _) V. unfold Subunit_deserialize. erewrite view_present; [|done|exact V|by apply splits_member|apply member_in; in_list]. cbn [negb].
  assert (0 <= sb_type s < 256) by (destruct Ht as [-> | ->]; unfold eST_Audio, eST_Music; lia). rd.
  assert (createSubunit (sb_type s) 0 = Some (Subunit_new (sb_type s) 0)) as -> by (by destruct Ht as [-> | ->]). rd. done.
Qed.

Lemma read_connection_ok plugs b T c : ids_in_order plugs -> Z.of_nat (length plugs) <= 2 ^ 31 -> splits b T [] -> (c.1 < length plugs)%nat -> (c.2 < length plugs)%nat ->
  view E T any (children (connection_groups Z.of_nat c)) -> PlugConnection_deserialize uninit d plugs b = Some (Some c).
Proof.
  intros I Hn Hs H1' H2' V. unfold PlugConnection_deserialize. erewrite view_present; [|done|exact V|by apply splits_member|apply member_in; in_list]. cbn [negb].
  do 2 rd. cbn [andb negb]. rewrite (find_gid_ok plugs c.1 c.1 0), (find_gid_ok plugs c.2 c.2 0) by (done || by apply I). by destruct c.
Qed.

Lemma read_sync_ok plugs p T t s : ids_in_order plugs -> splits p T t -> (s.1.1 < length plugs)%nat -> (s.1.2 < length plugs)%nat -> (s.1.1 < 256)%nat -> (s.1.2 < 256)%nat ->
  view E (T ++ [t]) any (children (sync_groups Z.of_nat s)) ->
  read_sync uninit d plugs p = Some (true, mkSyncInfo (Some s.1.1) (Some s.1.2) s.2).
Proof.
  intros I Hs A1 A2 B1 B2 V. unfold read_sync. do 3 rd. rewrite (find_gid_ok plugs s.1.1 s.1.1 0), (find_gid_ok plugs s.1.2 s.1.2 0) by (done || by apply I). done.
Qed.

(** Nothing is found under the character of an id. *)
Lemma subunit_plugs_lost fuel plugs b T P gs s : splits b T [] -> Forall (fun x => x <> []) T -> view E T P (children gs) -> Forall group_ok gs ->
  (chars "Subunit" ++ [sb_id s]) ∉ map fst gs -> P (chars "Subunit" ++ [sb_id s]) -> 0 <= sb_id s < 32 -> (0 < fuel)%nat ->
  Subunit_deserializeUpdate uninit d fuel plugs (b ++ chars "Subunit") s = Some (true, s).
Proof.
  intros Hs Ho V G Hn HP Hi Hf. unfold Subunit_deserializeUpdate. destruct fuel as [|fuel]; [lia|]. cbn [deserializePlugVector].
  replace (_ ++ print_int 0 ++ chars "/global_id") with ((((b ++ chars "Subunit") ++ [sb_id s]) ++ chars "/m_plugs0") ++ chars "/global_id") by (rewrite <- !app_assoc; reflexivity).
  assert (splits ((b ++ chars "Subunit") ++ [sb_id s]) T (chars "Subunit" ++ [sb_id s])) as H1'.
  { apply splits_text; [by apply splits_member|]. repeat constructor. unfold slash. lia. }
  erewrite view_absent; [by destruct s|exact C|exact V|exact HP| |by eapply splits_sub; [by eapply splits_sub|]|rewrite <- app_assoc; by eexists|].
  - intros K%children_kind; [|done]. unfold kind in K. rewrite list.filter_app, filter_cons, decide_True in K; [done|].
    unfold isdigit. rewrite (proj2 (Z.leb_gt 48 (sb_id s))) by lia. done.
  - rewrite !Forall_app. split_and!; [done|..]; repeat constructor; done.
Qed.

Lemma update_subunits_ok fuel plugs b T P gs l : splits b T [] -> Forall (fun x => x <> []) T -> view E T P (children gs) -> Forall group_ok gs ->
  (forall i, 0 <= i < 32 -> ((chars "Subunit" ++ [i]) ∉ map fst gs) /\ P (chars "Subunit" ++ [i])) -> (0 < fuel)%nat -> Forall (fun s => 0 <= sb_id s < 32) l ->
  update_subunits uninit d fuel plugs (b ++ chars "Subunit") l = Some (true, l).
Proof.
  intros Hs Ho V G HP Hf F. induction F as [|s l Hi F IH]; [done|]. cbn [update_subunits]. destruct (HP _ Hi).
  eapply obind_step; [by eapply subunit_plugs_lost|]. cbn beta iota. by rewrite IH.
Qed.
End reading.

Lemma pointer_cached l t i : subunit_pointer (cached_subunit <$> l) t i = subunit_pointer l t i.
Proof. unfold subunit_pointer, getSubunit. induction l as [|s l IH]; [done|]. cbn. by destruct (_ && _). Qed.
Lemma pointer_twice l t i : subunit_pointer (l ++ l) t i = subunit_pointer l t i.
Proof.
  unfold subunit_pointer, getSubunit. assert (forall k, find (fun s => (t =? sb_type s) && (i =? sb_id s)) l = None ->
    find (fun s => (t =? sb_type s) && (i =? sb_id s)) (k ++ l) = find (fun s => (t =? sb_type s) && (i =? sb_id s)) k) as N.
  { intros k Hl. induction k as [|s k IH]; [done|]. cbn. by destruct (_ && _). }
  destruct (find _ l) as [s|] eqn:El; [|by rewrite N, El].
  assert (forall k r, find (fun s => (t =? sb_type s) && (i =? sb_id s)) k = Some s -> find (fun s => (t =? sb_type s) && (i =? sb_id s)) (k ++ r) = Some s) as S.
  { intros k r. induction k as [|x k IH]; [done|]. cbn. by destruct (_ && _). }
  by rewrite (S l l El).
Qed.

(** A unit as it is after discovery: plugs numbered in the order of the manager, all pointers to its own plugs, and values of the widths of the members. *)
Record unit_fits (fuel : nat) (u : Unit) (plugs : list Plug) (syncs : list (ploc * ploc * list Z)) : Prop := {
  uf_plugs : mapM (fun l => pw_heap (un_world u) !! l) (pw_plugs (un_world u)) = Some plugs;
  uf_syncs : mapM sync_ends (un_syncInfos u) = Some syncs;
  uf_ids : ids_in_order plugs;
  uf_plug : Forall (fun p => plug_fits fuel p /\ connections_in (length plugs) p /\ subunit_known (subunit_pointer (un_subunits u)) p) plugs;
  uf_subunit : Forall (subunit_fits fuel) (un_subunits u);
  uf_pcr : Forall (fun l => (l < length plugs)%nat) (un_pcrPlugs u);
  uf_external : Forall (fun l => (l < length plugs)%nat) (un_externalPlugs u);
  uf_connection : Forall (fun c => (c.1 < length plugs)%nat /\ (c.2 < length plugs)%nat) (un_plugConnections u);
  uf_sync : Forall (fun s => (s.1.1 < length plugs)%nat /\ (s.1.2 < length plugs)%nat /\ (s.1.1 < 256)%nat /\ (s.1.2 < 256)%nat) syncs;
  uf_counter : - 2 ^ 31 <= pw_globalIdCounter (un_world u) < 2 ^ 31;
  uf_fuel : (length plugs < fuel)%nat /\ (length (un_subunits u) < fuel)%nat /\ (length (un_pcrPlugs u) < fuel)%nat /\ (length (un_externalPlugs u) < fuel)%nat
    /\ (length (un_plugConnections u) < fuel)%nat /\ (length syncs < fuel)%nat /\ Z.of_nat fuel <= 2 ^ 31;
}.

Lemma unit_fits_short fuel u plugs syncs : unit_fits fuel u plugs syncs -> unit_short u plugs syncs.
Proof.
  intros U. destruct (uf_fuel _ _ _ _ U) as (L1 & L2 & L3 & L4 & L5 & L6 & L7). unfold unit_short. split_and!; try (eapply fits_short; [eassumption|lia]).
  - eapply Forall_impl; [|exact (uf_subunit _ _ _ _ U)]. intros s (_ & _ & ?). eapply fits_short; [eassumption|lia].
  - eapply Forall_impl; [|exact (uf_plug _ _ _ _ U)]. intros p (? & _). eapply plug_fits_short; [|eassumption]. lia.
Qed.

Lemma syncs_back l : forall syncs, mapM sync_ends l = Some syncs -> (fun s => mkSyncInfo (Some s.1.1) (Some s.1.2) s.2) <$> syncs = l.
Proof.
  induction l as [|[[a|] [b|] n] l IH]; intros syncs; cbn; try done; [by intros [= <-]|]. destruct (mapM sync_ends l) as [r|]; [|done]. intros [= <-]. cbn. f_equal. by apply IH.
Qed.

(** The names that a unit uses, and those it looks for. *)
Definition unit_name (n : token) : Prop :=
  kind n ∈ [chars "Subunit"; chars "PcrPlug"; chars "ExternalPlug"; chars "PlugConnection"; chars "Plug"; chars "Plugm_globalIdCounter"; chars "SyncInfo"]
  \/ exists i, n = chars "Subunit" ++ [i].


Section loading.
Context {D : Type} `{CacheSpec D} (uninit : Z) (d : D) (E : list entry) (C : cs_holds d E) (b : list Z) (T : list token) (Hs : splits b T []) (Ho : Forall (fun x => x <> []) T).
Context (fuel : nat) (u : Unit) (plugs : list Plug) (syncs : list (ploc * ploc * list Z)) (U : unit_fits fuel u plugs syncs).
Abbreviation gs := (unit_groups Z.of_nat u plugs syncs).
Context (V : view E T unit_name (children gs)).

(** A vector of the unit. *)
Lemma unit_vector {A} (f : A -> list (token * ctree)) name all : vector (chars name) ((fun x => Dir (f x)) <$> all) ∈ gs -> chars name ∈ map fst gs ->
  forallb (fun c => negb (c =? slash)) (chars name) = true -> (length all < fuel)%nat -> has_vector d E f (b ++ chars name) T (chars name) all.
Proof.
  intros Hv Hn Hc Hl. destruct (unit_groups_ok Z.of_nat u plugs syncs (unit_fits_short _ _ _ _ U)) as [G N].
  destruct (uf_fuel _ _ _ _ U) as (_ & _ & _ & _ & _ & _ & L7). eapply view_vector; [done|exact V|exact G|exact N|exact Hv|by apply splits_member| |unfold zlength; lia|done].
  intros n Hk. left. by rewrite Hk.
Qed.

Lemma load_subunits acc : deserializeVector fuel (Subunit_deserialize uninit d) (b ++ chars "Subunit") 0 acc = Some (acc ++ (cached_subunit <$> un_subunits u)).
Proof.
  destruct (uf_fuel _ _ _ _ U) as (_ & L2 & _). pose proof (uf_subunit _ _ _ _ U) as F.
  apply (deserializeVector_ok d E "m_sbType" _ (fun x => children (subunit_groups Z.of_nat x)) cached_subunit _ T (chars "Subunit") (un_subunits u)) with (pre := []); try done.
  - apply unit_vector; [in_list|in_list|done|done].
  - intros p Hp. unfold Subunit_deserialize. by rewrite Hp.
  - eapply Forall_impl; [|exact F]. intros x Hx p v Hp Hv Vx. eapply read_subunit_ok; [done|by apply splits_open|exact Hx|exact Vx].
Qed.

Lemma load_manager getSubunit : PlugManager_deserialize uninit d getSubunit fuel (b ++ chars "Plug")
  = Some (loaded_plug uninit getSubunit <$> plugs, pw_globalIdCounter (un_world u)).
Proof.
  destruct (uf_fuel _ _ _ _ U) as (L1 & _ & _ & _ & _ & _ & L7). pose proof (uf_counter _ _ _ _ U). unfold PlugManager_deserialize. eapply obind_step.
  { rewrite <- app_assoc. eapply read_as_ok; [exact C|exact V|by apply (splits_member b T "Plugm_globalIdCounter")|in_list|lia|by apply wrapS_small]. }
  cbn beta iota. eapply obind_step; [|done].
  apply (read_plugs_ok uninit _ _ C fuel ltac:(lia) getSubunit Z.of_nat _ T plugs) with (pre := []) (acc := []); [|..|done|done].
  - apply unit_vector; [in_list|in_list|done|done].
  - eapply Forall_impl; [|exact (uf_plug _ _ _ _ U)]. by intros p (? & _).
Qed.

Lemma load_plug_vector ps name v : ids_in_order ps -> length ps = length plugs ->
  vector (chars name) ((fun x => Dir (children (global_id_group Z.of_nat x))) <$> v) ∈ gs -> chars name ∈ map fst gs ->
  forallb (fun c => negb (c =? slash)) (chars name) = true -> (length v < fuel)%nat -> Forall (fun l => (l < length plugs)%nat) v ->
  deserializePlugVector uninit d fuel ps (b ++ chars name) 0 [] = Some (true, v).
Proof.
  intros I El Hv Hn Hc Hl F. destruct (uf_fuel _ _ _ _ U) as (L1 & _ & _ & _ & _ & _ & L7).
  eapply (read_connections_ok uninit d E C fuel) with (pre := []) (acc := []); [exact I|lia|by apply unit_vector|by rewrite El|done|done].
Qed.

Lemma load_connections ps : ids_in_order ps -> length ps = length plugs ->
  deserializeVector fuel (PlugConnection_deserialize uninit d ps) (b ++ chars "PlugConnection") 0 [] = Some (un_plugConnections u).
Proof.
  intros I El. destruct (uf_fuel _ _ _ _ U) as (L1 & _ & _ & _ & L5 & _ & L7). pose proof (uf_connection _ _ _ _ U) as F.
  rewrite <- (list_fmap_id (un_plugConnections u)).
  apply (deserializeVector_ok d E "m_srcPlug" _ (fun x => children (connection_groups Z.of_nat x)) id _ T (chars "PlugConnection") (un_plugConnections u)) with (pre := []) (acc := []); try done.
  - apply unit_vector; [in_list|in_list|done|done].
  - intros p Hp. unfold PlugConnection_deserialize. by rewrite Hp.
  - eapply Forall_impl; [|exact F]. intros x [F1 F2] p v Hp Hv Vx. eapply read_connection_ok; [done|exact I|lia|by apply splits_open|by rewrite El|by rewrite El|exact Vx].
Qed.

Lemma load_syncs ps : ids_in_order ps -> length ps = length plugs -> deserializeSyncInfoVector uninit d fuel ps (b ++ chars "SyncInfo") = Some (un_syncInfos u).
Proof.
  intros I El. destruct (uf_fuel _ _ _ _ U) as (L1 & _ & _ & _ & _ & L6 & L7). pose proof (uf_sync _ _ _ _ U) as F.
  unfold deserializeSyncInfoVector. eapply obind_step; [apply (read_vector_ok d E (chars "m_source") _ (fun x => children (sync_groups Z.of_nat x))
    (fun s => mkSyncInfo (Some s.1.1) (Some s.1.2) s.2) _ T (chars "SyncInfo") syncs); [..|done]|].
  - apply unit_vector; [in_list|in_list|done|done].
  - by apply no_slash_check.
  - done.
  - eapply Forall_impl; [|exact F]. intros x (F1 & F2 & F3 & F4) p v Hp Hv Vx. split.
    + eapply view_present; [done|exact Vx|by apply (splits_sub p _ v "m_source")|]. apply member_in. in_list.
    + eapply read_sync_ok; [done|exact I|exact Hp|by rewrite El|by rewrite El|done|done|exact Vx].
  - cbn beta iota. by rewrite (syncs_back _ _ (uf_syncs _ _ _ _ U)).
Qed.

Lemma load_update g1 g2 : (forall t i, g1 t i = subunit_pointer (un_subunits u) t i) -> (forall t i, g2 t i = subunit_pointer (un_subunits u) t i) ->
  deserializeUpdate uninit d g2 fuel b (loaded_plug uninit g1 <$> plugs) = Some (true, cached_plug uninit <$> plugs).
Proof.
  intros H1' H2'. destruct (uf_fuel _ _ _ _ U) as (L1 & _ & _ & _ & _ & _ & L7).
  assert (loaded_plug uninit g1 <$> plugs = loaded_plug uninit g2 <$> plugs) as ->.
  { apply list_fmap_ext. intros i p _. unfold loaded_plug. by rewrite H1', H2'. }
  unfold deserializeUpdate. eapply (update_plugs_ok _ _ _ C fuel ltac:(lia) g2 _ b T plugs);
    [by apply loaded_ids, (uf_ids _ _ _ _ U)|by apply (uf_ids _ _ _ _ U)|rewrite !length_fmap; lia|done|by apply unit_vector; [in_list|in_list|..]| |by instantiate (1 := [])].
  eapply Forall_impl; [|exact (uf_plug _ _ _ _ U)]. intros p (F1 & F2 & F3). rewrite !length_fmap. split_and!; [done|done|]. unfold subunit_known in *. by rewrite H2'.
Qed.
End loading.


(** The two plugs of [example_plugs], the second one of a music subunit with sync by it. *)
Definition cached_unit : Unit :=
  mkUnit (mkPlugWorld (list_to_map (zip (seq 0 2) example_plugs)) [0; 1]%nat 2 example_service)
    [mkSubunit 0x0c 0 [1%nat] (sb_status_descriptor (Subunit_new 0x0c 0))] [0%nat] [] [(1, 0)%nat] [mkSyncInfo (Some 1%nat) (Some 0%nat) (chars "Internal")].

