(* ===== verification/EfcCommands.v ===== *)
(** * EFC commands of Fireworks devices

    Model of [src/fireworks/efc]: the base class [EfcCmd] ([efc_cmd.cpp]) and the command classes
    of [efc_cmds_hardware.cpp], [efc_cmds_hardware_ctrl.cpp], [efc_cmds_mixer.cpp],
    [efc_cmds_monitor.cpp], [efc_cmds_ioconfig.cpp] and [efc_cmds_flash.cpp].

    [serialize] changes the object (length, header) and the static counter of sequence
    numbers, which it takes and returns.  [big_endian] is the byte order of the host; every
    quadlet goes through [CondSwapToBus32] or [CondSwapFromBus32].  The class [EfcCommand] is
    what the transport over AV/C uses of a command. *)
From S2P Require Import Prelude ByteSwap CmdSerialize Fcp AvcCommands AvcExchange.

(** ** The base class *)

Definition EFC_CAT_INVALID : Z := 0xFFFFFFFF.
Definition EFC_CMD_INVALID : Z := 0xFFFFFFFF.
Definition EFC_CAT_HARDWARE_INFO : Z := 0.
Definition EFC_CAT_FLASH : Z := 1.
Definition EFC_CAT_HARDWARE_CONTROL : Z := 3.
Definition EFC_CAT_PHYSICAL_OUTPUT_MIX : Z := 4.
Definition EFC_CAT_PHYSICAL_INPUT_MIX : Z := 5.
Definition EFC_CAT_PLAYBACK_MIX : Z := 6.
Definition EFC_CAT_RECORD_MIX : Z := 7.
Definition EFC_CAT_MONITOR_MIX : Z := 8.
Definition EFC_CAT_IO_CONFIG : Z := 9.

Definition eERV_Ok : Z := 0.
Definition eERV_FlashBusy : Z := 12.

Record efc_header := mkHeader {
  h_version : Z;
  h_seqnum : Z;
  h_category : Z;
  h_command : Z;
  h_retval : Z;
}.

Record EfcCmd := mkEfc {
  ef_length : Z;
  ef_header : efc_header;
  ef_category_id : Z;
  ef_command_id : Z;
}.

Definition EfcCmd_new (cat cmd : Z) : EfcCmd := mkEfc 0 (mkHeader 0 0 0 0 0) cat cmd.

(** [(sizeof(uint32_t) + sizeof(struct EfcCmd::efc_header))/4] *)
Definition EFC_HEADER_LENGTH_QUADLETS : Z := 6.

Definition set_efc_length (len : Z) (c : EfcCmd) : EfcCmd :=
  mkEfc len (ef_header c) (ef_category_id c) (ef_command_id c).
Definition set_category_id (cat : Z) (c : EfcCmd) : EfcCmd :=
  mkEfc (ef_length c) (ef_header c) cat (ef_command_id c).
Definition set_command_id (cmd : Z) (c : EfcCmd) : EfcCmd :=
  mkEfc (ef_length c) (ef_header c) (ef_category_id c) cmd.

Definition header_quadlets (h : efc_header) : list Z :=
  [h_version h; h_seqnum h; h_category h; h_command h; h_retval h].

(** What the transport uses of a command class; [efc_assert] is the assertion at the start of
    [serialize] where a class has one; [efc_deserialize] takes the value of an uninitialised local. *)
Class EfcCommand (T : Type) := {
  efc_base : T -> EfcCmd;
  efc_assert : T -> bool;
  efc_serialize : bool -> forall {SE} `{IOSSerialize SE}, T -> Z -> st SE (bool * T * Z);
  efc_deserialize : bool -> forall {DE} `{IISDeserialize DE}, Z -> T -> st DE (bool * T);
}.

Section base.
Context (big_endian : bool).

Section serialize.
Context {SE : Type} `{IOSSerialize SE}.

Definition write_bus (v : Z) : st SE bool := write_quadlet (CondSwapToBus32 big_endian v).

Definition EfcCmd_serialize (c : EfcCmd) (m_seqnum : Z) : st SE (bool * EfcCmd * Z) :=
  r0 ← write_bus (ef_length c);
  let h := mkHeader (h_version (ef_header c)) m_seqnum (ef_category_id c) (ef_command_id c)
             (h_retval (ef_header c)) in
  r1 ← all_of (write_bus <$> header_quadlets h);
  mret (r0 && r1, mkEfc (ef_length c) h (ef_category_id c) (ef_command_id c), u32 (m_seqnum + 1)).

(** The body shared by the [serialize] methods: set the length, write the header, write the
    arguments. *)
Definition efc_write (len : Z) (args : list Z) (c : EfcCmd) (m_seqnum : Z) : st SE (bool * EfcCmd * Z) :=
  '(r0, c, m_seqnum) ← EfcCmd_serialize (set_efc_length len c) m_seqnum;
  r1 ← all_of (write_bus <$> args);
  mret (r0 && r1, c, m_seqnum).
End serialize.

Section deserialize.
Context {DE : Type} `{IISDeserialize DE}.

(** [EFC_DESERIALIZE_AND_SWAP]: the value is converted also when the read fails. *)
Definition read_bus (old : Z) : st DE (bool * Z) :=
  '(r, v) ← read_quadlet old;
  mret (r, CondSwapFromBus32 big_endian v).

(** Reads into consecutive array elements. *)
Fixpoint read_bus_list (olds : list Z) : st DE (bool * list Z) :=
  match olds with
  | [] => mret (true, [])
  | old :: olds =>
      '(r0, v) ← read_bus old;
      '(r1, l) ← read_bus_list olds;
      mret (r0 && r1, v :: l)
  end.

Fixpoint read_bytes (olds : list Z) : st DE (bool * list Z) :=
  match olds with
  | [] => mret (true, [])
  | old :: olds =>
      '(r0, v) ← read_byte old;
      '(r1, l) ← read_bytes olds;
      mret (r0 && r1, v :: l)
  end.

Definition EfcCmd_deserialize (c : EfcCmd) : st DE (bool * EfcCmd) :=
  let h := ef_header c in
  '(r0, len) ← read_bus (ef_length c);
  '(r1, version) ← read_bus (h_version h);
  '(r2, seqnum) ← read_bus (h_seqnum h);
  '(r3, category) ← read_bus (h_category h);
  '(r4, command) ← read_bus (h_command h);
  '(r5, retval) ← read_bus (h_retval h);
  let c := mkEfc len (mkHeader version seqnum category command retval) (ef_category_id c) (ef_command_id c) in
  if 1 <? version then mret (false, c)
  else if negb (category =? ef_category_id c) then mret (false, c)
  else if negb (command =? ef_command_id c) then mret (false, c)
  else mret (r0 && r1 && r2 && r3 && r4 && r5, c).
End deserialize.
End base.

(** ** Hardware control *)

Definition EFC_CMD_HW_CLOCK_UNSPECIFIED : Z := 0xFFFFFFFF.

Record EfcGetClockCmd := mkGetClock { gc_base : EfcCmd; gc_clock : Z; gc_samplerate : Z; gc_index : Z }.
Definition EfcGetClockCmd_new : EfcGetClockCmd :=
  mkGetClock (EfcCmd_new EFC_CAT_HARDWARE_CONTROL 1) EFC_CMD_HW_CLOCK_UNSPECIFIED EFC_CMD_HW_CLOCK_UNSPECIFIED 0.

Record EfcSetClockCmd := mkSetClock { sc_base : EfcCmd; sc_clock : Z; sc_samplerate : Z; sc_index : Z }.
Definition EfcSetClockCmd_new : EfcSetClockCmd :=
  mkSetClock (EfcCmd_new EFC_CAT_HARDWARE_CONTROL 0) EFC_CMD_HW_CLOCK_UNSPECIFIED EFC_CMD_HW_CLOCK_UNSPECIFIED 0.

Record EfcPhyReconnectCmd := mkPhyReconnect { pr_base : EfcCmd }.
Definition EfcPhyReconnectCmd_new : EfcPhyReconnectCmd := mkPhyReconnect (EfcCmd_new EFC_CAT_HARDWARE_CONTROL 6).

Record EfcGetFlagsCmd := mkGetFlags { gf_base : EfcCmd; gf_flags : Z }.
Definition EfcGetFlagsCmd_new : EfcGetFlagsCmd := mkGetFlags (EfcCmd_new EFC_CAT_HARDWARE_CONTROL 4) 0.

Record EfcChangeFlagsCmd := mkChangeFlags { cf_base : EfcCmd; cf_setmask : Z; cf_clearmask : Z }.
Definition EfcChangeFlagsCmd_new : EfcChangeFlagsCmd := mkChangeFlags (EfcCmd_new EFC_CAT_HARDWARE_CONTROL 3) 0 0.

Record EfcIdentifyCmd := mkIdentify { id_base : EfcCmd }.
Definition EfcIdentifyCmd_new : EfcIdentifyCmd := mkIdentify (EfcCmd_new EFC_CAT_HARDWARE_CONTROL 5).

Section hardware_control.
Context (big_endian : bool).

Section serialize.
Context {SE : Type} `{IOSSerialize SE}.

Definition EfcGetClockCmd_serialize (c : EfcGetClockCmd) (m_seqnum : Z) : st SE (bool * EfcGetClockCmd * Z) :=
  '(r, b, m_seqnum) ← efc_write big_endian EFC_HEADER_LENGTH_QUADLETS [] (gc_base c) m_seqnum;
  mret (r, mkGetClock b (gc_clock c) (gc_samplerate c) (gc_index c), m_seqnum).

Definition EfcSetClockCmd_serialize (c : EfcSetClockCmd) (m_seqnum : Z) : st SE (bool * EfcSetClockCmd * Z) :=
  '(r, b, m_seqnum) ← efc_write big_endian (EFC_HEADER_LENGTH_QUADLETS + 3)
                        [sc_clock c; sc_samplerate c; sc_index c] (sc_base c) m_seqnum;
  mret (r, mkSetClock b (sc_clock c) (sc_samplerate c) (sc_index c), m_seqnum).

Definition EfcPhyReconnectCmd_serialize (c : EfcPhyReconnectCmd) (m_seqnum : Z) : st SE (bool * EfcPhyReconnectCmd * Z) :=
  '(r, b, m_seqnum) ← efc_write big_endian EFC_HEADER_LENGTH_QUADLETS [] (pr_base c) m_seqnum;
  mret (r, mkPhyReconnect b, m_seqnum).

Definition EfcGetFlagsCmd_serialize (c : EfcGetFlagsCmd) (m_seqnum : Z) : st SE (bool * EfcGetFlagsCmd * Z) :=
  '(r, b, m_seqnum) ← efc_write big_endian EFC_HEADER_LENGTH_QUADLETS [] (gf_base c) m_seqnum;
  mret (r, mkGetFlags b (gf_flags c), m_seqnum).

Definition EfcChangeFlagsCmd_serialize (c : EfcChangeFlagsCmd) (m_seqnum : Z) : st SE (bool * EfcChangeFlagsCmd * Z) :=
  '(r, b, m_seqnum) ← efc_write big_endian (EFC_HEADER_LENGTH_QUADLETS + 2)
                        [cf_setmask c; cf_clearmask c] (cf_base c) m_seqnum;
  mret (r, mkChangeFlags b (cf_setmask c) (cf_clearmask c), m_seqnum).

Definition EfcIdentifyCmd_serialize (c : EfcIdentifyCmd) (m_seqnum : Z) : st SE (bool * EfcIdentifyCmd * Z) :=
  '(r, b, m_seqnum) ← efc_write big_endian EFC_HEADER_LENGTH_QUADLETS [] (id_base c) m_seqnum;
  mret (r, mkIdentify b, m_seqnum).
End serialize.

Section deserialize.
Context {DE : Type} `{IISDeserialize DE}.

Definition EfcGetClockCmd_deserialize (c : EfcGetClockCmd) : st DE (bool * EfcGetClockCmd) :=
  '(r0, b) ← EfcCmd_deserialize big_endian (gc_base c);
  '(r1, clock) ← read_bus big_endian (gc_clock c);
  '(r2, samplerate) ← read_bus big_endian (gc_samplerate c);
  '(r3, index) ← read_bus big_endian (gc_index c);
  mret (r0 && r1 && r2 && r3, mkGetClock b clock samplerate index).

Definition EfcSetClockCmd_deserialize (c : EfcSetClockCmd) : st DE (bool * EfcSetClockCmd) :=
  '(r0, b) ← EfcCmd_deserialize big_endian (sc_base c);
  '(r1, clock) ← read_bus big_endian (sc_clock c);
  '(r2, samplerate) ← read_bus big_endian (sc_samplerate c);
  '(r3, index) ← read_bus big_endian (sc_index c);
  mret (r0 && r1 && r2 && r3, mkSetClock b clock samplerate index).

Definition EfcPhyReconnectCmd_deserialize (c : EfcPhyReconnectCmd) : st DE (bool * EfcPhyReconnectCmd) :=
  '(r, b) ← EfcCmd_deserialize big_endian (pr_base c);
  mret (r, mkPhyReconnect b).

Definition EfcGetFlagsCmd_deserialize (c : EfcGetFlagsCmd) : st DE (bool * EfcGetFlagsCmd) :=
  '(r0, b) ← EfcCmd_deserialize big_endian (gf_base c);
  '(r1, flags) ← read_bus big_endian (gf_flags c);
  mret (r0 && r1, mkGetFlags b flags).

Definition EfcChangeFlagsCmd_deserialize (c : EfcChangeFlagsCmd) : st DE (bool * EfcChangeFlagsCmd) :=
  '(r, b) ← EfcCmd_deserialize big_endian (cf_base c);
  mret (r, mkChangeFlags b (cf_setmask c) (cf_clearmask c)).

Definition EfcIdentifyCmd_deserialize (c : EfcIdentifyCmd) : st DE (bool * EfcIdentifyCmd) :=
  '(r, b) ← EfcCmd_deserialize big_endian (id_base c);
  mret (r, mkIdentify b).
End deserialize.
End hardware_control.

(** ** Flash *)

Definition EFC_FLASH_SIZE_BYTES : Z := 256.
Definition EFC_FLASH_SIZE_QUADS : Z := 64.

Record EfcFlashEraseCmd := mkFlashErase { fe_base : EfcCmd; fe_address : Z }.
Definition EfcFlashEraseCmd_new : EfcFlashEraseCmd := mkFlashErase (EfcCmd_new EFC_CAT_FLASH 0) 0xFFFFFFFF.

(** [m_data] has [EFC_FLASH_SIZE_QUADS] elements, which the constructors do not set. *)
Record EfcFlashReadCmd := mkFlashRead { frd_base : EfcCmd; frd_address : Z; frd_nb_quadlets : Z; frd_data : list Z }.
Definition EfcFlashReadCmd_new (junk : list Z) : EfcFlashReadCmd :=
  mkFlashRead (EfcCmd_new EFC_CAT_FLASH 1) 0xFFFFFFFF 0 junk.

Record EfcFlashWriteCmd := mkFlashWrite { fw_base : EfcCmd; fw_address : Z; fw_nb_quadlets : Z; fw_data : list Z }.
Definition EfcFlashWriteCmd_new (junk : list Z) : EfcFlashWriteCmd :=
  mkFlashWrite (EfcCmd_new EFC_CAT_FLASH 2) 0xFFFFFFFF 0 junk.

Record EfcFlashLockCmd := mkFlashLock { fl_base : EfcCmd; fl_lock : bool }.
Definition EfcFlashLockCmd_new : EfcFlashLockCmd := mkFlashLock (EfcCmd_new EFC_CAT_FLASH 5) false.

Record EfcFlashGetStatusCmd := mkFlashStatus { fs_base : EfcCmd; fs_ready : bool }.
Definition EfcFlashGetStatusCmd_new : EfcFlashGetStatusCmd := mkFlashStatus (EfcCmd_new EFC_CAT_FLASH 3) false.

Record EfcFlashGetSessionBaseCmd := mkSessionBase { fb_base : EfcCmd; fb_address : Z }.
Definition EfcFlashGetSessionBaseCmd_new : EfcFlashGetSessionBaseCmd := mkSessionBase (EfcCmd_new EFC_CAT_FLASH 4) 0.

Section flash.
Context (big_endian : bool).

Section serialize.
Context {SE : Type} `{IOSSerialize SE}.

Definition EfcFlashEraseCmd_serialize (c : EfcFlashEraseCmd) (m_seqnum : Z) : st SE (bool * EfcFlashEraseCmd * Z) :=
  '(r, b, m_seqnum) ← efc_write big_endian (EFC_HEADER_LENGTH_QUADLETS + 1) [fe_address c] (fe_base c) m_seqnum;
  mret (r, mkFlashErase b (fe_address c), m_seqnum).

Definition EfcFlashReadCmd_serialize (c : EfcFlashReadCmd) (m_seqnum : Z) : st SE (bool * EfcFlashReadCmd * Z) :=
  '(r, b, m_seqnum) ← efc_write big_endian (EFC_HEADER_LENGTH_QUADLETS + 2)
                        [frd_address c; frd_nb_quadlets c] (frd_base c) m_seqnum;
  mret (r, mkFlashRead b (frd_address c) (frd_nb_quadlets c) (frd_data c), m_seqnum).

Definition EfcFlashWriteCmd_serialize (c : EfcFlashWriteCmd) (m_seqnum : Z) : st SE (bool * EfcFlashWriteCmd * Z) :=
  if EFC_FLASH_SIZE_QUADS <? fw_nb_quadlets c then mret (false, c, m_seqnum) else
  '(r, b, m_seqnum) ← efc_write big_endian (u32 (EFC_HEADER_LENGTH_QUADLETS + 2 + fw_nb_quadlets c))
                        ([fw_address c; fw_nb_quadlets c] ++ take (Z.to_nat (fw_nb_quadlets c)) (fw_data c))
                        (fw_base c) m_seqnum;
  mret (r, mkFlashWrite b (fw_address c) (fw_nb_quadlets c) (fw_data c), m_seqnum).

Definition EfcFlashLockCmd_serialize (c : EfcFlashLockCmd) (m_seqnum : Z) : st SE (bool * EfcFlashLockCmd * Z) :=
  '(r, b, m_seqnum) ← efc_write big_endian (EFC_HEADER_LENGTH_QUADLETS + 1) [Z.b2z (fl_lock c)] (fl_base c) m_seqnum;
  mret (r, mkFlashLock b (fl_lock c), m_seqnum).

Definition EfcFlashGetStatusCmd_serialize (c : EfcFlashGetStatusCmd) (m_seqnum : Z) : st SE (bool * EfcFlashGetStatusCmd * Z) :=
  '(r, b, m_seqnum) ← efc_write big_endian EFC_HEADER_LENGTH_QUADLETS [] (fs_base c) m_seqnum;
  mret (r, mkFlashStatus b (fs_ready c), m_seqnum).

Definition EfcFlashGetSessionBaseCmd_serialize (c : EfcFlashGetSessionBaseCmd) (m_seqnum : Z)
  : st SE (bool * EfcFlashGetSessionBaseCmd * Z) :=
  '(r, b, m_seqnum) ← efc_write big_endian EFC_HEADER_LENGTH_QUADLETS [] (fb_base c) m_seqnum;
  mret (r, mkSessionBase b (fb_address c), m_seqnum).
End serialize.

Section deserialize.
Context {DE : Type} `{IISDeserialize DE}.

Definition EfcFlashEraseCmd_deserialize (c : EfcFlashEraseCmd) : st DE (bool * EfcFlashEraseCmd) :=
  '(r, b) ← EfcCmd_deserialize big_endian (fe_base c);
  mret (r, mkFlashErase b (fe_address c)).

(** The count is checked before the loop over the array. *)
Definition EfcFlashReadCmd_deserialize (c : EfcFlashReadCmd) : st DE (bool * EfcFlashReadCmd) :=
  '(r0, b) ← EfcCmd_deserialize big_endian (frd_base c);
  '(r1, address) ← read_bus big_endian (frd_address c);
  '(r2, nb) ← read_bus big_endian (frd_nb_quadlets c);
  if EFC_FLASH_SIZE_QUADS <? nb then mret (false, mkFlashRead b address nb (frd_data c)) else
  '(r3, l) ← read_bus_list big_endian (take (Z.to_nat nb) (frd_data c));
  mret (r0 && r1 && r2 && r3, mkFlashRead b address nb (l ++ drop (Z.to_nat nb) (frd_data c))).

Definition EfcFlashWriteCmd_deserialize (c : EfcFlashWriteCmd) : st DE (bool * EfcFlashWriteCmd) :=
  '(r, b) ← EfcCmd_deserialize big_endian (fw_base c);
  mret (r, mkFlashWrite b (fw_address c) (fw_nb_quadlets c) (fw_data c)).

Definition EfcFlashLockCmd_deserialize (c : EfcFlashLockCmd) : st DE (bool * EfcFlashLockCmd) :=
  '(r, b) ← EfcCmd_deserialize big_endian (fl_base c);
  mret (r, mkFlashLock b (fl_lock c)).

Definition EfcFlashGetStatusCmd_deserialize (c : EfcFlashGetStatusCmd) : st DE (bool * EfcFlashGetStatusCmd) :=
  '(r, b) ← EfcCmd_deserialize big_endian (fs_base c);
  mret (r, mkFlashStatus b (negb (h_retval (ef_header b) =? eERV_FlashBusy))).

Definition EfcFlashGetSessionBaseCmd_deserialize (c : EfcFlashGetSessionBaseCmd) : st DE (bool * EfcFlashGetSessionBaseCmd) :=
  '(r0, b) ← EfcCmd_deserialize big_endian (fb_base c);
  '(r1, address) ← read_bus big_endian (fb_address c);
  mret (r0 && r1, mkSessionBase b address).
End deserialize.
End flash.

(** ** Mixer and monitor *)

Inductive eMixerTarget := eMT_PhysicalOutputMix | eMT_PhysicalInputMix | eMT_PlaybackMix | eMT_RecordMix.
Inductive eMixerCommand := eMC_Gain | eMC_Solo | eMC_Mute | eMC_Pan | eMC_Nominal.
Inductive eMonitorCommand := eMoC_Gain | eMoC_Solo | eMoC_Mute | eMoC_Pan.
Inductive eCmdType := eCT_Get | eCT_Set.

#[export] Instance eMixerTarget_eq_dec : EqDecision eMixerTarget.
Proof. solve_decision. Defined.
#[export] Instance eMixerCommand_eq_dec : EqDecision eMixerCommand.
Proof. solve_decision. Defined.
#[export] Instance eCmdType_eq_dec : EqDecision eCmdType.
Proof. solve_decision. Defined.

Record EfcGenericMixerCmd := mkMixer {
  mx_base : EfcCmd;
  mx_channel : Z;
  mx_value : Z;
  mx_type : eCmdType;
  mx_target : eMixerTarget;
  mx_command : eMixerCommand;
}.

(** The switches over the command. *)
Definition mixer_command_id (type : eCmdType) (command : eMixerCommand) : Z :=
  match type, command with
  | eCT_Get, eMC_Gain => 1
  | eCT_Get, eMC_Solo => 5
  | eCT_Get, eMC_Mute => 3
  | eCT_Get, eMC_Pan => 7
  | eCT_Get, eMC_Nominal => 9
  | eCT_Set, eMC_Gain => 0
  | eCT_Set, eMC_Solo => 4
  | eCT_Set, eMC_Mute => 2
  | eCT_Set, eMC_Pan => 6
  | eCT_Set, eMC_Nominal => 8
  end.

Definition mixer_category_id (target : eMixerTarget) : Z :=
  match target with
  | eMT_PhysicalOutputMix => EFC_CAT_PHYSICAL_OUTPUT_MIX
  | eMT_PhysicalInputMix => EFC_CAT_PHYSICAL_INPUT_MIX
  | eMT_PlaybackMix => EFC_CAT_PLAYBACK_MIX
  | eMT_RecordMix => EFC_CAT_RECORD_MIX
  end.

Definition mixer_setType (type : eCmdType) (c : EfcGenericMixerCmd) : bool * EfcGenericMixerCmd :=
  (true, mkMixer (set_command_id (mixer_command_id type (mx_command c)) (mx_base c))
           (mx_channel c) (mx_value c) type (mx_target c) (mx_command c)).

Definition mixer_setTarget (target : eMixerTarget) (c : EfcGenericMixerCmd) : bool * EfcGenericMixerCmd :=
  (true, mkMixer (set_category_id (mixer_category_id target) (mx_base c))
           (mx_channel c) (mx_value c) (mx_type c) target (mx_command c)).

Definition mixer_setCommand (command : eMixerCommand) (c : EfcGenericMixerCmd) : bool * EfcGenericMixerCmd :=
  (true, mkMixer (set_command_id (mixer_command_id (mx_type c) command) (mx_base c))
           (mx_channel c) (mx_value c) (mx_type c) (mx_target c) command).

Definition EfcGenericMixerCmd_new (target : eMixerTarget) (command : eMixerCommand) (channel : Z) : EfcGenericMixerCmd :=
  let c := mkMixer (EfcCmd_new EFC_CAT_INVALID EFC_CMD_INVALID) channel 0 eCT_Get target command in
  let '(_, c) := mixer_setTarget target c in
  let '(_, c) := mixer_setCommand command c in
  (mixer_setType eCT_Get c).2.

Record EfcGenericMonitorCmd := mkMonitor {
  mo_base : EfcCmd;
  mo_input : Z;
  mo_output : Z;
  mo_value : Z;
  mo_type : eCmdType;
  mo_command : eMonitorCommand;
}.

Definition monitor_command_id (type : eCmdType) (command : eMonitorCommand) : Z :=
  match type, command with
  | eCT_Get, eMoC_Gain => 1
  | eCT_Get, eMoC_Solo => 5
  | eCT_Get, eMoC_Mute => 3
  | eCT_Get, eMoC_Pan => 7
  | eCT_Set, eMoC_Gain => 0
  | eCT_Set, eMoC_Solo => 4
  | eCT_Set, eMoC_Mute => 2
  | eCT_Set, eMoC_Pan => 6
  end.

Definition EfcGenericMonitorCmd_new (type : eCmdType) (command : eMonitorCommand) : EfcGenericMonitorCmd :=
  mkMonitor (EfcCmd_new EFC_CAT_MONITOR_MIX (monitor_command_id type command)) (-1) (-1) 0 type command.

Section mixer.
Context (big_endian : bool).

Section serialize.
Context {SE : Type} `{IOSSerialize SE}.

(** The channel is an [int32_t], converted to a quadlet for the swap. *)
Definition EfcGenericMixerCmd_serialize (c : EfcGenericMixerCmd) (m_seqnum : Z) : st SE (bool * EfcGenericMixerCmd * Z) :=
  '(r, b, m_seqnum) ←
    match mx_type c with
    | eCT_Get => efc_write big_endian (EFC_HEADER_LENGTH_QUADLETS + 1) [u32 (mx_channel c)] (mx_base c) m_seqnum
    | eCT_Set => efc_write big_endian (EFC_HEADER_LENGTH_QUADLETS + 2) [u32 (mx_channel c); mx_value c] (mx_base c) m_seqnum
    end;
  mret (r, mkMixer b (mx_channel c) (mx_value c) (mx_type c) (mx_target c) (mx_command c), m_seqnum).

Definition EfcGenericMonitorCmd_serialize (c : EfcGenericMonitorCmd) (m_seqnum : Z) : st SE (bool * EfcGenericMonitorCmd * Z) :=
  '(r, b, m_seqnum) ←
    match mo_type c with
    | eCT_Get => efc_write big_endian (EFC_HEADER_LENGTH_QUADLETS + 2)
                   [u32 (mo_input c); u32 (mo_output c)] (mo_base c) m_seqnum
    | eCT_Set => efc_write big_endian (EFC_HEADER_LENGTH_QUADLETS + 3)
                   [u32 (mo_input c); u32 (mo_output c); mo_value c] (mo_base c) m_seqnum
    end;
  mret (r, mkMonitor b (mo_input c) (mo_output c) (mo_value c) (mo_type c) (mo_command c), m_seqnum).
End serialize.

Section deserialize.
Context {DE : Type} `{IISDeserialize DE}.

(** The cast of [&m_channel] to a quadlet pointer: the quadlet read is seen as an [int32_t]. *)
Definition EfcGenericMixerCmd_deserialize (c : EfcGenericMixerCmd) : st DE (bool * EfcGenericMixerCmd) :=
  '(r0, b) ← EfcCmd_deserialize big_endian (mx_base c);
  match mx_type c with
  | eCT_Get =>
      '(r1, channel) ← read_bus big_endian (u32 (mx_channel c));
      '(r2, value) ← read_bus big_endian (mx_value c);
      mret (r0 && r1 && r2, mkMixer b (i32 channel) value (mx_type c) (mx_target c) (mx_command c))
  | eCT_Set => mret (r0, mkMixer b (mx_channel c) (mx_value c) (mx_type c) (mx_target c) (mx_command c))
  end.

Definition EfcGenericMonitorCmd_deserialize (c : EfcGenericMonitorCmd) : st DE (bool * EfcGenericMonitorCmd) :=
  '(r0, b) ← EfcCmd_deserialize big_endian (mo_base c);
  match mo_type c with
  | eCT_Get =>
      '(r1, input) ← read_bus big_endian (u32 (mo_input c));
      '(r2, output) ← read_bus big_endian (u32 (mo_output c));
      '(r3, value) ← read_bus big_endian (mo_value c);
      mret (r0 && r1 && r2 && r3, mkMonitor b (i32 input) (i32 output) value (mo_type c) (mo_command c))
  | eCT_Set => mret (r0, mkMonitor b (mo_input c) (mo_output c) (mo_value c) (mo_type c) (mo_command c))
  end.
End deserialize.
End mixer.

(** ** I/O configuration *)

Inductive eIOConfigRegister := eCR_Mirror | eCR_DigitalInterface | eCR_Phantom | eCR_IsocMap.

Record EfcGenericIOConfigCmd := mkIOConfig {
  io_base : EfcCmd;
  io_value : Z;
  io_type : eCmdType;
  io_reg : eIOConfigRegister;
}.

(** The switches over the register; the map of isochronous channels is not handled. *)
Definition ioconfig_command_id (type : eCmdType) (reg : eIOConfigRegister) : option Z :=
  match type, reg with
  | eCT_Get, eCR_Mirror => Some 1
  | eCT_Get, eCR_DigitalInterface => Some 3
  | eCT_Get, eCR_Phantom => Some 5
  | eCT_Set, eCR_Mirror => Some 0
  | eCT_Set, eCR_DigitalInterface => Some 2
  | eCT_Set, eCR_Phantom => Some 4
  | _, eCR_IsocMap => None
  end.

Definition ioconfig_setType (type : eCmdType) (c : EfcGenericIOConfigCmd) : bool * EfcGenericIOConfigCmd :=
  match ioconfig_command_id type (io_reg c) with
  | Some id => (true, mkIOConfig (set_command_id id (io_base c)) (io_value c) type (io_reg c))
  | None => (false, mkIOConfig (io_base c) (io_value c) type (io_reg c))
  end.

Definition ioconfig_setRegister (r : eIOConfigRegister) (c : EfcGenericIOConfigCmd) : bool * EfcGenericIOConfigCmd :=
  match ioconfig_command_id (io_type c) r with
  | Some id => (true, mkIOConfig (set_command_id id (io_base c)) (io_value c) (io_type c) r)
  | None => (false, mkIOConfig (io_base c) (io_value c) (io_type c) r)
  end.

Definition EfcGenericIOConfigCmd_new (r : eIOConfigRegister) : EfcGenericIOConfigCmd :=
  (ioconfig_setRegister r (mkIOConfig (EfcCmd_new EFC_CAT_IO_CONFIG EFC_CMD_INVALID) 0 eCT_Get r)).2.

Definition EFC_MAX_ISOC_MAP_ENTRIES : Z := 32.

(** [sizeof(IsoChannelMap)], in bytes. *)
Definition sizeof_IsoChannelMap : Z := 4 * (6 + 2 * EFC_MAX_ISOC_MAP_ENTRIES).

(** [m_playmap] and [m_recmap] have [EFC_MAX_ISOC_MAP_ENTRIES] elements. *)
Record EfcIsocMapIOConfigCmd := mkIsocMap {
  im_base : EfcCmd;
  im_samplerate : Z;
  im_flags : Z;
  im_num_playmap_entries : Z;
  im_num_phys_out : Z;
  im_playmap : list Z;
  im_num_recmap_entries : Z;
  im_num_phys_in : Z;
  im_recmap : list Z;
  im_type : eCmdType;
}.

(** The constructor sets the category and leaves the command id invalid. *)
Definition EfcIsocMapIOConfigCmd_new : EfcIsocMapIOConfigCmd :=
  mkIsocMap (EfcCmd_new EFC_CAT_IO_CONFIG EFC_CMD_INVALID) 0 0 0 0 (replicate 32 0) 0 0 (replicate 32 0) eCT_Get.

Definition isocmap_setType (type : eCmdType) (c : EfcIsocMapIOConfigCmd) : bool * EfcIsocMapIOConfigCmd :=
  (true, mkIsocMap (set_command_id (match type with eCT_Get => 7 | eCT_Set => 6 end) (im_base c))
           (im_samplerate c) (im_flags c) (im_num_playmap_entries c) (im_num_phys_out c) (im_playmap c)
           (im_num_recmap_entries c) (im_num_phys_in c) (im_recmap c) type).

(** [assert((play <= MAX) || (rec <= MAX))] *)
Definition isocmap_assert (c : EfcIsocMapIOConfigCmd) : bool :=
  (im_num_playmap_entries c <=? EFC_MAX_ISOC_MAP_ENTRIES) || (im_num_recmap_entries c <=? EFC_MAX_ISOC_MAP_ENTRIES).

Section ioconfig.
Context (big_endian : bool).

Section serialize.
Context {SE : Type} `{IOSSerialize SE}.

Definition EfcGenericIOConfigCmd_serialize (c : EfcGenericIOConfigCmd) (m_seqnum : Z) : st SE (bool * EfcGenericIOConfigCmd * Z) :=
  '(r, b, m_seqnum) ←
    match io_type c with
    | eCT_Get => efc_write big_endian EFC_HEADER_LENGTH_QUADLETS [] (io_base c) m_seqnum
    | eCT_Set => efc_write big_endian (EFC_HEADER_LENGTH_QUADLETS + 1) [io_value c] (io_base c) m_seqnum
    end;
  mret (r, mkIOConfig b (io_value c) (io_type c) (io_reg c), m_seqnum).

(** The quadlets after the header of a set command. *)
Definition isocmap_args (c : EfcIsocMapIOConfigCmd) : list Z :=
  [im_samplerate c; im_flags c; im_num_playmap_entries c; im_num_phys_out c] ++ im_playmap c
  ++ [im_num_recmap_entries c; im_num_phys_in c] ++ im_recmap c.

Definition EfcIsocMapIOConfigCmd_serialize (c : EfcIsocMapIOConfigCmd) (m_seqnum : Z) : st SE (bool * EfcIsocMapIOConfigCmd * Z) :=
  '(r, b, m_seqnum) ←
    match im_type c with
    | eCT_Get => efc_write big_endian EFC_HEADER_LENGTH_QUADLETS [] (im_base c) m_seqnum
    | eCT_Set => efc_write big_endian (EFC_HEADER_LENGTH_QUADLETS + sizeof_IsoChannelMap)
                   (isocmap_args c) (im_base c) m_seqnum
    end;
  mret (r, mkIsocMap b (im_samplerate c) (im_flags c) (im_num_playmap_entries c) (im_num_phys_out c)
             (im_playmap c) (im_num_recmap_entries c) (im_num_phys_in c) (im_recmap c) (im_type c), m_seqnum).
End serialize.

Section deserialize.
Context {DE : Type} `{IISDeserialize DE}.

Definition EfcGenericIOConfigCmd_deserialize (c : EfcGenericIOConfigCmd) : st DE (bool * EfcGenericIOConfigCmd) :=
  '(r0, b) ← EfcCmd_deserialize big_endian (io_base c);
  match io_type c with
  | eCT_Get =>
      '(r1, value) ← read_bus big_endian (io_value c);
      mret (r0 && r1, mkIOConfig b value (io_type c) (io_reg c))
  | eCT_Set => mret (r0, mkIOConfig b (io_value c) (io_type c) (io_reg c))
  end.

Definition EfcIsocMapIOConfigCmd_deserialize (c : EfcIsocMapIOConfigCmd) : st DE (bool * EfcIsocMapIOConfigCmd) :=
  '(r0, b) ← EfcCmd_deserialize big_endian (im_base c);
  match im_type c with
  | eCT_Get =>
      '(r1, samplerate) ← read_bus big_endian (im_samplerate c);
      '(r2, flags) ← read_bus big_endian (im_flags c);
      '(r3, nplay) ← read_bus big_endian (im_num_playmap_entries c);
      '(r4, nout) ← read_bus big_endian (im_num_phys_out c);
      '(r5, playmap) ← read_bus_list big_endian (im_playmap c);
      '(r6, nrec) ← read_bus big_endian (im_num_recmap_entries c);
      '(r7, nin) ← read_bus big_endian (im_num_phys_in c);
      '(r8, recmap) ← read_bus_list big_endian (im_recmap c);
      mret (r0 && r1 && r2 && r3 && r4 && r5 && r6 && r7 && r8,
            mkIsocMap b samplerate flags nplay nout playmap nrec nin recmap (im_type c))
  | eCT_Set =>
      mret (r0, mkIsocMap b (im_samplerate c) (im_flags c) (im_num_playmap_entries c) (im_num_phys_out c)
                  (im_playmap c) (im_num_recmap_entries c) (im_num_phys_in c) (im_recmap c) (im_type c))
  end.
End deserialize.
End ioconfig.

(** ** Hardware information *)

Definition HWINFO_NAME_SIZE_BYTES : Z := 32.
Definition HWINFO_MAX_CAPS_GROUPS : Z := 8.
Definition POLLED_MAX_NB_METERS : Z := 100.

Definition EFC_CMD_HW_CHECK_FLAG (val flag : Z) : bool := negb ((val .& (1 << flag)) =? 0).
Definition EFC_CMD_HW_HAS_DSP : Z := 4.

(** The members in the order of the response.  The names have 32 bytes; a group is a type and
    a count, and there are 8 of each kind; [hi_2x] holds the members that only firmware with EFC
    version 1 sends: FPGA version and the channel counts at the higher rates. *)
Record EfcHardwareInfoCmd := mkHwInfo {
  hi_base : EfcCmd;
  hi_flags : Z;
  hi_guid : Z;
  hi_type : Z;
  hi_version : Z;
  hi_vendor_name : list Z;
  hi_model_name : list Z;
  hi_supported_clocks : Z;
  hi_nb_1394_playback_channels : Z;
  hi_nb_1394_record_channels : Z;
  hi_nb_phys_audio_out : Z;
  hi_nb_phys_audio_in : Z;
  hi_nb_out_groups : Z;
  hi_out_groups : list (Z * Z);
  hi_nb_in_groups : Z;
  hi_in_groups : list (Z * Z);
  hi_nb_midi_out : Z;
  hi_nb_midi_in : Z;
  hi_max_sample_rate : Z;
  hi_min_sample_rate : Z;
  hi_dsp_version : Z;
  hi_arm_version : Z;
  hi_num_mix_play_chan : Z;
  hi_num_mix_rec_chan : Z;
  hi_2x : list Z;
}.

(** The constructor sets the group counts and nothing else. *)
Definition EfcHardwareInfoCmd_new (u : Z) : EfcHardwareInfoCmd :=
  mkHwInfo (EfcCmd_new EFC_CAT_HARDWARE_INFO 0) u u u u (replicate 32 u) (replicate 32 u) u u u u u
    0 (replicate 8 (u, u)) 0 (replicate 8 (u, u)) u u u u u u u u (replicate 5 u).

Definition hasDSP (c : EfcHardwareInfoCmd) : bool := EFC_CMD_HW_CHECK_FLAG (hi_flags c) EFC_CMD_HW_HAS_DSP.

(** [m_meters] has [POLLED_MAX_NB_METERS] elements. *)
Record EfcPolledValuesCmd := mkPolled {
  po_base : EfcCmd;
  po_status : Z;
  po_detect_spdif : Z;
  po_detect_adat : Z;
  po_reserved3 : Z;
  po_reserved4 : Z;
  po_nb_output_meters : Z;
  po_nb_input_meters : Z;
  po_reserved5 : Z;
  po_reserved6 : Z;
  po_meters : list Z;
}.

Definition EfcPolledValuesCmd_new (u : Z) : EfcPolledValuesCmd :=
  mkPolled (EfcCmd_new EFC_CAT_HARDWARE_INFO 1) u u u u u 0 0 u u (replicate 100 u).

Section hardware.
Context (big_endian : bool).

Section serialize.
Context {SE : Type} `{IOSSerialize SE}.

Definition EfcHardwareInfoCmd_serialize (c : EfcHardwareInfoCmd) (m_seqnum : Z) : st SE (bool * EfcHardwareInfoCmd * Z) :=
  '(r, b, m_seqnum) ← efc_write big_endian EFC_HEADER_LENGTH_QUADLETS [] (hi_base c) m_seqnum;
  let '(mkHwInfo _ x1 x2 x3 x4 x5 x6 x7 x8 x9 x10 x11 x12 x13 x14 x15 x16 x17 x18 x19 x20 x21 x22 x23 x24) := c in
  mret (r, mkHwInfo b x1 x2 x3 x4 x5 x6 x7 x8 x9 x10 x11 x12 x13 x14 x15 x16 x17 x18 x19 x20 x21 x22 x23 x24,
        m_seqnum).

Definition EfcPolledValuesCmd_serialize (c : EfcPolledValuesCmd) (m_seqnum : Z) : st SE (bool * EfcPolledValuesCmd * Z) :=
  '(r, b, m_seqnum) ← efc_write big_endian EFC_HEADER_LENGTH_QUADLETS [] (po_base c) m_seqnum;
  let '(mkPolled _ x1 x2 x3 x4 x5 x6 x7 x8 x9 x10) := c in
  mret (r, mkPolled b x1 x2 x3 x4 x5 x6 x7 x8 x9 x10, m_seqnum).
End serialize.

Section deserialize.
Context {DE : Type} `{IISDeserialize DE}.

Fixpoint read_groups (olds : list (Z * Z)) : st DE (bool * list (Z * Z)) :=
  match olds with
  | [] => mret (true, [])
  | (type, count) :: olds =>
      '(r0, type) ← read_byte type;
      '(r1, count) ← read_byte count;
      '(r2, l) ← read_groups olds;
      mret (r0 && r1 && r2, (type, count) :: l)
  end.

(** [tmp] is not initialised before the first read of the GUID. *)
Definition EfcHardwareInfoCmd_deserialize (uninit : Z) (c : EfcHardwareInfoCmd) : st DE (bool * EfcHardwareInfoCmd) :=
  let rd := read_bus big_endian in
  '(r0, b) ← EfcCmd_deserialize big_endian (hi_base c);
  '(r1, flags) ← rd (hi_flags c);
  '(r2, tmp) ← rd uninit;
  let guid := u64 (tmp << 32) in
  '(r3, tmp) ← rd tmp;
  let guid := guid .| tmp in
  '(r4, type) ← rd (hi_type c);
  '(r5, version) ← rd (hi_version c);
  '(r6, vendor) ← read_bytes (hi_vendor_name c);
  '(r7, model) ← read_bytes (hi_model_name c);
  '(r8, clocks) ← rd (hi_supported_clocks c);
  '(r9, playback) ← rd (hi_nb_1394_playback_channels c);
  '(r10, record) ← rd (hi_nb_1394_record_channels c);
  '(r11, phys_out) ← rd (hi_nb_phys_audio_out c);
  '(r12, phys_in) ← rd (hi_nb_phys_audio_in c);
  '(r13, nout) ← rd (hi_nb_out_groups c);
  '(r14, out_groups) ← read_groups (hi_out_groups c);
  '(r15, nin) ← rd (hi_nb_in_groups c);
  '(r16, in_groups) ← read_groups (hi_in_groups c);
  '(r17, midi_out) ← rd (hi_nb_midi_out c);
  '(r18, midi_in) ← rd (hi_nb_midi_in c);
  '(r19, max_rate) ← rd (hi_max_sample_rate c);
  '(r20, min_rate) ← rd (hi_min_sample_rate c);
  '(r21, dsp) ← rd (hi_dsp_version c);
  '(r22, arm) ← rd (hi_arm_version c);
  '(r23, mix_play) ← rd (hi_num_mix_play_chan c);
  '(r24, mix_rec) ← rd (hi_num_mix_rec_chan c);
  '(r25, high) ← (if 1 <=? h_version (ef_header b) then read_bus_list big_endian (hi_2x c) else mret (true, hi_2x c));
  mret (forallb id [r0; r1; r2; r3; r4; r5; r6; r7; r8; r9; r10; r11; r12; r13; r14; r15; r16; r17; r18; r19;
                    r20; r21; r22; r23; r24; r25],
        mkHwInfo b flags guid type version vendor model clocks playback record phys_out phys_in nout out_groups
          nin in_groups midi_out midi_in max_rate min_rate dsp arm mix_play mix_rec high).

(** The sum is computed on [uint32_t] and stored in an [int]. *)
Definition EfcPolledValuesCmd_deserialize (c : EfcPolledValuesCmd) : st DE (bool * EfcPolledValuesCmd) :=
  let rd := read_bus big_endian in
  '(r, b) ← EfcCmd_deserialize big_endian (po_base c);
  let '(mkPolled _ x1 x2 x3 x4 x5 x6 x7 x8 x9 meters) := c in
  if negb r then mret (false, mkPolled b x1 x2 x3 x4 x5 x6 x7 x8 x9 meters) else
  '(r1, status) ← rd x1;
  '(r2, spdif) ← rd x2;
  '(r3, adat) ← rd x3;
  '(r4, x4) ← rd x4;
  '(r5, x5) ← rd x5;
  '(r6, nout) ← rd x6;
  '(r7, nin) ← rd x7;
  '(r8, x8) ← rd x8;
  '(r9, x9) ← rd x9;
  if negb (r1 && r2 && r3 && r4 && r5 && r6 && r7 && r8 && r9)
  then mret (false, mkPolled b status spdif adat x4 x5 nout nin x8 x9 meters) else
  let nb_meters := i32 (u32 (nout + nin)) in
  let '(nout, nin, nb_meters) :=
    if POLLED_MAX_NB_METERS <? nb_meters then (0, 0, 0) else (nout, nin, nb_meters) in
  '(r10, l) ← read_bus_list big_endian (take (Z.to_nat nb_meters) (u32 <$> meters));
  mret (r10, mkPolled b status spdif adat x4 x5 nout nin x8 x9
               ((i32 <$> l) ++ drop (Z.to_nat nb_meters) meters)).
End deserialize.
End hardware.

(** ** The command classes *)

#[export] Instance EfcGetClockCmd_efc : EfcCommand EfcGetClockCmd := {
  efc_base := gc_base;
  efc_assert := fun _ => true;
  efc_serialize be _ _ := EfcGetClockCmd_serialize be;
  efc_deserialize be _ _ _ := EfcGetClockCmd_deserialize be;
}.
#[export] Instance EfcSetClockCmd_efc : EfcCommand EfcSetClockCmd := {
  efc_base := sc_base;
  efc_assert := fun _ => true;
  efc_serialize be _ _ := EfcSetClockCmd_serialize be;
  efc_deserialize be _ _ _ := EfcSetClockCmd_deserialize be;
}.
#[export] Instance EfcPhyReconnectCmd_efc : EfcCommand EfcPhyReconnectCmd := {
  efc_base := pr_base;
  efc_assert := fun _ => true;
  efc_serialize be _ _ := EfcPhyReconnectCmd_serialize be;
  efc_deserialize be _ _ _ := EfcPhyReconnectCmd_deserialize be;
}.
#[export] Instance EfcGetFlagsCmd_efc : EfcCommand EfcGetFlagsCmd := {
  efc_base := gf_base;
  efc_assert := fun _ => true;
  efc_serialize be _ _ := EfcGetFlagsCmd_serialize be;
  efc_deserialize be _ _ _ := EfcGetFlagsCmd_deserialize be;
}.
#[export] Instance EfcChangeFlagsCmd_efc : EfcCommand EfcChangeFlagsCmd := {
  efc_base := cf_base;
  efc_assert := fun _ => true;
  efc_serialize be _ _ := EfcChangeFlagsCmd_serialize be;
  efc_deserialize be _ _ _ := EfcChangeFlagsCmd_deserialize be;
}.
#[export] Instance EfcIdentifyCmd_efc : EfcCommand EfcIdentifyCmd := {
  efc_base := id_base;
  efc_assert := fun _ => true;
  efc_serialize be _ _ := EfcIdentifyCmd_serialize be;
  efc_deserialize be _ _ _ := EfcIdentifyCmd_deserialize be;
}.
#[export] Instance EfcFlashEraseCmd_efc : EfcCommand EfcFlashEraseCmd := {
  efc_base := fe_base;
  efc_assert := fun _ => true;
  efc_serialize be _ _ := EfcFlashEraseCmd_serialize be;
  efc_deserialize be _ _ _ := EfcFlashEraseCmd_deserialize be;
}.
#[export] Instance EfcFlashReadCmd_efc : EfcCommand EfcFlashReadCmd := {
  efc_base := frd_base;
  efc_assert := fun _ => true;
  efc_serialize be _ _ := EfcFlashReadCmd_serialize be;
  efc_deserialize be _ _ _ := EfcFlashReadCmd_deserialize be;
}.
#[export] Instance EfcFlashWriteCmd_efc : EfcCommand EfcFlashWriteCmd := {
  efc_base := fw_base;
  efc_assert := fun _ => true;
  efc_serialize be _ _ := EfcFlashWriteCmd_serialize be;
  efc_deserialize be _ _ _ := EfcFlashWriteCmd_deserialize be;
}.
#[export] Instance EfcFlashLockCmd_efc : EfcCommand EfcFlashLockCmd := {
  efc_base := fl_base;
  efc_assert := fun _ => true;
  efc_serialize be _ _ := EfcFlashLockCmd_serialize be;
  efc_deserialize be _ _ _ := EfcFlashLockCmd_deserialize be;
}.
#[export] Instance EfcFlashGetStatusCmd_efc : EfcCommand EfcFlashGetStatusCmd := {
  efc_base := fs_base;
  efc_assert := fun _ => true;
  efc_serialize be _ _ := EfcFlashGetStatusCmd_serialize be;
  efc_deserialize be _ _ _ := EfcFlashGetStatusCmd_deserialize be;
}.
#[export] Instance EfcFlashGetSessionBaseCmd_efc : EfcCommand EfcFlashGetSessionBaseCmd := {
  efc_base := fb_base;
  efc_assert := fun _ => true;
  efc_serialize be _ _ := EfcFlashGetSessionBaseCmd_serialize be;
  efc_deserialize be _ _ _ := EfcFlashGetSessionBaseCmd_deserialize be;
}.
#[export] Instance EfcGenericMixerCmd_efc : EfcCommand EfcGenericMixerCmd := {
  efc_base := mx_base;
  efc_assert := fun _ => true;
  efc_serialize be _ _ := EfcGenericMixerCmd_serialize be;
  efc_deserialize be _ _ _ := EfcGenericMixerCmd_deserialize be;
}.
#[export] Instance EfcGenericMonitorCmd_efc : EfcCommand EfcGenericMonitorCmd := {
  efc_base := mo_base;
  efc_assert := fun _ => true;
  efc_serialize be _ _ := EfcGenericMonitorCmd_serialize be;
  efc_deserialize be _ _ _ := EfcGenericMonitorCmd_deserialize be;
}.
#[export] Instance EfcGenericIOConfigCmd_efc : EfcCommand EfcGenericIOConfigCmd := {
  efc_base := io_base;
  efc_assert := fun _ => true;
  efc_serialize be _ _ := EfcGenericIOConfigCmd_serialize be;
  efc_deserialize be _ _ _ := EfcGenericIOConfigCmd_deserialize be;
}.
#[export] Instance EfcIsocMapIOConfigCmd_efc : EfcCommand EfcIsocMapIOConfigCmd := {
  efc_base := im_base;
  efc_assert := isocmap_assert;
  efc_serialize be _ _ := EfcIsocMapIOConfigCmd_serialize be;
  efc_deserialize be _ _ _ := EfcIsocMapIOConfigCmd_deserialize be;
}.
#[export] Instance EfcHardwareInfoCmd_efc : EfcCommand EfcHardwareInfoCmd := {
  efc_base := hi_base;
  efc_assert := fun _ => true;
  efc_serialize be _ _ := EfcHardwareInfoCmd_serialize be;
  efc_deserialize be _ _ u := EfcHardwareInfoCmd_deserialize be u;
}.
#[export] Instance EfcPolledValuesCmd_efc : EfcCommand EfcPolledValuesCmd := {
  efc_base := po_base;
  efc_assert := fun _ => true;
  efc_serialize be _ _ := EfcPolledValuesCmd_serialize be;
  efc_deserialize be _ _ _ := EfcPolledValuesCmd_deserialize be;
}.
