(* ===== verification/EfcExchange.v ===== *)
(** * EFC commands over AV/C

    Model of [src/fireworks/efc/efc_avc_cmd.cpp] (the AV/C command that carries an EFC command) and
    of [Device::doEfcOverAVC] of [src/fireworks/fireworks_device.cpp].  The class [EfcCommandSpec]
    states what a command class promises (the bytes of its request, the answers it reads and
    the object afterwards); every class of [EfcCommands] is shown to keep it, and the theorems on
    the exchange are proved from it. *)
From S2P Require Import Prelude ByteSwap CmdSerialize Fcp AvcCommands AvcExchange EfcCommands.

(** ** Definitions *)

(** [eo_seqnum] is the static member [EfcCmd::m_seqnum]. *)
Record EfcOverAVCCmd (T : Type) := mkOver {
  eo_vendor : VendorDependentCmd;
  m_dummy_1 : Z;
  m_dummy_2 : Z;
  m_cmd : option T;
  eo_seqnum : Z;
}.
Arguments mkOver {_}.
Arguments eo_vendor {_}.
Arguments m_dummy_1 {_}.
Arguments m_dummy_2 {_}.
Arguments m_cmd {_}.
Arguments eo_seqnum {_}.

Section over.
Context (big_endian : bool) {T : Type} `{EfcCommand T}.

Definition EfcOverAVCCmd_serialize {SE} `{IOSSerialize SE} (c : EfcOverAVCCmd T) : st SE (bool * EfcOverAVCCmd T) :=
  match m_cmd c with
  | None => mret (false, c)
  | Some cmd =>
      r0 ← VendorDependentCmd_serialize (eo_vendor c);
      r1 ← write_byte (m_dummy_1 c);
      r2 ← write_byte (m_dummy_2 c);
      '(r3, cmd, m_seqnum) ← efc_serialize big_endian cmd (eo_seqnum c);
      mret (r0 && r1 && r2 && r3, mkOver (eo_vendor c) (m_dummy_1 c) (m_dummy_2 c) (Some cmd) m_seqnum)
  end.

Definition EfcOverAVCCmd_deserialize {DE} `{IISDeserialize DE} (uninit : Z) (c : EfcOverAVCCmd T)
  : st DE (bool * EfcOverAVCCmd T) :=
  match m_cmd c with
  | None => mret (false, c)
  | Some cmd =>
      '(r0, v) ← VendorDependentCmd_deserialize uninit (eo_vendor c);
      '(r1, d1) ← read_byte (m_dummy_1 c);
      '(r2, d2) ← read_byte (m_dummy_2 c);
      if negb (r0 && r1 && r2) then mret (false, mkOver v d1 d2 (Some cmd) (eo_seqnum c)) else
      '(r3, cmd) ← efc_deserialize big_endian uninit cmd;
      mret (r3, mkOver v d1 d2 (Some cmd) (eo_seqnum c))
  end.

Instance EfcOverAVCCmd_cmd : AVCCmd (EfcOverAVCCmd T) := {
  cmd_base c := vd_base (eo_vendor c);
  cmd_set_base b c :=
    mkOver (mkVendor b (m_companyId (eo_vendor c))) (m_dummy_1 c) (m_dummy_2 c) (m_cmd c) (eo_seqnum c);
  cmd_serialize _ _ := EfcOverAVCCmd_serialize;
  cmd_deserialize _ _ := EfcOverAVCCmd_deserialize;
}.

(** The FCP transactions and the counter of sequence numbers. *)
Record EfcHost := mkHost { eh_service : Ieee1394Service; eh_seqnum : Z }.

(** The command [doEfcOverAVC] builds for the node of the device. *)
Definition efc_over_avc (uninit nodeId m_seqnum : Z) (c : T) : EfcOverAVCCmd T :=
  let base := AVCCommand_new uninit AVC1394_CMD_VENDOR_DEPENDENT in
  let base := setCommandType eCT_Control base in
  let base := setNodeId nodeId base in
  let base := setSubunitType eST_Unit base in
  let base := setSubunitId 0xff base in
  mkOver (mkVendor base 0) 0 0 (Some c) m_seqnum.

(** [None] where the assertion of the command fails: in the first [serialize], or in the one that [fire] does
    for the messages once an expected response has been read. *)
Definition doEfcOverAVC (DEBUG : debug_settings) (uninit : Z) (bus : nat -> Z -> list Z -> fcp_try) (nodeId : Z) (c : T)
  : run EfcHost (bool * T) := fun h =>
  if negb (efc_assert c) then None else
  let '((fired, cmd), service) :=
    fire big_endian DEBUG uninit bus (efc_over_avc uninit nodeId (eh_seqnum h) c) (eh_service h) in
  let h := mkHost service (eo_seqnum cmd) in
  let c := default c (m_cmd cmd) in
  if expected_response (getResponse (vd_base (eo_vendor cmd))) && negb (efc_assert c) then None else
  if negb fired then Some ((false, c), h)
  else if negb (getResponse (vd_base (eo_vendor cmd)) =? eR_Accepted) then Some ((false, c), h)
  else
    let retval := h_retval (ef_header (efc_base c)) in
    if negb (retval =? eERV_Ok) && negb (retval =? eERV_FlashBusy) then Some ((false, c), h)
    else Some ((true, c), h).
End over.

(** ** Bytes *)

(** Quadlets in bus order. *)
Definition quads (l : list Z) : list Z := concat (quad_be <$> l).

Definition quad_ok (x : Z) : Prop := 0 <= x < 2 ^ 32.

Lemma quads_cons x l : quads (x :: l) = quad_be x ++ quads l.
Proof. done. Qed.
Lemma quads_app l1 l2 : quads (l1 ++ l2) = quads l1 ++ quads l2.
Proof. unfold quads. by rewrite fmap_app, concat_app. Qed.
Lemma zlength_quads l : zlength (quads l) = 4 * zlength l.
Proof.
  induction l as [|x l IH]; [done|]. rewrite quads_cons, zlength_app, IH.
  change (zlength (quad_be x)) with 4. unfold zlength. simpl length. lia.
Qed.

Section wire.
Context (be : bool).

Lemma emits_write_bus {SE} `{SerializeSpec be SE} v : quad_ok v -> emits (write_bus be v) (quad_be v) true.
Proof. intros Hv. destruct (bus_order be v Hv) as (E & _). rewrite <- E. apply emits_quadlet. Qed.

Lemma emits_write_bus_list {SE} `{SerializeSpec be SE} l : Forall quad_ok l ->
  emits (all_of (write_bus be <$> l)) (quads l) true.
Proof.
  intros Hl. apply emits_all_of. induction Hl as [|x l Hx _ IH]; constructor; [|done].
  by apply emits_write_bus.
Qed.

Lemma parses_read_bus {DE} `{DeserializeSpec be DE} old v : quad_ok v ->
  parses (read_bus be old) (quad_be v) (true, v).
Proof.
  intros Hv. destruct (bus_order be v Hv) as (_ & E & _). rewrite <- (app_nil_r (quad_be v)).
  eapply parses_bind; [by apply parses_quadlet|]. cbn beta iota. rewrite E. apply parses_ret.
Qed.

Lemma parses_read_bus_list {DE} `{DeserializeSpec be DE} olds l : Forall quad_ok l -> length olds = length l ->
  parses (read_bus_list be olds) (quads l) (true, l).
Proof.
  intros Hl. revert olds. induction Hl as [|x l Hx _ IH]; intros [|old olds] E; try done.
  - apply parses_ret.
  - rewrite quads_cons. eapply parses_bind; [by apply parses_read_bus|]. cbn beta iota.
    rewrite <- (app_nil_r (quads l)). eapply parses_bind; [apply IH; simpl in E; lia|]. apply parses_ret.
Qed.

Lemma parses_read_bytes {DE} `{DeserializeSpec be DE} olds l : length olds = length l ->
  parses (read_bytes olds) l (true, l).
Proof.
  revert olds. induction l as [|x l IH]; intros [|old olds] E; try done; [apply parses_ret|].
  change (x :: l) with ([x] ++ l) at 1. eapply parses_bind; [apply parses_byte|]. cbn beta iota.
  rewrite <- (app_nil_r l) at 1. eapply parses_bind; [apply IH; simpl in E; lia|]. apply parses_ret.
Qed.
End wire.

#[export] Hint Resolve emits_write_bus emits_write_bus_list parses_read_bus parses_read_bus_list parses_read_bytes : wire.

(** ** What a command class promises *)

Definition header_ok (h : efc_header) : Prop := Forall quad_ok (header_quadlets h).

Definition efc_base_ok (b : EfcCmd) : Prop :=
  quad_ok (h_version (ef_header b)) /\ quad_ok (h_retval (ef_header b))
  /\ quad_ok (ef_category_id b) /\ quad_ok (ef_command_id b).

(** The header [serialize] fills in, and the base object after it. *)
Definition sent_header (b : EfcCmd) (seq : Z) : efc_header :=
  mkHeader (h_version (ef_header b)) seq (ef_category_id b) (ef_command_id b) (h_retval (ef_header b)).
Definition base_sent (len : Z) (b : EfcCmd) (seq : Z) : EfcCmd :=
  mkEfc len (sent_header b seq) (ef_category_id b) (ef_command_id b).

(** A header the object accepts, and the base object after it has read it. *)
Definition header_for (b : EfcCmd) (h : efc_header) : Prop :=
  header_ok h /\ h_version h <= 1 /\ h_category h = ef_category_id b /\ h_command h = ef_command_id b.
Definition efc_base_recv (b : EfcCmd) (len : Z) (h : efc_header) : EfcCmd :=
  mkEfc len h (ef_category_id b) (ef_command_id b).

(** [efc_args c] are the quadlets after the header and [efc_len c] the length field of the
    request; [efc_sent] and [efc_recv] are the object after the request is written and after an
    answer with the payload [p] is read.  [efc_again] is the [serialize] of an object for the messages, to any
    serializer: an object that [efc_fits] changes as it does when the request is written, the sequence number being
    taken again. *)
Class EfcCommandSpec (T : Type) `{EfcCommand T} := {
  efc_ok : T -> Prop;
  efc_len : T -> Z;
  efc_args : T -> list Z;
  efc_sent : T -> Z -> T;
  efc_emits be {SE} `{SerializeSpec be SE} c seq : efc_ok c -> quad_ok seq ->
    emits (efc_serialize be c seq)
      (quads (efc_len c :: header_quadlets (sent_header (efc_base c) seq) ++ efc_args c))
      (true, efc_sent c seq, u32 (seq + 1));
  efc_sent_base c seq : efc_base (efc_sent c seq) = base_sent (efc_len c) (efc_base c) seq;
  efc_args_size c : efc_ok c -> zlength (efc_args c) <= 100;
  efc_payload : Type;
  efc_bytes : efc_payload -> list Z;
  efc_answers : T -> efc_header -> efc_payload -> Prop;
  efc_recv : T -> Z -> efc_header -> efc_payload -> T;
  efc_parses be {DE} `{DeserializeSpec be DE} uninit c len h p :
    quad_ok len -> header_for (efc_base c) h -> efc_answers c h p ->
    parses (efc_deserialize be uninit c) (quads (len :: header_quadlets h) ++ efc_bytes p)
      (true, efc_recv c len h p);
  efc_recv_base c len h p : efc_base (efc_recv c len h p) = efc_base_recv (efc_base c) len h;
  efc_payload_size c h p : efc_answers c h p -> zlength (efc_bytes p) <= 440;
  efc_fits : T -> Prop;
  efc_again be {SE} `{IOSSerialize SE} c seq (s : SE) : efc_fits c ->
    exists ok s', efc_serialize be c seq s = ((ok, efc_sent c seq, u32 (seq + 1)), s');
  efc_ok_fits c : efc_ok c -> efc_fits c;
  efc_sent_fits c seq : efc_fits c -> efc_fits (efc_sent c seq) /\ efc_assert (efc_sent c seq) = efc_assert c;
  efc_recv_fits c len h p : efc_fits c -> efc_assert c = true -> efc_answers c h p ->
    efc_fits (efc_recv c len h p) /\ efc_assert (efc_recv c len h p) = true;
}.

(** A list of quadlets, one by one. *)
Ltac quads_ok := repeat first [apply Forall_nil_2 | apply Forall_cons_2; [try done|]].

Section base_lemmas.
Context (be : bool).

Lemma emits_efc_write {SE} `{SerializeSpec be SE} len args b seq : efc_base_ok b -> quad_ok len ->
  Forall quad_ok args -> quad_ok seq ->
  emits (efc_write be len args b seq) (quads (len :: header_quadlets (sent_header b seq) ++ args))
    (true, base_sent len b seq, u32 (seq + 1)).
Proof.
  intros (? & ? & ? & ?) Hl Ha Hs. unfold efc_write, EfcCmd_serialize. rewrite app_comm_cons, quads_app.
  eapply emits_bind.
  - rewrite quads_cons. eapply emits_bind; [by apply emits_write_bus|]. cbn beta iota.
    rewrite <- (app_nil_r (quads (header_quadlets _))). eapply emits_bind; [|apply emits_ret].
    apply emits_write_bus_list. by quads_ok.
  - cbn beta iota. rewrite <- (app_nil_r (quads args)).
    eapply emits_bind; [by apply emits_write_bus_list|]. apply emits_ret.
Qed.

(** The object and the counter after [efc_write], whatever the serializer answers. *)
Lemma efc_write_again {SE} `{IOSSerialize SE} len args b seq (s : SE) {T} (f : EfcCmd -> T) :
  exists ok s', ('(r, b, m_seqnum) ← efc_write be len args b seq; mret (r, f b, m_seqnum)) s
    = ((ok, f (base_sent len b seq), u32 (seq + 1)), s').
Proof. by eexists _, _. Qed.

Lemma parses_EfcCmd {DE} `{DeserializeSpec be DE} b len h : quad_ok len -> header_for b h ->
  parses (EfcCmd_deserialize be b) (quads (len :: header_quadlets h)) (true, efc_base_recv b len h).
Proof.
  intros Hl (Hh & V & C & D). unfold header_ok, header_quadlets in Hh. repeat rewrite Forall_cons_iff in Hh.
  destruct Hh as (? & ? & ? & ? & ? & _). unfold EfcCmd_deserialize. unfold header_quadlets.
  rewrite !quads_cons. do 6 (eapply parses_bind; [by apply parses_read_bus|]; cbn beta iota).
  rewrite (proj2 (Z.ltb_ge _ _)) by lia. cbn [ef_category_id ef_command_id].
  rewrite C, D, !Z.eqb_refl. cbn [negb]. unfold efc_base_recv. rewrite <- C, <- D. destruct h. apply parses_ret.
Qed.
End base_lemmas.

#[export] Hint Resolve emits_efc_write parses_EfcCmd : wire.

(** The request of a class whose [serialize] is [efc_write], and the answer it reads. *)
Ltac efc_emits :=
  intros; destruct_and?; eapply emits_eq;
  [|eapply emits_bind; [apply emits_efc_write; try done; quads_ok|apply emits_ret]]; [by rewrite app_nil_r|..].
Ltac efc_reads :=
  repeat (eapply parses_bind;
    [first [by apply parses_read_bus | by apply parses_read_bus_list | by apply parses_read_bytes]|]; cbn beta iota).
Ltac efc_parses :=
  intros; destruct_and?; eapply parses_bind; [by apply parses_EfcCmd|]; cbn beta iota;
  rewrite ?quads_cons; efc_reads; apply parses_ret.

(** A class that serialises at all times and has no assertion. *)
Ltac efc_again := intros; apply efc_write_again.

(** The length field of a request. *)
Lemma len_ok n : 0 <= n <= 1000 -> quad_ok n.
Proof. unfold quad_ok. lia. Qed.

#[export, refine] Instance EfcGetClockCmd_spec : EfcCommandSpec EfcGetClockCmd := {
  efc_ok c := efc_base_ok (gc_base c);
  efc_len _ := 6;
  efc_args _ := [];
  efc_sent c seq := mkGetClock (base_sent 6 (gc_base c) seq) (gc_clock c) (gc_samplerate c) (gc_index c);
  efc_payload := Z * Z * Z;
  efc_bytes p := let '(clock, rate, index) := p in quads [clock; rate; index];
  efc_answers _ _ p := let '(clock, rate, index) := p in quad_ok clock /\ quad_ok rate /\ quad_ok index;
  efc_recv c len h p := let '(clock, rate, index) := p in
    mkGetClock (efc_base_recv (gc_base c) len h) clock rate index;
  efc_fits _ := True;
}.
Proof.
  - intros. cbn [efc_serialize EfcGetClockCmd_efc]. unfold EfcGetClockCmd_serialize. efc_emits.
  - done.
  - done.
  - intros be DE ? ? u c len h [[clock rate] index] Hl Hh Ha.
    cbn [efc_deserialize EfcGetClockCmd_efc]. unfold EfcGetClockCmd_deserialize. efc_parses.
  - by intros ? ? ? [[??]?].
  - intros ? ? [[??]?] _. by rewrite zlength_quads.
  - efc_again.
  - done.
  - done.
  - done.
Defined.

#[export, refine] Instance EfcSetClockCmd_spec : EfcCommandSpec EfcSetClockCmd := {
  efc_ok c := efc_base_ok (sc_base c) /\ quad_ok (sc_clock c) /\ quad_ok (sc_samplerate c) /\ quad_ok (sc_index c);
  efc_len _ := 9;
  efc_args c := [sc_clock c; sc_samplerate c; sc_index c];
  efc_sent c seq := mkSetClock (base_sent 9 (sc_base c) seq) (sc_clock c) (sc_samplerate c) (sc_index c);
  efc_payload := Z * Z * Z;
  efc_bytes p := let '(clock, rate, index) := p in quads [clock; rate; index];
  efc_answers _ _ p := let '(clock, rate, index) := p in quad_ok clock /\ quad_ok rate /\ quad_ok index;
  efc_recv c len h p := let '(clock, rate, index) := p in mkSetClock (efc_base_recv (sc_base c) len h) clock rate index;
  efc_fits _ := True;
}.
Proof.
  - intros. cbn [efc_serialize EfcSetClockCmd_efc]. unfold EfcSetClockCmd_serialize. efc_emits.
  - done.
  - done.
  - intros be DE ? ? u c len h [[clock rate] index] Hl Hh Ha.
    cbn [efc_deserialize EfcSetClockCmd_efc]. unfold EfcSetClockCmd_deserialize. efc_parses.
  - by intros ? ? ? [[clock rate] index].
  - intros ? ? [[clock rate] index] _. by rewrite ?zlength_quads.
  - efc_again.
  - done.
  - done.
  - done.
Defined.

#[export, refine] Instance EfcPhyReconnectCmd_spec : EfcCommandSpec EfcPhyReconnectCmd := {
  efc_ok c := efc_base_ok (pr_base c);
  efc_len _ := 6;
  efc_args _ := [];
  efc_sent c seq := mkPhyReconnect (base_sent 6 (pr_base c) seq);
  efc_payload := unit;
  efc_bytes _ := [];
  efc_answers _ _ _ := True;
  efc_recv c len h _ := mkPhyReconnect (efc_base_recv (pr_base c) len h);
  efc_fits _ := True;
}.
Proof.
  - intros. cbn [efc_serialize EfcPhyReconnectCmd_efc]. unfold EfcPhyReconnectCmd_serialize. efc_emits.
  - done.
  - done.
  - intros be DE ? ? u c len h p Hl Hh Ha.
    cbn [efc_deserialize EfcPhyReconnectCmd_efc]. unfold EfcPhyReconnectCmd_deserialize. rewrite app_nil_r. rewrite <- (app_nil_r (quads _)). efc_parses.
  - by intros ? ? ? p.
  - done.
  - efc_again.
  - done.
  - done.
  - done.
Defined.

#[export, refine] Instance EfcGetFlagsCmd_spec : EfcCommandSpec EfcGetFlagsCmd := {
  efc_ok c := efc_base_ok (gf_base c);
  efc_len _ := 6;
  efc_args _ := [];
  efc_sent c seq := mkGetFlags (base_sent 6 (gf_base c) seq) (gf_flags c);
  efc_payload := Z;
  efc_bytes p := quads [p];
  efc_answers _ _ p := quad_ok p;
  efc_recv c len h p := mkGetFlags (efc_base_recv (gf_base c) len h) p;
  efc_fits _ := True;
}.
Proof.
  - intros. cbn [efc_serialize EfcGetFlagsCmd_efc]. unfold EfcGetFlagsCmd_serialize. efc_emits.
  - done.
  - done.
  - intros be DE ? ? u c len h p Hl Hh Ha.
    cbn [efc_deserialize EfcGetFlagsCmd_efc]. unfold EfcGetFlagsCmd_deserialize. efc_parses.
  - done.
  - intros. by rewrite zlength_quads.
  - efc_again.
  - done.
  - done.
  - done.
Defined.

#[export, refine] Instance EfcChangeFlagsCmd_spec : EfcCommandSpec EfcChangeFlagsCmd := {
  efc_ok c := efc_base_ok (cf_base c) /\ quad_ok (cf_setmask c) /\ quad_ok (cf_clearmask c);
  efc_len _ := 8;
  efc_args c := [cf_setmask c; cf_clearmask c];
  efc_sent c seq := mkChangeFlags (base_sent 8 (cf_base c) seq) (cf_setmask c) (cf_clearmask c);
  efc_payload := unit;
  efc_bytes _ := [];
  efc_answers _ _ _ := True;
  efc_recv c len h _ := mkChangeFlags (efc_base_recv (cf_base c) len h) (cf_setmask c) (cf_clearmask c);
  efc_fits _ := True;
}.
Proof.
  - intros. cbn [efc_serialize EfcChangeFlagsCmd_efc]. unfold EfcChangeFlagsCmd_serialize. efc_emits.
  - done.
  - done.
  - intros be DE ? ? u c len h p Hl Hh Ha.
    cbn [efc_deserialize EfcChangeFlagsCmd_efc]. unfold EfcChangeFlagsCmd_deserialize. rewrite app_nil_r. rewrite <- (app_nil_r (quads _)). efc_parses.
  - by intros ? ? ? p.
  - done.
  - efc_again.
  - done.
  - done.
  - done.
Defined.

#[export, refine] Instance EfcIdentifyCmd_spec : EfcCommandSpec EfcIdentifyCmd := {
  efc_ok c := efc_base_ok (id_base c);
  efc_len _ := 6;
  efc_args _ := [];
  efc_sent c seq := mkIdentify (base_sent 6 (id_base c) seq);
  efc_payload := unit;
  efc_bytes _ := [];
  efc_answers _ _ _ := True;
  efc_recv c len h _ := mkIdentify (efc_base_recv (id_base c) len h);
  efc_fits _ := True;
}.
Proof.
  - intros. cbn [efc_serialize EfcIdentifyCmd_efc]. unfold EfcIdentifyCmd_serialize. efc_emits.
  - done.
  - done.
  - intros be DE ? ? u c len h p Hl Hh Ha.
    cbn [efc_deserialize EfcIdentifyCmd_efc]. unfold EfcIdentifyCmd_deserialize. rewrite app_nil_r. rewrite <- (app_nil_r (quads _)). efc_parses.
  - by intros ? ? ? p.
  - done.
  - efc_again.
  - done.
  - done.
  - done.
Defined.

#[export, refine] Instance EfcFlashEraseCmd_spec : EfcCommandSpec EfcFlashEraseCmd := {
  efc_ok c := efc_base_ok (fe_base c) /\ quad_ok (fe_address c);
  efc_len _ := 7;
  efc_args c := [fe_address c];
  efc_sent c seq := mkFlashErase (base_sent 7 (fe_base c) seq) (fe_address c);
  efc_payload := unit;
  efc_bytes _ := [];
  efc_answers _ _ _ := True;
  efc_recv c len h _ := mkFlashErase (efc_base_recv (fe_base c) len h) (fe_address c);
  efc_fits _ := True;
}.
Proof.
  - intros. cbn [efc_serialize EfcFlashEraseCmd_efc]. unfold EfcFlashEraseCmd_serialize. efc_emits.
  - done.
  - done.
  - intros be DE ? ? u c len h p Hl Hh Ha.
    cbn [efc_deserialize EfcFlashEraseCmd_efc]. unfold EfcFlashEraseCmd_deserialize. rewrite app_nil_r. rewrite <- (app_nil_r (quads _)). efc_parses.
  - by intros ? ? ? p.
  - done.
  - efc_again.
  - done.
  - done.
  - done.
Defined.

#[export, refine] Instance EfcFlashLockCmd_spec : EfcCommandSpec EfcFlashLockCmd := {
  efc_ok c := efc_base_ok (fl_base c);
  efc_len _ := 7;
  efc_args c := [Z.b2z (fl_lock c)];
  efc_sent c seq := mkFlashLock (base_sent 7 (fl_base c) seq) (fl_lock c);
  efc_payload := unit;
  efc_bytes _ := [];
  efc_answers _ _ _ := True;
  efc_recv c len h _ := mkFlashLock (efc_base_recv (fl_base c) len h) (fl_lock c);
  efc_fits _ := True;
}.
Proof.
  - intros. cbn [efc_serialize EfcFlashLockCmd_efc]. unfold EfcFlashLockCmd_serialize. efc_emits.
    by destruct (fl_lock _).
  - done.
  - done.
  - intros be DE ? ? u c len h p Hl Hh Ha.
    cbn [efc_deserialize EfcFlashLockCmd_efc]. unfold EfcFlashLockCmd_deserialize. rewrite app_nil_r. rewrite <- (app_nil_r (quads _)). efc_parses.
  - by intros ? ? ? p.
  - done.
  - efc_again.
  - done.
  - done.
  - done.
Defined.

#[export, refine] Instance EfcFlashGetSessionBaseCmd_spec : EfcCommandSpec EfcFlashGetSessionBaseCmd := {
  efc_ok c := efc_base_ok (fb_base c);
  efc_len _ := 6;
  efc_args _ := [];
  efc_sent c seq := mkSessionBase (base_sent 6 (fb_base c) seq) (fb_address c);
  efc_payload := Z;
  efc_bytes p := quads [p];
  efc_answers _ _ p := quad_ok p;
  efc_recv c len h p := mkSessionBase (efc_base_recv (fb_base c) len h) p;
  efc_fits _ := True;
}.
Proof.
  - intros. cbn [efc_serialize EfcFlashGetSessionBaseCmd_efc]. unfold EfcFlashGetSessionBaseCmd_serialize. efc_emits.
  - done.
  - done.
  - intros be DE ? ? u c len h p Hl Hh Ha.
    cbn [efc_deserialize EfcFlashGetSessionBaseCmd_efc]. unfold EfcFlashGetSessionBaseCmd_deserialize. efc_parses.
  - done.
  - intros. by rewrite zlength_quads.
  - efc_again.
  - done.
  - done.
  - done.
Defined.

#[export, refine] Instance EfcFlashGetStatusCmd_spec : EfcCommandSpec EfcFlashGetStatusCmd := {
  efc_ok c := efc_base_ok (fs_base c);
  efc_len _ := 6;
  efc_args _ := [];
  efc_sent c seq := mkFlashStatus (base_sent 6 (fs_base c) seq) (fs_ready c);
  efc_payload := unit;
  efc_bytes _ := [];
  efc_answers _ _ _ := True;
  efc_recv c len h _ := mkFlashStatus (efc_base_recv (fs_base c) len h) (negb (h_retval h =? eERV_FlashBusy));
  efc_fits _ := True;
}.
Proof.
  - intros. cbn [efc_serialize EfcFlashGetStatusCmd_efc]. unfold EfcFlashGetStatusCmd_serialize. efc_emits.
  - done.
  - done.
  - intros be DE ? ? u c len h p Hl Hh Ha. cbn [efc_deserialize EfcFlashGetStatusCmd_efc].
    unfold EfcFlashGetStatusCmd_deserialize. rewrite app_nil_r. rewrite <- (app_nil_r (quads _)). efc_parses.
  - done.
  - done.
  - efc_again.
  - done.
  - done.
  - done.
Defined.

(** The payload is the address and the quadlets of the flash. *)
#[export, refine] Instance EfcFlashReadCmd_spec : EfcCommandSpec EfcFlashReadCmd := {
  efc_ok c := efc_base_ok (frd_base c) /\ quad_ok (frd_address c) /\ quad_ok (frd_nb_quadlets c);
  efc_len _ := 8;
  efc_args c := [frd_address c; frd_nb_quadlets c];
  efc_sent c seq := mkFlashRead (base_sent 8 (frd_base c) seq) (frd_address c) (frd_nb_quadlets c) (frd_data c);
  efc_payload := Z * list Z;
  efc_bytes p := quads (p.1 :: zlength p.2 :: p.2);
  efc_answers c _ p := quad_ok p.1 /\ Forall quad_ok p.2 /\ zlength p.2 <= EFC_FLASH_SIZE_QUADS
    /\ zlength (frd_data c) = EFC_FLASH_SIZE_QUADS;
  efc_recv c len h p := mkFlashRead (efc_base_recv (frd_base c) len h) p.1 (zlength p.2)
    (p.2 ++ drop (length p.2) (frd_data c));
  efc_fits _ := True;
}.
Proof.
  - intros. cbn [efc_serialize EfcFlashReadCmd_efc]. unfold EfcFlashReadCmd_serialize. efc_emits.
  - done.
  - done.
  - intros be DE ? ? u c len h [a l] Hl Hh (Ha & Hq & L & D). cbn [fst snd] in *.
    unfold EFC_FLASH_SIZE_QUADS in *. pose proof (zlength_nonneg l).
    cbn [efc_deserialize EfcFlashReadCmd_efc]. unfold EfcFlashReadCmd_deserialize.
    eapply parses_bind; [by apply parses_EfcCmd|]. cbn beta iota. rewrite !quads_cons.
    eapply parses_bind; [by apply parses_read_bus|]. cbn beta iota.
    eapply parses_bind; [apply parses_read_bus; unfold quad_ok; lia|]. cbn beta iota. unfold EFC_FLASH_SIZE_QUADS.
    rewrite (proj2 (Z.ltb_ge _ _)) by lia. replace (Z.to_nat (zlength l)) with (length l) by (unfold zlength; lia).
    rewrite <- (app_nil_r (quads l)). eapply parses_bind.
    { apply (parses_read_bus_list be _ l); [done|]. rewrite length_take. unfold zlength in *. lia. }
    apply parses_ret.
  - done.
  - intros ? ? [a l] (_ & _ & L & _). cbn [fst snd] in *. rewrite zlength_quads. unfold EFC_FLASH_SIZE_QUADS, zlength in *.
    simpl length. lia.
  - efc_again.
  - done.
  - done.
  - done.
Defined.

#[export, refine] Instance EfcFlashWriteCmd_spec : EfcCommandSpec EfcFlashWriteCmd := {
  efc_ok c := efc_base_ok (fw_base c) /\ quad_ok (fw_address c) /\ 0 <= fw_nb_quadlets c <= EFC_FLASH_SIZE_QUADS
    /\ Forall quad_ok (fw_data c) /\ zlength (fw_data c) = EFC_FLASH_SIZE_QUADS;
  efc_len c := 8 + fw_nb_quadlets c;
  efc_args c := [fw_address c; fw_nb_quadlets c] ++ take (Z.to_nat (fw_nb_quadlets c)) (fw_data c);
  efc_sent c seq := mkFlashWrite (base_sent (8 + fw_nb_quadlets c) (fw_base c) seq)
    (fw_address c) (fw_nb_quadlets c) (fw_data c);
  efc_payload := unit;
  efc_bytes _ := [];
  efc_answers _ _ _ := True;
  efc_recv c len h _ := mkFlashWrite (efc_base_recv (fw_base c) len h) (fw_address c) (fw_nb_quadlets c) (fw_data c);
  efc_fits c := 0 <= fw_nb_quadlets c <= EFC_FLASH_SIZE_QUADS;
}.
Proof.
  - intros be SE ? ? c seq (? & ? & N & D) ?. unfold EFC_FLASH_SIZE_QUADS in *.
    cbn [efc_serialize EfcFlashWriteCmd_efc]. unfold EfcFlashWriteCmd_serialize, EFC_FLASH_SIZE_QUADS, EFC_HEADER_LENGTH_QUADLETS.
    rewrite (proj2 (Z.ltb_ge _ _)) by lia. rewrite wrapU_small by lia. efc_emits; try (unfold quad_ok; lia).
    by apply Forall_take.
  - done.
  - intros c (_ & _ & N & _). unfold EFC_FLASH_SIZE_QUADS, zlength in *. rewrite length_app, length_take. simpl. lia.
  - intros be DE ? ? u c len h p Hl Hh Ha. cbn [efc_deserialize EfcFlashWriteCmd_efc].
    unfold EfcFlashWriteCmd_deserialize. rewrite app_nil_r. rewrite <- (app_nil_r (quads _)). efc_parses.
  - done.
  - done.
  - intros be SE ? c seq s N. unfold EFC_FLASH_SIZE_QUADS in *. cbn [efc_serialize EfcFlashWriteCmd_efc].
    unfold EfcFlashWriteCmd_serialize, EFC_FLASH_SIZE_QUADS, EFC_HEADER_LENGTH_QUADLETS.
    rewrite (proj2 (Z.ltb_ge _ _)) by lia. rewrite wrapU_small by lia. efc_again.
  - by intros c (_ & _ & N & _).
  - done.
  - done.
Defined.

(** An [int32_t] that travels as a quadlet. *)
Lemma i32_u32 x : - 2 ^ 31 <= x < 2 ^ 31 -> i32 (u32 x) = x.
Proof. intros. rewrite wrapS_wrapU. apply wrapS_small; lia. Qed.

Lemma quad_ok_u32 x : quad_ok (u32 x).
Proof. by apply (wrapU_range 32). Qed.

(** A get command is answered by the channel and the value, a set command by the header. *)
#[export, refine] Instance EfcGenericMixerCmd_spec : EfcCommandSpec EfcGenericMixerCmd := {
  efc_ok c := efc_base_ok (mx_base c) /\ quad_ok (mx_value c);
  efc_len c := match mx_type c with eCT_Get => 7 | eCT_Set => 8 end;
  efc_args c := u32 (mx_channel c) :: match mx_type c with eCT_Get => [] | eCT_Set => [mx_value c] end;
  efc_sent c seq := mkMixer (base_sent (match mx_type c with eCT_Get => 7 | eCT_Set => 8 end) (mx_base c) seq)
    (mx_channel c) (mx_value c) (mx_type c) (mx_target c) (mx_command c);
  efc_payload := option (Z * Z);
  efc_bytes p := match p with Some (channel, value) => quads [u32 channel; value] | None => [] end;
  efc_answers c _ p := match mx_type c, p with
    | eCT_Get, Some (channel, value) => - 2 ^ 31 <= channel < 2 ^ 31 /\ quad_ok value
    | eCT_Set, None => True
    | _, _ => False
    end;
  efc_recv c len h p :=
    let '(channel, value) := default (mx_channel c, mx_value c) p in
    mkMixer (efc_base_recv (mx_base c) len h) channel value (mx_type c) (mx_target c) (mx_command c);
  efc_fits _ := True;
}.
Proof.
  - intros be SE ? ? c seq ? ?. pose proof (quad_ok_u32 (mx_channel c)).
    cbn [efc_serialize EfcGenericMixerCmd_efc]. unfold EfcGenericMixerCmd_serialize. destruct (mx_type c); efc_emits.
  - done.
  - intros c _. by destruct (mx_type c).
  - intros be DE ? ? u c len h p Hl Hh Ha. cbn [efc_deserialize EfcGenericMixerCmd_efc].
    unfold EfcGenericMixerCmd_deserialize. destruct (mx_type c), p as [[channel value]|]; try done.
    + destruct Ha as [Hc Hv]. pose proof (quad_ok_u32 channel).
      cbn [default]. rewrite <- (i32_u32 channel Hc) at 2. efc_parses.
    + rewrite app_nil_r. rewrite <- (app_nil_r (quads _)). efc_parses.
  - intros c len h [[??]|]; done.
  - intros c h [[??]|] _; [by rewrite zlength_quads|done].
  - intros be SE ? c seq s _. cbn [efc_serialize EfcGenericMixerCmd_efc]. unfold EfcGenericMixerCmd_serialize. destruct (mx_type c); efc_again.
  - done.
  - done.
  - done.
Defined.

#[export, refine] Instance EfcGenericMonitorCmd_spec : EfcCommandSpec EfcGenericMonitorCmd := {
  efc_ok c := efc_base_ok (mo_base c) /\ quad_ok (mo_value c);
  efc_len c := match mo_type c with eCT_Get => 8 | eCT_Set => 9 end;
  efc_args c := u32 (mo_input c) :: u32 (mo_output c)
                :: match mo_type c with eCT_Get => [] | eCT_Set => [mo_value c] end;
  efc_sent c seq := mkMonitor (base_sent (match mo_type c with eCT_Get => 8 | eCT_Set => 9 end) (mo_base c) seq)
    (mo_input c) (mo_output c) (mo_value c) (mo_type c) (mo_command c);
  efc_payload := option (Z * Z * Z);
  efc_bytes p := match p with Some (input, output, value) => quads [u32 input; u32 output; value] | None => [] end;
  efc_answers c _ p := match mo_type c, p with
    | eCT_Get, Some (input, output, value) =>
        - 2 ^ 31 <= input < 2 ^ 31 /\ - 2 ^ 31 <= output < 2 ^ 31 /\ quad_ok value
    | eCT_Set, None => True
    | _, _ => False
    end;
  efc_recv c len h p :=
    let '(input, output, value) := default (mo_input c, mo_output c, mo_value c) p in
    mkMonitor (efc_base_recv (mo_base c) len h) input output value (mo_type c) (mo_command c);
  efc_fits _ := True;
}.
Proof.
  - intros be SE ? ? c seq ? ?. pose proof (quad_ok_u32 (mo_input c)). pose proof (quad_ok_u32 (mo_output c)).
    cbn [efc_serialize EfcGenericMonitorCmd_efc]. unfold EfcGenericMonitorCmd_serialize. destruct (mo_type c); efc_emits.
  - done.
  - intros c _. by destruct (mo_type c).
  - intros be DE ? ? u c len h p Hl Hh Ha. cbn [efc_deserialize EfcGenericMonitorCmd_efc].
    unfold EfcGenericMonitorCmd_deserialize. destruct (mo_type c), p as [[[input output] value]|]; try done.
    + destruct Ha as (Hi & Ho & Hv). pose proof (quad_ok_u32 input). pose proof (quad_ok_u32 output).
      cbn [default]. rewrite <- (i32_u32 input Hi) at 2. rewrite <- (i32_u32 output Ho) at 2. efc_parses.
    + rewrite app_nil_r. rewrite <- (app_nil_r (quads _)). efc_parses.
  - intros c len h [[[??]?]|]; done.
  - intros c h [[[??]?]|] _; [by rewrite zlength_quads|done].
  - intros be SE ? c seq s _. cbn [efc_serialize EfcGenericMonitorCmd_efc]. unfold EfcGenericMonitorCmd_serialize. destruct (mo_type c); efc_again.
  - done.
  - done.
  - done.
Defined.

#[export, refine] Instance EfcGenericIOConfigCmd_spec : EfcCommandSpec EfcGenericIOConfigCmd := {
  efc_ok c := efc_base_ok (io_base c) /\ quad_ok (io_value c);
  efc_len c := match io_type c with eCT_Get => 6 | eCT_Set => 7 end;
  efc_args c := match io_type c with eCT_Get => [] | eCT_Set => [io_value c] end;
  efc_sent c seq := mkIOConfig (base_sent (match io_type c with eCT_Get => 6 | eCT_Set => 7 end) (io_base c) seq)
    (io_value c) (io_type c) (io_reg c);
  efc_payload := option Z;
  efc_bytes p := match p with Some value => quads [value] | None => [] end;
  efc_answers c _ p := match io_type c, p with
    | eCT_Get, Some value => quad_ok value
    | eCT_Set, None => True
    | _, _ => False
    end;
  efc_recv c len h p :=
    mkIOConfig (efc_base_recv (io_base c) len h) (default (io_value c) p) (io_type c) (io_reg c);
  efc_fits _ := True;
}.
Proof.
  - intros be SE ? ? c seq ? ?. cbn [efc_serialize EfcGenericIOConfigCmd_efc].
    unfold EfcGenericIOConfigCmd_serialize. destruct (io_type c); efc_emits.
  - done.
  - intros c _. by destruct (io_type c).
  - intros be DE ? ? u c len h p Hl Hh Ha. cbn [efc_deserialize EfcGenericIOConfigCmd_efc].
    unfold EfcGenericIOConfigCmd_deserialize. destruct (io_type c), p as [value|]; try done.
    + efc_parses.
    + rewrite app_nil_r. rewrite <- (app_nil_r (quads _)). efc_parses.
  - done.
  - intros c h [?|] _; [by rewrite zlength_quads|done].
  - intros be SE ? c seq s _. cbn [efc_serialize EfcGenericIOConfigCmd_efc]. unfold EfcGenericIOConfigCmd_serialize. destruct (io_type c); efc_again.
  - done.
  - done.
  - done.
Defined.

(** The payload of the map is the object that sent it; its numbers of entries pass the assertion of the [serialize]
    that follows. *)
#[export, refine] Instance EfcIsocMapIOConfigCmd_spec : EfcCommandSpec EfcIsocMapIOConfigCmd := {
  efc_ok c := efc_base_ok (im_base c) /\ Forall quad_ok (isocmap_args c)
    /\ zlength (im_playmap c) = EFC_MAX_ISOC_MAP_ENTRIES /\ zlength (im_recmap c) = EFC_MAX_ISOC_MAP_ENTRIES;
  efc_len c := match im_type c with eCT_Get => 6 | eCT_Set => 286 end;
  efc_args c := match im_type c with eCT_Get => [] | eCT_Set => isocmap_args c end;
  efc_sent c seq := mkIsocMap (base_sent (match im_type c with eCT_Get => 6 | eCT_Set => 286 end) (im_base c) seq)
    (im_samplerate c) (im_flags c) (im_num_playmap_entries c) (im_num_phys_out c) (im_playmap c)
    (im_num_recmap_entries c) (im_num_phys_in c) (im_recmap c) (im_type c);
  efc_payload := option EfcIsocMapIOConfigCmd;
  efc_bytes p := match p with Some v => quads (isocmap_args v) | None => [] end;
  efc_answers c _ p := match im_type c, p with
    | eCT_Get, Some v => Forall quad_ok (isocmap_args v)
        /\ length (im_playmap v) = 32%nat /\ length (im_recmap v) = 32%nat
        /\ length (im_playmap c) = 32%nat /\ length (im_recmap c) = 32%nat /\ isocmap_assert v = true
    | eCT_Set, None => True
    | _, _ => False
    end;
  efc_recv c len h p :=
    let v := default c p in
    mkIsocMap (efc_base_recv (im_base c) len h) (im_samplerate v) (im_flags v) (im_num_playmap_entries v)
      (im_num_phys_out v) (im_playmap v) (im_num_recmap_entries v) (im_num_phys_in v) (im_recmap v) (im_type c);
  efc_fits _ := True;
}.
Proof.
  - intros be SE ? ? c seq (? & ? & ? & ?) ?. cbn [efc_serialize EfcIsocMapIOConfigCmd_efc].
    unfold EfcIsocMapIOConfigCmd_serialize. destruct (im_type c); efc_emits.
  - done.
  - intros c (_ & _ & P & R). destruct (im_type c); [done|]. unfold EFC_MAX_ISOC_MAP_ENTRIES, isocmap_args, zlength in *.
    rewrite !length_app. simpl. lia.
  - intros be DE ? ? u c len h p Hl Hh Ha. cbn [efc_deserialize EfcIsocMapIOConfigCmd_efc].
    unfold EfcIsocMapIOConfigCmd_deserialize. destruct (im_type c), p as [v|]; try done.
    + destruct Ha as (Q & ? & ? & ? & ? & _). unfold isocmap_args in *. repeat rewrite Forall_app in Q.
      destruct Q as (Q1 & ? & Q2 & ?). repeat rewrite Forall_cons_iff in Q1. repeat rewrite Forall_cons_iff in Q2.
      destruct Q1 as (? & ? & ? & ? & _). destruct Q2 as (? & ? & _).
      rewrite !quads_app. rewrite <- (app_nil_r (quads (im_recmap v))). cbn [default].
      assert (length (im_playmap c) = length (im_playmap v)) by lia.
      assert (length (im_recmap c) = length (im_recmap v)) by lia.
      eapply parses_bind; [by apply parses_EfcCmd|]. cbn beta iota.
      rewrite !quads_cons, <- !app_assoc. change (quads []) with (@nil Z). rewrite !app_nil_l.
      efc_reads. apply parses_ret.
    + rewrite app_nil_r. rewrite <- (app_nil_r (quads _)). efc_parses.
  - done.
  - intros c h [v|]; [|done]. destruct (im_type c); [|done]. intros (_ & P & R & _). rewrite zlength_quads.
    unfold isocmap_args, zlength. rewrite !length_app. simpl. lia.
  - intros be SE ? c seq s _. cbn [efc_serialize EfcIsocMapIOConfigCmd_efc]. unfold EfcIsocMapIOConfigCmd_serialize. destruct (im_type c); efc_again.
  - done.
  - done.
  - intros c len h p _ A Ha. split; [done|]. cbn [efc_answers] in Ha. destruct (im_type c), p as [v|]; try done.
    by destruct Ha as (_ & _ & _ & _ & _ & Ha).
Defined.

Definition groups_bytes (l : list (Z * Z)) : list Z := concat ((fun g => [g.1; g.2]) <$> l).

Lemma parses_read_groups be {DE} `{DeserializeSpec be DE} olds l : length olds = length l ->
  parses (read_groups olds) (groups_bytes l) (true, l).
Proof.
  revert olds. induction l as [|[ty n] l IH]; intros [|[x y] olds] E; try done; [apply parses_ret|].
  change (groups_bytes ((ty, n) :: l)) with ([ty] ++ [n] ++ groups_bytes l).
  do 2 (eapply parses_bind; [apply parses_byte|]; cbn beta iota).
  rewrite <- (app_nil_r (groups_bytes l)). eapply parses_bind; [apply IH; simpl in E; lia|]. apply parses_ret.
Qed.

Lemma zlength_groups l : zlength (groups_bytes l) = 2 * zlength l.
Proof.
  induction l as [|g l IH]; [done|]. change (groups_bytes (g :: l)) with ([g.1; g.2] ++ groups_bytes l).
  rewrite zlength_app, IH. unfold zlength. simpl length. lia.
Qed.

(** The quadlets of the answer around the names and the groups. *)
Definition hwinfo_quads1 (v : EfcHardwareInfoCmd) : list Z :=
  [hi_flags v; hi_guid v / 2 ^ 32; hi_guid v mod 2 ^ 32; hi_type v; hi_version v].
Definition hwinfo_quads2 (v : EfcHardwareInfoCmd) : list Z :=
  [hi_supported_clocks v; hi_nb_1394_playback_channels v; hi_nb_1394_record_channels v;
   hi_nb_phys_audio_out v; hi_nb_phys_audio_in v; hi_nb_out_groups v].
Definition hwinfo_quads3 (v : EfcHardwareInfoCmd) : list Z :=
  [hi_nb_midi_out v; hi_nb_midi_in v; hi_max_sample_rate v; hi_min_sample_rate v; hi_dsp_version v;
   hi_arm_version v; hi_num_mix_play_chan v; hi_num_mix_rec_chan v].

Definition hwinfo_bytes (v : EfcHardwareInfoCmd) (high : bool) : list Z :=
  quads (hwinfo_quads1 v) ++ hi_vendor_name v ++ hi_model_name v ++ quads (hwinfo_quads2 v)
  ++ groups_bytes (hi_out_groups v) ++ quads [hi_nb_in_groups v] ++ groups_bytes (hi_in_groups v)
  ++ quads (hwinfo_quads3 v) ++ (if high then quads (hi_2x v) else []).

Definition hwinfo_shape (v : EfcHardwareInfoCmd) : Prop :=
  length (hi_vendor_name v) = 32%nat /\ length (hi_model_name v) = 32%nat /\ length (hi_out_groups v) = 8%nat
  /\ length (hi_in_groups v) = 8%nat /\ length (hi_2x v) = 5%nat.

Definition hwinfo_recv (c : EfcHardwareInfoCmd) (len : Z) (h : efc_header) (v : EfcHardwareInfoCmd) (high : bool)
  : EfcHardwareInfoCmd :=
  let '(mkHwInfo _ x1 x2 x3 x4 x5 x6 x7 x8 x9 x10 x11 x12 x13 x14 x15 x16 x17 x18 x19 x20 x21 x22 x23 x24) := v in
  mkHwInfo (efc_base_recv (hi_base c) len h) x1 x2 x3 x4 x5 x6 x7 x8 x9 x10 x11 x12 x13 x14 x15 x16 x17 x18 x19 x20
    x21 x22 x23 (if high then x24 else hi_2x c).

Lemma parses_hwinfo be {DE} `{DeserializeSpec be DE} uninit c len h v :
  quad_ok len -> header_for (hi_base c) h -> hwinfo_shape c -> hwinfo_shape v -> 0 <= hi_guid v < 2 ^ 64 ->
  Forall quad_ok (hwinfo_quads1 v ++ hwinfo_quads2 v ++ hi_nb_in_groups v :: hwinfo_quads3 v ++ hi_2x v) ->
  parses (EfcHardwareInfoCmd_deserialize be uninit c)
    (quads (len :: header_quadlets h) ++ hwinfo_bytes v (1 <=? h_version h))
    (true, hwinfo_recv c len h v (1 <=? h_version h)).
Proof.
  intros Hl Hh (S1 & S2 & S3 & S4 & S5) (T1 & T2 & T3 & T4 & T5) G Q.
  assert (u64 (hi_guid v / 2 ^ 32 << 32) .| hi_guid v mod 2 ^ 32 = hi_guid v) as EG.
  { rewrite Z.shiftl_mul_pow2 by lia. rewrite wrapU_small by zlia. rewrite <- Z.shiftl_mul_pow2 by lia.
    rewrite lor_shiftl_add by (try lia; apply Z.mod_pos_bound; lia). zlia. }
  repeat rewrite Forall_app in Q. rewrite Forall_cons_iff in Q. rewrite Forall_app in Q.
  destruct Q as (Q1 & Q2 & ? & Q3 & ?). unfold hwinfo_quads1, hwinfo_quads2, hwinfo_quads3 in *.
  repeat rewrite Forall_cons_iff in Q1. repeat rewrite Forall_cons_iff in Q2. repeat rewrite Forall_cons_iff in Q3.
  destruct_and! Q1; destruct_and! Q2; destruct_and! Q3.
  unfold EfcHardwareInfoCmd_deserialize, hwinfo_bytes, hwinfo_quads1, hwinfo_quads2, hwinfo_quads3.
  eapply parses_bind; [by apply parses_EfcCmd|]. cbn beta iota.
  rewrite !quads_cons, <- !app_assoc. change (quads []) with (@nil Z). rewrite !app_nil_l.
  repeat (eapply parses_bind; [first [by apply parses_read_bus | by apply parses_read_groups; congruence
                                     | by apply parses_read_bytes; congruence]|]; cbn beta iota).
  cbn [efc_base_recv ef_header]. rewrite EG. destruct (1 <=? h_version h).
  - rewrite <- (app_nil_r (quads (hi_2x v))).
    eapply parses_bind; [apply parses_read_bus_list; [done|congruence]|]. destruct v. apply parses_ret.
  - eapply (parses_bind _ _ [] []); [apply parses_ret|]. destruct v. apply parses_ret.
Qed.

(** The payload is the object that the answer describes, and whether it has the members of EFC version 1. *)
#[export, refine] Instance EfcHardwareInfoCmd_spec : EfcCommandSpec EfcHardwareInfoCmd := {
  efc_ok c := efc_base_ok (hi_base c);
  efc_len _ := 6;
  efc_args _ := [];
  efc_sent c seq :=
    let '(mkHwInfo b x1 x2 x3 x4 x5 x6 x7 x8 x9 x10 x11 x12 x13 x14 x15 x16 x17 x18 x19 x20 x21 x22 x23 x24) := c in
    mkHwInfo (base_sent 6 b seq) x1 x2 x3 x4 x5 x6 x7 x8 x9 x10 x11 x12 x13 x14 x15 x16 x17 x18 x19 x20 x21 x22 x23 x24;
  efc_payload := EfcHardwareInfoCmd * bool;
  efc_bytes p := hwinfo_bytes p.1 p.2;
  efc_answers c h p := hwinfo_shape c /\ hwinfo_shape p.1 /\ 0 <= hi_guid p.1 < 2 ^ 64 /\ p.2 = (1 <=? h_version h)
    /\ Forall quad_ok (hwinfo_quads1 p.1 ++ hwinfo_quads2 p.1 ++ hi_nb_in_groups p.1 :: hwinfo_quads3 p.1 ++ hi_2x p.1);
  efc_recv c len h p := hwinfo_recv c len h p.1 p.2;
  efc_fits _ := True;
}.
Proof.
  - intros be SE ? ? c seq ? ?. cbn [efc_serialize EfcHardwareInfoCmd_efc]. unfold EfcHardwareInfoCmd_serialize.
    destruct c. efc_emits.
  - by intros [] ?.
  - done.
  - intros be DE ? ? u c len h [v high] Hl Hh (? & ? & ? & E & ?). cbn [fst snd] in *. subst high. by apply parses_hwinfo.
  - by intros ? ? ? [[] ?].
  - intros c h [v high] (_ & (T1 & T2 & T3 & T4 & T5) & _). cbn [fst snd] in *. unfold hwinfo_bytes.
    rewrite !zlength_app, !zlength_quads, !zlength_groups. unfold zlength. rewrite T1, T2, T3, T4.
    destruct high; [change (Z.of_nat (length (quads (hi_2x v)))) with (zlength (quads (hi_2x v)));
      rewrite zlength_quads; unfold zlength; rewrite T5|]; done.
  - intros be SE ? c seq s _. destruct c. efc_again.
  - done.
  - done.
  - done.
Defined.

(** The payload is an object that holds exactly the meters that were sent. *)
Definition polled_quads (v : EfcPolledValuesCmd) : list Z :=
  [po_status v; po_detect_spdif v; po_detect_adat v; po_reserved3 v; po_reserved4 v; po_nb_output_meters v;
   po_nb_input_meters v; po_reserved5 v; po_reserved6 v].

#[export, refine] Instance EfcPolledValuesCmd_spec : EfcCommandSpec EfcPolledValuesCmd := {
  efc_ok c := efc_base_ok (po_base c);
  efc_len _ := 6;
  efc_args _ := [];
  efc_sent c seq :=
    let '(mkPolled b x1 x2 x3 x4 x5 x6 x7 x8 x9 x10) := c in mkPolled (base_sent 6 b seq) x1 x2 x3 x4 x5 x6 x7 x8 x9 x10;
  efc_payload := EfcPolledValuesCmd;
  efc_bytes v := quads (polled_quads v) ++ quads (u32 <$> po_meters v);
  efc_answers c h v := Forall quad_ok (polled_quads v) /\ zlength (po_meters c) = POLLED_MAX_NB_METERS
    /\ zlength (po_meters v) = po_nb_output_meters v + po_nb_input_meters v
    /\ zlength (po_meters v) <= POLLED_MAX_NB_METERS
    /\ Forall (fun x => - 2 ^ 31 <= x < 2 ^ 31) (po_meters v);
  efc_recv c len h v :=
    let '(mkPolled _ x1 x2 x3 x4 x5 x6 x7 x8 x9 meters) := v in
    mkPolled (efc_base_recv (po_base c) len h) x1 x2 x3 x4 x5 x6 x7 x8 x9
      (meters ++ drop (length meters) (po_meters c));
  efc_fits _ := True;
}.
Proof.
  - intros be SE ? ? c seq ? ?. cbn [efc_serialize EfcPolledValuesCmd_efc]. unfold EfcPolledValuesCmd_serialize.
    destruct c. efc_emits.
  - by intros [] ?.
  - done.
  - intros be DE ? ? u c len h v Hl Hh (Q & L & N & M & R). cbn [efc_deserialize EfcPolledValuesCmd_efc].
    unfold EfcPolledValuesCmd_deserialize, polled_quads, POLLED_MAX_NB_METERS in *. repeat rewrite Forall_cons_iff in Q.
    destruct_and! Q. eapply parses_bind; [by apply parses_EfcCmd|]. destruct c, v. cbn beta iota delta [negb].
    cbn [EfcCommands.po_meters EfcCommands.po_nb_output_meters EfcCommands.po_nb_input_meters EfcCommands.po_base] in *.
    rewrite !quads_cons, <- !app_assoc. change (quads []) with (@nil Z). rewrite !app_nil_l.
    do 9 (eapply parses_bind; [by apply parses_read_bus|]; cbn beta iota delta [negb andb]).
    pose proof (zlength_nonneg po_meters0). rewrite (wrapU_small 32) by (rewrite <- N; lia). rewrite <- N.
    rewrite (wrapS_small 32) by lia. unfold POLLED_MAX_NB_METERS. rewrite (proj2 (Z.ltb_ge _ _)) by lia. cbn beta iota.
    replace (Z.to_nat (zlength po_meters0)) with (length po_meters0) by (unfold zlength; lia).
    rewrite <- (app_nil_r (quads _)). eapply parses_bind.
    { apply (parses_read_bus_list be _ (u32 <$> po_meters0)).
      - apply Forall_fmap, Forall_true. intros x. apply quad_ok_u32.
      - rewrite length_fmap, length_take, length_fmap. unfold zlength in *. lia. }
    cbn beta iota. rewrite <- list_fmap_compose.
    replace ((i32 ∘ u32) <$> po_meters0) with po_meters0; [apply parses_ret|].
    symmetry. rewrite <- (list_fmap_id po_meters0) at 2. apply list_fmap_ext. intros i x Hx.
    apply i32_u32. by apply (Forall_lookup_1 _ _ _ _ R Hx).
  - by intros ? ? ? [].
  - intros c h v (_ & _ & _ & M & _). unfold POLLED_MAX_NB_METERS in *. rewrite zlength_app, !zlength_quads.
    unfold zlength in *. rewrite length_fmap. simpl length. lia.
  - intros be SE ? c seq s _. destruct c. efc_again.
  - done.
  - done.
  - done.
Defined.

(** ** One exchange *)

(** The answer of a device: the AV/C part [v], two bytes, the EFC header [h] and the payload [p]. *)
Definition efc_response {T} `{EfcCommandSpec T} (v : VendorDependentCmd) (d1 d2 len : Z) (h : efc_header)
  (p : efc_payload) : list Z :=
  VendorDependentCmd_bytes v ++ d1 :: d2 :: quads (len :: header_quadlets h) ++ efc_bytes p.

(** The frame of the request. *)
Definition efc_request {T} `{EfcCommandSpec T} (c : T) (seq : Z) : list Z :=
  [eCT_Control; 0xFF; AVC1394_CMD_VENDOR_DEPENDENT; 0; 0; 0; 0; 0]
  ++ quads (efc_len c :: header_quadlets (sent_header (efc_base c) seq) ++ efc_args c).

Definition retval_ok (h : efc_header) : bool := (h_retval h =? eERV_Ok) || (h_retval h =? eERV_FlashBusy).

Section exchange.
Context (be : bool) {T : Type} `{EfcCommandSpec T}.

Lemma emits_over {SE} `{SerializeSpec be SE} uninit node (c : T) seq : efc_ok c -> quad_ok seq ->
  emits (EfcOverAVCCmd_serialize be (efc_over_avc uninit node seq c)) (efc_request c seq)
    (true, mkOver (eo_vendor (efc_over_avc uninit node seq c)) 0 0 (Some (efc_sent c seq)) (u32 (seq + 1))).
Proof.
  intros Hc Hs. unfold EfcOverAVCCmd_serialize, efc_request. cbn [efc_over_avc m_cmd eo_vendor m_dummy_1 m_dummy_2 eo_seqnum].
  change ([eCT_Control; 0xFF; AVC1394_CMD_VENDOR_DEPENDENT; 0; 0; 0; 0; 0] ++ ?l)
    with ([eCT_Control; 0xFF; AVC1394_CMD_VENDOR_DEPENDENT; 0; 0; 0] ++ [0] ++ [0] ++ l).
  eapply emits_bind.
  { apply (emits_VendorDependentCmd be (mkVendor (mkAVC node eCT_Control 0xFF AVC1394_CMD_VENDOR_DEPENDENT eR_Unknown eCT_Control) 0)).
    split_and!; done. }
  cbn beta iota. do 2 (eapply emits_bind; [by apply (emits_byte_ok be 0)|]; cbn beta iota).
  rewrite <- (app_nil_r (quads _)). eapply emits_bind; [by apply efc_emits|]. apply emits_ret.
Qed.

Lemma parses_over {DE} `{DeserializeSpec be DE} uninit w x1 x2 seq (c : T) v d1 d2 len h p :
  VendorDependentCmd_ok v -> quad_ok len -> header_for (efc_base c) h -> efc_answers c h p ->
  parses (EfcOverAVCCmd_deserialize be uninit (mkOver w x1 x2 (Some c) seq)) (efc_response v d1 d2 len h p)
    (true, mkOver (VendorDependentCmd_recv w v) d1 d2 (Some (efc_recv c len h p)) seq).
Proof.
  intros Hv Hl Hh Ha. unfold EfcOverAVCCmd_deserialize, efc_response. cbn [m_cmd eo_vendor m_dummy_1 m_dummy_2 eo_seqnum].
  eapply parses_bind; [by apply (parses_VendorDependentCmd be)|]. cbn beta iota.
  change (d1 :: d2 :: ?l) with ([d1] ++ [d2] ++ l).
  do 2 (eapply parses_bind; [apply parses_byte|]; cbn beta iota). cbn [andb negb].
  rewrite <- (app_nil_r (quads _ ++ _)). eapply parses_bind; [by apply efc_parses|]. apply parses_ret.
Qed.
End exchange.

(** The object after the messages on a command [c] that was sent with [seq], and the counter then. *)
Definition efc_shown {T} `{EfcCommandSpec T} (DEBUG : debug_settings) (c : T) (seq : Z) : T :=
  if very_verbose DEBUG then efc_sent (efc_sent c seq) (u32 (seq + 1)) else efc_sent c seq.
Definition seq_shown (DEBUG : debug_settings) (seq : Z) : Z := u32 (seq + 1 + Z.b2z (very_verbose DEBUG)).

Section messages.
Context (be : bool) {T : Type} `{EfcCommandSpec T}.

Lemma serialize_dbg_over w x1 x2 (c : T) seq : efc_fits c ->
  @serialize_dbg _ (EfcOverAVCCmd_cmd be) (mkOver w x1 x2 (Some c) seq)
  = mkOver w x1 x2 (Some (efc_sent c seq)) (u32 (seq + 1)).
Proof.
  intros F. unfold serialize_dbg. cbn [cmd_serialize EfcOverAVCCmd_cmd]. unfold EfcOverAVCCmd_serialize. cbn [m_cmd].
  unfold mbind, st_bind. cbn [eo_vendor m_dummy_1 m_dummy_2 eo_seqnum].
  match goal with |- context [efc_serialize be c seq ?s] => destruct (efc_again be (H0 := string_serialize) c seq s F) as (ok & s' & E) end.
  by rewrite E.
Qed.

Lemma efc_shown_base DEBUG (c : T) seq : exists q, efc_base (efc_shown DEBUG c seq) = base_sent q.1 (efc_base c) q.2.
Proof.
  unfold efc_shown. destruct (very_verbose DEBUG); rewrite !efc_sent_base; [|by exists (efc_len c, seq)].
  by exists (efc_len (efc_sent c seq), u32 (seq + 1)).
Qed.

Lemma efc_shown_fits DEBUG (c : T) seq : efc_ok c ->
  efc_fits (efc_shown DEBUG c seq) /\ efc_assert (efc_shown DEBUG c seq) = efc_assert c.
Proof.
  intros O. destruct (efc_sent_fits c seq (efc_ok_fits c O)) as (F & A).
  destruct (efc_sent_fits _ (u32 (seq + 1)) F) as (F' & A').
  unfold efc_shown. destruct (very_verbose DEBUG); [|done]. by rewrite A'.
Qed.

Lemma show_request_over DEBUG w x1 x2 (c : T) seq : efc_ok c ->
  @show_request DEBUG _ (EfcOverAVCCmd_cmd be) (mkOver w x1 x2 (Some (efc_sent c seq)) (u32 (seq + 1)))
  = mkOver w x1 x2 (Some (efc_shown DEBUG c seq)) (seq_shown DEBUG seq).
Proof.
  intros O. destruct (efc_sent_fits c seq (efc_ok_fits c O)) as (F & _). unfold show_request, efc_shown, seq_shown.
  destruct (very_verbose DEBUG); simpl Z.b2z; [|by rewrite Z.add_0_r].
  rewrite serialize_dbg_over by done. by rewrite wrapU_add_l.
Qed.
End messages.

(** C9. An EFC exchange, for every command class: a well-formed command whose device answers with a
    response for the same category and command is sent with the next sequence number, and
    [doEfcOverAVC] leaves in the command object the payload of the answer and its version and return value, takes
    the FCP handle and releases it, and returns true exactly when the AV/C response is
    accepted and the EFC return value is ok or flash busy.  The sequence number of the answer
    plays no role.  The messages of [fire] serialise the command again after the answer (and, at the highest debug
    level, also before the transaction): the length and the sequence number of the object are again those of a
    request, not those of the answer, and the counter of sequence numbers advances by two for one exchange (by three
    at the highest debug level). *)
Theorem efc_exchange be (DEBUG : debug_settings) uninit bus nodeId {T} `{EfcCommandSpec T} (c : T) host v d1 d2 len h p :
  efc_assert c = true -> efc_ok c -> quad_ok (eh_seqnum host) -> VendorDependentCmd_ok v -> quad_ok len ->
  header_for (efc_base c) h -> efc_answers (efc_shown DEBUG c (eh_seqnum host)) h p ->
  nodeId <> INVALID_NODE_ID -> m_filterFCPResponse (eh_service host) = false ->
  device_answers be (dbg_build DEBUG) bus nodeId (efc_request c (eh_seqnum host)) (efc_response v d1 d2 len h p) ->
  expected_response (m_ctype (vd_base v)) = true ->
  let answered := efc_recv (efc_shown DEBUG c (eh_seqnum host)) len h p in
  exists host', doEfcOverAVC be DEBUG uninit bus nodeId c host
    = Some (((m_ctype (vd_base v) =? eR_Accepted) && retval_ok h,
             efc_sent answered (seq_shown DEBUG (eh_seqnum host))), host')
  /\ eh_seqnum host' = u32 (eh_seqnum host + 2 + Z.b2z (very_verbose DEBUG))
  /\ m_handle_lock (eh_service host') = m_handle_lock (eh_service host).
Proof.
  intros As Hc Hs Hv Hl Hh Ha Hn F (A1 & A2 & A3 & (f & Hin & Af & D) & U) X answered.
  unfold doEfcOverAVC. rewrite As. cbn [negb].
  pose proof (emits_over be (H2 := buffer_serialize_spec be) uninit nodeId c _ Hc Hs) as Em.
  set (seq := eh_seqnum host) in *.
  pose proof (show_request_over be DEBUG (eo_vendor (efc_over_avc uninit nodeId seq c)) 0 0 c seq Hc) as Sh.
  destruct (efc_shown_fits DEBUG c seq Hc) as (Fi & As').
  rewrite As in As'. destruct (efc_recv_fits _ len h p Fi As' Ha) as (Fr & Ar).
  destruct (efc_shown_base DEBUG c seq) as (q & Eb).
  set (c1 := mkOver _ 0 0 _ (seq_shown DEBUG seq)) in Sh.
  assert (nth 0 (efc_response v d1 d2 len h p) 0 = m_ctype (vd_base v)) as E0 by done.
  set (c' := @cmd_set_base _ (EfcOverAVCCmd_cmd be)
    (set_response (nth 0 (efc_response v d1 d2 len h p) 0) (vd_base (eo_vendor c1))) c1).
  assert (parses (@EfcOverAVCCmd_deserialize be T _ _ (buffer_deserialize be) uninit c') (efc_response v d1 d2 len h p)
    (true, mkOver (VendorDependentCmd_recv (eo_vendor c') v) d1 d2 (Some answered) (seq_shown DEBUG seq))) as Pa.
  { apply (parses_over be (H2 := buffer_deserialize_spec be)); try done. rewrite Eb. by destruct Hh as (? & ? & ? & ?). }
  pose proof (efc_args_size c Hc). pose proof (efc_payload_size _ _ _ Ha).
  destruct (fire_answered be DEBUG uninit bus (H := EfcOverAVCCmd_cmd be) (efc_over_avc uninit nodeId seq c) _ c1 _ (efc_request c seq)
    (efc_response v d1 d2 len h p) true (eh_service host) f Em Sh (parses_reads _ _ _ Pa)) as (s' & E & L); try done.
  - unfold efc_request. rewrite zlength_app, zlength_quads, app_comm_cons, zlength_app.
    pose proof (zlength_nonneg (efc_args c)). change (zlength (efc_len c :: _)) with 6.
    change (zlength [_; _; _; _; _; _; _; _]) with 8. lia.
  - unfold efc_response, VendorDependentCmd_bytes. rewrite zlength_app.
    change (d1 :: d2 :: ?l) with ([d1; d2] ++ l). rewrite !zlength_app, zlength_quads.
    pose proof (zlength_nonneg (efc_bytes p)). change (zlength (len :: _)) with 6. change (zlength [d1; d2]) with 2.
    change (zlength (base_bytes _)) with 3. change (zlength [_; _; _]) with 3. lia.
  - rewrite E, E0, X, (serialize_dbg_over be _ d1 d2 answered) by done. cbn [negb eo_seqnum m_cmd default].
    unfold getResponse. cbn [eo_vendor VendorDependentCmd_recv vd_base base_recv m_eResponse c' cmd_set_base]. simpl m_eResponse.
    unfold id. destruct (efc_sent_fits answered (seq_shown DEBUG seq) Fr) as (_ & ->). fold answered in Ar. rewrite Ar, andb_false_r.
    unfold retval_ok. rewrite efc_sent_base. cbn [base_sent sent_header ef_header h_retval].
    unfold answered. rewrite efc_recv_base. cbn [efc_base_recv ef_header].
    assert (u32 (seq_shown DEBUG seq + 1) = u32 (seq + 2 + Z.b2z (very_verbose DEBUG))) as <-
      by (unfold seq_shown; rewrite wrapU_add_l; f_equal; lia).
    destruct (m_ctype (vd_base v) =? eR_Accepted), (h_retval h =? eERV_Ok), (h_retval h =? eERV_FlashBusy);
      cbn [negb andb orb]; (eexists; split; [done|split; [done|exact L]]).
Qed.

(** A device at node 2 that runs on its word clock at 48 kHz. *)
Definition clock_answer : list Z :=
  [0x09; 0xFF; 0x00; 0; 0; 0; 0; 0] ++ quads ([9; 1; 77; 3; 1; 0] ++ [2; 48000; 0]).
Definition clock_bus (i : nat) (node : Z) (data : list Z) : fcp_try :=
  mkTry true true [[mkFrame 0xffc2 true clock_answer]] true.

(** The answer has the length 9 and the sequence number 77, the object afterwards 6 and 8. *)
Lemma efc_exchange_witness :
  exists host', doEfcOverAVC false true 0xAA clock_bus 2 EfcGetClockCmd_new (mkHost example_service 7)
    = Some ((true, mkGetClock (mkEfc 6 (mkHeader 1 8 3 1 0) 3 1) 2 48000 0), host')
  /\ eh_seqnum host' = 9 /\ m_handle_lock (eh_service host') = 0.
Proof.
  refine (efc_exchange false true 0xAA clock_bus 2 EfcGetClockCmd_new (mkHost example_service 7)
    (mkVendor (mkAVC 0 0x09 0xFF 0x00 0 0) 0) 0 0 9 (mkHeader 1 77 3 1 0) (2, 48000, 0)
    eq_refl _ _ _ _ _ _ _ eq_refl _ eq_refl).
  - split_and!; split; done.
  - split; done.
  - split_and!; done.
  - split; done.
  - split_and!; [quads_ok; split; done|done..].
  - split_and!; split; done.
  - done.
  - split_and!; try done.
    + exists (mkFrame 0xffc2 true clock_answer). split_and!; [by left|vm_compute; split_and!; done|done].
    + intros i g [<-|[]] _. exists []. by rewrite app_nil_r.
Defined.

(** ** The length field *)

(** The length field of a request, against the number of quadlets from it to the end of the frame. *)
Definition length_is_right {T} `{EfcCommandSpec T} (c : T) : Prop := efc_ok c -> efc_len c = 6 + zlength (efc_args c).

(** The length field of a request is the number of its quadlets, for every command class and every
    well-formed command, except for the command that sets the map of isochronous channels: its
    length field is computed from a size in bytes and is 286 where the request has 76 quadlets. *)
Theorem efc_length_field :
  (forall c : EfcGetClockCmd, length_is_right c) /\ (forall c : EfcSetClockCmd, length_is_right c)
  /\ (forall c : EfcPhyReconnectCmd, length_is_right c) /\ (forall c : EfcGetFlagsCmd, length_is_right c)
  /\ (forall c : EfcChangeFlagsCmd, length_is_right c) /\ (forall c : EfcIdentifyCmd, length_is_right c)
  /\ (forall c : EfcFlashEraseCmd, length_is_right c) /\ (forall c : EfcFlashLockCmd, length_is_right c)
  /\ (forall c : EfcFlashGetSessionBaseCmd, length_is_right c) /\ (forall c : EfcFlashGetStatusCmd, length_is_right c)
  /\ (forall c : EfcFlashReadCmd, length_is_right c) /\ (forall c : EfcFlashWriteCmd, length_is_right c)
  /\ (forall c : EfcGenericMixerCmd, length_is_right c) /\ (forall c : EfcGenericMonitorCmd, length_is_right c)
  /\ (forall c : EfcGenericIOConfigCmd, length_is_right c) /\ (forall c : EfcHardwareInfoCmd, length_is_right c)
  /\ (forall c : EfcPolledValuesCmd, length_is_right c)
  /\ (forall c : EfcIsocMapIOConfigCmd, im_type c = eCT_Get -> length_is_right c)
  /\ (forall c : EfcIsocMapIOConfigCmd, im_type c = eCT_Set -> efc_ok c -> efc_len c = 286 /\ 6 + zlength (efc_args c) = 76).
Proof.
  unfold length_is_right. split_and!; intros c; intros; try done.
  - match goal with H : efc_ok c |- _ => destruct H as (_ & _ & N & _ & L) end.
    cbn. unfold zlength, EFC_FLASH_SIZE_QUADS in *. simpl length. rewrite length_take. lia.
  - cbn. by destruct (mx_type c).
  - cbn. by destruct (mo_type c).
  - cbn. by destruct (io_type c).
  - match goal with H : im_type c = _ |- _ => cbn; rewrite H; done end.
  - match goal with H : im_type c = _ |- _ => cbn; rewrite H end. match goal with H : efc_ok c |- _ => destruct H as (_ & _ & P & R) end.
    split; [done|]. rewrite !app_comm_cons, zlength_app. unfold zlength, EFC_MAX_ISOC_MAP_ENTRIES in *. simpl length. lia.
Qed.

Lemma efc_length_field_witness : efc_len (mkFlashWrite (EfcCmd_new EFC_CAT_FLASH 2) 0x8000 3 (replicate 64 7)) = 11.
Proof.
  destruct efc_length_field as (_ & _ & _ & _ & _ & _ & _ & _ & _ & _ & _ & H & _).
  rewrite H; [done|]. split_and!; try done; try (split; done). apply Forall_replicate. split; done.
Defined.
