(* ===== verification/Fireworks.v ===== *)
(** * Fireworks devices

    Model of [src/fireworks/fireworks_device.cpp]: discovery over EFC, the clock and sample rate
    controls with their fallbacks, and the access to the flash memory of the device.

    [EfcLink] is what the code uses of its device: [doEfcOverAVC] for each class of command that
    it sends, and the sampling frequency that the AV/C base class finds.  [efc_link] builds it
    from the model of [doEfcOverAVC].  A method is undefined ([None]) where the code reads or
    writes outside a buffer or fails an assertion. *)
From Stdlib Require Import String.
From S2P Require Import Prelude ByteSwap CmdSerialize Fcp AvcCommands AvcExchange EfcCommands EfcExchange.

(** ** The link to the device *)

Class EfcLink (W : Type) := {
  do_hwinfo : EfcHardwareInfoCmd -> run W (bool * EfcHardwareInfoCmd);
  do_polled : EfcPolledValuesCmd -> run W (bool * EfcPolledValuesCmd);
  do_get_clock : EfcGetClockCmd -> run W (bool * EfcGetClockCmd);
  do_set_clock : EfcSetClockCmd -> run W (bool * EfcSetClockCmd);
  do_flash_lock : EfcFlashLockCmd -> run W (bool * EfcFlashLockCmd);
  do_flash_read : EfcFlashReadCmd -> run W (bool * EfcFlashReadCmd);
  do_flash_write : EfcFlashWriteCmd -> run W (bool * EfcFlashWriteCmd);
  do_flash_erase : EfcFlashEraseCmd -> run W (bool * EfcFlashEraseCmd);
  do_flash_status : EfcFlashGetStatusCmd -> run W (bool * EfcFlashGetStatusCmd);
  do_session_base : EfcFlashGetSessionBaseCmd -> run W (bool * EfcFlashGetSessionBaseCmd);
  avc_getSamplingFrequency : run W Z;
}.

(** Over FCP: the bus may answer every command, told apart by its sequence number, in its own
    way. *)
Definition efc_send (be DEBUG : bool) (uninit : Z) (bus : Z -> nat -> Z -> list Z -> fcp_try) (nodeId : Z)
  {T} `{EfcCommand T} (c : T) : run EfcHost (bool * T) := fun h =>
  doEfcOverAVC be DEBUG uninit (bus (eh_seqnum h)) nodeId c h.

Definition efc_link (be DEBUG : bool) (uninit : Z) (bus : Z -> nat -> Z -> list Z -> fcp_try) (nodeId : Z)
  (freq : run EfcHost Z) : EfcLink EfcHost := {|
  do_hwinfo := efc_send be DEBUG uninit bus nodeId;
  do_polled := efc_send be DEBUG uninit bus nodeId;
  do_get_clock := efc_send be DEBUG uninit bus nodeId;
  do_set_clock := efc_send be DEBUG uninit bus nodeId;
  do_flash_lock := efc_send be DEBUG uninit bus nodeId;
  do_flash_read := efc_send be DEBUG uninit bus nodeId;
  do_flash_write := efc_send be DEBUG uninit bus nodeId;
  do_flash_erase := efc_send be DEBUG uninit bus nodeId;
  do_flash_status := efc_send be DEBUG uninit bus nodeId;
  do_session_base := efc_send be DEBUG uninit bus nodeId;
  avc_getSamplingFrequency := freq;
|}.

(** ** The device object *)

Record FwDevice (W : Type) := mkDev {
  d_HwInfo : EfcHardwareInfoCmd;
  d_Polled : EfcPolledValuesCmd;
  d_current_clock : Z;
  d_efc_discovery_done : bool;
  d_link : W;
}.
Arguments mkDev {_}.
Arguments d_HwInfo {_}.
Arguments d_Polled {_}.
Arguments d_current_clock {_}.
Arguments d_efc_discovery_done {_}.
Arguments d_link {_}.

Inductive eClockSourceType :=
  | eCT_Invalid | eCT_Auto | eCT_Internal | eCT_1394Bus | eCT_SytMatch | eCT_SytStream | eCT_WordClock
  | eCT_SPDIF | eCT_ADAT | eCT_TDIF | eCT_AES | eCT_SMPTE.

#[export] Instance eClockSourceType_eq_dec : EqDecision eClockSourceType.
Proof. solve_decision. Defined.

Record ClockSource := mkClockSource {
  cs_type : eClockSourceType;
  cs_id : Z;
  cs_valid : bool;
  cs_active : bool;
  cs_locked : bool;
  cs_slipping : bool;
  cs_description : string;
}.
Definition ClockSource_new : ClockSource := mkClockSource eCT_Invalid 0 false false true false ""%string.
Definition set_active (b : bool) (s : ClockSource) : ClockSource :=
  mkClockSource (cs_type s) (cs_id s) (cs_valid s) b (cs_locked s) (cs_slipping s) (cs_description s).

Definition EFC_CMD_HW_CLOCK_INTERNAL : Z := 0.
Definition EFC_CMD_HW_CLOCK_SYTMATCH : Z := 1.
Definition EFC_CMD_HW_CLOCK_WORDCLOCK : Z := 2.
Definition EFC_CMD_HW_CLOCK_SPDIF : Z := 3.
Definition EFC_CMD_HW_CLOCK_ADAT_1 : Z := 4.
Definition EFC_CMD_HW_CLOCK_ADAT_2 : Z := 5.
Definition EFC_CMD_HW_CLOCK_COUNT : Z := 6.
Definition FIREWORKS_MIN_FIRMWARE_VERSION : Z := 0x04080000.

Section device.
Context {W : Type} `{EfcLink W} (uninit : Z).
Abbreviation M := (run (FwDevice W)).

Definition on_link {A} (m : run W A) : M A := fun d =>
  match m (d_link d) with
  | Some (a, w) => Some (a, mkDev (d_HwInfo d) (d_Polled d) (d_current_clock d) (d_efc_discovery_done d) w)
  | None => None
  end.

Definition set_HwInfo (x : EfcHardwareInfoCmd) : M unit :=
  modify (fun d => mkDev x (d_Polled d) (d_current_clock d) (d_efc_discovery_done d) (d_link d)).
Definition set_Polled (x : EfcPolledValuesCmd) : M unit :=
  modify (fun d => mkDev (d_HwInfo d) x (d_current_clock d) (d_efc_discovery_done d) (d_link d)).
Definition set_current_clock (x : Z) : M unit :=
  modify (fun d => mkDev (d_HwInfo d) (d_Polled d) x (d_efc_discovery_done d) (d_link d)).
Definition set_discovery_done (x : bool) : M unit :=
  modify (fun d => mkDev (d_HwInfo d) (d_Polled d) (d_current_clock d) x (d_link d)).

Definition discoverUsingEFC : M bool :=
  set_discovery_done false ;;
  hw ← gets d_HwInfo;
  '(ok, hw) ← on_link (do_hwinfo hw);
  set_HwInfo hw ;;
  if negb ok then mret false
  else if hi_arm_version hw <? FIREWORKS_MIN_FIRMWARE_VERSION then mret false
  else
    set_current_clock (-1) ;;
    set_discovery_done true ;;
    mret true.

Definition updatePolledValues : M bool :=
  p ← gets d_Polled;
  '(ok, p) ← on_link (do_polled p);
  set_Polled p ;;
  mret ok.

Definition getSupportedSamplingFrequencies (d : FwDevice W) : list Z :=
  filter (fun x => hi_min_sample_rate (d_HwInfo d) <= x /\ x <= hi_max_sample_rate (d_HwInfo d))
    [22050; 24000; 32000; 44100; 48000; 88200; 96000; 176400; 192000].

(** *** Clocks *)

(** A shift by 32 or more is undefined. *)
Definition isClockValid (id : Z) : M bool :=
  if id =? EFC_CMD_HW_CLOCK_INTERNAL then mret true else
  ok ← updatePolledValues;
  if negb ok then mret false else
  assert_that (fun _ => id <? 32) ;;
  p ← gets d_Polled;
  mret (EFC_CMD_HW_CHECK_FLAG (po_status p) id).

Definition clock_type (clockid : Z) : option (eClockSourceType * string) :=
  if clockid =? EFC_CMD_HW_CLOCK_INTERNAL then Some (eCT_Internal, "Internal sync"%string)
  else if clockid =? EFC_CMD_HW_CLOCK_SYTMATCH then Some (eCT_SytMatch, "SYT Match"%string)
  else if clockid =? EFC_CMD_HW_CLOCK_WORDCLOCK then Some (eCT_WordClock, "Word Clock"%string)
  else if clockid =? EFC_CMD_HW_CLOCK_SPDIF then Some (eCT_SPDIF, "SPDIF"%string)
  else if clockid =? EFC_CMD_HW_CLOCK_ADAT_1 then Some (eCT_ADAT, "ADAT 1"%string)
  else if clockid =? EFC_CMD_HW_CLOCK_ADAT_2 then Some (eCT_ADAT, "ADAT 2"%string)
  else None.

Definition clockIdToClockSource (clockid : Z) : M ClockSource :=
  match clock_type clockid with
  | None => mret ClockSource_new
  | Some (type, description) =>
      valid ← isClockValid clockid;
      mret (mkClockSource type clockid valid false true false description)
  end.

Definition getClock (gccmd : EfcGetClockCmd) : M (bool * EfcGetClockCmd) :=
  '(ok, gccmd) ← on_link (do_get_clock gccmd);
  if negb ok then mret (false, gccmd) else
  '(ok, rate) ←
    (if 192000 <? gc_samplerate gccmd then
       sampling_rate ← on_link avc_getSamplingFrequency;
       if sampling_rate =? 0 then mret (false, gc_samplerate gccmd) else mret (true, u32 sampling_rate)
     else mret (true, gc_samplerate gccmd));
  let gccmd := mkGetClock (gc_base gccmd) (gc_clock gccmd) rate (gc_index gccmd) in
  if negb ok then mret (false, gccmd) else
  if EFC_CMD_HW_CLOCK_COUNT <? gc_clock gccmd then
    current ← gets d_current_clock;
    ok ← (if current <? 0 then
            let sccmd := mkSetClock (sc_base EfcSetClockCmd_new) EFC_CMD_HW_CLOCK_INTERNAL (gc_samplerate gccmd) 0 in
            '(ok, sccmd) ← on_link (do_set_clock sccmd);
            if negb ok then mret false else
            set_current_clock (i32 (sc_clock sccmd)) ;;
            mret true
          else mret true);
    if negb ok then mret (false, gccmd) else
    current ← gets d_current_clock;
    mret (true, mkGetClock (gc_base gccmd) (u32 current) (gc_samplerate gccmd) (gc_index gccmd))
  else mret (true, gccmd).

Definition getClockSrc : M Z :=
  '(ok, gccmd) ← getClock EfcGetClockCmd_new;
  mret (if negb ok then EFC_CMD_HW_CLOCK_UNSPECIFIED else gc_clock gccmd).

Definition getSamplingFrequency : M Z :=
  '(ok, gccmd) ← getClock EfcGetClockCmd_new;
  mret (if negb ok then 0 else i32 (gc_samplerate gccmd)).

Definition setClock (sccmd : EfcSetClockCmd) : M bool :=
  '(ok, sccmd) ← on_link (do_set_clock sccmd);
  if negb ok then mret false else
  set_current_clock (i32 (sc_clock sccmd)) ;;
  mret true.

Definition setClockSrc (id : Z) : M bool :=
  '(err, gccmd) ← getClock EfcGetClockCmd_new;
  if negb err then mret err else
  setClock (mkSetClock (sc_base EfcSetClockCmd_new) id (gc_samplerate gccmd) 0).

Definition setSamplingFrequency (samplerate : Z) : M bool :=
  '(err, gccmd) ← getClock EfcGetClockCmd_new;
  if negb err then mret err else
  setClock (mkSetClock (sc_base EfcSetClockCmd_new) (gc_clock gccmd) (u32 samplerate) 0).

Definition setActiveClockSource (s : ClockSource) : M bool :=
  valid ← isClockValid (cs_id s);
  if negb valid then mret false else setClockSrc (cs_id s).

Definition getActiveClockSource : M ClockSource :=
  active_clock ← getClockSrc;
  s ← clockIdToClockSource active_clock;
  mret (set_active true s).

(** One block of [getSupportedClockSources]. *)
Definition add_clock_source (active_clock : Z) (r : list ClockSource) (id : Z) : M (list ClockSource) :=
  hw ← gets d_HwInfo;
  if EFC_CMD_HW_CHECK_FLAG (hi_supported_clocks hw) id then
    s ← clockIdToClockSource id;
    let s := set_active (active_clock =? id) s in
    mret (if bool_decide (cs_type s = eCT_Invalid) then r else r ++ [s])
  else mret r.

Definition getSupportedClockSources : M (list ClockSource) :=
  done ← gets d_efc_discovery_done;
  if negb done then mret [] else
  active_clock ← getClockSrc;
  r ← add_clock_source active_clock [] EFC_CMD_HW_CLOCK_INTERNAL;
  r ← add_clock_source active_clock r EFC_CMD_HW_CLOCK_SYTMATCH;
  r ← add_clock_source active_clock r EFC_CMD_HW_CLOCK_WORDCLOCK;
  r ← add_clock_source active_clock r EFC_CMD_HW_CLOCK_SPDIF;
  r ← add_clock_source active_clock r EFC_CMD_HW_CLOCK_ADAT_1;
  add_clock_source active_clock r EFC_CMD_HW_CLOCK_ADAT_2.

(** *** Flash memory *)

Definition lockFlash (lock : bool) : M bool :=
  hw ← gets d_HwInfo;
  if hasDSP hw then mret true else
  '(ok, _) ← on_link (do_flash_lock (mkFlashLock (fl_base EfcFlashLockCmd_new) lock));
  mret ok.

(** The guards of [writeFlash] and [readFlash]. *)
Definition bogus_range (start len : Z) : bool := (len <=? 0) || (u32 (0xFFFFFFFF - u32 (len * 4)) <? start).

(** The quadlets of the next block, at most [EFC_FLASH_SIZE_QUADS]. *)
Definition block_quads (start_addr stop_addr : Z) : Z :=
  let quads := u32 (stop_addr - start_addr) / 4 in
  if EFC_FLASH_SIZE_QUADS <? quads then EFC_FLASH_SIZE_QUADS else quads.

(** The loop of [writeFlash]: [target_buffer] is what is left of the buffer, which must not be
    read past its end. *)
Fixpoint flash_write_blocks (fuel : nat) (cmd : EfcFlashWriteCmd) (start_addr stop_addr : Z) (target_buffer : list Z) : M bool :=
  if negb (start_addr <? stop_addr) then mret true else
  match fuel with
  | O => fun _ => None
  | S fuel =>
      let quads_to_write := block_quads start_addr stop_addr in
      assert_that (fun _ => quads_to_write <=? zlength target_buffer) ;;
      let cmd := mkFlashWrite (fw_base cmd) start_addr quads_to_write
                   (take (Z.to_nat quads_to_write) target_buffer ++ drop (Z.to_nat quads_to_write) (fw_data cmd)) in
      '(ok, cmd) ← on_link (do_flash_write cmd);
      if negb ok then mret false else
      flash_write_blocks fuel cmd (u32 (start_addr + EFC_FLASH_SIZE_BYTES)) stop_addr (drop (Z.to_nat quads_to_write) target_buffer)
  end.

Definition writeFlash (start len : Z) (buffer : list Z) : M bool :=
  if bogus_range start len then mret false else
  if negb (start .& 0x03 =? 0) then mret false else
  flash_write_blocks (S (length buffer)) (EfcFlashWriteCmd_new (replicate 64 uninit)) start (u32 (start + u32 (len * 4))) buffer.

(** A buffer that is filled from its front: the position of [target_buffer], and the contents. *)
Record target := mkTarget { tb_pos : nat; tb_data : list Z }.

Definition copy_to_target (cmd : EfcFlashReadCmd) (t : target) : M target :=
  assert_that (fun _ => (frd_nb_quadlets cmd <=? zlength (frd_data cmd)) &&
                        (Z.of_nat (tb_pos t) + frd_nb_quadlets cmd <=? zlength (tb_data t))) ;;
  mret (mkTarget (tb_pos t + Z.to_nat (frd_nb_quadlets cmd))
          (list_inserts (tb_pos t) (take (Z.to_nat (frd_nb_quadlets cmd)) (frd_data cmd)) (tb_data t))).

(** The inner loop of [readFlash], from a test [ntries] on: whether to go on, with the value of
    [ntries] after the loop. *)
Fixpoint read_tries (ntries : nat) (cmd : EfcFlashReadCmd) (start_addr quads_to_read quadlets_read : Z) (t : target)
  : M (bool * Z * EfcFlashReadCmd * target) :=
  let new_to_read := u32 (quads_to_read - quadlets_read) in
  let cmd := mkFlashRead (frd_base cmd) (u32 (start_addr + u32 (quadlets_read * 4))) new_to_read (frd_data cmd) in
  '(ok, cmd) ← on_link (do_flash_read cmd);
  if negb ok then mret (false, Z.of_nat ntries, cmd, t) else
  let quadlets_read := u32 (quadlets_read + frd_nb_quadlets cmd) in
  t ← copy_to_target cmd t;
  if quadlets_read <? quads_to_read then
    match ntries with
    | O => mret (true, -1, cmd, t)
    | S ntries => read_tries ntries cmd start_addr quads_to_read quadlets_read t
    end
  else mret (true, Z.of_nat ntries, cmd, t).

Fixpoint flash_read_blocks (fuel : nat) (cmd : EfcFlashReadCmd) (start_addr stop_addr : Z) (t : target) : M (bool * list Z) :=
  if negb (start_addr <? stop_addr) then mret (true, tb_data t) else
  match fuel with
  | O => fun _ => None
  | S fuel =>
      '(ok, ntries, cmd, t) ← read_tries (Z.to_nat 10000) cmd start_addr (block_quads start_addr stop_addr) 0 t;
      if negb ok then mret (false, tb_data t) else
      if ntries =? 0 then mret (false, tb_data t) else
      flash_read_blocks fuel cmd (u32 (start_addr + EFC_FLASH_SIZE_BYTES)) stop_addr t
  end.

Definition readFlash (start len : Z) (buffer : list Z) : M (bool * list Z) :=
  if bogus_range start len then mret (false, buffer) else
  if negb (start .& 0x03 =? 0) then mret (false, buffer) else
  flash_read_blocks (S (length buffer)) (EfcFlashReadCmd_new (replicate 64 uninit)) start (u32 (start + u32 (len * 4))) (mkTarget 0 buffer).

Definition eraseFlash (addr : Z) : M bool :=
  if negb (addr .& 0x03 =? 0) then mret false else
  '(ok, cmd) ← on_link (do_flash_erase (mkFlashErase (fe_base EfcFlashEraseCmd_new) addr));
  if negb ok then mret (h_retval (ef_header (fe_base cmd)) =? eERV_FlashBusy) else mret true.

Fixpoint wait_flash (wait_cycles : nat) (statusCmd : EfcFlashGetStatusCmd) : M bool :=
  '(ok, statusCmd) ← on_link (do_flash_status statusCmd);
  if negb ok then mret false else
  let ready := if h_retval (ef_header (fs_base statusCmd)) =? eERV_FlashBusy then false else fs_ready statusCmd in
  if ready then mret (negb (wait_cycles =? 0)%nat)
  else match wait_cycles with
       | O => mret false
       | S wait_cycles => wait_flash wait_cycles statusCmd
       end.

Definition waitForFlash (msecs : Z) : M bool := wait_flash (Z.to_nat (u32 (msecs * 1000) / 10000)) EfcFlashGetStatusCmd_new.

Definition PROGRAMBLOCK_SIZE_BYTES : Z := 0x2000.
Definition MAINBLOCK_SIZE_BYTES : Z := 0x10000.
Definition MAINBLOCKS_BASE_OFFSET_BYTES : Z := 0x10000.
Definition ECHO_FLASH_ERASE_TIMEOUT_MILLISECS : Z := 2000.

Definition blocksize_bytes (start_address : Z) : Z :=
  if start_address <? MAINBLOCKS_BASE_OFFSET_BYTES then PROGRAMBLOCK_SIZE_BYTES else MAINBLOCK_SIZE_BYTES.

(** One erasure with its verification: [None] where the function returns [false] at once, and
    otherwise whether the block is erased. *)
Definition erase_block (start_address blocksize_quads verify_quads : Z) : M (option bool) :=
  ok ← eraseFlash start_address;
  if negb ok then mret (Some false) else
  ok ← waitForFlash ECHO_FLASH_ERASE_TIMEOUT_MILLISECS;
  if negb ok then mret None else
  '(ok, verify) ← readFlash start_address blocksize_quads (replicate (Z.to_nat verify_quads) uninit);
  if negb ok then mret None else
  mret (Some (forallb (fun q => q =? 0xFFFFFFFF) (take (Z.to_nat blocksize_quads) verify))).

(** The loop of [eraseFlashBlocks]. *)
Fixpoint erase_blocks (fuel : nat) (start_address quads_left : Z) (success : bool) (nb_tries : Z) : M bool :=
  match fuel with
  | O => fun _ => None
  | S fuel =>
      let size := blocksize_bytes start_address in
      let start_address := start_address .& (Z.lxor 0xFFFFFFFF (size - 1)) in
      let blocksize_quads := if quads_left <? size / 4 then quads_left else size / 4 in
      erased ← erase_block start_address blocksize_quads (size / 4);
      match erased with
      | None => mret false
      | Some erased =>
          let success := success && erased in
          let '(start_address, quads_left, nb_tries) :=
            if success then (u32 (start_address + size), quads_left - blocksize_quads, 0)
            else (start_address, quads_left, nb_tries + 1) in
          if 10 <? nb_tries then mret false
          else if 0 <? quads_left then erase_blocks fuel start_address quads_left success nb_tries
          else mret true
      end
  end.

Definition eraseFlashBlocks (start_address nb_quads : Z) : M bool :=
  erase_blocks (Z.to_nat nb_quads + 12) start_address nb_quads true 0.

Definition getSessionBase : M Z :=
  '(ok, cmd) ← on_link (do_session_base EfcFlashGetSessionBaseCmd_new);
  mret (if negb ok then 0 else fb_address cmd).
End device.
