(* ===== verification/FireworksFlash.v ===== *)
(** * The flash memory of a Fireworks device

    [FlashDevice] states how the flash memory behind the EFC commands behaves (the data sheet of
    the part that [src/fireworks/IntelFlashMap.h] names): reading returns some of the
    quadlets asked for, programming clears bits, erasing sets all bits of a block and
    leaves the memory busy for a while.  From it the methods of [Fireworks] for the flash memory
    are shown to read, write and erase what they are asked to.  The theorems about devices
    that misbehave need no such assumption. *)
From S2P Require Import Prelude ByteSwap CmdSerialize Fcp AvcCommands AvcExchange EfcCommands EfcExchange Fireworks.

Definition FLASH_SIZE_BYTES : Z := 0x200000.

(** ** The memory *)

(** The quadlets are numbered; quadlet [q] has the address [4 * q]. *)
Definition flash_range (mem : Z -> Z) (q : Z) (n : nat) : list Z := (fun i => mem (q + Z.of_nat i)) <$> seq 0 n.

(** Programming the quadlets [l] from quadlet [q] on clears bits. *)
Definition programmed (mem : Z -> Z) (q : Z) (l : list Z) (i : Z) : Z :=
  if i <? q then mem i else
  match l !! Z.to_nat (i - q) with
  | Some v => mem i .& v
  | None => mem i
  end.

Definition erased (mem : Z -> Z) (q n i : Z) : Z := if (q <=? i) && (i <? q + n) then 0xFFFFFFFF else mem i.

(** The longest wait that [waitForFlash] tolerates after an erasure, in polls of the status. *)
Definition max_busy : nat := 199.

Class FlashDevice (W : Type) `{EfcLink W} := {
  flash_at : W -> Z -> Z;
  flash_busy : W -> nat;
  session_base : Z;
  flash_quad w i : quad_ok (flash_at w i);
  flash_read_law w c q : flash_busy w = 0%nat -> frd_address c = 4 * q -> 0 <= q -> 0 < frd_nb_quadlets c <= 64 ->
    4 * (q + frd_nb_quadlets c) <= FLASH_SIZE_BYTES -> length (frd_data c) = 64%nat ->
    exists b n data w', do_flash_read c w = Some ((true, mkFlashRead b (frd_address c) (Z.of_nat n) data), w')
    /\ (0 < n)%nat /\ Z.of_nat n <= frd_nb_quadlets c /\ length data = 64%nat
    /\ take n data = flash_range (flash_at w) q n
    /\ flash_busy w' = 0%nat /\ (forall i, flash_at w' i = flash_at w i);
  flash_write_law w c q : flash_busy w = 0%nat -> fw_address c = 4 * q -> 0 <= q -> 0 < fw_nb_quadlets c <= 64 ->
    4 * (q + fw_nb_quadlets c) <= FLASH_SIZE_BYTES -> fw_nb_quadlets c <= zlength (fw_data c) ->
    exists c' w', do_flash_write c w = Some ((true, c'), w') /\ flash_busy w' = 0%nat
    /\ (forall i, flash_at w' i = programmed (flash_at w) q (take (Z.to_nat (fw_nb_quadlets c)) (fw_data c)) i);
  flash_erase_law w c q : flash_busy w = 0%nat -> fe_address c = 4 * q -> 0 <= q -> 4 * q < FLASH_SIZE_BYTES ->
    fe_address c mod blocksize_bytes (fe_address c) = 0 ->
    exists c' w', do_flash_erase c w = Some ((true, c'), w') /\ (flash_busy w' <= max_busy)%nat
    /\ (forall i, flash_at w' i = erased (flash_at w) q (blocksize_bytes (fe_address c) / 4) i);
  flash_status_law w c :
    exists b r w', do_flash_status c w = Some ((true, mkFlashStatus b r), w')
    /\ (h_retval (ef_header b) =? eERV_FlashBusy) = negb (flash_busy w =? 0)%nat
    /\ (flash_busy w = 0%nat -> r = true)
    /\ flash_busy w' = pred (flash_busy w) /\ (forall i, flash_at w' i = flash_at w i);
  flash_lock_law w c : exists c' w', do_flash_lock c w = Some ((true, c'), w')
    /\ flash_busy w' = flash_busy w /\ (forall i, flash_at w' i = flash_at w i);
  session_base_law w c : exists b w', do_session_base c w = Some ((true, mkSessionBase b session_base), w')
    /\ flash_busy w' = flash_busy w /\ (forall i, flash_at w' i = flash_at w i);
}.

(** ** Lists and memories *)

Lemma length_flash_range mem q n : length (flash_range mem q n) = n.
Proof. unfold flash_range. by rewrite length_fmap, length_seq. Qed.

Lemma flash_range_lookup mem q n i : (i < n)%nat -> flash_range mem q n !! i = Some (mem (q + Z.of_nat i)).
Proof. intros Hi. unfold flash_range. by rewrite list_lookup_fmap, lookup_seq_lt. Qed.

Lemma flash_range_app mem q n m : flash_range mem q (n + m) = flash_range mem q n ++ flash_range mem (q + Z.of_nat n) m.
Proof.
  unfold flash_range. rewrite seq_app, fmap_app. f_equal. rewrite (Nat.add_comm 0), <- fmap_add_seq, <- list_fmap_compose.
  apply list_fmap_ext. intros i x _. simpl. f_equal. lia.
Qed.

Lemma flash_range_ext f g q n : (forall i, q <= i < q + Z.of_nat n -> f i = g i) -> flash_range f q n = flash_range g q n.
Proof.
  intros E. unfold flash_range. apply list_fmap_ext. intros i x Hx. apply lookup_seq in Hx. apply E. lia.
Qed.

Lemma inserts_range_app f g q p n m k (l : list Z) : (forall i, g i = f i) -> k = (n + m)%nat ->
  list_inserts (p + n) (flash_range g (q + Z.of_nat n) m) (list_inserts p (flash_range f q n) l)
  = list_inserts p (flash_range f q k) l.
Proof.
  intros E ->. rewrite flash_range_app, list_inserts_app_l, length_flash_range, (Nat.add_comm n).
  f_equal. by apply flash_range_ext.
Qed.

Lemma programmed_app mem q l1 l2 i :
  programmed (programmed mem q l1) (q + zlength l1) l2 i = programmed mem q (l1 ++ l2) i.
Proof.
  unfold programmed, zlength. pose proof (lookup_app l1 l2 (Z.to_nat (i - q))) as E.
  destruct (Z.ltb_spec i q), (Z.ltb_spec i (q + Z.of_nat (length l1))); try lia; try done.
  - rewrite lookup_app_l by lia. done.
  - rewrite lookup_app_r by lia. rewrite (lookup_ge_None_2 l1) by lia.
    by replace (Z.to_nat (i - q) - length l1)%nat with (Z.to_nat (i - (q + Z.of_nat (length l1)))) by lia.
Qed.

Lemma erased_app mem q n m i : 0 <= n -> 0 <= m ->
  erased (erased mem q n) (q + n) m i = erased mem q (n + m) i.
Proof. intros. unfold erased. repeat case_match; try done; lia. Qed.

(** Programming an erased range stores the data. *)
Lemma programmed_erased mem q l i v : Forall quad_ok l -> (forall j, q <= j < q + zlength l -> mem j = 0xFFFFFFFF) ->
  l !! i = Some v -> programmed mem q l (q + Z.of_nat i) = v.
Proof.
  intros Hl He Hi. pose proof (lookup_lt_Some _ _ _ Hi). unfold programmed, zlength in *.
  destruct (Z.ltb_spec (q + Z.of_nat i) q); [lia|].
  replace (Z.to_nat (q + Z.of_nat i - q)) with i by lia. rewrite Hi, He by lia.
  change 0xFFFFFFFF with (2 ^ 32 - 1). rewrite Z.land_comm, land_mask_mod by lia.
  apply Z.mod_small. by apply (Forall_lookup_1 _ _ _ _ Hl Hi).
Qed.

Lemma programmed_other mem q l i : i < q \/ q + zlength l <= i -> programmed mem q l i = mem i.
Proof.
  unfold programmed, zlength. intros. destruct (Z.ltb_spec i q); [done|].
  by rewrite lookup_ge_None_2 by lia.
Qed.

(** ** Reading, writing and erasing *)

Definition with_link {W} (w : W) (d : FwDevice W) : FwDevice W :=
  mkDev (d_HwInfo d) (d_Polled d) (d_current_clock d) (d_efc_discovery_done d) w.

Section flash.
Context {W : Type} `{FlashDevice W} (uninit : Z).

(** From [d] to [d'] only the link changes; the memory is idle and holds [mem] afterwards. *)
Definition flash_step (d d' : FwDevice W) (mem : Z -> Z) : Prop :=
  d' = with_link (d_link d') d /\ flash_busy (d_link d') = 0%nat /\ (forall i, flash_at (d_link d') i = mem i).

Lemma flash_step_trans d1 d2 d3 f g h : flash_step d1 d2 f -> flash_step d2 d3 g ->
  ((forall i, flash_at (d_link d2) i = f i) -> forall i, g i = h i) -> flash_step d1 d3 h.
Proof.
  intros (E1 & _ & M1) (E2 & B2 & M2) E. split_and!; [|done|intros i; rewrite M2; by apply E].
  rewrite E2, E1. by destruct d1, d3.
Qed.

Lemma flash_step_ext d d' f g : flash_step d d' f -> (forall i, f i = g i) -> flash_step d d' g.
Proof. intros (? & ? & E) Eg. split_and!; try done. intros i. by rewrite E. Qed.

Lemma on_link_Some {A} (m : run W A) d a w : m (d_link d) = Some (a, w) -> on_link m d = Some (a, with_link w d).
Proof. unfold on_link. by intros ->. Qed.

Lemma block_quads_spec q n : 0 <= q -> 0 <= n -> 4 * (q + n) <= FLASH_SIZE_BYTES -> 
  block_quads (4 * q) (4 * (q + n)) = Z.min 64 n.
Proof.
  unfold FLASH_SIZE_BYTES, block_quads, EFC_FLASH_SIZE_QUADS. intros. rewrite (wrapU_small 32) by lia.
  replace (4 * (q + n) - 4 * q) with (n * 4) by lia. rewrite Z.div_mul by lia. case_match; lia.
Qed.

Lemma read_tries_spec ntries : forall cmd q quads k t d,
  flash_busy (d_link d) = 0%nat -> length (frd_data cmd) = 64%nat -> 0 <= q -> 0 <= k < quads -> quads <= 64 ->
  quads - k <= Z.of_nat ntries -> 4 * (q + quads) <= FLASH_SIZE_BYTES ->
  (tb_pos t + Z.to_nat (quads - k) <= length (tb_data t))%nat ->
  exists r cmd' d', read_tries ntries cmd (4 * q) quads k t d
    = Some ((true, r, cmd', mkTarget (tb_pos t + Z.to_nat (quads - k))
        (list_inserts (tb_pos t) (flash_range (flash_at (d_link d)) (q + k) (Z.to_nat (quads - k))) (tb_data t))), d')
  /\ 0 < r /\ length (frd_data cmd') = 64%nat /\ flash_step d d' (flash_at (d_link d)).
Proof.
  induction ntries as [|ntries IH]; intros cmd q quads k t d B L Hq Hk H64 Hn Hs Ht; [lia|]. unfold FLASH_SIZE_BYTES in *.
  cbn [read_tries]. rewrite (wrapU_small 32 (quads - k)), (wrapU_small 32 (k * 4)), (wrapU_small 32 (4 * q + _)) by lia.
  set (c := mkFlashRead _ _ _ _).
  destruct (flash_read_law (d_link d) c (q + k)) as (b & n & data & w & E & N1 & N2 & LD & TD & B' & M');
    try done; cbn [c frd_address frd_nb_quadlets frd_data]; try (unfold FLASH_SIZE_BYTES; lia).
  cbn [c frd_nb_quadlets] in N2. run_step with (on_link_Some _ d _ _ E). cbn beta iota. cbn [negb frd_nb_quadlets].
  rewrite (wrapU_small 32) by lia. unfold copy_to_target. cbn [frd_nb_quadlets frd_data].
  erewrite run_bind_Some.
  2:{ erewrite run_bind_Some; [done|]. unfold assert_that.
      replace (_ && _) with true; [done|]. symmetry. apply andb_true_intro. unfold zlength. rewrite LD. split; apply Z.leb_le; lia. }
  rewrite Nat2Z.id, TD.
  assert (flash_step d (with_link w d) (flash_at (d_link d))) as S1 by (split_and!; try done).
  destruct (Z.ltb_spec (k + Z.of_nat n) quads) as [Hlt|Hge].
  - edestruct (IH (mkFlashRead b (frd_address c) (Z.of_nat n) data) q quads (k + Z.of_nat n)
      (mkTarget (tb_pos t + n) (list_inserts (tb_pos t) (flash_range (flash_at (d_link d)) (q + k) n) (tb_data t)))
      (with_link w d)) as (r & cmd' & d' & E' & R' & L' & S'); try done; try lia.
    + cbn [tb_pos tb_data]. rewrite length_inserts. lia.
    + exists r, cmd', d'. split_and!; try done.
      * rewrite E'. cbn [tb_pos tb_data]. rewrite Z.add_assoc.
        rewrite (inserts_range_app _ _ _ _ _ _ (Z.to_nat (quads - k))) by (done || lia).
        by replace (tb_pos t + n + _)%nat with (tb_pos t + Z.to_nat (quads - k))%nat by lia.
      * eapply flash_step_trans; [exact S1|exact S'|]. done.
  - assert (Z.to_nat (quads - k) = n) as -> by lia.
    exists (Z.of_nat (S ntries)), (mkFlashRead b (frd_address c) (Z.of_nat n) data), (with_link w d).
    by split_and!.
Qed.

Lemma read_blocks_spec fuel : forall cmd q n t d,
  flash_busy (d_link d) = 0%nat -> length (frd_data cmd) = 64%nat -> 0 <= q ->
  (n <= fuel)%nat -> 4 * (q + Z.of_nat n) <= FLASH_SIZE_BYTES -> (tb_pos t + n <= length (tb_data t))%nat ->
  exists d', flash_read_blocks fuel cmd (4 * q) (4 * (q + Z.of_nat n)) t d
    = Some ((true, list_inserts (tb_pos t) (flash_range (flash_at (d_link d)) q n) (tb_data t)), d')
  /\ flash_step d d' (flash_at (d_link d)).
Proof.
  induction fuel as [|fuel IH]; intros cmd q n t d B L Hq Hf Hs Ht; unfold FLASH_SIZE_BYTES in *; cbn [flash_read_blocks].
  all: destruct (Z.ltb_spec (4 * q) (4 * (q + Z.of_nat n))) as [Hlt|Hge]; cbn [negb]; try lia.
  1,3: assert (n = 0%nat) as -> by lia; exists d; split; [done|]; split_and!; try done; by destruct d.
  rewrite block_quads_spec by (unfold FLASH_SIZE_BYTES; lia).
  destruct (read_tries_spec (Z.to_nat 10000) cmd q (Z.min 64 (Z.of_nat n)) 0 t d) as (r & cmd' & d1 & E & R & L' & S1);
    try done; try (unfold FLASH_SIZE_BYTES; lia).
  rewrite Z.sub_0_r, Z.add_0_r in E. run_step with E. cbn beta iota. cbn [negb].
  rewrite (proj2 (Z.eqb_neq r 0)) by lia. unfold EFC_FLASH_SIZE_BYTES. rewrite (wrapU_small 32) by lia.
  set (m := Z.to_nat (Z.min 64 (Z.of_nat n))) in *.
  destruct (decide (n <= 64)%nat) as [Hle|Hgt].
  - assert (m = n) as -> by lia. exists d1. split; [|done].
    replace (4 * (q + Z.of_nat n)) with (Z.min (4 * q + 256) (4 * (q + Z.of_nat n))) by lia.
    destruct fuel; cbn [flash_read_blocks]; by rewrite (proj2 (Z.ltb_ge _ _)) by lia.
  - destruct (IH cmd' (q + 64) (n - 64)%nat (mkTarget (tb_pos t + m)
      (list_inserts (tb_pos t) (flash_range (flash_at (d_link d)) q m) (tb_data t))) d1) as (d2 & E2 & S2);
      try done; try (unfold FLASH_SIZE_BYTES; lia).
    + by destruct S1 as (_ & ? & _).
    + cbn [tb_pos tb_data]. rewrite length_inserts. lia.
    + exists d2. replace (4 * q + 256) with (4 * (q + 64)) by lia.
      replace (q + 64 + Z.of_nat (n - 64)) with (q + Z.of_nat n) in E2 by lia. rewrite E2. split.
      * cbn [tb_pos tb_data]. destruct S1 as (_ & _ & M1). replace (q + 64) with (q + Z.of_nat m) by lia.
        by rewrite (inserts_range_app _ _ _ _ _ _ n) by (done || lia).
      * eapply flash_step_trans; [exact S1|exact S2|done].
Qed.

(** A range of quadlets inside the memory passes the guards. *)
Lemma range_guards q n : 0 <= q -> 0 < n -> 4 * (q + n) <= FLASH_SIZE_BYTES ->
  bogus_range (4 * q) n = false /\ negb (4 * q .& 0x03 =? 0) = false /\ u32 (4 * q + u32 (n * 4)) = 4 * (q + n).
Proof.
  unfold bogus_range, FLASH_SIZE_BYTES. intros. rewrite (wrapU_small 32 (n * 4)) by lia.
  rewrite !(wrapU_small 32) by lia. change 0x03 with (2 ^ 2 - 1). rewrite land_mask_mod by lia.
  replace (4 * q) with (q * 2 ^ 2) by lia. rewrite Z.mod_mul by lia. split_and!; try done; lia.
Qed.

Lemma inserts_front (l b : list Z) : (length l <= length b)%nat -> list_inserts 0 l b = l ++ drop (length l) b.
Proof.
  intros Hl. rewrite <- (take_drop (length l) b) at 1. pose proof (length_take_le b (length l) Hl) as E.
  apply list_eq. intros i. destruct (decide (i < length l)%nat).
  - rewrite list_lookup_inserts by (rewrite ?length_app, ?length_take, ?length_drop; lia).
    rewrite lookup_app_l by lia. f_equal. lia.
  - rewrite list_lookup_inserts_ge, take_drop by lia. rewrite lookup_app_r by lia. rewrite lookup_drop. f_equal. lia.
Qed.

Lemma readFlash_spec q n buffer d : flash_busy (d_link d) = 0%nat -> 0 <= q -> (0 < n)%nat ->
  4 * (q + Z.of_nat n) <= FLASH_SIZE_BYTES -> (n <= length buffer)%nat ->
  exists d', readFlash uninit (4 * q) (Z.of_nat n) buffer d
    = Some ((true, flash_range (flash_at (d_link d)) q n ++ drop n buffer), d')
  /\ flash_step d d' (flash_at (d_link d)).
Proof.
  intros B Hq Hn Hs Hb. destruct (range_guards q (Z.of_nat n)) as (G1 & G2 & G3); try lia.
  unfold readFlash. rewrite G1, G2, G3.
  destruct (read_blocks_spec (S (length buffer)) (EfcFlashReadCmd_new (replicate 64 uninit)) q n (mkTarget 0 buffer) d)
    as (d' & E & S); try done; try lia.
  exists d'. split; [|done]. rewrite E. cbn [tb_pos tb_data].
  rewrite inserts_front; rewrite length_flash_range; done.
Qed.

Lemma write_blocks_spec fuel rest : forall cmd q data d,
  flash_busy (d_link d) = 0%nat -> 0 <= q -> (length data <= fuel)%nat ->
  4 * (q + zlength data) <= FLASH_SIZE_BYTES ->
  exists d', flash_write_blocks fuel cmd (4 * q) (4 * (q + zlength data)) (data ++ rest) d = Some (true, d')
  /\ flash_step d d' (programmed (flash_at (d_link d)) q data).
Proof.
  induction fuel as [|fuel IH]; intros cmd q data d B Hq Hf Hs; unfold FLASH_SIZE_BYTES in *; cbn [flash_write_blocks].
  all: pose proof (zlength_nonneg data).
  all: destruct (Z.ltb_spec (4 * q) (4 * (q + zlength data))) as [Hlt|Hge]; cbn [negb]; try (unfold zlength in *; lia).
  1,3: destruct data; [|unfold zlength in *; simpl length in *; lia]; exists d; split; [done|]; split_and!; try done;
       [by destruct d|intros i; unfold programmed; by case_match].
  rewrite block_quads_spec by (unfold FLASH_SIZE_BYTES; lia).
  set (m := Z.min 64 (zlength data)) in *.
  pose proof (zlength_nonneg rest). rewrite take_app_le, drop_app_le by (unfold zlength in *; lia).
  erewrite run_bind_Some; [|unfold assert_that; rewrite zlength_app; by rewrite (proj2 (Z.leb_le _ _)) by lia].
  set (c := mkFlashWrite _ _ _ _).
  assert (length (take (Z.to_nat m) data) = Z.to_nat m) as LT by (rewrite length_take; unfold zlength in *; lia).
  destruct (flash_write_law (d_link d) c q) as (c' & w & E & B' & M'); try done; cbn [c fw_nb_quadlets fw_data];
    try (unfold FLASH_SIZE_BYTES; lia).
  { rewrite zlength_app. unfold zlength at 1. rewrite LT. pose proof (zlength_nonneg (drop (Z.to_nat m) (fw_data cmd))). lia. }
  run_step with (on_link_Some _ d _ _ E). cbn beta iota. cbn [negb].
  cbn [c fw_nb_quadlets fw_data] in M'. rewrite take_app_length' in M' by done.
  assert (flash_step d (with_link w d) (programmed (flash_at (d_link d)) q (take (Z.to_nat m) data))) as S1 by done.
  unfold EFC_FLASH_SIZE_BYTES. rewrite (wrapU_small 32) by lia.
  destruct (decide (zlength data <= 64)) as [Hle|Hgt].
  - exists (with_link w d). rewrite (take_ge data) in S1 by (unfold zlength in *; lia). split; [|done].
    destruct fuel; cbn [flash_write_blocks]; by rewrite (proj2 (Z.ltb_ge _ _)) by lia.
  - assert (zlength (drop (Z.to_nat m) data) = zlength data - 64) as LD by (unfold zlength in *; rewrite length_drop; lia).
    destruct (IH c' (q + 64) (drop (Z.to_nat m) data) (with_link w d)) as (d2 & E2 & S2);
      try done; try (unfold FLASH_SIZE_BYTES, zlength in *; rewrite ?length_drop; lia).
    exists d2. replace (4 * q + 256) with (4 * (q + 64)) by lia. rewrite LD in E2.
    replace (q + 64 + (zlength data - 64)) with (q + zlength data) in E2 by lia. split; [exact E2|].
    eapply flash_step_trans; [exact S1|exact S2|]. intros _ i. rewrite <- (take_drop (Z.to_nat m) data) at 2.
    rewrite <- programmed_app. unfold zlength at 1. rewrite LT. replace (Z.of_nat (Z.to_nat m)) with 64 by lia.
    unfold programmed at 1 3. cbn [with_link d_link]. by rewrite !M'.
Qed.

Lemma writeFlash_spec q data rest d : flash_busy (d_link d) = 0%nat -> 0 <= q -> data <> [] ->
  4 * (q + zlength data) <= FLASH_SIZE_BYTES ->
  exists d', writeFlash uninit (4 * q) (zlength data) (data ++ rest) d = Some (true, d')
  /\ flash_step d d' (programmed (flash_at (d_link d)) q data).
Proof.
  intros B Hq Hn Hs. assert (0 < zlength data) by (destruct data; unfold zlength; simpl; try done; lia).
  destruct (range_guards q (zlength data)) as (G1 & G2 & G3); try lia.
  unfold writeFlash. rewrite G1, G2, G3. apply write_blocks_spec; try done. rewrite length_app. lia.
Qed.

Lemma wait_flash_spec n : forall cmd d, (flash_busy (d_link d) < n)%nat ->
  exists d', wait_flash n cmd d = Some (true, d') /\ flash_step d d' (flash_at (d_link d)).
Proof.
  induction n as [|n IH]; intros cmd d Hb; [lia|]. cbn [wait_flash].
  destruct (flash_status_law (d_link d) cmd) as (b & r & w & E & R & Z0 & B & M).
  run_step with (on_link_Some _ d _ _ E). cbn beta iota. cbn [negb fs_base fs_ready]. rewrite R.
  destruct (Nat.eqb_spec (flash_busy (d_link d)) 0) as [E0|N0]; cbn [negb].
  - rewrite Z0 by done. exists (with_link w d). split; [done|]. split_and!; try done. by rewrite E0 in B.
  - destruct (IH (mkFlashStatus b r) (with_link w d)) as (d' & E' & S1 & S2 & S3); [cbn [with_link d_link]; lia|].
    exists d'. split; [done|]. split_and!; [|done|intros i; by rewrite S3; apply M]. rewrite S1. by destruct d, d'.
Qed.

Definition block_aligned (q : Z) : Prop := 4 * q mod blocksize_bytes (4 * q) = 0.

(** The number of quadlets of the block that starts at quadlet [q]. *)
Definition block_size (q : Z) : Z := blocksize_bytes (4 * q) / 4.

Lemma land_clear_low x k : 0 <= k <= 32 -> 0 <= x < 2 ^ 32 -> x .& (Z.lxor 0xFFFFFFFF (2 ^ k - 1)) = x / 2 ^ k * 2 ^ k.
Proof.
  intros Hk Hx. rewrite <- Z.shiftr_div_pow2, <- Z.shiftl_mul_pow2 by lia.
  change 0xFFFFFFFF with (Z.ones 32). replace (2 ^ k - 1) with (Z.ones k) by (rewrite Z.ones_equiv; lia).
  apply Z.bits_inj'. intros i Hi. rewrite Z.land_spec, Z.lxor_spec, Z.shiftl_spec by lia.
  rewrite !Z.testbit_ones_nonneg by lia. destruct (Z.ltb_spec i k).
  - rewrite (Z.testbit_neg_r _ (i - k)) by lia. rewrite (proj2 (Z.ltb_lt i 32)) by lia. apply andb_false_r.
  - rewrite Z.shiftr_spec by lia. replace (i - k + k) with i by lia. destruct (Z.ltb_spec i 32); [apply andb_true_r|].
    rewrite (Z.bits_above_log2 x i); [done|lia|]. destruct (decide (x = 0)) as [->|]; [simpl; lia|].
    assert (Z.log2 x < 32) by (apply Z.log2_lt_pow2; lia). lia.
Qed.

(** The start address is rounded down to the start of its block. *)
Lemma block_bounds q r : 0 <= q -> 4 * q < FLASH_SIZE_BYTES -> block_aligned q -> 0 <= r < block_size q ->
  (block_size q = 0x800 \/ block_size q = 0x4000) /\ 4 * (q + block_size q) <= FLASH_SIZE_BYTES
  /\ block_aligned (q + block_size q) /\ blocksize_bytes (4 * (q + r)) = 4 * block_size q
  /\ 4 * (q + r) .& (Z.lxor 0xFFFFFFFF (blocksize_bytes (4 * (q + r)) - 1)) = 4 * q.
Proof.
  unfold block_aligned, block_size, blocksize_bytes, FLASH_SIZE_BYTES, MAINBLOCKS_BASE_OFFSET_BYTES, PROGRAMBLOCK_SIZE_BYTES,
    MAINBLOCK_SIZE_BYTES. intros Hq Hs Ha Hr.
  destruct (Z.ltb_spec (4 * q) 0x10000).
  - assert (exists k, q = k * 0x800 /\ 0 <= k < 8) as (k & -> & Hk) by (exists (q / 0x800); zlia).
    change (0x2000 / 4) with 0x800 in *. rewrite (proj2 (Z.ltb_lt (4 * (k * 0x800 + r)) _)) by lia.
    split_and!; [by left|lia|case_match; zlia|done|].
    change 0x2000 with (2 ^ 13). rewrite land_clear_low by lia. zlia.
  - assert (exists k, q = k * 0x4000 /\ 0 <= k < 32) as (k & -> & Hk) by (exists (q / 0x4000); zlia).
    change (0x10000 / 4) with 0x4000 in *. rewrite (proj2 (Z.ltb_ge (4 * (k * 0x4000 + r)) _)) by lia.
    split_and!; [by right|lia|case_match; zlia|done|].
    change 0x10000 with (2 ^ 16). rewrite land_clear_low by lia. zlia.
Qed.

Lemma block_size_pos q : 0 < block_size q.
Proof. unfold block_size, blocksize_bytes. by case_match. Qed.

Lemma erase_block_spec q n d : flash_busy (d_link d) = 0%nat -> 0 <= q -> 4 * q < FLASH_SIZE_BYTES -> block_aligned q ->
  0 < n <= block_size q ->
  exists d', erase_block uninit (4 * q) n (block_size q) d = Some (Some true, d')
  /\ flash_step d d' (erased (flash_at (d_link d)) q (block_size q)).
Proof.
  intros B Hq Hs Ha Hn. destruct (block_bounds q 0 Hq Hs Ha) as (_ & Hend & _ & _ & _); [lia|].
  unfold erase_block, eraseFlash. destruct (range_guards q n) as (_ & -> & _); try lia.
  destruct (flash_erase_law (d_link d) (mkFlashErase (fe_base EfcFlashEraseCmd_new) (4 * q)) q) as (c' & w & E & B' & M'); try done.
  erewrite run_bind_Some; [|run_step with (on_link_Some _ d _ _ E); done]. cbn [negb].
  destruct (wait_flash_spec 200 EfcFlashGetStatusCmd_new (with_link w d)) as (d2 & E2 & S2); [unfold max_busy in *; cbn [with_link d_link]; lia|].
  assert (waitForFlash ECHO_FLASH_ERASE_TIMEOUT_MILLISECS (with_link w d) = Some (true, d2)) as E2' by exact E2.
  run_step with E2'. cbn [negb]. destruct S2 as (S2 & B2 & M2).
  destruct (readFlash_spec q (Z.to_nat n) (replicate (Z.to_nat (block_size q)) uninit) d2) as (d3 & E3 & S3);
    rewrite ?length_replicate; try done; try lia.
  rewrite Z2Nat.id in E3 by lia. run_step with E3. cbn beta iota. cbn [negb].
  rewrite take_app_length' by (by rewrite length_flash_range).
  assert (forall i, flash_at (d_link d2) i = erased (flash_at (d_link d)) q (block_size q) i) as M2'
    by (intros i; rewrite M2; apply M').
  exists d3. split.
  - replace (forallb _ _) with true; [done|]. symmetry. apply forallb_forall. intros x Hx. apply Z.eqb_eq. apply list_elem_of_In, list_elem_of_fmap in Hx as (i & -> & Hi).
    apply elem_of_seq in Hi. rewrite M2'. unfold erased. case_match; [done|lia].
  - eapply (flash_step_trans d d2 d3); [|exact S3|done]. by split_and!.
Qed.

Lemma erase_blocks_spec fuel : forall q n d, flash_busy (d_link d) = 0%nat -> 0 <= q -> block_aligned q -> 0 < n ->
  n <= Z.of_nat fuel -> 4 * (q + n) <= FLASH_SIZE_BYTES ->
  exists m d', erase_blocks uninit fuel (4 * q) n true 0 d = Some (true, d')
  /\ n <= m < n + 0x4000 /\ block_aligned (q + m) /\ 4 * (q + m) <= FLASH_SIZE_BYTES
  /\ flash_step d d' (erased (flash_at (d_link d)) q m).
Proof.
  induction fuel as [|fuel IH]; intros q n d B Hq Ha Hn Hf Hs; [lia|]. cbn [erase_blocks].
  pose proof (block_size_pos q). destruct (block_bounds q 0) as (Hsize & Hend & Hnext & Hbytes & Hmask); try lia; try done.
  rewrite Z.add_0_r in Hmask, Hbytes. rewrite Hmask. fold (block_size q).
  set (m := if n <? block_size q then n else block_size q).
  destruct (erase_block_spec q m d) as (d1 & E1 & S1); try done; try lia; [subst m; case_match; lia|].
  run_step with E1. cbn [andb]. rewrite Hbytes.
  rewrite (wrapU_small 32) by (unfold FLASH_SIZE_BYTES in *; lia). rewrite (proj2 (Z.ltb_ge 10 0)) by lia.
  destruct (Z.ltb_spec 0 (n - m)) as [Hmore|Hdone].
  - assert (m = block_size q) as Em by (subst m; case_match; lia). rewrite Em in *.
    destruct (IH (q + block_size q) (n - block_size q) d1) as (k & d2 & E2 & K1 & K2 & K3 & S2); try done; try lia.
    { apply S1. }
    exists (block_size q + k), d2. replace (4 * q + 4 * block_size q) with (4 * (q + block_size q)) by lia.
    rewrite E2, Z.add_assoc. split_and!; try done; try lia.
    eapply flash_step_trans; [exact S1|exact S2|]. intros M i. rewrite <- erased_app by lia.
    unfold erased at 1 2. by rewrite M.
  - exists (block_size q), d1. split_and!; try done; subst m; case_match; lia.
Qed.

Lemma eraseFlashBlocks_spec q n d : flash_busy (d_link d) = 0%nat -> 0 <= q -> block_aligned q -> 0 < n ->
  4 * (q + n) <= FLASH_SIZE_BYTES ->
  exists m d', eraseFlashBlocks uninit (4 * q) n d = Some (true, d')
  /\ n <= m < n + 0x4000 /\ block_aligned (q + m) /\ 4 * (q + m) <= FLASH_SIZE_BYTES
  /\ flash_step d d' (erased (flash_at (d_link d)) q m).
Proof. intros. apply erase_blocks_spec; try done. lia. Qed.

(** Updating a range: the blocks from its start on are erased, and the data is stored. *)
Lemma update_spec q data rest d : flash_busy (d_link d) = 0%nat -> 0 <= q -> block_aligned q -> data <> [] ->
  Forall quad_ok data -> 4 * (q + zlength data) <= FLASH_SIZE_BYTES ->
  exists m d1 d2, eraseFlashBlocks uninit (4 * q) (zlength data) d = Some (true, d1)
  /\ writeFlash uninit (4 * q) (zlength data) (data ++ rest) d1 = Some (true, d2)
  /\ zlength data <= m < zlength data + 0x4000 /\ block_aligned (q + m)
  /\ flash_step d d2 (flash_at (d_link d2))
  /\ flash_range (flash_at (d_link d2)) q (length data) = data
  /\ (forall i, i < q \/ q + m <= i -> flash_at (d_link d2) i = flash_at (d_link d) i).
Proof.
  intros B Hq Ha Hne Hd Hs. assert (0 < zlength data) by (destruct data; unfold zlength; simpl; try done; lia).
  destruct (eraseFlashBlocks_spec q (zlength data) d) as (m & d1 & E1 & Hm & Am & _ & S1); try done.
  destruct (writeFlash_spec q data rest d1) as (d2 & E2 & S2); try done; [apply S1|].
  exists m, d1, d2. split_and!; try done; try lia.
  - eapply flash_step_trans; [exact S1|exact S2|]. intros _ i. symmetry. apply S2.
  - apply list_eq. intros i. destruct (decide (i < length data)%nat) as [Hi|Hi].
    + rewrite flash_range_lookup by done. destruct (lookup_lt_is_Some_2 data i Hi) as (v & Hv). rewrite Hv. f_equal.
      destruct S2 as (_ & _ & ->). apply programmed_erased; try done. intros j Hj. destruct S1 as (_ & _ & ->).
      unfold erased. case_match; [done|lia].
    + rewrite !lookup_ge_None_2; rewrite ?length_flash_range; try done; lia.
  - intros i Hi. destruct S2 as (_ & _ & ->), S1 as (_ & _ & M1). rewrite programmed_other, M1 by lia.
    unfold erased. case_match; [lia|done].
Qed.

Lemma erase_one_block q r d : flash_busy (d_link d) = 0%nat -> 0 <= q -> 4 * q < FLASH_SIZE_BYTES -> block_aligned q ->
  0 <= r < block_size q ->
  exists d', eraseFlashBlocks uninit (4 * (q + r)) (block_size q) d = Some (true, d')
  /\ flash_step d d' (erased (flash_at (d_link d)) q (block_size q)).
Proof.
  intros B Hq Hs Ha Hr. destruct (block_bounds q r Hq Hs Ha Hr) as (Hsize & Hend & _ & Hbytes & Hmask).
  unfold eraseFlashBlocks. rewrite (Nat.add_succ_r _ 11). cbn [erase_blocks]. rewrite Hmask, Hbytes.
  replace (4 * block_size q / 4) with (block_size q) by (rewrite Z.mul_comm, Z.div_mul; lia). rewrite Z.ltb_irrefl.
  destruct (erase_block_spec q (block_size q) d) as (d1 & E1 & S1); try done; try lia.
  run_step with E1. cbn [andb]. rewrite Z.sub_diag. by exists d1.
Qed.
End flash.

(** ** A bench device *)

(** A memory that returns at most four quadlets per read and is busy for three polls after an
    erasure; the second erasure of a flaky device fails. *)
Record bench := mkBench { bn_mem : Z -> Z; bn_busy : nat; bn_erases : nat }.

Definition bench_at (w : bench) (i : Z) : Z := u32 (bn_mem w i).

Section bench.
Context (flaky : bool) (chunk : nat).

Definition bench_read (c : EfcFlashReadCmd) : run bench (bool * EfcFlashReadCmd) := fun w =>
  let n := Nat.min chunk (Z.to_nat (frd_nb_quadlets c)) in
  Some ((true, mkFlashRead (frd_base c) (frd_address c) (Z.of_nat n)
                 (flash_range (bench_at w) (frd_address c / 4) n ++ drop n (frd_data c))), w).

Definition bench_write (c : EfcFlashWriteCmd) : run bench (bool * EfcFlashWriteCmd) := fun w =>
  Some ((true, c), mkBench (programmed (bench_at w) (fw_address c / 4) (take (Z.to_nat (fw_nb_quadlets c)) (fw_data c)))
                     (bn_busy w) (bn_erases w)).

Definition bench_erase (c : EfcFlashEraseCmd) : run bench (bool * EfcFlashEraseCmd) := fun w =>
  if flaky && (bn_erases w =? 1)%nat then Some ((false, c), mkBench (bn_mem w) (bn_busy w) 2)
  else Some ((true, c), mkBench (erased (bn_mem w) (fe_address c / 4) (block_size (fe_address c / 4))) 3 (S (bn_erases w))).

Definition bench_status (c : EfcFlashGetStatusCmd) : run bench (bool * EfcFlashGetStatusCmd) := fun w =>
  let h := ef_header (fs_base c) in
  let retval := if (bn_busy w =? 0)%nat then eERV_Ok else eERV_FlashBusy in
  Some ((true, mkFlashStatus (mkEfc (ef_length (fs_base c)) (mkHeader (h_version h) (h_seqnum h) (h_category h) (h_command h) retval)
                  (ef_category_id (fs_base c)) (ef_command_id (fs_base c))) (bn_busy w =? 0)%nat),
        mkBench (bn_mem w) (pred (bn_busy w)) (bn_erases w)).

Definition no_answer {T} (c : T) : run bench (bool * T) := fun w => Some ((false, c), w).

Definition bench_link : EfcLink bench := {|
  do_hwinfo := no_answer;
  do_polled := no_answer;
  do_get_clock := no_answer;
  do_set_clock := no_answer;
  do_flash_lock c := fun w => Some ((true, c), w);
  do_flash_read := bench_read;
  do_flash_write := bench_write;
  do_flash_erase := bench_erase;
  do_flash_status := bench_status;
  do_session_base c := fun w => Some ((true, mkSessionBase (fb_base c) 0x8000), w);
  avc_getSamplingFrequency := fun w => Some (48000, w);
|}.
End bench.

#[export] Instance sound_bench : EfcLink bench := bench_link false 4.

Lemma u32_land x v : u32 (u32 x .& v) = u32 x .& v.
Proof.
  assert (forall y, wrapU 32 y = Z.land y (Z.ones 32)) as E by (intros y; by rewrite land_ones_mod by lia).
  rewrite !E. apply Z.bits_inj. intros i. rewrite !Z.land_spec. by repeat destruct (Z.testbit _ _).
Qed.

#[export, refine] Instance bench_flash : FlashDevice bench := {
  flash_at := bench_at;
  flash_busy := bn_busy;
  session_base := 0x8000;
}.
Proof.
  - intros. apply (wrapU_range 32). lia.
  - intros w c q B A Hq Hn Hs L. exists (frd_base c), (Nat.min 4 (Z.to_nat (frd_nb_quadlets c))). eexists _, w.
    split; [done|]. rewrite A. replace (4 * q / 4) with q by zlia. split_and!; try done; try lia.
    + rewrite length_app, length_flash_range, length_drop. lia.
    + by rewrite take_app_length' by (by rewrite length_flash_range).
  - intros w c q B A Hq Hn Hs L. eexists _, _. split; [done|]. split; [done|]. intros i. unfold bench_at at 1. cbn [bn_mem].
    rewrite A. replace (4 * q / 4) with q by zlia. unfold programmed, bench_at. 
    repeat case_match; rewrite ?u32_land; try done; apply (wrapU_idemp 32).
  - intros w c q B A Hq Hs Ha. eexists _, _. split; [done|]. cbn [bn_busy]. split; [unfold max_busy; lia|]. intros i.
    unfold bench_at at 1. cbn [bn_mem]. rewrite A. replace (4 * q / 4) with q by zlia. unfold erased, block_size, bench_at.
    by case_match.
  - intros w c. eexists _, _, _. split; [done|]. cbn [ef_header h_retval]. split_and!; try done.
    + by destruct (bn_busy w =? 0)%nat.
    + by intros ->.
  - intros. by eexists _, _.
  - intros. by eexists _, _.
Defined.

(** ** Theorems *)

(** C10. On a device whose flash memory works, erasing the blocks of a range that starts at a block
    boundary, writing data of any length to it and reading it back succeeds and returns
    the data, whatever the memory held before, however many quadlets each read returns and
    however long (up to the timeout) the memory stays busy; outside the erased blocks
    nothing changes. *)
Theorem flash_update_reads_back {W} `{FlashDevice W} uninit q data buffer d :
  flash_busy (d_link d) = 0%nat -> 0 <= q -> block_aligned q -> data <> [] -> Forall quad_ok data ->
  4 * (q + zlength data) <= FLASH_SIZE_BYTES -> (length data <= length buffer)%nat ->
  exists m d1 d2 d3,
    eraseFlashBlocks uninit (4 * q) (zlength data) d = Some (true, d1)
    /\ writeFlash uninit (4 * q) (zlength data) data d1 = Some (true, d2)
    /\ readFlash uninit (4 * q) (zlength data) buffer d2 = Some ((true, data ++ drop (length data) buffer), d3)
    /\ zlength data <= m < zlength data + 0x4000 /\ block_aligned (q + m)
    /\ (forall i, i < q \/ q + m <= i -> flash_at (d_link d3) i = flash_at (d_link d) i)
    /\ d3 = with_link (d_link d3) d.
Proof.
  intros B Hq Ha Hne Hd Hs Hb. destruct (update_spec uninit q data [] d) as (m & d1 & d2 & E1 & E2 & Hm & Am & S & R & O); try done. rewrite app_nil_r in E2.
  destruct (readFlash_spec uninit q (length data) buffer d2) as (d3 & E3 & S3); try done; [apply S|destruct data; simpl; [done|lia]|].
  rewrite R in E3. exists m, d1, d2, d3. split_and!; try done; try lia.
  - intros i Hi. destruct S3 as (_ & _ & ->). by apply O.
  - destruct S as (S & _), S3 as (S3 & _). rewrite S3, S. done.
Qed.

Definition bench_device (w : bench) : FwDevice bench :=
  mkDev (EfcHardwareInfoCmd_new 0xAA) (EfcPolledValuesCmd_new 0xAA) (-1) false w.

(** Two program blocks at 0x8000, the first with old data in it. *)
Definition bench_start : FwDevice bench := bench_device (mkBench (fun i => i) 0 0).

Lemma flash_update_reads_back_witness :
  exists m d1 d2 d3,
    eraseFlashBlocks 0xAA (4 * 0x2000) 3 bench_start = Some (true, d1)
    /\ writeFlash 0xAA (4 * 0x2000) 3 [7; 0xDEADBEEF; 9] d1 = Some (true, d2)
    /\ readFlash 0xAA (4 * 0x2000) 3 [0; 0; 0; 1] d2 = Some ((true, [7; 0xDEADBEEF; 9; 1]), d3)
    /\ 3 <= m < 3 + 0x4000 /\ block_aligned (0x2000 + m)
    /\ (forall i, i < 0x2000 \/ 0x2000 + m <= i -> flash_at (d_link d3) i = flash_at (d_link bench_start) i)
    /\ d3 = with_link (d_link d3) bench_start.
Proof.
  refine (flash_update_reads_back 0xAA 0x2000 [7; 0xDEADBEEF; 9] [0; 0; 0; 1] bench_start _ _ _ _ _ _ _); try done.
  - repeat constructor; done.
  - simpl. lia.
Defined.

Section any_device.
Context {W : Type} `{EfcLink W} (uninit : Z).

(** One attempt on the block at [start], as the loop of [eraseFlashBlocks] makes it, with [quads] quadlets to go. *)
Definition block_start (start : Z) : Z := start .& (Z.lxor 0xFFFFFFFF (blocksize_bytes start - 1)).
Definition block_quads_left (start quads : Z) : Z := Z.min quads (blocksize_bytes start / 4).
Definition attempt (start quads : Z) : run (FwDevice W) (option bool) :=
  erase_block uninit (block_start start) (block_quads_left start quads) (blocksize_bytes start / 4).

(** The loop after [k] blocks that were erased at the first attempt: the next address, the quadlets to go, the device. *)
Fixpoint erased_first (k : nat) (start quads : Z) (d : FwDevice W) : option (Z * Z * FwDevice W) :=
  match k with
  | O => Some (start, quads, d)
  | S k =>
      match attempt start quads d with
      | Some (Some true, d) =>
          let left := quads - block_quads_left start quads in
          if 0 <? left then erased_first k (u32 (block_start start + blocksize_bytes start)) left d else None
      | _ => None
      end
  end.

(** At most [k] more attempts on the same block, whatever they report; the loop is left at once where waiting for the
    flash or reading it fails. *)
Fixpoint retried (k : nat) (start quads : Z) (d : FwDevice W) : option (FwDevice W) :=
  match k with
  | O => Some d
  | S k =>
      match attempt start quads d with
      | Some (Some _, d) => retried k start quads d
      | Some (None, d) => Some d
      | None => None
      end
  end.

Lemma blocksize_quads_min start quads :
  (if quads <? blocksize_bytes start / 4 then quads else blocksize_bytes start / 4) = block_quads_left start quads.
Proof. unfold block_quads_left. destruct (Z.ltb_spec quads (blocksize_bytes start / 4)); lia. Qed.

Lemma block_quads_pos start quads : 0 < quads -> 0 < block_quads_left start quads <= quads.
Proof.
  unfold block_quads_left, blocksize_bytes, PROGRAMBLOCK_SIZE_BYTES, MAINBLOCK_SIZE_BYTES.
  destruct (start <? _); [change (0x2000 / 4) with 2048|change (0x10000 / 4) with 16384]; lia.
Qed.

(** The boundary of a block is its own boundary. *)
Lemma block_start_again start : 0 <= start < 2 ^ 32 ->
  0 <= block_start start < 2 ^ 32 /\ blocksize_bytes (block_start start) = blocksize_bytes start
  /\ block_start (block_start start) = block_start start.
Proof.
  intros Hs. unfold block_start, blocksize_bytes, PROGRAMBLOCK_SIZE_BYTES, MAINBLOCK_SIZE_BYTES, MAINBLOCKS_BASE_OFFSET_BYTES.
  destruct (Z.ltb_spec start 0x10000).
  - change 0x2000 with (2 ^ 13). rewrite (land_clear_low start 13) by lia. set (b := start / 2 ^ 13 * 2 ^ 13).
    assert (0 <= b <= start /\ b / 2 ^ 13 * 2 ^ 13 = b) as [? E] by (unfold b; rewrite Z.div_mul by done; split; [zlia|done]).
    rewrite (proj2 (Z.ltb_lt b 0x10000)) by lia. rewrite land_clear_low by lia. rewrite E. split_and!; [lia..|done|done].
  - change (2 ^ 16) with 0x10000. change 0x10000 with (2 ^ 16). rewrite (land_clear_low start 16) by lia. set (b := start / 2 ^ 16 * 2 ^ 16).
    assert (2 ^ 16 <= b <= start /\ b / 2 ^ 16 * 2 ^ 16 = b) as [? E] by (unfold b; rewrite Z.div_mul by done; split; [zlia|done]).
    rewrite (proj2 (Z.ltb_ge b (2 ^ 16))) by lia. rewrite land_clear_low by lia. rewrite E. split_and!; [lia..|done|done].
Qed.

(** An attempt on the boundary of a block is one on the block. *)
Lemma attempt_again start quads : 0 <= start < 2 ^ 32 -> attempt (block_start start) quads = attempt start quads.
Proof. intros Hs. destruct (block_start_again start Hs) as (_ & E1 & E2). unfold attempt, block_quads_left. by rewrite E1, E2. Qed.

Lemma retried_again k start quads d : 0 <= start < 2 ^ 32 -> retried k (block_start start) quads d = retried k start quads d.
Proof.
  intros Hs. revert d. induction k as [|k IH]; intros d; [done|]. cbn [retried]. rewrite attempt_again by done.
  destruct (attempt start quads d) as [[[[]|] ?]|]; auto.
Qed.

(** Once an attempt has failed the loop makes ten more on the same block at most, and returns false. *)
Lemma erase_blocks_retried k : forall fuel start quads tries d d', 0 <= start < 2 ^ 32 -> 0 < quads ->
  Z.of_nat k = 11 - tries -> (k <= fuel)%nat -> 1 <= tries <= 10 -> retried k start quads d = Some d' ->
  erase_blocks uninit fuel start quads false tries d = Some (false, d').
Proof.
  induction k as [|k IH]; intros fuel start quads tries d d' Hs Hq Hk Hf Ht E; [lia|]. destruct fuel as [|fuel]; [lia|].
  cbn [erase_blocks]. rewrite blocksize_quads_min. fold (block_start start). fold (attempt start quads). cbn [retried] in E.
  destruct (attempt start quads d) as [[[e|] d1]|] eqn:Ea; [| |done]; rewrite (run_bind_Some _ _ _ _ _ Ea); [|by injection E as <-].
  cbn [andb]. destruct (Z.ltb_spec 10 (tries + 1)).
  - replace k with 0%nat in E by lia. by injection E as <-.
  - rewrite (proj2 (Z.ltb_lt 0 quads)) by done. destruct (block_start_again start Hs) as (Hs' & _).
    apply IH; try done; try lia. by rewrite retried_again.
Qed.

(** A block that cannot be erased at the first attempt, after [k] blocks that could. *)
Lemma erase_blocks_fails k : forall fuel start quads d s q d0 d1 d', 0 <= start < 2 ^ 32 -> 0 < quads ->
  Z.of_nat fuel >= quads + 11 -> erased_first k start quads d = Some (s, q, d0) -> attempt s q d0 = Some (Some false, d1) ->
  retried 10 s q d1 = Some d' -> erase_blocks uninit fuel start quads true 0 d = Some (false, d').
Proof.
  induction k as [|k IH]; intros fuel start quads d s q d0 d1 d' Hs Hq Hf E Ea Er; (destruct fuel as [|fuel]; [lia|]);
    cbn [erase_blocks]; rewrite blocksize_quads_min; fold (block_start start); fold (attempt start quads); cbn [erased_first] in E.
  - injection E as <- <- <-. rewrite (run_bind_Some _ _ _ _ _ Ea). cbn [andb]. change (10 <? 0 + 1) with false. cbn beta iota.
    rewrite (proj2 (Z.ltb_lt 0 quads)) by done. destruct (block_start_again start Hs) as (Hs' & _).
    apply (erase_blocks_retried 10); try done; try lia. by rewrite retried_again.
  - destruct (attempt start quads d) as [[[[]|] d2]|] eqn:E2; try done. rewrite (run_bind_Some _ _ _ _ _ E2). cbn [andb].
    change (10 <? 0) with false. cbn beta iota. pose proof (block_quads_pos start quads Hq).
    cbv zeta in E. destruct (Z.ltb_spec 0 (quads - block_quads_left start quads)); [|done]. eapply IH; try done; [apply (wrapU_range 32); lia|lia].
Qed.

(** A read that never returns data is reported as a success: [ntries] is -1 after the last
    try, and the code tests it for zero. *)
Lemma read_tries_no_data ntries : forall cmd start quads t (d : FwDevice W),
  (forall c w, exists w', do_flash_read c w = Some ((true, mkFlashRead (frd_base c) (frd_address c) 0 (frd_data c)), w')) ->
  0 < quads -> (tb_pos t <= length (tb_data t))%nat ->
  exists cmd' d', read_tries ntries cmd start quads 0 t d = Some ((true, -1, cmd', t), d').
Proof.
  induction ntries as [|ntries IH]; intros cmd start quads [p l] d Hlink Hq Ht; cbn [read_tries].
  all: match goal with |- context [do_flash_read ?c] => destruct (Hlink c (d_link d)) as (w & E) end.
  all: run_step with (on_link_Some _ d _ _ E); cbn beta iota; cbn [negb frd_nb_quadlets].
  all: change (u32 (0 + 0)) with 0; rewrite (proj2 (Z.ltb_lt 0 quads)) by done.
  all: unfold copy_to_target; cbn [frd_nb_quadlets frd_data]; change (Z.to_nat 0) with 0%nat; rewrite take_0, Nat.add_0_r.
  all: erewrite run_bind_Some; [|erewrite run_bind_Some; [done|]; unfold assert_that;
         rewrite (proj2 (Z.leb_le 0 _)) by apply zlength_nonneg; rewrite (proj2 (Z.leb_le _ _)) by (unfold zlength; lia); done].
  - by eexists _, _.
  - by apply IH.
Qed.

Lemma read_blocks_no_data fuel : forall cmd q n t (d : FwDevice W),
  (forall c w, exists w', do_flash_read c w = Some ((true, mkFlashRead (frd_base c) (frd_address c) 0 (frd_data c)), w')) ->
  0 <= q -> (n <= fuel)%nat -> 4 * (q + Z.of_nat n) <= FLASH_SIZE_BYTES -> (tb_pos t <= length (tb_data t))%nat ->
  exists d', flash_read_blocks fuel cmd (4 * q) (4 * (q + Z.of_nat n)) t d = Some ((true, tb_data t), d').
Proof.
  induction fuel as [|fuel IH]; intros cmd q n t d Hlink Hq Hf Hs Ht; unfold FLASH_SIZE_BYTES in *; cbn [flash_read_blocks].
  all: destruct (Z.ltb_spec (4 * q) (4 * (q + Z.of_nat n))) as [Hlt|Hge]; cbn [negb]; try lia; try by eexists.
  rewrite block_quads_spec by (unfold FLASH_SIZE_BYTES; lia).
  destruct (read_tries_no_data (Z.to_nat 10000) cmd (4 * q) (Z.min 64 (Z.of_nat n)) t d) as (cmd' & d1 & E); try done; [lia|].
  run_step with E. cbn beta iota. cbn [negb]. rewrite (proj2 (Z.eqb_neq (-1) 0)) by done.
  unfold EFC_FLASH_SIZE_BYTES. rewrite (wrapU_small 32) by lia. destruct (decide (n <= 64)%nat) as [Hle|Hgt].
  - exists d1. destruct fuel; cbn [flash_read_blocks]; by rewrite (proj2 (Z.ltb_ge _ _)) by lia.
  - destruct (IH cmd' (q + 64) (n - 64)%nat t d1) as (d2 & E2); try done;
      try (unfold FLASH_SIZE_BYTES; lia).
    exists d2. replace (4 * q + 256) with (4 * (q + 64)) by lia.
    by replace (q + 64 + Z.of_nat (n - 64)) with (q + Z.of_nat n) in E2 by lia.
Qed.
End any_device.

(** C36. The retry of an erasure cannot succeed: when the erasure of a block fails at its first attempt, be it the first
    block of the range or one after [k] blocks that were erased, because the command fails or because
    the block is not blank afterwards, [eraseFlashBlocks] makes at most ten more attempts on that block and returns false,
    even if all of them work, because the variable that records the failure is not set again
    before an attempt. *)
Theorem erase_retry_never_succeeds {W} `{EfcLink W} uninit start n k s q (d d0 d1 d' : FwDevice W) :
  0 <= start < 2 ^ 32 -> 0 < n -> erased_first uninit k start n d = Some (s, q, d0) ->
  attempt uninit s q d0 = Some (Some false, d1) -> retried uninit 10 s q d1 = Some d' ->
  eraseFlashBlocks uninit start n d = Some (false, d').
Proof. intros Hs Hn E Ea Er. unfold eraseFlashBlocks. by eapply (erase_blocks_fails uninit k); [done..|lia|exact E|exact Ea|exact Er]. Qed.

(** Two blocks: the second erasure fails and all others succeed.  Both blocks are erased in the end, but the call fails. *)
Lemma erase_retry_never_succeeds_witness :
  match @eraseFlashBlocks bench (bench_link true 4) 0xAA 0x8000 2049 bench_start with
  | Some (r, d) => r = false /\ bench_at (d_link d) 0x2000 = 0xFFFFFFFF /\ bench_at (d_link d) 0x2800 = 0xFFFFFFFF
  | None => False
  end.
Proof.
  set (L := bench_link true 4).
  assert (('(s, q, d0) ← @erased_first bench L 0xAA 1 0x8000 2049 bench_start;
          '(e, d1) ← @attempt bench L 0xAA s q d0;
          d' ← @retried bench L 0xAA 10 s q d1;
          Some (s, q, e, bench_at (d_link d') 0x2000, bench_at (d_link d') 0x2800))
          = Some (0xA000, 1, Some false, 0xFFFFFFFF, 0xFFFFFFFF)) as A by (vm_compute; reflexivity).
  apply bind_Some in A as ([[s q] d0] & E0 & A). apply bind_Some in A as ([e d1] & E1 & A).
  apply bind_Some in A as (d' & E2 & A). injection A as -> -> -> A1 A2.
  assert (@eraseFlashBlocks bench L 0xAA 0x8000 2049 bench_start = Some (false, d')) as E.
  { exact (@erase_retry_never_succeeds bench L 0xAA 0x8000 2049 1 0xA000 1 bench_start d0 d1 d' ltac:(lia) ltac:(lia) E0 E1 E2). }
  rewrite E. split_and!; [reflexivity|exact A1|exact A2].
Defined.

(** The exhaustion of the tries goes unnoticed: if no read returns any data, [readFlash] returns
    true and leaves the buffer as it was. *)
Lemma readFlash_no_data {W} `{EfcLink W} uninit q n buffer (d : FwDevice W) :
  (forall c w, exists w', do_flash_read c w = Some ((true, mkFlashRead (frd_base c) (frd_address c) 0 (frd_data c)), w')) ->
  0 <= q -> 0 < n -> 4 * (q + n) <= FLASH_SIZE_BYTES -> n <= zlength buffer ->
  exists d', readFlash uninit (4 * q) n buffer d = Some ((true, buffer), d').
Proof.
  intros Hlink Hq Hn Hs Hb. destruct (range_guards q n) as (G1 & G2 & G3); try lia. unfold readFlash. rewrite G1, G2, G3.
  rewrite <- (Z2Nat.id n) in Hs |- * by lia. apply read_blocks_no_data; try done; unfold zlength in *; simpl; lia.
Qed.

(** A range that starts inside a block: the start is moved down to the boundary but the length is
    not, so that data before the range is lost and the end of the range is not erased, and the
    call succeeds. *)
Lemma erase_unaligned {W} `{FlashDevice W} uninit q r d : flash_busy (d_link d) = 0%nat -> 0 <= q ->
  4 * q < FLASH_SIZE_BYTES -> block_aligned q -> 0 < r < block_size q ->
  exists d', eraseFlashBlocks uninit (4 * (q + r)) (block_size q) d = Some (true, d')
  /\ (forall i, q <= i < q + r -> flash_at (d_link d') i = 0xFFFFFFFF)
  /\ (forall i, q + block_size q <= i < q + r + block_size q -> flash_at (d_link d') i = flash_at (d_link d) i).
Proof.
  intros B Hq Hs Ha Hr. destruct (erase_one_block uninit q r d) as (d' & E & _ & _ & M); try done; try lia.
  exists d'. split_and!; [done|..]; intros i Hi; rewrite M; unfold erased; case_match; try done; lia.
Qed.
