(* ===== verification/FireworksSession.v ===== *)
(** * Session blocks of Fireworks devices

    Model of [src/fireworks/fireworks_session_block.cpp]: the settings a device keeps in its flash
    memory, their image in memory, the checksum, and saving and loading on a device and in a file.
    The checksum is shown to be the CRC-32 given bit by bit, and what is saved on a device is shown to
    be what is loaded. *)
From Stdlib Require Import String.
From stdpp Require Import gmap strings.
From S2P Require Import Prelude ByteSwap CmdSerialize Fcp AvcCommands AvcExchange EfcCommands EfcExchange Fireworks FireworksFlash.
#[local] Open Scope Z_scope.

(** ** The structures *)

Record IsoChannelMap := mkChannelMap {
  cm_samplerate : Z;
  cm_flags : Z;
  cm_num_playmap_entries : Z;
  cm_num_phys_out : Z;
  cm_playmap : list Z;
  cm_num_recmap_entries : Z;
  cm_num_phys_in : Z;
  cm_recmap : list Z;
}.

Record SessionHeader := mkSessionHeader {
  size_quads : Z;
  crc : Z;
  version : Z;
  flags : Z;
  mirror_channel : Z;
  digital_mode : Z;
  clock : Z;
  rate : Z;
  monitorgains : list (list Z);
  playbackgains : list Z;
  outputgains : list Z;
  ChannelMap2X : IsoChannelMap;
  ChannelMap4X : IsoChannelMap;
}.

(** [InputSettings], [PlaybackSettings] and [OutputSettings]: two bytes and a label. *)
Record ChannelSettings := mkSettings { cs_first : Z; cs_second : Z; cs_label : list Z }.

Record SubSession := mkSubSession {
  inputs : list ChannelSettings;
  monitorpans : list (list Z);
  monitorflags : list (list Z);
  playbacks : list ChannelSettings;
  outputs : list ChannelSettings;
}.

Record Session := mkSession { ss_h : SessionHeader; ss_s : SubSession }.

Definition ECHO_SESSION_MAX_PHY_AUDIO : nat := 40.
Definition ECHO_SESSION_MAX_LABEL_SIZE : nat := 22.
Definition sizeof_SessionHeader : Z := 4 * (8 + 40 * 40 + 40 + 40 + 2 * 70).
Definition sizeof_SubSession : Z := 40 * 24 + 40 * 40 + 40 * 40 + 40 * 24 + 40 * 24.
Definition session_len : Z := sizeof_SessionHeader + sizeof_SubSession.

(** ** Images in memory *)

(** [n] rows of [k] elements. *)
Fixpoint rows {A} (n k : nat) (l : list A) : list (list A) :=
  match n with
  | O => []
  | S n => take k l :: rows n k (drop k l)
  end.

Definition bytes_of_quads (big_endian : bool) (l : list Z) : list Z := concat (quad_store big_endian <$> l).

Fixpoint quads_of_bytes (big_endian : bool) (l : list Z) : list Z :=
  match l with
  | a :: b :: c :: d :: l => quad_load big_endian [a; b; c; d] :: quads_of_bytes big_endian l
  | _ => []
  end.

Definition channel_map_quads (m : IsoChannelMap) : list Z :=
  [cm_samplerate m; cm_flags m; cm_num_playmap_entries m; cm_num_phys_out m] ++ cm_playmap m
  ++ [cm_num_recmap_entries m; cm_num_phys_in m] ++ cm_recmap m.

Definition channel_map_of (l : list Z) : IsoChannelMap :=
  mkChannelMap (nth 0 l 0) (nth 1 l 0) (nth 2 l 0) (nth 3 l 0) (slice 4 32 l) (nth 36 l 0) (nth 37 l 0) (slice 38 32 l).

Definition header_quads (h : SessionHeader) : list Z :=
  [size_quads h; crc h; version h; flags h; u32 (mirror_channel h); u32 (digital_mode h); u32 (clock h); u32 (rate h)]
  ++ concat (monitorgains h) ++ playbackgains h ++ outputgains h
  ++ channel_map_quads (ChannelMap2X h) ++ channel_map_quads (ChannelMap4X h).

Definition header_of (l : list Z) : SessionHeader :=
  mkSessionHeader (nth 0 l 0) (nth 1 l 0) (nth 2 l 0) (nth 3 l 0)
    (i32 (nth 4 l 0)) (i32 (nth 5 l 0)) (i32 (nth 6 l 0)) (i32 (nth 7 l 0))
    (rows 40 40 (slice 8 1600 l)) (slice 1608 40 l) (slice 1648 40 l)
    (channel_map_of (slice 1688 70 l)) (channel_map_of (slice 1758 70 l)).

Definition settings_bytes (s : ChannelSettings) : list Z := cs_first s :: cs_second s :: cs_label s.
Definition settings_of (l : list Z) : ChannelSettings := mkSettings (nth 0 l 0) (nth 1 l 0) (slice 2 22 l).

Definition sub_bytes (s : SubSession) : list Z :=
  concat (settings_bytes <$> inputs s) ++ concat (monitorpans s) ++ concat (monitorflags s)
  ++ concat (settings_bytes <$> playbacks s) ++ concat (settings_bytes <$> outputs s).

Definition sub_of (l : list Z) : SubSession :=
  mkSubSession (settings_of <$> rows 40 24 (slice 0 960 l)) (rows 40 40 (slice 960 1600 l)) (rows 40 40 (slice 2560 1600 l))
    (settings_of <$> rows 40 24 (slice 4160 960 l)) (settings_of <$> rows 40 24 (slice 5120 960 l)).

(** ** The checksum *)

Definition ECHO_SESSION_CRC_TABLE : list Z :=
  [0x00000000; 0x77073096; 0xEE0E612C; 0x990951BA; 0x076DC419; 0x706AF48F; 0xE963A535; 0x9E6495A3;
   0x0EDB8832; 0x79DCB8A4; 0xE0D5E91E; 0x97D2D988; 0x09B64C2B; 0x7EB17CBD; 0xE7B82D07; 0x90BF1D91;
   0x1DB71064; 0x6AB020F2; 0xF3B97148; 0x84BE41DE; 0x1ADAD47D; 0x6DDDE4EB; 0xF4D4B551; 0x83D385C7;
   0x136C9856; 0x646BA8C0; 0xFD62F97A; 0x8A65C9EC; 0x14015C4F; 0x63066CD9; 0xFA0F3D63; 0x8D080DF5;
   0x3B6E20C8; 0x4C69105E; 0xD56041E4; 0xA2677172; 0x3C03E4D1; 0x4B04D447; 0xD20D85FD; 0xA50AB56B;
   0x35B5A8FA; 0x42B2986C; 0xDBBBC9D6; 0xACBCF940; 0x32D86CE3; 0x45DF5C75; 0xDCD60DCF; 0xABD13D59;
   0x26D930AC; 0x51DE003A; 0xC8D75180; 0xBFD06116; 0x21B4F4B5; 0x56B3C423; 0xCFBA9599; 0xB8BDA50F;
   0x2802B89E; 0x5F058808; 0xC60CD9B2; 0xB10BE924; 0x2F6F7C87; 0x58684C11; 0xC1611DAB; 0xB6662D3D;
   0x76DC4190; 0x01DB7106; 0x98D220BC; 0xEFD5102A; 0x71B18589; 0x06B6B51F; 0x9FBFE4A5; 0xE8B8D433;
   0x7807C9A2; 0x0F00F934; 0x9609A88E; 0xE10E9818; 0x7F6A0DBB; 0x086D3D2D; 0x91646C97; 0xE6635C01;
   0x6B6B51F4; 0x1C6C6162; 0x856530D8; 0xF262004E; 0x6C0695ED; 0x1B01A57B; 0x8208F4C1; 0xF50FC457;
   0x65B0D9C6; 0x12B7E950; 0x8BBEB8EA; 0xFCB9887C; 0x62DD1DDF; 0x15DA2D49; 0x8CD37CF3; 0xFBD44C65;
   0x4DB26158; 0x3AB551CE; 0xA3BC0074; 0xD4BB30E2; 0x4ADFA541; 0x3DD895D7; 0xA4D1C46D; 0xD3D6F4FB;
   0x4369E96A; 0x346ED9FC; 0xAD678846; 0xDA60B8D0; 0x44042D73; 0x33031DE5; 0xAA0A4C5F; 0xDD0D7CC9;
   0x5005713C; 0x270241AA; 0xBE0B1010; 0xC90C2086; 0x5768B525; 0x206F85B3; 0xB966D409; 0xCE61E49F;
   0x5EDEF90E; 0x29D9C998; 0xB0D09822; 0xC7D7A8B4; 0x59B33D17; 0x2EB40D81; 0xB7BD5C3B; 0xC0BA6CAD;
   0xEDB88320; 0x9ABFB3B6; 0x03B6E20C; 0x74B1D29A; 0xEAD54739; 0x9DD277AF; 0x04DB2615; 0x73DC1683;
   0xE3630B12; 0x94643B84; 0x0D6D6A3E; 0x7A6A5AA8; 0xE40ECF0B; 0x9309FF9D; 0x0A00AE27; 0x7D079EB1;
   0xF00F9344; 0x8708A3D2; 0x1E01F268; 0x6906C2FE; 0xF762575D; 0x806567CB; 0x196C3671; 0x6E6B06E7;
   0xFED41B76; 0x89D32BE0; 0x10DA7A5A; 0x67DD4ACC; 0xF9B9DF6F; 0x8EBEEFF9; 0x17B7BE43; 0x60B08ED5;
   0xD6D6A3E8; 0xA1D1937E; 0x38D8C2C4; 0x4FDFF252; 0xD1BB67F1; 0xA6BC5767; 0x3FB506DD; 0x48B2364B;
   0xD80D2BDA; 0xAF0A1B4C; 0x36034AF6; 0x41047A60; 0xDF60EFC3; 0xA867DF55; 0x316E8EEF; 0x4669BE79;
   0xCB61B38C; 0xBC66831A; 0x256FD2A0; 0x5268E236; 0xCC0C7795; 0xBB0B4703; 0x220216B9; 0x5505262F;
   0xC5BA3BBE; 0xB2BD0B28; 0x2BB45A92; 0x5CB36A04; 0xC2D7FFA7; 0xB5D0CF31; 0x2CD99E8B; 0x5BDEAE1D;
   0x9B64C2B0; 0xEC63F226; 0x756AA39C; 0x026D930A; 0x9C0906A9; 0xEB0E363F; 0x72076785; 0x05005713;
   0x95BF4A82; 0xE2B87A14; 0x7BB12BAE; 0x0CB61B38; 0x92D28E9B; 0xE5D5BE0D; 0x7CDCEFB7; 0x0BDBDF21;
   0x86D3D2D4; 0xF1D4E242; 0x68DDB3F8; 0x1FDA836E; 0x81BE16CD; 0xF6B9265B; 0x6FB077E1; 0x18B74777;
   0x88085AE6; 0xFF0F6A70; 0x66063BCA; 0x11010B5C; 0x8F659EFF; 0xF862AE69; 0x616BFFD3; 0x166CCF45;
   0xA00AE278; 0xD70DD2EE; 0x4E048354; 0x3903B3C2; 0xA7672661; 0xD06016F7; 0x4969474D; 0x3E6E77DB;
   0xAED16A4A; 0xD9D65ADC; 0x40DF0B66; 0x37D83BF0; 0xA9BCAE53; 0xDEBB9EC5; 0x47B2CF7F; 0x30B5FFE9;
   0xBDBDF21C; 0xCABAC28A; 0x53B39330; 0x24B4A3A6; 0xBAD03605; 0xCDD70693; 0x54DE5729; 0x23D967BF;
   0xB3667A2E; 0xC4614AB8; 0x5D681B02; 0x2A6F2B94; 0xB40BBE37; 0xC30C8EA1; 0x5A05DF1B; 0x2D02EF8D].
Definition ECHO_SESSION_CRC_START_OFFSET_BYTES : nat := 8.
Definition ECHO_SESSION_CRC_INITIAL_REMAINDER : Z := 0xFFFFFFFF.
Definition ECHO_SESSION_CRC_FINAL_XOR_VALUE : Z := 0xFFFFFFFF.

(** The body of both loops. *)
Definition crc_step (remainder b : Z) : Z :=
  Z.lxor (nth (Z.to_nat (Z.lxor remainder b .& 0xFF)) ECHO_SESSION_CRC_TABLE 0) (remainder >> 8).

(** [None] where a loop reads past the end of the block. *)
Fixpoint crc_bytes (bytecount : nat) (data : list Z) (remainder : Z) : option Z :=
  match bytecount, data with
  | O, _ => Some remainder
  | S _, [] => None
  | S bytecount, b :: data => crc_bytes bytecount data (crc_step remainder b)
  end.

(** The loop of a big-endian host over [n] quadlets, last byte of each first; it returns the rest. *)
Fixpoint crc_quads (n : nat) (remainder : Z) (data : list Z) : option (list Z * Z) :=
  match n, data with
  | O, _ => Some (data, remainder)
  | S n, b0 :: b1 :: b2 :: b3 :: data =>
      crc_quads n (crc_step (crc_step (crc_step (crc_step remainder b3) b2) b1) b0) data
  | S _, _ => None
  end.

Section session.
Context (big_endian : bool).

Definition header_bytes (h : SessionHeader) : list Z := bytes_of_quads big_endian (header_quads h).

(** [calculateCRC(memblock, max_len)]. *)
Definition calculateCRC_block (memblock : list Z) : option Z :=
  if zlength memblock <? session_len then Some 0 else
  let data := drop ECHO_SESSION_CRC_START_OFFSET_BYTES memblock in
  let bytecount := session_len - 8 in
  '(data, remainder) ←
    (if big_endian then crc_quads (Z.to_nat ((bytecount - sizeof_SubSession) / 4)) ECHO_SESSION_CRC_INITIAL_REMAINDER data
     else Some (data, ECHO_SESSION_CRC_INITIAL_REMAINDER));
  remainder ← crc_bytes (Z.to_nat bytecount) data remainder;
  Some (Z.lxor remainder ECHO_SESSION_CRC_FINAL_XOR_VALUE).

Definition calculateCRC (s : Session) : option Z := calculateCRC_block (header_bytes (ss_h s) ++ sub_bytes (ss_s s)).

(** ** Memory *)

(** The loop of a big-endian host over the quadlets of a [SubSession]. *)
Definition swap_sub (l : list Z) : list Z :=
  if big_endian then bytes_of_quads big_endian (ByteSwap32 <$> quads_of_bytes big_endian l) else l.

Definition loadFromMemory (buff : list Z) (s : Session) : bool * Session :=
  if negb (zlength buff =? session_len) then (false, s) else
  (true, mkSession (header_of (quads_of_bytes big_endian (slice 0 sizeof_SessionHeader buff)))
                   (sub_of (swap_sub (slice sizeof_SessionHeader sizeof_SubSession buff)))).

Definition saveToMemory (buff : list Z) (s : Session) : bool * list Z :=
  if zlength buff <? session_len then (false, buff) else
  (true, header_bytes (ss_h s) ++ swap_sub (sub_bytes (ss_s s)) ++ drop (Z.to_nat session_len) buff).

(** ** Devices *)

Section device.
Context {W : Type} `{EfcLink W} (uninit : Z).
Abbreviation M := (run (FwDevice W)).

Definition loadFromDevice (s : Session) : M (bool * Session) :=
  start ← getSessionBase;
  if start =? 0 then mret (false, s) else
  '(ok, data) ← readFlash uninit start (session_len / 4) (replicate (Z.to_nat (session_len / 4)) uninit);
  if negb ok then mret (false, s) else
  mret (loadFromMemory (bytes_of_quads big_endian data) s).

Definition set_crc (c : Z) (h : SessionHeader) : SessionHeader :=
  mkSessionHeader (size_quads h) c (version h) (flags h) (mirror_channel h) (digital_mode h) (clock h) (rate h)
    (monitorgains h) (playbackgains h) (outputgains h) (ChannelMap2X h) (ChannelMap4X h).

Definition saveToDevice (s : Session) : M (bool * Session) :=
  start ← getSessionBase;
  if start =? 0 then mret (false, s) else
  match calculateCRC s with
  | None => fun _ => None
  | Some c =>
      let s := mkSession (set_crc c (ss_h s)) (ss_s s) in
      let '(ok, data) := saveToMemory (replicate (Z.to_nat session_len) (u8 uninit)) s in
      if negb ok then mret (false, s) else
      ok ← lockFlash true;
      if negb ok then mret (false, s) else
      ok ← eraseFlashBlocks uninit start (session_len / 4);
      if negb ok then mret (false, s) else
      ok ← writeFlash uninit start (session_len / 4) (quads_of_bytes big_endian data);
      if negb ok then mret (false, s) else
      ok ← lockFlash false;
      mret (ok, s)
  end.
End device.

(** ** Files *)

Definition ECHO_SESSION_FILE_START_OFFSET : Z := 0x0040.

(** The files that can be opened for reading are those of [fs]; an array of negative size is
    undefined. *)
Definition loadFromFile (fs : gmap string (list Z)) (filename : string) (s : Session) : option (bool * Session) :=
  match fs !! filename with
  | None => Some (false, s)
  | Some contents =>
      let size := zlength contents - ECHO_SESSION_FILE_START_OFFSET in
      if size <? 0 then None else
      let data := slice ECHO_SESSION_FILE_START_OFFSET size contents in
      if zlength data <? size then Some (false, s) else Some (loadFromMemory data s)
  end.

(** [header] is what the array that is not set holds. *)
Definition saveToFile (can_open : string -> bool) (header : list Z) (uninit : Z) (fs : gmap string (list Z))
  (filename : string) (s : Session) : bool * gmap string (list Z) :=
  if negb (can_open filename) then (false, fs) else
  match saveToMemory (replicate (Z.to_nat session_len) (u8 uninit)) s with
  | (false, _) => (false, <[filename := header]> fs)
  | (true, data) => (true, <[filename := header ++ data]> fs)
  end.
End session.

(** ** The checksum is CRC-32 *)

(** The reference: one bit of the reflected CRC-32 with the polynomial 0x04C11DB7. *)
Definition crc_bit (x : Z) : Z := if Z.odd x then Z.lxor (x >> 1) 0xEDB88320 else x >> 1.
Definition crc_byte (remainder b : Z) : Z := Nat.iter 8 crc_bit (Z.lxor remainder b).
Definition crc32 (l : list Z) : Z := Z.lxor (fold_left crc_byte l 0xFFFFFFFF) 0xFFFFFFFF.

Lemma crc_bit_lxor x y : crc_bit (Z.lxor x y) = Z.lxor (crc_bit x) (crc_bit y).
Proof.
  unfold crc_bit. rewrite <- !Z.bit0_odd, Z.lxor_spec, Z.shiftr_lxor.
  destruct (Z.testbit x 0), (Z.testbit y 0); cbn [xorb]; apply Z.bits_inj; intros i; rewrite ?Z.lxor_spec;
    by repeat destruct (Z.testbit _ i).
Qed.

Lemma crc_bits_lxor n x y : Nat.iter n crc_bit (Z.lxor x y) = Z.lxor (Nat.iter n crc_bit x) (Nat.iter n crc_bit y).
Proof. induction n as [|n IH]; [done|]. rewrite !Nat.iter_succ, IH. apply crc_bit_lxor. Qed.

Lemma crc_bits_shift n z : Nat.iter n crc_bit (z << Z.of_nat n) = z.
Proof.
  revert z. induction n as [|n IH]; intros z; [apply Z.shiftl_0_r|].
  rewrite Nat.iter_succ_r. unfold crc_bit at 2. rewrite Z.shiftl_mul_pow2 by lia.
  replace (Z.of_nat (S n)) with (Z.succ (Z.of_nat n)) by lia. rewrite Z.pow_succ_r by lia.
  replace (z * (2 * 2 ^ Z.of_nat n)) with (2 * (z * 2 ^ Z.of_nat n)) by lia. rewrite Z.odd_mul. cbn [Z.odd andb].
  rewrite Z.shiftr_div_pow2, Z.mul_comm, Z.div_mul by lia. rewrite <- Z.shiftl_mul_pow2 by lia. apply IH.
Qed.

Lemma crc_table_bits : ECHO_SESSION_CRC_TABLE = Nat.iter 8 crc_bit <$> (Z.of_nat <$> seq 0 256).
Proof. vm_compute. reflexivity. Qed.

Lemma crc_step_bits r b : 0 <= r -> byte_ok b -> crc_step r b = crc_byte r b.
Proof.
  intros Hr Hb. unfold crc_step, crc_byte. set (x := Z.lxor r b).
  assert (0 <= x) by (unfold x, byte_ok in *; apply Z.lxor_nonneg; lia).
  assert (x .& 0xFF = x mod 2 ^ 8) as El by (change 0xFF with (2 ^ 8 - 1); apply land_mask_mod; lia).
  pose proof (Z.mod_pos_bound x (2 ^ 8) ltac:(lia)).
  assert (x = Z.lxor (x .& 0xFF) ((r >> 8) << 8)) as Ex.
  { apply Z.bits_inj'. intros i Hi. unfold x. change 0xFF with (Z.ones 8).
    rewrite !Z.lxor_spec, Z.land_spec, Z.lxor_spec, Z.testbit_ones_nonneg, Z.shiftl_spec by lia.
    destruct (Z.ltb_spec i 8).
    - rewrite (Z.testbit_neg_r _ (i - 8)) by lia. by rewrite andb_true_r, xorb_false_r.
    - rewrite Z.shiftr_spec by lia. replace (i - 8 + 8) with i by lia. rewrite andb_false_r, xorb_false_l.
      destruct (decide (b = 0)) as [->|]; [by rewrite Z.bits_0, xorb_false_r|].
      rewrite (Z.bits_above_log2 b i); [apply xorb_false_r|unfold byte_ok in *; lia|].
      assert (Z.log2 b < 8) by (apply Z.log2_lt_pow2; unfold byte_ok in *; lia). lia. }
  rewrite Ex at 2. rewrite crc_bits_lxor. f_equal; [|symmetry; apply (crc_bits_shift 8)].
  rewrite El. rewrite crc_table_bits. apply nth_lookup_Some with (d := 0).
  rewrite list_lookup_fmap, list_lookup_fmap, lookup_seq_lt by lia. cbn [fmap option_fmap option_map].
  by rewrite Nat.add_0_l, Z2Nat.id by lia.
Qed.

Lemma crc_bit_range x : 0 <= x < 2 ^ 32 -> 0 <= crc_bit x < 2 ^ 32.
Proof.
  intros Hx. unfold crc_bit. assert (0 <= x >> 1 < 2 ^ 32) by (rewrite Z.shiftr_div_pow2 by lia; zlia).
  destruct (Z.odd x); [|done].
  assert (0 <= Z.lxor (x >> 1) 0xEDB88320) by (apply Z.lxor_nonneg; lia). split; [done|].
  destruct (decide (Z.lxor (x >> 1) 0xEDB88320 = 0)) as [->|]; [done|].
  apply Z.log2_lt_pow2; [lia|]. eapply Z.le_lt_trans; [apply Z.log2_lxor; lia|].
  apply Z.max_lub_lt; [|done]. destruct (decide (x >> 1 = 0)) as [->|]; [done|]. apply Z.log2_lt_pow2; lia.
Qed.

Lemma crc_bit_nonzero x : 0 <= x < 2 ^ 32 -> x <> 0 -> crc_bit x <> 0.
Proof.
  intros Hx Hn. unfold crc_bit. pose proof (Z.shiftr_div_pow2 x 1 ltac:(lia)) as E. destruct (Z.odd x) eqn:O.
  - intros C. apply Z.lxor_eq in C. zlia.
  - rewrite E. pose proof (Zmod_odd x) as Em. rewrite O in Em. zlia.
Qed.

Lemma crc_bits_keep n x : 0 <= x < 2 ^ 32 ->
  0 <= Nat.iter n crc_bit x < 2 ^ 32 /\ (x <> 0 -> Nat.iter n crc_bit x <> 0).
Proof.
  intros Hx. induction n as [|n (IH1 & IH2)]; [done|]. rewrite Nat.iter_succ.
  split; [by apply crc_bit_range|]. intros Hn. apply crc_bit_nonzero; [done|by apply IH2].
Qed.

Lemma crc_byte_range r b : quad_ok r -> byte_ok b -> quad_ok (crc_byte r b).
Proof.
  unfold quad_ok, byte_ok, crc_byte. intros Hr Hb. apply crc_bits_keep.
  assert (0 <= Z.lxor r b) by (apply Z.lxor_nonneg; lia). split; [done|].
  destruct (decide (Z.lxor r b = 0)) as [->|]; [done|]. apply Z.log2_lt_pow2; [lia|].
  eapply Z.le_lt_trans; [apply Z.log2_lxor; lia|]. apply Z.max_lub_lt.
  - destruct (decide (r = 0)) as [->|]; [done|]. apply Z.log2_lt_pow2; lia.
  - destruct (decide (b = 0)) as [->|]; [done|]. apply Z.log2_lt_pow2; lia.
Qed.

Lemma crc_bytes_fold l : forall rest r, quad_ok r -> Forall byte_ok l ->
  crc_bytes (length l) (l ++ rest) r = Some (fold_left crc_byte l r).
Proof.
  induction l as [|b l IH]; intros rest r Hr Hl; [by destruct rest|]. inversion Hl as [|? ? Hb Hl']; subst.
  cbn [length crc_bytes app fold_left]. rewrite crc_step_bits by (unfold quad_ok in *; try done; lia).
  apply IH; [by apply crc_byte_range|done].
Qed.

Lemma crc_bytes_short n : forall data r, (length data < n)%nat -> crc_bytes n data r = None.
Proof.
  induction n as [|n IH]; intros [|b data] r Hn; simpl in Hn; try lia; [done|]. cbn [crc_bytes]. apply IH. lia.
Qed.

Lemma crc_quads_drop n : forall r data, (4 * n <= length data)%nat -> exists r', crc_quads n r data = Some (drop (4 * n) data, r').
Proof.
  induction n as [|n IH]; intros r data Hn; [by exists r; destruct data|].
  destruct data as [|b0 [|b1 [|b2 [|b3 data]]]]; simpl in Hn; try lia.
  destruct (IH (crc_step (crc_step (crc_step (crc_step r b3) b2) b1) b0) data) as (r' & E); [lia|]. exists r'.
  replace (4 * S n)%nat with (S (S (S (S (4 * n))))) by lia. cbn [drop]. exact E.
Qed.

(** What the checksum covers: the block without its first two quadlets. *)
Definition crc_part (block : list Z) : list Z := slice 8 (session_len - 8) block.

Lemma crc_block_le block : Forall byte_ok block -> session_len <= zlength block ->
  calculateCRC_block false block = Some (crc32 (crc_part block)).
Proof.
  intros Hb Hl. unfold calculateCRC_block. rewrite (proj2 (Z.ltb_ge _ _)) by done. cbn [mbind option_bind].
  change (drop ECHO_SESSION_CRC_START_OFFSET_BYTES block) with (drop (Z.to_nat 8) block).
  rewrite <- (take_drop (Z.to_nat (session_len - 8)) (drop (Z.to_nat 8) block)). fold (slice 8 (session_len - 8) block).
  fold (crc_part block).
  assert (Z.to_nat (session_len - 8) = length (crc_part block)) as ->.
  { apply Nat2Z.inj. change (Z.of_nat (length (crc_part block))) with (zlength (crc_part block)).
    unfold crc_part. rewrite zlength_slice by (unfold session_len, sizeof_SessionHeader, sizeof_SubSession in *; lia).
    by rewrite Z2Nat.id. }
  rewrite crc_bytes_fold; [done|split; done|]. unfold crc_part, slice. by apply Forall_take, Forall_drop.
Qed.

(** On a big-endian host the second loop covers the whole block again after the first has moved past
    the header, and reads past the end of the block. *)
Lemma calculateCRC_big_endian block : zlength block = session_len -> calculateCRC_block true block = None.
Proof.
  intros Hl. unfold calculateCRC_block. rewrite Hl, Z.ltb_irrefl. unfold zlength in Hl.
  edestruct (crc_quads_drop (Z.to_nat ((session_len - 8 - sizeof_SubSession) / 4)) ECHO_SESSION_CRC_INITIAL_REMAINDER (drop ECHO_SESSION_CRC_START_OFFSET_BYTES block))
    as (r & ->).
  - change ((session_len - 8 - sizeof_SubSession) / 4) with 1826. rewrite length_drop.
    change session_len with 13392 in Hl. unfold ECHO_SESSION_CRC_START_OFFSET_BYTES. lia.
  - cbn [mbind option_bind]. rewrite crc_bytes_short; [done|].
    change ((session_len - 8 - sizeof_SubSession) / 4) with 1826. rewrite !length_drop.
    change (session_len - 8) with 13384. change session_len with 13392 in Hl. unfold ECHO_SESSION_CRC_START_OFFSET_BYTES. lia.
Qed.

(** ** Burst errors *)

Fixpoint le_word (l : list Z) : Z :=
  match l with
  | [] => 0
  | b :: l => Z.lxor b (le_word l << 8)
  end.

Lemma fold_crc_word l : forall r, fold_left crc_byte l r = Nat.iter (8 * length l) crc_bit (Z.lxor r (le_word l)).
Proof.
  induction l as [|b l IH]; intros r; cbn [fold_left le_word length]; [by rewrite Z.lxor_0_r|].
  rewrite IH. unfold crc_byte. rewrite <- (crc_bits_shift 8 (le_word l)) at 1. rewrite <- crc_bits_lxor, <- Nat.iter_add.
  rewrite Z.lxor_assoc. f_equal. lia.
Qed.

Lemma le_word_range l : Forall byte_ok l -> 0 <= le_word l < 2 ^ (8 * zlength l).
Proof.
  induction 1 as [|b l Hb Hl IH]; [done|]. cbn [le_word]. unfold byte_ok in Hb.
  assert (Z.lxor b (le_word l << 8) = (le_word l << 8) .| b) as ->.
  { rewrite Z.lor_comm. apply Z.bits_inj'. intros i Hi.
    rewrite Z.lxor_spec, Z.lor_spec. destruct (Z.ltb_spec i 8).
    - rewrite Z.shiftl_spec_low by done. by rewrite orb_false_r, xorb_false_r.
    - assert (Z.testbit b i = false) as ->; [|done]. destruct (decide (b = 0)) as [->|]; [apply Z.bits_0|].
      apply Z.bits_above_log2; [lia|]. assert (Z.log2 b < 8) by (apply Z.log2_lt_pow2; lia). lia. }
  rewrite lor_shiftl_add by lia. change (zlength (b :: l)) with (Z.of_nat (S (length l))).
  replace (8 * Z.of_nat (S (length l))) with (8 + 8 * zlength l) by (unfold zlength; lia).
  rewrite Z.pow_add_r by (pose proof (zlength_nonneg l); lia). nia.
Qed.

Lemma le_word_inj l : forall l', length l = length l' -> Forall byte_ok l -> Forall byte_ok l' -> le_word l = le_word l' -> l = l'.
Proof.
  induction l as [|b l IH]; intros [|b' l'] Hlen Hl Hl' E; try done. inversion Hl as [|? ? Hb Hl1]; inversion Hl' as [|? ? Hb' Hl1']; subst.
  cbn [le_word] in E. simpl in Hlen. unfold byte_ok in *.
  assert (forall c w, 0 <= c < 2 ^ 8 -> Z.lxor c (w << 8) >> 8 = w /\ Z.lxor c (w << 8) mod 2 ^ 8 = c) as Hs.
  { intros c w Hc. rewrite Z.shiftr_lxor, Z.shiftr_shiftl_l, Z.shiftl_0_r by lia. split.
    - rewrite Z.shiftr_div_pow2, Z.div_small by lia. by rewrite Z.lxor_0_l.
    - rewrite <- Z.land_ones by lia. apply Z.bits_inj'. intros i Hi. rewrite Z.land_spec, Z.lxor_spec, Z.testbit_ones_nonneg by lia.
      destruct (Z.ltb_spec i 8).
      + rewrite Z.shiftl_spec_low by done. by rewrite xorb_false_r, andb_true_r.
      + rewrite andb_false_r. symmetry. destruct (decide (c = 0)) as [->|]; [apply Z.bits_0|].
        apply Z.bits_above_log2; [lia|]. assert (Z.log2 c < 8) by (apply Z.log2_lt_pow2; lia). lia. }
  destruct (Hs b (le_word l) Hb) as (E1 & E2), (Hs b' (le_word l') Hb') as (E1' & E2').
  f_equal; [congruence|]. apply IH; try done; try lia. congruence.
Qed.

Lemma crc_burst p m m' t r : (length m <= 4)%nat -> length m = length m' -> Forall byte_ok m -> Forall byte_ok m' ->
  m <> m' -> fold_left crc_byte (p ++ m ++ t) r <> fold_left crc_byte (p ++ m' ++ t) r.
Proof.
  intros L4 L Hm Hm' Hn E. rewrite !fold_left_app in E. set (q := fold_left crc_byte p r) in *.
  rewrite (fold_crc_word t), (fold_crc_word t), (fold_crc_word m), (fold_crc_word m'), <- L in E.
  set (d := Z.lxor (le_word m) (le_word m')).
  pose proof (le_word_range m Hm) as Rm. pose proof (le_word_range m' Hm') as Rm'. unfold zlength in Rm, Rm'. rewrite <- L in Rm'.
  assert (2 ^ (8 * Z.of_nat (length m)) <= 2 ^ 32) by (apply Z.pow_le_mono_r; lia).
  assert (d <> 0) as Hd by (intros C; apply Hn, le_word_inj; try done; by apply Z.lxor_eq).
  assert (0 <= d < 2 ^ 32) as Rd.
  { assert (0 <= d) by (apply Z.lxor_nonneg; lia). split; [done|]. apply Z.log2_lt_pow2; [lia|].
    eapply Z.le_lt_trans; [apply Z.log2_lxor; lia|].
    apply Z.max_lub_lt; match goal with |- Z.log2 ?x < _ => destruct (decide (x = 0)) as [->|]; [done|apply Z.log2_lt_pow2; lia] end. }
  destruct (crc_bits_keep (8 * length m) d Rd) as (R1 & N1). destruct (crc_bits_keep (8 * length t) _ R1) as (_ & N2).
  apply (N2 (N1 Hd)). apply (f_equal (Z.lxor (Nat.iter (8 * length t) crc_bit (Z.lxor (Nat.iter (8 * length m) crc_bit (Z.lxor q (le_word m))) (le_word t))))) in E.
  rewrite Z.lxor_nilpotent, <- crc_bits_lxor in E. rewrite E. f_equal.
  unfold d. rewrite !crc_bits_lxor. apply Z.bits_inj. intros i. rewrite !Z.lxor_spec. by repeat destruct (Z.testbit _ i).
Qed.

(** ** Round trips *)

Definition channel_map_ok (m : IsoChannelMap) : Prop := length (cm_playmap m) = 32%nat /\ length (cm_recmap m) = 32%nat.

Definition int_ok (x : Z) : Prop := - 2 ^ 31 <= x < 2 ^ 31.

(** The arrays have their sizes and the members fit their types. *)
Definition header_wf (h : SessionHeader) : Prop :=
  length (monitorgains h) = 40%nat /\ Forall (fun r => length r = 40%nat) (monitorgains h)
  /\ length (playbackgains h) = 40%nat /\ length (outputgains h) = 40%nat
  /\ channel_map_ok (ChannelMap2X h) /\ channel_map_ok (ChannelMap4X h)
  /\ Forall quad_ok (header_quads h)
  /\ int_ok (mirror_channel h) /\ int_ok (digital_mode h) /\ int_ok (clock h) /\ int_ok (rate h).

Definition settings_wf (l : list ChannelSettings) : Prop :=
  length l = 40%nat /\ Forall (fun s => length (cs_label s) = 22%nat) l.

Definition sub_wf (s : SubSession) : Prop :=
  settings_wf (inputs s)
  /\ length (monitorpans s) = 40%nat /\ Forall (fun r => length r = 40%nat) (monitorpans s)
  /\ length (monitorflags s) = 40%nat /\ Forall (fun r => length r = 40%nat) (monitorflags s)
  /\ settings_wf (playbacks s) /\ settings_wf (outputs s)
  /\ Forall byte_ok (sub_bytes s).

Definition Session_wf (s : Session) : Prop := header_wf (ss_h s) /\ sub_wf (ss_s s).

Lemma slice_app_mid {A} (p n : Z) (a b c : list A) : zlength a = p -> zlength b = n -> slice p n (a ++ b ++ c) = b.
Proof.
  unfold slice, zlength. intros <- <-. rewrite !Nat2Z.id. rewrite drop_app_length. apply take_app_length.
Qed.

Lemma slice_app_end {A} (p n : Z) (a b : list A) : zlength a = p -> zlength b = n -> slice p n (a ++ b) = b.
Proof. intros. rewrite <- (app_nil_r b) at 1. by apply slice_app_mid. Qed.

Lemma rows_concat {A} (k : nat) (l : list (list A)) : Forall (fun r => length r = k) l -> rows (length l) k (concat l) = l.
Proof.
  induction 1 as [|r l Hr Hl IH]; [done|]. cbn [length rows concat]. rewrite <- Hr at 1 3.
  by rewrite take_app_length, drop_app_length, IH.
Qed.

Lemma zlength_concat {A} (k : nat) (l : list (list A)) : Forall (fun r => length r = k) l ->
  zlength (concat l) = Z.of_nat k * zlength l.
Proof.
  induction 1 as [|r l Hr Hl IH]; [unfold zlength; simpl; lia|]. cbn [concat]. rewrite zlength_app, IH.
  unfold zlength. simpl. lia.
Qed.

Lemma settings_rows l : settings_wf l ->
  settings_of <$> rows 40 24 (concat (settings_bytes <$> l)) = l /\ zlength (concat (settings_bytes <$> l)) = 960.
Proof.
  intros (L & F). assert (Forall (fun r => length r = 24%nat) (settings_bytes <$> l)) as F'.
  { apply Forall_fmap. revert F. apply Forall_impl. intros s Hs. simpl. lia. }
  split.
  - pose proof (rows_concat 24 _ F') as E. rewrite length_fmap, L in E. rewrite E, <- list_fmap_compose.
    rewrite <- (list_fmap_id l) at 2. apply list_fmap_ext. intros i [a b label] Hi. unfold settings_of. simpl.
    f_equal. unfold slice. simpl. apply take_ge. by rewrite (Forall_lookup_1 _ _ _ _ F Hi : length label = 22%nat).
  - rewrite (zlength_concat 24) by done. unfold zlength. by rewrite length_fmap, L.
Qed.

Lemma channel_map_roundtrip m : channel_map_ok m ->
  channel_map_of (channel_map_quads m) = m /\ zlength (channel_map_quads m) = 70.
Proof.
  destruct m as [a b c d play e f rec]. intros (Hp & Hr). cbn [cm_playmap cm_recmap] in *.
  unfold channel_map_of, channel_map_quads. cbn [cm_samplerate cm_flags cm_num_playmap_entries cm_num_phys_out cm_playmap
    cm_num_recmap_entries cm_num_phys_in cm_recmap]. split.
  - f_equal; try done.
    + by apply slice_app_mid; unfold zlength; rewrite ?Hp.
    + cbn [app nth]. by rewrite app_nth2, Hp by lia.
    + cbn [app nth]. by rewrite app_nth2, Hp by lia.
    + rewrite (app_assoc _ play), (app_assoc _ [e; f]). apply slice_app_end; unfold zlength; rewrite ?length_app, ?Hp, ?Hr; done.
  - unfold zlength. rewrite !length_app, Hp, Hr. done.
Qed.

Lemma header_roundtrip h : header_wf h -> header_of (header_quads h) = h /\ zlength (header_quads h) = 1828.
Proof.
  intros (G1 & G2 & P & O & C2 & C4 & _ & I1 & I2 & I3 & I4).
  destruct (channel_map_roundtrip _ C2) as (E2 & L2), (channel_map_roundtrip _ C4) as (E4 & L4).
  pose proof (zlength_concat 40 _ G2) as LG. unfold zlength at 2 in LG. rewrite G1 in LG.
  destruct h as [a b c d e f g i gains play out m2 m4].
  cbn [monitorgains playbackgains outputgains ChannelMap2X ChannelMap4X mirror_channel digital_mode clock rate] in *.
  assert (zlength play = 40 /\ zlength out = 40) as (LP & LO) by (unfold zlength; lia).
  unfold header_of, header_quads. cbn [size_quads crc version flags mirror_channel digital_mode clock rate monitorgains
    playbackgains outputgains ChannelMap2X ChannelMap4X].
  set (hd := [a; b; c; d; u32 e; u32 f; u32 g; u32 i]). assert (zlength hd = 8) as Lh by done. split.
  - f_equal; try done; try (cbn [app nth hd]; by apply i32_u32).
    + rewrite slice_app_mid by (rewrite ?LG; done). pose proof (rows_concat 40 gains G2) as R. by rewrite G1 in R.
    + rewrite (app_assoc hd). apply slice_app_mid; [|done]. rewrite zlength_app, Lh, LG. done.
    + rewrite (app_assoc hd), (app_assoc _ play). apply slice_app_mid; [|done]. rewrite !zlength_app, Lh, LG, LP. done.
    + rewrite (app_assoc hd), (app_assoc _ play), (app_assoc _ out). rewrite slice_app_mid; [done| |done].
      rewrite !zlength_app, Lh, LG, LP, LO. done.
    + rewrite (app_assoc hd), (app_assoc _ play), (app_assoc _ out), (app_assoc _ (channel_map_quads m2)).
      rewrite slice_app_end; [done| |done]. rewrite !zlength_app, Lh, LG, LP, LO, L2. done.
  - rewrite !zlength_app, Lh, LG, LP, LO, L2, L4. done.
Qed.

Lemma sub_roundtrip s : sub_wf s -> sub_of (sub_bytes s) = s /\ zlength (sub_bytes s) = sizeof_SubSession.
Proof.
  intros (I & P1 & P2 & F1 & F2 & PL & O & _).
  destruct (settings_rows _ I) as (EI & LI), (settings_rows _ PL) as (EP & LP), (settings_rows _ O) as (EO & LO).
  pose proof (zlength_concat 40 _ P2) as LPa. unfold zlength at 2 in LPa. rewrite P1 in LPa.
  pose proof (zlength_concat 40 _ F2) as LF. unfold zlength at 2 in LF. rewrite F1 in LF.
  destruct s as [ins pans fl plays outs]. unfold sub_of, sub_bytes.
  cbn [inputs monitorpans monitorflags playbacks outputs] in *. split.
  - f_equal.
    + change (slice 0 960 (concat (settings_bytes <$> ins) ++ ?l)) with (slice 0 960 ([] ++ concat (settings_bytes <$> ins) ++ l)).
      by rewrite slice_app_mid.
    + rewrite slice_app_mid by (rewrite ?LPa; done). pose proof (rows_concat 40 pans P2) as R. by rewrite P1 in R.
    + rewrite (app_assoc (concat _)). rewrite slice_app_mid by (rewrite ?zlength_app, ?LI, ?LPa, ?LF; done).
      pose proof (rows_concat 40 fl F2) as R. by rewrite F1 in R.
    + rewrite (app_assoc (concat _)), (app_assoc _ (concat fl)).
      rewrite slice_app_mid by (rewrite ?zlength_app, ?LI, ?LPa, ?LF, ?LP; done). done.
    + rewrite (app_assoc (concat _)), (app_assoc _ (concat fl)), (app_assoc _ (concat (settings_bytes <$> plays))).
      rewrite slice_app_end by (rewrite ?zlength_app, ?LI, ?LPa, ?LF, ?LP, ?LO; done). done.
  - rewrite !zlength_app, LI, LPa, LF, LP, LO. done.
Qed.

Section byte_order.
Context (be : bool).

Lemma quads_of_bytes_of_quads l rest : Forall quad_ok l ->
  quads_of_bytes be (bytes_of_quads be l ++ rest) = l ++ quads_of_bytes be rest.
Proof.
  induction 1 as [|x l Hx Hl IH]; [done|]. unfold bytes_of_quads in *. cbn [fmap list_fmap concat]. rewrite <- app_assoc.
  rewrite <- (quad_load_store be x Hx) at 2. destruct be; cbn [quad_store quad_be quad_le app quads_of_bytes]; by rewrite IH.
Qed.

Lemma zlength_bytes_of_quads l : zlength (bytes_of_quads be l) = 4 * zlength l.
Proof.
  unfold bytes_of_quads. rewrite (zlength_concat 4); [unfold zlength; by rewrite length_fmap|].
  apply Forall_fmap, Forall_true. intros x. by destruct be.
Qed.

Lemma quads_of_other_bytes l : quads_of_bytes (negb be) (bytes_of_quads be l) = ByteSwap32 <$> l.
Proof.
  induction l as [|x l IH]; [done|]. unfold bytes_of_quads in *. cbn [fmap list_fmap concat].
  assert (ByteSwap32 x = quad_load (negb be) (quad_store be x)) as -> by (by destruct be).
  destruct be; cbn [quad_store quad_be quad_le app quads_of_bytes]; by rewrite IH.
Qed.

Lemma quad_store_load b0 b1 b2 b3 : Forall byte_ok [b0; b1; b2; b3] ->
  quad_store be (quad_load be [b0; b1; b2; b3]) = [b0; b1; b2; b3] /\ quad_ok (quad_load be [b0; b1; b2; b3]).
Proof.
  intros F. repeat rewrite Forall_cons_iff in F. destruct F as (H0 & H1 & H2 & H3 & _). unfold byte_ok in *.
  unfold quad_load, quad_store, quad_be, quad_le, byte_at, of_bytes_be, quad_ok. destruct be; simpl rev; cbn [fold_left].
  all: split; [repeat f_equal|]; zlia.
Qed.

Lemma bytes_of_quads_of_bytes n : forall l, length l = (4 * n)%nat -> Forall byte_ok l ->
  bytes_of_quads be (quads_of_bytes be l) = l /\ length (quads_of_bytes be l) = n /\ Forall quad_ok (quads_of_bytes be l).
Proof.
  induction n as [|n IH]; intros l L F.
  - destruct l; done.
  - destruct l as [|b0 [|b1 [|b2 [|b3 l]]]]; simpl in L; try lia.
    change (b0 :: b1 :: b2 :: b3 :: l) with ([b0; b1; b2; b3] ++ l) in F. apply Forall_app in F as (F4 & F).
    destruct (IH l) as (E & L' & Q); [lia|done|]. destruct (quad_store_load b0 b1 b2 b3 F4) as (E4 & Q4).
    cbn [quads_of_bytes]. split_and!.
    + unfold bytes_of_quads in *. cbn [fmap list_fmap concat]. rewrite E4. simpl. by rewrite E.
    + simpl. lia.
    + by constructor.
Qed.
End byte_order.

Lemma swap_quads_of_bytes n : forall l, length l = (4 * n)%nat -> Forall byte_ok l ->
  ByteSwap32 <$> quads_of_bytes true l = quads_of_bytes false l.
Proof.
  induction n as [|n IH]; intros l L F; [by destruct l|].
  destruct l as [|b0 [|b1 [|b2 [|b3 l]]]]; simpl in L; try lia.
  change (b0 :: b1 :: b2 :: b3 :: l) with ([b0; b1; b2; b3] ++ l) in F. apply Forall_app in F as (F4 & F).
  cbn [quads_of_bytes fmap list_fmap]. f_equal; [|apply IH; [lia|done]].
  destruct (quad_store_load true _ _ _ _ F4) as (E & _). cbn [quad_store] in E.
  unfold ByteSwap32, quad_load at 2. f_equal. unfold quad_be in E. unfold quad_le. injection E as E3 E2 E1 E0.
  by rewrite E3, E2, E1, E0.
Qed.

(** The quadlets of a session as they are kept on a device. *)
Definition session_quads (s : Session) : list Z := header_quads (ss_h s) ++ quads_of_bytes false (sub_bytes (ss_s s)).

Lemma header_bytes_length be h : header_wf h -> zlength (header_bytes be h) = sizeof_SessionHeader.
Proof. intros Hh. unfold header_bytes. rewrite zlength_bytes_of_quads. by rewrite (proj2 (header_roundtrip h Hh)). Qed.

Section session_facts.
Context (s : Session) (Hs : Session_wf s).

Lemma sub_bytes_length : length (sub_bytes (ss_s s)) = (4 * Z.to_nat 1520)%nat.
Proof. pose proof (proj2 (sub_roundtrip _ (proj2 Hs))) as L. unfold zlength, sizeof_SubSession in L. lia. Qed.

Lemma sub_bytes_ok : Forall byte_ok (sub_bytes (ss_s s)).
Proof. by destruct Hs as (_ & _ & _ & _ & _ & _ & _ & _ & ?). Qed.

Lemma header_quads_ok : Forall quad_ok (header_quads (ss_h s)).
Proof. by destruct Hs as ((_ & _ & _ & _ & _ & _ & ? & _) & _). Qed.

Lemma session_quads_spec : Forall quad_ok (session_quads s) /\ zlength (session_quads s) = session_len / 4.
Proof.
  destruct (bytes_of_quads_of_bytes false _ _ sub_bytes_length sub_bytes_ok) as (_ & L & Q). unfold session_quads. split.
  - apply Forall_app. split; [apply header_quads_ok|done].
  - rewrite zlength_app, (proj2 (header_roundtrip _ (proj1 Hs))). unfold zlength. rewrite L. done.
Qed.

(** The swapped image of the second part, as quadlets of the host. *)
Lemma swap_sub_quads be : quads_of_bytes be (swap_sub be (sub_bytes (ss_s s))) = quads_of_bytes false (sub_bytes (ss_s s))
  /\ bytes_of_quads be (quads_of_bytes false (sub_bytes (ss_s s))) = swap_sub be (sub_bytes (ss_s s)).
Proof.
  destruct (bytes_of_quads_of_bytes false _ _ sub_bytes_length sub_bytes_ok) as (E & _ & Q). destruct be; [|done].
  unfold swap_sub. rewrite (swap_quads_of_bytes _ _ sub_bytes_length sub_bytes_ok). split; [|done].
  rewrite <- (app_nil_r (bytes_of_quads _ _)), quads_of_bytes_of_quads by done. apply app_nil_r.
Qed.

Lemma swap_sub_involutive be : swap_sub be (swap_sub be (sub_bytes (ss_s s))) = sub_bytes (ss_s s).
Proof.
  destruct (swap_sub_quads be) as (E & _). destruct be; [|done]. unfold swap_sub at 1. rewrite E.
  destruct (bytes_of_quads_of_bytes true _ _ sub_bytes_length sub_bytes_ok) as (Et & _ & Qt).
  rewrite <- (swap_quads_of_bytes _ _ sub_bytes_length sub_bytes_ok), <- list_fmap_compose.
  etrans; [|exact Et]. f_equal. etrans; [|apply list_fmap_id]. apply list_fmap_ext.
  intros i x Hx. apply ByteSwap32_involutive. by apply (Forall_lookup_1 _ _ _ _ Qt Hx).
Qed.

Lemma saveToMemory_spec be junk : zlength junk = session_len ->
  saveToMemory be junk s = (true, bytes_of_quads be (session_quads s)).
Proof.
  intros Lj. unfold saveToMemory. rewrite Lj, Z.ltb_irrefl. rewrite drop_ge by (unfold zlength in Lj; lia). rewrite app_nil_r.
  f_equal. unfold session_quads, header_bytes, bytes_of_quads. rewrite fmap_app, concat_app. f_equal. symmetry. apply swap_sub_quads.
Qed.

Lemma loadFromMemory_spec be s0 : loadFromMemory be (bytes_of_quads be (session_quads s)) s0 = (true, s).
Proof.
  destruct session_quads_spec as (Q & L). unfold loadFromMemory. rewrite zlength_bytes_of_quads, L. cbn [negb Z.eqb].
  change (4 * (session_len / 4) =? session_len) with true. cbn [negb].
  unfold session_quads, bytes_of_quads. rewrite fmap_app, concat_app. fold (bytes_of_quads be (header_quads (ss_h s))).
  fold (bytes_of_quads be (quads_of_bytes false (sub_bytes (ss_s s)))). rewrite (proj2 (swap_sub_quads be)).
  pose proof (header_bytes_length be _ (proj1 Hs)) as Lh. unfold header_bytes in Lh.
  rewrite (slice_app_end sizeof_SessionHeader); [|done|].
  - change (slice 0 sizeof_SessionHeader (bytes_of_quads be (header_quads (ss_h s)) ++ ?l))
      with (slice 0 sizeof_SessionHeader ([] ++ bytes_of_quads be (header_quads (ss_h s)) ++ l)).
    rewrite slice_app_mid by done. rewrite <- (app_nil_r (bytes_of_quads be _)), quads_of_bytes_of_quads by apply header_quads_ok.
    cbn [quads_of_bytes]. rewrite app_nil_r, (proj1 (header_roundtrip _ (proj1 Hs))), swap_sub_involutive.
    rewrite (proj1 (sub_roundtrip _ (proj2 Hs))). by destruct s.
  - rewrite <- (proj2 (swap_sub_quads be)), zlength_bytes_of_quads.
    destruct (bytes_of_quads_of_bytes false _ _ sub_bytes_length sub_bytes_ok) as (_ & L2 & _). unfold zlength. by rewrite L2.
Qed.
End session_facts.

(** ** Sessions on a device *)

(** The session with the checksum of its own block in it. *)
Definition session_image (s : Session) : list Z := header_bytes false (ss_h s) ++ sub_bytes (ss_s s).
Definition with_crc (s : Session) : Session := mkSession (set_crc (crc32 (crc_part (session_image s))) (ss_h s)) (ss_s s).

Lemma session_image_spec s : Session_wf s -> zlength (session_image s) = session_len /\ Forall byte_ok (session_image s).
Proof.
  intros Hs. unfold session_image. rewrite zlength_app, header_bytes_length by apply Hs.
  rewrite (proj2 (sub_roundtrip _ (proj2 Hs))). split; [done|]. apply Forall_app. split; [|by apply sub_bytes_ok].
  unfold header_bytes, bytes_of_quads. apply Forall_concat, Forall_fmap, Forall_true. intros x.
  repeat constructor; apply Z.mod_pos_bound; lia.
Qed.

Lemma crc32_range l : Forall byte_ok l -> quad_ok (crc32 l).
Proof.
  intros Hl. assert (forall r, quad_ok r -> quad_ok (fold_left crc_byte l r)) as F.
  { induction Hl as [|b l Hb Hl IH]; intros r Hr; [done|]. by apply IH, crc_byte_range. }
  specialize (F 0xFFFFFFFF ltac:(split; done)). unfold crc32, quad_ok in *. set (x := fold_left _ _ _) in *.
  assert (0 <= Z.lxor x 0xFFFFFFFF) by (apply Z.lxor_nonneg; lia). split; [done|].
  destruct (decide (Z.lxor x 0xFFFFFFFF = 0)) as [->|]; [done|]. apply Z.log2_lt_pow2; [lia|].
  eapply Z.le_lt_trans; [apply Z.log2_lxor; lia|]. apply Z.max_lub_lt; [|done].
  destruct (decide (x = 0)) as [->|]; [done|]. apply Z.log2_lt_pow2; lia.
Qed.

Lemma with_crc_wf s : Session_wf s -> Session_wf (with_crc s).
Proof.
  intros Hs. pose proof (session_image_spec s Hs) as (_ & Hb). destruct Hs as (Hh & Hsub). split; [|done].
  destruct Hh as (A1 & A2 & A3 & A4 & A5 & A6 & Q & A7). split_and!; try done; try apply A7.
  unfold header_quads in *. cbn [app with_crc ss_h set_crc size_quads crc version flags mirror_channel digital_mode clock rate
    monitorgains playbackgains outputgains ChannelMap2X ChannelMap4X] in *.
  rewrite Forall_cons_iff in Q. destruct Q as (Q0 & Q). rewrite Forall_cons_iff in Q. destruct Q as (_ & Q).
  constructor; [done|]. constructor; [|done]. apply crc32_range. unfold crc_part, slice. by apply Forall_take, Forall_drop.
Qed.

(** The checksum does not cover itself. *)
Lemma crc_part_with_crc s : crc_part (session_image (with_crc s)) = crc_part (session_image s).
Proof. done. Qed.

Lemma calculateCRC_spec s : Session_wf s -> calculateCRC false s = Some (crc32 (crc_part (session_image s))).
Proof. intros Hs. destruct (session_image_spec s Hs) as (L & B). apply crc_block_le; [done|]. fold (session_image s). lia. Qed.

Section flash_session.
Context {W : Type} `{FlashDevice W} (uninit : Z).

Lemma getSessionBase_spec d : flash_busy (d_link d) = 0%nat ->
  exists d', getSessionBase d = Some (session_base, d') /\ flash_step d d' (flash_at (d_link d)).
Proof.
  intros B. destruct (session_base_law (d_link d) EfcFlashGetSessionBaseCmd_new) as (b & w & E & B' & M).
  exists (with_link w d). unfold getSessionBase. run_step with (on_link_Some _ d _ _ E). split; [done|].
  split_and!; try done. cbn [with_link d_link]. by rewrite B'.
Qed.

Lemma lockFlash_spec lock d : flash_busy (d_link d) = 0%nat ->
  exists d', lockFlash lock d = Some (true, d') /\ flash_step d d' (flash_at (d_link d)).
Proof.
  intros B. unfold lockFlash. run_step. destruct (hasDSP (d_HwInfo d)).
  - exists d. split; [done|]. split_and!; try done. by destruct d.
  - destruct (flash_lock_law (d_link d) (mkFlashLock (fl_base EfcFlashLockCmd_new) lock)) as (c & w & E & B' & M).
    exists (with_link w d). run_step with (on_link_Some _ d _ _ E). split; [done|]. split_and!; try done.
    cbn [with_link d_link]. by rewrite B'.
Qed.

(** Where the session is kept: at a block boundary, with room for it. *)
Definition session_place (q : Z) : Prop :=
  session_base = 4 * q /\ 0 < q /\ block_aligned q /\ 4 * q + session_len <= FLASH_SIZE_BYTES.

Lemma saveToDevice_spec s q d : Session_wf s -> session_place q -> flash_busy (d_link d) = 0%nat ->
  exists d', saveToDevice false uninit s d = Some ((true, with_crc s), d') /\ flash_busy (d_link d') = 0%nat
  /\ flash_range (flash_at (d_link d')) q (Z.to_nat (session_len / 4)) = session_quads (with_crc s).
Proof.
  intros Hs (Eq & Hq & Ha & Hsz) B. unfold saveToDevice.
  destruct (getSessionBase_spec d B) as (d1 & E1 & _ & B1 & _). run_step with E1. rewrite Eq.
  rewrite (proj2 (Z.eqb_neq (4 * q) 0)) by lia. rewrite calculateCRC_spec by done. fold (with_crc s).
  pose proof (with_crc_wf s Hs) as Hc. destruct (session_quads_spec _ Hc) as (Qc & Lc).
  rewrite saveToMemory_spec by (try done; unfold zlength; rewrite length_replicate; done). cbn [negb].
  destruct (lockFlash_spec true d1 B1) as (d2 & E2 & _ & B2 & _). run_step with E2. cbn [negb].
  rewrite <- (app_nil_r (bytes_of_quads false _)), quads_of_bytes_of_quads, app_nil_r by done.
  destruct (update_spec uninit q (session_quads (with_crc s)) [] d2) as (m & d3 & d4 & E3 & E4 & _ & _ & (_ & B4 & _) & R4 & _);
    try done; try lia.
  { rewrite Lc. change (session_len / 4) with 3348 in *. change session_len with 13392 in Hsz. lia. }
  rewrite Lc in E3, E4. rewrite app_nil_r in E4. run_step with E3. cbn [negb]. run_step with E4. cbn [negb].
  destruct (lockFlash_spec false d4 B4) as (d5 & E5 & _ & B5 & M5). run_step with E5. exists d5. split_and!; try done.
  etrans; [|exact R4]. replace (Z.to_nat (session_len / 4)) with (length (session_quads (with_crc s)))
    by (unfold zlength in Lc; lia). by apply flash_range_ext.
Qed.

Lemma loadFromDevice_spec be s s0 q d : Session_wf s -> session_place q -> flash_busy (d_link d) = 0%nat ->
  flash_range (flash_at (d_link d)) q (Z.to_nat (session_len / 4)) = session_quads s ->
  exists d', loadFromDevice be uninit s0 d = Some ((true, s), d').
Proof.
  intros Hs (Eq & Hq & Ha & Hsz) B R. unfold loadFromDevice.
  destruct (getSessionBase_spec d B) as (d1 & E1 & _ & B1 & M1). run_step with E1. rewrite Eq.
  rewrite (proj2 (Z.eqb_neq (4 * q) 0)) by lia.
  set (n := Z.to_nat (session_len / 4)) in *. assert (Z.of_nat n = session_len / 4) as En by (unfold n; rewrite Z2Nat.id; done).
  destruct (readFlash_spec uninit q n (replicate n uninit) d1) as (d2 & E2 & _);
    rewrite ?length_replicate; try done; change session_len with 13392 in *; change (13392 / 4) with 3348 in *; try lia.
  rewrite En in E2. run_step with E2. cbn beta iota. cbn [negb]. exists d2.
  rewrite drop_ge, app_nil_r by (by rewrite length_replicate). rewrite (flash_range_ext _ (flash_at (d_link d))) by done.
  by rewrite R, loadFromMemory_spec.
Qed.
End flash_session.

(** ** Theorems *)



(** A change of at most four consecutive bytes of what the checksum covers changes the checksum. *)
Lemma checksum_detects_burst p m m' t : Forall byte_ok (p ++ m ++ t) -> Forall byte_ok m' -> 8 <= zlength p ->
  zlength (p ++ m ++ t) = session_len -> (length m <= 4)%nat -> length m = length m' -> m <> m' ->
  calculateCRC_block false (p ++ m ++ t) <> calculateCRC_block false (p ++ m' ++ t).
Proof.
  intros B B' Hp Hl L4 L N. assert (Forall byte_ok (p ++ m' ++ t)) as B2.
  { apply Forall_app in B as (? & B). apply Forall_app in B as (? & ?). by repeat (apply Forall_app; split). }
  assert (Forall byte_ok m) as Bm by (apply Forall_app in B as (? & B); by apply Forall_app in B as (? & ?)).
  assert (zlength (p ++ m' ++ t) = session_len) as Hl2 by (unfold zlength in *; rewrite !length_app in *; lia).
  assert (forall x, zlength (p ++ x ++ t) = session_len -> crc_part (p ++ x ++ t) = drop (Z.to_nat 8) p ++ x ++ t) as C.
  { intros x Hx. unfold crc_part, slice. rewrite drop_app_le by (unfold zlength in *; lia). apply take_ge.
    unfold zlength in *. rewrite !length_app, length_drop in *. lia. }
  rewrite !crc_block_le, !C by (done || lia). unfold crc32. intros E. injection E as E.
  apply (f_equal (fun x => Z.lxor x 0xFFFFFFFF)) in E. rewrite !Z.lxor_assoc, Z.lxor_nilpotent, !Z.lxor_0_r in E.
  by eapply crc_burst in E.
Qed.

(** C33. Saving a session to a device and loading it again: on a device whose flash memory works
    and which keeps its session at a block boundary, [saveToDevice] on a little-endian host
    succeeds, the checksum it stores is the one [calculateCRC] finds for the stored session, and
    [loadFromDevice] on a host of either byte order returns that session, every member of it. *)
Theorem session_device_roundtrip {W} `{FlashDevice W} uninit be s s0 q d :
  Session_wf s -> session_place q -> flash_busy (d_link d) = 0%nat ->
  exists d1 d2, saveToDevice false uninit s d = Some ((true, with_crc s), d1)
  /\ calculateCRC false (with_crc s) = Some (crc (ss_h (with_crc s)))
  /\ loadFromDevice be uninit s0 d1 = Some ((true, with_crc s), d2).
Proof.
  intros Hs Hq B. pose proof (with_crc_wf s Hs) as Hc. destruct (saveToDevice_spec uninit s q d Hs Hq B) as (d1 & E1 & B1 & R1).
  destruct (loadFromDevice_spec uninit be (with_crc s) s0 q d1) as (d2 & E2); try done.
  exists d1, d2. split_and!; try done. by rewrite calculateCRC_spec, crc_part_with_crc.
Qed.

Definition example_map : IsoChannelMap := mkChannelMap 1 2 3 4 (replicate 32 5) 6 7 (replicate 32 8).
Definition example_settings : ChannelSettings := mkSettings 1 4 (replicate 22 0x41).
Definition example_session : Session :=
  mkSession (mkSessionHeader 3348 0 0x200 0 (-1) 2 3 48000 (replicate 40 (replicate 40 0x01000000)) (replicate 40 9)
               (replicate 40 10) example_map example_map)
            (mkSubSession (replicate 40 example_settings) (replicate 40 (replicate 40 0x80)) (replicate 40 (replicate 40 1))
               (replicate 40 example_settings) (replicate 40 example_settings)).

Lemma example_session_wf : Session_wf example_session.
Proof.
  assert (forall l, forallb (fun x => (0 <=? x) && (x <? 2 ^ 32)) l = true -> Forall quad_ok l) as Q.
  { intros l E. apply Forall_forall. intros x Hx. rewrite forallb_forall in E. apply E in Hx. unfold quad_ok. lia. }
  assert (forall l, forallb (fun x => (0 <=? x) && (x <? 2 ^ 8)) l = true -> Forall byte_ok l) as B.
  { intros l E. apply Forall_forall. intros x Hx. rewrite forallb_forall in E. apply E in Hx. unfold byte_ok. lia. }
  split; unfold header_wf, sub_wf, settings_wf; split_and!; try done; try (by apply Forall_replicate); [apply Q|apply B]; by vm_compute.
Qed.

Lemma session_device_roundtrip_witness :
  exists d1 d2, saveToDevice false 0xAA example_session bench_start = Some ((true, with_crc example_session), d1)
  /\ calculateCRC false (with_crc example_session) = Some (crc (ss_h (with_crc example_session)))
  /\ loadFromDevice true 0xAA example_session d1 = Some ((true, with_crc example_session), d2).
Proof.
  apply (session_device_roundtrip 0xAA true example_session example_session 0x2000 bench_start);
    [exact example_session_wf|by split_and!|done].
Defined.

(** A session file: what [saveToFile] writes after a header of 64 bytes, [loadFromFile] reads
    back on a host of the same byte order, whatever the header holds and however the object looked
    before; on a host of the other byte order it is loaded with every word of its header reversed. *)
Theorem session_file_roundtrip be fs can_open header uninit filename s s0 :
  Session_wf s -> zlength header = ECHO_SESSION_FILE_START_OFFSET -> can_open filename = true ->
  exists fs', saveToFile be can_open header uninit fs filename s = (true, fs')
  /\ loadFromFile be fs' filename s0 = Some (true, s)
  /\ (exists s', loadFromFile (negb be) fs' filename s0 = Some (true, s')
        /\ ss_h s' = header_of (ByteSwap32 <$> header_quads (ss_h s)))
  /\ (forall f, f <> filename -> fs' !! f = fs !! f).
Proof.
  intros Hs Lh Ho. destruct (session_quads_spec s Hs) as (Q & L). unfold saveToFile. rewrite Ho. cbn [negb].
  rewrite (saveToMemory_spec s Hs) by (unfold zlength; by rewrite length_replicate).
  set (data := bytes_of_quads be (session_quads s)).
  assert (zlength data = session_len) as Ld by (unfold data; rewrite zlength_bytes_of_quads, L; done).
  eexists. split; [done|].
  assert (forall b, loadFromFile b (<[filename:=header ++ data]> fs) filename s0 = Some (loadFromMemory b data s0)) as E.
  { intros b. unfold loadFromFile. rewrite lookup_insert_eq, zlength_app, Lh, Ld.
    change (ECHO_SESSION_FILE_START_OFFSET + session_len - ECHO_SESSION_FILE_START_OFFSET) with session_len.
    change (session_len <? 0) with false. cbn beta iota. rewrite slice_app_end by done. by rewrite Ld, Z.ltb_irrefl. }
  split_and!.
  - rewrite E. unfold data. by rewrite loadFromMemory_spec.
  - rewrite E. unfold loadFromMemory. rewrite Ld, Z.eqb_refl. cbn [negb]. eexists. split; [done|]. cbn [ss_h]. f_equal.
    unfold data, session_quads, bytes_of_quads. rewrite fmap_app, concat_app, slice_0.
    fold (bytes_of_quads be (header_quads (ss_h s))). pose proof (header_bytes_length be _ (proj1 Hs)) as Lhb.
    rewrite take_app_length' by (unfold header_bytes, zlength in Lhb; lia). apply quads_of_other_bytes.
  - intros f Hf. by rewrite lookup_insert_ne.
Qed.

Lemma session_file_roundtrip_witness :
  exists fs', saveToFile false (fun _ => true) (replicate 64 0x11) 0xAA ∅ "session"%string example_session = (true, fs')
  /\ loadFromFile false fs' "session"%string example_session = Some (true, example_session)
  /\ (exists s', loadFromFile true fs' "session"%string example_session = Some (true, s')
        /\ ss_h s' = header_of (ByteSwap32 <$> header_quads (ss_h example_session)))
  /\ (forall f, f <> "session"%string -> fs' !! f = (∅ : gmap string (list Z)) !! f).
Proof.
  apply (session_file_roundtrip false ∅ (fun _ => true) (replicate 64 0x11) 0xAA "session"%string example_session example_session);
    [exact example_session_wf|done|done].
Defined.
