(* ===== verification/FireworksControl.v ===== *)
(** * Controls and firmware of Fireworks devices

    Model of [src/fireworks/fireworks_control.cpp] (the mixer controls and the copy of their values in
    the session), of the session methods of [src/fireworks/fireworks_device.cpp] and of
    [src/fireworks/fireworks_firmware.cpp].

    A [double] argument is given by the integer it is converted to.  A method is undefined ([None])
    where that conversion or an array index is out of range. *)
From Stdlib Require Import String.
From stdpp Require Import strings.
From S2P Require Import Prelude ByteSwap CmdSerialize Fcp AvcCommands AvcExchange EfcCommands EfcExchange Fireworks FireworksFlash FireworksSession.
#[local] Open Scope Z_scope.

(** ** The device with its session *)

Class MixerLink (W : Type) := {
  do_mixer : EfcGenericMixerCmd -> run W (bool * EfcGenericMixerCmd);
  do_monitor : EfcGenericMonitorCmd -> run W (bool * EfcGenericMonitorCmd);
  do_get_flags : EfcGetFlagsCmd -> run W (bool * EfcGetFlagsCmd);
  do_change_flags : EfcChangeFlagsCmd -> run W (bool * EfcChangeFlagsCmd);
  do_ioconfig : EfcGenericIOConfigCmd -> run W (bool * EfcGenericIOConfigCmd);
  do_isocmap : EfcIsocMapIOConfigCmd -> run W (bool * EfcIsocMapIOConfigCmd);
  do_identify : EfcIdentifyCmd -> run W (bool * EfcIdentifyCmd);
}.

Definition mixer_link (be DEBUG : bool) (uninit : Z) (bus : Z -> nat -> Z -> list Z -> fcp_try) (nodeId : Z)
  : MixerLink EfcHost := {|
  do_mixer := efc_send be DEBUG uninit bus nodeId;
  do_monitor := efc_send be DEBUG uninit bus nodeId;
  do_get_flags := efc_send be DEBUG uninit bus nodeId;
  do_change_flags := efc_send be DEBUG uninit bus nodeId;
  do_ioconfig := efc_send be DEBUG uninit bus nodeId;
  do_isocmap := efc_send be DEBUG uninit bus nodeId;
  do_identify := efc_send be DEBUG uninit bus nodeId;
|}.

Record FwUnit (W : Type) := mkUnit { un_device : FwDevice W; un_session : Session }.
Arguments mkUnit {_}.
Arguments un_device {_}.
Arguments un_session {_}.

(** ** Arrays *)

(** An update at an index of an array; [None] outside of it. *)
Definition array_store {A} (i : Z) (f : A -> A) (l : list A) : option (list A) :=
  if (0 <=? i) && (i <? zlength l) then Some (alter f (Z.to_nat i) l) else None.

Definition array_store2 {A} (i j : Z) (f : A -> A) (l : list (list A)) : option (list (list A)) :=
  row ← (if (0 <=? i) && (i <? zlength l) then l !! Z.to_nat i else None);
  row ← array_store j f row;
  Some (<[Z.to_nat i := row]> l).

Definition fetch {A} (i : Z) (l : list A) : option A := if 0 <=? i then l !! Z.to_nat i else None.

(** ** The session's members *)

Definition set_monitorgains (x : list (list Z)) (s : Session) : Session :=
  let h := ss_h s in
  mkSession (mkSessionHeader (size_quads h) (crc h) (version h) (flags h) (mirror_channel h) (digital_mode h) (clock h) (rate h)
               x (playbackgains h) (outputgains h) (ChannelMap2X h) (ChannelMap4X h)) (ss_s s).
Definition set_playbackgains (x : list Z) (s : Session) : Session :=
  let h := ss_h s in
  mkSession (mkSessionHeader (size_quads h) (crc h) (version h) (flags h) (mirror_channel h) (digital_mode h) (clock h) (rate h)
               (monitorgains h) x (outputgains h) (ChannelMap2X h) (ChannelMap4X h)) (ss_s s).
Definition set_outputgains (x : list Z) (s : Session) : Session :=
  let h := ss_h s in
  mkSession (mkSessionHeader (size_quads h) (crc h) (version h) (flags h) (mirror_channel h) (digital_mode h) (clock h) (rate h)
               (monitorgains h) (playbackgains h) x (ChannelMap2X h) (ChannelMap4X h)) (ss_s s).
Definition set_monitorpans (x : list (list Z)) (s : Session) : Session :=
  mkSession (ss_h s) (mkSubSession (inputs (ss_s s)) x (monitorflags (ss_s s)) (playbacks (ss_s s)) (outputs (ss_s s))).
Definition set_monitorflags (x : list (list Z)) (s : Session) : Session :=
  mkSession (ss_h s) (mkSubSession (inputs (ss_s s)) (monitorpans (ss_s s)) x (playbacks (ss_s s)) (outputs (ss_s s))).
Definition set_inputs (x : list ChannelSettings) (s : Session) : Session :=
  mkSession (ss_h s) (mkSubSession x (monitorpans (ss_s s)) (monitorflags (ss_s s)) (playbacks (ss_s s)) (outputs (ss_s s))).
Definition set_playbacks (x : list ChannelSettings) (s : Session) : Session :=
  mkSession (ss_h s) (mkSubSession (inputs (ss_s s)) (monitorpans (ss_s s)) (monitorflags (ss_s s)) x (outputs (ss_s s))).
Definition set_outputs (x : list ChannelSettings) (s : Session) : Session :=
  mkSession (ss_h s) (mkSubSession (inputs (ss_s s)) (monitorpans (ss_s s)) (monitorflags (ss_s s)) (playbacks (ss_s s)) x).

Definition set_first (v : Z) (c : ChannelSettings) : ChannelSettings := mkSettings v (cs_second c) (cs_label c).
Definition set_second (v : Z) (c : ChannelSettings) : ChannelSettings := mkSettings (cs_first c) v (cs_label c).

Definition ECHO_SESSION_MUTE_BIT : Z := 1.
Definition ECHO_SESSION_SOLO_BIT : Z := 2.

Section controls.
Context {W : Type} `{EfcLink W} `{MixerLink W} (big_endian : bool) (uninit : Z).
Abbreviation M := (run (FwUnit W)).

Definition on_device {A} (m : run (FwDevice W) A) : M A := fun u =>
  match m (un_device u) with
  | Some (a, d) => Some (a, mkUnit d (un_session u))
  | None => None
  end.
Definition send {A} (m : run W A) : M A := on_device (on_link m).

Definition hw_info : M EfcHardwareInfoCmd := gets (fun u => d_HwInfo (un_device u)).

(** An assignment to the session; [None] where it leaves an array. *)
Definition update_session (f : Session -> option Session) : M unit := fun u =>
  match f (un_session u) with
  | Some s => Some (tt, mkUnit (un_device u) s)
  | None => None
  end.

(** An access to an array. *)
Definition in_range {A} (x : option A) : M A := fun u =>
  match x with
  | Some a => Some (a, u)
  | None => None
  end.

(** [saveSession] reports success in every case. *)
Definition saveSession : M bool := fun u =>
  match saveToDevice big_endian uninit (un_session u) (un_device u) with
  | Some ((_, s), d) => Some (true, mkUnit d s)
  | None => None
  end.

Definition loadSession : M bool := fun u =>
  match loadFromDevice big_endian uninit (un_session u) (un_device u) with
  | Some ((ok, s), d) => Some (ok, mkUnit d s)
  | None => None
  end.

(** *** [MonitorControl] *)

Definition out_of_matrix (row col : Z) : M bool :=
  hw ← hw_info;
  mret ((i32 (hi_nb_phys_audio_in hw) <=? row) || (i32 (hi_nb_phys_audio_out hw) <=? col)).

(** A set or clear of a bit of [monitorflags]. *)
Definition flag_update (bit v old : Z) : Z := if v =? 0 then old .& (Z.lxor 0xFF bit) else old .| bit.

Definition monitor_session (control : eMonitorCommand) (row col v : Z) (s : Session) : option Session :=
  match control with
  | eMoC_Gain => x ← array_store2 row col (fun _ => v) (monitorgains (ss_h s)); Some (set_monitorgains x s)
  | eMoC_Pan => x ← array_store2 row col (fun _ => u8 v) (monitorpans (ss_s s)); Some (set_monitorpans x s)
  | eMoC_Mute => x ← array_store2 row col (flag_update ECHO_SESSION_MUTE_BIT v) (monitorflags (ss_s s)); Some (set_monitorflags x s)
  | eMoC_Solo => x ← array_store2 row col (flag_update ECHO_SESSION_SOLO_BIT v) (monitorflags (ss_s s)); Some (set_monitorflags x s)
  end.

Definition monitor_cmd (type : eCmdType) (control : eMonitorCommand) (row col v : Z) : EfcGenericMonitorCmd :=
  mkMonitor (mo_base (EfcGenericMonitorCmd_new type control)) row col v type control.

(** The session is updated whether or not the command succeeds. *)
Definition MonitorControl_setValue (control : eMonitorCommand) (row col val : Z) : M Z :=
  bad ← out_of_matrix row col;
  if (bad : bool) then mret 0 else
  assert_that (fun _ => (0 <=? val) && (val <? 2 ^ 32)) ;;
  '(_, cmd) ← send (do_monitor (monitor_cmd eCT_Set control row col val));
  update_session (monitor_session control row col (mo_value cmd)) ;;
  mret (mo_value cmd).

Definition MonitorControl_getValue (control : eMonitorCommand) (row col : Z) : M Z :=
  bad ← out_of_matrix row col;
  if (bad : bool) then mret 0 else
  '(_, cmd) ← send (do_monitor (monitor_cmd eCT_Get control row col 0));
  mret (mo_value cmd).

Definition MonitorControl_getRowCount : M Z := hw ← hw_info; mret (i32 (hi_nb_phys_audio_in hw)).
Definition MonitorControl_getColCount : M Z := hw ← hw_info; mret (i32 (hi_nb_phys_audio_out hw)).

(** *** [SimpleControl]: the control keeps its command *)

Definition set_mixer_value (v : Z) (c : EfcGenericMixerCmd) : EfcGenericMixerCmd :=
  mkMixer (mx_base c) (mx_channel c) v (mx_type c) (mx_target c) (mx_command c).

Definition simple_session (c : EfcGenericMixerCmd) (s : Session) : option Session :=
  match mx_target c, mx_command c with
  | eMT_PlaybackMix, eMC_Gain =>
      x ← array_store (mx_channel c) (fun _ => mx_value c) (playbackgains (ss_h s)); Some (set_playbackgains x s)
  | eMT_PhysicalOutputMix, eMC_Gain =>
      x ← array_store (mx_channel c) (fun _ => mx_value c) (outputgains (ss_h s)); Some (set_outputgains x s)
  | _, _ => Some s
  end.

Definition SimpleControl_setValue (val : Z) (slave : EfcGenericMixerCmd) : M (bool * EfcGenericMixerCmd) :=
  let slave := (mixer_setType eCT_Set slave).2 in
  assert_that (fun _ => (0 <=? val) && (val <? 2 ^ 32)) ;;
  '(ok, slave) ← send (do_mixer (set_mixer_value val slave));
  if negb ok then mret (false, slave) else
  update_session (simple_session slave) ;;
  mret (true, slave).

Definition SimpleControl_getValue (slave : EfcGenericMixerCmd) : M (Z * EfcGenericMixerCmd) :=
  '(ok, slave) ← send (do_mixer (mixer_setType eCT_Get slave).2);
  mret (if negb ok then 0 else mx_value slave, slave).

(** *** [BinaryControl] *)

Definition binary_session (c : EfcGenericMixerCmd) (s : Session) : option Session :=
  match mx_target c, mx_command c with
  | eMT_PlaybackMix, eMC_Mute =>
      x ← array_store (mx_channel c) (set_first (u8 (mx_value c))) (playbacks (ss_s s)); Some (set_playbacks x s)
  | eMT_PlaybackMix, eMC_Solo =>
      x ← array_store (mx_channel c) (set_second (u8 (mx_value c))) (playbacks (ss_s s)); Some (set_playbacks x s)
  | eMT_PhysicalOutputMix, eMC_Mute =>
      x ← array_store (mx_channel c) (set_first (u8 (mx_value c))) (outputs (ss_s s)); Some (set_outputs x s)
  | eMT_PhysicalOutputMix, eMC_Nominal =>
      x ← array_store (mx_channel c) (set_second (u8 (mx_value c))) (outputs (ss_s s)); Some (set_outputs x s)
  | eMT_PhysicalInputMix, eMC_Nominal =>
      x ← array_store (mx_channel c) (set_first (u8 (mx_value c))) (inputs (ss_s s)); Some (set_inputs x s)
  | _, _ => Some s
  end.

(** The register is the value the command object holds; the get command that is prepared is not sent. *)
Definition BinaryControl_setValue (bit val : Z) (slave : EfcGenericMixerCmd) : M (bool * EfcGenericMixerCmd) :=
  let slave := (mixer_setType eCT_Get slave).2 in
  let reg := mx_value slave in
  let reg := if val =? 0 then reg .& (Z.lxor 0xFFFFFFFF (u32 (1 << bit))) else reg .| u32 (1 << bit) in
  let slave := (mixer_setType eCT_Set slave).2 in
  '(ok, slave) ← send (do_mixer (set_mixer_value reg slave));
  if negb ok then mret (false, slave) else
  update_session (binary_session slave) ;;
  mret (true, slave).

Definition BinaryControl_getValue (bit : Z) (slave : EfcGenericMixerCmd) : M (Z * EfcGenericMixerCmd) :=
  match mx_target slave, mx_command slave with
  | eMT_PhysicalInputMix, eMC_Nominal =>
      s ← gets un_session;
      c ← in_range (fetch (mx_channel slave) (inputs (ss_s s)));
      mret (cs_first c, slave)
  | _, _ =>
      '(ok, slave) ← send (do_mixer (mixer_setType eCT_Get slave).2);
      mret (if negb ok then 0 else Z.b2z (negb (mx_value slave .& u32 (1 << bit) =? 0)), slave)
  end.

(** *** Other controls *)

Definition FIREWORKS_EFC_FLAG_SPDIF_PRO : Z := 2.

Definition SpdifModeControl_setValue (val : Z) : M bool :=
  let cmd := if val =? 0 then mkChangeFlags (cf_base EfcChangeFlagsCmd_new) 0 FIREWORKS_EFC_FLAG_SPDIF_PRO
             else mkChangeFlags (cf_base EfcChangeFlagsCmd_new) FIREWORKS_EFC_FLAG_SPDIF_PRO 0 in
  '(ok, _) ← send (do_change_flags cmd);
  mret ok.

Definition SpdifModeControl_getValue : M Z :=
  '(ok, cmd) ← send (do_get_flags EfcGetFlagsCmd_new);
  mret (if negb ok then 0 else if gf_flags cmd .& FIREWORKS_EFC_FLAG_SPDIF_PRO =? 0 then 0 else 1).

Definition IOConfigControl_setValue (val : Z) (slave : EfcGenericIOConfigCmd) : M (bool * EfcGenericIOConfigCmd) :=
  let slave := (ioconfig_setType eCT_Set slave).2 in
  '(ok, slave) ← send (do_ioconfig (mkIOConfig (io_base slave) (u32 val) (io_type slave) (io_reg slave)));
  mret (ok, slave).

Definition IOConfigControl_getValue (slave : EfcGenericIOConfigCmd) : M (Z * EfcGenericIOConfigCmd) :=
  '(ok, slave) ← send (do_ioconfig (ioconfig_setType eCT_Get slave).2);
  mret (if negb ok then 0 else i32 (io_value slave), slave).

Definition set_playmap (n : Z) (x : list Z) (c : EfcIsocMapIOConfigCmd) : EfcIsocMapIOConfigCmd :=
  mkIsocMap (im_base c) (im_samplerate c) (im_flags c) n (im_num_phys_out c) x
    (im_num_recmap_entries c) (im_num_phys_in c) (im_recmap c) (im_type c).

Definition PlaybackRoutingControl_GetState (cmd : EfcIsocMapIOConfigCmd) : M (bool * EfcIsocMapIOConfigCmd) :=
  let cmd := set_playmap 3 ([0; 0; 0] ++ drop 3 (im_playmap cmd)) cmd in
  send (do_isocmap (isocmap_setType eCT_Get cmd).2).

Definition PlaybackRoutingControl_setValue (idx v : Z) : M bool :=
  '(ok, cmd) ← PlaybackRoutingControl_GetState EfcIsocMapIOConfigCmd_new;
  if negb ok then mret false else
  playmap ← in_range (array_store idx (fun _ => u32 (v * 2)) (im_playmap cmd));
  '(ok, _) ← send (do_isocmap (isocmap_setType eCT_Set (set_playmap (im_num_playmap_entries cmd) playmap cmd)).2);
  mret ok.

Definition PlaybackRoutingControl_getValue (idx : Z) : M Z :=
  '(_, cmd) ← PlaybackRoutingControl_GetState EfcIsocMapIOConfigCmd_new;
  x ← in_range (fetch idx (im_playmap cmd));
  mret (Z.div x 2).

Inductive eHwInfoField :=
  | eHIF_PhysicalAudioOutCount | eHIF_PhysicalAudioInCount | eHIF_1394PlaybackCount | eHIF_1394RecordCount
  | eHIF_GroupOutCount | eHIF_GroupInCount | eHIF_PhantomPower | eHIF_OpticalInterface | eHIF_PlaybackRouting.

Definition HwInfoControl_getValue (f : eHwInfoField) : M Z :=
  hw ← hw_info;
  mret match f with
       | eHIF_PhysicalAudioOutCount => i32 (hi_nb_phys_audio_out hw)
       | eHIF_PhysicalAudioInCount => i32 (hi_nb_phys_audio_in hw)
       | eHIF_1394PlaybackCount => i32 (hi_nb_1394_playback_channels hw)
       | eHIF_1394RecordCount => i32 (hi_nb_1394_record_channels hw)
       | eHIF_GroupOutCount => i32 (hi_nb_out_groups hw)
       | eHIF_GroupInCount => i32 (hi_nb_in_groups hw)
       | eHIF_PhantomPower => Z.b2z (EFC_CMD_HW_CHECK_FLAG (hi_flags hw) 6)
       | eHIF_OpticalInterface => Z.b2z (EFC_CMD_HW_CHECK_FLAG (hi_flags hw) 2)
       | eHIF_PlaybackRouting => Z.b2z (EFC_CMD_HW_CHECK_FLAG (hi_flags hw) 7)
       end.

Inductive eMultiType := eT_SaveSession | eT_Identify.

Definition MultiControl_setValue (t : eMultiType) : M bool :=
  match t with
  | eT_SaveSession => saveSession
  | eT_Identify => '(ok, _) ← send (do_identify EfcIdentifyCmd_new); mret ok
  end.
End controls.

(** ** Firmware *)

Inductive eDatType := eDT_DspCode | eDT_IceLynxCode | eDT_Data | eDT_FPGACode | eDT_DeviceName | eDT_Invalid.

(** [m_data] is [None] for a null pointer. *)
Record Firmware := mkFirmware {
  m_source : string;
  m_Type : eDatType;
  m_flash_offset_address : Z;
  m_length_quads : Z;
  m_CRC32 : Z;
  m_checksum : Z;
  m_version : Z;
  m_append_crc : bool;
  m_footprint_quads : Z;
  m_data : option (list Z);
  m_valid : bool;
}.

Definition Firmware_new : Firmware := mkFirmware "none"%string eDT_Invalid 0 0 0 0 0 false 0 None false.

(** [operator==]. *)
Definition Firmware_eq (f g : Firmware) : bool :=
  if negb (m_flash_offset_address f =? m_flash_offset_address g) then false else
  if negb (m_length_quads f =? m_length_quads g) then false else
  match m_data f, m_data g with
  | None, None => true
  | Some a, Some b => bool_decide (take (Z.to_nat (m_length_quads f)) a = take (Z.to_nat (m_length_quads f)) b)
  | _, _ => false
  end.

(** [data] has [len] elements. *)
Definition Firmware_loadFromMemory (data : list Z) (addr : Z) (f : Firmware) : bool * Firmware :=
  (true, mkFirmware (m_source f) eDT_Invalid addr (zlength data) 0 0 0 false 0 (Some data) false).

Definition appends_crc (f : Firmware) : bool := m_append_crc f && (m_length_quads f <? m_footprint_quads f).

Definition getWriteDataLen (f : Firmware) : Z := if appends_crc f then m_footprint_quads f else m_length_quads f.

(** [None] where a null pointer is read or an index leaves the buffer. *)
Definition getWriteData (f : Firmware) (buff : list Z) : option (list Z) :=
  data ← m_data f;
  if (zlength data <? m_length_quads f) || (zlength buff <? m_length_quads f) then None else
  let buff := take (Z.to_nat (m_length_quads f)) data ++ drop (Z.to_nat (m_length_quads f)) buff in
  if appends_crc f then
    buff ← array_store (u32 (m_footprint_quads f - 1)) (fun _ => m_CRC32 f) buff;
    array_store (u32 (m_footprint_quads f - 2)) (fun _ => m_version f) buff
  else Some buff.

Section firmware_util.
Context {W : Type} `{EfcLink W} (uninit : Z).
Abbreviation M := (run (FwDevice W)).

Definition getFirmwareFromDevice (start len : Z) : M Firmware :=
  if len =? 0 then mret Firmware_new else
  '(ok, data) ← readFlash uninit start len (replicate (Z.to_nat len) uninit);
  if negb ok then mret Firmware_new else
  mret (Firmware_loadFromMemory data start Firmware_new).2.

Definition writeFirmwareToDevice (f : Firmware) : M bool :=
  match getWriteData f (replicate (Z.to_nat (getWriteDataLen f * 4)) uninit) with
  | None => fun _ => None
  | Some buff => writeFlash uninit (m_flash_offset_address f) (getWriteDataLen f) buff
  end.
End firmware_util.

Record dat_list := mkDatList { vendorid : Z; boxtype : Z; filenames : list string }.

Definition FW_VENDORID_ECHO : Z := 0x1486.

(** The constructor of [FirmwareUtil]. *)
Definition m_datlists : list dat_list :=
  [mkDatList FW_VENDORID_ECHO 0x000af2 ["Fireworks3"]%string;
   mkDatList FW_VENDORID_ECHO 0x000af4 ["Fireworks3"]%string;
   mkDatList FW_VENDORID_ECHO 0x000af8 ["bootstrap"; "audiofire8"; "audiofire8_E"; "FireworksARM"]%string;
   mkDatList FW_VENDORID_ECHO 0x00af12 ["bootstrap"; "audiofire12"; "audiofire12_E"; "FireworksARM"]%string].

(** [src.find(s)] finds [s]. *)
Fixpoint contains (s src : string) : bool :=
  String.prefix s src ||
  match src with
  | EmptyString => false
  | String _ src => contains s src
  end.

Definition isValidForDevice (vendor model : Z) (f : Firmware) : bool :=
  existsb (fun l => (boxtype l =? model) && (vendorid l =? vendor)
                    && existsb (fun name => contains (name ++ ".dat")%string (m_source f)) (filenames l)) m_datlists.

(** ** Firmware theorems *)

(** What is to be in the flash memory: the data and, where they are appended, the version and the
    checksum in the last two quadlets; [junk] fills the gap. *)
Definition firmware_image (f : Firmware) (data junk : list Z) : list Z :=
  if appends_crc f then data ++ take (Z.to_nat (m_footprint_quads f - m_length_quads f - 2)) junk ++ [m_version f; m_CRC32 f]
  else data.

(** There is room for both quadlets. *)
Definition firmware_fits (f : Firmware) (data : list Z) : Prop :=
  m_data f = Some data /\ zlength data = m_length_quads f /\ 0 <= m_footprint_quads f < 2 ^ 32
  /\ (appends_crc f = true -> m_length_quads f + 2 <= m_footprint_quads f).

Lemma array_store_at {A} (l1 : list A) (x : A) l2 f : array_store (zlength l1) f (l1 ++ x :: l2) = Some (l1 ++ f x :: l2).
Proof.
  unfold array_store. rewrite zlength_app. pose proof (zlength_nonneg l1). change (zlength (x :: l2)) with (Z.of_nat (S (length l2))).
  rewrite (proj2 (Z.leb_le _ _)), (proj2 (Z.ltb_lt _ _)) by lia. cbn [andb]. f_equal. unfold zlength. rewrite Nat2Z.id.
  rewrite <- (Nat.add_0_r (length l1)). by rewrite alter_app_r.
Qed.

Lemma getWriteData_spec f data junk : firmware_fits f data -> getWriteDataLen f <= zlength junk ->
  exists rest, getWriteData f junk
    = Some (firmware_image f data (drop (Z.to_nat (m_length_quads f)) junk) ++ rest)
  /\ zlength (firmware_image f data (drop (Z.to_nat (m_length_quads f)) junk)) = getWriteDataLen f.
Proof.
  intros (Ed & Ld & Rf & Ha) Lj. unfold getWriteData, getWriteDataLen, firmware_image in *. rewrite Ed. cbn [mbind option_bind].
  pose proof (zlength_nonneg data).
  assert (m_length_quads f <= zlength junk) as Lq.
  { unfold appends_crc in *. destruct (m_append_crc f); cbn [andb] in *; [|done]. destruct (Z.ltb_spec (m_length_quads f) (m_footprint_quads f)); lia. }
  rewrite (proj2 (Z.ltb_ge _ _)), (proj2 (Z.ltb_ge _ _)) by lia. cbn [orb]. rewrite take_ge by (unfold zlength in *; lia).
  destruct (appends_crc f); [|eexists; split; [done|done]].
  specialize (Ha eq_refl). set (l := drop (Z.to_nat (m_length_quads f)) junk).
  assert (zlength l = zlength junk - m_length_quads f) as Ll by (unfold l, zlength in *; rewrite length_drop; lia).
  set (g := Z.to_nat (m_footprint_quads f - m_length_quads f - 2)).
  rewrite !(wrapU_small 32) by lia.
  assert (exists x y r, l = take g l ++ x :: y :: r) as (x & y & r & El).
  { destruct (drop g l) as [|x [|y r]] eqn:E.
    1,2: apply (f_equal length) in E; rewrite length_drop in E; simpl in E; unfold zlength in *; lia.
    exists x, y, r. by rewrite <- E, take_drop. }
  set (h := take g l) in *. assert (zlength h = Z.of_nat g) as Lh by (unfold h, zlength in *; rewrite length_take; lia).
  exists r. rewrite El. split.
  - replace (m_footprint_quads f - 1) with (zlength (data ++ h ++ [x])) by (rewrite !zlength_app, Lh; unfold zlength at 2; simpl length; lia).
    replace (data ++ h ++ x :: y :: r) with ((data ++ h ++ [x]) ++ y :: r) by (by rewrite <- !app_assoc).
    rewrite array_store_at. cbn [mbind option_bind].
    replace (m_footprint_quads f - 2) with (zlength (data ++ h)) by (rewrite !zlength_app, Lh; lia).
    replace ((data ++ h ++ [x]) ++ m_CRC32 f :: r) with ((data ++ h) ++ x :: m_CRC32 f :: r) by (by rewrite <- !app_assoc).
    rewrite array_store_at. by rewrite <- !app_assoc.
  - rewrite !zlength_app, Lh. change (zlength [m_version f; m_CRC32 f]) with 2. lia.
Qed.

(** C35. A firmware update: erasing the blocks of a firmware image and writing it succeeds on a device
    whose flash memory works, and what is then read back from the same place is the data of the
    image, followed by its version and checksum where these are appended; without them it compares
    equal to the firmware that was written. *)
Theorem firmware_update_verifies {W} `{FlashDevice W} uninit f data q d :
  firmware_fits f data -> m_flash_offset_address f = 4 * q -> 0 <= q -> block_aligned q ->
  Forall quad_ok (firmware_image f data (replicate (Z.to_nat (getWriteDataLen f * 4 - m_length_quads f)) uninit)) ->
  0 < getWriteDataLen f -> 4 * (q + getWriteDataLen f) <= FLASH_SIZE_BYTES -> flash_busy (d_link d) = 0%nat ->
  exists d1 d2 d3 g,
    eraseFlashBlocks uninit (4 * q) (getWriteDataLen f) d = Some (true, d1)
    /\ writeFirmwareToDevice uninit f d1 = Some (true, d2)
    /\ getFirmwareFromDevice uninit (4 * q) (getWriteDataLen f) d2 = Some (g, d3)
    /\ m_data g = Some (firmware_image f data (replicate (Z.to_nat (getWriteDataLen f * 4 - m_length_quads f)) uninit))
    /\ (appends_crc f = false -> Firmware_eq f g = true).
Proof.
  intros Hf Ea Hq Al Qi Hn Hs B. set (n := getWriteDataLen f) in *.
  destruct (getWriteData_spec f data (replicate (Z.to_nat (n * 4)) uninit) Hf) as (rest & E & L).
  { unfold zlength. rewrite length_replicate. fold n. lia. }
  rewrite drop_replicate in E, L. pose proof Hf as (Ed & Ld & _ & _). pose proof (zlength_nonneg data).
  replace (Z.to_nat (n * 4) - Z.to_nat (m_length_quads f))%nat with (Z.to_nat (n * 4 - m_length_quads f)) in E, L by lia.
  set (img := firmware_image f data _) in *. fold n in L.
  assert (img <> []) as Ne by (intros C; rewrite C in L; unfold zlength in L; simpl in L; lia).
  destruct (update_spec uninit q img rest d) as (m & d1 & d2 & E1 & E2 & _ & _ & (_ & B2 & _) & R2 & _); try done; [by rewrite L|].
  destruct (readFlash_spec uninit q (Z.to_nat n) (replicate (Z.to_nat n) uninit) d2) as (d3 & E3 & _);
    rewrite ?length_replicate; try done; try lia.
  rewrite L in E1, E2. rewrite Z2Nat.id in E3 by lia.
  assert (length img = Z.to_nat n) as Li by (unfold zlength in L; lia). rewrite <- Li, R2 in E3.
  rewrite drop_ge, app_nil_r in E3 by (rewrite length_replicate; lia).
  exists d1, d2, d3, (Firmware_loadFromMemory img (4 * q) Firmware_new).2. split_and!; try done.
  - unfold writeFirmwareToDevice. fold n. by rewrite E, Ea.
  - unfold getFirmwareFromDevice. rewrite (proj2 (Z.eqb_neq n 0)) by lia. rewrite <- Li. by run_step with E3.
  - intros Ac. assert (img = data) as Ei by (unfold img, firmware_image; by rewrite Ac).
    unfold Firmware_eq. cbn [Firmware_loadFromMemory snd m_flash_offset_address m_length_quads m_data].
    rewrite Ea, Z.eqb_refl, Ed, Ei, Ld, Z.eqb_refl. cbn [negb]. by apply bool_decide_eq_true_2.
Qed.

Definition example_firmware : Firmware :=
  mkFirmware "/tmp/Fireworks3.dat"%string eDT_Data 0x10000 3 0xCAFE 0 0x05070000 true 6 (Some [1; 2; 3]) true.

Lemma firmware_update_verifies_witness :
  exists d1 d2 d3 g,
    eraseFlashBlocks 0xAA (4 * 0x4000) 6 bench_start = Some (true, d1)
    /\ writeFirmwareToDevice 0xAA example_firmware d1 = Some (true, d2)
    /\ getFirmwareFromDevice 0xAA (4 * 0x4000) 6 d2 = Some (g, d3)
    /\ m_data g = Some [1; 2; 3; 0xAA; 0x05070000; 0xCAFE]
    /\ (appends_crc example_firmware = false -> Firmware_eq example_firmware g = true).
Proof.
  refine (firmware_update_verifies 0xAA example_firmware [1; 2; 3] 0x4000 bench_start _ _ _ _ _ _ _ _); try done.
  replace (firmware_image _ _ _) with [1; 2; 3; 0xAA; 0x05070000; 0xCAFE] by (by vm_compute). quads_ok; split; done.
Defined.

(** With one free quadlet only, the version overwrites the last quadlet of the data. *)
Lemma version_overwrites_data f l x junk : m_data f = Some (l ++ [x]) -> zlength (l ++ [x]) = m_length_quads f ->
  m_append_crc f = true -> m_footprint_quads f = m_length_quads f + 1 -> m_footprint_quads f < 2 ^ 32 ->
  zlength junk = m_footprint_quads f ->
  getWriteData f junk = Some (l ++ [m_version f; m_CRC32 f]).
Proof.
  intros Ed Ld Ea Ef Hf Lj. unfold getWriteData, appends_crc. rewrite Ed, Ea. cbn [mbind option_bind andb].
  rewrite (proj2 (Z.ltb_ge _ _)), (proj2 (Z.ltb_ge _ _)) by lia. cbn [orb]. rewrite (proj2 (Z.ltb_lt _ _)) by lia.
  rewrite take_ge by (unfold zlength in *; lia). pose proof (zlength_nonneg l). rewrite zlength_app in Ld. change (zlength [x]) with 1 in Ld.
  rewrite !(wrapU_small 32) by lia.
  assert (exists y, drop (Z.to_nat (m_length_quads f)) junk = [y]) as (y & ->).
  { destruct (drop (Z.to_nat (m_length_quads f)) junk) as [|y [|z r]] eqn:E; apply (f_equal length) in E;
      rewrite length_drop in E; simpl in E; unfold zlength in *; try lia. by exists y. }
  replace (m_footprint_quads f - 1) with (zlength (l ++ [x])) by (rewrite zlength_app; change (zlength [x]) with 1; lia).
  rewrite array_store_at. cbn [mbind option_bind]. replace (m_footprint_quads f - 2) with (zlength l) by lia.
  rewrite <- app_assoc. cbn [app]. by rewrite array_store_at.
Qed.

(** ** Mixer registers *)

(** A device that keeps one register for each target, command and channel. *)
Class MixerDevice (W : Type) `{MixerLink W} := {
  mixer_reg : W -> eMixerTarget -> eMixerCommand -> Z -> Z;
  mixer_set_law w c : mx_type c = eCT_Set ->
    exists b w', do_mixer c w = Some ((true, mkMixer b (mx_channel c) (mx_value c) (mx_type c) (mx_target c) (mx_command c)), w')
    /\ (forall t k ch, mixer_reg w' t k ch
          = if bool_decide (t = mx_target c /\ k = mx_command c /\ ch = mx_channel c) then mx_value c else mixer_reg w t k ch);
  mixer_get_law w c : mx_type c = eCT_Get ->
    exists b w', do_mixer c w = Some ((true, mkMixer b (mx_channel c) (mixer_reg w (mx_target c) (mx_command c) (mx_channel c))
                                              (mx_type c) (mx_target c) (mx_command c)), w')
    /\ (forall t k ch, mixer_reg w' t k ch = mixer_reg w t k ch);
}.

(** The arrays of the session have their sizes. *)
Definition session_arrays (s : Session) : Prop :=
  zlength (playbackgains (ss_h s)) = 40 /\ zlength (outputgains (ss_h s)) = 40
  /\ zlength (inputs (ss_s s)) = 40 /\ zlength (playbacks (ss_s s)) = 40 /\ zlength (outputs (ss_s s)) = 40.

Section mixer_theorems.
Context {W : Type} `{MixerDevice W}.

Lemma send_Some {A} (m : run W A) (u : FwUnit W) a w : m (d_link (un_device u)) = Some (a, w) ->
  send m u = Some (a, mkUnit (with_link w (un_device u)) (un_session u)).
Proof. intros E. unfold send, on_device. by rewrite (on_link_Some _ _ _ _ E). Qed.

Lemma array_store_in_range {A} i f (l : list A) : 0 <= i < zlength l -> array_store i f l = Some (alter f (Z.to_nat i) l).
Proof. intros Hi. unfold array_store. by rewrite (proj2 (Z.leb_le _ _)), (proj2 (Z.ltb_lt _ _)) by lia. Qed.

Lemma binary_session_defined c s : session_arrays s -> 0 <= mx_channel c < 40 -> exists s', binary_session c s = Some s'.
Proof.
  intros (? & ? & ? & ? & ?) Hc. unfold binary_session.
  destruct (mx_target c), (mx_command c); rewrite ?array_store_in_range by lia; by eexists.
Qed.

Lemma simple_session_defined c s : session_arrays s -> 0 <= mx_channel c < 40 -> exists s', simple_session c s = Some s'.
Proof.
  intros (? & ? & ? & ? & ?) Hc. unfold simple_session.
  destruct (mx_target c), (mx_command c); rewrite ?array_store_in_range by lia; by eexists.
Qed.

(** What a set of an on-off control leaves in the register of the device. *)
Definition written_reg (bit val old : Z) : Z :=
  if val =? 0 then old .& (Z.lxor 0xFFFFFFFF (u32 (1 << bit))) else old .| u32 (1 << bit).

Lemma binary_set_spec bit val slave (u : FwUnit W) : session_arrays (un_session u) -> 0 <= mx_channel slave < 40 ->
  exists slave' u', BinaryControl_setValue bit val slave u = Some ((true, slave'), u')
  /\ mixer_reg (d_link (un_device u')) (mx_target slave) (mx_command slave) (mx_channel slave)
     = written_reg bit val (mx_value slave)
  /\ mx_target slave' = mx_target slave /\ mx_command slave' = mx_command slave /\ mx_channel slave' = mx_channel slave
  /\ mx_value slave' = written_reg bit val (mx_value slave).
Proof.
  intros Hs Hc. unfold BinaryControl_setValue. cbn [mixer_setType fst snd mx_value]. fold (written_reg bit val (mx_value slave)).
  set (c := set_mixer_value _ _). destruct (mixer_set_law (d_link (un_device u)) c eq_refl) as (b & w & E & R).
  run_step with (send_Some _ u _ _ E). cbn beta iota. cbn [negb]. set (slave' := mkMixer b _ _ _ _ _).
  destruct (binary_session_defined slave' (un_session u) Hs Hc) as (s' & Es).
  erewrite run_bind_Some; [|unfold update_session; cbn [un_session]; by rewrite Es].
  eexists _, _. split; [done|]. cbn [un_device with_link d_link]. rewrite R.
  rewrite bool_decide_eq_true_2 by done. done.
Qed.

Lemma binary_get_spec bit slave (u : FwUnit W) :
  (mx_target slave, mx_command slave) <> (eMT_PhysicalInputMix, eMC_Nominal) ->
  exists slave' u', BinaryControl_getValue bit slave u
    = Some ((Z.b2z (negb (mixer_reg (d_link (un_device u)) (mx_target slave) (mx_command slave) (mx_channel slave)
                          .& u32 (1 << bit) =? 0)), slave'), u').
Proof.
  intros Hn. unfold BinaryControl_getValue.
  destruct (mixer_get_law (d_link (un_device u)) (mixer_setType eCT_Get slave).2 eq_refl) as (b & w & E & R).
  destruct (mx_target slave) eqn:ET, (mx_command slave) eqn:EC; try done; eexists _, _;
    run_step with (send_Some _ u _ _ E); cbn [mixer_setType fst snd mx_target mx_command mx_channel]; rewrite ?ET, ?EC; done.
Qed.
End mixer_theorems.

(** An on-off control and its register: setting the control of a new object and reading it gives
    the value back, on a device that stores what it is sent; but the register is not read before it
    is written, so that of what it held nothing is left but the bit of the control. *)
Theorem binary_control_overwrites {W} `{MixerDevice W} target command channel bit val (u : FwUnit W) :
  session_arrays (un_session u) -> 0 <= channel < 40 -> 0 <= bit < 32 ->
  (target, command) <> (eMT_PhysicalInputMix, eMC_Nominal) ->
  exists slave1 slave2 u1 u2,
    BinaryControl_setValue bit val (EfcGenericMixerCmd_new target command channel) u = Some ((true, slave1), u1)
    /\ mixer_reg (d_link (un_device u1)) target command channel = (if val =? 0 then 0 else 2 ^ bit)
    /\ BinaryControl_getValue bit slave1 u1 = Some ((if val =? 0 then 0 else 1, slave2), u2).
Proof.
  intros Hs Hc Hb Hn.
  destruct (binary_set_spec bit val (EfcGenericMixerCmd_new target command channel) u Hs Hc) as (s1 & u1 & E1 & R1 & T1 & C1 & K1 & _).
  cbn [EfcGenericMixerCmd_new mixer_setType mixer_setCommand mixer_setTarget fst snd mx_target mx_command mx_channel mx_value] in *.
  destruct (binary_get_spec bit s1 u1) as (s2 & u2 & E2); [by rewrite T1, C1|].
  assert (u32 (1 << bit) = 2 ^ bit) as Ep.
  { rewrite Z.shiftl_1_l. apply wrapU_small. split; [lia|]. apply Z.pow_lt_mono_r; lia. }
  rewrite T1, C1, K1, R1 in E2. unfold written_reg in E2, R1. rewrite Ep, Z.land_0_l, Z.lor_0_l in R1, E2.
  exists s1, s2, u1, u2. split_and!; [done|by rewrite R1|]. rewrite E2. destruct (val =? 0); [done|].
  rewrite Z.land_diag, (proj2 (Z.eqb_neq _ 0)) by lia. done.
Qed.

(** A device whose registers all hold 0xF0. *)
Record reg_bench := mkRegs { rb_regs : eMixerTarget -> eMixerCommand -> Z -> Z }.

Definition reg_mixer (c : EfcGenericMixerCmd) : run reg_bench (bool * EfcGenericMixerCmd) := fun w =>
  match mx_type c with
  | eCT_Set => Some ((true, c), mkRegs (fun t k ch =>
      if bool_decide (t = mx_target c /\ k = mx_command c /\ ch = mx_channel c) then mx_value c else rb_regs w t k ch))
  | eCT_Get => Some ((true, mkMixer (mx_base c) (mx_channel c) (rb_regs w (mx_target c) (mx_command c) (mx_channel c))
                              (mx_type c) (mx_target c) (mx_command c)), w)
  end.

#[local] Instance reg_link : MixerLink reg_bench := {|
  do_mixer := reg_mixer;
  do_monitor c := fun w => Some ((false, c), w);
  do_get_flags c := fun w => Some ((false, c), w);
  do_change_flags c := fun w => Some ((false, c), w);
  do_ioconfig c := fun w => Some ((false, c), w);
  do_isocmap c := fun w => Some ((false, c), w);
  do_identify c := fun w => Some ((false, c), w);
|}.

#[local, refine] Instance reg_device : MixerDevice reg_bench := { mixer_reg := rb_regs }.
Proof.
  - intros w [b ch v ty t k] Ec. cbn in Ec. subst ty. by eexists _, _.
  - intros w c Ec. eexists _, _. cbn [do_mixer reg_link]. unfold reg_mixer. rewrite Ec. done.
Defined.

Definition example_unit : FwUnit reg_bench :=
  mkUnit (mkDev (EfcHardwareInfoCmd_new 0xAA) (EfcPolledValuesCmd_new 0xAA) (-1) false (mkRegs (fun _ _ _ => 0xF0))) example_session.

Lemma binary_control_overwrites_witness :
  mixer_reg (d_link (un_device example_unit)) eMT_PhysicalOutputMix eMC_Nominal 3 = 0xF0 /\
  exists slave1 slave2 u1 u2,
    BinaryControl_setValue 1 1 (EfcGenericMixerCmd_new eMT_PhysicalOutputMix eMC_Nominal 3) example_unit = Some ((true, slave1), u1)
    /\ mixer_reg (d_link (un_device u1)) eMT_PhysicalOutputMix eMC_Nominal 3 = 2
    /\ BinaryControl_getValue 1 slave1 u1 = Some ((1, slave2), u2).
Proof.
  split; [done|].
  apply (binary_control_overwrites eMT_PhysicalOutputMix eMC_Nominal 3 1 1 example_unit); [split_and!; done|lia|lia|done].
Defined.

(** A monitor command that the device refuses still changes the session. *)
Lemma monitor_refused_stored {W} `{MixerLink W} row col val (u : FwUnit W) b w row_gains :
  0 <= row < i32 (hi_nb_phys_audio_in (d_HwInfo (un_device u))) ->
  0 <= col < i32 (hi_nb_phys_audio_out (d_HwInfo (un_device u))) -> 0 <= val < 2 ^ 32 ->
  do_monitor (monitor_cmd eCT_Set eMoC_Gain row col val) (d_link (un_device u))
    = Some ((false, mkMonitor b row col val eCT_Set eMoC_Gain), w) ->
  monitorgains (ss_h (un_session u)) !! Z.to_nat row = Some row_gains -> col < zlength row_gains ->
  exists u', MonitorControl_setValue eMoC_Gain row col val u = Some (val, u')
  /\ monitorgains (ss_h (un_session u'))
     = <[Z.to_nat row := alter (fun _ => val) (Z.to_nat col) row_gains]> (monitorgains (ss_h (un_session u))).
Proof.
  intros Hr Hc Hv E Er Hcl. unfold MonitorControl_setValue. run_step.
  rewrite (proj2 (Z.leb_gt _ row)), (proj2 (Z.leb_gt _ col)) by lia. cbn [orb].
  erewrite run_bind_Some; [|unfold assert_that; by rewrite (proj2 (Z.leb_le 0 val)), (proj2 (Z.ltb_lt val _)) by lia].
  run_step with (send_Some _ u _ _ E). cbn beta iota. cbn [mo_value]. pose proof (lookup_lt_Some _ _ _ Er).
  assert (array_store2 row col (fun _ => val) (monitorgains (ss_h (un_session u)))
    = Some (<[Z.to_nat row := alter (fun _ => val) (Z.to_nat col) row_gains]> (monitorgains (ss_h (un_session u))))) as Es.
  { unfold array_store2. rewrite (proj2 (Z.leb_le 0 row)), (proj2 (Z.ltb_lt row _)) by (unfold zlength; lia). cbn [andb]. rewrite Er.
    cbn [mbind option_bind]. by rewrite array_store_in_range by lia. }
  erewrite run_bind_Some; [|unfold update_session; cbn [un_session monitor_session]; rewrite Es; done].
  eexists. split; done.
Qed.
