(* ===== verification/Ports.v ===== *)
(** * Ports

    Model of [src/libstreaming/generic/Port.cpp], [Port.h] and [PortManager.cpp]: the ports
    that connect a stream to the client's buffers, and the collection a stream processor
    keeps of them.  A port is identified by its address.  The update handlers are the
    functors' addresses, and calling them is recorded in [handler_calls].  Verbosity is
    left out. *)
From stdpp Require Export strings pretty.
From S2P Require Import Prelude.

Inductive E_PortType := E_Audio | E_Midi | E_Control.
Inductive E_Direction := E_Playback | E_Capture.
Inductive E_States := E_Created | E_Initialized | E_Running | E_Error.

#[export] Instance E_PortType_eq_dec : EqDecision E_PortType.
Proof. solve_decision. Defined.
#[export] Instance E_States_eq_dec : EqDecision E_States.
Proof. solve_decision. Defined.

(** [m_buffer] is the client's buffer: its 32-bit words, or [None] for [NULL]. *)
Record Port := mkPort {
  port_this : Z;
  m_Name : string;
  m_disabled : bool;
  m_buffersize : Z;
  m_PortType : E_PortType;
  m_Direction : E_Direction;
  m_buffer : option (list Z);
  port_State : E_States;
}.

Definition with_name (name : string) (p : Port) : Port :=
  mkPort (port_this p) name (m_disabled p) (m_buffersize p) (m_PortType p) (m_Direction p) (m_buffer p) (port_State p).
Definition with_buffer (buf : option (list Z)) (p : Port) : Port :=
  mkPort (port_this p) (m_Name p) (m_disabled p) (m_buffersize p) (m_PortType p) (m_Direction p) buf (port_State p).

Definition Port_init (p : Port) : bool * Port :=
  if decide (port_State p <> E_Created) then (false, p) else
  if m_buffersize p =? 0 then (false, p) else
  (true, mkPort (port_this p) (m_Name p) (m_disabled p) (m_buffersize p) (m_PortType p) (m_Direction p) (m_buffer p)
           E_Initialized).

Definition Port_reset (p : Port) : bool * Port := (true, p).
Definition Port_prepare (p : Port) : bool * Port := (true, p).

Definition setName (name : string) (p : Port) : bool * Port :=
  if decide (port_State p <> E_Created) then (false, p) else (true, with_name name p).

Definition Port_setBufferSize (newsize : Z) (p : Port) : bool * Port :=
  if bool_decide (port_State p <> E_Created) && negb (m_disabled p) then (false, p) else
  (true, mkPort (port_this p) (m_Name p) (m_disabled p) newsize (m_PortType p) (m_Direction p) (m_buffer p)
           (port_State p)).

Definition setBufferAddress (buf : option (list Z)) (p : Port) : Port := with_buffer buf p.

Definition Port_enable (p : Port) : Port :=
  mkPort (port_this p) (m_Name p) false (m_buffersize p) (m_PortType p) (m_Direction p) (m_buffer p) (port_State p).
Definition Port_disable (p : Port) : Port :=
  mkPort (port_this p) (m_Name p) true (m_buffersize p) (m_PortType p) (m_Direction p) (m_buffer p) (port_State p).

(** ** The collection *)

Record PortManager := mkPM {
  m_Ports : list Port;
  m_UpdateHandlers : list Z;
  handler_calls : list Z;
}.

Definition PortManager_new : PortManager := mkPM [] [] [].

Definition with_ports (ps : list Port) (m : PortManager) : PortManager :=
  mkPM ps (m_UpdateHandlers m) (handler_calls m).

Definition callUpdateHandlers (m : PortManager) : PortManager :=
  mkPM (m_Ports m) (m_UpdateHandlers m) (handler_calls m ++ m_UpdateHandlers m).

Definition max_names : nat := Z.to_nat 10000.

(** [while (!done && idx < 10000)], with [rounds] the rounds that are left, so [idx = 10000 - rounds]. *)
Fixpoint unique_rounds (rounds : nat) (names : list string) (portname_orig : string) (p : Port) : bool * Port :=
  match rounds with
  | O => (false, p)
  | S rounds =>
      if decide (m_Name p ∈ names)
      then unique_rounds rounds names portname_orig
             (setName (portname_orig +:+ pretty (max_names - S rounds)%nat) p).2
      else (true, p)
  end.

Definition makeNameUnique (m : PortManager) (p : Port) : bool * Port :=
  unique_rounds max_names (m_Name <$> m_Ports m) (m_Name p) p.

Definition registerPort (p : Port) (m : PortManager) : bool * PortManager :=
  let '(ok, p) := makeNameUnique m p in
  if ok then (true, callUpdateHandlers (with_ports (m_Ports m ++ [p]) m)) else (false, m).

(** The first element with the given address is erased. *)
Fixpoint erase_first {A} (addr : A -> Z) (a : Z) (l : list A) : option (list A) :=
  match l with
  | [] => None
  | x :: l => if addr x =? a then Some l else l ← erase_first addr a l; Some (x :: l)
  end.

Definition unregisterPort (port : Z) (m : PortManager) : bool * PortManager :=
  match erase_first port_this port (m_Ports m) with
  | Some ps => (true, callUpdateHandlers (with_ports ps m))
  | None => (false, m)
  end.

(** The constructor registers the port and drops the result. *)
Definition Port_new (this : Z) (name : string) (porttype : E_PortType) (direction : E_Direction) (m : PortManager) :
    PortManager :=
  (registerPort (mkPort this name true 0 porttype direction None E_Created) m).2.

Definition getPortCount (type : E_PortType) (m : PortManager) : Z :=
  zlength (filter (fun p => m_PortType p = type) (m_Ports m)).
Definition getPortCount_all (m : PortManager) : Z := zlength (m_Ports m).

(** [None] is the exception of [at]. *)
Definition getPortAtIdx (index : Z) (m : PortManager) : option Port := m_Ports m !! Z.to_nat index.

(** A loop over the ports that stops at the first port for which the call fails. *)
Fixpoint each_port (f : Port -> bool * Port) (ps : list Port) : bool * list Port :=
  match ps with
  | [] => (true, [])
  | p :: ps =>
      let '(ok, p) := f p in
      if ok then let '(ok, ps) := each_port f ps in (ok, p :: ps) else (false, p :: ps)
  end.

Definition resetPorts (m : PortManager) : bool * PortManager :=
  let '(ok, ps) := each_port Port_reset (m_Ports m) in (ok, with_ports ps m).
Definition initPorts (m : PortManager) : bool * PortManager :=
  let '(ok, ps) := each_port Port_init (m_Ports m) in (ok, with_ports ps m).
Definition preparePorts (m : PortManager) : bool * PortManager :=
  let '(ok, ps) := each_port Port_prepare (m_Ports m) in (ok, with_ports ps m).

Definition addPortManagerUpdateHandler (f : Z) (m : PortManager) : bool * PortManager :=
  (true, mkPM (m_Ports m) (m_UpdateHandlers m ++ [f]) (handler_calls m)).

Definition remPortManagerUpdateHandler (f : Z) (m : PortManager) : bool * PortManager :=
  match erase_first id f (m_UpdateHandlers m) with
  | Some hs => (true, mkPM (m_Ports m) hs (handler_calls m))
  | None => (false, m)
  end.

(** ** Unique names *)

(** The names tried after the first one. *)
Definition candidate (orig : string) (i : nat) : string := orig +:+ pretty i.

Lemma candidate_inj orig i j : candidate orig i = candidate orig j -> i = j.
Proof.
  unfold candidate. induction orig as [|a s IH]; simpl; intros E; [by apply (inj pretty)|].
  injection E as E. by apply IH.
Qed.

Lemma pretty_N_go_nonempty x s : s <> "" -> pretty_N_go x s <> "".
Proof.
  revert s. induction (N.lt_wf_0 x) as [x _ IH]; intros s Hs.
  assert (x = 0 \/ 0 < x)%N as [->|Hx] by lia; [by rewrite pretty_N_go_0|].
  rewrite pretty_N_go_step by done. apply IH; [by apply N.div_lt|done].
Qed.

Lemma pretty_nonempty (i : nat) : pretty i <> "".
Proof.
  unfold pretty, pretty_nat, pretty, pretty_N. case_decide; [done|].
  rewrite pretty_N_go_step by lia. by apply pretty_N_go_nonempty.
Qed.

Lemma candidate_ne orig i : candidate orig i <> orig.
Proof.
  unfold candidate. induction orig as [|a s IH]; simpl; [apply pretty_nonempty|].
  intros [= E]. by apply IH.
Qed.

(** What the search returns: a port whose name is free and was otherwise left alone; it
    fails only after all names tried were taken. *)
Lemma unique_rounds_spec rounds names orig p : (rounds <= max_names)%nat -> port_State p = E_Created ->
  match unique_rounds rounds names orig p with
  | (true, p') => (m_Name p' ∉ names) /\ p' = with_name (m_Name p') p
  | (false, _) => forall i, (i < rounds)%nat ->
      (if decide (i = 0)%nat then m_Name p else candidate orig (max_names - rounds + i - 1)) ∈ names
  end.
Proof.
  revert p. induction rounds as [|r IH]; intros p Hr Hc; cbn [unique_rounds]; [intros; lia|].
  destruct (decide (m_Name p ∈ names)) as [Hin|Hin]; [|split; [done|by destruct p]].
  unfold setName. rewrite decide_False by auto. cbn [snd].
  specialize (IH (with_name (candidate orig (max_names - S r)) p) ltac:(lia) Hc).
  fold (candidate orig (max_names - S r)).
  destruct (unique_rounds r names orig _) as [[] p']; [by destruct IH|].
  intros i Hi. case_decide as D; [done|].
  specialize (IH (i - 1)%nat ltac:(lia)). case_decide as D'.
  - cbn [m_Name with_name] in IH. replace (max_names - S r + i - 1)%nat with (max_names - S r)%nat by lia. done.
  - replace (max_names - S r + i - 1)%nat with (max_names - r + (i - 1) - 1)%nat by lia. done.
Qed.

(** All the names tried, without repetition. *)
Definition tried (orig : string) : list string := orig :: (candidate orig <$> seq 0 (max_names - 1)).

Lemma tried_nodup orig : NoDup (tried orig).
Proof.
  constructor.
  - intros (i & E & _)%list_elem_of_fmap. by apply (candidate_ne orig i).
  - apply NoDup_fmap_2_strong; [|apply NoDup_seq]. intros. by eapply candidate_inj.
Qed.

Lemma makeNameUnique_total m p : port_State p = E_Created -> (length (m_Ports m) < max_names)%nat ->
  (makeNameUnique m p).1 = true.
Proof.
  intros Hc Hl. unfold makeNameUnique. set (names := m_Name <$> m_Ports m).
  pose proof (unique_rounds_spec max_names names (m_Name p) p ltac:(lia) Hc) as S.
  destruct (unique_rounds _ _ _ _) as [[] p']; [done|]. exfalso.
  assert (tried (m_Name p) ⊆ names) as Hsub.
  { intros x [->|(i & -> & Hi%elem_of_seq)%list_elem_of_fmap]%elem_of_cons.
    - by apply (S 0%nat); lia.
    - specialize (S (i + 1)%nat ltac:(lia)). rewrite decide_False in S by lia.
      by replace (max_names - max_names + (i + 1) - 1)%nat with i in S by lia. }
  pose proof (NoDup_submseteq _ _ (tried_nodup (m_Name p)) (fun x => Hsub x)) as Hm.
  apply submseteq_length in Hm. unfold tried, names in Hm. cbn [length] in Hm.
  rewrite !length_fmap, length_seq in Hm. lia.
Qed.

(** Port names: registering a freshly created port succeeds as long as the manager holds fewer
    than 10000 ports, adds exactly that port at the end under a name that no other port
    has, and keeps the names of the registered ports pairwise distinct. *)
Theorem register_port_unique m p : port_State p = E_Created -> zlength (m_Ports m) < 10000 ->
  NoDup (m_Name <$> m_Ports m) ->
  exists name, registerPort p m = (true, callUpdateHandlers (with_ports (m_Ports m ++ [with_name name p]) m))
    /\ NoDup (m_Name <$> (m_Ports m ++ [with_name name p])).
Proof.
  intros Hc Hl Hn. pose proof (makeNameUnique_total m p Hc ltac:(unfold zlength, max_names in *; lia)) as T.
  unfold registerPort, makeNameUnique in *.
  pose proof (unique_rounds_spec max_names (m_Name <$> m_Ports m) (m_Name p) p ltac:(lia) Hc) as S.
  destruct (unique_rounds _ _ _ _) as [ok p']. simpl in T. subst ok. destruct S as [Hf Ep].
  exists (m_Name p'). rewrite <- Ep. split; [done|]. rewrite fmap_app. apply list.NoDup_app.
  split; [done|]. split; [|apply NoDup_singleton]. intros x Hx ->%list_elem_of_singleton. done.
Qed.

Lemma register_port_unique_witness :
  exists name, registerPort (mkPort 2 "out" true 0 E_Audio E_Playback None E_Created)
                 (mkPM [mkPort 1 "out" true 0 E_Audio E_Playback None E_Created] [] [])
    = (true, mkPM [mkPort 1 "out" true 0 E_Audio E_Playback None E_Created;
                   mkPort 2 name true 0 E_Audio E_Playback None E_Created] [] [])
    /\ NoDup ["out"; name].
Proof.
  apply (register_port_unique (mkPM [mkPort 1 "out" true 0 E_Audio E_Playback None E_Created] [] [])
           (mkPort 2 "out" true 0 E_Audio E_Playback None E_Created)); [reflexivity|done|apply NoDup_singleton].
Defined.
