(* ===== verification/StreamProcessor.v ===== *)
(** * The stream processor

    Model of [src/libstreaming/generic/StreamProcessor.cpp] and [StreamProcessor.h], the base class
    of every isochronous stream: its state machine, the packet handlers that drive it, the
    transfer of frames and the set-up of the data buffer.

    The object is the record [StreamProcessor]; what a subclass adds is a type [C] with an instance of
    [SPChild], and what the object reaches through its references (stream processor manager,
    ISO handler manager, 1394 service, memory) is a type [W] with an instance of [SPWorld].  A
    method is a [run] of the state [sp_state C W]; [None] is a failed [assert].
    [debug_build] is the compile-time switch [DEBUG], which enables a correction of
    timestamps in [putPacket].  Debug output and [m_max_fs_diff_norm], which only
    selects warnings, are left out. *)
From S2P Require Import Prelude CycleTimer RingBuffer Ieee754 TimestampedBuffer Ports.
#[local] Open Scope Z_scope.

Inductive eProcessorType := ePT_Receive | ePT_Transmit.

Inductive eProcessorState :=
  | ePS_Invalid
  | ePS_Created
  | ePS_Stopped
  | ePS_WaitingForStream
  | ePS_DryRunning
  | ePS_WaitingForStreamEnable
  | ePS_Running
  | ePS_WaitingForStreamDisable
  | ePS_Error.

Inductive eChildReturnValue :=
  | eCRV_OK | eCRV_Invalid | eCRV_Packet | eCRV_EmptyPacket | eCRV_XRun | eCRV_Again | eCRV_Defer | eCRV_Error.

Inductive raw1394_iso_disposition := RAW1394_ISO_OK | RAW1394_ISO_DEFER | RAW1394_ISO_ERROR.

#[export] Instance eProcessorType_eq_dec : EqDecision eProcessorType.
Proof. solve_decision. Defined.
#[export] Instance eProcessorState_eq_dec : EqDecision eProcessorState.
Proof. solve_decision. Defined.
#[export] Instance eChildReturnValue_eq_dec : EqDecision eChildReturnValue.
Proof. solve_decision. Defined.

Inductive eAudioDataType := eADT_Int24 | eADT_Float.

Definition STREAMPROCESSOR_DLL_FAST_BW_HZ : double := d_of_Z 5.
Definition STREAMPROCESSOR_DLL_BW_HZ : double := d_0_1.

(** The members of the class, in groups: the state machine, the timestamps, the settings. *)
Record sp_machine := mkMachine {
  m_state : eProcessorState;
  m_next_state : eProcessorState;
  m_cycle_to_switch_state : Z;
  m_in_xrun : bool;
}.

Record sp_times := mkTimes {
  m_last_timestamp : Z;
  m_last_timestamp2 : Z;
  m_correct_last_timestamp : bool;
}.

Record sp_settings := mkSettings {
  m_processor_type : eProcessorType;
  m_local_node_id : Z;
  m_channel : Z;
  m_ticks_per_frame : float;
  m_dll_bandwidth_hz : float;
  m_extra_buffer_frames : Z;
  m_max_diff_ticks : Z;
}.

(** [m_scratch_buffer] is [None] for [NULL]; its length is [m_scratch_buffer_size_bytes]. *)
Record StreamProcessor := mkSP {
  machine : sp_machine;
  times : sp_times;
  settings : sp_settings;
  m_data_buffer : TimestampedBuffer;
  m_scratch_buffer : option (list Z);
  ports : PortManager;
}.

Definition StreamProcessor_new (type : eProcessorType) : StreamProcessor :=
  mkSP (mkMachine ePS_Created ePS_Invalid 0 false) (mkTimes 0 0 false)
    (mkSettings type 0 (-1) (S754_zero false) (f_of_d STREAMPROCESSOR_DLL_BW_HZ) 0 50)
    TimestampedBuffer_new None PortManager_new.

Record sp_state (C W : Type) := mkState { sp : StreamProcessor; child : C; world : W }.
Arguments mkState {C W}.
Arguments sp {C W}.
Arguments child {C W}.
Arguments world {C W}.

(** What the object uses of its surroundings. *)
Class SPWorld (W : Type) := {
  getNbBuffers : W -> Z;
  getPeriodSize : W -> Z;
  getNominalRate : W -> Z;
  getAudioDataType : W -> eAudioDataType;
  signalActivity : W -> W;
  lockWaitLoop : W -> W;
  unlockWaitLoop : W -> W;
  registerProcessor : st W bool;
  registerStream : st W bool;
  signalActivityTransmit : W -> W;
  signalActivityReceive : W -> W;
  startHandlerForStream : Z -> st W bool;
  stopHandlerForStream : st W bool;
  getPacketLatencyForStream : W -> Z;
  getLocalNodeId : W -> Z;
  getCycleTimerTicks : st W Z;
  heap_junk : nat -> Z;
  debug_build : bool;
}.

(** A packet to be sent: the memory of the packet, and the length, tag and sy fields. *)
Record packet := mkPacket { p_data : list Z; p_length : Z; p_tag : Z; p_sy : Z }.

(** The methods a subclass provides. *)
Class SPChild (C W : Type) := {
  getEventsPerFrame : C -> Z;
  getEventSize : C -> Z;
  getNominalFramesPerPacket : C -> W -> Z;
  prepareChild : run (sp_state C W) bool;
  processPacketHeader : list Z -> Z -> Z -> Z -> Z -> run (sp_state C W) eChildReturnValue;
  processPacketData : list Z -> Z -> run (sp_state C W) eChildReturnValue;
  generatePacketHeader : packet -> Z -> run (sp_state C W) (eChildReturnValue * packet);
  generatePacketData : packet -> run (sp_state C W) (eChildReturnValue * packet);
  generateEmptyPacketHeader : packet -> Z -> run (sp_state C W) (eChildReturnValue * packet);
  generateEmptyPacketData : packet -> run (sp_state C W) (eChildReturnValue * packet);
  generateSilentPacketHeader : packet -> Z -> run (sp_state C W) (eChildReturnValue * packet);
  generateSilentPacketData : packet -> run (sp_state C W) (eChildReturnValue * packet);
  transmitSilenceBlock : list Z -> Z -> Z -> run (sp_state C W) (bool * list Z);
  block_client :: TimestampedBufferClient (sp_state C W);
}.

Section processor.
Context {C W : Type} `{SPWorld W} `{SPChild C W}.

Abbreviation M := (run (sp_state C W)).

(** ** Access to the members *)

Definition on_sp (f : StreamProcessor -> StreamProcessor) : M unit :=
  modify (fun s => mkState (f (sp s)) (child s) (world s)).
Definition on_world (f : W -> W) : M unit := modify (fun s => mkState (sp s) (child s) (f (world s))).
Definition call_world {A} (f : st W A) : M A :=
  fun s => let '(a, w) := f (world s) in Some (a, mkState (sp s) (child s) w).

Definition on_machine (f : sp_machine -> sp_machine) : M unit :=
  on_sp (fun p => mkSP (f (machine p)) (times p) (settings p) (m_data_buffer p) (m_scratch_buffer p) (ports p)).
Definition on_times (f : sp_times -> sp_times) : M unit :=
  on_sp (fun p => mkSP (machine p) (f (times p)) (settings p) (m_data_buffer p) (m_scratch_buffer p) (ports p)).
Definition on_settings (f : sp_settings -> sp_settings) : M unit :=
  on_sp (fun p => mkSP (machine p) (times p) (f (settings p)) (m_data_buffer p) (m_scratch_buffer p) (ports p)).
Definition on_buffer (f : TimestampedBuffer -> TimestampedBuffer) : M unit :=
  on_sp (fun p => mkSP (machine p) (times p) (settings p) (f (m_data_buffer p)) (m_scratch_buffer p) (ports p)).
Definition set_scratch (b : option (list Z)) : M unit :=
  on_sp (fun p => mkSP (machine p) (times p) (settings p) (m_data_buffer p) b (ports p)).

(** A call on the data buffer that may fail an [assert]. *)
Definition call_buffer {A} (f : TimestampedBuffer -> option (A * TimestampedBuffer)) : M A := fun s =>
  let p := sp s in
  '(a, b) ← f (m_data_buffer p);
  Some (a, mkState (mkSP (machine p) (times p) (settings p) b (m_scratch_buffer p) (ports p)) (child s) (world s)).

Definition call_ports {A} (f : PortManager -> A * PortManager) : M A := fun s =>
  let p := sp s in
  let '(a, m) := f (ports p) in
  Some (a, mkState (mkSP (machine p) (times p) (settings p) (m_data_buffer p) (m_scratch_buffer p) m) (child s) (world s)).

Definition set_state (x : eProcessorState) : M unit :=
  on_machine (fun m => mkMachine x (m_next_state m) (m_cycle_to_switch_state m) (m_in_xrun m)).
Definition set_next_state (x : eProcessorState) : M unit :=
  on_machine (fun m => mkMachine (m_state m) x (m_cycle_to_switch_state m) (m_in_xrun m)).
Definition set_cycle_to_switch_state (x : Z) : M unit :=
  on_machine (fun m => mkMachine (m_state m) (m_next_state m) x (m_in_xrun m)).
Definition set_in_xrun (x : bool) : M unit :=
  on_machine (fun m => mkMachine (m_state m) (m_next_state m) (m_cycle_to_switch_state m) x).
Definition set_last_timestamp (x : Z) : M unit :=
  on_times (fun t => mkTimes x (m_last_timestamp2 t) (m_correct_last_timestamp t)).
Definition set_last_timestamp2 (x : Z) : M unit :=
  on_times (fun t => mkTimes (m_last_timestamp t) x (m_correct_last_timestamp t)).
Definition set_correct_last_timestamp (x : bool) : M unit :=
  on_times (fun t => mkTimes (m_last_timestamp t) (m_last_timestamp2 t) x).
Definition set_local_node_id (x : Z) : M unit :=
  on_settings (fun g => mkSettings (m_processor_type g) x (m_channel g) (m_ticks_per_frame g) (m_dll_bandwidth_hz g)
    (m_extra_buffer_frames g) (m_max_diff_ticks g)).
Definition set_ticks_per_frame (x : float) : M unit :=
  on_settings (fun g => mkSettings (m_processor_type g) (m_local_node_id g) (m_channel g) x (m_dll_bandwidth_hz g)
    (m_extra_buffer_frames g) (m_max_diff_ticks g)).

Definition get_state : M eProcessorState := gets (fun s => m_state (machine (sp s))).
Definition get_next_state : M eProcessorState := gets (fun s => m_next_state (machine (sp s))).
Definition get_cycle_to_switch_state : M Z := gets (fun s => m_cycle_to_switch_state (machine (sp s))).
Definition get_last_timestamp : M Z := gets (fun s => m_last_timestamp (times (sp s))).
Definition get_last_timestamp2 : M Z := gets (fun s => m_last_timestamp2 (times (sp s))).
Definition getType : M eProcessorType := gets (fun s => m_processor_type (settings (sp s))).
Definition from_world {A} (f : W -> A) : M A := gets (fun s => f (world s)).
Definition from_buffer {A} (f : TimestampedBuffer -> A) : M A := gets (fun s => f (m_data_buffer (sp s))).

Definition SIGNAL_ACTIVITY_ISO_XMIT : M unit := on_world signalActivityTransmit.
Definition SIGNAL_ACTIVITY_ISO_RECV : M unit := on_world signalActivityReceive.
Definition SIGNAL_ACTIVITY_ALL : M unit :=
  on_world (fun w => signalActivityReceive (signalActivityTransmit (signalActivity w))).

(** ** Settings *)

Definition setChannel (c : Z) : M bool :=
  on_settings (fun g => mkSettings (m_processor_type g) (m_local_node_id g) c (m_ticks_per_frame g)
    (m_dll_bandwidth_hz g) (m_extra_buffer_frames g) (m_max_diff_ticks g)) ;;
  mret true.

Definition setExtraBufferFrames (frames : Z) : M unit :=
  on_settings (fun g => mkSettings (m_processor_type g) (m_local_node_id g) (m_channel g) (m_ticks_per_frame g)
    (m_dll_bandwidth_hz g) frames (m_max_diff_ticks g)).

Definition setDllBandwidth (bw : float) : M bool :=
  on_settings (fun g => mkSettings (m_processor_type g) (m_local_node_id g) (m_channel g) (m_ticks_per_frame g)
    bw (m_extra_buffer_frames g) (m_max_diff_ticks g)) ;;
  mret true.

Definition getTicksPerFrame : M float := from_buffer getRate.
Definition setTicksPerFrame (tpf : float) : M unit := on_buffer (setRate tpf).

(** ** The data buffer *)

(** [getNbBuffers() * getPeriodSize() + m_extra_buffer_frames] *)
Definition buffered_frames : M Z :=
  nb ← from_world getNbBuffers; period ← from_world getPeriodSize;
  extra ← gets (fun s => m_extra_buffer_frames (settings (sp s)));
  mret (u32 (u32 (nb * period) + extra)).

Definition setupDataBuffer : M bool :=
  frames ← buffered_frames;
  set_correct_last_timestamp false ;;
  on_buffer (setBufferSize (u32 (frames + 1))) ;;
  es ← gets (fun s => getEventSize (child s)); on_buffer (setEventSize es) ;;
  ev ← gets (fun s => getEventsPerFrame (child s)); on_buffer (setEventsPerFrame ev) ;;
  type ← getType;
  period ← (if decide (type = ePT_Receive) then gets (fun s => getNominalFramesPerPacket (child s) (world s))
            else from_world getPeriodSize);
  on_buffer (setUpdatePeriod period) ;;
  tpf ← gets (fun s => m_ticks_per_frame (settings (sp s)));
  if dgt tpf (S754_zero false) then
    on_buffer (setNominalRate tpf) ;;
    on_buffer (setWrapValue (d_of_Z (128 * TICKS_PER_SECOND))) ;;
    ok1 ← call_buffer (fun b => Some (setBandwidth (ddiv STREAMPROCESSOR_DLL_FAST_BW_HZ (d_of_Z TICKS_PER_SECOND)) b));
    ok2 ← call_buffer (TimestampedBuffer.prepare heap_junk);
    mret (ok1 && ok2)
  else mret true.

Definition SP_getBufferHeadTimestamp : M (double * Z) := from_buffer getBufferHeadTimestamp.
Definition SP_getBufferTailTimestamp : M (double * Z) := from_buffer getBufferTailTimestamp.
Definition SP_setBufferTailTimestamp (ts : double) : M unit := on_buffer (setBufferTailTimestamp ts).
Definition SP_setBufferHeadTimestamp (ts : double) : M unit := on_buffer (setBufferHeadTimestamp ts).
Definition SP_getBufferFill : M Z := b ← from_buffer getBufferFill; mret (i32 b).
Definition getExtraBufferFrames : M Z := gets (fun s => m_extra_buffer_frames (settings (sp s))).

(** Silence for the prefill of a transmit buffer: freshly allocated zeroes, encoded by the child. *)
Definition transferSilence (nframes : Z) : M bool :=
  es ← gets (fun s => getEventSize (child s)); ev ← gets (fun s => getEventsPerFrame (child s));
  '(_, dummybuffer) ← transmitSilenceBlock (replicate (Z.to_nat (es * u32 (nframes * ev))) 0) nframes 0;
  call_buffer (preloadFrames nframes dummybuffer true).

(** ** The state machine *)

Definition doStop : M bool :=
  st ← get_state;
  r ← (match st with
       | ePS_Created =>
           rate ← from_world getNominalRate;
           set_ticks_per_frame (f_of_d (ddiv (d_of_Z TICKS_PER_SECOND) (d_of_f (f_of_Z rate)))) ;;
           id ← from_world getLocalNodeId; set_local_node_id (id .& 0x3f) ;;
           set_correct_last_timestamp false ;;
           ok ← setupDataBuffer; mret (Some ok)
       | ePS_DryRunning =>
           ok ← call_world stopHandlerForStream;
           mret (if ok : bool then Some true else None)
       | _ => mret None
       end);
  match r with
  | None => mret false
  | Some ok =>
      ok2 ← call_buffer clearBuffer;
      on_buffer (setTransparent true) ;;
      ok3 ← call_ports preparePorts;
      set_state ePS_Stopped ;;
      SIGNAL_ACTIVITY_ALL ;;
      mret (ok && ok2 && ok3)
  end.

Definition doWaitForRunningStream : M bool :=
  st ← get_state;
  if decide (st = ePS_Stopped) then set_state ePS_WaitingForStream ;; SIGNAL_ACTIVITY_ALL ;; mret true
  else mret false.

Definition doDryRunning : M bool :=
  st ← get_state;
  r ← (match st with
       | ePS_WaitingForStream =>
           id ← from_world getLocalNodeId; set_local_node_id (id .& 0x3f) ;;
           type ← getType;
           (if decide (type = ePT_Receive)
            then ts ← get_last_timestamp; on_buffer (setBufferTailTimestamp (d_of_Z ts)) else mret ()) ;;
           mret (Some true)
       | ePS_WaitingForStreamEnable =>
           ok ← call_buffer clearBuffer; on_buffer (setTransparent true) ;; mret (Some ok)
       | ePS_WaitingForStreamDisable =>
           ok ← call_buffer clearBuffer; on_buffer (setTransparent true) ;;
           set_last_timestamp2 0 ;; set_last_timestamp 0 ;; mret (Some ok)
       | _ => mret None
       end);
  match r with
  | None => mret false
  | Some ok => set_state ePS_DryRunning ;; SIGNAL_ACTIVITY_ALL ;; mret ok
  end.

Definition doWaitForStreamEnable : M bool :=
  frames ← buffered_frames;
  st ← get_state;
  if decide (st = ePS_DryRunning) then
    ok ← call_buffer (resizeBuffer heap_junk (u32 (frames + 1)));
    if negb ok then mret false else
    type ← getType;
    ok ← (if decide (type = ePT_Transmit) then frames ← buffered_frames; transferSilence frames else mret true);
    if negb ok then mret false else
    set_state ePS_WaitingForStreamEnable ;; SIGNAL_ACTIVITY_ALL ;; mret true
  else mret false.

Definition doRunning : M bool :=
  st ← get_state;
  if decide (st = ePS_WaitingForStreamEnable) then
    set_in_xrun false ;;
    id ← from_world getLocalNodeId; set_local_node_id (id .& 0x3f) ;;
    bw ← gets (fun s => m_dll_bandwidth_hz (settings (sp s)));
    ok ← call_buffer (fun b => Some (setBandwidth (ddiv (d_of_f bw) (d_of_Z TICKS_PER_SECOND)) b));
    on_buffer (setTransparent false) ;;
    set_last_timestamp2 0 ;;
    set_state ePS_Running ;; SIGNAL_ACTIVITY_ALL ;; mret ok
  else mret false.

Definition doWaitForStreamDisable : M bool :=
  st ← get_state;
  if decide (st = ePS_Running) then set_state ePS_WaitingForStreamDisable ;; SIGNAL_ACTIVITY_ALL ;; mret true
  else mret false.

(** The transition function for a pair of states, [None] for a pair that is not allowed. *)
Definition transition (from to : eProcessorState) : option (M bool) :=
  match from, to with
  | ePS_Created, ePS_Stopped => Some doStop
  | ePS_Stopped, ePS_WaitingForStream => Some doWaitForRunningStream
  | ePS_WaitingForStream, ePS_DryRunning => Some doDryRunning
  | ePS_DryRunning, ePS_Stopped => Some doStop
  | ePS_DryRunning, ePS_WaitingForStreamEnable => Some doWaitForStreamEnable
  | ePS_WaitingForStreamEnable, ePS_DryRunning => Some doDryRunning
  | ePS_WaitingForStreamEnable, ePS_Running => Some doRunning
  | ePS_Running, ePS_WaitingForStreamDisable => Some doWaitForStreamDisable
  | ePS_WaitingForStreamDisable, ePS_DryRunning => Some doDryRunning
  | _, _ => None
  end.

Definition updateState : M bool :=
  next_state ← get_next_state;
  st ← get_state;
  if decide (st = next_state) then mret true else
  result ← (match transition st next_state with Some act => act | None => mret false end);
  if result : bool then mret true else SIGNAL_ACTIVITY_ALL ;; mret false.

(** ** Scheduling *)

Definition scheduleStateTransition (state : eProcessorState) (time_instant : Z) : M bool :=
  set_cycle_to_switch_state (TICKS_TO_CYCLES time_instant) ;;
  set_next_state state ;;
  SIGNAL_ACTIVITY_ALL ;;
  mret true.

(** The instant of a transition: the one asked for, or [cycles] from now. *)
Definition schedule_time (t cycles : Z) : M Z :=
  if t <? 0 then now ← call_world getCycleTimerTicks; mret (addTicks now (cycles * TICKS_PER_CYCLE))
  else mret t.

(** The stream is started; in a debug build the clock is read once more for the messages. *)
Definition read_clock_for_debug : M unit :=
  if debug_build then _ ← call_world getCycleTimerTicks; mret () else mret ().

Definition scheduleStartDryRunning (t : Z) : M bool :=
  tx ← schedule_time t 200;
  let start_handler_ticks := substractTicks tx (100 * TICKS_PER_CYCLE) in
  read_clock_for_debug ;;
  st ← get_state;
  match st with
  | ePS_Stopped =>
      ok ← call_world (startHandlerForStream (TICKS_TO_CYCLES start_handler_ticks));
      if ok : bool then scheduleStateTransition ePS_WaitingForStream tx else mret false
  | ePS_Running => scheduleStateTransition ePS_WaitingForStreamDisable tx
  | ePS_DryRunning => mret true
  | ePS_WaitingForStreamEnable => scheduleStateTransition ePS_DryRunning tx
  | ePS_WaitingForStreamDisable => mret true
  | _ => mret false
  end.

Definition scheduleStartRunning (t : Z) : M bool :=
  tx ← schedule_time t 200; read_clock_for_debug ;; scheduleStateTransition ePS_WaitingForStreamEnable tx.
Definition scheduleStopDryRunning (t : Z) : M bool :=
  tx ← schedule_time t 2000; read_clock_for_debug ;; scheduleStateTransition ePS_Stopped tx.
Definition scheduleStopRunning (t : Z) : M bool :=
  tx ← schedule_time t 2000; read_clock_for_debug ;; scheduleStateTransition ePS_WaitingForStreamDisable tx.

(** [while (m_state != state && cnt)]: other threads run during each sleep, as [sleep] says. *)
Fixpoint wait_rounds (sleep : nat -> M unit) (state : eProcessorState) (cnt : nat) : M nat :=
  st ← get_state;
  if decide (st = state) then mret cnt else
  match cnt with
  | O => mret O
  | S cnt => sleep cnt ;; wait_rounds sleep state cnt
  end.

Definition waitForState (sleep : nat -> M unit) (state : eProcessorState) (timeout_ms : nat) : M bool :=
  cnt ← wait_rounds sleep state timeout_ms;
  mret (negb (cnt =? 0)%nat).

Definition wait_after (schedule : Z -> M bool) (sleep : nat -> M unit) (state : eProcessorState) (t : Z) : M bool :=
  st ← get_state;
  if decide (st = state) then mret true else
  ok ← schedule t;
  if negb ok then mret false else waitForState sleep state 2000.

Definition startDryRunning (sleep : nat -> M unit) : Z -> M bool :=
  wait_after scheduleStartDryRunning sleep ePS_DryRunning.
Definition startRunning (sleep : nat -> M unit) : Z -> M bool :=
  wait_after scheduleStartRunning sleep ePS_Running.
Definition stopDryRunning (sleep : nat -> M unit) : Z -> M bool :=
  wait_after scheduleStopDryRunning sleep ePS_Stopped.
Definition stopRunning (sleep : nat -> M unit) : Z -> M bool :=
  wait_after scheduleStopRunning sleep ePS_DryRunning.

(** ** Set-up and external events *)

Definition periodSizeChanged (new_periodsize : Z) : M bool :=
  st ← get_state;
  if bool_decide (st <> ePS_Stopped) && bool_decide (st <> ePS_Created) then mret false else
  es ← gets (fun s => getEventSize (child s)); ev ← gets (fun s => getEventsPerFrame (child s));
  set_scratch (Some ((fun i => heap_junk i) <$> seq 0 (Z.to_nat (u32 (u32 (new_periodsize * ev) * es))))) ;;
  period ← from_world getPeriodSize;
  ok ← call_ports (fun m => let '(ok, ps) := each_port (Port_setBufferSize period) (m_Ports m) in (ok, with_ports ps m));
  if negb ok then mret false else
  ok ← setupDataBuffer;
  if negb ok then mret false else updateState.

Definition init : M bool :=
  ok ← call_world registerStream;
  if negb ok then mret false else
  ok ← call_world registerProcessor;
  if negb ok then mret false else
  set_next_state ePS_Created ;; mret true.

Definition SP_prepare : M bool :=
  period ← from_world getPeriodSize;
  ok ← periodSizeChanged period;
  if negb ok then mret false else
  ok ← call_ports initPorts;
  if negb ok then mret false else
  ok ← prepareChild;
  if negb ok then mret false else
  set_next_state ePS_Stopped ;; updateState.

Definition handleBusResetDo : M bool :=
  set_state ePS_Error ;; set_in_xrun true ;; SIGNAL_ACTIVITY_ALL ;; mret true.
Definition handleBusReset : M bool :=
  on_world lockWaitLoop ;; r ← handleBusResetDo; on_world unlockWaitLoop ;; mret r.

Definition handlerDied : M unit := set_state ePS_Stopped ;; set_in_xrun true ;; SIGNAL_ACTIVITY_ALL.
Definition packetsStopped : M unit := set_state ePS_Stopped ;; set_next_state ePS_Stopped.

(** ** Received packets *)

(** [diffCycles(CYCLE_TIMER_GET_CYCLES(pkt_ctr), m_cycle_to_switch_state) >= 0] *)
Definition time_to_switch (pkt_ctr : Z) : M bool :=
  c ← get_cycle_to_switch_state; mret (0 <=? diffCycles (CYCLE_TIMER_GET_CYCLES pkt_ctr) c).

(** Request [next] and execute the change; the rest runs only if it succeeded. *)
Definition switch_to {A} (next : eProcessorState) (fail : A) (k : M A) : M A :=
  set_next_state next ;; ok ← updateState; if ok : bool then k else mret fail.

(** An xrun: the stream is to be disabled from the next cycle on. *)
Definition xrun_disable {A} (pkt_ctr : Z) (fail : A) (k : M A) : M A :=
  set_in_xrun true ;;
  set_cycle_to_switch_state (u32 (CYCLE_TIMER_GET_CYCLES pkt_ctr + 1)) ;;
  switch_to ePS_WaitingForStreamDisable fail k.

(** Execute a pending change. *)
Definition pending_change {A} (fail : A) (k : M A) : M A :=
  st ← get_state; next ← get_next_state;
  if decide (st = next) then k else ok ← updateState; if ok : bool then k else mret fail.

(** The correction of a timestamp that is a second off, in debug builds. *)
Definition timestamp_fixup : M unit :=
  ts ← get_last_timestamp; ts2 ← get_last_timestamp2;
  if debug_build && (0 <? ts) && (0 <? ts2) then
    tpf ← getTicksPerFrame;
    n ← gets (fun s => getNominalFramesPerPacket (child s) (world s));
    max ← gets (fun s => m_max_diff_ticks (settings (sp s)));
    let ticks_per_packet := i32 (Z_of_float (fmul tpf (f_of_Z n))) in
    let off t := i32 (i32 (diffTicks t ts2) - ticks_per_packet) in
    if (max <? off ts) || (off ts <? - max) then
      let plus := addTicks ts TICKS_PER_SECOND in
      let minus := substractTicks ts TICKS_PER_SECOND in
      if (off plus <? 50) && (-50 <? off plus) then set_last_timestamp plus
      else if (off minus <? 50) && (-50 <? off minus) then set_last_timestamp minus
      else mret ()
    else mret ()
  else mret ().

(** A packet after dropped cycles: the timestamps start anew one packet before it. *)
Definition correct_timestamp : M unit :=
  c ← gets (fun s => m_correct_last_timestamp (times (sp s)));
  if c : bool then
    ts ← get_last_timestamp; tpf ← getTicksPerFrame;
    n ← gets (fun s => getNominalFramesPerPacket (child s) (world s));
    on_buffer (setBufferTailTimestamp (d_of_Z (substractTicks ts (u64 (Z_of_float (fmul (f_of_Z n) tpf)))))) ;;
    set_correct_last_timestamp false
  else mret ().

(** The data of a good packet. *)
Definition receive_data (data : list Z) (length pkt_ctr : Z) : M raw1394_iso_disposition :=
  result2 ← processPacketData data length;
  match result2 with
  | eCRV_XRun => xrun_disable pkt_ctr RAW1394_ISO_ERROR (mret RAW1394_ISO_DEFER)
  | eCRV_OK => mret RAW1394_ISO_OK
  | _ => mret RAW1394_ISO_ERROR
  end.

(** The part of [putPacket] for a packet with a good header. *)
Definition receive_good (data : list Z) (length pkt_ctr : Z) : M raw1394_iso_disposition :=
  timestamp_fixup ;;
  correct_timestamp ;;
  st ← get_state;
  if decide (st = ePS_WaitingForStream) then
    now ← time_to_switch pkt_ctr;
    if now : bool then switch_to ePS_DryRunning RAW1394_ISO_ERROR (mret RAW1394_ISO_OK) else mret RAW1394_ISO_OK
  else
    next ← get_next_state;
    if decide (st = next) then receive_data data length pkt_ctr
    else
      ok ← updateState;
      if negb ok then mret RAW1394_ISO_ERROR else
      st ← get_state;
      if decide (st = ePS_WaitingForStream) then mret RAW1394_ISO_OK else receive_data data length pkt_ctr.

(** From the packet header on. *)
Definition receive_packet (data : list Z) (length tag sy pkt_ctr dropped_cycles : Z) : M raw1394_iso_disposition :=
  result ← processPacketHeader data length tag sy pkt_ctr;
  let rest :=
    match result with
    | eCRV_OK => receive_good data length pkt_ctr
    | eCRV_Invalid => mret RAW1394_ISO_OK
    | _ => mret RAW1394_ISO_ERROR
    end in
  if dropped_cycles =? 0 then rest else
  set_correct_last_timestamp true ;;
  st ← get_state;
  if decide (st = ePS_Running) then xrun_disable pkt_ctr RAW1394_ISO_ERROR rest else rest.

Definition putPacket (data : list Z) (length channel tag sy pkt_ctr dropped_cycles : Z) : M raw1394_iso_disposition :=
  st ← get_state;
  if debug_build && bool_decide (st = ePS_Invalid) then mret RAW1394_ISO_ERROR else
  if decide (st = ePS_Created) then mret RAW1394_ISO_DEFER else
  if decide (st = ePS_Error) then mret RAW1394_ISO_OK else
  ts ← get_last_timestamp; set_last_timestamp2 ts ;;
  next ← get_next_state;
  if decide (st = ePS_WaitingForStreamDisable) then
    now ← time_to_switch pkt_ctr;
    if now : bool then switch_to ePS_DryRunning RAW1394_ISO_ERROR (mret RAW1394_ISO_OK) else mret RAW1394_ISO_OK
  else if bool_decide (st = ePS_WaitingForStreamEnable) && bool_decide (next = ePS_WaitingForStreamEnable) then
    now ← time_to_switch pkt_ctr;
    if now : bool
    then switch_to ePS_Running RAW1394_ISO_ERROR (receive_packet data length tag sy pkt_ctr dropped_cycles)
    else receive_packet data length tag sy pkt_ctr dropped_cycles
  else receive_packet data length tag sy pkt_ctr dropped_cycles.

(** ** Transmitted packets *)

Definition no_packet (p : packet) : packet := mkPacket (p_data p) 0 0 0.

(** An empty packet: header and data. *)
Definition empty_packet (p : packet) (pkt_ctr : Z) : M packet :=
  '(_, p) ← generateEmptyPacketHeader p pkt_ctr; '(_, p) ← generateEmptyPacketData p; mret p.

(** The code at the label [send_empty_packet]. *)
Definition send_empty_packet (p : packet) (pkt_ctr : Z) : M (raw1394_iso_disposition * packet) :=
  pending_change (RAW1394_ISO_ERROR, p) (p ← empty_packet p pkt_ctr; mret (RAW1394_ISO_OK, p)).

(** In the state [ePS_WaitingForStreamDisable]. *)
Definition send_silent (p : packet) (pkt_ctr : Z) : M (raw1394_iso_disposition * packet) :=
  let rest :=
    '(result, p) ← generateSilentPacketHeader p pkt_ctr;
    match result with
    | eCRV_Packet => '(_, p) ← generateSilentPacketData p; mret (RAW1394_ISO_OK, p)
    | eCRV_EmptyPacket => send_empty_packet p pkt_ctr
    | _ => mret (RAW1394_ISO_ERROR, p)
    end in
  now ← time_to_switch pkt_ctr;
  if now : bool then switch_to ePS_DryRunning (RAW1394_ISO_ERROR, p) rest else rest.

(** In the state [ePS_Running], with a packet or a deferred packet to send. *)
Definition send_data (result : eChildReturnValue) (p : packet) (prev_timestamp pkt_ctr : Z) :
    M (raw1394_iso_disposition * packet) :=
  set_last_timestamp2 prev_timestamp ;;
  pending_change (RAW1394_ISO_ERROR, p) (
    '(result2, p) ← generatePacketData p;
    if decide (result2 = eCRV_XRun) then xrun_disable pkt_ctr (RAW1394_ISO_ERROR, p) (send_empty_packet p pkt_ctr)
    else if bool_decide (result2 = eCRV_Defer) || bool_decide (result = eCRV_Defer) then mret (RAW1394_ISO_DEFER, p)
    else mret (RAW1394_ISO_OK, p)).

(** In the state [ePS_Running]. *)
Definition send_running (p : packet) (prev_timestamp pkt_ctr : Z) : M (raw1394_iso_disposition * packet) :=
  '(result, p) ← generatePacketHeader p pkt_ctr;
  match result with
  | eCRV_Packet | eCRV_Defer => send_data result p prev_timestamp pkt_ctr
  | eCRV_XRun => xrun_disable pkt_ctr (RAW1394_ISO_ERROR, p) (send_empty_packet p pkt_ctr)
  | eCRV_EmptyPacket => pending_change (RAW1394_ISO_ERROR, p) (send_empty_packet p pkt_ctr)
  | eCRV_Again =>
      pending_change (RAW1394_ISO_ERROR, p) (p ← empty_packet p pkt_ctr; mret (RAW1394_ISO_DEFER, p))
  | _ => mret (RAW1394_ISO_ERROR, p)
  end.

(** A state that waits for its cycle: change to [next] if it has come. *)
Definition switch_in_time (next : eProcessorState) (p : packet) (pkt_ctr : Z)
    (k : M (raw1394_iso_disposition * packet)) : M (raw1394_iso_disposition * packet) :=
  now ← time_to_switch pkt_ctr;
  if now : bool then switch_to next (RAW1394_ISO_ERROR, p) k else k.

Definition send_by_state (p : packet) (pkt_ctr : Z) : M (raw1394_iso_disposition * packet) :=
  st ← get_state;
  if debug_build && bool_decide (st = ePS_Invalid) then mret (RAW1394_ISO_ERROR, p) else
  if decide (st = ePS_Created) then mret (RAW1394_ISO_DEFER, no_packet p) else
  prev_timestamp ← get_last_timestamp;
  next ← get_next_state;
  match st with
  | ePS_WaitingForStreamDisable => send_silent p pkt_ctr
  | ePS_WaitingForStreamEnable =>
      if decide (next = ePS_WaitingForStreamEnable)
      then switch_in_time ePS_Running p pkt_ctr (send_empty_packet p pkt_ctr)
      else send_empty_packet p pkt_ctr
  | ePS_WaitingForStream => switch_in_time ePS_DryRunning p pkt_ctr (send_empty_packet p pkt_ctr)
  | ePS_Running => send_running p prev_timestamp pkt_ctr
  | _ => send_empty_packet p pkt_ctr
  end.

Definition getPacket (p : packet) (pkt_ctr dropped_cycles skipped max_length : Z) :
    M (raw1394_iso_disposition * packet) :=
  if pkt_ctr =? 0xFFFFFFFF then mret (RAW1394_ISO_OK, no_packet p) else
  st ← get_state;
  if decide (st = ePS_Error) then mret (RAW1394_ISO_OK, p) else
  if 0 <? dropped_cycles then
    set_in_xrun true ;;
    if decide (st = ePS_Running)
    then xrun_disable pkt_ctr (RAW1394_ISO_ERROR, p) (send_empty_packet p pkt_ctr)
    else send_by_state p pkt_ctr
  else send_by_state p pkt_ctr.

(** ** Frames *)

(** [p->getBufferAddress()] at [offset], [nevents] words set to zero; both data types have the
    same bytes for silence. *)
Definition provideSilenceToPort (offset nevents : Z) (p : Port) : option Port :=
  if m_buffersize p <? u32 (nevents + offset) then None else
  buf ← m_buffer p;
  Some (with_buffer (Some (list_inserts (Z.to_nat offset) (replicate (Z.to_nat nevents) 0%Z) buf)) p).

Fixpoint silence_ports (offset nevents : Z) (ps : list Port) : option (list Port) :=
  match ps with
  | [] => Some []
  | p :: ps =>
      p ← (if m_disabled p then Some p else provideSilenceToPort offset nevents p);
      ps ← silence_ports offset nevents ps; Some (p :: ps)
  end.

(** [provideSilenceToPort] returns 0 for every port type, so there is never a problem. *)
Definition provideSilenceBlock (nevents offset : Z) : M bool := fun s =>
  let m := ports (sp s) in
  ps ← silence_ports offset nevents (m_Ports m);
  (call_ports (fun m => (tt, with_ports ps m)) ;; mret true) s.

(** A block processing call with this object as the client.  (The copy of [m_data_buffer] that the
    callbacks find in the object is not current; they do not use it.) *)
Definition call_blocks
    (f : TimestampedBuffer -> sp_state C W -> option (bool * TimestampedBuffer * sp_state C W)) : M bool := fun s =>
  '(ok, b, s) ← f (m_data_buffer (sp s)) s; (on_buffer (fun _ => b) ;; mret ok) s.

Definition getFramesWet (nbframes ts : Z) : M bool := call_blocks (blockProcessReadFrames nbframes) ;; mret true.
Definition getFramesDry (nbframes ts : Z) : M bool := provideSilenceBlock nbframes 0.

Definition getFrames (nbframes ts : Z) : M bool :=
  assert_that (fun s => bool_decide (m_processor_type (settings (sp s)) = ePT_Receive)) ;;
  st ← get_state;
  result ← (if decide (st = ePS_DryRunning) then getFramesDry nbframes ts else getFramesWet nbframes ts);
  SIGNAL_ACTIVITY_ISO_RECV ;; mret result.

Definition SP_dropFrames (nbframes ts : Z) : M bool :=
  result ← call_buffer (TimestampedBuffer.dropFrames nbframes); SIGNAL_ACTIVITY_ISO_RECV ;; mret result.

Definition putFramesWet (nbframes ts : Z) : M bool :=
  call_blocks (blockProcessWriteFrames nbframes (d_of_Z ts)) ;; mret true.
Definition putFramesDry (nbframes ts : Z) : M bool := mret true.

Definition putFrames (nbframes ts : Z) : M bool :=
  assert_that (fun s => bool_decide (m_processor_type (settings (sp s)) = ePT_Transmit)) ;;
  st ← get_state;
  result ← (if decide (st = ePS_DryRunning) then putFramesDry nbframes ts else putFramesWet nbframes ts);
  SIGNAL_ACTIVITY_ISO_XMIT ;; mret result.

(** The silence is encoded into the scratch buffer. *)
Definition encode_silence (nbframes : Z) : M bool :=
  assert_that (fun s => bool_decide (is_Some (m_scratch_buffer (sp s)))) ;;
  scratch ← gets (fun s => default [] (m_scratch_buffer (sp s)));
  '(ok, d) ← transmitSilenceBlock scratch nbframes 0;
  set_scratch (Some d) ;; mret ok.

Definition putSilenceFrames (nbframes ts : Z) : M bool :=
  ok ← encode_silence nbframes;
  if negb ok then mret false else
  data ← gets (fun s => default [] (m_scratch_buffer (sp s)));
  ok ← call_buffer (writeFrames nbframes data (d_of_Z ts));
  if negb ok then mret false else SIGNAL_ACTIVITY_ISO_XMIT ;; mret true.

Definition shiftStream (nbframes : Z) : M bool :=
  if nbframes =? 0 then mret true else
  if 0 <? nbframes then
    result ← call_buffer (TimestampedBuffer.dropFrames nbframes); SIGNAL_ACTIVITY_ALL ;; mret result
  else mret false.

(** ** Queries *)

Definition canClientTransferFrames (nbframes : Z) : M bool :=
  type ← getType; b ← gets (fun s => m_data_buffer (sp s));
  let fc := u32 (m_framecounter b) in
  mret (if decide (type = ePT_Receive) then nbframes <=? fc
        else (nbframes <? u32 (m_buffer_size (sizes b) - fc)) || m_transparent b).

(** [m_state == ePS_Running && m_next_state == ePS_Running] *)
Definition steadily_running : M bool :=
  st ← get_state; next ← get_next_state; mret (bool_decide (st = ePS_Running) && bool_decide (next = ePS_Running)).

Definition canProduce (nframes : Z) : M bool :=
  x ← gets (fun s => m_in_xrun (machine (sp s)));
  if x : bool then mret true else
  r ← steadily_running;
  if r : bool then space ← from_buffer getBufferSpace; mret (nframes <=? space)
  else type ← getType; mret (bool_decide (type <> ePT_Transmit)).

Definition canConsume (nframes : Z) : M bool :=
  x ← gets (fun s => m_in_xrun (machine (sp s)));
  if x : bool then mret true else
  r ← steadily_running;
  if r : bool then fill ← from_buffer getBufferFill; mret (nframes <=? fill)
  else type ← getType; mret (bool_decide (type = ePT_Transmit)).

Definition packet_frames : M Z := gets (fun s => getNominalFramesPerPacket (child s) (world s)).
Definition canProducePacket : M bool := n ← packet_frames; canProduce n.
Definition canProducePeriod : M bool := n ← from_world getPeriodSize; canProduce n.
Definition canConsumePacket : M bool := n ← packet_frames; canConsume n.
Definition canConsumePeriod : M bool := n ← from_world getPeriodSize; canConsume n.

Definition getTimeAtPeriod : M Z :=
  type ← getType; period ← from_world getPeriodSize; nb ← from_world getNbBuffers;
  ts ← from_buffer (if decide (type = ePT_Receive) then getTimestampFromHead (i32 period)
                    else getTimestampFromTail (i32 ((nb - 1) * period)));
  mret (u64 (Z_of_float ts)).

Definition getMaxFrameLatency : M Z :=
  n ← from_world getPacketLatencyForStream; mret (i32 (n * TICKS_PER_CYCLE)).

(** [None]: a division by a zero rate. *)
Definition getNominalPacketsNeeded (nframes : Z) : M Z :=
  rate ← from_world getNominalRate;
  assert_that (fun _ => negb (rate =? 0)) ;;
  let nominal_ticks_per_frame := TICKS_PER_SECOND / rate in
  let nominal_ticks := u64 (nominal_ticks_per_frame * nframes) in
  mret (u32 (u64 (u64 (nominal_ticks + TICKS_PER_CYCLE) - 1) / TICKS_PER_CYCLE)).

Definition getPacketsPerPeriod : M Z := n ← from_world getPeriodSize; getNominalPacketsNeeded n.

Definition getNbPacketsIsoXmitBuffer : M Z :=
  n ← getPacketsPerPeriod; nb ← from_world getNbBuffers; mret (u32 (u32 (n * nb) + 10)).
End processor.
