(* ===== verification/StreamStates.v ===== *)
(** * The state machine of a stream processor

    What the operations of [StreamProcessor.v] do to the state: each call changes the state along at
    most one edge of the documented machine (two for a packet that ends the wait for the start of the
    stream and is itself the reason of an xrun), and the data buffer is transparent
    exactly while no frames may go through it. *)
From stdpp Require Import relations.
From S2P Require Import Prelude CycleTimer RingBuffer Ieee754 TimestampedBuffer FrameBuffer Ports StreamProcessor.
#[local] Open Scope Z_scope.

(** ** The documented machine *)

Inductive edge : eProcessorState -> eProcessorState -> Prop :=
  | edge_init : edge ePS_Created ePS_Stopped
  | edge_wait : edge ePS_Stopped ePS_WaitingForStream
  | edge_stream : edge ePS_WaitingForStream ePS_DryRunning
  | edge_stop : edge ePS_DryRunning ePS_Stopped
  | edge_enable : edge ePS_DryRunning ePS_WaitingForStreamEnable
  | edge_cancel : edge ePS_WaitingForStreamEnable ePS_DryRunning
  | edge_run : edge ePS_WaitingForStreamEnable ePS_Running
  | edge_disable : edge ePS_Running ePS_WaitingForStreamDisable
  | edge_dry : edge ePS_WaitingForStreamDisable ePS_DryRunning.
#[export] Hint Constructors edge : core.

(** The states in which frames go through the buffer. *)
Definition flowing (st : eProcessorState) : bool :=
  match st with ePS_Running | ePS_WaitingForStreamDisable => true | _ => false end.

Section states.
Context {C W : Type} `{SPWorld W} `{SPChild C W}.
Abbreviation M := (run (sp_state C W)).
Abbreviation state_of s := (m_state (machine (sp s))).
Abbreviation buffer_of s := (m_data_buffer (sp s)).

(** The buffer is transparent exactly while no frames may go through it. *)
Definition transparent_ok (s : sp_state C W) : Prop := m_transparent (buffer_of s) = negb (flowing (state_of s)).

(** From one state of the object to a later one the transparency is kept in step. *)
Definition keeps_step (s s' : sp_state C W) : Prop := transparent_ok s -> transparent_ok s'.
Lemma keeps_step_refl s : keeps_step s s.
Proof. by unfold keeps_step. Qed.

(** No change that the state machine can see. *)
Definition quiet (s s' : sp_state C W) : Prop :=
  machine (sp s') = machine (sp s) /\ m_transparent (buffer_of s') = m_transparent (buffer_of s).

(** Methods all of whose runs are related by [R]. *)
Definition steady {A} (R : sp_state C W -> sp_state C W -> Prop) (m : M A) : Prop :=
  forall s a s', m s = Some (a, s') -> R s s'.

Section closure.
Context (R : sp_state C W -> sp_state C W -> Prop) `{!PreOrder R}.

Lemma steady_ret {A} (a : A) : steady R (mret a).
Proof. intros s b s' [= _ <-]. reflexivity. Qed.

Lemma steady_bind {A B} (m : M A) (k : A -> M B) :
  steady R m -> (forall a, steady R (k a)) -> steady R (m ≫= k).
Proof.
  intros Hm Hk s b s' E. unfold mbind, run_bind in E. simpl in E.
  destruct (m s) as [[a s1]|] eqn:E1; [|done]. simpl in E.
  transitivity s1; [by eapply Hm|by eapply Hk].
Qed.

Lemma steady_if {A} (c : bool) (m1 m2 : M A) : steady R m1 -> steady R m2 -> steady R (if c then m1 else m2).
Proof. by destruct c. Qed.

Lemma steady_decide {A} (P : Prop) `{!Decision P} (m1 m2 : M A) :
  steady R m1 -> steady R m2 -> steady R (if decide P then m1 else m2).
Proof. by destruct (decide P). Qed.

Lemma steady_gets {A} (f : sp_state C W -> A) : steady R (gets f).
Proof. intros s a s' [= _ <-]. reflexivity. Qed.

Lemma steady_assert f : steady R (assert_that f).
Proof. intros s a s'. unfold assert_that. destruct (f s); [|done]. intros [= _ <-]. reflexivity. Qed.
End closure.

#[export] Instance quiet_preorder : PreOrder quiet.
Proof.
  split; [by split|]. intros s1 s2 s3 [A1 B1] [A2 B2]. split; congruence.
Qed.

(** *** Quiet updates *)

Lemma quiet_world f : steady quiet (on_world f).
Proof. by intros s a s' [= <- <-]. Qed.
Lemma quiet_call_world {A} (f : st W A) : steady quiet (call_world f).
Proof. intros s a s'. unfold call_world. destruct (f (world s)). by intros [= <- <-]. Qed.
Lemma quiet_times f : steady quiet (on_times f).
Proof. by intros s a s' [= <- <-]. Qed.
Lemma quiet_settings f : steady quiet (on_settings f).
Proof. by intros s a s' [= <- <-]. Qed.
Lemma quiet_scratch b : steady quiet (set_scratch b).
Proof. by intros s a s' [= <- <-]. Qed.
Lemma quiet_ports {A} (f : PortManager -> A * PortManager) : steady quiet (call_ports f).
Proof. intros s a s'. unfold call_ports. destruct (f _). by intros [= <- <-]. Qed.
(** Buffer operations that leave the transparency alone. *)
Definition keeps_transparency {A} (f : TimestampedBuffer -> option (A * TimestampedBuffer)) : Prop :=
  forall b a b', f b = Some (a, b') -> m_transparent b' = m_transparent b.

Lemma quiet_call_buffer {A} (f : TimestampedBuffer -> option (A * TimestampedBuffer)) :
  keeps_transparency f -> steady quiet (call_buffer f).
Proof.
  intros Hf s a s'. unfold call_buffer. destruct (f _) as [[a' b]|] eqn:E; [|done]. intros [= <- <-].
  split; [done|]. by apply Hf in E.
Qed.

Lemma quiet_buffer f : (forall b, m_transparent (f b) = m_transparent b) -> steady quiet (on_buffer f).
Proof. intros Hf s a s' [= <- <-]. split; [done|]. apply Hf. Qed.

Lemma keeps_clear : keeps_transparency clearBuffer.
Proof. intros b a b'. unfold clearBuffer. destruct (m_event_buffer b); [|done]. by intros [= <- <-]. Qed.

Lemma keeps_resize junk n : keeps_transparency (resizeBuffer junk n).
Proof.
  intros b a b'. unfold resizeBuffer. case_match; [done|]. case_match; by intros [= <- <-].
Qed.

Lemma keeps_prepare junk : keeps_transparency (TimestampedBuffer.prepare junk).
Proof.
  intros b a b'. unfold TimestampedBuffer.prepare. case_match; [done|].
  match goal with |- context [resizeBuffer junk ?n ?b1] => destruct (resizeBuffer junk n b1) as [[[] b2]|] eqn:E end;
    [| |done]; intros [= <- <-]; by apply keeps_resize in E.
Qed.

Lemma keeps_preload n d k : keeps_transparency (preloadFrames n d k).
Proof.
  intros b a b'. unfold preloadFrames, ring_write. destruct (m_event_buffer b) as [rb|]; [|done].
  destruct (ffado_ringbuffer_write rb d _) as [rb' w]. simpl.
  destruct (w <? _); [by intros [= <- <-]|]. destruct k; by intros [= <- <-].
Qed.

Lemma keeps_drop n : keeps_transparency (TimestampedBuffer.dropFrames n).
Proof.
  intros b a b'. unfold TimestampedBuffer.dropFrames. destruct (m_event_buffer b); [|done]. by intros [= <- <-].
Qed.

Lemma keeps_increment n ts b b' : incrementFrameCounter n ts b = Some b' -> m_transparent b' = m_transparent b.
Proof. by intros [k ->]%incrementFrameCounter_inv. Qed.

Lemma keeps_write n d ts : keeps_transparency (writeFrames n d ts).
Proof.
  intros b a b'. unfold writeFrames, ring_write. destruct (m_transparent b) eqn:T.
  - destruct (dlt _ _ && dlt _ _); simpl; [|by intros [= <- <-]].
    destruct (incrementFrameCounter n ts b) as [b1|] eqn:I; [|done]. intros [= <- <-].
    apply keeps_increment in I. simpl. congruence.
  - destruct (m_event_buffer b) as [rb|]; [|done]. destruct (ffado_ringbuffer_write rb d _) as [rb' w]. simpl.
    destruct (w <? _); [by intros [= <- <-]|].
    destruct (incrementFrameCounter n ts _) as [b1|] eqn:I; [|done]. intros [= <- <-].
    apply keeps_increment in I. by rewrite I.
Qed.

Lemma keeps_bandwidth bw : keeps_transparency (fun b => Some (setBandwidth bw b)).
Proof. intros b a b'. unfold setBandwidth. case_match; by intros [= <- <-]. Qed.

(** *** Block processing *)

(** The blocks leave the transparency alone, and the client goes where its callbacks take it. *)
Lemma write_blocks_keeps R `{!PreOrder R} fuel n bytes rb b (c : sp_state C W) ok b' c' :
  (forall d n o, steady R (processWriteBlock d n o)) ->
  write_blocks fuel n bytes rb b c = Some (ok, b', c') -> m_transparent b' = m_transparent b /\ R c c'.
Proof.
  intros Hw. revert bytes rb b c. induction fuel as [|fuel IH]; intros bytes rb b c; [done|]. cbn [write_blocks].
  destruct (bytes <=? 0); [by intros [= <- <- <-]|]. destruct (m_cluster_size _ =? 0); [done|].
  destruct (ffado_ringbuffer_get_write_vector rb) as [v0 v1].
  destruct (_ <? _); [by intros [= <- <- <-]|].
  destruct (_ <? _);
    (destruct (processWriteBlock _ _ _ c) as [[[x d] c1]|] eqn:P; [|done]; apply Hw in P; cbn [mbind option_bind];
     destruct (_ <? _); [by intros [= <- <- <-]|]).
  - destruct (ffado_ringbuffer_write _ _ _) as [rb1 w]. destruct (negb _); [done|].
    intros [T E]%IH. split; [done|by etrans].
  - destruct (negb _); [done|]. intros [T E]%IH. split; [done|by etrans].
Qed.

Lemma read_blocks_keeps R `{!PreOrder R} fuel n bytes rb b (c : sp_state C W) ok b' c' :
  (forall d n o, steady R (processReadBlock d n o)) ->
  read_blocks fuel n bytes rb b c = Some (ok, b', c') -> m_transparent b' = m_transparent b /\ R c c'.
Proof.
  intros Hr. revert bytes rb b c. induction fuel as [|fuel IH]; intros bytes rb b c; [done|]. cbn [read_blocks].
  destruct (bytes <=? 0); [by intros [= <- <- <-]|]. destruct (m_cluster_size _ =? 0); [done|].
  destruct (ffado_ringbuffer_get_read_vector rb) as [v0 v1].
  destruct (_ <? _); [by intros [= <- <- <-]|].
  destruct (_ <? _); [destruct (ffado_ringbuffer_read _ _) as [[rb1 d] w]|];
    (destruct (processReadBlock _ _ _ c) as [[x c1]|] eqn:P; [|done]; apply Hr in P; cbn [mbind option_bind];
     destruct (_ <? _); [by intros [= <- <- <-]|]; destruct (negb _); [done|];
     intros [T E]%IH; split; [done|by etrans]).
Qed.

Lemma quiet_call_blocks f :
  (forall b c ok b' c', f b c = Some (ok, b', c') -> m_transparent b' = m_transparent b /\ quiet c c') ->
  steady quiet (call_blocks f).
Proof.
  intros Hf s a s'. unfold call_blocks. destruct (f _ _) as [[[ok b] s1]|] eqn:E; [|done].
  intros [= <- <-]. apply Hf in E as [T [Q1 Q2]]. by split.
Qed.

Lemma quiet_put_blocks n ts : (forall d n o, steady quiet (processWriteBlock d n o)) ->
  steady quiet (call_blocks (blockProcessWriteFrames n ts)).
Proof.
  intros Hw. apply quiet_call_blocks. intros b c ok b' c'. unfold blockProcessWriteFrames.
  destruct (m_event_buffer b) as [rb|]; [|done].
  destruct (write_blocks _ _ _ rb b c) as [[[o b1] c1]|] eqn:E; [|done]. simpl.
  apply (write_blocks_keeps quiet) in E as [T Q]; [|done].
  destruct o; [|by intros [= <- <- <-]].
  destruct (incrementFrameCounter n ts b1) as [b2|] eqn:I; [|done]. simpl. intros [= <- <- <-].
  apply keeps_increment in I. split; [congruence|done].
Qed.

Lemma quiet_get_blocks n : (forall d n o, steady quiet (processReadBlock d n o)) ->
  steady quiet (call_blocks (blockProcessReadFrames n)).
Proof.
  intros Hr. apply quiet_call_blocks. intros b c ok b' c'. unfold blockProcessReadFrames.
  destruct (m_event_buffer b) as [rb|]; [|done].
  destruct (read_blocks _ _ _ rb b c) as [[[o b1] c1]|] eqn:E; [|done]. simpl.
  apply (read_blocks_keeps quiet) in E as [T Q]; [|done]. destruct o; by intros [= <- <- <-].
Qed.
End states.

#[export] Hint Resolve keeps_step_refl : core.

Create HintDb steady.
#[export] Hint Resolve quiet_world quiet_call_world quiet_times quiet_settings
  quiet_scratch quiet_ports keeps_clear keeps_resize keeps_prepare
  keeps_preload keeps_drop keeps_write keeps_bandwidth quiet_put_blocks quiet_get_blocks : steady.

(** A method is steady when its parts are. *)
Ltac steady :=
  repeat match goal with
  | |- steady _ (gets _) => apply steady_gets; apply _
  | |- steady _ (mret _) => apply steady_ret; apply _
  | |- steady _ (assert_that _) => apply steady_assert; apply _
  | |- steady _ (mbind _ _) => apply steady_bind; [apply _| |intros]
  | |- steady _ (if decide _ then _ else _) => apply steady_decide; [apply _|..]
  | |- steady _ (if ?c then _ else _) => apply steady_if; [apply _|..]
  | |- steady _ (let '(_, _) := ?x in _) => destruct x
  | |- steady _ (match ?x with _ => _ end) => destruct x
  | |- steady quiet (call_buffer _) => apply quiet_call_buffer
  | |- steady quiet (on_buffer _) => apply quiet_buffer; intros; reflexivity
  | |- _ => progress auto with steady
  end; auto with steady.

(** What the state machine expects of a subclass: its methods leave the state and the
    transparency of the buffer alone. *)
Class SPChildQuiet (C W : Type) `{SPChild C W} := {
  quiet_prepareChild : steady quiet prepareChild;
  quiet_processPacketHeader d l t y c : steady quiet (processPacketHeader d l t y c);
  quiet_processPacketData d l : steady quiet (processPacketData d l);
  quiet_generatePacketHeader p c : steady quiet (generatePacketHeader p c);
  quiet_generatePacketData p : steady quiet (generatePacketData p);
  quiet_generateEmptyPacketHeader p c : steady quiet (generateEmptyPacketHeader p c);
  quiet_generateEmptyPacketData p : steady quiet (generateEmptyPacketData p);
  quiet_generateSilentPacketHeader p c : steady quiet (generateSilentPacketHeader p c);
  quiet_generateSilentPacketData p : steady quiet (generateSilentPacketData p);
  quiet_transmitSilenceBlock d n o : steady quiet (transmitSilenceBlock d n o);
  quiet_processReadBlock d n o : steady quiet (processReadBlock d n o);
  quiet_processWriteBlock d n o : steady quiet (processWriteBlock d n o);
}.
#[export] Hint Resolve quiet_prepareChild quiet_processPacketHeader quiet_processPacketData quiet_generatePacketHeader
  quiet_generatePacketData quiet_generateEmptyPacketHeader quiet_generateEmptyPacketData
  quiet_generateSilentPacketHeader quiet_generateSilentPacketData quiet_transmitSilenceBlock quiet_processReadBlock
  quiet_processWriteBlock : steady.

Section machine.
Context {C W : Type} `{SPWorld W} `{SPChildQuiet C W}.
Abbreviation M := (run (sp_state C W)).
Abbreviation state_of s := (m_state (machine (sp s))).
Abbreviation next_of s := (m_next_state (machine (sp s))).
Abbreviation xrun_of s := (m_in_xrun (machine (sp s))).

(** ** Quiet operations *)

Lemma quiet_buffered_frames : steady quiet (buffered_frames : M Z).
Proof. unfold buffered_frames, from_world. steady. Qed.

Lemma quiet_setupDataBuffer : steady quiet (setupDataBuffer : M bool).
Proof. unfold setupDataBuffer, buffered_frames, from_world, getType, set_correct_last_timestamp. steady. Qed.

Lemma quiet_transferSilence n : steady quiet (transferSilence n : M bool).
Proof.
  unfold transferSilence. steady.
Qed.

Lemma quiet_schedule_time t n : steady quiet (schedule_time t n : M Z).
Proof. unfold schedule_time. steady. Qed.
Lemma quiet_read_clock : steady quiet (read_clock_for_debug : M unit).
Proof. unfold read_clock_for_debug. steady. Qed.
#[local] Hint Resolve quiet_schedule_time quiet_read_clock quiet_transferSilence quiet_buffered_frames
  quiet_setupDataBuffer : steady.

Lemma quiet_timestamps : steady quiet (timestamp_fixup : M unit) /\ steady quiet (correct_timestamp : M unit).
Proof.
  split; unfold timestamp_fixup, correct_timestamp, get_last_timestamp, get_last_timestamp2, getTicksPerFrame,
    from_buffer, set_last_timestamp, set_correct_last_timestamp; steady.
Qed.

Lemma quiet_frames n ts : steady quiet (getFrames n ts : M bool) /\ steady quiet (putFrames n ts : M bool)
  /\ steady quiet (SP_dropFrames n ts : M bool) /\ steady quiet (putSilenceFrames n ts : M bool)
  /\ steady quiet (shiftStream n : M bool).
Proof.
  split_and!; unfold getFrames, putFrames, SP_dropFrames, putSilenceFrames, shiftStream, get_state, getFramesDry,
    getFramesWet, putFramesDry, putFramesWet, SIGNAL_ACTIVITY_ALL, SIGNAL_ACTIVITY_ISO_RECV, SIGNAL_ACTIVITY_ISO_XMIT;
    steady.
  - intros s x s'. unfold provideSilenceBlock. destruct (silence_ports _ _ _); [|done]. by intros [= <- <-].
  - unfold encode_silence. steady.
Qed.

(** ** The transitions *)

(** Ready to enter [x]: the requested state is unchanged, the flag for an xrun too unless the stream starts, and the
    transparency is what [x] needs. *)
Definition ready (x : eProcessorState) (s s1 : sp_state C W) : Prop :=
  next_of s1 = next_of s /\ (x <> ePS_Running -> xrun_of s1 = xrun_of s) /\ (transparent_ok s -> m_transparent (m_data_buffer (sp s1)) = negb (flowing x)).

(** The change of state along the edge to [x]. *)
Definition enters (x : eProcessorState) (s s' : sp_state C W) : Prop :=
  edge (state_of s) x /\ state_of s' = x /\ next_of s' = next_of s /\ (x <> ePS_Running -> xrun_of s' = xrun_of s)
  /\ keeps_step s s'.

(** A transition function: it enters [x], or fails without an effect on the machine. *)
Definition goes_to (x : eProcessorState) (m : M bool) : Prop :=
  forall s a s', m s = Some (a, s') -> a = false /\ quiet s s' \/ enters x s s'.

(** A transition into [x] from a state that is ready. *)
Lemma enter_ready {A} x (k : M A) s s1 a s' : steady quiet k -> edge (state_of s) x -> ready x s s1 ->
  (set_state x ;; k) s1 = Some (a, s') -> enters x s s'.
Proof.
  intros Hk He (R1 & RX & R2) E. apply run_bind_inv in E as (u & s2 & E1 & E). injection E1 as _ <-.
  apply Hk in E as [E1 E2]. simpl in E1, E2. unfold enters, keeps_step, transparent_ok. rewrite E1, E2. by simpl.
Qed.

Lemma ready_quiet x s s1 s2 : ready x s s1 -> quiet s1 s2 -> ready x s s2.
Proof. intros (A & X & B) [E1 E2]. unfold ready. by rewrite E1, E2. Qed.

(** Ready from the start: the transparency of the state that is left is that of [x]. *)
Lemma ready_from x s s1 : flowing x = flowing (state_of s) -> quiet s s1 -> ready x s s1.
Proof. intros Hf [E1 E2]. unfold ready, transparent_ok. by rewrite E1, E2, Hf. Qed.

(** Setting the transparency. *)
Lemma ready_set x s s1 v : next_of s1 = next_of s -> (x <> ePS_Running -> xrun_of s1 = xrun_of s) -> v = negb (flowing x) ->
  forall s2 a, (on_buffer (setTransparent v) : M unit) s1 = Some (a, s2) -> ready x s s2.
Proof. intros E X -> s2 a [= _ <-]. by split_and!. Qed.

Lemma quiet_signal : steady quiet (SIGNAL_ACTIVITY_ALL : M unit).
Proof. apply quiet_world. Qed.
#[local] Hint Resolve quiet_signal : steady.

(** Split a run into its steps. *)
Tactic Notation "step" ident(E) ident(a) ident(s1) ident(E1) := apply run_bind_inv in E as (a & s1 & E1 & E).

Lemma goes_doWaitForRunningStream : goes_to ePS_WaitingForStream doWaitForRunningStream.
Proof.
  intros s a s' E. step E st s1 E1. injection E1 as <- <-. case_decide as D; [right|by injection E as <- <-; left].
  eapply (enter_ready _ _ s s); [..|exact E]; [steady|by rewrite D|]. apply ready_from; [by rewrite D|done].
Qed.

Lemma goes_doWaitForStreamDisable : goes_to ePS_WaitingForStreamDisable doWaitForStreamDisable.
Proof.
  intros s a s' E. step E st s1 E1. injection E1 as <- <-. case_decide as D; [right|by injection E as <- <-; left].
  eapply (enter_ready _ _ s s); [..|exact E]; [steady|by rewrite D|]. apply ready_from; [by rewrite D|done].
Qed.

Lemma goes_doWaitForStreamEnable : goes_to ePS_WaitingForStreamEnable doWaitForStreamEnable.
Proof.
  intros s a s' E. step E n s1 E1. apply quiet_buffered_frames in E1 as Q1.
  step E st s2 E2. injection E2 as <- <-. case_decide as D; [|by injection E as <- <-; left].
  rewrite (proj1 Q1) in D. step E ok s2 E2. apply quiet_call_buffer in E2 as Q2; [|apply keeps_resize].
  destruct ok; simpl in E; [|injection E as <- <-; left; split; [done|by etrans]].
  step E ty s3 E3. injection E3 as <- <-. step E ok s3 E3.
  assert (quiet s2 s3) as Q3 by (revert E3; apply steady_decide; steady).
  assert (quiet s s3) as Q by (etrans; [exact Q1|]; by etrans).
  destruct ok; simpl in E; [right|by injection E as <- <-; left].
  eapply (enter_ready _ _ s s3); [..|exact E]; [steady|by rewrite D|]. apply ready_from; [by rewrite D|done].
Qed.

Lemma goes_doRunning : goes_to ePS_Running doRunning.
Proof.
  intros s a s' E. step E st s1 E1. injection E1 as <- <-. case_decide as D; [right|by injection E as <- <-; left].
  step E u1 s1 E1. assert (next_of s1 = next_of s) as Q1 by by injection E1 as _ <-.
  step E id s2 E2. injection E2 as <- <-. step E u2 s2 E2. apply quiet_settings in E2 as Q2.
  step E bw s3 E3. injection E3 as <- <-. step E ok s3 E3.
  apply quiet_call_buffer in E3 as Q3; [|apply keeps_bandwidth].
  step E u3 s4 E4. eapply (ready_set ePS_Running s) in E4; [|by rewrite (proj1 Q3), (proj1 Q2)|done|done].
  step E u4 s5 E5. apply quiet_times in E5. eapply ready_quiet in E4; [|exact E5].
  eapply enter_ready; [..|exact E4|exact E]; [steady|by rewrite D].
Qed.

(** The part of [doDryRunning] before the state changes. *)
Lemma goes_doDryRunning : goes_to ePS_DryRunning doDryRunning.
Proof.
  intros s a s' E. step E st s1 E1. injection E1 as <- <-. step E r s1 E1.
  assert (r = None /\ quiet s s1 \/ is_Some r /\ ready ePS_DryRunning s s1 /\ edge (state_of s) ePS_DryRunning) as R.
  { destruct (state_of s) eqn:D; try (injection E1 as <- <-; by left); right.
    - step E1 id s2 E2. injection E2 as <- <-. step E1 u s2 E2. apply quiet_settings in E2 as Q2.
      step E1 ty s3 E3. injection E3 as <- <-. step E1 v s3 E3.
      assert (quiet s2 s3) as Q3 by (revert E3; apply steady_decide; unfold get_last_timestamp; steady).
      injection E1 as <- <-. split; [done|]. split; [|done]. apply ready_from; [by rewrite D|by etrans].
    - step E1 ok s2 E2. apply quiet_call_buffer in E2 as Q2; [|apply keeps_clear].
      step E1 u s3 E3. eapply (ready_set ePS_DryRunning s) in E3; [|by rewrite (proj1 Q2)|by rewrite (proj1 Q2)|done].
      injection E1 as <- <-. done.
    - step E1 ok s2 E2. apply quiet_call_buffer in E2 as Q2; [|apply keeps_clear].
      step E1 u s3 E3. eapply (ready_set ePS_DryRunning s) in E3; [|by rewrite (proj1 Q2)|by rewrite (proj1 Q2)|done].
      step E1 u4 s4 E4. apply quiet_times in E4. step E1 u5 s5 E5. apply quiet_times in E5.
      injection E1 as <- <-. split; [done|]. split; [|done]. eapply ready_quiet; [|exact E5]. by eapply ready_quiet. }
  destruct R as [[-> Q]|([ok ->] & R & D)]; [injection E as <- <-; by left|right].
  eapply enter_ready; [..|exact R|exact E]; [steady|done].
Qed.

Lemma goes_doStop : goes_to ePS_Stopped doStop.
Proof.
  intros s a s' E. step E st s1 E1. injection E1 as <- <-. step E r s1 E1.
  assert (quiet s s1 /\ (is_Some r -> edge (state_of s) ePS_Stopped)) as [Q D].
  { destruct (state_of s) eqn:D; try (injection E1 as <- <-; split; [done|by intros [? ?]]); (split; [|done]);
      match type of E1 with ?m _ = _ => assert (steady quiet m) as Hq; [|by apply Hq in E1] end;
      unfold from_world, set_ticks_per_frame, set_local_node_id, set_correct_last_timestamp; steady. }
  destruct r as [ok|]; [right|injection E as <- <-; by left].
  step E ok2 s2 E2. apply quiet_call_buffer in E2 as Q2; [|apply keeps_clear].
  step E u s3 E3. eapply (ready_set ePS_Stopped s) in E3; [|by rewrite (proj1 Q2), (proj1 Q)|by rewrite (proj1 Q2), (proj1 Q)|done].
  step E ok3 s4 E4. apply quiet_ports in E4. eapply ready_quiet in E3; [|exact E4].
  eapply enter_ready; [..|exact E3|exact E]; [steady|by apply D].
Qed.

Lemma transition_goes st x act : transition st x = Some act -> goes_to x act.
Proof.
  destruct st, x; try done; intros [= <-]; first [apply goes_doStop|apply goes_doWaitForRunningStream
    |apply goes_doDryRunning|apply goes_doWaitForStreamEnable|apply goes_doRunning|apply goes_doWaitForStreamDisable].
Qed.

(** [updateState] takes the edge to the requested state or leaves the state alone; when it
    reports success the requested state is the current one. *)
Lemma updateState_moves s ok s' : updateState s = Some (ok, s') ->
  next_of s' = next_of s /\ keeps_step s s'
  /\ (state_of s' = state_of s \/ edge (state_of s) (next_of s) /\ state_of s' = next_of s)
  /\ (ok = true -> state_of s' = next_of s)
  /\ (state_of s <> ePS_WaitingForStreamEnable -> xrun_of s' = xrun_of s).
Proof.
  intros E. step E next s1 E1. injection E1 as <- <-. step E st s1 E1. injection E1 as <- <-.
  case_decide as D; [injection E as <- <-; split_and!; first [done|by left|by intros]|]. step E r s1 E1.
  assert (quiet s1 s' /\ ok = r) as [Q ->].
  { destruct r; [by injection E as <- <-|]. step E u s2 E2. injection E as <- <-. by apply quiet_signal in E2. }
  assert (r = false /\ quiet s s1 \/ enters (next_of s) s s1) as [[-> Q1]|(Ed & Es & En & X & K)].
  { destruct (transition _ _) as [act|] eqn:Et; [by eapply transition_goes|injection E1 as <- <-; by left]. }
  - assert (quiet s s') as [Q2 Q3] by by etrans. rewrite Q2. split_and!; [done| |by left|done|done].
    unfold keeps_step, transparent_ok. by rewrite Q2, Q3.
  - destruct Q as [Q2 Q3]. rewrite Q2. split_and!; [done| |by right|done|].
    2: { intros N. apply X. intros Er. rewrite Er in Ed. inversion Ed. congruence. }
    intros T%K. unfold transparent_ok in *. by rewrite Q2, Q3.
Qed.

(** ** What a call may do *)

(** The state is the one that was asked for. *)
Definition settled (s : sp_state C W) : Prop := next_of s = state_of s.

(** No change of the state; and of neither the state nor the request. *)
Definition stays (s s' : sp_state C W) : Prop := state_of s' = state_of s /\ keeps_step s s'.
Definition still (s s' : sp_state C W) : Prop := stays s s' /\ next_of s' = next_of s.
(** At most one edge. *)
Definition one_edge (s s' : sp_state C W) : Prop :=
  (state_of s' = state_of s \/ edge (state_of s) (state_of s')) /\ keeps_step s s'.
(** At most the end of the running state. *)
Definition disables (s s' : sp_state C W) : Prop :=
  (state_of s' = state_of s \/ state_of s = ePS_Running /\ state_of s' = ePS_WaitingForStreamDisable)
  /\ keeps_step s s'.

#[local] Instance stays_preorder : PreOrder stays.
Proof. split; [by split|]. intros s1 s2 s3 [A1 B1] [A2 B2]. split; [congruence|]. unfold keeps_step in *. auto. Qed.
#[local] Instance still_preorder : PreOrder still.
Proof. split; [by split|]. intros s1 s2 s3 [A1 B1] [A2 B2]. split; [by etrans|congruence]. Qed.

Lemma disables_refl s : disables s s.
Proof. by split; [left|]. Qed.
Lemma stays_refl s : stays s s.
Proof. reflexivity. Qed.
Lemma quiet_still s s' : quiet s s' -> still s s'.
Proof. intros [E1 E2]. unfold still, stays, keeps_step, transparent_ok. by rewrite E1, E2. Qed.
Lemma still_settled s s' : still s s' -> settled s -> settled s'.
Proof. intros [[A _] B]. unfold settled. congruence. Qed.
Lemma stays_one s s' : stays s s' -> one_edge s s'.
Proof. intros [A B]. split; [by left|done]. Qed.
Lemma disables_one s s' : disables s s' -> one_edge s s'.
Proof. intros [[A|[A1 A2]] B]; (split; [|done]); [by left|right]. rewrite A1, A2. done. Qed.

Lemma stays_one_l s s1 s' : stays s s1 -> one_edge s1 s' -> one_edge s s'.
Proof. intros [A B] [C' D]. rewrite A in C'. split; [done|unfold keeps_step in *; auto]. Qed.
Lemma stays_one_r s s1 s' : one_edge s s1 -> stays s1 s' -> one_edge s s'.
Proof. intros [C' D] [A B]. rewrite <- A in C'. split; [done|unfold keeps_step in *; auto]. Qed.
Lemma stays_disables_l s s1 s' : stays s s1 -> disables s1 s' -> disables s s'.
Proof. intros [A B] [C' D]. rewrite A in C'. split; [done|unfold keeps_step in *; auto]. Qed.
Lemma stays_disables_r s s1 s' : disables s s1 -> stays s1 s' -> disables s s'.
Proof. intros [C' D] [A B]. rewrite <- A in C'. split; [done|unfold keeps_step in *; auto]. Qed.

(** Out of the running state there is one edge. *)
Lemma running_one s s1 s' : state_of s = ePS_Running -> one_edge s s1 -> disables s1 s' -> one_edge s s'.
Proof.
  intros R [A B] [C' D]. split; [|unfold keeps_step in *; auto]. rewrite R. rewrite R in A. destruct A as [A|A].
  - rewrite A in C'. destruct C' as [->|[_ ->]]; [by left|by right].
  - assert (state_of s1 = ePS_WaitingForStreamDisable) as X by by inversion A.
    rewrite X in C'. destruct C' as [->|[C' _]]; [by right|done].
Qed.

(** *** The parts of the packet handlers *)

Lemma one_updateState : steady one_edge (updateState : M bool).
Proof.
  intros s ok s' (_ & K & [A|[A1 A2]] & _)%updateState_moves; (split; [|done]); [by left|right]. by rewrite A2.
Qed.

(** A request and its execution. *)
Lemma switch_to_inv {A} x (f : A) k s a s' : switch_to x f k s = Some (a, s') ->
  (one_edge s s' /\ (state_of s' = state_of s \/ state_of s' = x)) \/
  exists s1, one_edge s s1 /\ state_of s1 = x /\ settled s1 /\ k s1 = Some (a, s').
Proof.
  unfold switch_to. intros E. step E u s1 E1. injection E1 as _ <-. step E ok s2 E2.
  apply one_updateState in E2 as O. apply updateState_moves in E2 as (N & _ & Mv & Ok & _). simpl in *.
  assert (one_edge s s2) as O' by exact O.
  destruct ok; [right|left].
  - exists s2. split_and!; try done; [by apply Ok|]. unfold settled. rewrite N. symmetry. by apply Ok.
  - injection E as _ <-. split; [done|]. by destruct Mv as [->|[_ ->]]; [left|right].
Qed.

Lemma switch_to_one {A} x (f : A) k s a s' :
  (forall s1, state_of s1 = x -> settled s1 -> k s1 = Some (a, s') -> stays s1 s') ->
  switch_to x f k s = Some (a, s') -> one_edge s s'.
Proof.
  intros Hk [[? _]|(s1 & O & X & S1 & E)]%switch_to_inv; [done|]. eapply stays_one_r; [exact O|by apply Hk].
Qed.

(** The end of the running state, executed in any state. *)
Lemma xrun_disable_disables {A} c (f : A) k s a s' :
  (forall s1, state_of s1 = ePS_WaitingForStreamDisable -> settled s1 -> k s1 = Some (a, s') -> stays s1 s') ->
  xrun_disable c f k s = Some (a, s') -> disables s s'.
Proof.
  unfold xrun_disable. intros Hk E. step E u1 s1 E1. step E u2 s2 E2.
  assert (stays s s2) as T by (injection E1 as _ <-; injection E2 as _ <-; exact (stays_refl s)).
  eapply stays_disables_l; [exact T|]. clear T E1 E2.
  assert (forall s3, one_edge s2 s3 -> state_of s3 = state_of s2 \/ state_of s3 = ePS_WaitingForStreamDisable ->
    disables s2 s3) as Hd.
  { intros s3 [[O|O] K] X; (split; [|done]); [by left|right]. destruct X as [X|X]; rewrite X in *; inversion O; done. }
  apply switch_to_inv in E as [[O X]|(s3 & O & X & S3 & E)]; [by apply Hd|].
  eapply stays_disables_r; [apply Hd; [exact O|by right]|by apply Hk].
Qed.

(** A pending change: nothing in a settled state, one edge otherwise. *)
Lemma pending_change_settled {A} (f : A) k s : settled s -> pending_change f k s = k s.
Proof. intros St. unfold pending_change, mbind, run_bind, get_state, get_next_state, gets. simpl. by rewrite decide_True. Qed.

Lemma pending_change_inv {A} (f : A) k s a s' : pending_change f k s = Some (a, s') ->
  one_edge s s' \/ exists s1, one_edge s s1 /\ settled s1 /\ k s1 = Some (a, s').
Proof.
  unfold pending_change. intros E. step E st s1 E1. injection E1 as <- <-. step E nx s1 E1. injection E1 as <- <-.
  case_decide as D; [right; exists s; split_and!; [by apply stays_one|done|done]|]. step E ok s1 E1.
  apply one_updateState in E1 as O. apply updateState_moves in E1 as (N & _ & _ & Ok & _).
  destruct ok; [right|left; by injection E as _ <-]. exists s1. split_and!; [done| |done].
  unfold settled. rewrite N. symmetry. by apply Ok.
Qed.

Lemma quiet_time_to_switch c : steady quiet (time_to_switch c : M bool).
Proof. unfold time_to_switch, get_cycle_to_switch_state. steady. Qed.
Lemma quiet_empty_packet p c : steady quiet (empty_packet p c : M packet).
Proof. unfold empty_packet. steady. Qed.
#[local] Hint Resolve quiet_time_to_switch quiet_empty_packet : steady.

(** A method of which all runs are quiet keeps the state. *)
Lemma quiet_stays {A} (m : M A) : steady quiet m -> steady stays m.
Proof. intros Hm s a s' E. apply quiet_still, (Hm _ _ _ E). Qed.

(** *** Received packets *)

Lemma receive_data_disables d l c : steady disables (receive_data d l c : M raw1394_iso_disposition).
Proof.
  intros s a s' E. unfold receive_data in E. step E r s1 E1. apply quiet_processPacketData, quiet_still, proj1 in E1.
  eapply stays_disables_l; [exact E1|]. destruct r; try (injection E as _ <-; split; [by left|done]).
  revert E. apply xrun_disable_disables. intros s2 _ _ [= _ <-]. done.
Qed.

Lemma receive_good_inv d l c s a s' : (receive_good d l c : M raw1394_iso_disposition) s = Some (a, s') ->
  (settled s -> state_of s <> ePS_WaitingForStream -> disables s s')
  /\ exists s1, one_edge s s1 /\ disables s1 s'.
Proof.
  unfold receive_good. intros E. step E u0 s0 E0. apply (proj1 quiet_timestamps), quiet_still in E0.
  step E u1 s1 E1. apply (proj2 quiet_timestamps), quiet_still in E1.
  assert (still s s1) as T by by etrans. clear E0 E1. step E st s2 E2. injection E2 as <- <-.
  pose proof (disables_refl s') as Rf. case_decide as D.
  - split; [intros _ N; rewrite <- (proj1 (proj1 T)) in N; done|]. exists s'. split; [|done].
    eapply stays_one_l; [apply T|]. step E b s2 E2. apply quiet_time_to_switch, quiet_still, proj1 in E2.
    eapply stays_one_l; [exact E2|]. destruct b; [|injection E as _ <-; by apply stays_one].
    revert E. apply switch_to_one. intros s3 _ _ [= _ <-]. done.
  - step E nx s2 E2. injection E2 as <- <-. case_decide as D2.
    + apply receive_data_disables in E. assert (disables s s') as Ds by (eapply stays_disables_l; [apply T|done]).
      split; [done|]. exists s. split; [by apply stays_one|done].
    + split; [intros Sd; by apply (still_settled _ _ T) in Sd; destruct D2|].
      step E ok s2 E2. apply one_updateState in E2. exists s2. split; [eapply stays_one_l; [apply T|done]|].
      destruct ok; [|injection E as _ <-; apply disables_refl]. simpl in E. step E st s3 E3. injection E3 as <- <-.
      case_decide; [injection E as _ <-; apply disables_refl|]. by eapply receive_data_disables.
Qed.

(** From the header of a packet on: at most one edge and then the end of the running state; in a
    settled running state at most the latter. *)
Lemma receive_packet_inv d l t y c n s a s' : (receive_packet d l t y c n : M raw1394_iso_disposition) s = Some (a, s') ->
  (settled s -> state_of s = ePS_Running -> disables s s') /\ exists s1, one_edge s s1 /\ disables s1 s'.
Proof.
  unfold receive_packet. intros E. step E r s1 E1. apply quiet_processPacketHeader, quiet_still in E1. cbv zeta in E.
  match type of E with context [xrun_disable _ _ ?m] => set (rest := m) in E end.
  assert (forall s2 a2 s2', rest s2 = Some (a2, s2') -> (settled s2 -> state_of s2 <> ePS_WaitingForStream -> disables s2 s2')
    /\ exists s3, one_edge s2 s3 /\ disables s3 s2') as Hr.
  { intros s2 a2 s2' E2. unfold rest in E2. destruct r; try (injection E2 as _ <-; split; [intros; apply disables_refl|];
      exists s2; split; [by apply stays_one|apply disables_refl]). by apply receive_good_inv in E2. }
  clearbody rest. assert (disables s1 s' \/ rest s1 = Some (a, s') \/ exists s2, still s1 s2 /\ rest s2 = Some (a, s')) as Hc.
  { destruct (n =? 0); [by right; left|]. step E u s2 E2. apply quiet_times, quiet_still in E2.
    step E st s3 E3. injection E3 as <- <-. case_decide; [left|right; right; by exists s2].
    eapply stays_disables_l; [apply E2|]. revert E. apply xrun_disable_disables. intros s3 X St E.
    apply Hr, proj1 in E. destruct (E St) as [[A|[A _]] K]; [congruence|by split|congruence]. }
  assert (disables s1 s' \/ exists s2, still s1 s2 /\ rest s2 = Some (a, s')) as [Hd|(s2 & T & E2)].
  { destruct Hc as [?|[?|?]]; [by left|right; by exists s1|by right]. }
  - eapply stays_disables_l in Hd; [|apply E1]. split; [done|]. exists s. split; [by apply stays_one|done].
  - apply Hr in E2 as [Hs (s3 & O & Ds)]. assert (still s s2) as T2 by by etrans. split.
    + intros St R. eapply stays_disables_l; [apply T2|]. apply Hs; [by eapply still_settled|].
      rewrite (proj1 (proj1 T2)), R. done.
    + exists s3. split; [eapply stays_one_l; [apply T2|done]|done].
Qed.

Lemma putPacket_inv d l ch t y c n s a s' : (putPacket d l ch t y c n : M raw1394_iso_disposition) s = Some (a, s') ->
  exists s1, one_edge s s1 /\ disables s1 s'.
Proof.
  unfold putPacket. intros E. step E st s1 E1. injection E1 as <- <-.
  assert (stays s s -> exists s1, one_edge s s1 /\ disables s1 s) as Hs.
  { intros T. exists s. split; [by apply stays_one|apply disables_refl]. }
  case_match; [injection E as _ <-; by apply Hs|]. case_decide; [injection E as _ <-; by apply Hs|].
  case_decide; [injection E as _ <-; by apply Hs|]. clear Hs.
  step E ts s1 E1. injection E1 as <- <-. step E u s1 E1. apply quiet_times, quiet_still in E1.
  step E nx s2 E2. injection E2 as <- <-.
  assert (exists s2, one_edge s1 s2 /\ disables s2 s') as (s2 & O & D); [|exists s2; split; [|done]; by eapply stays_one_l; [apply E1|]].
  pose proof (disables_refl s') as Rf. case_decide.
  - exists s'. split; [|done]. step E b s2 E2. apply quiet_time_to_switch, quiet_still, proj1 in E2.
    eapply stays_one_l; [exact E2|]. destruct b; [|injection E as _ <-; by apply stays_one].
    revert E. apply switch_to_one. by intros s3 _ _ [= _ <-].
  - case_match; [|by apply receive_packet_inv, proj2 in E]. step E b s2 E2. apply quiet_time_to_switch, quiet_still, proj1 in E2.
    destruct b; [|apply receive_packet_inv in E as [_ (s3 & O & D)]; exists s3; split; [by eapply stays_one_l|done]].
    apply switch_to_inv in E as [[O _]|(s3 & O & X & St & E)].
    + exists s'. split; [by eapply stays_one_l|done].
    + apply receive_packet_inv, proj1 in E. exists s3. split; [by eapply stays_one_l|auto].
Qed.

(** *** Transmitted packets *)

Lemma send_empty_settled p c s a s' : settled s -> send_empty_packet p c s = Some (a, s') -> stays s s'.
Proof.
  intros St. unfold send_empty_packet. rewrite pending_change_settled by done. apply quiet_stays. steady.
Qed.

Lemma one_send_empty_packet p c : steady one_edge (send_empty_packet p c : M _).
Proof.
  intros s a s' [?|(s1 & O & St & E)]%pending_change_inv; [done|]. eapply stays_one_r; [exact O|].
  revert E. apply quiet_stays. steady.
Qed.
#[local] Hint Resolve one_send_empty_packet send_empty_settled : core.

Lemma one_switch_in_time x p c k : steady one_edge k ->
  (forall s a s', settled s -> k s = Some (a, s') -> stays s s') -> steady one_edge (switch_in_time x p c k : M _).
Proof.
  intros Hk Hs s a s' E. unfold switch_in_time in E. step E b s1 E1. apply quiet_time_to_switch, quiet_still, proj1 in E1.
  eapply stays_one_l; [exact E1|]. destruct b; [|by eapply Hk]. revert E. apply switch_to_one. intros s2 _ St. by apply Hs.
Qed.

Lemma one_send_silent p c : steady one_edge (send_silent p c : M _).
Proof.
  apply (one_switch_in_time ePS_DryRunning).
  - intros s a s' E. step E x s1 E1. destruct x as [r q]. apply quiet_generateSilentPacketHeader, quiet_still, proj1 in E1.
    eapply stays_one_l; [exact E1|]. destruct r; try (injection E as _ <-; by apply stays_one);
      [apply stays_one; revert E; apply quiet_stays; steady|by eapply one_send_empty_packet].
  - intros s a s' St E. step E x s1 E1. destruct x as [r q]. apply quiet_generateSilentPacketHeader, quiet_still in E1.
    etrans; [apply E1|]. destruct r; try (by injection E as _ <-);
      [revert E; apply quiet_stays; steady|]. eapply send_empty_settled; [|exact E]. by eapply still_settled.
Qed.

Lemma xrun_send_empty p c f : steady disables (xrun_disable c f (send_empty_packet p c) : M _).
Proof. intros s a s'. apply xrun_disable_disables. intros s1 _ St. by apply send_empty_settled. Qed.

Lemma send_running_one p ts c s a s' : state_of s = ePS_Running -> send_running p ts c s = Some (a, s') -> one_edge s s'.
Proof.
  intros R E. unfold send_running in E. step E x s1 E1. destruct x as [r q]. apply quiet_generatePacketHeader, quiet_still, proj1 in E1.
  eapply stays_one_l; [exact E1|]. rewrite <- (proj1 E1) in R. clear E1.
  assert (forall r2, send_data r2 q ts c s1 = Some (a, s') -> one_edge s1 s') as Hd.
  { intros r2 E2. unfold send_data in E2. step E2 u s2 E3. apply quiet_times, quiet_still, proj1 in E3.
    eapply stays_one_l; [exact E3|]. rewrite <- (proj1 E3) in R. apply pending_change_inv in E2 as [?|(s3 & O & St & E2)]; [done|].
    eapply running_one; [exact R|exact O|]. step E2 x s4 E4. destruct x as [r3 q3]. apply quiet_generatePacketData, quiet_still, proj1 in E4.
    eapply stays_disables_l; [exact E4|]. case_decide; [by eapply xrun_send_empty|].
    case_match; injection E2 as _ <-; apply disables_refl. }
  assert (forall k, (forall s2, settled s2 -> k s2 = Some (a, s') -> stays s2 s') ->
    pending_change (RAW1394_ISO_ERROR, q) k s1 = Some (a, s') -> one_edge s1 s') as Hp.
  { intros k Hk [?|(s2 & O & St & E2)]%pending_change_inv; [done|]. eapply stays_one_r; [exact O|by apply Hk]. }
  destruct r; try (injection E as _ <-; by apply stays_one); try (by eapply Hd).
  - eapply Hp; [|exact E]. intros s2 St. by apply send_empty_settled.
  - by eapply disables_one, xrun_send_empty.
  - eapply Hp; [|exact E]. intros s2 _. apply quiet_stays. steady.
Qed.

Lemma one_getPacket p c n sk m : steady one_edge (getPacket p c n sk m : M _).
Proof.
  intros s a s' E. unfold getPacket in E. case_match; [injection E as _ <-; by apply stays_one|].
  step E st s1 E1. injection E1 as <- <-. case_decide; [injection E as _ <-; by apply stays_one|].
  assert (forall s0, (send_by_state p c : M _) s0 = Some (a, s') -> one_edge s0 s') as Hs.
  { clear E. intros s0 E. unfold send_by_state in E. step E st s1 E1. injection E1 as <- <-.
    case_match; [injection E as _ <-; by apply stays_one|]. case_decide; [injection E as _ <-; by apply stays_one|].
    step E ts s1 E1. injection E1 as <- <-. step E nx s1 E1. injection E1 as <- <-.
    destruct (state_of s0) eqn:R; try (by eapply one_send_empty_packet).
    - eapply one_switch_in_time; [..|exact E]; eauto.
    - case_decide; [|by eapply one_send_empty_packet]. eapply one_switch_in_time; [..|exact E]; eauto.
    - by eapply send_running_one.
    - by eapply one_send_silent. }
  case_match; [|by apply Hs]. step E u s1 E1. assert (stays s s1) as T by (injection E1 as _ <-; exact (stays_refl s)).
  eapply stays_one_l; [exact T|]. case_decide; [by eapply disables_one, xrun_send_empty|by apply Hs].
Qed.

(** *** A stream that goes on *)

(** The stream neither waits for its start nor is it to. *)
Definition calm (m : sp_machine) : Prop :=
  m_state m <> ePS_WaitingForStreamEnable /\ m_next_state m <> ePS_WaitingForStreamEnable.
(** It runs, without an xrun and without a change ahead. *)
Definition runs (m : sp_machine) : Prop :=
  m_in_xrun m = false /\ m_state m = ePS_Running /\ m_next_state m = ePS_Running.

(** From one machine to a later one: a stream that is calm stays calm and keeps the flag for an xrun, and one that runs
    flags an xrun or runs on. *)
Definition goes_on (m m' : sp_machine) : Prop :=
  (calm m -> calm m' /\ (m_in_xrun m = true -> m_in_xrun m' = true)) /\ (runs m -> m_in_xrun m' = true \/ runs m').
Definition on_goes (s s' : sp_state C W) : Prop := goes_on (machine (sp s)) (machine (sp s')).

Lemma runs_calm m : runs m -> calm m.
Proof. intros (_ & A & B). unfold calm. by rewrite A, B. Qed.

#[export] Instance goes_on_preorder : PreOrder goes_on.
Proof.
  split; [intros m; split; [done|by right]|]. intros m1 m2 m3 [A1 B1] [A2 B2]. split.
  - intros [c x]%A1. destruct (A2 c). auto.
  - intros R. destruct (A1 (runs_calm _ R)) as [c _]. destruct (A2 c) as [_ x]. destruct (B1 R); auto.
Qed.
#[local] Instance on_goes_preorder : PreOrder on_goes.
Proof. split; [intros s; unfold on_goes; reflexivity|]. intros s1 s2 s3 A B. unfold on_goes in *. by etrans. Qed.

Lemma quiet_goes {A} (m : M A) : steady quiet m -> steady on_goes m.
Proof. intros Hm s a s' [E _]%Hm. unfold on_goes. by rewrite E. Qed.

(** A machine that does not run or has an xrun flagged has only to keep calm. *)
Lemma goes_idle m m' : (m_state m <> ePS_Running \/ m_in_xrun m = true) ->
  (calm m -> calm m' /\ (m_in_xrun m = true -> m_in_xrun m' = true)) -> goes_on m m'.
Proof. intros Hi A. split; [done|]. intros (X & R & _). destruct Hi; congruence. Qed.

Lemma updateState_goes : steady on_goes (updateState : M bool).
Proof.
  intros s ok s' E. apply updateState_moves in E as (N & _ & Mv & _ & X).
  split.
  - intros [c1 c2]. specialize (X c1). rewrite <- X. split; [|done]. split; [|by rewrite N].
    destruct Mv as [->|[_ ->]]; done.
  - intros (x & R & Nx). right. rewrite R in X, Mv. unfold runs. rewrite N, X by done. split; [done|].
    destruct Mv as [->|[Ed _]]; [done|]. rewrite Nx in Ed. inversion Ed.
Qed.

(** A request for a change in a state that does not run on anyway. *)
Lemma switch_to_goes {A} x (f : A) k s a s' : x <> ePS_WaitingForStreamEnable ->
  (state_of s <> ePS_Running \/ xrun_of s = true) -> steady on_goes k ->
  switch_to x f k s = Some (a, s') -> on_goes s s'.
Proof.
  intros Hx Hi Hk E. unfold switch_to in E. step E u s1 E1. step E ok s2 E2. apply updateState_goes in E2.
  assert (on_goes s1 s') as [G _] by (etrans; [exact E2|]; destruct ok; [by eapply Hk|by injection E as _ <-]).
  apply goes_idle; [done|]. intros [c1 c2]. injection E1 as _ <-. by apply G.
Qed.

Lemma xrun_disable_goes {A} c (f : A) k : steady on_goes k -> steady on_goes (xrun_disable c f k : M A).
Proof.
  intros Hk s a s' E. unfold xrun_disable in E. step E u s1 E1. step E v s2 E2.
  apply switch_to_goes in E as [G _]; [|done|injection E1 as _ <-; injection E2 as _ <-; by right|done].
  injection E1 as _ <-. injection E2 as _ <-. split.
  - intros c'. destruct (G c') as [c2 x2]. split; [done|]. intros _. by apply x2.
  - intros R. left. by apply (G (runs_calm _ R)).
Qed.

Lemma pending_change_goes {A} (f : A) k : steady on_goes k -> steady on_goes (pending_change f k : M A).
Proof.
  intros Hk s a s' E. unfold pending_change in E. step E st s1 E1. injection E1 as <- <-. step E nx s1 E1. injection E1 as <- <-.
  case_decide; [by eapply Hk|]. step E ok s1 E1. apply updateState_goes in E1. etrans; [exact E1|].
  destruct ok; [by eapply Hk|by injection E as _ <-].
Qed.
Lemma flag_goes : steady on_goes (set_in_xrun true : M unit).
Proof. intros s a s' [= _ <-]. split; [done|by left]. Qed.

Create HintDb going.
#[local] Hint Resolve flag_goes updateState_goes xrun_disable_goes pending_change_goes : going.

(** The parts that are quiet, and those that go on. *)
Ltac going :=
  repeat match goal with
  | |- steady on_goes (mbind _ _) => apply steady_bind; [apply _| |intros]
  | |- steady on_goes (if decide _ then _ else _) => apply steady_decide; [apply _|..]
  | |- steady on_goes (if ?c then _ else _) => apply steady_if; [apply _|..]
  | |- steady on_goes (let '(_, _) := ?x in _) => destruct x
  | |- steady on_goes (match ?x with _ => _ end) => destruct x
  | |- steady on_goes (gets _) => apply steady_gets; apply _
  | |- steady on_goes (mret _) => apply steady_ret; apply _
  | |- _ => solve [apply quiet_goes; steady]
  | |- _ => solve [auto with going]
  | |- steady on_goes (xrun_disable _ _ _) => apply xrun_disable_goes
  | |- steady on_goes (pending_change _ _) => apply pending_change_goes
  end.

Lemma send_empty_goes p c : steady on_goes (send_empty_packet p c : M _).
Proof. unfold send_empty_packet. going. Qed.
#[local] Hint Resolve send_empty_goes : going.

Lemma send_running_goes p ts c : steady on_goes (send_running p ts c : M _).
Proof. unfold send_running, send_data, set_last_timestamp2. going. Qed.

(** A change in time, in a state that does not run. *)
Lemma in_time_goes {A} x (f : A) c k j s a s' : x <> ePS_WaitingForStreamEnable -> state_of s <> ePS_Running ->
  steady on_goes k -> steady on_goes j ->
  (now ← time_to_switch c; if now : bool then switch_to x f k else j) s = Some (a, s') -> on_goes s s'.
Proof.
  intros Hx R Hk Hj E. step E b s1 E1. apply quiet_time_to_switch in E1 as [Q _].
  assert (on_goes s s1) as G by (unfold on_goes; by rewrite Q). etrans; [exact G|].
  destruct b; [|by eapply Hj]. eapply switch_to_goes; [done| |exact Hk|exact E]. left. by rewrite Q.
Qed.

Lemma getPacket_goes p c n sk m : steady on_goes (getPacket p c n sk m : M _).
Proof.
  assert (steady on_goes (send_by_state p c : M _)) as Hs.
  { intros s a s' E. unfold send_by_state in E. step E st s1 E1. injection E1 as <- <-.
    case_match; [by injection E as _ <-|]. case_decide; [by injection E as _ <-|].
    step E ts s1 E1. injection E1 as <- <-. step E nx s1 E1. injection E1 as <- <-.
    destruct (state_of s) eqn:R; try (by eapply send_empty_goes).
    - eapply in_time_goes; [..|exact E]; [done|congruence|going..].
    - case_decide; [|by eapply send_empty_goes]. eapply in_time_goes; [..|exact E]; [done|congruence|going..].
    - by eapply send_running_goes.
    - eapply in_time_goes; [..|exact E]; [done|congruence|going..]. }
  unfold getPacket, get_state. going; done.
Qed.

Lemma receive_good_goes d l c : steady on_goes (receive_good d l c : M raw1394_iso_disposition).
Proof.
  assert (steady on_goes (receive_data d l c : M raw1394_iso_disposition)) as Hd by (unfold receive_data; going).
  intros s a s' E. unfold receive_good in E. step E u0 s0 E0. apply (quiet_goes _ (proj1 quiet_timestamps)) in E0.
  step E u1 s1 E1. apply (quiet_goes _ (proj2 quiet_timestamps)) in E1. etrans; [exact E0|]. etrans; [exact E1|].
  step E st s2 E2. injection E2 as <- <-. case_decide as D.
  - eapply in_time_goes; [..|exact E]; [done|congruence|going..].
  - step E nx s2 E2. injection E2 as <- <-. case_decide; [by eapply Hd|]. step E ok s2 E2. apply updateState_goes in E2.
    etrans; [exact E2|]. destruct ok; simpl in E; [|by injection E as _ <-]. step E st s3 E3. injection E3 as <- <-.
    case_decide; [by injection E as _ <-|by eapply Hd].
Qed.

Lemma receive_packet_goes d l t y c n : steady on_goes (receive_packet d l t y c n : M raw1394_iso_disposition).
Proof.
  pose proof (receive_good_goes d l c). unfold receive_packet, get_state, set_correct_last_timestamp. cbv zeta. going; done.
Qed.

Lemma putPacket_goes d l ch t y c n : steady on_goes (putPacket d l ch t y c n : M raw1394_iso_disposition).
Proof.
  pose proof (receive_packet_goes d l t y c n) as Hr. intros s a s' E. unfold putPacket in E. step E st s1 E1. injection E1 as <- <-.
  case_match; [by injection E as _ <-|]. case_decide; [by injection E as _ <-|]. case_decide; [by injection E as _ <-|].
  step E ts s1 E1. injection E1 as <- <-. step E u s1 E1. apply quiet_times in E1 as [Q _].
  assert (on_goes s s1) as G by (unfold on_goes; by rewrite Q). etrans; [exact G|]. rewrite <- Q in E.
  step E nx s2 E2. injection E2 as <- <-. case_decide.
  - eapply in_time_goes; [..|exact E]; [done|congruence|going..].
  - case_match eqn:B; [|by eapply Hr]. apply andb_true_iff, proj1, bool_decide_eq_true in B.
    eapply in_time_goes; [..|exact E]; [done|congruence|done..].
Qed.

(** *** Set-up *)

(** The state in which the period size may change, and what the call leaves. *)
Lemma periodSizeChanged_inv n s a s' : (periodSizeChanged n : M bool) s = Some (a, s') ->
  one_edge s s' /\ (a = true -> settled s' /\ (state_of s = ePS_Stopped \/ state_of s = ePS_Created)).
Proof.
  unfold periodSizeChanged. intros E. step E st s1 E1. injection E1 as <- <-.
  case_match eqn:G; [injection E as <- <-; split; [by apply stays_one|done]|].
  assert (state_of s = ePS_Stopped \/ state_of s = ePS_Created) as Sc.
  { apply andb_false_iff in G as [G|G]; apply bool_decide_eq_false in G; [left|right]; by apply dec_stable. }
  step E es s1 E1. injection E1 as <- <-. step E ev s1 E1. injection E1 as <- <-.
  step E u s1 E1. apply quiet_scratch in E1 as Q1. step E pe s2 E2. injection E2 as <- <-.
  step E ok s2 E2. apply quiet_ports in E2 as Q2. assert (quiet s s2) as Q by by etrans.
  destruct ok; simpl in E; [|injection E as <- <-; split; [by apply stays_one, quiet_still|done]].
  step E ok s3 E3. apply quiet_setupDataBuffer in E3 as Q3. apply quiet_still in Q, Q3.
  assert (still s s3) as T by by etrans.
  destruct ok; simpl in E; [|injection E as <- <-; split; [by apply stays_one, T|done]].
  apply one_updateState in E as O. apply updateState_moves in E as (N & _ & _ & Ok & _).
  split; [by eapply stays_one_l; [apply T|]|]. intros Ha. split; [|done]. unfold settled. rewrite N. symmetry. by apply Ok.
Qed.

Lemma one_prepare : steady one_edge (SP_prepare : M bool).
Proof.
  intros s a s' E. unfold SP_prepare in E. step E pe s1 E1. injection E1 as <- <-. step E ok s1 E1.
  apply periodSizeChanged_inv in E1 as [O Ok]. destruct ok; simpl in E; [|by injection E as _ <-].
  destruct (Ok eq_refl) as [St Sc]. clear Ok. step E ok s2 E2. apply quiet_ports, quiet_still in E2.
  destruct ok; simpl in E; [|injection E as _ <-; eapply stays_one_r; [exact O|apply E2]].
  step E ok s3 E3. apply quiet_prepareChild, quiet_still in E3. assert (still s1 s3) as T by by etrans.
  destruct ok; simpl in E; [|injection E as _ <-; eapply stays_one_r; [exact O|apply T]].
  step E u s4 E4. assert (stays s1 s4 /\ next_of s4 = ePS_Stopped) as [T4 N4].
  { injection E4 as _ <-. split; [|done]. etrans; [apply T|]. exact (stays_refl s3). }
  assert (one_edge s s4) as O4 by by eapply stays_one_r. clear E4 E3 E2 T.
  apply updateState_moves in E as (_ & K & Mv & _ & _). rewrite N4 in Mv.
  destruct Mv as [Mv|[Ed Mv]]; [by eapply stays_one_r|]. destruct O4 as [[A|A] B].
  - split; [right; rewrite Mv, <- A; done|unfold keeps_step in *; auto].
  - exfalso. destruct Sc as [Sc|Sc]; rewrite Sc in A.
    + assert (state_of s4 = ePS_WaitingForStream) as X by by inversion A. rewrite X in Ed. inversion Ed.
    + assert (state_of s4 = ePS_Stopped) as X by by inversion A. rewrite X in Ed. inversion Ed.
Qed.

Lemma stays_init : steady stays (init : M bool).
Proof.
  intros s a s' E. unfold init in E. step E ok s1 E1. apply quiet_call_world, quiet_still, proj1 in E1.
  destruct ok; simpl in E; [|by injection E as _ <-]. step E ok s2 E2. apply quiet_call_world, quiet_still, proj1 in E2.
  etrans; [exact E1|]. etrans; [exact E2|]. destruct ok; injection E as _ <-; exact (stays_refl s2).
Qed.

Lemma stays_scheduleStateTransition x t : steady stays (scheduleStateTransition x t : M bool).
Proof. intros s a s' [= _ <-]. exact (stays_refl s). Qed.

Lemma stays_schedules t : steady stays (scheduleStartDryRunning t : M bool)
  /\ steady stays (scheduleStartRunning t : M bool) /\ steady stays (scheduleStopDryRunning t : M bool)
  /\ steady stays (scheduleStopRunning t : M bool).
Proof.
  pose proof stays_scheduleStateTransition as Hs.
  assert (steady stays (read_clock_for_debug : M unit)) as Hc by apply quiet_stays, quiet_read_clock.
  assert (forall n, steady stays (schedule_time t n : M Z)) as Ht by (intros n; apply quiet_stays, quiet_schedule_time).
  split_and!; unfold scheduleStartDryRunning, scheduleStartRunning, scheduleStopDryRunning, scheduleStopRunning;
    (apply steady_bind; [apply _|done|intros tx]; apply steady_bind; [apply _|done|intros _]); try done.
  apply steady_bind; [apply _|by intros s a s' [= _ <-]|intros st].
  destruct st; try done; try (apply steady_ret, _).
  apply steady_bind; [apply _|apply quiet_stays, quiet_call_world|intros []; [done|apply steady_ret, _]].
Qed.
End machine.

(** ** Reachability *)

Section reachability.
Context {C W : Type} `{SPWorld W} `{SPChildQuiet C W}.
Abbreviation M := (run (sp_state C W)).
Abbreviation state_of s := (m_state (machine (sp s))).

(** One call of a public operation, from either side of the stream processor. *)
Inductive sp_step (s s' : sp_state C W) : Prop :=
  | step_putPacket d l ch t y c n r : putPacket d l ch t y c n s = Some (r, s') -> sp_step s s'
  | step_getPacket p c n sk m r : getPacket p c n sk m s = Some (r, s') -> sp_step s s'
  | step_init r : init s = Some (r, s') -> sp_step s s'
  | step_prepare r : SP_prepare s = Some (r, s') -> sp_step s s'
  | step_period n r : periodSizeChanged n s = Some (r, s') -> sp_step s s'
  | step_startDry t r : scheduleStartDryRunning t s = Some (r, s') -> sp_step s s'
  | step_startRun t r : scheduleStartRunning t s = Some (r, s') -> sp_step s s'
  | step_stopDry t r : scheduleStopDryRunning t s = Some (r, s') -> sp_step s s'
  | step_stopRun t r : scheduleStopRunning t s = Some (r, s') -> sp_step s s'
  | step_getFrames n ts r : getFrames n ts s = Some (r, s') -> sp_step s s'
  | step_putFrames n ts r : putFrames n ts s = Some (r, s') -> sp_step s s'
  | step_drop n ts r : SP_dropFrames n ts s = Some (r, s') -> sp_step s s'
  | step_silence n ts r : putSilenceFrames n ts s = Some (r, s') -> sp_step s s'
  | step_shift n r : shiftStream n s = Some (r, s') -> sp_step s s'
  | step_channel n r : setChannel n s = Some (r, s') -> sp_step s s'
  | step_extra n r : setExtraBufferFrames n s = Some (r, s') -> sp_step s s'
  | step_bandwidth bw r : setDllBandwidth bw s = Some (r, s') -> sp_step s s'
  | step_rate f r : setTicksPerFrame f s = Some (r, s') -> sp_step s s'
  | step_tail ts r : SP_setBufferTailTimestamp ts s = Some (r, s') -> sp_step s s'
  | step_head ts r : SP_setBufferHeadTimestamp ts s = Some (r, s') -> sp_step s s'.

(** How one call may change the state: along one edge, or, for a packet that ends the wait for the
    start of the stream and then flags an xrun, along the two edges through the running state. *)
Definition call_moves (st st' : eProcessorState) : Prop :=
  st' = st \/ edge st st' \/ (st = ePS_WaitingForStreamEnable /\ st' = ePS_WaitingForStreamDisable).

Definition moves (s s' : sp_state C W) : Prop := call_moves (state_of s) (state_of s') /\ keeps_step s s'.

Lemma one_moves s s' : one_edge s s' -> moves s s'.
Proof. intros [[A|A] B]; (split; [|done]); [by left|by right; left]. Qed.
Lemma stays_moves s s' : stays s s' -> moves s s'.
Proof. intros [A B]. split; [by left|done]. Qed.
Lemma quiet_moves s s' : quiet s s' -> moves s s'.
Proof. intros Q. apply stays_moves, quiet_still, Q. Qed.

Lemma putPacket_moves d l ch t y c n s a s' : (putPacket d l ch t y c n : M raw1394_iso_disposition) s = Some (a, s') -> moves s s'.
Proof.
  intros (s1 & [O K1] & [D K2])%putPacket_inv. split; [|unfold keeps_step in *; auto].
  destruct D as [->|[D1 ->]]; [destruct O as [->|O]; [by left|by right; left]|].
  rewrite D1 in O. destruct O as [O|O]; [right; left; by rewrite <- O|]. right; right. by inversion O.
Qed.

Lemma sp_step_moves s s' : sp_step s s' -> moves s s'.
Proof.
  destruct 1 as [? ? ? ? ? ? ? ? E|? ? ? ? ? ? E|? E|? E|? ? E|t ? E|t ? E|t ? E|t ? E|n ts ? E|n ts ? E|n ts ? E
    |n ts ? E|n ? E|? ? E|? ? E|? ? E|? ? E|? ? E|? ? E].
  - by eapply putPacket_moves.
  - by eapply one_moves, one_getPacket.
  - by eapply stays_moves, stays_init.
  - by eapply one_moves, one_prepare.
  - by eapply one_moves, periodSizeChanged_inv.
  - by eapply stays_moves, (proj1 (stays_schedules t)).
  - by eapply stays_moves, (proj1 (proj2 (stays_schedules t))).
  - by eapply stays_moves, (proj1 (proj2 (proj2 (stays_schedules t)))).
  - by eapply stays_moves, (proj2 (proj2 (proj2 (stays_schedules t)))).
  - by eapply quiet_moves, (proj1 (quiet_frames n ts)).
  - by eapply quiet_moves, (proj1 (proj2 (quiet_frames n ts))).
  - by eapply quiet_moves, (proj1 (proj2 (proj2 (quiet_frames n ts)))).
  - by eapply quiet_moves, (proj1 (proj2 (proj2 (proj2 (quiet_frames n ts))))).
  - by eapply quiet_moves, (proj2 (proj2 (proj2 (proj2 (quiet_frames n 0))))).
  - apply quiet_moves. revert E. unfold setChannel. apply steady_bind; [apply _|apply quiet_settings|intros; steady].
  - by eapply quiet_moves, quiet_settings.
  - apply quiet_moves. revert E. unfold setDllBandwidth. apply steady_bind; [apply _|apply quiet_settings|intros; steady].
  - by eapply quiet_moves, (quiet_buffer (setRate _) (fun _ => eq_refl)).
  - by eapply quiet_moves, (quiet_buffer (setBufferTailTimestamp _) (fun _ => eq_refl)).
  - by eapply quiet_moves, (quiet_buffer (setBufferHeadTimestamp _) (fun _ => eq_refl)).
Qed.

(** The moves of a call are paths of the documented machine. *)
Lemma call_moves_path st st' : call_moves st st' -> rtc edge st st'.
Proof.
  intros [->|[E|[-> ->]]]; [done|by apply rtc_once|]. eapply rtc_l; [apply edge_run|]. by apply rtc_once.
Qed.

(** The states the documented machine can be in. *)
Lemma reachable_states st : rtc edge ePS_Created st -> st <> ePS_Invalid /\ st <> ePS_Error.
Proof.
  intros R. assert (ePS_Created <> ePS_Invalid /\ ePS_Created <> ePS_Error) as Hc by done. revert Hc.
  induction R as [|x y z Hxy R IH]; [done|]. intros _. apply IH. by inversion Hxy.
Qed.

(** C1. The state machine of a stream processor.  Take any moment after its creation, whatever packets,
    transfers, requests and settings arrived in whatever order, with requests for any
    transition at any time and with failing calls included.  Then each next call changes the
    state along at most one documented edge, except that a packet which ends the wait for the start of the
    stream and is found to be an xrun goes on from the running state to the wait for the
    end; a change is made by [updateState] only, to the state that was requested and
    only along an edge, and when it reports success the requested state is the current one.  The state is never
    invalid or erroneous, and the data buffer lets frames through exactly while the stream
    is running or being disabled.  (The notifications [handlerDied], [packetsStopped] and
    [handleBusReset] assign the state without [updateState] and are not among these calls.) *)
Theorem stream_states type c w s : rtc sp_step (mkState (StreamProcessor_new type) c w) s ->
  (forall s', sp_step s s' -> call_moves (state_of s) (state_of s'))
  /\ (forall ok s', updateState s = Some (ok, s') ->
        (state_of s' = state_of s \/ edge (state_of s) (m_next_state (machine (sp s)))
                                     /\ state_of s' = m_next_state (machine (sp s)))
        /\ (ok = true -> state_of s' = m_next_state (machine (sp s))))
  /\ rtc edge ePS_Created (state_of s) /\ state_of s <> ePS_Invalid /\ state_of s <> ePS_Error
  /\ m_transparent (m_data_buffer (sp s)) = negb (flowing (state_of s)).
Proof.
  intros R. split; [intros s' St; by apply sp_step_moves in St as [? _]|].
  split; [intros ok s' E; by apply updateState_moves in E as (_ & _ & ? & ? & _)|].
  assert (keeps_step (mkState (StreamProcessor_new type) c w) s /\ rtc edge ePS_Created (state_of s)) as [T E].
  { remember (mkState (StreamProcessor_new type) c w) as s0 eqn:E0.
    assert (rtc edge ePS_Created (state_of s0)) as R0 by by rewrite E0. clear E0. revert R0.
    induction R as [|s1 s2 s3 St R IH]; [done|]. apply sp_step_moves in St as [Mv K]. intros R0.
    destruct IH as [K' R']; [etrans; [exact R0|by apply call_moves_path]|]. split; [unfold keeps_step in *; auto|done]. }
  split; [done|]. destruct (reachable_states _ E). split_and!; try done. by apply T.
Qed.
End reachability.

(** ** A concrete stream *)

(** Surroundings with two buffers of eight frames at 48 kHz, where every call succeeds and the
    clock stands still; the state counts the wake-ups of the client thread. *)
#[local] Instance example_world : SPWorld Z := {
  getNbBuffers _ := 2; getPeriodSize _ := 8; getNominalRate _ := 48000; getAudioDataType _ := eADT_Int24;
  signalActivity w := w + 1; lockWaitLoop w := w; unlockWaitLoop w := w;
  registerProcessor w := (true, w); registerStream w := (true, w);
  signalActivityTransmit w := w; signalActivityReceive w := w;
  startHandlerForStream _ w := (true, w); stopHandlerForStream w := (true, w);
  getPacketLatencyForStream _ := 4; getLocalNodeId _ := 0xffc1; getCycleTimerTicks w := (1000, w);
  heap_junk _ := 0; debug_build := true;
}.

(** A subclass with frames of one quadlet: it takes the arrival time of a packet for its
    timestamp and the payload for eight frames, and has nothing to send. *)
#[local] Instance example_child : SPChild unit Z := {
  getEventsPerFrame _ := 1; getEventSize _ := 4; getNominalFramesPerPacket _ _ := 8;
  prepareChild := mret true;
  processPacketHeader d l t y ctr := set_last_timestamp (CYCLE_TIMER_TO_TICKS ctr) ;; mret eCRV_OK;
  processPacketData d l :=
    ts ← get_last_timestamp; ok ← call_buffer (writeFrames 8 d (d_of_Z ts)); mret (if ok : bool then eCRV_OK else eCRV_XRun);
  generatePacketHeader p _ := mret (eCRV_EmptyPacket, p); generatePacketData p := mret (eCRV_OK, p);
  generateEmptyPacketHeader p _ := mret (eCRV_OK, p); generateEmptyPacketData p := mret (eCRV_OK, p);
  generateSilentPacketHeader p _ := mret (eCRV_Packet, p); generateSilentPacketData p := mret (eCRV_OK, p);
  transmitSilenceBlock d n o := mret (true, d);
  block_client := {| processReadBlock d n o := mret true; processWriteBlock d n o := mret (true, d) |};
}.

#[local] Instance example_quiet : SPChildQuiet unit Z.
Proof.
  split; intros; cbn; try (apply steady_ret; apply _).
  - apply steady_bind; [apply _|apply quiet_times|intros; apply steady_ret; apply _].
  - apply steady_bind; [apply _|apply steady_gets; apply _|intros].
    apply steady_bind; [apply _|apply quiet_call_buffer, keeps_write|intros; apply steady_ret; apply _].
Qed.

(** The cycle timer register in cycle [c]. *)
Definition at_cycle (c : Z) : Z := c << 12.

Definition example_packet (c : Z) : run (sp_state unit Z) raw1394_iso_disposition :=
  putPacket (replicate 32 7) 32 0 1 0 (at_cycle c) 0.

(** A receive stream is prepared, started dry in cycle 5, enabled in cycle 8 and running in cycle 9. *)
Definition example_start (type : eProcessorType) : sp_state unit Z := mkState (StreamProcessor_new type) tt 0.

Definition example_prepared : option (sp_state unit Z) :=
  '(_, s) ← init (example_start ePT_Receive); '(_, s) ← SP_prepare s; Some s.

Definition example_running : option (sp_state unit Z) :=
  s ← example_prepared;
  '(_, s) ← scheduleStartDryRunning (5 * TICKS_PER_CYCLE) s;
  '(_, s) ← example_packet 4 s; '(_, s) ← example_packet 5 s; '(_, s) ← example_packet 6 s;
  '(_, s) ← scheduleStartRunning (8 * TICKS_PER_CYCLE) s;
  '(_, s) ← example_packet 7 s; '(_, s) ← example_packet 8 s; '(_, s) ← example_packet 9 s;
  Some s.

Example example_running_state :
  (fun s => (m_state (machine (sp s)), m_framecounter (m_data_buffer (sp s)))) <$> example_running = Some (ePS_Running, 16).
Proof. vm_compute. reflexivity. Qed.

Lemma example_reachable s : example_running = Some s -> rtc sp_step (example_start ePT_Receive) s.
Proof.
  unfold example_running, example_prepared, example_packet. intros E.
  apply bind_Some in E as (s0 & E0 & E). apply bind_Some in E0 as ([? ?] & ? & E0).
  apply bind_Some in E0 as ([? ?] & ? & E0). injection E0 as ->.
  repeat match type of E with _ ≫= _ = Some _ => apply bind_Some in E as ([? ?] & ? & E) end. injection E as ->.
  repeat (eapply rtc_l; [first [eapply step_putPacket; eassumption|eapply step_init; eassumption
    |eapply step_prepare; eassumption|eapply step_startDry; eassumption|eapply step_startRun; eassumption]|]).
  reflexivity.
Qed.

Lemma stream_states_witness :
  exists s, example_running = Some s /\ (forall s', sp_step s s' -> call_moves ePS_Running (m_state (machine (sp s'))))
    /\ m_state (machine (sp s)) = ePS_Running /\ m_transparent (m_data_buffer (sp s)) = false.
Proof.
  pose proof example_running_state as V. destruct example_running as [s|] eqn:E; [|vm_compute in V; congruence].
  injection V as V _. exists s. split; [reflexivity|].
  destruct (stream_states ePT_Receive tt 0 s (example_reachable s E)) as (R & _ & _ & _ & _ & T).
  rewrite V in R, T. split; [exact R|]. split; [exact V|exact T].
Defined.

(** ** Handlers that die *)

Section events.
Context {C W : Type} `{SPWorld W} `{SPChild C W}.
Abbreviation M := (run (sp_state C W)).
Abbreviation state_of s := (m_state (machine (sp s))).

(** A transition whose function succeeds. *)
Lemma updateState_transition (s : sp_state C W) x act s' : m_next_state (machine (sp s)) = x -> transition (state_of s) x = Some act ->
  state_of s <> x -> act s = Some (true, s') -> updateState s = Some (true, s').
Proof.
  intros En Et Hne Ea. unfold updateState, mbind, run_bind, get_next_state, get_state, gets. simpl.
  rewrite En, decide_False, Et by done. rewrite Ea. done.
Qed.

Lemma run_bind_intro {A B} (m : M A) (k : A -> M B) s a s1 r : m s = Some (a, s1) -> k a s1 = r -> (m ≫= k) s = r.
Proof. unfold mbind, run_bind. simpl. intros -> <-. done. Qed.

Lemma doWaitForRunningStream_stopped (s : sp_state C W) : state_of s = ePS_Stopped ->
  exists s', doWaitForRunningStream s = Some (true, s') /\ state_of s' = ePS_WaitingForStream
    /\ m_data_buffer (sp s') = m_data_buffer (sp s).
Proof.
  intros St. unfold doWaitForRunningStream, mbind, run_bind, get_state, gets. simpl. rewrite St. by eexists.
Qed.

(** What the transitions out of the waiting state leave of the buffer. *)
Definition same_frames (b b' : TimestampedBuffer) : Prop :=
  m_transparent b' = m_transparent b /\ m_event_buffer b' = m_event_buffer b /\ m_framecounter b' = m_framecounter b.

Lemma doDryRunning_waiting (s : sp_state C W) : state_of s = ePS_WaitingForStream ->
  exists s', doDryRunning s = Some (true, s') /\ state_of s' = ePS_DryRunning
    /\ same_frames (m_data_buffer (sp s)) (m_data_buffer (sp s')).
Proof.
  intros St. unfold doDryRunning, mbind, run_bind, get_state, gets. cbn [option_bind]. rewrite St.
  destruct (m_processor_type (settings (sp s))) eqn:Ty.
  - eexists. split; [cbn -[setBufferTailTimestamp d_of_Z]; rewrite Ty; reflexivity|]. done.
  - eexists. split; [cbn -[setBufferTailTimestamp d_of_Z]; rewrite Ty; reflexivity|]. done.
Qed.

(** From the stopped to the dry-running state. *)
Lemma restart_steps (s : sp_state C W) : state_of s = ePS_Stopped ->
  exists s', (set_next_state ePS_WaitingForStream ;; updateState ;; set_next_state ePS_DryRunning ;; updateState) s
             = Some (true, s')
    /\ state_of s' = ePS_DryRunning /\ same_frames (m_data_buffer (sp s)) (m_data_buffer (sp s')).
Proof.
  intros St. set (next x := fun s : sp_state C W => mkState (mkSP (mkMachine (state_of s) x
    (m_cycle_to_switch_state (machine (sp s))) (m_in_xrun (machine (sp s)))) (times (sp s)) (settings (sp s))
    (m_data_buffer (sp s)) (m_scratch_buffer (sp s)) (ports (sp s))) (child s) (world s)).
  destruct (doWaitForRunningStream_stopped (next ePS_WaitingForStream s) St) as (s1 & E1 & St1 & B1).
  destruct (doDryRunning_waiting (next ePS_DryRunning s1) St1) as (s2 & E2 & St2 & B2).
  exists s2. simpl in B1, B2. rewrite B1 in B2. split; [|by split].
  eapply run_bind_intro; [reflexivity|]. eapply run_bind_intro.
  { eapply updateState_transition; [reflexivity| |simpl; congruence|exact E1]. simpl. by rewrite St. }
  eapply run_bind_intro; [reflexivity|].
  eapply updateState_transition; [reflexivity| |simpl; congruence|exact E2]. simpl. by rewrite St1.
Qed.

(** When the handler of a running stream dies, [handlerDied] assigns the stopped state without
    the work of [doStop]: the buffer is still open and full of old frames, and it stays open when
    the stream is started again, so in the dry-running state the packets of the new stream are queued
    behind the old frames instead of being discarded. *)
Theorem handler_died_leaves_buffer_open (s : sp_state C W) : state_of s = ePS_Running ->
  m_transparent (m_data_buffer (sp s)) = false ->
  exists s1 s2, handlerDied s = Some (tt, s1) /\ state_of s1 = ePS_Stopped
    /\ m_data_buffer (sp s1) = m_data_buffer (sp s) /\ m_in_xrun (machine (sp s1)) = true
    /\ (set_next_state ePS_WaitingForStream ;; updateState ;; set_next_state ePS_DryRunning ;; updateState) s1
       = Some (true, s2)
    /\ state_of s2 = ePS_DryRunning /\ m_transparent (m_data_buffer (sp s2)) = false
    /\ m_event_buffer (m_data_buffer (sp s2)) = m_event_buffer (m_data_buffer (sp s))
    /\ m_framecounter (m_data_buffer (sp s2)) = m_framecounter (m_data_buffer (sp s)).
Proof.
  intros St T. set (s1 := mkState (mkSP (mkMachine ePS_Stopped (m_next_state (machine (sp s)))
     (m_cycle_to_switch_state (machine (sp s))) true) (times (sp s)) (settings (sp s)) (m_data_buffer (sp s))
     (m_scratch_buffer (sp s)) (ports (sp s))) (child s)
     (signalActivityReceive (signalActivityTransmit (signalActivity (world s))))).
  destruct (restart_steps s1 eq_refl) as (s2 & E2 & St2 & F1 & F2 & F3).
  exists s1, s2. split; [reflexivity|]. split_and!; try done. by rewrite F1.
Qed.

End events.

Lemma handler_died_leaves_buffer_open_witness :
  exists s s1, example_running = Some s /\ handlerDied s = Some (tt, s1)
    /\ m_state (machine (sp s1)) = ePS_Stopped /\ m_transparent (m_data_buffer (sp s1)) = false.
Proof.
  assert ((fun s => (m_state (machine (sp s)), m_transparent (m_data_buffer (sp s)))) <$> example_running
          = Some (ePS_Running, false)) as V by (vm_compute; reflexivity).
  destruct example_running as [s|] eqn:E; [|discriminate V]. injection V as V T.
  destruct (handler_died_leaves_buffer_open s V T) as (s1 & s2 & D & St & B & _).
  exists s, s1. split; [reflexivity|]. split; [exact D|]. split; [exact St|]. rewrite B. exact T.
Defined.

(** ** Disabling after an xrun *)

Section disabling.
Context {C W : Type} `{SPWorld W} `{SPChild C W}.
Abbreviation M := (run (sp_state C W)).
Abbreviation state_of s := (m_state (machine (sp s))).

(** From the switching cycle on, for half a second, a packet is in time; in the half second
    before it, it is not.  The target may be 8000, the cycle after the last one. *)
Lemma switch_window x y : valid_cycle x -> 0 <= y <= 8000 ->
  ((x - y) mod 8000 < 4000 -> 0 <= diffCycles x y) /\ (4000 < (x - y) mod 8000 -> diffCycles x y < 0).
Proof.
  unfold valid_cycle, diffCycles. ctr. intros Hx Hy.
  change (i32 (8000 / 2)) with 4000. rewrite (wrapS_small 32 x), (wrapS_small 32 y), (wrapS_small 32 (x - y)) by lia.
  rewrite wrapS_wrapU_sub, wrapS_wrapU_add. destruct (Z.ltb_spec 4000 (x - y)).
  - rewrite Z.mod_small by lia. cint. lia.
  - match goal with |- context [Z.ltb ?a ?b] => destruct (Z.ltb_spec a b) end; cint.
    + rewrite <- (Z.mod_add _ 1) by lia. rewrite Z.mod_small by lia. lia.
    + destruct (Z.le_gt_cases 0 (x - y)); [rewrite Z.mod_small by lia; lia|].
      rewrite <- (Z.mod_add _ 1) by lia. rewrite Z.mod_small by lia. lia.
Qed.

(** The buffer and the timestamps after a stream has been disabled. *)
Definition disabled (rb : ffado_ringbuffer_t) (p : StreamProcessor) : Prop :=
  m_state (machine p) = ePS_DryRunning /\ m_transparent (m_data_buffer p) = true
  /\ m_event_buffer (m_data_buffer p) = Some (ffado_ringbuffer_reset rb) /\ m_framecounter (m_data_buffer p) = 0
  /\ times p = mkTimes 0 0 (m_correct_last_timestamp (times p)).

Lemma call_buffer_some {A} f (s : sp_state C W) (a : A) b : f (m_data_buffer (sp s)) = Some (a, b) ->
  call_buffer f s = Some (a, mkState (mkSP (machine (sp s)) (times (sp s)) (settings (sp s)) b
                                        (m_scratch_buffer (sp s)) (ports (sp s))) (child s) (world s)).
Proof. unfold call_buffer. by intros ->. Qed.

Lemma clearBuffer_some b rb : m_event_buffer b = Some rb ->
  exists k, clearBuffer b = Some (true, with_clock k (resetFrameCounter (with_ring (ffado_ringbuffer_reset rb) b))).
Proof. unfold clearBuffer. intros ->. by eexists. Qed.

Lemma doDryRunning_disable (s : sp_state C W) rb : state_of s = ePS_WaitingForStreamDisable ->
  m_event_buffer (m_data_buffer (sp s)) = Some rb ->
  exists s', doDryRunning s = Some (true, s') /\ disabled rb (sp s')
    /\ m_in_xrun (machine (sp s')) = m_in_xrun (machine (sp s)).
Proof.
  intros St Eb. unfold doDryRunning, mbind, run_bind, get_state, gets. cbn [option_bind]. rewrite St.
  destruct (clearBuffer_some _ _ Eb) as [k Ek]. cbn -[clearBuffer].
  rewrite (call_buffer_some _ _ _ _ Ek). by eexists.
Qed.

(** A packet of a stream that waits for its end, at the time of the change. *)
Lemma putPacket_disable (s : sp_state C W) rb d l ch t y ctr n : state_of s = ePS_WaitingForStreamDisable ->
  m_event_buffer (m_data_buffer (sp s)) = Some rb ->
  0 <= diffCycles (CYCLE_TIMER_GET_CYCLES ctr) (m_cycle_to_switch_state (machine (sp s))) ->
  exists s', putPacket d l ch t y ctr n s = Some (RAW1394_ISO_OK, s') /\ disabled rb (sp s')
    /\ m_in_xrun (machine (sp s')) = m_in_xrun (machine (sp s)).
Proof.
  intros St Eb Hc.
  set (s1 := mkState (mkSP (mkMachine (state_of s) ePS_DryRunning (m_cycle_to_switch_state (machine (sp s)))
    (m_in_xrun (machine (sp s)))) (mkTimes (m_last_timestamp (times (sp s))) (m_last_timestamp (times (sp s)))
    (m_correct_last_timestamp (times (sp s)))) (settings (sp s)) (m_data_buffer (sp s)) (m_scratch_buffer (sp s))
    (ports (sp s))) (child s) (world s)).
  destruct (doDryRunning_disable s1 rb St Eb) as (s' & E & D & X). exists s'. split; [|done].
  unfold putPacket. eapply run_bind_intro; [reflexivity|].
  rewrite St, bool_decide_false, andb_false_r by done. rewrite decide_False, decide_False by done.
  do 3 (eapply run_bind_intro; [reflexivity|]). rewrite decide_True by done.
  eapply run_bind_intro; [reflexivity|]. rewrite (proj2 (Z.leb_le _ _)) by exact Hc.
  unfold switch_to. eapply run_bind_intro; [reflexivity|].
  eapply run_bind_intro; [eapply (updateState_transition s1); [reflexivity| |simpl; congruence|exact E]|reflexivity].
  simpl. by rewrite St.
Qed.

(** C28. Recovery from an xrun: an xrun of a running stream in cycle [c] leaves it waiting to be disabled
    from the next cycle on, also when that is the cycle 0 of the next second; any packet
    in the 4000 cycles from then on is discarded and takes the stream to the dry-running
    state with an empty, transparent buffer and fresh timestamps, while the xrun remains to be
    seen by the client. *)
Theorem xrun_recovery (s : sp_state C W) rb ctr ctr2 d l ch t y n :
  state_of s = ePS_Running -> m_event_buffer (m_data_buffer (sp s)) = Some rb -> rb_wf rb ->
  valid_cycle (CYCLE_TIMER_GET_CYCLES ctr) -> valid_cycle (CYCLE_TIMER_GET_CYCLES ctr2) ->
  (CYCLE_TIMER_GET_CYCLES ctr2 - (CYCLE_TIMER_GET_CYCLES ctr + 1)) mod 8000 < 4000 ->
  exists s1 s2, xrun_disable ctr false (mret true) s = Some (true, s1)
    /\ state_of s1 = ePS_WaitingForStreamDisable
    /\ putPacket d l ch t y ctr2 n s1 = Some (RAW1394_ISO_OK, s2)
    /\ state_of s2 = ePS_DryRunning /\ m_transparent (m_data_buffer (sp s2)) = true
    /\ (exists rb', m_event_buffer (m_data_buffer (sp s2)) = Some rb' /\ rb_wf rb' /\ rb_contents rb' = [])
    /\ m_framecounter (m_data_buffer (sp s2)) = 0 /\ m_last_timestamp (times (sp s2)) = 0
    /\ m_in_xrun (machine (sp s2)) = true.
Proof.
  intros St Eb Wf V1 V2 Hw.
  set (s1 := mkState (mkSP (mkMachine ePS_WaitingForStreamDisable ePS_WaitingForStreamDisable
    (u32 (CYCLE_TIMER_GET_CYCLES ctr + 1)) true) (times (sp s)) (settings (sp s)) (m_data_buffer (sp s))
    (m_scratch_buffer (sp s)) (ports (sp s))) (child s)
    (signalActivityReceive (signalActivityTransmit (signalActivity (world s))))).
  unfold valid_cycle in V1. ctr.
  destruct (putPacket_disable s1 rb d l ch t y ctr2 n eq_refl Eb) as (s2 & E & (D1 & D2 & D3 & D4 & D5) & X).
  { simpl. rewrite wrapU_small by lia. apply switch_window; [done|lia|done]. }
  destruct (reset_ok rb Wf) as (W' & Q & _). exists s1, s2. split.
  - unfold xrun_disable, switch_to. do 3 (eapply run_bind_intro; [reflexivity|]).
    apply (run_bind_intro _ _ _ true s1); [|reflexivity].
    eapply updateState_transition; [reflexivity|simpl; by rewrite St|simpl; congruence|].
    unfold doWaitForStreamDisable. eapply run_bind_intro; [reflexivity|]. simpl. rewrite decide_True by done. done.
  - split_and!; try done; [by exists (ffado_ringbuffer_reset rb)|by rewrite D5].
Qed.
End disabling.

Lemma xrun_recovery_witness :
  exists s s1 s2, example_running = Some s /\ xrun_disable (at_cycle 7999) false (mret true) s = Some (true, s1)
    /\ putPacket [] 0 0 0 0 (at_cycle 0) 0 s1 = Some (RAW1394_ISO_OK, s2) /\ m_state (machine (sp s2)) = ePS_DryRunning.
Proof.
  assert ((fun s => m_state (machine (sp s))) <$> example_running = Some ePS_Running) as V by (vm_compute; reflexivity).
  destruct example_running as [s|] eqn:E; [|discriminate V]. injection V as V.
  assert (exists rb, m_event_buffer (m_data_buffer (sp s)) = Some rb /\ rb_wf rb) as (rb & Eb & Wf).
  { vm_compute in E. injection E as <-. eexists. split; [reflexivity|]. split; simpl; try lia; [|done].
    by exists 7. }
  destruct (xrun_recovery s rb (at_cycle 7999) (at_cycle 0) [] 0 0 0 0 0 V Eb Wf) as (s1 & s2 & X & _ & P & D & _);
    [split; vm_compute; congruence..|vm_compute; congruence|].
  exists s, s1, s2. split; [reflexivity|]. split; [exact X|]. split; [exact P|exact D].
Defined.
