(* ===== verification/StreamSetup.v ===== *)
(** * Enabling, waiting and sizing of streams

    Quantitative properties of the operations of [StreamProcessor.v]: the prefill of a
    transmit stream fits, [waitForState] and its time-out, and the number of packets that
    a period needs. *)
From stdpp Require Import relations.
From S2P Require Import Prelude CycleTimer RingBuffer Ieee754 TimestampedBuffer FrameBuffer Ports StreamProcessor StreamStates.
#[local] Open Scope Z_scope.

(** ** The prefill *)

(** A freshly resized buffer. *)
Lemma resizeBuffer_ok junk n b : let z := sizes b in let fb := m_events_per_frame z * m_event_size z in
  0 < n -> 0 < m_events_per_frame z -> 0 < m_event_size z -> 2 <= fb * n <= 2 ^ 30 ->
  exists b' rb, resizeBuffer junk n b = Some (true, b') /\ m_event_buffer b' = Some rb /\ rb_wf rb
    /\ rb_contents rb = [] /\ fb * n <= rb_size rb <= 2 ^ 31 /\ m_framecounter b' = 0
    /\ m_event_size (sizes b') = m_event_size z /\ m_events_per_frame (sizes b') = m_events_per_frame z
    /\ m_buffer_size (sizes b') = n /\ m_transparent b' = m_transparent b.
Proof.
  intros z fb Hn V E Hb. subst z fb. unfold resizeBuffer.
  set (ev := m_events_per_frame _) in *. set (es := m_event_size _) in *.
  assert (ev * n <= ev * n * es) by nia. replace (ev * es * n) with (ev * n * es) in * by lia.
  rewrite (wrapU_small 32 (ev * n)), (wrapU_small 32 (ev * n * es)) by nia.
  rewrite !(proj2 (Z.eqb_neq _ _)) by lia. simpl.
  destruct (create_power_total 30 1 (ev * n * es)) as [k Ek]; [lia..|].
  destruct (ffado_ringbuffer_create junk (ev * n * es)) as [rb|] eqn:Cr.
  2: { unfold ffado_ringbuffer_create in Cr. by rewrite Ek in Cr. }
  destruct (create_ok _ _ _ Cr) as (Wf & Q & L & U).
  eexists _, rb. split; [reflexivity|]. split_and!; done || lia.
Qed.

(** A preload for which there is room. *)
Lemma preloadFrames_ok b rb n data keep : m_event_buffer b = Some rb -> rb_wf rb ->
  0 < m_event_size (sizes b) -> 0 < m_events_per_frame (sizes b) -> 0 <= n ->
  zlength data = n * (m_event_size (sizes b) * m_events_per_frame (sizes b)) -> zlength data < 2 ^ 31 ->
  zlength data <= ffado_ringbuffer_write_space rb ->
  exists b' rb', preloadFrames n data keep b = Some (true, b') /\ m_event_buffer b' = Some rb' /\ rb_wf rb'
    /\ rb_contents rb' = rb_contents rb ++ data /\ m_framecounter b' = i32 (m_framecounter b + n)
    /\ sizes b' = sizes b /\ m_transparent b' = m_transparent b.
Proof.
  intros Eb Wf E V Hn L Hb Hs. unfold preloadFrames. rewrite frame_bytes_eq, <- L by (done || lia).
  unfold ring_write. rewrite Eb. pose proof (write_refines rb data Wf (zlength_nonneg _)) as R.
  destruct (ffado_ringbuffer_write rb data (zlength data)) as [rb' w]. destruct R as (W' & S' & Q).
  unfold queue_write, queue_capacity in Q. rewrite zlength_contents in Q by done.
  rewrite write_space_eq in Hs by done. rewrite Z.min_l in Q by lia. injection Q as Q ->.
  rewrite take_ge in Q by (unfold zlength; lia). cbn [mbind option_bind]. rewrite Z.ltb_irrefl.
  destruct keep; eexists _, rb'; (split; [reflexivity|]); done.
Qed.

Section prefill.
Context {C W : Type} `{SPWorld W} `{SPChild C W}.
Abbreviation M := (run (sp_state C W)).
Abbreviation state_of s := (m_state (machine (sp s))).

(** [getNbBuffers() * getPeriodSize() + m_extra_buffer_frames] *)
Definition latency_frames (s : sp_state C W) : Z :=
  getNbBuffers (world s) * getPeriodSize (world s) + m_extra_buffer_frames (settings (sp s)).

Lemma buffered_frames_eq (s : sp_state C W) : 0 <= getNbBuffers (world s) -> 0 <= getPeriodSize (world s) ->
  0 <= m_extra_buffer_frames (settings (sp s)) -> latency_frames s < 2 ^ 32 ->
  buffered_frames s = Some (latency_frames s, s).
Proof.
  unfold latency_frames. intros. unfold buffered_frames. do 3 (eapply run_bind_intro; [reflexivity|]).
  assert (0 <= getNbBuffers (world s) * getPeriodSize (world s)) by nia. cbn.
  rewrite !wrapU_small by (rewrite ?wrapU_small; lia). done.
Qed.

(** The subclass encodes [n] frames of silence as [d], whatever the rest of the object is, and
    leaves it alone. *)
Definition encodes_silence (c : C) (n : Z) (d : list Z) : Prop :=
  forall s, child s = c -> exists r s',
    transmitSilenceBlock (replicate (Z.to_nat (n * (getEventSize c * getEventsPerFrame c))) 0) n 0 s = Some ((r, d), s')
    /\ sp s' = sp s.

Lemma transferSilence_ok (s : sp_state C W) n rb d :
  let es := getEventSize (child s) in let ev := getEventsPerFrame (child s) in
  m_event_size (sizes (m_data_buffer (sp s))) = es -> m_events_per_frame (sizes (m_data_buffer (sp s))) = ev ->
  0 < es -> 0 < ev -> 0 <= n -> n * (es * ev) < 2 ^ 31 ->
  m_event_buffer (m_data_buffer (sp s)) = Some rb -> rb_wf rb -> n * (es * ev) <= ffado_ringbuffer_write_space rb ->
  encodes_silence (child s) n d ->
  zlength d = n * (es * ev) ->
  exists c' w' b' rb',
    transferSilence n s = Some (true, mkState (mkSP (machine (sp s)) (times (sp s)) (settings (sp s)) b'
                                        (m_scratch_buffer (sp s)) (ports (sp s))) c' w')
    /\ m_event_buffer b' = Some rb' /\ rb_wf rb' /\ rb_contents rb' = rb_contents rb ++ d
    /\ m_framecounter b' = i32 (m_framecounter (m_data_buffer (sp s)) + n)
    /\ sizes b' = sizes (m_data_buffer (sp s)) /\ m_transparent b' = m_transparent (m_data_buffer (sp s)).
Proof.
  intros es ev Ees Eev He Hv Hn Hb Eb Wf Hs Et L. fold es ev in Ees, Eev.
  destruct (preloadFrames_ok (m_data_buffer (sp s)) rb n d true) as (b' & rb' & E & R); try (rewrite ?Ees, ?Eev; done || lia).
  destruct (Et s eq_refl) as (r & s' & Es & Sp).
  exists (child s'), (world s'), b', rb'. split; [|done]. unfold transferSilence.
  do 2 (eapply run_bind_intro; [reflexivity|]). fold es ev.
  assert (es * u32 (n * ev) = n * (es * ev)) as -> by (rewrite wrapU_small by nia; lia).
  eapply run_bind_intro; [exact Es|]. cbn beta iota. rewrite <- Sp in E |- *.
  exact (call_buffer_some _ s' _ _ E).
Qed.

(** C29. Enabling a transmit stream: the event buffer is resized to one frame more than the latency, which is
    just what the ring buffer needs to hold the latency although it cannot use its last
    byte; so the prefill with silence always fits, the stream waits to be enabled with exactly
    the latency buffered, and the buffer reports room for the one frame. *)
Theorem transmit_prefill (s : sp_state C W) d :
  let es := getEventSize (child s) in let ev := getEventsPerFrame (child s) in let n := latency_frames s in
  state_of s = ePS_DryRunning -> m_processor_type (settings (sp s)) = ePT_Transmit ->
  m_event_size (sizes (m_data_buffer (sp s))) = es -> m_events_per_frame (sizes (m_data_buffer (sp s))) = ev ->
  0 < es -> 0 < ev -> 0 <= getNbBuffers (world s) -> 0 <= getPeriodSize (world s) ->
  0 <= m_extra_buffer_frames (settings (sp s)) -> 2 <= ev * es * (n + 1) <= 2 ^ 30 ->
  encodes_silence (child s) n d ->
  zlength d = n * (es * ev) ->
  exists s' rb, doWaitForStreamEnable s = Some (true, s') /\ state_of s' = ePS_WaitingForStreamEnable
    /\ m_event_buffer (m_data_buffer (sp s')) = Some rb /\ rb_wf rb /\ rb_contents rb = d
    /\ getBufferFill (m_data_buffer (sp s')) = n /\ getBufferSpace (m_data_buffer (sp s')) = 1.
Proof.
  intros es ev n St Ty Ees Eev He Hv H1 H2 H3 Hb Et L.
  assert (0 <= n) as Hn by (unfold n, latency_frames; nia). assert (n * (es * ev) < 2 ^ 30) as Hnb by nia.
  assert (n < 2 ^ 30) as Hn' by nia.
  destruct (resizeBuffer_ok heap_junk (n + 1) (m_data_buffer (sp s))) as
    (b1 & rb & Er & E1 & Wf & Q & S & F & Z1 & Z2 & Z3 & T); try (rewrite ?Ees, ?Eev; done || lia).
  rewrite Ees, Eev in *.
  set (s1 := mkState (mkSP (machine (sp s)) (times (sp s)) (settings (sp s)) b1 (m_scratch_buffer (sp s)) (ports (sp s)))
    (child s) (world s)).
  destruct (transferSilence_ok s1 n rb d) as (c' & w' & b2 & rb2 & E2 & B2 & W2 & Q2 & F2 & Z4 & T2); try done.
  { change (n * (es * ev) < 2 ^ 31). lia. }
  { change (n * (es * ev) <= ffado_ringbuffer_write_space rb).
    rewrite write_space_eq, <- zlength_contents, Q by done. unfold zlength. simpl. nia. }
  assert (buffered_frames s1 = Some (n, s1)) as E3 by (apply (buffered_frames_eq s1); try done; change (n < 2 ^ 32); lia).
  unfold doWaitForStreamEnable. eexists _, rb2. split.
  - eapply run_bind_intro; [by apply buffered_frames_eq; fold n; lia|]. eapply run_bind_intro; [reflexivity|].
    rewrite decide_True by done. fold n. rewrite (wrapU_small 32 (n + 1)) by lia.
    eapply run_bind_intro; [apply (call_buffer_some _ s _ _ Er)|]. simpl. fold s1.
    eapply run_bind_intro; [reflexivity|]. eapply run_bind_intro.
    { simpl. rewrite decide_True by done. eapply run_bind_intro; [exact E3|]. exact E2. }
    reflexivity.
  - cbn -[getBufferFill getBufferSpace]. split; [done|]. split; [done|]. split; [done|].
    rewrite Q2, Q. unfold getBufferFill, getBufferSpace. rewrite F2, Z4. simpl. rewrite F, Z3.
    rewrite (wrapS_small 32) by lia. rewrite !wrapU_small by lia. split_and!; done || lia.
Qed.
End prefill.

#[local] Existing Instances example_world example_child.

(** A transmit stream that is dry-running from cycle 5 on. *)
Definition example_dry : option (sp_state unit Z) :=
  '(_, s) ← init (example_start ePT_Transmit); '(_, s) ← SP_prepare s;
  '(_, s) ← scheduleStartDryRunning (5 * TICKS_PER_CYCLE) s;
  '(_, s) ← getPacket (mkPacket [] 0 0 0) (at_cycle 4) 0 0 64 s;
  '(_, s) ← getPacket (mkPacket [] 0 0 0) (at_cycle 5) 0 0 64 s; Some s.

Lemma transmit_prefill_witness :
  exists s s' rb, example_dry = Some s /\ doWaitForStreamEnable s = Some (true, s')
    /\ m_event_buffer (m_data_buffer (sp s')) = Some rb /\ rb_contents rb = replicate 64 0
    /\ getBufferFill (m_data_buffer (sp s')) = 16 /\ getBufferSpace (m_data_buffer (sp s')) = 1.
Proof.
  assert ((fun s => (m_state (machine (sp s)), settings (sp s), sizes (m_data_buffer (sp s)))) <$> example_dry
    = Some (ePS_DryRunning, mkSettings ePT_Transmit 1 (-1) (f_of_Z 512) (f_of_d d_0_1) 0 50, mkSizes 4 32 4 1 17 4 68)) as V
    by (vm_compute; reflexivity).
  destruct example_dry as [s|] eqn:E; [|discriminate V]. injection V as V1 V2 V3.
  assert (latency_frames s = 16) as N by (unfold latency_frames; rewrite V2; reflexivity).
  destruct (transmit_prefill s (replicate 64 0)) as (s' & rb & D & _ & B & _ & Q & F & G);
    [exact V1|by rewrite V2|by rewrite V3|by rewrite V3|done..|by rewrite V2|rewrite N; split; done
    |rewrite N; intros s1 _; exists true, s1; split; reflexivity|rewrite N; reflexivity|].
  exists s, s', rb. split; [reflexivity|]. split; [exact D|]. split; [exact B|]. split; [exact Q|].
  split; [rewrite F; exact N|exact G].
Defined.

(** ** Waiting for a state *)

Section waiting.
Context {C W : Type}.
Abbreviation state_of s := (m_state (machine (sp s))).

(** Another thread that assigns the state in the sleep with [k] milliseconds left. *)
Definition reached_at (k : nat) (x : eProcessorState) (cnt : nat) : run (sp_state C W) unit :=
  if (cnt =? k)%nat then set_state x else mret tt.

Definition with_state (x : eProcessorState) (s : sp_state C W) : sp_state C W :=
  mkState (mkSP (mkMachine x (m_next_state (machine (sp s))) (m_cycle_to_switch_state (machine (sp s)))
    (m_in_xrun (machine (sp s)))) (times (sp s)) (settings (sp s)) (m_data_buffer (sp s)) (m_scratch_buffer (sp s))
    (ports (sp s))) (child s) (world s).

Lemma wait_rounds_step sleep x n (s : sp_state C W) : state_of s <> x ->
  wait_rounds sleep x (S n) s = (sleep n ;; wait_rounds sleep x n) s.
Proof. intros Hs. cbn [wait_rounds]. eapply run_bind_intro; [reflexivity|]. by rewrite decide_False. Qed.

Lemma wait_rounds_done sleep x n (s : sp_state C W) : state_of s = x -> wait_rounds sleep x n s = Some (n, s).
Proof.
  intros Hs. destruct n; cbn [wait_rounds]; (eapply run_bind_intro; [reflexivity|]); by rewrite decide_True.
Qed.

Lemma wait_rounds_reached x k n (s : sp_state C W) : state_of s <> x ->
  wait_rounds (reached_at k x) x (S (k + n)) s = Some (k, with_state x s).
Proof.
  intros Hs. induction n as [|n IH]; rewrite wait_rounds_step by done.
  - rewrite Nat.add_0_r. eapply run_bind_intro; [unfold reached_at; rewrite Nat.eqb_refl; reflexivity|].
    by apply wait_rounds_done.
  - rewrite Nat.add_succ_r. eapply run_bind_intro; [|exact IH].
    unfold reached_at. by rewrite (proj2 (Nat.eqb_neq _ _)) by lia.
Qed.

(** [waitForState] sees a state that is reached while at least one more millisecond is left, and
    returns [true] in it; but a state reached in the last millisecond of the time-out is
    reported as a time-out although the processor is in that state. *)
Theorem wait_for_state_last_moment x k n (s : sp_state C W) : state_of s <> x ->
  waitForState (reached_at (S k) x) x (S (S k + n)) s = Some (true, with_state x s)
  /\ waitForState (reached_at 0 x) x (S (0 + n)) s = Some (false, with_state x s)
  /\ state_of (with_state x s) = x.
Proof.
  intros Hs. unfold waitForState, mbind, run_bind.
  split; [|split; [|done]]; by rewrite (wait_rounds_reached x _ n s Hs).
Qed.

End waiting.

Lemma wait_for_state_last_moment_witness :
  waitForState (reached_at (C := unit) (W := unit) 0 ePS_DryRunning) ePS_DryRunning 2000
    (mkState (StreamProcessor_new ePT_Receive) tt tt)
  = Some (false, with_state ePS_DryRunning (mkState (StreamProcessor_new ePT_Receive) tt tt)).
Proof.
  apply (wait_for_state_last_moment (C := unit) (W := unit) ePS_DryRunning 0 1999). vm_compute. congruence.
Defined.

(** ** Packets per period *)

Section packets.
Context {C W : Type} `{SPWorld W} (s : sp_state C W).

(** [getNominalPacketsNeeded] is the exact number of packets at the rates that divide the ticks of
    a second (32, 48, 96 and 192 kHz): the last packet is needed and the packets suffice.
    At the rates of the 44.1 kHz family the fraction of a tick per frame is cut off first, so
    a period of 4096 frames at 44.1 kHz gets 743 packets although it lasts for 744 cycles. *)
Theorem packets_needed n : 0 <= n < 2 ^ 31 ->
  (getNominalRate (world s) ∈ [32000; 48000; 96000; 192000] ->
   exists p, getNominalPacketsNeeded n s = Some (p, s)
     /\ (p - 1) * TICKS_PER_CYCLE * getNominalRate (world s) < n * TICKS_PER_SECOND
     /\ n * TICKS_PER_SECOND <= p * TICKS_PER_CYCLE * getNominalRate (world s))
  /\ (getNominalRate (world s) = 44100 ->
      getNominalPacketsNeeded 4096 s = Some (743, s) /\ 743 * TICKS_PER_CYCLE * 44100 < 4096 * TICKS_PER_SECOND).
Proof.
  intros Hn. split.
  - intros Hr. unfold getNominalPacketsNeeded.
    assert (exists q, 0 < q <= 768 /\ TICKS_PER_SECOND / getNominalRate (world s) = q
      /\ TICKS_PER_SECOND = q * getNominalRate (world s) /\ 0 < getNominalRate (world s)) as (q & Hq & Eq & Em & Hp).
    { set_unfold in Hr. destruct Hr as [->|[->|[->|[->|[]]]]]; eexists; (split; [|split; [reflexivity|]]); split; done. }
    exists ((q * n + 3071) / 3072). split.
    + eapply run_bind_intro; [reflexivity|]. eapply run_bind_intro.
      { unfold assert_that. rewrite (proj2 (Z.eqb_neq _ _)) by lia. reflexivity. }
      cbv zeta. rewrite Eq. unfold TICKS_PER_CYCLE.
      assert (0 <= q * n <= 768 * 2 ^ 31) as Ht by nia. set (t := q * n) in *.
      rewrite (wrapU_small 64 t), (wrapU_small 64 (t + 3072)), (wrapU_small 64 (t + 3072 - 1)) by lia.
      rewrite (wrapU_small 32) by zlia. by replace (t + 3072 - 1) with (t + 3071) by lia.
    + rewrite Em. unfold TICKS_PER_CYCLE. pose proof (Z.div_mod (q * n + 3071) 3072 ltac:(lia)).
      pose proof (Z.mod_pos_bound (q * n + 3071) 3072 ltac:(lia)). split; nia.
  - intros Hr. unfold getNominalPacketsNeeded. split; [|done].
    eapply run_bind_intro; [reflexivity|]. unfold from_world, gets. rewrite Hr. vm_compute. reflexivity.
Qed.
End packets.

Lemma packets_needed_witness :
  exists p, getNominalPacketsNeeded 1024 (example_start ePT_Receive) = Some (p, example_start ePT_Receive)
    /\ (p - 1) * 3072 * 48000 < 1024 * 24576000 /\ 1024 * 24576000 <= p * 3072 * 48000.
Proof.
  destruct (packets_needed (example_start ePT_Receive) 1024) as [E _]; [lia|].
  apply E. right. left.
Defined.
