(* ===== verification/StreamManager.v ===== *)
(** * The stream processor manager

    Model of [src/libstreaming/StreamProcessorManager.cpp] and [StreamProcessorManager.h]: registration of stream
    processors, the synchronised start and stop of all streams, the alignment of the received
    streams, and the transfer of periods of frames.

    The processors are the objects of StreamProcessor, in a store indexed by their addresses;
    [on_processor] calls a method of one of them.  The surroundings of a processor ([SPWorld]) are
    this manager and what is below it: the ISO handler manager, the 1394 service, the
    configuration file and the operating system, a type [E] with an instance of [SPMEnv].  The ISO threads
    run while the manager sleeps: what they do to the system is the argument [SleepRelativeUsec]
    and [SleepUsecAbsolute] of the class [Scheduler].  In [waitForPeriod] they also run between any two
    queries of processors and before the return: what they do there is [preempted].  [None] is a failed [assert], a division by
    zero, a dangling pointer, or a wait loop without bound in the source that does not end
    in [wait_fuel] rounds.

    Left out: debug output with the values that only select messages ([m_time_of_transfer2],
    [m_max_diff_ticks]), and the code of the extreme debug build. *)
From stdpp Require Import gmap.
From S2P Require Import Prelude CycleTimer RingBuffer Ieee754 TimestampedBuffer Ports StreamProcessor.
#[local] Open Scope Z_scope.

(** The constants of [config.h.in]. *)
Definition STREAMPROCESSORMANAGER_SIGNAL_DELAY_TICKS : Z := 3072 * 0.
Definition STREAMPROCESSORMANAGER_XMIT_PREBUFFER_FRAMES : Z := 100.
Definition STREAMPROCESSORMANAGER_CYCLES_FOR_DRYRUN : Z := 40000.
Definition STREAMPROCESSORMANAGER_CYCLES_FOR_STARTUP : Z := 200.
Definition STREAMPROCESSORMANAGER_PRESTART_CYCLES_FOR_XMIT : Z := 20.
Definition STREAMPROCESSORMANAGER_PRESTART_CYCLES_FOR_RECV : Z := 0.
Definition STREAMPROCESSORMANAGER_SYNCSTART_TRIES : nat := 10.
Definition STREAMPROCESSORMANAGER_SYNC_WAIT_TIME_MSEC : Z := 200.
Definition STREAMPROCESSORMANAGER_NB_ALIGN_TRIES : Z := 40.
Definition STREAMPROCESSORMANAGER_ALIGN_AVERAGE_TIME_MSEC : Z := 400.

#[export] Instance E_Direction_eq_dec : EqDecision E_Direction.
Proof. solve_decision. Defined.

(** ** The manager *)

(** The members of the class, in groups.  Processors and ports are addresses; [NULL] is [None]. *)
Record spm_lists := mkLists {
  m_SyncSource : option Z;
  m_ReceiveProcessors : list Z;
  m_TransmitProcessors : list Z;
  m_CapturePorts_shadow : list Z;
  m_PlaybackPorts_shadow : list Z;
}.

Record spm_settings := mkSpmSettings {
  m_nb_buffers : Z;
  m_period : Z;
  m_audio_datatype : eAudioDataType;
  m_nominal_framerate : Z;
  m_activity_wait_timeout_nsec : Z;
  m_thread_realtime : bool;
  m_thread_priority : Z;
  option_slaveMode : bool;
}.

(** [m_activity_semaphore] is the value of the semaphore, [m_WaitLock] how often the lock is held. *)
Record spm_status := mkStatus {
  m_time_of_transfer : Z;
  m_sync_delay : Z;
  m_nbperiods : Z;
  m_shutdown_needed : bool;
  m_delayed_usecs : Z;
  m_is_slave : bool;
  m_xruns : Z;
  m_activity_semaphore : Z;
  m_WaitLock : Z;
}.

Record StreamProcessorManager := mkSPM {
  spm_l : spm_lists;
  spm_s : spm_settings;
  spm_t : spm_status;
}.

(** [m_delayed_usecs] and the thread parameters are not set by the constructors: [junk]. *)
Definition StreamProcessorManager_new (junk : nat -> Z) (period framerate nb_buffers : Z) : StreamProcessorManager :=
  mkSPM (mkLists None [] [] [] [])
    (mkSpmSettings nb_buffers period eADT_Float framerate 0 false (junk 0%nat) false)
    (mkStatus 0 0 0 false (junk 1%nat) false 0 0 0).

Definition on_lists (f : spm_lists -> spm_lists) (m : StreamProcessorManager) : StreamProcessorManager :=
  mkSPM (f (spm_l m)) (spm_s m) (spm_t m).
Definition on_spm_settings (f : spm_settings -> spm_settings) (m : StreamProcessorManager) : StreamProcessorManager :=
  mkSPM (spm_l m) (f (spm_s m)) (spm_t m).
Definition on_status (f : spm_status -> spm_status) (m : StreamProcessorManager) : StreamProcessorManager :=
  mkSPM (spm_l m) (spm_s m) (f (spm_t m)).

(** [sem_post(&m_activity_semaphore)] *)
Definition SPM_signalActivity : StreamProcessorManager -> StreamProcessorManager :=
  on_status (fun t => mkStatus (m_time_of_transfer t) (m_sync_delay t) (m_nbperiods t) (m_shutdown_needed t)
    (m_delayed_usecs t) (m_is_slave t) (m_xruns t) (m_activity_semaphore t + 1) (m_WaitLock t)).
Definition hold_WaitLock (n : Z) : StreamProcessorManager -> StreamProcessorManager :=
  on_status (fun t => mkStatus (m_time_of_transfer t) (m_sync_delay t) (m_nbperiods t) (m_shutdown_needed t)
    (m_delayed_usecs t) (m_is_slave t) (m_xruns t) (m_activity_semaphore t) (m_WaitLock t + n)).
Definition SPM_lockWaitLoop : StreamProcessorManager -> StreamProcessorManager := hold_WaitLock 1.
Definition SPM_unlockWaitLoop : StreamProcessorManager -> StreamProcessorManager := hold_WaitLock (-1).

(** [push_back] of a processor on the list for its type. *)
Definition push_processor (p : Z) (type : eProcessorType) : StreamProcessorManager -> StreamProcessorManager :=
  on_lists (fun l => match type with
    | ePT_Receive => mkLists (m_SyncSource l) (m_ReceiveProcessors l ++ [p]) (m_TransmitProcessors l)
                       (m_CapturePorts_shadow l) (m_PlaybackPorts_shadow l)
    | ePT_Transmit => mkLists (m_SyncSource l) (m_ReceiveProcessors l) (m_TransmitProcessors l ++ [p])
                       (m_CapturePorts_shadow l) (m_PlaybackPorts_shadow l)
    end).

(** *** Settings *)

Definition setNbBuffers (n : Z) : StreamProcessorManager -> StreamProcessorManager :=
  on_spm_settings (fun s => mkSpmSettings n (m_period s) (m_audio_datatype s) (m_nominal_framerate s)
    (m_activity_wait_timeout_nsec s) (m_thread_realtime s) (m_thread_priority s) (option_slaveMode s)).
Definition set_period (n : Z) : StreamProcessorManager -> StreamProcessorManager :=
  on_spm_settings (fun s => mkSpmSettings (m_nb_buffers s) n (m_audio_datatype s) (m_nominal_framerate s)
    (m_activity_wait_timeout_nsec s) (m_thread_realtime s) (m_thread_priority s) (option_slaveMode s)).
Definition setAudioDataType (t : eAudioDataType) (m : StreamProcessorManager) : bool * StreamProcessorManager :=
  (true, on_spm_settings (fun s => mkSpmSettings (m_nb_buffers s) (m_period s) t (m_nominal_framerate s)
    (m_activity_wait_timeout_nsec s) (m_thread_realtime s) (m_thread_priority s) (option_slaveMode s)) m).
Definition SPM_setNominalRate (r : Z) : StreamProcessorManager -> StreamProcessorManager :=
  on_spm_settings (fun s => mkSpmSettings (m_nb_buffers s) (m_period s) (m_audio_datatype s) r
    (m_activity_wait_timeout_nsec s) (m_thread_realtime s) (m_thread_priority s) (option_slaveMode s)).
Definition setActivityWaitTimeoutUsec (usec : Z) : StreamProcessorManager -> StreamProcessorManager :=
  on_spm_settings (fun s => mkSpmSettings (m_nb_buffers s) (m_period s) (m_audio_datatype s) (m_nominal_framerate s)
    (usec * 1000) (m_thread_realtime s) (m_thread_priority s) (option_slaveMode s)).
Definition getActivityWaitTimeoutUsec (m : StreamProcessorManager) : Z :=
  i32 (Z.quot (m_activity_wait_timeout_nsec (spm_s m)) 1000).
Definition setThreadParameters (rt : bool) (priority : Z) (m : StreamProcessorManager) : bool * StreamProcessorManager :=
  (true, on_spm_settings (fun s => mkSpmSettings (m_nb_buffers s) (m_period s) (m_audio_datatype s) (m_nominal_framerate s)
    (m_activity_wait_timeout_nsec s) rt priority (option_slaveMode s)) m).
Definition setSyncSource (s : option Z) (m : StreamProcessorManager) : bool * StreamProcessorManager :=
  (true, on_lists (fun l => mkLists s (m_ReceiveProcessors l) (m_TransmitProcessors l) (m_CapturePorts_shadow l)
    (m_PlaybackPorts_shadow l)) m).

(** A negative argument stands for the current value. *)
Definition streamingParamsOk (period rate n_buffers : Z) (m : StreamProcessorManager) : bool :=
  let period := if period <? 0 then i32 (m_period (spm_s m)) else period in
  let rate := if rate <? 0 then i32 (m_nominal_framerate (spm_s m)) else rate in
  let n_buffers := if n_buffers <? 0 then i32 (m_nb_buffers (spm_s m)) else n_buffers in
  if n_buffers <? 2 then false else
  let min_period := if rate <? 56000 then 8 else if rate <? 112000 then 16 else 32 in
  negb (period <? min_period).

(** [int timeout_usec = 2*1000LL * 1000LL * m_period / m_nominal_framerate;] *)
Definition activity_timeout_usec (m : StreamProcessorManager) : option Z :=
  if m_nominal_framerate (spm_s m) =? 0 then None
  else Some (i32 (2 * 1000 * 1000 * m_period (spm_s m) / m_nominal_framerate (spm_s m))).

(** ** The system *)

(** What the manager and the processors use of the code below them.  The first argument of most operations is
    the processor that calls. *)
Class SPMEnv (E : Type) := {
  env_registerStream : Z -> st E bool;
  env_signalActivityTransmit : E -> E;
  env_signalActivityReceive : E -> E;
  env_startHandlerForStream : Z -> Z -> st E bool;
  env_stopHandlerForStream : Z -> st E bool;
  env_getPacketLatencyForStream : Z -> E -> Z;
  env_getLocalNodeId : Z -> E -> Z;
  env_getCycleTimerTicks : Z -> st E Z;
  getSystemTimeForCycleTimerTicks : Z -> Z -> st E Z;
  getCurrentTime : st E Z;
  getValueForSetting : string -> E -> option Z;
  clock_gettime : st E (option (Z * Z));
  (** what ends a wait for the semaphore: [None] is another thread's [sem_post], otherwise the error *)
  sem_wait_blocked : option (Z * Z) -> st E (option Z);
  ETIMEDOUT : Z;
  EINTR : Z;
  env_heap_junk : nat -> Z;
  env_debug_build : bool;
}.

(** The surroundings of a processor: its own address and type, the manager and the code below. *)
Record spm_world (E : Type) := mkWorld { this : Z; this_type : eProcessorType; w_spm : StreamProcessorManager; w_env : E }.
Arguments mkWorld {E}.
Arguments this {E}.
Arguments this_type {E}.
Arguments w_spm {E}.
Arguments w_env {E}.

Definition world_spm {E} (f : StreamProcessorManager -> StreamProcessorManager) (w : spm_world E) : spm_world E :=
  mkWorld (this w) (this_type w) (f (w_spm w)) (w_env w).
Definition world_env {E A} (f : st E A) : st (spm_world E) A := fun w =>
  let '(a, e) := f (w_env w) in (a, mkWorld (this w) (this_type w) (w_spm w) e).

(** [registerProcessor] called by the processor itself: the part that concerns the manager's lists. *)
#[export] Instance spm_sp_world {E} `{SPMEnv E} : SPWorld (spm_world E) := {
  getNbBuffers w := m_nb_buffers (spm_s (w_spm w));
  getPeriodSize w := m_period (spm_s (w_spm w));
  getNominalRate w := m_nominal_framerate (spm_s (w_spm w));
  getAudioDataType w := m_audio_datatype (spm_s (w_spm w));
  signalActivity := world_spm SPM_signalActivity;
  lockWaitLoop := world_spm SPM_lockWaitLoop;
  unlockWaitLoop := world_spm SPM_unlockWaitLoop;
  registerProcessor w := (true, world_spm (push_processor (this w) (this_type w)) w);
  registerStream w := world_env (env_registerStream (this w)) w;
  signalActivityTransmit w := mkWorld (this w) (this_type w) (w_spm w) (env_signalActivityTransmit (w_env w));
  signalActivityReceive w := mkWorld (this w) (this_type w) (w_spm w) (env_signalActivityReceive (w_env w));
  startHandlerForStream cycle w := world_env (env_startHandlerForStream (this w) cycle) w;
  stopHandlerForStream w := world_env (env_stopHandlerForStream (this w)) w;
  getPacketLatencyForStream w := env_getPacketLatencyForStream (this w) (w_env w);
  getLocalNodeId w := env_getLocalNodeId (this w) (w_env w);
  getCycleTimerTicks w := world_env (env_getCycleTimerTicks (this w)) w;
  heap_junk := env_heap_junk;
  debug_build := env_debug_build;
}.

(** A processor object: the base class and what the subclass adds. *)
Abbreviation object C := (prod StreamProcessor C).

Record system (C E : Type) := mkSystem { spm : StreamProcessorManager; env : E; processors : gmap Z (object C) }.
Arguments mkSystem {C E}.
Arguments spm {C E}.
Arguments env {C E}.
Arguments processors {C E}.

(** The ISO threads during a sleep and between two queries of the wait loop of [waitForPeriod], and the bound on
    the rounds of this loop. *)
Class Scheduler (C E : Type) := {
  SleepRelativeUsec : Z -> run (system C E) unit;
  SleepUsecAbsolute : Z -> run (system C E) unit;
  preempted : run (system C E) unit;
  wait_fuel : nat;
}.

Section manager.
Context {C E : Type} `{SPMEnv E} `{!SPChild C (spm_world E)} `{!Scheduler C E}.

Abbreviation Y := (run (system C E)).

(** A method of the processor at [p]. *)
Definition on_processor {A} (p : Z) (m : run (sp_state C (spm_world E)) A) : Y A := fun s =>
  o ← processors s !! p;
  '(a, st) ← m (mkState o.1 o.2 (mkWorld p (m_processor_type (settings o.1)) (spm s) (env s)));
  Some (a, mkSystem (w_spm (world st)) (w_env (world st)) (<[p := (sp st, child st)]> (processors s))).

Definition on_spm (f : StreamProcessorManager -> StreamProcessorManager) : Y unit :=
  modify (fun s => mkSystem (f (spm s)) (env s) (processors s)).
Definition call_env {A} (f : st E A) : Y A := fun s =>
  let '(a, e) := f (env s) in Some (a, mkSystem (spm s) e (processors s)).
Definition undefined {A} : Y A := fun _ => None.

Definition sync_source : Y (option Z) := gets (fun s => m_SyncSource (spm_l (spm s))).
Definition receivers : Y (list Z) := gets (fun s => m_ReceiveProcessors (spm_l (spm s))).
Definition transmitters : Y (list Z) := gets (fun s => m_TransmitProcessors (spm_l (spm s))).
Definition shutdown_needed : Y bool := gets (fun s => m_shutdown_needed (spm_t (spm s))).
Definition period_size : Y Z := gets (fun s => m_period (spm_s (spm s))).
Definition nb_buffers : Y Z := gets (fun s => m_nb_buffers (spm_s (spm s))).
Definition nominal_rate : Y Z := gets (fun s => m_nominal_framerate (spm_s (spm s))).
Definition time_of_transfer : Y Z := gets (fun s => m_time_of_transfer (spm_t (spm s))).
Definition setting (name : string) (default_value : Z) : Y Z :=
  gets (fun s => default default_value (getValueForSetting name (env s))).

Definition set_status (f : spm_status -> spm_status) : Y unit := on_spm (on_status f).
Definition set_time_of_transfer (x : Z) : Y unit :=
  set_status (fun t => mkStatus x (m_sync_delay t) (m_nbperiods t) (m_shutdown_needed t) (m_delayed_usecs t)
    (m_is_slave t) (m_xruns t) (m_activity_semaphore t) (m_WaitLock t)).
Definition set_sync_delay (x : Z) : Y unit :=
  set_status (fun t => mkStatus (m_time_of_transfer t) x (m_nbperiods t) (m_shutdown_needed t) (m_delayed_usecs t)
    (m_is_slave t) (m_xruns t) (m_activity_semaphore t) (m_WaitLock t)).
Definition count_period : Y unit :=
  set_status (fun t => mkStatus (m_time_of_transfer t) (m_sync_delay t) (u32 (m_nbperiods t + 1)) (m_shutdown_needed t)
    (m_delayed_usecs t) (m_is_slave t) (m_xruns t) (m_activity_semaphore t) (m_WaitLock t)).
Definition set_shutdown_needed (x : bool) : Y unit :=
  set_status (fun t => mkStatus (m_time_of_transfer t) (m_sync_delay t) (m_nbperiods t) x (m_delayed_usecs t)
    (m_is_slave t) (m_xruns t) (m_activity_semaphore t) (m_WaitLock t)).
Definition set_delayed_usecs (x : Z) : Y unit :=
  set_status (fun t => mkStatus (m_time_of_transfer t) (m_sync_delay t) (m_nbperiods t) (m_shutdown_needed t) x
    (m_is_slave t) (m_xruns t) (m_activity_semaphore t) (m_WaitLock t)).
Definition set_is_slave (x : bool) : Y unit :=
  set_status (fun t => mkStatus (m_time_of_transfer t) (m_sync_delay t) (m_nbperiods t) (m_shutdown_needed t)
    (m_delayed_usecs t) x (m_xruns t) (m_activity_semaphore t) (m_WaitLock t)).

(** Loops over processors: the first failure ends the loop; every call is made and the results
    are combined; the results are dropped. *)
Fixpoint until_failure {X} (f : X -> Y bool) (l : list X) : Y bool :=
  match l with
  | [] => mret true
  | p :: l => ok ← f p; if ok : bool then until_failure f l else mret false
  end.
Fixpoint and_all (f : Z -> Y bool) (l : list Z) : Y bool :=
  match l with
  | [] => mret true
  | p :: l => ok ← f p; rest ← and_all f l; mret (ok && rest)
  end.
Fixpoint for_all {A} (f : Z -> Y A) (l : list Z) : Y unit :=
  match l with
  | [] => mret ()
  | p :: l => f p ;; for_all f l
  end.
Fixpoint collect {A} (f : Z -> Y A) (l : list Z) : Y (list A) :=
  match l with
  | [] => mret []
  | p :: l => x ← f p; xs ← collect f l; mret (x :: xs)
  end.

(** *** States of processors *)

Definition has_state (st : eProcessorState) (p : Z) : Y bool :=
  on_processor p (x ← get_state; mret (bool_decide (x = st))).
Definition isRunning : Z -> Y bool := has_state ePS_Running.
Definition isDryRunning : Z -> Y bool := has_state ePS_DryRunning.
Definition isStopped : Z -> Y bool := has_state ePS_Stopped.
Definition isWaitingForStream : Z -> Y bool := has_state ePS_WaitingForStream.
Definition inError : Z -> Y bool := has_state ePS_Error.
Definition xrunOccurred (p : Z) : Y bool := on_processor p (gets (fun s => m_in_xrun (machine (sp s)))).

(** ** Registration *)

(** The update handler that the manager installs in a processor; a functor is identified with the object that it
    calls, as [matchCallee] does. *)
Definition spm_functor : Z := 1.

Definition getUpdateHandlerForPtr (ptr : Z) (m : PortManager) : option Z :=
  if decide (ptr ∈ m_UpdateHandlers m) then Some ptr else None.

(** The ports of a processor that have the direction of its type. *)
Definition ports_of (dir : E_Direction) (p : Z) : Y (list Z) :=
  on_processor p (gets (fun s => port_this <$> filter (fun q => m_Direction q = dir) (m_Ports (ports (sp s))))).

Definition updateShadowLists : Y unit :=
  rs ← receivers; ts ← transmitters;
  capture ← collect (ports_of E_Capture) rs;
  playback ← collect (ports_of E_Playback) ts;
  on_spm (on_lists (fun l => mkLists (m_SyncSource l) (m_ReceiveProcessors l) (m_TransmitProcessors l)
    (concat capture) (concat playback))).

(** What [registerProcessor] does after the processor is in its list. *)
Definition finish_registration (p : Z) : Y bool :=
  on_processor p (call_ports (addPortManagerUpdateHandler spm_functor)) ;;
  updateShadowLists ;;
  mret true.

Definition SPM_registerProcessor (p : Z) : Y bool :=
  type ← on_processor p getType;
  on_spm (push_processor p type) ;;
  finish_registration p.

(** [init] of a processor, which registers itself: the instance [spm_sp_world] puts it into its list, and the rest of
    [registerProcessor] follows.  (In the source it comes before [init] sets the next state, which it does not
    touch.) *)
Definition init_processor (p : Z) : Y bool :=
  ok ← on_processor p init;
  if ok : bool then finish_registration p else mret false.

(** The list of a type, and its replacement. *)
Definition list_for (type : eProcessorType) (l : spm_lists) : list Z :=
  match type with ePT_Receive => m_ReceiveProcessors l | ePT_Transmit => m_TransmitProcessors l end.
Definition with_list_for (type : eProcessorType) (ps : list Z) (l : spm_lists) : spm_lists :=
  match type with
  | ePT_Receive => mkLists (m_SyncSource l) ps (m_TransmitProcessors l) (m_CapturePorts_shadow l) (m_PlaybackPorts_shadow l)
  | ePT_Transmit => mkLists (m_SyncSource l) (m_ReceiveProcessors l) ps (m_CapturePorts_shadow l) (m_PlaybackPorts_shadow l)
  end.

Definition remove_functor (p : Z) : Y unit :=
  f ← on_processor p (gets (fun s => getUpdateHandlerForPtr spm_functor (ports (sp s))));
  match f with
  | Some f => on_processor p (call_ports (remPortManagerUpdateHandler f)) ;; mret ()
  | None => mret ()
  end.

Definition unregisterProcessor (p : Z) : Y bool :=
  type ← on_processor p getType;
  l ← gets (fun s => spm_l (spm s));
  match erase_first id p (list_for type l) with
  | None => mret false
  | Some ps =>
      (if decide (m_SyncSource l = Some p) then on_spm (fun m => (setSyncSource None m).2) else mret ()) ;;
      on_spm (on_lists (with_list_for type ps)) ;;
      remove_functor p ;;
      updateShadowLists ;;
      mret true
  end.

(** A change of the ports of a processor, which calls the update handlers: that of the manager
    updates its lists. *)
Definition change_ports (p : Z) (f : PortManager -> bool * PortManager) : Y bool :=
  '(ok, called) ← on_processor p (fun s =>
    let before := length (handler_calls (ports (sp s))) in
    (ok ← call_ports f; called ← gets (fun s => drop before (handler_calls (ports (sp s)))); mret (ok, called)) s);
  for_all (fun h => if decide (h = spm_functor) then updateShadowLists else mret ()) called ;;
  mret ok.

(** ** Ports *)

Definition processors_for (dir : E_Direction) : Y (list Z) :=
  match dir with E_Capture => receivers | E_Playback => transmitters end.

Definition SPM_getPortCount (type : E_PortType) (dir : E_Direction) : Y Z :=
  ps ← processors_for dir;
  ns ← collect (fun p => on_processor p (gets (fun s => getPortCount type (ports (sp s))))) ps;
  mret (foldr Z.add 0 ns).
Definition SPM_getPortCount_all (dir : E_Direction) : Y Z :=
  ps ← processors_for dir;
  ns ← collect (fun p => on_processor p (gets (fun s => getPortCount_all (ports (sp s))))) ps;
  mret (foldr Z.add 0 ns).

(** Out of range: [NULL] in a debug build, otherwise the exception of [at]. *)
Definition getPortByIndex (idx : Z) (dir : E_Direction) : Y (option Z) :=
  shadow ← gets (fun s => match dir with E_Capture => m_CapturePorts_shadow (spm_l (spm s))
                          | E_Playback => m_PlaybackPorts_shadow (spm_l (spm s)) end);
  if env_debug_build && (zlength shadow <=? idx) then mret None else
  if idx <? 0 then undefined else
  match shadow !! Z.to_nat idx with Some p => mret (Some p) | None => undefined end.

(** ** Activity *)

Inductive eActivityResult := eAR_Activity | eAR_Timeout | eAR_Interrupted | eAR_Error.

(** [while(ts.tv_nsec >= 1000000000LL)] in at most [rounds] rounds. *)
Fixpoint normalise_timespec (rounds : nat) (sec nsec : Z) : option (Z * Z) :=
  if nsec <? 1000000000 then Some (sec, nsec) else
  match rounds with
  | O => None
  | S rounds => normalise_timespec rounds (sec + 1) (nsec - 1000000000)
  end.

Definition sem_wait_until (ts : option (Z * Z)) : Y eActivityResult :=
  n ← gets (fun s => m_activity_semaphore (spm_t (spm s)));
  if 0 <? n then
    set_status (fun t => mkStatus (m_time_of_transfer t) (m_sync_delay t) (m_nbperiods t) (m_shutdown_needed t)
      (m_delayed_usecs t) (m_is_slave t) (m_xruns t) (m_activity_semaphore t - 1) (m_WaitLock t)) ;;
    mret eAR_Activity
  else
    errno ← call_env (sem_wait_blocked ts);
    mret (match errno with
          | None => eAR_Activity
          | Some e => if e =? ETIMEDOUT then eAR_Timeout else if e =? EINTR then eAR_Interrupted else eAR_Error
          end).

Definition waitForActivity : Y eActivityResult :=
  timeout ← gets (fun s => m_activity_wait_timeout_nsec (spm_s (spm s)));
  if 0 <=? timeout then
    now ← call_env clock_gettime;
    match now with
    | None => mret eAR_Error
    | Some (sec, nsec) =>
        ts ← (fun s => ts ← normalise_timespec (Z.to_nat ((nsec + timeout) / 1000000000)) sec (nsec + timeout); Some (ts, s));
        sem_wait_until (Some ts)
    end
  else sem_wait_until None.

(** ** Period size and preparation *)

Definition setPeriodSize (period : Z) : Y unit :=
  old ← period_size;
  if period =? old then mret () else
  on_spm (set_period period) ;;
  rs ← receivers; for_all (fun p => on_processor p (periodSizeChanged period)) rs ;;
  ts ← transmitters; for_all (fun p => on_processor p (periodSizeChanged period)) ts ;;
  m ← gets spm;
  match activity_timeout_usec m with
  | Some usec => on_spm (setActivityWaitTimeoutUsec usec)
  | None => mret ()
  end.

(** [prepare] looks for the option [slaveMode], which the constructor adds; the processors do not have
    it, so setting it there has no effect. *)
Definition SPM_prepare : Y bool :=
  slave ← gets (fun s => option_slaveMode (spm_s (spm s))); set_is_slave slave ;;
  set_shutdown_needed false ;;
  rs ← receivers; ts ← transmitters;
  sync ← sync_source;
  on_spm (fun m => (setSyncSource (match sync with Some p => Some p | None => head (rs ++ ts) end) m).2) ;;
  ok ← until_failure (fun p => on_processor p SP_prepare) rs;
  if negb ok then mret false else
  ok ← until_failure (fun p => on_processor p SP_prepare) ts;
  if negb ok then mret false else
  if (length (rs ++ ts) =? 0)%nat then mret false else
  m ← gets spm;
  usec ← (fun s => usec ← activity_timeout_usec m; Some (usec, s));
  on_spm (setActivityWaitTimeoutUsec usec) ;;
  updateShadowLists ;;
  mret true.

(** ** Waiting for a period *)

(** One pass over the processors that looks for xruns and errors. *)
Fixpoint check_all (l : list Z) (xrun_occurred in_error : bool) : Y (bool * bool) :=
  match l with
  | [] => mret (xrun_occurred, in_error)
  | p :: l =>
      preempted ;; x ← xrunOccurred p;
      preempted ;; e ← inError p;
      check_all l (xrun_occurred || x) (in_error || e)
  end.

(** The receive processors, then the transmit processors. *)
Definition check_processors (xrun_occurred in_error : bool) : Y (bool * bool) :=
  rs ← receivers; ts ← transmitters; check_all (rs ++ ts) xrun_occurred in_error.

(** The loop that waits until every processor is ready. *)
Fixpoint wait_ready (fuel : nat) (xrun_occurred in_error : bool) : Y (bool * bool) :=
  match fuel with
  | O => undefined
  | S fuel =>
      rs ← receivers; ts ← transmitters;
      r1 ← and_all (fun p => preempted ;; on_processor p canConsumePeriod) rs;
      r2 ← and_all (fun p => preempted ;; on_processor p canProducePeriod) ts;
      let period_not_ready := negb (r1 && r2) in
      (if period_not_ready then SleepRelativeUsec 125 else mret ()) ;;
      '(x, e) ← check_processors xrun_occurred in_error;
      preempted ;;
      down ← shutdown_needed;
      if x || e || down then mret (x, e)
      else if period_not_ready then wait_ready fuel x e else mret (x, e)
  end.

Definition sleep_until_period (sync : Z) : Y unit :=
  ticks_at_period ← on_processor sync getTimeAtPeriod;
  delay ← gets (fun s => m_sync_delay (spm_t (spm s)));
  pred_system_time_at_xfer ← call_env (getSystemTimeForCycleTimerTicks sync (u32 (ticks_at_period + delay)));
  SleepUsecAbsolute pred_system_time_at_xfer.

Definition waitForPeriod : Y bool :=
  sync ← sync_source;
  match sync with
  | None => mret false
  | Some sync =>
      down ← shutdown_needed;
      if down : bool then mret false else
      on_spm SPM_lockWaitLoop ;;
      sleep_until_period sync ;;
      '(xrun_occurred, in_error) ← wait_ready wait_fuel false false;
      (if in_error : bool then set_shutdown_needed true else mret ()) ;;
      preempted ;;
      t ← on_processor sync getTimeAtPeriod;
      set_time_of_transfer t ;;
      count_period ;;
      pred ← call_env (getSystemTimeForCycleTimerTicks sync (u32 t));
      now ← call_env getCurrentTime;
      set_delayed_usecs (i32 (now - pred)) ;;
      preempted ;;
      on_spm SPM_unlockWaitLoop ;;
      mret (negb xrun_occurred)
  end.

(** ** Transfer *)

(** The timestamp for the frames that go into the buffer of the transmit processor [p] at the time of transfer. *)
Definition transmit_timestamp (rate : float) (p : Z) : Y Z :=
  nb ← nb_buffers; period ← period_size; extra ← on_processor p getExtraBufferFrames;
  t ← time_of_transfer;
  let one_ringbuffer_in_frames := u32 (u32 (nb * period) + extra) in
  let one_ringbuffer_in_ticks := i64 (Z_of_float (fmul (f_of_Z one_ringbuffer_in_frames) rate)) in
  mret (i64 (addTicks t (u64 one_ringbuffer_in_ticks))).

(** Both transfer functions: [get] on each receive processor, or [put] on each transmit processor. *)
Definition transfer_with (get put : Z -> Z -> run (sp_state C (spm_world E)) bool) (t : eProcessorType) : Y bool :=
  sync ← sync_source;
  match sync with
  | None => mret false
  | Some sync =>
      period ← period_size;
      match t with
      | ePT_Receive =>
          ts ← time_of_transfer; rs ← receivers;
          and_all (fun p => on_processor p (get period ts)) rs
      | ePT_Transmit =>
          rate ← on_processor sync getTicksPerFrame; ps ← transmitters;
          and_all (fun p => ts ← transmit_timestamp rate p; on_processor p (put period ts)) ps
      end
  end.

Definition transfer_type : eProcessorType -> Y bool := transfer_with getFrames putFrames.
Definition transferSilence_type : eProcessorType -> Y bool := transfer_with SP_dropFrames putSilenceFrames.

Definition transfer : Y bool :=
  a ← transfer_type ePT_Receive; b ← transfer_type ePT_Transmit; mret (a && b).
Definition SPM_transferSilence : Y bool :=
  a ← transferSilence_type ePT_Transmit; b ← transferSilence_type ePT_Receive; mret (a && b).

(** ** Alignment of the received streams *)

(** [(int)roundf(x)]: to the nearest integer, halves away from zero. *)
Definition Z_of_roundf (x : float) : Z :=
  match x with
  | S754_finite s m e => cond_Zopp s (if 0 <=? e then Zpos m * 2 ^ e else (Zpos m + 2 ^ (- e - 1)) / 2 ^ (- e))
  | _ => 0
  end.

(** The offsets of the receive processors to the sync source, in ticks. *)
Definition stream_offsets (sync : Z) : Y (list Z) :=
  rs ← receivers;
  collect (fun p => a ← on_processor sync getTimeAtPeriod; b ← on_processor p getTimeAtPeriod; mret (diffTicks a b)) rs.

(** The sums of the offsets over [runs] periods, [None] after an xrun; the first period starts them. *)
Fixpoint sum_offsets (sync : Z) (runs : nat) (first : bool) (sums : list Z) : Y (option (list Z)) :=
  match runs with
  | O => mret (Some sums)
  | S runs =>
      ok ← waitForPeriod;
      if negb ok then mret None else
      ok ← SPM_transferSilence;
      if negb ok then mret None else
      diffs ← stream_offsets sync;
      sum_offsets sync runs false (if first then diffs else zip_with (fun a b => i64 (a + b)) sums diffs)
  end.

(** The average offset in frames. *)
Definition offset_in_frames (periods : Z) (p : Z) (sum : Z) : Y Z :=
  tpf ← on_processor p getTicksPerFrame;
  mret (i32 (Z_of_roundf (fdiv (f_of_Z (Z.quot sum periods)) tpf))).

Fixpoint offsets_in_frames (periods : Z) (ps sums : list Z) : Y (list Z) :=
  match ps, sums with
  | p :: ps, sum :: sums => d ← offset_in_frames periods p sum; ds ← offsets_in_frames periods ps sums; mret (d :: ds)
  | _, _ => mret []
  end.

Definition min_shift (ds : list Z) : Z := foldl (fun m d => if d <? m then d else m) 9999 ds.
Definition frames_to_shift_stream (ds : list Z) : list Z := (fun d => i32 (d - min_shift ds)) <$> ds.

Definition shift_streams (ps ns : list Z) : Y bool :=
  until_failure (fun '(p, n) => on_processor p (shiftStream n)) (zip ps ns).

(** One try.  [None]: the function returns false; otherwise whether the streams were found to be aligned. *)
Definition align_try (sync periods : Z) : Y (option bool) :=
  rs ← receivers;
  sums ← sum_offsets sync (Z.to_nat periods) true [];
  match sums with
  | None => mret None
  | Some sums =>
      if (periods =? 0) && negb (length rs =? 0)%nat then undefined else
      ds ← offsets_in_frames periods rs sums;
      if forallb (Z.eqb 0) ds then mret (Some true) else
      ok ← shift_streams rs (frames_to_shift_stream ds);
      mret (if ok : bool then Some false else None)
  end.

(** [while (!aligned && cnt--)] with [cnt] tries left, and the test of [cnt] behind the loop: [cnt]
    is -1 after the last try has failed. *)
Fixpoint align_tries (sync periods : Z) (cnt : nat) : Y bool :=
  match cnt with
  | O => mret true
  | S cnt =>
      r ← align_try sync periods;
      match r with
      | None => mret false
      | Some true => mret (negb (cnt =? 0)%nat)
      | Some false => align_tries sync periods cnt
      end
  end.

(** A negative [cnt] counts down through the whole range of the type.  The function is only called with a sync
    source. *)
Definition alignReceivedStreams : Y bool :=
  sync ← sync_source;
  cnt ← setting "streaming.spm.align_tries" STREAMPROCESSORMANAGER_NB_ALIGN_TRIES;
  msec ← setting "streaming.spm.align_average_time_msec" STREAMPROCESSORMANAGER_ALIGN_AVERAGE_TIME_MSEC;
  rate ← nominal_rate; period ← period_size;
  if period =? 0 then undefined else
  match sync with
  | None => undefined
  | Some sync => align_tries sync (u32 (msec * rate) / 1000 / period) (Z.to_nat (u32 cnt))
  end.

(** ** Start *)

(** [while (!ready && cnt)]: a check of all processors, then a sleep; returns [cnt]. *)
Fixpoint wait_all (check : Y bool) (ready : bool) (cnt : nat) : Y nat :=
  if ready then mret cnt else
  match cnt with
  | O => mret O
  | S cnt => r ← check; SleepRelativeUsec 125 ;; wait_all check r cnt
  end.

(** The loop, and whether [cnt] is not zero behind it. *)
Definition wait_all_ready (check : Z -> Y bool) (cnt : Z) : Y bool :=
  rs ← receivers; ts ← transmitters;
  left ← wait_all (and_all check (rs ++ ts)) false (Z.to_nat cnt);
  mret (negb (left =? 0)%nat).

Definition start_dry (p : Z) : Y bool :=
  e ← inError p;
  if e : bool then mret false else
  d ← isDryRunning p;
  if d : bool then mret true else on_processor p (scheduleStartDryRunning (-1)).

Definition SPM_startDryRunning : Y bool :=
  ts ← transmitters; ok ← until_failure start_dry ts;
  if negb ok then mret false else
  rs ← receivers; ok ← until_failure start_dry rs;
  if negb ok then mret false else
  wait_all_ready isDryRunning STREAMPROCESSORMANAGER_CYCLES_FOR_DRYRUN.

(** [if(x > max) max = x;] over the processors. *)
Definition max_of (start : Z) (xs : list Z) : Z := foldl (fun m x => if m <? x then x else m) start xs.

Definition frames_per_packet (p : Z) : Y Z := n ← on_processor p packet_frames; mret (i32 n).

(** [while(nb_sync_runs--)] *)
Fixpoint sync_runs (sync : Z) (n : nat) : Y unit :=
  match n with
  | O => mret ()
  | S n => sleep_until_period sync ;; sync_runs sync n
  end.

(** The number of prebuffer frames, made a multiple of the packet size: [while(tmp < frames) tmp += packet;] *)
Fixpoint round_up_loop (rounds : nat) (tmp frames packet : Z) : option Z :=
  if frames <=? tmp then Some tmp else
  match rounds with
  | O => None
  | S rounds => round_up_loop rounds (i32 (tmp + packet)) frames packet
  end.
Definition prebuffer_frames (frames packet : Z) : option Z :=
  if packet =? 0 then None
  else if Z.rem frames packet =? 0 then Some frames
  else round_up_loop (Z.to_nat frames) 0 frames packet.

(** [while (!m_SyncSource->isRunning() && cnt)] *)
Fixpoint wait_running (sync : Z) (cnt : nat) : Y nat :=
  r ← isRunning sync;
  if r : bool then mret cnt else
  match cnt with
  | O => mret O
  | S cnt => SleepRelativeUsec 125 ;; wait_running sync cnt
  end.

(** The start times: of the first sample, of the transmit and of the receive processors. *)
Record start_times := mkStart { time_of_first_sample : Z; time_to_start_xmit : Z; time_to_start_recv : Z }.

(** [(int)(time_for_startup_abs / tpf)] rounded to more than that many frames in whole packets. *)
Definition time_for_startup_frames (cycles : Z) (tpf : float) (packet : Z) : Z :=
  let frames := i32 (Z_of_float (ddiv (d_of_Z (u32 (cycles * TICKS_PER_CYCLE))) (d_of_f tpf))) in
  i32 ((Z.quot frames packet + 1) * packet).

Definition start_schedule (now : Z) (tpf : float) (packet cycles prestart_xmit prestart_recv : Z) : start_times :=
  let frames := time_for_startup_frames cycles tpf packet in
  let first := addTicks now (u64 (Z_of_float (fmul (f_of_Z frames) tpf))) in
  mkStart first (substractTicks first (u32 (prestart_xmit * TICKS_PER_CYCLE)))
    (substractTicks first (u32 (prestart_recv * TICKS_PER_CYCLE))).

(** The schedule goes to the buffers: the time of the first sample to the transmit buffers with their prebuffer, and the
    room for the delay to the receive buffers. *)
Definition preset_buffers (first_sample prebuffer sync_delay_frames packet : Z) : Y unit :=
  ts ← transmitters;
  for_all (fun p => on_processor p (setExtraBufferFrames (u32 prebuffer)) ;;
                    on_processor p (SP_setBufferHeadTimestamp (d_of_Z first_sample))) ts ;;
  let frames := i32 ((Z.quot sync_delay_frames packet + 1) * packet) in
  let frames := if frames <? 1024 then 1024 else frames in
  rs ← receivers;
  for_all (fun p => on_processor p (setExtraBufferFrames (u32 frames))) rs.

(** The sync source is scheduled first, then the other processors. *)
Definition schedule_others (sync t : Z) (ps : list Z) : Y bool :=
  until_failure (fun p => if p =? sync then mret true else on_processor p (scheduleStartRunning (i64 t))) ps.

Definition schedule_all (sync : Z) (times : start_times) : Y bool :=
  type ← on_processor sync getType;
  ok ← on_processor sync (scheduleStartRunning (i64 (match type with
         | ePT_Receive => time_to_start_recv times | ePT_Transmit => time_to_start_xmit times end)));
  if negb ok then mret false else
  rs ← receivers; ok ← schedule_others sync (time_to_start_recv times) rs;
  if negb ok then mret false else
  ts ← transmitters; schedule_others sync (time_to_start_xmit times) ts.

(** The timestamp of the tail of the transmit buffers, [(m_nb_buffers-1)] periods and the prebuffer after the transfer. *)
Definition preset_tails (prebuffer : Z) (rate : float) : Y unit :=
  nb ← nb_buffers; period ← period_size; t ← time_of_transfer;
  let frames := u32 (u32 ((nb - 1) * period) + prebuffer) in
  let delay_in_ticks := i64 (Z_of_float (fmul (f_of_Z frames) rate)) in
  let transmit_tail_timestamp := i64 (addTicks t (u64 delay_in_ticks)) in
  ts ← transmitters;
  for_all (fun p => on_processor p (setTicksPerFrame rate) ;;
                    on_processor p (SP_setBufferTailTimestamp (d_of_Z transmit_tail_timestamp))) ts.

(** From the point where the sync source runs. *)
Definition follow_sync_source (sync prebuffer : Z) : Y bool :=
  t ← on_processor sync getTimeAtPeriod;
  set_time_of_transfer t ;;
  rate ← on_processor sync getTicksPerFrame;
  preset_tails prebuffer rate ;;
  alignReceivedStreams.

Definition syncStartAll : Y bool :=
  sync ← sync_source;
  match sync with
  | None => mret false
  | Some sync =>
      signal_delay_ticks ← setting "streaming.spm.signal_delay_ticks" STREAMPROCESSORMANAGER_SIGNAL_DELAY_TICKS;
      xmit_prebuffer_frames ← setting "streaming.spm.xmit_prebuffer_frames" STREAMPROCESSORMANAGER_XMIT_PREBUFFER_FRAMES;
      sync_wait_time_msec ← setting "streaming.spm.sync_wait_time_msec" STREAMPROCESSORMANAGER_SYNC_WAIT_TIME_MSEC;
      cycles_for_startup ← setting "streaming.spm.cycles_for_startup" STREAMPROCESSORMANAGER_CYCLES_FOR_STARTUP;
      prestart_xmit ← setting "streaming.spm.prestart_cycles_for_xmit" STREAMPROCESSORMANAGER_PRESTART_CYCLES_FOR_XMIT;
      prestart_recv ← setting "streaming.spm.prestart_cycles_for_recv" STREAMPROCESSORMANAGER_PRESTART_CYCLES_FOR_RECV;
      rs ← receivers; ts ← transmitters;
      delays ← collect (fun p => on_processor p getMaxFrameLatency) rs;
      packets ← collect frames_per_packet (rs ++ ts);
      let max_of_min_delay := max_of 0 delays in
      let max_packet_size_frames := max_of 0 packets in
      set_sync_delay (u32 (max_of_min_delay + signal_delay_ticks)) ;;
      rate ← nominal_rate; period ← period_size;
      if period =? 0 then undefined else
      sync_runs sync (Z.to_nat (u32 (sync_wait_time_msec * rate) / 1000 / period)) ;;
      tpf ← on_processor sync getTicksPerFrame;
      now ← on_processor sync getTimeAtPeriod;
      if max_packet_size_frames =? 0 then undefined else
      let times := start_schedule now tpf max_packet_size_frames cycles_for_startup prestart_xmit prestart_recv in
      delay ← gets (fun s => m_sync_delay (spm_t (spm s)));
      tpf2 ← on_processor sync getTicksPerFrame;
      let sync_delay_frames := i32 (Z_of_float (fdiv (f_of_Z delay) tpf2)) in
      prebuffer ← (fun s => n ← prebuffer_frames xmit_prebuffer_frames max_packet_size_frames; Some (n, s));
      preset_buffers (time_of_first_sample times) prebuffer sync_delay_frames max_packet_size_frames ;;
      ok ← schedule_all sync times;
      if negb ok then mret false else
      cnt ← wait_running sync (Z.to_nat 8000);
      if (cnt =? 0)%nat then mret false else
      follow_sync_source sync prebuffer
  end.

(** ** Stop *)

Definition stop_running (p : Z) : Y bool :=
  r ← isRunning p; if r : bool then on_processor p (scheduleStopRunning (-1)) else mret true.
Definition stop_dry (p : Z) : Y bool :=
  e ← inError p; if e : bool then mret true else on_processor p (scheduleStopDryRunning (-1)).
Definition is_quiescent (p : Z) : Y bool :=
  a ← isDryRunning p; b ← isStopped p; c ← isWaitingForStream p; d ← inError p; mret (a || b || c || d).
Definition is_off (p : Z) : Y bool := a ← isStopped p; b ← inError p; mret (a || b).

Definition stop : Y bool :=
  rs ← receivers; ts ← transmitters;
  ok ← until_failure stop_running (rs ++ ts);
  if negb ok then mret false else
  ok ← wait_all_ready is_quiescent 8000;
  if negb ok then mret false else
  ok ← until_failure stop_dry (rs ++ ts);
  if negb ok then mret false else
  wait_all_ready is_off 8000.

(** ** Starting again and again *)

(** The loop of [start]: [None] if it returns from the middle. *)
Fixpoint start_tries (ntries : nat) : Y (option bool) :=
  match ntries with
  | O => mret (Some false)
  | S ntries =>
      dry ← SPM_startDryRunning;
      if negb dry then start_tries ntries else
      ok ← syncStartAll;
      if ok : bool then mret (Some true) else
      down ← shutdown_needed;
      if down : bool then mret None else start_tries ntries
  end.

Definition start : Y bool :=
  r ← start_tries STREAMPROCESSORMANAGER_SYNCSTART_TRIES;
  match r with
  | None => mret false
  | Some true => mret true
  | Some false => _ ← stop; mret false
  end.

Fixpoint restart_tries (ntries : nat) : Y bool :=
  match ntries with
  | O => mret false
  | S ntries =>
      down ← shutdown_needed;
      if down : bool then mret true else
      dry ← SPM_startDryRunning;
      if negb dry then restart_tries ntries else
      ok ← syncStartAll;
      if ok : bool then mret true else restart_tries ntries
  end.

Definition handleXrun : Y bool := restart_tries STREAMPROCESSORMANAGER_SYNCSTART_TRIES.
End manager.
