(* ===== verification/StreamExample.v ===== *)
(** * A streaming system that runs

    A concrete instance of the interfaces of StreamProcessor and StreamManager: a receive and a transmit stream of
    eight frames of one quadlet per packet, one packet per cycle at 64 kHz, with two buffers of a period
    of 16 frames.  While the manager sleeps, a cycle of the bus passes every 125 microseconds: the receive
    stream gets a packet and the transmit stream is asked for one.  The settings make the waits of
    the start short.  The whole start of the manager is executed below. *)
From stdpp Require Import gmap strings.
From S2P Require Import Prelude CycleTimer RingBuffer Ieee754 TimestampedBuffer Ports StreamProcessor StreamManager.
#[local] Open Scope Z_scope.

(** The state of the code below the manager is the number of the current cycle, which is also the system
    time. *)
#[export] Instance example_env : SPMEnv Z := {
  env_registerStream _ e := (true, e);
  env_signalActivityTransmit e := e;
  env_signalActivityReceive e := e;
  env_startHandlerForStream _ _ e := (true, e);
  env_stopHandlerForStream _ e := (true, e);
  env_getPacketLatencyForStream _ _ := 1;
  env_getLocalNodeId _ _ := 0xffc1;
  env_getCycleTimerTicks _ e := (e * TICKS_PER_CYCLE, e);
  getSystemTimeForCycleTimerTicks _ ticks e := (ticks / TICKS_PER_CYCLE, e);
  getCurrentTime e := (e, e);
  getValueForSetting name _ :=
    if decide (name = "streaming.spm.sync_wait_time_msec") then Some 1
    else if decide (name = "streaming.spm.align_average_time_msec") then Some 1
    else if decide (name = "streaming.spm.cycles_for_startup") then Some 10
    else if decide (name = "streaming.spm.prestart_cycles_for_xmit") then Some 2
    else if decide (name = "streaming.spm.align_tries") then Some 3
    else None;
  clock_gettime e := (Some (e / 8000, e mod 8000 * 125000), e);
  sem_wait_blocked _ e := (None, e);
  ETIMEDOUT := 110;
  EINTR := 4;
  env_heap_junk _ := 0;
  env_debug_build := false;
}.

(** The time of arrival is the timestamp of a packet; a packet is sent whenever there is one. *)
#[export] Instance example_stream : SPChild unit (spm_world Z) := {
  getEventsPerFrame _ := 1; getEventSize _ := 4; getNominalFramesPerPacket _ _ := 8;
  prepareChild := mret true;
  processPacketHeader d l t y ctr := set_last_timestamp (CYCLE_TIMER_TO_TICKS ctr) ;; mret eCRV_OK;
  processPacketData d l :=
    ts ← get_last_timestamp; ok ← call_buffer (writeFrames 8 d (d_of_Z ts)); mret (if ok : bool then eCRV_OK else eCRV_XRun);
  generatePacketHeader p _ := mret (eCRV_Packet, p);
  generatePacketData p :=
    '(ok, d) ← call_buffer (fun b => '(ok, d, b) ← readFrames 8 b; Some ((ok, d), b));
    mret (if ok : bool then eCRV_OK else eCRV_XRun, mkPacket d (zlength d) (p_tag p) (p_sy p));
  generateEmptyPacketHeader p _ := mret (eCRV_OK, p); generateEmptyPacketData p := mret (eCRV_OK, p);
  generateSilentPacketHeader p _ := mret (eCRV_Packet, p); generateSilentPacketData p := mret (eCRV_OK, p);
  transmitSilenceBlock d n o := mret (true, d);
  block_client := {| processReadBlock d n o := mret true; processWriteBlock d n o := mret (true, d) |};
}.

(** The cycle timer register in a cycle counted from 0. *)
Definition ctr_of_cycle (n : Z) : Z := (n / 8000) mod 128 * 2 ^ 25 + n mod 8000 * 2 ^ 12.

Definition deliver (p : Z) : run (system unit Z) unit :=
  n ← gets env; on_processor p (putPacket (replicate 32 7) 32 0 1 0 (ctr_of_cycle n) 0) ;; mret ().
Definition request (p : Z) : run (system unit Z) unit :=
  n ← gets env; on_processor p (getPacket (mkPacket [] 0 0 0) (ctr_of_cycle n) 0 0 64) ;; mret ().

(** One cycle of the bus. *)
Definition bus_cycle : run (system unit Z) unit :=
  modify (fun s => mkSystem (spm s) (env s + 1) (processors s)) ;;
  rs ← receivers; for_all deliver rs ;;
  ts ← transmitters; for_all request ts.

Fixpoint bus_cycles (n : nat) : run (system unit Z) unit :=
  match n with
  | O => mret ()
  | S n => bus_cycle ;; bus_cycles n
  end.

#[export] Instance example_scheduler : Scheduler unit Z := {
  SleepRelativeUsec usec := bus_cycles (Z.to_nat (usec / 125));
  SleepUsecAbsolute t := n ← gets env; bus_cycles (Z.to_nat (t - n));
  preempted := mret ();
  wait_fuel := 100;
}.

(** Two processors, at the addresses 100 and 200, initialised and prepared. *)
Definition example_objects : gmap Z (object unit) :=
  <[100 := (StreamProcessor_new ePT_Receive, tt)]> (<[200 := (StreamProcessor_new ePT_Transmit, tt)]> ∅).
Definition example_initial : system unit Z :=
  mkSystem (StreamProcessorManager_new (fun _ => 0) 16 64000 2) 1000 example_objects.

Definition example_prepared : option (system unit Z) :=
  '(_, s) ← init_processor 100 example_initial;
  '(_, s) ← init_processor 200 s;
  '(ok, s) ← SPM_prepare s;
  if ok : bool then Some s else None.

Definition example_state (s : system unit Z) : list (option eProcessorState) :=
  (fun p => (fun o : object unit => m_state (machine o.1)) <$> processors s !! p) <$> [100; 200].

Example example_is_prepared : example_state <$> example_prepared = Some [Some ePS_Stopped; Some ePS_Stopped].
Proof. vm_compute. reflexivity. Qed.

Definition example_started : option (bool * system unit Z) := s ← example_prepared; start s.

(** The streams start, a period is announced and transferred, and the streams stop. *)
Example example_runs :
  (fun r => (r.1, example_state r.2)) <$> example_started = Some (true, [Some ePS_Running; Some ePS_Running])
  /\ ('(_, s) ← example_started; '(w, s) ← waitForPeriod s; '(t, s) ← transfer s; '(x, s) ← stop s;
      Some (w, t, x, m_nbperiods (spm_t (spm s)), example_state s))
     = Some (true, true, true, 5, [Some ePS_Stopped; Some ePS_Stopped]).
Proof. vm_compute. split; reflexivity. Qed.
