(* ===== verification/StreamPeriods.v ===== *)
(** * Periods, alignment and the end of streams

    What the stream processor manager of StreamManager promises to its client: a period that is
    announced can be transferred, waiting ends in the state that was waited for, and streams are aligned by
    dropping frames only. *)
From stdpp Require Import gmap.
From S2P Require Import Prelude CycleTimer RingBuffer Ieee754 TimestampedBuffer Ports StreamProcessor StreamStates StreamManager StreamExample.
#[local] Open Scope Z_scope.

(** ** Methods that only read *)

Definition reads {S A} (m : run S A) : Prop := forall s a s', m s = Some (a, s') -> s' = s.

(** Split the hypothesis that a method has returned at its first call. *)
Ltac run_inv H :=
  let a := fresh "x" in let s := fresh "s" in let E := fresh "E" in
  apply run_bind_inv in H as (a & s & E & H); cbv beta in H.

Section reading.
Context {S : Type}.

Lemma reads_ret {A} (a : A) : reads (mret a : run S A).
Proof. by intros s b s' [= _ <-]. Qed.
Lemma reads_gets {A} (f : S -> A) : reads (gets f).
Proof. by intros s b s' [= _ <-]. Qed.
Lemma reads_bind {A B} (m : run S A) (k : A -> run S B) : reads m -> (forall a, reads (k a)) -> reads (m ≫= k).
Proof. intros Hm Hk s b s' E. run_inv E. rewrite <- (Hm _ _ _ E0). by eapply Hk. Qed.
Lemma reads_if {A} (c : bool) (m1 m2 : run S A) : reads m1 -> reads m2 -> reads (if c then m1 else m2).
Proof. by destruct c. Qed.
Lemma reads_decide {A} P `{!Decision P} (m1 m2 : run S A) : reads m1 -> reads m2 -> reads (if decide P then m1 else m2).
Proof. by destruct (decide P). Qed.
End reading.

Create HintDb reading.
#[export] Hint Resolve reads_ret reads_gets reads_bind reads_if reads_decide : reading.
Ltac reading := repeat (first [assumption | apply reads_ret | apply reads_gets | apply reads_bind | apply reads_if
  | apply reads_decide | match goal with |- forall _, reads _ => intros ? end]); try (eauto with reading).

Section manager.
Context {C E : Type} `{SPMEnv E} `{!SPChild C (spm_world E)} `{!Scheduler C E}.
Abbreviation Y := (run (system C E)).
Abbreviation M := (run (sp_state C (spm_world E))).

(** *** Queries of processors *)

Lemma reads_canConsumePeriod : reads (canConsumePeriod : M bool).
Proof. unfold canConsumePeriod, canConsume, steadily_running, from_world, from_buffer, get_state, get_next_state, getType. reading. Qed.
Lemma reads_canProducePeriod : reads (canProducePeriod : M bool).
Proof. unfold canProducePeriod, canProduce, steadily_running, from_world, from_buffer, get_state, get_next_state, getType. reading. Qed.
Lemma reads_getTimeAtPeriod : reads (getTimeAtPeriod : M Z).
Proof. unfold getTimeAtPeriod, from_world, from_buffer, getType. reading. Qed.
Lemma reads_state st : reads ((x ← get_state; mret (bool_decide (x = st))) : M bool).
Proof. unfold get_state. reading. Qed.

(** The processor [o] at [p], in the surroundings that it has in the system. *)
Definition object_at (p : Z) (o : object C) (s : system C E) : sp_state C (spm_world E) :=
  mkState o.1 o.2 (mkWorld p (m_processor_type (settings o.1)) (spm s) (env s)).

(** A query leaves the system alone, and gives what the object gives. *)
Lemma on_processor_reads {A} p (m : M A) s a s' : reads m -> on_processor p m s = Some (a, s') ->
  s' = s /\ exists o, processors s !! p = Some o /\ m (object_at p o s) = Some (a, object_at p o s).
Proof.
  intros Hm. unfold on_processor. destruct (processors s !! p) as [[q c]|] eqn:Ep; simpl; [|done].
  destruct (m _) as [[b st]|] eqn:Em; simpl; [|done]. pose proof (Hm _ _ _ Em) as ->. simpl. intros [= <- <-].
  split; [|exists (q, c); by split]. rewrite (insert_id (processors s) p (q, c)) by done. by destruct s.
Qed.

Lemma reads_on_processor {A} p (m : M A) : reads m -> reads (on_processor p m).
Proof. intros Hm s a s' E1. by apply on_processor_reads in E1 as [-> _]. Qed.

Lemma reads_has_state st p : reads (has_state st p : Y bool).
Proof. apply reads_on_processor, reads_state. Qed.
Lemma reads_xrunOccurred p : reads (xrunOccurred p : Y bool).
Proof. apply reads_on_processor, reads_gets. Qed.

Lemma and_all_true (f : Z -> Y bool) l s s' : (forall p, reads (f p)) -> and_all f l s = Some (true, s') ->
  s' = s /\ Forall (fun p => f p s = Some (true, s)) l.
Proof.
  intros Hf. revert s s'. induction l as [|p l IH]; intros s s'; simpl.
  - intros [= <-]. done.
  - intros E1. run_inv E1. run_inv E1. injection E1 as Ex <-. apply andb_true_iff in Ex as [-> ->].
    pose proof (Hf _ _ _ _ E0) as ->. apply IH in E2 as [-> F]. by split; [|constructor].
Qed.

Lemma reads_and_all (f : Z -> Y bool) l : (forall p, reads (f p)) -> reads (and_all f l).
Proof. intros Hf. induction l; simpl; reading. Qed.
(** ** A period that is announced *)

(** The processor is running, without an xrun and without a change of state ahead. *)
Definition steady_object (o : object C) : Prop := runs (machine o.1).

(** It has a period of [n] frames for the client, or room for one. *)
Definition can_get (n : Z) (o : object C) : Prop := steady_object o /\ n <= getBufferFill (m_data_buffer o.1).
Definition can_put (n : Z) (o : object C) : Prop := steady_object o /\ n <= getBufferSpace (m_data_buffer o.1).

Lemma canConsumePeriod_true p o s : canConsumePeriod (object_at p o s) = Some (true, object_at p o s) ->
  m_in_xrun (machine o.1) = false -> m_processor_type (settings o.1) = ePT_Receive ->
  can_get (m_period (spm_s (spm s))) o.
Proof.
  intros E1 Hx Ht. unfold canConsumePeriod, canConsume in E1. do 2 run_inv E1. injection E0 as <- <-. injection E2 as <- <-.
  cbn in E1. rewrite Hx in E1. run_inv E1. unfold steadily_running in E0. do 2 run_inv E0.
  injection E2 as <- <-. injection E3 as <- <-. injection E0 as <- <-.
  cbn in E1. destruct (bool_decide (m_state _ = _)) eqn:B1; simpl in E1; [destruct (bool_decide (m_next_state _ = _)) eqn:B2; simpl in E1|];
    run_inv E1; injection E0 as <- <-; injection E1 as Ex; cbn in Ex; try (rewrite Ht in Ex; by apply bool_decide_eq_true in Ex).
  apply bool_decide_eq_true in B1, B2. apply Z.leb_le in Ex. done.
Qed.

Lemma canProducePeriod_true p o s : canProducePeriod (object_at p o s) = Some (true, object_at p o s) ->
  m_in_xrun (machine o.1) = false -> m_processor_type (settings o.1) = ePT_Transmit ->
  can_put (m_period (spm_s (spm s))) o.
Proof.
  intros E1 Hx Ht. unfold canProducePeriod, canProduce in E1. do 2 run_inv E1. injection E0 as <- <-. injection E2 as <- <-.
  cbn in E1. rewrite Hx in E1. run_inv E1. unfold steadily_running in E0. do 2 run_inv E0.
  injection E2 as <- <-. injection E3 as <- <-. injection E0 as <- <-.
  cbn in E1. destruct (bool_decide (m_state _ = _)) eqn:B1; simpl in E1; [destruct (bool_decide (m_next_state _ = _)) eqn:B2; simpl in E1|];
    run_inv E1; injection E0 as <- <-; injection E1 as Ex; cbn in Ex; try (rewrite Ht in Ex; by apply bool_decide_eq_true in Ex).
  apply bool_decide_eq_true in B1, B2. apply Z.leb_le in Ex. done.
Qed.

Lemma xrunOccurred_false p (s : system C E) s' : xrunOccurred p s = Some (false, s') ->
  s' = s /\ exists o : object C, processors s !! p = Some o /\ m_in_xrun (machine o.1) = false.
Proof.
  intros E1. apply on_processor_reads in E1 as (-> & o & Ho & E1); [|apply reads_gets]. injection E1 as <-.
  split; [done|]. by exists o.
Qed.

(** *** The ISO threads *)

(** What an ISO thread may do to a processor: the state machine goes on as it does in [putPacket] and [getPacket]
    (lemmas [putPacket_goes] and [getPacket_goes]), and while the stream runs a receive stream gets no fewer
    frames than before and a transmit stream no less room. *)
Definition object_step (o o' : object C) : Prop :=
  m_processor_type (settings o'.1) = m_processor_type (settings o.1)
  /\ goes_on (machine o.1) (machine o'.1)
  /\ (steady_object o -> steady_object o' ->
       (m_processor_type (settings o.1) = ePT_Receive ->
        getBufferFill (m_data_buffer o.1) <= getBufferFill (m_data_buffer o'.1))
       /\ (m_processor_type (settings o.1) = ePT_Transmit ->
            getBufferSpace (m_data_buffer o.1) <= getBufferSpace (m_data_buffer o'.1))).

(** The system some time later: the lists and settings of the manager are the same. *)
Definition later (s s' : system C E) : Prop :=
  spm_l (spm s') = spm_l (spm s) /\ spm_s (spm s') = spm_s (spm s)
  /\ forall p o, processors s !! p = Some o -> exists o', processors s' !! p = Some o' /\ object_step o o'.

(** What the manager itself does to the rest of its state. *)
Definition same_streams (s s' : system C E) : Prop :=
  processors s' = processors s /\ spm_l (spm s') = spm_l (spm s) /\ spm_s (spm s') = spm_s (spm s).

(** No registered stream waits for its start. *)
Definition calm_streams (s : system C E) : Prop :=
  forall p, p ∈ m_ReceiveProcessors (spm_l (spm s)) ++ m_TransmitProcessors (spm_l (spm s)) ->
    exists o : object C, processors s !! p = Some o /\ calm (machine o.1).

#[local] Instance object_step_preorder : PreOrder object_step.
Proof.
  split; [by intros o; split_and!|]. intros o1 o2 o3 (T1 & G1 & F1) (T2 & G2 & F2). split; [congruence|].
  split; [by etrans|]. intros St1 St3. destruct G1 as [G1 R1], G2 as [G2 R2].
  destruct (R1 St1) as [X|St2].
  { destruct (G1 (runs_calm _ St1)) as [c2 _]. destruct (G2 c2) as [_ x3]. destruct St3 as [X3 _]. rewrite x3 in X3; done. }
  destruct (F1 St1 St2) as [A1 B1], (F2 St2 St3) as [A2 B2]. rewrite T1 in A2, B2.
  split; intros Ty; [etrans; [by apply A1|by apply A2]|etrans; [by apply B1|by apply B2]].
Qed.

#[local] Instance later_preorder : PreOrder later.
Proof.
  split.
  - intros s. split; [done|]. split; [done|]. intros p o Ho. by exists o.
  - intros s1 s2 s3 (L1 & G1 & P1) (L2 & G2 & P2). split; [congruence|]. split; [congruence|].
    intros p o Ho. destruct (P1 p o Ho) as (o2 & Ho2 & S2). destruct (P2 p o2 Ho2) as (o3 & Ho3 & S3).
    exists o3. split; [done|]. by etrans.
Qed.

Lemma same_later s s' : same_streams s s' -> later s s'.
Proof. intros (A & B & D). split; [done|]. split; [done|]. intros p o Ho. exists o. by rewrite A. Qed.

Lemma calm_later s s' : later s s' -> calm_streams s -> calm_streams s'.
Proof.
  intros (L & _ & P) Cs p Hp. rewrite L in Hp. destruct (Cs p Hp) as (o & Ho & Co).
  destruct (P p o Ho) as (o' & Ho' & S'). exists o'. split; [done|]. by apply (proj1 (proj2 S')).
Qed.

(** A running processor with a period, some time later. *)
Lemma can_get_step n o o' : object_step o o' -> m_processor_type (settings o.1) = ePT_Receive -> can_get n o ->
  m_in_xrun (machine o'.1) = true \/ can_get n o'.
Proof.
  intros (_ & [_ S1] & F) Ty [St Hn]. destruct (S1 St) as [X|St']; [by left|right].
  split; [done|]. destruct (F St St') as [F' _]. specialize (F' Ty). lia.
Qed.
Lemma can_put_step n o o' : object_step o o' -> m_processor_type (settings o.1) = ePT_Transmit -> can_put n o ->
  m_in_xrun (machine o'.1) = true \/ can_put n o'.
Proof.
  intros (_ & [_ S1] & F) Ty [St Hn]. destruct (S1 St) as [X|St']; [by left|right].
  split; [done|]. destruct (F St St') as [_ F']. specialize (F' Ty). lia.
Qed.

(** The ISO threads when they preempt the manager, and what the manager does itself. *)
Definition meanwhile : system C E -> system C E -> Prop :=
  rtc (fun s s' => preempted s = Some (tt, s') \/ same_streams s s').

(** The other threads keep to [later] in every sleep and between two steps of the manager; there they withdraw no
    request for a shutdown and do not set the time of transfer. *)
Class IsoThreads := {
  preempted_later s s' : preempted s = Some (tt, s') -> later s s'
    /\ (m_shutdown_needed (spm_t (spm s)) = true -> m_shutdown_needed (spm_t (spm s')) = true)
    /\ m_time_of_transfer (spm_t (spm s')) = m_time_of_transfer (spm_t (spm s));
  sleep_later u s s' : SleepRelativeUsec u s = Some (tt, s') -> later s s';
  sleep_until_later u s s' : SleepUsecAbsolute u s = Some (tt, s') -> later s s';
}.

Section announced.
Context `{!IsoThreads}.

Lemma meanwhile_preempted s s' : preempted s = Some (tt, s') -> meanwhile s s'.
Proof. intros E1. apply rtc_once. by left. Qed.
Lemma meanwhile_same s s' : same_streams s s' -> meanwhile s s'.
Proof. intros Sm. apply rtc_once. by right. Qed.
Lemma meanwhile_later s s' : meanwhile s s' -> later s s'.
Proof.
  induction 1 as [|s1 s2 s3 [E1|E1] R IH]; [done| |]; (etrans; [|exact IH]); [by apply preempted_later|by apply same_later].
Qed.

(** A query of the processor at [p], after the other threads had their turn. *)
Definition asked {A} (m : Z -> Y A) (p : Z) (a : A) (s s' : system C E) : Prop :=
  exists s1, meanwhile s s1 /\ m p s1 = Some (a, s1) /\ meanwhile s1 s'.

Lemma asked_l {A} (m : Z -> Y A) p a s s1 s' : meanwhile s s1 -> asked m p a s1 s' -> asked m p a s s'.
Proof. intros R (s2 & A1 & B1 & D1). exists s2. split_and!; try done. by etrans. Qed.

Lemma and_all_asked (m : Z -> Y bool) l s b s' : (forall p, reads (m p)) ->
  and_all (fun p => preempted ;; m p) l s = Some (b, s') ->
  meanwhile s s' /\ (b = true -> forall p, p ∈ l -> asked m p true s s').
Proof.
  intros Hm. revert s b. induction l as [|p l IH]; intros s b; simpl; intros E1.
  { injection E1 as <- <-. split; [done|]. by intros _ p Hp%elem_of_nil. }
  run_inv E1. run_inv E1. injection E1 as <- <-. run_inv E0. destruct x1. apply meanwhile_preempted in E1.
  pose proof (Hm _ _ _ _ E0) as ->. apply IH in E2 as [R F]. split; [by etrans|].
  intros [-> ->]%andb_true_iff q [->|Hq]%elem_of_cons; [exists s2; by split_and!|].
  eapply asked_l; [exact E1|]. by apply F.
Qed.

Lemma check_all_asked l x e s x' e' s' : check_all l x e s = Some ((x', e'), s') ->
  meanwhile s s' /\ (x' = false -> forall p, p ∈ l -> asked xrunOccurred p false s s').
Proof.
  intros E1. assert (meanwhile s s' /\ (x' = false -> x = false /\ forall p, p ∈ l -> asked xrunOccurred p false s s')) as [R F];
    [|split; [done|]; intros Hx; by apply F]. revert x e s E1.
  induction l as [|p l IH]; intros x e s; simpl; intros E1.
  { injection E1 as <- <- <-. split; [done|]. intros ->. split; [done|]. by intros p Hp%elem_of_nil. }
  do 4 run_inv E1. destruct x0, x2. apply meanwhile_preempted in E0, E3.
  pose proof (reads_xrunOccurred _ _ _ _ E2) as ->. pose proof (reads_has_state _ _ _ _ _ E4) as ->.
  apply IH in E1 as [R F]. split; [etrans; [exact E0|]; by etrans|].
  intros Hx. destruct (F Hx) as [[-> ->]%orb_false_iff G]. split; [done|].
  intros q [->|Hq]%elem_of_cons; [exists s0; split_and!; [done|done|by etrans]|].
  eapply asked_l; [etrans; [exact E0|exact E3]|]. by apply G.
Qed.

(** Every registered processor had its period when the manager last looked at it. *)
Definition period_seen (s : system C E) : Prop :=
  let l := spm_l (spm s) in let n := m_period (spm_s (spm s)) in
  (forall p, p ∈ m_ReceiveProcessors l -> exists s1 o1, meanwhile s1 s /\ processors s1 !! p = Some o1
     /\ (m_processor_type (settings o1.1) = ePT_Receive -> can_get n o1))
  /\ (forall p, p ∈ m_TransmitProcessors l -> exists s1 o1, meanwhile s1 s /\ processors s1 !! p = Some o1
     /\ (m_processor_type (settings o1.1) = ePT_Transmit -> can_put n o1)).

(** A processor that was ready before and has no xrun flagged at the later check. *)
Lemma seen_at_check {A} (good : object C -> Prop) (m : Z -> Y A) ty a p s0 s0' s1 s' :
  (forall s2, spm_s (spm s2) = spm_s (spm s0) -> m p s2 = Some (a, s2) -> exists o, processors s2 !! p = Some o
     /\ (m_in_xrun (machine o.1) = false -> m_processor_type (settings o.1) = ty -> good o)) ->
  (forall o o', object_step o o' -> m_processor_type (settings o.1) = ty -> good o -> m_in_xrun (machine o'.1) = true \/ good o') ->
  (exists o : object C, processors s0 !! p = Some o /\ calm (machine o.1)) ->
  later s0 s0' -> asked m p a s0' s1 -> asked xrunOccurred p false s1 s' ->
  exists s2 o, meanwhile s2 s' /\ processors s2 !! p = Some o /\ (m_processor_type (settings o.1) = ty -> good o).
Proof.
  intros Hm Hg (o0 & Ho0 & C0) L0 (s2 & R1 & E2 & R2) (s3 & R3 & E3 & R4).
  assert (later s0 s2) as (_ & G1 & P1) by (etrans; [exact L0|by apply meanwhile_later]).
  destruct (P1 p o0 Ho0) as (o2 & Ho2 & _ & [K2 _] & _).
  destruct (K2 C0) as [C2 _]. destruct (Hm s2 G1 E2) as (o2' & Ho2' & G). assert (o2' = o2) as -> by congruence.
  assert (meanwhile s2 s3) as R by by etrans. apply meanwhile_later in R as (_ & _ & P2).
  destruct (P2 p o2 Ho2) as (o3 & Ho3 & S3). apply xrunOccurred_false in E3 as (_ & o3' & Ho3' & X3).
  assert (o3' = o3) as -> by congruence. exists s3, o3. split_and!; [done|done|]. intros Ty.
  pose proof S3 as (T3 & [K3 _] & _). destruct (K3 C2) as [_ x3]. rewrite T3 in Ty.
  assert (m_in_xrun (machine o2.1) = false) as X2 by (destruct (m_in_xrun (machine o2.1)); [rewrite x3 in X3; done|done]).
  destruct (Hg _ _ S3 Ty (G X2 Ty)); [congruence|done].
Qed.

(** One round of the loop that finds every processor ready and no xrun. *)
Lemma round_seen s s1 s2 s' : calm_streams s -> meanwhile s s1 -> meanwhile s1 s2 -> meanwhile s2 s' ->
  (forall p, p ∈ m_ReceiveProcessors (spm_l (spm s)) -> asked (fun p => on_processor p canConsumePeriod) p true s s1) ->
  (forall p, p ∈ m_TransmitProcessors (spm_l (spm s)) -> asked (fun p => on_processor p canProducePeriod) p true s1 s2) ->
  (forall p, p ∈ m_ReceiveProcessors (spm_l (spm s)) ++ m_TransmitProcessors (spm_l (spm s)) ->
     asked xrunOccurred p false s2 s') ->
  period_seen s'.
Proof.
  intros Cs R1 R2 R3 F1 F2 F3. assert (later s s') as (Ll & Ls & _) by (apply meanwhile_later; etrans; [exact R1|]; by etrans).
  split; intros p Hp; rewrite Ll in Hp; rewrite Ls;
    (assert (p ∈ m_ReceiveProcessors (spm_l (spm s)) ++ m_TransmitProcessors (spm_l (spm s))) as Hp' by (apply elem_of_app; auto)).
  - eapply (seen_at_check _ (fun p => on_processor p canConsumePeriod) _ true p s s s2);
      [|intros; by eapply can_get_step|by apply Cs|done| |by apply F3].
    + intros s3 G E3. apply on_processor_reads in E3 as (_ & o & Ho & E3); [|apply reads_canConsumePeriod].
      exists o. split; [done|]. rewrite <- G. intros X Ty. by eapply canConsumePeriod_true.
    + destruct (F1 p Hp) as (s3 & A1 & A2 & A3). exists s3. split_and!; [done|done|by etrans].
  - eapply (seen_at_check _ (fun p => on_processor p canProducePeriod) _ true p s s1 s2);
      [|intros; by eapply can_put_step|by apply Cs|by apply meanwhile_later|by apply F2|by apply F3].
    intros s3 G E3. apply on_processor_reads in E3 as (_ & o & Ho & E3); [|apply reads_canProducePeriod].
    exists o. split; [done|]. rewrite <- G. intros X Ty. by eapply canProducePeriod_true.
Qed.

(** The loop ends with every processor seen ready, or with an xrun, an error or a shutdown. *)
Lemma wait_ready_inv fuel x e (s : system C E) x' e' (s' : system C E) : calm_streams s ->
  wait_ready fuel x e s = Some ((x', e'), s') ->
  later s s' /\ (x' = true \/ e' = true \/ m_shutdown_needed (spm_t (spm s')) = true \/ period_seen s').
Proof.
  revert x e s. induction fuel as [|fuel IH]; intros x e s Cs; simpl; [done|]. intros E1.
  apply run_bind_inv in E1 as (rs & s0 & [= <- <-] & E1). apply run_bind_inv in E1 as (ts & s0 & [= <- <-] & E1).
  apply run_bind_inv in E1 as (r1 & s1 & E2 & E1). apply run_bind_inv in E1 as (r2 & s2 & E3 & E1).
  apply and_all_asked in E2 as [R1 F1]; [|intros; apply reads_on_processor, reads_canConsumePeriod].
  apply and_all_asked in E3 as [R2 F2]; [|intros; apply reads_on_processor, reads_canProducePeriod].
  apply run_bind_inv in E1 as ([] & s3 & E4 & E1). apply run_bind_inv in E1 as ([x1 e1] & s4 & E5 & E1).
  unfold check_processors in E5. apply run_bind_inv in E5 as (rs & s0 & [= <- <-] & E5).
  apply run_bind_inv in E5 as (ts & s0 & [= <- <-] & E5). apply check_all_asked in E5 as [R4 F4].
  apply run_bind_inv in E1 as ([] & s5 & E6 & E1). apply meanwhile_preempted in E6 as R5.
  apply run_bind_inv in E1 as (down & s0 & [= <- <-] & E1).
  assert (later s s3) as L3.
  { apply meanwhile_later in R1, R2. etrans; [exact R1|]. etrans; [exact R2|].
    destruct (negb (r1 && r2)); [by eapply sleep_later|by injection E4 as <-]. }
  assert (later s s5) as L5 by (apply meanwhile_later in R4, R5; etrans; [exact L3|]; by etrans).
  destruct (x1 || e1 || _) eqn:B.
  { injection E1 as <- <- <-. rewrite !orb_true_iff in B. tauto. }
  rewrite !orb_false_iff in B. destruct B as [[-> ->] _]. destruct (negb (r1 && r2)) eqn:Rd.
  { apply IH in E1 as [L E1]; [|by eapply calm_later]. split; [by etrans|done]. }
  apply negb_false_iff, andb_true_iff in Rd as [-> ->]. injection E4 as <-. injection E1 as <- <- <-.
  split; [done|]. do 3 right. rewrite (proj1 L3) in F4.
  apply (round_seen s s1 s2 s5); auto; [by etrans|]. intros p Hp. destruct (F4 eq_refl p Hp) as (s6 & A1 & A2 & A3).
  exists s6. split_and!; [done|done|by etrans].
Qed.

Lemma period_seen_meanwhile s s' : meanwhile s s' -> period_seen s -> period_seen s'.
Proof.
  intros R [A B]. pose proof (meanwhile_later _ _ R) as (Ll & Ls & _). unfold period_seen. rewrite Ll, Ls.
  split; intros p Hp; [destruct (A p Hp) as (s1 & o1 & R1 & G1)|destruct (B p Hp) as (s1 & o1 & R1 & G1)];
    exists s1, o1; (split; [by etrans|done]).
Qed.

(** The end of a wait that announces a period. *)
Lemma waitForPeriod_end s s' : calm_streams s -> waitForPeriod s = Some (true, s') ->
  m_shutdown_needed (spm_t (spm s')) = false ->
  period_seen s' /\ exists sync s1 o, m_SyncSource (spm_l (spm s)) = Some sync /\ meanwhile s1 s' /\ processors s1 !! sync = Some o
    /\ getTimeAtPeriod (object_at sync o s1) = Some (m_time_of_transfer (spm_t (spm s')), object_at sync o s1).
Proof.
  intros Cs E1 Hd. unfold waitForPeriod in E1. apply run_bind_inv in E1 as (sy & s0 & [= <- <-] & E1).
  destruct (m_SyncSource _) as [sync|] eqn:Es; [|done]. apply run_bind_inv in E1 as (down & s0 & [= <- <-] & E1).
  destruct (m_shutdown_needed (spm_t (spm s))); [done|]. apply run_bind_inv in E1 as (u0 & s0 & [= <- <-] & E1).
  apply run_bind_inv in E1 as ([] & s1 & E0 & E1).
  assert (calm_streams s1) as Cs1.
  { eapply calm_later; [|exact Cs]. unfold sleep_until_period in E0.
    apply run_bind_inv in E0 as (t0 & s2 & E2 & E0). apply on_processor_reads in E2 as (-> & _); [|apply reads_getTimeAtPeriod].
    apply run_bind_inv in E0 as (d0 & s2 & [= <- <-] & E0). apply run_bind_inv in E0 as (a0 & s2 & E2 & E0).
    unfold call_env in E2. destruct (getSystemTimeForCycleTimerTicks _ _ _) as [a e2]. injection E2 as <- <-.
    apply sleep_until_later in E0. etrans; [|exact E0]. by apply same_later. }
  apply run_bind_inv in E1 as ([x1 e1] & s2 & Ew & E1). cbv beta iota in E1.
  apply wait_ready_inv in Ew as [_ Ew]; [|done].
  apply run_bind_inv in E1 as ([] & s3 & E3 & E1). apply run_bind_inv in E1 as ([] & s3' & E3' & E1).
  apply run_bind_inv in E1 as (t & s4 & E4 & E1).
  apply on_processor_reads in E4 as (-> & o & Ho & Et); [|apply reads_getTimeAtPeriod].
  apply run_bind_inv in E1 as (u5 & s5 & [= <- <-] & E1). apply run_bind_inv in E1 as (u6 & s6 & [= <- <-] & E1).
  apply run_bind_inv in E1 as (a7 & s7 & E7 & E1). apply run_bind_inv in E1 as (a8 & s8 & E8 & E1).
  unfold call_env in E7, E8. simpl in E7, E8. destruct (getSystemTimeForCycleTimerTicks _ _ _) as [a e2]. injection E7 as <- <-.
  simpl in E8. destruct (getCurrentTime e2) as [a' e3]. injection E8 as <- <-.
  apply run_bind_inv in E1 as (u9 & s9 & [= <- <-] & E1). apply run_bind_inv in E1 as ([] & s10 & E10 & E1).
  apply run_bind_inv in E1 as (u11 & s11 & [= <- <-] & E1). injection E1 as Ex <-. destruct x1; [done|].
  destruct (preempted_later _ _ E10) as (_ & D10 & T10). destruct (preempted_later _ _ E3') as (_ & D3 & _). simpl in Hd, D10, T10.
  assert (meanwhile s3' s10) as R10.
  { eapply rtc_l; [right|by apply meanwhile_preempted]. done. }
  assert (meanwhile s2 s3') as R3.
  { eapply rtc_l; [right|by apply meanwhile_preempted]. by destruct e1; injection E3 as <-. }
  assert (m_shutdown_needed (spm_t (spm s3)) = false) as Hd3.
  { destruct (m_shutdown_needed (spm_t (spm s3))); [|done]. rewrite D10 in Hd; [done|by apply D3]. }
  destruct e1; [by injection E3 as <-|]. injection E3 as <-. split.
  - eapply (period_seen_meanwhile s10); [by apply meanwhile_same|]. eapply (period_seen_meanwhile s3'); [done|].
    eapply period_seen_meanwhile; [exact R3|]. destruct Ew as [|[|[|Ew]]]; [done|done|congruence|done].
  - exists sync, s3', o. split_and!; try done; [|by simpl; rewrite T10].
    etrans; [exact R10|]. by apply meanwhile_same.
Qed.

End announced.

(** ** Alignment *)

(** [n] tries after each other, none of which finds the streams aligned. *)
Fixpoint unaligned_tries (sync periods : Z) (n : nat) (s s' : system C E) : Prop :=
  match n with
  | O => s' = s
  | S n => exists s1, align_try sync periods s = Some (Some false, s1) /\ unaligned_tries sync periods n s1 s'
  end.

Lemma align_tries_after sync periods n k s s1 : unaligned_tries sync periods n s s1 ->
  align_tries sync periods (n + k) s = align_tries sync periods k s1.
Proof.
  revert s. induction n as [|n IH]; intros s; simpl; [by intros ->|]. intros (s2 & E1 & U).
  run_step with E1. by apply IH.
Qed.

(** The settings of an alignment: the number of tries and of periods per try. *)
Definition align_count (s : system C E) : nat :=
  Z.to_nat (u32 (default STREAMPROCESSORMANAGER_NB_ALIGN_TRIES (getValueForSetting "streaming.spm.align_tries" (env s)))).
Definition align_periods (s : system C E) : Z :=
  u32 (default STREAMPROCESSORMANAGER_ALIGN_AVERAGE_TIME_MSEC (getValueForSetting "streaming.spm.align_average_time_msec" (env s))
       * m_nominal_framerate (spm_s (spm s))) / 1000 / m_period (spm_s (spm s)).

Lemma alignReceivedStreams_tries sync s : m_SyncSource (spm_l (spm s)) = Some sync -> m_period (spm_s (spm s)) <> 0 ->
  alignReceivedStreams s = align_tries sync (align_periods s) (align_count s) s.
Proof.
  intros Es Hp. unfold alignReceivedStreams. do 5 run_step. rewrite (proj2 (Z.eqb_neq _ _) Hp), Es. done.
Qed.

(** The result of aligning the received streams: an xrun in a try gives false, and so does finding the streams aligned
    in the last try; finding them aligned earlier gives true, and so does the failure of all tries, after which
    the streams are not aligned.  (The loop tests [cnt--] and the code behind it compares [cnt] with 0,
    but [cnt] is -1 after the last try and 0 in it.) *)
Theorem align_outcome sync s n s1 : m_SyncSource (spm_l (spm s)) = Some sync -> m_period (spm_s (spm s)) <> 0 ->
  unaligned_tries sync (align_periods s) n s s1 ->
  (n = align_count s -> alignReceivedStreams s = Some (true, s1))
  /\ (forall s', (n < align_count s)%nat -> align_try sync (align_periods s) s1 = Some (Some true, s') ->
        alignReceivedStreams s = Some (negb (n + 1 =? align_count s)%nat, s'))
  /\ (forall s', (n < align_count s)%nat -> align_try sync (align_periods s) s1 = Some (None, s') ->
        alignReceivedStreams s = Some (false, s')).
Proof.
  intros Es Hp U. rewrite (alignReceivedStreams_tries sync) by done.
  assert (forall k, (n + k)%nat = align_count s ->
    align_tries sync (align_periods s) (align_count s) s = align_tries sync (align_periods s) k s1) as A.
  { intros k <-. by apply align_tries_after. }
  split_and!.
  - intros En. rewrite (A 0%nat) by lia. done.
  - intros s' Hn E1. rewrite (A (S (align_count s - S n))) by lia. simpl. run_step with E1.
    cbv beta iota. unfold mret, run_ret. do 3 f_equal. apply eq_bool_prop_intro. rewrite !Is_true_true, !Nat.eqb_eq. lia.
  - intros s' Hn E1. rewrite (A (S (align_count s - S n))) by lia. simpl. by run_step with E1.
Qed.

Lemma min_shift_le ds m : foldl (fun m d => if d <? m then d else m) m ds <= m
  /\ Forall (fun d => foldl (fun m d => if d <? m then d else m) m ds <= d) ds
  /\ (foldl (fun m d => if d <? m then d else m) m ds = m \/ foldl (fun m d => if d <? m then d else m) m ds ∈ ds).
Proof.
  revert m. induction ds as [|d ds IH]; intros m; simpl; [split_and!; [lia|done|by left]|].
  destruct (IH (if d <? m then d else m)) as (L & F & M). destruct (Z.ltb_spec d m).
  - split_and!; [lia|constructor; [lia|done]|]. right. destruct M as [->|]; [left|by right].
  - split_and!; [lia|constructor; [lia|done]|]. destruct M as [|]; [by left|right; by right].
Qed.

(** Streams are aligned by dropping frames only: no stream is shifted by a negative number of frames, which
    [shiftStream] would refuse, all streams have the same offset to the sync source afterwards, and a stream is
    left alone if its offset is the smallest and not above 9999 frames, the initial value of the minimum. *)
Theorem align_shifts (ds : list Z) i d n : Forall (fun d => - 2 ^ 30 <= d < 2 ^ 30) ds ->
  ds !! i = Some d -> frames_to_shift_stream ds !! i = Some n ->
  0 <= n /\ d - n = min_shift ds /\ ((forall d', d' ∈ ds -> d <= d') -> d <= 9999 -> n = 0).
Proof.
  intros F Ei. unfold frames_to_shift_stream. rewrite list_lookup_fmap, Ei. simpl. intros [= <-].
  destruct (min_shift_le ds 9999) as (L & Fm & M). fold (min_shift ds) in *. rewrite Forall_forall in *.
  pose proof (Fm d (list_elem_of_lookup_2 _ _ _ Ei)). pose proof (F d (list_elem_of_lookup_2 _ _ _ Ei)).
  assert (- 2 ^ 30 <= min_shift ds) by (destruct M as [->|M]; [lia|apply F in M; lia]).
  assert (i32 (d - min_shift ds) = d - min_shift ds) as -> by (by cint). split_and!; [lia|lia|].
  intros Hm Hd. destruct M as [M|M]; [lia|]. apply Hm in M. lia.
Qed.

(** ** Waiting for states *)

(** A wait that does not run out of rounds has seen the check succeed, one sleep before it returned. *)
Lemma wait_all_seen (check : Y bool) ready cnt s k s' : reads check -> wait_all check ready cnt s = Some (S k, s') ->
  ready = true \/ exists s1, check s1 = Some (true, s1) /\ SleepRelativeUsec 125 s1 = Some (tt, s').
Proof.
  intros Hc. revert ready s. induction cnt as [|cnt IH]; intros ready s; simpl; (destruct ready; [by left|]); [done|].
  intros E1. apply run_bind_inv in E1 as (r & s1 & Er & E1). apply run_bind_inv in E1 as ([] & s2 & Es & E1).
  pose proof (Hc _ _ _ Er) as ->. destruct r; [|destruct (IH _ _ E1); [done|by right]].
  right. exists s. split; [done|]. destruct cnt; simpl in E1; by injection E1 as _ <-.
Qed.

(** Every registered processor passes a check. *)
Definition all_registered (P : StreamProcessor -> Prop) (s : system C E) : Prop :=
  forall p, p ∈ m_ReceiveProcessors (spm_l (spm s)) ++ m_TransmitProcessors (spm_l (spm s)) ->
    exists o : object C, processors s !! p = Some o /\ P o.1.

Lemma wait_all_ready_seen check n s s' : (forall p, reads (check p)) -> wait_all_ready check n s = Some (true, s') ->
  exists s1, SleepRelativeUsec 125 s1 = Some (tt, s')
    /\ Forall (fun p => check p s1 = Some (true, s1)) (m_ReceiveProcessors (spm_l (spm s)) ++ m_TransmitProcessors (spm_l (spm s))).
Proof.
  intros Hc E1. unfold wait_all_ready in E1. apply run_bind_inv in E1 as (rs & s1 & [= <- <-] & E1).
  apply run_bind_inv in E1 as (ts & s1 & [= <- <-] & E1). apply run_bind_inv in E1 as (k & s1 & Ek & E1).
  injection E1 as Hk <-. destruct k as [|k]; [done|].
  apply wait_all_seen in Ek as [|(s2 & E2 & Es)]; [done| |by apply reads_and_all].
  exists s2. split; [done|]. by apply and_all_true in E2 as [_ F].
Qed.

(** *** The lists of the manager stay as they are *)

Definition keeps_lists {A} (m : Y A) : Prop := forall s a s', m s = Some (a, s') -> spm_l (spm s') = spm_l (spm s).

(** Methods of processors that leave the lists alone. *)
Definition lists_kept (s s' : sp_state C (spm_world E)) : Prop := spm_l (w_spm (world s')) = spm_l (w_spm (world s)).
#[local] Instance lists_kept_preorder : PreOrder lists_kept.
Proof. split; [done|]. intros s1 s2 s3 E1 E2. unfold lists_kept in *. congruence. Qed.

Lemma keeps_on_processor {A} p (m : M A) : steady lists_kept m -> keeps_lists (on_processor p m).
Proof.
  intros Hm s a s'. unfold on_processor. destruct (processors s !! p) as [[q c]|]; simpl; [|done].
  destruct (m _) as [[b st]|] eqn:Em; simpl; [|done]. intros [= <- <-]. by apply Hm in Em.
Qed.

Lemma keeps_bind {A B} (m : Y A) (k : A -> Y B) : keeps_lists m -> (forall a, keeps_lists (k a)) -> keeps_lists (m ≫= k).
Proof.
  intros Hm Hk s b s' E1. apply run_bind_inv in E1 as (a & s1 & Ea & E1). rewrite <- (Hm _ _ _ Ea). by eapply Hk.
Qed.
Lemma keeps_reads {A} (m : Y A) : reads m -> keeps_lists m.
Proof. by intros Hm s a s' ->%Hm. Qed.
Lemma keeps_until {X} (f : X -> Y bool) l : (forall x, keeps_lists (f x)) -> keeps_lists (until_failure f l).
Proof.
  intros Hf. induction l; simpl; [apply keeps_reads, reads_ret|]. apply keeps_bind; [done|]. intros [];
    [done|apply keeps_reads, reads_ret].
Qed.

Lemma kept_machine f : steady lists_kept (on_machine f : M unit).
Proof. by intros s a s' [= <- <-]. Qed.
Lemma kept_signal : steady lists_kept (SIGNAL_ACTIVITY_ALL : M unit).
Proof. by intros s a s' [= <- <-]. Qed.
Lemma kept_clock : steady lists_kept (call_world getCycleTimerTicks : M Z).
Proof.
  intros s a s'. unfold call_world. simpl. unfold world_env. destruct (env_getCycleTimerTicks _ _). by intros [= <- <-].
Qed.

Ltac kept := repeat first [apply kept_machine | apply kept_signal | apply kept_clock | apply steady_ret; apply _ | apply steady_gets; apply _
  | apply steady_bind; [apply _| |intros ?] | apply steady_if | match goal with |- steady _ (match ?x with _ => _ end) => destruct x end].

Lemma kept_scheduleStateTransition st t : steady lists_kept (scheduleStateTransition st t : M bool).
Proof. unfold scheduleStateTransition, set_cycle_to_switch_state, set_next_state. kept. Qed.
Lemma kept_stop t : steady lists_kept (scheduleStopRunning t : M bool) /\ steady lists_kept (scheduleStopDryRunning t : M bool).
Proof.
  unfold scheduleStopRunning, scheduleStopDryRunning, schedule_time, read_clock_for_debug.
  split; (apply steady_bind; [apply _|kept|intros ?]; apply steady_bind; [apply _|kept|intros ?]; apply kept_scheduleStateTransition).
Qed.

Lemma kept_startDry t : steady lists_kept (scheduleStartDryRunning t : M bool).
Proof.
  unfold scheduleStartDryRunning, schedule_time, read_clock_for_debug.
  do 3 (apply steady_bind; [apply _|kept|intros ?]). destruct a1; try (apply kept_scheduleStateTransition); try kept.
  intros s b s'. unfold call_world. simpl. unfold world_env. destruct (env_startHandlerForStream _ _ _). by intros [= <- <-].
Qed.

Lemma keeps_start_dry p : keeps_lists (start_dry p : Y bool).
Proof.
  unfold start_dry. apply keeps_bind; [apply keeps_reads, reads_has_state|]. intros []; [apply keeps_reads, reads_ret|].
  apply keeps_bind; [apply keeps_reads, reads_has_state|]. intros []; [apply keeps_reads, reads_ret|].
  apply keeps_on_processor, kept_startDry.
Qed.
Lemma keeps_stop_running p : keeps_lists (stop_running p : Y bool).
Proof.
  unfold stop_running. apply keeps_bind; [apply keeps_reads, reads_has_state|].
  intros []; [apply keeps_on_processor, kept_stop|apply keeps_reads, reads_ret].
Qed.
Lemma keeps_stop_dry p : keeps_lists (stop_dry p : Y bool).
Proof.
  unfold stop_dry. apply keeps_bind; [apply keeps_reads, reads_has_state|].
  intros []; [apply keeps_reads, reads_ret|apply keeps_on_processor, kept_stop].
Qed.

Lemma reads_is_off p : reads (is_off p : Y bool).
Proof. unfold is_off, isStopped, inError. reading; apply reads_has_state. Qed.
Lemma reads_is_quiescent p : reads (is_quiescent p : Y bool).
Proof. unfold is_quiescent, isDryRunning, isStopped, isWaitingForStream, inError. reading; apply reads_has_state. Qed.

Lemma has_state_true st p (s : system C E) b : has_state st p s = Some (b, s) ->
  exists o : object C, processors s !! p = Some o /\ b = bool_decide (m_state (machine o.1) = st).
Proof. intros E1. apply on_processor_reads in E1 as (_ & o & Ho & E1); [|apply reads_state]. injection E1 as <-. by exists o. Qed.

Lemma is_off_true p (s : system C E) : is_off p s = Some (true, s) ->
  exists o : object C, processors s !! p = Some o /\ m_state (machine o.1) ∈ [ePS_Stopped; ePS_Error].
Proof.
  intros E1. unfold is_off in E1. apply run_bind_inv in E1 as (a & s1 & Ea & E1). apply run_bind_inv in E1 as (b & s2 & Eb & E1).
  pose proof (reads_has_state _ _ _ _ _ Ea) as ->. pose proof (reads_has_state _ _ _ _ _ Eb) as ->. injection E1 as Hab.
  apply has_state_true in Ea as (o & Ho & ->). apply has_state_true in Eb as (o' & Ho' & ->).
  assert (o' = o) as -> by congruence. exists o. split; [done|]. rewrite orb_true_iff, !bool_decide_eq_true in Hab.
  destruct Hab as [Es|Es]; rewrite Es; [left|right; left].
Qed.

Section threads.
Hypothesis sleep_keeps : forall u, keeps_lists (SleepRelativeUsec u : Y unit).

Lemma keeps_wait_all (check : Y bool) ready cnt : reads check -> keeps_lists (wait_all check ready cnt).
Proof.
  intros Hc. revert ready. induction cnt; intros []; simpl; try (apply keeps_reads, reads_ret).
  apply keeps_bind; [by apply keeps_reads|]. intros r. by apply keeps_bind.
Qed.
Lemma keeps_wait_all_ready check n : (forall p, reads (check p)) -> keeps_lists (wait_all_ready check n).
Proof.
  intros Hc. unfold wait_all_ready. do 2 (apply keeps_bind; [apply keeps_reads, reads_gets|intros ?]).
  apply keeps_bind; [by apply keeps_wait_all, reads_and_all|]. intros ?. apply keeps_reads, reads_ret.
Qed.

(** C22. Stopping and starting reach all streams: when [stop] returns true, every registered processor was found stopped or
    in the error state after its last check, and when [startDryRunning] returns true, every registered processor was found
    dry-running, both one sleep before the return and whatever else the ISO threads do to the processors while the
    manager sleeps. *)
Theorem all_streams_reached s s' :
  (stop s = Some (true, s') -> exists s1, SleepRelativeUsec 125 s1 = Some (tt, s') /\ spm_l (spm s1) = spm_l (spm s)
     /\ all_registered (fun q => m_state (machine q) ∈ [ePS_Stopped; ePS_Error]) s1)
  /\ (SPM_startDryRunning s = Some (true, s') -> exists s1, SleepRelativeUsec 125 s1 = Some (tt, s')
     /\ spm_l (spm s1) = spm_l (spm s) /\ all_registered (fun q => m_state (machine q) = ePS_DryRunning) s1).
Proof.
  assert (forall s1 s2 : system C E, SleepRelativeUsec 125 s1 = Some (tt, s2) -> spm_l (spm s1) = spm_l (spm s2)) as K.
  { intros s1 s2 Ek. symmetry. by eapply sleep_keeps. }
  split; intros E1.
  - unfold stop in E1. apply run_bind_inv in E1 as (rs & s0 & [= <- <-] & E1). apply run_bind_inv in E1 as (ts & s0 & [= <- <-] & E1).
    apply run_bind_inv in E1 as (b1 & s1 & Eb1 & E1). destruct b1; [|done].
    apply run_bind_inv in E1 as (b2 & s2 & Eb2 & E1). destruct b2; [|done].
    apply run_bind_inv in E1 as (b3 & s3 & Eb3 & E1). destruct b3; [|done]. simpl in E1.
    pose proof (keeps_until _ _ keeps_stop_running _ _ _ Eb1) as K1. pose proof (keeps_wait_all_ready _ _ reads_is_quiescent _ _ _ Eb2) as K2.
    pose proof (keeps_until _ _ keeps_stop_dry _ _ _ Eb3) as K3. pose proof (keeps_wait_all_ready _ _ reads_is_off _ _ _ E1) as K4.
    apply wait_all_ready_seen in E1 as (s4 & Es & F); [|apply reads_is_off]. exists s4. pose proof (K _ _ Es).
    assert (spm_l (spm s4) = spm_l (spm s)) as El by congruence. split_and!; [done..|]. intros p Hp.
    rewrite Forall_forall in F. rewrite K3, K2, K1, <- El in F. by apply is_off_true, F.
  - unfold SPM_startDryRunning in E1. apply run_bind_inv in E1 as (ts & s0 & [= <- <-] & E1).
    apply run_bind_inv in E1 as (b1 & s1 & Eb1 & E1). destruct b1; [|done]. apply run_bind_inv in E1 as (rs & s2 & [= <- <-] & E1).
    apply run_bind_inv in E1 as (b2 & s2 & Eb2 & E1). destruct b2; [|done]. simpl in E1.
    pose proof (keeps_until _ _ keeps_start_dry _ _ _ Eb1) as K1. pose proof (keeps_until _ _ keeps_start_dry _ _ _ Eb2) as K2.
    pose proof (keeps_wait_all_ready _ _ (reads_has_state _) _ _ _ E1) as K3.
    apply wait_all_ready_seen in E1 as (s4 & Es & F); [|apply reads_has_state]. exists s4. pose proof (K _ _ Es).
    assert (spm_l (spm s4) = spm_l (spm s)) as El by congruence. split_and!; [done..|]. intros p Hp.
    rewrite Forall_forall in F. rewrite K2, K1, <- El in F. destruct (has_state_true _ _ _ _ (F p Hp)) as (o & Ho & Eo).
    exists o. symmetry in Eo. by apply bool_decide_eq_true in Eo.
Qed.
End threads.

(** ** Results of transfers *)

Lemma and_all_always (f : Z -> Y bool) l s b s' : (forall p s b s', f p s = Some (b, s') -> b = true) -> and_all f l s = Some (b, s') -> b = true.
Proof.
  intros Hf. revert s b. induction l as [|p l IH]; intros s b; simpl; [by intros [= <- _]|].
  intros E1. apply run_bind_inv in E1 as (x & s1 & Ex & E1). apply run_bind_inv in E1 as (y & s2 & Ey & E1).
  injection E1 as <- <-. by rewrite (Hf _ _ _ _ Ex), (IH _ _ Ey).
Qed.

Lemma on_processor_always p (m : M bool) s b s' : (forall s b s', m s = Some (b, s') -> b = true) ->
  on_processor p m s = Some (b, s') -> b = true.
Proof.
  intros Hm. unfold on_processor. destruct (processors s !! p) as [o|]; simpl; [|done].
  destruct (m _) as [[x st]|] eqn:Em; simpl; [|done]. intros [= <- _]. by eapply Hm.
Qed.

Lemma getFrames_true n ts s b s' : (getFrames n ts : M bool) s = Some (b, s') -> b = true.
Proof.
  intros E1. unfold getFrames in E1. apply run_bind_inv in E1 as (u & s1 & _ & E1). apply run_bind_inv in E1 as (st & s2 & _ & E1).
  apply run_bind_inv in E1 as (r & s3 & Er & E1). apply run_bind_inv in E1 as (v & s4 & _ & E1). injection E1 as <- _.
  case_decide.
  - unfold getFramesDry, provideSilenceBlock in Er. destruct (silence_ports _ _ _); simpl in Er; [|done].
    apply run_bind_inv in Er as (w & s5 & _ & Er). by injection Er as <- _.
  - unfold getFramesWet in Er. apply run_bind_inv in Er as (w & s5 & _ & Er). by injection Er as <- _.
Qed.

Lemma putFrames_true n ts s b s' : (putFrames n ts : M bool) s = Some (b, s') -> b = true.
Proof.
  intros E1. unfold putFrames in E1. apply run_bind_inv in E1 as (u & s1 & _ & E1). apply run_bind_inv in E1 as (st & s2 & _ & E1).
  apply run_bind_inv in E1 as (r & s3 & Er & E1). apply run_bind_inv in E1 as (v & s4 & _ & E1). injection E1 as <- _.
  case_decide; [by injection Er as <- _|]. unfold putFramesWet in Er. apply run_bind_inv in Er as (w & s5 & _ & Er). by injection Er as <- _.
Qed.

(** A transfer of a period never reports an xrun: whenever [transfer] for a type of processors returns, its result is true
    exactly if there is a sync source, whatever the buffers hold; the processors drop the results of their
    block transfers. *)
Theorem transfer_result t s b s' : transfer_type t s = Some (b, s') -> b = bool_decide (is_Some (m_SyncSource (spm_l (spm s)))).
Proof.
  intros E1. unfold transfer_type, transfer_with in E1. apply run_bind_inv in E1 as (sync & s1 & [= <- <-] & E1).
  destruct (m_SyncSource _) as [sync|]; [|by injection E1 as <- _]. rewrite bool_decide_true by done.
  apply run_bind_inv in E1 as (n & s1 & [= <- <-] & E1). destruct t.
  - apply run_bind_inv in E1 as (ts & s1 & [= <- <-] & E1). apply run_bind_inv in E1 as (rs & s1 & [= <- <-] & E1).
    eapply and_all_always; [|exact E1]. intros p s2 b2 s3. apply on_processor_always, getFrames_true.
  - apply run_bind_inv in E1 as (rate & s1 & _ & E1). apply run_bind_inv in E1 as (ps & s2 & [= <- <-] & E1).
    eapply and_all_always; [|exact E1]. intros p s2 b2 s3 E2. apply run_bind_inv in E2 as (ts & s4 & _ & E2).
    eapply on_processor_always, E2. apply putFrames_true.
Qed.

(** ** Loops that end *)

Lemma normalise_timespec_ends sec nsec : 0 <= nsec ->
  normalise_timespec (Z.to_nat (nsec / 1000000000)) sec nsec = Some (sec + nsec / 1000000000, nsec mod 1000000000).
Proof.
  intros Hn. remember (Z.to_nat (nsec / 1000000000)) as n eqn:En.
  assert (Z.of_nat n = nsec / 1000000000) as En' by (pose proof (Z.div_pos nsec 1000000000); lia). clear En.
  revert sec nsec Hn En'. induction n as [|n IH]; intros sec nsec Hn En; simpl; destruct (Z.ltb_spec nsec 1000000000); try zlia.
  - do 2 f_equal; zlia.
  - rewrite IH by zlia. do 2 f_equal; zlia.
Qed.

(** Waiting for activity ends, and its deadline is right: with a timeout that is not negative, the deadline given to
    [sem_timedwait] is the current time plus the timeout with less than a second of nanoseconds, for any timeout, and
    the call returns a result. *)
Theorem activity_deadline s sec nsec e : 0 <= m_activity_wait_timeout_nsec (spm_s (spm s)) ->
  clock_gettime (env s) = (Some (sec, nsec), e) -> 0 <= nsec < 1000000000 ->
  let t := nsec + m_activity_wait_timeout_nsec (spm_s (spm s)) in
  waitForActivity s
  = sem_wait_until (Some (sec + t / 1000000000, t mod 1000000000)) (mkSystem (C := C) (spm s) e (processors s))
  /\ exists r s', waitForActivity s = Some (r, s').
Proof.
  intros Ht Ec Hn t. assert (waitForActivity s
    = sem_wait_until (Some (sec + t / 1000000000, t mod 1000000000)) (mkSystem (C := C) (spm s) e (processors s))) as Es.
  { unfold waitForActivity. run_step. rewrite (proj2 (Z.leb_le _ _) Ht).
    unfold call_env. unfold mbind at 1, run_bind at 1. rewrite Ec. cbn -[normalise_timespec Z.div Z.modulo Z.to_nat].
    unfold mbind at 1, run_bind at 1. fold t. rewrite normalise_timespec_ends by (subst t; lia). done. }
  split; [done|]. rewrite Es. unfold sem_wait_until. run_step. destruct (0 <? _).
  - run_step. by eexists _, _.
  - unfold call_env, mbind, run_bind. simpl. destruct (sem_wait_blocked _ e). by eexists _, _.
Qed.

Lemma round_up_loop_ends rounds tmp frames packet : 0 < packet -> 0 <= tmp -> frames + packet < 2 ^ 31 -> tmp < frames + packet ->
  (packet | tmp) -> frames - tmp <= Z.of_nat rounds * packet ->
  exists n, round_up_loop rounds tmp frames packet = Some n /\ frames <= n < Z.max (frames + packet) (tmp + 1) /\ (packet | n).
Proof.
  intros Hp. revert tmp. induction rounds as [|rounds IH]; intros tmp Ht Hf Hl Hd Hr; simpl; destruct (Z.leb_spec frames tmp); try lia.
  - exists tmp. split_and!; try done; lia.
  - exists tmp. split_and!; try done; lia.
  - rewrite wrapS_small by lia. destruct (IH (tmp + packet)) as (n & En & Hn & Dn); try lia.
    { apply Z.divide_add_r; [done|apply Z.divide_refl]. }
    exists n. split_and!; try done; lia.
Qed.

(** The numbers of frames at the start are whole packets: the loop that rounds the prebuffer ends for every packet
    size, with the least multiple of the packet size that is not below the setting, and the start-up time
    is the least number of whole packets above the time that was asked for. *)
Theorem start_rounding frames packet cycles tpf :
  let k := i32 (Z_of_float (ddiv (d_of_Z (u32 (cycles * TICKS_PER_CYCLE))) (d_of_f tpf))) in
  0 < packet -> 0 <= frames -> frames + packet < 2 ^ 31 -> 0 <= k -> k + packet < 2 ^ 31 ->
  (exists n, prebuffer_frames frames packet = Some n /\ frames <= n < frames + packet /\ (packet | n))
  /\ k < time_for_startup_frames cycles tpf packet <= k + packet /\ (packet | time_for_startup_frames cycles tpf packet).
Proof.
  intros k Hp Hf Hs Hk Hks. split.
  - unfold prebuffer_frames. rewrite (proj2 (Z.eqb_neq packet 0)), Z.rem_mod_nonneg by lia.
    destruct (Z.eqb_spec (frames mod packet) 0) as [Em|Em].
    + exists frames. split_and!; try done; try lia. apply Z.mod_divide; lia.
    + destruct (round_up_loop_ends (Z.to_nat frames) 0 frames packet) as (n & En & Hn & Dn); try lia.
      { apply Z.divide_0_r. } { nia. }
      exists n. split_and!; try done; lia.
  - unfold time_for_startup_frames. fold k. rewrite Z.quot_div_nonneg by lia.
    pose proof (Z.div_mod k packet ltac:(lia)) as D. pose proof (Z.mod_pos_bound k packet Hp).
    rewrite wrapS_small by nia. split; [nia|]. apply Z.divide_factor_r.
Qed.
End manager.

(** ** The running system of StreamExample *)

(** The xrun flag of the processor at [p]. *)
Definition flag_xrun (p : Z) : run (system unit Z) unit := on_processor p (set_in_xrun true).

(** Surroundings in which nothing happens in the sleeps, and the ISO thread of the receive stream flags an xrun when it preempts
    the manager for the [n]-th time, counted in the clock. *)
Definition late_scheduler (n : Z) : Scheduler unit Z :=
  {| SleepRelativeUsec _ := mret (); SleepUsecAbsolute _ := mret ();
     preempted := t ← gets env;
       modify (fun s => mkSystem (spm s) (t + 1) (processors s)) ;; if t =? n then flag_xrun 100 else mret ();
     wait_fuel := 1%nat |}.

Lemma object_step_refl {C : Type} (o : object C) : object_step o o.
Proof. by split_and!. Qed.

Lemma flag_xrun_step (o : object unit) m : machine o.1 = m ->
  object_step o (mkSP (mkMachine (m_state m) (m_next_state m) (m_cycle_to_switch_state m) true) (times o.1) (settings o.1)
    (m_data_buffer o.1) (m_scratch_buffer o.1) (ports o.1), o.2).
Proof. intros <-. split; [done|]. split; [split; [done|by left]|]. by intros _ [X _]. Qed.

#[local] Instance late_threads n : IsoThreads (Scheduler0 := late_scheduler n).
Proof.
  assert (forall s : system unit Z, later s s) as Rf.
  { intros s. split; [done|]. split; [done|]. intros p o Ho. exists o. split; [done|apply object_step_refl]. }
  split; [|intros u s s' [= <-]; apply Rf|intros u s s' [= <-]; apply Rf].
  intros s s' E. simpl in E. apply run_bind_inv in E as (t & s0 & [= <- <-] & E).
  apply run_bind_inv in E as (u & s1 & [= _ <-] & E). destruct (_ =? _); [|injection E as <-; split; [|done]; exact (Rf s)].
  unfold flag_xrun, on_processor in E. simpl in E. destruct (processors s !! 100) as [o|] eqn:Eo; [|done].
  injection E as <-. split; [|done]. split; [done|]. split; [done|]. simpl. intros p q Hq.
  destruct (decide (p = 100)) as [->|N]; [|exists q; rewrite lookup_insert_ne by done; split; [done|apply object_step_refl]].
  rewrite Eo in Hq. injection Hq as <-. eexists. rewrite lookup_insert_eq. split; [done|]. by apply flag_xrun_step.
Qed.

(** The running system after a few cycles, with a period ready. *)
Definition example_ready : option (system unit Z) := '(_, s) ← example_started; '(_, s) ← bus_cycles 2 s; Some s.

Definition calm_view (s : system unit Z) : list (option (eProcessorState * eProcessorState)) :=
  (fun p => (fun o : object unit => (m_state (machine o.1), m_next_state (machine o.1))) <$> processors s !! p)
    <$> m_ReceiveProcessors (spm_l (spm s)) ++ m_TransmitProcessors (spm_l (spm s)).

(** The wait for the period, with an xrun flagged at the [n]-th preemption: its result, whether there is a request for a
    shutdown, and the xrun flags at the end. *)
Definition example_wait n : option (bool * bool * list (option bool)) :=
  s ← example_ready; '(w, s') ← waitForPeriod (Scheduler0 := late_scheduler n) s;
  Some (w, m_shutdown_needed (spm_t (spm s')),
        (fun p => (fun o : object unit => m_in_xrun (machine o.1)) <$> processors s' !! p) <$> [100; 200]).

(** An xrun before the check is seen; one after the check is not, and the period is announced. *)
Example example_late_xrun : example_wait 1238 = Some (false, false, [Some true; Some false])
  /\ example_wait 1244 = Some (true, false, [Some true; Some false])
  /\ example_wait 1300 = Some (true, false, [Some false; Some false]).
Proof. vm_compute. split_and!; reflexivity. Qed.

Lemma example_period : exists s s', example_ready = Some s
  /\ calm_streams s /\ waitForPeriod (Scheduler0 := late_scheduler 1244) s = Some (true, s')
  /\ m_shutdown_needed (spm_t (spm s')) = false /\ 100 ∈ m_ReceiveProcessors (spm_l (spm s')).
Proof.
  pose proof (proj1 (proj2 example_late_xrun)) as V. unfold example_wait in V.
  assert ((fun s => (calm_view s, (fun r => m_ReceiveProcessors (spm_l (spm r.2))) <$> waitForPeriod (Scheduler0 := late_scheduler 1244) s))
    <$> example_ready = Some ([Some (ePS_Running, ePS_Running); Some (ePS_Running, ePS_Running)], Some [100])) as Cv
    by (vm_compute; reflexivity).
  destruct example_ready as [s|]; [|done]. cbn [mbind option_bind fmap option_fmap option_map] in V, Cv.
  destruct (waitForPeriod s) as [[w s']|] eqn:Ew; [|done]. cbn in V, Cv. injection V as -> Hd _. injection Cv as Cv Hl.
  exists s, s'. split_and!; try done; [|by rewrite Hl; left].
  intros p [i Hi]%list_elem_of_lookup. assert (calm_view s !! i = Some ((fun o : object unit =>
    (m_state (machine o.1), m_next_state (machine o.1))) <$> processors s !! p)) as L.
  { unfold calm_view. rewrite list_lookup_fmap, Hi. done. }
  rewrite Cv in L. destruct (processors s !! p) as [o|].
  - exists o. split; [done|]. destruct i as [|[|i]]; [..|done]; injection L as L1 L2; unfold calm; by rewrite <- L1, <- L2.
  - by destruct i as [|[|i]].
Qed.


Lemma example_aligned : exists s s', example_started = Some (true, s) /\ m_SyncSource (spm_l (spm s)) = Some 100
  /\ m_period (spm_s (spm s)) <> 0 /\ align_count s = 3%nat /\ align_try 100 (align_periods s) s = Some (Some true, s').
Proof.
  assert ((fun r : bool * _ => (r.1, m_SyncSource (spm_l (spm r.2)), m_period (spm_s (spm r.2)), align_count r.2,
    fst <$> align_try 100 (align_periods r.2) r.2)) <$> example_started = Some (true, Some 100, 16, 3%nat, Some (Some true))) as V
    by (vm_compute; reflexivity).
  destruct example_started as [[b s]|]; [|done]. simpl in V. injection V as -> Hs Hp Ht.
  destruct (align_try _ _ s) as [[r s']|] eqn:Ea; [|done]. simpl in Ht. injection Ht as ->.
  exists s, s'. split_and!; try done. by rewrite Hp.
Qed.

Lemma align_outcome_witness : exists s s', example_started = Some (true, s) /\ alignReceivedStreams s = Some (true, s').
Proof.
  destruct example_aligned as (s & s' & Es & Hs & Hp & Hc & Ht). exists s, s'. split; [done|].
  destruct (align_outcome 100 s 0%nat s Hs Hp eq_refl) as (_ & A & _). rewrite (A s'); [by rewrite Hc|rewrite Hc; lia|done].
Defined.

Lemma align_shifts_witness : frames_to_shift_stream [0; 7; -3] = [3; 10; 0] /\ 7 - 10 = min_shift [0; 7; -3].
Proof.
  split; [reflexivity|]. apply (align_shifts [0; 7; -3] 1%nat 7 10); [|reflexivity|reflexivity].
  repeat (constructor; [lia|]). constructor.
Defined.

(** A system whose other threads do nothing. *)
Definition idle_scheduler : Scheduler unit Z :=
  {| SleepRelativeUsec _ := mret (); SleepUsecAbsolute _ := mret (); preempted := mret (); wait_fuel := 1%nat |}.

Lemma all_streams_reached_witness : exists s s' s1 : system unit Z, example_prepared = Some s /\ stop (Scheduler0 := idle_scheduler) s = Some (true, s')
  /\ all_registered (fun q => m_state (machine q) ∈ [ePS_Stopped; ePS_Error]) s1.
Proof.
  assert ((fun s => fst <$> stop (Scheduler0 := idle_scheduler) s) <$> example_prepared = Some (Some true)) as V by (vm_compute; reflexivity).
  destruct example_prepared as [s|]; [|done]. simpl in V. destruct (stop (Scheduler0 := idle_scheduler) s) as [[b s']|] eqn:Es; [|done].
  simpl in V. injection V as ->.
  destruct (proj1 (all_streams_reached (Scheduler0 := idle_scheduler) (fun _ => keeps_reads _ (reads_ret tt)) s s') Es) as (s1 & _ & _ & A).
  by exists s, s', s1.
Defined.

Lemma activity_deadline_witness :
  waitForActivity example_initial = sem_wait_until (Some (0, 125000000)) example_initial.
Proof.
  apply (proj1 (activity_deadline example_initial 0 125000000 1000 ltac:(vm_compute; congruence) eq_refl ltac:(lia))).
Defined.

Lemma start_rounding_witness : (exists n, prebuffer_frames 100 8 = Some n /\ 100 <= n < 108 /\ (8 | n))
  /\ time_for_startup_frames 200 (f_of_Z 512) 8 = 1208.
Proof.
  split; [|reflexivity].
  apply (start_rounding 100 8 200 (f_of_Z 512) ltac:(lia) ltac:(lia) ltac:(lia) ltac:(vm_compute; congruence) ltac:(vm_compute; reflexivity)).
Defined.

Lemma transfer_result_witness : exists s s', example_started = Some (true, s) /\ transfer_type ePT_Receive s = Some (true, s').
Proof.
  assert ((fun r : bool * _ => (r.1, m_SyncSource (spm_l (spm r.2)), fst <$> transfer_type ePT_Receive r.2)) <$> example_started
    = Some (true, Some 100, Some true)) as V by (vm_compute; reflexivity).
  destruct example_started as [[b s]|]; [|done]. simpl in V. injection V as -> Hs Ht.
  destruct (transfer_type ePT_Receive s) as [[r s']|] eqn:Et; [|done]. exists s, s'. split; [done|].
  pose proof (transfer_result _ _ _ _ Et) as R. rewrite Hs in R. by rewrite Et, R.
Defined.
