(* ===== verification/StreamRegistry.v ===== *)
(** * The registry of processors and ports

    The stream processor manager offers its client the ports of all processors by index, from lists of port addresses
    that it keeps beside the processors ("shadow lists").  Here: registering and unregistering processors
    and ports in any order keeps these lists equal to what the processors have. *)
From stdpp Require Import gmap relations.
From S2P Require Import Prelude CycleTimer RingBuffer Ieee754 TimestampedBuffer Ports StreamProcessor StreamManager StreamExample StreamPeriods.
#[local] Open Scope Z_scope.

Section registry.
Context {C E : Type} `{SPMEnv E} `{!SPChild C (spm_world E)} `{!Scheduler C E}.
Abbreviation Y := (run (system C E)).
Abbreviation objects := (gmap Z (object C)).

(** ** What the lists should be *)

Definition ports_in (dir : E_Direction) (o : object C) : list Z :=
  port_this <$> filter (fun q => m_Direction q = dir) (m_Ports (ports o.1)).
Definition ports_at (dir : E_Direction) (os : objects) (p : Z) : list Z := from_option (ports_in dir) [] (os !! p).
Definition shadow_of (dir : E_Direction) (os : objects) (ps : list Z) : list Z := ps ≫= ports_at dir os.

Record shadow_current (s : system C E) : Prop := {
  capture_current : m_CapturePorts_shadow (spm_l (spm s)) = shadow_of E_Capture (processors s) (m_ReceiveProcessors (spm_l (spm s)));
  playback_current : m_PlaybackPorts_shadow (spm_l (spm s)) = shadow_of E_Playback (processors s) (m_TransmitProcessors (spm_l (spm s)));
}.

(** How often a processor is registered, and how often it has the manager's update handler. *)
Definition occurs (x : Z) (l : list Z) : nat := length (filter (eq x) l).
Definition registrations (p : Z) (s : system C E) : nat :=
  (occurs p (list_for ePT_Receive (spm_l (spm s))) + occurs p (list_for ePT_Transmit (spm_l (spm s))))%nat.
Definition handlers (o : object C) : nat := occurs spm_functor (m_UpdateHandlers (ports o.1)).

(** Every registration of a processor has its update handler, and the lists hold processors of their type. *)
Record registry_ok (s : system C E) : Prop := {
  reg_handlers p : (registrations p s <= from_option handlers 0 (processors s !! p))%nat;
  reg_typed type p : p ∈ list_for type (spm_l (spm s)) ->
    exists o : object C, processors s !! p = Some o /\ m_processor_type (settings o.1) = type;
}.

Lemma occurs_app x l k : occurs x (l ++ k) = (occurs x l + occurs x k)%nat.
Proof. unfold occurs. by rewrite filter_app, length_app. Qed.
Lemma occurs_one x y : occurs x [y] = if decide (x = y) then 1%nat else 0%nat.
Proof. unfold occurs. rewrite filter_cons. by destruct (decide (x = y)). Qed.
Lemma occurs_self x : occurs x [x] = 1%nat.
Proof. by rewrite occurs_one, decide_True. Qed.
Lemma occurs_other x y : x <> y -> occurs x [y] = 0%nat.
Proof. intros N. by rewrite occurs_one, decide_False. Qed.
Lemma occurs_pos x l : (0 < occurs x l)%nat <-> x ∈ l.
Proof.
  unfold occurs. split.
  - destruct (filter (eq x) l) as [|y k] eqn:Ef; simpl; [lia|]. intros _.
    assert (y ∈ filter (eq x) l) as Hy by (rewrite Ef; left). by apply list_elem_of_filter in Hy as [-> ?].
  - intros Hx. assert (x ∈ filter (eq x) l) as Hy by (by apply list_elem_of_filter).
    destruct (filter (eq x) l); [by apply not_elem_of_nil in Hy|]. simpl. lia.
Qed.

(** *** The update *)

Lemma collect_ports dir ps (s : system C E) : (forall p, p ∈ ps -> is_Some (processors s !! p)) ->
  collect (ports_of dir) ps s = Some (ports_at dir (processors s) <$> ps, s).
Proof.
  induction ps as [|p ps IH]; intros Hp; simpl; [done|].
  destruct (Hp p (list_elem_of_here _ _)) as [[q c] Ho].
  assert (ports_of dir p s = Some (ports_at dir (processors s) p, s)) as E1.
  { unfold ports_of, on_processor, gets, ports_at. rewrite Ho. simpl. destruct s as [m e os]. simpl in *.
    by rewrite (insert_id os p (q, c)). }
  run_step with E1. rewrite (run_bind_Some _ _ s _ s) by (apply IH; intros; apply Hp; by right). done.
Qed.

Definition refreshed (s : system C E) : system C E :=
  let l := spm_l (spm s) in
  mkSystem (on_lists (fun l => mkLists (m_SyncSource l) (m_ReceiveProcessors l) (m_TransmitProcessors l)
    (shadow_of E_Capture (processors s) (m_ReceiveProcessors l))
    (shadow_of E_Playback (processors s) (m_TransmitProcessors l))) (spm s)) (env s) (processors s).

Lemma bind_concat {A B} (f : A -> list B) l : concat (f <$> l) = l ≫= f.
Proof. induction l as [|x l IH]; [done|]. rewrite fmap_cons, bind_cons. simpl. by rewrite IH. Qed.

Lemma updateShadowLists_refreshes s : registry_ok s ->
  updateShadowLists s = Some (tt, refreshed s).
Proof.
  intros [_ Ht]. unfold updateShadowLists. do 2 run_step.
  rewrite (run_bind_Some _ _ s _ s) by (apply collect_ports; intros p Hp; destruct (Ht ePT_Receive p Hp) as (o & -> & _); by exists o).
  rewrite (run_bind_Some _ _ s _ s) by (apply collect_ports; intros p Hp; destruct (Ht ePT_Transmit p Hp) as (o & -> & _); by exists o).
  unfold on_spm, modify. by rewrite !bind_concat.
Qed.

Lemma refreshed_ok s : registry_ok s -> registry_ok (refreshed s) /\ shadow_current (refreshed s).
Proof. intros [H1 H2]. by split; split. Qed.

(** *** Changes of the ports of a processor *)

Definition with_pm (m : PortManager) (o : object C) : object C :=
  (mkSP (machine o.1) (times o.1) (settings o.1) (m_data_buffer o.1) (m_scratch_buffer o.1) m, o.2).
Definition set_object (p : Z) (o : object C) (s : system C E) : system C E := mkSystem (spm s) (env s) (<[p := o]> (processors s)).

Lemma on_processor_ports {A} p (f : PortManager -> A * PortManager) (s : system C E) a s' :
  on_processor p (call_ports f) s = Some (a, s') ->
  exists o : object C, processors s !! p = Some o /\ a = (f (ports o.1)).1 /\ s' = set_object p (with_pm (f (ports o.1)).2 o) s.
Proof.
  unfold on_processor. destruct (processors s !! p) as [[q c]|] eqn:Ep; simpl; [|done]. unfold call_ports. simpl.
  destruct (f (ports q)) as [b m] eqn:Ef. simpl. intros [= <- <-]. exists (q, c). simpl. by rewrite Ef.
Qed.

(** A processor may get other ports as long as it has enough update handlers. *)
Lemma set_object_ok p o m s : registry_ok s -> processors s !! p = Some o ->
  (registrations p s <= handlers (with_pm m o))%nat -> registry_ok (set_object p (with_pm m o) s).
Proof.
  intros [Hh Ht] Ho Hn. unfold set_object. split; simpl.
  - intros q. unfold registrations in *. simpl in *. destruct (decide (q = p)) as [->|N].
    + by rewrite lookup_insert_eq.
    + rewrite lookup_insert_ne by done. apply Hh.
  - intros type q Hq. destruct (Ht type q Hq) as (o' & Ho' & Et). destruct (decide (q = p)) as [->|N].
    + rewrite lookup_insert_eq. exists (with_pm m o). split; [done|]. simpl. by assert (o' = o) as -> by congruence.
    + rewrite lookup_insert_ne by done. by exists o'.
Qed.

(** *** Registering and unregistering *)

Lemma list_for_push p type t m : list_for t (spm_l (push_processor p type m))
  = list_for t (spm_l m) ++ (if decide (t = type) then [p] else []).
Proof. by destruct type, t; simpl; rewrite ?app_nil_r. Qed.

(** A processor with one more handler may be registered once more. *)
Lemma push_ok p o o' e s : registry_ok s -> processors s !! p = Some o -> settings o'.1 = settings o.1 ->
  ports o'.1 = (addPortManagerUpdateHandler spm_functor (ports o.1)).2 ->
  registry_ok (mkSystem (push_processor p (m_processor_type (settings o.1)) (spm s)) e (<[p := o']> (processors s))).
Proof.
  intros [Hh Ht] Ho Eg Ep. split; cbn [processors spm env].
  - intros q. specialize (Hh q). unfold registrations in *. cbn -[list_for push_processor]. rewrite !list_for_push, !occurs_app.
    destruct (decide (q = p)) as [->|N].
    + rewrite lookup_insert_eq. rewrite Ho in Hh. simpl in Hh. cbn -[occurs list_for]. unfold handlers in *. rewrite Ep. cbn -[occurs list_for].
      rewrite occurs_app, (occurs_self spm_functor).
      do 2 case_decide; try congruence; rewrite ?occurs_self; change (occurs p []) with 0%nat; cbn [list_for]; lia.
    + rewrite lookup_insert_ne by done.
      do 2 case_decide; rewrite ?(occurs_other q p) by done; change (occurs q []) with 0%nat; lia.
  - intros type q. rewrite list_for_push, elem_of_app. intros Hq. destruct (decide (q = p)) as [->|N].
    + rewrite lookup_insert_eq. eexists. split; [done|]. rewrite Eg. destruct Hq as [Hq|Hq].
      * destruct (Ht type p Hq) as (o1 & Ho1 & <-). by assert (o1 = o) as -> by congruence.
      * case_decide; [done|]. by apply not_elem_of_nil in Hq.
    + rewrite lookup_insert_ne by done. destruct Hq as [Hq|Hq]; [by apply Ht|].
      case_decide; [by apply list_elem_of_singleton in Hq|by apply not_elem_of_nil in Hq].
Qed.

(** The end of a registration, from a state in which the processor is already in its list. *)
Lemma finish_ok p o o1 e s b s' : registry_ok s -> processors s !! p = Some o -> settings o1.1 = settings o.1 -> ports o1.1 = ports o.1 ->
  finish_registration p (mkSystem (push_processor p (m_processor_type (settings o.1)) (spm s)) e (<[p := o1]> (processors s))) = Some (b, s') ->
  registry_ok s' /\ shadow_current s'.
Proof.
  intros R Ho Eg Ep E1. unfold finish_registration in E1. apply run_bind_inv in E1 as (v & s3 & E3 & E1).
  apply on_processor_ports in E3 as (o2 & Ho2 & _ & ->). simpl in Ho2. rewrite lookup_insert_eq in Ho2. injection Ho2 as <-.
  unfold set_object in E1. cbn [processors spm env] in E1. rewrite insert_insert_eq in E1.
  assert (registry_ok (mkSystem (push_processor p (m_processor_type (settings o.1)) (spm s)) e
    (<[p := with_pm (addPortManagerUpdateHandler spm_functor (ports o1.1)).2 o1]> (processors s)))) as R1.
  { apply push_ok; [done|done|done|]. simpl. by rewrite Ep. }
  rewrite (run_bind_Some _ _ _ _ _ (updateShadowLists_refreshes _ R1)) in E1. injection E1 as _ <-. by apply refreshed_ok.
Qed.

Lemma register_ok p s b s' : registry_ok s -> SPM_registerProcessor p s = Some (b, s') -> registry_ok s' /\ shadow_current s'.
Proof.
  intros R E1. unfold SPM_registerProcessor in E1. apply run_bind_inv in E1 as (type & s1 & Et & E1).
  apply on_processor_reads in Et as (-> & o & Ho & [= <-]); [|apply reads_gets].
  apply run_bind_inv in E1 as (u & s2 & [= <- <-] & E1).
  eapply (finish_ok p o o (env s)); try done. by rewrite insert_id.
Qed.

Lemma init_ok p s b s' : registry_ok s -> shadow_current s -> init_processor p s = Some (b, s') -> registry_ok s' /\ shadow_current s'.
Proof.
  intros R Sh E1. unfold init_processor in E1. apply run_bind_inv in E1 as (ok & s1 & Ei & E1).
  unfold on_processor in Ei. destruct (processors s !! p) as [[q c]|] eqn:Ho; simpl in Ei; [|done].
  unfold init, call_world, mbind, run_bind in Ei. simpl in Ei. unfold world_env in Ei. simpl in Ei.
  destruct (env_registerStream p (env s)) as [[] e]; simpl in Ei; injection Ei as <- <-.
  - by eapply (finish_ok p (q, c)); try exact E1.
  - injection E1 as _ <-. rewrite insert_id by done. destruct R, Sh. by split; split.
Qed.

Lemma erase_first_occurs p l k : erase_first id p l = Some k -> forall q, occurs q l = (occurs q k + occurs q [p])%nat.
Proof.
  revert k. induction l as [|x l IH]; intros k; simpl; [done|]. destruct (Z.eqb_spec x p) as [->|N].
  - intros Ek q. injection Ek as <-. change (p :: l) with ([p] ++ l). rewrite occurs_app. lia.
  - destruct (erase_first id p l) as [k'|]; simpl; [|done]. intros [= <-] q.
    change (x :: l) with ([x] ++ l). change (x :: k') with ([x] ++ k'). rewrite !occurs_app, (IH k' eq_refl). lia.
Qed.

Lemma erase_first_elem p l k q : erase_first id p l = Some k -> q ∈ k -> q ∈ l.
Proof. intros Ek. rewrite <- !occurs_pos, (erase_first_occurs p l k Ek q). lia. Qed.

(** Removing a functor takes away one handler if there is one. *)
Lemma remove_functor_inv p (s : system C E) u s' : remove_functor p s = Some (u, s') ->
  exists (o : object C) m, processors s !! p = Some o /\ s' = set_object p (with_pm m o) s /\ m_Ports m = m_Ports (ports o.1)
    /\ (handlers o <= handlers (with_pm m o) + 1)%nat.
Proof.
  intros E1. unfold remove_functor in E1. apply run_bind_inv in E1 as (f & s1 & Ef & E1).
  apply on_processor_reads in Ef as (-> & o & Ho & [= <-]); [|apply reads_gets]. simpl in E1.
  unfold getUpdateHandlerForPtr in E1. destruct (decide _) as [Hf|Hf].
  - apply run_bind_inv in E1 as (b & s2 & Eb & E1). injection E1 as _ <-.
    apply on_processor_ports in Eb as (o' & Ho' & _ & ->). assert (o' = o) as -> by congruence.
    exists o, (remPortManagerUpdateHandler spm_functor (ports o.1)).2. split; [done|]. split; [done|].
    unfold remPortManagerUpdateHandler, handlers. destruct (erase_first id spm_functor _) as [hs|] eqn:Eh; simpl; [|split; [done|lia]].
    split; [done|]. rewrite (erase_first_occurs _ _ _ Eh), occurs_self. lia.
  - injection E1 as _ <-. exists o, (ports o.1). split; [done|]. split; [|split; [done|unfold handlers; simpl; lia]].
    unfold set_object, with_pm. destruct o as [[] c], s as [m e os]. simpl in *. by rewrite insert_id.
Qed.

Lemma list_for_with t type ps l : list_for t (with_list_for type ps l) = if decide (t = type) then ps else list_for t l.
Proof. by destruct type, t. Qed.

Lemma unregister_ok p s b s' : registry_ok s -> shadow_current s -> unregisterProcessor p s = Some (b, s') ->
  registry_ok s' /\ shadow_current s'.
Proof.
  intros R Sh E1. unfold unregisterProcessor in E1. apply run_bind_inv in E1 as (type & s1 & Et & E1).
  apply on_processor_reads in Et as (-> & o & Ho & [= <-]); [|apply reads_gets].
  apply run_bind_inv in E1 as (l & s2 & [= <- <-] & E1). simpl in E1.
  destruct (erase_first id p _) as [ps|] eqn:Ee; [|by injection E1 as _ <-].
  apply run_bind_inv in E1 as (u & s2 & E2 & E1).
  assert (exists m, s2 = mkSystem m (env s) (processors s) /\ forall t, list_for t (spm_l m) = list_for t (spm_l (spm s))) as (m & -> & Hm).
  { case_decide; injection E2 as _ <-; [|exists (spm s); split; [by destruct s|done]].
    eexists. split; [done|]. by intros []. }
  clear E2. apply run_bind_inv in E1 as (v & s3 & [= <- <-] & E1). apply run_bind_inv in E1 as (w & s4 & E4 & E1).
  apply remove_functor_inv in E4 as (o' & pm & Ho' & -> & _ & Hc). simpl in Ho'. assert (o' = o) as -> by congruence.
  destruct R as [Hh Ht]. set (s1 := mkSystem (on_lists (with_list_for (m_processor_type (settings o.1)) ps) m) (env s) (processors s)) in *.
  assert (forall t, list_for t (spm_l (spm s1)) = if decide (t = m_processor_type (settings o.1)) then ps else list_for t (spm_l (spm s))) as L.
  { intros t. subst s1. simpl. rewrite list_for_with. destruct (decide (t = _)); [done|apply Hm]. }
  assert (registry_ok s1) as R1.
  { split; simpl.
    - intros q. specialize (Hh q). unfold registrations in *. rewrite !L. pose proof (erase_first_occurs _ _ _ Ee q).
      clear L. destruct (m_processor_type _); do 2 case_decide; try congruence; cbn [list_for] in *; lia.
    - intros t q. rewrite L. case_decide; [|by apply Ht]. subst t. intros Hq. apply Ht. by eapply erase_first_elem. }
  assert (registrations p s1 <= handlers (with_pm pm o))%nat as Hn.
  { specialize (Hh p). rewrite Ho in Hh. simpl in Hh. unfold registrations in *. rewrite !L.
    pose proof (erase_first_occurs _ _ _ Ee p) as Eo. rewrite occurs_self in Eo.
    clear L. destruct (m_processor_type _); do 2 case_decide; try congruence; cbn [list_for] in *; lia. }
  pose proof (set_object_ok p o pm s1 R1 Ho Hn) as R2.
  rewrite (run_bind_Some _ _ _ _ _ (updateShadowLists_refreshes _ R2)) in E1. injection E1 as _ <-. by apply refreshed_ok.
Qed.

(** *** Ports come and go *)

(** A change of ports that calls the update handlers when it changes something. *)
Definition notifies (f : PortManager -> bool * PortManager) : Prop :=
  forall m, (f m).2 = m \/ exists ps, (f m).2 = callUpdateHandlers (with_ports ps m).

Lemma registerPort_notifies q : notifies (registerPort q).
Proof. intros m. unfold registerPort. destruct (makeNameUnique m q) as [[] r]; [right; by eexists|by left]. Qed.
Lemma unregisterPort_notifies a : notifies (unregisterPort a).
Proof. intros m. unfold unregisterPort. destruct (erase_first _ a _); [right; by eexists|by left]. Qed.

Lemma handlers_run (hs : list Z) s u s' : registry_ok s ->
  for_all (fun h => if decide (h = spm_functor) then updateShadowLists else mret ()) hs s = Some (u, s') ->
  registry_ok s' /\ (((spm_functor ∉ hs) /\ s' = s) \/ shadow_current s').
Proof.
  revert s. induction hs as [|h hs IH]; intros s R; simpl.
  - intros [= _ <-]. split; [done|left; split; [apply not_elem_of_nil|done]].
  - intros E1. apply run_bind_inv in E1 as (v & s1 & Eh & E1). case_decide as Dh.
    + rewrite (updateShadowLists_refreshes _ R) in Eh. injection Eh as _ <-. destruct (refreshed_ok _ R) as [R1 S1].
      destruct (IH _ R1 E1) as [R2 [[_ ->]|S2]]; (split; [done|by right]).
    + injection Eh as _ <-. destruct (IH _ R E1) as [R2 [[N ->]|S2]]; (split; [done|]); [left|by right].
      split; [|done]. rewrite not_elem_of_cons. by split.
Qed.

Lemma shadow_of_insert dir os p o ps : p ∉ ps -> shadow_of dir (<[p := o]> os) ps = shadow_of dir os ps.
Proof.
  induction ps as [|q ps IH]; [done|]. rewrite not_elem_of_cons. intros [N1 N2]. unfold shadow_of in *. rewrite !bind_cons, IH by done.
  f_equal. unfold ports_at. by rewrite lookup_insert_ne.
Qed.

Lemma set_object_current p o s : shadow_current s -> registrations p s = 0%nat -> shadow_current (set_object p o s).
Proof.
  intros [Sc Sp] N. assert (forall t, p ∉ list_for t (spm_l (spm s))) as Np.
  { intros t. rewrite <- occurs_pos. unfold registrations in N. destruct t; lia. }
  split; simpl; rewrite shadow_of_insert; try done; [apply (Np ePT_Receive)|apply (Np ePT_Transmit)].
Qed.

Lemma set_object_id p o s : processors s !! p = Some o -> set_object p (with_pm (ports o.1) o) s = s.
Proof. intros Ho. unfold set_object, with_pm. destruct o as [[] c], s as [m e os]. simpl in *. by rewrite insert_id. Qed.

Lemma change_ports_ok p f s b s' : notifies f -> registry_ok s -> shadow_current s -> change_ports p f s = Some (b, s') ->
  registry_ok s' /\ shadow_current s'.
Proof.
  intros Hf R Sh E1. unfold change_ports in E1. apply run_bind_inv in E1 as ([ok called] & s1 & Ec & E1).
  unfold on_processor in Ec. destruct (processors s !! p) as [[q c]|] eqn:Ho; simpl in Ec; [|done].
  unfold call_ports, mbind, run_bind in Ec. simpl in Ec. destruct (f (ports q)) as [b1 m] eqn:Ef. simpl in Ec. injection Ec as <- <- <-.
  apply run_bind_inv in E1 as (u & s2 & Eu & E1). injection E1 as _ <-.
  change (mkSystem (spm s) (env s) _) with (set_object p (with_pm m (q, c)) s) in Eu.
  destruct (Hf (ports q)) as [Em|[ps Em]]; rewrite Ef in Em; simpl in Em; subst m.
  - rewrite drop_all in Eu. injection Eu as _ <-. by rewrite (set_object_id p (q, c)).
  - simpl in Eu. rewrite drop_app_length in Eu.
    assert (registry_ok (set_object p (with_pm (callUpdateHandlers (with_ports ps (ports q))) (q, c)) s)) as R1.
    { apply set_object_ok; [done|done|]. destruct R as [Hh _]. specialize (Hh p). by rewrite Ho in Hh. }
    destruct (handlers_run _ _ _ _ R1 Eu) as [R2 [[N ->]|S2]]; (split; [done|]); [|done].
    apply set_object_current; [done|]. destruct R as [Hh _]. specialize (Hh p). rewrite Ho in Hh. simpl in Hh. unfold handlers in Hh.
    simpl in Hh. destruct (decide (0 < occurs spm_functor (m_UpdateHandlers (ports q)))%nat) as [L|]; [|lia].
    by apply occurs_pos in L.
Qed.

(** ** Histories *)

(** The operations on the registry, by devices and by the client, in any order. *)
Inductive registry_step (s s' : system C E) : Prop :=
  | step_init p b : init_processor p s = Some (b, s') -> registry_step s s'
  | step_register p b : SPM_registerProcessor p s = Some (b, s') -> registry_step s s'
  | step_unregister p b : unregisterProcessor p s = Some (b, s') -> registry_step s s'
  | step_add_port p q b : change_ports p (registerPort q) s = Some (b, s') -> registry_step s s'
  | step_remove_port p a b : change_ports p (unregisterPort a) s = Some (b, s') -> registry_step s s'.

Lemma registry_step_ok s s' : registry_step s s' -> registry_ok s -> shadow_current s -> registry_ok s' /\ shadow_current s'.
Proof.
  intros [p b E1|p b E1|p b E1|p q b E1|p a b E1] R Sh; eauto using init_ok, register_ok, unregister_ok, change_ports_ok, registerPort_notifies,
    unregisterPort_notifies.
Qed.

(** The ports that the client can ask for in a direction. *)
Definition offered (dir : E_Direction) (s : system C E) : list Z :=
  shadow_of dir (processors s) (match dir with E_Capture => m_ReceiveProcessors (spm_l (spm s))
                                | E_Playback => m_TransmitProcessors (spm_l (spm s)) end).

(** C6. The client sees the ports that exist: after any history of initialising, registering and unregistering processors, also the same
    one several times, and of adding and removing ports on any of them, registered or not, [getPortByIndex]
    enumerates exactly the capture ports of the registered receive processors and the playback ports of the registered
    transmit processors, in order, and every processor in the lists exists and has the type of its list. *)
Theorem registry_current s0 s dir idx : spm_l (spm s0) = mkLists None [] [] [] [] -> rtc registry_step s0 s ->
  0 <= idx < zlength (offered dir s) ->
  (exists a, getPortByIndex idx dir s = Some (Some a, s) /\ offered dir s !! Z.to_nat idx = Some a)
  /\ forall type p, p ∈ list_for type (spm_l (spm s)) ->
       exists o : object C, processors s !! p = Some o /\ m_processor_type (settings o.1) = type.
Proof.
  intros El Rt Hi. assert (registry_ok s /\ shadow_current s) as [[_ Ht] [Sc Sp]].
  { assert (registry_ok s0 /\ shadow_current s0) as [R0 S0].
    { split; split; unfold registrations; rewrite El; simpl; try done; [intros; unfold occurs; simpl; lia|intros []; simpl; intros p Hp; by apply not_elem_of_nil in Hp]. }
    clear Hi El. induction Rt as [|s1 s2 s3 St Rt IH]; [done|]. destruct (registry_step_ok _ _ St R0 S0). by apply IH. }
  split; [|done]. unfold getPortByIndex, offered in *.
  assert (forall l : list Z, 0 <= idx < zlength l -> exists a, (if env_debug_build && (zlength l <=? idx) then mret None else
    if idx <? 0 then undefined else match l !! Z.to_nat idx with Some p => mret (Some p) | None => undefined end) s = Some (Some a, s)
    /\ l !! Z.to_nat idx = Some a) as G.
  { intros l Hl. rewrite (proj2 (Z.leb_gt _ _)), (proj2 (Z.ltb_ge idx 0)), andb_false_r by lia.
    destruct (lookup_lt_is_Some_2 l (Z.to_nat idx)) as [a Ea]; [unfold zlength in Hl; lia|]. exists a. by rewrite Ea. }
  run_step. destruct dir; rewrite ?Sc, ?Sp; by apply G.
Qed.
End registry.

(** ** The system of StreamExample *)

Definition example_port (a : Z) (name : string) (dir : E_Direction) : Port := mkPort a name true 0 E_Audio dir None E_Created.

Lemma example_registry : exists s, rtc registry_step example_initial s /\ offered E_Capture s = [11; 12].
Proof.
  assert (('(_, s) ← init_processor 100 example_initial; '(_, s) ← change_ports 100 (registerPort (example_port 11 "in" E_Capture)) s;
    '(_, s) ← change_ports 100 (registerPort (example_port 12 "in" E_Capture)) s; Some (offered E_Capture s)) = Some [11; 12]) as V
    by (vm_compute; reflexivity).
  destruct (init_processor 100 example_initial) as [[b1 s1]|] eqn:E1; [|done]. simpl in V.
  destruct (change_ports 100 (registerPort (example_port 11 "in" E_Capture)) s1) as [[b2 s2]|] eqn:E2; [|done]. simpl in V.
  destruct (change_ports 100 (registerPort (example_port 12 "in" E_Capture)) s2) as [[b3 s3]|] eqn:E3; [|done]. simpl in V.
  exists s3. split; [|by injection V].
  eapply rtc_l; [by eapply step_init|]. eapply rtc_l; [by eapply step_add_port|]. eapply rtc_l; [by eapply step_add_port|]. done.
Qed.

Lemma registry_current_witness : exists s, rtc registry_step example_initial s
  /\ exists a, getPortByIndex 1 E_Capture s = Some (Some a, s) /\ offered E_Capture s !! 1%nat = Some a.
Proof.
  destruct example_registry as (s & R & O). exists s. split; [done|].
  destruct (registry_current example_initial s E_Capture 1 eq_refl R ltac:(rewrite O; vm_compute; split; congruence)) as [A _]. exact A.
Defined.
