(* ===== verification/IsoHandlers.v ===== *)
(** * Isochronous handlers

    Model of [src/libieee1394/IsoHandlerManager.cpp], class [IsoHandler]: one handler moves the packets of one
    stream between libraw1394 and its client, the stream processor.  A handler is an object of the store
    [handlers] of the manager, at an address; its methods are programs on the whole
    [iso_system], because a client that is called from a handler calls the manager back (it
    signals activity and requests that its handler be stopped).

    The class [Raw1394] is what the handlers use of libraw1394.  A call that makes the library call back for packets
    ([raw1394_loop_iterate], and the two start functions) is a sequence of events that the library
    produces, each of which is answered; [serve_fuel] bounds their number.
    The class [IsoClient] has the methods of the stream processor that handlers call.
    [None] is a failed [assert], a dangling or null pointer, or the exhausted bound.

    The mutex [m_disable_lock] makes threads that disable the same handler run after one another:
    [IsoHandler_disable] runs from the moment it has the lock, and its argument tells whether it had to wait.
    Left out: debug output and the counters that it prints ([m_dropped], [m_skipped], [m_min_ahead]),
    and the check of the reconstructed time, which only prints. *)
From stdpp Require Import gmap.
From S2P Require Import Prelude CycleTimer StreamProcessor StreamManager.
#[local] Open Scope Z_scope.

(** ** Data *)

Inductive EHandlerType := eHT_Receive | eHT_Transmit.
Inductive EHandlerStates := eHS_Stopped | eHS_Running.
Inductive eHandlerStates := E_Created | E_Running | E_Error.
(** From raw1394.h. *)
Inductive raw1394_iso_dma_recv_mode := RAW1394_DMA_PACKET_PER_BUFFER | RAW1394_DMA_BUFFERFILL.
Inductive raw1394_iso_speed := RAW1394_ISO_SPEED_100 | RAW1394_ISO_SPEED_200 | RAW1394_ISO_SPEED_400.

#[export] Instance EHandlerType_eq_dec : EqDecision EHandlerType.
Proof. solve_decision. Defined.
#[export] Instance EHandlerStates_eq_dec : EqDecision EHandlerStates.
Proof. solve_decision. Defined.
#[export] Instance eHandlerStates_eq_dec : EqDecision eHandlerStates.
Proof. solve_decision. Defined.

(** The members of a handler, in groups: the parameters of the DMA context, the packets, and
    the life cycle.  A handle of libraw1394 and a client are addresses, [NULL] is [None]. *)
Record iso_config := mkIsoConfig {
  m_type : EHandlerType;
  m_buf_packets : Z;
  m_max_packet_size : Z;
  m_irq_interval : Z;
  m_receive_mode : raw1394_iso_dma_recv_mode;
  m_speed : raw1394_iso_speed;
}.

Record iso_progress := mkProgress {
  m_last_cycle : Z;
  m_last_now : Z;
  m_last_packet_handled_at : Z;
  m_packets : Z;
  m_deferred_cycles : Z;
}.

Record iso_life := mkLife {
  m_handle : option Z;
  m_Client : option Z;
  m_State : EHandlerStates;
  m_NextState : EHandlerStates;
  m_switch_on_cycle : Z;
}.

Record IsoHandler := mkHandler { conf : iso_config; prog : iso_progress; life : iso_life }.

(** [m_packets] is initialised in debug builds only and [m_deferred_cycles] by the last
    constructor only: [junk]. *)
Definition new_handler (junk : nat -> Z) (debug : bool) (deferred : Z) (c : iso_config) : IsoHandler :=
  mkHandler c (mkProgress (-1) 0xFFFFFFFF 0xFFFFFFFF (if debug then 0 else junk 0%nat) deferred)
    (mkLife None None eHS_Stopped eHS_Stopped 0).

Definition IsoHandler_new_default (junk : nat -> Z) (debug : bool) (t : EHandlerType) : IsoHandler :=
  new_handler junk debug (junk 1%nat) (mkIsoConfig t 400 1024 (-1) RAW1394_DMA_PACKET_PER_BUFFER RAW1394_ISO_SPEED_400).
Definition IsoHandler_new (junk : nat -> Z) (debug : bool) (t : EHandlerType) (buf_packets max_packet_size irq : Z) : IsoHandler :=
  new_handler junk debug (junk 1%nat)
    (mkIsoConfig t buf_packets max_packet_size irq RAW1394_DMA_PACKET_PER_BUFFER RAW1394_ISO_SPEED_400).
Definition IsoHandler_new_speed (junk : nat -> Z) (debug : bool) (t : EHandlerType) (buf_packets max_packet_size irq : Z)
    (speed : raw1394_iso_speed) : IsoHandler :=
  new_handler junk debug 0 (mkIsoConfig t buf_packets max_packet_size irq RAW1394_DMA_PACKET_PER_BUFFER speed).

Definition isEnabled (h : IsoHandler) : bool := bool_decide (m_State (life h) = eHS_Running).
Definition inUse (h : IsoHandler) : bool := bool_decide (m_Client (life h) <> None).
Definition isStreamRegistered (s : Z) (h : IsoHandler) : bool := bool_decide (m_Client (life h) = Some s).
Definition setReceiveMode (m : raw1394_iso_dma_recv_mode) (h : IsoHandler) : IsoHandler :=
  let c := conf h in
  mkHandler (mkIsoConfig (m_type c) (m_buf_packets c) (m_max_packet_size c) (m_irq_interval c) m (m_speed c)) (prog h) (life h).

Definition on_life (f : iso_life -> iso_life) (h : IsoHandler) : IsoHandler := mkHandler (conf h) (prog h) (f (life h)).
Definition on_progress (f : iso_progress -> iso_progress) (h : IsoHandler) : IsoHandler := mkHandler (conf h) (f (prog h)) (life h).
Definition set_handle (x : option Z) : IsoHandler -> IsoHandler :=
  on_life (fun l => mkLife x (m_Client l) (m_State l) (m_NextState l) (m_switch_on_cycle l)).
Definition set_client (x : option Z) : IsoHandler -> IsoHandler :=
  on_life (fun l => mkLife (m_handle l) x (m_State l) (m_NextState l) (m_switch_on_cycle l)).
Definition set_states (x y : EHandlerStates) : IsoHandler -> IsoHandler :=
  on_life (fun l => mkLife (m_handle l) (m_Client l) x y (m_switch_on_cycle l)).
Definition set_next (y : EHandlerStates) : IsoHandler -> IsoHandler :=
  on_life (fun l => mkLife (m_handle l) (m_Client l) (m_State l) y (m_switch_on_cycle l)).
Definition setIsoStartCycle (c : Z) : IsoHandler -> IsoHandler :=
  on_life (fun l => mkLife (m_handle l) (m_Client l) (m_State l) (m_NextState l) c).
Definition set_last_now (x : Z) : IsoHandler -> IsoHandler :=
  on_progress (fun p => mkProgress (m_last_cycle p) x (m_last_packet_handled_at p) (m_packets p) (m_deferred_cycles p)).
Definition set_last_packet_handled_at (x : Z) : IsoHandler -> IsoHandler :=
  on_progress (fun p => mkProgress (m_last_cycle p) (m_last_now p) x (m_packets p) (m_deferred_cycles p)).
(** The housekeeping data that [enable] resets. *)
Definition reset_progress : IsoHandler -> IsoHandler :=
  on_progress (fun p => mkProgress (-1) 0xFFFFFFFF 0xFFFFFFFF 0 (m_deferred_cycles p)).

(** A client is attached once; the second attempt fails. *)
Definition IsoHandler_registerStream (s : Z) (h : IsoHandler) : bool * IsoHandler :=
  if inUse h then (false, h) else (true, set_client (Some s) h).
Definition IsoHandler_unregisterStream (s : Z) (h : IsoHandler) : bool * IsoHandler :=
  if isStreamRegistered s h then (true, set_client None h) else (false, h).

Definition requestEnable (cycle : Z) (h : IsoHandler) : bool * IsoHandler :=
  match m_State (life h) with
  | eHS_Running => (false, h)
  | eHS_Stopped => (true, set_next eHS_Running h)
  end.
(** A stopped handler is left alone. *)
Definition requestDisable (h : IsoHandler) : bool * IsoHandler :=
  match m_State (life h) with
  | eHS_Stopped => (true, h)
  | eHS_Running => (true, set_next eHS_Stopped h)
  end.

(** ** Tasks and the manager *)

Definition ISOHANDLERMANAGER_MAX_ISO_HANDLERS_PER_PORT : nat := 16.
Definition ISOHANDLERMANAGER_ISO_TASK_WAIT_TIMEOUT_USECS : Z := 1000000.
Definition POLLIN : Z := 1.
Definition POLLPRI : Z := 2.

Record pollfd := mkPollfd { fd : Z; events : Z; revents : Z }.

(** A task serves the handlers of one direction from arrays that shadow the lists of the manager. *)
Record IsoTask := mkTask {
  request_update : Z;
  m_poll_fds_shadow : list pollfd;
  m_IsoHandler_map_shadow : list (option Z);
  m_poll_nfds_shadow : nat;
  m_SyncIsoHandler : option Z;
  m_last_loop_entry : Z;
  m_successive_short_loops : Z;
  m_handlerType : EHandlerType;
  m_running : bool;
  m_in_busreset : bool;
  task_semaphore : Z;
  task_wait_timeout_nsec : Z;
}.

(** A thread of class [Util::Thread]: realtime or not, its priority, and whether it has been started. *)
Record iso_thread := mkThread { t_realtime : bool; t_priority : Z; t_started : bool }.

Record IsoHandlerManager := mkIHM {
  ihm_State : eHandlerStates;
  m_IsoHandlers : list Z;
  handlers : gmap Z IsoHandler;
  m_StreamProcessors : list Z;
  m_realtime : bool;
  m_priority : Z;
  m_IsoThreadTransmit : option iso_thread;
  m_IsoTaskTransmit : option IsoTask;
  m_IsoThreadReceive : option iso_thread;
  m_IsoTaskReceive : option IsoTask;
  m_MissedCyclesOK : bool;
}.

Record iso_system (K : Type) := mkIso { ihm : IsoHandlerManager; ext : K }.
Arguments mkIso {K}.
Arguments ihm {K}.
Arguments ext {K}.

(** ** What is around *)

(** The calls of libraw1394 that make it call back, and the events of such a call: a packet that was received, a
    packet that is to be sent, the end of the call with its result. *)
Inductive raw_call := raw1394_loop_iterate | raw1394_iso_recv_start (cycle : Z) | raw1394_iso_xmit_start (cycle : Z).
Inductive raw_event :=
  | PacketReceived (data : list Z) (length channel tag sy cycle dropped : Z)
  | PacketRequested (p : packet) (cycle dropped : Z)
  | CallDone (result : Z).

Class Raw1394 (K : Type) := {
  raw1394_new_handle_on_port : st K (option Z);
  raw1394_iso_recv_init : Z -> iso_config -> Z -> st K Z;
  raw1394_iso_xmit_init : Z -> iso_config -> Z -> st K Z;
  raw1394_next_event : raw_call -> Z -> st K raw_event;
  raw1394_answer : Z -> raw1394_iso_disposition -> option packet -> K -> K;
  serve_fuel : nat;
  raw1394_wake_up : Z -> K -> K;
  raw1394_iso_stop : Z -> K -> K;
  raw1394_iso_shutdown : Z -> K -> K;
  raw1394_destroy_handle : Z -> K -> K;
  (** the read of the local cycle time register after a bus reset; the handle may be [NULL] *)
  raw1394_read_cycle_time : option Z -> K -> K;
  raw1394_get_fd : Z -> K -> Z;
}.

(** The stream processors: their addresses are the clients of the handlers. *)
Class IsoClient (K : Type) := {
  client_getType : Z -> K -> eProcessorType;
  client_getPacketsPerPeriod : Z -> K -> Z;
  client_getMaxPacketSize : Z -> K -> Z;
  client_getChannel : Z -> K -> Z;
  client_canProducePacket : Z -> run (iso_system K) bool;
  client_canConsumePacket : Z -> run (iso_system K) bool;
  client_putPacket : Z -> list Z -> Z -> Z -> Z -> Z -> Z -> Z -> run (iso_system K) raw1394_iso_disposition;
  client_getPacket : Z -> packet -> Z -> Z -> Z -> Z -> run (iso_system K) (raw1394_iso_disposition * packet);
  client_handleBusReset : Z -> run (iso_system K) bool;
  client_handlerDied : Z -> run (iso_system K) unit;
  client_packetsStopped : Z -> run (iso_system K) unit;
}.

Section handler.
Context {K : Type} `{Raw1394 K} `{IsoClient K}.

Abbreviation I := (run (iso_system K)).

Definition on_ihm (f : IsoHandlerManager -> IsoHandlerManager) : I unit := modify (fun s => mkIso (f (ihm s)) (ext s)).
Definition on_ext (f : K -> K) : I unit := modify (fun s => mkIso (ihm s) (f (ext s))).
Definition call_ext {A} (f : st K A) : I A := fun s => let '(a, k) := f (ext s) in Some (a, mkIso (ihm s) k).

Definition set_handlers (f : gmap Z IsoHandler -> gmap Z IsoHandler) : I unit :=
  on_ihm (fun m => mkIHM (ihm_State m) (m_IsoHandlers m) (f (handlers m)) (m_StreamProcessors m) (m_realtime m) (m_priority m)
    (m_IsoThreadTransmit m) (m_IsoTaskTransmit m) (m_IsoThreadReceive m) (m_IsoTaskReceive m) (m_MissedCyclesOK m)).

(** The object at an address. *)
Definition the_handler (h : Z) : I IsoHandler := fun s => x ← handlers (ihm s) !! h; Some (x, s).
Definition store_handler (h : Z) (x : IsoHandler) : I unit := set_handlers <[h := x]>.
Definition on_handler (h : Z) (f : IsoHandler -> IsoHandler) : I unit := x ← the_handler h; store_handler h (f x).
Definition call_handler {A} (h : Z) (f : IsoHandler -> A * IsoHandler) : I A :=
  x ← the_handler h; store_handler h (f x).2 ;; mret (f x).1.
Definition crash {A} : I A := fun _ => None.
(** A pointer that is followed. *)
Definition deref {A} (x : option A) : I A := fun s => x ← x; Some (x, s).

Definition handle_of (h : Z) : I Z := x ← the_handler h; deref (m_handle (life x)).
Definition client_of (h : Z) : I Z := x ← the_handler h; deref (m_Client (life x)).

Definition canIterateClient (h : Z) : I bool :=
  x ← the_handler h;
  if negb (isEnabled x) then mret false else
  match m_Client (life x) with
  | None => mret false
  | Some c => match m_type (conf x) with
              | eHT_Receive => client_canProducePacket c
              | eHT_Transmit => client_canConsumePacket c
              end
  end.

(** ** Packets *)

(** The time of the packet of a cycle near the time [last_now] of the iteration. *)
Definition packet_time (last_now cycle : Z) : Z :=
  let now_cycles := u32 (CYCLE_TIMER_GET_CYCLES last_now) in
  let diff_cycles := diffCycles cycle now_cycles in
  let tmp := i64 (CYCLE_TIMER_TO_TICKS last_now) in
  let tmp := i64 (tmp + i64 (diff_cycles * TICKS_PER_CYCLE)) in
  let pkt_ctr_ticks := u64 (wrapAtMinMaxTicks tmp) in
  u32 (TICKS_TO_CYCLE_TIMER pkt_ctr_ticks).

(** The cycles for which no packet was received. *)
Definition receive_dropped (missed_ok : bool) (last_cycle cycle : Z) : Z :=
  if bool_decide (last_cycle <> i32 cycle) && bool_decide (last_cycle <> -1) && negb missed_ok
  then i32 (diffCycles cycle (u32 last_cycle) - 1) else 0.

Definition IsoHandler_putPacket (h : Z) (data : list Z) (length channel tag sy cycle dropped : Z) : I raw1394_iso_disposition :=
  x ← the_handler h; missed_ok ← gets (fun s => m_MissedCyclesOK (ihm s));
  let p := prog x in
  let dropped_cycles := receive_dropped missed_ok (m_last_cycle p) cycle in
  let pkt_ctr := packet_time (m_last_now p) cycle in
  store_handler h (on_progress (fun p => mkProgress (i32 cycle) (m_last_now p) pkt_ctr (u32 (m_packets p + 1)) (m_deferred_cycles p)) x) ;;
  match m_Client (life x) with
  | Some c => client_putPacket c data length channel tag sy pkt_ctr dropped_cycles
  | None => mret RAW1394_ISO_OK
  end.

(** The cycles that were lost before [cycle], and the new number of deferred cycles.  The
    arithmetic with the unsigned counters is modulo 2^32. *)
Definition transmit_dropped (last_cycle deferred cycle skipped : Z) : Z * Z :=
  let deferred := if last_cycle =? -1 then 0 else deferred in
  if bool_decide (last_cycle <> cycle) && bool_decide (last_cycle <> -1) then
    let dropped_cycles := i32 (diffCycles (u32 cycle) (u32 last_cycle) - 1) in
    let dropped_cycles := i32 (dropped_cycles - skipped) in
    if dropped_cycles =? 0 then (0, 0) else (i32 (dropped_cycles - deferred), deferred)
  else (0, deferred).

(** The bookkeeping of an accepted and of a deferred packet. *)
Definition set_last_cycle (cycle : Z) : IsoHandler -> IsoHandler :=
  on_progress (fun q => mkProgress cycle (m_last_now q) (m_last_packet_handled_at q) (m_packets q) (m_deferred_cycles q)).
Definition count_deferred : IsoHandler -> IsoHandler :=
  on_progress (fun q =>
    mkProgress (m_last_cycle q) (m_last_now q) (m_last_packet_handled_at q) (m_packets q) (u32 (m_deferred_cycles q + 1))).

(** Ask the client of [x], if it has one, for the packet. *)
Definition packet_from_client (h : Z) (x : IsoHandler) (p : packet) (cycle pkt_ctr dropped_cycles skipped : Z) :
    I (raw1394_iso_disposition * packet) :=
  match m_Client (life x) with
  | Some c =>
      '(retval, p) ← client_getPacket c p pkt_ctr dropped_cycles skipped (m_max_packet_size (conf x));
      (if cycle <? 0 then mret () else
       on_handler h (match retval with RAW1394_ISO_DEFER => count_deferred | _ => set_last_cycle cycle end)) ;;
      mret (retval, p)
  | None =>
      (if cycle <? 0 then mret () else on_handler h (set_last_cycle cycle)) ;;
      mret (RAW1394_ISO_OK, mkPacket (p_data p) 0 0 0)
  end.

Definition IsoHandler_getPacket (h : Z) (p : packet) (cycle dropped skipped : Z) : I (raw1394_iso_disposition * packet) :=
  x ← the_handler h;
  let q := prog x in
  let pkt_ctr := if cycle <? 0 then 0xFFFFFFFF else packet_time (m_last_now q) (u32 cycle) in
  let handled_at := if m_packets q <? m_buf_packets (conf x) then 0xFFFFFFFF else pkt_ctr in
  let lost := transmit_dropped (m_last_cycle q) (m_deferred_cycles q) cycle skipped in
  store_handler h (on_progress (fun q => mkProgress (m_last_cycle q) (m_last_now q) handled_at (u32 (m_packets q + 1)) lost.2) x) ;;
  packet_from_client h x p cycle pkt_ctr lost.1 skipped.

Definition iso_receive_handler (h : Z) (data : list Z) (length channel tag sy cycle dropped : Z) : I raw1394_iso_disposition :=
  IsoHandler_putPacket h data length channel tag sy cycle dropped.
Definition iso_transmit_handler (h : Z) (p : packet) (cycle dropped1 : Z) : I (raw1394_iso_disposition * packet) :=
  let skipped := (dropped1 .& 0xFFFF0000) >> 16 in
  let dropped := dropped1 .& 0xFFFF in
  IsoHandler_getPacket h p cycle dropped skipped.

(** A call of the library: it calls the handler back until it returns. *)
Fixpoint serve (fuel : nat) (call : raw_call) (h handle : Z) : I Z :=
  match fuel with
  | O => crash
  | S fuel =>
      event ← call_ext (raw1394_next_event call handle);
      match event with
      | CallDone result => mret result
      | PacketReceived data length channel tag sy cycle dropped =>
          d ← iso_receive_handler h data length channel tag sy cycle dropped;
          on_ext (raw1394_answer handle d None) ;; serve fuel call h handle
      | PacketRequested p cycle dropped =>
          '(d, p) ← iso_transmit_handler h p cycle dropped;
          on_ext (raw1394_answer handle d (Some p)) ;; serve fuel call h handle
      end
  end.

(** [ISOHANDLER_FLUSH_BEFORE_ITERATE] is 0. *)
Definition iterate (h cycle_timer_now : Z) : I bool :=
  on_handler h (set_last_now cycle_timer_now) ;;
  x ← the_handler h;
  if isEnabled x then
    handle ← handle_of h;
    err ← serve serve_fuel raw1394_loop_iterate h handle;
    mret (err =? 0)
  else mret false.

(** ** Life cycle *)

(** Initialise and start the DMA context of the handler. *)
Definition start_context (h handle : Z) (cycle : Z) : I bool :=
  x ← the_handler h;
  c ← client_of h;
  channel ← gets (fun s => client_getChannel c (ext s));
  match m_type (conf x) with
  | eHT_Receive =>
      err ← call_ext (raw1394_iso_recv_init handle (conf x) channel);
      if negb (err =? 0) then mret false else
      err ← serve serve_fuel (raw1394_iso_recv_start cycle) h handle; mret (err =? 0)
  | eHT_Transmit =>
      err ← call_ext (raw1394_iso_xmit_init handle (conf x) channel);
      if negb (err =? 0) then mret false else
      err ← serve serve_fuel (raw1394_iso_xmit_start cycle) h handle; mret (err =? 0)
  end.

Definition IsoHandler_enable (h cycle : Z) : I bool :=
  x ← the_handler h;
  if isEnabled x then mret false else
  assert_that (fun _ => bool_decide (m_handle (life x) = None)) ;;
  handle ← call_ext raw1394_new_handle_on_port;
  on_handler h (set_handle handle) ;;
  match handle with
  | None => mret false
  | Some handle =>
      on_handler h reset_progress ;;
      ok ← start_context h handle cycle;
      if negb ok then mret false else
      on_handler h (set_states eHS_Running eHS_Running) ;; mret true
  end.

(** [waited]: another thread held the lock. *)
Definition IsoHandler_disable (waited : bool) (h : Z) : I bool :=
  x ← the_handler h;
  if negb (isEnabled x) then mret waited else
  assert_that (fun _ => bool_decide (m_handle (life x) <> None)) ;;
  handle ← handle_of h;
  on_ext (fun k => raw1394_destroy_handle handle (raw1394_iso_shutdown handle (raw1394_iso_stop handle (raw1394_wake_up handle k)))) ;;
  on_handler h (fun x => set_states eHS_Stopped eHS_Stopped (set_handle None x)) ;;
  c ← client_of h; client_packetsStopped c ;;
  mret true.
Definition disable_now : Z -> I bool := IsoHandler_disable false.

Definition IsoHandler_updateState (h : Z) : I unit :=
  x ← the_handler h;
  match m_State (life x), m_NextState (life x) with
  | eHS_Stopped, eHS_Running => IsoHandler_enable h (m_switch_on_cycle (life x)) ;; mret ()
  | eHS_Running, eHS_Stopped => disable_now h ;; mret ()
  | _, _ => mret ()
  end.

(** The destructor, which does not return the handle to libraw1394 unless the handler runs. *)
Definition IsoHandler_delete (h : Z) : I unit :=
  x ← the_handler h;
  (if bool_decide (m_handle (life x) <> None) && isEnabled x then disable_now h ;; mret () else mret ()) ;;
  set_handlers (delete h).

Definition IsoHandler_handleBusReset (h : Z) : I bool :=
  on_handler h (set_last_packet_handled_at 0xFFFFFFFF) ;;
  x ← the_handler h;
  on_ext (raw1394_read_cycle_time (m_handle (life x))) ;;
  c ← client_of h; client_handleBusReset c.

Definition notifyOfDeath (h : Z) : I unit :=
  x ← the_handler h;
  (if bool_decide (m_handle (life x) <> None) then disable_now h ;; mret () else mret ()) ;;
  c ← client_of h; client_handlerDied c ;;
  x ← the_handler h;
  match m_handle (life x) with
  | Some handle => on_ext (raw1394_wake_up handle)
  | None => mret ()
  end.

End handler.
