(* ===== verification/IsoManager.v ===== *)
(** * The manager of the isochronous handlers

    Model of [src/libieee1394/IsoHandlerManager.cpp], classes [IsoTask] and [IsoHandlerManager], over the handlers of
    IsoHandlers: registration of streams, start and stop of handlers, and the two tasks, one for each direction,
    whose threads call [Execute] over and over.

    The class [IsoService] is what is used of the 1394 service, the configuration file and the operating
    system.  The operations during which a thread sleeps are programs on the whole system: they
    contain what the other threads do meanwhile.  [poll_fuel] bounds the rounds in which a task waits for a client.
    [None] is, in addition to what it is for handlers, an access outside of the arrays of a task. *)
From stdpp Require Import gmap strings.
From S2P Require Import Prelude CycleTimer StreamProcessor StreamManager IsoHandlers.
#[local] Open Scope Z_scope.

(** The constants of [config.h.in]. *)
Definition THREAD_MAX_RTPRIO : Z := 98.
Definition THREAD_MIN_RTPRIO : Z := 1.
Definition MINIMUM_INTERRUPTS_PER_PERIOD : Z := 2.
Definition MAX_XMIT_PACKET_SIZE : Z := 2048 - 16.
Definition MIN_XMIT_PACKET_SIZE : Z := 72.
Definition MAX_XMIT_NB_BUFFERS : Z := 128.
Definition MAX_RECV_NB_BUFFERS : Z := 128.
Definition MIN_RECV_PACKET_SIZE : Z := 72.
Definition DEFAULT_ISO_RECEIVE_MODE : Z := 0.
Definition BUFFERFILL_MODE_THRESHOLD : Z := 64.
Definition ISOHANDLERMANAGER_ISO_PRIO_INCREASE : Z := 0.
Definition ISOHANDLERMANAGER_ISO_PRIO_INCREASE_RECV : Z := -1.
Definition ISOHANDLERMANAGER_ISO_PRIO_INCREASE_XMIT : Z := 1.

Class IsoService (K : Type) := {
  getCycleTimer : st K Z;
  config_value : string -> K -> option Z;
  getpagesize : Z;
  (** where [new] puts a handler: anywhere that is free *)
  malloc : K -> gset Z -> Z;
  malloc_fresh k X : malloc k X ∉ X;
  iso_junk : nat -> Z;
  iso_debug_build : bool;
  (** [pthread_create] and [pthread_setschedparam]; [None] is normal scheduling *)
  thread_create : EHandlerType -> option Z -> st K Z;
  set_sched : EHandlerType -> option Z -> K -> K;
  thread_join : EHandlerType -> run (iso_system K) unit;
  getCurrentTimeAsUsecs : st K Z;
  realtime_clock : st K (option (Z * Z));
  usleep : Z -> run (iso_system K) unit;
  (** what ends a wait: [None] is another thread's [sem_post], otherwise the error *)
  task_wait_blocked : EHandlerType -> Z * Z -> run (iso_system K) (option Z);
  (** the result of [poll], [errno] and the received events *)
  poll : list pollfd -> Z -> run (iso_system K) (Z * Z * list Z);
  iso_ETIMEDOUT : Z;
  iso_EINTR : Z;
  poll_fuel : nat;
}.

Section manager.
Context {K : Type} `{Raw1394 K} `{IsoClient K} `{IsoService K}.

Abbreviation I := (run (iso_system K)).

(** ** Members *)

Definition set_lists (f : list Z -> list Z) (g : list Z -> list Z) : I unit :=
  on_ihm (fun m => mkIHM (ihm_State m) (f (m_IsoHandlers m)) (handlers m) (g (m_StreamProcessors m)) (m_realtime m) (m_priority m)
    (m_IsoThreadTransmit m) (m_IsoTaskTransmit m) (m_IsoThreadReceive m) (m_IsoTaskReceive m) (m_MissedCyclesOK m)).
Definition set_ihm_state (x : eHandlerStates) : I unit :=
  on_ihm (fun m => mkIHM x (m_IsoHandlers m) (handlers m) (m_StreamProcessors m) (m_realtime m) (m_priority m)
    (m_IsoThreadTransmit m) (m_IsoTaskTransmit m) (m_IsoThreadReceive m) (m_IsoTaskReceive m) (m_MissedCyclesOK m)).
Definition set_thread_parameters (rt : bool) (prio : Z) : I unit :=
  on_ihm (fun m => mkIHM (ihm_State m) (m_IsoHandlers m) (handlers m) (m_StreamProcessors m) rt prio
    (m_IsoThreadTransmit m) (m_IsoTaskTransmit m) (m_IsoThreadReceive m) (m_IsoTaskReceive m) (m_MissedCyclesOK m)).
Definition setMissedCyclesOK (ok : bool) : I unit :=
  on_ihm (fun m => mkIHM (ihm_State m) (m_IsoHandlers m) (handlers m) (m_StreamProcessors m) (m_realtime m) (m_priority m)
    (m_IsoThreadTransmit m) (m_IsoTaskTransmit m) (m_IsoThreadReceive m) (m_IsoTaskReceive m) ok).

(** The task and the thread of a direction. *)
Definition task_of (t : EHandlerType) (m : IsoHandlerManager) : option IsoTask :=
  match t with eHT_Receive => m_IsoTaskReceive m | eHT_Transmit => m_IsoTaskTransmit m end.
Definition thread_of (t : EHandlerType) (m : IsoHandlerManager) : option iso_thread :=
  match t with eHT_Receive => m_IsoThreadReceive m | eHT_Transmit => m_IsoThreadTransmit m end.
Definition set_task (t : EHandlerType) (x : option IsoTask) : I unit :=
  on_ihm (fun m => match t with
    | eHT_Transmit => mkIHM (ihm_State m) (m_IsoHandlers m) (handlers m) (m_StreamProcessors m) (m_realtime m) (m_priority m)
        (m_IsoThreadTransmit m) x (m_IsoThreadReceive m) (m_IsoTaskReceive m) (m_MissedCyclesOK m)
    | eHT_Receive => mkIHM (ihm_State m) (m_IsoHandlers m) (handlers m) (m_StreamProcessors m) (m_realtime m) (m_priority m)
        (m_IsoThreadTransmit m) (m_IsoTaskTransmit m) (m_IsoThreadReceive m) x (m_MissedCyclesOK m)
    end).
Definition set_thread (t : EHandlerType) (x : option iso_thread) : I unit :=
  on_ihm (fun m => match t with
    | eHT_Transmit => mkIHM (ihm_State m) (m_IsoHandlers m) (handlers m) (m_StreamProcessors m) (m_realtime m) (m_priority m)
        x (m_IsoTaskTransmit m) (m_IsoThreadReceive m) (m_IsoTaskReceive m) (m_MissedCyclesOK m)
    | eHT_Receive => mkIHM (ihm_State m) (m_IsoHandlers m) (handlers m) (m_StreamProcessors m) (m_realtime m) (m_priority m)
        (m_IsoThreadTransmit m) (m_IsoTaskTransmit m) x (m_IsoTaskReceive m) (m_MissedCyclesOK m)
    end).
Definition the_task (t : EHandlerType) : I IsoTask := x ← gets (fun s => task_of t (ihm s)); deref x.
Definition on_task (t : EHandlerType) (f : IsoTask -> IsoTask) : I unit := x ← the_task t; set_task t (Some (f x)).

Definition set_request_update (f : Z -> Z) (x : IsoTask) : IsoTask :=
  mkTask (f (request_update x)) (m_poll_fds_shadow x) (m_IsoHandler_map_shadow x) (m_poll_nfds_shadow x) (m_SyncIsoHandler x)
    (m_last_loop_entry x) (m_successive_short_loops x) (m_handlerType x) (m_running x) (m_in_busreset x) (task_semaphore x)
    (task_wait_timeout_nsec x).
Definition set_semaphore (f : Z -> Z) (x : IsoTask) : IsoTask :=
  mkTask (request_update x) (m_poll_fds_shadow x) (m_IsoHandler_map_shadow x) (m_poll_nfds_shadow x) (m_SyncIsoHandler x)
    (m_last_loop_entry x) (m_successive_short_loops x) (m_handlerType x) (m_running x) (m_in_busreset x) (f (task_semaphore x))
    (task_wait_timeout_nsec x).
Definition set_running (r : bool) (x : IsoTask) : IsoTask :=
  mkTask (request_update x) (m_poll_fds_shadow x) (m_IsoHandler_map_shadow x) (m_poll_nfds_shadow x) (m_SyncIsoHandler x)
    (m_last_loop_entry x) (m_successive_short_loops x) (m_handlerType x) r (m_in_busreset x) (task_semaphore x)
    (task_wait_timeout_nsec x).
Definition set_in_busreset (b : bool) (x : IsoTask) : IsoTask :=
  mkTask (request_update x) (m_poll_fds_shadow x) (m_IsoHandler_map_shadow x) (m_poll_nfds_shadow x) (m_SyncIsoHandler x)
    (m_last_loop_entry x) (m_successive_short_loops x) (m_handlerType x) (m_running x) b (task_semaphore x)
    (task_wait_timeout_nsec x).
Definition set_shadow (fds : list pollfd) (map : list (option Z)) (n : nat) (sync : option Z) (x : IsoTask) : IsoTask :=
  mkTask (request_update x) fds map n sync (m_last_loop_entry x) (m_successive_short_loops x) (m_handlerType x) (m_running x)
    (m_in_busreset x) (task_semaphore x) (task_wait_timeout_nsec x).
Definition set_loop_entry (t n : Z) (x : IsoTask) : IsoTask :=
  mkTask (request_update x) (m_poll_fds_shadow x) (m_IsoHandler_map_shadow x) (m_poll_nfds_shadow x) (m_SyncIsoHandler x)
    t n (m_handlerType x) (m_running x) (m_in_busreset x) (task_semaphore x) (task_wait_timeout_nsec x).
Definition set_nfds (n : nat) (x : IsoTask) : IsoTask :=
  set_shadow (m_poll_fds_shadow x) (m_IsoHandler_map_shadow x) n (m_SyncIsoHandler x) x.
Definition set_sync (h : option Z) (x : IsoTask) : IsoTask :=
  set_shadow (m_poll_fds_shadow x) (m_IsoHandler_map_shadow x) (m_poll_nfds_shadow x) h x.

(** ** Tasks *)

(** The members that the constructor does not set hold [junk]. *)
Definition IsoTask_new (t : EHandlerType) : IsoTask :=
  mkTask (iso_junk 0) ((fun i => mkPollfd (iso_junk i) (iso_junk i) (iso_junk i)) <$> seq 1 ISOHANDLERMANAGER_MAX_ISO_HANDLERS_PER_PORT)
    ((fun i => Some (iso_junk i)) <$> seq 17 ISOHANDLERMANAGER_MAX_ISO_HANDLERS_PER_PORT) (Z.to_nat (iso_junk 33)) None
    (iso_junk 34) (iso_junk 35) t false false (iso_junk 36) (ISOHANDLERMANAGER_ISO_TASK_WAIT_TIMEOUT_USECS * 1000).

(** Called by the thread when it starts. *)
Definition IsoTask_Init (t : EHandlerType) : I bool :=
  on_task t (fun x =>
    mkTask 0 ((fun p => mkPollfd (fd p) 0 (revents p)) <$> m_poll_fds_shadow x) ((fun _ => None) <$> m_IsoHandler_map_shadow x) 0
      (m_SyncIsoHandler x) (if iso_debug_build then 0 else m_last_loop_entry x)
      (if iso_debug_build then 0 else m_successive_short_loops x) (m_handlerType x) true (m_in_busreset x) 0 (task_wait_timeout_nsec x)) ;;
  mret true.

Definition task_signalActivity (t : EHandlerType) : I unit := on_task t (set_semaphore (Z.add 1)).
Definition task_requestShadowMapUpdate (t : EHandlerType) : I unit :=
  on_task t (set_request_update (fun n => i32 (n + 1))) ;; task_signalActivity t.

(** [m_manager.m_IsoHandlers.at(i)] *)
Definition handler_at (i : nat) : I Z := l ← gets (fun s => m_IsoHandlers (ihm s)); deref (l !! i).

Fixpoint bus_reset_handlers (t : EHandlerType) (n i : nat) : I bool :=
  match n with
  | O => mret true
  | S n =>
      h ← handler_at i; x ← the_handler h;
      if decide (m_type (conf x) <> t) then bus_reset_handlers t n (S i) else
      ok ← IsoHandler_handleBusReset h; rest ← bus_reset_handlers t n (S i); mret (ok && rest)
  end.

Definition task_handleBusReset (t : EHandlerType) : I bool :=
  x ← the_task t;
  if negb (m_running x) then mret true else
  on_task t (set_in_busreset true) ;;
  task_requestShadowMapUpdate t ;;
  max ← gets (fun s => length (m_IsoHandlers (ihm s)));
  retval ← bus_reset_handlers t max 0;
  on_task t (set_in_busreset false) ;;
  task_requestShadowMapUpdate t ;;
  mret retval.

(** Writing entry [cnt] of the arrays. *)
Definition shadow_entry (t : EHandlerType) (cnt : nat) (h : Z) : I unit :=
  handle ← handle_of h; x ← the_task t;
  if decide (cnt < length (m_IsoHandler_map_shadow x) /\ cnt < length (m_poll_fds_shadow x))%nat then
    file ← gets (fun s => raw1394_get_fd handle (ext s));
    set_task t (Some (set_shadow (<[cnt := mkPollfd file POLLIN 0]> (m_poll_fds_shadow x)) (<[cnt := Some h]> (m_IsoHandler_map_shadow x))
      (m_poll_nfds_shadow x)
      (match m_SyncIsoHandler x, t with None, eHT_Transmit => Some h | sync, _ => sync end) x))
  else crash.

(** The loop over the handlers; [n] is the number of rounds that are left. *)
Fixpoint shadow_handlers (t : EHandlerType) (n i cnt : nat) : I nat :=
  match n with
  | O => mret cnt
  | S n =>
      size ← gets (fun s => length (m_IsoHandlers (ihm s)));
      if (size <=? i)%nat then shadow_handlers t n (S i) cnt else
      h ← handler_at i; x ← the_handler h;
      if decide (m_type (conf x) <> t) then shadow_handlers t n (S i) cnt else
      IsoHandler_updateState h ;;
      x ← the_handler h;
      if isEnabled x then
        shadow_entry t cnt h ;;
        if (ISOHANDLERMANAGER_MAX_ISO_HANDLERS_PER_PORT <? S cnt)%nat then mret (S cnt) else shadow_handlers t n (S i) (S cnt)
      else
        if (ISOHANDLERMANAGER_MAX_ISO_HANDLERS_PER_PORT <? cnt)%nat then mret cnt else shadow_handlers t n (S i) cnt
  end.

Definition updateShadowMapHelper (t : EHandlerType) : I unit :=
  x ← the_task t;
  if m_in_busreset x then on_task t (set_nfds 0) else
  max ← gets (fun s => length (m_IsoHandlers (ihm s)));
  on_task t (set_sync None) ;;
  cnt ← shadow_handlers t max 0 0;
  x ← the_task t;
  (if bool_decide (m_SyncIsoHandler x = None) && negb (m_poll_nfds_shadow x =? 0)%nat
   then h ← deref (m_IsoHandler_map_shadow x !! 0%nat); on_task t (set_sync h) else mret ()) ;;
  on_task t (set_nfds cnt).

Definition waitForActivity_task (t : EHandlerType) : I eActivityResult :=
  now ← call_ext realtime_clock;
  match now with
  | None => mret eAR_Error
  | Some (sec, nsec) =>
      x ← the_task t;
      let timeout := task_wait_timeout_nsec x in
      ts ← deref (normalise_timespec (Z.to_nat ((nsec + timeout) / 1000000000)) sec (nsec + timeout));
      if 0 <? task_semaphore x then on_task t (set_semaphore Z.pred) ;; mret eAR_Activity else
      errno ← task_wait_blocked t ts;
      mret (match errno with
            | None => eAR_Activity
            | Some e => if e =? iso_ETIMEDOUT then eAR_Timeout else if e =? iso_EINTR then eAR_Interrupted else eAR_Error
            end)
  end.

(** [m_IsoHandler_map_shadow[i]] *)
Definition shadow_handler (t : EHandlerType) (i : nat) : I Z :=
  x ← the_task t; h ← deref (m_IsoHandler_map_shadow x !! i); deref h.

Definition set_events (e : Z) (p : pollfd) : pollfd := mkPollfd (fd p) e (revents p).
Definition set_revents (e : Z) (p : pollfd) : pollfd := mkPollfd (fd p) (events p) e.

(** Whether one of the handlers [i], ..., [i + n - 1] can be polled; the events are set accordingly. *)
Fixpoint mark_pollable (t : EHandlerType) (n i : nat) : I bool :=
  match n with
  | O => mret false
  | S n =>
      h ← shadow_handler t i;
      can ← canIterateClient h;
      on_task t (fun x => set_shadow (alter (set_events (if can : bool then POLLIN .| POLLPRI else 0)) i (m_poll_fds_shadow x))
        (m_IsoHandler_map_shadow x) (m_poll_nfds_shadow x) (m_SyncIsoHandler x) x) ;;
      rest ← mark_pollable t n (S i);
      mret (can || rest)
  end.

(** [while(no_one_to_poll)]: false if the wait failed. *)
Fixpoint wait_pollable (fuel : nat) (t : EHandlerType) : I bool :=
  x ← the_task t;
  someone ← mark_pollable t (m_poll_nfds_shadow x) 0;
  if someone : bool then mret true else
  match fuel with
  | O => crash
  | S fuel =>
      r ← waitForActivity_task t;
      match r with
      | eAR_Error => mret false
      | eAR_Timeout => mret true
      | eAR_Interrupted | eAR_Activity => wait_pollable fuel t
      end
  end.

(** Handlers that did not see a packet for two seconds have died. *)
Definition has_died (ctr_at_poll_return : Z) (x : IsoHandler) : bool :=
  let last_packet_seen := m_last_packet_handled_at (prog x) in
  negb (last_packet_seen =? 0xFFFFFFFF) &&
  (TICKS_PER_SECOND * 2 <? diffTicks (CYCLE_TIMER_TO_TICKS ctr_at_poll_return) (CYCLE_TIMER_TO_TICKS last_packet_seen)).

Fixpoint find_dead (t : EHandlerType) (ctr : Z) (n i : nat) : I bool :=
  match n with
  | O => mret false
  | S n =>
      h ← shadow_handler t i; x ← the_handler h;
      if negb (isEnabled x) then find_dead t ctr n (S i) ;; mret true
      else if has_died ctr x then notifyOfDeath h ;; find_dead t ctr n (S i) ;; mret true
      else find_dead t ctr n (S i)
  end.

Fixpoint iterate_handlers (t : EHandlerType) (ctr : Z) (n i : nat) : I unit :=
  match n with
  | O => mret ()
  | S n =>
      x ← the_task t;
      p ← deref (m_poll_fds_shadow x !! i);
      (if negb (revents p .& POLLIN =? 0) then h ← shadow_handler t i; iterate h ctr ;; mret () else mret ()) ;;
      iterate_handlers t ctr n (S i)
  end.

(** [iterate] without an argument. *)
Definition iterate_now (h : Z) : I bool := ctr ← call_ext getCycleTimer; iterate h ctr.

(** The detection of a runaway thread in debug builds. *)
Definition runaway (t : EHandlerType) : I bool :=
  if negb iso_debug_build then mret false else
  now ← call_ext getCurrentTimeAsUsecs;
  x ← the_task t;
  if i32 (now - m_last_loop_entry x) <? 100 then
    let n := i32 (m_successive_short_loops x + 1) in
    if 10000 <? n then on_task t (set_loop_entry (m_last_loop_entry x) n) ;; on_task t (set_running false) ;; mret true
    else on_task t (set_loop_entry now n) ;; mret false
  else on_task t (set_loop_entry now 0) ;; mret false.

(** A requested update of the arrays. *)
Definition serve_request (t : EHandlerType) : I unit :=
  x ← the_task t;
  if request_update x =? 0 then mret () else
  updateShadowMapHelper t ;;
  on_task t (set_request_update (fun n => i32 (n - 1))) ;;
  x ← the_task t;
  assert_that (fun _ => 0 <=? request_update x).

(** After [poll] has returned. *)
Definition serve_handlers (t : EHandlerType) (ctr_at_poll_return : Z) : I bool :=
  x ← the_task t;
  died ← find_dead t ctr_at_poll_return (m_poll_nfds_shadow x) 0;
  if died : bool then on_task t (set_running false) ;; mret true else
  x ← the_task t;
  iterate_handlers t ctr_at_poll_return (m_poll_nfds_shadow x) 0 ;; mret true.

(** What the kernel writes to the polled entries. *)
Definition store_revents (t : EHandlerType) (evs : list Z) : I unit :=
  on_task t (fun x => set_shadow
    (imap (fun i p => match evs !! i with Some e => set_revents e p | None => p end) (m_poll_fds_shadow x))
    (m_IsoHandler_map_shadow x) (m_poll_nfds_shadow x) (m_SyncIsoHandler x) x).

Definition Execute (t : EHandlerType) : I bool :=
  away ← runaway t;
  if away : bool then mret false else
  serve_request t ;;
  x ← the_task t;
  if (m_poll_nfds_shadow x =? 0)%nat then usleep 10000 ;; mret true else
  ok ← wait_pollable poll_fuel t;
  if negb ok then mret false else
  x ← the_task t;
  '(err, errno, evs) ← poll (take (m_poll_nfds_shadow x) (m_poll_fds_shadow x)) 10;
  ctr_at_poll_return ← call_ext getCycleTimer;
  if err <? 0 then
    (if errno =? iso_EINTR then mret true else on_task t (set_running false) ;; mret false)
  else
  store_revents t evs ;;
  serve_handlers t ctr_at_poll_return.

(** ** The manager *)

(** [m_MissedCyclesOK] is not set by the first constructor. *)
Definition IsoHandlerManager_new (missed_ok rt : bool) (prio : Z) : IsoHandlerManager :=
  mkIHM E_Created [] ∅ [] rt prio None None None None missed_ok.

Definition requestShadowMapUpdate : I unit :=
  m ← gets ihm;
  (match m_IsoTaskTransmit m with Some _ => task_requestShadowMapUpdate eHT_Transmit | None => mret () end) ;;
  match m_IsoTaskReceive m with Some _ => task_requestShadowMapUpdate eHT_Receive | None => mret () end.

Definition IHM_handleBusReset : I bool :=
  m ← gets ihm;
  match m_IsoTaskTransmit m, m_IsoTaskReceive m with
  | Some _, Some _ => task_handleBusReset eHT_Transmit ;; task_handleBusReset eHT_Receive ;; mret true
  | _, _ => mret false
  end.

Definition IHM_signalActivityTransmit : I unit := task_signalActivity eHT_Transmit.
Definition IHM_signalActivityReceive : I unit := task_signalActivity eHT_Receive.

Definition config_or (name : string) (default_value : Z) : I Z :=
  gets (fun s => default default_value (config_value name (ext s))).

Definition iso_priority (t : EHandlerType) (prio : Z) : I Z :=
  increase ← config_or "ieee1394.isomanager.prio_increase" ISOHANDLERMANAGER_ISO_PRIO_INCREASE;
  by_type ← match t with
            | eHT_Transmit => config_or "ieee1394.isomanager.prio_increase_xmit" ISOHANDLERMANAGER_ISO_PRIO_INCREASE_XMIT
            | eHT_Receive => config_or "ieee1394.isomanager.prio_increase_recv" ISOHANDLERMANAGER_ISO_PRIO_INCREASE_RECV
            end;
  mret (i32 (prio + increase + by_type)).

(** The realtime priority that the thread class requests for a priority. *)
Definition clip_priority (p : Z) : Z := if p <=? 0 then 1 else if 99 <=? p then 98 else p.

Definition thread_scheduling (t : EHandlerType) (rt : bool) (prio : Z) : I unit :=
  th ← gets (fun s => thread_of t (ihm s));
  match th with
  | None => mret ()
  | Some th =>
      if rt then
        prio ← iso_priority t prio;
        set_thread t (Some (mkThread (t_realtime th) prio (t_started th))) ;;
        if t_started th then on_ext (set_sched t (Some (clip_priority prio))) else mret ()
      else if t_started th then on_ext (set_sched t None) else mret ()
  end.

Definition IHM_setThreadParameters (rt : bool) (priority : Z) : I bool :=
  let priority := if THREAD_MAX_RTPRIO <? priority then THREAD_MAX_RTPRIO else priority in
  let priority := if priority <? THREAD_MIN_RTPRIO then THREAD_MIN_RTPRIO else priority in
  set_thread_parameters rt priority ;;
  thread_scheduling eHT_Transmit rt priority ;;
  thread_scheduling eHT_Receive rt priority ;;
  mret true.

(** [Start]: the new thread calls [IsoTask_Init] some time later. *)
Definition thread_start (t : EHandlerType) : I bool :=
  th ← gets (fun s => thread_of t (ihm s)); th ← deref th;
  err ← call_ext (thread_create t (if t_realtime th then Some (clip_priority (t_priority th)) else None));
  if err =? 0 then set_thread t (Some (mkThread (t_realtime th) (t_priority th) true)) ;; mret true else mret false.

Definition new_thread (t : EHandlerType) : I unit :=
  m ← gets ihm;
  prio ← iso_priority t (m_priority m);
  set_thread t (Some (mkThread (m_realtime m) prio false)).

(** The time-out of the configuration file goes to the transmit task only. *)
Definition IHM_init : I bool :=
  m ← gets ihm;
  if decide (ihm_State m <> E_Created) then mret false else
  usecs ← config_or "ieee1394.isomanager.isotask_activity_timeout_usecs" ISOHANDLERMANAGER_ISO_TASK_WAIT_TIMEOUT_USECS;
  let x := IsoTask_new eHT_Transmit in
  set_task eHT_Transmit (Some (mkTask (request_update x) (m_poll_fds_shadow x) (m_IsoHandler_map_shadow x) (m_poll_nfds_shadow x)
    (m_SyncIsoHandler x) (m_last_loop_entry x) (m_successive_short_loops x) (m_handlerType x) (m_running x) (m_in_busreset x)
    (task_semaphore x) (i64 (usecs * 1000)))) ;;
  new_thread eHT_Transmit ;;
  set_task eHT_Receive (Some (IsoTask_new eHT_Receive)) ;;
  new_thread eHT_Receive ;;
  ok ← thread_start eHT_Transmit;
  if negb ok then mret false else
  ok ← thread_start eHT_Receive;
  if negb ok then mret false else
  set_ihm_state E_Running ;; mret true.

(** *** Handlers *)

Definition registerHandler (h : Z) : I bool :=
  set_lists (fun l => l ++ [h]) id ;; requestShadowMapUpdate ;; mret true.

(** [erase] of the first occurrence. *)
Fixpoint erase_value (h : Z) (l : list Z) : list Z :=
  match l with
  | [] => []
  | x :: l => if x =? h then l else x :: erase_value h l
  end.

Definition unregisterHandler (h : Z) : I bool :=
  l ← gets (fun s => m_IsoHandlers (ihm s));
  if decide (h ∈ l) then set_lists (erase_value h) id ;; requestShadowMapUpdate ;; mret true else mret false.

(** The handlers of the list that satisfy a condition. *)
Fixpoint select_handlers (f : IsoHandler -> bool) (l : list Z) : I (list Z) :=
  match l with
  | [] => mret []
  | h :: l => x ← the_handler h; rest ← select_handlers f l; mret (if f x then h :: rest else rest)
  end.

Fixpoint delete_handlers (l : list Z) : I unit :=
  match l with
  | [] => mret ()
  | h :: l => unregisterHandler h ;; IsoHandler_delete h ;; delete_handlers l
  end.

Definition pruneHandlers : I unit :=
  l ← gets (fun s => m_IsoHandlers (ihm s));
  toUnregister ← select_handlers (fun x => negb (inUse x)) l;
  delete_handlers toUnregister.

(** The first handler of the list with the stream as its client. *)
Fixpoint find_handler (stream : Z) (l : list Z) : I (option Z) :=
  match l with
  | [] => mret None
  | h :: l => x ← the_handler h; if isStreamRegistered stream x then mret (Some h) else find_handler stream l
  end.
Definition getHandlerForStream (stream : Z) : I (option Z) :=
  l ← gets (fun s => m_IsoHandlers (ihm s)); find_handler stream l.

(** *** Streams *)

(** [int irq_interval = (packets_per_period-1) / min_interrupts_per_period;] in [unsigned int], then limited. *)
Definition irq_interval (packets_per_period min_interrupts_per_period buffers : Z) : option Z :=
  if u32 min_interrupts_per_period =? 0 then None else
  let irq := i32 (u32 (packets_per_period - 1) / u32 min_interrupts_per_period) in
  let irq := if irq <=? 0 then 1 else irq in
  Some (if Z.quot buffers 2 <? irq then Z.quot buffers 2 else irq).

Definition receive_mode (setting packets_per_period threshold : Z) : raw1394_iso_dma_recv_mode :=
  if setting =? 0 then
    (if packets_per_period <? u32 threshold then RAW1394_DMA_PACKET_PER_BUFFER else RAW1394_DMA_BUFFERFILL)
  else if setting =? 2 then RAW1394_DMA_BUFFERFILL else RAW1394_DMA_PACKET_PER_BUFFER.

(** A new handler for a stream, if its packets are small enough. *)
Definition receive_handler (stream : Z) : I (option IsoHandler) :=
  mode ← config_or "ieee1394.isomanager.iso_receive_mode" DEFAULT_ISO_RECEIVE_MODE;
  threshold ← config_or "ieee1394.isomanager.bufferfill_mode_threshold" BUFFERFILL_MODE_THRESHOLD;
  min_interrupts ← config_or "ieee1394.isomanager.min_interrupts_per_period" MINIMUM_INTERRUPTS_PER_PERIOD;
  buffers ← config_or "ieee1394.isomanager.max_nb_buffers_recv" MAX_RECV_NB_BUFFERS;
  min_packetsize ← config_or "ieee1394.isomanager.min_packetsize_recv" MIN_RECV_PACKET_SIZE;
  packets_per_period ← gets (fun s => client_getPacketsPerPeriod stream (ext s));
  max_packet_size ← gets (fun s => u32 (client_getMaxPacketSize stream (ext s) + 8));
  let mode := receive_mode mode packets_per_period threshold in
  if getpagesize <? max_packet_size then mret None else
  let max_packet_size := if max_packet_size <? u32 min_packetsize then u32 min_packetsize else max_packet_size in
  let max_packet_size := if max_packet_size <? 200 then 200 else max_packet_size in
  irq ← deref (irq_interval packets_per_period min_interrupts buffers);
  mret (Some (setReceiveMode mode (IsoHandler_new iso_junk iso_debug_build eHT_Receive (u32 buffers) max_packet_size irq))).

Definition transmit_handler (stream : Z) : I (option IsoHandler) :=
  min_interrupts ← config_or "ieee1394.isomanager.min_interrupts_per_period" MINIMUM_INTERRUPTS_PER_PERIOD;
  buffers ← config_or "ieee1394.isomanager.max_nb_buffers_xmit" MAX_XMIT_NB_BUFFERS;
  max_packetsize ← config_or "ieee1394.isomanager.max_packetsize_xmit" MAX_XMIT_PACKET_SIZE;
  min_packetsize ← config_or "ieee1394.isomanager.min_packetsize_xmit" MIN_XMIT_PACKET_SIZE;
  max_packet_size ← gets (fun s => u32 (client_getMaxPacketSize stream (ext s) + 8));
  if u32 max_packetsize <? max_packet_size then mret None else
  let max_packet_size := if max_packet_size <? u32 min_packetsize then u32 min_packetsize else max_packet_size in
  packets_per_period ← gets (fun s => client_getPacketsPerPeriod stream (ext s));
  irq ← deref (irq_interval packets_per_period min_interrupts buffers);
  mret (Some (IsoHandler_new iso_junk iso_debug_build eHT_Transmit (u32 buffers) max_packet_size irq)).

Definition IHM_registerStream (stream : Z) : I bool :=
  attached ← getHandlerForStream stream;
  match attached with
  | Some _ => mret false
  | None =>
      pruneHandlers ;;
      type ← gets (fun s => client_getType stream (ext s));
      x ← match type with ePT_Receive => receive_handler stream | ePT_Transmit => transmit_handler stream end;
      match x with
      | None => mret false
      | Some x =>
          h ← gets (fun s => malloc (ext s) (dom (handlers (ihm s))));
          store_handler h x ;;
          ok ← call_handler h (IsoHandler_registerStream stream);
          if negb ok then mret false else
          ok ← registerHandler h;
          if negb ok then mret false else
          set_lists id (fun l => l ++ [stream]) ;; mret true
      end
  end.

(** Detach the stream from every handler. *)
Fixpoint detach_stream (stream : Z) (l : list Z) : I bool :=
  match l with
  | [] => mret true
  | h :: l =>
      x ← the_handler h;
      if isStreamRegistered stream x then
        ok ← call_handler h (IsoHandler_unregisterStream stream);
        if ok : bool then detach_stream stream l else mret false
      else detach_stream stream l
  end.

Definition IHM_unregisterStream (stream : Z) : I bool :=
  l ← gets (fun s => m_IsoHandlers (ihm s));
  ok ← detach_stream stream l;
  if negb ok then mret false else
  pruneHandlers ;;
  streams ← gets (fun s => m_StreamProcessors (ihm s));
  if decide (stream ∈ streams) then set_lists id (erase_value stream) ;; mret true else mret false.

Definition IHM_getPacketLatencyForStream (stream : Z) : I Z :=
  h ← getHandlerForStream stream;
  match h with Some h => x ← the_handler h; mret (m_irq_interval (conf x)) | None => mret 0 end.

Definition setIsoStartCycleForStream (stream cycle : Z) : I unit :=
  h ← getHandlerForStream stream; h ← deref h; on_handler h (setIsoStartCycle cycle).

(** A request to the handler of a stream, and to its task to execute it. *)
Definition request_and_update (f : IsoHandler -> bool * IsoHandler) (h : Z) : I bool :=
  x ← the_handler h;
  ok ← call_handler h f;
  if ok : bool then task_requestShadowMapUpdate (m_type (conf x)) ;; mret true else mret false.

Definition request_for_stream (f : IsoHandler -> bool * IsoHandler) (stream : Z) : I bool :=
  m ← gets ihm;
  if decide (ihm_State m <> E_Running) then mret false else
  h ← getHandlerForStream stream;
  match h with Some h => request_and_update f h | None => mret false end.

Definition IHM_startHandlerForStream (stream cycle : Z) : I bool := request_for_stream (requestEnable cycle) stream.
Definition IHM_stopHandlerForStream (stream : Z) : I bool := request_for_stream requestDisable stream.

Fixpoint stop_all (l : list Z) : I bool :=
  match l with
  | [] => mret true
  | h :: l => ok ← request_and_update requestDisable h; if ok : bool then stop_all l else mret false
  end.

Definition stopHandlers : I bool :=
  m ← gets ihm;
  if decide (ihm_State m <> E_Running) then mret false else stop_all (m_IsoHandlers m).

Definition IHM_reset : I bool :=
  m ← gets ihm;
  if decide (ihm_State m = E_Error) then mret false else stopHandlers.

(** [Stop] and [delete] of a thread, if there is one. *)
Definition stop_thread (t : EHandlerType) : I unit :=
  th ← gets (fun s => thread_of t (ihm s));
  match th with
  | None => mret ()
  | Some th => (if t_started th then thread_join t else mret ()) ;; set_thread t None
  end.

Definition IsoHandlerManager_delete : I unit :=
  stopHandlers ;;
  pruneHandlers ;;
  stop_thread eHT_Transmit ;; stop_thread eHT_Receive ;;
  set_task eHT_Transmit None ;; set_task eHT_Receive None.

End manager.
