(* ===== verification/IsoSteps.v ===== *)
(** * Histories of the isochronous handlers

    The operations that threads perform on the manager of the isochronous handlers, as step relations, and what is
    assumed of the code around it: a client that is called from a handler only makes
    requests, and what other threads do while a task sleeps are operations of the manager.
    Theorems: the invariant of the registration of streams, over all histories. *)
From stdpp Require Import gmap strings relations.
From S2P Require Import Prelude CycleTimer StreamProcessor StreamManager IsoHandlers IsoManager.
#[local] Open Scope Z_scope.

Create HintDb within.
#[export] Hint Extern 5 (_ = _) => reflexivity : within.

(** ** Programs and relations *)

Section within.
Context {K : Type}.
Abbreviation I := (run (iso_system K)).
Implicit Types R : relation (iso_system K).

(** [m] ends in a state related to the one it started in. *)
Definition within {A} R (m : I A) : Prop :=
  forall s a s', m s = Some (a, s') -> R s s'.

Lemma within_ret {A} R `{!Reflexive R} (a : A) : within R (mret a).
Proof. intros s a' s'. unfold mret, run_ret. naive_solver. Qed.
Lemma within_bind {A B} R `{!Transitive R} (m : I A) (k : A -> I B) : within R m -> (forall a, within R (k a)) -> within R (m ≫= k).
Proof. intros Hm Hk s b s' (a & s1 & E1 & E2)%run_bind_inv. etrans; [by eapply Hm|by eapply Hk]. Qed.
Lemma within_gets {A} R `{!Reflexive R} (f : iso_system K -> A) : within R (gets f).
Proof. intros s a' s'. unfold gets. naive_solver. Qed.
Lemma within_deref {A} R `{!Reflexive R} (x : option A) : within R (deref x).
Proof. intros s a' s'. destruct x; [|done]. unfold deref. simpl. naive_solver. Qed.
Lemma within_crash {A} R : within R (@crash K A).
Proof. by intros s a' s'. Qed.
Lemma within_the_handler R `{!Reflexive R} h : within R (the_handler h).
Proof. intros s a s'. unfold the_handler. destruct (handlers _ !! h); [|done]. simpl. naive_solver. Qed.
Lemma within_assert R `{!Reflexive R} f : within R (assert_that f).
Proof. intros s a s'. unfold assert_that. destruct (f s); naive_solver. Qed.

End within.

(** Decompose a program into its calls. *)
Ltac within :=
  repeat first
    [ apply within_ret; apply _ | apply within_gets; apply _ | apply within_deref; apply _ | apply within_crash
    | apply within_the_handler; apply _ | apply within_assert; apply _ | solve [auto with within]
    | match goal with |- within _ (_ ≫= _) => apply within_bind; [apply _| |intros ?] end
    | match goal with |- within _ (match ?x with _ => _ end) => destruct x end ].

Section steps.
Context {K : Type} `{Raw1394 K} `{IsoClient K} `{IsoService K}.

Abbreviation I := (run (iso_system K)).
Implicit Types s : iso_system K.

(** ** Requests

    What a stream processor does with the manager when a handler calls it. *)
Inductive request_step : relation (iso_system K) :=
  | request_ext m k k' : request_step (mkIso m k) (mkIso m k')
  | request_xmit s s' : IHM_signalActivityTransmit s = Some (tt, s') -> request_step s s'
  | request_recv s s' : IHM_signalActivityReceive s = Some (tt, s') -> request_step s s'
  | request_start stream cycle s b s' : IHM_startHandlerForStream stream cycle s = Some (b, s') -> request_step s s'
  | request_stop stream s b s' : IHM_stopHandlerForStream stream s = Some (b, s') -> request_step s s'.

(** What requests do not change: everything but the next states of handlers, and the counters and semaphores of
    the tasks. *)
Definition forget_next (x : IsoHandler) : IsoHandler := set_next eHS_Stopped x.
Definition forget_requests (x : IsoTask) : IsoTask := set_semaphore (fun _ => 0) (set_request_update (fun _ => 0) x).
Definition quiet (m : IsoHandlerManager) : IsoHandlerManager :=
  mkIHM (ihm_State m) (m_IsoHandlers m) (forget_next <$> handlers m) (m_StreamProcessors m) (m_realtime m) (m_priority m)
    (m_IsoThreadTransmit m) (forget_requests <$> m_IsoTaskTransmit m) (m_IsoThreadReceive m) (forget_requests <$> m_IsoTaskReceive m)
    (m_MissedCyclesOK m).
Definition similar : relation (iso_system K) := fun s s' => quiet (ihm s) = quiet (ihm s').

#[export] Instance similar_equiv : Equivalence similar.
Proof. split; unfold similar; red; congruence. Qed.

Lemma similar_ext m k k' : similar (mkIso m k) (mkIso m k').
Proof. done. Qed.
Lemma within_call_ext {A} (f : st K A) : within similar (call_ext f).
Proof. intros [m k] a s'. unfold call_ext. simpl. destruct (f k). intros [= <- <-]. apply similar_ext. Qed.
Lemma within_on_ext f : within similar (on_ext f).
Proof. intros [m k] a s'. unfold on_ext, modify. simpl. intros [= <- <-]. apply similar_ext. Qed.


(** *** Requests are similar *)

Lemma similar_on_task t f : (forall x, forget_requests (f x) = forget_requests x) -> within similar (on_task t f).
Proof.
  intros Hf s a s' (x & s1 & (o & s2 & E1 & E2)%run_bind_inv & E3)%run_bind_inv. unfold gets in E1.
  injection E1 as <- <-. destruct s as [m k], t; simpl in *; unfold deref in E2;
    [destruct (m_IsoTaskReceive m) as [y|] eqn:Ey | destruct (m_IsoTaskTransmit m) as [y|] eqn:Ey]; try done; simpl in E2;
    injection E2 as <- <-; unfold set_task, on_ihm, modify in E3; injection E3 as <- <-;
    unfold similar, quiet; simpl; by rewrite Ey; simpl; rewrite Hf.
Qed.

Lemma insert_fmap_id {A B} (f : A -> B) (m : gmap Z A) h x y : m !! h = Some x -> f y = f x -> f <$> <[h := y]> m = f <$> m.
Proof. intros Hx E. rewrite fmap_insert, E. apply insert_id. by rewrite lookup_fmap, Hx. Qed.

Lemma the_handler_inv h s a s' : the_handler h s = Some (a, s') -> s' = s /\ handlers (ihm s) !! h = Some a.
Proof. unfold the_handler. destruct (handlers _ !! h) eqn:E; [|done]. simpl. by intros [= -> ->]. Qed.

Lemma similar_store s h x y : handlers (ihm s) !! h = Some x -> forget_next y = forget_next x -> forall a s',
  store_handler h y s = Some (a, s') -> similar s s'.
Proof.
  intros Hx E a s'. unfold store_handler, set_handlers, on_ihm, modify. intros [= <- <-].
  unfold similar, quiet. simpl. by rewrite (insert_fmap_id _ _ _ _ _ Hx E).
Qed.

Lemma similar_call_handler {A} h (f : IsoHandler -> A * IsoHandler) : (forall x, forget_next (f x).2 = forget_next x) ->
  within similar (call_handler h f).
Proof.
  intros Hf s a s' (x & s1 & [-> Hx]%the_handler_inv & (u & s2 & E1 & E2)%run_bind_inv)%run_bind_inv.
  unfold mret, run_ret in E2. injection E2 as <- <-. eapply similar_store; [done|apply Hf|done].
Qed.

Hint Resolve similar_on_task within_call_ext within_on_ext : within.

Lemma similar_signal t : within similar (task_signalActivity t).
Proof. by apply similar_on_task. Qed.
Hint Resolve similar_signal : within.

Lemma similar_request_update t : within similar (task_requestShadowMapUpdate t).
Proof. unfold task_requestShadowMapUpdate. within. Qed.

Hint Resolve similar_request_update similar_call_handler : within.

Lemma similar_find_handler stream l : within similar (find_handler stream l).
Proof. induction l; simpl; within. Qed.

Lemma similar_request_and_update f h : (forall x, forget_next (f x).2 = forget_next x) -> within similar (request_and_update f h).
Proof. intros. unfold request_and_update. within. Qed.

Hint Resolve similar_find_handler similar_request_and_update : within.

Lemma similar_request_for_stream f stream : (forall x, forget_next (f x).2 = forget_next x) -> within similar (request_for_stream f stream).
Proof.
  intros. unfold request_for_stream, getHandlerForStream. within.
Qed.

Lemma forget_requestEnable cycle x : forget_next (requestEnable cycle x).2 = forget_next x.
Proof. destruct x as [? ? [? ? [] ? ?]]; done. Qed.
Lemma forget_requestDisable x : forget_next (requestDisable x).2 = forget_next x.
Proof. destruct x as [? ? [? ? [] ? ?]]; done. Qed.

Lemma request_similar s s' : request_step s s' -> similar s s'.
Proof.
  intros [m k k'|? ? E|? ? E|? ? ? ? ? E|? ? ? ? E]; [done|by eapply similar_signal..| |].
  - eapply similar_request_for_stream; [apply forget_requestEnable|exact E].
  - eapply similar_request_for_stream; [apply forget_requestDisable|exact E].
Qed.

Lemma requests_similar s s' : rtc request_step s s' -> similar s s'.
Proof. induction 1; [done|]. etrans; [by apply request_similar|done]. Qed.

(** ** What the packet functions keep

    The parts of the handlers that are not about packets or requests. *)
Definition standing (m : IsoHandlerManager) : list Z * list Z * gmap Z (iso_config * iso_life) :=
  (m_IsoHandlers m, m_StreamProcessors m, (fun x => (conf x, life (forget_next x))) <$> handlers m).
Definition steady : relation (iso_system K) := fun s s' => standing (ihm s) = standing (ihm s').

#[export] Instance steady_equiv : Equivalence steady.
Proof. split; unfold steady; red; congruence. Qed.

Lemma standing_quiet m : standing (quiet m) = standing m.
Proof. unfold standing. simpl. f_equal. rewrite <- map_fmap_compose. by apply map_fmap_ext. Qed.

Lemma similar_steady s s' : similar s s' -> steady s s'.
Proof. unfold similar, steady. intros E. by rewrite <- (standing_quiet (ihm s)), E, standing_quiet. Qed.

Lemma steady_lookup s s' h x : steady s s' -> handlers (ihm s) !! h = Some x ->
  exists x', handlers (ihm s') !! h = Some x' /\ conf x' = conf x /\ life (forget_next x') = life (forget_next x).
Proof.
  intros E Hx. injection E as _ _ E. apply (f_equal (lookup h)) in E. rewrite !lookup_fmap, Hx in E. simpl in E.
  destruct (handlers (ihm s') !! h) as [x'|]; [|done]. simpl in E. injection E as E1 E2 E3 E4 E5. exists x'.
  split_and!; [done..|]. destruct x as [? ? []], x' as [? ? []]; unfold forget_next, set_next, on_life; simpl in *; congruence.
Qed.

Lemma within_mono {A} (R R' : relation (iso_system K)) (m : I A) : (forall s s', R s s' -> R' s s') -> within R m -> within R' m.
Proof. intros HR Hm s a s' E. by eapply HR, Hm. Qed.

Lemma steady_of_similar {A} (m : I A) : within similar m -> within steady m.
Proof. apply within_mono, similar_steady. Qed.

Lemma steady_store s h x y : handlers (ihm s) !! h = Some x -> conf y = conf x -> life (forget_next y) = life (forget_next x) ->
  forall a s', store_handler h y s = Some (a, s') -> steady s s'.
Proof.
  intros Hx E1 E2 a s'. unfold store_handler, set_handlers, on_ihm, modify. intros [= <- <-].
  unfold steady, standing.
  cbn [ihm m_IsoHandlers m_StreamProcessors handlers]. f_equal. symmetry. apply (insert_fmap_id _ _ _ _ _ Hx). by rewrite E1, E2.
Qed.

Lemma steady_on_handler h f : (forall x, conf (f x) = conf x /\ life (forget_next (f x)) = life (forget_next x)) ->
  within steady (on_handler h f).
Proof.
  intros Hf s a s' (x & s1 & [-> Hx]%the_handler_inv & E)%run_bind_inv. by eapply steady_store; [exact Hx|apply Hf..|exact E].
Qed.

(** A program that reads the handler, stores a steady change of it, and goes on. *)
Lemma steady_update {A} h (f : IsoHandler -> IsoHandler) (k : IsoHandler -> I A) :
  (forall x, conf (f x) = conf x /\ life (forget_next (f x)) = life (forget_next x)) ->
  (forall x, within steady (k x)) -> within steady (x ← the_handler h; store_handler h (f x) ;; k x).
Proof.
  intros Hf Hk s a s' (x & s1 & [-> Hx]%the_handler_inv & (u & s2 & E1 & E2)%run_bind_inv)%run_bind_inv.
  etrans; [by eapply steady_store; [exact Hx|apply Hf..|exact E1]|by eapply Hk].
Qed.

Lemma steady_on_task t f : within steady (on_task t f).
Proof.
  intros s a s' (x & s1 & (o & s2 & E1 & E2)%run_bind_inv & E3)%run_bind_inv. unfold gets in E1.
  injection E1 as <- <-. destruct s as [m k], t; simpl in *; unfold deref in E2;
    [destruct (m_IsoTaskReceive m) | destruct (m_IsoTaskTransmit m)]; try done; simpl in E2;
    injection E2 as <- <-; unfold set_task, on_ihm, modify in E3; by injection E3 as <- <-.
Qed.
Lemma steady_set_task t x : within steady (set_task t x).
Proof. intros s a s'. unfold set_task, on_ihm, modify. destruct t; by intros [= <- <-]. Qed.

End steps.

(** ** The code around the manager *)

Section laws.
Context {K : Type} `{Raw1394 K} `{IsoClient K} `{IsoService K}.

(** The operations of the manager that the client threads call. *)
Inductive client_step : relation (iso_system K) :=
  | client_request s s' : request_step s s' -> client_step s s'
  | client_register stream s b s' : IHM_registerStream stream s = Some (b, s') -> client_step s s'
  | client_unregister stream s b s' : IHM_unregisterStream stream s = Some (b, s') -> client_step s s'
  | client_stop_all s b s' : stopHandlers s = Some (b, s') -> client_step s s'
  | client_start_cycle stream cycle s s' : setIsoStartCycleForStream stream cycle s = Some (tt, s') -> client_step s s'
  | client_missed_ok ok s s' : setMissedCyclesOK ok s = Some (tt, s') -> client_step s s'
  | client_thread_parameters rt prio s b s' : IHM_setThreadParameters rt prio s = Some (b, s') -> client_step s s'.

(** The steps of the two tasks, and the manager's reaction to a bus reset. *)
Inductive task_step : relation (iso_system K) :=
  | task_Init t s b s' : IsoTask_Init t s = Some (b, s') -> task_step s s'
  | task_Execute t s b s' : Execute t s = Some (b, s') -> task_step s s'
  | task_bus_reset s b s' : IHM_handleBusReset s = Some (b, s') -> task_step s s'.

Definition history : relation (iso_system K) := rtc (fun s s' => client_step s s' \/ task_step s s').

End laws.

Class IsoLaws (K : Type) `{Raw1394 K} `{IsoClient K} `{IsoService K} := {
  law_canProducePacket c : within (rtc request_step) (client_canProducePacket c);
  law_canConsumePacket c : within (rtc request_step) (client_canConsumePacket c);
  law_putPacket c data length channel tag sy ctr dropped :
    within (rtc request_step) (client_putPacket c data length channel tag sy ctr dropped);
  law_getPacket c p ctr dropped skipped max : within (rtc request_step) (client_getPacket c p ctr dropped skipped max);
  law_handleBusReset c : within (rtc request_step) (client_handleBusReset c);
  law_handlerDied c : within (rtc request_step) (client_handlerDied c);
  law_packetsStopped c : within (rtc request_step) (client_packetsStopped c);
  law_usleep n : within (rtc client_step) (usleep n);
  law_task_wait t ts : within (rtc client_step) (task_wait_blocked t ts);
  law_poll fds n : within (rtc client_step) (poll fds n);
}.
