(* ===== verification/IsoExample.v ===== *)
(** * A bus with isochronous handlers

    A concrete library, concrete clients and a concrete operating system for IsoManager, with the laws of IsoSteps, and a run: two streams are
    registered, started, receive and send packets, are stopped and removed.  The library hands out
    the events of a list; the clients log the time and the loss that they are told. *)
From stdpp Require Import gmap strings relations.
From S2P Require Import Prelude CycleTimer StreamProcessor StreamManager IsoHandlers IsoManager IsoSteps.
#[local] Open Scope Z_scope.

Record bench := mkBench {
  b_handles : Z;
  b_refuse : bool;
  b_events : list raw_event;
  b_answers : list raw1394_iso_disposition;
  b_log : list (Z * Z);
  b_now : Z;
}.

#[export] Instance bench_raw : Raw1394 bench := {
  raw1394_new_handle_on_port b := (Some (b_handles b),
    mkBench (b_handles b + 1) (b_refuse b) (b_events b) (b_answers b) (b_log b) (b_now b));
  raw1394_iso_recv_init _ _ _ b := (if b_refuse b then -1 else 0, b);
  raw1394_iso_xmit_init _ _ _ b := (if b_refuse b then -1 else 0, b);
  raw1394_next_event call _ b :=
    match call, b_events b with
    | raw1394_loop_iterate, e :: es => (e, mkBench (b_handles b) (b_refuse b) es (b_answers b) (b_log b) (b_now b))
    | _, _ => (CallDone 0, b)
    end;
  raw1394_answer _ _ _ b := b;
  serve_fuel := 100;
  raw1394_wake_up _ b := b;
  raw1394_iso_stop _ b := b;
  raw1394_iso_shutdown _ b := b;
  raw1394_destroy_handle _ b := b;
  raw1394_read_cycle_time _ b := b;
  raw1394_get_fd h _ := h;
}.

Definition log_packet (ctr dropped : Z) (b : bench) : bench :=
  mkBench (b_handles b) (b_refuse b) (b_events b) (b_answers b) (b_log b ++ [(ctr, dropped)]) (b_now b).
Definition next_answer (b : bench) : raw1394_iso_disposition * bench :=
  match b_answers b with
  | d :: ds => (d, mkBench (b_handles b) (b_refuse b) (b_events b) ds (b_log b) (b_now b))
  | [] => (RAW1394_ISO_OK, b)
  end.

(** Streams with even addresses receive. *)
#[export] Instance bench_client : IsoClient bench := {
  client_getType stream _ := if Z.even stream then ePT_Receive else ePT_Transmit;
  client_getPacketsPerPeriod _ _ := 16;
  client_getMaxPacketSize _ _ := 520;
  client_getChannel stream _ := stream;
  client_canProducePacket _ := mret true;
  client_canConsumePacket _ := mret true;
  client_putPacket _ _ _ _ _ _ ctr dropped := on_ext (log_packet ctr dropped) ;; call_ext next_answer;
  client_getPacket _ p ctr dropped _ _ := on_ext (log_packet ctr dropped) ;; d ← call_ext next_answer; mret (d, p);
  client_handleBusReset _ := mret true;
  client_handlerDied _ := mret ();
  client_packetsStopped _ := mret ();
}.

#[export] Program Instance bench_service : IsoService bench := {
  getCycleTimer b := (b_now b, b);
  config_value _ _ := None;
  getpagesize := 4096;
  malloc _ X := fresh X;
  iso_junk _ := 7;
  iso_debug_build := false;
  thread_create _ _ b := (0, b);
  set_sched _ _ b := b;
  thread_join _ := mret ();
  getCurrentTimeAsUsecs b := (0, b);
  realtime_clock b := (Some (0, 0), b);
  usleep _ := mret ();
  task_wait_blocked _ _ := mret None;
  poll fds _ := mret (1, 0, replicate (length fds) POLLIN);
  iso_ETIMEDOUT := 110;
  iso_EINTR := 4;
  poll_fuel := 10;
}.
Next Obligation. intros. apply is_fresh. Qed.

Lemma within_requests_ret {A} (a : A) : within (rtc (request_step (K:=bench))) (mret a).
Proof. intros s b s' [= <- <-]. apply rtc_refl. Qed.
Lemma within_requests_ext {A} (f : st bench A) : within (rtc request_step) (call_ext f).
Proof. intros [m k] a s'. unfold call_ext. simpl. destruct (f k). intros [= <- <-]. apply rtc_once, request_ext. Qed.
Lemma within_requests_on_ext f : within (rtc (request_step (K:=bench))) (on_ext f).
Proof. intros [m k] a s' [= <- <-]. apply rtc_once, request_ext. Qed.
Lemma within_client_ret {A} (a : A) : within (rtc (client_step (K:=bench))) (mret a).
Proof. intros s b s' [= <- <-]. apply rtc_refl. Qed.

#[export] Instance bench_laws : IsoLaws bench.
Proof.
  split; intros; simpl; try apply within_requests_ret; try apply within_client_ret;
    (apply within_bind; [apply _|apply within_requests_on_ext|intros _]); [apply within_requests_ext|].
  apply within_bind; [apply _|apply within_requests_ext|intros d]. apply within_requests_ret.
Qed.

(** Cycle 7999 of second 127, and packets around the wrap of both counters. *)
Definition bench_now : Z := CYCLE_TIMER_SET_SECS (CYCLE_TIMER_SET_CYCLES 100 7999) 127.
Definition bench_events : list raw_event :=
  [PacketReceived [] 8 2 1 0 7998 0; PacketReceived [] 8 2 1 0 7999 0; PacketReceived [] 8 2 1 0 1 0; CallDone 0;
   PacketRequested (mkPacket [] 0 0 0) 20 0; PacketRequested (mkPacket [] 0 0 0) 21 0; PacketRequested (mkPacket [] 0 0 0) 22 0; CallDone 0].
Definition bench_start : iso_system bench :=
  mkIso (IsoHandlerManager_new false true 50) (mkBench 1 false bench_events
    [RAW1394_ISO_OK; RAW1394_ISO_OK; RAW1394_ISO_OK; RAW1394_ISO_OK; RAW1394_ISO_DEFER; RAW1394_ISO_OK] [] bench_now).

(** Two streams from registration to removal. *)
Definition bench_run : run (iso_system bench) (list bool) :=
  b0 ← IHM_init; b1 ← IsoTask_Init eHT_Transmit; b2 ← IsoTask_Init eHT_Receive;
  b3 ← IHM_registerStream 2; b4 ← IHM_registerStream 3;
  b5 ← IHM_startHandlerForStream 2 (-1); b6 ← IHM_startHandlerForStream 3 (-1);
  b7 ← Execute eHT_Receive; b8 ← Execute eHT_Transmit;
  b9 ← IHM_stopHandlerForStream 2; b10 ← IHM_stopHandlerForStream 3;
  b11 ← Execute eHT_Receive; b12 ← Execute eHT_Transmit;
  b13 ← IHM_unregisterStream 2; b14 ← IHM_unregisterStream 3;
  mret [b0; b1; b2; b3; b4; b5; b6; b7; b8; b9; b10; b11; b12; b13; b14].

(** Every step succeeds; the packets carry the times of their cycles (the third in the second after the wrap, with one lost
    cycle reported), and nothing is left at the end. *)
Example bench_run_result :
  (fun r : list bool * iso_system bench => (forallb id r.1, map (fun p : Z * Z => (CYCLE_TIMER_GET_SECS p.1, CYCLE_TIMER_GET_CYCLES p.1, p.2)) (b_log (ext r.2)),
     map_to_list (handlers (ihm r.2)), m_IsoHandlers (ihm r.2), m_StreamProcessors (ihm r.2))) <$> bench_run bench_start
  = Some (true, [(127, 7998, 0); (127, 7999, 0); (0, 1, 1); (0, 20, 0); (0, 21, 0); (0, 22, 0)], [], [], []).
Proof. vm_compute. reflexivity. Qed.

(** The state after a program that succeeds. *)
Definition bench_after {A} (m : run (iso_system bench) A) (s : iso_system bench) : iso_system bench :=
  match m s with Some (_, s') => s' | None => s end.

Definition bench_ready : iso_system bench := bench_after IHM_init bench_start.
(** The streams 2 and 3 are registered. *)
Definition bench_two : iso_system bench := bench_after (IHM_registerStream 3) (bench_after (IHM_registerStream 2) bench_ready).
(** The tasks have been initialised, and the handlers run. *)
Definition bench_running : iso_system bench :=
  bench_after (IHM_startHandlerForStream 2 (-1) ;; IHM_startHandlerForStream 3 (-1) ;; serve_request eHT_Receive ;; serve_request eHT_Transmit)
    (bench_after (IsoTask_Init eHT_Transmit ;; IsoTask_Init eHT_Receive) bench_two).
