(* ===== verification/IsoRegistry.v ===== *)
(** * Registration of streams with the isochronous handlers

    Theorems on IsoManager over all histories of IsoSteps: every registered stream has exactly one handler, every
    handler that exists serves one registered stream, and a running handler has a handle of libraw1394. *)
From stdpp Require Import gmap strings relations.
From S2P Require Import Prelude CycleTimer StreamProcessor StreamManager IsoHandlers IsoManager IsoSteps IsoExample.
#[local] Open Scope Z_scope.

Section registry.
Context {K : Type} `{IsoLaws K}.

Abbreviation I := (run (iso_system K)).
Implicit Types s : iso_system K.

(** ** The packet functions are steady *)

Lemma steady_requests {A} (m : I A) : within (rtc request_step) m -> within steady m.
Proof. apply within_mono. intros s s' R. by apply similar_steady, requests_similar. Qed.

Lemma steady_call_ext {A} (f : st K A) : within steady (call_ext f).
Proof. apply steady_of_similar, within_call_ext. Qed.
Lemma steady_on_ext f : within steady (@on_ext K f).
Proof. apply steady_of_similar, within_on_ext. Qed.

Hint Extern 4 (within steady (client_canProducePacket _)) => apply steady_requests, law_canProducePacket : within.
Hint Extern 4 (within steady (client_canConsumePacket _)) => apply steady_requests, law_canConsumePacket : within.
Hint Extern 4 (within steady (client_putPacket _ _ _ _ _ _ _ _)) => apply steady_requests, law_putPacket : within.
Hint Extern 4 (within steady (client_getPacket _ _ _ _ _ _)) => apply steady_requests, law_getPacket : within.
Hint Extern 4 (within steady (client_handleBusReset _)) => apply steady_requests, law_handleBusReset : within.
Hint Extern 4 (within steady (client_handlerDied _)) => apply steady_requests, law_handlerDied : within.
Hint Extern 4 (within steady (client_packetsStopped _)) => apply steady_requests, law_packetsStopped : within.
Hint Resolve steady_call_ext steady_on_ext steady_on_task steady_set_task : within.
Hint Extern 4 (within steady (on_handler _ _)) => apply steady_on_handler; intros ?; repeat case_match; done : within.

Lemma steady_canIterateClient h : within steady (canIterateClient h).
Proof. unfold canIterateClient. within. Qed.

Lemma steady_putPacket h data length channel tag sy cycle dropped :
  within steady (IsoHandler_putPacket h data length channel tag sy cycle dropped).
Proof.
  intros s a s' (x & s1 & [-> Hx]%the_handler_inv & (ok & s2 & [= <- <-] & (u & s3 & E1 & E2)%run_bind_inv)%run_bind_inv)%run_bind_inv.
  etrans; [by eapply steady_store; [exact Hx| | |exact E1]|].
  destruct (m_Client (life x)); [by eapply (steady_requests _ (law_putPacket _ _ _ _ _ _ _ _))|by injection E2 as <- <-].
Qed.

Lemma steady_packet_from_client h x p cycle pkt_ctr dropped skipped :
  within steady (packet_from_client h x p cycle pkt_ctr dropped skipped).
Proof. unfold packet_from_client. within. Qed.

Lemma steady_getPacket h p cycle dropped skipped : within steady (IsoHandler_getPacket h p cycle dropped skipped).
Proof.
  intros s a s' (x & s1 & [-> Hx]%the_handler_inv & (u & s2 & E1 & E2)%run_bind_inv)%run_bind_inv.
  etrans; [by eapply steady_store; [exact Hx| | |exact E1]|by eapply steady_packet_from_client].
Qed.

Hint Resolve steady_canIterateClient steady_putPacket steady_getPacket : within.

Lemma steady_serve fuel call h handle : within steady (serve fuel call h handle).
Proof. induction fuel; simpl; unfold iso_receive_handler, iso_transmit_handler; within. Qed.
Hint Resolve steady_serve : within.

Lemma steady_handle_of h : within steady (@handle_of K h).
Proof. unfold handle_of. within. Qed.
Lemma steady_client_of h : within steady (@client_of K h).
Proof. unfold client_of. within. Qed.
Hint Resolve steady_handle_of steady_client_of : within.

Lemma steady_iterate h now : within steady (iterate h now).
Proof. unfold iterate. within. Qed.
Lemma steady_start_context h handle cycle : within steady (start_context h handle cycle).
Proof. unfold start_context. within. Qed.
Lemma steady_handler_bus_reset h : within steady (IsoHandler_handleBusReset h).
Proof. unfold IsoHandler_handleBusReset. within. Qed.
Hint Resolve steady_iterate steady_start_context steady_handler_bus_reset : within.

(** ** The life cycle keeps clients and handles *)

Definition run_ok (x : IsoHandler) : Prop := m_State (life x) = eHS_Running -> m_handle (life x) <> None.
Definition handles_ok (m : IsoHandlerManager) : Prop := map_Forall (fun _ => run_ok) (handlers m).
Definition clients (m : IsoHandlerManager) : list Z * list Z * gmap Z (iso_config * option Z) :=
  (m_IsoHandlers m, m_StreamProcessors m, (fun x => (conf x, m_Client (life x))) <$> handlers m).
Definition keeps : relation (iso_system K) := fun s s' =>
  clients (ihm s) = clients (ihm s') /\ (handles_ok (ihm s) -> handles_ok (ihm s')).

#[local] Instance keeps_preorder : PreOrder keeps.
Proof. split; [by split|]. intros s1 s2 s3 [E1 P1] [E2 P2]. split; [congruence|auto]. Qed.

Lemma steady_keeps s s' : steady s s' -> keeps s s'.
Proof.
  intros E. split.
  - injection E as E1 E2 E3. unfold clients. f_equal; [by f_equal|].
    apply (f_equal (fmap (fun c : iso_config * iso_life => (c.1, m_Client c.2)))) in E3. by rewrite <- !map_fmap_compose in E3.
  - intros P h x Hx. symmetry in E. destruct (steady_lookup _ _ _ _ E Hx) as (y & Hy & _ & L).
    specialize (P h y Hy). destruct x as [? ? []], y as [? ? []]. injection L. unfold run_ok in *. simpl in *. intros. subst. auto.
Qed.

Lemma keeps_of_steady {A} (m : I A) : within steady m -> within keeps m.
Proof. apply within_mono, steady_keeps. Qed.

Lemma keeps_store s h x y : handlers (ihm s) !! h = Some x -> conf y = conf x -> m_Client (life y) = m_Client (life x) ->
  (run_ok x -> run_ok y) -> forall a s', store_handler h y s = Some (a, s') -> keeps s s'.
Proof.
  intros Hx E1 E2 Hok a s'. unfold store_handler, set_handlers, on_ihm, modify. intros [= <- <-]. split.
  - unfold clients. cbn [ihm m_IsoHandlers m_StreamProcessors handlers]. f_equal. symmetry.
    apply (insert_fmap_id _ _ _ _ _ Hx). by rewrite E1, E2.
  - simpl. intros P. apply map_Forall_insert_2; [|done]. by apply Hok, (P h).
Qed.

Lemma keeps_on_handler h f :
  (forall x, conf (f x) = conf x /\ m_Client (life (f x)) = m_Client (life x) /\ (run_ok x -> run_ok (f x))) ->
  within keeps (on_handler h f).
Proof.
  intros Hf s a s' (x & s1 & [-> Hx]%the_handler_inv & E)%run_bind_inv. by eapply keeps_store; [exact Hx|apply Hf..|exact E].
Qed.

Lemma on_handler_inv h f s a s' : on_handler h f s = Some (a, s') ->
  exists x, handlers (ihm s) !! h = Some x /\ handlers (ihm s') = <[h := f x]> (handlers (ihm s)).
Proof.
  intros (x & s1 & [-> Hx]%the_handler_inv & E)%run_bind_inv. exists x. split; [done|].
  unfold store_handler, set_handlers, on_ihm, modify in E. by injection E as <- <-.
Qed.

(** Starting a handler: its handle stays in place while the library calls back. *)
Lemma keeps_start h handle cycle : within keeps
  (on_handler h (set_handle (Some handle)) ;; on_handler h reset_progress ;; ok ← start_context h handle cycle;
   if negb ok then mret false else on_handler h (set_states eHS_Running eHS_Running) ;; mret true).
Proof.
  intros s a s' (u & s1 & E1 & (v & s2 & E2 & (ok & s3 & E3 & E4)%run_bind_inv)%run_bind_inv)%run_bind_inv.
  assert (keeps s s1) as K1 by (eapply keeps_on_handler; [|exact E1]; done).
  assert (steady s1 s3) as K3.
  { etrans; [by eapply steady_on_handler; [|exact E2]|by eapply steady_start_context]. }
  etrans; [exact K1|]. etrans; [by apply steady_keeps|].
  destruct ok; simpl in E4; [|by injection E4 as <- <-].
  apply run_bind_inv in E4 as (w & s4 & E4 & [= <- <-]).
  destruct (on_handler_inv _ _ _ _ _ E1) as (x & Hx & Es1).
  destruct (steady_lookup _ _ h (set_handle (Some handle) x) K3) as (y & Hy & _ & L); [by rewrite Es1, lookup_insert_eq|].
  apply run_bind_inv in E4 as (y' & s5 & [-> Hy']%the_handler_inv & E4).
  rewrite Hy in Hy'. injection Hy' as <-.
  eapply (keeps_store _ _ _ _ Hy); [..|exact E4]; [done|done|intros _ _]. injection L as L _. simpl in *. congruence.
Qed.

Hint Extern 6 (within keeps _) => apply keeps_of_steady; solve [auto with within] : within.

(** A failed attempt to get a handle, of a stopped handler. *)
Lemma keeps_no_handle s h x : handlers (ihm s) !! h = Some x -> isEnabled x = false -> forall a s',
  on_handler h (set_handle None) s = Some (a, s') -> keeps s s'.
Proof.
  intros Hx En a s' (y & s1 & [-> Hy]%the_handler_inv & E)%run_bind_inv. simplify_eq.
  eapply (keeps_store _ _ _ _ Hx); [..|exact E]; [done|done|]. intros _ R. unfold isEnabled in En.
  by apply bool_decide_eq_false_1 in En.
Qed.

Lemma call_ext_inv {A} (f : st K A) s a s' : call_ext f s = Some (a, s') -> ihm s' = ihm s.
Proof. unfold call_ext. destruct (f (ext s)). by intros [= <- <-]. Qed.
Lemma assert_inv f s u s' : @assert_that (iso_system K) f s = Some (u, s') -> s' = s /\ f s = true.
Proof. unfold assert_that. destruct (f s); [|done]. by intros [= <-]. Qed.

Lemma keeps_enable h cycle : within keeps (IsoHandler_enable h cycle).
Proof.
  intros s a s' (x & s1 & [-> Hx]%the_handler_inv & E)%run_bind_inv. destruct (isEnabled x) eqn:En; [by injection E as <- <-|].
  apply run_bind_inv in E as (u & s2 & [-> _]%assert_inv & (handle & s3 & E1 & E)%run_bind_inv).
  etrans; [by apply steady_keeps; eapply steady_call_ext|]. apply call_ext_inv in E1.
  destruct handle as [handle|]; [by eapply keeps_start|].
  apply run_bind_inv in E as (w & s4 & E & [= <- <-]). eapply keeps_no_handle; [by rewrite E1|done|done].
Qed.

Lemma keeps_disable w h : within keeps (IsoHandler_disable w h).
Proof.
  unfold IsoHandler_disable. apply within_bind; [apply _|within|intros x]. destruct (isEnabled x); [|within]. simpl.
  do 3 (apply within_bind; [apply _|within|intros ?]).
  apply within_bind; [apply _|by apply keeps_on_handler|intros _]. within.
Qed.
Hint Resolve keeps_enable keeps_disable : within.

Lemma keeps_updateState h : within keeps (IsoHandler_updateState h).
Proof. unfold IsoHandler_updateState, disable_now. within. Qed.
Lemma keeps_notifyOfDeath h : within keeps (notifyOfDeath h).
Proof. unfold notifyOfDeath, disable_now. within. Qed.
Hint Resolve keeps_updateState keeps_notifyOfDeath : within.

(** ** Tasks *)

Lemma within_the_task R `{!Reflexive R} t : within R (@the_task K t).
Proof. unfold the_task. intros s a s' (o & s1 & [= <- <-] & E)%run_bind_inv. by eapply within_deref. Qed.

Hint Extern 4 (within _ (the_task _)) => apply within_the_task; apply _ : within.

Lemma steady_shadow_handler t i : within steady (@shadow_handler K t i).
Proof. unfold shadow_handler. within. Qed.
Lemma steady_handler_at i : within steady (@handler_at K i).
Proof. unfold handler_at. within. Qed.
Lemma steady_shadow_entry t cnt h : within steady (shadow_entry t cnt h).
Proof. unfold shadow_entry. within. Qed.
Lemma steady_task_request t : within steady (@task_requestShadowMapUpdate K t).
Proof. apply steady_of_similar, similar_request_update. Qed.
Hint Resolve steady_shadow_handler steady_handler_at steady_shadow_entry steady_task_request : within.

Lemma steady_bus_reset_handlers t n i : within steady (bus_reset_handlers t n i).
Proof. revert i. induction n; intros i; simpl; within. Qed.
Hint Resolve steady_bus_reset_handlers : within.
Lemma steady_task_bus_reset t : within steady (task_handleBusReset t).
Proof. unfold task_handleBusReset. within. Qed.
Lemma steady_mark_pollable t n i : within steady (mark_pollable t n i).
Proof. revert i. induction n; intros i; simpl; within. Qed.
Lemma steady_iterate_handlers t ctr n i : within steady (iterate_handlers t ctr n i).
Proof. revert i. induction n; intros i; simpl; within. Qed.
Lemma steady_runaway t : within steady (runaway t).
Proof. unfold runaway. within. Qed.
Hint Resolve steady_task_bus_reset steady_mark_pollable steady_iterate_handlers steady_runaway : within.

Lemma keeps_shadow_handlers t n i cnt : within keeps (shadow_handlers t n i cnt).
Proof. revert i cnt. induction n; intros i cnt; simpl; within. Qed.
Hint Resolve keeps_shadow_handlers : within.
Lemma keeps_serve_request t : within keeps (serve_request t).
Proof. unfold serve_request, updateShadowMapHelper. within. Qed.
Lemma keeps_find_dead t ctr n i : within keeps (find_dead t ctr n i).
Proof. revert i. induction n; intros i; simpl; within. Qed.
Hint Resolve keeps_serve_request keeps_find_dead : within.
Lemma keeps_serve_handlers t ctr : within keeps (serve_handlers t ctr).
Proof. unfold serve_handlers. within. Qed.

(** ** The invariant *)

Definition client_at (m : IsoHandlerManager) (h : Z) : option Z := x ← handlers m !! h; m_Client (life x).

(** The handlers and the streams correspond to each other one to one; there are no other
    handlers in memory. *)
Definition registry_ok (m : IsoHandlerManager) : Prop :=
  NoDup (m_IsoHandlers m) /\ NoDup (m_StreamProcessors m)
  /\ Forall2 (fun h stream => client_at m h = Some stream) (m_IsoHandlers m) (m_StreamProcessors m)
  /\ (forall h, is_Some (handlers m !! h) <-> h ∈ m_IsoHandlers m).

Definition iso_invariant (m : IsoHandlerManager) : Prop := registry_ok m /\ handles_ok m.
Definition inv_kept : relation (iso_system K) := fun s s' => iso_invariant (ihm s) -> iso_invariant (ihm s').

#[local] Instance inv_kept_preorder : PreOrder inv_kept.
Proof. unfold inv_kept. split; red; auto. Qed.

Lemma clients_registry m m' : clients m = clients m' -> registry_ok m -> registry_ok m'.
Proof.
  intros [= El Es Em] (N1 & N2 & F & D). assert (forall h, fmap (M:=option) (fun x => (conf x, m_Client (life x))) (handlers m !! h)
    = (fun x => (conf x, m_Client (life x))) <$> (handlers m' !! h)) as L by (intros h; by rewrite <- !lookup_fmap, Em).
  split_and!; [by rewrite <- El|by rewrite <- Es| |].
  - rewrite <- El, <- Es. eapply Forall2_impl; [|exact F]. intros h stream. unfold client_at. specialize (L h).
    destruct (handlers m !! h), (handlers m' !! h); try done. simpl in *. congruence.
  - intros h. rewrite <- El, <- (D h). specialize (L h).
    destruct (handlers m !! h), (handlers m' !! h); try done; split; by intros [? ?].
Qed.

Lemma keeps_inv s s' : keeps s s' -> inv_kept s s'.
Proof. intros [E P] [R Ha]. split; [by eapply clients_registry|auto]. Qed.
Lemma inv_of_keeps {A} (m : I A) : within keeps m -> within inv_kept m.
Proof. apply within_mono, keeps_inv. Qed.
Lemma inv_of_similar {A} (m : I A) : within similar m -> within inv_kept m.
Proof. intros W. by apply inv_of_keeps, keeps_of_steady, steady_of_similar. Qed.

(** ** Reading the registered handlers *)

Definition all_live (l : list Z) (m : IsoHandlerManager) : Prop := forall h, h ∈ l -> is_Some (handlers m !! h).

Lemma all_live_cons h l m : all_live (h :: l) m -> exists x, handlers m !! h = Some x /\ all_live l m.
Proof.
  intros L. destruct (L h) as [x Hx]; [apply elem_of_cons; by left|]. exists x. split; [done|]. intros k Hk. apply L.
  apply elem_of_cons. by right.
Qed.

Lemma the_handler_Some h s x : handlers (ihm s) !! h = Some x -> the_handler h s = Some (x, s).
Proof. unfold the_handler. by intros ->. Qed.

Lemma select_handlers_spec f l s : all_live l (ihm s) ->
  select_handlers f l s = Some (filter (fun h => f <$> handlers (ihm s) !! h = Some true) l, s).
Proof.
  induction l as [|h l IH]; intros L; [done|]. apply all_live_cons in L as (x & Hx & L). simpl.
  run_step with (the_handler_Some h s x Hx). run_step with (IH L). unfold mret, run_ret. do 2 f_equal.
  destruct (f x) eqn:E; symmetry; [apply filter_cons_True|apply filter_cons_False]; rewrite Hx; simpl; congruence.
Qed.

Lemma find_handler_spec stream l s : all_live l (ihm s) ->
  find_handler stream l s = Some (list_find (fun h => client_at (ihm s) h = Some stream) l ≫= (fun p => Some p.2), s).
Proof.
  induction l as [|h l IH]; intros L; [done|]. apply all_live_cons in L as (x & Hx & L). simpl.
  run_step with (the_handler_Some h s x Hx). unfold isStreamRegistered. assert (client_at (ihm s) h = m_Client (life x)) as C by (unfold client_at; by rewrite Hx).
  case_bool_decide as B.
  - rewrite decide_True by congruence. done.
  - rewrite decide_False by congruence. rewrite (IH L). by destruct (list_find _ l) as [[]|].
Qed.

Lemma registry_live m : registry_ok m -> all_live (m_IsoHandlers m) m.
Proof. intros (_ & _ & _ & D) h Hh. by apply D. Qed.

Lemma getHandlerForStream_spec stream s : registry_ok (ihm s) -> exists o, getHandlerForStream stream s = Some (o, s)
  /\ match o with
     | Some h => h ∈ m_IsoHandlers (ihm s) /\ client_at (ihm s) h = Some stream /\ stream ∈ m_StreamProcessors (ihm s)
     | None => stream ∉ m_StreamProcessors (ihm s)
     end.
Proof.
  intros R. unfold getHandlerForStream. run_step. rewrite find_handler_spec by by apply registry_live.
  destruct R as (_ & _ & F & _). eexists. split; [done|].
  destruct (list_find _ _) as [[i h]|] eqn:E; simpl.
  - apply list_find_Some in E as (Hi & C & _). split_and!; [by eapply list_elem_of_lookup_2|done|].
    destruct (Forall2_lookup_l _ _ _ _ _ F Hi) as (stream' & Hs & C'). rewrite C in C'. injection C' as <-.
    by eapply list_elem_of_lookup_2.
  - intros [i Hs]%list_elem_of_lookup. destruct (Forall2_lookup_r _ _ _ _ _ F Hs) as (h & Hh & C).
    apply list_find_None in E. by apply (Forall_lookup_1 _ _ _ _ E Hh).
Qed.

(** ** Pruning *)

Lemma prune_none s : registry_ok (ihm s) -> pruneHandlers s = Some ((), s).
Proof.
  intros R. unfold pruneHandlers. run_step. run_step with (select_handlers_spec _ _ _ (registry_live _ R)).
  destruct R as (_ & _ & F & _).
  replace (filter _ _) with (@nil Z); [done|]. symmetry. apply filter_none. intros h [i Hi]%list_elem_of_lookup.
  destruct (Forall2_lookup_l _ _ _ _ _ F Hi) as (stream & _ & C). unfold client_at, inUse in *.
  destruct (handlers (ihm s) !! h) as [x|]; [|done]. simpl in *. rewrite C. by rewrite bool_decide_true.
Qed.

(** ** Registration of a stream *)

Lemma registry_add m h stream c : registry_ok m -> handlers m !! h = None -> stream ∉ m_StreamProcessors m -> forall m',
  clients m' = (m_IsoHandlers m ++ [h], m_StreamProcessors m ++ [stream],
                <[h := (c, Some stream)]> ((fun x => (conf x, m_Client (life x))) <$> handlers m)) -> registry_ok m'.
Proof.
  intros (N1 & N2 & F & D) Hh Hs m' E. assert (h ∉ m_IsoHandlers m) as Hl by (rewrite <- D, Hh; by intros [? ?]).
  set (m0 := mkIHM (ihm_State m) (m_IsoHandlers m ++ [h])
    (<[h := mkHandler c (mkProgress 0 0 0 0 0) (mkLife None (Some stream) eHS_Stopped eHS_Stopped 0)]> (handlers m))
    (m_StreamProcessors m ++ [stream]) false 0 None None None None false).
  apply (clients_registry m0); [rewrite E; unfold clients; simpl; f_equal; by rewrite fmap_insert|].
  split_and!; simpl.
  - apply list.NoDup_app. split_and!; [done| |apply NoDup_singleton]. by intros k Hk ->%list_elem_of_singleton.
  - apply list.NoDup_app. split_and!; [done| |apply NoDup_singleton]. by intros k Hk ->%list_elem_of_singleton.
  - apply Forall2_app; [|constructor; [unfold client_at; simpl; by rewrite lookup_insert_eq|constructor]].
    eapply Forall2_impl; [|exact F]. intros k stream' C. unfold client_at in *. simpl.
    rewrite lookup_insert_ne; [done|]. intros ->. by rewrite Hh in C.
  - intros k. rewrite elem_of_app, list_elem_of_singleton, <- D. destruct (decide (k = h)) as [->|].
    + rewrite lookup_insert_eq. split; [by right|by eexists].
    + rewrite lookup_insert_ne by done. split; [by left|by intros [?|?]].
Qed.

(** The handlers that [registerStream] makes. *)
Lemma receive_handler_new stream s x s' : receive_handler stream s = Some (Some x, s') ->
  s' = s /\ m_Client (life x) = None /\ run_ok x.
Proof.
  unfold receive_handler, config_or. do 7 run_step. cbv zeta. destruct (getpagesize <? _); [done|].
  intros (irq & s1 & E & [= <- <-])%run_bind_inv. unfold deref in E. destruct (irq_interval _ _ _); [|done]. by injection E as <- <-.
Qed.
Lemma transmit_handler_new stream s x s' : transmit_handler stream s = Some (Some x, s') ->
  s' = s /\ m_Client (life x) = None /\ run_ok x.
Proof.
  unfold transmit_handler, config_or. do 5 run_step. cbv zeta. destruct (_ <? _); [done|]. run_step.
  intros (irq & s1 & E & [= <- <-])%run_bind_inv. unfold deref in E. destruct (irq_interval _ _ _); [|done]. by injection E as <- <-.
Qed.

Lemma similar_requestShadowMapUpdate : within similar (@requestShadowMapUpdate K).
Proof. unfold requestShadowMapUpdate. within; apply similar_request_update. Qed.

Lemma inv_registerStream stream : within inv_kept (IHM_registerStream stream).
Proof.
  intros s b s' E [R Ha]. unfold IHM_registerStream in E. destruct (getHandlerForStream_spec stream s R) as (o & Eo & Ho).
  revert E. run_step with Eo. destruct o as [h|]; [by intros [= <- <-]|]. run_step with (prune_none _ R). run_step.
  intros (x & s1 & E1 & E)%run_bind_inv. destruct x as [x|].
  2: { injection E as <- <-. assert (keeps s s1) as [E P].
       { revert E1. apply (fun W : within keeps _ => W s None s1). unfold receive_handler, transmit_handler, config_or. within. }
       split; [by eapply clients_registry|auto]. }
  assert (s1 = s /\ m_Client (life x) = None /\ run_ok x) as (-> & C & Ok).
  { destruct (client_getType stream (ext s)); [by eapply receive_handler_new|by eapply transmit_handler_new]. }
  revert E. run_step. set (h := malloc (ext s) (dom (handlers (ihm s)))).
  assert (handlers (ihm s) !! h = None) as Hh by (apply not_elem_of_dom, malloc_fresh).
  run_step. intros (ok & s2 & E2 & E)%run_bind_inv.
  apply run_bind_inv in E2 as (y & s3 & [-> Hy]%the_handler_inv & E2). simpl in Hy. rewrite lookup_insert_eq in Hy. injection Hy as <-.
  unfold IsoHandler_registerStream, inUse in E2. rewrite C, bool_decide_false in E2 by (intros N; by apply N). simpl in E2.
  apply run_bind_inv in E2 as (u & s3 & [= <- <-] & [= <- <-]). simpl in E.
  apply run_bind_inv in E as (ok & s4 & (u & s5 & [= <- <-] & (v & s6 & E2 & [= <- <-])%run_bind_inv)%run_bind_inv & E).
  simpl in E. apply run_bind_inv in E as (w & s7 & [= <- <-] & [= <- <-]).
  apply similar_requestShadowMapUpdate in E2. apply similar_steady, steady_keeps in E2 as [Ec Ek]. simpl in Ec, Ek. split.
  - apply (registry_add (ihm s) h stream (conf x) R Hh Ho). unfold clients in *. simpl in *. rewrite insert_insert_eq in Ec.
    injection Ec as El Es Em. by rewrite <- El, <- Es, <- Em, fmap_insert.
  - apply Ek. rewrite insert_insert_eq. by apply map_Forall_insert_2.
Qed.

(** ** Removal of a stream *)

Definition with_handlers (f : gmap Z IsoHandler) (s : iso_system K) : iso_system K :=
  let m := ihm s in
  mkIso (mkIHM (ihm_State m) (m_IsoHandlers m) f (m_StreamProcessors m) (m_realtime m) (m_priority m)
    (m_IsoThreadTransmit m) (m_IsoTaskTransmit m) (m_IsoThreadReceive m) (m_IsoTaskReceive m) (m_MissedCyclesOK m)) (ext s).

Definition detach (stream : Z) (x : IsoHandler) : IsoHandler := if isStreamRegistered stream x then set_client None x else x.

Lemma with_handlers_id s : with_handlers (handlers (ihm s)) s = s.
Proof. by destruct s as [[] ?]. Qed.

Lemma detach_one stream h x s : handlers (ihm s) !! h = Some x ->
  (if isStreamRegistered stream x then call_handler h (IsoHandler_unregisterStream stream) else mret true) s
  = Some (true, with_handlers (<[h := detach stream x]> (handlers (ihm s))) s).
Proof.
  intros Hx. unfold detach. destruct (isStreamRegistered stream x) eqn:E.
  - unfold call_handler. run_step with (the_handler_Some h s x Hx). run_step. unfold IsoHandler_unregisterStream. by rewrite E.
  - unfold mret, run_ret. by rewrite (insert_id _ _ _ Hx), with_handlers_id.
Qed.

Lemma detach_stream_spec stream l s : all_live l (ihm s) -> NoDup l -> exists M,
  detach_stream stream l s = Some (true, with_handlers M s)
  /\ forall h, M !! h = if decide (h ∈ l) then detach stream <$> handlers (ihm s) !! h else handlers (ihm s) !! h.
Proof.
  revert s. induction l as [|h l IH]; intros s L N; [exists (handlers (ihm s)); by rewrite with_handlers_id|].
  apply all_live_cons in L as (x & Hx & L). apply list.NoDup_cons in N as [Nh N].
  set (s1 := with_handlers (<[h := detach stream x]> (handlers (ihm s))) s).
  destruct (IH s1) as (M & E & HM); [|done|].
  { intros k Hk. simpl. rewrite lookup_insert_ne by (by intros <-). by apply L. }
  exists M. split.
  - simpl. run_step with (the_handler_Some h s x Hx). pose proof (detach_one stream h x s Hx) as D.
    destruct (isStreamRegistered stream x); [by run_step with D|]. injection D as D. rewrite D at 1. exact E.
  - intros k. rewrite HM. simpl. destruct (decide (k = h)) as [->|Ne].
    + rewrite decide_False by done. rewrite lookup_insert_eq, decide_True by (apply elem_of_cons; by left). by rewrite Hx.
    + rewrite lookup_insert_ne by done. repeat case_decide; rewrite ?elem_of_cons in *; tauto || done.
Qed.

Lemma detach_stream_registry stream s : registry_ok (ihm s) ->
  detach_stream stream (m_IsoHandlers (ihm s)) s = Some (true, with_handlers (detach stream <$> handlers (ihm s)) s).
Proof.
  intros R. destruct (detach_stream_spec stream (m_IsoHandlers (ihm s)) s) as (M & E & HM); [by apply registry_live|apply R|].
  rewrite E. do 3 f_equal. apply map_eq. intros h. rewrite lookup_fmap, HM. case_decide as D; [done|].
  destruct R as (_ & _ & _ & R). rewrite <- R in D. destruct (handlers (ihm s) !! h); [|done]. exfalso. by apply D.
Qed.

Lemma detach_other stream x : m_Client (life x) <> Some stream -> detach stream x = x.
Proof. intros N. unfold detach, isStreamRegistered. by rewrite bool_decide_false. Qed.
Lemma detach_this stream x : m_Client (life x) = Some stream -> detach stream x = set_client None x.
Proof. intros N. unfold detach, isStreamRegistered. by rewrite bool_decide_true. Qed.

(** The handler of a registered stream, and its place in the lists. *)
Lemma registry_split m stream : registry_ok m -> stream ∈ m_StreamProcessors m -> exists h x l1 l2 t1 t2,
  m_IsoHandlers m = l1 ++ h :: l2 /\ m_StreamProcessors m = t1 ++ stream :: t2 /\ handlers m !! h = Some x
  /\ m_Client (life x) = Some stream /\ (h ∉ l1 ++ l2) /\ (stream ∉ t1 ++ t2)
  /\ Forall2 (fun h stream => client_at m h = Some stream) (l1 ++ l2) (t1 ++ t2).
Proof.
  intros (N1 & N2 & F & D) (t1 & t2 & Es)%list_elem_of_split. rewrite Es in F, N2.
  apply Forall2_app_inv_r in F as (l1 & l2 & F1 & F2 & El). inversion F2 as [|h ? l2' ? C F2']; subst.
  unfold client_at in C. destruct (handlers m !! h) as [x|] eqn:Hx; [|done]. simpl in C. rewrite El in N1.
  rewrite <- Permutation_middle in N1, N2.
  apply list.NoDup_cons in N1 as [N1 _], N2 as [N2 _].
  exists h, x, l1, l2', t1, t2. split_and!; auto using Forall2_app.
Qed.

(** Two handlers do not share a client. *)
Lemma registry_unique m h k x y stream : registry_ok m -> handlers m !! h = Some x -> handlers m !! k = Some y ->
  m_Client (life x) = Some stream -> m_Client (life y) = Some stream -> h = k.
Proof.
  intros (_ & N2 & F & D) Hx Hy Cx Cy.
  assert (h ∈ m_IsoHandlers m) as [i Hi]%list_elem_of_lookup by by apply D.
  assert (k ∈ m_IsoHandlers m) as [j Hj]%list_elem_of_lookup by by apply D.
  destruct (Forall2_lookup_l _ _ _ _ _ F Hi) as (t & Ht & C), (Forall2_lookup_l _ _ _ _ _ F Hj) as (t' & Ht' & C').
  unfold client_at in C, C'. rewrite Hx in C. rewrite Hy in C'. simpl in *. assert (t = stream) as -> by congruence.
  assert (t' = stream) as -> by congruence. pose proof (NoDup_lookup _ _ _ _ N2 Ht Ht') as ->. congruence.
Qed.

Lemma detach_elsewhere m h x stream : registry_ok m -> handlers m !! h = Some x -> m_Client (life x) = Some stream ->
  delete h ((fun x => (conf x, m_Client (life x))) <$> (detach stream <$> handlers m))
  = delete h ((fun x => (conf x, m_Client (life x))) <$> handlers m).
Proof.
  intros R Hx C. apply map_eq. intros k. destruct (decide (k = h)) as [->|Ne]; [by rewrite !lookup_delete_eq|].
  rewrite !lookup_delete_ne, !lookup_fmap by done. destruct (handlers m !! k) as [y|] eqn:Hy; [|done]. simpl.
  rewrite detach_other; [done|]. intros Cy. by apply Ne, (registry_unique m k h y x stream).
Qed.

Lemma detach_run_ok stream x : run_ok x -> run_ok (detach stream x).
Proof. unfold detach. by destruct (isStreamRegistered stream x). Qed.

Lemma registry_client m h x stream : registry_ok m -> handlers m !! h = Some x -> m_Client (life x) = Some stream ->
  stream ∈ m_StreamProcessors m.
Proof.
  intros (_ & _ & F & D) Hx C. assert (h ∈ m_IsoHandlers m) as [i Hi]%list_elem_of_lookup by by apply D.
  destruct (Forall2_lookup_l _ _ _ _ _ F Hi) as (t & Ht & C'). unfold client_at in C'. rewrite Hx in C'. simpl in C'.
  apply (list_elem_of_lookup_2 _ i). congruence.
Qed.

Lemma detach_none m stream : registry_ok m -> stream ∉ m_StreamProcessors m -> detach stream <$> handlers m = handlers m.
Proof.
  intros R Hs. apply map_eq. intros h. rewrite lookup_fmap. destruct (handlers m !! h) as [x|] eqn:Hx; [|done]. simpl.
  rewrite detach_other; [done|]. intros C. by apply Hs, (registry_client m h x).
Qed.

Lemma erase_first_middle h l1 l2 : h ∉ l1 -> erase_value h (l1 ++ h :: l2) = l1 ++ l2.
Proof.
  induction l1 as [|k l1 IH]; simpl; [by rewrite Z.eqb_refl|]. intros [? ?]%not_elem_of_cons.
  destruct (Z.eqb_spec k h); [done|]. by rewrite IH.
Qed.

(** After the stream has been detached only its handler is not in use. *)
Lemma unused_handler stream m h x l1 l2 t1 t2 : m_IsoHandlers m = l1 ++ h :: l2 -> handlers m !! h = Some x ->
  m_Client (life x) = Some stream -> stream ∉ (t1 ++ t2) ->
  Forall2 (fun h stream => client_at m h = Some stream) (l1 ++ l2) (t1 ++ t2) ->
  filter (fun k => (fun x => negb (inUse x)) <$> (detach stream <$> handlers m) !! k = Some true) (m_IsoHandlers m) = [h].
Proof.
  intros -> Hx C Ns F.
  assert (forall k, k ∈ (l1 ++ l2) -> (fun x => negb (inUse x)) <$> (detach stream <$> handlers m) !! k <> Some true) as U.
  { intros k [i Hi]%list_elem_of_lookup. destruct (Forall2_lookup_l _ _ _ _ _ F Hi) as (s' & Hs & Ck). unfold client_at in Ck.
    rewrite lookup_fmap. destruct (handlers m !! k) as [y|]; [|done]. simpl in *. apply list_elem_of_lookup_2 in Hs.
    rewrite detach_other by congruence. unfold inUse. by rewrite Ck, bool_decide_true. }
  rewrite list.filter_app, filter_none by (intros k Hk; apply U, elem_of_app; by left). simpl.
  rewrite filter_cons_True; [|by rewrite lookup_fmap, Hx; simpl; rewrite detach_this].
  f_equal. apply filter_none. intros k Hk. apply U, elem_of_app. by right.
Qed.

Lemma registry_remove m h l1 l2 t1 t2 stream : registry_ok m -> m_IsoHandlers m = l1 ++ h :: l2 ->
  m_StreamProcessors m = t1 ++ stream :: t2 ->
  Forall2 (fun h stream => client_at m h = Some stream) (l1 ++ l2) (t1 ++ t2) -> forall m',
  clients m' = (l1 ++ l2, t1 ++ t2, delete h ((fun x => (conf x, m_Client (life x))) <$> handlers m)) -> registry_ok m'.
Proof.
  intros (N1 & N2 & _ & D) El Es F m' E. rewrite El in N1. rewrite Es in N2. rewrite <- Permutation_middle in N1, N2.
  apply list.NoDup_cons in N1 as [Nh N1], N2 as [Ns N2].
  apply (clients_registry (mkIHM (ihm_State m) (l1 ++ l2) (delete h (handlers m)) (t1 ++ t2) false 0 None None None None false)).
  { rewrite E. unfold clients. simpl. f_equal. by rewrite fmap_delete. }
  split_and!; simpl; [done|done| |].
  - apply list.Forall2_same_length_lookup_2; [by eapply list.Forall2_length|]. intros i k t Hk Ht.
    pose proof (Forall2_lookup_lr _ _ _ _ _ _ F Hk Ht) as C. unfold client_at in *. simpl.
    rewrite lookup_delete_ne; [done|]. intros <-. by apply Nh, (list_elem_of_lookup_2 _ i).
  - intros k. rewrite lookup_delete_is_Some, D, El, !elem_of_app, elem_of_cons. rewrite elem_of_app in Nh.
    split; [intros [Ne Hk]; destruct Hk as [Hk|[->|Hk]]; by auto|]. intros Hk. split; [by intros <-|tauto].
Qed.

(** A running handler without a client cannot be disabled: [m_Client->packetsStopped()]. *)
Lemma disable_no_client w h x s : handlers (ihm s) !! h = Some x -> isEnabled x = true -> m_Client (life x) = None ->
  IsoHandler_disable w h s = None.
Proof.
  intros Hx En C. unfold IsoHandler_disable. run_step with (the_handler_Some h s x Hx). rewrite En. simpl.
  unfold assert_that, handle_of, client_of, on_handler, mbind, run_bind. case_bool_decide; [|done]. simpl.
  rewrite (the_handler_Some h s x Hx). simpl. destruct (m_handle (life x)); [|done]. simpl.
  unfold the_handler. simpl. rewrite Hx. simpl. rewrite lookup_insert_eq. simpl. by rewrite C.
Qed.

Lemma delete_unused h x s u s' : handlers (ihm s) !! h = Some x -> m_Client (life x) = None -> h ∈ m_IsoHandlers (ihm s) ->
  delete_handlers [h] s = Some (u, s') ->
  clients (ihm s') = (erase_value h (m_IsoHandlers (ihm s)), m_StreamProcessors (ihm s), delete h (clients (ihm s)).2)
  /\ (handles_ok (ihm s) -> handles_ok (ihm s')) /\ (isEnabled x = true -> m_handle (life x) = None).
Proof.
  intros Hx C Hl (b & s1 & E1 & (v & s2 & E2 & [= <- <-])%run_bind_inv)%run_bind_inv.
  unfold unregisterHandler in E1. revert E1. run_step. rewrite decide_True by done.
  intros (w1 & s0 & [= <- <-] & (w2 & s3 & E1 & [= <- <-])%run_bind_inv)%run_bind_inv.
  apply similar_requestShadowMapUpdate, similar_steady in E1.
  pose proof (steady_lookup _ _ h x E1 Hx) as (y & Hy & _ & L).
  pose proof (f_equal m_Client L) as L1. pose proof (f_equal m_handle L) as L2.
  pose proof (f_equal (fun l => bool_decide (m_State l = eHS_Running)) L) as L3. simpl in L1, L2, L3.
  change (isEnabled y = isEnabled x) in L3.
  apply steady_keeps in E1 as [Ec Eh]. revert E2. unfold IsoHandler_delete. run_step with (the_handler_Some h s3 y Hy).
  intros (t & s4 & E2 & E3)%run_bind_inv. destruct (bool_decide _ && isEnabled y) eqn:En.
  { apply run_bind_inv in E2 as (r & s5 & E2 & _). apply andb_true_iff in En as [_ En].
    unfold disable_now in E2. rewrite (disable_no_client false h y s3 Hy En) in E2; [done|congruence]. }
  injection E2 as <- <-. unfold set_handlers, on_ihm, modify in E3. injection E3 as <- <-. split_and!.
  - unfold clients in *. simpl in *. injection Ec as El Es Em. by rewrite <- El, <- Es, fmap_delete, <- Em.
  - simpl. intros P. by apply map_Forall_delete, Eh.
  - intros Ex. rewrite L3, Ex, andb_true_r, L2 in En. apply bool_decide_eq_false_1 in En. by apply dec_stable.
Qed.

Lemma prune_detached stream h x s : registry_ok (ihm s) -> handlers (ihm s) !! h = Some x -> m_Client (life x) = Some stream ->
  pruneHandlers (with_handlers (detach stream <$> handlers (ihm s)) s)
  = delete_handlers [h] (with_handlers (detach stream <$> handlers (ihm s)) s).
Proof.
  intros R Hx C. set (s1 := with_handlers (detach stream <$> handlers (ihm s)) s).
  assert (all_live (m_IsoHandlers (ihm s1)) (ihm s1)) as L.
  { intros k Hk. simpl. rewrite lookup_fmap, fmap_is_Some. by apply (registry_live _ R). }
  destruct (registry_split _ _ R (registry_client _ _ _ _ R Hx C)) as (k & y & l1 & l2 & t1 & t2 & El & Es & Hy & Cy & _ & Ns & F).
  rewrite <- (registry_unique _ _ _ _ _ _ R Hx Hy C Cy) in *. clear Hy Cy.
  unfold pruneHandlers. run_step. run_step with (select_handlers_spec _ _ _ L). cbn [ihm with_handlers m_IsoHandlers handlers s1].
  by rewrite (unused_handler stream _ h x l1 l2 t1 t2).
Qed.

(** What happens to the handler of the stream. *)
Lemma unregister_deletes stream h x s b s' : registry_ok (ihm s) -> handlers (ihm s) !! h = Some x -> m_Client (life x) = Some stream ->
  IHM_unregisterStream stream s = Some (b, s') ->
  exists s2, delete_handlers [h] (with_handlers (detach stream <$> handlers (ihm s)) s) = Some ((), s2)
  /\ ((clients (ihm s2) = (erase_value h (m_IsoHandlers (ihm s)), m_StreamProcessors (ihm s),
         delete h ((fun x => (conf x, m_Client (life x))) <$> (detach stream <$> handlers (ihm s))))
       /\ (handles_ok (ihm s) -> handles_ok (ihm s2))) /\ (isEnabled x = true -> m_handle (life x) = None))
  /\ set_lists id (erase_value stream) s2 = Some (tt, s').
Proof.
  intros R Hx C. pose proof (registry_client _ _ _ _ R Hx C) as Hs. unfold IHM_unregisterStream. run_step.
  run_step with (detach_stream_registry stream s R). simpl. intros (u & s2 & E & E')%run_bind_inv.
  rewrite (prune_detached stream h x) in E by done. exists s2. destruct u. split; [done|].
  apply (delete_unused h (set_client None x)) in E as (Ec & Ek & Ex);
    [|by simpl; rewrite lookup_fmap, Hx; simpl; rewrite detach_this|done|by apply (proj2 (proj2 (proj2 R))); eexists].
  split; [split; [split; [done|]|done]|].
  - intros Ha. apply Ek. intros k y Hy. simpl in Hy. rewrite lookup_fmap in Hy. apply fmap_Some in Hy as (z & Hz & ->).
    by apply detach_run_ok, (Ha k).
  - revert E'. run_step. injection Ec as _ Ec _. simpl in Ec. rewrite Ec, decide_True by done.
    by intros ([] & s3 & E & [= <- <-])%run_bind_inv.
Qed.

Lemma inv_unregisterStream stream : within inv_kept (IHM_unregisterStream stream).
Proof.
  intros s b s' E [R Ha]. destruct (decide (stream ∈ m_StreamProcessors (ihm s))) as [Hs|Hs].
  - destruct (registry_split _ _ R Hs) as (h & x & l1 & l2 & t1 & t2 & El & Es & Hx & C & Nh & Ns & F).
    destruct (unregister_deletes _ _ _ _ _ _ R Hx C E) as (s2 & _ & [[Ec Ek] _] & E'). injection E' as <-.
    rewrite elem_of_app in Nh, Ns. injection Ec as Ec1 Ec2 Ec3. split; [|by apply Ek].
    apply (registry_remove (ihm s) h l1 l2 t1 t2 stream R El Es F). unfold clients. simpl.
    rewrite Ec1, Ec2, Ec3, El, Es, !erase_first_middle by tauto. f_equal. by apply (detach_elsewhere _ _ x).
  - revert E. unfold IHM_unregisterStream. run_step. run_step with (detach_stream_registry stream s R). simpl.
    rewrite detach_none, with_handlers_id by done. run_step with (prune_none s R). run_step. rewrite decide_False by done.
    by intros [= <- <-].
Qed.

(** ** All histories *)

Lemma similar_stop_all l : within similar (@stop_all K l).
Proof. induction l as [|h l IH]; simpl; within. apply similar_request_and_update, forget_requestDisable. Qed.

Lemma steady_thread_scheduling t rt prio : within steady (thread_scheduling t rt prio).
Proof.
  unfold thread_scheduling, iso_priority, config_or. within; intros ? ? ?; unfold set_thread, on_ihm, modify; destruct t; by intros [= <- <-].
Qed.

Lemma inv_client_step s s' : client_step s s' -> inv_kept s s'.
Proof.
  intros [? ? R|? ? ? ? E|? ? ? ? E|? ? ? E|? ? ? ? E|? ? ? E|? ? ? ? ? E].
  - by apply keeps_inv, steady_keeps, similar_steady, request_similar.
  - by eapply inv_registerStream.
  - by eapply inv_unregisterStream.
  - revert E. apply inv_of_similar. unfold stopHandlers. within. apply similar_stop_all.
  - revert E. apply inv_of_keeps. unfold setIsoStartCycleForStream, getHandlerForStream.
    within; [apply keeps_of_steady, steady_of_similar, similar_find_handler|by apply keeps_on_handler].
  - unfold setMissedCyclesOK, on_ihm, modify in E. injection E as <-. by apply keeps_inv.
  - revert E. apply inv_of_keeps, keeps_of_steady. unfold IHM_setThreadParameters.
    within; [by intros ? ? ? [= <- <-]|apply steady_thread_scheduling..].
Qed.

Lemma inv_sleep {A} (m : I A) : within (rtc client_step) m -> within inv_kept m.
Proof. apply within_mono. induction 1; [done|]. etrans; [by apply inv_client_step|done]. Qed.

Hint Extern 6 (within inv_kept _) => apply inv_of_keeps; solve [auto with within] : within.
Hint Extern 4 (within inv_kept (usleep _)) => apply inv_sleep, law_usleep : within.
Hint Extern 4 (within inv_kept (task_wait_blocked _ _)) => apply inv_sleep, law_task_wait : within.
Hint Extern 4 (within inv_kept (poll _ _)) => apply inv_sleep, law_poll : within.
Hint Resolve keeps_serve_handlers : within.

Lemma inv_waitForActivity t : within inv_kept (waitForActivity_task t).
Proof. unfold waitForActivity_task. within. Qed.
Hint Resolve inv_waitForActivity : within.

Lemma inv_wait_pollable fuel t : within inv_kept (wait_pollable fuel t).
Proof. induction fuel; simpl; within. Qed.
Hint Resolve inv_wait_pollable : within.

Lemma inv_Execute t : within inv_kept (Execute t).
Proof. unfold Execute, store_revents. within. Qed.

Lemma inv_task_step s s' : task_step s s' -> inv_kept s s'.
Proof.
  intros [? ? ? ? E|? ? ? ? E|? ? ? E].
  - revert E. apply inv_of_keeps, keeps_of_steady. unfold IsoTask_Init. within.
  - by eapply inv_Execute.
  - revert E. apply inv_of_keeps, keeps_of_steady. unfold IHM_handleBusReset. within.
Qed.

Lemma inv_history s s' : history s s' -> inv_kept s s'.
Proof. induction 1 as [|? ? ? [S|S]]; [done|..]; (etrans; [|done]); [by apply inv_client_step|by apply inv_task_step]. Qed.

Lemma steady_init : within steady IHM_init.
Proof.
  unfold IHM_init, new_thread, thread_start, iso_priority, config_or.
  within; intros ? ? ?; unfold set_thread, set_ihm_state, on_ihm, modify; by intros [= <- <-].
Qed.

Lemma inv_new missed rt prio k : iso_invariant (ihm (mkIso (K:=K) (IsoHandlerManager_new missed rt prio) k)).
Proof.
  split; [split_and!; simpl; [constructor..|]|by intros h x]. intros h. split; [by intros [? ?]|by intros ?%not_elem_of_nil].
Qed.

(** ** Theorems *)

(** C7. Whatever client threads, tasks and bus resets do after the manager has been initialised: no stream is
    registered twice, a stream is registered exactly when some handler serves it, two handlers never serve the same stream,
    every handler in memory is in the list of the manager and serves a registered stream (handlers do not leak),
    and every running handler has a libraw1394 handle. *)
Theorem iso_registry missed rt prio k b s0 s :
  IHM_init (mkIso (IsoHandlerManager_new missed rt prio) k) = Some (b, s0) -> history s0 s ->
  let m := ihm s in
  NoDup (m_StreamProcessors m)
  /\ (forall stream, stream ∈ m_StreamProcessors m <->
        exists h x, handlers m !! h = Some x /\ m_Client (life x) = Some stream)
  /\ (forall h1 x1 h2 x2 stream, handlers m !! h1 = Some x1 -> handlers m !! h2 = Some x2 ->
        m_Client (life x1) = Some stream -> m_Client (life x2) = Some stream -> h1 = h2)
  /\ (forall h x, handlers m !! h = Some x -> h ∈ m_IsoHandlers m
        /\ (exists stream, m_Client (life x) = Some stream) /\ (m_State (life x) = eHS_Running -> m_handle (life x) <> None)).
Proof.
  intros E Hh m. subst m. destruct (inv_history _ _ Hh) as [R Ha].
  { apply (keeps_inv _ _ (steady_keeps _ _ (steady_init _ _ _ E))), inv_new. }
  pose proof R as (_ & N & F & D). split_and!; [done| |by intros; eapply registry_unique|].
  - intros stream. split.
    + intros Hs. destruct (registry_split _ _ R Hs) as (h & x & _ & _ & _ & _ & _ & _ & Hx & C & _). by exists h, x.
    + intros (h & x & Hx & C). by apply (registry_client _ h x).
  - intros h x Hx. assert (h ∈ m_IsoHandlers (ihm s)) as Hl by (apply D; by eexists). split_and!; [done| |by apply (Ha h)].
    apply list_elem_of_lookup in Hl as [i Hi]. destruct (Forall2_lookup_l _ _ _ _ _ F Hi) as (t & _ & C).
    exists t. unfold client_at in C. by rewrite Hx in C.
Qed.

(** Removing a stream while its handler still runs is fatal: the handler loses its client, and the
    destructor, which disables it, then follows the null pointer. *)
Theorem unregister_running_crashes s stream h x : iso_invariant (ihm s) -> handlers (ihm s) !! h = Some x ->
  m_Client (life x) = Some stream -> m_State (life x) = eHS_Running -> IHM_unregisterStream stream s = None.
Proof.
  intros [R Ha] Hx C Hr. destruct (IHM_unregisterStream stream s) as [[b s']|] eqn:E; [exfalso|done].
  destruct (unregister_deletes _ _ _ _ _ _ R Hx C E) as (_ & _ & [_ Ex] & _).
  apply (Ha h x Hx Hr), Ex. unfold isEnabled. by rewrite bool_decide_true.
Qed.

End registry.

(** ** Witnesses *)

Lemma bench_two_history : history bench_ready bench_two.
Proof.
  eapply rtc_l; [left; eapply (client_register 2 bench_ready true (bench_after (IHM_registerStream 2) bench_ready)); vm_compute; reflexivity|].
  eapply rtc_l; [left; eapply (client_register 3 _ true bench_two); vm_compute; reflexivity|]. apply rtc_refl.
Qed.

Lemma iso_registry_witness : NoDup (m_StreamProcessors (ihm bench_two)) /\ m_StreamProcessors (ihm bench_two) = [2; 3].
Proof.
  split; [|vm_compute; reflexivity].
  apply (iso_registry false true 50 (ext bench_start) true bench_ready bench_two); [vm_compute; reflexivity|apply bench_two_history].
Defined.

(** The registry of a concrete manager, by computation. *)
Definition registry_check (m : IsoHandlerManager) : bool :=
  bool_decide (NoDup (m_IsoHandlers m)) && bool_decide (NoDup (m_StreamProcessors m))
  && bool_decide (Forall2 (fun h stream => client_at m h = Some stream) (m_IsoHandlers m) (m_StreamProcessors m))
  && bool_decide (Forall (fun h => h ∈ m_IsoHandlers m) (elements (dom (handlers m))))
  && bool_decide (Forall (fun h => h ∈ dom (handlers m)) (m_IsoHandlers m)).

Lemma registry_check_ok m : registry_check m = true -> registry_ok m.
Proof.
  unfold registry_check. rewrite !andb_true_iff, !bool_decide_eq_true, !list.Forall_forall. intros ((((N1 & N2) & F) & D1) & D2).
  split_and!; [done..|]. intros h. rewrite <- elem_of_dom. split; [|apply D2]. intros Hh. by apply D1, elem_of_elements.
Qed.

Lemma bench_two_registry : registry_ok (ihm bench_two).
Proof. apply registry_check_ok. vm_compute. reflexivity. Qed.
Lemma bench_running_invariant : iso_invariant (ihm bench_running).
Proof.
  split; [apply registry_check_ok; vm_compute; reflexivity|]. apply map_Forall_to_list. vm_compute. repeat constructor; congruence.
Qed.

Lemma unregister_running_crashes_witness : IHM_unregisterStream 2 bench_running = None.
Proof.
  destruct (handlers (ihm bench_running) !! 0) as [x|] eqn:E; [|exfalso; revert E; vm_compute; discriminate].
  apply (unregister_running_crashes bench_running 2 0 x bench_running_invariant E); revert E; vm_compute; intros [= <-]; reflexivity.
Defined.
