(* ===== verification/IsoPackets.v ===== *)
(** * Packets through the isochronous handlers

    Theorems on the packet functions of IsoHandlers: the time that a handler gives to a packet, the number of lost cycles that
    it reports, and the count of deferred cycles. *)
From stdpp Require Import gmap strings relations.
From S2P Require Import Prelude CycleTimer StreamProcessor StreamManager IsoHandlers IsoManager IsoSteps IsoExample IsoRegistry.
#[local] Open Scope Z_scope.

(** ** Times and losses *)

(** The register value [d] cycles after [now]. *)
Definition cycles_after (now d : Z) : Z := TICKS_TO_CYCLE_TIMER ((CYCLE_TIMER_TO_TICKS now + d * TICKS_PER_CYCLE) mod MAX_TICKS).
#[local] Strategy expand [cycles_after].

Lemma TO_TICKS_valid now : valid_ctr now -> valid_ticks (CYCLE_TIMER_TO_TICKS now)
  /\ TICKS_TO_CYCLES (CYCLE_TIMER_TO_TICKS now) = CYCLE_TIMER_GET_CYCLES now.
Proof.
  intros Hc. pose proof (ctr_fields now Hc) as (S & C & O). destruct Hc as [R _].
  rewrite TO_TICKS_eq by done. autorewrite with ctr in S, C, O.
  replace ((now / 2 ^ 25) mod 2 ^ 7) with (now / 2 ^ 25) in S by zlia.
  destruct (ticks_compose _ _ _ S C O) as (_ & E & _ & V). split; [done|]. cbv zeta in E. rewrite E. by rewrite GET_CYCLES_eq.
Qed.

Lemma diffCycles_shift c d : valid_cycle c -> -4000 < d < 4000 -> diffCycles ((c + d) mod CYCLES_PER_SECOND) c = d.
Proof.
  intros Hc Hd. rewrite diffCycles_cases by (done || (unfold valid_cycle, CYCLES_PER_SECOND in *; zlia)).
  unfold valid_cycle, CYCLES_PER_SECOND in *. zcases; zlia.
Qed.

Lemma wrapAtMinMaxTicks_mod x : - MAX_TICKS <= x < 2 * MAX_TICKS -> wrapAtMinMaxTicks x = x mod MAX_TICKS.
Proof.
  unfold wrapAtMinMaxTicks, MAX_TICKS, TICKS_PER_SECOND. intros Hx. change (i64 (24576000 * 128)) with 3145728000.
  rewrite wrapS_wrapU_add, wrapS_wrapU_sub. zcases; cint; zlia.
Qed.

Lemma cycles_after_cycle now d : valid_ctr now ->
  CYCLE_TIMER_GET_CYCLES (cycles_after now d) = (CYCLE_TIMER_GET_CYCLES now + d) mod CYCLES_PER_SECOND
  /\ 0 <= cycles_after now d < 2 ^ 32.
Proof.
  intros Hn. destruct (TO_TICKS_valid now Hn) as [V E]. unfold cycles_after.
  destruct (ctr_parts _ (mod_valid (CYCLE_TIMER_TO_TICKS now + d * TICKS_PER_CYCLE))) as (R & _ & C & _). split; [|done].
  rewrite C, <- E. unfold TICKS_TO_CYCLES, valid_ticks, MAX_TICKS, TICKS_PER_SECOND, TICKS_PER_CYCLE, CYCLES_PER_SECOND in *. zlia.
Qed.

Lemma packet_ticks_mod T d : valid_ticks T -> -4000 < d < 4000 ->
  u64 (wrapAtMinMaxTicks (i64 (i64 T + i64 (d * TICKS_PER_CYCLE)))) = (T + d * TICKS_PER_CYCLE) mod MAX_TICKS.
Proof.
  intros V Hd. destruct (mod_valid (T + d * TICKS_PER_CYCLE)) as [M1 M2].
  assert (-(4000 * 3072) < d * TICKS_PER_CYCLE < 4000 * 3072) by (unfold TICKS_PER_CYCLE; lia).
  assert (MAX_TICKS = 3145728000) as EM by done. unfold valid_ticks in V.
  rewrite (wrapS_small 64 T), (wrapS_small 64 (d * TICKS_PER_CYCLE)), wrapS_small by lia.
  rewrite wrapAtMinMaxTicks_mod by lia. apply wrapU_small. lia.
Qed.

Lemma packet_time_exact now d : valid_ctr now -> -4000 < d < 4000 ->
  packet_time now ((CYCLE_TIMER_GET_CYCLES now + d) mod CYCLES_PER_SECOND) = cycles_after now d.
Proof.
  intros Hn Hd. pose proof (ctr_fields now Hn) as (_ & C & _). destruct (TO_TICKS_valid now Hn) as [V _]. unfold packet_time.
  rewrite (wrapU_small 32 (CYCLE_TIMER_GET_CYCLES now)) by lia. rewrite diffCycles_shift, packet_ticks_mod by done.
  apply (wrapU_small 32 (cycles_after now d)), (cycles_after_cycle now d Hn).
Qed.

Lemma later_cycle_differs last n : valid_cycle last -> 0 <= n < 3999 ->
  last <> (last + 1 + n) mod CYCLES_PER_SECOND /\ last <> -1 /\ valid_cycle ((last + 1 + n) mod CYCLES_PER_SECOND).
Proof. unfold valid_cycle, CYCLES_PER_SECOND. intros. zlia. Qed.

(** Lost cycles between two received packets. *)
Lemma receive_dropped_gap last g : valid_cycle last -> 0 <= g < 3999 ->
  receive_dropped false last ((last + 1 + g) mod CYCLES_PER_SECOND) = g.
Proof.
  intros Hl Hg. unfold receive_dropped. destruct (later_cycle_differs last g Hl Hg) as (N1 & N2 & Hc).
  unfold valid_cycle, CYCLES_PER_SECOND in Hc, Hl. rewrite (wrapS_small 32 (_ mod _)), (wrapU_small 32 last) by (unfold CYCLES_PER_SECOND; lia).
  rewrite !bool_decide_true by done. cbn [andb negb].
  rewrite <- Z.add_assoc, diffCycles_shift by (unfold valid_cycle, CYCLES_PER_SECOND; lia). rewrite wrapS_small; lia.
Qed.

(** Lost cycles between two packets that are sent. *)
Lemma transmit_dropped_gap last deferred n : valid_cycle last -> 0 <= n < 3999 ->
  transmit_dropped last deferred ((last + 1 + n) mod CYCLES_PER_SECOND) 0
  = if n =? 0 then (0, 0) else (i32 (n - deferred), deferred).
Proof.
  intros Hl Hn. unfold transmit_dropped. destruct (later_cycle_differs last n Hl Hn) as (N1 & N2 & Hc).
  destruct (Z.eqb_spec last (-1)); [done|]. rewrite !bool_decide_true by done. cbn [andb negb]. unfold valid_cycle, CYCLES_PER_SECOND in Hc, Hl.
  rewrite (wrapU_small 32 (_ mod _)), (wrapU_small 32 last) by (unfold CYCLES_PER_SECOND; lia).
  rewrite <- Z.add_assoc, diffCycles_shift by (unfold valid_cycle, CYCLES_PER_SECOND; lia).
  replace (i32 (i32 (1 + n - 1) - 0)) with n by (rewrite (wrapS_small 32 (1 + n - 1)), wrapS_small; lia). done.
Qed.

Section packets.
Context {K : Type} `{IsoLaws K}.
Implicit Types s : iso_system K.

(** C14. A received packet reaches the client with the exact time of its cycle: when the packet was on the wire
    less than half a second before or after the iteration started, the register value passed to the client has the cycle
    of the packet and the right second, also across the wraps of the cycle and second counters, and is the
    time that the watchdog for dead handlers sees.  The client is told exactly how many cycles
    passed without a packet since the one before. *)
Theorem received_packet_on_time s h x c d g data length channel tag sy dropped :
  handlers (ihm s) !! h = Some x -> m_Client (life x) = Some c -> m_MissedCyclesOK (ihm s) = false ->
  valid_ctr (m_last_now (prog x)) -> -4000 < d < 4000 -> valid_cycle (m_last_cycle (prog x)) -> 0 <= g < 3999 ->
  let now := m_last_now (prog x) in
  let cycle := (CYCLE_TIMER_GET_CYCLES now + d) mod CYCLES_PER_SECOND in
  cycle = (m_last_cycle (prog x) + 1 + g) mod CYCLES_PER_SECOND ->
  exists s1 x1, IsoHandler_putPacket h data length channel tag sy cycle dropped s
    = client_putPacket c data length channel tag sy (cycles_after now d) g s1
  /\ handlers (ihm s1) = <[h := x1]> (handlers (ihm s)) /\ m_last_packet_handled_at (prog x1) = cycles_after now d
  /\ m_last_cycle (prog x1) = cycle /\ CYCLE_TIMER_GET_CYCLES (cycles_after now d) = cycle.
Proof.
  intros Hx Hc Hm Hn Hd Hl Hg now cycle E.
  assert (packet_time now cycle = cycles_after now d) as T by by apply packet_time_exact.
  assert (receive_dropped false (m_last_cycle (prog x)) cycle = g) as G by (rewrite E; by apply receive_dropped_gap).
  unfold IsoHandler_putPacket. erewrite run_bind_Some; [|unfold the_handler; by rewrite Hx].
  do 2 run_step. rewrite Hc, Hm, G. fold now. rewrite T. eexists _, _. split; [reflexivity|].
  cbn [ihm handlers prog on_progress m_last_packet_handled_at m_last_cycle]. split_and!; [reflexivity|done| |by apply cycles_after_cycle].
  apply wrapS_small; [lia|]. unfold cycle, CYCLES_PER_SECOND. zlia.
Qed.

(** ** Deferred packets *)

(** Packets that libraw1394 asks for, with the cycle and the answer of the client. *)
Inductive sends (h : Z) : list (Z * raw1394_iso_disposition) -> relation (iso_system K) :=
  | sends_nil s : sends h [] s s
  | sends_cons cycle d p p' dropped l s s1 s2 :
      IsoHandler_getPacket h p cycle dropped 0 s = Some ((d, p'), s1) -> sends h l s1 s2 -> sends h ((cycle, d) :: l) s s2.

(** The number of lost cycles that the client will be told with the packet for [cycle]. *)
Definition reports (h : Z) (s : iso_system K) (cycle loss : Z) : Prop :=
  exists x, handlers (ihm s) !! h = Some x /\ forall p dropped, exists s',
    IsoHandler_getPacket h p cycle dropped 0 s
    = packet_from_client h x p cycle (packet_time (m_last_now (prog x)) (u32 cycle)) loss 0 s'.

(** The packets of the [k] cycles after [L] are deferred. *)
Definition deferred_after (L : Z) (k : nat) : list (Z * raw1394_iso_disposition) :=
  (fun i => ((L + 1 + Z.of_nat i) mod CYCLES_PER_SECOND, RAW1394_ISO_DEFER)) <$> seq 0 k.

(** *** The bookkeeping *)

(** The last cycle and the number of deferred cycles after a packet. *)
Definition bookkeep (q : Z * Z) (cycle : Z) (d : raw1394_iso_disposition) : Z * Z :=
  let deferred := (transmit_dropped q.1 q.2 cycle 0).2 in
  match d with RAW1394_ISO_DEFER => (q.1, u32 (deferred + 1)) | _ => (cycle, deferred) end.

Definition counters (h : Z) (s : iso_system K) (q : Z * Z) : Prop :=
  exists x c, handlers (ihm s) !! h = Some x /\ m_Client (life x) = Some c /\ q = (m_last_cycle (prog x), m_deferred_cycles (prog x)).

Lemma similar_lookup s s' h x : similar s s' -> handlers (ihm s) !! h = Some x ->
  exists x', handlers (ihm s') !! h = Some x' /\ prog x' = prog x /\ m_Client (life x') = m_Client (life x).
Proof.
  intros E Hx. apply (f_equal handlers) in E. apply (f_equal (lookup h)) in E. simpl in E. rewrite !lookup_fmap, Hx in E.
  destruct (handlers (ihm s') !! h) as [x'|]; [|done]. injection E as _ E1 _ E2 _ _. by exists x'.
Qed.

Lemma getPacket_counters h p cycle dropped s d p' s' q : 0 <= cycle -> counters h s q ->
  IsoHandler_getPacket h p cycle dropped 0 s = Some ((d, p'), s') -> counters h s' (bookkeep q cycle d).
Proof.
  intros Hc (x & c & Hx & Cx & ->). unfold IsoHandler_getPacket. run_step with (the_handler_Some h s x Hx). cbv zeta. run_step.
  unfold packet_from_client. rewrite Cx. intros ([d' p''] & s2 & E & E')%run_bind_inv.
  apply (law_getPacket _ _ _ _ _ _ _ _ _), requests_similar in E.
  pose proof (similar_lookup _ _ h _ E (lookup_insert_eq (handlers (ihm s)) h _)) as (y & Hy & Py & Cy).
  destruct (Z.ltb_spec cycle 0); [lia|]. apply run_bind_inv in E' as (u & s3 & E' & [= <- <- <-]).
  apply on_handler_inv in E' as (z & Hz & E3). rewrite Hy in Hz. injection Hz as <-.
  eexists _, c. rewrite E3, lookup_insert_eq. split; [done|].
  unfold bookkeep. destruct d'; simpl; rewrite Py, Cy; simpl; rewrite Cx; done.
Qed.

Lemma sends_counters h l s s' q : Forall (fun p => 0 <= p.1) l -> sends h l s s' -> counters h s q ->
  counters h s' (foldl (fun q p => bookkeep q p.1 p.2) q l).
Proof.
  intros F S. revert q F. induction S as [|? ? ? ? ? ? ? ? ? E S IH]; intros q F C; [done|]. inversion F; subst. simpl in *.
  apply IH; [done|]. by eapply getPacket_counters.
Qed.

Lemma reports_dropped h s q cycle : counters h s q -> 0 <= cycle -> reports h s cycle (transmit_dropped q.1 q.2 cycle 0).1.
Proof.
  intros (x & c & Hx & Cx & ->) Hc. exists x. split; [done|]. intros p dropped. unfold IsoHandler_getPacket.
  run_step with (the_handler_Some h s x Hx). cbv zeta. run_step. destruct (Z.ltb_spec cycle 0); [lia|]. eexists. reflexivity.
Qed.

Lemma deferred_after_S L k :
  deferred_after L (S k) = deferred_after L k ++ [((L + 1 + Z.of_nat k) mod CYCLES_PER_SECOND, RAW1394_ISO_DEFER)].
Proof. unfold deferred_after. by rewrite seq_S, fmap_app. Qed.

Lemma deferred_counters L D k : valid_cycle L -> (0 < k < 3999)%nat ->
  foldl (fun q p => bookkeep q p.1 p.2) (L, D) (deferred_after L k) = (L, Z.of_nat k).
Proof.
  intros HL. induction k as [|k IH]; intros Hk; [lia|]. rewrite deferred_after_S, foldl_app. destruct (decide (k = 0)%nat) as [->|].
  - simpl. unfold bookkeep. simpl. by rewrite transmit_dropped_gap by (done || lia).
  - rewrite IH by lia. simpl. unfold bookkeep. simpl. rewrite transmit_dropped_gap by (done || lia).
    destruct (Z.eqb_spec (Z.of_nat k) 0); [lia|]. simpl. rewrite wrapU_small by lia. f_equal. lia.
Qed.

Lemma cycle_nonneg x : 0 <= x mod CYCLES_PER_SECOND.
Proof. unfold CYCLES_PER_SECOND. zlia. Qed.

(** A client that defers packets, because it has nothing to send yet, is not told that the deferred cycles were lost: after [k] deferred
    packets the next one reports exactly the [g] further cycles for which the library did not ask.  But
    the count of deferred cycles survives the packet that ends the series: if cycles get lost right
    after that packet, the loss is reported [k] too small, so that a loss of up to [k] cycles is not seen as an xrun. *)
Theorem deferred_cycles_reported h s0 s1 s2 q0 L k g : counters h s0 q0 -> valid_cycle L -> (0 < k)%nat -> 0 <= g ->
  Z.of_nat k + g < 3999 ->
  sends h ((L, RAW1394_ISO_OK) :: deferred_after L k) s0 s1 ->
  let E := (L + 1 + Z.of_nat k) mod CYCLES_PER_SECOND in
  sends h [(E, RAW1394_ISO_OK)] s1 s2 ->
  reports h s1 ((L + 1 + Z.of_nat k + g) mod CYCLES_PER_SECOND) g
  /\ reports h s2 ((E + 1 + g) mod CYCLES_PER_SECOND) (if g =? 0 then 0 else g - Z.of_nat k).
Proof.
  intros C0 HL Hk Hg Hkg S1 E S2. assert (valid_cycle E) as HE by (unfold E, valid_cycle, CYCLES_PER_SECOND; zlia).
  apply sends_counters with (q := q0) in S1; [|constructor; [apply HL|by apply Forall_fmap, Forall_true; intros; apply cycle_nonneg]|done].
  simpl in S1. change (bookkeep q0 L RAW1394_ISO_OK) with (L, (transmit_dropped q0.1 q0.2 L 0).2) in S1. rewrite deferred_counters in S1 by (done || lia).
  apply sends_counters with (q := (L, Z.of_nat k)) in S2; [|by constructor; [apply HE|]|done].
  unfold E at 1 in S2. simpl in S2. unfold bookkeep in S2. simpl in S2. rewrite transmit_dropped_gap in S2 by (done || lia).
  destruct (Z.eqb_spec (Z.of_nat k) 0) as [|Nk]; [lia|]. simpl in S2. fold E in S2. split.
  - apply reports_dropped with (cycle := (L + 1 + Z.of_nat k + g) mod CYCLES_PER_SECOND) in S1; [|apply cycle_nonneg]. simpl in S1.
    rewrite <- Z.add_assoc, transmit_dropped_gap in S1 by (done || lia). destruct (Z.eqb_spec (Z.of_nat k + g) 0); [lia|]. simpl in S1.
    rewrite wrapS_small, Z.add_simpl_l, Z.add_assoc in S1 by lia. done.
  - apply reports_dropped with (cycle := (E + 1 + g) mod CYCLES_PER_SECOND) in S2; [|apply cycle_nonneg]. simpl in S2.
    rewrite transmit_dropped_gap in S2 by (done || lia). destruct (Z.eqb_spec g 0); [done|]. simpl in S2. by rewrite wrapS_small in S2 by lia.
Qed.

End packets.

(** ** Witnesses *)

(** The handler at address 0 has received the packet of cycle 7998. *)
Definition bench_received : iso_system bench :=
  bench_after (on_handler 0 (set_last_now bench_now) ;; IsoHandler_putPacket 0 [] 8 2 1 0 7998 0) bench_running.

Lemma received_packet_on_time_witness : exists s1,
  IsoHandler_putPacket 0 [] 8 2 1 0 1 0 bench_received = client_putPacket 2 [] 8 2 1 0 (cycles_after bench_now 2) 2 s1.
Proof.
  destruct (handlers (ihm bench_received) !! 0) as [x|] eqn:E; [|exfalso; revert E; vm_compute; discriminate].
  assert (m_last_now (prog x) = bench_now /\ m_last_cycle (prog x) = 7998 /\ m_Client (life x) = Some 2) as (E1 & E2 & E3)
    by (revert E; vm_compute; intros [= <-]; by split_and!).
  destruct (received_packet_on_time bench_received 0 x 2 2 2 [] 8 2 1 0 0 E E3) as (s1 & x1 & P & _);
    rewrite ?E1, ?E2; [reflexivity|repeat split; vm_compute; congruence|lia|unfold valid_cycle, CYCLES_PER_SECOND; lia|lia|reflexivity|].
  exists s1. rewrite E1 in P. exact P.
Defined.

(** The client of the handler at address 1 defers two packets. *)
Definition bench_deferring : iso_system bench :=
  mkIso (ihm bench_running) (mkBench 9 false [] [RAW1394_ISO_OK; RAW1394_ISO_DEFER; RAW1394_ISO_DEFER; RAW1394_ISO_OK] [] bench_now).
Definition bench_get (cycle : Z) : run (iso_system bench) (raw1394_iso_disposition * packet) :=
  IsoHandler_getPacket 1 (mkPacket [] 0 0 0) cycle 0 0.

Lemma deferred_cycles_reported_witness : exists s1 s2, reports 1 s1 3 1 /\ reports 1 s2 4 (-1).
Proof.
  set (s0 := bench_deferring). set (sa := bench_after (bench_get 7999) s0). set (sb := bench_after (bench_get 0) sa).
  set (s1 := bench_after (bench_get 1) sb). set (s2 := bench_after (bench_get 2) s1). exists s1, s2.
  destruct (handlers (ihm s0) !! 1) as [x|] eqn:E; [|exfalso; revert E; vm_compute; discriminate].
  apply (deferred_cycles_reported 1 s0 s1 s2 (m_last_cycle (prog x), m_deferred_cycles (prog x)) 7999 2 1).
  - exists x, 3. split_and!; [exact E| |reflexivity]. revert E. vm_compute. by intros [= <-].
  - split; vm_compute; congruence.
  - lia.
  - lia.
  - vm_compute. congruence.
  - apply (sends_cons 1 7999 RAW1394_ISO_OK (mkPacket [] 0 0 0) (mkPacket [] 0 0 0) 0 _ s0 sa); [vm_compute; reflexivity|].
    apply (sends_cons 1 0 RAW1394_ISO_DEFER (mkPacket [] 0 0 0) (mkPacket [] 0 0 0) 0 _ sa sb); [vm_compute; reflexivity|].
    apply (sends_cons 1 1 RAW1394_ISO_DEFER (mkPacket [] 0 0 0) (mkPacket [] 0 0 0) 0 _ sb s1); [vm_compute; reflexivity|constructor].
  - apply (sends_cons 1 2 RAW1394_ISO_OK (mkPacket [] 0 0 0) (mkPacket [] 0 0 0) 0 _ s1 s2); [vm_compute; reflexivity|constructor].
Defined.
