(* ===== verification/IsoTasks.v ===== *)
(** * The tasks of the isochronous handlers

    Theorems on the tasks of IsoManager and the life cycle of handlers: the arrays of a task shadow the enabled
    handlers of its direction, what happens with too many handlers, failed starts, and requests that are lost. *)
From stdpp Require Import gmap strings relations.
From S2P Require Import Prelude CycleTimer StreamProcessor StreamManager IsoHandlers IsoManager IsoSteps IsoExample IsoRegistry.
#[local] Open Scope Z_scope.

Section tasks.
Context {K : Type} `{IsoLaws K}.

Abbreviation I := (run (iso_system K)).
Implicit Types s : iso_system K.

(** ** One handler at a time *)

(** Everything but the handler [h], the requests and the outside is the same. *)
Definition state_at (m : IsoHandlerManager) (k : Z) : option EHandlerStates := (fun x => m_State (life x)) <$> handlers m !! k.
Definition type_at (m : IsoHandlerManager) (k : Z) : option EHandlerType := (fun x => m_type (conf x)) <$> handlers m !! k.
Definition frame (h : Z) : relation (iso_system K) := fun s s' =>
  m_IsoHandlers (ihm s) = m_IsoHandlers (ihm s')
  /\ (forall t, forget_requests <$> task_of t (ihm s) = forget_requests <$> task_of t (ihm s'))
  /\ (forall k, type_at (ihm s) k = type_at (ihm s') k /\ (k <> h -> state_at (ihm s) k = state_at (ihm s') k)).

#[local] Instance frame_preorder h : PreOrder (frame h).
Proof.
  split; [intros s; by split_and!|]. intros s1 s2 s3 (A1 & B1 & C1) (A2 & B2 & C2). split_and!; [congruence|intros t; by rewrite B1|].
  intros k. destruct (C1 k) as [D1 E1], (C2 k) as [D2 E2]. split; [congruence|]. intros N. rewrite E1 by done. auto.
Qed.

Lemma similar_frame h s s' : similar s s' -> frame h s s'.
Proof.
  intros E. split_and!.
  - by apply (f_equal m_IsoHandlers) in E.
  - intros []; [by apply (f_equal m_IsoTaskReceive) in E|by apply (f_equal m_IsoTaskTransmit) in E].
  - intros k. apply (f_equal handlers), (f_equal (lookup k)) in E. simpl in E. rewrite !lookup_fmap in E.
    unfold type_at, state_at. destruct (handlers (ihm s) !! k) as [x|], (handlers (ihm s') !! k) as [y|]; try done.
    injection E as E1 _ _ _ E2 _. simpl. split; [congruence|intros _; congruence].
Qed.

Lemma frame_store h y s x : handlers (ihm s) !! h = Some x -> conf y = conf x -> forall a s',
  store_handler h y s = Some (a, s') -> frame h s s'.
Proof.
  intros Hx Ec a s'. unfold store_handler, set_handlers, on_ihm, modify. intros [= <- <-]. split_and!; [done|by intros []|].
  intros k. unfold type_at, state_at. simpl. destruct (decide (k = h)) as [->|].
  - rewrite lookup_insert_eq, Hx. simpl. by rewrite Ec.
  - by rewrite lookup_insert_ne.
Qed.

Lemma frame_on_handler h f : (forall x, conf (f x) = conf x) -> within (frame h) (on_handler h f).
Proof. intros Hf s a s' (x & s1 & [-> Hx]%the_handler_inv & E)%run_bind_inv. by eapply frame_store; [exact Hx|apply Hf|exact E]. Qed.

Lemma frame_of_similar {A} h (m : I A) : within similar m -> within (frame h) m.
Proof. apply within_mono, similar_frame. Qed.
Lemma frame_requests {A} h (m : I A) : within (rtc request_step) m -> within (frame h) m.
Proof. intros W. apply frame_of_similar. revert W. apply within_mono, requests_similar. Qed.
Lemma frame_call_ext {A} h (f : st K A) : within (frame h) (call_ext f).
Proof. apply frame_of_similar, within_call_ext. Qed.
Lemma frame_on_ext h f : within (frame h) (@on_ext K f).
Proof. apply frame_of_similar, within_on_ext. Qed.

Hint Resolve frame_call_ext frame_on_ext : within.
Hint Extern 4 (within (frame _) (client_putPacket _ _ _ _ _ _ _ _)) => apply frame_requests, law_putPacket : within.
Hint Extern 4 (within (frame _) (client_getPacket _ _ _ _ _ _)) => apply frame_requests, law_getPacket : within.
Hint Extern 4 (within (frame _) (client_packetsStopped _)) => apply frame_requests, law_packetsStopped : within.
Hint Extern 4 (within (frame _) (on_handler _ _)) => apply frame_on_handler; intros ?; repeat case_match; done : within.

Lemma frame_putPacket h data length channel tag sy cycle dropped :
  within (frame h) (IsoHandler_putPacket h data length channel tag sy cycle dropped).
Proof.
  intros s a s' (x & s1 & [-> Hx]%the_handler_inv & (ok & s2 & [= <- <-] & (u & s3 & E1 & E2)%run_bind_inv)%run_bind_inv)%run_bind_inv.
  etrans; [by eapply frame_store; [exact Hx| |exact E1]|].
  destruct (m_Client (life x)); [by eapply (frame_requests _ _ (law_putPacket _ _ _ _ _ _ _ _))|by injection E2 as <- <-].
Qed.

Lemma frame_getPacket h p cycle dropped skipped : within (frame h) (IsoHandler_getPacket h p cycle dropped skipped).
Proof.
  intros s a s' (x & s1 & [-> Hx]%the_handler_inv & (u & s2 & E1 & E2)%run_bind_inv)%run_bind_inv.
  etrans; [by eapply frame_store; [exact Hx| |exact E1]|].
  revert E2. apply (fun W : within (frame h) _ => W s2 a s'). unfold packet_from_client. within.
Qed.
Hint Resolve frame_putPacket frame_getPacket : within.

Lemma frame_serve fuel call h handle : within (frame h) (serve fuel call h handle).
Proof. induction fuel; simpl; unfold iso_receive_handler, iso_transmit_handler; within. Qed.
Lemma frame_handle_of h k : within (frame h) (@handle_of K k).
Proof. unfold handle_of. within. Qed.
Lemma frame_client_of h k : within (frame h) (@client_of K k).
Proof. unfold client_of. within. Qed.
Hint Resolve frame_serve frame_handle_of frame_client_of : within.

Lemma frame_updateState h : within (frame h) (IsoHandler_updateState h).
Proof. unfold IsoHandler_updateState, IsoHandler_enable, disable_now, IsoHandler_disable, start_context. within. Qed.

(** ** The arrays of a task *)

Definition enabled_for (t : EHandlerType) (m : IsoHandlerManager) (h : Z) : Prop :=
  type_at m h = Some t /\ state_at m h = Some eHS_Running.

#[export] Instance enabled_for_dec t m h : Decision (enabled_for t m h).
Proof. unfold enabled_for. apply _. Defined.

Lemma enabled_iff t m h y : handlers m !! h = Some y -> enabled_for t m h <-> m_type (conf y) = t /\ m_State (life y) = eHS_Running.
Proof. intros Hy. unfold enabled_for, type_at, state_at. rewrite Hy. simpl. split; intros [E1 E2]; [by injection E1; injection E2|by rewrite E1, E2]. Qed.

(** The first [cnt] entries are the enabled handlers of [l]. *)
Definition shadows (t : EHandlerType) (m : IsoHandlerManager) (l : list Z) (cnt : nat) : Prop :=
  exists x, task_of t m = Some x /\ length (m_IsoHandler_map_shadow x) = ISOHANDLERMANAGER_MAX_ISO_HANDLERS_PER_PORT
  /\ length (m_poll_fds_shadow x) = ISOHANDLERMANAGER_MAX_ISO_HANDLERS_PER_PORT
  /\ (cnt <= ISOHANDLERMANAGER_MAX_ISO_HANDLERS_PER_PORT)%nat
  /\ take cnt (m_IsoHandler_map_shadow x) = Some <$> filter (enabled_for t m) l.

Lemma enabled_frame t h s s' k : frame h s s' -> k <> h -> enabled_for t (ihm s) k <-> enabled_for t (ihm s') k.
Proof. intros (_ & _ & F) N. destruct (F k) as [E1 E2]. unfold enabled_for. by rewrite E1, E2. Qed.

Lemma filter_enabled_frame t h s s' (l : list Z) : frame h s s' -> h ∉ l ->
  filter (enabled_for t (ihm s)) l = filter (enabled_for t (ihm s')) l.
Proof.
  intros F. induction l as [|k l IH]; intros N; [done|]. apply not_elem_of_cons in N as [Nk N].
  rewrite !filter_cons, IH by done. pose proof (enabled_frame t h s s' k F (not_eq_sym Nk)).
  repeat case_decide; tauto || done.
Qed.

Lemma shadows_frame t h s s' (l : list Z) cnt : frame h s s' -> h ∉ l -> shadows t (ihm s) l cnt -> shadows t (ihm s') l cnt.
Proof.
  intros F N (x & Ht & L1 & L2 & C & E). rewrite (filter_enabled_frame t h s s' l F N) in E.
  destruct F as (_ & F & _). specialize (F t). rewrite Ht in F. destruct (task_of t (ihm s')) as [y|] eqn:Hy; [|done].
  injection F as F1 F2. exists y. by rewrite <- F1, <- F2.
Qed.

Lemma the_task_inv t s x s' : the_task t s = Some (x, s') -> s' = s /\ task_of t (ihm s) = Some x.
Proof.
  intros (o & s1 & [= <- <-] & E)%run_bind_inv. unfold deref in E. destruct (task_of t (ihm s)); [|done]. by injection E as -> ->.
Qed.

Lemma shadow_entry_inv t cnt h s u s' : shadow_entry t cnt h s = Some (u, s') -> exists x fds sync, task_of t (ihm s) = Some x
  /\ (cnt < length (m_IsoHandler_map_shadow x))%nat /\ length fds = length (m_poll_fds_shadow x)
  /\ task_of t (ihm s') = Some (set_shadow fds (<[cnt := Some h]> (m_IsoHandler_map_shadow x)) (m_poll_nfds_shadow x) sync x)
  /\ m_IsoHandlers (ihm s') = m_IsoHandlers (ihm s) /\ handlers (ihm s') = handlers (ihm s).
Proof.
  intros (handle & s1 & E & (x & s2 & [-> Ht]%the_task_inv & E')%run_bind_inv)%run_bind_inv.
  apply run_bind_inv in E as (y & s3 & [-> _]%the_handler_inv & E). unfold deref in E. destruct (m_handle (life y)); [|done].
  injection E as -> <-. case_decide as D; [|done]. apply run_bind_inv in E' as (file & s4 & [= <- <-] & E').
  unfold set_task, on_ihm, modify in E'. injection E' as <- <-. 
  eexists x, (<[cnt := mkPollfd _ POLLIN 0]> (m_poll_fds_shadow x)), (match m_SyncIsoHandler x, t with None, eHT_Transmit => Some h | sync, _ => sync end).
  rewrite length_insert. split_and!; [done|apply D|done|by destruct t..].
Qed.

(** Appending an enabled handler. *)
Lemma shadows_entry t cnt h l s u s' : shadow_entry t cnt h s = Some (u, s') -> shadows t (ihm s) l cnt ->
  enabled_for t (ihm s) h -> shadows t (ihm s') (l ++ [h]) (S cnt).
Proof.
  intros (x & fds & sync & Ht & Hc & Lf & Ht' & _ & Eh)%shadow_entry_inv (y & Hy & L1 & L2 & C & E) En. simplify_eq.
  eexists. split; [exact Ht'|]. simpl. split_and!; [by rewrite length_insert|congruence|lia|].
  assert (filter (enabled_for t (ihm s')) (l ++ [h]) = filter (enabled_for t (ihm s)) (l ++ [h])) as ->.
  { apply list_filter_iff. intros k. unfold enabled_for, type_at, state_at. by rewrite Eh. }
  rewrite list.filter_app, fmap_app, <- E, filter_cons_True, filter_nil by done.
  rewrite (take_S_r _ _ (Some h)) by (by rewrite list_lookup_insert_eq). by rewrite take_insert_ge.
Qed.

(** Appending a handler that is not enabled, or of the other direction. *)
Lemma shadows_skip t cnt h l m : shadows t m l cnt -> ~ enabled_for t m h -> shadows t m (l ++ [h]) cnt.
Proof.
  intros (x & Ht & L1 & L2 & C & E) N. exists x. split_and!; [done..|].
  by rewrite list.filter_app, filter_cons_False, filter_nil, app_nil_r.
Qed.

Lemma handler_at_inv i s h s' : handler_at i s = Some (h, s') -> s' = s /\ m_IsoHandlers (ihm s) !! i = Some h.
Proof. intros (l & s1 & [= <- <-] & E)%run_bind_inv. unfold deref in E. destruct (_ !! i); [|done]. by injection E as -> ->. Qed.

(** The loop over the handlers fills the arrays. *)
Lemma shadow_handlers_spec t l n : NoDup l -> forall i cnt s cnt' s', length l = (i + n)%nat -> m_IsoHandlers (ihm s) = l ->
  shadows t (ihm s) (take i l) cnt -> shadow_handlers t n i cnt s = Some (cnt', s') ->
  m_IsoHandlers (ihm s') = l /\ shadows t (ihm s') l cnt'.
Proof.
  intros Nd. induction n as [|n IH]; intros i cnt s cnt' s' Len El Sh.
  { intros [= <- <-]. split; [done|]. by rewrite firstn_all2 in Sh by lia. }
  simpl. run_step. rewrite El. destruct (Nat.leb_spec (length l) i); [lia|].
  intros (h & s1 & [-> Hh]%handler_at_inv & (x & s2 & [-> Hx]%the_handler_inv & E)%run_bind_inv)%run_bind_inv. rewrite El in Hh.
  assert (take (S i) l = take i l ++ [h]) as Et by by apply take_S_r.
  assert (h ∉ take i l) as Nh.
  { rewrite <- (take_drop_middle l i h Hh) in Nd. apply list.NoDup_app in Nd as (_ & Nd & _). intros Hi. apply (Nd h Hi), elem_of_cons. by left. }
  case_decide as Ty.
  - eapply (IH (S i)); [lia|done| |exact E]. rewrite Et. apply shadows_skip; [done|]. intros [T _]. unfold type_at in T. rewrite Hx in T. by injection T.
  - apply run_bind_inv in E as (u & s3 & Eu & (y & s4 & [-> Hy]%the_handler_inv & E)%run_bind_inv).
    apply frame_updateState in Eu as F. apply (shadows_frame _ _ _ _ _ _ F Nh) in Sh. destruct F as (F1 & _ & F2).
    assert (type_at (ihm s3) h = Some t) as Ty' by (rewrite <- (proj1 (F2 h)); unfold type_at; by rewrite Hx, <- Ty).
    unfold isEnabled in E. case_bool_decide as En.
    + apply run_bind_inv in E as (v & s5 & Ee & E). pose proof (shadow_entry_inv _ _ _ _ _ _ Ee) as (_ & _ & _ & _ & _ & _ & _ & El5 & _).
      apply (shadows_entry _ _ _ _ _ _ _ Ee) in Sh; [|split; [done|unfold state_at; by rewrite Hy, <- En]].
      pose proof Sh as (_ & _ & _ & _ & C & _). destruct (Nat.ltb_spec ISOHANDLERMANAGER_MAX_ISO_HANDLERS_PER_PORT (S cnt)); [lia|].
      eapply (IH (S i)); [lia| | |exact E]; [by rewrite El5, <- F1|by rewrite Et].
    + pose proof Sh as (_ & _ & _ & _ & C & _). destruct (Nat.ltb_spec ISOHANDLERMANAGER_MAX_ISO_HANDLERS_PER_PORT cnt); [lia|].
      eapply (IH (S i)); [lia|by rewrite <- F1| |exact E]. rewrite Et. apply shadows_skip; [done|].
      intros [_ S']. unfold state_at in S'. rewrite Hy in S'. by injection S'.
Qed.

Lemma on_task_inv t f s u s' : on_task t f s = Some (u, s') -> exists x, task_of t (ihm s) = Some x
  /\ task_of t (ihm s') = Some (f x) /\ m_IsoHandlers (ihm s') = m_IsoHandlers (ihm s) /\ handlers (ihm s') = handlers (ihm s).
Proof.
  intros (x & s1 & [-> Ht]%the_task_inv & E)%run_bind_inv. exists x. unfold set_task, on_ihm, modify in E. injection E as <- <-.
  by destruct t.
Qed.

Lemma shadows_on_task t f s u s' l cnt : on_task t f s = Some (u, s') ->
  (forall x, m_IsoHandler_map_shadow (f x) = m_IsoHandler_map_shadow x /\ m_poll_fds_shadow (f x) = m_poll_fds_shadow x) ->
  shadows t (ihm s) l cnt -> shadows t (ihm s') l cnt.
Proof.
  intros (x & Hx & Hx' & _ & Eh)%on_task_inv Hf (y & Hy & Sh). rewrite Hx in Hy. injection Hy as <-.
  exists (f x). destruct (Hf x) as [-> ->]. split; [done|].
  destruct Sh as (? & ? & ? & Sh). split_and!; [done..|]. rewrite Sh. f_equal. apply list_filter_iff. intros k.
  unfold enabled_for, type_at, state_at. by rewrite Eh.
Qed.

(** C24. After a task has updated its arrays (no bus reset being handled) they hold exactly the running handlers
    of its direction, each once and in the order of the manager's list, however the states of the handlers changed during the
    update and whatever their clients requested meanwhile. *)
Theorem shadow_map_current t s s' x : task_of t (ihm s) = Some x -> m_in_busreset x = false ->
  length (m_IsoHandler_map_shadow x) = ISOHANDLERMANAGER_MAX_ISO_HANDLERS_PER_PORT ->
  length (m_poll_fds_shadow x) = ISOHANDLERMANAGER_MAX_ISO_HANDLERS_PER_PORT -> NoDup (m_IsoHandlers (ihm s)) ->
  updateShadowMapHelper t s = Some (tt, s') ->
  let running := filter (enabled_for t (ihm s')) (m_IsoHandlers (ihm s)) in
  exists x', task_of t (ihm s') = Some x' /\ m_IsoHandlers (ihm s') = m_IsoHandlers (ihm s)
  /\ m_poll_nfds_shadow x' = length running /\ take (length running) (m_IsoHandler_map_shadow x') = Some <$> running.
Proof.
  intros Ht Hb L1 L2 Nd E running. unfold updateShadowMapHelper in E. apply run_bind_inv in E as (x0 & s0 & [-> Hx0]%the_task_inv & E).
  simplify_eq. rewrite Hb in E. apply run_bind_inv in E as (max & s0 & [= <- <-] & E).
  apply run_bind_inv in E as (u1 & s1 & (x1 & Hx1 & Hx1' & El1 & Eh1)%on_task_inv & (cnt & s2 & E2 & E)%run_bind_inv). simplify_eq.
  apply (shadow_handlers_spec t (m_IsoHandlers (ihm s))) in E2 as [El2 Sh]; [|done|done|done|].
  2: { exists (set_sync None x). by split_and!; [..|unfold ISOHANDLERMANAGER_MAX_ISO_HANDLERS_PER_PORT; lia|]. }
  assert (exists y, task_of t (ihm s') = Some y /\ m_poll_nfds_shadow y = cnt
    /\ m_IsoHandlers (ihm s') = m_IsoHandlers (ihm s2) /\ shadows t (ihm s') (m_IsoHandlers (ihm s)) cnt) as (y & Hy & Ny & El & Sh').
  { apply run_bind_inv in E as (x2 & s3 & [-> Hx2]%the_task_inv & (u3 & s4 & E4 & E5)%run_bind_inv).
    assert (shadows t (ihm s4) (m_IsoHandlers (ihm s)) cnt /\ m_IsoHandlers (ihm s4) = m_IsoHandlers (ihm s2)) as [Sh4 El4].
    { destruct (_ && _); [|by injection E4 as <- <-]. apply run_bind_inv in E4 as (h & s5 & E4 & E6). unfold deref in E4.
      destruct (_ !! 0%nat); [|done]. injection E4 as <- <-. pose proof (on_task_inv _ _ _ _ _ E6) as (_ & _ & _ & -> & _).
      split; [by eapply shadows_on_task; [exact E6| |]|done]. }
    pose proof (on_task_inv _ _ _ _ _ E5) as (y & _ & Hy & El5 & _). exists (set_nfds cnt y).
    split_and!; [done|done|congruence|]. by eapply shadows_on_task; [exact E5| |]. }
  destruct Sh' as (z & Hz & L3 & L4 & C & Ez). simplify_eq. assert (length running = m_poll_nfds_shadow y) as Len.
  { rewrite <- (length_fmap Some running). unfold running. rewrite <- Ez, length_take. lia. }
  exists y. rewrite Len. split_and!; [done|congruence|done|done].
Qed.

(** ** Capacity *)

Definition has_arrays (t : EHandlerType) (m : IsoHandlerManager) : Prop :=
  exists x, task_of t m = Some x /\ length (m_IsoHandler_map_shadow x) = ISOHANDLERMANAGER_MAX_ISO_HANDLERS_PER_PORT
  /\ length (m_poll_fds_shadow x) = ISOHANDLERMANAGER_MAX_ISO_HANDLERS_PER_PORT.

(** No handler of the direction has a pending request. *)
Definition settled (t : EHandlerType) (m : IsoHandlerManager) : Prop :=
  forall h, h ∈ m_IsoHandlers m -> exists y, handlers m !! h = Some y
  /\ (m_type (conf y) = t -> m_State (life y) = m_NextState (life y) /\ run_ok y).

(** The same handlers and lists. *)
Definition same_handlers (s s' : iso_system K) : Prop :=
  m_IsoHandlers (ihm s') = m_IsoHandlers (ihm s) /\ handlers (ihm s') = handlers (ihm s).

Lemma updateState_settled h y s : handlers (ihm s) !! h = Some y -> m_State (life y) = m_NextState (life y) ->
  IsoHandler_updateState h s = Some (tt, s).
Proof. intros Hy E. unfold IsoHandler_updateState. run_step with (the_handler_Some h s y Hy). rewrite <- E. by destruct (m_State (life y)). Qed.

Lemma shadow_entry_room t cnt h y s : handlers (ihm s) !! h = Some y -> m_handle (life y) <> None -> has_arrays t (ihm s) ->
  if (cnt <? ISOHANDLERMANAGER_MAX_ISO_HANDLERS_PER_PORT)%nat
  then exists s', shadow_entry t cnt h s = Some (tt, s') /\ same_handlers s s' /\ has_arrays t (ihm s')
  else shadow_entry t cnt h s = None.
Proof.
  intros Hy Nh (x & Hx & L1 & L2). destruct (m_handle (life y)) as [handle|] eqn:E; [|done].
  assert (shadow_entry t cnt h s = (if decide (cnt < length (m_IsoHandler_map_shadow x) /\ cnt < length (m_poll_fds_shadow x))%nat then
    set_task t (Some (set_shadow (<[cnt := mkPollfd (raw1394_get_fd handle (ext s)) POLLIN 0]> (m_poll_fds_shadow x))
      (<[cnt := Some h]> (m_IsoHandler_map_shadow x)) (m_poll_nfds_shadow x)
      (match m_SyncIsoHandler x, t with None, eHT_Transmit => Some h | sync, _ => sync end) x)) else crash) s) as ->.
  { unfold shadow_entry, handle_of, the_task. rewrite (run_bind_Some _ _ s handle s).
    2: { run_step with (the_handler_Some h s y Hy). by rewrite E. }
    rewrite (run_bind_Some _ _ s x s); [|run_step; by rewrite Hx]. by case_decide. }
  rewrite L1, L2. destruct (Nat.ltb_spec cnt ISOHANDLERMANAGER_MAX_ISO_HANDLERS_PER_PORT).
  - rewrite decide_True by done. eexists. split; [done|]. split; [by destruct t|].
    destruct t; (eexists; split; [reflexivity|]); simpl; by rewrite !length_insert.
  - rewrite decide_False by lia. done.
Qed.

Lemma shadow_handlers_capacity t l n : forall i cnt s, length l = (i + n)%nat -> m_IsoHandlers (ihm s) = l -> settled t (ihm s) ->
  has_arrays t (ihm s) -> (cnt <= ISOHANDLERMANAGER_MAX_ISO_HANDLERS_PER_PORT)%nat ->
  let total := (cnt + length (filter (enabled_for t (ihm s)) (drop i l)))%nat in
  if (total <=? ISOHANDLERMANAGER_MAX_ISO_HANDLERS_PER_PORT)%nat
  then exists s', shadow_handlers t n i cnt s = Some (total, s') /\ same_handlers s s' /\ has_arrays t (ihm s')
  else shadow_handlers t n i cnt s = None.
Proof.
  induction n as [|n IH]; intros i cnt s Len El St Ar Hc; cbv zeta.
  { rewrite drop_ge by lia. rewrite filter_nil, Nat.add_0_r. destruct (Nat.leb_spec cnt ISOHANDLERMANAGER_MAX_ISO_HANDLERS_PER_PORT); [|lia].
    by exists s. }
  destruct (lookup_lt_is_Some_2 l i) as [h Hh]; [lia|]. rewrite (drop_S l h i Hh). destruct (St h) as (y & Hy & Sy).
  { rewrite El. by eapply list_elem_of_lookup_2. }
  assert (shadow_handlers t (S n) i cnt s =
    (if decide (enabled_for t (ihm s) h) then shadow_entry t cnt h ;;
       if (ISOHANDLERMANAGER_MAX_ISO_HANDLERS_PER_PORT <? S cnt)%nat then mret (S cnt) else shadow_handlers t n (S i) (S cnt)
     else shadow_handlers t n (S i) cnt) s) as ->.
  { simpl. run_step. rewrite El. destruct (Nat.leb_spec (length l) i); [lia|].
    rewrite (run_bind_Some _ _ s h s) by (unfold handler_at; run_step; by rewrite El, Hh).
    run_step with (the_handler_Some h s y Hy). pose proof (enabled_iff t (ihm s) h y Hy) as Ei.
    case_decide as Ty; [by rewrite decide_False by tauto|]. destruct (Sy Ty) as [Se _].
    run_step with (updateState_settled h y s Hy Se). run_step with (the_handler_Some h s y Hy). unfold isEnabled.
    case_bool_decide as En; [by rewrite decide_True by tauto|]. rewrite decide_False by tauto.
    by destruct (Nat.ltb_spec ISOHANDLERMANAGER_MAX_ISO_HANDLERS_PER_PORT cnt); [lia|]. }
  rewrite filter_cons. case_decide as En; [|apply (IH (S i) cnt s); lia || done].
  assert (m_handle (life y) <> None) as Nh.
  { apply (enabled_iff _ _ _ _ Hy) in En as [E1 E2]. by apply Sy. }
  pose proof (shadow_entry_room t cnt h y s Hy Nh Ar) as Ro. simpl length.
  destruct (Nat.ltb_spec cnt ISOHANDLERMANAGER_MAX_ISO_HANDLERS_PER_PORT) as [Hlt|].
  - destruct Ro as (s1 & E & [El1 Eh1] & Ar1). run_step with E. destruct (Nat.ltb_spec ISOHANDLERMANAGER_MAX_ISO_HANDLERS_PER_PORT (S cnt)); [lia|].
    assert (filter (enabled_for t (ihm s)) (drop (S i) l) = filter (enabled_for t (ihm s1)) (drop (S i) l)) as ->.
    { apply list_filter_iff. intros k. unfold enabled_for, type_at, state_at. by rewrite Eh1. }
    assert (settled t (ihm s1)) as St1 by (intros k Hk; rewrite Eh1; apply St; by rewrite <- El1).
    specialize (IH (S i) (S cnt) s1 ltac:(lia) ltac:(congruence) St1 Ar1 ltac:(lia)). cbv zeta in IH.
    rewrite Nat.add_succ_r. simpl in IH. destruct (_ <=? _)%nat; [|done]. destruct IH as (s' & E' & [El' Eh'] & Ar').
    exists s'. split_and!; [done| |done]. split; congruence.
  - rewrite (proj2 (Nat.leb_gt _ _)) by lia. unfold mbind, run_bind. by rewrite Ro.
Qed.

Lemma on_task_Some t f s x : task_of t (ihm s) = Some x -> exists s', on_task t f s = Some (tt, s').
Proof.
  intros Hx. unfold on_task. rewrite (run_bind_Some _ _ s x s) by (unfold the_task; run_step; by rewrite Hx). by eexists.
Qed.

(** The end of an update. *)
Lemma finish_update t cnt s : has_arrays t (ihm s) -> exists s',
  (x ← the_task t;
   (if bool_decide (m_SyncIsoHandler x = None) && negb (m_poll_nfds_shadow x =? 0)%nat
    then h ← deref (m_IsoHandler_map_shadow x !! 0%nat); on_task t (set_sync h) else mret ()) ;;
   on_task t (set_nfds cnt)) s = Some (tt, s').
Proof.
  intros (x & Hx & L1 & _). rewrite (run_bind_Some _ _ s x s) by (unfold the_task; run_step; by rewrite Hx).
  destruct (m_IsoHandler_map_shadow x) as [|h l]; [done|]. destruct (_ && _).
  - destruct (on_task_Some t (set_sync h) s x Hx) as [s1 E]. rewrite (run_bind_Some _ _ s tt s1) by done.
    apply on_task_inv in E as (y & _ & Hy & _). by eapply on_task_Some.
  - run_step. by eapply on_task_Some.
Qed.

(** The arrays of a task have room for 16 handlers and the guard for a 17th comes too late: when no request is pending, an
    update succeeds if at most 16 handlers of the direction run, and with more it writes behind the end of the arrays. *)
Theorem shadow_map_overrun t s x : task_of t (ihm s) = Some x -> m_in_busreset x = false -> has_arrays t (ihm s) ->
  settled t (ihm s) ->
  updateShadowMapHelper t s = None
  <-> (ISOHANDLERMANAGER_MAX_ISO_HANDLERS_PER_PORT < length (filter (enabled_for t (ihm s)) (m_IsoHandlers (ihm s))))%nat.
Proof.
  intros Hx Hb Ar St. unfold updateShadowMapHelper. rewrite (run_bind_Some _ _ s x s) by (unfold the_task; run_step; by rewrite Hx).
  rewrite Hb. run_step. destruct (on_task_Some t (set_sync None) s x Hx) as [s1 E1]. run_step with E1.
  apply on_task_inv in E1 as (x1 & Hx1 & Hx1' & El1 & Eh1). rewrite Hx in Hx1. injection Hx1 as <-.
  assert (has_arrays t (ihm s1)) as Ar1.
  { destruct Ar as (y & Hy & L). rewrite Hx in Hy. injection Hy as <-. by eexists. }
  assert (settled t (ihm s1)) as St1 by (intros k Hk; rewrite Eh1; apply St; by rewrite <- El1).
  pose proof (shadow_handlers_capacity t _ _ 0 0 s1 eq_refl eq_refl St1 Ar1 ltac:(lia)) as Cap. cbv zeta in Cap.
  rewrite El1, drop_0 in Cap. simpl plus in Cap.
  assert (filter (enabled_for t (ihm s1)) (m_IsoHandlers (ihm s)) = filter (enabled_for t (ihm s)) (m_IsoHandlers (ihm s))) as Ef.
  { apply list_filter_iff. intros k. unfold enabled_for, type_at, state_at. by rewrite Eh1. }
  rewrite Ef in Cap. destruct (Nat.leb_spec (length (filter (enabled_for t (ihm s)) (m_IsoHandlers (ihm s)))) ISOHANDLERMANAGER_MAX_ISO_HANDLERS_PER_PORT).
  - destruct Cap as (s2 & E2 & _ & Ar2). run_step with E2. destruct (finish_update t (length (filter (enabled_for t (ihm s)) (m_IsoHandlers (ihm s)))) s2 Ar2) as [s' E'].
    rewrite E'. split; [done|lia].
  - split; [done|]. intros _. unfold mbind, run_bind at 1. by rewrite Cap.
Qed.

(** ** Starts that fail *)

(** The handler [h] waits to be started, with the handle [o]. *)
Definition pending (h : Z) (o : option Z) (m : IsoHandlerManager) : Prop :=
  exists x, handlers m !! h = Some x /\ m_State (life x) = eHS_Stopped /\ m_NextState (life x) = eHS_Running /\ m_handle (life x) = o.
Definition stays_pending (h : Z) (o : option Z) : relation (iso_system K) := fun s s' =>
  pending h o (ihm s) -> pending h o (ihm s').

#[local] Instance stays_pending_preorder h o : PreOrder (stays_pending h o).
Proof. unfold stays_pending. split; red; auto. Qed.

Lemma pending_same h o s s' : handlers (ihm s') = handlers (ihm s) -> stays_pending h o s s'.
Proof. unfold stays_pending, pending. by intros ->. Qed.

Lemma pending_call_ext {A} h o (f : st K A) : within (stays_pending h o) (call_ext f).
Proof. intros s a s' E. apply pending_same. by rewrite (call_ext_inv _ _ _ _ E). Qed.
Lemma pending_on_ext h o f : within (stays_pending h o) (@on_ext K f).
Proof. intros s a s' [= <- <-]. by apply pending_same. Qed.
Lemma pending_on_task h o t f : within (stays_pending h o) (@on_task K t f).
Proof. intros s a s' (_ & _ & _ & _ & E)%on_task_inv. by apply pending_same. Qed.

Lemma pending_store h o k x y s : handlers (ihm s) !! k = Some x ->
  (m_State (life x) = eHS_Stopped -> m_State (life y) = eHS_Stopped
   /\ (m_NextState (life x) = eHS_Running -> m_NextState (life y) = eHS_Running) /\ m_handle (life y) = m_handle (life x)) ->
  forall a s', store_handler k y s = Some (a, s') -> stays_pending h o s s'.
Proof.
  intros Hx Hy a s'. unfold store_handler, set_handlers, on_ihm, modify. intros [= <- <-] (z & Hz & S1 & S2 & S3). simpl in *.
  destruct (decide (k = h)) as [->|]; [|exists z; simpl; by rewrite lookup_insert_ne]. simplify_eq.
  exists y. simpl. rewrite lookup_insert_eq. destruct (Hy S1) as (? & ? & ?). split_and!; auto.
Qed.

Lemma pending_on_handler h o k f : (forall x, life (f x) = life x) -> within (stays_pending h o) (on_handler k f).
Proof.
  intros Hf s a s' (x & s1 & [-> Hx]%the_handler_inv & E)%run_bind_inv. eapply (pending_store _ _ _ _ _ _ Hx); [|exact E].
  by rewrite Hf.
Qed.

Lemma pending_task_request h o t : within (stays_pending h o) (@task_requestShadowMapUpdate K t).
Proof. unfold task_requestShadowMapUpdate, task_signalActivity. within; apply pending_on_task. Qed.
Lemma reads_getHandlerForStream stream : within eq (@getHandlerForStream K stream).
Proof. unfold getHandlerForStream. within. generalize (a). intros l. induction l; simpl; within. Qed.
Lemma pending_reads {A} h o (m : I A) : within eq m -> within (stays_pending h o) m.
Proof. apply within_mono. by intros s s' ->. Qed.

Lemma pending_request h o f k : (forall x, m_State (life x) = eHS_Stopped -> m_State (life (f x).2) = eHS_Stopped
    /\ (m_NextState (life x) = eHS_Running -> m_NextState (life (f x).2) = eHS_Running) /\ m_handle (life (f x).2) = m_handle (life x)) ->
  within (stays_pending h o) (request_and_update f k).
Proof.
  intros Hf. unfold request_and_update. apply within_bind; [apply _|within|intros x]. apply within_bind; [apply _| |intros b].
  - intros s a s' (y & s1 & [-> Hy]%the_handler_inv & (u & s2 & E1 & [= <- <-])%run_bind_inv)%run_bind_inv.
    eapply (pending_store _ _ _ _ _ _ Hy); [apply Hf|exact E1].
  - destruct b; within; apply pending_task_request.
Qed.

Lemma pending_request_step h o s s' : request_step s s' -> stays_pending h o s s'.
Proof.
  assert (forall f stream, (forall x, m_State (life x) = eHS_Stopped -> m_State (life (f x).2) = eHS_Stopped
    /\ (m_NextState (life x) = eHS_Running -> m_NextState (life (f x).2) = eHS_Running) /\ m_handle (life (f x).2) = m_handle (life x)) ->
    within (stays_pending h o) (request_for_stream f stream)) as W.
  { intros f stream Hf. unfold request_for_stream. within; [by apply pending_reads, reads_getHandlerForStream|by apply pending_request]. }
  intros [m k k'|? ? E|? ? E|? ? ? ? ? E|? ? ? ? E]; [by apply pending_same|by eapply pending_on_task..| |].
  - revert E. apply W. intros [? ? [? ? [] ? ?]]; simpl; naive_solver.
  - revert E. apply W. intros [? ? [? ? [] ? ?]]; simpl; naive_solver.
Qed.

Lemma pending_requests h o s s' : rtc request_step s s' -> stays_pending h o s s'.
Proof. induction 1; [done|]. etrans; [by apply pending_request_step|done]. Qed.
Lemma pending_client {A} h o (m : I A) : within (rtc request_step) m -> within (stays_pending h o) m.
Proof. apply within_mono, pending_requests. Qed.

Hint Resolve pending_call_ext pending_on_ext : within.
Hint Extern 4 (within (stays_pending _ _) (client_getPacket _ _ _ _ _ _)) => apply pending_client, law_getPacket : within.
Hint Extern 4 (within (stays_pending _ _) (on_handler _ _)) => apply pending_on_handler; intros ?; repeat case_match; done : within.

Lemma pending_putPacket h o k data length channel tag sy cycle dropped :
  within (stays_pending h o) (IsoHandler_putPacket k data length channel tag sy cycle dropped).
Proof.
  intros s a s' (x & s1 & [-> Hx]%the_handler_inv & (ok & s2 & [= <- <-] & (u & s3 & E1 & E2)%run_bind_inv)%run_bind_inv)%run_bind_inv.
  etrans; [by eapply (pending_store _ _ _ _ _ _ Hx); [|exact E1]|].
  destruct (m_Client (life x)); [by eapply (pending_client _ _ _ (law_putPacket _ _ _ _ _ _ _ _))|by injection E2 as <- <-].
Qed.

Lemma pending_getPacket h o k p cycle dropped skipped : within (stays_pending h o) (IsoHandler_getPacket k p cycle dropped skipped).
Proof.
  intros s a s' (x & s1 & [-> Hx]%the_handler_inv & (u & s2 & E1 & E2)%run_bind_inv)%run_bind_inv.
  etrans; [by eapply (pending_store _ _ _ _ _ _ Hx); [|exact E1]|].
  revert E2. apply (fun W : within (stays_pending h o) _ => W s2 a s'). unfold packet_from_client. within.
Qed.
Hint Resolve pending_putPacket pending_getPacket : within.

Lemma pending_serve h o fuel call k handle : within (stays_pending h o) (serve fuel call k handle).
Proof. induction fuel; simpl; unfold iso_receive_handler, iso_transmit_handler; within. Qed.
Lemma pending_start_context h o k handle cycle : within (stays_pending h o) (start_context k handle cycle).
Proof. unfold start_context, client_of. within; apply pending_serve. Qed.


(** A handler that libraw1394 refuses to start brings the process down: the handle of the failed attempt stays in the handler, which
    still waits to be started, and no request that a client can make (a request to stop included) changes that;
    the next update of the task asserts that there is no handle. *)
Theorem failed_start_fatal h x handle s s1 s2 y : handlers (ihm s) !! h = Some x -> m_State (life x) = eHS_Stopped ->
  m_NextState (life x) = eHS_Running -> (raw1394_new_handle_on_port (ext s)).1 = Some handle ->
  IsoHandler_updateState h s = Some (tt, s1) -> handlers (ihm s1) !! h = Some y -> m_State (life y) = eHS_Stopped ->
  rtc request_step s1 s2 -> IsoHandler_updateState h s2 = None.
Proof.
  intros Hx S1 S2 Hn E Hy S3 R. unfold IsoHandler_updateState in E. revert E. run_step with (the_handler_Some h s x Hx). rewrite S1, S2.
  intros (b & s3 & E & [= <-])%run_bind_inv.
  assert (pending h (Some handle) (ihm s3)) as P.
  { revert E. unfold IsoHandler_enable. run_step with (the_handler_Some h s x Hx). unfold isEnabled. rewrite S1, bool_decide_false by done.
    intros (u & s4 & [-> _]%assert_inv & (o & s5 & E & E')%run_bind_inv)%run_bind_inv. unfold call_ext in E.
    destruct (raw1394_new_handle_on_port (ext s)) as [o' k]. simpl in Hn. rewrite Hn in E. injection E as <- <-.
    apply run_bind_inv in E' as (v & s6 & (z & Hz & E6)%on_handler_inv & (w & s7 & E7 & (ok & s8 & E8 & E9)%run_bind_inv)%run_bind_inv).
    simpl in Hz. rewrite Hx in Hz. injection Hz as <-.
    assert (pending h (Some handle) (ihm s8)) as P.
    { apply (pending_start_context h _ _ _ _ _ _ _ E8), (pending_on_handler h _ h reset_progress ltac:(done) _ _ _ E7).
      exists (set_handle (Some handle) x). by rewrite E6, lookup_insert_eq. }
    destruct ok; simpl in E9; [|by injection E9 as <- <-]. apply run_bind_inv in E9 as (r & s9 & (q & Hq & E9)%on_handler_inv & [= <- <-]).
    exfalso. rewrite E9, lookup_insert_eq in Hy. injection Hy as <-. done. }
  apply (pending_requests h (Some handle) _ _ R) in P as (z & Hz & Z1 & Z2 & Z3).
  unfold IsoHandler_updateState. run_step with (the_handler_Some h s2 z Hz). rewrite Z1, Z2. unfold IsoHandler_enable, mbind, run_bind.
  rewrite (the_handler_Some h s2 z Hz). simpl. unfold isEnabled, assert_that. by rewrite Z1, Z3.
Qed.

(** ** A stop request that is lost *)

Lemma call_handler_Some {A} h (f : IsoHandler -> A * IsoHandler) x s : handlers (ihm s) !! h = Some x ->
  call_handler h f s = Some ((f x).1, with_handlers (<[h := (f x).2]> (handlers (ihm s))) s).
Proof. intros Hx. unfold call_handler. run_step with (the_handler_Some h s x Hx). done. Qed.

Lemma on_task_State t f s u s' : @on_task K t f s = Some (u, s') -> ihm_State (ihm s') = ihm_State (ihm s).
Proof. intros (x & s1 & [-> Ht]%the_task_inv & E)%run_bind_inv. unfold set_task, on_ihm, modify in E. injection E as <- <-. by destruct t. Qed.

(** A request to a task that exists. *)
Lemma task_request_Some t s x : task_of t (ihm s) = Some x -> exists s', task_requestShadowMapUpdate t s = Some (tt, s').
Proof.
  intros Hx. unfold task_requestShadowMapUpdate. destruct (on_task_Some t (set_request_update (fun n => i32 (n + 1))) s x Hx) as [s1 E].
  run_step with E. apply on_task_inv in E as (y & _ & Hy & _). by eapply on_task_Some.
Qed.
Lemma task_request_inv t s u s' : @task_requestShadowMapUpdate K t s = Some (u, s') -> handlers (ihm s') = handlers (ihm s)
  /\ m_IsoHandlers (ihm s') = m_IsoHandlers (ihm s) /\ ihm_State (ihm s') = ihm_State (ihm s) /\ is_Some (task_of t (ihm s')).
Proof.
  intros (v & s1 & E1 & E2)%run_bind_inv. pose proof (on_task_State _ _ _ _ _ E1) as S1. pose proof (on_task_State _ _ _ _ _ E2) as S2.
  apply on_task_inv in E1 as (x & _ & _ & L1 & H1'), E2 as (y & _ & Hy & L2 & H2'). split_and!; try congruence. by rewrite Hy.
Qed.

(** Stopping a stream right after starting it does nothing: the request to stop succeeds, but the handler, which does not run
    yet, still waits to be started, and the task will start it. *)
Theorem stop_before_start_lost s stream cycle s1 : registry_ok (ihm s) -> IHM_startHandlerForStream stream cycle s = Some (true, s1) ->
  exists s2 h x, IHM_stopHandlerForStream stream s1 = Some (true, s2) /\ handlers (ihm s2) !! h = Some x
  /\ m_Client (life x) = Some stream /\ m_State (life x) = eHS_Stopped /\ m_NextState (life x) = eHS_Running.
Proof.
  intros R E. assert (registry_ok (ihm s1)) as R1.
  { apply (similar_request_for_stream _ _ (forget_requestEnable cycle)), similar_steady, steady_keeps in E as [Ec _].
    by eapply clients_registry. }
  unfold IHM_startHandlerForStream, request_for_stream in E.
  apply run_bind_inv in E as (m & s0 & [= <- <-] & E). case_decide as St; [done|].
  destruct (getHandlerForStream_spec stream s R) as (o & Eo & Ho). revert E. run_step with Eo. destruct o as [h|]; [|done].
  destruct Ho as (_ & Ch & _). unfold client_at in Ch. destruct (handlers (ihm s) !! h) as [x|] eqn:Hx; [|done]. simpl in Ch.
  unfold request_and_update. run_step with (the_handler_Some h s x Hx). run_step with (call_handler_Some h (requestEnable cycle) x s Hx).
  unfold requestEnable. destruct (m_State (life x)) eqn:Sx; [|done]. simpl.
  intros (u & s3 & (E1 & E2 & E3 & [tk Ht])%task_request_inv & [= <-])%run_bind_inv. simpl in E1, E2, E3.
  set (x1 := set_next eHS_Running x) in *. assert (handlers (ihm s3) !! h = Some x1) as Hx1 by by rewrite E1, lookup_insert_eq.
  unfold IHM_stopHandlerForStream, request_for_stream. run_step. rewrite decide_False by (rewrite E3; auto).
  destruct (getHandlerForStream_spec stream s3 R1) as (o & Eo1 & Ho). run_step with Eo1.
  destruct o as [h1|]; [|by destruct Ho; eapply (registry_client _ h x1)].
  destruct Ho as (_ & Ch1 & _). unfold client_at in Ch1. destruct (handlers (ihm s3) !! h1) as [z|] eqn:Hz; [|done]. simpl in Ch1.
  rewrite <- (registry_unique _ _ _ _ _ _ R1 Hx1 Hz Ch Ch1) in *. simplify_eq.
  unfold request_and_update. run_step with (the_handler_Some h s3 x1 Hx1). run_step with (call_handler_Some h requestDisable x1 s3 Hx1).
  unfold requestDisable. change (m_State (life x1)) with (m_State (life x)). rewrite Sx. simpl.
  destruct (task_request_Some (m_type (conf x)) (with_handlers (<[h := x1]> (handlers (ihm s3))) s3) tk) as [s4 E4]; [by destruct (m_type (conf x))|].
  run_step with E4. apply task_request_inv in E4 as (E4 & _). exists s4, h, x1. split; [done|].
  rewrite E4. simpl. rewrite lookup_insert_eq. by split_and!.
Qed.

End tasks.

(** ** Witnesses *)

(** Both streams are to be started, and no task has noticed yet. *)
Definition bench_requested : iso_system bench :=
  bench_after (IsoTask_Init eHT_Transmit ;; IsoTask_Init eHT_Receive ;; IHM_startHandlerForStream 2 (-1) ;; IHM_startHandlerForStream 3 (-1)) bench_two.

Lemma shadow_map_current_witness :
  exists x', task_of eHT_Receive (ihm (bench_after (updateShadowMapHelper eHT_Receive) bench_requested)) = Some x'
  /\ m_poll_nfds_shadow x' = 1%nat /\ take 1 (m_IsoHandler_map_shadow x') = [Some 0].
Proof.
  destruct (task_of eHT_Receive (ihm bench_requested)) as [x|] eqn:E; [|exfalso; revert E; vm_compute; discriminate].
  destruct (shadow_map_current eHT_Receive bench_requested (bench_after (updateShadowMapHelper eHT_Receive) bench_requested) x E) as (x' & E' & _ & N & T).
  - revert E. vm_compute. by intros [= <-].
  - revert E. vm_compute. by intros [= <-].
  - revert E. vm_compute. by intros [= <-].
  - apply (bool_decide_unpack _). vm_compute. exact I.
  - vm_compute. reflexivity.
  - exists x'. split; [exact E'|]. revert N T. vm_compute (filter _ _). intros N T. split; [exact N|exact T].
Defined.

(** [n] receive streams that run. *)
Fixpoint run_streams (n : nat) : run (iso_system bench) unit :=
  match n with
  | O => mret ()
  | S n =>
      run_streams n ;; IHM_registerStream (2 * Z.of_nat (S n)) ;; IHM_startHandlerForStream (2 * Z.of_nat (S n)) (-1) ;;
      IsoHandler_updateState (Z.of_nat n)
  end.
Definition bench_many : iso_system bench :=
  bench_after (IsoTask_Init eHT_Transmit ;; IsoTask_Init eHT_Receive ;; run_streams 17) bench_ready.

Lemma shadow_map_overrun_witness : updateShadowMapHelper eHT_Receive bench_many = None.
Proof.
  destruct (task_of eHT_Receive (ihm bench_many)) as [x|] eqn:E; [|exfalso; revert E; vm_compute; discriminate].
  apply (shadow_map_overrun eHT_Receive bench_many x E).
  - revert E. vm_compute. by intros [= <-].
  - exists x. split; [exact E|]. revert E. vm_compute. by intros [= <-].
  - intros h. vm_compute (m_IsoHandlers _). intros Hh.
    repeat (apply elem_of_cons in Hh as [->|Hh]; [eexists; split; [vm_compute; reflexivity|intros _; split; [reflexivity|intros _; discriminate]]|]).
    destruct (not_elem_of_nil _ Hh).
  - vm_compute. lia.
Defined.

(** The library refuses the parameters of the stream. *)
Definition bench_refused : iso_system bench :=
  mkIso (ihm bench_requested) (mkBench 9 true [] [] [] bench_now).
Definition bench_failed : iso_system bench := bench_after (IsoHandler_updateState 0) bench_refused.

Lemma failed_start_fatal_witness : IsoHandler_updateState 0 (bench_after (IHM_stopHandlerForStream 2) bench_failed) = None.
Proof.
  destruct (handlers (ihm bench_refused) !! 0) as [x|] eqn:E; [|exfalso; revert E; vm_compute; discriminate].
  destruct (handlers (ihm bench_failed) !! 0) as [y|] eqn:E1; [|exfalso; revert E1; vm_compute; discriminate].
  apply (failed_start_fatal 0 x 9 bench_refused bench_failed _ y E).
  - revert E. vm_compute. by intros [= <-].
  - revert E. vm_compute. by intros [= <-].
  - vm_compute. reflexivity.
  - vm_compute. reflexivity.
  - exact E1.
  - revert E1. vm_compute. by intros [= <-].
  - apply rtc_once, (request_stop 2 _ true). vm_compute. reflexivity.
Defined.

Lemma stop_before_start_lost_witness : exists s2 h x,
  IHM_stopHandlerForStream 2 (bench_after (IHM_startHandlerForStream 2 (-1)) bench_two) = Some (true, s2)
  /\ handlers (ihm s2) !! h = Some x /\ m_Client (life x) = Some 2 /\ m_State (life x) = eHS_Stopped /\ m_NextState (life x) = eHS_Running.
Proof.
  apply (stop_before_start_lost bench_two 2 (-1)); [apply bench_two_registry|vm_compute; reflexivity].
Defined.
