(* ===== verification/Amdtp.v ===== *)
(** * AMDTP packets, ports and samples

    The parts that the AMDTP receive and transmit stream processors share: the CIP header
    ([src/libstreaming/util/cip.h] and [cip.c]), the labels of AM824 quadlets
    ([amdtp/AmdtpStreamProcessor-common.h]), the ports ([amdtp/AmdtpPort.h],
    [AmdtpPortInfo.h]), the caches of ports that both classes keep, and 32-bit words in memory.

    An access outside of the memory that an object has is undefined: [None].  The client's
    buffer of a port is its list of 32-bit words; two ports do not share a buffer. *)
From S2P Require Import Prelude CycleTimer RingBuffer ByteSwap Ieee754 TimestampedBuffer Ports StreamProcessor.
#[local] Open Scope Z_scope.

(** How the library was built: the byte order of the host, the compiler switch [__SSE2__] and the
    option [DEBUG_MESSAGES]. *)
Class Platform := {
  big_endian : bool;
  sse2 : bool;
  debug_messages : bool;
}.

(** Constants of libiec61883: sampling frequency codes of the FDF field, and a transmission mode. *)
Class Iec61883 := {
  IEC61883_FDF_SFC_32KHZ : Z;
  IEC61883_FDF_SFC_44K1HZ : Z;
  IEC61883_FDF_SFC_48KHZ : Z;
  IEC61883_FDF_SFC_88K2HZ : Z;
  IEC61883_FDF_SFC_96KHZ : Z;
  IEC61883_FDF_SFC_176K4HZ : Z;
  IEC61883_FDF_SFC_192KHZ : Z;
  IEC61883_MODE_BLOCKING_EMPTY : Z;
}.

(** The codes that IEC 61883-6 assigns. *)
Definition standard_codes `{Iec61883} : Prop :=
  [IEC61883_FDF_SFC_32KHZ; IEC61883_FDF_SFC_44K1HZ; IEC61883_FDF_SFC_48KHZ; IEC61883_FDF_SFC_88K2HZ;
   IEC61883_FDF_SFC_96KHZ; IEC61883_FDF_SFC_176K4HZ; IEC61883_FDF_SFC_192KHZ] = [0; 1; 2; 3; 4; 5; 6].

(** ** Memory and loops *)

(** [for (j = start; j < start + rounds * step; j += step)] *)
Fixpoint for_up {S} (rounds start step : nat) (body : nat -> S -> option S) (s : S) : option S :=
  match rounds with
  | O => Some s
  | Datatypes.S rounds => s ← body start s; for_up rounds (start + step) step body s
  end.

(** [for (j = start; j < bound; j += step)] *)
Definition for_loop {S} (start bound step : nat) : (nat -> S -> option S) -> S -> option S :=
  for_up ((bound - start + (step - 1)) / step) start step.

(** [*(p + i) = x] *)
Definition store {A} (i : nat) (x : A) (mem : list A) : option (list A) :=
  if decide (i < length mem)%nat then Some (<[i := x]> mem) else None.

(** [memset(p + i, 0, n * 4)] on words. *)
Definition clear_words (i n : nat) (mem : list Z) : option (list Z) :=
  if decide (i + n <= length mem)%nat then Some (list_inserts i (replicate n 0) mem) else None.

(** The quadlets in a block of bytes, as words of the host, and back. *)
Fixpoint words_of_bytes (be : bool) (l : list Z) : list Z :=
  match l with
  | a :: b :: c :: d :: l => quad_load be [a; b; c; d] :: words_of_bytes be l
  | _ => []
  end.
Definition bytes_of_words (be : bool) (ws : list Z) : list Z := ws ≫= quad_store be.

Definition u16_store (be : bool) (x : Z) : list Z :=
  if be then [byte_at x 1; byte_at x 0] else [byte_at x 0; byte_at x 1].
Definition u16_load (be : bool) (a b : Z) : Z := if be then a * 256 + b else b * 256 + a.

(** ** Single precision numbers in memory *)

(** The value of the 32-bit pattern [w]. *)
Definition float_of_bits (w : Z) : float :=
  let s := Z.testbit w 31 in
  let e := (w / 2 ^ 23) mod 2 ^ 8 in
  let m := w mod 2 ^ 23 in
  if e =? 255 then (if m =? 0 then S754_infinity s else S754_nan)
  else match (if e =? 0 then m else m + 2 ^ 23) with
       | Zpos p => S754_finite s p (Z.max e 1 - 150)
       | _ => S754_zero s
       end.

(** The pattern of a [float] in canonical form. *)
Definition bits_of_float (x : float) : Z :=
  let sign s := if s : bool then 2 ^ 31 else 0 in
  match x with
  | S754_zero s => sign s
  | S754_infinity s => sign s + 255 * 2 ^ 23
  | S754_nan => 255 * 2 ^ 23 + 2 ^ 22
  | S754_finite s m e =>
      sign s + (if Zpos m <? 2 ^ 23 then Zpos m else (e + 150) * 2 ^ 23 + (Zpos m - 2 ^ 23))
  end.

(** ** AM824 labels *)

Definition IEC61883_AM824_LABEL_MIDI_NO_DATA : Z := 0x80.
Definition IEC61883_AM824_LABEL_MIDI_1X : Z := 0x81.
Definition IEC61883_AM824_LABEL_MIDI_2X : Z := 0x82.
Definition IEC61883_AM824_LABEL_MIDI_3X : Z := 0x83.
Definition IEC61883_AM824_SET_LABEL (x y : Z) : Z := x .| (y << 24).
Definition IEC61883_AM824_HAS_LABEL (x lbl : Z) : bool := (x .& 0xFF000000) =? u32 (lbl << 24).

(** ** The CIP header *)

Definition IEC61883_FMT_AMDTP : Z := 0x10.
Definition IEC61883_TAG_WITH_CIP : Z := 1.
Definition IEC61883_FDF_NODATA : Z := 0xFF.

Record iec61883_packet := mkCip {
  eoh0 : Z; sid : Z; dbs : Z; fn : Z; qpc : Z; sph : Z; reserved : Z; dbc : Z;
  eoh1 : Z; fmt : Z; fdf : Z; syt : Z;
}.

(** The header in memory, read and written; both layouts of the bit fields in [cip.h] put
    the fields at the same bits of the bytes.  [syt] is a 16-bit word of the host. *)
Definition load_cip (be : bool) (data : list Z) : option iec61883_packet :=
  match data with
  | b0 :: b1 :: b2 :: b3 :: b4 :: b5 :: b6 :: b7 :: _ =>
      Some (mkCip (b0 / 2 ^ 6) (b0 mod 2 ^ 6) b1 (b2 / 2 ^ 6) ((b2 / 2 ^ 3) mod 2 ^ 3) ((b2 / 2 ^ 2) mod 2) (b2 mod 2 ^ 2)
              b3 (b4 / 2 ^ 6) (b4 mod 2 ^ 6) b5 (u16_load be b6 b7))
  | _ => None
  end.

Definition store_cip (be : bool) (h : iec61883_packet) (data : list Z) : list Z :=
  list_inserts 0
    ([eoh0 h * 2 ^ 6 + sid h; dbs h; fn h * 2 ^ 6 + qpc h * 2 ^ 3 + sph h * 2 ^ 2 + reserved h; dbc h;
      eoh1 h * 2 ^ 6 + fmt h; fdf h] ++ u16_store be (syt h)) data.

(** *** The state that [iec61883_cip_init] sets up *)

Record iec61883_fraction := mkFraction { integer : Z; numerator : Z; denominator : Z }.

(** [None]: a division by zero. *)
Definition fraction_init (num den : Z) : option iec61883_fraction :=
  if den =? 0 then None else Some (mkFraction (Z.quot num den) (Z.rem num den) den).

Record iec61883_cip := mkCipStatus {
  cycle_offset : iec61883_fraction;
  ticks_per_syt_offset : iec61883_fraction;
  ready_samples : iec61883_fraction;
  samples_per_cycle : iec61883_fraction;
  cip_dbc : Z; cip_dbs : Z;
  cycle_count : Z; cycle_count2 : Z;
  mode : Z;
  cip_syt_interval : Z;
  cip_rate : Z; cip_fdf : Z; cip_format : Z;
}.

Definition CIP_TRANSFER_DELAY : Z := 9000.

Definition iec61883_cip_init `{Iec61883} (format fdf rate dbs syt_interval : Z) : option iec61883_cip :=
  spc ← fraction_init rate 8000;
  ready ← fraction_init 0 8000;
  ticks ← fraction_init (i32 (24576000 * syt_interval)) rate;
  offset ← fraction_init (i32 (Z.rem CIP_TRANSFER_DELAY 3072 * rate)) rate;
  Some (mkCipStatus offset ticks ready spc 0 dbs (Z.quot CIP_TRANSFER_DELAY 3072) 0 IEC61883_MODE_BLOCKING_EMPTY
    syt_interval rate fdf format).

(** ** Ports *)

Inductive E_Formats := E_MBLA | E_Format_Midi | E_SPDIF.

(** The class of a port object. *)
Inductive port_class := AmdtpAudioPort | AmdtpMidiPort.
#[export] Instance port_class_eq_dec : EqDecision port_class.
Proof. solve_decision. Defined.

Record AmdtpPortInfo := mkInfo {
  info_class : port_class;
  m_position : Z;
  m_location : Z;
  m_format : E_Formats;
}.

(** The AMDTP part of the port objects, by their addresses; [dynamic_cast] of another port is [NULL]. *)
Definition port_infos : Type := list (Z * AmdtpPortInfo).

Fixpoint info_of (infos : port_infos) (port : Z) : option AmdtpPortInfo :=
  match infos with
  | [] => None
  | (a, i) :: infos => if a =? port then Some i else info_of infos port
  end.

(** ** Port caches *)

(** [buffer] tells whether the pointer is not [NULL]; it then points to the buffer of the port. *)
Record _MBLA_port_cache := mkMBLA { port : Z; buffer : bool; enabled : bool; buffer_size : Z }.
Record _MIDI_port_cache := mkMIDI {
  midi_port : Z; midi_buffer : bool; midi_enabled : bool; position : Z; location : Z; midi_buffer_size : Z }.

Record port_cache := mkCache {
  m_audio_ports : list _MBLA_port_cache;
  m_nb_audio_ports : nat;
  m_midi_ports : list _MIDI_port_cache;
  m_nb_midi_ports : nat;
}.
Definition empty_cache : port_cache := mkCache [] 0 [] 0.

(** The ports with their AMDTP parts; [None] is the failed [assert(pinfo)]. *)
Definition amdtp_ports (infos : port_infos) (ps : list Port) : option (list (Port * AmdtpPortInfo)) :=
  mapM (fun p => i ← info_of infos (port_this p); Some (p, i)) ps.

Definition is_mbla (pi : Port * AmdtpPortInfo) : bool := match m_format pi.2 with E_MBLA => true | _ => false end.
Definition is_midi_format (pi : Port * AmdtpPortInfo) : bool :=
  match m_format pi.2 with E_Format_Midi => true | _ => false end.

(** The loop over the positions: the first port at each, which has to be an audio port. *)
Fixpoint cache_audio (pis : list (Port * AmdtpPortInfo)) (idx n : nat) (acc : list _MBLA_port_cache) :
    bool * list _MBLA_port_cache :=
  match n with
  | O => (true, acc)
  | S n =>
      match list_find (fun pi => m_position pi.2 = Z.of_nat idx) pis with
      | None => (false, acc)
      | Some (_, (p, i)) =>
          if decide (info_class i = AmdtpAudioPort)
          then cache_audio pis (S idx) n (acc ++ [mkMBLA (port_this p) false false (m_buffersize p)])
          else (false, acc)
      end
  end.

Fixpoint cache_midi (pis : list (Port * AmdtpPortInfo)) (acc : list _MIDI_port_cache) : bool * list _MIDI_port_cache :=
  match pis with
  | [] => (true, acc)
  | (p, i) :: pis =>
      if decide (m_PortType p = E_Midi) then
        if decide (info_class i = AmdtpMidiPort)
        then cache_midi pis (acc ++ [mkMIDI (port_this p) false false (m_position i) (m_location i) (m_buffersize p)])
        else (false, acc)
      else cache_midi pis acc
  end.

(** [initPortCache], the same code in both classes.  (The flag [enabled] of a fresh entry is not set
    by the source; it is not read before [updatePortCache] sets it.) *)
Definition init_port_cache (infos : port_infos) (ps : list Port) : option (bool * port_cache) :=
  pis ← amdtp_ports infos ps;
  let nb_audio := length (List.filter is_mbla pis) in
  let nb_midi := length (List.filter is_midi_format pis) in
  let '(ok, audio) := cache_audio pis 0 nb_audio [] in
  if negb ok then Some (false, mkCache audio nb_audio [] nb_midi) else
  let '(ok, midi) := cache_midi pis [] in
  Some (ok, mkCache audio nb_audio midi nb_midi).

(** The port at an address: [None] is a dangling pointer. *)
Fixpoint find_port (ps : list Port) (a : Z) : option Port :=
  match ps with
  | [] => None
  | p :: ps => if port_this p =? a then Some p else find_port ps a
  end.

(** The words of a port's buffer, and their replacement. *)
Definition port_words (ps : list Port) (a : Z) : option (list Z) := p ← find_port ps a; m_buffer p.
Definition set_port_words (a : Z) (ws : list Z) (ps : list Port) : list Port :=
  (fun p => if port_this p =? a then with_buffer (Some ws) p else p) <$> ps.

Definition refresh_audio (ps : list Port) (c : _MBLA_port_cache) : option _MBLA_port_cache :=
  p ← find_port ps (port c);
  Some (mkMBLA (port c) (bool_decide (is_Some (m_buffer p))) (negb (m_disabled p)) (m_buffersize p)).
Definition refresh_midi (ps : list Port) (c : _MIDI_port_cache) : option _MIDI_port_cache :=
  p ← find_port ps (midi_port c);
  Some (mkMIDI (midi_port c) (bool_decide (is_Some (m_buffer p))) (negb (m_disabled p)) (position c) (location c)
    (m_buffersize p)).

(** [f] on the first [n] elements, as [at(idx)] in a loop: [None] if there are fewer. *)
Fixpoint update_first {A} (n : nat) (f : A -> option A) (l : list A) : option (list A) :=
  match n, l with
  | O, _ => Some l
  | S n, [] => None
  | S n, x :: l => x ← f x; l ← update_first n f l; Some (x :: l)
  end.

(** [updatePortCache], the same code in both classes. *)
Definition update_port_cache (ps : list Port) (c : port_cache) : option port_cache :=
  audio ← update_first (m_nb_audio_ports c) (refresh_audio ps) (m_audio_ports c);
  midi ← update_first (m_nb_midi_ports c) (refresh_midi ps) (m_midi_ports c);
  Some (mkCache audio (m_nb_audio_ports c) midi (m_nb_midi_ports c)).

(** The frames of a blocking packet at a sampling rate; 0 for an unsupported rate. *)
Definition syt_interval_of_rate (rate : Z) : Z :=
  if bool_decide (rate ∈ [32000; 44100; 48000]) then 8
  else if bool_decide (rate ∈ [88200; 96000]) then 16
  else if bool_decide (rate ∈ [176400; 192000]) then 32
  else 0.

(** A partial computation in the state of a processor. *)
Definition lift {S A} (x : option A) : run S A := fun s => a ← x; Some (a, s).
