(* ===== verification/AmdtpReceive.v ===== *)
(** * The AMDTP receive stream processor

    Model of [src/libstreaming/amdtp/AmdtpReceiveStreamProcessor.cpp] and its header: the check of the
    packet header, the transfer of the payload to the data buffer, and the decoding of
    blocks of events into the buffers of the audio and MIDI ports.  (The SSE code of the file is
    disabled by [#if 0].) *)
From S2P Require Import Prelude CycleTimer RingBuffer ByteSwap Ieee754 TimestampedBuffer Ports StreamProcessor Amdtp.
#[local] Open Scope Z_scope.

(** ** The small MIDI buffer *)

Definition RX_MIDIBUFFER_SIZE : Z := 64.

Record midi_queue := mkQueue { midibuffer : list Z; mb_head : Z; mb_tail : Z }.

(** [midibuffer[mb_head++] = x; mb_head &= RX_MIDIBUFFER_SIZE-1;], dropping the oldest on overflow. *)
Definition midi_put (x : Z) (q : midi_queue) : option midi_queue :=
  buf ← store (Z.to_nat (mb_head q)) x (midibuffer q);
  let head := u32 (mb_head q + 1) .& (RX_MIDIBUFFER_SIZE - 1) in
  Some (mkQueue buf head (if head =? mb_tail q then u32 (mb_tail q + 1) .& (RX_MIDIBUFFER_SIZE - 1) else mb_tail q)).

(** [if (mb_head != mb_tail) { *buffer = midibuffer[mb_tail++]; mb_tail &= RX_MIDIBUFFER_SIZE-1; }] *)
Definition midi_get (q : midi_queue) : option (option Z * midi_queue) :=
  if mb_head q =? mb_tail q then Some (None, q) else
  x ← midibuffer q !! Z.to_nat (mb_tail q);
  Some (Some x, mkQueue (midibuffer q) (mb_head q) (u32 (mb_tail q + 1) .& (RX_MIDIBUFFER_SIZE - 1))).

(** ** The object *)

Record AmdtpReceiveStreamProcessor := mkRx {
  rx_dimension : Z;
  rx_syt_interval : Z;
  rx_cache : port_cache;
  rx_queue : midi_queue;
  rx_infos : port_infos;
}.

(** The contents of [midibuffer] are not initialised: [junk]. *)
Definition AmdtpReceiveStreamProcessor_new (junk : nat -> Z) (dimension : Z) : AmdtpReceiveStreamProcessor :=
  mkRx dimension 0 empty_cache (mkQueue (junk <$> seq 0 (Z.to_nat RX_MIDIBUFFER_SIZE)) 0 0) [].

Section receive.
Context {W : Type} `{SPWorld W} `{Platform}.
Abbreviation S := (sp_state AmdtpReceiveStreamProcessor W).
Abbreviation M := (run S).

Definition rx_on_child (f : AmdtpReceiveStreamProcessor -> AmdtpReceiveStreamProcessor) : M unit :=
  modify (fun s => mkState (sp s) (f (child s)) (world s)).
Definition rx_set_cache (c : port_cache) : M unit :=
  rx_on_child (fun r => mkRx (rx_dimension r) (rx_syt_interval r) c (rx_queue r) (rx_infos r)).
Definition rx_set_queue (q : midi_queue) : M unit :=
  rx_on_child (fun r => mkRx (rx_dimension r) (rx_syt_interval r) (rx_cache r) q (rx_infos r)).
Definition rx_set_ports (ps : list Port) : M unit := call_ports (fun m => (tt, with_ports ps m)).
Definition rx_ports : M (list Port) := gets (fun s => m_Ports (ports (sp s))).

(** The constructors of [AmdtpAudioPort] and [AmdtpMidiPort] for this processor. *)
Definition rx_add_port (this : Z) (name : string) (type : E_PortType) (info : AmdtpPortInfo) : M unit :=
  call_ports (fun m => (tt, Port_new this name type E_Capture m)) ;;
  rx_on_child (fun r => mkRx (rx_dimension r) (rx_syt_interval r) (rx_cache r) (rx_queue r) ((this, info) :: rx_infos r)).

Definition rx_getSytInterval : M Z := rate ← from_world getNominalRate; mret (syt_interval_of_rate rate).

Definition rx_getMaxPacketSize : M Z :=
  n ← rx_getSytInterval; dim ← gets (fun s => rx_dimension (child s)); mret (u32 (4 * (2 + n * dim))).

Definition rx_initPortCache : M bool :=
  infos ← gets (fun s => rx_infos (child s)); ps ← rx_ports;
  '(ok, c) ← lift (init_port_cache infos ps);
  rx_set_cache c ;; mret ok.

Definition rx_updatePortCache : M unit :=
  ps ← rx_ports; c ← gets (fun s => rx_cache (child s));
  c ← lift (update_port_cache ps c); rx_set_cache c.

Definition rx_prepareChild : M bool :=
  n ← rx_getSytInterval;
  rx_on_child (fun r => mkRx (rx_dimension r) n (rx_cache r) (rx_queue r) (rx_infos r)) ;;
  rx_initPortCache.

(** ** Packets *)

Definition rx_processPacketHeader (data : list Z) (length tag sy pkt_ctr : Z) : M eChildReturnValue :=
  packet ← lift (load_cip big_endian data);
  let ok := negb (syt packet =? 0xFFFF) && negb (fdf packet =? 0xFF) && (fmt packet =? 0x10)
            && (0 <? dbs packet) && (2 * 4 <=? length) in
  if ok then
    set_last_timestamp (sytRecvToFullTicks2 (CondSwapFromBus16 big_endian (syt packet)) pkt_ctr) ;; mret eCRV_OK
  else mret eCRV_Invalid.

(** The number of events in a packet; [None]: a division by zero. *)
Definition rx_nevents (packet : iec61883_packet) (length : Z) : option Z :=
  if bool_decide (fdf packet ∈ [0x00; 0x01; 0x02]) then Some 8
  else if bool_decide (fdf packet ∈ [0x03; 0x04]) then Some 16
  else if bool_decide (fdf packet ∈ [0x05; 0x06]) then Some 32
  else if dbs packet =? 0 then None else Some (u32 (u64 (length / 4 - 2) / dbs packet)).

(** The argument [(length - 8)/nevents] of a debug message is evaluated whether or not it is printed. *)
Definition rx_processPacketData (data : list Z) (length : Z) : M eChildReturnValue :=
  packet ← lift (load_cip big_endian data);
  nevents ← lift (rx_nevents packet length);
  assert_that (fun _ => negb (debug_messages && (nevents =? 0))) ;;
  ts ← get_last_timestamp;
  ok ← call_buffer (writeFrames nevents (drop 8 data) (d_of_Z ts));
  mret (if ok : bool then eCRV_OK else eCRV_XRun).

(** ** Decoding *)

(** One audio port: [f] decodes an event into a word of the client's buffer. *)
Definition decode_port (f : Z -> Z) (data : list Z) (dim i offset nevents : nat) (ws : list Z) : option (list Z) :=
  for_loop 0 nevents 1 (fun j ws => x ← data !! (i + j * dim)%nat; store (offset + j) (f x) ws) ws.

Definition decode_audio (f : Z -> Z) (data : list Z) (dim : nat) (c : port_cache) (offset nevents : nat) (ps : list Port) :
    option (list Port) :=
  for_loop 0 (m_nb_audio_ports c) 1 (fun i ps =>
    p ← m_audio_ports c !! i;
    if debug_build && (buffer_size p <? Z.of_nat (nevents + offset)) then None else
    if buffer p && enabled p then
      ws ← port_words ps (port p);
      ws ← decode_port f data dim i offset nevents ws;
      Some (set_port_words (port p) ws ps)
    else Some ps) ps.

Definition int24_of_event (x : Z) : Z := CondSwapFromBus32 big_endian x .& 0x00FFFFFF.

Definition float_of_event (x : Z) : Z :=
  let multiplier := fdiv (f_of_Z 1) (f_of_Z 0x7FFFFF) in
  let v := CondSwapFromBus32 big_endian x .& 0x00FFFFFF in
  let tmp := Z.quot (i32 (u32 (v << 8))) 256 in
  bits_of_float (fmul (f_of_Z tmp) multiplier).

Definition decodeAudioPortsInt24 := decode_audio int24_of_event.
Definition decodeAudioPortsFloat := decode_audio float_of_event.

(** One event of a MIDI port: a byte with the 1X label goes to the queue, and at every eighth event
    the oldest byte of the queue goes to the client's buffer.  [pos] is the pointer [buffer]. *)
Definition decode_midi_event (data : list Z) (dim : nat) (position : nat) (j : nat) (st : list Z * nat * midi_queue) :
    option (list Z * nat * midi_queue) :=
  let '(ws, pos, q) := st in
  x ← data !! (j * dim + position)%nat;
  let sample_int := CondSwapFromBus32 big_endian x in
  q ← (if IEC61883_AM824_HAS_LABEL sample_int IEC61883_AM824_LABEL_MIDI_1X
       then midi_put (((sample_int >> 16) .& 0x000000FF) .| 0x01000000) q else Some q);
  if (j mod 8 =? 0)%nat then
    '(x, q) ← midi_get q;
    ws ← (match x with Some x => store pos x ws | None => Some ws end);
    Some (ws, (pos + 8)%nat, q)
  else Some (ws, pos, q).

Definition decodeMidiPorts (data : list Z) (dim : nat) (c : port_cache) (offset nevents : nat)
    (st : list Port * midi_queue) : option (list Port * midi_queue) :=
  for_loop 0 (m_nb_midi_ports c) 1 (fun i '(ps, q) =>
    p ← m_midi_ports c !! i;
    if midi_buffer p && midi_enabled p then
      ws ← port_words ps (midi_port p);
      ws ← clear_words offset nevents ws;
      '(ws, _, q) ← for_loop 0 nevents 1 (decode_midi_event data dim (Z.to_nat (position p))) (ws, offset, q);
      Some (set_port_words (midi_port p) ws ps, q)
    else Some (ps, q)) st.

Definition rx_processReadBlock (bytes : list Z) (nevents offset : Z) : M bool :=
  rx_updatePortCache ;;
  r ← gets child; ps ← rx_ports; type ← from_world getAudioDataType;
  let data := words_of_bytes big_endian bytes in
  let dim := Z.to_nat (rx_dimension r) in
  ps ← lift ((match type with eADT_Int24 => decodeAudioPortsInt24 | eADT_Float => decodeAudioPortsFloat end)
               data dim (rx_cache r) (Z.to_nat offset) (Z.to_nat nevents) ps);
  '(ps, q) ← lift (decodeMidiPorts data dim (rx_cache r) (Z.to_nat offset) (Z.to_nat nevents) (ps, rx_queue r));
  rx_set_ports ps ;; rx_set_queue q ;; mret true.
End receive.

(** What a class that only receives inherits for the methods of transmit streams. *)
Definition call_not_allowed {S} (p : packet) : run S (eChildReturnValue * packet) := mret (eCRV_Invalid, p).

#[export] Instance rx_child {W} `{SPWorld W} `{Platform} : SPChild AmdtpReceiveStreamProcessor W := {
  getEventsPerFrame r := rx_dimension r;
  getEventSize _ := 4;
  getNominalFramesPerPacket _ w := syt_interval_of_rate (getNominalRate w);
  prepareChild := rx_prepareChild;
  processPacketHeader := rx_processPacketHeader;
  processPacketData := rx_processPacketData;
  generatePacketHeader p _ := call_not_allowed p;
  generatePacketData := call_not_allowed;
  generateEmptyPacketHeader p _ := call_not_allowed p;
  generateEmptyPacketData := call_not_allowed;
  generateSilentPacketHeader p _ := call_not_allowed p;
  generateSilentPacketData := call_not_allowed;
  transmitSilenceBlock d _ _ := mret (false, d);
  block_client := {| processReadBlock := rx_processReadBlock; processWriteBlock d _ _ := mret (false, d) |};
}.
