(* ===== verification/AmdtpTransmit.v ===== *)
(** * The AMDTP transmit stream processor

    Model of [src/libstreaming/amdtp/AmdtpTransmitStreamProcessor.cpp] and its header: the decision
    which packet goes into a cycle, the packet headers, and the encoding of the buffers of
    the audio and MIDI ports into blocks of events, by the scalar and by the SSE2 code. *)
From S2P Require Import Prelude CycleTimer RingBuffer ByteSwap Ieee754 TimestampedBuffer Ports StreamProcessor Amdtp.
#[local] Open Scope Z_scope.

(** From [config.h]; the switches [AMDTP_CLIP_FLOATS] and [AMDTP_ALLOW_PAYLOAD_IN_NODATA_XMIT] are on there. *)
Definition AMDTP_TRANSMIT_TRANSFER_DELAY : Z := 8704.
Definition AMDTP_MIN_CYCLES_BEFORE_PRESENTATION : Z := 1.
Definition AMDTP_MAX_CYCLES_TO_TRANSMIT_EARLY : Z := 1.
Definition AMDTP_SEND_PAYLOAD_IN_NODATA_XMIT_BY_DEFAULT : bool := true.

Record AmdtpTransmitStreamProcessor := mkTx {
  m_cip_status : option iec61883_cip;
  tx_dimension : Z;
  tx_syt_interval : Z;
  m_fdf : Z;
  m_dbc : Z;
  m_send_nodata_payload : bool;
  m_max_cycles_to_transmit_early : Z;
  m_transmit_transfer_delay : Z;
  m_min_cycles_before_presentation : Z;
  tx_cache : port_cache;
  tx_infos : port_infos;
}.

Definition AmdtpTransmitStreamProcessor_new (dimension : Z) : AmdtpTransmitStreamProcessor :=
  mkTx None dimension 0 0 0 AMDTP_SEND_PAYLOAD_IN_NODATA_XMIT_BY_DEFAULT AMDTP_MAX_CYCLES_TO_TRANSMIT_EARLY
    AMDTP_TRANSMIT_TRANSFER_DELAY AMDTP_MIN_CYCLES_BEFORE_PRESENTATION empty_cache [].

(** ** Samples *)

Definition AMDTP_FLOAT_MULTIPLIER : float := f_of_Z (2 ^ 23 - 1).

(** [(int) v] and [_mm_cvttps_epi32]: truncation; for a value out of range, where the conversion of
    C++ is undefined, the most negative integer, as the processor gives. *)
Definition int_of_float (x : float) : Z :=
  let z := Z_of_float x in if finite x && (- 2 ^ 31 <=? z) && (z <? 2 ^ 31) then z else - 2 ^ 31.

(** [tmp = ( tmp & 0x00FFFFFF ) | 0x40000000;] *)
Definition label_int (tmp : Z) : Z := (tmp .& 0x00FFFFFF) .| 0x40000000.

(** The scalar conversions of a word of the client's buffer.  The comparisons with 1.0 and -1.0
    promote the sample to [double], which is exact; they are made in [float] here. *)
Definition event_of_int24 (be : bool) (x : Z) : Z := CondSwapToBus32 be (label_int x).

Definition event_of_float (be : bool) (x : Z) : Z :=
  let v := float_of_bits x in
  if dgt v (f_of_Z 1) then CONDSWAPTOBUS32_CONST be 0x407FFFFF
  else if dlt v (f_of_Z (-1)) then CONDSWAPTOBUS32_CONST be 0x40800001
  else CondSwapToBus32 be (label_int (u32 (int_of_float (fmul v AMDTP_FLOAT_MULTIPLIER)))).

(** The SSE2 conversions of a lane.  [_mm_max_ps] and [_mm_min_ps] return the second operand
    unless the comparison holds. *)
Definition mm_max_ps (a b : float) : float := if dgt a b then a else b.
Definition mm_min_ps (a b : float) : float := if dlt a b then a else b.

Definition sse_event_of_int24 (x : Z) : Z := sse_swap (label_int x).
Definition sse_event_of_float (x : Z) : Z :=
  let v := mm_min_ps (mm_max_ps (float_of_bits x) (f_of_Z (-1))) (f_of_Z 1) in
  sse_swap (label_int (u32 (int_of_float (fmul v AMDTP_FLOAT_MULTIPLIER)))).

Section transmit.
Context {W : Type} `{SPWorld W} `{Platform} `{Iec61883}.
Abbreviation S := (sp_state AmdtpTransmitStreamProcessor W).
Abbreviation M := (run S).

Definition tx_on_child (f : AmdtpTransmitStreamProcessor -> AmdtpTransmitStreamProcessor) : M unit :=
  modify (fun s => mkState (sp s) (f (child s)) (world s)).
Definition tx_set_cache (c : port_cache) : M unit :=
  tx_on_child (fun t => mkTx (m_cip_status t) (tx_dimension t) (tx_syt_interval t) (m_fdf t) (m_dbc t)
    (m_send_nodata_payload t) (m_max_cycles_to_transmit_early t) (m_transmit_transfer_delay t)
    (m_min_cycles_before_presentation t) c (tx_infos t)).
Definition tx_ports : M (list Port) := gets (fun s => m_Ports (ports (sp s))).

(** The constructors of [AmdtpAudioPort] and [AmdtpMidiPort] for this processor. *)
Definition tx_add_port (this : Z) (name : string) (type : E_PortType) (info : AmdtpPortInfo) : M unit :=
  call_ports (fun m => (tt, Port_new this name type E_Playback m)) ;;
  tx_on_child (fun t => mkTx (m_cip_status t) (tx_dimension t) (tx_syt_interval t) (m_fdf t) (m_dbc t)
    (m_send_nodata_payload t) (m_max_cycles_to_transmit_early t) (m_transmit_transfer_delay t)
    (m_min_cycles_before_presentation t) (tx_cache t) ((this, info) :: tx_infos t)).

(** ** Settings *)

Definition sendPayloadForNoDataPackets (b : bool) : M unit :=
  tx_on_child (fun t => mkTx (m_cip_status t) (tx_dimension t) (tx_syt_interval t) (m_fdf t) (m_dbc t) b
    (m_max_cycles_to_transmit_early t) (m_transmit_transfer_delay t) (m_min_cycles_before_presentation t)
    (tx_cache t) (tx_infos t)).
Definition setMaxCyclesToTransmitEarly (x : Z) : M unit :=
  tx_on_child (fun t => mkTx (m_cip_status t) (tx_dimension t) (tx_syt_interval t) (m_fdf t) (m_dbc t)
    (m_send_nodata_payload t) x (m_transmit_transfer_delay t) (m_min_cycles_before_presentation t)
    (tx_cache t) (tx_infos t)).
Definition setTransferDelay (x : Z) : M unit :=
  tx_on_child (fun t => mkTx (m_cip_status t) (tx_dimension t) (tx_syt_interval t) (m_fdf t) (m_dbc t)
    (m_send_nodata_payload t) (m_max_cycles_to_transmit_early t) x (m_min_cycles_before_presentation t)
    (tx_cache t) (tx_infos t)).
Definition setMinCyclesBeforePresentation (x : Z) : M unit :=
  tx_on_child (fun t => mkTx (m_cip_status t) (tx_dimension t) (tx_syt_interval t) (m_fdf t) (m_dbc t)
    (m_send_nodata_payload t) (m_max_cycles_to_transmit_early t) (m_transmit_transfer_delay t) x
    (tx_cache t) (tx_infos t)).

Definition tx_getSytInterval : M Z := rate ← from_world getNominalRate; mret (syt_interval_of_rate rate).

Definition tx_getMaxPacketSize : M Z :=
  n ← tx_getSytInterval; dim ← gets (fun s => tx_dimension (child s)); mret (u32 (4 * (2 + n * dim))).

Definition fdf_of_rate (rate : Z) : Z :=
  if rate =? 32000 then IEC61883_FDF_SFC_32KHZ
  else if rate =? 44100 then IEC61883_FDF_SFC_44K1HZ
  else if rate =? 48000 then IEC61883_FDF_SFC_48KHZ
  else if rate =? 88200 then IEC61883_FDF_SFC_88K2HZ
  else if rate =? 96000 then IEC61883_FDF_SFC_96KHZ
  else if rate =? 176400 then IEC61883_FDF_SFC_176K4HZ
  else if rate =? 192000 then IEC61883_FDF_SFC_192KHZ
  else 0.
Definition getFDF : M Z := rate ← from_world getNominalRate; mret (fdf_of_rate rate).

Definition tx_initPortCache : M bool :=
  infos ← gets (fun s => tx_infos (child s)); ps ← tx_ports;
  '(ok, c) ← lift (init_port_cache infos ps);
  tx_set_cache c ;; mret ok.

Definition tx_updatePortCache : M unit :=
  ps ← tx_ports; c ← gets (fun s => tx_cache (child s));
  c ← lift (update_port_cache ps c); tx_set_cache c.

Definition tx_prepareChild : M bool :=
  n ← tx_getSytInterval; f ← getFDF; rate ← from_world getNominalRate; dim ← gets (fun s => tx_dimension (child s));
  cip ← lift (iec61883_cip_init IEC61883_FMT_AMDTP f rate dim n);
  tx_on_child (fun t => mkTx (Some cip) (tx_dimension t) n f (m_dbc t) (m_send_nodata_payload t)
    (m_max_cycles_to_transmit_early t) (m_transmit_transfer_delay t) (m_min_cycles_before_presentation t)
    (tx_cache t) (tx_infos t)) ;;
  tx_initPortCache.

(** ** Packet headers *)

(** The fields of the header that all packets share; [fdf] and [syt] stay as they are in memory. *)
Definition header_start (s : S) (h : iec61883_packet) : iec61883_packet :=
  mkCip 0 (m_local_node_id (settings (sp s)) mod 2 ^ 6) (u8 (tx_dimension (child s))) 0 0 0 0 (u8 (m_dbc (child s)))
    2 IEC61883_FMT_AMDTP (fdf h) (syt h).

(** A change of the header in the memory of a packet. *)
Definition on_header (f : iec61883_packet -> iec61883_packet) (p : packet) : option packet :=
  h ← load_cip big_endian (p_data p);
  Some (mkPacket (store_cip big_endian (f h) (p_data p)) (p_length p) (p_tag p) (p_sy p)).

(** The first statements of the header functions. *)
Definition begin_packet (p : packet) : M packet :=
  s ← gets id;
  p ← lift (on_header (header_start s) p);
  mret (mkPacket (p_data p) (p_length p) IEC61883_TAG_WITH_CIP 0).

Definition with_fdf_syt (f y : Z) (h : iec61883_packet) : iec61883_packet :=
  mkCip (eoh0 h) (sid h) (dbs h) (fn h) (qpc h) (sph h) (reserved h) (dbc h) (eoh1 h) (fmt h) f y.

(** Both fill functions return the packet with its length and the number of data blocks. *)
Definition fillDataPacketHeader (p : packet) (ts : Z) : M (Z * packet) :=
  t ← gets child;
  let timestamp_SYT := u16 (TICKS_TO_SYT ts) in
  p ← lift (on_header (with_fdf_syt (u8 (m_fdf t)) (CondSwapToBus16 big_endian timestamp_SYT)) p);
  mret (tx_syt_interval t, mkPacket (p_data p) (u32 (tx_syt_interval t * 4 * tx_dimension t + 8)) (p_tag p) (p_sy p)).

Definition fillNoDataPacketHeader (p : packet) : M (Z * packet) :=
  t ← gets child;
  p ← lift (on_header (with_fdf_syt IEC61883_FDF_NODATA 0xffff) p);
  mret (if m_send_nodata_payload t
        then (tx_syt_interval t, mkPacket (p_data p) (u32 (2 * 4 + tx_syt_interval t * tx_dimension t * 4)) (p_tag p) (p_sy p))
        else (0, mkPacket (p_data p) (2 * 4) (p_tag p) (p_sy p))).

(** [m_dbc += n] *)
Definition advance_dbc (n : Z) : M unit :=
  tx_on_child (fun t => mkTx (m_cip_status t) (tx_dimension t) (tx_syt_interval t) (m_fdf t) (u32 (m_dbc t + n))
    (m_send_nodata_payload t) (m_max_cycles_to_transmit_early t) (m_transmit_transfer_delay t)
    (m_min_cycles_before_presentation t) (tx_cache t) (tx_infos t)).

(** A packet with data: the header, the data block counter and the timestamp. *)
Definition data_packet (p : packet) (presentation_time : Z) (result : eChildReturnValue) : M (eChildReturnValue * packet) :=
  '(n, p) ← fillDataPacketHeader p (u32 presentation_time);
  advance_dbc n ;; set_last_timestamp presentation_time ;; mret (result, p).

Definition tx_generatePacketHeader (p : packet) (pkt_ctr : Z) : M (eChildReturnValue * packet) :=
  p ← begin_packet p;
  '(ts_head_tmp, fc) ← from_buffer getBufferHeadTimestamp;
  t ← gets child;
  let presentation_time := u64 (Z_of_float ts_head_tmp) in
  let transmit_at_time := substractTicks presentation_time (m_transmit_transfer_delay t) in
  let presentation_cycle := u32 (TICKS_TO_CYCLES presentation_time) in
  let transmit_at_cycle := u32 (TICKS_TO_CYCLES transmit_at_time) in
  let cycles_until_presentation := diffCycles presentation_cycle (CYCLE_TIMER_GET_CYCLES pkt_ctr) in
  let cycles_until_transmit := diffCycles transmit_at_cycle (CYCLE_TIMER_GET_CYCLES pkt_ctr) in
  if fc <? i32 (tx_syt_interval t) then
    if cycles_until_presentation <=? m_min_cycles_before_presentation t then mret (eCRV_XRun, p)
    else mret (eCRV_Again, p)
  else if cycles_until_transmit <? 0 then
    if m_min_cycles_before_presentation t <=? cycles_until_presentation
    then data_packet p presentation_time (if fc <? i32 (u32 (2 * tx_syt_interval t)) then eCRV_Defer else eCRV_Packet)
    else mret (eCRV_XRun, p)
  else if cycles_until_transmit <=? m_max_cycles_to_transmit_early t
  then data_packet p presentation_time (if fc <? i32 (tx_syt_interval t) then eCRV_Defer else eCRV_Packet)
  else mret (eCRV_EmptyPacket, p).

(** The frames go behind the header; [None] if the memory of the packet is too small. *)
Definition tx_generatePacketData (p : packet) : M (eChildReturnValue * packet) :=
  n ← gets (fun s => tx_syt_interval (child s));
  '(ok, d) ← call_buffer (fun b => '(ok, d, b) ← readFrames n b; Some ((ok, d), b));
  assert_that (fun _ => 8 + zlength d <=? zlength (p_data p)) ;;
  mret (if ok : bool then eCRV_OK else eCRV_XRun,
        mkPacket (list_inserts 8 d (p_data p)) (p_length p) (p_tag p) (p_sy p)).

Definition no_data_packet (p : packet) (result : eChildReturnValue) : M (eChildReturnValue * packet) :=
  p ← begin_packet p;
  '(n, p) ← fillNoDataPacketHeader p;
  advance_dbc n ;; mret (result, p).

Definition tx_generateSilentPacketHeader (p : packet) (pkt_ctr : Z) : M (eChildReturnValue * packet) :=
  no_data_packet p eCRV_Packet.
Definition tx_generateSilentPacketData (p : packet) : M (eChildReturnValue * packet) := mret (eCRV_OK, p).
Definition tx_generateEmptyPacketHeader (p : packet) (pkt_ctr : Z) : M (eChildReturnValue * packet) :=
  no_data_packet p eCRV_OK.
Definition tx_generateEmptyPacketData (p : packet) : M (eChildReturnValue * packet) := mret (eCRV_OK, p).

(** ** Audio *)

(** One port, one event after the other: [f] encodes a word of the client's buffer. *)
Definition encode_port (f : Z -> Z) (ws : list Z) (dim i offset nevents : nat) (data : list Z) : option (list Z) :=
  for_loop 0 nevents 1 (fun j data => x ← ws !! (offset + j)%nat; store (i + j * dim) (f x) data) data.

(** One port without a buffer, or disabled. *)
Definition encode_silence_port (v : Z) (dim i nevents : nat) (data : list Z) : option (list Z) :=
  for_loop 0 nevents 1 (fun j data => store (i + j * dim) v data) data.

(** The scalar code, which [#else] compiles. *)
Definition encode_audio_scalar (f : Z -> Z) (c : port_cache) (ps : list Port) (dim offset nevents : nat) (data : list Z) :
    option (list Z) :=
  for_loop 0 (m_nb_audio_ports c) 1 (fun i data =>
    p ← m_audio_ports c !! i;
    if debug_build && (buffer_size p <? Z.of_nat (nevents + offset)) then None else
    if buffer p && enabled p then
      ws ← port_words ps (port p); encode_port f ws dim i offset nevents data
    else encode_silence_port (CONDSWAPTOBUS32_CONST big_endian 0x40000000) dim i nevents data) data.

(** The SSE2 code.  A group of four ports: where each of them reads, the client's buffer at [offset] or the
    scratch buffer. *)
Definition client_buffer (ps : list Port) (scratch : list Z) (offset : nat) (p : _MBLA_port_cache) : option (list Z * nat) :=
  if buffer p && enabled p then ws ← port_words ps (port p); Some (ws, offset) else Some (scratch, 0%nat).

(** [_mm_storeu_si128] *)
Definition store4 (i : nat) (v0 v1 v2 v3 : Z) (data : list Z) : option (list Z) :=
  if decide (i + 4 <= length data)%nat then Some (list_inserts i [v0; v1; v2; v3] data) else None.

Definition encode_four_ports (f : Z -> Z) (c : port_cache) (ps : list Port) (scratch : list Z) (dim offset nevents i : nat)
    (data : list Z) : option (list Z) :=
  p0 ← m_audio_ports c !! i; p1 ← m_audio_ports c !! (i + 1)%nat;
  p2 ← m_audio_ports c !! (i + 2)%nat; p3 ← m_audio_ports c !! (i + 3)%nat;
  '(b0, o0) ← client_buffer ps scratch offset p0; '(b1, o1) ← client_buffer ps scratch offset p1;
  '(b2, o2) ← client_buffer ps scratch offset p2; '(b3, o3) ← client_buffer ps scratch offset p3;
  for_loop 0 nevents 1 (fun j data =>
    x0 ← b0 !! (o0 + j)%nat; x1 ← b1 !! (o1 + j)%nat; x2 ← b2 !! (o2 + j)%nat; x3 ← b3 !! (o3 + j)%nat;
    store4 (i + j * dim) (f x0) (f x1) (f x2) (f x3) data) data.

(** A remaining port: four events per round, then the scalar loop from where [j] has arrived. *)
Definition encode_port_by_four (f f1 : Z -> Z) (ws : list Z) (dim i offset nevents : nat) (data : list Z) : option (list Z) :=
  data ← for_loop 0 nevents 4 (fun j data =>
    x0 ← ws !! (offset + j)%nat; x1 ← ws !! (offset + j + 1)%nat;
    x2 ← ws !! (offset + j + 2)%nat; x3 ← ws !! (offset + j + 3)%nat;
    data ← store (i + j * dim) (f x0) data; data ← store (i + (j + 1) * dim) (f x1) data;
    data ← store (i + (j + 2) * dim) (f x2) data; store (i + (j + 3) * dim) (f x3) data) data;
  for_loop ((nevents + 3) / 4 * 4) nevents 1 (fun j data => x ← ws !! (offset + j)%nat; store (i + j * dim) (f1 x) data) data.

(** [i] after the loop over the groups, which leaves at least the last four ports. *)
Definition grouped_ports (nb : nat) : nat := ((nb - 4 + 3) / 4 * 4)%nat.

Definition encode_audio_sse (f f1 : Z -> Z) (c : port_cache) (ps : list Port) (scratch : list Z)
    (dim offset nevents : nat) (data : list Z) : option (list Z) :=
  let nb := m_nb_audio_ports c in
  data ← for_loop 0 (nb - 4) 4 (encode_four_ports f c ps scratch dim offset nevents) data;
  for_loop (grouped_ports nb) nb 1 (fun i data =>
    p ← m_audio_ports c !! i;
    if debug_build && (buffer_size p <? Z.of_nat (nevents + offset)) then None else
    if buffer p && enabled p then
      ws ← port_words ps (port p); encode_port_by_four f f1 ws dim i offset nevents data
    else encode_silence_port 0x00000040 dim i nevents data) data.

(** [assert(m_scratch_buffer_size_bytes > nevents * 4); memset(m_scratch_buffer, 0, nevents * 4);]
    returns the scratch buffer as zeroes and its new contents. *)
Definition prepare_scratch (nevents : Z) : M (list Z) :=
  scratch ← gets (fun s => default [] (m_scratch_buffer (sp s)));
  assert_that (fun _ => u32 (nevents * 4) <? zlength scratch) ;;
  let scratch := list_inserts 0 (replicate (Z.to_nat (u32 (nevents * 4))) 0) scratch in
  set_scratch (Some scratch) ;;
  mret (words_of_bytes big_endian scratch).

Definition encode_audio (f f1 : Z -> Z) (data : list Z) (offset nevents : Z) : M (list Z) :=
  t ← gets child; ps ← tx_ports;
  let dim := Z.to_nat (tx_dimension t) in
  if sse2 then
    scratch ← prepare_scratch nevents;
    lift (encode_audio_sse f f1 (tx_cache t) ps scratch dim (Z.to_nat offset) (Z.to_nat nevents) data)
  else lift (encode_audio_scalar f1 (tx_cache t) ps dim (Z.to_nat offset) (Z.to_nat nevents) data).

Definition encodeAudioPortsInt24 : list Z -> Z -> Z -> M (list Z) :=
  encode_audio sse_event_of_int24 (event_of_int24 big_endian).
Definition encodeAudioPortsFloat : list Z -> Z -> Z -> M (list Z) :=
  encode_audio sse_event_of_float (event_of_float big_endian).

Definition encodeAudioPortsSilence (c : port_cache) (dim nevents : nat) (data : list Z) : option (list Z) :=
  for_loop 0 (m_nb_audio_ports c) 1 (fun i =>
    encode_silence_port (CONDSWAPTOBUS32_CONST big_endian 0x40000000) dim i nevents) data.

(** ** MIDI *)

Definition midi_no_data : Z := CondSwapToBus32 big_endian (IEC61883_AM824_SET_LABEL 0 IEC61883_AM824_LABEL_MIDI_NO_DATA).

(** A word of the client's buffer: a byte to send if its top byte is not zero. *)
Definition midi_event (x : Z) : Z :=
  if (x .& 0xFF000000) =? 0 then midi_no_data
  else CondSwapToBus32 big_endian (IEC61883_AM824_SET_LABEL (u32 (x << 16) .& 0x00FF0000) IEC61883_AM824_LABEL_MIDI_1X).

(** [for (j = p.location; j < nevents; j += 8)] without a byte to send. *)
Definition silence_midi_port (p : _MIDI_port_cache) (dim nevents : nat) (data : list Z) : option (list Z) :=
  for_loop (Z.to_nat (location p)) nevents 8
    (fun j data => store (j * dim + Z.to_nat (position p)) midi_no_data data) data.

Definition encodeMidiPortsSilence (c : port_cache) (dim nevents : nat) (data : list Z) : option (list Z) :=
  for_loop 0 (m_nb_midi_ports c) 1 (fun i data => p ← m_midi_ports c !! i; silence_midi_port p dim nevents data) data.

(** The same loop with the pointer [buffer], which advances by 8 words per round. *)
Definition encode_midi_port (p : _MIDI_port_cache) (ws : list Z) (dim offset nevents : nat) (data : list Z) :
    option (list Z) :=
  fst <$> for_loop (Z.to_nat (location p)) nevents 8 (fun j '(data, pos) =>
    x ← ws !! pos;
    data ← store (j * dim + Z.to_nat (position p)) (midi_event x) data;
    Some (data, (pos + 8)%nat)) (data, offset).

Definition encodeMidiPorts (c : port_cache) (ps : list Port) (dim offset nevents : nat) (data : list Z) :
    option (list Z) :=
  for_loop 0 (m_nb_midi_ports c) 1 (fun i data =>
    p ← m_midi_ports c !! i;
    if midi_buffer p && midi_enabled p
    then ws ← port_words ps (midi_port p); encode_midi_port p ws dim offset nevents data
    else silence_midi_port p dim nevents data) data.

(** ** Blocks *)

Definition tx_processWriteBlock (bytes : list Z) (nevents offset : Z) : M (bool * list Z) :=
  tx_updatePortCache ;;
  type ← from_world getAudioDataType;
  data ← (match type with eADT_Int24 => encodeAudioPortsInt24 | eADT_Float => encodeAudioPortsFloat end)
           (words_of_bytes big_endian bytes) offset nevents;
  t ← gets child; ps ← tx_ports;
  data ← lift (encodeMidiPorts (tx_cache t) ps (Z.to_nat (tx_dimension t)) (Z.to_nat offset) (Z.to_nat nevents) data);
  mret (true, bytes_of_words big_endian data).

Definition tx_transmitSilenceBlock (bytes : list Z) (nevents offset : Z) : M (bool * list Z) :=
  t ← gets child;
  let dim := Z.to_nat (tx_dimension t) in
  data ← lift (encodeAudioPortsSilence (tx_cache t) dim (Z.to_nat nevents) (words_of_bytes big_endian bytes));
  data ← lift (encodeMidiPortsSilence (tx_cache t) dim (Z.to_nat nevents) data);
  mret (true, bytes_of_words big_endian data).
End transmit.

#[export] Instance tx_child {W} `{SPWorld W} `{Platform} `{Iec61883} : SPChild AmdtpTransmitStreamProcessor W := {
  getEventsPerFrame t := tx_dimension t;
  getEventSize _ := 4;
  getNominalFramesPerPacket _ w := syt_interval_of_rate (getNominalRate w);
  prepareChild := tx_prepareChild;
  processPacketHeader _ _ _ _ _ := mret eCRV_Invalid;
  processPacketData _ _ := mret eCRV_Invalid;
  generatePacketHeader := tx_generatePacketHeader;
  generatePacketData := tx_generatePacketData;
  generateEmptyPacketHeader := tx_generateEmptyPacketHeader;
  generateEmptyPacketData := tx_generateEmptyPacketData;
  generateSilentPacketHeader := tx_generateSilentPacketHeader;
  generateSilentPacketData := tx_generateSilentPacketData;
  transmitSilenceBlock := tx_transmitSilenceBlock;
  block_client := {| processReadBlock _ _ _ := mret false; processWriteBlock := tx_processWriteBlock |};
}.
