(* ===== verification/AmdtpAudio.v ===== *)
(** * Audio events

    The encoding and decoding of audio ports: the SSE2 code of the transmit processor equals
    the scalar code, and samples of 24 bits go through a stream unchanged. *)
From S2P Require Import Prelude CycleTimer RingBuffer ByteSwap Ieee754 TimestampedBuffer Ports.
From S2P Require Import StreamProcessor Amdtp AmdtpReceive AmdtpTransmit StreamStates.
#[local] Open Scope Z_scope.

(** ** Writing events into a block

    [overlay u d d']: the block [d'] has the event [v] where [u k = Some v] and is as [d] elsewhere. *)
Definition overlay {A} (u : nat -> option A) (d d' : list A) : Prop :=
  length d' = length d /\ forall k, (k < length d)%nat -> d' !! k = u k ∪ d !! k.

Section overlays.
Context {A : Type}.
Implicit Types (d : list A).

Lemma overlay_unique u d d1 d2 : overlay u d d1 -> overlay u d d2 -> d1 = d2.
Proof.
  intros [L1 O1] [L2 O2]. apply list_eq. intros k. destruct (decide (k < length d)%nat).
  - by rewrite O1, O2.
  - by rewrite !lookup_ge_None_2 by lia.
Qed.

Lemma overlay_ext u u' d d' : (forall k, (k < length d)%nat -> u k = u' k) -> overlay u d d' -> overlay u' d d'.
Proof. intros E [L O]. split; [done|]. intros k Hk. by rewrite O, E. Qed.

Lemma overlay_store i (x : A) d : (i < length d)%nat ->
  exists d', store i x d = Some d' /\ overlay (fun k => if decide (k = i) then Some x else None) d d'.
Proof.
  intros Hi. unfold store. rewrite decide_True by done. eexists. split; [done|]. split; [by rewrite length_insert|].
  intros k Hk. case_decide; [subst; rewrite list_lookup_insert_eq by done; by destruct (d !! i)|].
  rewrite list_lookup_insert_ne by done. by destruct (d !! k).
Qed.

(** The updates [u] of a sequence of rounds add up to [U]. *)
Definition sums_to (rounds start step : nat) (u : nat -> nat -> option A) (U : nat -> option A) (n : nat) : Prop :=
  forall k, (k < n)%nat -> (forall r v, (r < rounds)%nat -> u (start + r * step)%nat k = Some v -> U k = Some v)
    /\ (forall v, U k = Some v -> exists r, (r < rounds)%nat /\ u (start + r * step)%nat k = Some v).

(** A loop all of whose rounds update the block. *)
Lemma for_up_rounds rounds start step body (u : nat -> nat -> option A) d :
  (forall r d0, (r < rounds)%nat -> length d0 = length d ->
     exists d1, body (start + r * step)%nat d0 = Some d1 /\ overlay (u (start + r * step)%nat) d0 d1) ->
  exists d', for_up rounds start step body d = Some d' /\ length d' = length d
    /\ forall k, (k < length d)%nat ->
        (exists r v, (r < rounds)%nat /\ u (start + r * step)%nat k = Some v /\ d' !! k = Some v)
        \/ ((forall r, (r < rounds)%nat -> u (start + r * step)%nat k = None) /\ d' !! k = d !! k).
Proof.
  revert start d. induction rounds as [|rounds IH]; intros start d Hb; simpl.
  { exists d. split_and!; [done..|]. intros k Hk. right. split; [lia|done]. }
  destruct (Hb 0%nat d ltac:(lia) eq_refl) as (d1 & E1 & L1 & O1). rewrite Nat.mul_0_l, Nat.add_0_r in E1, O1.
  rewrite E1. cbn [mbind option_bind].
  destruct (IH (start + step)%nat d1) as (d' & E' & L' & H').
  { intros r d0 Hr L0. replace (start + step + r * step)%nat with (start + S r * step)%nat by lia.
    apply Hb; [lia|congruence]. }
  exists d'. split; [done|]. split; [congruence|]. intros k Hk.
  destruct (H' k ltac:(lia)) as [(r & v & Hr & Hu & Hv)|[Hn Hv]].
  - left. exists (S r), v. split_and!; [lia| |done]. by replace (start + S r * step)%nat with (start + step + r * step)%nat by lia.
  - destruct (u start k) as [v|] eqn:E.
    + left. exists 0%nat, v. rewrite Nat.mul_0_l, Nat.add_0_r. split_and!; [lia|done|].
      rewrite Hv, O1, E by done. by destruct (d !! k).
    + right. split.
      * intros [|r] Hr; [by rewrite Nat.mul_0_l, Nat.add_0_r|].
        replace (start + S r * step)%nat with (start + step + r * step)%nat by lia. apply Hn. lia.
      * rewrite Hv, O1, E by done. by destruct (d !! k).
Qed.

Lemma for_up_overlay rounds start step body u U d :
  (forall r d0, (r < rounds)%nat -> length d0 = length d ->
     exists d1, body (start + r * step)%nat d0 = Some d1 /\ overlay (u (start + r * step)%nat) d0 d1) ->
  sums_to rounds start step u U (length d) ->
  exists d', for_up rounds start step body d = Some d' /\ overlay U d d'.
Proof.
  intros Hb Hs. destruct (for_up_rounds _ _ _ _ _ _ Hb) as (d' & E & L & H). exists d'. split; [done|]. split; [done|].
  intros k Hk. destruct (Hs k Hk) as [S1 S2]. destruct (H k Hk) as [(r & v & Hr & Hu & ->)|[Hn ->]].
  - rewrite (S1 r v Hr Hu). by destruct (d !! k).
  - destruct (U k) as [v|] eqn:EU; [|by destruct (d !! k)].
    destruct (S2 v eq_refl) as (r & Hr & Hu). rewrite Hn in Hu by done. done.
Qed.

(** The case of one loop over [0 .. n-1]. *)
Lemma for_loop_overlay n body u U d :
  (forall j d0, (j < n)%nat -> length d0 = length d -> exists d1, body j d0 = Some d1 /\ overlay (u j) d0 d1) ->
  (forall k, (k < length d)%nat -> (forall j v, (j < n)%nat -> u j k = Some v -> U k = Some v)
    /\ (forall v, U k = Some v -> exists j, (j < n)%nat /\ u j k = Some v)) ->
  exists d', for_loop 0 n 1 body d = Some d' /\ overlay U d d'.
Proof.
  intros Hb Hs. unfold for_loop. rewrite Nat.div_1_r. replace (n - 0 + (1 - 1))%nat with n by lia.
  apply (for_up_overlay _ _ _ _ u).
  - intros r d0 Hr. rewrite Nat.mul_1_r. apply (Hb (0 + r)%nat). lia.
  - intros k Hk. destruct (Hs k Hk) as [S1 S2]. split.
    + intros r v Hr. rewrite Nat.mul_1_r. apply S1. lia.
    + intros v Hv. destruct (S2 v Hv) as (j & Hj & Hu). exists j. rewrite Nat.mul_1_r. done.
Qed.
End overlays.

(** ** Columns: the events of one port *)

Lemma column_index dim i j : (i < dim)%nat -> ((i + j * dim) mod dim = i /\ (i + j * dim) / dim = j)%nat.
Proof.
  intros Hi. rewrite Nat.Div0.mod_add, Nat.mod_small, Nat.div_add, Nat.div_small by lia. split; lia.
Qed.

Lemma index_column dim k : dim <> 0%nat -> k = (k mod dim + k / dim * dim)%nat.
Proof. intros. rewrite Nat.mul_comm, Nat.add_comm. by apply Nat.div_mod. Qed.

(** Column [i] of [n] frames of [dim] events, with the event [v j] in frame [j]. *)
Definition column {A} (dim i n : nat) (v : nat -> A) (k : nat) : option A :=
  if decide (k mod dim = i /\ k / dim < n)%nat then Some (v (k / dim)%nat) else None.

Lemma column_overlay {A} dim i n (v : nat -> A) body d : (i < dim)%nat ->
  (forall j d0, (j < n)%nat -> length d0 = length d -> exists d1, body j d0 = Some d1
     /\ overlay (fun k => if decide (k = i + j * dim)%nat then Some (v j) else None) d0 d1) ->
  exists d', for_loop 0 n 1 body d = Some d' /\ overlay (column dim i n v) d d'.
Proof.
  intros Hi Hb. apply (for_loop_overlay _ _ (fun j k => if decide (k = i + j * dim)%nat then Some (v j) else None)); [done|].
  intros k Hk. unfold column. split.
  - intros j w Hj. case_decide; [|done]. subst k. intros [= <-].
    destruct (column_index dim i j Hi) as [-> ->]. by rewrite decide_True.
  - intros w. case_decide as D; [|done]. intros [= <-]. destruct D as [D1 D2]. exists (k / dim)%nat. split; [done|].
    rewrite decide_True; [done|]. rewrite (index_column dim k) at 1 by lia. lia.
Qed.

(** The columns from position [a] up to [b]. *)
Definition columns {A} (dim a b n : nat) (v : nat -> nat -> A) (k : nat) : option A :=
  if decide (a <= k mod dim < b /\ k / dim < n)%nat then Some (v (k mod dim) (k / dim))%nat else None.

Lemma column_columns {A} dim i n (v : nat -> nat -> A) k : column dim i n (v i) k = columns dim i (S i) n v k.
Proof.
  unfold column, columns. destruct (decide (k mod dim = i)%nat) as [<-|Hne]; repeat case_decide; done || lia.
Qed.

Lemma columns_overlay {A} dim n (v : nat -> nat -> A) rounds start step body d : (0 < step)%nat ->
  (forall r d0, (r < rounds)%nat -> length d0 = length d -> exists d1, body (start + r * step)%nat d0 = Some d1
     /\ overlay (columns dim (start + r * step) (start + r * step + step) n v) d0 d1) ->
  exists d', for_up rounds start step body d = Some d'
    /\ overlay (columns dim start (start + rounds * step) n v) d d'.
Proof.
  intros Hs Hb. apply (for_up_overlay _ _ _ _ (fun i => columns dim i (i + step) n v)); [done|].
  intros k Hk. unfold columns. split.
  - intros r w Hr. case_decide as D; [|done]. intros [= <-]. rewrite decide_True; [done|]. split; [nia|lia].
  - intros w. case_decide as D; [|done]. intros [= <-]. exists ((k mod dim - start) / step)%nat.
    pose proof (Nat.div_mod (k mod dim - start) step ltac:(lia)).
    pose proof (Nat.mod_upper_bound (k mod dim - start) step ltac:(lia)).
    split; [nia|]. rewrite decide_True; [done|]. split; [nia|lia].
Qed.

Lemma columns_overlay_1 {A} dim n (v : nat -> nat -> A) a b body d : (a <= b)%nat ->
  (forall i d0, (a <= i < b)%nat -> length d0 = length d -> exists d1, body i d0 = Some d1
     /\ overlay (column dim i n (v i)) d0 d1) ->
  exists d', for_loop a b 1 body d = Some d' /\ overlay (columns dim a b n v) d d'.
Proof.
  intros Hab Hb. unfold for_loop. rewrite Nat.div_1_r. replace (b - a + (1 - 1))%nat with (b - a)%nat by lia.
  destruct (columns_overlay dim n v (b - a) a 1 body d) as (d' & E & O); [lia| |].
  - intros r d0 Hr L0. rewrite Nat.mul_1_r. destruct (Hb (a + r)%nat d0 ltac:(lia) L0) as (d1 & E1 & O1).
    exists d1. split; [done|]. eapply overlay_ext; [|exact O1]. intros k _. rewrite Nat.add_1_r. apply column_columns.
  - exists d'. by replace (a + (b - a) * 1)%nat with b in O by lia.
Qed.

Lemma columns_join {A} dim a b c n (v : nat -> nat -> A) d d1 d2 : (a <= b <= c)%nat ->
  overlay (columns dim a b n v) d d1 -> overlay (columns dim b c n v) d1 d2 -> overlay (columns dim a c n v) d d2.
Proof.
  intros Hab [L1 O1] [L2 O2]. split; [lia|]. intros k Hk. rewrite O2, O1 by lia. unfold columns.
  repeat case_decide; try lia; by destruct (d !! k).
Qed.

Lemma column_bound dim i j n (l : nat) : (i < dim)%nat -> (j < n)%nat -> (n * dim <= l)%nat -> (i + j * dim < l)%nat.
Proof. nia. Qed.

Section audio.
Context {W : Type} `{SPWorld W} `{Platform}.

(** The word that port [i] contributes to frame [j] of a block. *)
Definition audio_word (c : port_cache) (ps : list Port) (offset i j : nat) : Z :=
  match m_audio_ports c !! i with
  | Some p => if buffer p && enabled p then default 0 (ws ← port_words ps (port p); ws !! (offset + j)%nat) else 0
  | None => 0
  end.

(** The cache entry of an audio port allows [nevents] frames at [offset] to be accessed. *)
Definition audio_entry_ready (ps : list Port) (offset nevents : nat) (p : _MBLA_port_cache) : Prop :=
  (debug_build = true -> Z.of_nat (nevents + offset) <= buffer_size p)
  /\ (buffer p && enabled p = true ->
      exists ws, port_words ps (port p) = Some ws /\ (offset + nevents <= length ws)%nat).

Definition audio_ready (c : port_cache) (ps : list Port) (offset nevents : nat) : Prop :=
  length (m_audio_ports c) = m_nb_audio_ports c /\ Forall (audio_entry_ready ps offset nevents) (m_audio_ports c).

Context (c : port_cache) (ps : list Port) (dim offset nevents : nat).
Context (Hready : audio_ready c ps offset nevents) (Hdim : (m_nb_audio_ports c <= dim)%nat).

Lemma ready_entry i : (i < m_nb_audio_ports c)%nat ->
  exists p, m_audio_ports c !! i = Some p /\ audio_entry_ready ps offset nevents p.
Proof.
  intros Hi. destruct Hready as [L F]. destruct (lookup_lt_is_Some_2 (m_audio_ports c) i ltac:(lia)) as [p E].
  exists p. split; [done|]. by eapply Forall_lookup_1 in F.
Qed.

(** The [assert] of a debug build. *)
Lemma debug_assert p {A} (x y : A) : audio_entry_ready ps offset nevents p ->
  (if debug_build && (buffer_size p <? Z.of_nat (nevents + offset)) then x else y) = y.
Proof.
  intros [D _]. destruct debug_build; [|done]. simpl. by rewrite (proj2 (Z.ltb_ge _ _)) by auto.
Qed.

Lemma encode_port_column (f : Z -> Z) ws i d : (i < dim)%nat -> (nevents * dim <= length d)%nat ->
  (offset + nevents <= length ws)%nat ->
  exists d', encode_port f ws dim i offset nevents d = Some d'
    /\ overlay (column dim i nevents (fun j => f (default 0 (ws !! (offset + j)%nat)))) d d'.
Proof.
  intros Hi L Lw. apply column_overlay; [done|]. intros j d0 Hj L0.
  destruct (lookup_lt_is_Some_2 ws (offset + j) ltac:(lia)) as [x ->]. apply overlay_store.
  rewrite L0. by eapply column_bound.
Qed.

Lemma silence_port_column v i d : (i < dim)%nat -> (nevents * dim <= length d)%nat ->
  exists d', encode_silence_port v dim i nevents d = Some d' /\ overlay (column dim i nevents (fun _ => v)) d d'.
Proof.
  intros Hi L. apply column_overlay; [done|]. intros j d0 Hj L0. apply overlay_store. rewrite L0. by eapply column_bound.
Qed.

(** The scalar code writes the columns of the ports. *)
Lemma encode_audio_scalar_columns f d : f 0 = CONDSWAPTOBUS32_CONST big_endian 0x40000000 ->
  (nevents * dim <= length d)%nat ->
  exists d', encode_audio_scalar f c ps dim offset nevents d = Some d'
    /\ overlay (columns dim 0 (m_nb_audio_ports c) nevents (fun i j => f (audio_word c ps offset i j))) d d'.
Proof.
  intros F0 L. apply columns_overlay_1; [lia|]. intros i d0 Hi L0. unfold audio_word.
  destruct (ready_entry i ltac:(lia)) as (p & E & R). rewrite E. cbn [mbind option_bind]. rewrite debug_assert by done.
  destruct (buffer p && enabled p) eqn:B.
  - destruct R as [_ R]. destruct (R B) as (ws & Ew & Lw). rewrite Ew. cbn [mbind option_bind].
    apply encode_port_column; [lia|by rewrite L0|done].
  - rewrite <- F0. apply silence_port_column; [lia|by rewrite L0].
Qed.

(** *** The SSE2 code *)

(** Four rounds in one. *)
Lemma for_up_by_four {S} rounds start (b : nat -> S -> option S) s :
  for_up rounds start 4 (fun j s => s ← b j s; s ← b (j + 1)%nat s; s ← b (j + 2)%nat s; b (j + 3)%nat s) s
  = for_up (rounds * 4) start 1 b s.
Proof.
  revert start s. induction rounds as [|rounds IH]; intros start s; [done|]. simpl.
  destruct (b start s) as [s1|]; [|done]. simpl. destruct (b (start + 1)%nat s1) as [s2|]; [|done]. simpl.
  rewrite <- !Nat.add_assoc. simpl. destruct (b (start + 2)%nat s2) as [s3|]; [|done]. simpl.
  destruct (b (start + 3)%nat s3) as [s4|]; [|done]. simpl. apply IH.
Qed.

Lemma for_up_ext {S} rounds start step (b b' : nat -> S -> option S) s : (forall j s, b j s = b' j s) ->
  for_up rounds start step b s = for_up rounds start step b' s.
Proof.
  intros E. revert start s. induction rounds as [|rounds IH]; intros start s; [done|]. simpl. rewrite E.
  destruct (b' start s); [|done]. apply IH.
Qed.

(** For a multiple of four events a remaining port is encoded as by the scalar loop. *)
Lemma encode_port_by_four_eq f f1 ws i d : (nevents mod 4 = 0)%nat ->
  encode_port_by_four f f1 ws dim i offset nevents d = encode_port f ws dim i offset nevents d.
Proof.
  intros H4. pose proof (Nat.div_mod nevents 4 ltac:(lia)) as E4. set (m := (nevents / 4)%nat) in *.
  assert ((nevents + 3) / 4 = m)%nat as Em.
  { rewrite E4, H4, Nat.add_0_r, Nat.mul_comm, Nat.add_comm, Nat.div_add by lia. done. }
  unfold encode_port_by_four, encode_port, for_loop. rewrite !Nat.div_1_r, Em.
  replace (nevents - 0 + (4 - 1))%nat with (nevents + 3)%nat by lia. rewrite Em.
  replace (nevents - m * 4 + (1 - 1))%nat with 0%nat by lia. replace (nevents - 0 + (1 - 1))%nat with (m * 4)%nat by lia.
  rewrite <- for_up_by_four. match goal with |- (for_up m 0 4 ?b4 d ≫= _) = for_up m 0 4 ?b d => rewrite (for_up_ext m 0 4 b4 b d) end;
    [by destruct (for_up m 0 4 _ d)|]. intros j s. simpl.
  rewrite <- !Nat.add_assoc.
  destruct (ws !! (offset + j)%nat); simpl; [|done].
  destruct (ws !! (offset + (j + 1))%nat); simpl; [|by destruct (store _ _ _)].
  destruct (ws !! (offset + (j + 2))%nat); simpl; [|destruct (store _ _ _); simpl; [by destruct (store _ _ _)|done]].
  destruct (ws !! (offset + (j + 3))%nat); simpl; [done|].
  destruct (store _ _ _); simpl; [|done]. destruct (store _ _ _); simpl; [|done]. by destruct (store _ _ _).
Qed.

Lemma store4_overlay i (v : nat -> Z) d : (i + 4 <= length d)%nat ->
  exists d', store4 i (v 0%nat) (v 1%nat) (v 2%nat) (v 3%nat) d = Some d'
    /\ overlay (fun k => if decide (i <= k < i + 4)%nat then Some (v (k - i)%nat) else None) d d'.
Proof.
  intros L. unfold store4. rewrite decide_True by done. eexists. split; [done|]. split; [by rewrite length_inserts|].
  intros k Hk. case_decide as D.
  - rewrite list_lookup_inserts by (simpl; lia). destruct (k - i)%nat as [|[|[|[|]]]] eqn:E; try lia; by destruct (d !! k).
  - destruct (decide (k < i)%nat); [rewrite list_lookup_inserts_lt by lia|rewrite list_lookup_inserts_ge by (simpl; lia)];
      by destruct (d !! k).
Qed.

Section sse.
Context (scratch : list Z) (Hscratch : forall j, (j < nevents)%nat -> scratch !! j = Some 0).

(** Where a port reads its words from. *)
Lemma client_buffer_word i p : m_audio_ports c !! i = Some p -> audio_entry_ready ps offset nevents p ->
  exists b o, client_buffer ps scratch offset p = Some (b, o)
    /\ forall j, (j < nevents)%nat -> b !! (o + j)%nat = Some (audio_word c ps offset i j).
Proof.
  intros E [_ R]. unfold client_buffer, audio_word. rewrite E. destruct (buffer p && enabled p).
  - destruct (R eq_refl) as (ws & -> & Lw). exists ws, offset. split; [done|]. intros j Hj. simpl.
    destruct (lookup_lt_is_Some_2 ws (offset + j) ltac:(lia)) as [x ->]. done.
  - exists scratch, 0%nat. split; [done|]. intros j Hj. by apply Hscratch.
Qed.

Lemma encode_four_ports_columns f i d : (i + 4 <= m_nb_audio_ports c)%nat -> (nevents * dim <= length d)%nat ->
  exists d', encode_four_ports f c ps scratch dim offset nevents i d = Some d'
    /\ overlay (columns dim i (i + 4) nevents (fun i j => f (audio_word c ps offset i j))) d d'.
Proof.
  intros Hi L. unfold encode_four_ports.
  destruct (ready_entry i ltac:(lia)) as (p0 & E0 & R0). destruct (ready_entry (i + 1) ltac:(lia)) as (p1 & E1 & R1).
  destruct (ready_entry (i + 2) ltac:(lia)) as (p2 & E2 & R2). destruct (ready_entry (i + 3) ltac:(lia)) as (p3 & E3 & R3).
  rewrite E0, E1, E2, E3. cbn [mbind option_bind].
  destruct (client_buffer_word _ _ E0 R0) as (b0 & o0 & -> & B0). destruct (client_buffer_word _ _ E1 R1) as (b1 & o1 & -> & B1).
  destruct (client_buffer_word _ _ E2 R2) as (b2 & o2 & -> & B2). destruct (client_buffer_word _ _ E3 R3) as (b3 & o3 & -> & B3).
  cbn [mbind option_bind]. set (v j q := f (audio_word c ps offset (i + q) j)).
  apply (for_loop_overlay _ _ (fun j k =>
    if decide (i + j * dim <= k < i + j * dim + 4)%nat then Some (v j (k - (i + j * dim))%nat) else None)).
  - intros j d0 Hj L0. rewrite B0, B1, B2, B3 by done. cbn [mbind option_bind].
    destruct (store4_overlay (i + j * dim) (v j) d0) as (d1 & S1 & O1); [nia|].
    exists d1. split; [|done]. subst v. cbn beta in S1. by rewrite Nat.add_0_r in S1.
  - intros k Hk. unfold columns. assert (dim <> 0%nat) as Hd by lia.
    pose proof (index_column dim k Hd) as Ek. pose proof (Nat.mod_upper_bound k dim Hd) as Bk. split.
    + intros j w Hj. case_decide as D; [|done]. intros [= <-].
      destruct (column_index dim (k - j * dim) j ltac:(lia)) as [M1 M2].
      replace (k - j * dim + j * dim)%nat with k in M1, M2 by lia. rewrite decide_True by lia.
      subst v. simpl. do 3 f_equal; lia.
    + intros w. case_decide as D; [|done]. intros [= <-]. exists (k / dim)%nat. split; [lia|].
      rewrite decide_True by lia. subst v. simpl. do 3 f_equal; lia.
Qed.

Lemma grouped_ports_bound nb : (grouped_ports nb <= nb /\ (nb - 4 + 3) / 4 * 4 = grouped_ports nb)%nat.
Proof. unfold grouped_ports. split; [|done]. pose proof (Nat.div_mod (nb - 4 + 3) 4). pose proof (Nat.mod_upper_bound (nb - 4 + 3) 4). lia. Qed.

(** The SSE2 code writes the columns of the ports, for a multiple of four events. *)
Lemma encode_audio_sse_columns f f1 d : (nevents mod 4 = 0)%nat -> f 0 = 0x40 -> (nevents * dim <= length d)%nat ->
  exists d', encode_audio_sse f f1 c ps scratch dim offset nevents d = Some d'
    /\ overlay (columns dim 0 (m_nb_audio_ports c) nevents (fun i j => f (audio_word c ps offset i j))) d d'.
Proof.
  intros H4 F0 L. unfold encode_audio_sse. cbv zeta. set (nb := m_nb_audio_ports c). destruct (grouped_ports_bound nb) as [G1 G2].
  destruct (columns_overlay dim nevents (fun i j => f (audio_word c ps offset i j)) ((nb - 4 - 0 + (4 - 1)) / 4) 0 4
    (encode_four_ports f c ps scratch dim offset nevents) d) as (d1 & E1 & O1); [lia| |].
  { intros r d0 Hr L0. apply encode_four_ports_columns; [|lia]. subst nb.
    pose proof (Nat.div_mod (m_nb_audio_ports c - 4 - 0 + (4 - 1)) 4 ltac:(lia)). lia. }
  change (for_loop 0 (nb - 4) 4 (encode_four_ports f c ps scratch dim offset nevents) d = Some d1) in E1.
  rewrite E1. cbn [mbind option_bind].
  replace (nb - 4 - 0 + (4 - 1))%nat with (nb - 4 + 3)%nat in O1 by lia. rewrite G2 in O1. simpl in O1.
  destruct (columns_overlay_1 dim nevents (fun i j => f (audio_word c ps offset i j)) (grouped_ports nb) nb (fun i data =>
    p ← m_audio_ports c !! i;
    if debug_build && (buffer_size p <? Z.of_nat (nevents + offset)) then None else
    if buffer p && enabled p then
      ws ← port_words ps (port p); encode_port_by_four f f1 ws dim i offset nevents data
    else encode_silence_port 0x00000040 dim i nevents data) d1) as (d' & E' & O'); [done| |].
  - intros i d0 Hi L0. destruct O1 as [L1 _]. unfold audio_word.
    destruct (ready_entry i ltac:(lia)) as (p & E & R). rewrite E. cbn [mbind option_bind]. rewrite debug_assert by done.
    destruct (buffer p && enabled p) eqn:B.
    + destruct R as [_ R]. destruct (R B) as (ws & Ew & Lw). rewrite Ew. cbn [mbind option_bind].
      rewrite encode_port_by_four_eq by done. apply encode_port_column; [lia|lia|done].
    + rewrite <- F0. apply silence_port_column; lia.
  - exists d'. split; [done|]. eapply columns_join; [|exact O1|exact O']. lia.
Qed.
End sse.
End audio.

(** ** Samples *)

Lemma label_int_eq x : label_int x = 0x40000000 + x mod 2 ^ 24.
Proof.
  unfold label_int. change 0x00FFFFFF with (2 ^ 24 - 1). rewrite land_mask_mod, Z.lor_comm by lia.
  change 0x40000000 with (0x40 << 24). rewrite lor_shiftl_add by (try apply Z.mod_pos_bound; lia). done.
Qed.

Lemma label_int_range x : 0 <= label_int x < 2 ^ 32.
Proof. rewrite label_int_eq. pose proof (Z.mod_pos_bound x (2 ^ 24)). lia. Qed.

(** The bits of a sample come back from its label. *)
Lemma label_int_bits x : label_int x .& 0x00FFFFFF = x .& 0x00FFFFFF.
Proof.
  change 0x00FFFFFF with (2 ^ 24 - 1). rewrite label_int_eq, !land_mask_mod by lia.
  rewrite <- Zplus_mod_idemp_l. change (0x40000000 mod 2 ^ 24) with 0. by rewrite Z.add_0_l, Zmod_mod.
Qed.

Lemma sse_int24_eq x : sse_event_of_int24 x = event_of_int24 false x.
Proof. apply sse_swap_eq, label_int_range. Qed.

(** An unclipped comparison that is neither less nor greater is equality. *)
Lemma SFcompare_Eq_finite x s m e : SFcompare x (S754_finite s m e) = Some Eq -> x = S754_finite s m e.
Proof.
  destruct x as [t|[]| |t n f]; simpl; try done; try (by destruct s); destruct s, t; simpl; try done;
    destruct (Z.compare_spec f e) as [->|?|?]; try done; fold (Pos.compare n m);
    destruct (Pos.compare_spec n m) as [->|?|?]; done.
Qed.

(** A number above 1.0 is above -1.0. *)
Lemma above_one v : dgt v (f_of_Z 1) = true -> dgt v (f_of_Z (-1)) = true /\ dlt v (f_of_Z 1) = false.
Proof.
  intros Hv. split; [|by apply dge_dlt; unfold dgt, dge, SFltb, SFleb in *; destruct (SFcompare _ _) as [[]|]].
  revert Hv. unfold dgt, SFltb. change (f_of_Z 1) with (S754_finite false 8388608 (-23)).
  change (f_of_Z (-1)) with (S754_finite true 8388608 (-23)). destruct v as [[]|[]| |[] m e]; try done.
Qed.

(** Clipping with SSE2 is the clipping of the scalar code, except for NaN. *)
Lemma sse_clip v : v <> S754_nan ->
  mm_min_ps (mm_max_ps v (f_of_Z (-1))) (f_of_Z 1)
  = if dgt v (f_of_Z 1) then f_of_Z 1 else if dlt v (f_of_Z (-1)) then f_of_Z (-1) else v.
Proof.
  intros Hn. unfold mm_min_ps, mm_max_ps. destruct (dgt v (f_of_Z 1)) eqn:H1.
  { destruct (above_one v H1) as [-> ->]. done. }
  destruct (dlt v (f_of_Z (-1))) eqn:H2.
  { assert (dgt v (f_of_Z (-1)) = false) as ->; [|done].
    apply dlt_dge in H2. revert H2. unfold dgt, dge, SFltb, SFleb. by destruct (SFcompare (f_of_Z (-1)) v) as [[]|]. }
  assert (forall y, y = f_of_Z (-1) \/ y = f_of_Z 1 -> dgt v y = false -> dlt v y = false -> v = y) as Heq.
  { intros y Hy. unfold dgt, dlt, SFltb. rewrite (SFcompare_antisym v y).
    destruct (SFcompare v y) as [[]|] eqn:C; simpl; try done.
    - intros _ _. destruct Hy as [->| ->]; by apply SFcompare_Eq_finite in C.
    - destruct Hy as [->| ->]; destruct v as [[]|[]| |[]]; try done. }
  destruct (dgt v (f_of_Z (-1))) eqn:H3.
  - destruct (dlt v (f_of_Z 1)) eqn:H4; [done|]. symmetry. apply Heq; auto.
  - rewrite (Heq (f_of_Z (-1))) by auto. done.
Qed.

Lemma sse_float_eq x : float_of_bits x <> S754_nan -> sse_event_of_float x = event_of_float false x.
Proof.
  intros Hn. unfold sse_event_of_float, event_of_float. rewrite sse_clip by done.
  destruct (dgt _ (f_of_Z 1)); [by vm_compute|]. destruct (dlt _ (f_of_Z (-1))); [by vm_compute|].
  apply sse_swap_eq, label_int_range.
Qed.

(** A sample that is not a number: the SSE2 code sends full negative scale, the scalar code silence. *)
Lemma nan_events x : float_of_bits x = S754_nan ->
  sse_event_of_float x = CondSwapToBus32 false 0x40800001 /\ event_of_float false x = CondSwapToBus32 false 0x40000000.
Proof. unfold sse_event_of_float, event_of_float. intros ->. by vm_compute. Qed.

(** ** Blocks that are not a multiple of four frames *)

Lemma store_length {A} i (x : A) d d' : store i x d = Some d' -> length d' = length d.
Proof. unfold store. case_decide; [|done]. intros [= <-]. by rewrite length_insert. Qed.

Lemma store_None {A} i (x : A) d : (length d <= i)%nat -> store i x d = None.
Proof. intros. unfold store. by rewrite decide_False by lia. Qed.

Definition keeps_length {A} (f : list A -> option (list A)) : Prop := forall d d', f d = Some d' -> length d' = length d.

Lemma bind_keeps_length {A} (f g : list A -> option (list A)) : keeps_length f -> keeps_length g ->
  keeps_length (fun d => d ← f d; g d).
Proof. intros Hf Hg d d' (d1 & E1 & E)%bind_Some. apply Hf in E1. apply Hg in E. congruence. Qed.

Lemma for_up_keeps_length {A} rounds start step (body : nat -> list A -> option (list A)) :
  (forall j, keeps_length (body j)) -> keeps_length (for_up rounds start step body).
Proof.
  intros Hb. revert start. induction rounds as [|rounds IH]; intros start d d'; simpl; [by intros [= <-]|].
  intros (d1 & E1 & E)%bind_Some. apply Hb in E1. apply IH in E. congruence.
Qed.

(** A loop in which one round is undefined. *)
Lemma for_up_fails {A} rounds start step (body : nat -> list A -> option (list A)) r d : (r < rounds)%nat ->
  (forall j, keeps_length (body j)) ->
  (forall d0, length d0 = length d -> body (start + r * step)%nat d0 = None) -> for_up rounds start step body d = None.
Proof.
  intros Hr Hk. revert start r d Hr. induction rounds as [|rounds IH]; intros start r d Hr Hf; [lia|]. simpl.
  destruct r as [|r]; [rewrite Nat.mul_0_l, Nat.add_0_r in Hf; by rewrite Hf|].
  destruct (body start d) as [d1|] eqn:E1; [|done]. apply Hk in E1. simpl. apply (IH _ r); [lia|].
  intros d0 L0. replace (start + step + r * step)%nat with (start + S r * step)%nat by lia. apply Hf. congruence.
Qed.

(** The loop over four events writes behind the block. *)
Lemma encode_port_by_four_overrun f f1 ws dim i offset nevents d : (nevents mod 4 <> 0)%nat ->
  length d = (nevents * dim)%nat -> encode_port_by_four f f1 ws dim i offset nevents d = None.
Proof.
  intros H4 L. unfold encode_port_by_four, for_loop. pose proof (Nat.div_mod nevents 4 ltac:(lia)) as E4.
  pose proof (Nat.mod_upper_bound nevents 4 ltac:(lia)).
  rewrite (for_up_fails _ _ _ _ (nevents / 4)%nat); [done|..].
  - assert (nevents / 4 + 1 <= (nevents - 0 + (4 - 1)) / 4)%nat; [|lia]. apply Nat.div_le_lower_bound; lia.
  - intros j d0 d1 E. repeat (apply bind_Some in E as (? & ? & E)).
    repeat match goal with H : store _ _ _ = Some _ |- _ => apply store_length in H end. congruence.
  - intros d0 L0. repeat match goal with |- (?x ≫= _) = None => destruct x eqn:?; [cbn [mbind option_bind]|done] end.
    repeat match goal with H : store _ _ _ = Some _ |- _ => apply store_length in H end.
    apply store_None. nia.
Qed.

Section overrun.
Context {W : Type} `{SPWorld W} `{Platform}.

Lemma encode_audio_sse_overrun f f1 c ps scratch dim offset nevents d i p : (nevents mod 4 <> 0)%nat ->
  length d = (nevents * dim)%nat -> (grouped_ports (m_nb_audio_ports c) <= i < m_nb_audio_ports c)%nat ->
  m_audio_ports c !! i = Some p -> buffer p && enabled p = true ->
  encode_audio_sse f f1 c ps scratch dim offset nevents d = None.
Proof.
  intros H4 L Hi Ep B. unfold encode_audio_sse, for_loop at 2.
  destruct (for_up _ 0 4 _ d) as [d1|] eqn:E1; [|done]. cbn [mbind option_bind].
  apply (for_up_keeps_length ((m_nb_audio_ports c - 4 - 0 + (4 - 1)) / 4) 0 4) in E1.
  2:{ intros j d0 d'. unfold encode_four_ports, for_loop. intros E. do 4 apply bind_Some in E as (? & ? & E).
      do 4 (apply bind_Some in E as ([? ?] & ? & E)). revert E. apply for_up_keeps_length. intros j' d2 d3 E.
      do 4 apply bind_Some in E as (? & ? & E). revert E. unfold store4. case_decide; [|done]. intros [= <-].
      by rewrite !length_insert. }
  unfold for_loop. apply (for_up_fails _ _ _ _ (i - grouped_ports (m_nb_audio_ports c))); [rewrite Nat.div_1_r; lia|..].
  - intros j d0 d' E. apply bind_Some in E as (q & _ & E). destruct (debug_build && _); [done|].
    destruct (buffer q && enabled q).
    + apply bind_Some in E as (ws & ? & E). apply bind_Some in E as (d2 & E2 & E).
      apply for_up_keeps_length in E.
      2:{ intros j' d3 d4 E'. apply bind_Some in E' as (? & ? & E'). by apply store_length in E'. }
      apply for_up_keeps_length in E2; [congruence|].
      intros j' d3 d4 E'. repeat (apply bind_Some in E' as (? & ? & E')).
      repeat match goal with H : store _ _ _ = Some _ |- _ => apply store_length in H end. congruence.
    + revert E. apply for_up_keeps_length. intros j' d3 d4 E'. by apply store_length in E'.
  - intros d0 L0. replace (grouped_ports (m_nb_audio_ports c) + (i - grouped_ports (m_nb_audio_ports c)) * 1)%nat with i by lia.
    rewrite Ep. cbn [mbind option_bind]. destruct (debug_build && _); [done|]. rewrite B.
    destruct (port_words ps (port p)); [|done]. cbn [mbind option_bind].
    apply encode_port_by_four_overrun; [done|congruence].
Qed.
End overrun.

(** ** The scratch buffer *)

Lemma words_of_zeroes be n l : words_of_bytes be (replicate (4 * n) 0 ++ l) = replicate n 0 ++ words_of_bytes be l.
Proof.
  induction n as [|n IH]; [done|]. replace (4 * S n)%nat with (S (S (S (S (4 * n)))))%nat by lia.
  cbn [replicate app words_of_bytes]. rewrite IH. by destruct be.
Qed.

Lemma list_inserts_front {A} (d l : list A) : (length d <= length l)%nat ->
  list_inserts 0 d l = d ++ drop (length d) l.
Proof.
  intros L. rewrite <- (take_drop (length d) l) at 1. apply list_inserts_0_r. rewrite length_take. lia.
Qed.

Lemma scratch_zeroes be n scratch j : (4 * n <= length scratch)%nat -> (j < n)%nat ->
  words_of_bytes be (list_inserts 0 (replicate (4 * n) 0) scratch) !! j = Some 0.
Proof.
  intros L Hj. rewrite list_inserts_front by (by rewrite length_replicate). rewrite length_replicate, words_of_zeroes.
  rewrite lookup_app_l by (by rewrite length_replicate). by apply lookup_replicate_2.
Qed.

(** ** SSE2 and scalar code agree *)

Definition host (be sse : bool) : Platform := {| big_endian := be; sse2 := sse; debug_messages := true |}.

Section transmit_blocks.
Context {W : Type} `{SPWorld W}.

(** The transmit processor can encode [nevents] frames at [offset] into the block [data]. *)
Record tx_ready (s : sp_state AmdtpTransmitStreamProcessor W) (data : list Z) (offset nevents : Z) : Prop := {
  tx_audio_ready : audio_ready (tx_cache (child s)) (m_Ports (ports (sp s))) (Z.to_nat offset) (Z.to_nat nevents);
  tx_positions : (m_nb_audio_ports (tx_cache (child s)) <= Z.to_nat (tx_dimension (child s)))%nat;
  tx_block : length data = (Z.to_nat nevents * Z.to_nat (tx_dimension (child s)))%nat;
  tx_nevents : 0 <= nevents < 2 ^ 30;
}.

Definition scratch_ready (s : sp_state AmdtpTransmitStreamProcessor W) (nevents : Z) : Prop :=
  nevents * 4 < zlength (default [] (m_scratch_buffer (sp s))).

(** The words that the ports contribute to the block. *)
Definition tx_word (s : sp_state AmdtpTransmitStreamProcessor W) (offset : Z) (i j : nat) : Z :=
  audio_word (tx_cache (child s)) (m_Ports (ports (sp s))) (Z.to_nat offset) i j.

Definition tx_columns (s : sp_state AmdtpTransmitStreamProcessor W) (f : Z -> Z) (offset nevents : Z) : nat -> option Z :=
  columns (Z.to_nat (tx_dimension (child s))) 0 (m_nb_audio_ports (tx_cache (child s))) (Z.to_nat nevents)
    (fun i j => f (tx_word s offset i j)).

Lemma encode_audio_scalar_block P f f1 s data offset nevents : sse2 (Platform := P) = false ->
  f1 0 = CONDSWAPTOBUS32_CONST (big_endian (Platform := P)) 0x40000000 -> tx_ready s data offset nevents ->
  exists d, @encode_audio W _ P f f1 data offset nevents s = Some (d, s) /\ overlay (tx_columns s f1 offset nevents) data d.
Proof.
  intros S F1 [R Hd L Hn].
  destruct (encode_audio_scalar_columns (H0 := P) _ _ (Z.to_nat (tx_dimension (child s))) _ _ R Hd f1 data F1 ltac:(lia))
    as (d & E & O).
  exists d. split; [|done]. unfold encode_audio. do 2 run_step. rewrite S. unfold lift. by rewrite E.
Qed.

Lemma encode_audio_sse_block P f f1 s data offset nevents : sse2 (Platform := P) = true -> f 0 = 0x40 ->
  nevents mod 4 = 0 -> tx_ready s data offset nevents -> scratch_ready s nevents ->
  exists d s', @encode_audio W _ P f f1 data offset nevents s = Some (d, s')
    /\ overlay (tx_columns s f offset nevents) data d /\ child s' = child s /\ ports (sp s') = ports (sp s).
Proof.
  intros S F0 H4 [R Hd L Hn] Hs. unfold scratch_ready in Hs.
  set (sc := default [] (m_scratch_buffer (sp s))) in *.
  set (zs := list_inserts 0 (replicate (Z.to_nat (u32 (nevents * 4))) 0) sc).
  assert (u32 (nevents * 4) = nevents * 4) as Eu by (cint; done).
  destruct (encode_audio_sse_columns (tx_cache (child s)) (m_Ports (ports (sp s))) (Z.to_nat (tx_dimension (child s)))
    (Z.to_nat offset) (Z.to_nat nevents) R Hd (words_of_bytes (big_endian (Platform := P)) zs)) with (f := f) (f1 := f1) (d := data)
    as (d & E & O); [| |done|lia|].
  - intros j Hj. subst zs. rewrite Eu. replace (Z.to_nat (nevents * 4)) with (4 * Z.to_nat nevents)%nat by lia.
    apply scratch_zeroes; [|done]. unfold zlength in Hs. lia.
  - apply Nat2Z.inj. rewrite Nat2Z.inj_mod, Z2Nat.id by lia. done.
  - assert (exists s', prepare_scratch nevents s = Some (words_of_bytes big_endian zs, s')
      /\ child s' = child s /\ ports (sp s') = ports (sp s)) as (s' & Es & Ec & Ep).
    { eexists. split.
      - unfold prepare_scratch. run_step. cbv beta. fold sc. erewrite run_bind_Some.
        2:{ unfold assert_that. rewrite Eu, (proj2 (Z.ltb_lt _ _) Hs). reflexivity. }
        cbv zeta. fold zs. by run_step.
      - by split. }
    exists d, s'. split; [|done]. unfold encode_audio. do 2 run_step. rewrite S. run_step with Es. unfold lift. by rewrite E.
Qed.

Lemma tx_columns_ext s f g offset nevents data d :
  (forall i j, (i < m_nb_audio_ports (tx_cache (child s)))%nat -> (j < Z.to_nat nevents)%nat ->
     f (tx_word s offset i j) = g (tx_word s offset i j)) ->
  overlay (tx_columns s f offset nevents) data d -> overlay (tx_columns s g offset nevents) data d.
Proof.
  intros E. apply overlay_ext. intros k _. unfold tx_columns, columns. case_decide as D; [|done]. by rewrite E by lia.
Qed.

(** Both codes give the same block if they agree on the words of the ports. *)
Lemma encoders_agree f f1 s data offset nevents : nevents mod 4 = 0 -> f 0 = 0x40 ->
  f1 0 = CONDSWAPTOBUS32_CONST false 0x40000000 -> tx_ready s data offset nevents -> scratch_ready s nevents ->
  (forall i j, (i < m_nb_audio_ports (tx_cache (child s)))%nat -> (j < Z.to_nat nevents)%nat ->
     f (tx_word s offset i j) = f1 (tx_word s offset i j)) ->
  exists d s', @encode_audio W _ (host false true) f f1 data offset nevents s = Some (d, s')
    /\ @encode_audio W _ (host false false) f f1 data offset nevents s = Some (d, s).
Proof.
  intros H4 F0 F1 R Sc E.
  destruct (encode_audio_sse_block (host false true) f f1 s data offset nevents) as (d & s' & E1 & O1 & _); try done.
  destruct (encode_audio_scalar_block (host false false) f f1 s data offset nevents) as (d2 & E2 & O2); try done.
  exists d, s'. split; [done|]. rewrite E2. do 2 f_equal.
  eapply overlay_unique; [exact O2|]. by eapply tx_columns_ext.
Qed.

(** One of the ports that are not encoded in groups of four is active. *)
Definition ungrouped_port_active (s : sp_state AmdtpTransmitStreamProcessor W) : Prop :=
  let c := tx_cache (child s) in
  exists i p, (grouped_ports (m_nb_audio_ports c) <= i < m_nb_audio_ports c)%nat
    /\ m_audio_ports c !! i = Some p /\ buffer p && enabled p = true.

Lemma encode_overrun f f1 s data offset nevents : nevents mod 4 <> 0 -> tx_ready s data offset nevents ->
  ungrouped_port_active s -> @encode_audio W _ (host false true) f f1 data offset nevents s = None.
Proof.
  intros H4 [R Hd L Hn] (i & p & Hi & Ep & B). unfold encode_audio. do 2 run_step. cbn [sse2 host].
  destruct (@prepare_scratch W (host false true) nevents s) as [[sc s']|] eqn:Es.
  2:{ unfold mbind, run_bind. by rewrite Es. }
  run_step with Es. unfold lift. rewrite (encode_audio_sse_overrun (W := W) _ _ _ _ _ _ _ _ _ i p); try done.
  intros E%(f_equal Z.of_nat). rewrite Nat2Z.inj_mod, Z2Nat.id in E by lia. done.
Qed.

End transmit_blocks.

(** ** Decoding *)

Lemma find_port_set a ws ps b : port_words (set_port_words a ws ps) b
  = p ← find_port ps b; if port_this p =? a then Some ws else m_buffer p.
Proof.
  unfold port_words, set_port_words. induction ps as [|p ps IH]; [done|]. simpl.
  assert (port_this (if port_this p =? a then with_buffer (Some ws) p else p) = port_this p) as -> by (by destruct (_ =? _)).
  destruct (port_this p =? b); simpl; [by destruct (port_this p =? a)|done].
Qed.

Lemma find_port_this ps a p : find_port ps a = Some p -> port_this p = a.
Proof.
  induction ps as [|q ps IH]; [done|]. simpl. destruct (Z.eqb_spec (port_this q) a); [by intros [= <-]|done].
Qed.

Lemma port_words_set_eq a ws ws0 ps : port_words ps a = Some ws0 -> port_words (set_port_words a ws ps) a = Some ws.
Proof.
  rewrite find_port_set. unfold port_words. destruct (find_port ps a) as [p|] eqn:E; [|done]. intros _. simpl.
  apply find_port_this in E. by rewrite (proj2 (Z.eqb_eq _ _) E).
Qed.

Lemma port_words_set_ne a b ws ps : a <> b -> port_words (set_port_words a ws ps) b = port_words ps b.
Proof.
  intros Hab. rewrite find_port_set. unfold port_words. destruct (find_port ps b) as [p|] eqn:E; [|done]. simpl.
  apply find_port_this in E. rewrite (proj2 (Z.eqb_neq _ _)); [done|congruence].
Qed.

(** The words [ws'] of a port after [nevents] frames with the words [v 0], [v 1], ... arrived at [offset]. *)
Definition received (offset nevents : nat) (v : nat -> Z) (ws ws' : list Z) : Prop :=
  overlay (fun k => if decide (offset <= k < offset + nevents)%nat then Some (v (k - offset)%nat) else None) ws ws'.

Lemma decode_port_received f data dim i offset nevents ws : (i < dim)%nat -> (nevents * dim <= length data)%nat ->
  (offset + nevents <= length ws)%nat ->
  exists ws', decode_port f data dim i offset nevents ws = Some ws'
    /\ received offset nevents (fun j => f (default 0 (data !! (i + j * dim)%nat))) ws ws'.
Proof.
  intros Hi Ld Lw. apply (for_loop_overlay _ _ (fun j k =>
    if decide (k = offset + j)%nat then Some (f (default 0 (data !! (i + j * dim)%nat))) else None)).
  - intros j d0 Hj L0.
    destruct (lookup_lt_is_Some_2 data (i + j * dim)) as [x Ex]; [by eapply column_bound|]. rewrite Ex.
    apply overlay_store. lia.
  - intros k Hk. split.
    + intros j w Hj. case_decide as D; [|done]. intros [= <-]. subst k. rewrite decide_True by lia.
      by replace (offset + j - offset)%nat with j by lia.
    + intros w. case_decide as D; [|done]. intros [= <-]. exists (k - offset)%nat. split; [lia|].
      rewrite decide_True by lia. done.
Qed.

Section decoding.
Context {W : Type} `{SPWorld W}.
Context (f : Z -> Z) (data : list Z) (dim offset nevents : nat) (c : port_cache).
Context (Hdim : (m_nb_audio_ports c <= dim)%nat) (Hdata : (nevents * dim <= length data)%nat).
Context (Hdup : NoDup (port <$> m_audio_ports c)).

(** The ports [ps'] after the columns from [a] up to [b] have been decoded. *)
Definition decoded (a b : nat) (ps ps' : list Port) : Prop :=
  (forall i p, (a <= i < b)%nat -> m_audio_ports c !! i = Some p -> buffer p && enabled p = true ->
     exists ws ws', port_words ps (port p) = Some ws /\ port_words ps' (port p) = Some ws'
       /\ received offset nevents (fun j => f (default 0 (data !! (i + j * dim)%nat))) ws ws')
  /\ (forall x, (forall i p, (a <= i < b)%nat -> m_audio_ports c !! i = Some p -> buffer p && enabled p = true -> port p <> x) ->
        port_words ps' x = port_words ps x).

Lemma same_cached_port i j p q : m_audio_ports c !! i = Some p -> m_audio_ports c !! j = Some q -> port p = port q -> i = j.
Proof.
  intros Ei Ej E. eapply (NoDup_lookup (port <$> m_audio_ports c)); [done|rewrite list_lookup_fmap, Ei; done|].
  rewrite list_lookup_fmap, Ej. simpl. congruence.
Qed.

Lemma decode_audio_from n a ps : (a + n = m_nb_audio_ports c)%nat -> audio_ready c ps offset nevents ->
  exists ps', for_up n a 1 (fun i ps =>
      p ← m_audio_ports c !! i;
      if debug_build && (buffer_size p <? Z.of_nat (nevents + offset)) then None else
      if buffer p && enabled p then
        ws ← port_words ps (port p);
        ws ← decode_port f data dim i offset nevents ws;
        Some (set_port_words (port p) ws ps)
      else Some ps) ps = Some ps' /\ decoded a (a + n) ps ps'.
Proof.
  revert a ps. induction n as [|n IH]; intros a ps Ha R.
  { exists ps. split; [done|]. split; [intros; lia|done]. }
  cbn [for_up]. destruct (ready_entry c ps dim offset nevents R Hdim a ltac:(lia)) as (p & Ep & Rp). rewrite Ep.
  cbn [mbind option_bind]. rewrite (debug_assert ps) by done. rewrite Nat.add_1_r.
  destruct (buffer p && enabled p) eqn:B.
  - destruct Rp as [_ Rp]. destruct (Rp B) as (ws & Ew & Lw). rewrite Ew. cbn [mbind option_bind].
    destruct (decode_port_received f data dim a offset nevents ws) as (ws' & E' & Rc); [lia|done|done|].
    rewrite E'. cbn [mbind option_bind]. set (ps1 := set_port_words (port p) ws' ps).
    assert (forall x, x <> port p -> port_words ps1 x = port_words ps x) as Hne by (intros; by apply port_words_set_ne).
    assert (port_words ps1 (port p) = Some ws') as Heq by (by eapply port_words_set_eq).
    destruct (IH (S a) ps1) as (ps' & E2 & D1 & D2); [lia| |].
    { destruct R as [L F]. split; [done|]. eapply Forall_impl; [exact F|]. intros q [Q1 Q2]. split; [done|]. intros Bq.
      destruct (decide (port q = port p)) as [->|Hq]; [|rewrite Hne by done; auto]. exists ws'. split; [done|].
      destruct Rc as [-> _]. done. }
    exists ps'. split; [done|]. replace (a + S n)%nat with (S a + n)%nat by lia. split.
    + intros i q Hi Eq Bq. destruct (decide (i = a)) as [->|Hia].
      * replace q with p in * by congruence. exists ws, ws'. split_and!; [done| |done]. rewrite D2; [done|].
        intros i q' Hi' Eq' _ Epq. pose proof (same_cached_port _ _ _ _ Eq' Ep Epq). lia.
      * destruct (D1 i q ltac:(lia) Eq Bq) as (w & w' & E3 & E4 & Rw). exists w, w'. split_and!; [|done..].
        rewrite <- E3, Hne; [done|]. intros Epq. pose proof (same_cached_port _ _ _ _ Eq Ep Epq). lia.
    + intros x Hx. rewrite D2 by (intros; eapply Hx; [|done..]; lia). apply Hne. intros ->. by eapply (Hx a p); [lia|..].
  - destruct (IH (S a) ps ltac:(lia) R) as (ps' & E2 & D1 & D2). exists ps'. split; [done|].
    replace (a + S n)%nat with (S a + n)%nat by lia. split.
    + intros i q Hi Eq Bq. destruct (decide (i = a)) as [->|Hia]; [congruence|]. apply D1; [lia|done..].
    + intros x Hx. apply D2. intros i q Hi. apply Hx. lia.
Qed.

Lemma decode_audio_decoded ps : audio_ready c ps offset nevents ->
  exists ps', decode_audio f data dim c offset nevents ps = Some ps' /\ decoded 0 (m_nb_audio_ports c) ps ps'.
Proof.
  intros R. unfold decode_audio, for_loop. rewrite Nat.div_1_r.
  replace (m_nb_audio_ports c - 0 + (1 - 1))%nat with (m_nb_audio_ports c) by lia.
  by apply (decode_audio_from (m_nb_audio_ports c) 0).
Qed.
End decoding.

(** ** From memory to memory *)

Lemma quad_store_cons be x : exists a b c d, quad_store be x = [a; b; c; d].
Proof. destruct be; by eexists _, _, _, _. Qed.

(** The words that a host with byte order [be2] reads where one with [be1] has written. *)
Lemma words_of_bytes_of_words be1 be2 ws :
  words_of_bytes be2 (bytes_of_words be1 ws) = (fun x => quad_load be2 (quad_store be1 x)) <$> ws.
Proof.
  induction ws as [|x ws IH]; [done|]. change (bytes_of_words be1 (x :: ws)) with (quad_store be1 x ++ bytes_of_words be1 ws).
  destruct (quad_store_cons be1 x) as (a & b & c & d & E). rewrite E. cbn [app words_of_bytes fmap list_fmap].
  by rewrite E, IH.
Qed.

(** A quadlet in bus order is read in bus order by the other host. *)
Lemma bus_word be1 be2 x : 0 <= x < 2 ^ 32 ->
  quad_load be2 (quad_store be1 (CondSwapToBus32 be1 x)) = CondSwapToBus32 be2 x.
Proof.
  intros Hx. assert (quad_store be1 (CondSwapToBus32 be1 x) = quad_be x) as ->.
  { unfold quad_store, CondSwapToBus32. destruct be1; [done|]. apply ByteSwap32_bytes. }
  assert (of_bytes_be (quad_be x) = x) as E.
  { etrans; [|symmetry; exact (quad_decompose x Hx)]. unfold of_bytes_be, quad_be. simpl. lia. }
  unfold quad_load, CondSwapToBus32. destruct be2; [done|]. by change (rev (quad_be x)) with (quad_le x).
Qed.

Lemma from_to_bus be x : 0 <= x < 2 ^ 32 -> CondSwapFromBus32 be (CondSwapToBus32 be x) = x.
Proof. intros Hx. destruct be; [done|]. by apply ByteSwap32_involutive. Qed.

(** A sample of 24 bits on its way from one host to the other. *)
Lemma int24_through_wire P be1 x :
  @int24_of_event P (quad_load (big_endian (Platform := P)) (quad_store be1 (event_of_int24 be1 x))) = x .& 0x00FFFFFF.
Proof.
  unfold int24_of_event, event_of_int24. rewrite bus_word, from_to_bus by apply label_int_range. apply label_int_bits.
Qed.

Section roundtrip.
Context {W1 W2 : Type} `{SPWorld W1} `{SPWorld W2}.

(** The sending host: with SSE2 it is little-endian, has a scratch buffer for the block, and
    sends multiples of four frames. *)
Definition encoder_ready (P : Platform) (s : sp_state AmdtpTransmitStreamProcessor W1) (nevents : Z) : Prop :=
  sse2 (Platform := P) = true -> big_endian (Platform := P) = false /\ nevents mod 4 = 0 /\ scratch_ready s nevents.

Lemma encode_int24_columns P s data offset nevents : tx_ready s data offset nevents -> encoder_ready P s nevents ->
  exists d s', @encodeAudioPortsInt24 W1 _ P data offset nevents s = Some (d, s')
    /\ overlay (tx_columns s (event_of_int24 (big_endian (Platform := P))) offset nevents) data d.
Proof.
  intros R Hs. destruct (sse2 (Platform := P)) eqn:S.
  - destruct (Hs S) as (B & H4 & Sc).
    destruct (encode_audio_sse_block P sse_event_of_int24 (event_of_int24 (big_endian (Platform := P))) s data offset nevents)
      as (d & s' & E & O & _); try done.
    exists d, s'. split; [done|]. eapply tx_columns_ext; [|exact O]. intros. rewrite B. apply sse_int24_eq.
  - destruct (encode_audio_scalar_block P sse_event_of_int24 (event_of_int24 (big_endian (Platform := P))) s data offset nevents)
      as (d & E & O); [done|by destruct (big_endian (Platform := P))|done|]. by exists d, s.
Qed.

Lemma overlay_column_lookup dim nb n (v : nat -> nat -> Z) d d' i j : overlay (columns dim 0 nb n v) d d' ->
  length d = (n * dim)%nat -> (i < nb <= dim)%nat -> (j < n)%nat -> d' !! (i + j * dim)%nat = Some (v i j).
Proof.
  intros [L O] Ld Hi Hj. rewrite O by nia. unfold columns. destruct (column_index dim i j ltac:(lia)) as [-> ->].
  rewrite decide_True by lia. by destruct (d !! _).
Qed.

(** C19. 24-bit audio goes through a stream unchanged: the block of events that one host encodes from the
    buffers of its ports, by SSE2 or scalar code, read from memory by a host of any byte order,
    puts the low 24 bits of every sample of the port at position [i] into the buffer of
    the receiving port at position [i], in order from the given offset on, and leaves the rest
    of these buffers alone. *)
Theorem int24_audio_roundtrip P1 P2 s data offset nevents c ps offset2 :
  tx_ready s data offset nevents -> encoder_ready P1 s nevents ->
  audio_ready (W := W2) c ps offset2 (Z.to_nat nevents) -> NoDup (port <$> m_audio_ports c) ->
  (m_nb_audio_ports c <= m_nb_audio_ports (tx_cache (child s)))%nat ->
  exists d s' ps', @encodeAudioPortsInt24 W1 _ P1 data offset nevents s = Some (d, s')
    /\ @decodeAudioPortsInt24 W2 _ P2
         (words_of_bytes (big_endian (Platform := P2)) (bytes_of_words (big_endian (Platform := P1)) d))
         (Z.to_nat (tx_dimension (child s))) c offset2 (Z.to_nat nevents) ps = Some ps'
    /\ forall i p, (i < m_nb_audio_ports c)%nat -> m_audio_ports c !! i = Some p -> buffer p && enabled p = true ->
       exists ws ws', port_words ps (port p) = Some ws /\ port_words ps' (port p) = Some ws'
         /\ received offset2 (Z.to_nat nevents) (fun j => tx_word s offset i j .& 0x00FFFFFF) ws ws'.
Proof.
  intros R Hs Rx Hd Hnb. destruct (encode_int24_columns P1 s data offset nevents R Hs) as (d & s' & E & O).
  destruct R as [_ Hp L Hn]. set (dim := Z.to_nat (tx_dimension (child s))) in *.
  set (wire := words_of_bytes (big_endian (Platform := P2)) (bytes_of_words (big_endian (Platform := P1)) d)).
  assert (length wire = (Z.to_nat nevents * dim)%nat) as Lw.
  { subst wire. rewrite words_of_bytes_of_words, length_fmap. destruct O as [-> _]. done. }
  destruct (decode_audio_decoded (W := W2) (@int24_of_event P2) wire dim offset2 (Z.to_nat nevents) c) with (ps := ps)
    as (ps' & E' & D & _); [lia|lia|done|done|].
  exists d, s', ps'. split_and!; [done|done|]. intros i p Hi Ep B.
  destruct (D i p ltac:(lia) Ep B) as (ws & ws' & Ew & Ew' & Rw). exists ws, ws'. split_and!; [done|done|].
  eapply overlay_ext; [|exact Rw]. intros k _. cbv beta. destruct (decide (offset2 <= k < offset2 + Z.to_nat nevents)%nat) as [K|]; [|done]. f_equal.
  subst wire. rewrite words_of_bytes_of_words, list_lookup_fmap.
  erewrite (overlay_column_lookup dim _ (Z.to_nat nevents)); [|exact O|done|lia|lia]. simpl. apply int24_through_wire.
Qed.
End roundtrip.

(** ** A concrete stream

    Six audio ports in frames of seven events, the third port disabled. *)
Definition example_audio_ports (direction : E_Direction) (w : nat -> nat -> Z) : list Port :=
  (fun i => mkPort (Z.of_nat i) "audio" (bool_decide (i = 2)%nat) 8 E_Audio direction
    (Some (w i <$> seq 0 8)) E_Initialized) <$> seq 0 6.

Definition example_infos : port_infos := (fun i => (Z.of_nat i, mkInfo AmdtpAudioPort (Z.of_nat i) 0 E_MBLA)) <$> seq 0 6.

Definition example_cache (ps : list Port) : port_cache :=
  default empty_cache ('(_, c) ← init_port_cache example_infos ps; update_port_cache ps c).

Definition example_samples (i j : nat) : Z := Z.of_nat (1000 * i + j).
Definition example_tx_ports : list Port := example_audio_ports E_Playback example_samples.
Definition example_rx_ports : list Port := example_audio_ports E_Capture (fun _ _ => 0).

Definition example_tx : sp_state AmdtpTransmitStreamProcessor Z :=
  mkState (mkSP (mkMachine ePS_Running ePS_Running 0 false) (mkTimes 0 0 false) (settings (StreamProcessor_new ePT_Transmit))
             TimestampedBuffer_new (Some (replicate 224 7)) (with_ports example_tx_ports PortManager_new))
    (mkTx None 7 8 2 0 true 1 8704 1 (example_cache example_tx_ports) example_infos) 0.

#[local] Existing Instance StreamStates.example_world.

Ltac audio_ready :=
  split; [reflexivity|]; apply Forall_forall; intros p Hp; vm_compute in Hp;
  repeat (apply elem_of_cons in Hp as [->|Hp];
    [split; intros B; vm_compute in B |- *; first [congruence | eexists; split; [reflexivity|vm_compute; lia]]|]);
  by apply not_elem_of_nil in Hp.

Lemma example_tx_ready n : (n = 8 \/ n = 6) -> tx_ready example_tx (replicate (Z.to_nat (n * 7)) 0) 0 n.
Proof. intros [->| ->]; (split; [audio_ready|vm_compute; lia|reflexivity|lia]). Qed.


Lemma int24_audio_roundtrip_witness :
  exists d s' ps', @encodeAudioPortsInt24 Z _ (host false true) (replicate 56 0) 0 8 example_tx = Some (d, s')
    /\ @decodeAudioPortsInt24 Z _ (host true false) (words_of_bytes true (bytes_of_words false d)) 7
         (example_cache example_rx_ports) 0 8 example_rx_ports = Some ps'.
Proof.
  destruct (int24_audio_roundtrip (host false true) (host true false) example_tx (replicate 56 0) 0 8
    (example_cache example_rx_ports) example_rx_ports 0) as (d & s' & ps' & E1 & E2 & _).
  - exact (example_tx_ready 8 (or_introl eq_refl)).
  - intros _. repeat split.
  - audio_ready.
  - apply NoDup_ListNoDup. vm_compute. repeat constructor; simpl; lia.
  - vm_compute. lia.
  - exists d, s', ps'. split; [exact E1|exact E2].
Defined.
