(* ===== verification/AmdtpStream.v ===== *)
(** * AMDTP streams

    The AMDTP processors as subclasses of the stream processor: they leave its state machine alone, a packet
    that the transmit processor sends carries its presentation time and its frames to the receive
    processor, and the data block counter counts the blocks sent. *)
From stdpp Require Import relations.
From S2P Require Import Prelude CycleTimer RingBuffer ByteSwap Ieee754 TimestampedBuffer FrameBuffer.
From S2P Require Import Ports StreamProcessor StreamStates Amdtp AmdtpReceive AmdtpTransmit.
#[local] Open Scope Z_scope.

(** ** The state machine *)

Section quiet.
Context {C W : Type}.

Lemma quiet_lift {A} (x : option A) : steady quiet (lift x : run (sp_state C W) A).
Proof. intros s a s'. unfold lift. destruct x; [|done]. by intros [= <- <-]. Qed.

Lemma quiet_child (f : C -> C) : steady quiet (modify (fun s : sp_state C W => mkState (sp s) (f (child s)) (world s))).
Proof. by intros s a s' [= <- <-]. Qed.
End quiet.

Lemma quiet_rx_on_child {W} f : steady quiet (rx_on_child f : run (sp_state _ W) unit).
Proof. apply quiet_child. Qed.
Lemma quiet_tx_on_child {W} f : steady quiet (tx_on_child f : run (sp_state _ W) unit).
Proof. apply quiet_child. Qed.
#[export] Hint Resolve quiet_lift quiet_rx_on_child quiet_tx_on_child : steady.

Lemma keeps_read n : keeps_transparency (fun b => '(ok, d, b) ← readFrames n b; Some ((ok, d), b)).
Proof.
  intros b a b'. unfold readFrames. destruct (m_transparent b) eqn:T; [by intros [= <- <-]|].
  destruct (m_event_buffer b) as [rb|]; [|done]. destruct (ffado_ringbuffer_read rb _) as [[rb' d] k].
  destruct (k <? _); by intros [= <- <-].
Qed.
#[export] Hint Resolve keeps_read : steady.

#[export] Instance rx_quiet {W} `{SPWorld W} `{Platform} : SPChildQuiet AmdtpReceiveStreamProcessor W.
Proof.
  split; intros; cbn; unfold call_not_allowed; steady.
  - unfold rx_prepareChild, rx_getSytInterval, rx_initPortCache, rx_set_cache, rx_ports, from_world. steady.
  - unfold rx_processPacketHeader, set_last_timestamp. steady.
  - unfold rx_processPacketData, get_last_timestamp. steady.
  - unfold rx_processReadBlock, rx_updatePortCache, rx_ports, rx_set_cache, rx_set_queue, rx_set_ports, from_world.
    steady.
Qed.

#[export] Instance tx_quiet {W} `{SPWorld W} `{Platform} `{Iec61883} : SPChildQuiet AmdtpTransmitStreamProcessor W.
Proof.
  split; intros; cbn; steady.
  - unfold tx_prepareChild, tx_getSytInterval, getFDF, tx_initPortCache, tx_set_cache, tx_ports, from_world. steady.
  - unfold tx_generatePacketHeader, begin_packet, data_packet, fillDataPacketHeader, advance_dbc, set_last_timestamp,
      from_buffer. steady.
  - unfold tx_generatePacketData. steady.
  - unfold tx_generateEmptyPacketHeader, no_data_packet, begin_packet, fillNoDataPacketHeader, advance_dbc. steady.
  - unfold tx_generateEmptyPacketData. steady.
  - unfold tx_generateSilentPacketHeader, no_data_packet, begin_packet, fillNoDataPacketHeader, advance_dbc. steady.
  - unfold tx_generateSilentPacketData. steady.
  - unfold tx_transmitSilenceBlock. steady.
  - unfold tx_processWriteBlock, tx_updatePortCache, tx_set_cache, encodeAudioPortsInt24, encodeAudioPortsFloat,
      encode_audio, prepare_scratch, tx_ports, from_world. steady; destruct (_ : eAudioDataType); cbv beta; steady.
Qed.

(** ** Headers in memory *)

(** The fields fit into their bits. *)
Definition cip_ok (h : iec61883_packet) : Prop :=
  0 <= eoh0 h < 4 /\ 0 <= sid h < 64 /\ 0 <= fn h < 4 /\ 0 <= qpc h < 8 /\ 0 <= sph h < 2 /\ 0 <= reserved h < 4
  /\ 0 <= eoh1 h < 4 /\ 0 <= fmt h < 64.

Lemma u16_bus be1 be2 y : 0 <= y < 2 ^ 16 ->
  match u16_store be1 (CondSwapToBus16 be1 y) with
  | [a; b] => u16_load be2 a b = CondSwapToBus16 be2 y
  | _ => False
  end.
Proof.
  intros Hy. assert (y = byte_at y 1 * 256 + byte_at y 0) as E.
  { unfold byte_at. change (2 ^ (8 * 0)) with 1. change (2 ^ (8 * 1)) with 256. zlia. }
  pose proof (byte_at_range y 0) as B0. pose proof (byte_at_range y 1) as B1. unfold byte_ok in *.
  assert (ByteSwap16 y = byte_at y 0 * 256 + byte_at y 1) as Es by done.
  assert (byte_at (ByteSwap16 y) 0 = byte_at y 1 /\ byte_at (ByteSwap16 y) 1 = byte_at y 0) as [S0 S1].
  { rewrite Es. revert B0 B1. generalize (byte_at y 0) (byte_at y 1). intros a b B0 B1. unfold byte_at.
    change (2 ^ (8 * 0)) with 1. change (2 ^ (8 * 1)) with 256. split; zlia. }
  destruct be1, be2; unfold u16_store, u16_load, CondSwapToBus16; rewrite ?S0, ?S1, ?Es; lia.
Qed.

(** A header written by one host, with the SYT field in bus order, and read by another. *)
Lemma load_store_cip be1 be2 h y data : (8 <= length data)%nat -> cip_ok h -> 0 <= y < 2 ^ 16 ->
  syt h = CondSwapToBus16 be1 y ->
  load_cip be2 (store_cip be1 h data) = Some (with_fdf_syt (fdf h) (CondSwapToBus16 be2 y) h)
  /\ length (store_cip be1 h data) = length data /\ drop 8 (store_cip be1 h data) = drop 8 data.
Proof.
  intros L Hok Hy Es. unfold store_cip. rewrite Es. pose proof (u16_bus be1 be2 y Hy) as U.
  destruct (u16_store be1 (CondSwapToBus16 be1 y)) as [|a [|b []]] eqn:Eu; try done.
  do 8 (destruct data as [|? data]; [simpl in L; lia|]). split; [|split]; [|by rewrite length_inserts|done].
  destruct Hok as (? & ? & ? & ? & ? & ? & ? & ?). destruct h as [h0 h1 h2 h3 h4 h5 h6 h7 h8 h9 h10 h11]. simpl in *.
  rewrite U. unfold with_fdf_syt. simpl. do 2 f_equal; zlia.
Qed.

(** All other fields come back whatever the SYT field is. *)
Lemma load_store_fields be1 be2 h data : (8 <= length data)%nat -> cip_ok h ->
  exists y, load_cip be2 (store_cip be1 h data) = Some (with_fdf_syt (fdf h) y h)
    /\ length (store_cip be1 h data) = length data /\ drop 8 (store_cip be1 h data) = drop 8 data.
Proof.
  intros L Hok. unfold store_cip. assert (exists a b, u16_store be1 (syt h) = [a; b]) as (a & b & Eu) by (destruct be1; by eexists _, _).
  rewrite Eu. do 8 (destruct data as [|? data]; [simpl in L; lia|]). exists (u16_load be2 a b).
  split; [|split]; [|by rewrite length_inserts|done].
  destruct Hok as (? & ? & ? & ? & ? & ? & ? & ?). destruct h as [h0 h1 h2 h3 h4 h5 h6 h7 h8 h9 h10 h11]. simpl in *.
  unfold with_fdf_syt. simpl. do 2 f_equal; zlia.
Qed.

Lemma load_cip_Some be data : (8 <= length data)%nat -> exists h, load_cip be data = Some h.
Proof. intros L. do 8 (destruct data as [|? data]; [simpl in L; lia|]). by eexists. Qed.

(** ** Packets sent *)

Section packets.
Context {W : Type} `{SPWorld W} `{Platform}.
Abbreviation S := (sp_state AmdtpTransmitStreamProcessor W).

(** The header of a packet of this processor, as another host reads it. *)
Definition sent_header (be : bool) (s : S) (f y : Z) : iec61883_packet :=
  with_fdf_syt f (CondSwapToBus16 be y) (header_start s (mkCip 0 0 0 0 0 0 0 0 0 0 0 0)).

(** A packet [p'] made from the memory of [p], with the header in place and the payload not yet written. *)
Definition is_packet (s : S) (p p' : packet) (f y len : Z) : Prop :=
  (forall be, load_cip be (p_data p') = Some (sent_header be s f y))
  /\ length (p_data p') = length (p_data p) /\ drop 8 (p_data p') = drop 8 (p_data p)
  /\ p_length p' = len /\ p_tag p' = IEC61883_TAG_WITH_CIP.

Lemma header_start_ok (s : S) h : cip_ok (header_start s h).
Proof.
  unfold cip_ok, header_start, IEC61883_FMT_AMDTP. simpl.
  pose proof (Z.mod_pos_bound (m_local_node_id (settings (sp s))) (2 ^ 6)). lia.
Qed.

Lemma begin_packet_ok (s : S) p : (8 <= length (p_data p))%nat ->
  exists p' y, begin_packet p s = Some (p', s) /\ length (p_data p') = length (p_data p) /\ drop 8 (p_data p') = drop 8 (p_data p)
    /\ p_length p' = p_length p /\ p_tag p' = IEC61883_TAG_WITH_CIP
    /\ exists f, load_cip big_endian (p_data p') = Some (with_fdf_syt f y (header_start s (mkCip 0 0 0 0 0 0 0 0 0 0 0 0))).
Proof.
  intros L. destruct (load_cip_Some big_endian _ L) as [h Eh].
  destruct (load_store_fields big_endian big_endian (header_start s h) (p_data p) L (header_start_ok s h)) as (y & E & L' & D).
  eexists _, y. split.
  - unfold begin_packet. run_step. unfold lift, on_header. rewrite Eh. reflexivity.
  - simpl. split_and!; try done. by exists (fdf h).
Qed.

(** Completing the header of a packet that was begun. *)
Lemma fill_header_ok (s : S) p p1 f y g y0 : 0 <= y < 2 ^ 16 -> (8 <= length (p_data p))%nat ->
  length (p_data p1) = length (p_data p) -> drop 8 (p_data p1) = drop 8 (p_data p) ->
  load_cip big_endian (p_data p1) = Some (with_fdf_syt g y0 (header_start s (mkCip 0 0 0 0 0 0 0 0 0 0 0 0))) ->
  exists p', on_header (with_fdf_syt f (CondSwapToBus16 big_endian y)) p1 = Some p'
    /\ (forall be, load_cip be (p_data p') = Some (sent_header be s f y))
    /\ length (p_data p') = length (p_data p) /\ drop 8 (p_data p') = drop 8 (p_data p) /\ p_tag p' = p_tag p1.
Proof.
  intros Hy L L1 D1 E1. unfold on_header. rewrite E1. simpl. eexists. split; [reflexivity|]. simpl.
  rewrite <- L1 in L. pose proof (header_start_ok s (mkCip 0 0 0 0 0 0 0 0 0 0 0 0)) as Hok.
  set (h := with_fdf_syt f _ (with_fdf_syt _ _ _)).
  pose proof (fun be => load_store_cip big_endian be h y (p_data p1) L Hok Hy eq_refl) as Q.
  split; [intros be; apply Q|]. destruct (Q false) as (_ & Q2 & Q3). split_and!; congruence.
Qed.

Lemma TO_SYT_range t : 0 <= TICKS_TO_SYT t < 2 ^ 16.
Proof.
  rewrite TO_SYT_eq. pose proof (Z.mod_pos_bound (TICKS_TO_CYCLES t) 16 ltac:(lia)).
  pose proof (Z.mod_pos_bound t 3072 ltac:(lia)). unfold TICKS_TO_OFFSET, TICKS_PER_CYCLE. lia.
Qed.

(** The processor after a packet of [n] data blocks. *)
Definition blocks_sent (n : Z) (s s' : S) : Prop :=
  m_dbc (child s') = u32 (m_dbc (child s) + n)
  /\ tx_syt_interval (child s') = tx_syt_interval (child s) /\ tx_dimension (child s') = tx_dimension (child s)
  /\ m_data_buffer (sp s') = m_data_buffer (sp s).

Lemma data_packet_ok (s : S) p p1 T r g y0 : (8 <= length (p_data p))%nat ->
  length (p_data p1) = length (p_data p) -> drop 8 (p_data p1) = drop 8 (p_data p) -> p_tag p1 = IEC61883_TAG_WITH_CIP ->
  load_cip big_endian (p_data p1) = Some (with_fdf_syt g y0 (header_start s (mkCip 0 0 0 0 0 0 0 0 0 0 0 0))) ->
  exists p' s', data_packet p1 T r s = Some ((r, p'), s')
    /\ is_packet s p p' (u8 (m_fdf (child s))) (TICKS_TO_SYT (u32 T)) (u32 (tx_syt_interval (child s) * 4 * tx_dimension (child s) + 8))
    /\ blocks_sent (tx_syt_interval (child s)) s s' /\ m_last_timestamp (times (sp s')) = T.
Proof.
  intros L L1 D1 T1 E1. pose proof (TO_SYT_range (u32 T)) as Hy.
  destruct (fill_header_ok s p p1 (u8 (m_fdf (child s))) (TICKS_TO_SYT (u32 T)) g y0 Hy L L1 D1 E1) as (p' & E' & A & B & D & Et).
  eexists _, _. split.
  - unfold data_packet, fillDataPacketHeader. erewrite run_bind_Some.
    2:{ run_step. cbv beta zeta. rewrite (wrapU_small 16 (TICKS_TO_SYT (u32 T))) by lia. unfold lift at 1.
        erewrite run_bind_Some; [|by rewrite E']. reflexivity. }
    reflexivity.
  - split; [|done]. unfold is_packet. simpl. rewrite Et. split_and!; done.
Qed.

Lemma no_data_packet_ok (s : S) p r : (8 <= length (p_data p))%nat ->
  let n := if m_send_nodata_payload (child s) then tx_syt_interval (child s) else 0 in
  exists p' s', no_data_packet p r s = Some ((r, p'), s')
    /\ is_packet s p p' IEC61883_FDF_NODATA 0xffff (u32 (n * 4 * tx_dimension (child s) + 8)) /\ blocks_sent n s s'.
Proof.
  intros L n. destruct (begin_packet_ok s p L) as (p1 & y & Eb & L1 & D1 & _ & T1 & f & E1).
  destruct (fill_header_ok s p p1 IEC61883_FDF_NODATA 0xffff f y ltac:(lia) L L1 D1 E1) as (p' & E' & A & B & D & Et).
  assert (CondSwapToBus16 big_endian 0xffff = 0xffff) as Ec by (by destruct big_endian). rewrite Ec in E'.
  unfold no_data_packet. run_step with Eb. unfold fillNoDataPacketHeader. subst n.
  destruct (m_send_nodata_payload (child s)) eqn:Np; eexists _, _; (split; [erewrite run_bind_Some;
    [|run_step; erewrite run_bind_Some; [|unfold lift; by rewrite E']; cbv beta; rewrite Np; reflexivity]; reflexivity|]);
    (split; [|done]); unfold is_packet; simpl; rewrite Et; split_and!; try done.
  f_equal. lia.
Qed.

(** *** Which packet goes into a cycle *)

Definition presentation_time (s : S) : Z := u64 (Z_of_float (getBufferHeadTimestamp (m_data_buffer (sp s))).1).
Definition cycles_until (T pkt_ctr : Z) : Z := diffCycles (u32 (TICKS_TO_CYCLES T)) (CYCLE_TIMER_GET_CYCLES pkt_ctr).
Definition transmit_at_time (s : S) : Z := substractTicks (presentation_time s) (m_transmit_transfer_delay (child s)).

(** There are frames for a packet, and it is time to send them, or late but not too late. *)
Definition time_to_send (s : S) (pkt_ctr : Z) : Prop :=
  i32 (tx_syt_interval (child s)) <= m_framecounter (m_data_buffer (sp s))
  /\ (cycles_until (transmit_at_time s) pkt_ctr < 0 /\ m_min_cycles_before_presentation (child s) <= cycles_until (presentation_time s) pkt_ctr
      \/ 0 <= cycles_until (transmit_at_time s) pkt_ctr <= m_max_cycles_to_transmit_early (child s)).

Definition is_data (r : eChildReturnValue) : bool := match r with eCRV_Packet | eCRV_Defer => true | _ => false end.

Lemma generatePacketHeader_cases (s : S) p pkt_ctr : (8 <= length (p_data p))%nat ->
  exists r p' s', tx_generatePacketHeader p pkt_ctr s = Some ((r, p'), s')
    /\ (if is_data r then
           time_to_send s pkt_ctr
           /\ is_packet s p p' (u8 (m_fdf (child s))) (TICKS_TO_SYT (u32 (presentation_time s)))
                (u32 (tx_syt_interval (child s) * 4 * tx_dimension (child s) + 8))
           /\ blocks_sent (tx_syt_interval (child s)) s s' /\ m_last_timestamp (times (sp s')) = presentation_time s
         else s' = s /\ ~ time_to_send s pkt_ctr /\ length (p_data p') = length (p_data p)).
Proof.
  intros L. destruct (begin_packet_ok s p L) as (p1 & y & Eb & L1 & D1 & _ & T1 & g & E1).
  pose proof (fun r => data_packet_ok s p p1 (presentation_time s) r g y L L1 D1 T1 E1) as Q.
  unfold tx_generatePacketHeader. run_step with Eb. run_step.
  rewrite (surjective_pairing (getBufferHeadTimestamp (m_data_buffer (sp s)))). run_step. cbv zeta beta.
  change (u64 (Z_of_float (getBufferHeadTimestamp (m_data_buffer (sp s))).1)) with (presentation_time s).
  unfold time_to_send, transmit_at_time, cycles_until.
  set (cut := diffCycles (u32 (TICKS_TO_CYCLES (substractTicks _ _))) _).
  set (cup := diffCycles (u32 (TICKS_TO_CYCLES (presentation_time s))) _).
  change (getBufferHeadTimestamp (m_data_buffer (sp s))).2 with (m_framecounter (m_data_buffer (sp s))).
  set (fc := m_framecounter _). set (n := i32 _). set (mi := m_min_cycles_before_presentation _).
  set (ma := m_max_cycles_to_transmit_early _).
  destruct (Z.ltb_spec fc n) as [Hf|Hf].
  { destruct (cup <=? mi); eexists _, _, s; (split; [reflexivity|]); (split_and!; [done|lia|done]). }
  destruct (Z.ltb_spec cut 0) as [Hc|Hc].
  - destruct (Z.leb_spec mi cup) as [Hm|Hm]; [|eexists _, _, s; (split; [reflexivity|]); (split_and!; [done|lia|done])].
    destruct (Q (if fc <? i32 (u32 (2 * tx_syt_interval (child s))) then eCRV_Defer else eCRV_Packet)) as (p' & s' & E & A).
    eexists _, p', s'. split; [exact E|]. destruct (_ <? _); (split; [lia|exact A]).
  - destruct (Z.leb_spec cut ma) as [Hm|Hm]; [|eexists _, _, s; (split; [reflexivity|]); (split_and!; [done|lia|done])].
    destruct (Q eCRV_Packet) as (p' & s' & E & A).
    eexists _, p', s'. split; [exact E|]. split; [lia|exact A].
Qed.
End packets.

(** ** Time *)

(** [T] lies [d] ticks after the start of the cycle of [ctr]. *)
Definition ticks_after (ctr d T : Z) : Prop := T = (cycle_start ctr + d) mod MAX_TICKS.

Lemma ticks_after_cycle ctr d T : valid_ctr ctr -> ticks_after ctr d T ->
  TICKS_TO_CYCLES T = (CYCLE_TIMER_GET_CYCLES ctr + d / TICKS_PER_CYCLE) mod CYCLES_PER_SECOND.
Proof.
  intros Hc ->. pose proof (ctr_fields ctr Hc) as (S & C & _). unfold cycle_start in *.
  revert S C. generalize (CYCLE_TIMER_GET_SECS ctr) (CYCLE_TIMER_GET_CYCLES ctr). intros sec cyc Hs Hcy.
  unfold MAX_TICKS, TICKS_TO_CYCLES, TICKS_PER_SECOND, TICKS_PER_CYCLE, CYCLES_PER_SECOND. zlia.
Qed.

Lemma diffCycles_displacement c k : valid_cycle c -> -4000 < k < 4000 -> diffCycles ((c + k) mod CYCLES_PER_SECOND) c = k.
Proof.
  intros Hc Hk. unfold valid_cycle, CYCLES_PER_SECOND in *. rewrite diffCycles_cases by (unfold valid_cycle, CYCLES_PER_SECOND; zlia).
  zcases; zlia.
Qed.

(** The cycles between a packet and a time less than half a second away. *)
Lemma cycles_until_eq ctr d T : valid_ctr ctr -> ticks_after ctr d T -> -3999 * 3072 <= d < 3999 * 3072 ->
  cycles_until T ctr = d / 3072.
Proof.
  intros Hc HT Hd. unfold cycles_until. rewrite (ticks_after_cycle ctr d T Hc HT). pose proof (ctr_fields ctr Hc) as (_ & C & _).
  rewrite wrapU_small by (unfold CYCLES_PER_SECOND; zlia). apply diffCycles_displacement; [done|].
  unfold TICKS_PER_CYCLE. zlia.
Qed.

Lemma ticks_after_substract ctr d T y : valid_ctr ctr -> valid_ticks y -> ticks_after ctr d T -> ticks_after ctr (d - y) (substractTicks T y).
Proof.
  intros Hc Hy ->. unfold ticks_after. rewrite substractTicks_mod by (done || apply mod_valid).
  rewrite Zminus_mod_idemp_l. f_equal. lia.
Qed.

(** Settings under which every packet is sent less than sixteen cycles before its presentation time;
    the default settings are among them. *)
Definition window_settings (t : AmdtpTransmitStreamProcessor) : Prop :=
  0 <= m_min_cycles_before_presentation t /\ 0 <= m_max_cycles_to_transmit_early t /\ 0 <= m_transmit_transfer_delay t
  /\ (m_max_cycles_to_transmit_early t + 1) * 3072 + m_transmit_transfer_delay t <= 16 * 3072.

Example default_window n : window_settings (AmdtpTransmitStreamProcessor_new n).
Proof. unfold window_settings. simpl. unfold AMDTP_MIN_CYCLES_BEFORE_PRESENTATION, AMDTP_MAX_CYCLES_TO_TRANSMIT_EARLY,
  AMDTP_TRANSMIT_TRANSFER_DELAY. lia. Qed.

(** What a device accepts: at most 255 events per frame, a valid frequency code and packets of at most 32 frames. *)
Definition format_ok (t : AmdtpTransmitStreamProcessor) : Prop :=
  1 <= tx_dimension t <= 255 /\ 0 <= m_fdf t <= 6 /\ 0 <= tx_syt_interval t <= 32.

Section presentation.
Context {W1 W2 : Type} `{SPWorld W1} `{SPWorld W2}.

Lemma window_of_cycles ctr d T delay mi ma : valid_ctr ctr -> ticks_after ctr d T -> -3980 * 3072 <= d < 3980 * 3072 ->
  0 <= mi -> 0 <= ma -> 0 <= delay -> (ma + 1) * 3072 + delay <= 16 * 3072 ->
  cycles_until (substractTicks T delay) ctr < 0 /\ mi <= cycles_until T ctr
  \/ 0 <= cycles_until (substractTicks T delay) ctr <= ma -> syt_window T ctr.
Proof.
  intros Hc HT Hd Mi Ma De Hw. rewrite (cycles_until_eq ctr d T) by (done || lia).
  rewrite (cycles_until_eq ctr (d - delay));
    [|done|apply ticks_after_substract; [done|unfold valid_ticks, MAX_TICKS, TICKS_PER_SECOND; lia|done]|lia].
  intros Hs. assert (0 <= d < 16 * 3072) as Hd2 by (Z.to_euclidean_division_equations; lia).
  unfold ticks_after in HT. split; [rewrite HT; apply mod_valid|]. rewrite HT, Zminus_mod_idemp_l.
  replace (cycle_start ctr + d - cycle_start ctr) with d by lia.
  rewrite Z.mod_small; unfold MAX_TICKS, TICKS_PER_SECOND, TICKS_PER_CYCLE in *; lia.
Qed.

Lemma send_window (s : sp_state AmdtpTransmitStreamProcessor W1) ctr d : valid_ctr ctr ->
  ticks_after ctr d (presentation_time s) -> -3980 * 3072 <= d < 3980 * 3072 -> window_settings (child s) ->
  time_to_send s ctr -> syt_window (presentation_time s) ctr.
Proof.
  intros Hc HT Hd (Mi & Ma & De & Hw) [_ Hs]. unfold transmit_at_time in Hs. exact (window_of_cycles ctr d _ _ _ _ Hc HT Hd Mi Ma De Hw Hs).
Qed.

Lemma header_accepted (P2 : Platform) (r : sp_state AmdtpReceiveStreamProcessor W2) data len tag sy ctr h y :
  load_cip (big_endian (Platform := P2)) data = Some h -> syt h = CondSwapToBus16 (big_endian (Platform := P2)) y ->
  0 <= y < 0xFFFF -> fdf h <> 0xFF -> fmt h = 0x10 -> 0 < dbs h -> 8 <= len ->
  exists r', rx_processPacketHeader data len tag sy ctr r = Some (eCRV_OK, r')
    /\ m_last_timestamp (times (sp r')) = sytRecvToFullTicks2 y ctr /\ m_data_buffer (sp r') = m_data_buffer (sp r).
Proof.
  intros Eh Es Hy Hf Hm Hd Hl. eexists. split; [|split].
  - unfold rx_processPacketHeader. erewrite run_bind_Some; [|unfold lift; by rewrite Eh]. cbv zeta.
    assert (syt h <> 0xFFFF) as Hne.
    { rewrite Es. unfold CondSwapToBus16. destruct big_endian; [lia|]. intros E.
      apply (f_equal ByteSwap16) in E. rewrite ByteSwap16_involutive in E by lia. change (ByteSwap16 0xFFFF) with 0xFFFF in E. lia. }
    change (2 * 4) with 8. rewrite (proj2 (Z.eqb_neq _ _) Hne), (proj2 (Z.eqb_neq _ _) Hf), (proj2 (Z.eqb_eq _ _) Hm), (proj2 (Z.ltb_lt _ _) Hd),
      (proj2 (Z.leb_le _ _) Hl). cbn [negb andb]. run_step. reflexivity.
  - simpl. rewrite Es. f_equal. unfold CondSwapFromBus16, CondSwapToBus16. destruct big_endian; [done|].
    apply ByteSwap16_involutive. lia.
  - done.
Qed.

Lemma TO_SYT_not_FFFF t : TICKS_TO_SYT t < 0xFFFF.
Proof.
  rewrite TO_SYT_eq. pose proof (Z.mod_pos_bound (TICKS_TO_CYCLES t) 16 ltac:(lia)).
  pose proof (Z.mod_pos_bound t 3072 ltac:(lia)). unfold TICKS_TO_OFFSET, TICKS_PER_CYCLE. lia.
Qed.

Lemma header_arrives (P1 P2 : Platform) (s : sp_state AmdtpTransmitStreamProcessor W1)
    (r : sp_state AmdtpReceiveStreamProcessor W2) p ctr d :
  (8 <= length (p_data p))%nat -> valid_ctr ctr -> format_ok (child s) -> window_settings (child s) ->
  ticks_after ctr d (presentation_time s) -> -3980 * 3072 <= d < 3980 * 3072 -> time_to_send s ctr ->
  exists res p' s' r', @tx_generatePacketHeader W1 P1 p ctr s = Some ((res, p'), s')
    /\ is_data res = true
    /\ is_packet s p p' (m_fdf (child s)) (TICKS_TO_SYT (presentation_time s))
        (tx_syt_interval (child s) * 4 * tx_dimension (child s) + 8)
    /\ blocks_sent (tx_syt_interval (child s)) s s'
    /\ @rx_processPacketHeader W2 P2 (p_data p') (p_length p') (p_tag p') (p_sy p') ctr r = Some (eCRV_OK, r')
    /\ m_last_timestamp (times (sp r')) = presentation_time s /\ m_data_buffer (sp r') = m_data_buffer (sp r).
Proof.
  intros L Hc (Hdim & Hfdf & Hn) Hw HT Hd Hs. pose proof (send_window s ctr d Hc HT Hd Hw Hs) as Hwin.
  destruct (generatePacketHeader_cases (H0 := P1) s p ctr L) as (res & p' & s' & E & C).
  destruct (is_data res) eqn:D; [|by destruct C as (_ & C & _)]. destruct C as (_ & Hp & Hb & _).
  assert (valid_ticks (presentation_time s)) as HV by apply Hwin. unfold valid_ticks, MAX_TICKS, TICKS_PER_SECOND in HV.
  rewrite (wrapU_small 32 (presentation_time s)), (wrapU_small 8 (m_fdf _)), (wrapU_small 32 (_ + 8)) in Hp by nia.
  destruct Hp as (A & Hp). destruct Hp as (B1 & B2 & Al & B3).
  destruct (header_accepted P2 r (p_data p') (p_length p') (p_tag p') (p_sy p') ctr _ _ (A _) eq_refl) as (r' & E2 & T2 & B').
  - pose proof (TO_SYT_range (presentation_time s)). pose proof (TO_SYT_not_FFFF (presentation_time s)). lia.
  - simpl. lia.
  - done.
  - simpl. rewrite wrapU_small by lia. lia.
  - rewrite Al. nia.
  - exists res, p', s', r'. split_and!; try done. rewrite T2. by apply recv_ticks2_in_window.
Qed.

(** *** Payload *)

Lemma load_cip_front be data d : (8 <= length data)%nat -> load_cip be (list_inserts 8 d data) = load_cip be data.
Proof. intros L. do 8 (destruct data as [|? data]; [simpl in L; lia|]). by rewrite !list_inserts_cons. Qed.

Lemma drop_inserts_front (d data : list Z) : (8 + length d <= length data)%nat ->
  take (length d) (drop 8 (list_inserts 8 d data)) = d.
Proof.
  intros L. apply list_eq. intros i. destruct (decide (i < length d)%nat).
  - rewrite lookup_take_lt, lookup_drop, list_lookup_inserts by lia. f_equal. lia.
  - rewrite !lookup_ge_None_2; [done|lia|rewrite length_take; lia].
Qed.

(** A buffer whose ring holds frames of [dim] quadlets. *)
Definition holds (b : TimestampedBuffer) (dim : Z) (rb : ffado_ringbuffer_t) : Prop :=
  m_transparent b = false /\ m_event_size (sizes b) = 4 /\ m_events_per_frame (sizes b) = dim
  /\ m_event_buffer b = Some rb /\ rb_wf rb.

Lemma payload_bytes b n dim : 0 <= n <= 32 -> 1 <= dim <= 255 -> m_event_size (sizes b) = 4 -> m_events_per_frame (sizes b) = dim ->
  frame_bytes b n = n * (4 * dim).
Proof.
  intros Hn Hd Es Ee. assert (n * (4 * dim) <= 32 * (4 * 255)) by (apply Z.mul_le_mono_nonneg; lia).
  rewrite frame_bytes_eq; rewrite ?Es, ?Ee; lia.
Qed.

Lemma payload_sent (P1 : Platform) (s : sp_state AmdtpTransmitStreamProcessor W1) p rb n dim :
  tx_syt_interval (child s) = n -> 0 <= n <= 32 -> 1 <= dim <= 255 -> holds (m_data_buffer (sp s)) dim rb ->
  n * (4 * dim) <= rb_fill rb -> 8 + n * (4 * dim) <= zlength (p_data p) ->
  exists p' s' rb', @tx_generatePacketData W1 p s = Some ((eCRV_OK, p'), s')
    /\ p_data p' = list_inserts 8 (take (Z.to_nat (n * (4 * dim))) (rb_contents rb)) (p_data p) /\ p_length p' = p_length p
    /\ holds (m_data_buffer (sp s')) dim rb' /\ rb_contents rb' = drop (Z.to_nat (n * (4 * dim))) (rb_contents rb).
Proof.
  intros En Hn Hd (Ht & Es & Ee & Eb & Wf) Hf Hl. set (b := m_data_buffer (sp s)) in *.
  assert (frame_bytes b n = n * (4 * dim)) as Ef by (apply payload_bytes; done || lia).
  pose proof (read_refines rb (n * (4 * dim)) Wf ltac:(nia)) as R.
  destruct (ffado_ringbuffer_read rb (n * (4 * dim))) as [[rb' d] k] eqn:Er. destruct R as (Wf' & _ & Q).
  unfold queue_read in Q. rewrite (zlength_contents _ Wf), Z.min_l in Q by lia. injection Q as Q1 Q2 Q3.
  assert (zlength d = n * (4 * dim)) as Ld.
  { rewrite Q2. pose proof (zlength_contents _ Wf). unfold zlength in *. rewrite length_take. lia. }
  eexists _, _, rb'. split.
  - unfold tx_generatePacketData. run_step. erewrite run_bind_Some.
    2:{ unfold call_buffer. cbv zeta. fold b. rewrite En. unfold readFrames. rewrite Ht, Eb, Ef, Er, Q3, Z.ltb_irrefl. reflexivity. }
    cbv beta iota. erewrite run_bind_Some; [reflexivity|]. unfold assert_that. rewrite Ld, (proj2 (Z.leb_le _ _)) by lia. reflexivity.
  - simpl. rewrite <- Q2. split_and!; done.
Qed.

Lemma payload_received (P2 : Platform) (r : sp_state AmdtpReceiveStreamProcessor W2) data len h rb n dim :
  load_cip (big_endian (Platform := P2)) data = Some h -> rx_nevents h len = Some n -> 0 < n <= 32 -> 1 <= dim <= 255 ->
  holds (m_data_buffer (sp r)) dim rb -> rb_fill rb + n * (4 * dim) < rb_size rb -> 8 + n * (4 * dim) <= zlength data ->
  m_update_period (clock (m_data_buffer (sp r))) = n ->
  dlt (d_of_Z (m_last_timestamp (times (sp r)))) (m_wrap_at (clock (m_data_buffer (sp r)))) = true ->
  dge (d_of_Z (m_last_timestamp (times (sp r)))) (S754_zero false) = true ->
  exists r' rb', @rx_processPacketData W2 P2 data len r = Some (eCRV_OK, r')
    /\ holds (m_data_buffer (sp r')) dim rb'
    /\ rb_contents rb' = rb_contents rb ++ take (Z.to_nat (n * (4 * dim))) (drop 8 data).
Proof.
  intros Eh Ev Hn Hd (Ht & Es & Ee & Eb & Wf) Hf Hl Hu H1 H2. set (b := m_data_buffer (sp r)) in *.
  assert (frame_bytes b n = n * (4 * dim)) as Ef by (apply payload_bytes; done || lia).
  destruct (write_prefix rb (drop 8 data) (n * (4 * dim)) Wf) as (rb' & Er & Wf' & _ & Q); [|done|].
  { unfold zlength in *. rewrite length_drop. nia. }
  destruct (incrementFrameCounter_accepts n (d_of_Z (m_last_timestamp (times (sp r)))) (with_ring rb' b)) as [k Ei]; [done..|].
  eexists _, rb'. split.
  - unfold rx_processPacketData. erewrite run_bind_Some; [|unfold lift; by rewrite Eh].
    erewrite run_bind_Some; [|unfold lift; by rewrite Ev].
    erewrite run_bind_Some; [|unfold assert_that; rewrite (proj2 (Z.eqb_neq n 0)), andb_false_r by lia; reflexivity].
    run_step. cbv beta. erewrite run_bind_Some.
    2:{ unfold call_buffer. cbv zeta. fold b. unfold writeFrames. rewrite Ht, Ef. unfold ring_write. rewrite Eb, Er.
        cbn [mbind option_bind]. rewrite Z.ltb_irrefl, Ei. reflexivity. }
    reflexivity.
  - simpl. split; [|done]. split_and!; done.
Qed.

(** The codes of the FDF field lead the receiver to the number of frames. *)
Lemma nevents_of_rate `{Iec61883} rate h len : standard_codes -> syt_interval_of_rate rate <> 0 -> fdf h = fdf_of_rate rate ->
  rx_nevents h len = Some (syt_interval_of_rate rate) /\ 0 <= fdf_of_rate rate <= 6 /\ 0 < syt_interval_of_rate rate <= 32.
Proof.
  intros [= C1 C2 C3 C4 C5 C6 C7] Hr Hf. unfold rx_nevents. rewrite Hf. clear Hf.
  unfold syt_interval_of_rate, fdf_of_rate in *. rewrite C1, C2, C3, C4, C5, C6, C7. clear C1 C2 C3 C4 C5 C6 C7.
  assert (rate ∈ [32000; 44100; 48000; 88200; 96000; 176400; 192000]) as B.
  { revert Hr. repeat (case_bool_decide as B; [set_unfold in B; set_unfold; tauto|clear B]). intros; congruence. }
  clear Hr. set_unfold in B. destruct_or? B; try done; subst; repeat split; vm_compute; congruence.
Qed.

(** The transmit processor after [prepareChild] at a supported rate. *)
Definition prepared_at `{Iec61883} (rate : Z) (t : AmdtpTransmitStreamProcessor) : Prop :=
  tx_syt_interval t = syt_interval_of_rate rate /\ m_fdf t = fdf_of_rate rate /\ syt_interval_of_rate rate <> 0
  /\ 1 <= tx_dimension t <= 255.

(** A receiver that can take a packet of [n] frames with the timestamp [T]. *)
Definition can_receive (r : sp_state AmdtpReceiveStreamProcessor W2) (dim n T : Z) (rb : ffado_ringbuffer_t) : Prop :=
  let b := m_data_buffer (sp r) in
  holds b dim rb /\ rb_fill rb + n * (4 * dim) < rb_size rb /\ m_update_period (clock b) = n
  /\ dlt (d_of_Z T) (m_wrap_at (clock b)) = true /\ dge (d_of_Z T) (S754_zero false) = true.

(** C2. A packet arrives: when it is time to send the frames at the head of the transmit buffer, the transmit
    processor makes a packet of them, and a receive processor on a host of any byte order that
    gets this packet in the same cycle sets its timestamp to exactly the presentation time of the first
    frame, in ticks of the 128 second clock and across all wraps, and appends to its buffer exactly the
    frames that leave the transmit buffer.  The presentation time has to lie within almost half a second
    of the cycle, and the settings have to keep the packet within sixteen cycles of it, as the
    default settings do; the sampling frequency codes are those of IEC 61883-6. *)
Theorem packet_arrives (P1 P2 : Platform) `{Iec61883} rate (s : sp_state AmdtpTransmitStreamProcessor W1)
    (r : sp_state AmdtpReceiveStreamProcessor W2) p ctr d rb1 rb2 :
  let n := syt_interval_of_rate rate in let dim := tx_dimension (child s) in
  standard_codes -> prepared_at rate (child s) -> window_settings (child s) -> valid_ctr ctr ->
  ticks_after ctr d (presentation_time s) -> -3980 * 3072 <= d < 3980 * 3072 -> time_to_send s ctr ->
  8 + n * (4 * dim) <= zlength (p_data p) ->
  holds (m_data_buffer (sp s)) dim rb1 -> n * (4 * dim) <= rb_fill rb1 ->
  can_receive r dim n (presentation_time s) rb2 ->
  exists res p1 s1 p2 s2 r1 r2 rb1' rb2',
    @tx_generatePacketHeader W1 P1 p ctr s = Some ((res, p1), s1) /\ (res = eCRV_Packet \/ res = eCRV_Defer)
    /\ @tx_generatePacketData W1 p1 s1 = Some ((eCRV_OK, p2), s2)
    /\ @rx_processPacketHeader W2 P2 (p_data p2) (p_length p2) (p_tag p2) (p_sy p2) ctr r = Some (eCRV_OK, r1)
    /\ @rx_processPacketData W2 P2 (p_data p2) (p_length p2) r1 = Some (eCRV_OK, r2)
    /\ m_last_timestamp (times (sp r1)) = presentation_time s
    /\ holds (m_data_buffer (sp s2)) dim rb1' /\ holds (m_data_buffer (sp r2)) dim rb2'
    /\ rb_contents rb1 = take (Z.to_nat (n * (4 * dim))) (rb_contents rb1) ++ rb_contents rb1'
    /\ rb_contents rb2' = rb_contents rb2 ++ take (Z.to_nat (n * (4 * dim))) (rb_contents rb1).
Proof.
  intros n dim Hstd (Ei & Ef & Hr & Hdim) Hw Hc HT Hd Hs Hl Htx Hf1 (Hrx & Hf2 & Hu & Hlt & Hge).
  assert (0 < n <= 32 /\ 0 <= m_fdf (child s) <= 6) as [Hn Hfdf].
  { destruct (nevents_of_rate rate (with_fdf_syt (fdf_of_rate rate) 0 (mkCip 0 0 0 0 0 0 0 0 0 0 0 0)) 0 Hstd Hr eq_refl)
      as (_ & ? & ?). rewrite Ef. lia. }
  destruct (header_arrives P1 P2 s r p ctr d) as (res & p1 & s1 & _ & E1 & Hres & Hp & Hb & _); try done.
  { unfold zlength in Hl. lia. } { split; [done|]. split; [done|]. rewrite Ei. fold n. lia. }
  destruct Hb as (_ & Ei1 & Ed1 & Eb1). rewrite Ei in Ei1, Hp. fold n in Ei1, Hp. fold dim in Hp.
  destruct Hp as (A & L1 & _ & Al & At). rewrite <- Eb1 in Htx.
  destruct (payload_sent P1 s1 p1 rb1 n dim) as (p2 & s2 & rb1' & E2 & Ep2 & El2 & Hb1 & C1); [done|lia|done..| |].
  { unfold zlength in *. by rewrite L1. }
  pose proof (zlength_contents rb1 ltac:(apply Htx)) as Z1. set (fr := take (Z.to_nat (n * (4 * dim))) (rb_contents rb1)) in *.
  assert (length fr = Z.to_nat (n * (4 * dim))) as Lf by (subst fr; unfold zlength in *; rewrite length_take; lia).
  assert (8 <= length (p_data p1))%nat as L8 by (unfold zlength in Hl; lia).
  destruct (header_accepted P2 r (p_data p2) (p_length p2) (p_tag p2) (p_sy p2) ctr
    (sent_header (big_endian (Platform := P2)) s (m_fdf (child s)) (TICKS_TO_SYT (presentation_time s))) (TICKS_TO_SYT (presentation_time s)))
    as (r1 & E3 & T3 & B3).
  - rewrite Ep2, load_cip_front by done. apply A.
  - done.
  - pose proof (TO_SYT_range (presentation_time s)). pose proof (TO_SYT_not_FFFF (presentation_time s)). lia.
  - simpl. lia.
  - done.
  - simpl. rewrite wrapU_small by lia. lia.
  - rewrite El2, Al. nia.
  - assert (m_last_timestamp (times (sp r1)) = presentation_time s) as T4.
    { rewrite T3. apply recv_ticks2_in_window; [done|]. by eapply send_window. }
    destruct (payload_received P2 r1 (p_data p2) (p_length p2)
      (sent_header (big_endian (Platform := P2)) s (m_fdf (child s)) (TICKS_TO_SYT (presentation_time s))) rb2 n dim)
      as (r2 & rb2' & E4 & Hb2 & C2); rewrite ?T4, ?B3; try done.
    + rewrite Ep2, load_cip_front by done. apply A.
    + apply (nevents_of_rate rate); done.
    + rewrite Ep2. unfold zlength in *. rewrite length_inserts. lia.
    + exists res, p1, s1, p2, s2, r1, r2, rb1', rb2'. split_and!; try done; [by destruct res; auto|..].
      * rewrite C1. subst fr. by rewrite take_drop.
      * rewrite C2, Ep2, <- Lf, drop_inserts_front; [done|]. unfold zlength in Hl. lia.
Qed.
End presentation.

(** ** The data block counter *)

(** *** What keeps the object of the subclass *)

Section kept.
Context {C W : Type} `{SPWorld W} `{SPChild C W}.
Abbreviation M := (run (sp_state C W)).

(** Nothing changes in the subclass. *)
Definition kept (s s' : sp_state C W) : Prop := child s' = child s.
#[export] Instance kept_preorder : PreOrder kept.
Proof. split; [done|]. intros s1 s2 s3 A B. unfold kept in *. congruence. Qed.

Lemma kept_sp f : steady kept (on_sp f : M unit).
Proof. by intros s a s' [= <- <-]. Qed.
Lemma kept_world f : steady kept (on_world f : M unit).
Proof. by intros s a s' [= <- <-]. Qed.
Lemma kept_call_world {A} (f : st W A) : steady kept (call_world f : M A).
Proof. intros s a s'. unfold call_world. destruct (f (world s)). by intros [= <- <-]. Qed.
Lemma kept_call_ports {A} (f : PortManager -> A * PortManager) : steady kept (call_ports f : M A).
Proof. intros s a s'. unfold call_ports. destruct (f _). by intros [= <- <-]. Qed.
Lemma kept_call_buffer {A} (f : TimestampedBuffer -> option (A * TimestampedBuffer)) : steady kept (call_buffer f : M A).
Proof. intros s a s'. unfold call_buffer. destruct (f _) as [[]|]; [|done]. by intros [= <- <-]. Qed.
Lemma kept_lift {A} (x : option A) : steady kept (lift x : M A).
Proof. intros s a s'. unfold lift. destruct x; [|done]. by intros [= <- <-]. Qed.
#[local] Hint Resolve kept_sp kept_world kept_call_world kept_call_ports kept_call_buffer kept_lift : steady.

(** The state machine leaves the subclass alone where the silence of the prefill does. *)
Lemma kept_updateState : (forall d n o, steady kept (transmitSilenceBlock d n o : M _)) -> steady kept (updateState : M bool).
Proof.
  intros Hs. assert (forall n, steady kept (transferSilence n : M bool)) as Ht by (intros n; unfold transferSilence; steady).
  assert (forall a b, from_option (steady kept) True (transition a b : option (M bool))) as Hd.
  { intros a b. destruct a, b; try exact I; simpl; unfold doStop, doWaitForRunningStream, doDryRunning, doWaitForStreamEnable,
      doRunning, doWaitForStreamDisable, setupDataBuffer, buffered_frames, from_world, getType, set_correct_last_timestamp,
      set_state, set_in_xrun, set_local_node_id, set_ticks_per_frame, set_last_timestamp, set_last_timestamp2, get_state,
      get_last_timestamp, on_machine, on_times, on_settings, on_buffer, SIGNAL_ACTIVITY_ALL; steady. }
  unfold updateState, get_state, get_next_state, SIGNAL_ACTIVITY_ALL. apply steady_bind; [apply _|steady|intros x].
  apply steady_bind; [apply _|steady|intros y]. apply steady_decide; [steady|].
  apply steady_bind; [apply _| |intros; steady]. specialize (Hd y x). destruct (transition y x); [exact Hd|steady].
Qed.
End kept.

#[export] Hint Resolve kept_sp kept_world kept_call_world kept_call_ports kept_call_buffer kept_lift : steady.

(** *** Histories of packets *)

Section counter.
Context {W : Type} `{SPWorld W} `{Platform} `{Iec61883}.
Abbreviation S := (sp_state AmdtpTransmitStreamProcessor W).
Abbreviation state_of s := (m_state (machine (sp s))).

(** What a device sees of a packet: its data block counter, the number of data blocks in it, and whether it has
    no time of presentation, as a packet without data has none. *)
Definition dbc_of (p : packet) : Z := match load_cip true (p_data p) with Some h => dbc h | None => -1 end.
Definition blocks_of (dim : Z) (p : packet) : Z := (p_length p - 8) / (4 * dim).
Definition no_data (p : packet) : bool :=
  match load_cip true (p_data p) with Some h => syt h =? 0xffff | None => false end.

(** What happens to the packets: one is sent, or the header of a data packet has been made and the packet is not
    sent, because its frames are not there or the state could not be changed. *)
Inductive tx_event := Sent (p : packet) | Discarded.

Definition is_error (d : raw1394_iso_disposition) : bool := match d with RAW1394_ISO_ERROR => true | _ => false end.

(** The call makes the header of a data packet. *)
Definition makes_data_header (p : packet) (pkt_ctr dropped_cycles : Z) (s : S) : bool :=
  negb (pkt_ctr =? 0xFFFFFFFF) && negb (0 <? dropped_cycles) && bool_decide (state_of s = ePS_Running)
  && match tx_generatePacketHeader p pkt_ctr s with Some ((r, _), _) => is_data r | None => false end.

(** The call makes no packet: there is no cycle for it, or the state has no packets. *)
Definition no_call (pkt_ctr : Z) (s : S) : bool :=
  (pkt_ctr =? 0xFFFFFFFF) || bool_decide (state_of s = ePS_Created) || bool_decide (state_of s = ePS_Error).

(** The events of a call of [getPacket] that returns [d] and the packet [p']. *)
Definition call_events (p : packet) (pkt_ctr dropped_cycles : Z) (s : S) (d : raw1394_iso_disposition) (p' : packet) :
    list tx_event :=
  (if makes_data_header p pkt_ctr dropped_cycles s && (is_error d || no_data p') then [Discarded] else [])
  ++ (if is_error d || no_call pkt_ctr s then [] else [Sent p']).

(** One step of a transmit stream: the ISO thread asks for a packet, or something else happens that leaves
    the counter and the format alone. *)
Inductive tx_step : S -> list tx_event -> S -> Prop :=
  | step_packet s p pkt_ctr dropped_cycles skipped max_length d p' s' : (8 <= length (p_data p))%nat ->
      getPacket p pkt_ctr dropped_cycles skipped max_length s = Some ((d, p'), s') ->
      tx_step s (call_events p pkt_ctr dropped_cycles s d p') s'
  | step_other s s' : m_dbc (child s') = m_dbc (child s) -> tx_dimension (child s') = tx_dimension (child s) ->
      tx_syt_interval (child s') = tx_syt_interval (child s) -> tx_step s [] s'.

Inductive tx_trace : S -> list tx_event -> S -> Prop :=
  | trace_nil s : tx_trace s [] s
  | trace_step s es1 s1 es2 s2 : tx_step s es1 s1 -> tx_trace s1 es2 s2 -> tx_trace s (es1 ++ es2) s2.

(** The counter [c] before and [c'] after some events: a packet that is sent has the counter, which goes on by its
    blocks; a packet that is discarded takes an interval. *)
Fixpoint chain (dim interval c : Z) (es : list tx_event) (c' : Z) : Prop :=
  match es with
  | [] => c' = c
  | Sent p :: es => dbc_of p = c /\ chain dim interval (u8 (c + blocks_of dim p)) es c'
  | Discarded :: es => chain dim interval (u8 (c + interval)) es c'
  end.

Lemma chain_app dim i c es1 c1 es2 c2 : chain dim i c es1 c1 -> chain dim i c1 es2 c2 -> chain dim i c (es1 ++ es2) c2.
Proof. revert c. induction es1 as [|[p|] es1 IH]; intros c; simpl; [by intros ->|intros [A B]; auto|auto]. Qed.

(** The same format, and the events counted. *)
Definition counts (s : S) (es : list tx_event) (s' : S) : Prop :=
  tx_dimension (child s') = tx_dimension (child s) /\ tx_syt_interval (child s') = tx_syt_interval (child s)
  /\ chain (tx_dimension (child s)) (tx_syt_interval (child s)) (u8 (m_dbc (child s))) es (u8 (m_dbc (child s'))).

Definition block_format (s : S) : Prop := 1 <= tx_dimension (child s) <= 255 /\ 0 <= tx_syt_interval (child s) <= 32.

Lemma counts_nil s s' : kept s s' -> counts s [] s'.
Proof. intros E. unfold counts. by rewrite E. Qed.
Lemma counts_app s es1 s1 es2 s2 : counts s es1 s1 -> counts s1 es2 s2 -> counts s (es1 ++ es2) s2.
Proof.
  intros (D1 & I1 & C1) (D2 & I2 & C2). unfold counts. rewrite D2, I2, D1, I1. split_and!; [done..|].
  rewrite D1, I1 in C2. by eapply chain_app.
Qed.
Lemma counts_kept s s1 es s' : kept s s1 -> counts s1 es s' -> counts s es s'.
Proof. intros E C. unfold counts in *. by rewrite E in C. Qed.
Lemma counts_format s es s' : counts s es s' -> block_format s -> block_format s'.
Proof. intros (D & I & _). unfold block_format. by rewrite D, I. Qed.

Lemma u8_u32 a n : u8 (u32 (a + n)) = u8 (u8 a + n).
Proof.
  unfold wrapU. change (2 ^ 32) with (2 ^ 24 * 2 ^ 8). rewrite Zplus_mod_idemp_l. apply Z.mod_mod_divide. by exists (2 ^ 24).
Qed.

(** A packet of [n] blocks: its counter is that of the processor, which goes on by [n]. *)
Lemma packet_counts (s s' : S) p p' f y n : is_packet s p p' f y (u32 (n * 4 * tx_dimension (child s) + 8)) ->
  blocks_sent n s s' -> 0 <= n <= 32 -> block_format s ->
  counts s [Sent p'] s' /\ (no_data p' = true <-> y = 0xffff) /\ length (p_data p') = length (p_data p).
Proof.
  intros (A & L & _ & Al & _) (Ed & Es & Em & _) Hn [Hd _].
  assert (dbc_of p' = u8 (m_dbc (child s))) as E by (unfold dbc_of; by rewrite A).
  split; [|split; [unfold no_data; rewrite A; apply Z.eqb_eq|done]]. split; [done|]. split; [done|]. split; [done|].
  unfold blocks_of. rewrite Ed, Al, (wrapU_small 32 (n * 4 * _ + 8)) by nia.
  replace (n * 4 * tx_dimension (child s) + 8 - 8) with (n * (4 * tx_dimension (child s))) by lia.
  rewrite Z.div_mul by lia. simpl. apply u8_u32.
Qed.

(** A data packet that is not sent. *)
Lemma discarded_counts (s s' : S) : blocks_sent (tx_syt_interval (child s)) s s' -> counts s [Discarded] s'.
Proof. intros (Ed & Es & Em & _). split_and!; [done..|]. simpl. rewrite Ed. apply u8_u32. Qed.

(** *** One call *)

Abbreviation M := (run S).

Lemma kept_tx_updateState : steady kept (updateState : M bool).
Proof. apply kept_updateState. intros d n o. cbn. unfold tx_transmitSilenceBlock. steady. Qed.

(** A call that makes no data packet: it fails, or sends a packet without data. *)
Definition plain (k : M (raw1394_iso_disposition * packet)) : Prop := forall s d p' s', block_format s ->
  k s = Some ((d, p'), s') ->
  if is_error d then kept s s' else no_data p' = true /\ counts s [Sent p'] s'.

Lemma plain_bind {A} (m : M A) k : steady kept m -> (forall a, plain (k a)) -> plain (m ≫= k).
Proof.
  intros Hm Hk s d p' s' F E. apply run_bind_inv in E as (a & s1 & E1 & E). apply Hm in E1.
  assert (block_format s1) as F1 by (unfold block_format; by rewrite E1). specialize (Hk a s1 d p' s' F1 E).
  destruct (is_error d); [by etrans|]. destruct Hk as [N C]. split; [done|]. by eapply counts_kept.
Qed.
Lemma plain_fail p : plain (mret (RAW1394_ISO_ERROR, p)).
Proof. by intros s d p' s' _ [= <- <- <-]. Qed.
Lemma plain_if (c : bool) k1 k2 : plain k1 -> plain k2 -> plain (if c then k1 else k2).
Proof. by destruct c. Qed.

Lemma plain_update p k : plain k -> plain (ok ← updateState; if ok : bool then k else mret (RAW1394_ISO_ERROR, p)).
Proof. intros Hk. apply plain_bind; [apply kept_tx_updateState|]. intros []; [done|apply plain_fail]. Qed.
Lemma plain_switch x p k : plain k -> plain (switch_to x (RAW1394_ISO_ERROR, p) k).
Proof. intros Hk. apply plain_bind; [apply kept_sp|]. intros _. by apply plain_update. Qed.
Lemma plain_xrun c p k : plain k -> plain (xrun_disable c (RAW1394_ISO_ERROR, p) k).
Proof. intros Hk. do 2 (apply plain_bind; [apply kept_sp|]; intros _). by apply plain_switch. Qed.
Lemma plain_pending p k : plain k -> plain (pending_change (RAW1394_ISO_ERROR, p) k).
Proof.
  intros Hk. do 2 (apply plain_bind; [apply steady_gets; apply _|]; intros ?). destruct (decide _); [done|]. by apply plain_update.
Qed.
Lemma plain_time c (k1 k2 : M _) : plain k1 -> plain k2 -> plain (now ← time_to_switch c; if now : bool then k1 else k2).
Proof. intros Hk1 Hk2. apply plain_bind; [unfold time_to_switch, get_cycle_to_switch_state; steady|]. by intros []. Qed.

(** Packets without data. *)
Lemma plain_no_data (p : packet) r (k : packet -> M (raw1394_iso_disposition * packet)) d : (8 <= length (p_data p))%nat ->
  is_error d = false -> (forall p, k p = mret (d, p)) -> plain ('(_, p) ← no_data_packet p r; k p).
Proof.
  intros L Hd Hk s d' p' s' F E. destruct (no_data_packet_ok s p r L) as (p1 & s1 & E1 & A & B).
  unfold mbind, run_bind in E. simpl in E. rewrite E1 in E. simpl in E. rewrite Hk in E. injection E as <- <- <-.
  rewrite Hd. destruct (packet_counts s s1 p p1 _ _ _ A B) as (C & N & _); [destruct F; destruct (m_send_nodata_payload _); lia|done|].
  split; [by apply N|done].
Qed.
Lemma plain_empty p c d : (8 <= length (p_data p))%nat -> is_error d = false -> plain (p ← empty_packet p c; mret (d, p)).
Proof.
  intros L Hd s d' p' s' F E. refine (plain_no_data p eCRV_OK (fun p => mret (d, p)) d L Hd (fun _ => eq_refl) s d' p' s' F _).
  unfold empty_packet in E. cbn in E. unfold tx_generateEmptyPacketHeader, tx_generateEmptyPacketData in E.
  unfold mbind, run_bind in *. simpl in *. destruct (no_data_packet p eCRV_OK s) as [[[r p1] s1]|]; [|done]. exact E.
Qed.
Lemma plain_send_empty p c : (8 <= length (p_data p))%nat -> plain (send_empty_packet p c).
Proof. intros L. by apply plain_pending, plain_empty. Qed.
Lemma plain_send_silent p c : (8 <= length (p_data p))%nat -> plain (send_silent p c).
Proof.
  intros L. unfold send_silent. cbv zeta. match goal with |- context [switch_to _ _ ?k] => assert (plain k) as Hk end.
  { intros s d p' s' F E.
    refine (plain_no_data p eCRV_Packet (fun p => mret (RAW1394_ISO_OK, p)) RAW1394_ISO_OK L eq_refl (fun _ => eq_refl)
      s d p' s' F _).
    cbn in E. unfold tx_generateSilentPacketHeader, tx_generateSilentPacketData in E.
    destruct (no_data_packet_ok s p eCRV_Packet L) as (p1 & s1 & E1 & _). unfold mbind, run_bind in *. simpl in *.
    rewrite E1 in *. exact E. }
  apply plain_time; [by apply plain_switch|done].
Qed.

(** The frames behind a header. *)
Lemma packet_data_inv (s s' : S) p r p' : tx_generatePacketData p s = Some ((r, p'), s') ->
  kept s s' /\ (r = eCRV_OK \/ r = eCRV_XRun) /\ exists d, p' = mkPacket (list_inserts 8 d (p_data p)) (p_length p) (p_tag p) (p_sy p).
Proof.
  intros E. assert (steady kept (tx_generatePacketData p : M _)) as K by (unfold tx_generatePacketData; steady).
  split; [by eapply K|].
  unfold tx_generatePacketData in E. apply run_bind_inv in E as (n & s1 & _ & E). apply run_bind_inv in E as ([ok d] & s2 & _ & E).
  apply run_bind_inv in E as (u & s3 & _ & E). injection E as <- <- <-. split; [by destruct ok; auto|by exists d].
Qed.

(** After the header of a data packet: it is sent with its frames, or discarded. *)
Lemma send_data_counts (s s1 : S) r p1 ts c d p' s' : counts s [Sent p1] s1 -> counts s [Discarded] s1 -> no_data p1 = false ->
  (8 <= length (p_data p1))%nat -> block_format s -> send_data r p1 ts c s1 = Some ((d, p'), s') ->
  counts s ((if is_error d || no_data p' then [Discarded] else []) ++ (if is_error d then [] else [Sent p'])) s'.
Proof.
  intros Cs Cd N L F E. apply run_bind_inv in E as (u & s2 & E2 & E). apply kept_sp in E2.
  assert (forall k, kept s1 k -> counts s [Discarded] k) as Lost.
  { intros k K. rewrite <- (app_nil_r [Discarded]). eapply counts_app; [exact Cd|by apply counts_nil]. }
  assert (exists s3, kept s1 s3 /\ (d = RAW1394_ISO_ERROR /\ s' = s3 \/
    ('(result2, p) ← generatePacketData p1;
     if decide (result2 = eCRV_XRun) then xrun_disable c (RAW1394_ISO_ERROR, p) (send_empty_packet p c)
     else if bool_decide (result2 = eCRV_Defer) || bool_decide (r = eCRV_Defer) then mret (RAW1394_ISO_DEFER, p)
     else mret (RAW1394_ISO_OK, p)) s3 = Some ((d, p'), s'))) as (s3 & K3 & [[-> ->]|E3]).
  { apply run_bind_inv in E as (x & sx & Ex & E). injection Ex as <- <-.
    apply run_bind_inv in E as (y & sy & Ey & E). injection Ey as <- <-. case_decide; [exists s2; by auto|].
    apply run_bind_inv in E as (ok & s3 & Eu & E). apply kept_tx_updateState in Eu.
    exists s3. split; [by etrans|]. destruct ok; [by right|]. injection E as <- _ <-. by left. }
  { by apply Lost. }
  apply run_bind_inv in E3 as ([r2 p2] & s4 & E4 & E3). apply packet_data_inv in E4 as (K4 & R2 & dd & Ep).
  assert (kept s1 s4) as K by by etrans.
  assert (load_cip true (p_data p2) = load_cip true (p_data p1)) as El by (subst p2; by apply load_cip_front).
  case_decide as Dx.
  - assert (block_format s4) as F4 by (eapply counts_format; [by apply Lost|done]).
    assert (8 <= length (p_data p2))%nat as L2 by (subst p2; simpl; by rewrite length_inserts).
    pose proof (plain_xrun c p2 _ (plain_send_empty p2 c L2) s4 d p' s' F4 E3) as P. destruct (is_error d); simpl.
    + by apply Lost; etrans.
    + destruct P as [-> P]. eapply counts_app; [by apply Lost|done].
  - assert (d <> RAW1394_ISO_ERROR /\ p' = p2 /\ s' = s4) as (Nd & -> & ->) by (destruct (_ || _); by injection E3 as <- <- <-).
    assert (is_error d = false) as -> by by destruct d. unfold no_data in *. rewrite El, N. simpl.
    destruct Cs as (D & I & Cs & Cn). split_and!; [by rewrite K|by rewrite K|]. cbn [app chain].
    unfold dbc_of, blocks_of in *. rewrite El, K. by subst p2.
Qed.

Lemma send_running_counts p ts c (s : S) d p' s' : (8 <= length (p_data p))%nat -> block_format s ->
  send_running p ts c s = Some ((d, p'), s') ->
  counts s ((if match tx_generatePacketHeader p c s with Some ((r, _), _) => is_data r | None => false end
                && (is_error d || no_data p') then [Discarded] else [])
            ++ (if is_error d then [] else [Sent p'])) s'.
Proof.
  intros L F E. unfold send_running in E. destruct (generatePacketHeader_cases s p c L) as (r & p1 & s1 & E1 & C).
  erewrite run_bind_Some in E by exact E1. rewrite E1. cbv beta iota in E. destruct (is_data r) eqn:Dr.
  - destruct C as (_ & A & B & _). destruct (packet_counts _ _ _ _ _ _ _ A B (proj2 F) F) as (Cs & N & Lp).
    simpl andb. eapply (send_data_counts s s1 r p1); [done|by apply discarded_counts| |lia|done|by destruct r].
    destruct (no_data p1); [|done]. pose proof (TO_SYT_not_FFFF (u32 (presentation_time s))). exfalso. lia.
  - destruct C as (-> & _ & L1). rewrite <- L1 in L. simpl.
    assert (forall k, plain k -> k s = Some ((d, p'), s') -> counts s (if is_error d then [] else [Sent p']) s') as Pl.
    { intros k Hk Ek. specialize (Hk s d p' s' F Ek). destruct (is_error d); [by apply counts_nil|apply Hk]. }
    pose proof (plain_send_empty p1 c L) as Pe. destruct r; try done; eapply Pl, E; eauto using plain_xrun, plain_pending, plain_fail.
    by apply plain_pending, plain_empty.
Qed.

Lemma plain_counts (k : M (raw1394_iso_disposition * packet)) s d p' s' : plain k -> block_format s ->
  k s = Some ((d, p'), s') -> counts s (if is_error d then [] else [Sent p']) s'.
Proof. intros Hk F E. specialize (Hk s d p' s' F E). destruct (is_error d); [by apply counts_nil|apply Hk]. Qed.

Lemma send_by_state_counts p c (s : S) d p' s' : (8 <= length (p_data p))%nat -> block_format s ->
  send_by_state p c s = Some ((d, p'), s') ->
  counts s ((if bool_decide (state_of s = ePS_Running)
                && match tx_generatePacketHeader p c s with Some ((r, _), _) => is_data r | None => false end
                && (is_error d || no_data p') then [Discarded] else [])
            ++ (if is_error d || bool_decide (state_of s = ePS_Created) then [] else [Sent p'])) s'.
Proof.
  intros L F E. unfold send_by_state in E. apply run_bind_inv in E as (st & s1 & E1 & E). injection E1 as <- <-.
  case_match; [injection E as <- <- <-; rewrite (bool_decide_eq_false_2 (_ = ePS_Running)); [by apply counts_nil|]|].
  { intros R. rewrite R, andb_comm in *. done. }
  case_decide as Cr; [injection E as <- <- <-; rewrite Cr; by apply counts_nil|].
  rewrite (bool_decide_eq_false_2 _ Cr), orb_false_r.
  apply run_bind_inv in E as (ts & s1 & E1 & E). injection E1 as <- <-.
  apply run_bind_inv in E as (nx & s1 & E1 & E). injection E1 as <- <-.
  pose proof (plain_send_empty p c L) as Pe. destruct (state_of s) eqn:St; simpl;
    try (eapply plain_counts; [|exact F|exact E]; done).
  - eapply plain_counts; [|exact F|exact E]. apply plain_time; [by apply plain_switch|done].
  - eapply plain_counts; [|exact F|exact E]. destruct (decide _); [|done]. apply plain_time; [by apply plain_switch|done].
  - by eapply send_running_counts.
  - eapply plain_counts; [|exact F|exact E]. by apply plain_send_silent.
Qed.

Lemma getPacket_counts p c n sk m (s : S) d p' s' : (8 <= length (p_data p))%nat -> block_format s ->
  getPacket p c n sk m s = Some ((d, p'), s') -> counts s (call_events p c n s d p') s'.
Proof.
  intros L F E. unfold call_events, makes_data_header, no_call. unfold getPacket in E.
  destruct (c =? 0xFFFFFFFF); [injection E as <- <- <-; by apply counts_nil|]. simpl.
  apply run_bind_inv in E as (st & s1 & E1 & E). injection E1 as <- <-.
  case_decide as Er; [injection E as <- <- <-; rewrite Er; destruct (0 <? n); by apply counts_nil|].
  rewrite (bool_decide_eq_false_2 (_ = ePS_Error)), orb_false_r by done. destruct (0 <? n); simpl.
  - apply run_bind_inv in E as (u & s1 & E1 & E). assert (kept s s1 /\ state_of s1 = state_of s) as [K Es] by by injection E1 as _ <-.
    assert (block_format s1) as F1 by (unfold block_format; by rewrite K).
    eapply counts_kept; [exact K|]. case_decide as R.
    + rewrite R. rewrite orb_false_r. eapply plain_counts; [|exact F1|exact E]. by apply plain_xrun, plain_send_empty.
    + apply send_by_state_counts in E; [|done..]. rewrite Es, bool_decide_eq_false_2 in E by done. exact E.
  - by apply send_by_state_counts.
Qed.

Lemma trace_counts s es s' : tx_trace s es s' -> block_format s -> counts s es s'.
Proof.
  intros Tr. induction Tr as [s|s es1 s1 es2 s2 St Tr IH]; intros F; [by apply counts_nil|].
  assert (counts s es1 s1) as C.
  { destruct St as [s p c n sk m d p' s1 L E|s s1 E1 E2 E3]; [by eapply getPacket_counts|]. split_and!; [done..|]. by rewrite E1. }
  eapply counts_app; [exact C|]. by eapply IH, counts_format.
Qed.

Lemma chain_next dim i c es1 p n q es2 c' : chain dim i c (es1 ++ Sent p :: replicate n Discarded ++ Sent q :: es2) c' ->
  dbc_of q = (dbc_of p + blocks_of dim p + Z.of_nat n * i) mod 256.
Proof.
  revert c. induction es1 as [|[x|] es1 IH]; intros c; simpl; [|intros [_ ?]; by eapply IH|by apply IH].
  intros [<- Ch]. assert (forall x, chain dim i (u8 x) (replicate n Discarded ++ Sent q :: es2) c' -> dbc_of q = u8 (x + Z.of_nat n * i))
    as A by (clear; induction n as [|n IHn]; intros x; cbn [replicate app chain]; [intros [-> _]; f_equal; lia|
             rewrite wrapU_add_l; intros ->%IHn; rewrite Nat2Z.inj_succ; f_equal; ring]).
  by apply A.
Qed.

End counter.

(** ** A concrete stream

    Frames of two events at 48 kHz; eight frames are buffered, and the first one is to be presented in
    cycle 3 of second 0, 100 ticks after its start. *)
#[local] Existing Instance example_world.

#[local] Instance example_codes : Iec61883 :=
  {| IEC61883_FDF_SFC_32KHZ := 0; IEC61883_FDF_SFC_44K1HZ := 1; IEC61883_FDF_SFC_48KHZ := 2; IEC61883_FDF_SFC_88K2HZ := 3;
     IEC61883_FDF_SFC_96KHZ := 4; IEC61883_FDF_SFC_176K4HZ := 5; IEC61883_FDF_SFC_192KHZ := 6;
     IEC61883_MODE_BLOCKING_EMPTY := 0 |}.
Definition example_platform (be : bool) : Platform := {| big_endian := be; sse2 := negb be; debug_messages := true |}.

Definition example_presentation : Z := 3 * 3072 + 100.

(** A ring of 128 bytes, of which [n] from [r] on are filled. *)
Definition example_events (r n : Z) : ffado_ringbuffer_t := mkRB (Z.of_nat <$> seq 0 128) ((r + n) mod 128) r 128 127 0.
Definition example_events_buffer (r n : Z) : TimestampedBuffer :=
  mkTSB (mkSizes 8 64 4 2 16 8 128)
    (mkClock (d_of_Z MAX_TICKS) (d_of_Z (example_presentation + 8 * 512)) (d_of_Z (example_presentation + 16 * 512))
       (d_of_Z 4096) (S754_zero false) (S754_zero false) (f_of_Z 512) (f_of_Z 512) 8 1536)
    (Some (example_events r n)) (replicate 64 0) true false (n / 8).

Lemma example_events_hold r n : 0 <= r < 128 -> holds (example_events_buffer r n) 2 (example_events r n).
Proof. intros. split_and!; try done. split; simpl; try done; [by exists 7|apply Z.mod_pos_bound; lia]. Qed.

Definition example_sender : sp_state AmdtpTransmitStreamProcessor Z :=
  mkState (mkSP (mkMachine ePS_Running ePS_Running 0 false) (mkTimes 0 0 false)
             (mkSettings ePT_Transmit 1 0 (S754_zero false) (S754_zero false) 0 50) (example_events_buffer 100 64) None
             PortManager_new)
    (mkTx None 2 8 2 250 true AMDTP_MAX_CYCLES_TO_TRANSMIT_EARLY AMDTP_TRANSMIT_TRANSFER_DELAY
       AMDTP_MIN_CYCLES_BEFORE_PRESENTATION empty_cache []) 0.
Definition example_receiver : sp_state AmdtpReceiveStreamProcessor Z :=
  mkState (mkSP (mkMachine ePS_Running ePS_Running 0 false) (mkTimes 0 0 false)
             (mkSettings ePT_Receive 1 0 (S754_zero false) (S754_zero false) 0 50) (example_events_buffer 20 16) None
             PortManager_new)
    (AmdtpReceiveStreamProcessor_new (fun _ => 0) 2) 0.
Definition example_packet_memory : packet := mkPacket (replicate 72 0) 0 0 0.

Lemma packet_arrives_witness :
  exists res p1 s1 p2 s2 r1 r2 rb2',
    @tx_generatePacketHeader Z (example_platform false) example_packet_memory 0 example_sender = Some ((res, p1), s1)
    /\ @tx_generatePacketData Z p1 s1 = Some ((eCRV_OK, p2), s2)
    /\ @rx_processPacketHeader Z (example_platform true) (p_data p2) (p_length p2) (p_tag p2) (p_sy p2) 0 example_receiver
       = Some (eCRV_OK, r1)
    /\ @rx_processPacketData Z (example_platform true) (p_data p2) (p_length p2) r1 = Some (eCRV_OK, r2)
    /\ m_last_timestamp (times (sp r1)) = example_presentation /\ m_event_buffer (m_data_buffer (sp r2)) = Some rb2'
    /\ rb_contents rb2' = rb_contents (example_events 20 16) ++ rb_contents (example_events 100 64).
Proof.
  destruct (packet_arrives (example_platform false) (example_platform true) 48000 example_sender example_receiver
    example_packet_memory 0 example_presentation (example_events 100 64) (example_events 20 16))
    as (res & p1 & s1 & p2 & s2 & r1 & r2 & rb1' & rb2' & E1 & _ & E2 & E3 & E4 & T & _ & (_ & _ & _ & Eb & _) & _ & C).
  - reflexivity.
  - vm_compute. repeat split; congruence.
  - vm_compute. repeat split; congruence.
  - vm_compute. repeat split; congruence.
  - vm_compute. reflexivity.
  - vm_compute. split; congruence.
  - split; [vm_compute; congruence|right; vm_compute; split; congruence].
  - vm_compute. congruence.
  - apply example_events_hold. lia.
  - vm_compute. congruence.
  - split; [apply example_events_hold; lia|]. repeat split; vm_compute; congruence.
  - exists res, p1, s1, p2, s2, r1, r2, rb2'. split_and!; [exact E1|exact E2|exact E3|exact E4|exact T|exact Eb|].
    rewrite C. f_equal.
Defined.

(** A stream whose counter says sixteen frames where the ring has eight: the first packet is sent, the second one is
    discarded for want of its frames, and an empty packet, here with payload, is sent in its place. *)
Definition example_short : sp_state AmdtpTransmitStreamProcessor Z :=
  mkState (mkSP (mkMachine ePS_Running ePS_Running 0 false) (mkTimes 0 0 false)
             (mkSettings ePT_Transmit 1 0 (S754_zero false) (S754_zero false) 0 50)
             (mkTSB (mkSizes 8 64 4 2 16 8 128)
                (mkClock (d_of_Z MAX_TICKS) (d_of_Z (example_presentation + 16 * 512)) (d_of_Z (example_presentation + 24 * 512))
                   (d_of_Z 4096) (S754_zero false) (S754_zero false) (f_of_Z 512) (f_of_Z 512) 8 1536)
                (Some (example_events 100 64)) (replicate 64 0) true false 16) None PortManager_new)
    (child example_sender) 0.

Definition ask (cycle : Z) : run (sp_state AmdtpTransmitStreamProcessor Z) (raw1394_iso_disposition * packet) :=
  @getPacket _ _ example_world (@tx_child _ _ (example_platform false) _) example_packet_memory (cycle * 4096) 0 0 64.

