(* ===== verification/PackedEvents.v ===== *)
(** * Events of packed samples

    What the packet formats of MOTU and RME share: an event is a block of bytes with the samples of all ports at their positions
    ([src/libstreaming/motu/MotuPortInfo.h] and [src/libstreaming/rme/RmePortInfo.h]), and bytes of MIDI data are sent no faster than a MIDI line carries
    them.  The code is the same in [MotuTransmitStreamProcessor.cpp] and [RmeTransmitStreamProcessor.cpp]. *)
From S2P Require Import Prelude CycleTimer RingBuffer ByteSwap Ieee754 TimestampedBuffer Ports StreamProcessor Amdtp AmdtpAudio.
#[local] Open Scope Z_scope.

(** ** Rounding *)

(** [lrintf]: to the nearest integer, and to the even one of two.  (Of an infinity or a NaN, where the result is not specified, it is 0.) *)
Definition lrintf (x : spec_float) : Z :=
  match x with
  | S754_finite s m e =>
      cond_Zopp s (if 0 <=? e then Zpos m * 2 ^ e else
        let d := 2 ^ (- e) in
        let q := Zpos m / d in
        let r := Zpos m mod d in
        if (2 * r <? d) || ((2 * r =? d) && Z.even q) then q else q + 1)
  | _ => 0
  end.

(** [ceil] *)
Definition ceil_of_float (x : spec_float) : Z :=
  match x with
  | S754_finite s m e => if 0 <=? e then cond_Zopp s (Zpos m * 2 ^ e) else let d := 2 ^ (- e) in - (cond_Zopp (negb s) (Zpos m) / d)
  | _ => 0
  end.

(** ** Memory *)

(** Bytes at [i] and the following addresses; [None] outside of the memory. *)
Definition store_bytes (i : nat) (bs mem : list Z) : option (list Z) :=
  if decide (i + length bs <= length mem)%nat then Some (list_inserts i bs mem) else None.

(** ** Ports *)

Record PackedPortInfo := mkPackedInfo { pp_position : Z; pp_size : Z }.

(** The port objects by their addresses; the casts to the port classes of the vendor are not checked. *)
Definition packed_infos : Type := list (Z * PackedPortInfo).
Fixpoint position_of (infos : packed_infos) (port : Z) : option Z :=
  match infos with
  | [] => None
  | (a, i) :: infos => if a =? port then Some (pp_position i) else position_of infos port
  end.

(** The client's buffer is changed; a buffer that is [NULL] has no words. *)
Definition with_words (f : list Z -> option (list Z)) (p : Port) : option Port :=
  match m_buffer p with
  | Some ws => ws ← f ws; Some (with_buffer (Some ws) p)
  | None => _ ← f []; Some p
  end.

(** The loop over [m_Ports]. *)
Fixpoint for_ports {S} (f : Port -> S -> option (Port * S)) (ps : list Port) (s : S) : option (list Port * S) :=
  match ps with
  | [] => Some ([], s)
  | p :: ps => '(p, s) ← f p s; '(ps, s) ← for_ports f ps s; Some (p :: ps, s)
  end.

(** Audio: event [j] of a port is at [pos + j * stride]. *)
Definition encode_events (f : Z -> list Z) (stride pos offset nevents : nat) (ws : list Z) (data : list Z) : option (list Z) :=
  for_loop 0 nevents 1 (fun j data => x ← ws !! (offset + j)%nat; store_bytes (pos + j * stride) (f x) data) data.
Definition clear_events (zeroes : list Z) (stride pos nevents : nat) (data : list Z) : option (list Z) :=
  for_loop 0 nevents 1 (fun j data => store_bytes (pos + j * stride) zeroes data) data.

(** [f] decodes [size] bytes. *)
Definition decode_events (f : list Z -> Z) (size stride pos offset nevents : nat) (data ws : list Z) : option (list Z) :=
  for_loop 0 nevents 1 (fun j ws =>
    let bs := take size (drop (pos + j * stride) data) in
    if decide (length bs = size) then store (offset + j) (f bs) ws else None) ws.

(** [assert(nevents + offset <= p->getBufferSize());] *)
Definition fits_buffer {A} (debug : bool) (nevents offset : nat) (p : Port) (k : option A) : option A :=
  if debug && (m_buffersize p <? Z.of_nat (nevents + offset)) then None else k.

(** ** Outgoing MIDI data *)

Definition MIDIBUFFER_SIZE : Z := 1024.

Record paced_midi := mkPaced {
  pm_buffer : list Z;
  pm_head : Z;
  pm_tail : Z;
  midi_lock : Z;
  midi_tx_period : Z;
}.

(** [midi_tx_period = lrintf(ceil((float)srate / 3125));] *)
Definition midi_period_of_rate (rate : Z) : Z := u32 (ceil_of_float (fdiv (f_of_Z rate) (f_of_Z 3125))).
Definition paced_midi_new (junk : nat -> Z) (rate : Z) : paced_midi :=
  mkPaced (junk <$> seq 0 (Z.to_nat MIDIBUFFER_SIZE)) 0 0 0 (midi_period_of_rate rate).

Definition pm_put (x : Z) (q : paced_midi) : option paced_midi :=
  buf ← store (Z.to_nat (pm_head q)) x (pm_buffer q);
  let head := u32 (pm_head q + 1) .& (MIDIBUFFER_SIZE - 1) in
  Some (mkPaced buf head (if head =? pm_tail q then u32 (pm_tail q + 1) .& (MIDIBUFFER_SIZE - 1) else pm_tail q) (midi_lock q) (midi_tx_period q)).

(** One event: a word of the client with a byte in it is queued, and the oldest byte is sent if the line is free. *)
Definition midi_step (x : Z) (q : paced_midi) : option (option Z * paced_midi) :=
  let lock := if midi_lock q =? 0 then 0 else midi_lock q - 1 in
  let q := mkPaced (pm_buffer q) (pm_head q) (pm_tail q) lock (midi_tx_period q) in
  q ← (if (x .& 0xff000000) =? 0 then Some q else pm_put x q);
  if negb (pm_head q =? pm_tail q) && (midi_lock q =? 0) then
    y ← pm_buffer q !! Z.to_nat (pm_tail q);
    Some (Some (y .& 0xff), mkPaced (pm_buffer q) (pm_head q) (u32 (pm_tail q + 1) .& (MIDIBUFFER_SIZE - 1)) (midi_tx_period q) (midi_tx_period q))
  else Some (None, q).

Definition encode_midi_events (stride pos offset nevents : nat) (ws : list Z) (st : list Z * paced_midi) : option (list Z * paced_midi) :=
  for_loop 0 nevents 1 (fun j '(data, q) =>
    x ← ws !! (offset + j)%nat;
    '(out, q) ← midi_step x q;
    data ← (match out with Some b => store_bytes (pos + j * stride) [0x01; 0x00; b] data | None => Some data end);
    Some (data, q)) st.
Definition encode_midi_silence (stride pos nevents : nat) (data : list Z) : option (list Z) :=
  for_loop 0 nevents 1 (fun j data => store_bytes (pos + j * stride) [0; 0; 0] data) data.

(** ** Stripes

    The bytes of one port in a memory of events that begins at [base]: [size] bytes from [pos] on in each of [n] events. *)
Definition stripe (base stride pos size n : nat) (bs : nat -> list Z) (k : nat) : option Z :=
  let o := ((k - base) mod stride)%nat in
  let j := ((k - base) / stride)%nat in
  if decide (base <= k /\ pos <= o < pos + size /\ j < n)%nat then bs j !! (o - pos)%nat else None.

Lemma overlay_store_bytes i bs d : (i + length bs <= length d)%nat ->
  exists d', store_bytes i bs d = Some d' /\ overlay (fun k => if decide (i <= k < i + length bs)%nat then bs !! (k - i)%nat else None) d d'.
Proof.
  intros Hi. unfold store_bytes. rewrite decide_True by done. eexists. split; [done|]. split; [by rewrite length_inserts|].
  intros k Hk. case_decide as D.
  - rewrite list_lookup_inserts by lia. destruct (lookup_lt_is_Some_2 bs (k - i)) as [x ->]; [lia|]. by destruct (d !! k).
  - destruct (decide (k < i)%nat); [rewrite list_lookup_inserts_lt by lia|rewrite list_lookup_inserts_ge by lia]; by destruct (d !! k).
Qed.

Lemma stripe_overlay base stride pos size n bs body d : (pos + size <= stride)%nat -> (base + n * stride <= length d)%nat ->
  (forall j, (j < n)%nat -> length (bs j) = size) ->
  (forall j d0, (j < n)%nat -> body j d0 = store_bytes (base + pos + j * stride) (bs j) d0) ->
  exists d', for_loop 0 n 1 body d = Some d' /\ overlay (stripe base stride pos size n bs) d d'.
Proof.
  intros Hp Hn Hl Hb. apply (for_loop_overlay _ _ (fun j k => if decide (base + pos + j * stride <= k < base + pos + j * stride + size)%nat
    then bs j !! (k - (base + pos + j * stride))%nat else None)).
  - intros j d0 Hj L0. rewrite Hb by done. destruct (overlay_store_bytes (base + pos + j * stride) (bs j) d0) as (d1 & E & O); [rewrite Hl by done; nia|].
    exists d1. split; [done|]. by rewrite Hl in O by done.
  - intros k Hk. unfold stripe. split.
    + intros j v Hj. case_decide as D; [|done]. assert ((k - base) / stride = j /\ (k - base) mod stride = k - base - j * stride)%nat as [Ej Eo].
      { assert (k - base = (k - base - j * stride) + j * stride)%nat as E by lia. split; [|rewrite E at 1; rewrite Nat.Div0.mod_add, Nat.mod_small by lia; done].
        rewrite E at 1. rewrite Nat.div_add, Nat.div_small by lia. done. }
      rewrite Ej, Eo, decide_True by lia. intros <-. f_equal. lia.
    + intros v. case_decide as D; [|done]. intros Ev. exists ((k - base) / stride)%nat. split; [lia|].
      pose proof (index_column stride (k - base) ltac:(lia)) as E. rewrite decide_True by lia. rewrite <- Ev. f_equal. lia.
Qed.

Lemma encode_events_stripe f size stride pos offset n ws d : (forall x, length (f x) = size) -> (pos + size <= stride)%nat -> (n * stride <= length d)%nat ->
  (offset + n <= length ws)%nat ->
  exists d', encode_events f stride pos offset n ws d = Some d' /\ overlay (stripe 0 stride pos size n (fun j => f (default 0 (ws !! (offset + j)%nat)))) d d'.
Proof.
  intros Hf Hp Hn Hw. apply stripe_overlay; [done|done|done|]. intros j d0 Hj. destruct (lookup_lt_is_Some_2 ws (offset + j)) as [x ->]; [lia|]. done.
Qed.
Lemma clear_events_stripe z stride pos n d : (pos + length z <= stride)%nat -> (n * stride <= length d)%nat ->
  exists d', clear_events z stride pos n d = Some d' /\ overlay (stripe 0 stride pos (length z) n (fun _ => z)) d d'.
Proof. intros Hp Hn. by apply stripe_overlay. Qed.

(** Event [j] of a port. *)
Definition event_bytes (stride pos size j : nat) (d : list Z) : list Z := take size (drop (pos + j * stride) d).

Lemma stripe_same stride pos size n bs d d' j : overlay (stripe 0 stride pos size n bs) d d' -> (pos + size <= stride)%nat -> (n * stride <= length d)%nat ->
  (j < n)%nat -> length (bs j) = size -> event_bytes stride pos size j d' = bs j.
Proof.
  intros [L O] Hp Hn Hj Hl. apply list_eq_same_length with (n := size); [done|unfold event_bytes; rewrite length_take, length_drop; nia|].
  intros i x y Hi. unfold event_bytes. rewrite lookup_take_lt, lookup_drop, O by nia. unfold stripe. rewrite Nat.sub_0_r.
  assert ((pos + j * stride + i) mod stride = pos + i /\ (pos + j * stride + i) / stride = j)%nat as [-> ->].
  { replace (pos + j * stride + i)%nat with (pos + i + j * stride)%nat by lia. apply column_index. lia. }
  rewrite decide_True by lia. replace (pos + i - pos)%nat with i by lia. destruct (lookup_lt_is_Some_2 (bs j) i) as [z ->]; [lia|].
  destruct (d !! _); cbn; congruence.
Qed.

Lemma stripe_other stride pos size n bs d d' pos' size' j : overlay (stripe 0 stride pos size n bs) d d' -> (pos' + size' <= stride)%nat ->
  (pos' + size' <= pos \/ pos + size <= pos')%nat -> event_bytes stride pos' size' j d' = event_bytes stride pos' size' j d.
Proof.
  intros [L O] Hp Hd. apply list_eq. intros i. unfold event_bytes. destruct (decide (i < size')%nat); [|by rewrite !lookup_take_ge by lia].
  rewrite !lookup_take_lt, !lookup_drop by lia. destruct (decide (pos' + j * stride + i < length d)%nat) as [Hk|Hk]; [|by rewrite !lookup_ge_None_2 by lia].
  rewrite O by done. unfold stripe. rewrite Nat.sub_0_r.
  assert ((pos' + j * stride + i) mod stride = pos' + i)%nat as ->.
  { replace (pos' + j * stride + i)%nat with (pos' + i + j * stride)%nat by lia. apply column_index. lia. }
  rewrite decide_False by lia. by destruct (d !! _).
Qed.

Lemma decode_events_overlay f size stride pos offset n data ws : (pos + size <= stride)%nat -> (n * stride <= length data)%nat -> (offset + n <= length ws)%nat ->
  exists ws', decode_events f size stride pos offset n data ws = Some ws'
    /\ overlay (fun k => if decide (offset <= k < offset + n)%nat then Some (f (event_bytes stride pos size (k - offset) data)) else None) ws ws'.
Proof.
  intros Hp Hn Hw. apply (for_loop_overlay _ _ (fun j k => if decide (k = offset + j)%nat then Some (f (event_bytes stride pos size j data)) else None)).
  - intros j d0 Hj L0. rewrite decide_True by (rewrite length_take, length_drop; nia). apply overlay_store. lia.
  - intros k Hk. split.
    + intros j v Hj. case_decide; [|done]. subst k. rewrite decide_True by lia. by replace (offset + j - offset)%nat with j by lia.
    + intros v. case_decide; [|done]. intros [= <-]. exists (k - offset)%nat. split; [lia|]. by rewrite decide_True by lia.
Qed.

(** Positions of ports that do not overlap. *)
Definition apart_by (size pos pos' : nat) : Prop := (pos + size <= pos' \/ pos' + size <= pos)%nat.

(** An audio port in use, with its position, whose buffer has room for [n] frames at [offset]. *)
Definition port_ready (debug : bool) (infos : packed_infos) (offset n : nat) (p : Port) (pos : nat) : Prop :=
  m_disabled p = false /\ m_PortType p = E_Audio /\ position_of infos (port_this p) = Some (Z.of_nat pos)
  /\ (debug = true -> Z.of_nat (n + offset) <= m_buffersize p) /\ exists ws, m_buffer p = Some ws /\ (offset + n <= length ws)%nat.

Lemma fits_ready {A} debug infos offset n p pos (k : option A) : port_ready debug infos offset n p pos -> fits_buffer debug n offset p k = k.
Proof. intros (_ & _ & _ & D & _). unfold fits_buffer. destruct debug; [|done]. cbn. by rewrite (proj2 (Z.ltb_ge _ _)) by auto. Qed.

Definition port_word (p : Port) (k : nat) : Z := default 0 (default [] (m_buffer p) !! k).

(** A loop over audio ports that writes each of them into its stripe and leaves a state alone. *)
Lemma encode_ports {S} (debug : bool) infos (f : Z -> list Z) size es offset n (step : Port -> list Z * S -> option (Port * (list Z * S))) ps poss :
  (forall x, length (f x) = size) ->
  (forall p pos d s, pos ∈ poss -> port_ready debug infos offset n p pos ->
     step p (d, s) = (fun d' => (p, (d', s))) <$> encode_events f es pos offset n (default [] (m_buffer p)) d) ->
  Forall2 (port_ready debug infos offset n) ps poss -> ForallOrdPairs (apart_by size) poss -> Forall (fun pos => pos + size <= es)%nat poss ->
  forall d s, (n * es <= length d)%nat -> exists d', for_ports step ps (d, s) = Some (ps, (d', s)) /\ length d' = length d
    /\ (forall i p pos j, ps !! i = Some p -> poss !! i = Some pos -> (j < n)%nat -> event_bytes es pos size j d' = f (port_word p (offset + j)))
    /\ (forall pos' size' j, (pos' + size' <= es)%nat -> Forall (fun pos => pos' + size' <= pos \/ pos + size <= pos')%nat poss ->
          event_bytes es pos' size' j d' = event_bytes es pos' size' j d).
Proof.
  intros Hf Hstep R. induction R as [|p pos ps poss Hp R IH]; intros Ap Hb d s Hd; [by exists d|].
  specialize (IH ltac:(intros; apply Hstep; [by right|done])).
  inversion Ap as [|? ? Ap1 Ap2]; subst. apply Forall_cons_iff in Hb as [Hb1 Hb2]. destruct Hp as (P1 & P2 & P3 & P4 & ws & Ew & Lw).
  destruct (encode_events_stripe f size es pos offset n ws d Hf Hb1 Hd Lw) as (d1 & E1 & O1).
  assert (length d1 = length d) as L1 by apply O1. destruct (IH Ap2 Hb2 d1 s ltac:(lia)) as (d' & E' & L' & Same & Other).
  exists d'. split; [|split; [congruence|split]].
  - cbn [for_ports]. rewrite Hstep with (pos := pos) by first [by left | by split_and!; [..|exists ws]]. rewrite Ew. cbn [default from_option id]. rewrite E1. cbn. by rewrite E'.
  - intros [|i] q pos' j Hi Hpos Hj; [|by eapply Same]. injection Hi as <-. injection Hpos as <-.
    rewrite Other; [|done|exact Ap1].
    rewrite (stripe_same _ _ _ _ _ _ _ _ O1) by done. unfold port_word. rewrite Ew. done.
  - intros pos' size' j Hs Hall. apply Forall_cons_iff in Hall as [Hall1 Hall2]. rewrite Other by done. by eapply stripe_other.
Qed.

(** A loop over audio ports that reads each of them from its stripe. *)
Lemma decode_ports {S} (debug : bool) infos (f : list Z -> Z) size es offset n data (step : Port -> S -> option (Port * S)) ps poss :
  (forall p pos s, pos ∈ poss -> port_ready debug infos offset n p pos ->
     step p s = (fun p' => (p', s)) <$> with_words (decode_events f size es pos offset n data) p) ->
  Forall2 (port_ready debug infos offset n) ps poss -> Forall (fun pos => pos + size <= es)%nat poss -> (n * es <= length data)%nat ->
  forall s, exists ps', for_ports step ps s = Some (ps', s) /\ length ps' = length ps
    /\ forall i p' pos j, ps' !! i = Some p' -> poss !! i = Some pos -> (j < n)%nat -> port_word p' (offset + j) = f (event_bytes es pos size j data).
Proof.
  intros Hstep R. induction R as [|p pos ps poss Hp R IH]; intros Hb Hd s; [by exists []|].
  specialize (IH ltac:(intros; apply Hstep; [by right|done])).
  apply Forall_cons_iff in Hb as [Hb1 Hb2]. destruct (IH Hb2 Hd s) as (ps' & E' & L' & H'). pose proof Hp as (_ & _ & _ & _ & ws & Ew & Lw).
  destruct (decode_events_overlay f size es pos offset n data ws Hb1 Hd Lw) as (ws' & Ed & Lo & O).
  exists (with_buffer (Some ws') p :: ps'). split; [|split; [cbn; congruence|]].
  - cbn [for_ports]. rewrite (Hstep _ pos _ ltac:(by left) Hp). unfold with_words. rewrite Ew, Ed. cbn. by rewrite E'.
  - intros [|i] q pos' j Hi Hpos Hj; [|by eapply H']. injection Hi as <-. injection Hpos as <-. unfold port_word. cbn.
    rewrite O by lia. rewrite decide_True by lia. replace (offset + j - offset)%nat with j by lia. by destruct (ws !! _).
Qed.

(** ** The line *)

(** The words of a client one after the other, and what is sent with each event. *)
Fixpoint midi_run (ws : list Z) (q : paced_midi) : option (list (option Z) * paced_midi) :=
  match ws with
  | [] => Some ([], q)
  | x :: ws => '(o, q) ← midi_step x q; '(outs, q) ← midi_run ws q; Some (o :: outs, q)
  end.

(** What is sent with the events of a block, in its memory. *)
Fixpoint put_outs (stride pos : nat) (outs : list (option Z)) (data : list Z) : list Z :=
  match outs with
  | [] => data
  | o :: outs => put_outs stride (pos + stride) outs (match o with Some b => list_inserts pos [0x01; 0x00; b] data | None => data end)
  end.

(** The queue: words from the tail on. *)
Definition pm_count (q : paced_midi) : nat := Z.to_nat ((pm_head q - pm_tail q) mod MIDIBUFFER_SIZE).
Definition pm_words (q : paced_midi) : list Z :=
  (fun i => default 0 (pm_buffer q !! Z.to_nat ((pm_tail q + Z.of_nat i) mod MIDIBUFFER_SIZE))) <$> seq 0 (pm_count q).
Definition pm_ok (q : paced_midi) : Prop :=
  length (pm_buffer q) = Z.to_nat MIDIBUFFER_SIZE /\ 0 <= pm_head q < MIDIBUFFER_SIZE /\ 0 <= pm_tail q < MIDIBUFFER_SIZE
  /\ 0 <= midi_lock q <= midi_tx_period q /\ midi_tx_period q < 2 ^ 32.

Lemma pm_next x : 0 <= x < MIDIBUFFER_SIZE -> u32 (x + 1) .& (MIDIBUFFER_SIZE - 1) = (x + 1) mod MIDIBUFFER_SIZE.
Proof. unfold MIDIBUFFER_SIZE. intros. rewrite wrapU_small by lia. by apply (land_mask_mod _ 10). Qed.

Lemma pm_count_eq q : pm_ok q -> Z.of_nat (pm_count q) = (pm_head q - pm_tail q) mod MIDIBUFFER_SIZE /\ (pm_count q < 1024)%nat.
Proof. intros (_ & Hh & Ht & _). unfold pm_count, MIDIBUFFER_SIZE in *. zlia. Qed.

Lemma pm_put_words x q : pm_ok q -> (length (pm_words q) < 1023)%nat ->
  exists q', pm_put x q = Some q' /\ pm_ok q' /\ pm_words q' = pm_words q ++ [x] /\ midi_lock q' = midi_lock q /\ midi_tx_period q' = midi_tx_period q
    /\ pm_head q' <> pm_tail q'.
Proof.
  intros Ok. pose proof (pm_count_eq q Ok) as [Ec _]. destruct Ok as (Lb & Hh & Ht & Hl & Hp). unfold pm_words at 1. rewrite length_fmap, length_seq. intros Hc.
  unfold pm_put, store. rewrite decide_True by lia. cbn [mbind option_bind]. rewrite pm_next by done.
  assert ((pm_head q + 1) mod MIDIBUFFER_SIZE <> pm_tail q) as Hne.
  { unfold MIDIBUFFER_SIZE in *. zlia. }
  rewrite (proj2 (Z.eqb_neq _ _) Hne). eexists. split; [reflexivity|]. split; [|split_and!; try done].
  - unfold pm_ok. cbn. rewrite length_insert. split_and!; try done; unfold MIDIBUFFER_SIZE in *; zlia.
  - unfold pm_words. assert (pm_count (mkPaced (<[Z.to_nat (pm_head q) := x]> (pm_buffer q)) ((pm_head q + 1) mod MIDIBUFFER_SIZE) (pm_tail q) (midi_lock q) (midi_tx_period q)) = S (pm_count q)) as ->.
    { unfold pm_count in *. cbn. unfold MIDIBUFFER_SIZE in *. zlia. }
    rewrite seq_S, fmap_app. cbn [fmap list_fmap pm_buffer pm_tail Nat.add]. f_equal.
    + apply list_fmap_ext. intros i j Hi. apply lookup_seq in Hi as [-> Hi]. cbn. rewrite list_lookup_insert_ne; [done|].
      unfold pm_count, MIDIBUFFER_SIZE in *. zlia.
    + f_equal. replace ((pm_tail q + Z.of_nat (pm_count q)) mod MIDIBUFFER_SIZE) with (pm_head q) by (rewrite Ec; unfold MIDIBUFFER_SIZE in *; zlia).
      rewrite list_lookup_insert_eq by lia. done.
Qed.

Lemma pm_get_words q y : pm_ok q -> pm_head q <> pm_tail q -> pm_buffer q !! Z.to_nat (pm_tail q) = Some y ->
  let q' := mkPaced (pm_buffer q) (pm_head q) ((pm_tail q + 1) mod MIDIBUFFER_SIZE) (midi_tx_period q) (midi_tx_period q) in
  pm_ok q' /\ pm_words q = y :: pm_words q'.
Proof.
  intros Ok Hne Hy q'. pose proof (pm_count_eq q Ok) as [Ec _]. destruct Ok as (Lb & Hh & Ht & Hl & Hp). split.
  - unfold pm_ok, q'. cbn. split_and!; try done; unfold MIDIBUFFER_SIZE in *; zlia.
  - unfold pm_words. assert (pm_count q = S (pm_count q')) as ->.
    { unfold pm_count, q' in *. cbn. unfold MIDIBUFFER_SIZE in *. zlia. }
    cbn [seq fmap list_fmap]. f_equal.
    + rewrite Z.add_0_r, Z.mod_small, Hy by done. done.
    + rewrite <- fmap_S_seq, <- list_fmap_compose. apply list_fmap_ext. intros i j _. cbn. do 3 f_equal. unfold MIDIBUFFER_SIZE in *. zlia.
Qed.

(** A byte in a word of the client. *)
Definition offered (x : Z) : list Z := if (x .& 0xff000000) =? 0 then [] else [x].

Lemma midi_step_ok x q : pm_ok q -> (length (pm_words q ++ offered x) <= 1023)%nat ->
  exists o q', midi_step x q = Some (o, q') /\ pm_ok q' /\ midi_tx_period q' = midi_tx_period q
    /\ match o with
       | Some b => midi_lock q <= 1 /\ midi_lock q' = midi_tx_period q /\ exists y, pm_words q ++ offered x = y :: pm_words q' /\ b = y .& 0xff
       | None => midi_lock q' = Z.max 0 (midi_lock q - 1) /\ pm_words q' = pm_words q ++ offered x /\ (midi_lock q <= 1 -> pm_words q' = [])
       end.
Proof.
  intros Ok Hn. unfold midi_step. set (lock := if midi_lock q =? 0 then 0 else midi_lock q - 1).
  set (q0 := mkPaced (pm_buffer q) (pm_head q) (pm_tail q) lock (midi_tx_period q)).
  assert (lock = Z.max 0 (midi_lock q - 1)) as El by (destruct Ok as (_ & _ & _ & ? & _); unfold lock; destruct (Z.eqb_spec (midi_lock q) 0); lia).
  assert (pm_ok q0) as Ok0 by (destruct Ok as (? & ? & ? & ? & ?); unfold pm_ok; cbn; split_and!; try done; lia).
  assert (exists q1, (if (x .& 0xff000000) =? 0 then Some q0 else pm_put x q0) = Some q1 /\ pm_ok q1 /\ pm_words q1 = pm_words q ++ offered x
    /\ midi_lock q1 = lock /\ midi_tx_period q1 = midi_tx_period q) as (q1 & E1 & Ok1 & W1 & L1 & P1).
  { unfold offered in *. destruct (_ =? 0); [exists q0; by rewrite app_nil_r|]. rewrite length_app in Hn. cbn in Hn.
    destruct (pm_put_words x q0 Ok0) as (q1 & E & O & W & L & P & _); [change (pm_words q0) with (pm_words q); lia|]. by exists q1. }
  rewrite E1. cbn [mbind option_bind]. destruct (Z.eqb_spec (pm_head q1) (pm_tail q1)) as [He|Hne]; cbn [negb andb].
  - exists None, q1. split_and!; [done|done|done|congruence|done|]. intros _. unfold pm_words, pm_count. rewrite He, Z.sub_diag. done.
  - destruct (Z.eqb_spec (midi_lock q1) 0) as [Hz|Hz]; [|exists None, q1; split_and!; [done|done|done|congruence|done|lia]].
    destruct (lookup_lt_is_Some_2 (pm_buffer q1) (Z.to_nat (pm_tail q1))) as [y Hy]; [destruct Ok1 as (-> & _ & ? & _); lia|].
    destruct (pm_get_words q1 y Ok1 Hne Hy) as [Ok2 W2]. rewrite Hy. cbn [mbind option_bind]. rewrite pm_next by (by destruct Ok1 as (_ & _ & ? & _)).
    eexists _, _. split; [reflexivity|]. split_and!; [exact Ok2|done|lia|done|]. exists y. rewrite <- W1. done.
Qed.

(** Bytes are [period] events apart, and the first one does not come before the lock has run down. *)
Definition spaced (lock period : Z) (outs : list (option Z)) : Prop :=
  (forall i b, outs !! i = Some (Some b) -> lock <= Z.of_nat i + 1)
  /\ (forall i j b c, (i < j)%nat -> outs !! i = Some (Some b) -> outs !! j = Some (Some c) -> period <= Z.of_nat (j - i)).

Lemma spaced_idle lock period outs : spaced (Z.max 0 (lock - 1)) period outs -> spaced lock period (None :: outs).
Proof.
  intros [S1 S2]. split.
  - intros [|i] b; [done|]. cbn. intros Hi%S1. lia.
  - intros [|i] [|j] b c Hij; [lia|done|lia|]. cbn. apply S2. lia.
Qed.
Lemma spaced_sent lock period b outs : lock <= 1 -> spaced period period outs -> spaced lock period (Some b :: outs).
Proof.
  intros Hl [S1 S2]. split.
  - intros [|i] c; cbn; [lia|]. intros Hi%S1. lia.
  - intros [|i] [|j] c d Hij; try lia; cbn; [|apply S2; lia]. intros _ Hj%S1. lia.
Qed.

Definition low_bytes (l : list Z) : list Z := (fun y => y .& 0xff) <$> l.

Lemma midi_run_ok ws : forall q, pm_ok q -> (length (pm_words q ++ (ws ≫= offered)) <= 1023)%nat ->
  exists outs q', midi_run ws q = Some (outs, q') /\ pm_ok q' /\ midi_tx_period q' = midi_tx_period q /\ length outs = length ws
    /\ spaced (midi_lock q) (midi_tx_period q) outs /\ omap id outs ++ low_bytes (pm_words q') = low_bytes (pm_words q ++ (ws ≫= offered)).
Proof.
  induction ws as [|x ws IH]; intros q Ok Hn.
  { exists [], q. cbn. rewrite app_nil_r. split_and!; try done; by intros. }
  cbn [mbind list_bind] in *. rewrite app_assoc in Hn. destruct (midi_step_ok x q Ok) as (o & q1 & E & Ok1 & P1 & Ho); [rewrite length_app in Hn; lia|].
  cbn [midi_run]. rewrite E. cbn [mbind option_bind].
  assert (length (pm_words q1 ++ (ws ≫= offered)) <= 1023)%nat as Hn1.
  { destruct o as [b|]; [destruct Ho as (_ & _ & y & Ey & _); rewrite Ey in Hn; cbn in Hn; lia|destruct Ho as (_ & -> & _); done]. }
  destruct (IH q1 Ok1 Hn1) as (outs & q' & E' & Ok' & P' & L' & S' & B'). rewrite E'. cbn [mbind option_bind].
  exists (o :: outs), q'. split; [done|]. split; [done|]. split; [congruence|]. split; [cbn; lia|]. rewrite P1 in S'. rewrite app_assoc. destruct o as [b|].
  - destruct Ho as (Hl & El & y & Ey & ->). rewrite El in S'. split; [by apply spaced_sent|]. cbn. rewrite Ey, B'. done.
  - destruct Ho as (El & Ew & _). rewrite El in S'. split; [by apply spaced_idle|]. cbn. by rewrite B', Ew.
Qed.

Lemma midi_run_app a b q : midi_run (a ++ b) q = '(o1, q) ← midi_run a q; '(o2, q) ← midi_run b q; Some (o1 ++ o2, q).
Proof.
  revert q. induction a as [|x a IH]; intros q; cbn [app midi_run mbind option_bind].
  - by destruct (midi_run b q) as [[]|].
  - destruct (midi_step x q) as [[o q1]|]; [|done]. cbn [mbind option_bind]. rewrite IH. destruct (midi_run a q1) as [[o1 q2]|]; [|done]. cbn [mbind option_bind].
    by destruct (midi_run b q2) as [[]|].
Qed.

(** Blocks of events: the words of the client with the place of the block in them, and the memory of the block. *)
Record midi_block := mkBlock { mb_words : list Z; mb_offset : nat; mb_nevents : nat; mb_data : list Z }.
Definition block_words (b : midi_block) : list Z := take (mb_nevents b) (drop (mb_offset b) (mb_words b)).
Definition block_ok (stride pos : nat) (b : midi_block) : Prop :=
  (mb_offset b + mb_nevents b <= length (mb_words b))%nat /\ (mb_nevents b * stride <= length (mb_data b))%nat /\ (pos + 3 <= stride)%nat.

Lemma encode_midi_rounds stride pos ws offset n : forall start data q, (pos + 3 <= stride)%nat -> (offset + start + n <= length ws)%nat ->
  ((start + n) * stride <= length data)%nat ->
  for_up n start 1 (fun j '(data, q) =>
    x ← ws !! (offset + j)%nat;
    '(out, q) ← midi_step x q;
    data ← (match out with Some b => store_bytes (pos + j * stride) [0x01; 0x00; b] data | None => Some data end);
    Some (data, q)) (data, q)
  = '(outs, q) ← midi_run (take n (drop (offset + start) ws)) q; Some (put_outs stride (pos + start * stride) outs data, q).
Proof.
  induction n as [|n IH]; intros start data q Hp Hw Hd; [done|].
  destruct (lookup_lt_is_Some_2 ws (offset + start)) as [x Hx]; [lia|]. rewrite (drop_S _ x) by done. cbn [for_up take midi_run]. rewrite Hx. cbn [mbind option_bind].
  destruct (midi_step x q) as [[o q1]|]; [|done]. cbn [mbind option_bind].
  assert (exists data1, (match o with Some b => store_bytes (pos + start * stride) [0x01; 0x00; b] data | None => Some data end) = Some data1
    /\ data1 = match o with Some b => list_inserts (pos + start * stride) [0x01; 0x00; b] data | None => data end /\ length data1 = length data) as (data1 & E & Ed & L).
  { destruct o; [|by exists data]. unfold store_bytes. cbn [length]. rewrite decide_True by nia. eexists. split_and!; [done|done|]. by rewrite length_inserts. }
  rewrite E. cbn [mbind option_bind]. rewrite Nat.add_1_r, IH by (rewrite ?L; lia). rewrite <- Nat.add_succ_r.
  destruct (midi_run _ q1) as [[outs q2]|]; [|done]. cbn [mbind option_bind put_outs]. rewrite Ed. do 3 f_equal. lia.
Qed.

Lemma encode_midi_run stride pos b q : block_ok stride pos b ->
  encode_midi_events stride pos (mb_offset b) (mb_nevents b) (mb_words b) (mb_data b, q)
  = '(outs, q) ← midi_run (block_words b) q; Some (put_outs stride pos outs (mb_data b), q).
Proof.
  intros (H1 & H2 & H3). unfold encode_midi_events, for_loop. rewrite Nat.sub_0_r, Nat.add_0_r, Nat.div_1_r, encode_midi_rounds by lia.
  by rewrite !Nat.add_0_r.
Qed.

Fixpoint send_blocks (stride pos : nat) (bs : list midi_block) (q : paced_midi) : option (list (list Z) * paced_midi) :=
  match bs with
  | [] => Some ([], q)
  | b :: bs => '(data, q) ← encode_midi_events stride pos (mb_offset b) (mb_nevents b) (mb_words b) (mb_data b, q);
      '(ds, q) ← send_blocks stride pos bs q; Some (data :: ds, q)
  end.

(** C21. The MIDI line of the MOTU and RME formats: over any sequence of blocks, bytes that the client puts into its buffer are sent in their order and none is lost as long as
    no more than 1023 of them wait; two of them are never closer than [midi_tx_period] events, also across blocks and independent of how the
    events are cut into blocks; and a block is changed only where a byte is sent. *)
Theorem midi_paced stride pos bs q : pm_ok q -> Forall (block_ok stride pos) bs -> (length (pm_words q ++ ((bs ≫= block_words) ≫= offered)) <= 1023)%nat ->
  exists outss q', send_blocks stride pos bs q = Some (zip_with (fun outs b => put_outs stride pos outs (mb_data b)) outss bs, q') /\ pm_ok q'
    /\ Forall2 (fun outs b => length outs = mb_nevents b) outss bs
    /\ spaced (midi_lock q) (midi_tx_period q) (concat outss)
    /\ omap id (concat outss) ++ low_bytes (pm_words q') = low_bytes (pm_words q ++ ((bs ≫= block_words) ≫= offered)).
Proof.
  intros Ok F Hn. destruct (midi_run_ok _ q Ok Hn) as (outs & q' & E & Ok' & _ & L & S & B). clear Ok Hn.
  assert (exists outss, send_blocks stride pos bs q = Some (zip_with (fun outs b => put_outs stride pos outs (mb_data b)) outss bs, q')
    /\ Forall2 (fun outs b => length outs = mb_nevents b) outss bs /\ outs = concat outss) as (outss & E1 & F2 & ->); [|by exists outss, q'].
  clear S B Ok'. revert q outs E L. induction F as [|b bs Hb F IH]; intros q outs E L; cbn [mbind list_bind] in *.
  - destruct outs; [|done]. injection E as <-. exists []. done.
  - rewrite midi_run_app in E. cbn [send_blocks]. rewrite encode_midi_run by done. destruct (midi_run (block_words b) q) as [[o1 q1]|] eqn:E1; [|done].
    cbn [mbind option_bind] in *. destruct (midi_run (bs ≫= block_words) q1) as [[o2 q2]|] eqn:E2; [|done]. injection E as <- <-.
    assert (forall ws q o q', midi_run ws q = Some (o, q') -> length o = length ws) as Hlen.
    { clear. induction ws as [|x ws IH]; intros q o q'; cbn; [by intros [= <- <-]|]. destruct (midi_step x q) as [[? q1]|]; [|done]. cbn.
      destruct (midi_run ws q1) as [[? ?]|] eqn:E; [|done]. cbn. intros [= <- <-]. cbn. f_equal. by eapply IH. }
    destruct (IH q1 o2 E2 (Hlen _ _ _ _ E2)) as (outss & E3 & F2 & ->). exists (o1 :: outss). rewrite E3. split_and!; [done| |done]. constructor; [|done].
    rewrite (Hlen _ _ _ _ E1). unfold block_words. destruct Hb as (? & _). rewrite length_take, length_drop. lia.
Qed.

(** Three bytes in the first eight events at 48 kHz: one is sent at once, the others sixteen events apart, one of them in the second block. *)
Definition example_line : paced_midi := paced_midi_new (fun _ => 0) 48000.
Definition example_midi_words : list Z := [0x01000090; 0; 0; 0; 0x0100003c; 0; 0; 0x01000064] ++ replicate 40 0.
Definition example_midi_blocks : list midi_block := [mkBlock example_midi_words 0 24 (replicate 96 0); mkBlock example_midi_words 24 24 (replicate 96 0)].

Lemma midi_paced_witness : midi_tx_period example_line = 16 /\ exists outss q',
  send_blocks 4 1 example_midi_blocks example_line = Some (zip_with (fun outs b => put_outs 4 1 outs (mb_data b)) outss example_midi_blocks, q')
  /\ spaced 0 16 (concat outss) /\ omap id (concat outss) ++ low_bytes (pm_words q') = [0x90; 0x3c; 0x64].
Proof.
  split; [reflexivity|]. destruct (midi_paced 4 1 example_midi_blocks example_line) as (outss & q' & E & _ & _ & S & B).
  - vm_compute. repeat split; congruence.
  - repeat constructor; vm_compute; lia.
  - vm_compute. lia.
  - exists outss, q'. split_and!; [exact E|exact S|exact B].
Defined.
