(* ===== verification/Motu.v ===== *)
(** * The MOTU stream processors

    Model of [src/libstreaming/motu/MotuReceiveStreamProcessor.cpp], [MotuTransmitStreamProcessor.cpp] and their headers.  A packet has a header like that of AMDTP and then
    events of [m_event_size] bytes: each begins with its own timestamp (the SPH, in the format of the cycle timer without the seconds) and then has
    control and MIDI bytes and samples of three bytes.

    The test tone and the packet dumps of a non-zero debug level are left out. *)
From S2P Require Import Prelude CycleTimer RingBuffer ByteSwap Ieee754 TimestampedBuffer Ports StreamProcessor Amdtp AmdtpReceive PackedEvents.
#[local] Open Scope Z_scope.

(** From [config.h]; the switch [MOTU_CLIP_FLOATS] is on there. *)
Definition MOTU_TRANSMIT_TRANSFER_DELAY : Z := 0.
Definition MOTU_MIN_CYCLES_BEFORE_PRESENTATION : Z := 0.
Definition MOTU_MAX_CYCLES_TO_TRANSMIT_EARLY : Z := 2.
Definition MOTU_MODEL_828MkI : Z := 5.

(** What the processors use besides [SPWorld]: the cycle timer register, and the ticks per frame of the sync source. *)
Class MotuWorld (W : Type) := {
  getCycleTimer : st W Z;
  sync_ticks_per_frame : W -> float;
}.

(** ** Timestamps *)

Definition fullTicksToSph (timestamp : Z) : Z := TICKS_TO_CYCLE_TIMER timestamp .& 0x1ffffff.

Definition sphRecvToFullTicks (sph ct_now : Z) : Z :=
  let timestamp := u32 (CYCLE_TIMER_TO_TICKS (sph .& 0x1ffffff)) in
  let now_cycles := CYCLE_TIMER_GET_CYCLES ct_now in
  let ts_sec := CYCLE_TIMER_GET_SECS ct_now in
  let ts_sec :=
    if u32 (now_cycles + 1000) <? CYCLE_TIMER_GET_CYCLES sph then (if ts_sec =? 0 then 127 else ts_sec - 1)
    else if CYCLE_TIMER_GET_CYCLES sph + 1000 <? now_cycles then (if ts_sec =? 127 then 0 else ts_sec + 1)
    else ts_sec in
  u32 (timestamp + ts_sec * TICKS_PER_SECOND).

(** ** Samples *)

(** [(a<<16)+(b<<8)+c], with the sign of 24 bits extended. *)
Definition int24_of_bytes (bs : list Z) : Z :=
  match bs with
  | [a; b; c] => let v := (a << 16) + (b << 8) + c in if (a .& 0x80) =? 0 then v else v .| 0xff000000
  | _ => 0
  end.
Definition motu_float_of_bytes (bs : list Z) : Z :=
  let multiplier := fdiv (f_of_Z 1) (f_of_Z 0x7FFFFF) in
  bits_of_float (fmul (f_of_Z (i32 (int24_of_bytes bs))) multiplier).

Definition bytes_of_int24 (x : Z) : list Z := [(x >> 16) .& 0xff; (x >> 8) .& 0xff; x .& 0xff].
(** [if (in > 1.0) in = 1.0; if (in < -1.0) in = -1.0;] *)
Definition clip_float (x : float) : float :=
  let x := if dgt x (f_of_Z 1) then f_of_Z 1 else x in
  if dlt x (f_of_Z (-1)) then f_of_Z (-1) else x.
Definition int24_of_float (x : Z) : Z := u32 (lrintf (fmul (clip_float (float_of_bits x)) (f_of_Z 0x7FFFFF))).

(** ** Device controls *)

Definition MOTUFW_MAX_MIXBUSES : nat := 4.
Definition MOTUFW_MAX_MIXBUS_CHANNELS : nat := 20.

Definition MOTU_KEY_MIDI : Z := 0x01.
Definition MOTU_KEY_SEQ_SYNC : Z := 0x0c.
Definition MOTU_KEY_CHANNEL_GAIN : Z := 0x14.
Definition MOTU_KEY_CHANNEL_PAN : Z := 0x1c.
Definition MOTU_KEY_CHANNEL_CTRL : Z := 0x24.
Definition MOTU_KEY_MIXBUS_GAIN : Z := 0x2c.
Definition MOTU_KEY_MIXBUS_DEST : Z := 0x34.
Definition MOTU_KEY_MAINOUT_VOL : Z := 0x3c.
Definition MOTU_KEY_PHONES_VOL : Z := 0x44.
Definition MOTU_KEY_PHONES_DEST : Z := 0x4c.
Definition MOTU_KEY_INPUT_6dB_BOOST : Z := 0x6c.
Definition MOTU_KEY_INPUT_REF_LEVEL : Z := 0x74.
Definition MOTU_KEY_MASK_MIDI : Z := 0x01.
Definition MOTU_KEY_SEQ_SYNC_MIXBUS1 : Z := 0x00.

Inductive EMotuDevCtrlStatus := MOTU_DEVCTRL_INVALID | MOTU_DEVCTRL_SYNCING | MOTU_DEVCTRL_INIT | MOTU_DEVCTRL_VALID.
#[export] Instance EMotuDevCtrlStatus_eq_dec : EqDecision EMotuDevCtrlStatus.
Proof. solve_decision. Defined.

(** A row of values for the channels with the index of the next one. *)
Record channel_row := mkRow { row_values : list Z; row_index : Z }.
Record MixBus := mkMixBus {
  channel_gain : channel_row;
  channel_pan : channel_row;
  channel_control : channel_row;
  bus_gain : Z;
  bus_dest : Z;
}.

(** [input_20dB_pad] and [input_gaintrim] are not used. *)
Record MotuDevControls := mkControls {
  dc_status : EMotuDevCtrlStatus;
  input_6dB_boost : Z;
  input_ref_level : Z;
  mixbus : list MixBus;
  mixbus_index : Z;
  main_out_volume : Z;
  phones_volume : Z;
  phones_assign : Z;
  n_mixbuses : Z;
  n_channels : Z;
}.

(** [memset(&m_devctrls, 0, sizeof(m_devctrls));] *)
Definition zero_row : channel_row := mkRow (replicate MOTUFW_MAX_MIXBUS_CHANNELS 0) 0.
Definition MotuDevControls_zero : MotuDevControls :=
  mkControls MOTU_DEVCTRL_INVALID 0 0 (replicate MOTUFW_MAX_MIXBUSES (mkMixBus zero_row zero_row zero_row 0 0)) 0 0 0 0 0 0.

Definition with_status (x : EMotuDevCtrlStatus) (c : MotuDevControls) : MotuDevControls :=
  mkControls x (input_6dB_boost c) (input_ref_level c) (mixbus c) (mixbus_index c) (main_out_volume c) (phones_volume c) (phones_assign c) (n_mixbuses c) (n_channels c).
Definition with_mixbus (x : list MixBus) (c : MotuDevControls) : MotuDevControls :=
  mkControls (dc_status c) (input_6dB_boost c) (input_ref_level c) x (mixbus_index c) (main_out_volume c) (phones_volume c) (phones_assign c) (n_mixbuses c) (n_channels c).
Definition with_mixbus_index (x : Z) (c : MotuDevControls) : MotuDevControls :=
  mkControls (dc_status c) (input_6dB_boost c) (input_ref_level c) (mixbus c) x (main_out_volume c) (phones_volume c) (phones_assign c) (n_mixbuses c) (n_channels c).
Definition with_counts (mixbuses channels : Z) (c : MotuDevControls) : MotuDevControls :=
  mkControls (dc_status c) (input_6dB_boost c) (input_ref_level c) (mixbus c) (mixbus_index c) (main_out_volume c) (phones_volume c) (phones_assign c) mixbuses channels.
Definition with_outputs (main phones assign : Z) (c : MotuDevControls) : MotuDevControls :=
  mkControls (dc_status c) (input_6dB_boost c) (input_ref_level c) (mixbus c) (mixbus_index c) main phones assign (n_mixbuses c) (n_channels c).
Definition with_inputs (boost level : Z) (c : MotuDevControls) : MotuDevControls :=
  mkControls (dc_status c) boost level (mixbus c) (mixbus_index c) (main_out_volume c) (phones_volume c) (phones_assign c) (n_mixbuses c) (n_channels c).

(** The states of the synchronisation with the stream of controls. *)
Definition sync_status (control_key arg : Z) (c : MotuDevControls) : MotuDevControls :=
  match dc_status c with
  | MOTU_DEVCTRL_INVALID =>
      if (control_key =? MOTU_KEY_SEQ_SYNC) && (arg =? MOTU_KEY_SEQ_SYNC_MIXBUS1) then with_status MOTU_DEVCTRL_SYNCING c else c
  | MOTU_DEVCTRL_SYNCING =>
      if control_key =? MOTU_KEY_SEQ_SYNC then with_mixbus_index arg c
      else if (control_key =? MOTU_KEY_CHANNEL_GAIN) && (mixbus_index c =? 0) then with_status MOTU_DEVCTRL_INIT c else c
  | MOTU_DEVCTRL_INIT =>
      if (control_key =? MOTU_KEY_SEQ_SYNC) && (arg =? MOTU_KEY_SEQ_SYNC_MIXBUS1) && (0 <? mixbus_index c) then with_status MOTU_DEVCTRL_VALID c else c
  | MOTU_DEVCTRL_VALID => c
  end.

(** [i = row_index++; if (... i < MOTUFW_MAX_MIXBUS_CHANNELS) row[i] = arg;] *)
Definition next_channel (arg : Z) (r : channel_row) : channel_row :=
  mkRow (if row_index r <? Z.of_nat MOTUFW_MAX_MIXBUS_CHANNELS then <[Z.to_nat (row_index r) := arg]> (row_values r) else row_values r) (u8 (row_index r + 1)).

(** The mix bus that is being read; [None] outside of the array. *)
Definition on_mixbus (f : MixBus -> MixBus) (c : MotuDevControls) : option MotuDevControls :=
  b ← mixbus c !! Z.to_nat (mixbus_index c);
  Some (with_mixbus (<[Z.to_nat (mixbus_index c) := f b]> (mixbus c)) c).

Definition reset_row (r : channel_row) : channel_row := mkRow (row_values r) 0.

Definition seq_sync (arg : Z) (c : MotuDevControls) : option MotuDevControls :=
  c ← (if mixbus_index c <? Z.of_nat MOTUFW_MAX_MIXBUSES then
         b ← mixbus c !! Z.to_nat (mixbus_index c);
         Some (if (n_channels c =? 0) && negb (row_index (channel_gain b) =? 0) then with_counts (n_mixbuses c) (row_index (channel_gain b)) c else c)
       else Some c);
  let c := with_mixbus_index (arg >> 5) c in
  if Z.of_nat MOTUFW_MAX_MIXBUSES <=? mixbus_index c then Some c else
  let c := if n_mixbuses c <? mixbus_index c + 1 then with_counts (mixbus_index c + 1) (n_channels c) c else c in
  on_mixbus (fun b => mkMixBus (reset_row (channel_gain b)) (reset_row (channel_pan b)) (reset_row (channel_control b)) (bus_gain b) (bus_dest b)) c.

Definition control_value (control_key arg : Z) (c : MotuDevControls) : option MotuDevControls :=
  if control_key =? MOTU_KEY_SEQ_SYNC then seq_sync arg c
  else if control_key =? MOTU_KEY_CHANNEL_GAIN then
    on_mixbus (fun b => mkMixBus (next_channel arg (channel_gain b)) (channel_pan b) (channel_control b) (bus_gain b) (bus_dest b)) c
  else if control_key =? MOTU_KEY_CHANNEL_PAN then
    on_mixbus (fun b => mkMixBus (channel_gain b) (next_channel arg (channel_pan b)) (channel_control b) (bus_gain b) (bus_dest b)) c
  else if control_key =? MOTU_KEY_CHANNEL_CTRL then
    on_mixbus (fun b => mkMixBus (channel_gain b) (channel_pan b) (next_channel arg (channel_control b)) (bus_gain b) (bus_dest b)) c
  else if control_key =? MOTU_KEY_MIXBUS_GAIN then
    if mixbus_index c <? Z.of_nat MOTUFW_MAX_MIXBUSES
    then on_mixbus (fun b => mkMixBus (channel_gain b) (channel_pan b) (channel_control b) arg (bus_dest b)) c else Some c
  else if control_key =? MOTU_KEY_MIXBUS_DEST then
    if mixbus_index c <? Z.of_nat MOTUFW_MAX_MIXBUSES
    then on_mixbus (fun b => mkMixBus (channel_gain b) (channel_pan b) (channel_control b) (bus_gain b) arg) c else Some c
  else if control_key =? MOTU_KEY_MAINOUT_VOL then Some (with_outputs arg (phones_volume c) (phones_assign c) c)
  else if control_key =? MOTU_KEY_PHONES_VOL then Some (with_outputs (main_out_volume c) arg (phones_assign c) c)
  else if control_key =? MOTU_KEY_PHONES_DEST then Some (with_outputs (main_out_volume c) (phones_volume c) arg c)
  else if control_key =? MOTU_KEY_INPUT_6dB_BOOST then Some (with_inputs arg (input_ref_level c) c)
  else if control_key =? MOTU_KEY_INPUT_REF_LEVEL then Some (with_inputs (input_6dB_boost c) arg c)
  else Some c.

(** One event: its key byte and its argument. *)
Definition control_event (key arg : Z) (c : MotuDevControls) : option MotuDevControls :=
  let control_key := key .& Z.lnot MOTU_KEY_MASK_MIDI in
  let c := sync_status control_key arg c in
  match dc_status c with
  | MOTU_DEVCTRL_INIT | MOTU_DEVCTRL_VALID => control_value control_key arg c
  | _ => Some c
  end.

Definition decodeMotuCtrlEvents (event_size : nat) (data : list Z) (nevents : nat) (c : MotuDevControls) : option MotuDevControls :=
  for_loop 0 nevents 1 (fun j c =>
    key ← data !! (4 + j * event_size)%nat;
    arg ← data !! (5 + j * event_size)%nat;
    control_event key arg c) c.

(** ** The receive processor *)

Record MotuReceiveStreamProcessor := mkMotuRx {
  mrx_event_size : Z;
  m_motu_model : Z;
  m_devctrls : MotuDevControls;
  mrx_queue : midi_queue;
  mrx_infos : packed_infos;
}.

Definition MotuReceiveStreamProcessor_new (junk : nat -> Z) (model event_size : Z) : MotuReceiveStreamProcessor :=
  mkMotuRx event_size model MotuDevControls_zero (mkQueue (junk <$> seq 0 (Z.to_nat RX_MIDIBUFFER_SIZE)) 0 0) [].

(** The same numbers in both classes. *)
Definition motu_max_packet_size (framerate : Z) : Z := if framerate <=? 48000 then 904 else if framerate <=? 96000 then 1416 else 1672.
Definition motu_frames_per_packet (framerate : Z) : Z := if framerate <=? 48000 then 8 else if framerate <=? 96000 then 16 else 32.

Section motu_receive.
Context {W : Type} `{SPWorld W} `{MotuWorld W} `{Platform}.
Abbreviation S := (sp_state MotuReceiveStreamProcessor W).
Abbreviation M := (run S).

Definition mrx_set (c : MotuDevControls) (q : midi_queue) : M unit :=
  modify (fun s => let r := child s in mkState (sp s) (mkMotuRx (mrx_event_size r) (m_motu_model r) c q (mrx_infos r)) (world s)).

Definition mrx_getMaxPacketSize : M Z := rate ← from_world getNominalRate; mret (motu_max_packet_size rate).
Definition mrx_prepareChild : M bool := mret true.

(** A quadlet of the packet in host order; [None] outside of the memory. *)
Definition load_bus_quad (i : nat) (data : list Z) : option Z :=
  let bs := take 4 (drop i data) in
  if decide (length bs = 4%nat) then Some (CondSwapFromBus32 big_endian (quad_load big_endian bs)) else None.

Definition get_bits (d start len : Z) : Z := (d >> (start - len + 1)) .& ((1 << len) - 1).

(** [(length-8) / m_event_size]; [None]: a division by zero. *)
Definition mrx_events (r : MotuReceiveStreamProcessor) (length : Z) : option Z :=
  if mrx_event_size r =? 0 then None else Some (u32 (length - 8) / mrx_event_size r).

Definition mrx_processPacketHeader (data : list Z) (length tag sy pkt_ctr : Z) : M eChildReturnValue :=
  if 8 <? length then
    q0 ← lift (load_bus_quad 0 data);
    q1 ← lift (load_bus_quad 4 data);
    let dbs := get_bits q0 23 8 in
    let fdf_size := if get_bits q1 23 8 =? 0x22 then 32 else 0 in
    if negb (tag =? 1) || (negb (fdf_size =? 32) && negb (fdf_size =? 0)) || (dbs =? 0) then mret eCRV_Invalid else
    r ← gets child;
    n_events ← lift (mrx_events r length);
    last_sph ← lift (load_bus_quad (Z.to_nat (8 + u32 ((n_events - 1) * mrx_event_size r))) data);
    ct ← call_world getCycleTimer;
    set_last_timestamp (sphRecvToFullTicks last_sph ct) ;;
    mret eCRV_OK
  else mret eCRV_Invalid.

Definition mrx_processPacketData (data : list Z) (length : Z) : M eChildReturnValue :=
  r ← gets child;
  n_events ← lift (mrx_events r length);
  ts ← get_last_timestamp;
  ok ← call_buffer (writeFrames n_events (drop 8 data) (d_of_Z ts));
  mret (if ok : bool then eCRV_OK else eCRV_XRun).

Definition decodeMotuEventsToPort (type : eAudioDataType) (event_size position : nat) (data : list Z) (offset nevents : nat) (p : Port) : option Port :=
  fits_buffer debug_build nevents offset p
    (with_words (decode_events (match type with eADT_Int24 => int24_of_bytes | eADT_Float => motu_float_of_bytes end) 3 event_size position offset nevents data) p).

(** One event: a MIDI byte goes to the queue, and at every eighth event the oldest byte goes to the client.  [pos] is the pointer [buffer]. *)
Definition motu_midi_event (event_size position : nat) (data : list Z) (j : nat) (st : list Z * nat * midi_queue) : option (list Z * nat * midi_queue) :=
  let '(ws, pos, q) := st in
  key ← data !! (position + j * event_size)%nat;
  q ← (if (key .& MOTU_KEY_MASK_MIDI) =? MOTU_KEY_MASK_MIDI
       then b ← data !! (position + j * event_size + 2)%nat; midi_put (0x01000000 .| b) q else Some q);
  if (j mod 8 =? 0)%nat then
    '(x, q) ← midi_get q;
    ws ← (match x with Some x => store pos x ws | None => Some ws end);
    Some (ws, (pos + 8)%nat, q)
  else Some (ws, pos, q).

Definition decodeMotuMidiEventsToPort (event_size position : nat) (data : list Z) (offset nevents : nat) (p : Port) (q : midi_queue) :
    option (Port * midi_queue) :=
  fits_buffer debug_build nevents offset p
    (let run ws := ws ← clear_words offset nevents ws; for_loop 0 nevents 1 (motu_midi_event event_size position data) (ws, offset, q) in
     match m_buffer p with
     | Some ws => '(ws, _, q) ← run ws; Some (with_buffer (Some ws) p, q)
     | None => '(_, _, q) ← run []; Some (p, q)
     end).

Definition mrx_decode_port (type : eAudioDataType) (r : MotuReceiveStreamProcessor) (data : list Z) (offset nevents : nat) (p : Port) (q : midi_queue) :
    option (Port * midi_queue) :=
  if m_disabled p then Some (p, q) else
  match m_PortType p with
  | E_Audio => pos ← position_of (mrx_infos r) (port_this p);
      p ← decodeMotuEventsToPort type (Z.to_nat (mrx_event_size r)) (Z.to_nat pos) data offset nevents p; Some (p, q)
  | E_Midi => pos ← position_of (mrx_infos r) (port_this p);
      decodeMotuMidiEventsToPort (Z.to_nat (mrx_event_size r)) (Z.to_nat pos) data offset nevents p q
  | E_Control => Some (p, q)
  end.

Definition mrx_processReadBlock (data : list Z) (nevents offset : Z) : M bool :=
  r ← gets child; ps ← gets (fun s => m_Ports (ports (sp s))); type ← from_world getAudioDataType;
  c ← lift (if m_motu_model r =? MOTU_MODEL_828MkI then Some (m_devctrls r)
            else decodeMotuCtrlEvents (Z.to_nat (mrx_event_size r)) data (Z.to_nat nevents) (m_devctrls r));
  '(ps, q) ← lift (for_ports (mrx_decode_port type r data (Z.to_nat offset) (Z.to_nat nevents)) ps (mrx_queue r));
  mrx_set c q ;; call_ports (fun m => (tt, with_ports ps m)) ;; mret true.
End motu_receive.

#[export] Instance motu_rx_child {W} `{SPWorld W} `{MotuWorld W} `{Platform} : SPChild MotuReceiveStreamProcessor W := {
  getEventsPerFrame _ := 1;
  getEventSize r := mrx_event_size r;
  getNominalFramesPerPacket _ w := motu_frames_per_packet (getNominalRate w);
  prepareChild := mrx_prepareChild;
  processPacketHeader := mrx_processPacketHeader;
  processPacketData := mrx_processPacketData;
  generatePacketHeader p _ := call_not_allowed p;
  generatePacketData := call_not_allowed;
  generateEmptyPacketHeader p _ := call_not_allowed p;
  generateEmptyPacketData := call_not_allowed;
  generateSilentPacketHeader p _ := call_not_allowed p;
  generateSilentPacketData := call_not_allowed;
  transmitSilenceBlock d _ _ := mret (false, d);
  block_client := {| processReadBlock := mrx_processReadBlock; processWriteBlock d _ _ := mret (false, d) |};
}.

(** ** The transmit processor *)

Record MotuTransmitStreamProcessor := mkMotuTx {
  mtx_event_size : Z;
  m_event_pad_bytes : Z;
  mtx_model : Z;
  m_tx_dbc : Z;
  mtx_midi : paced_midi;
  mtx_infos : packed_infos;
}.

Definition MotuTransmitStreamProcessor_new (junk : nat -> Z) (rate model event_size : Z) : MotuTransmitStreamProcessor :=
  mkMotuTx event_size (u32 (event_size - 4) mod 3) model 0 (paced_midi_new junk rate) [].

Section motu_transmit.
Context {W : Type} `{SPWorld W} `{MotuWorld W} `{Platform}.
Abbreviation S := (sp_state MotuTransmitStreamProcessor W).
Abbreviation M := (run S).

Definition mtx_on_child (f : MotuTransmitStreamProcessor -> MotuTransmitStreamProcessor) : M unit :=
  modify (fun s => mkState (sp s) (f (child s)) (world s)).
Definition mtx_set_dbc (x : Z) : M unit :=
  mtx_on_child (fun t => mkMotuTx (mtx_event_size t) (m_event_pad_bytes t) (mtx_model t) x (mtx_midi t) (mtx_infos t)).
Definition mtx_set_midi (x : paced_midi) : M unit :=
  mtx_on_child (fun t => mkMotuTx (mtx_event_size t) (m_event_pad_bytes t) (mtx_model t) (m_tx_dbc t) x (mtx_infos t)).

Definition mtx_getMaxPacketSize : M Z := rate ← from_world getNominalRate; mret (motu_max_packet_size rate).
Definition mtx_frames : M Z := rate ← from_world getNominalRate; mret (motu_frames_per_packet rate).

(** [*quadlet = CondSwapToBus32(x)] *)
Definition bus_bytes (x : Z) : list Z := quad_store big_endian (CondSwapToBus32 big_endian x).
Definition store_quad (i : nat) (x : Z) (data : list Z) : option (list Z) := store_bytes i (bus_bytes x) data.

(** The two quadlets of the header. *)
Definition write_motu_header (node event_size dbc : Z) (data : list Z) : option (list Z) :=
  data ← store_quad 0 (u32 (0x00000400 .| ((node .& 0x3f) << 24) .| dbc .| ((event_size / 4) << 16))) data;
  store_quad 4 0x8222ffff data.

Definition motu_fillDataPacketHeader (p : packet) (ts : Z) : M (Z * packet) :=
  t ← gets child; n_events ← mtx_frames; node ← from_world getLocalNodeId;
  let dbc := u32 (m_tx_dbc t + n_events) in
  let dbc := if 0xff <? dbc then dbc - 0x100 else dbc in
  mtx_set_dbc dbc ;;
  data ← lift (write_motu_header node (mtx_event_size t) dbc (p_data p));
  mret (n_events, mkPacket data (p_length p) (p_tag p) (p_sy p)).

Definition motu_fillNoDataPacketHeader (p : packet) : M (Z * packet) :=
  t ← gets child; node ← from_world getLocalNodeId;
  data ← lift (write_motu_header node (mtx_event_size t) (m_tx_dbc t) (p_data p));
  mret (0, mkPacket data 8 (p_tag p) (p_sy p)).

(** [fillDataPacketHeader(...); m_last_timestamp = presentation_time; return eCRV_Packet;], in either order of the first two. *)
Definition motu_data_packet (p : packet) (presentation_time : Z) : M (eChildReturnValue * packet) :=
  '(_, p) ← motu_fillDataPacketHeader p (u32 presentation_time);
  set_last_timestamp presentation_time ;; mret (eCRV_Packet, p).

(** [cycles_until_presentation] and [cycles_until_transmit]. *)
Definition motu_window (presentation_time pkt_ctr : Z) : Z * Z :=
  let transmit_at_time := substractTicks presentation_time MOTU_TRANSMIT_TRANSFER_DELAY in
  (diffCycles (u32 (TICKS_TO_CYCLES presentation_time)) (CYCLE_TIMER_GET_CYCLES pkt_ctr),
   diffCycles (u32 (TICKS_TO_CYCLES transmit_at_time)) (CYCLE_TIMER_GET_CYCLES pkt_ctr)).

(** The decision that data packets and silent packets share, once there are frames. *)
Definition motu_send (p : packet) (presentation_time pkt_ctr : Z) : M (eChildReturnValue * packet) :=
  let '(cycles_until_presentation, cycles_until_transmit) := motu_window presentation_time pkt_ctr in
  if cycles_until_transmit <? 0 then
    if MOTU_MIN_CYCLES_BEFORE_PRESENTATION <=? cycles_until_presentation then motu_data_packet p presentation_time else mret (eCRV_XRun, p)
  else if cycles_until_transmit <=? MOTU_MAX_CYCLES_TO_TRANSMIT_EARLY then motu_data_packet p presentation_time
  else mret (eCRV_EmptyPacket, p).

Definition motu_begin (p : packet) : M packet :=
  t ← gets child; n_events ← mtx_frames;
  mret (mkPacket (p_data p) (u32 (n_events * mtx_event_size t + 8)) 1 0).

Definition mtx_generatePacketHeader (p : packet) (pkt_ctr : Z) : M (eChildReturnValue * packet) :=
  p ← motu_begin p;
  '(ts_head_tmp, fc) ← from_buffer getBufferHeadTimestamp;
  n_events ← mtx_frames;
  let presentation_time := u64 (Z_of_float ts_head_tmp) in
  if fc <? n_events then
    if (motu_window presentation_time pkt_ctr).1 <=? MOTU_MIN_CYCLES_BEFORE_PRESENTATION then mret (eCRV_XRun, p) else mret (eCRV_Again, p)
  else motu_send p presentation_time pkt_ctr.

(** The timestamp of frame [i]: [addTicks(m_last_timestamp, (unsigned int)lrintf(i * ticks_per_frame))]. *)
Definition frame_ticks (base : Z) (tpf : float) (i : nat) : Z := addTicks base (u32 (lrintf (fmul (f_of_Z (Z.of_nat i)) tpf))).

(** Each frame's SPH; [dbs] is in quadlets. *)
Definition write_sphs (base : Z) (tpf : float) (dbs n_events : nat) (data : list Z) : option (list Z) :=
  for_loop 0 n_events 1 (fun i => store_quad (8 + i * (4 * dbs)) (fullTicksToSph (frame_ticks base tpf i))) data.

(** [*s = *(s+1) = 0], whether there are one or two pad bytes. *)
Definition clear_pads (event_size pad n_events : nat) (data : list Z) : option (list Z) :=
  if decide (pad = 0%nat) then Some data else
  for_loop 0 n_events 1 (fun i => store_bytes (8 + event_size - pad + i * event_size) [0; 0]) data.

Definition mtx_generatePacketData (p : packet) : M (eChildReturnValue * packet) :=
  t ← gets child; n_events ← mtx_frames;
  '(ok, d) ← call_buffer (fun b => '(ok, d, b) ← readFrames n_events b; Some ((ok, d), b));
  data ← lift (store_bytes 8 d (p_data p));
  if ok : bool then
    tpf ← from_world sync_ticks_per_frame; ts ← get_last_timestamp;
    data ← lift (write_sphs ts tpf (Z.to_nat (mtx_event_size t / 4)) (Z.to_nat n_events) data);
    data ← lift (clear_pads (Z.to_nat (mtx_event_size t)) (Z.to_nat (m_event_pad_bytes t)) (Z.to_nat n_events) data);
    mret (eCRV_OK, mkPacket data (p_length p) (p_tag p) (p_sy p))
  else mret (eCRV_XRun, mkPacket data (p_length p) (p_tag p) (p_sy p)).

Definition mtx_generateEmptyPacketHeader (p : packet) (pkt_ctr : Z) : M (eChildReturnValue * packet) :=
  '(_, p) ← motu_fillNoDataPacketHeader (mkPacket (p_data p) 8 1 0);
  mret (eCRV_OK, p).
Definition mtx_generateEmptyPacketData (p : packet) : M (eChildReturnValue * packet) := mret (eCRV_OK, p).

Definition mtx_generateSilentPacketHeader (p : packet) (pkt_ctr : Z) : M (eChildReturnValue * packet) :=
  p ← motu_begin p;
  n_events ← mtx_frames; tpf ← from_world sync_ticks_per_frame; ts ← get_last_timestamp;
  motu_send p (frame_ticks ts tpf (Z.to_nat n_events)) pkt_ctr.

Definition mtx_generateSilentPacketData (p : packet) : M (eChildReturnValue * packet) :=
  t ← gets child; n_events ← mtx_frames; tpf ← from_world sync_ticks_per_frame; ts ← get_last_timestamp;
  data ← lift (store_bytes 8 (replicate (Z.to_nat (n_events * mtx_event_size t)) 0) (p_data p));
  data ← lift (write_sphs ts tpf (Z.to_nat (mtx_event_size t / 4)) (Z.to_nat n_events) data);
  mret (eCRV_OK, mkPacket data (p_length p) (p_tag p) (p_sy p)).

Definition mtx_prepareChild : M bool := mret true.

(** ** Blocks *)

Definition encodePortToMotuEvents (type : eAudioDataType) (event_size position offset nevents : nat) (p : Port) (data : list Z) : option (list Z) :=
  fits_buffer debug_build nevents offset p
    (encode_events (match type with eADT_Int24 => bytes_of_int24 | eADT_Float => fun x => bytes_of_int24 (int24_of_float x) end)
       event_size position offset nevents (default [] (m_buffer p)) data).
Definition encodeSilencePortToMotuEvents (event_size position nevents : nat) (data : list Z) : option (list Z) :=
  clear_events [0; 0; 0] event_size position nevents data.
Definition encodePortToMotuMidiEvents (event_size position offset nevents : nat) (p : Port) (st : list Z * paced_midi) : option (list Z * paced_midi) :=
  encode_midi_events event_size position offset nevents (default [] (m_buffer p)) st.
Definition encodeSilencePortToMotuMidiEvents (event_size position nevents : nat) (data : list Z) : option (list Z) :=
  encode_midi_silence event_size position nevents data.

(** A disabled port is sent as silence, whatever its type. *)
Definition mtx_encode_port (type : eAudioDataType) (t : MotuTransmitStreamProcessor) (offset nevents : nat) (p : Port) (st : list Z * paced_midi) :
    option (Port * (list Z * paced_midi)) :=
  let es := Z.to_nat (mtx_event_size t) in
  if m_disabled p then
    pos ← position_of (mtx_infos t) (port_this p);
    data ← encodeSilencePortToMotuEvents es (Z.to_nat pos) nevents st.1; Some (p, (data, st.2))
  else
  match m_PortType p with
  | E_Audio => pos ← position_of (mtx_infos t) (port_this p);
      data ← encodePortToMotuEvents type es (Z.to_nat pos) offset nevents p st.1; Some (p, (data, st.2))
  | E_Midi => pos ← position_of (mtx_infos t) (port_this p);
      st ← encodePortToMotuMidiEvents es (Z.to_nat pos) offset nevents p st; Some (p, st)
  | E_Control => Some (p, st)
  end.

(** [memset(data+4+i*m_event_size, 0x00, 6)] for each event. *)
Definition clear_controls (event_size nevents : nat) (data : list Z) : option (list Z) :=
  for_loop 0 nevents 1 (fun i => store_bytes (4 + i * event_size) [0; 0; 0; 0; 0; 0]) data.

Definition mtx_processWriteBlock (data : list Z) (nevents offset : Z) : M (bool * list Z) :=
  t ← gets child; ps ← gets (fun s => m_Ports (ports (sp s))); type ← from_world getAudioDataType;
  data ← lift (clear_controls (Z.to_nat (mtx_event_size t)) (Z.to_nat nevents) data);
  '(_, (data, q)) ← lift (for_ports (mtx_encode_port type t (Z.to_nat offset) (Z.to_nat nevents)) ps (data, mtx_midi t));
  mtx_set_midi q ;; mret (true, data).

Definition mtx_silence_port (t : MotuTransmitStreamProcessor) (nevents : nat) (p : Port) (data : list Z) : option (Port * list Z) :=
  let es := Z.to_nat (mtx_event_size t) in
  match m_PortType p with
  | E_Audio => pos ← position_of (mtx_infos t) (port_this p); data ← encodeSilencePortToMotuEvents es (Z.to_nat pos) nevents data; Some (p, data)
  | E_Midi => pos ← position_of (mtx_infos t) (port_this p); data ← encodeSilencePortToMotuMidiEvents es (Z.to_nat pos) nevents data; Some (p, data)
  | E_Control => Some (p, data)
  end.
Definition mtx_transmitSilenceBlock (data : list Z) (nevents offset : Z) : M (bool * list Z) :=
  t ← gets child; ps ← gets (fun s => m_Ports (ports (sp s)));
  '(_, data) ← lift (for_ports (mtx_silence_port t (Z.to_nat nevents)) ps data);
  mret (true, data).
End motu_transmit.

#[export] Instance motu_tx_child {W} `{SPWorld W} `{MotuWorld W} `{Platform} : SPChild MotuTransmitStreamProcessor W := {
  getEventsPerFrame _ := 1;
  getEventSize t := mtx_event_size t;
  getNominalFramesPerPacket _ w := motu_frames_per_packet (getNominalRate w);
  prepareChild := mtx_prepareChild;
  processPacketHeader _ _ _ _ _ := mret eCRV_Invalid;
  processPacketData _ _ := mret eCRV_Invalid;
  generatePacketHeader := mtx_generatePacketHeader;
  generatePacketData := mtx_generatePacketData;
  generateEmptyPacketHeader := mtx_generateEmptyPacketHeader;
  generateEmptyPacketData := mtx_generateEmptyPacketData;
  generateSilentPacketHeader := mtx_generateSilentPacketHeader;
  generateSilentPacketData := mtx_generateSilentPacketData;
  transmitSilenceBlock := mtx_transmitSilenceBlock;
  block_client := {| processReadBlock _ _ _ := mret false; processWriteBlock := mtx_processWriteBlock |};
}.
