(* ===== verification/MotuStream.v ===== *)
(** * MOTU streams

    The MOTU processors as subclasses of the stream processor: they leave its state machine alone; the parser of device controls stays within its arrays as long as the
    device numbers its mix buses as expected; samples of 24 bits come through a block unchanged; and a packet carries its frames and the time of its last frame. *)
From S2P Require Import Prelude CycleTimer RingBuffer ByteSwap Ieee754 TimestampedBuffer FrameBuffer Ports StreamProcessor StreamStates.
From S2P Require Import Amdtp AmdtpReceive AmdtpTransmit AmdtpAudio AmdtpStream PackedEvents Motu.
#[local] Open Scope Z_scope.

(** ** The state machine *)

Lemma quiet_mtx_on_child {W} f : steady quiet (mtx_on_child f : run (sp_state _ W) unit).
Proof. apply quiet_child. Qed.
Lemma quiet_mrx_set {W} c q : steady quiet (mrx_set c q : run (sp_state _ W) unit).
Proof. by intros s a s' [= <- <-]. Qed.
#[export] Hint Resolve quiet_mtx_on_child quiet_mrx_set : steady.

#[export] Instance motu_rx_quiet {W} `{SPWorld W} `{MotuWorld W} `{Platform} : SPChildQuiet MotuReceiveStreamProcessor W.
Proof.
  split; intros; cbn; unfold call_not_allowed; steady.
  - unfold mrx_prepareChild. steady.
  - unfold mrx_processPacketHeader, set_last_timestamp. steady.
  - unfold mrx_processPacketData, get_last_timestamp. steady.
  - unfold mrx_processReadBlock, from_world. steady.
Qed.

#[export] Instance motu_tx_quiet {W} `{SPWorld W} `{MotuWorld W} `{Platform} : SPChildQuiet MotuTransmitStreamProcessor W.
Proof.
  split; intros; cbn; steady.
  - unfold mtx_prepareChild. steady.
  - unfold mtx_generatePacketHeader, motu_begin, motu_send, motu_data_packet, motu_fillDataPacketHeader, mtx_frames, mtx_set_dbc, set_last_timestamp, from_buffer, from_world. steady.
  - unfold mtx_generatePacketData, mtx_frames, get_last_timestamp, from_world. steady.
  - unfold mtx_generateEmptyPacketHeader, motu_fillNoDataPacketHeader, from_world. steady.
  - unfold mtx_generateEmptyPacketData. steady.
  - unfold mtx_generateSilentPacketHeader, motu_begin, motu_send, motu_data_packet, motu_fillDataPacketHeader, mtx_frames, mtx_set_dbc, set_last_timestamp, get_last_timestamp, from_world. steady.
  - unfold mtx_generateSilentPacketData, mtx_frames, get_last_timestamp, from_world. steady.
  - unfold mtx_transmitSilenceBlock. steady.
  - unfold mtx_processWriteBlock, mtx_set_midi, from_world. steady.
Qed.

(** ** Device controls *)

Definition row_ok (r : channel_row) : Prop := length (row_values r) = MOTUFW_MAX_MIXBUS_CHANNELS /\ 0 <= row_index r < 256.
Definition bus_ok (b : MixBus) : Prop := row_ok (channel_gain b) /\ row_ok (channel_pan b) /\ row_ok (channel_control b).
Definition reading (c : MotuDevControls) : bool := match dc_status c with MOTU_DEVCTRL_INIT | MOTU_DEVCTRL_VALID => true | _ => false end.
Definition controls_ok (c : MotuDevControls) : Prop :=
  length (mixbus c) = MOTUFW_MAX_MIXBUSES /\ Forall bus_ok (mixbus c) /\ 0 <= n_mixbuses c <= Z.of_nat MOTUFW_MAX_MIXBUSES
  /\ 0 <= n_channels c < 256 /\ (reading c = true -> 0 <= mixbus_index c < Z.of_nat MOTUFW_MAX_MIXBUSES).

Lemma controls_zero_ok : controls_ok MotuDevControls_zero.
Proof. split_and!; try done. repeat constructor; done. Qed.

Lemma next_channel_ok x r : row_ok r -> row_ok (next_channel x r).
Proof. intros [L I]. split; cbn; [destruct (_ <? _); by rewrite ?length_insert|]. apply wrapU_range. lia. Qed.
Lemma reset_row_ok r : row_ok r -> row_ok (reset_row r).
Proof. by intros [L I]. Qed.

Lemma on_mixbus_ok f c : (forall b, bus_ok b -> bus_ok (f b)) -> controls_ok c -> 0 <= mixbus_index c < Z.of_nat MOTUFW_MAX_MIXBUSES ->
  exists c', on_mixbus f c = Some c' /\ controls_ok c'.
Proof.
  intros Hf (L & F & H) Hi. unfold on_mixbus. destruct (lookup_lt_is_Some_2 (mixbus c) (Z.to_nat (mixbus_index c))) as [b Hb]; [lia|].
  rewrite Hb. cbn [mbind option_bind]. eexists. split; [reflexivity|]. split; [cbn; by rewrite length_insert|]. split; [|exact H].
  cbn. apply Forall_insert; [done|]. apply Hf. by eapply Forall_lookup_1 in F.
Qed.

Lemma sync_status_ok key arg c : controls_ok c -> controls_ok (sync_status key arg c).
Proof.
  intros (L & F & N & K & I). assert (controls_ok c) as Ok by done. unfold sync_status. destruct (dc_status c) eqn:E; repeat case_match; try exact Ok;
    (split_and!; [exact L|exact F|apply N|apply N|apply K|apply K|]); unfold reading in *; cbn; rewrite ?E in *; try done; intros _.
  - match goal with H : (_ =? _) && (mixbus_index c =? 0) = true |- _ => apply andb_true_iff in H as [_ H%Z.eqb_eq]; rewrite H end. unfold MOTUFW_MAX_MIXBUSES. lia.
Qed.

(** The bytes that a device sends: the bus that a sequence sync announces exists. *)
Definition expected_control (key arg : Z) : Prop := 0 <= arg /\ (key .& Z.lnot MOTU_KEY_MASK_MIDI = MOTU_KEY_SEQ_SYNC -> arg < 0x80).

Lemma seq_sync_ok arg c : controls_ok c -> 0 <= mixbus_index c < Z.of_nat MOTUFW_MAX_MIXBUSES -> 0 <= arg < 0x80 -> exists c', seq_sync arg c = Some c' /\ controls_ok c'.
Proof.
  intros Ok Hi Ha. unfold seq_sync. rewrite (proj2 (Z.ltb_lt _ _)) by lia. destruct Ok as (L & F & N & K & I).
  destruct (lookup_lt_is_Some_2 (mixbus c) (Z.to_nat (mixbus_index c))) as [b Hb]; [lia|]. rewrite Hb. cbn [mbind option_bind].
  assert (0 <= arg >> 5 < 4) as Ha5 by (rewrite Z.shiftr_div_pow2 by lia; zlia).
  assert (0 <= row_index (channel_gain b) < 256) as Hg by (eapply Forall_lookup_1 in F as [[_ Hg] _]; [exact Hg|exact Hb]).
  unfold MOTUFW_MAX_MIXBUSES in *. rewrite (proj2 (Z.leb_gt _ _)) by (cbn; lia).
  apply on_mixbus_ok.
  - intros b' (B1 & B2 & B3). split_and!; by apply reset_row_ok.
  - repeat case_match; split_and!; cbn; try done; unfold MOTUFW_MAX_MIXBUSES; lia.
  - repeat case_match; cbn; unfold MOTUFW_MAX_MIXBUSES; lia.
Qed.

Lemma control_event_ok key arg c : expected_control key arg -> controls_ok c -> exists c', control_event key arg c = Some c' /\ controls_ok c'.
Proof.
  intros [Ha Hs] Ok. unfold control_event. set (k := key .& _) in *. pose proof (sync_status_ok k arg c Ok) as Ok1. set (c1 := sync_status k arg c) in *.
  destruct (reading c1) eqn:R; [|unfold reading in R; destruct (dc_status c1); (done || by exists c1)].
  assert (0 <= mixbus_index c1 < Z.of_nat MOTUFW_MAX_MIXBUSES) as Hi by (by apply Ok1).
  assert (exists c', control_value k arg c1 = Some c' /\ controls_ok c') as G; [|unfold reading in R; destruct (dc_status c1); done].
  unfold control_value. rewrite (proj2 (Z.ltb_lt _ _)) by lia.
  destruct (Z.eqb_spec k MOTU_KEY_SEQ_SYNC) as [E|_]; [by apply seq_sync_ok; auto|].
  repeat (case_match; [first [apply on_mixbus_ok; [intros b (B1 & B2 & B3); split_and!; first [done|by apply next_channel_ok]|done|done] | eexists; split; [reflexivity|exact Ok1]]|]).
  eexists. split; [reflexivity|exact Ok1].
Qed.

(** C17. The parser of device controls: whatever blocks of events are read, whatever the state of the synchronisation is and however many values come for a channel row, the parser
    stays within the arrays of mix buses and channels and returns, as long as no sequence sync announces a mix bus beyond the fourth. *)
Theorem controls_in_bounds es data n c : controls_ok c -> (n * es <= length data)%nat -> (6 <= es)%nat ->
  (forall j key arg, (j < n)%nat -> data !! (4 + j * es)%nat = Some key -> data !! (5 + j * es)%nat = Some arg -> expected_control key arg) ->
  exists c', decodeMotuCtrlEvents es data n c = Some c' /\ controls_ok c'.
Proof.
  intros Ok L He Hx. unfold decodeMotuCtrlEvents, for_loop. rewrite Nat.sub_0_r, Nat.add_0_r, Nat.div_1_r.
  assert (forall m start c, (start + m <= n)%nat -> controls_ok c -> exists c', for_up m start 1 (fun j c =>
    key ← data !! (4 + j * es)%nat; arg ← data !! (5 + j * es)%nat; control_event key arg c) c = Some c' /\ controls_ok c') as G; [|by apply G].
  clear c Ok. induction m as [|m IH]; intros start c Hm Ok; [by exists c|]. cbn [for_up].
  destruct (lookup_lt_is_Some_2 data (4 + start * es)) as [key Ek]; [nia|]. destruct (lookup_lt_is_Some_2 data (5 + start * es)) as [arg Ea]; [nia|].
  destruct (control_event_ok key arg c) as (c1 & E1 & Ok1); [eapply Hx; [|exact Ek|exact Ea]; lia|done|].
  rewrite Ek, Ea. cbn [mbind option_bind]. rewrite E1. cbn [mbind option_bind]. apply IH; [lia|done].
Qed.

(** Events of six bytes with a key and an argument. *)
Definition control_block (l : list (Z * Z)) : list Z := l ≫= (fun ka => [0; 0; 0; 0; ka.1; ka.2]).
(** The stream of a device with two buses of two channels: the parser is in step after one round. *)
Definition example_round : list (Z * Z) := [(0x0c, 0x00); (0x14, 10); (0x14, 11); (0x2c, 100); (0x0c, 0x20); (0x14, 20); (0x14, 21)].

Lemma controls_in_bounds_witness : exists c', decodeMotuCtrlEvents 6 (control_block (example_round ++ example_round ++ [(0x0c, 0x00)])) 15 MotuDevControls_zero = Some c'
  /\ controls_ok c' /\ dc_status c' = MOTU_DEVCTRL_VALID /\ n_mixbuses c' = 2 /\ n_channels c' = 2.
Proof.
  destruct (controls_in_bounds 6 (control_block (example_round ++ example_round ++ [(0x0c, 0x00)])) 15 MotuDevControls_zero) as (c' & E & Ok).
  - exact controls_zero_ok.
  - vm_compute. lia.
  - lia.
  - intros j key arg Hj Ek Ea. do 15 (destruct j as [|j]; [vm_compute in Ek, Ea; injection Ek as <-; injection Ea as <-; vm_compute; split; congruence|]). lia.
  - exists c'. split; [exact E|]. split; [exact Ok|]. vm_compute in E. injection E as <-. vm_compute. done.
Defined.

(** A sync that announces the fifth bus, which is only warned about, and a gain: the index of the fifth bus is incremented. *)
Example mixbus_overrun : decodeMotuCtrlEvents 6 (control_block (example_round ++ [(0x0c, 0x80); (0x14, 1)])) 9 MotuDevControls_zero = None.
Proof. by vm_compute. Qed.

(** ** Samples *)

(** What the receiver gets for a word: 24 bits with their sign. *)
Definition sign24 (x : Z) : Z := let v := x mod 2 ^ 24 in if v <? 2 ^ 23 then v else v + 0xff000000.

Lemma byte_sign a : 0 <= a < 256 -> ((a .& 0x80) =? 0) = (a <? 128).
Proof.
  intros Ha. assert (forallb (fun n => Bool.eqb ((Z.of_nat n .& 0x80) =? 0) (Z.of_nat n <? 128)) (seq 0 256) = true) as F by (by vm_compute).
  rewrite forallb_forall in F. specialize (F (Z.to_nat a)). rewrite Z2Nat.id in F by lia. apply eqb_prop, F, in_seq. lia.
Qed.

Lemma int24_bytes x : int24_of_bytes (bytes_of_int24 x) = sign24 x.
Proof.
  unfold int24_of_bytes, bytes_of_int24, sign24. cbv zeta. change 0xff with (2 ^ 8 - 1). rewrite !land_mask_mod, !Z.shiftr_div_pow2, !Z.shiftl_mul_pow2 by lia.
  change (2 ^ 8) with 256. change (2 ^ 16) with 65536. change (2 ^ 24) with 16777216. change (2 ^ 23) with 8388608.
  assert ((x / 65536) mod 256 * 65536 + (x / 256) mod 256 * 256 + x mod 256 = x mod 16777216) as -> by zlia.
  rewrite byte_sign by (apply Z.mod_pos_bound; lia). destruct (Z.ltb_spec ((x / 65536) mod 256) 128), (Z.ltb_spec (x mod 16777216) 8388608); try zlia.
  pose proof (lor_shiftl_add 0xff (x mod 16777216) 24 ltac:(lia) ltac:(apply Z.mod_pos_bound; lia)) as E.
  change (0xff << 24) with 0xff000000 in E. change (0xff * 2 ^ 24) with 0xff000000 in E. rewrite Z.lor_comm, E. lia.
Qed.

(** ** Blocks *)

Lemma silent_controls es n d c : (n * es <= length d)%nat -> (6 <= es)%nat -> (forall j, (j < n)%nat -> event_bytes es 4 2 j d = [0; 0]) ->
  decodeMotuCtrlEvents es d n c = Some c.
Proof.
  intros L He Hz. unfold decodeMotuCtrlEvents, for_loop. rewrite Nat.sub_0_r, Nat.add_0_r, Nat.div_1_r.
  assert (forall m start, (start + m <= n)%nat -> for_up m start 1 (fun j c =>
    key ← d !! (4 + j * es)%nat; arg ← d !! (5 + j * es)%nat; control_event key arg c) c = Some c) as G; [|by apply G].
  induction m as [|m IH]; intros start Hm; [done|]. cbn [for_up]. specialize (Hz start ltac:(lia)). unfold event_bytes in Hz.
  assert (d !! (4 + start * es)%nat = Some 0 /\ d !! (5 + start * es)%nat = Some 0) as [-> ->].
  { pose proof (f_equal (fun l => l !! 0%nat) Hz) as H0. pose proof (f_equal (fun l => l !! 1%nat) Hz) as H1. cbn beta in H0, H1.
    rewrite lookup_take_lt, lookup_drop in H0, H1 by lia. rewrite Nat.add_0_r in H0. by replace (5 + start * es)%nat with (4 + start * es + 1)%nat by lia. }
  cbn [mbind option_bind]. assert (control_event 0 0 c = Some c) as ->.
  { unfold control_event. change (0 .& _) with 0. assert (sync_status 0 0 c = c) as -> by (unfold sync_status; by destruct (dc_status c)). by destruct (dc_status c). }
  cbn [mbind option_bind]. apply IH. lia.
Qed.

Section audio.
Context {W1 W2 : Type} {w1 : SPWorld W1} {w2 : SPWorld W2}.

Lemma mtx_encode_ready t offset n p pos d q : port_ready (@debug_build W1 _) (mtx_infos t) offset n p pos ->
  mtx_encode_port (W := W1) eADT_Int24 t offset n p (d, q)
  = (fun d' => (p, (d', q))) <$> encode_events bytes_of_int24 (Z.to_nat (mtx_event_size t)) pos offset n (default [] (m_buffer p)) d.
Proof.
  intros R. pose proof R as (D & T & P & _). unfold mtx_encode_port. rewrite D, T, P. cbn [mbind option_bind fst snd]. rewrite Nat2Z.id.
  unfold encodePortToMotuEvents. rewrite (fits_ready _ _ _ _ _ _ _ R). by destruct (encode_events _ _ _ _ _ _ _).
Qed.
Lemma mrx_decode_ready r data offset n p pos q : port_ready (@debug_build W2 _) (mrx_infos r) offset n p pos ->
  mrx_decode_port (W := W2) eADT_Int24 r data offset n p q
  = (fun p' => (p', q)) <$> with_words (decode_events int24_of_bytes 3 (Z.to_nat (mrx_event_size r)) pos offset n data) p.
Proof.
  intros R. pose proof R as (D & T & P & _). unfold mrx_decode_port. rewrite D, T, P. cbn [mbind option_bind]. rewrite Nat2Z.id.
  unfold decodeMotuEventsToPort. rewrite (fits_ready _ _ _ _ _ _ _ R). by destruct (with_words _ _).
Qed.

(** C20. Audio in the MOTU format: a block that the transmit processor composes from the buffers of its audio ports and the receive processor takes apart again, with ports at the same
    positions behind the control bytes, gives every port of the receiver the 24 bits of every sample of its counterpart with their sign extended, whatever is in the
    memory of the block before; the device controls of the receiver stay as they are. *)
Theorem motu_audio_roundtrip (s : sp_state MotuTransmitStreamProcessor W1) (r : sp_state MotuReceiveStreamProcessor W2) poss data n es offset1 offset2 :
  mtx_event_size (child s) = Z.of_nat es -> mrx_event_size (child r) = Z.of_nat es -> (10 <= es)%nat -> (n * es <= length data)%nat ->
  getAudioDataType (world s) = eADT_Int24 -> getAudioDataType (world r) = eADT_Int24 ->
  Forall2 (port_ready (@debug_build W1 _) (mtx_infos (child s)) offset1 n) (m_Ports (ports (sp s))) poss ->
  Forall2 (port_ready (@debug_build W2 _) (mrx_infos (child r)) offset2 n) (m_Ports (ports (sp r))) poss ->
  ForallOrdPairs (apart_by 3) poss -> Forall (fun pos => 10 <= pos /\ pos + 3 <= es)%nat poss ->
  exists data' s' r', mtx_processWriteBlock data (Z.of_nat n) (Z.of_nat offset1) s = Some ((true, data'), s')
    /\ mrx_processReadBlock data' (Z.of_nat n) (Z.of_nat offset2) r = Some (true, r') /\ m_devctrls (child r') = m_devctrls (child r)
    /\ length (m_Ports (ports (sp r'))) = length poss
    /\ forall i p p' j, m_Ports (ports (sp s)) !! i = Some p -> m_Ports (ports (sp r')) !! i = Some p' -> (j < n)%nat ->
         port_word p' (offset2 + j) = sign24 (port_word p (offset1 + j)).
Proof.
  intros Es Er He Hd T1 T2 R1 R2 Ap Hb.
  assert (Forall (fun pos => pos + 3 <= es)%nat poss) as Hb3 by (eapply Forall_impl; [exact Hb|]; cbn; lia).
  destruct (stripe_overlay 0 es 4 6 n (fun _ => [0; 0; 0; 0; 0; 0]) (fun i => store_bytes (4 + i * es) [0; 0; 0; 0; 0; 0]) data) as (d0 & E0 & O0); [lia|lia|done|done|].
  assert (length d0 = length data) as L0 by apply O0.
  destruct (encode_ports (@debug_build W1 _) (mtx_infos (child s)) bytes_of_int24 3 es offset1 n (mtx_encode_port (W := W1) eADT_Int24 (child s) offset1 n)
    (m_Ports (ports (sp s))) poss) with (d := d0) (s := mtx_midi (child s)) as (d1 & E1 & L1 & Same & Other); [done| |done|done|done|lia|].
  { intros p pos d q _ R. rewrite (mtx_encode_ready _ _ _ _ _ _ _ R), Es, Nat2Z.id. done. }
  destruct (decode_ports (@debug_build W2 _) (mrx_infos (child r)) int24_of_bytes 3 es offset2 n d1 (mrx_decode_port (W := W2) eADT_Int24 (child r) d1 offset2 n)
    (m_Ports (ports (sp r))) poss) with (s := mrx_queue (child r)) as (ps' & E2 & L2 & H2); [|done|done|lia|].
  { intros p pos q _ R. rewrite (mrx_decode_ready _ _ _ _ _ _ _ R), Er, Nat2Z.id. done. }
  assert (decodeMotuCtrlEvents es d1 n (m_devctrls (child r)) = Some (m_devctrls (child r))) as Ec.
  { apply silent_controls; [lia|lia|]. intros j Hj. rewrite Other; [|lia|eapply Forall_impl; [exact Hb|]; cbn; lia].
    pose proof (stripe_same _ _ _ _ _ _ _ j O0 ltac:(lia) ltac:(lia) Hj eq_refl) as S. apply (f_equal (take 2)) in S. unfold event_bytes in *.
    by rewrite take_take in S. }
  eexists d1, _, _. split; [|split; [|split_and!]].
  - unfold mtx_processWriteBlock. run_step. run_step. run_step. cbv beta. rewrite T1, Es, !Nat2Z.id. unfold clear_controls.
    erewrite run_bind_Some; [|unfold lift; rewrite E0; reflexivity]. erewrite run_bind_Some; [|unfold lift; rewrite E1; reflexivity]. reflexivity.
  - unfold mrx_processReadBlock. run_step. run_step. run_step. cbv beta. rewrite T2, Er, !Nat2Z.id.
    erewrite run_bind_Some; [|unfold lift; rewrite Ec; destruct (_ =? _); reflexivity]. erewrite run_bind_Some; [|unfold lift; rewrite E2; reflexivity]. reflexivity.
  - done.
  - cbn. rewrite L2. by eapply Forall2_length.
  - cbn. intros i p p' j Hp Hp' Hj. destruct (Forall2_lookup_l _ _ _ _ _ R1 Hp) as (pos & Hpos & _).
    by rewrite (H2 _ _ _ _ Hp' Hpos Hj), (Same _ _ _ _ Hp Hpos Hj), int24_bytes.
Qed.
End audio.

(** ** Timestamps *)

Lemma sph_fields T : valid_ticks T -> fullTicksToSph T = TICKS_TO_CYCLES T * 2 ^ 12 + TICKS_TO_OFFSET T /\ 0 <= fullTicksToSph T < 2 ^ 25.
Proof.
  intros HT. pose proof (ticks_parts T HT) as (S & C & O). unfold fullTicksToSph. rewrite TO_CYCLE_TIMER_eq by done.
  change 0x1ffffff with (2 ^ 25 - 1). rewrite land_mask_mod by lia. change (2 ^ 25) with 33554432 in *. change (2 ^ 12) with 4096. zlia.
Qed.

Lemma sph_ticks T : valid_ticks T ->
  CYCLE_TIMER_GET_CYCLES (fullTicksToSph T) = TICKS_TO_CYCLES T
  /\ CYCLE_TIMER_TO_TICKS (fullTicksToSph T .& 0x1ffffff) = TICKS_TO_CYCLES T * TICKS_PER_CYCLE + TICKS_TO_OFFSET T.
Proof.
  intros HT. pose proof (ticks_parts T HT) as (_ & C & O). destruct (sph_fields T HT) as [E R]. change 0x1ffffff with (2 ^ 25 - 1). rewrite land_mask_mod, Z.mod_small by lia.
  rewrite TO_TICKS_eq, GET_CYCLES_eq by lia. rewrite E. unfold TICKS_PER_SECOND, TICKS_PER_CYCLE.
  change (2 ^ 25) with 33554432 in *. change (2 ^ 12) with 4096 in *. change (2 ^ 13) with 8192. zlia.
Qed.

(** A timestamp of at most a thousand cycles before or after the time of its reception is recovered, also when the seconds differ. *)
Lemma sph_recovers T ct d : valid_ctr ct -> ticks_after ct d T -> -1000 * 3072 <= d < 1001 * 3072 -> sphRecvToFullTicks (fullTicksToSph T) ct = T.
Proof.
  intros Hc HT Hd. assert (valid_ticks T) as V by (rewrite HT; apply mod_valid). destruct (sph_ticks T V) as [E1 E2].
  pose proof (ctr_fields ct Hc) as (Hs & Hy & _). pose proof (ticks_after_cycle ct d T Hc HT) as Ec. pose proof (ticks_parts T V) as (PS & PC & PO).
  pose proof (ticks_decompose T) as D. unfold sphRecvToFullTicks. rewrite E1, E2. unfold ticks_after, cycle_start in HT.
  set (s := CYCLE_TIMER_GET_SECS ct) in *. set (c := CYCLE_TIMER_GET_CYCLES ct) in *. set (tc := TICKS_TO_CYCLES T) in *.
  assert (TICKS_TO_OFFSET T = d mod 3072) as Eo.
  { rewrite HT. unfold TICKS_TO_OFFSET, MAX_TICKS, TICKS_PER_SECOND, TICKS_PER_CYCLE. clear -Hs Hy. zlia. }
  assert (TICKS_TO_SECS T = (s + (c + d / 3072) / 8000) mod 128) as Esec.
  { rewrite HT. unfold TICKS_TO_SECS, MAX_TICKS, TICKS_PER_SECOND, TICKS_PER_CYCLE. clear -Hs Hy Hd. zlia. }
  rewrite Eo in *. rewrite Esec in *. unfold valid_ticks, MAX_TICKS, TICKS_PER_SECOND, TICKS_PER_CYCLE, CYCLES_PER_SECOND in *. clearbody s c tc. clear HT E1 E2 Hc Eo Esec.
  assert (-1000 <= d / 3072 <= 1000) as Hk by zlia. set (k := d / 3072) in *. set (o := d mod 3072) in *. clearbody k o.
  rewrite (wrapU_small 32 (c + 1000)), (wrapU_small 32 (tc * 3072 + o)) by lia.
  assert ((c + k < 0 /\ tc = c + k + 8000 /\ (c + k) / 8000 = -1) \/ (0 <= c + k < 8000 /\ tc = c + k /\ (c + k) / 8000 = 0) \/ (8000 <= c + k /\ tc = c + k - 8000 /\ (c + k) / 8000 = 1)) as Cs by zlia.
  destruct Cs as [(Hck & Etc & Eq)|[(Hck & Etc & Eq)|(Hck & Etc & Eq)]]; rewrite Eq in *; zcases; rewrite wrapU_small; zlia.
Qed.

(** ** Packets *)

Lemma bus_bytes_be `{Platform} x : 0 <= x < 2 ^ 32 -> bus_bytes x = quad_be x.
Proof. intros Hx. unfold bus_bytes. apply bus_order, Hx. Qed.
Lemma load_bus_be `{Platform} i data x : 0 <= x < 2 ^ 32 -> take 4 (drop i data) = quad_be x -> load_bus_quad i data = Some x.
Proof. intros Hx E. unfold load_bus_quad. rewrite E. cbn [length quad_be]. rewrite decide_True by done. f_equal. apply bus_order, Hx. Qed.

Lemma store_quad_front `{Platform} a b c d rest x : 0 <= x < 2 ^ 32 -> store_quad 0 x (a :: b :: c :: d :: rest) = Some (quad_be x ++ rest).
Proof. intros Hx. unfold store_quad, store_bytes. rewrite bus_bytes_be by done. rewrite decide_True by (cbn; lia). done. Qed.
Lemma write_motu_header_eq `{Platform} node es dbc data : (8 <= length data)%nat ->
  write_motu_header node es dbc data = Some (quad_be (u32 (0x00000400 .| ((node .& 0x3f) << 24) .| dbc .| ((es / 4) << 16))) ++ quad_be 0x8222ffff ++ drop 8 data).
Proof.
  intros L. do 8 (destruct data as [|? data]; [cbn in L; lia|]). unfold write_motu_header.
  rewrite store_quad_front by (apply wrapU_range; lia). cbn [mbind option_bind]. unfold store_quad, store_bytes. rewrite bus_bytes_be by lia.
  rewrite decide_True by (cbn; lia). done.
Qed.

(** The size of an event in the header, as the receiver sees it. *)
Lemma header_dbs node dbc k : 0 <= dbc < 256 -> 0 <= k < 256 -> get_bits (u32 (0x00000400 .| ((node .& 0x3f) << 24) .| dbc .| (k << 16))) 23 8 = k.
Proof.
  intros Hd Hk. unfold get_bits. change (23 - 8 + 1) with 16. change ((1 << 8) - 1) with (2 ^ 8 - 1). rewrite land_mask_mod, Z.shiftr_div_pow2 by lia.
  assert (forall x, (u32 x / 2 ^ 16) mod 2 ^ 8 = (x >> 16) mod 2 ^ 8) as ->.
  { intros x. rewrite Z.shiftr_div_pow2 by lia. unfold wrapU. change (2 ^ 32) with 4294967296. change (2 ^ 16) with 65536. change (2 ^ 8) with 256. zlia. }
  rewrite !Z.shiftr_lor, !Z.shiftr_shiftl_l by lia. change (0x400 >> 16) with 0. change (24 - 16) with 8. change (16 - 16) with 0.
  rewrite Z.shiftl_0_r, Z.lor_0_l, (Z.shiftr_div_pow2 dbc) by lia. rewrite (Z.div_small dbc) by lia. rewrite Z.lor_0_r, lor_shiftl_add by lia.
  rewrite Z.add_comm, Z.mod_add by lia. by apply Z.mod_small.
Qed.

Section packets.
Context {W1 W2 : Type} {w1 : SPWorld W1} {m1 : MotuWorld W1} {w2 : SPWorld W2} {m2 : MotuWorld W2}.
Abbreviation S := (sp_state MotuTransmitStreamProcessor W1).

Definition head_time {C W} (s : sp_state C W) : Z := u64 (Z_of_float (getBufferHeadTimestamp (m_data_buffer (sp s))).1).
Definition motu_packet_frames {C W} `{SPWorld W} (s : sp_state C W) : Z := motu_frames_per_packet (getNominalRate (world s)).

Lemma frames_range rate : 8 <= motu_frames_per_packet rate <= 32.
Proof. unfold motu_frames_per_packet. repeat case_match; lia. Qed.

(** It is time to send the frames at the head of the buffer. *)
Definition motu_time_to_send (s : S) (ctr : Z) : Prop :=
  motu_packet_frames s <= m_framecounter (m_data_buffer (sp s)) /\ valid_ticks (head_time s) /\ 0 <= cycles_until (head_time s) ctr <= MOTU_MAX_CYCLES_TO_TRANSMIT_EARLY.

Definition next_dbc (s : S) : Z := let dbc := u32 (m_tx_dbc (child s) + motu_packet_frames s) in if 0xff <? dbc then dbc - 0x100 else dbc.

(** There is no transfer delay. *)
Lemma motu_window_eq T ctr : valid_ticks T -> motu_window T ctr = (cycles_until T ctr, cycles_until T ctr).
Proof.
  intros V. unfold motu_window, cycles_until, MOTU_TRANSMIT_TRANSFER_DELAY. rewrite substractTicks_mod, Z.sub_0_r, (Z.mod_small T) by (done || unfold valid_ticks, MAX_TICKS, TICKS_PER_SECOND; lia).
  done.
Qed.

Lemma motu_header_sent (P1 : Platform) (s : S) p ctr : (8 <= length (p_data p))%nat -> motu_time_to_send s ctr ->
  exists p1 s1, mtx_generatePacketHeader p ctr s = Some ((eCRV_Packet, p1), s1)
    /\ p_data p1 = quad_be (u32 (0x00000400 .| ((getLocalNodeId (world s) .& 0x3f) << 24) .| next_dbc s .| ((mtx_event_size (child s) / 4) << 16)))
         ++ quad_be 0x8222ffff ++ drop 8 (p_data p)
    /\ p_length p1 = u32 (motu_packet_frames s * mtx_event_size (child s) + 8) /\ p_tag p1 = 1
    /\ m_last_timestamp (times (sp s1)) = head_time s /\ m_data_buffer (sp s1) = m_data_buffer (sp s) /\ world s1 = world s
    /\ child s1 = mkMotuTx (mtx_event_size (child s)) (m_event_pad_bytes (child s)) (mtx_model (child s)) (next_dbc s) (mtx_midi (child s)) (mtx_infos (child s)).
Proof.
  intros L (Hf & V & Hc). eexists _, _. split; [|split_and!].
  - unfold mtx_generatePacketHeader, motu_begin, mtx_frames. repeat run_step. cbv beta iota zeta.
    change (getBufferHeadTimestamp (m_data_buffer (sp s))) with ((getBufferHeadTimestamp (m_data_buffer (sp s))).1, m_framecounter (m_data_buffer (sp s))). cbv beta iota zeta. run_step. cbv beta zeta.
    change (u64 (Z_of_float (getBufferHeadTimestamp (m_data_buffer (sp s))).1)) with (head_time s). change (motu_frames_per_packet (getNominalRate (world s))) with (motu_packet_frames s). rewrite (proj2 (Z.ltb_ge _ _) Hf). unfold motu_send. rewrite motu_window_eq by done. cbv beta iota.
    rewrite (proj2 (Z.ltb_ge _ _) (proj1 Hc)), (proj2 (Z.leb_le _ _) (proj2 Hc)). unfold motu_data_packet, motu_fillDataPacketHeader, mtx_frames.
    erewrite run_bind_Some.
    2:{ repeat run_step. cbv beta zeta. change (motu_frames_per_packet (getNominalRate (world s))) with (motu_packet_frames s). erewrite run_bind_Some; [|unfold lift; cbn [p_data]; rewrite write_motu_header_eq by done; reflexivity]. reflexivity. }
    cbv beta iota. repeat run_step. reflexivity.
  - reflexivity.
  - reflexivity.
  - reflexivity.
  - reflexivity.
  - reflexivity.
  - reflexivity.
  - reflexivity.
Qed.

(** A buffer whose ring holds events of [es] bytes. *)
Definition holds_events (b : TimestampedBuffer) (es : Z) (rb : ffado_ringbuffer_t) : Prop :=
  m_transparent b = false /\ m_event_size (sizes b) = es /\ m_events_per_frame (sizes b) = 1 /\ m_event_buffer b = Some rb /\ rb_wf rb.

Lemma event_frame_bytes b n es : 0 <= n <= 32 -> 0 < es <= 1020 -> m_event_size (sizes b) = es -> m_events_per_frame (sizes b) = 1 -> frame_bytes b n = n * es.
Proof. intros Hn He Es Ee. rewrite frame_bytes_eq; rewrite ?Es, ?Ee; nia. Qed.

(** What is read from a ring that has enough. *)
Lemma events_read b es rb n : holds_events b es rb -> 0 <= n <= 32 -> 0 < es <= 1020 -> n * es <= rb_fill rb ->
  exists b' rb', readFrames n b = Some (true, take (Z.to_nat (n * es)) (rb_contents rb), b') /\ holds_events b' es rb'
    /\ rb_contents rb' = drop (Z.to_nat (n * es)) (rb_contents rb) /\ length (take (Z.to_nat (n * es)) (rb_contents rb)) = Z.to_nat (n * es).
Proof.
  intros (Ht & Es & Ee & Eb & Wf) Hn He Hf. pose proof (event_frame_bytes b n es Hn He Es Ee) as Ef.
  pose proof (read_refines rb (n * es) Wf ltac:(nia)) as R. destruct (ffado_ringbuffer_read rb (n * es)) as [[rb' d] k] eqn:Er. destruct R as (Wf' & _ & Q).
  unfold queue_read in Q. rewrite (zlength_contents _ Wf), Z.min_l in Q by lia. injection Q as Q1 Q2 Q3.
  eexists _, rb'. split; [unfold readFrames; rewrite Ht, Eb, Ef, Er, Q3, Z.ltb_irrefl, Q2; reflexivity|]. split; [by split_and!|]. split; [done|].
  pose proof (zlength_contents _ Wf). unfold zlength in *. rewrite length_take. lia.
Qed.

Lemma stripe_drop base stride pos size n bs d d' : overlay (stripe base stride pos size n bs) d d' -> (base <= length d)%nat ->
  overlay (stripe 0 stride pos size n bs) (drop base d) (drop base d') /\ take base d' = take base d.
Proof.
  intros [L O] Hb. split; [split; [rewrite !length_drop; lia|]|].
  - intros k Hk. rewrite length_drop in Hk. rewrite !lookup_drop, O by lia. unfold stripe. rewrite Nat.sub_0_r. replace (base + k - base)%nat with k by lia.
    repeat case_decide; done || lia.
  - apply list_eq. intros i. destruct (decide (i < base)%nat); [|by rewrite !lookup_take_ge by lia]. rewrite !lookup_take_lt, O by lia. unfold stripe. rewrite decide_False by lia.
    by destruct (d !! i).
Qed.

Lemma event_bytes_prefix es pos size j n (fr rest : list Z) : length fr = (n * es)%nat -> (j < n)%nat -> (pos + size <= es)%nat ->
  event_bytes es pos size j (fr ++ rest) = event_bytes es pos size j fr.
Proof. intros L Hj Hp. unfold event_bytes. rewrite drop_app_le by nia. rewrite take_app_le; [done|]. rewrite length_drop. nia. Qed.

(** The times of the frames of a packet. *)
Definition sph_bytes (s : S) (j : nat) : list Z := quad_be (fullTicksToSph (frame_ticks (m_last_timestamp (times (sp s))) (sync_ticks_per_frame (world s)) j)).

Lemma sph_range T : 0 <= fullTicksToSph T < 2 ^ 32.
Proof. unfold fullTicksToSph. change 0x1ffffff with (2 ^ 25 - 1). rewrite land_mask_mod by lia. pose proof (Z.mod_pos_bound (TICKS_TO_CYCLE_TIMER T) (2 ^ 25)). lia. Qed.

(** The loops over the events behind the header. *)
Lemma packet_events (P1 : Platform) (s : S) es pad n d : (8 <= es)%nat -> (Nat.divide 4 es)%nat -> pad = 0%nat \/ pad = 2%nat -> (8 + n * es <= length d)%nat ->
  exists d1 d2, write_sphs (m_last_timestamp (times (sp s))) (sync_ticks_per_frame (world s)) (es / 4) n d = Some d1 /\ clear_pads es pad n d1 = Some d2
    /\ length d2 = length d /\ take 8 d2 = take 8 d
    /\ forall j, (j < n)%nat -> event_bytes es 0 4 j (drop 8 d2) = sph_bytes s j /\ event_bytes es 4 (es - 4 - pad) j (drop 8 d2) = event_bytes es 4 (es - 4 - pad) j (drop 8 d).
Proof.
  intros He [k Hk] Hpad Hd. assert (4 * (es / 4) = es)%nat as Eq by (rewrite Hk, Nat.div_mul; lia).
  destruct (stripe_overlay 8 es 0 4 n (sph_bytes s) (fun i => store_quad (8 + i * (4 * (es / 4))) (fullTicksToSph (frame_ticks (m_last_timestamp (times (sp s))) (sync_ticks_per_frame (world s)) i))) d)
    as (d1 & E1 & O1); [lia|lia|done| |].
  { intros j d0 Hj. unfold store_quad. rewrite bus_bytes_be by apply sph_range. rewrite Eq. f_equal. }
  assert (length d1 = length d) as L1 by apply O1. destruct (stripe_drop _ _ _ _ _ _ _ _ O1) as [D1 T1]; [lia|].
  assert (exists d2, clear_pads es pad n d1 = Some d2 /\ length d2 = length d1 /\ take 8 d2 = take 8 d1
    /\ forall pos size j, (pos + size <= es - pad)%nat -> event_bytes es pos size j (drop 8 d2) = event_bytes es pos size j (drop 8 d1)) as (d2 & E2 & L2 & T2 & H2).
  { unfold clear_pads. case_decide as Hz; [by exists d1|]. destruct Hpad as [->| ->]; [done|].
    destruct (stripe_overlay 8 es (es - 2) 2 n (fun _ => [0; 0]) (fun i => store_bytes (8 + es - 2 + i * es) [0; 0]) d1) as (d2 & E2 & O2); [lia|lia|done| |].
    { intros j d0 Hj. f_equal. lia. }
    exists d2. split; [done|]. destruct (stripe_drop _ _ _ _ _ _ _ _ O2) as [D2 T2]; [lia|]. split; [apply O2|]. split; [done|].
    intros pos size j Hp. eapply stripe_other; [exact D2|lia|lia]. }
  exists d1, d2. split; [exact E1|]. split; [done|]. split; [congruence|]. split; [congruence|]. intros j Hj. split.
  - rewrite H2 by lia. eapply stripe_same; [exact D1|lia|rewrite length_drop; lia|done|done].
  - rewrite H2 by lia. eapply stripe_other; [exact D1|lia|lia].
Qed.

Lemma motu_data_sent (P1 : Platform) (s : S) p rb (es pad n : nat) : motu_packet_frames s = Z.of_nat n -> mtx_event_size (child s) = Z.of_nat es -> m_event_pad_bytes (child s) = Z.of_nat pad ->
  (8 <= es <= 1020)%nat -> (Nat.divide 4 es)%nat -> pad = 0%nat \/ pad = 2%nat -> holds_events (m_data_buffer (sp s)) (Z.of_nat es) rb ->
  Z.of_nat (n * es) <= rb_fill rb -> (8 + n * es <= length (p_data p))%nat ->
  exists p2 s2 rb', mtx_generatePacketData p s = Some ((eCRV_OK, p2), s2)
    /\ p_length p2 = p_length p /\ p_tag p2 = p_tag p /\ length (p_data p2) = length (p_data p) /\ take 8 (p_data p2) = take 8 (p_data p)
    /\ holds_events (m_data_buffer (sp s2)) (Z.of_nat es) rb' /\ rb_contents rb = take (n * es) (rb_contents rb) ++ rb_contents rb'
    /\ forall j, (j < n)%nat -> event_bytes es 0 4 j (drop 8 (p_data p2)) = sph_bytes s j
         /\ event_bytes es 4 (es - 4 - pad) j (drop 8 (p_data p2)) = event_bytes es 4 (es - 4 - pad) j (rb_contents rb).
Proof.
  intros Hn Es Ep He Hdiv Hpad Hh Hf Hd. pose proof (frames_range (getNominalRate (world s))) as Hr. change (motu_frames_per_packet _) with (motu_packet_frames s) in Hr.
  destruct (events_read _ _ _ (motu_packet_frames s) Hh) as (b' & rb' & Er & Hh' & Ec & Lr); [lia|lia|rewrite Hn; lia|].
  rewrite Hn in *. replace (Z.to_nat (Z.of_nat n * Z.of_nat es)) with (n * es)%nat in * by lia. set (fr := take (n * es) (rb_contents rb)) in *.
  set (d0 := list_inserts 8 fr (p_data p)). assert (length d0 = length (p_data p)) as L0 by apply length_inserts.
  destruct (packet_events P1 s es pad n d0) as (d1 & d2 & E1 & E2 & L2 & T2 & H2); [lia|done|done|lia|].
  eexists (mkPacket d2 (p_length p) (p_tag p) (p_sy p)), _, rb'. split.
  - unfold mtx_generatePacketData, mtx_frames. run_step. erewrite run_bind_Some; [|repeat run_step; reflexivity]. cbv beta.
    change (motu_frames_per_packet (getNominalRate (world s))) with (motu_packet_frames s). rewrite Hn. erewrite run_bind_Some; [|unfold call_buffer; cbv zeta; rewrite Er; reflexivity].
    cbv beta iota. erewrite run_bind_Some; [|unfold lift, store_bytes; rewrite decide_True by lia; reflexivity]. cbv beta iota. run_step. run_step. cbv beta. rewrite Es, Ep, !Nat2Z.id.
    replace (Z.to_nat (Z.of_nat es / 4)) with (es / 4)%nat by (change 4 with (Z.of_nat 4) at 1; rewrite <- Nat2Z.inj_div; lia).
    cbn [sp times m_last_timestamp world child]. change (list_inserts 8 fr (p_data p)) with d0.
    erewrite run_bind_Some; [|unfold lift; rewrite E1; reflexivity].
    erewrite run_bind_Some; [|unfold lift; rewrite E2; reflexivity]. reflexivity.
  - cbn [p_length p_tag p_data sp m_data_buffer]. split_and!; try done; [congruence| |by rewrite <- (take_drop (n * es) (rb_contents rb)) at 1; rewrite Ec|].
    + rewrite T2. apply list_eq. intros i. destruct (decide (i < 8)%nat); [|by rewrite !lookup_take_ge by lia]. rewrite !lookup_take_lt by lia. unfold d0. by rewrite list_lookup_inserts_lt by lia.
    + intros j Hj. destruct (H2 j Hj) as [A B]. split; [done|]. rewrite B. assert (drop 8 d0 = fr ++ drop (8 + n * es) (p_data p)) as ->.
      { apply list_eq. intros i. rewrite lookup_drop, lookup_app. unfold d0. destruct (decide (i < n * es)%nat).
        - rewrite list_lookup_inserts by lia. replace (8 + i - 8)%nat with i by lia. destruct (lookup_lt_is_Some_2 fr i) as [x ->]; [lia|done].
        - rewrite list_lookup_inserts_ge by lia. rewrite (lookup_ge_None_2 fr) by lia. rewrite lookup_drop. f_equal. lia. }
      rewrite (event_bytes_prefix _ _ _ _ n) by lia. rewrite <- (take_drop (n * es) (rb_contents rb)) at 1. fold fr. by rewrite (event_bytes_prefix _ _ _ _ n) by lia.
Qed.

Lemma motu_header_accepted (P2 : Platform) (r : sp_state MotuReceiveStreamProcessor W2) data sy ctr h0 (es n : nat) T d :
  mrx_event_size (child r) = Z.of_nat es -> (8 <= es <= 1020)%nat -> (1 <= n <= 32)%nat -> 0 <= h0 < 2 ^ 32 -> get_bits h0 23 8 <> 0 ->
  take 8 data = quad_be h0 ++ quad_be 0x8222ffff -> event_bytes es 0 4 (n - 1) (drop 8 data) = quad_be (fullTicksToSph T) ->
  valid_ctr (getCycleTimer (world r)).1 -> ticks_after (getCycleTimer (world r)).1 d T -> -1000 * 3072 <= d < 1001 * 3072 ->
  exists r1, mrx_processPacketHeader data (Z.of_nat (n * es + 8)) 1 sy ctr r = Some (eCRV_OK, r1)
    /\ m_last_timestamp (times (sp r1)) = T /\ m_data_buffer (sp r1) = m_data_buffer (sp r) /\ child r1 = child r.
Proof.
  intros Es He Hn Hh Hd Ht Hl Hc HT Hb. assert (load_bus_quad 0 data = Some h0) as E0.
  { apply load_bus_be; [done|]. apply (f_equal (take 4)) in Ht. rewrite take_take in Ht. exact Ht. }
  assert (load_bus_quad 4 data = Some 0x8222ffff) as E1.
  { apply load_bus_be; [lia|]. rewrite firstn_skipn_comm. change (4 + 4)%nat with 8%nat. by rewrite Ht. }
  assert (load_bus_quad (Z.to_nat (8 + u32 ((Z.of_nat n - 1) * Z.of_nat es))) data = Some (fullTicksToSph T)) as E2.
  { apply load_bus_be; [apply sph_range|]. rewrite <- Hl. unfold event_bytes. rewrite drop_drop, wrapU_small by nia. do 2 f_equal. nia. }
  assert (mrx_events (child r) (Z.of_nat (n * es + 8)) = Some (Z.of_nat n)) as E3.
  { unfold mrx_events. rewrite Es, (proj2 (Z.eqb_neq _ _)), wrapU_small by nia. f_equal. replace (Z.of_nat (n * es + 8) - 8) with (Z.of_nat n * Z.of_nat es) by lia. apply Z.div_mul. lia. }
  destruct (getCycleTimer (world r)) as [ct w'] eqn:Ec. cbn in Hc, HT. eexists. split.
  - unfold mrx_processPacketHeader. rewrite (proj2 (Z.ltb_lt 8 _)) by nia. erewrite run_bind_Some; [|unfold lift; rewrite E0; reflexivity].
    erewrite run_bind_Some; [|unfold lift; rewrite E1; reflexivity]. cbv beta zeta. change (get_bits 0x8222ffff 23 8 =? 0x22) with true. cbv iota.
    rewrite (proj2 (Z.eqb_neq _ _) Hd). cbn [negb orb andb Z.eqb Pos.eqb]. run_step. erewrite run_bind_Some; [|unfold lift; rewrite E3; reflexivity]. cbv beta. rewrite Es.
    erewrite run_bind_Some; [|unfold lift; rewrite E2; reflexivity]. cbv beta. erewrite run_bind_Some; [|unfold call_world; rewrite Ec; reflexivity]. cbv beta. repeat run_step. reflexivity.
  - cbn. split; [|done]. by eapply sph_recovers.
Qed.

Lemma motu_payload_received (P2 : Platform) (r : sp_state MotuReceiveStreamProcessor W2) data (es n : nat) rb :
  mrx_event_size (child r) = Z.of_nat es -> (8 <= es <= 1020)%nat -> (1 <= n <= 32)%nat -> holds_events (m_data_buffer (sp r)) (Z.of_nat es) rb ->
  rb_fill rb + Z.of_nat (n * es) < rb_size rb -> (8 + n * es <= length data)%nat -> m_update_period (clock (m_data_buffer (sp r))) = Z.of_nat n ->
  dlt (d_of_Z (m_last_timestamp (times (sp r)))) (m_wrap_at (clock (m_data_buffer (sp r)))) = true ->
  dge (d_of_Z (m_last_timestamp (times (sp r)))) (S754_zero false) = true ->
  exists r' rb', mrx_processPacketData data (Z.of_nat (n * es + 8)) r = Some (eCRV_OK, r') /\ holds_events (m_data_buffer (sp r')) (Z.of_nat es) rb'
    /\ rb_contents rb' = rb_contents rb ++ take (n * es) (drop 8 data).
Proof.
  intros Er He Hn (Ht & Es & Ee & Eb & Wf) Hf Hl Hu H1 H2. set (b := m_data_buffer (sp r)) in *.
  pose proof (event_frame_bytes b (Z.of_nat n) (Z.of_nat es) ltac:(lia) ltac:(lia) Es Ee) as Ef.
  destruct (write_prefix rb (drop 8 data) (Z.of_nat n * Z.of_nat es) Wf) as (rb' & Ew & Wf' & _ & Q); [unfold zlength; rewrite length_drop; nia|lia|].
  destruct (incrementFrameCounter_accepts (Z.of_nat n) (d_of_Z (m_last_timestamp (times (sp r)))) (with_ring rb' b)) as [k Ei]; [done..|].
  eexists _, rb'. split.
  - unfold mrx_processPacketData. run_step. unfold mrx_events. rewrite Er, (proj2 (Z.eqb_neq _ _)), wrapU_small by nia.
    replace (Z.of_nat (n * es + 8) - 8) with (Z.of_nat n * Z.of_nat es) by lia. rewrite Z.div_mul by lia. erewrite run_bind_Some; [|reflexivity]. run_step. cbv beta.
    erewrite run_bind_Some.
    2:{ unfold call_buffer. cbv zeta. fold b. unfold writeFrames. rewrite Ht, Ef. unfold ring_write. rewrite Eb, Ew. cbn [mbind option_bind]. rewrite Z.ltb_irrefl, Ei. reflexivity. }
    reflexivity.
  - cbn. split; [by split_and!|]. rewrite Q. do 2 f_equal. lia.
Qed.

(** A receiver that can take [n] events with the timestamp [T]. *)
Definition motu_can_receive (r : sp_state MotuReceiveStreamProcessor W2) (es n : nat) (T : Z) (rb : ffado_ringbuffer_t) : Prop :=
  let b := m_data_buffer (sp r) in
  mrx_event_size (child r) = Z.of_nat es /\ holds_events b (Z.of_nat es) rb /\ rb_fill rb + Z.of_nat (n * es) < rb_size rb /\ m_update_period (clock b) = Z.of_nat n
  /\ dlt (d_of_Z T) (m_wrap_at (clock b)) = true /\ dge (d_of_Z T) (S754_zero false) = true.

(** C15. A MOTU packet arrives: when it is time to send the frames at the head of the transmit buffer, the transmit processor makes a packet of them, and a receive processor on a host of
    any byte order whose cycle timer is within a thousand cycles of the time of the last frame sets its timestamp to exactly the time of that frame, across all wraps of the seconds, and
    appends the events to its buffer: each begins with its own time, and its control, MIDI and sample bytes are those that leave the transmit buffer.  This needs events
    of a multiple of four bytes that end with two pad bytes or none. *)
Theorem motu_packet_arrives (P1 P2 : Platform) (s : S) (r : sp_state MotuReceiveStreamProcessor W2) p ctr sy (es pad n : nat) rb1 rb2 d :
  let T j := frame_ticks (head_time s) (sync_ticks_per_frame (world s)) j in
  motu_packet_frames s = Z.of_nat n -> mtx_event_size (child s) = Z.of_nat es -> m_event_pad_bytes (child s) = Z.of_nat pad -> 0 <= m_tx_dbc (child s) < 256 ->
  (8 <= es <= 1020)%nat -> (Nat.divide 4 es)%nat -> pad = 0%nat \/ pad = 2%nat -> motu_time_to_send s ctr -> (8 + n * es <= length (p_data p))%nat ->
  holds_events (m_data_buffer (sp s)) (Z.of_nat es) rb1 -> Z.of_nat (n * es) <= rb_fill rb1 -> motu_can_receive r es n (T (n - 1)%nat) rb2 ->
  valid_ctr (getCycleTimer (world r)).1 -> ticks_after (getCycleTimer (world r)).1 d (T (n - 1)%nat) -> -1000 * 3072 <= d < 1001 * 3072 ->
  exists p1 s1 p2 s2 r1 r2 rb1' rb2' events,
    @mtx_generatePacketHeader W1 _ P1 p ctr s = Some ((eCRV_Packet, p1), s1) /\ @mtx_generatePacketData W1 _ _ P1 p1 s1 = Some ((eCRV_OK, p2), s2)
    /\ @mrx_processPacketHeader W2 _ P2 (p_data p2) (p_length p2) (p_tag p2) sy ctr r = Some (eCRV_OK, r1)
    /\ mrx_processPacketData (p_data p2) (p_length p2) r1 = Some (eCRV_OK, r2) /\ m_last_timestamp (times (sp r1)) = T (n - 1)%nat
    /\ m_event_buffer (m_data_buffer (sp s2)) = Some rb1' /\ rb_contents rb1 = take (n * es) (rb_contents rb1) ++ rb_contents rb1'
    /\ m_event_buffer (m_data_buffer (sp r2)) = Some rb2' /\ rb_contents rb2' = rb_contents rb2 ++ events /\ length events = (n * es)%nat
    /\ forall j, (j < n)%nat -> event_bytes es 0 4 j events = quad_be (fullTicksToSph (T j))
         /\ event_bytes es 4 (es - 4 - pad) j events = event_bytes es 4 (es - 4 - pad) j (rb_contents rb1).
Proof.
  intros T Hn Es Ep Hdbc He Hdiv Hpad Hs Hl Htx Hf (Er & Hrx & Hf2 & Hu & Hlt & Hge) Hc HT Hd.
  pose proof (frames_range (getNominalRate (world s))) as Hr. change (motu_frames_per_packet _) with (motu_packet_frames s) in Hr.
  destruct (motu_header_sent P1 s p ctr ltac:(lia) Hs) as (p1 & s1 & E1 & D1 & L1 & T1 & M1 & B1 & Wo1 & C1).
  assert (length (p_data p1) = length (p_data p)) as Ld by (rewrite D1, !length_app, length_drop; cbn; lia).
  destruct (motu_data_sent P1 s1 p1 rb1 es pad n) as (p2 & s2 & rb1' & E2 & L2 & T2 & Ld2 & Tk & Hh & Ec & Ev); try done.
  { unfold motu_packet_frames. by rewrite Wo1. } { by rewrite C1. } { by rewrite C1. } { by rewrite B1. } { lia. }
  assert (0 <= next_dbc s < 256) as Hnext by (unfold next_dbc; rewrite wrapU_small by lia; zcases; lia).
  assert (sph_bytes s1 = fun j => quad_be (fullTicksToSph (T j))) as Esph by (unfold sph_bytes, T; by rewrite M1, Wo1). rewrite Esph in Ev.
  destruct Hdiv as [k Hk]. assert (Z.of_nat es / 4 = Z.of_nat k) as Ek by (rewrite Hk, Nat2Z.inj_mul, Z.div_mul; lia).
  rewrite L1, Hn, Es, wrapU_small in L2 by nia.
  edestruct (motu_header_accepted P2 r (p_data p2) sy ctr) as (r1 & E3 & M3 & B3 & C3); [exact Er|lia| | | | |exact (proj1 (Ev (n - 1)%nat ltac:(lia)))|done|exact HT|done|].
  { lia. } 3:{ rewrite Tk, D1. reflexivity. } { apply wrapU_range. lia. } { rewrite Es, Ek, header_dbs by lia. lia. }
  destruct (motu_payload_received P2 r1 (p_data p2) es n rb2) as (r2 & rb2' & E4 & Hh2 & Ec2); try (rewrite ?C3, ?B3, ?M3; done || lia).
  exists p1, s1, p2, s2, r1, r2, rb1', rb2', (take (n * es) (drop 8 (p_data p2))). rewrite L2, T2, T1. replace (Z.of_nat n * Z.of_nat es + 8) with (Z.of_nat (n * es + 8)) by lia.
  assert (length (take (n * es) (drop 8 (p_data p2))) = (n * es)%nat) as Le by (rewrite length_take, length_drop; lia).
  split_and!; try done; [by destruct Hh as (_ & _ & _ & ? & _)|by destruct Hh2 as (_ & _ & _ & ? & _)|].
  intros j Hj. destruct (Ev j Hj) as [A B]. rewrite <- (take_drop (n * es) (drop 8 (p_data p2))) in A, B. rewrite (event_bytes_prefix _ _ _ _ n) in A by lia.
  rewrite (event_bytes_prefix _ _ _ _ n) in B by lia. done.
Qed.
End packets.

(** ** A concrete stream

    Events of twelve bytes, the last two of them pad bytes, at 48 kHz. *)
#[local] Existing Instance example_world.
Definition example_ctr (cycle : Z) : Z := cycle * 2 ^ 12 + 100.
#[local] Instance example_motu_world : MotuWorld Z := { getCycleTimer w := (example_ctr 4, w); sync_ticks_per_frame _ := f_of_Z 512 }.

Definition motu_events_buffer (r n : Z) : TimestampedBuffer :=
  mkTSB (mkSizes 8 96 12 1 12 8 128) (clock (example_events_buffer 0 64)) (Some (example_events r n)) (replicate 96 0) true false (n / 12).
Definition motu_processor (type : eProcessorType) (b : TimestampedBuffer) : StreamProcessor :=
  mkSP (mkMachine ePS_Running ePS_Running 0 false) (mkTimes 0 0 false) (mkSettings type 1 0 (S754_zero false) (S754_zero false) 0 50) b None PortManager_new.
Definition motu_sender : sp_state MotuTransmitStreamProcessor Z :=
  mkState (motu_processor ePT_Transmit (motu_events_buffer 100 96)) (MotuTransmitStreamProcessor_new (fun _ => 0) 48000 2 12) 0.
Definition motu_receiver : sp_state MotuReceiveStreamProcessor Z :=
  mkState (motu_processor ePT_Receive (motu_events_buffer 20 24)) (MotuReceiveStreamProcessor_new (fun _ => 0) 2 12) 0.

Lemma motu_events_hold r n : 0 <= r < 128 -> holds_events (motu_events_buffer r n) 12 (example_events r n).
Proof. intros. split_and!; try done. split; simpl; try done; [by exists 7|apply Z.mod_pos_bound; lia]. Qed.

Lemma motu_packet_arrives_witness : exists p1 s1 p2 s2 r1 r2 rb2' events,
    @mtx_generatePacketHeader Z _ (example_platform false) (mkPacket (replicate 104 0) 0 0 0) (example_ctr 2) motu_sender = Some ((eCRV_Packet, p1), s1)
    /\ @mtx_generatePacketData Z _ _ (example_platform false) p1 s1 = Some ((eCRV_OK, p2), s2)
    /\ @mrx_processPacketHeader Z _ (example_platform true) (p_data p2) (p_length p2) (p_tag p2) 0 0 motu_receiver = Some (eCRV_OK, r1)
    /\ mrx_processPacketData (p_data p2) (p_length p2) r1 = Some (eCRV_OK, r2) /\ m_last_timestamp (times (sp r1)) = example_presentation + 7 * 512
    /\ m_event_buffer (m_data_buffer (sp r2)) = Some rb2' /\ rb_contents rb2' = rb_contents (example_events 20 24) ++ events
    /\ event_bytes 12 4 6 3 events = event_bytes 12 4 6 3 (rb_contents (example_events 100 96)).
Proof.
  destruct (motu_packet_arrives (example_platform false) (example_platform true) motu_sender motu_receiver (mkPacket (replicate 104 0) 0 0 0) (example_ctr 2) 0 12 2 8
    (example_events 100 96) (example_events 20 24) 612) as (p1 & s1 & p2 & s2 & r1 & r2 & rb1' & rb2' & ev & E1 & E2 & E3 & E4 & T & _ & _ & Eb & C & L & H).
  - reflexivity.
  - reflexivity.
  - reflexivity.
  - vm_compute. split; congruence.
  - lia.
  - by exists 3%nat.
  - by right.
  - vm_compute. repeat split; congruence.
  - vm_compute. lia.
  - apply motu_events_hold. lia.
  - vm_compute. congruence.
  - split; [reflexivity|]. split; [apply motu_events_hold; lia|]. repeat split; vm_compute; congruence.
  - vm_compute. repeat split; congruence.
  - vm_compute. reflexivity.
  - lia.
  - exists p1, s1, p2, s2, r1, r2, rb2', ev. split_and!; [exact E1|exact E2|exact E3|exact E4|exact T|exact Eb|exact C|].
    apply (H 3%nat). lia.
Defined.

(** One pad byte: the first byte of the time of the next event is cleared, too, and the cycle of the frame is lost. *)
Example one_pad_byte : let d := replicate 49 255 in
  event_bytes 20 0 4 1 <$> (drop 8 <$> clear_pads 20 1 2 d) = Some [0; 255; 255; 255].
Proof. by vm_compute. Qed.

(** Two ports of eight words. *)
Definition motu_port (this : Z) (ws : list Z) : Port := mkPort this "p" false 8 E_Audio E_Playback (Some ws) E_Initialized.
Definition motu_ports (sp0 : StreamProcessor) (ps : list Port) : StreamProcessor :=
  mkSP (machine sp0) (times sp0) (settings sp0) (m_data_buffer sp0) (m_scratch_buffer sp0) (mkPM ps [] []).
Definition motu_positions : packed_infos := [(1, mkPackedInfo 10 24); (2, mkPackedInfo 13 24)].
Definition motu_audio_sender : sp_state MotuTransmitStreamProcessor Z :=
  mkState (motu_ports (sp motu_sender) [motu_port 1 [0; 0; 0x123456; 0x1800001; 0x7fffff; 5; 6; 7]; motu_port 2 [0; 0; 0xffffffff; 2; 3; 4; 5; 6]])
    (mkMotuTx 16 0 2 0 (paced_midi_new (fun _ => 0) 48000) motu_positions) 0.
Definition motu_audio_receiver : sp_state MotuReceiveStreamProcessor Z :=
  mkState (motu_ports (sp motu_receiver) [motu_port 1 (replicate 8 0); motu_port 2 (replicate 8 0)])
    (mkMotuRx 16 2 MotuDevControls_zero (mkQueue (replicate 64 0) 0 0) motu_positions) 0.

Lemma motu_audio_roundtrip_witness : exists data' s' r',
  @mtx_processWriteBlock Z _ (replicate 64 7) 4 2 motu_audio_sender = Some ((true, data'), s')
  /\ @mrx_processReadBlock Z _ data' 4 0 motu_audio_receiver = Some (true, r')
  /\ (default [] ∘ m_buffer) <$> m_Ports (ports (sp r')) = [[0x123456; 0xff800001; 0x7fffff; 5; 0; 0; 0; 0]; [0xffffffff; 2; 3; 4; 0; 0; 0; 0]].
Proof.
  destruct (motu_audio_roundtrip motu_audio_sender motu_audio_receiver [10; 13]%nat (replicate 64 7) 4 16 2 0) as (data' & s' & r' & E1 & E2 & _ & _ & H).
  - reflexivity.
  - reflexivity.
  - lia.
  - vm_compute. lia.
  - reflexivity.
  - reflexivity.
  - repeat constructor; try reflexivity; try (vm_compute; congruence); eexists; (split; [reflexivity|vm_compute; lia]).
  - repeat constructor; try reflexivity; try (vm_compute; congruence); eexists; (split; [reflexivity|vm_compute; lia]).
  - repeat constructor; unfold apart_by; lia.
  - repeat constructor; lia.
  - exists data', s', r'. split; [exact E1|]. split; [exact E2|]. vm_compute in E1. injection E1 as <- <-. vm_compute in E2. injection E2 as <-. reflexivity.
Defined.
