(* ===== verification/Rme.v ===== *)
(** * The RME stream processors

    Model of [src/libstreaming/rme/RmeReceiveStreamProcessor.cpp], [RmeTransmitStreamProcessor.cpp] and their headers.  A packet has no header: it is a sequence of events with a
    quadlet for each channel, in the byte order of the device, which is little endian.  The device starts only when it gets data, so that empty packets have silence in them until
    streaming has begun.

    The test tone of a non-zero debug level is left out. *)
From S2P Require Import Prelude CmdSerialize CycleTimer RingBuffer ByteSwap Ieee754 TimestampedBuffer Ports StreamProcessor StreamStates.
From S2P Require Import Amdtp AmdtpReceive AmdtpAudio AmdtpStream PackedEvents Motu MotuStream.
#[local] Open Scope Z_scope.

(** From [config.h]; the switch [RME_CLIP_FLOATS] is on there. *)
Definition RME_TRANSMIT_TRANSFER_DELAY : Z := 3 * TICKS_PER_CYCLE.
Definition RME_RECEIVE_TRANSFER_DELAY : Z := RME_TRANSMIT_TRANSFER_DELAY.
Definition RME_MIN_CYCLES_BEFORE_PRESENTATION : Z := 1.
Definition RME_MAX_CYCLES_TO_TRANSMIT_EARLY : Z := 5.

(** What the processors use besides [SPWorld]: the device, the ticks per frame of the sync source, and settings of the managers. *)
Class RmeWorld (W : Type) := {
  getFramesPerPacket : W -> Z;
  getNumChannels : W -> Z;
  rme_ticks_per_frame : W -> float;
  setIsoStartCycle : Z -> W -> W;
  setMaxDiffTicks : Z -> W -> W;
}.

(** [RME_BYTESWAP32] *)
Definition ByteSwapToDevice32 (be : bool) (x : Z) : Z := if be then ByteSwap32 x else x.
Definition ByteSwapFromDevice32 (be : bool) (x : Z) : Z := if be then ByteSwap32 x else x.

Section samples.
Context `{Platform}.

(** The sign is looked for in the word before it is swapped. *)
Definition rme_int24_of_bytes (bs : list Z) : Z :=
  let w := quad_load big_endian bs in
  let v := (ByteSwapFromDevice32 big_endian w >> 8) .& 0x00ffffff in
  if (w .& 0x80000000) =? 0 then v else v .| 0xff000000.
Definition rme_float_of_bytes (bs : list Z) : Z :=
  let multiplier := fdiv (f_of_Z 1) (f_of_Z 0x7FFFFF) in
  bits_of_float (fmul (f_of_Z (i32 (rme_int24_of_bytes bs))) multiplier).
Definition rme_bytes_of_int24 (x : Z) : list Z := quad_store big_endian (ByteSwapToDevice32 big_endian (u32 ((x .& 0x00ffffff) << 8))).
Definition rme_bytes_of_float (x : Z) : list Z := quad_store big_endian (ByteSwapToDevice32 big_endian (u32 (int24_of_float x << 8))).
End samples.

(** ** The receive processor *)

Record RmeReceiveStreamProcessor := mkRmeRx { rrx_model : Z; rrx_event_size : Z; rrx_queue : midi_queue; rrx_infos : packed_infos }.
Definition RmeReceiveStreamProcessor_new (junk : nat -> Z) (model event_size : Z) : RmeReceiveStreamProcessor :=
  mkRmeRx model event_size (mkQueue (junk <$> seq 0 (Z.to_nat RX_MIDIBUFFER_SIZE)) 0 0) [].

Definition rme_frames_per_packet (framerate : Z) : Z := if framerate <=? 48000 then 7 else if framerate <=? 96000 then 15 else 25.
Definition f_0_25 : float := fdiv (f_of_Z 1) (f_of_Z 4).

Section rme_receive.
Context {W : Type} `{SPWorld W} `{RmeWorld W} `{Platform}.
Abbreviation M := (run (sp_state RmeReceiveStreamProcessor W)).

Definition rrx_getMaxPacketSize : M Z := n ← from_world getFramesPerPacket; c ← from_world getNumChannels; mret (u32 (n * c * 4)).

(** [m_dll_bandwidth_hz] and [m_max_diff_ticks]; [m_max_fs_diff_norm], which is set beside them, is only used for warnings. *)
Definition set_dll_limits {C} (bw : float) (ticks : Z) : run (sp_state C W) unit :=
  on_settings (fun g => mkSettings (m_processor_type g) (m_local_node_id g) (m_channel g) (m_ticks_per_frame g) bw (m_extra_buffer_frames g) ticks).

Definition rrx_prepareChild : M bool :=
  on_world (setIsoStartCycle (-1)) ;;
  set_dll_limits f_0_25 30720 ;;
  on_buffer (setMaxAbsDiff 10000) ;;
  on_world (setMaxDiffTicks 30720) ;;
  mret true.

(** The start of the cycle of the packet, less the transfer delay. *)
Definition rme_timestamp (pkt_ctr : Z) : Z :=
  let t := CYCLE_TIMER_TO_TICKS (CYCLE_TIMER_SET_OFFSET pkt_ctr 0) - RME_RECEIVE_TRANSFER_DELAY in
  if t <? 0 then t + 128 * TICKS_PER_SECOND else if 128 * TICKS_PER_SECOND <=? t then t - 128 * TICKS_PER_SECOND else t.

Definition rrx_processPacketHeader (data : list Z) (length tag sy pkt_ctr : Z) : M eChildReturnValue :=
  if 0 <? length then set_last_timestamp (rme_timestamp pkt_ctr) ;; mret eCRV_OK else mret eCRV_Invalid.

(** [length / m_event_size]; [None]: a division by zero. *)
Definition rrx_processPacketData (data : list Z) (length : Z) : M eChildReturnValue :=
  r ← gets child;
  n_events ← lift (if rrx_event_size r =? 0 then None else Some (length / rrx_event_size r));
  ts ← get_last_timestamp;
  ok ← call_buffer (writeFrames n_events data (d_of_Z ts));
  mret (if ok : bool then eCRV_OK else eCRV_XRun).

(** Both positions and strides are rounded down to quadlets. *)
Definition decodeRmeEventsToPort (type : eAudioDataType) (event_size position : nat) (data : list Z) (offset nevents : nat) (p : Port) : option Port :=
  fits_buffer debug_build nevents offset p
    (with_words (decode_events (match type with eADT_Int24 => rme_int24_of_bytes | eADT_Float => rme_float_of_bytes end)
       4 (4 * (event_size / 4)) (4 * (position / 4)) offset nevents data) p).

(** MIDI bytes are never found in the events ([if (0)]); what is in the queue goes to the client. *)
Definition rme_midi_event (j : nat) (st : list Z * nat * midi_queue) : option (list Z * nat * midi_queue) :=
  let '(ws, pos, q) := st in
  if (j mod 8 =? 0)%nat then
    '(x, q) ← midi_get q;
    ws ← (match x with Some x => store pos x ws | None => Some ws end);
    Some (ws, (pos + 8)%nat, q)
  else Some (ws, pos, q).
Definition decodeRmeMidiEventsToPort (offset nevents : nat) (p : Port) (q : midi_queue) : option (Port * midi_queue) :=
  fits_buffer debug_build nevents offset p
    (let run ws := ws ← clear_words offset nevents ws; for_loop 0 nevents 1 rme_midi_event (ws, offset, q) in
     match m_buffer p with
     | Some ws => '(ws, _, q) ← run ws; Some (with_buffer (Some ws) p, q)
     | None => '(_, _, q) ← run []; Some (p, q)
     end).

Definition rrx_decode_port (type : eAudioDataType) (r : RmeReceiveStreamProcessor) (data : list Z) (offset nevents : nat) (p : Port) (q : midi_queue) :
    option (Port * midi_queue) :=
  if m_disabled p then Some (p, q) else
  match m_PortType p with
  | E_Audio => pos ← position_of (rrx_infos r) (port_this p);
      p ← decodeRmeEventsToPort type (Z.to_nat (rrx_event_size r)) (Z.to_nat pos) data offset nevents p; Some (p, q)
  | E_Midi => decodeRmeMidiEventsToPort offset nevents p q
  | E_Control => Some (p, q)
  end.

Definition rrx_set_queue (q : midi_queue) : M unit :=
  modify (fun s => let r := child s in mkState (sp s) (mkRmeRx (rrx_model r) (rrx_event_size r) q (rrx_infos r)) (world s)).
Definition rrx_processReadBlock (data : list Z) (nevents offset : Z) : M bool :=
  r ← gets child; ps ← gets (fun s => m_Ports (ports (sp s))); type ← from_world getAudioDataType;
  '(ps, q) ← lift (for_ports (rrx_decode_port type r data (Z.to_nat offset) (Z.to_nat nevents)) ps (rrx_queue r));
  rrx_set_queue q ;; call_ports (fun m => (tt, with_ports ps m)) ;; mret true.
End rme_receive.

#[export] Instance rme_rx_child {W} `{SPWorld W} `{RmeWorld W} `{Platform} : SPChild RmeReceiveStreamProcessor W := {
  getEventsPerFrame _ := 1;
  getEventSize r := rrx_event_size r;
  getNominalFramesPerPacket _ w := rme_frames_per_packet (getNominalRate w);
  prepareChild := rrx_prepareChild;
  processPacketHeader := rrx_processPacketHeader;
  processPacketData := rrx_processPacketData;
  generatePacketHeader p _ := call_not_allowed p;
  generatePacketData := call_not_allowed;
  generateEmptyPacketHeader p _ := call_not_allowed p;
  generateEmptyPacketData := call_not_allowed;
  generateSilentPacketHeader p _ := call_not_allowed p;
  generateSilentPacketData := call_not_allowed;
  transmitSilenceBlock d _ _ := mret (false, d);
  block_client := {| processReadBlock := rrx_processReadBlock; processWriteBlock d _ _ := mret (false, d) |};
}.

(** ** The transmit processor *)

Record RmeTransmitStreamProcessor := mkRmeTx {
  rtx_model : Z;
  rtx_event_size : Z;
  rtx_dbc : Z;
  rtx_midi : paced_midi;
  streaming_has_run : bool;
  streaming_has_dryrun : bool;
  streaming_start_count : Z;
  rtx_infos : packed_infos;
}.
Definition RmeTransmitStreamProcessor_new (junk : nat -> Z) (rate model event_size : Z) : RmeTransmitStreamProcessor :=
  mkRmeTx model event_size 0 (paced_midi_new junk rate) false false 0 [].

Section rme_transmit.
Context {W : Type} `{SPWorld W} `{RmeWorld W} `{Platform}.
Abbreviation M := (run (sp_state RmeTransmitStreamProcessor W)).

Definition rtx_on_child (f : RmeTransmitStreamProcessor -> RmeTransmitStreamProcessor) : M unit :=
  modify (fun s => mkState (sp s) (f (child s)) (world s)).
Definition rtx_set_dbc (x : Z) : M unit :=
  rtx_on_child (fun t => mkRmeTx (rtx_model t) (rtx_event_size t) x (rtx_midi t) (streaming_has_run t) (streaming_has_dryrun t) (streaming_start_count t) (rtx_infos t)).
Definition rtx_set_midi (x : paced_midi) : M unit :=
  rtx_on_child (fun t => mkRmeTx (rtx_model t) (rtx_event_size t) (rtx_dbc t) x (streaming_has_run t) (streaming_has_dryrun t) (streaming_start_count t) (rtx_infos t)).
Definition rtx_set_streaming (has_run has_dryrun : bool) (count : Z) : M unit :=
  rtx_on_child (fun t => mkRmeTx (rtx_model t) (rtx_event_size t) (rtx_dbc t) (rtx_midi t) has_run has_dryrun count (rtx_infos t)).

Definition rtx_getMaxPacketSize : M Z := n ← from_world getFramesPerPacket; c ← from_world getNumChannels; mret (u32 (n * c * 4)).

Definition resetForStreaming : M bool := rtx_set_streaming false false 0 ;; mret true.

Definition rtx_prepareChild : M bool := set_dll_limits (f_of_Z 1) 30720 ;; mret true.

Definition rme_fillDataPacketHeader (p : packet) (ts : Z) : M (Z * packet) :=
  t ← gets child; n_events ← from_world getFramesPerPacket;
  mret (n_events, mkPacket (p_data p) (u32 (n_events * rtx_event_size t)) (p_tag p) (p_sy p)).

(** The header, the data block counter and the timestamp. *)
Definition rme_data_packet (p : packet) (presentation_time : Z) : M (eChildReturnValue * packet) :=
  '(n, p) ← rme_fillDataPacketHeader p (u32 presentation_time);
  t ← gets child;
  let dbc := u32 (rtx_dbc t + n) in
  rtx_set_dbc (if 0xff <? dbc then dbc - 0x100 else dbc) ;;
  set_last_timestamp presentation_time ;;
  mret (eCRV_Packet, p).

Definition rme_cycles_until (time pkt_ctr : Z) : Z := diffCycles (u32 (TICKS_TO_CYCLES time)) (CYCLE_TIMER_GET_CYCLES pkt_ctr).

(** [tag] is left as it is. *)
Definition rtx_generatePacketHeader (p : packet) (pkt_ctr : Z) : M (eChildReturnValue * packet) :=
  let p := mkPacket (p_data p) 0 (p_tag p) 0 in
  '(ts_head_tmp, fc) ← from_buffer getBufferHeadTimestamp;
  n_events ← from_world getFramesPerPacket;
  let presentation_time := u64 (Z_of_float ts_head_tmp) in
  let cycles_until_presentation := rme_cycles_until presentation_time pkt_ctr in
  let cycles_until_transmit := rme_cycles_until (substractTicks presentation_time RME_TRANSMIT_TRANSFER_DELAY) pkt_ctr in
  if fc <? n_events then
    if cycles_until_presentation <=? RME_MIN_CYCLES_BEFORE_PRESENTATION then mret (eCRV_XRun, p) else mret (eCRV_Again, p)
  else if cycles_until_transmit <? 0 then
    if RME_MIN_CYCLES_BEFORE_PRESENTATION <=? cycles_until_presentation then rme_data_packet p presentation_time else mret (eCRV_XRun, p)
  else if cycles_until_transmit <=? RME_MAX_CYCLES_TO_TRANSMIT_EARLY then rme_data_packet p presentation_time
  else mret (eCRV_EmptyPacket, p).

(** [memset(data, 0, *length)] *)
Definition clear_packet (p : packet) : option packet :=
  data ← store_bytes 0 (replicate (Z.to_nat (p_length p)) 0) (p_data p);
  Some (mkPacket data (p_length p) (p_tag p) (p_sy p)).

Definition rtx_generatePacketData (p : packet) : M (eChildReturnValue * packet) :=
  t ← gets child;
  rtx_set_streaming true (streaming_has_dryrun t) (streaming_start_count t) ;;
  n_events ← from_world getFramesPerPacket;
  '(ok, d) ← call_buffer (fun b => '(ok, d, b) ← readFrames n_events b; Some ((ok, d), b));
  data ← lift (store_bytes 0 d (p_data p));
  let p := mkPacket data (p_length p) (p_tag p) (p_sy p) in
  if ok : bool then mret (eCRV_OK, p) else p ← lift (clear_packet p); mret (eCRV_XRun, p).

Definition rtx_generateEmptyPacketHeader (p : packet) (pkt_ctr : Z) : M (eChildReturnValue * packet) :=
  t ← gets child;
  if streaming_has_run t then mret (eCRV_OK, mkPacket (p_data p) 0 0 0) else
  n_events ← from_world getFramesPerPacket;
  rtx_set_streaming false true (i32 (streaming_start_count t + n_events)) ;;
  mret (eCRV_OK, mkPacket (p_data p) (u32 (n_events * rtx_event_size t)) 0 0).

Definition rtx_generateEmptyPacketData (p : packet) : M (eChildReturnValue * packet) :=
  if 0 <? p_length p then p ← lift (clear_packet p); mret (eCRV_OK, p) else mret (eCRV_OK, p).

Definition rtx_generateSilentPacketHeader (p : packet) (pkt_ctr : Z) : M (eChildReturnValue * packet) :=
  let p := mkPacket (p_data p) 0 (p_tag p) 0 in
  n_events ← from_world getFramesPerPacket; tpf ← from_world rme_ticks_per_frame; ts ← get_last_timestamp;
  let presentation_time := frame_ticks ts tpf (Z.to_nat n_events) in
  let cycles_until_transmit := rme_cycles_until (substractTicks presentation_time RME_TRANSMIT_TRANSFER_DELAY) pkt_ctr in
  if (cycles_until_transmit <? 0) || (cycles_until_transmit <=? RME_MAX_CYCLES_TO_TRANSMIT_EARLY) then rme_data_packet p presentation_time
  else mret (eCRV_EmptyPacket, p).

Definition rtx_generateSilentPacketData (p : packet) : M (eChildReturnValue * packet) := p ← lift (clear_packet p); mret (eCRV_OK, p).

(** ** Blocks *)

Definition encodePortToRmeEvents (type : eAudioDataType) (event_size position offset nevents : nat) (p : Port) (data : list Z) : option (list Z) :=
  fits_buffer debug_build nevents offset p
    (encode_events (match type with eADT_Int24 => rme_bytes_of_int24 | eADT_Float => rme_bytes_of_float end)
       (4 * (event_size / 4)) (4 * (position / 4)) offset nevents (default [] (m_buffer p)) data).
Definition encodeSilencePortToRmeEvents (event_size position nevents : nat) (data : list Z) : option (list Z) :=
  clear_events [0; 0; 0; 0] (4 * (event_size / 4)) (4 * (position / 4)) nevents data.
Definition encodePortToRmeMidiEvents (event_size position offset nevents : nat) (p : Port) (st : list Z * paced_midi) : option (list Z * paced_midi) :=
  encode_midi_events event_size position offset nevents (default [] (m_buffer p)) st.
Definition encodeSilencePortToRmeMidiEvents (event_size position nevents : nat) (data : list Z) : option (list Z) :=
  encode_midi_silence event_size position nevents data.

Definition rtx_encode_port (type : eAudioDataType) (t : RmeTransmitStreamProcessor) (offset nevents : nat) (p : Port) (st : list Z * paced_midi) :
    option (Port * (list Z * paced_midi)) :=
  let es := Z.to_nat (rtx_event_size t) in
  if m_disabled p then
    pos ← position_of (rtx_infos t) (port_this p);
    data ← encodeSilencePortToRmeEvents es (Z.to_nat pos) nevents st.1; Some (p, (data, st.2))
  else
  match m_PortType p with
  | E_Audio => pos ← position_of (rtx_infos t) (port_this p);
      data ← encodePortToRmeEvents type es (Z.to_nat pos) offset nevents p st.1; Some (p, (data, st.2))
  | E_Midi => pos ← position_of (rtx_infos t) (port_this p);
      st ← encodePortToRmeMidiEvents es (Z.to_nat pos) offset nevents p st; Some (p, st)
  | E_Control => Some (p, st)
  end.
Definition rtx_processWriteBlock (data : list Z) (nevents offset : Z) : M (bool * list Z) :=
  t ← gets child; ps ← gets (fun s => m_Ports (ports (sp s))); type ← from_world getAudioDataType;
  '(_, (data, q)) ← lift (for_ports (rtx_encode_port type t (Z.to_nat offset) (Z.to_nat nevents)) ps (data, rtx_midi t));
  rtx_set_midi q ;; mret (true, data).

Definition rtx_silence_port (t : RmeTransmitStreamProcessor) (nevents : nat) (p : Port) (data : list Z) : option (Port * list Z) :=
  let es := Z.to_nat (rtx_event_size t) in
  match m_PortType p with
  | E_Audio => pos ← position_of (rtx_infos t) (port_this p); data ← encodeSilencePortToRmeEvents es (Z.to_nat pos) nevents data; Some (p, data)
  | E_Midi => pos ← position_of (rtx_infos t) (port_this p); data ← encodeSilencePortToRmeMidiEvents es (Z.to_nat pos) nevents data; Some (p, data)
  | E_Control => Some (p, data)
  end.
Definition rtx_transmitSilenceBlock (data : list Z) (nevents offset : Z) : M (bool * list Z) :=
  t ← gets child; ps ← gets (fun s => m_Ports (ports (sp s)));
  '(_, data) ← lift (for_ports (rtx_silence_port t (Z.to_nat nevents)) ps data);
  mret (true, data).
End rme_transmit.

#[export] Instance rme_tx_child {W} `{SPWorld W} `{RmeWorld W} `{Platform} : SPChild RmeTransmitStreamProcessor W := {
  getEventsPerFrame _ := 1;
  getEventSize t := rtx_event_size t;
  getNominalFramesPerPacket _ w := getFramesPerPacket w;
  prepareChild := rtx_prepareChild;
  processPacketHeader _ _ _ _ _ := mret eCRV_Invalid;
  processPacketData _ _ := mret eCRV_Invalid;
  generatePacketHeader := rtx_generatePacketHeader;
  generatePacketData := rtx_generatePacketData;
  generateEmptyPacketHeader := rtx_generateEmptyPacketHeader;
  generateEmptyPacketData := rtx_generateEmptyPacketData;
  generateSilentPacketHeader := rtx_generateSilentPacketHeader;
  generateSilentPacketData := rtx_generateSilentPacketData;
  transmitSilenceBlock := rtx_transmitSilenceBlock;
  block_client := {| processReadBlock _ _ _ := mret false; processWriteBlock := rtx_processWriteBlock |};
}.

(** ** The state machine *)

Lemma quiet_rtx_on_child {W} f : steady quiet (rtx_on_child f : run (sp_state _ W) unit).
Proof. apply quiet_child. Qed.
Lemma quiet_rrx_set_queue {W} q : steady quiet (rrx_set_queue q : run (sp_state _ W) unit).
Proof. by intros s a s' [= <- <-]. Qed.
Lemma quiet_max_abs_diff {C W} n : steady quiet (on_buffer (setMaxAbsDiff n) : run (sp_state C W) unit).
Proof. by intros s a s' [= <- <-]. Qed.
#[export] Hint Resolve quiet_rtx_on_child quiet_rrx_set_queue quiet_max_abs_diff : steady.

#[export] Instance rme_rx_quiet {W} `{SPWorld W} `{RmeWorld W} `{Platform} : SPChildQuiet RmeReceiveStreamProcessor W.
Proof.
  split; intros; cbn; unfold call_not_allowed; steady.
  - unfold rrx_prepareChild, set_dll_limits. steady.
  - unfold rrx_processPacketHeader, set_last_timestamp. steady.
  - unfold rrx_processPacketData, get_last_timestamp. steady.
  - unfold rrx_processReadBlock, from_world. steady.
Qed.
#[export] Instance rme_tx_quiet {W} `{SPWorld W} `{RmeWorld W} `{Platform} : SPChildQuiet RmeTransmitStreamProcessor W.
Proof.
  split; intros; cbn; steady.
  - unfold rtx_prepareChild, set_dll_limits. steady.
  - unfold rtx_generatePacketHeader, rme_data_packet, rme_fillDataPacketHeader, rtx_set_dbc, set_last_timestamp, from_buffer, from_world. steady.
  - unfold rtx_generatePacketData, rtx_set_streaming, from_world. steady.
  - unfold rtx_generateEmptyPacketHeader, rtx_set_streaming, from_world. steady.
  - unfold rtx_generateEmptyPacketData. steady.
  - unfold rtx_generateSilentPacketHeader, rme_data_packet, rme_fillDataPacketHeader, rtx_set_dbc, set_last_timestamp, get_last_timestamp, from_world. steady.
  - unfold rtx_generateSilentPacketData. steady.
  - unfold rtx_transmitSilenceBlock. steady.
  - unfold rtx_processWriteBlock, rtx_set_midi, from_world. steady.
Qed.

(** ** Samples *)

(** The device gets the low byte first from hosts of both byte orders. *)
Lemma device_bytes be x : 0 <= x < 2 ^ 32 -> quad_store be (ByteSwapToDevice32 be x) = quad_le x.
Proof.
  intros Hx. unfold quad_store, ByteSwapToDevice32. destruct be; [|done].
  rewrite <- (proj2 (ByteSwap32_bytes (ByteSwap32 x))). by rewrite ByteSwap32_involutive.
Qed.

Lemma rme_word_range x : u32 ((x .& 0x00ffffff) << 8) = (x mod 2 ^ 24) * 2 ^ 8 /\ 0 <= (x mod 2 ^ 24) * 2 ^ 8 < 2 ^ 32.
Proof.
  change 0x00ffffff with (2 ^ 24 - 1). rewrite land_mask_mod, Z.shiftl_mul_pow2 by lia. pose proof (Z.mod_pos_bound x (2 ^ 24) ltac:(lia)).
  change (2 ^ 24) with 16777216 in *. change (2 ^ 8) with 256. change (2 ^ 32) with 4294967296. unfold u32. split; [|lia]. apply Z.mod_small. lia.
Qed.

(** On a little-endian receiver a sample comes back with its sign. *)
Lemma rme_int24_bytes (P1 P2 : Platform) x : @big_endian P2 = false -> @rme_int24_of_bytes P2 (@rme_bytes_of_int24 P1 x) = sign24 x.
Proof.
  intros L. destruct (rme_word_range x) as [E R]. unfold rme_bytes_of_int24, rme_int24_of_bytes, sign24. rewrite E, L, device_bytes by done. cbv zeta.
  rewrite (quad_load_store false) by done. unfold ByteSwapFromDevice32. rewrite Z.shiftr_div_pow2, Z.div_mul by lia.
  change 0x00ffffff with (2 ^ 24 - 1). rewrite land_mask_mod, Zmod_mod by lia. pose proof (Z.mod_pos_bound x (2 ^ 24) ltac:(lia)) as B. set (v := x mod 2 ^ 24) in *.
  change 0x80000000 with (Z.ones 1 << 31). rewrite land_field by lia.
  change (2 ^ 24) with 16777216 in *. change (2 ^ 23) with 8388608. change (2 ^ 8) with 256. change (2 ^ 31) with 2147483648. change (2 ^ 1) with 2.
  destruct (Z.ltb_spec v 8388608), (Z.eqb_spec ((v * 256 / 2147483648) mod 2 * 2147483648) 0); try zlia.
  pose proof (lor_shiftl_add 0xff v 24 ltac:(lia) B) as E'. change (0xff << 24) with 0xff000000 in E'. change (0xff * 2 ^ 24) with 0xff000000 in E'.
  rewrite Z.lor_comm, E'. lia.
Qed.

(** On a big-endian receiver the bit that is tested is that of the low byte of the quadlet, which is zero: a negative sample comes out positive. *)
Example big_endian_sign : @rme_int24_of_bytes (example_platform true) (@rme_bytes_of_int24 (example_platform true) (u32 (-5))) = 0x00fffffb.
Proof. by vm_compute. Qed.

(** ** Blocks *)

Section audio.
Context {W1 W2 : Type} {w1 : SPWorld W1} {w2 : SPWorld W2} (P1 P2 : Platform).

Lemma quads_aligned a : Nat.divide 4 a -> (4 * (a / 4))%nat = a.
Proof. intros [k ->]. by rewrite Nat.div_mul, Nat.mul_comm. Qed.

Lemma rtx_encode_ready t offset n p pos d q : port_ready (@debug_build W1 _) (rtx_infos t) offset n p pos -> Nat.divide 4 pos -> Nat.divide 4 (Z.to_nat (rtx_event_size t)) ->
  @rtx_encode_port W1 _ P1 eADT_Int24 t offset n p (d, q)
  = (fun d' => (p, (d', q))) <$> encode_events (@rme_bytes_of_int24 P1) (Z.to_nat (rtx_event_size t)) pos offset n (default [] (m_buffer p)) d.
Proof.
  intros R Hp He. pose proof R as (D & T & P & _). unfold rtx_encode_port. rewrite D, T, P. cbn [mbind option_bind fst snd]. rewrite Nat2Z.id.
  unfold encodePortToRmeEvents. rewrite (fits_ready _ _ _ _ _ _ _ R), !quads_aligned by done. by destruct (encode_events _ _ _ _ _ _ _).
Qed.
Lemma rrx_decode_ready r data offset n p pos q : port_ready (@debug_build W2 _) (rrx_infos r) offset n p pos -> Nat.divide 4 pos -> Nat.divide 4 (Z.to_nat (rrx_event_size r)) ->
  @rrx_decode_port W2 _ P2 eADT_Int24 r data offset n p q
  = (fun p' => (p', q)) <$> with_words (decode_events (@rme_int24_of_bytes P2) 4 (Z.to_nat (rrx_event_size r)) pos offset n data) p.
Proof.
  intros R Hp He. pose proof R as (D & T & P & _). unfold rrx_decode_port. rewrite D, T, P. cbn [mbind option_bind]. rewrite Nat2Z.id.
  unfold decodeRmeEventsToPort. rewrite (fits_ready _ _ _ _ _ _ _ R), !quads_aligned by done. by destruct (with_words _ _).
Qed.

(** Audio in the RME format: a block that the transmit processor composes on a host of either byte order and a little-endian receive processor takes apart, with ports at the same
    quadlets, gives every port of the receiver the 24 bits of every sample of its counterpart with their sign extended. *)
Theorem rme_audio_roundtrip (s : sp_state RmeTransmitStreamProcessor W1) (r : sp_state RmeReceiveStreamProcessor W2) poss data n es offset1 offset2 :
  @big_endian P2 = false -> rtx_event_size (child s) = Z.of_nat es -> rrx_event_size (child r) = Z.of_nat es -> Nat.divide 4 es -> (n * es <= length data)%nat ->
  getAudioDataType (world s) = eADT_Int24 -> getAudioDataType (world r) = eADT_Int24 ->
  Forall2 (port_ready (@debug_build W1 _) (rtx_infos (child s)) offset1 n) (m_Ports (ports (sp s))) poss ->
  Forall2 (port_ready (@debug_build W2 _) (rrx_infos (child r)) offset2 n) (m_Ports (ports (sp r))) poss ->
  ForallOrdPairs (apart_by 4) poss -> Forall (fun pos => Nat.divide 4 pos /\ pos + 4 <= es)%nat poss ->
  exists data' s' r', @rtx_processWriteBlock W1 _ P1 data (Z.of_nat n) (Z.of_nat offset1) s = Some ((true, data'), s')
    /\ @rrx_processReadBlock W2 _ P2 data' (Z.of_nat n) (Z.of_nat offset2) r = Some (true, r')
    /\ length (m_Ports (ports (sp r'))) = length poss
    /\ forall i p p' j, m_Ports (ports (sp s)) !! i = Some p -> m_Ports (ports (sp r')) !! i = Some p' -> (j < n)%nat ->
         port_word p' (offset2 + j) = sign24 (port_word p (offset1 + j)).
Proof.
  intros Le Es Er He Hd T1 T2 R1 R2 Ap Hb. apply Forall_and in Hb as [Hb Hb4]. rewrite Forall_forall in Hb.
  destruct (encode_ports (@debug_build W1 _) (rtx_infos (child s)) (@rme_bytes_of_int24 P1) 4 es offset1 n (@rtx_encode_port W1 _ P1 eADT_Int24 (child s) offset1 n)
    (m_Ports (ports (sp s))) poss) with (d := data) (s := rtx_midi (child s)) as (d1 & E1 & L1 & Same & _); [| |done|done|done|done|].
  { intros x. unfold rme_bytes_of_int24. by destruct (quad_store_cons (@big_endian P1) (ByteSwapToDevice32 (@big_endian P1) (u32 ((x .& 0x00ffffff) << 8)))) as (? & ? & ? & ? & ->). }
  { intros p pos d q Hp R. rewrite rtx_encode_ready with (pos := pos) by (rewrite ?Es, ?Nat2Z.id; auto). by rewrite Es, Nat2Z.id. }
  destruct (decode_ports (@debug_build W2 _) (rrx_infos (child r)) (@rme_int24_of_bytes P2) 4 es offset2 n d1 (@rrx_decode_port W2 _ P2 eADT_Int24 (child r) d1 offset2 n)
    (m_Ports (ports (sp r))) poss) with (s := rrx_queue (child r)) as (ps' & E2 & L2 & H2); [|done|done|lia|].
  { intros p pos q Hp R. rewrite rrx_decode_ready with (pos := pos) by (rewrite ?Er, ?Nat2Z.id; auto). by rewrite Er, Nat2Z.id. }
  eexists d1, _, _. split; [|split; [|split]].
  - unfold rtx_processWriteBlock. run_step. run_step. run_step. cbv beta. rewrite T1, !Nat2Z.id. erewrite run_bind_Some; [|unfold lift; rewrite E1; reflexivity]. reflexivity.
  - unfold rrx_processReadBlock. run_step. run_step. run_step. cbv beta. rewrite T2, !Nat2Z.id. erewrite run_bind_Some; [|unfold lift; rewrite E2; reflexivity]. reflexivity.
  - cbn. rewrite L2. by eapply Forall2_length.
  - cbn. intros i p p' j Hp Hp' Hj. destruct (Forall2_lookup_l _ _ _ _ _ R1 Hp) as (pos & Hpos & _).
    rewrite (H2 _ _ _ _ Hp' Hpos Hj), (Same _ _ _ _ Hp Hpos Hj). by apply rme_int24_bytes.
Qed.
End audio.

(** ** Empty packets *)

Lemma packet_front (bs d : list Z) : (length bs <= length d)%nat -> take (length bs) (list_inserts 0 bs d) = bs.
Proof.
  intros L. apply list_eq. intros k. destruct (decide (k < length bs)%nat) as [Hk|Hk].
  - rewrite lookup_take_lt, list_lookup_inserts by lia. by rewrite Nat.sub_0_r.
  - rewrite lookup_take_ge by lia. symmetry. apply lookup_ge_None. lia.
Qed.

Section empty_packets.
Context {W : Type} `{SPWorld W} `{RmeWorld W} (P : Platform).
Abbreviation S := (sp_state RmeTransmitStreamProcessor W).

(** An empty packet of the dry run and of the pauses of a stream. *)
Definition rme_empty_packet (p : packet) (ctr : Z) : run S (eChildReturnValue * packet) :=
  '(_, p) ← rtx_generateEmptyPacketHeader p ctr; rtx_generateEmptyPacketData p.

(** Before the first data packet an empty packet has the length of a data packet and zeroes in it; afterwards it is empty and the memory of the packet is left alone. *)
Theorem rme_empty_packet_content (s : S) p ctr (len : nat) : u32 (getFramesPerPacket (world s) * rtx_event_size (child s)) = Z.of_nat len -> (len <= length (p_data p))%nat ->
  exists p' s', rme_empty_packet p ctr s = Some ((eCRV_OK, p'), s') /\ streaming_has_run (child s') = streaming_has_run (child s) /\ length (p_data p') = length (p_data p)
    /\ if streaming_has_run (child s) then p_length p' = 0 /\ p_data p' = p_data p
       else p_length p' = Z.of_nat len /\ take len (p_data p') = replicate len 0.
Proof.
  intros E L. unfold rme_empty_packet, rtx_generateEmptyPacketHeader. destruct (streaming_has_run (child s)) eqn:R.
  - eexists _, _. split; [erewrite run_bind_Some; [|run_step; cbv beta; rewrite R; reflexivity]; reflexivity|]. done.
  - erewrite run_bind_Some; [|run_step; cbv beta; rewrite R; run_step; cbv beta; rewrite E; run_step; reflexivity].
    unfold rtx_generateEmptyPacketData, clear_packet, store_bytes. cbn [p_length p_data p_tag p_sy]. rewrite Nat2Z.id, length_replicate, decide_True by lia.
    destruct (Z.ltb_spec 0 (Z.of_nat len)); (eexists _, _; split; [reflexivity|]); cbn [p_length p_data sp child streaming_has_run].
    + rewrite length_inserts. split_and!; [done..|]. pose proof (packet_front (replicate len 0) (p_data p)) as F. rewrite length_replicate in F. auto.
    + by replace len with 0%nat by lia.
Qed.
End empty_packets.
